(* ===== verification/_CoqProject ===== *)
-Q . S2P
Prelude.v
JsString.v
JsNumber.v
Regex.v
JsValue.v
Uri.v
Locale.v
Types.v
ClassroomState.v
LiveSession.v
GradebookIntent.v
PaperLogic.v
PaperFacts.v
Countdown.v
HostAddress.v
SessionStore.v
SessionClient.v
MatchboxSession.v
TeacherSession.v
Outbox.v
HostTransport.v
Api.v
TeacherLive.v
QuizManager.v
Workspace.v
Quizzes.v
PaperLibrary.v
PaperExport.v
PaperHtml.v
PaperEditing.v
PaperDesk.v
FigurePicker.v
GradebookSheet.v
GradebookSync.v
PaperStudio.v
Script.v
StudentPages.v
StudentNotes.v
StudentCards.v
StudentApp.v
DocumentEditor.v
DocumentFiles.v
DocumentBridge.v
Updater.v
StudentLibrary.v
StudentShell.v
TeacherAttendance.v
TeacherAssignments.v
TeacherAccounts.v
TeacherClassroom.v
StudentRooms.v
HostConsole.v
HostPages.v
SheetActions.v
