(* ===== verification/Prelude.v ===== *)
(** * Cinder: a verification library for the TypeScript front ends

    Cinder is a classroom system for a local network.  A _Host_ (Rust, under
    [crates/] and [apps/host]) keeps accounts, classrooms and papers; the
    teacher app ([apps/teacher]) and the student app ([apps/forge]) are
    TypeScript programs that share [packages/ui]; an earlier student app
    ([apps/student]) is kept beside them.  This library models the logic of the
    apps and of the shared package.

    ** The parts and their files

    - [JsString], [JsNumber], [Regex], [JsValue], [Uri], [Locale]: the part of
      the language and its standard library the sources use.  A string is the
      list of its UTF-16 code units; a number is an exact rational, an infinity
      or NaN (the sources compute with integers and few decimals; rounding of
      binary floating point is not modelled); a regular expression is a syntax
      tree with a backtracking matcher; [JSON.parse] and [JSON.stringify] are
      executable, with their round trip.
    - [Types] (packages/ui/src/types.ts): the records that are exchanged.
    - [HostTransport] (packages/ui/src/hostTransport.ts, health.ts) and [Api]
      (packages/ui/src/api.ts): one request through the native side, every
      request of the client, and the routes of the Host that take them.
    - [SessionStore] (packages/ui/src/session.ts): the queue of storage
      operations, the native store and [localStorage].
    - [HostAddress] (apps/teacher/src/teacherSession.ts,
      apps/forge/src/matchboxConnection.ts): which addresses may be used.
    - [MatchboxSession] (apps/forge/src/matchboxSession.tsx): the student's
      session as a transition system whose events are the user's actions, the
      answers of the Host in any order, and the storage operations.
    - [Outbox] (packages/ui/src/cache.ts, StudentClassrooms.tsx): the offline
      store and handing work in; again a transition system.
    - [ClassroomState], [LiveSession] (apps/forge/src/classrooms): cache keys,
      the clock and the results of a live session, its controller.
    - [Countdown] (apps/forge/src/components): the timer.
    - [Workspace] (apps/forge/src/forgeData.ts): the student's notes.
    - [Quizzes] (apps/forge/src/classrooms/StudentQuizzes.tsx): a student's
      quiz and its chain of saves; a transition system.
    - [PaperLibrary] (apps/teacher/src/paperLibrary.ts): papers kept on the
      Host, and the move of those kept in the browser.
    - [PaperExport] (apps/teacher/src/paperExport.ts): the PDF of a paper, as
      the list of what is drawn on each page, in thousandths of a point.
    - [GradebookSheet] (UniverGradebook.tsx, GradebookView.tsx, teacherFiles.ts
      of apps/teacher/src): the workbook of a classroom and its export.
    - [GradebookSync] (UniverGradebook.tsx, GradebookView.tsx): how edits of
      grade cells reach the Host and come back; a transition system.
    - [SessionClient], [TeacherSession] (apps/teacher/src/App.tsx): the client
      objects both session gates share, and the session of the teacher: start,
      reconnecting, loading, signing in and out, changing the Host; a
      transition system.
    - [TeacherLive] (apps/teacher/src/LiveSessionControls.tsx): the teacher's
      page of a live session, polling the Host; a transition system whose
      requests are calls of [Api].
    - [QuizManager] (apps/teacher/src/QuizManager.tsx): the editor of quizzes,
      their deliveries and the marking of answers; a transition system whose
      requests are calls of [Api].
    - [PaperDesk] (PapersView of apps/teacher/src/PapersView.tsx): the library
      of papers, the open paper and its studio; a transition system.
    - [PaperHtml] (paperHtml of apps/teacher/src/PapersView.tsx): the exported
      documents of a paper.
    - [PaperEditing] (PapersView.tsx): the edits of a paper on the page, the
      record that is saved and what a studio reads back; a transition system.
    - [PaperStudio] (PapersView.tsx): the sources of a paper, the requests that
      make it, its publication and its conversion to a quiz.
    - [Script]: asynchronous handlers as values, their interleavings, and rules
      for one that runs alone and for an invariant at every await.
    - [StudentApp] (apps/student/src/App.tsx): the earlier student app's session,
      workspace and outbox; scripts over one shared state.
    - [StudentPages], [StudentNotes], [StudentCards] (apps/student/src/App.tsx):
      its lists and drafts (a transition system), its notes and its flashcards
      (scripts), and its forms.
    - [DocumentEditor] (apps/forge/src/studio/DocumentEditor.tsx): the editor of
      a note, its page settings and versions, find and replace, import and
      export; events and scripts over one state.
    - [DocumentFiles] (apps/forge/src/studio/documentFiles.ts): the files made
      of a document, from the tree of its HTML.
    - [StudentLibrary] (apps/forge/src/App.tsx, theme.tsx, studio/PdfPane.tsx):
      reference files, their store, and clearing everything; scripts.
    - [StudentShell] (apps/forge/src/App.tsx, components/Topbar.tsx): the pages
      of the student app, its search and its notes page.
    - [TeacherAttendance], [TeacherAssignments], [TeacherAccounts],
      [TeacherClassroom] (apps/teacher/src/App.tsx): the teacher's pages of a
      register, of assignments and their grades, of accounts and settings, and
      of classrooms with their students, teachers and materials; scripts that
      interleave.  A form has a number of its own, so that the answer to an
      earlier one cannot be taken for that of a later one, and the requests that
      were sent are kept beside what was on the page then.
    - [StudentRooms] (apps/forge/src/classrooms/StudentClassrooms.tsx): the
      student's pages over the data [Outbox] loads, and the effects that follow
      the task of the live session.
    - [HostConsole], [HostPages] (apps/host/src/App.tsx, AutoBackup.tsx): the
      window of the Host, its timer and commands, and its pages; scripts over
      one state.  What was typed into a prompt is part of the press.
    - [SheetActions] (apps/teacher/src/UniverGradebook.tsx): what the sheet
      offers the assistant, a reading of it, a preview and the application of
      actions, over one worksheet component.
    - [FigurePicker] (apps/teacher/src/FigurePicker.tsx): choosing a figure of a
      source page for a question; a transition system over drawn pages.
    - [DocumentBridge] (packages/ui/src/documentBridge.ts): what is done to a
      stored text before the editor converts it.
    - [Updater] (packages/ui/src/updater.tsx): the card of updates; a transition
      system whose events are the answers of the native updater.
    - [GradebookIntent] (apps/teacher/src/gradebookIntent.ts): the assistant of
      the Gradebook.
    - [PaperLogic] (apps/teacher/src/paperLogic.ts), with its theorems in
      [PaperFacts]: generated exam papers.

    A component's operations are Definitions with the names of the source.  A
    function that awaits is split at its awaits: [f_start] runs up to the
    request, [f_finish] (or the name of what is awaited) from its answer on,
    and the requests under way are part of the state, so every interleaving is
    a list of events.  In the earlier student app it is a [Script], which is cut
    at its awaits when it runs.

    ** What the theorems show

    - Safety of the session: a token reaches only the Host that answered the
      sign-in with it, or the address it was stored with while that address is
      accepted, and what is stored follows the account as long as clearing the
      store does not fail ([MatchboxSession], [TeacherSession]); accounts of a
      shared computer do not see or send each other's work ([ClassroomState],
      [Outbox]); plain HTTP stays on the local network ([HostAddress]).
    - Exactly what is sent: the flush of the outbox, handing in, one result per
      live session ([Outbox], [LiveSession]); every request of the client meets
      its route ([Api]); errors keep their meaning ([HostTransport], [Api]).
    - Nothing is lost: sessions, workspaces, timers, headers, addresses and
      frames survive writing and reading; legacy notes are all migrated.
    - Untrusted text stays within bounds: papers a model generates
      ([PaperFacts]) and requests typed into the assistant
      ([GradebookIntent]) yield only well-formed papers and permitted actions.
    - Exactly what is kept and sent: a quiz is handed in complete ([Quizzes]),
      one edit of a grade ends with page, sheet and Host in agreement
      ([GradebookSync]); the sheet, its export, a paper's row and the pages of
      its PDF are what they are made of, the question copy shows no answer, and
      what is drawn stays between the margins, the footer line apart
      ([GradebookSheet], [PaperLibrary], [PaperExport]).
    - A paper from request to class: what a model makes is the paper asked for
      ([PaperStudio]); edits keep it within bounds and saving and opening keep
      it as it is ([PaperEditing]); no text of it becomes markup
      ([PaperHtml]).
    - The earlier student app: its requests go to checked addresses, start-up
      settles on every branch, a load keeps what it does not send
      ([StudentApp]); typed text is kept until it is handed in
      ([StudentPages]), and a save of a note ends in one of three ways
      ([StudentNotes]).
    - The student's documents and files: nothing written in the editor is lost,
      its record reads back, find and replace touch only what they name
      ([DocumentEditor]); a Word copy has every text once, formatted as shown
      ([DocumentFiles]); the library lists exactly what is stored, and clearing
      is described on every branch ([StudentLibrary]); no page loses a note (only
      clearing everything, once confirmed, empties the workspace), and a search
      finds and opens the right ones ([StudentShell]).
    - The teacher's pages: attendance is saved for the classroom and the day
      that were shown ([TeacherAttendance]); an assignment is saved as it was,
      and a grade is published in one of the described ways
      ([TeacherAssignments]); requests about accounts are well formed
      ([TeacherAccounts]) and those about classrooms are ones the page may make
      ([TeacherClassroom]); the student's pages follow the task of the live
      session ([StudentRooms]).  The administration of the Host locks itself when
      neither a button nor a key is pressed for fifteen minutes, and its commands
      carry a token the Host handed out ([HostConsole]); nothing
      destructive is sent from its pages without the password, the confirmation
      and the stopped server it needs, and a restore ends as described on every
      branch ([HostPages]).  Prepared actions never reach the grades, and a
      preview leaves no trace ([SheetActions]).
    - The smaller parts: a figure that is attached was cut out of the page it
      names, as long as source and page are not changed while figures are looked
      for ([FigurePicker]); rewriting the lists of a stored text keeps its text
      ([DocumentBridge]); a check for updates asks at most twice and the bar stays
      between 0 and 100 ([Updater]).
    - A hypothesis of a theorem is stated in its comment too: a store that can
      be cleared, a dialog that stays in front, a clock that does not change near
      a date.  Where one fails, an example shows what the code then does.
    - Defects found while modelling are theorems too, each a concrete run or
      input: [newer_version_lost], [next_session_cannot_submit],
      [legacy_copy_survives_reset], [svg_check_bypassed],
      [repair_edits_strings], [legacy_drops_a_question],
      [quoting_engine_skips_recovery], [percent_past_the_maximum],
      [answer_to_wrong_attempt], [late_change_reverted],
      [overlapping_lists_duplicate], [spec_carries_answers],
      [long_prompt_leaves_page], [line_break_becomes_mark],
      [quick_second_edit_lost], [late_failure_hides_grade],
      [edit_while_writing_ignored], [untitled_column_dropped],
      [diagram_discards_edits], [reopening_rewrites_text],
      [fifty_first_question_lost], [failed_save_replaces_preview],
      [ninth_source_dropped], [outbox_crosses_accounts],
      [late_load_crosses_accounts], [newer_entry_dropped],
      [token_follows_connection], [signed_in_without_token],
      [expired_session_locks], [overdue_is_due_today],
      [typing_while_handing_in_lost], [refusal_is_silent],
      [next_note_cancels_save], [earlier_note_saved_under_next],
      [late_note_replaces_shown], [late_deck_replaces_shown],
      [image_shifts_selection], [replace_removes_image],
      [refused_import_drops_version], [long_title_loses_extension],
      [failed_clear_loses_files], [added_while_clearing_stays],
      [removed_legacy_file_stays], [same_result_does_not_open],
      [missing_blur_loses_title], [late_day_shown_under_next],
      [refresh_keeps_old_rows], [press_after_note_ignored],
      [marked_but_not_shown], [due_moves_at_clock_change],
      [empty_maximum_is_zero], [created_twice], [earlier_work_under_next],
      [back_is_undone], [publishing_closes_next_form],
      [closed_form_loses_code], [found_host_replaces_typed],
      [older_roster_shown], [enrolled_twice], [archive_fails_silently],
      [archive_closes_other], [leaving_loses_pin], [url_kept_after_leaving],
      [students_page_never_shown], [reload_follows_again],
      [opened_reported_failed], [message_not_shown],
      [joined_room_replaces_opened],
      [restart_failure_shows_running], [start_shown_as_stopped],
      [refresh_keeps_running], [lock_interrupts_restart],
      [folder_not_required], [setup_code_hidden], [cancelled_prompt_sends],
      [cancel_still_disables], [older_search_wins],
      [edit_reloads_old_search], [move_failure_silent], [late_preview_leaks],
      [unread_settings_overwritten], [zero_limit_removes],
      [reset_asks_typed_name], [saved_shown_as_failed], [size_1024_KB],
      [refused_cell_grows_sheet], [unheaded_column_overwritten],
      [long_title_adds_again], [formula_value_unverified],
      [failed_clear_signs_in_again], [quiz_behind_assignment],
      [footer_leaves_page], [handwritten_paper_lost],
      [figure_of_earlier_page], [whole_page_of_earlier], [page_past_the_end],
      [busy_for_good], [attached_to_no_question], [large_crop],
      [beside_items_lost], [install_text_dropped], [failed_progress_stays].

    ** Parameters, bounds and fuel

    What the apps get from elsewhere is a parameter: the clock and new
    identifiers are arguments; the answers of the Host and of the native side
    are events; the locale, the parser of dates, the local clock, the URL parser, the measures
    of the fonts and the spreadsheet component are classes ([Locale], [Dates],
    [LocalTime], [UrlParser], [Engine], [Spreadsheet], [Grid], [Quill], [Html], [Images]) with the documented
    laws the proofs use and an instance for the examples; the message of a JSON
    error is an argument.  Matchers and parsers that recurse over text take the length of
    the text as fuel, which is enough because each step consumes a character;
    the theorems about them state the result, never only its correctness when
    there is one.

    ** Not modelled

    What is drawn and how it looks (React elements, styles, icons, themes,
    editors, the drawing of PDF pages) and the Rust Host beyond its routes.
    What a live session is told of a hand-in is not part of [Outbox], and a
    press for a new student before the roster has come is not one of
    [TeacherClassroom].  The manifest lists the parts. *)

From Stdlib Require Export Lia ZifyBool ZifyN ZifyNat.
From stdpp Require Export base option numbers gmap list sorting.

(** ** JavaScript exceptions

    [throw new Error(m)] is the constructor [Throw m]; [try/catch] is
    [catch].  The message is kept because some callers test it. *)

Inductive outcome (E A : Type) : Type :=
  | Ok (a : A)
  | Throw (e : E).
Arguments Ok {E A} a.
Arguments Throw {E A} e.

#[export] Instance outcome_ret {E} : MRet (outcome E) := fun _ a => Ok a.
#[export] Instance outcome_bind {E} : MBind (outcome E) := fun _ _ f m =>
  match m with Ok a => f a | Throw e => Throw e end.
#[export] Instance outcome_fmap {E} : FMap (outcome E) := fun _ _ f m =>
  match m with Ok a => Ok (f a) | Throw e => Throw e end.

Definition catch {E E' A} (m : outcome E A) (h : E -> outcome E' A) : outcome E' A :=
  match m with Ok a => Ok a | Throw e => h e end.

Definition ok_or {E A} (m : outcome E A) (d : A) : A :=
  match m with Ok a => a | Throw _ => d end.

Definition of_option {E A} (e : E) (o : option A) : outcome E A :=
  match o with Some a => Ok a | None => Throw e end.

Lemma outcome_bind_ok {E A B} (m : outcome E A) (f : A -> outcome E B) b :
  m ≫= f = Ok b -> exists a, m = Ok a /\ f a = Ok b.
Proof. destruct m; simpl; [eauto | discriminate]. Qed.

(** ** Tactics of the development *)

(** Splits every boolean conjunction, disjunction and comparison that is a
    hypothesis into the proposition it decides. *)
Ltac bool_hyps :=
  repeat match goal with
  | H : _ && _ = true |- _ => apply andb_true_iff in H; destruct H
  | H : _ || _ = false |- _ => apply orb_false_iff in H; destruct H
  | H : negb _ = true |- _ => apply negb_true_iff in H
  | H : negb _ = false |- _ => apply negb_false_iff in H
  | H : N.leb _ _ = true |- _ => apply N.leb_le in H
  | H : N.leb _ _ = false |- _ => apply N.leb_gt in H
  | H : N.ltb _ _ = true |- _ => apply N.ltb_lt in H
  | H : N.ltb _ _ = false |- _ => apply N.ltb_ge in H
  | H : N.eqb _ _ = true |- _ => apply N.eqb_eq in H
  | H : N.eqb _ _ = false |- _ => apply N.eqb_neq in H
  | H : Z.leb _ _ = true |- _ => apply Z.leb_le in H
  | H : Z.leb _ _ = false |- _ => apply Z.leb_gt in H
  | H : Z.ltb _ _ = true |- _ => apply Z.ltb_lt in H
  | H : Z.ltb _ _ = false |- _ => apply Z.ltb_ge in H
  | H : Z.eqb _ _ = true |- _ => apply Z.eqb_eq in H
  | H : Z.eqb _ _ = false |- _ => apply Z.eqb_neq in H
  | H : Nat.leb _ _ = true |- _ => apply Nat.leb_le in H
  | H : Nat.leb _ _ = false |- _ => apply Nat.leb_gt in H
  | H : Nat.ltb _ _ = true |- _ => apply Nat.ltb_lt in H
  | H : Nat.ltb _ _ = false |- _ => apply Nat.ltb_ge in H
  | H : Nat.eqb _ _ = true |- _ => apply Nat.eqb_eq in H
  | H : Nat.eqb _ _ = false |- _ => apply Nat.eqb_neq in H
  | H : bool_decide _ = true |- _ => apply bool_decide_eq_true in H
  | H : bool_decide _ = false |- _ => apply bool_decide_eq_false in H
  end.

(** Case analysis on the scrutinee of a match in a hypothesis or the goal. *)
Ltac case_step :=
  match goal with
  | H : context [match ?x with _ => _ end] |- _ => destruct x eqn:?
  | |- context [match ?x with _ => _ end] => destruct x eqn:?
  end.
Ltac cases := repeat (case_step; simplify_eq/=).

(** ** Lists as the code uses them *)

Section lists.
Context {A B : Type}.

(** [takeWhile]/[dropWhile] in one pass. *)
Fixpoint span (p : A -> bool) (l : list A) : list A * list A :=
  match l with
  | [] => ([], [])
  | x :: l' => if p x then let '(a, b) := span p l' in (x :: a, b) else ([], l)
  end.

Definition drop_while (p : A -> bool) (l : list A) : list A := snd (span p l).
Definition take_while (p : A -> bool) (l : list A) : list A := fst (span p l).

(** [Array.prototype.find], [findIndex], [some], [every], [slice(0,n)],
    [flatMap] to at most one element. *)
Fixpoint find (p : A -> bool) (l : list A) : option A :=
  match l with [] => None | x :: l' => if p x then Some x else find p l' end.

Fixpoint find_index (p : A -> bool) (l : list A) : option nat :=
  match l with
  | [] => None
  | x :: l' => if p x then Some 0 else S <$> find_index p l'
  end.

Fixpoint filter_map (f : A -> option B) (l : list A) : list B :=
  match l with
  | [] => []
  | x :: l' => match f x with Some y => y :: filter_map f l' | None => filter_map f l' end
  end.

Lemma span_app p (l : list A) : fst (span p l) ++ snd (span p l) = l.
Proof.
  induction l as [|x l IH]; simpl; [done|].
  destruct (p x); [|done]. destruct (span p l); simpl in *. by rewrite IH.
Qed.

Lemma span_fst_all p (l : list A) : forallb p (fst (span p l)) = true.
Proof.
  induction l as [|x l IH]; simpl; [done|].
  destruct (p x) eqn:E; [|done]. destruct (span p l); simpl in *. by rewrite E, IH.
Qed.

Lemma span_snd_head p (l : list A) x r : snd (span p l) = x :: r -> p x = false.
Proof.
  revert x r. induction l as [|y l IH]; simpl; [done|]. intros x r.
  destruct (p y) eqn:E; [|by intros [= -> ->]].
  destruct (span p l) eqn:Es; simpl in *. apply IH.
Qed.

Lemma span_all p (l : list A) : forallb p l = true -> span p l = (l, []).
Proof.
  induction l as [|x l IH]; simpl; [done|]. intros [-> H]%andb_true_iff. by rewrite IH.
Qed.

Lemma span_none p (l : list A) :
  match l with x :: _ => p x = false | [] => True end -> span p l = ([], l).
Proof. destruct l; simpl; [done|]. by intros ->. Qed.

Lemma span_app_stop p (l r : list A) :
  forallb p l = true -> match r with x :: _ => p x = false | [] => True end ->
  span p (l ++ r) = (l, r).
Proof.
  induction l as [|x l IH]; simpl; [by intros _ H; apply span_none|].
  intros [-> H]%andb_true_iff Hr. by rewrite IH.
Qed.

Lemma length_drop_while p (l : list A) : length (drop_while p l) <= length l.
Proof.
  unfold drop_while. rewrite <- (span_app p l) at 2. rewrite length_app. lia.
Qed.

Lemma find_Some p (l : list A) x : find p l = Some x -> x ∈ l /\ p x = true.
Proof.
  induction l as [|y l IH]; simpl; [done|].
  destruct (p y) eqn:E; intros H; simplify_eq.
  - split; [left | done].
  - destruct (IH H). split; [by right | done].
Qed.

Lemma find_None p (l : list A) x : find p l = None -> x ∈ l -> p x = false.
Proof.
  induction l as [|y l IH]; simpl; [set_solver|].
  destruct (p y) eqn:E; [done|]. intros H [->|Hx]%elem_of_cons; auto.
Qed.

Lemma find_index_Some p (l : list A) i :
  find_index p l = Some i -> exists x, l !! i = Some x /\ p x = true.
Proof.
  revert i. induction l as [|y l IH]; simpl; [done|]. intros i.
  destruct (p y) eqn:E; [intros [= <-]; eauto|].
  destruct (find_index p l) as [j|]; simpl; [|done]. intros [= <-]. by apply IH.
Qed.

Lemma elem_of_filter_map (f : A -> option B) l y :
  y ∈ filter_map f l <-> exists x, x ∈ l /\ f x = Some y.
Proof.
  induction l as [|x l IH]; simpl.
  - split; [by intros ?%elem_of_nil | by intros (x & ?%elem_of_nil & _)].
  - transitivity (f x = Some y \/ exists x, x ∈ l /\ f x = Some y).
    + destruct (f x); rewrite ?elem_of_cons, IH; intuition congruence.
    + setoid_rewrite elem_of_cons. split.
      * intros [?|(z & ? & ?)]; eauto.
      * intros (z & [->|?] & ?); eauto.
Qed.

Lemma length_filter_map (f : A -> option B) l : length (filter_map f l) <= length l.
Proof. induction l as [|x l IH]; simpl; [done|]. destruct (f x); simpl; lia. Qed.

Lemma filter_map_Forall (P : B -> Prop) (f : A -> option B) l :
  (forall x y, x ∈ l -> f x = Some y -> P y) -> Forall P (filter_map f l).
Proof.
  intros H. apply Forall_forall. intros y [x [Hx Hy]]%elem_of_filter_map. eauto.
Qed.
End lists.

Lemma filter_map_ext {A B} (f g : A -> option B) l :
  (forall x, x ∈ l -> f x = g x) -> filter_map f l = filter_map g l.
Proof.
  induction l as [|x l IH]; simpl; intros H; [done|].
  rewrite H by set_solver. by rewrite IH by set_solver.
Qed.

Lemma filter_map_app {A B} (f : A -> option B) l l' : filter_map f (l ++ l') = filter_map f l ++ filter_map f l'.
Proof. induction l as [|x l IH]; cbn; [done|]. rewrite IH. by destruct (f x). Qed.
Lemma filter_map_map {A B C} (f : B -> option C) (g : A -> B) l :
  filter_map f (g <$> l) = filter_map (fun x => f (g x)) l.
Proof. induction l as [|x l IH]; csimpl; [done|]. by rewrite IH. Qed.

Lemma filter_map_perm {A B} (f : A -> option B) l l' : l ≡ₚ l' -> filter_map f l ≡ₚ filter_map f l'.
Proof.
  induction 1 as [|x l l' _ IH|x y l|l1 l2 l3 _ IH1 _ IH2]; cbn [filter_map]; [done| | |by rewrite IH1].
  - destruct (f x); [by rewrite IH|done].
  - destruct (f x), (f y); try done. constructor.
Qed.

Lemma forallb_Forall {A} (p : A -> bool) l :
  forallb p l = true <-> Forall (fun x => p x = true) l.
Proof.
  induction l as [|x l IH]; simpl; [done|].
  by rewrite andb_true_iff, Forall_cons, IH.
Qed.

Lemma forallb_take {A} (p : A -> bool) n l : forallb p l = true -> forallb p (take n l) = true.
Proof. rewrite !forallb_Forall. apply Forall_take. Qed.

Lemma forallb_rev {A} (p : A -> bool) l : forallb p (rev l) = forallb p l.
Proof.
  induction l as [|x l IH]; simpl; [done|].
  rewrite forallb_app, IH. simpl. by rewrite andb_true_r, andb_comm.
Qed.

(** [l[i]] for an integer index: [undefined] out of range. *)
Definition at_Z {A} (l : list A) (i : Z) : option A :=
  if Z.ltb i 0 then None else l !! Z.to_nat i.

(** [findIndex] with its [-1]. *)
Definition find_index_Z {A} (p : A -> bool) (l : list A) : Z :=
  match find_index p l with Some i => Z.of_nat i | None => (-1)%Z end.

Lemma at_Z_elem {A} (l : list A) i x : at_Z l i = Some x -> x ∈ l.
Proof.
  unfold at_Z. destruct (Z.ltb i 0); [done|]. apply list_elem_of_lookup_2.
Qed.

(** ** [Array.prototype.sort] with a comparator: stable *)

Section sort.
Context {A : Type} (cmp : A -> A -> Z).
Fixpoint insert_sorted (x : A) (l : list A) : list A :=
  match l with
  | [] => [x]
  | y :: l' => if Z.leb (cmp x y) 0 then x :: l else y :: insert_sorted x l'
  end.
Fixpoint sort_js (l : list A) : list A :=
  match l with [] => [] | x :: l' => insert_sorted x (sort_js l') end.

Lemma insert_sorted_perm x l : insert_sorted x l ≡ₚ x :: l.
Proof.
  induction l as [|y l IH]; simpl; [done|]. destruct (Z.leb _ _); [done|].
  rewrite IH. constructor.
Qed.
Lemma sort_js_perm l : sort_js l ≡ₚ l.
Proof. induction l as [|x l IH]; simpl; [done|]. by rewrite insert_sorted_perm, IH. Qed.

Context (trans : forall x y z, (cmp x y <= 0 -> cmp y z <= 0 -> cmp x z <= 0)%Z).
Context (total : forall x y, (cmp x y <= 0 \/ cmp y x <= 0)%Z).
Definition ordered (x y : A) : Prop := (cmp x y <= 0)%Z.

Lemma insert_sorted_sorted x l :
  StronglySorted ordered l -> StronglySorted ordered (insert_sorted x l).
Proof.
  induction 1 as [|y l Hl IH Hy]; simpl; [by repeat constructor|].
  destruct (Z.leb_spec (cmp x y) 0) as [Hxy|Hxy].
  - constructor; [by constructor|]. constructor; [done|].
    eapply Forall_impl; [exact Hy|]. intros z Hz. by eapply trans.
  - constructor; [done|]. rewrite insert_sorted_perm. constructor; [|done].
    destruct (total x y); [lia|done].
Qed.
Lemma sort_js_sorted l : StronglySorted ordered (sort_js l).
Proof. induction l; simpl; [constructor|]. by apply insert_sorted_sorted. Qed.
End sort.

Create HintDb cinder.
#[export] Hint Resolve find_Some find_None length_filter_map length_drop_while : cinder.
