(* ===== verification/JsString.v ===== *)
(** * JavaScript strings

    A JavaScript string is a sequence of UTF-16 code units: [jstr] is a list
    of [N] and [length], [slice] and indexing count code units, as the
    language does.  [js s] turns a source literal (UTF-8 in this file) into
    its code units.  The operations below are the ones the sources call:
    [trim], [split], [join], [slice], [includes], [startsWith], [indexOf],
    ASCII case conversion, and the white space set of [\s] and [trim]. *)

From Stdlib Require Import Ascii String.
From S2P Require Import Prelude.
Export String.StringSyntax.
Local Open Scope N_scope.

Abbreviation jstr := (list N).

(** ** Literals *)

Definition cp_to_utf16 (c : N) : jstr :=
  if c <? 0x10000 then [c]
  else [0xD800 + (c - 0x10000) / 0x400; 0xDC00 + (c - 0x10000) mod 0x400].

(** UTF-8 decoding of the literals of this development (well formed). *)
Fixpoint utf8_decode (s : string) : list N :=
  match s with
  | EmptyString => []
  | String a s1 =>
    let b0 := N_of_ascii a in
    if b0 <? 0x80 then b0 :: utf8_decode s1
    else match s1 with
    | EmptyString => [b0]
    | String a1 s2 =>
      let b1 := N_of_ascii a1 mod 0x40 in
      if b0 <? 0xE0 then ((b0 mod 0x20) * 0x40 + b1) :: utf8_decode s2
      else match s2 with
      | EmptyString => [b0]
      | String a2 s3 =>
        let b2 := N_of_ascii a2 mod 0x40 in
        if b0 <? 0xF0 then (((b0 mod 0x10) * 0x40 + b1) * 0x40 + b2) :: utf8_decode s3
        else match s3 with
        | EmptyString => [b0]
        | String a3 s4 =>
          let b3 := N_of_ascii a3 mod 0x40 in
          ((((b0 mod 0x08) * 0x40 + b1) * 0x40 + b2) * 0x40 + b3) :: utf8_decode s4
        end
      end
    end
  end.

Definition js (s : string) : jstr := flat_map cp_to_utf16 (utf8_decode s).
Arguments js : simpl never.

(** The double quote and the characters escapes write. *)
Definition c_quote : N := 34.
Definition c_nl : N := 10.
Definition c_cr : N := 13.
Definition c_tab : N := 9.
Definition c_bslash : N := 92.
Definition c_space : N := 32.
Definition s_quote : jstr := [c_quote].
Definition s_nl : jstr := [c_nl].

(** ** Character classes *)

Definition in_range (lo hi c : N) : bool := (lo <=? c) && (c <=? hi).
Definition is_digit : N -> bool := in_range 48 57.
Definition is_upper : N -> bool := in_range 65 90.
Definition is_lower : N -> bool := in_range 97 122.
Definition is_letter (c : N) : bool := is_upper c || is_lower c.
(** [\w] without the [u] and [i] flags together. *)
Definition is_word (c : N) : bool := is_letter c || is_digit c || (c =? 95).
(** The line terminators, which [.] does not match. *)
Definition is_eol (c : N) : bool :=
  (c =? 10) || (c =? 13) || (c =? 0x2028) || (c =? 0x2029).
(** [\s], and what [trim] removes: WhiteSpace and LineTerminator. *)
Definition is_space (c : N) : bool :=
  in_range 9 13 c || (c =? 32) || (c =? 0xA0) || (c =? 0x1680) ||
  in_range 0x2000 0x200A c || (c =? 0x2028) || (c =? 0x2029) || (c =? 0x202F) ||
  (c =? 0x205F) || (c =? 0x3000) || (c =? 0xFEFF).

Definition ascii_upper (c : N) : N := if is_lower c then c - 32 else c.
Definition ascii_lower (c : N) : N := if is_upper c then c + 32 else c.
Definition is_ascii (c : N) : bool := c <? 128.

Ltac char_lia :=
  unfold is_space, is_word, is_letter, is_digit, is_upper, is_lower, is_eol,
    in_range, is_ascii, ascii_upper, ascii_lower, c_quote, c_nl, c_cr, c_tab, c_bslash,
    c_space in *;
  lia.

(** ** Operations *)

Definition jlen (s : jstr) : Z := Z.of_nat (length s).

Definition trim_start (s : jstr) : jstr := drop_while is_space s.
Definition trim_end (s : jstr) : jstr := rev (drop_while is_space (rev s)).
Definition trim (s : jstr) : jstr := trim_end (trim_start s).

(** [s.slice(0, n)] with [0 <= n]. *)
Definition slice_to (n : nat) (s : jstr) : jstr := take n s.

Fixpoint starts_with (p s : jstr) : bool :=
  match p, s with
  | [], _ => true
  | a :: p', b :: s' => (a =? b) && starts_with p' s'
  | _ :: _, [] => false
  end.
Definition ends_with (p s : jstr) : bool := starts_with (rev p) (rev s).

(** [s.indexOf(p)], [None] for [-1]. *)
Fixpoint index_of (p s : jstr) : option nat :=
  if starts_with p s then Some 0%nat
  else match s with [] => None | _ :: s' => S <$> index_of p s' end.
Definition includes (p s : jstr) : bool :=
  match index_of p s with Some _ => true | None => false end.

(** [s.lastIndexOf(c)] for one character. *)
Fixpoint last_index_of (c : N) (s : jstr) : option nat :=
  match s with
  | [] => None
  | a :: s' => match last_index_of c s' with
               | Some i => Some (S i)
               | None => if a =? c then Some 0%nat else None
               end
  end.

(** [xs.join(sep)]. *)
Fixpoint join (sep : jstr) (xs : list jstr) : jstr :=
  match xs with
  | [] => []
  | [x] => x
  | x :: xs' => x ++ sep ++ join sep xs'
  end.

(** [s.split(c)] for a one-character separator: never the empty list. *)
Fixpoint split (c : N) (s : jstr) : list jstr :=
  match s with
  | [] => [[]]
  | a :: s' =>
    if a =? c then [] :: split c s'
    else match split c s' with
         | [] => [[a]]
         | x :: xs => (a :: x) :: xs
         end
  end.

(** [s.replace(/[set]/g, r)] for a set of single characters. *)
Definition replace_chars (p : N -> bool) (r : N -> jstr) (s : jstr) : jstr :=
  flat_map (fun c => if p c then r c else [c]) s.

(** [s.replace(/[set]+/g, r)]: every maximal run becomes one [r]. *)
Fixpoint replace_runs_from (p : N -> bool) (r : jstr) (inrun : bool) (s : jstr) : jstr :=
  match s with
  | [] => []
  | c :: s' =>
    if p c then (if inrun then [] else r) ++ replace_runs_from p r true s'
    else c :: replace_runs_from p r false s'
  end.
Definition replace_runs (p : N -> bool) (r : jstr) (s : jstr) : jstr :=
  replace_runs_from p r false s.

(** [cs.includes(c)] for a set of characters written as a string. *)
Definition one_of (cs : jstr) (c : N) : bool := existsb (N.eqb c) cs.

(** [s || d] and [Boolean(s)] on strings. *)
Definition truthy (s : jstr) : bool := match s with [] => false | _ => true end.
Definition or_str (s d : jstr) : jstr := if truthy s then s else d.
Definition seqb (a b : jstr) : bool := bool_decide (a = b).

(** ** Lemmas *)

Lemma seqb_eq a b : seqb a b = true <-> a = b.
Proof. apply bool_decide_eq_true. Qed.
Lemma seqb_refl a : seqb a a = true.
Proof. by apply seqb_eq. Qed.
Lemma seqb_neq a b : seqb a b = false <-> a <> b.
Proof. apply bool_decide_eq_false. Qed.

Lemma truthy_true s : truthy s = true <-> s <> [].
Proof. by destruct s. Qed.

Lemma starts_with_spec p s : starts_with p s = true <-> exists r, s = p ++ r.
Proof.
  revert s. induction p as [|a p IH]; intros s; simpl; [naive_solver|].
  destruct s as [|b s]; [split; [done | by intros (? & [=])]|].
  rewrite andb_true_iff, N.eqb_eq, IH. split.
  - intros [-> (r & ->)]. by exists r.
  - intros (r & [= -> ->]). eauto.
Qed.

Lemma starts_with_app p s : starts_with p (p ++ s) = true.
Proof. apply starts_with_spec. eauto. Qed.

Lemma index_of_Some p s i :
  index_of p s = Some i -> exists a b, s = a ++ p ++ b /\ length a = i.
Proof.
  revert i. induction s as [|c s IH]; intros i; cbn [index_of];
    destruct (starts_with p _) eqn:E.
  - apply starts_with_spec in E as [r ->]. intros [= <-]. by exists [], r.
  - done.
  - apply starts_with_spec in E as [r ->]. intros [= <-]. by exists [], r.
  - destruct (index_of p s) as [j|] eqn:Ej; [|done]. intros [= <-].
    destruct (IH j eq_refl) as (a & b & -> & <-). by exists (c :: a), b.
Qed.

Lemma index_of_None p s a b : index_of p s = None -> s <> a ++ p ++ b.
Proof.
  revert a. induction s as [|c s IH]; intros a; cbn [index_of];
    destruct (starts_with p _) eqn:E; try done.
  - intros _ Heq. destruct a; [|done]. simpl in Heq.
    by rewrite Heq, starts_with_app in E.
  - destruct (index_of p s) eqn:Ej; [done|]. intros _ Heq.
    destruct a as [|x a]; simpl in Heq.
    + by rewrite Heq, starts_with_app in E.
    + injection Heq as -> ->. by eapply (IH a).
Qed.

Lemma split_not_nil c s : split c s <> [].
Proof. destruct s as [|a s]; simpl; [done|]. destruct (a =? c); [done|]. by destruct (split c s). Qed.

Lemma join_split c s : join [c] (split c s) = s.
Proof.
  induction s as [|a s IH]; simpl; [done|].
  pose proof (split_not_nil c s) as Hn.
  destruct (N.eqb_spec a c) as [->|Hac]; simpl.
  - destruct (split c s); [done|]. by rewrite IH.
  - destruct (split c s) as [|x [|y ys]]; [done| |]; simpl in *; by rewrite IH.
Qed.

Lemma split_free c s : Forall (fun x => ~ c ∈ x) (split c s).
Proof.
  induction s as [|a s IH]; simpl.
  { constructor; [by apply not_elem_of_nil | done]. }
  destruct (N.eqb_spec a c) as [->|Hac]; [constructor; [apply not_elem_of_nil|done]|].
  assert (Ha : ~ c ∈ [a]) by (rewrite list_elem_of_singleton; congruence).
  destruct (split c s) as [|x xs]; [by repeat constructor|].
  apply Forall_cons in IH as [IHx IHxs]. constructor; [|done].
  rewrite elem_of_cons. intros [->|?]; [by apply Hac|done].
Qed.

Lemma split_none c s : ~ c ∈ s -> split c s = [s].
Proof.
  induction s as [|a s IH]; simpl; intros Hc; [done|].
  rewrite elem_of_cons in Hc. destruct (N.eqb_spec a c) as [->|]; [exfalso; auto|].
  by rewrite IH by auto.
Qed.
Lemma split_app c s t : ~ c ∈ s -> split c (s ++ c :: t) = s :: split c t.
Proof.
  induction s as [|a s IH]; simpl; intros Hc; [by rewrite N.eqb_refl|].
  rewrite elem_of_cons in Hc. destruct (N.eqb_spec a c) as [->|]; [exfalso; auto|].
  by rewrite IH by auto.
Qed.
Lemma split_join c xs : xs <> [] -> Forall (fun x => ~ c ∈ x) xs -> split c (join [c] xs) = xs.
Proof.
  induction xs as [|x xs IH]; [done|]. intros _ [Hx Hxs]%Forall_cons.
  destruct xs as [|y xs]; [by apply split_none|].
  change (join [c] (x :: y :: xs)) with (x ++ c :: join [c] (y :: xs)).
  by rewrite split_app, IH by done.
Qed.

Lemma forallb_drop_while (q p : N -> bool) s :
  forallb q s = true -> forallb q (drop_while p s) = true.
Proof.
  unfold drop_while. intros H. rewrite <- (span_app p s) in H.
  rewrite forallb_app in H. by apply andb_true_iff in H as [_ ?].
Qed.

Lemma forallb_trim (q : N -> bool) s : forallb q s = true -> forallb q (trim s) = true.
Proof.
  intros H. unfold trim, trim_end, trim_start. rewrite forallb_rev.
  apply forallb_drop_while. rewrite forallb_rev. by apply forallb_drop_while.
Qed.

Lemma length_trim s : (length (trim s) <= length s)%nat.
Proof.
  unfold trim, trim_end, trim_start. rewrite length_rev.
  etrans; [apply length_drop_while|]. rewrite length_rev. apply length_drop_while.
Qed.

(** A string with no white space at either end. *)
Definition trimmed (s : jstr) : Prop :=
  match s with c :: _ => is_space c = false | [] => True end /\
  match rev s with c :: _ => is_space c = false | [] => True end.

Lemma trimmed_trim s : trimmed s -> trim s = s.
Proof.
  intros [H1 H2]. unfold trim, trim_start, trim_end, drop_while.
  rewrite (span_none _ s) by done. simpl. rewrite span_none by done.
  apply rev_involutive.
Qed.

Lemma drop_while_head p (s : jstr) :
  match drop_while p s with c :: _ => p c = false | [] => True end.
Proof.
  unfold drop_while. destruct (snd (span p s)) eqn:E; [done|]. by eapply span_snd_head.
Qed.

Lemma drop_while_suffix p (s : jstr) : exists a, s = a ++ drop_while p s.
Proof. exists (fst (span p s)). symmetry. apply span_app. Qed.

Lemma trim_trimmed s : trimmed (trim s).
Proof.
  unfold trim, trim_end, trim_start. set (t := drop_while is_space s).
  split; [|rewrite rev_involutive; apply drop_while_head].
  destruct (drop_while_suffix is_space (rev t)) as [a Ha].
  assert (t = rev (drop_while is_space (rev t)) ++ rev a) as Ht.
  { by rewrite <- rev_app_distr, <- Ha, rev_involutive. }
  pose proof (drop_while_head is_space s) as Hh. fold t in Hh.
  destruct (rev (drop_while is_space (rev t))) eqn:E; [done|].
  rewrite Ht in Hh. simpl in Hh. exact Hh.
Qed.

Lemma trim_idemp s : trim (trim s) = trim s.
Proof. apply trimmed_trim, trim_trimmed. Qed.

Lemma forallb_trimmed p s :
  forallb p s = true -> (forall c, p c = true -> is_space c = false) -> trimmed s.
Proof.
  intros H Hp. split.
  - destruct s; [done|]. simpl in H. apply andb_true_iff in H as [? _]. auto.
  - rewrite <- forallb_rev in H. destruct (rev s); [done|]. simpl in H.
    apply andb_true_iff in H as [? _]. auto.
Qed.

Lemma replace_chars_none p r s :
  forallb (fun c => negb (p c)) s = true -> replace_chars p r s = s.
Proof.
  unfold replace_chars. induction s as [|c s IH]; simpl; [done|].
  intros [Hc Hs]%andb_true_iff. rewrite IH by done.
  apply negb_true_iff in Hc. by rewrite Hc.
Qed.

Lemma replace_chars_remove p s :
  replace_chars p (fun _ => []) s = List.filter (fun c => negb (p c)) s.
Proof.
  unfold replace_chars. induction s as [|c s IH]; simpl; [done|].
  rewrite IH. by destruct (p c).
Qed.

Lemma last_index_of_Some c s i : last_index_of c s = Some i -> s !! i = Some c.
Proof.
  revert i. induction s as [|a s IH]; simpl; [done|]. intros i.
  destruct (last_index_of c s) as [j|].
  - intros [= <-]. by apply IH.
  - destruct (N.eqb_spec a c) as [->|]; [by intros [= <-] | done].
Qed.

(** [failure instanceof Error ? failure.message : otherwise]. *)
Definition failure_text (text : option jstr) (otherwise : jstr) : jstr := default otherwise text.
