(* ===== verification/JsNumber.v ===== *)
(** * JavaScript numbers

    A number is [NaN], an infinity, or an exact rational ([Fin q]): the value
    a numeral denotes and the value an operation is specified to round.
    Rounding to binary64 and the sign of zero are not modelled; what the
    sources branch on is: [NaN], [Number.isFinite] (a numeral whose value
    overflows binary64 is [Infinity]), the order, [Math.round], [Math.ceil]
    and the conversions [Number(s)] and [String(n)]. *)

From Stdlib Require Import QArith Qround.
From S2P Require Import Prelude JsString.
Local Open Scope Z_scope.

Inductive jsnum : Type :=
  | NaN
  | Inf (neg : bool)
  | Fin (q : Q).

Definition num (z : Z) : jsnum := Fin (inject_Z z).

(** The smallest magnitude that rounds to [Infinity]. *)
Definition overflow : Q := inject_Z (2 ^ 1024 - 2 ^ 970).

Definition of_Q (q : Q) : jsnum :=
  if Qle_bool overflow q then Inf false
  else if Qle_bool q (- overflow) then Inf true
  else Fin (Qred q).

Definition is_finite (n : jsnum) : bool := match n with Fin _ => true | _ => false end.
Definition is_integer (n : jsnum) : bool :=
  match n with Fin q => Qeq_bool q (inject_Z (Qfloor q)) | _ => false end.

(** [a < b], [a <= b], [a === b]: false as soon as one side is [NaN]. *)
Definition num_lt (a b : jsnum) : bool :=
  match a, b with
  | Fin p, Fin q => negb (Qle_bool q p)
  | Inf true, Fin _ | Inf true, Inf false | Fin _, Inf false => true
  | _, _ => false
  end.
Definition num_eq (a b : jsnum) : bool :=
  match a, b with
  | Fin p, Fin q => Qeq_bool p q
  | Inf s, Inf t => Bool.eqb s t
  | _, _ => false
  end.
Definition num_le (a b : jsnum) : bool := num_lt a b || num_eq a b.

Definition num_mul (a b : jsnum) : jsnum :=
  match a, b with
  | Fin p, Fin q => of_Q (p * q)
  | NaN, _ | _, NaN => NaN
  | Inf s, Inf t => Inf (xorb s t)
  | Inf s, Fin q | Fin q, Inf s =>
    if Qeq_bool q 0 then NaN else Inf (xorb s (negb (Qle_bool 0 q)))
  end.

(** Division by a positive integer literal. *)
Definition num_div_lit (a : jsnum) (d : positive) : jsnum :=
  match a with Fin p => Fin (Qred (p / inject_Z (Zpos d))) | _ => a end.

(** [Math.round]: the nearest integer, ties towards plus infinity. *)
Definition Qround_js (q : Q) : Z := Qfloor (q + (1 # 2)).
Definition math_round (a : jsnum) : jsnum :=
  match a with Fin q => num (Qround_js q) | _ => a end.

(** ** [String(n)] *)

Fixpoint digits_fuel (fuel : nat) (n : N) (acc : jstr) : jstr :=
  match fuel with
  | O => acc
  | S f => let acc' := (48 + n mod 10)%N :: acc in
           if (n / 10 =? 0)%N then acc' else digits_fuel f (n / 10)%N acc'
  end.
(** The decimal digits of [n]; [N.size_nat n + 1] bounds their number. *)
Definition digits (n : N) : jstr := digits_fuel (S (N.size_nat n)) n [].

Definition show_Z (z : Z) : jstr :=
  match z with
  | Zneg p => 45%N :: digits (Npos p)
  | _ => digits (Z.to_N z)
  end.

(** The least [j <= fuel] for which [q * 10^j] is an integer. *)
Fixpoint decimals (fuel : nat) (q : Q) : nat :=
  match fuel with
  | O => O
  | S f => if Qeq_bool q (inject_Z (Qfloor q)) then O else S (decimals f (q * 10))
  end.

Fixpoint strip_zeros (fuel : nat) (s : Z) (e : nat) : Z * nat :=
  match fuel with
  | O => (s, e)
  | S f => if (s mod 10 =? 0) && negb (s =? 0) then strip_zeros f (s / 10) (S e) else (s, e)
  end.

(** Number::toString of the language for [q >= 0], with [s] the significant
    digits, [k] their count and [n] the position of the decimal point:
    [q = s * 10^(n-k)]. *)
Definition show_pos (q : Q) : jstr :=
  let j := decimals 340 q in
  let m := Qfloor (q * inject_Z (10 ^ Z.of_nat j)) in
  let '(s, e) := strip_zeros 400 m 0%nat in
  let ds := digits (Z.to_N s) in
  let k := Z.of_nat (length ds) in
  let n := (k + Z.of_nat e - Z.of_nat j) in
  let zeros i := repeat 48%N (Z.to_nat i) in
  if (m =? 0) then js "0"
  else if (k <=? n) && (n <=? 21) then ds ++ zeros (n - k)
  else if (0 <? n) && (n <=? 21) then take (Z.to_nat n) ds ++ js "." ++ drop (Z.to_nat n) ds
  else if (-6 <? n) && (n <=? 0) then js "0." ++ zeros (- n) ++ ds
  else
    let expo := js "e" ++ (if 0 <? n - 1 then js "+" else js "-") ++ digits (Z.to_N (Z.abs (n - 1))) in
    match ds with
    | [d] => d :: expo
    | d :: ds' => d :: js "." ++ ds' ++ expo
    | [] => []
    end.

Definition show_num (n : jsnum) : jstr :=
  match n with
  | NaN => js "NaN"
  | Inf false => js "Infinity"
  | Inf true => js "-Infinity"
  | Fin q => if Qle_bool 0 q then show_pos q else js "-" ++ show_pos (- q)
  end.

(** ** [Number(s)] *)

Definition digits_value (s : jstr) : Z :=
  fold_left (fun a c => a * 10 + (Z.of_N c - 48)) s 0.

Definition hex_digit (c : N) : option Z :=
  if is_digit c then Some (Z.of_N c - 48)
  else if in_range 97 102 c then Some (Z.of_N c - 87)
  else if in_range 65 70 c then Some (Z.of_N c - 55)
  else None.

Fixpoint radix_value (b acc : Z) (s : jstr) : option Z :=
  match s with
  | [] => Some acc
  | c :: s' => match hex_digit c with
               | Some d => if d <? b then radix_value b (acc * b + d) s' else None
               | None => None
               end
  end.

(** [10 ^ e] for a possibly negative [e]. *)
Definition pow10 (e : Z) : Q :=
  if 0 <=? e then inject_Z (10 ^ e) else / inject_Z (10 ^ (- e)).

(** The value of [ip.fp] times [10^e], with its sign. *)
Definition decimal_Q (ip fp : jstr) (e : Z) : Q :=
  (inject_Z (digits_value (ip ++ fp)) * pow10 (e - Z.of_nat (length fp)))%Q.
Definition of_decimal (neg : bool) (ip fp : jstr) (e : Z) : jsnum :=
  of_Q (if neg then - decimal_Q ip fp e else decimal_Q ip fp e)%Q.

(** The exponent part: nothing, or [e], a sign and at least one digit. *)
Definition parse_exponent (s : jstr) : option Z :=
  match s with
  | [] => Some 0
  | c :: s' =>
    if (c =? 101)%N || (c =? 69)%N then
      let '(sg, ds) := match s' with
        | [] => (1, s')
        | x :: r => if (x =? 45)%N then (-1, r) else if (x =? 43)%N then (1, r) else (1, s')
        end in
      if truthy ds && forallb is_digit ds then Some (sg * digits_value ds) else None
    else None
  end.

(** StrUnsignedDecimalLiteral: digits, a point, digits, an exponent. *)
Definition parse_unsigned (s : jstr) : option Q :=
  let '(ip, r) := span is_digit s in
  let '(fp, r') := match r with
                   | x :: r1 => if (x =? 46)%N then span is_digit r1 else ([], r)
                   | [] => ([], r)
                   end in
  if truthy ip || truthy fp then
    e ← parse_exponent r';
    Some (decimal_Q ip fp e)
  else None.

(** A literal after its optional sign. *)
Definition signed_literal (neg : bool) (u : jstr) : jsnum :=
  if seqb u (js "Infinity") then Inf neg
  else match parse_unsigned u with
       | Some q => of_Q (if neg then - q else q)
       | None => NaN
       end.

Definition radix_literal (b : Z) (u : jstr) : jsnum :=
  match u with
  | [] => NaN
  | _ => match radix_value b 0 u with Some z => of_Q (inject_Z z) | None => NaN end
  end.

Definition number_of_string (s : jstr) : jsnum :=
  match trim s with
  | [] => num 0
  | c :: u =>
    if (c =? 43)%N then signed_literal false u
    else if (c =? 45)%N then signed_literal true u
    else match u with
    | x :: u' =>
      if negb (c =? 48)%N then signed_literal false (c :: u)
      else if (x =? 120)%N || (x =? 88)%N then radix_literal 16 u'
      else if (x =? 111)%N || (x =? 79)%N then radix_literal 8 u'
      else if (x =? 98)%N || (x =? 66)%N then radix_literal 2 u'
      else signed_literal false (c :: u)
    | [] => signed_literal false (c :: u)
    end
  end.

(** ** Printing and reading integers *)

Lemma digits_fuel_app f n acc : digits_fuel f n acc = digits_fuel f n [] ++ acc.
Proof.
  revert n acc. induction f as [|f IH]; intros n acc; [done|]. cbn [digits_fuel].
  destruct (n / 10 =? 0)%N; [done|].
  rewrite (IH _ (_ :: acc)), (IH _ [_]). by rewrite <- app_assoc.
Qed.

Lemma digits_value_app s t :
  digits_value (s ++ t) = digits_value s * 10 ^ Z.of_nat (length t) + digits_value t.
Proof.
  unfold digits_value. rewrite fold_left_app. generalize (fold_left (fun a c => a * 10 + (Z.of_N c - 48)) s 0).
  induction t as [|c t IH] using rev_ind; intros a; [simpl; lia|].
  rewrite !fold_left_app, length_app. simpl. rewrite IH, Nat.add_1_r, Nat2Z.inj_succ, Z.pow_succ_r by lia. lia.
Qed.

Lemma digits_value_bound d k :
  forallb is_digit d = true -> (length d <= k)%nat -> 0 <= digits_value d < 10 ^ Z.of_nat k.
Proof.
  revert d. induction k as [|k IH]; intros d Hd Hl; [destruct d; simpl in Hl; [done|lia]|].
  destruct d as [|c d _] using rev_ind; [unfold digits_value; simpl; lia|].
  rewrite forallb_app in Hd. simpl in Hd. bool_hyps. rewrite length_app in Hl. simpl in Hl.
  specialize (IH d H ltac:(lia)). rewrite digits_value_app.
  change (10 ^ Z.of_nat (length [c])) with 10. change (digits_value [c]) with (0 * 10 + (Z.of_N c - 48)).
  rewrite Nat2Z.inj_succ, Z.pow_succ_r by lia. char_lia.
Qed.

Lemma size_nat_bound n : (n < 2 ^ N.of_nat (N.size_nat n))%N.
Proof.
  destruct n as [|p]; [done|]. simpl. induction p as [p IH|p IH|]; simpl Pos.size_nat;
    rewrite ?Nat2N.inj_succ, ?N.pow_succ_r'; lia.
Qed.

Lemma digits_fuel_ok f n :
  (n < 2 ^ N.of_nat f)%N ->
  let ds := digits_fuel (S f) n [] in
  forallb is_digit ds = true /\ ds <> [] /\ digits_value ds = Z.of_N n.
Proof.
  revert n. induction f as [|f IH]; intros n Hn ds.
  - assert (n = 0)%N as -> by (change (2 ^ N.of_nat 0)%N with 1%N in Hn; lia). done.
  - subst ds. set (g := S f) in *. cbn [digits_fuel]. subst g.
    assert (Hd : is_digit (48 + n mod 10)%N = true).
    { pose proof (N.mod_lt n 10 ltac:(done)). char_lia. }
    assert (Hdm : (n = 10 * (n / 10) + n mod 10)%N) by (apply N.div_mod'; done).
    destruct (N.eqb_spec (n / 10) 0) as [E|E].
    + cbn [forallb]. rewrite Hd. repeat split; [done|]. unfold digits_value. cbn [fold_left]. lia.
    + rewrite digits_fuel_app.
      destruct (IH (n / 10)%N) as (Ha & Hb & Hc).
      { rewrite Nat2N.inj_succ, N.pow_succ_r' in Hn. apply N.Div0.div_lt_upper_bound. lia. }
      rewrite forallb_app, Ha, digits_value_app, Hc. cbn [forallb]. rewrite Hd.
      repeat split; [by intros [? ?]%app_eq_nil|].
      unfold digits_value. cbn [fold_left length]. lia.
Qed.

Lemma digits_ok n :
  forallb is_digit (digits n) = true /\ digits n <> [] /\ digits_value (digits n) = Z.of_N n.
Proof. apply digits_fuel_ok, size_nat_bound. Qed.

Lemma digits_fuel_enough f g n :
  (n < 2 ^ N.of_nat f)%N -> (n < 2 ^ N.of_nat g)%N ->
  digits_fuel (S f) n [] = digits_fuel (S g) n [].
Proof.
  revert g n. induction f as [|f IH]; intros g n Hf Hg.
  - assert (n = 0)%N as -> by (change (2 ^ N.of_nat 0)%N with 1%N in Hf; lia). done.
  - destruct g as [|g].
    { assert (n = 0)%N as -> by (change (2 ^ N.of_nat 0)%N with 1%N in Hg; lia). done. }
    remember (S f) as f' eqn:Ef. remember (S g) as g' eqn:Eg. cbn [digits_fuel]. subst f' g'.
    destruct (N.eqb_spec (n / 10) 0) as [E|E]; [done|].
    rewrite (digits_fuel_app (S f)), (digits_fuel_app (S g)). f_equal.
    rewrite Nat2N.inj_succ, N.pow_succ_r' in Hf, Hg.
    apply IH; apply N.Div0.div_lt_upper_bound; lia.
Qed.

Lemma digits_step n : (10 <= n)%N -> digits n = digits (n / 10) ++ [(48 + n mod 10)%N].
Proof.
  intros Hn. unfold digits. pose proof (size_nat_bound n) as Hs.
  destruct (N.size_nat n) as [|f] eqn:Ef.
  { change (2 ^ N.of_nat 0)%N with 1%N in Hs. lia. }
  remember (S f) as f' eqn:E'. cbn [digits_fuel]. subst f'.
  assert (n / 10 <> 0)%N as Hq.
  { intros E. apply N.div_small_iff in E; lia. }
  apply N.eqb_neq in Hq. rewrite Hq, digits_fuel_app. f_equal.
  apply digits_fuel_enough; [|apply size_nat_bound].
  rewrite Nat2N.inj_succ, N.pow_succ_r' in Hs. apply N.Div0.div_lt_upper_bound. lia.
Qed.

Lemma digits_mul10 n k :
  (0 < n)%N -> digits (n * 10 ^ N.of_nat k) = digits n ++ repeat 48%N k.
Proof.
  intros Hn. induction k as [|k IH].
  { change (10 ^ N.of_nat 0)%N with 1%N. by rewrite N.mul_1_r, app_nil_r. }
  rewrite Nat2N.inj_succ, N.pow_succ_r'.
  replace (n * (10 * 10 ^ N.of_nat k))%N with (n * 10 ^ N.of_nat k * 10)%N by lia.
  assert (10 ^ N.of_nat k <> 0)%N by (apply N.pow_nonzero; done).
  rewrite digits_step by nia.
  rewrite N.div_mul, N.Div0.mod_mul, IH by done. rewrite <- app_assoc. f_equal.
  symmetry. apply (repeat_cons k 48%N).
Qed.

Lemma length_digits n k : (n < 10 ^ N.of_nat (S k))%N -> (length (digits n) <= S k)%nat.
Proof.
  revert n. induction k as [|k IH]; intros n Hn.
  - unfold digits. cbn [digits_fuel]. rewrite N.div_small by (simpl in Hn; lia). done.
  - destruct (N.lt_ge_cases n 10) as [Hs|Hs].
    + unfold digits. cbn [digits_fuel]. rewrite N.div_small by done. simpl. lia.
    + rewrite digits_step, length_app by done.
      rewrite Nat2N.inj_succ, N.pow_succ_r' in Hn.
      assert (length (digits (n / 10)) <= S k)%nat by (apply IH, N.Div0.div_lt_upper_bound; lia).
      simpl. lia.
Qed.

Lemma strip_zeros_ok f s e s' e' :
  strip_zeros f s e = (s', e') -> 0 <= s ->
  (e <= e')%nat /\ s = s' * 10 ^ Z.of_nat (e' - e) /\ 0 <= s'.
Proof.
  revert s e. induction f as [|f IH]; intros s e; simpl.
  - intros [= <- <-] ?. rewrite Nat.sub_diag. simpl. lia.
  - destruct (_ && _) eqn:E; [|intros [= <- <-] ?; rewrite Nat.sub_diag; simpl; lia].
    intros H Hs. bool_hyps. apply IH in H as (? & H & ?); [|by apply Z.div_pos].
    split; [lia|]. split; [|done].
    replace (e' - e)%nat with (S (e' - S e)) by lia.
    rewrite Nat2Z.inj_succ, Z.pow_succ_r by lia.
    pose proof (Z.div_mod s 10 ltac:(done)). lia.
Qed.

Lemma show_pos_Z z : 0 <= z < 10 ^ 21 -> show_pos (inject_Z z) = digits (Z.to_N z).
Proof.
  intros Hz. unfold show_pos.
  assert (Hd : decimals 340 (inject_Z z) = O).
  { cbn [decimals]. rewrite Qfloor_Z.
    assert (Qeq_bool (inject_Z z) (inject_Z z) = true) as -> by (apply Qeq_bool_iff; reflexivity).
    done. }
  rewrite Hd. change (10 ^ Z.of_nat 0) with 1.
  replace (Qfloor (inject_Z z * inject_Z 1)) with z.
  2:{ rewrite <- inject_Z_mult, Qfloor_Z. lia. }
  destruct (Z.eqb_spec z 0) as [->|Hnz]; [reflexivity|].
  destruct (strip_zeros 400 z 0) as [s e] eqn:E.
  apply strip_zeros_ok in E as (_ & E & Hs); [|lia]. rewrite Nat.sub_0_r in E.
  assert (0 < s) by nia.
  assert (Hds : digits (Z.to_N z) = digits (Z.to_N s) ++ repeat 48%N e).
  { rewrite <- digits_mul10 by lia. f_equal. rewrite E, Z2N.inj_mul, Z2N.inj_pow by lia.
    f_equal. f_equal. lia. }
  assert (Hlen : (length (digits (Z.to_N z)) <= 21)%nat).
  { apply length_digits. change (10 ^ N.of_nat 21)%N with (Z.to_N (10 ^ 21)). lia. }
  rewrite Hds, length_app, repeat_length in Hlen.
  cbn zeta. set (k := length (digits (Z.to_N s))) in *.
  replace ((Z.of_nat k <=? Z.of_nat k + Z.of_nat e - Z.of_nat 0) &&
           (Z.of_nat k + Z.of_nat e - Z.of_nat 0 <=? 21)) with true by lia.
  rewrite Hds. f_equal. f_equal. lia.
Qed.

Lemma show_num_Z z : Z.abs z < 10 ^ 21 -> show_num (num z) = show_Z z.
Proof.
  intros Hz. unfold show_num, num.
  destruct (Qle_bool 0 (inject_Z z)) eqn:E.
  - rewrite Qle_bool_iff in E. unfold Qle in E. simpl in E.
    rewrite show_pos_Z by lia. by destruct z; try lia.
  - assert (~ 0 <= z) as Hn.
    { intros H. apply not_true_iff_false in E. apply E, Qle_bool_iff.
      unfold Qle. simpl. lia. }
    change (- inject_Z z)%Q with (inject_Z (- z)).
    rewrite show_pos_Z by lia. destruct z; try lia. reflexivity.
Qed.

(** ** Reading an integer back *)

Lemma digits_trimmed s r : forallb is_digit s = true -> s <> [] ->
  match rev r with c :: _ => is_space c = false | [] => True end ->
  trim (s ++ r) = s ++ r.
Proof.
  intros Hs Hn Hr. apply trimmed_trim. split.
  - destruct s as [|c s]; [done|]. simpl in *. bool_hyps. char_lia.
  - rewrite rev_app_distr. destruct (rev r); [|done]. simpl.
    rewrite <- forallb_rev in Hs. destruct (rev s); [done|]. simpl in Hs. bool_hyps. char_lia.
Qed.

Lemma parse_unsigned_digits s :
  forallb is_digit s = true -> s <> [] ->
  parse_unsigned s = Some (decimal_Q s [] 0).
Proof.
  intros Hs Hn. unfold parse_unsigned. rewrite span_all by done. cbn [truthy orb].
  by destruct s.
Qed.

Lemma decimal_Q_Z s : decimal_Q s [] 0 == inject_Z (digits_value s).
Proof. unfold decimal_Q. rewrite app_nil_r. unfold pow10. simpl. apply Qmult_1_r. Qed.

Lemma Qred_Z z : Qred (inject_Z z) = inject_Z z.
Proof.
  unfold Qred, inject_Z. simpl.
  pose proof (Z.ggcd_correct_divisors z 1) as H. pose proof (Z.ggcd_gcd z 1) as Hg.
  destruct (Z.ggcd z 1) as [g [a b]]. simpl in *. rewrite Z.gcd_1_r in Hg. subst g.
  destruct H as [-> H2]. replace b with 1 by lia. simpl. by destruct a.
Qed.

Lemma of_Q_Z z : Z.abs z < 10 ^ 21 -> of_Q (inject_Z z) = num z.
Proof.
  intros Hz. unfold of_Q.
  assert (10 ^ 21 < 2 ^ 1024 - 2 ^ 970) as Hb by (vm_compute; reflexivity).
  unfold overflow. generalize dependent (2 ^ 1024 - 2 ^ 970). intros B Hb.
  replace (Qle_bool (inject_Z B) (inject_Z z)) with false.
  2:{ symmetry. apply not_true_iff_false. rewrite Qle_bool_iff. unfold Qle. simpl. lia. }
  replace (Qle_bool (inject_Z z) (- inject_Z B)) with false.
  2:{ symmetry. apply not_true_iff_false. rewrite Qle_bool_iff. unfold Qle. simpl. lia. }
  by rewrite Qred_Z.
Qed.

Lemma of_Q_Qeq p q : p == q -> of_Q p = of_Q q.
Proof.
  intros E. unfold of_Q. rewrite (Qred_complete _ _ E).
  assert (forall b, Qle_bool b p = Qle_bool b q) as Hl.
  { intros b. apply eq_iff_eq_true. rewrite !Qle_bool_iff. by rewrite E. }
  assert (forall b, Qle_bool p b = Qle_bool q b) as Hr.
  { intros b. apply eq_iff_eq_true. rewrite !Qle_bool_iff. by rewrite E. }
  by rewrite Hl, Hr.
Qed.

Lemma of_decimal_digits z :
  Z.abs z < 10 ^ 21 -> of_decimal (z <? 0) (digits (Z.abs_N z)) [] 0 = num z.
Proof.
  intros Hz. destruct (digits_ok (Z.abs_N z)) as (_ & _ & Hv).
  pose proof (decimal_Q_Z (digits (Z.abs_N z))) as E. rewrite Hv, N2Z.inj_abs_N in E.
  unfold of_decimal. rewrite <- (of_Q_Z z Hz). apply of_Q_Qeq.
  destruct (Z.ltb_spec z 0).
  - rewrite E. replace (Z.abs z) with (- z) by lia.
    unfold Qeq. simpl. lia.
  - rewrite E. by replace (Z.abs z) with z by lia.
Qed.

Lemma show_Z_digits z :
  show_Z z = if z <? 0 then 45%N :: digits (Z.abs_N z) else digits (Z.abs_N z).
Proof. by destruct z. Qed.

Lemma digits_no_leading_zero n :
  match digits n with [] => False | d :: ds => ((d =? 48)%N && truthy ds) = false end.
Proof.
  unfold digits. generalize (size_nat_bound n). generalize (N.size_nat n) as f.
  intros f. revert n. induction f as [|f IH]; intros n Hn.
  - assert (n = 0)%N as -> by (change (2 ^ N.of_nat 0)%N with 1%N in Hn; lia). done.
  - remember (S f) as f' eqn:E'. cbn [digits_fuel]. subst f'.
    destruct (N.eqb_spec (n / 10) 0) as [E|E]; [by rewrite andb_false_r|].
    rewrite digits_fuel_app, Nat2N.inj_succ, N.pow_succ_r' in *.
    assert (Hq : (n / 10 < 2 ^ N.of_nat f)%N) by (apply N.Div0.div_lt_upper_bound; lia).
    specialize (IH _ Hq). destruct (digits_fuel_ok f _ Hq) as (Ha & Hb & Hc).
    destruct (digits_fuel (S f) (n / 10) []) as [|d ds]; [done|]. simpl.
    destruct (N.eqb_spec d 48) as [->|]; [|done]. simpl in *.
    destruct ds; [|done]. unfold digits_value in Hc. simpl in Hc. lia.
Qed.

(** A numeral without leading zeros is the numeral of its value. *)
Lemma digits_of_value ds :
  forallb is_digit ds = true ->
  match ds with [] => False | d :: r => ((d =? 48)%N && truthy r) = false end ->
  digits (Z.to_N (digits_value ds)) = ds.
Proof.
  induction ds as [|c ds IH] using rev_ind; [done|]. intros Hd Hl.
  rewrite forallb_app in Hd. simpl in Hd. bool_hyps.
  rewrite digits_value_app. change (10 ^ Z.of_nat (length [c])) with 10.
  change (digits_value [c]) with (0 * 10 + (Z.of_N c - 48)).
  assert (Hc : (48 <= c <= 57)%N) by char_lia.
  assert (Hnn : forall l, forallb is_digit l = true -> 0 <= digits_value l).
  { clear. intros l. induction l as [|x l IH] using rev_ind; [done|].
    rewrite forallb_app. simpl. intros H. bool_hyps. rewrite digits_value_app.
    change (10 ^ Z.of_nat (length [x])) with 10.
    change (digits_value [x]) with (0 * 10 + (Z.of_N x - 48)). specialize (IH H). char_lia. }
  destruct ds as [|d ds].
  - unfold digits_value. simpl. assert (Hx : (Z.to_N (Z.of_N c - 48) < 10)%N) by lia.
    unfold digits. cbn [digits_fuel]. rewrite N.div_small by done. simpl.
    rewrite N.mod_small by done. f_equal. lia.
  - assert (Hd' : ((d =? 48)%N && truthy ds) = false).
    { simpl in Hl. destruct (N.eqb_spec d 48); [|done]. destruct ds; simpl in *; [done|done]. }
    specialize (IH H Hd'). specialize (Hnn _ H).
    assert (0 < digits_value (d :: ds)) as Hpos.
    { destruct (Z.eq_dec (digits_value (d :: ds)) 0) as [E|]; [|lia].
      rewrite E in IH. change (digits (Z.to_N 0)) with [48%N] in IH. injection IH as <- <-.
      simpl in Hl. done. }
    rewrite digits_step by lia.
    replace (Z.to_N (digits_value (d :: ds) * 10 + (0 * 10 + (Z.of_N c - 48))) / 10)%N
      with (Z.to_N (digits_value (d :: ds))).
    2:{ apply (N.div_unique _ _ _ (c - 48)); lia. }
    replace (Z.to_N (digits_value (d :: ds) * 10 + (0 * 10 + (Z.of_N c - 48))) mod 10)%N
      with (c - 48)%N.
    2:{ apply (N.mod_unique _ _ (Z.to_N (digits_value (d :: ds)))); lia. }
    rewrite IH. f_equal. f_equal. lia.
Qed.

Lemma number_of_digits n : (n < 10 ^ 21)%N -> number_of_string (digits n) = num (Z.of_N n).
Proof.
  intros Hn. destruct (digits_ok n) as (Hd & Hne & Hv).
  pose proof (digits_no_leading_zero n) as Hl.
  pose proof (digits_trimmed (digits n) [] Hd Hne I) as Ht. rewrite app_nil_r in Ht.
  assert (Hs : signed_literal false (digits n) = num (Z.of_N n)).
  { unfold signed_literal.
    assert (seqb (digits n) (js "Infinity") = false) as ->.
    { apply seqb_neq. intros E. rewrite E in Hd. by vm_compute in Hd. }
    rewrite parse_unsigned_digits by done. rewrite <- of_Q_Z by lia.
    apply of_Q_Qeq. by rewrite decimal_Q_Z, Hv. }
  unfold number_of_string. rewrite Ht.
  destruct (digits n) as [|c u]; [done|]. simpl in Hd. bool_hyps.
  assert ((c =? 43)%N = false) as -> by char_lia.
  assert ((c =? 45)%N = false) as -> by char_lia.
  destruct u as [|x u]; [done|]. simpl in Hl.
  destruct (N.eqb_spec c 48); done.
Qed.

(** A whole number is read back from its text. *)
Lemma number_of_shown z : (0 <= z < 10 ^ 21)%Z ->
  truthy (show_num (num z)) = true /\ number_of_string (show_num (num z)) = num z.
Proof.
  intros Hz. rewrite show_num_Z by lia.
  replace (show_Z z) with (digits (Z.to_N z)) by (destruct z; [done|done|lia]).
  rewrite number_of_digits by lia. rewrite Z2N.id by lia. split; [|done].
  destruct (digits_ok (Z.to_N z)) as (_ & Hd & _). by destruct (digits (Z.to_N z)).
Qed.

(** ** Comparison of integers *)

Lemma num_lt_Z a b : num_lt (num a) (num b) = (a <? b).
Proof.
  unfold num_lt, num. destruct (Qle_bool _ _) eqn:E; simpl; symmetry.
  - apply Qle_bool_iff in E. rewrite <- Zle_Qle in E. lia.
  - apply not_true_iff_false in E. rewrite Qle_bool_iff, <- Zle_Qle in E. lia.
Qed.
Lemma num_eq_Z a b : num_eq (num a) (num b) = (a =? b).
Proof.
  unfold num_eq, num. apply eq_true_iff_eq. rewrite Qeq_bool_iff, Z.eqb_eq.
  apply inject_Z_injective.
Qed.
Lemma num_le_Z a b : num_le (num a) (num b) = (a <=? b).
Proof. unfold num_le. rewrite num_lt_Z, num_eq_Z. lia. Qed.
Lemma is_integer_Z z : is_integer (num z) = true.
Proof. unfold is_integer, num. rewrite Qfloor_Z. by apply Qeq_bool_iff. Qed.

(** ** The characters of a printed number *)

Definition num_char (c : N) : bool := is_digit c || one_of (js "+-.eNaInfity") c.
Lemma digits_num_chars n : forallb num_char (digits n) = true.
Proof.
  apply forallb_forall. intros c Hc. destruct (digits_ok n) as [Hd _].
  rewrite forallb_forall in Hd. unfold num_char. by rewrite (Hd c Hc).
Qed.
Lemma zeros_chars k : forallb num_char (repeat 48%N k) = true.
Proof. induction k; [done|]. cbn [repeat forallb]. by rewrite IHk. Qed.
Lemma forallb_parts {A} (p : A -> bool) k l : forallb p l = true -> forallb p (take k l) = true /\ forallb p (drop k l) = true.
Proof. intros H. rewrite <- (take_drop k l), forallb_app in H. by apply andb_prop in H. Qed.
Lemma show_pos_chars q : forallb num_char (show_pos q) = true.
Proof.
  unfold show_pos. set (j := decimals 340 q). clearbody j. destruct (strip_zeros _ _ _) as [s e].
  pose proof (digits_num_chars (Z.to_N s)) as Hd. set (ds := digits _) in *. clearbody ds.
  set (n := _ - _). clearbody n.
  destruct (_ =? 0); [by vm_compute|].
  destruct (_ && _). { by rewrite forallb_app, Hd, zeros_chars. }
  destruct (_ && _).
  { destruct (forallb_parts _ (Z.to_nat n) _ Hd) as [H1 H2]. rewrite !forallb_app, H1, H2. by vm_compute. }
  destruct (_ && _). { rewrite !forallb_app, zeros_chars, Hd. by vm_compute. }
  set (expo := js "e" ++ _). assert (He : forallb num_char expo = true).
  { unfold expo. rewrite !forallb_app, digits_num_chars. by destruct (0 <? n - 1); vm_compute. }
  clearbody expo. destruct ds as [|d [|d' ds]]; [done|cbn [forallb] in *..].
  - apply andb_prop in Hd as [-> _]. done.
  - apply andb_prop in Hd as [-> Hd]. rewrite forallb_app. rewrite forallb_app. cbn [forallb]. rewrite He.
    cbn [forallb] in Hd. rewrite Hd. by vm_compute.
Qed.
Lemma show_num_chars n : forallb num_char (show_num n) = true.
Proof.
  destruct n as [|[]|q]; [by vm_compute..|]. cbn [show_num].
  destruct (Qle_bool 0 q); [apply show_pos_chars|]. rewrite forallb_app, show_pos_chars. by vm_compute.
Qed.
