(* ===== verification/Regex.v ===== *)
(** * ECMAScript regular expressions

    The backtracking matcher of the language, in continuation-passing style
    as its specification states it: alternatives are tried in order, greedy
    quantifiers try one more iteration first and lazy ones last, and an
    iteration of a star that consumes nothing is refused (which is why
    [length (after s)] iterations are enough fuel: [star_unfold]).  The
    sources' literals are written with these constructors, one for one.
    Groups that are captured are never under a star in the sources, so
    captures are not reset between iterations.  Patterns only mention
    ASCII letters, for which the [i] flag compares ASCII cases. *)

From S2P Require Import Prelude JsString.

Inductive re : Type :=
  | REps
  | RSet (p : N -> bool)
  | RSeq (a b : re)
  | RAlt (a b : re)
  | RStar (greedy : bool) (a : re)
  | ROpt (greedy : bool) (a : re)
  | RCap (i : nat) (a : re)
  | RBegin                      (** [^] *)
  | RBeginLine                  (** [^] with the [m] flag *)
  | REnd                        (** [$] *)
  | RWordB.                     (** [\b] *)

Record st : Type := St {
  rbefore : jstr;               (** what precedes the position, reversed *)
  after : jstr;                 (** what follows it *)
  caps : list (nat * jstr)      (** captures, the latest first *)
}.

Definition word_at (s : jstr) : bool :=
  match s with c :: _ => is_word c | [] => false end.

Definition capture (i : nat) (s s' : st) : st :=
  St (rbefore s') (after s')
     ((i, take (length (after s) - length (after s')) (after s)) :: caps s').

Definition step1 (c : N) (a : jstr) (s : st) : st := St (c :: rbefore s) a (caps s).

Definition orelse {A} (x y : option A) : option A :=
  match x with Some _ => x | None => y end.

(** The iterations of a star over the matcher [ma] of its body. *)
Fixpoint star_loop (ma : st -> (st -> option st) -> option st) (g : bool)
    (k : st -> option st) (n : nat) (s : st) : option st :=
  match n with
  | O => k s
  | S n' =>
    let more := ma s (fun s' =>
      if (length (after s') <? length (after s))%nat then star_loop ma g k n' s' else None) in
    if g then orelse more (k s) else orelse (k s) more
  end.

Fixpoint m (r : re) (s : st) (k : st -> option st) {struct r} : option st :=
  match r with
  | REps => k s
  | RSet p => match after s with
              | c :: a => if p c then k (step1 c a s) else None
              | [] => None
              end
  | RSeq a b => m a s (fun s' => m b s' k)
  | RAlt a b => orelse (m a s k) (m b s k)
  | RStar g a => star_loop (m a) g k (length (after s)) s
  | ROpt g a =>
    let once := m a s (fun s' =>
      if (length (after s') <? length (after s))%nat then k s' else None) in
    if g then orelse once (k s) else orelse (k s) once
  | RCap i a => m a s (fun s' => k (capture i s s'))
  | RBegin => match rbefore s with [] => k s | _ => None end
  | RBeginLine => match rbefore s with
                  | [] => k s
                  | c :: _ => if is_eol c then k s else None
                  end
  | REnd => match after s with [] => k s | _ => None end
  | RWordB => if xorb (word_at (rbefore s)) (word_at (after s)) then k s else None
  end.

(** ** The literals' shorthands *)

Definition chr (c : N) : re := RSet (N.eqb c).
(** A letter under the [i] flag. *)
Definition chr_i (c : N) : re := RSet (fun d => N.eqb (ascii_lower c) (ascii_lower d)).
Fixpoint lit (s : jstr) : re :=
  match s with [] => REps | [c] => chr c | c :: s' => RSeq (chr c) (lit s') end.
Fixpoint lit_i (s : jstr) : re :=
  match s with [] => REps | [c] => chr_i c | c :: s' => RSeq (chr_i c) (lit_i s') end.
Definition seqs (rs : list re) : re := foldr RSeq REps rs.
Fixpoint alts (rs : list re) : re :=
  match rs with [] => RSet (fun _ => false) | [r] => r | r :: rs' => RAlt r (alts rs') end.
Definition rplus (g : bool) (a : re) : re := RSeq a (RStar g a).
Fixpoint upto (n : nat) (a : re) : re :=
  match n with O => REps | S n' => ROpt true (RSeq a (upto n' a)) end.
Fixpoint times (n : nat) (a : re) : re :=
  match n with O => REps | S n' => RSeq a (times n' a) end.
(** [a{lo,hi}], greedy. *)
Definition between (lo hi : nat) (a : re) : re := RSeq (times lo a) (upto (hi - lo) a).

Definition r_space : re := RSet is_space.            (** [\s] *)
Definition r_spaces : re := RStar true r_space.      (** [\s*] *)
Definition r_spaces1 : re := rplus true r_space.     (** [\s+] *)
Definition r_digit : re := RSet is_digit.            (** [\d] *)
Definition r_dot : re := RSet (fun c => negb (is_eol c)).  (** [.] *)
(** [\d+(?:\.\d+)?] *)
Definition r_decimal : re :=
  RSeq (rplus true r_digit) (ROpt true (RSeq (chr 46) (rplus true r_digit))).

(** ** [exec], [test], [replace], [matchAll] *)

Definition start (s : jstr) : st := St [] s [].
Definition restart (s : st) : st := St (rbefore s) (after s) [].

(** The first position at or after [s] where [r] matches. *)
Fixpoint search (r : re) (fuel : nat) (s : st) : option (st * st) :=
  match m r s Some with
  | Some t => Some (s, t)
  | None =>
    match fuel, after s with
    | S f, c :: a => search r f (step1 c a s)
    | _, _ => None
    end
  end.

Definition find_match (r : re) (s : st) : option (st * st) :=
  search r (length (after s)) s.

Definition matched (s t : st) : jstr := take (length (after s) - length (after t)) (after s).
Definition group (i : nat) (t : st) : option jstr := snd <$> find (fun p => Nat.eqb (fst p) i) (caps t).

Definition exec (r : re) (x : jstr) : option (st * st) := find_match r (start x).
Definition test (r : re) (x : jstr) : bool := match exec r x with Some _ => true | None => false end.

(** All matches from [s] on; after an empty match the search moves one
    character on, as [replace] and [matchAll] do. *)
Fixpoint all_matches (r : re) (fuel : nat) (s : st) : list (st * st) :=
  match fuel with
  | O => []
  | S f =>
    match find_match r (restart s) with
    | None => []
    | Some (b, t) =>
      (b, t) :: (if (length (after t) <? length (after b))%nat then all_matches r f t
                 else match after t with
                      | c :: a => all_matches r f (step1 c a t)
                      | [] => []
                      end)
    end
  end.

(** [x.matchAll(r)] for a global [r]. *)
Definition match_all (r : re) (x : jstr) : list (st * st) := all_matches r (S (length x)) (start x).

(** [x.replace(r, f)] without and with the [g] flag. *)
Definition replace_first (r : re) (f : st -> st -> jstr) (x : jstr) : jstr :=
  match exec r x with
  | Some (b, t) => take (length x - length (after b)) x ++ f b t ++ after t
  | None => x
  end.

Fixpoint replace_from (r : re) (f : st -> st -> jstr) (fuel : nat) (s : st) : jstr :=
  match fuel with
  | O => after s
  | S fu =>
    match find_match r (restart s) with
    | None => after s
    | Some (b, t) =>
      take (length (after s) - length (after b)) (after s) ++ f b t ++
      (if (length (after t) <? length (after b))%nat then replace_from r f fu t
       else match after t with
            | c :: a => c :: replace_from r f fu (step1 c a t)
            | [] => []
            end)
    end
  end.
Definition replace_all (r : re) (f : st -> st -> jstr) (x : jstr) : jstr :=
  replace_from r f (S (length x)) (start x).
Definition const (w : jstr) : st -> st -> jstr := fun _ _ => w.

(** ** Declarative semantics *)

Inductive matches : re -> st -> st -> Prop :=
  | m_eps s : matches REps s s
  | m_set p s c a : after s = c :: a -> p c = true -> matches (RSet p) s (step1 c a s)
  | m_seq a b s t u : matches a s t -> matches b t u -> matches (RSeq a b) s u
  | m_alt_l a b s t : matches a s t -> matches (RAlt a b) s t
  | m_alt_r a b s t : matches b s t -> matches (RAlt a b) s t
  | m_star_nil g a s : matches (RStar g a) s s
  | m_star_cons g a s t u :
      matches a s t -> (length (after t) < length (after s))%nat ->
      matches (RStar g a) t u -> matches (RStar g a) s u
  | m_opt_nil g a s : matches (ROpt g a) s s
  | m_opt_one g a s t :
      matches a s t -> (length (after t) < length (after s))%nat -> matches (ROpt g a) s t
  | m_cap i a s t : matches a s t -> matches (RCap i a) s (capture i s t)
  | m_begin s : rbefore s = [] -> matches RBegin s s
  | m_begin_line s :
      match rbefore s with [] => True | c :: _ => is_eol c = true end -> matches RBeginLine s s
  | m_end s : after s = [] -> matches REnd s s
  | m_word s : xorb (word_at (rbefore s)) (word_at (after s)) = true -> matches RWordB s s.

Lemma orelse_Some {A} (x y : option A) t : orelse x y = Some t -> x = Some t \/ y = Some t.
Proof. destruct x; simpl; auto. Qed.
Lemma orelse_None {A} (x y : option A) : orelse x y = None <-> x = None /\ y = None.
Proof. destruct x; simpl; split; intros H; try done; by destruct H. Qed.

(** What the matcher returns is a match of the declarative semantics. *)
Lemma m_sound r s k t : m r s k = Some t -> exists s', matches r s s' /\ k s' = Some t.
Proof.
  revert s k t. induction r; intros s k t; cbn [m].
  - eauto using matches.
  - destruct (after s) eqn:E; [done|]. destruct (p n) eqn:Ep; [|done]. eauto using matches.
  - intros (u & Hu & (v & ? & ?)%IHr2)%IHr1. eauto using matches.
  - intros [(u & ? & ?)%IHr1|(u & ? & ?)%IHr2]%orelse_Some; eauto using matches.
  - generalize (length (after s)) as n. intros n. revert s.
    induction n as [|n IHn]; intros s; cbn [star_loop]; [eauto using matches|].
    set (more := m r s _).
    assert (Hm : more = Some t -> exists s', matches (RStar greedy r) s s' /\ k s' = Some t).
    { intros (u & Hu & Hk)%IHr.
      destruct (Nat.ltb_spec (length (after u)) (length (after s))); [|done].
      apply IHn in Hk as (v & ? & ?). eauto using matches. }
    destruct greedy; intros [H|H]%orelse_Some; eauto using matches.
  - assert (Hm : m r s (fun s' => if (length (after s') <? length (after s))%nat
                                  then k s' else None) = Some t ->
                 exists s', matches (ROpt greedy r) s s' /\ k s' = Some t).
    { intros (u & Hu & Hk)%IHr. destruct (Nat.ltb_spec (length (after u)) (length (after s))); [|done].
      eauto using matches. }
    destruct greedy; intros [H|H]%orelse_Some; eauto using matches.
  - intros (u & ? & ?)%IHr. eauto using matches.
  - destruct (rbefore s) eqn:E; [|done]. eauto using matches.
  - destruct (rbefore s) as [|c b] eqn:E; [|destruct (is_eol c) eqn:Ec; [|done]];
      intros; exists s; (split; [|done]); constructor; by rewrite E.
  - destruct (after s) eqn:E; [|done]. eauto using matches.
  - destruct (xorb _ _) eqn:E; [|done]. eauto using matches.
Qed.

Lemma star_loop_ext ma ma' g k k' n s :
  (forall s k k', (forall u, k u = k' u) -> ma s k = ma' s k') -> (forall u, k u = k' u) ->
  star_loop ma g k n s = star_loop ma' g k' n s.
Proof.
  intros Hma Hk. revert s. induction n as [|n IH]; intros s; cbn [star_loop]; [done|].
  rewrite Hk. erewrite Hma; [done|]. intros u. cbv beta. by rewrite IH.
Qed.

Lemma m_ext r s k k' : (forall u, k u = k' u) -> m r s k = m r s k'.
Proof.
  revert s k k'. induction r; intros s k k' Hk; cbn [m]; rewrite ?Hk; try done.
  - destruct (after s); [done|]. by rewrite Hk.
  - apply IHr1. intros u. by apply IHr2.
  - by rewrite (IHr1 s k k'), (IHr2 s k k').
  - by apply star_loop_ext.
  - by erewrite IHr; [|intros u; cbv beta; by rewrite Hk].
  - apply IHr. intros u. apply Hk.
Qed.

(** Any fuel above the length of the rest gives the same iterations. *)
Lemma star_loop_fuel a g k n s :
  (length (after s) <= n)%nat ->
  star_loop (m a) g k n s = star_loop (m a) g k (length (after s)) s.
Proof.
  remember (length (after s)) as l eqn:Hl. revert n s Hl.
  induction l as [l IH] using lt_wf_ind. intros n s Hl Hn.
  destruct n as [|n]; [by replace l with 0%nat by lia|].
  destruct l as [|l]; cbn [star_loop].
  - replace (m a s _) with (@None st); [by destruct g; simpl; destruct (k s)|].
    symmetry. erewrite m_ext; [|intros u; rewrite <- Hl; simpl; reflexivity].
    destruct (m a s (fun _ => None)) eqn:E; [|done]. by apply m_sound in E as (? & _ & ?).
  - erewrite m_ext; [reflexivity|]. intros u. cbv beta.
    destruct (Nat.ltb_spec (length (after u)) (length (after s))); [|done].
    rewrite (IH (length (after u))) by lia. symmetry. apply IH; lia.
Qed.

(** One unfolding of a star, without fuel. *)
Lemma star_unfold g a s k :
  let more := m a s (fun s' =>
    if (length (after s') <? length (after s))%nat then m (RStar g a) s' k else None) in
  m (RStar g a) s k = if g then orelse more (k s) else orelse (k s) more.
Proof.
  intros more. cbn [m]. rewrite <- (star_loop_fuel a g k (S (length (after s)))) by lia.
  cbn [star_loop].
  rewrite (m_ext a s _ (fun s' => if (length (after s') <? length (after s))%nat
                                  then m (RStar g a) s' k else None)); [done|].
  intros u. cbn [m]. cbv beta. destruct (Nat.ltb_spec (length (after u)) (length (after s))); [|done].
  apply star_loop_fuel. lia.
Qed.

(** The matcher finds a match whenever there is one whose continuation
    succeeds: the fuel of a star never cuts a match short. *)
Lemma m_complete r s s' k : matches r s s' -> k s' <> None -> m r s k <> None.
Proof.
  intros H. revert k. induction H; intros k Hk.
  all: try (cbn [m]; done).
  - cbn [m]. by rewrite H, H0.
  - cbn [m]. apply IHmatches1. by apply IHmatches2.
  - cbn [m]. rewrite orelse_None. intros [? _]. by eapply IHmatches.
  - cbn [m]. rewrite orelse_None. intros [_ ?]. by eapply IHmatches.
  - rewrite star_unfold. destruct g; cbn zeta; rewrite orelse_None; intros []; done.
  - rewrite star_unfold. set (more := m a s _).
    assert (more <> None).
    { apply IHmatches1. apply Nat.ltb_lt in H0. rewrite H0. by apply IHmatches2. }
    destruct g; cbn zeta; rewrite orelse_None; intros []; done.
  - cbn [m]. destruct g; rewrite orelse_None; intros []; done.
  - cbn [m]. set (more := m a s _).
    assert (more <> None).
    { apply IHmatches. apply Nat.ltb_lt in H0. by rewrite H0. }
    destruct g; rewrite orelse_None; intros []; done.
  - cbn [m]. by apply IHmatches.
  - cbn [m]. by rewrite H.
  - cbn [m]. destruct (rbefore s); [done|]. by rewrite H.
  - cbn [m]. by rewrite H.
  - cbn [m]. by rewrite H.
Qed.

(** ** What a match consumes *)

(** [s'] is [s] after consuming [w]. *)
Definition moved (w : jstr) (s s' : st) : Prop :=
  after s = w ++ after s' /\ rbefore s' = rev w ++ rbefore s.

Lemma moved_nil s : moved [] s s.
Proof. done. Qed.
Lemma moved_app w v s t u : moved w s t -> moved v t u -> moved (w ++ v) s u.
Proof.
  intros [H1 H2] [H3 H4]. split.
  - by rewrite H1, H3, app_assoc.
  - by rewrite H4, H2, rev_app_distr, app_assoc.
Qed.
Lemma moved_step1 s c a : after s = c :: a -> moved [c] s (step1 c a s).
Proof. done. Qed.

Lemma matches_moved r s t : matches r s t -> exists w, moved w s t.
Proof.
  induction 1; try (exists []; by apply moved_nil).
  - exists [c]. by apply moved_step1.
  - destruct IHmatches1, IHmatches2. eauto using moved_app.
  - done.
  - done.
  - destruct IHmatches1, IHmatches2. eauto using moved_app.
  - done.
  - done.
Qed.

Lemma moved_matched w s t : moved w s t -> matched s t = w.
Proof.
  intros [H _]. unfold matched. rewrite H, length_app, Nat.add_sub. apply take_app_length.
Qed.

Lemma moved_text w s t :
  moved w s t -> take (length (after s) - length (after t)) (after s) = w.
Proof. apply moved_matched. Qed.

Lemma moved_length w s t : moved w s t -> length (after s) = (length w + length (after t))%nat.
Proof. intros [-> _]. apply length_app. Qed.

(** Inversion of the composite constructors, in terms of consumed text. *)
Lemma matches_seq r1 r2 s u :
  matches (RSeq r1 r2) s u -> exists t, matches r1 s t /\ matches r2 t u.
Proof. inversion 1; subst; eauto. Qed.

Lemma matches_alt a b s t : matches (RAlt a b) s t -> matches a s t \/ matches b s t.
Proof. inversion 1; subst; auto. Qed.
Lemma matches_opt g a s t : matches (ROpt g a) s t -> t = s \/ matches a s t.
Proof. inversion 1; subst; auto. Qed.

Lemma matches_set p s t :
  matches (RSet p) s t -> exists c, moved [c] s t /\ p c = true /\ caps t = caps s.
Proof. inversion 1; subst. eauto using moved_step1. Qed.

Lemma matches_star_set g p s t :
  matches (RStar g (RSet p)) s t ->
  exists w, moved w s t /\ forallb p w = true /\ caps t = caps s.
Proof.
  remember (RStar g (RSet p)) as r eqn:Hr. intros H. revert Hr.
  induction H; intros Hr; try discriminate.
  - exists []. auto using moved_nil.
  - injection Hr as -> ->. destruct IHmatches2 as (w & ? & ? & Hc); [done|].
    apply matches_set in H as (c & ? & Hp & Hc'). exists ([c] ++ w).
    split; [by eapply moved_app|]. simpl. rewrite Hp. split; [done|congruence].
Qed.

Lemma matches_times_set n p s t :
  matches (times n (RSet p)) s t ->
  exists w, moved w s t /\ forallb p w = true /\ length w = n /\ caps t = caps s.
Proof.
  revert s. induction n as [|n IH]; simpl; intros s H.
  - inversion H; subst. exists []. auto using moved_nil.
  - apply matches_seq in H as (u & (c & ? & Hp & ?)%matches_set & (w & ? & ? & ? & ?)%IH).
    exists ([c] ++ w). split; [by eapply moved_app|]. simpl. rewrite Hp.
    repeat split; [done|lia|congruence].
Qed.

Lemma matches_upto_set n p s t :
  matches (upto n (RSet p)) s t ->
  exists w, moved w s t /\ forallb p w = true /\ (length w <= n)%nat /\ caps t = caps s.
Proof.
  revert s. induction n as [|n IH]; simpl; intros s H.
  - inversion H; subst. exists []. auto using moved_nil.
  - inversion H as [| | | | | | |? ? ?|? ? ? ? Hs| | | | |]; subst;
      [exists []; simpl; auto using moved_nil with lia|].
    apply matches_seq in Hs as (u & (c & ? & Hp & ?)%matches_set & (w & ? & ? & ? & ?)%IH).
    exists ([c] ++ w). split; [by eapply moved_app|]. simpl. rewrite Hp.
    repeat split; [done|lia|congruence].
Qed.

Lemma matches_between_set lo hi p s t :
  (lo <= hi)%nat -> matches (between lo hi (RSet p)) s t ->
  exists w, moved w s t /\ forallb p w = true /\ (lo <= length w <= hi)%nat /\ caps t = caps s.
Proof.
  unfold between. intros Hle (u & (w & ? & Hw & ? & ?)%matches_times_set
    & (v & ? & Hv & ? & ?)%matches_upto_set)%matches_seq.
  exists (w ++ v). split; [by eapply moved_app|]. rewrite forallb_app, Hw, Hv, length_app.
  repeat split; [lia|lia|congruence].
Qed.

Lemma matches_cap i r s t :
  matches (RCap i r) s t ->
  exists u w, matches r s u /\ moved w s u /\ moved w s t /\ caps t = (i, w) :: caps u.
Proof.
  inversion 1 as [| | | | | | | | |? ? ? u Hu| | | |]; subst.
  destruct (matches_moved _ _ _ Hu) as [w Hw].
  exists u, w. repeat split; try apply Hw; [done|]. cbn. by rewrite (moved_text _ _ _ Hw).
Qed.

Lemma matches_lit w s t : matches (lit w) s t -> moved w s t /\ caps t = caps s.
Proof.
  revert s. induction w as [|c w IH]; intros s H.
  - inversion H; subst. auto using moved_nil.
  - destruct w as [|d w].
    + apply matches_set in H as (x & Hx & Hc & ?). apply N.eqb_eq in Hc as ->. done.
    + change (lit (c :: d :: w)) with (RSeq (chr c) (lit (d :: w))) in H.
      apply matches_seq in H as (u & (x & Hx & Hc & ?)%matches_set & [Hw ?]%IH).
      apply N.eqb_eq in Hc as <-. split; [|congruence]. change (c :: d :: w) with ([c] ++ d :: w).
      by eapply moved_app.
Qed.
Lemma matches_lit_i w s t : matches (lit_i w) s t ->
  exists v, moved v s t /\ ascii_lower <$> v = ascii_lower <$> w /\ caps t = caps s.
Proof.
  revert s. induction w as [|c w IH]; intros s H.
  - inversion H; subst. exists []. auto using moved_nil.
  - destruct w as [|d w].
    + apply matches_set in H as (x & Hx & Hc & ?). apply N.eqb_eq in Hc. exists [x]. csimpl. by rewrite Hc.
    + change (lit_i (c :: d :: w)) with (RSeq (chr_i c) (lit_i (d :: w))) in H.
      apply matches_seq in H as (u & (x & Hx & Hc & ?)%matches_set & (v & Hv & Hl & ?)%IH).
      apply N.eqb_eq in Hc. exists ([x] ++ v). split; [by eapply moved_app|]. split; [|congruence].
      csimpl. rewrite Hc, Hl. done.
Qed.

Lemma matches_begin s t : matches RBegin s t -> t = s /\ rbefore s = [].
Proof. by inversion 1. Qed.
Lemma matches_end s t : matches REnd s t -> t = s /\ after s = [].
Proof. by inversion 1. Qed.

(** What a capture holds was matched by the body of its group. *)
Fixpoint cap_bodies (r : re) : list (nat * re) :=
  match r with
  | RSeq a b | RAlt a b => cap_bodies a ++ cap_bodies b
  | RStar _ a | ROpt _ a => cap_bodies a
  | RCap i a => (i, a) :: cap_bodies a
  | _ => []
  end.

Definition captured (r : re) (i : nat) (w : jstr) : Prop :=
  exists a u v, (i, a) ∈ cap_bodies r /\ matches a u v /\ moved w u v.

Lemma matches_captures r s t i w :
  matches r s t -> (i, w) ∈ caps t -> (i, w) ∈ caps s \/ captured r i w.
Proof.
  assert (Hmono : forall a b, (forall x, x ∈ cap_bodies a -> x ∈ cap_bodies b) -> captured a i w -> captured b i w).
  { intros a b Hab (x & u & v & ? & ? & ?). exists x, u, v. auto. }
  induction 1; auto.
  - intros Hin. destruct (IHmatches2 Hin) as [Hin'|Hc]; [destruct (IHmatches1 Hin') as [?|Hc]; [by left|]|];
      right; (eapply Hmono; [|exact Hc]); intros x Hx; cbn [cap_bodies]; apply elem_of_app; auto.
  - intros Hin. destruct (IHmatches Hin) as [?|Hc]; [by left|]. right. eapply Hmono; [|exact Hc].
    intros x Hx. cbn [cap_bodies]. apply elem_of_app. by left.
  - intros Hin. destruct (IHmatches Hin) as [?|Hc]; [by left|]. right. eapply Hmono; [|exact Hc].
    intros x Hx. cbn [cap_bodies]. apply elem_of_app. by right.
  - intros Hin. destruct (IHmatches2 Hin) as [Hin'|Hc]; [|by right]. destruct (IHmatches1 Hin') as [?|Hc]; [by left|].
    right. by eapply Hmono; [|exact Hc].
  - cbn [capture caps]. intros [E|Hin]%elem_of_cons.
    + injection E as -> ->. right. destruct (matches_moved _ _ _ H) as [w' Hw'].
      exists a, s, t. split; [left|]. split; [done|]. by rewrite (moved_text _ _ _ Hw').
    + destruct (IHmatches Hin) as [?|Hc]; [by left|]. right. eapply Hmono; [|exact Hc].
      intros x Hx. cbn [cap_bodies]. by right.
Qed.

Lemma group_elem i t w : group i t = Some w -> (i, w) ∈ caps t.
Proof.
  unfold group. destruct (find _ _) as [[j v]|] eqn:E; [|done]. intros [= <-].
  apply find_Some in E as [Hin Hj]. by apply Nat.eqb_eq in Hj as <-.
Qed.

(** ** Building a match *)

(** [s] after [w], when what follows [w] is [a]. *)
Definition advance (w a : jstr) (s : st) : st := St (rev w ++ rbefore s) a (caps s).

Lemma advance_nil s : advance [] (after s) s = s.
Proof. by destruct s. Qed.
Lemma advance_moved w a s : after s = w ++ a -> moved w s (advance w a s).
Proof. done. Qed.
Lemma advance_cons c w a s :
  advance w a (step1 c (w ++ a) s) = advance (c :: w) a s.
Proof. unfold advance, step1. simpl. by rewrite <- app_assoc. Qed.

Lemma build_set p c a s : after s = c :: a -> p c = true -> matches (RSet p) s (advance [c] a s).
Proof. intros. by apply m_set. Qed.

Lemma build_times n p w a s :
  after s = w ++ a -> forallb p w = true -> length w = n ->
  matches (times n (RSet p)) s (advance w a s).
Proof.
  revert w s. induction n as [|n IH]; intros [|c w] s Ha Hp Hn; simpl in *; try done.
  - rewrite <- Ha, advance_nil. constructor.
  - bool_hyps. econstructor; [by apply m_set|].
    rewrite <- advance_cons. apply IH; [done|done|lia].
Qed.

Lemma build_upto n p w a s :
  after s = w ++ a -> forallb p w = true -> (length w <= n)%nat ->
  matches (upto n (RSet p)) s (advance w a s).
Proof.
  revert w s. induction n as [|n IH]; intros [|c w] s Ha Hp Hn; simpl in *; try done.
  - rewrite <- Ha, advance_nil. constructor.
  - lia.
  - rewrite <- Ha, advance_nil. constructor.
  - bool_hyps. apply m_opt_one.
    + econstructor; [by apply m_set|]. rewrite <- advance_cons. apply IH; [done|done|lia].
    + cbn. rewrite Ha. simpl. rewrite length_app. lia.
Qed.

Lemma build_between lo hi p w a s :
  after s = w ++ a -> forallb p w = true -> (lo <= length w <= hi)%nat ->
  matches (between lo hi (RSet p)) s (advance w a s).
Proof.
  intros Ha Hp Hl. rewrite <- (take_drop lo w) in *. rewrite forallb_app in Hp. bool_hyps.
  rewrite length_app, length_take, length_drop in Hl. rewrite <- app_assoc in Ha.
  econstructor; [apply build_times; [exact Ha|done|rewrite length_take; lia]|].
  replace (advance (take lo w ++ drop lo w) a s)
    with (advance (drop lo w) a (advance (take lo w) (drop lo w ++ a) s)).
  2:{ unfold advance. cbn. by rewrite rev_app_distr, app_assoc. }
  apply build_upto; [done|done|rewrite length_drop; lia].
Qed.

Lemma build_star g p w a s :
  after s = w ++ a -> forallb p w = true -> matches (RStar g (RSet p)) s (advance w a s).
Proof.
  revert s. induction w as [|c w IH]; intros s Ha Hp; simpl in *.
  - rewrite <- Ha, advance_nil. constructor.
  - bool_hyps. eapply m_star_cons; [by apply m_set| |].
    + cbn. rewrite Ha. simpl. lia.
    + rewrite <- advance_cons. by apply IH.
Qed.

Lemma build_lit w a s : after s = w ++ a -> matches (lit w) s (advance w a s).
Proof.
  revert s. induction w as [|c w IH]; intros s Ha; simpl in Ha.
  - rewrite <- Ha, advance_nil. constructor.
  - destruct w as [|d w].
    + apply build_set; [done|apply N.eqb_refl].
    + cbn [lit]. eapply m_seq; [by apply m_set; [|apply N.eqb_refl]|].
      rewrite <- advance_cons. by apply IH.
Qed.

Lemma build_lit_i w a s : after s = w ++ a -> matches (lit_i w) s (advance w a s).
Proof.
  revert s. induction w as [|c w IH]; intros s Ha; simpl in Ha.
  - rewrite <- Ha, advance_nil. constructor.
  - destruct w as [|d w].
    + apply build_set; [done|apply N.eqb_refl].
    + cbn [lit_i]. eapply m_seq; [by apply m_set; [|apply N.eqb_refl]|].
      rewrite <- advance_cons. by apply IH.
Qed.

(** ** Running the matcher forwards

    The matcher returns the first match of the priority order.  These lemmas
    follow it through a class, a greedy star that stops where its class
    stops, and a lazy star that goes on exactly as long as the rest fails. *)

Lemma advance_app w v a s : advance v a (advance w (v ++ a) s) = advance (w ++ v) a s.
Proof. unfold advance. simpl. by rewrite rev_app_distr, app_assoc. Qed.

Lemma m_set_run p c a s k : after s = c :: a -> p c = true -> m (RSet p) s k = k (advance [c] a s).
Proof. intros Ha Hp. cbn [m]. rewrite Ha, Hp. done. Qed.

Lemma m_eps_run s k : m REps s k = k s.
Proof. done. Qed.
Lemma m_seq_run a b s k : m (RSeq a b) s k = m a s (fun s' => m b s' k).
Proof. done. Qed.
Lemma m_cap_run i a s k : m (RCap i a) s k = m a s (fun s' => k (capture i s s')).
Proof. done. Qed.
Lemma m_begin_run s k : rbefore s = [] -> m RBegin s k = k s.
Proof. intros H. cbn [m]. by rewrite H. Qed.
Lemma m_end_run s k : after s = [] -> m REnd s k = k s.
Proof. intros H. cbn [m]. by rewrite H. Qed.
Lemma m_opt_take a s k t :
  m a s (fun s' => if (length (after s') <? length (after s))%nat then k s' else None) = Some t ->
  m (ROpt true a) s k = Some t.
Proof. cbn [m]. by intros ->. Qed.
Lemma m_opt_skip a s k k' :
  (forall k, m a s k = None) -> k s = k' -> m (ROpt true a) s k = k'.
Proof. intros Ha <-. cbn [m]. by rewrite Ha. Qed.
Lemma m_set_fail p s k : match after s with c :: _ => p c = false | [] => True end -> m (RSet p) s k = None.
Proof. cbn [m]. destruct (after s); [done|]. by intros ->. Qed.

Lemma m_lit_run w a s k : after s = w ++ a -> m (lit w) s k = k (advance w a s).
Proof.
  revert s. induction w as [|c w IH]; intros s Ha; simpl in Ha.
  - cbn [lit m]. by rewrite <- Ha, advance_nil.
  - destruct w as [|d w]; [by apply m_set_run; [|apply N.eqb_refl]|].
    change (lit (c :: d :: w)) with (RSeq (chr c) (lit (d :: w))). rewrite m_seq_run. unfold chr. rewrite (m_set_run _ c (d :: w ++ a)) by (done || apply N.eqb_refl).
    rewrite (IH (advance [c] (d :: w ++ a) s)) by done. f_equal.
    unfold advance. simpl. by rewrite <- !app_assoc.
Qed.
Lemma m_lit_i_run w a s k : after s = w ++ a -> m (lit_i w) s k = k (advance w a s).
Proof.
  revert s. induction w as [|c w IH]; intros s Ha; simpl in Ha.
  - cbn [lit_i m]. by rewrite <- Ha, advance_nil.
  - destruct w as [|d w]; [by apply m_set_run; [|apply N.eqb_refl]|].
    change (lit_i (c :: d :: w)) with (RSeq (chr_i c) (lit_i (d :: w))). rewrite m_seq_run. unfold chr_i. rewrite (m_set_run _ c (d :: w ++ a)) by (done || apply N.eqb_refl).
    rewrite (IH (advance [c] (d :: w ++ a) s)) by done. f_equal.
    unfold advance. simpl. by rewrite <- !app_assoc.
Qed.

Lemma m_greedy_star p w a s k t :
  after s = w ++ a -> forallb p w = true -> match a with c :: _ => p c = false | [] => True end ->
  k (advance w a s) = Some t -> m (RStar true (RSet p)) s k = Some t.
Proof.
  revert s. induction w as [|c w IH]; intros s Ha Hp Hstop Hk; rewrite star_unfold; cbn zeta; cbn [m].
  - simpl in Ha. rewrite Ha. rewrite <- Ha, advance_nil in Hk. destruct a as [|c a].
    + done.
    + by rewrite Hstop.
  - simpl in Ha, Hp. bool_hyps. rewrite Ha. simpl in H. rewrite H. cbn [after step1].
    replace (length (w ++ a) <? length (c :: w ++ a))%nat with true by (simpl; symmetry; apply Nat.ltb_lt; lia).
    rewrite <- advance_cons in Hk.
    pose proof (IH (step1 c (w ++ a) s) eq_refl H0 Hstop Hk) as HH. cbn [m] in HH. cbn [after step1] in HH.
    unfold step1 in *. by rewrite HH.
Qed.

Lemma m_lazy_star p w a s k t :
  after s = w ++ a -> forallb p w = true ->
  (forall w1 w2, w = w1 ++ w2 -> w2 <> [] -> k (advance w1 (w2 ++ a) s) = None) ->
  k (advance w a s) = Some t -> m (RStar false (RSet p)) s k = Some t.
Proof.
  revert s. induction w as [|c w IH]; intros s Ha Hp Hfail Hk; rewrite star_unfold; cbn zeta.
  - simpl in Ha. rewrite <- Ha, advance_nil in Hk. by rewrite Hk.
  - pose proof (Hfail [] (c :: w) eq_refl ltac:(done)) as H0. rewrite <- Ha, advance_nil in H0.
    rewrite H0. cbn [orelse]. simpl in Ha, Hp. bool_hyps.
    rewrite (m_set_run _ c (w ++ a)) by done. cbn [after advance]. rewrite Ha.
    replace (length (w ++ a) <? length (c :: w ++ a))%nat with true by (simpl; symmetry; apply Nat.ltb_lt; lia).
    change (advance [c] (w ++ a) s) with (step1 c (w ++ a) s). apply IH; [done|done| |].
    + intros w1 w2 -> Hw2. rewrite <- app_assoc, advance_cons. by apply (Hfail (c :: w1)).
    + by rewrite advance_cons.
Qed.

(** Every class of [r] satisfies [P]. *)
Fixpoint all_sets (P : (N -> bool) -> bool) (r : re) : bool :=
  match r with
  | RSet p => P p
  | RSeq a b | RAlt a b => all_sets P a && all_sets P b
  | RStar _ a | ROpt _ a | RCap _ a => all_sets P a
  | _ => true
  end.

(** A character no class of [r] accepts is never consumed. *)
Lemma matches_avoids c r s t :
  matches r s t -> all_sets (fun p => negb (p c)) r = true ->
  exists w, moved w s t /\ forallb (fun x => negb (x =? c)%N) w = true.
Proof.
  assert (Hnil : forall s : st, exists w, moved w s s /\ forallb (fun x => negb (x =? c)%N) w = true)
    by (intros u; exists []; auto using moved_nil).
  induction 1; cbn [all_sets]; intros Hr; bool_hyps; try done; auto.
  - exists [c0]. split; [by apply moved_step1|]. simpl. destruct (N.eqb_spec c0 c) as [->|]; [|done].
    by rewrite H0 in Hr.
  - destruct IHmatches1 as (w1 & ? & ?), IHmatches2 as (w2 & ? & ?); [done..|].
    exists (w1 ++ w2). split; [by eapply moved_app|]. rewrite forallb_app. by apply andb_true_iff.
  - destruct IHmatches1 as (w1 & ? & ?), IHmatches2 as (w2 & ? & ?); [done..|].
    exists (w1 ++ w2). split; [by eapply moved_app|]. rewrite forallb_app. by apply andb_true_iff.
Qed.

(** A match of [r] stops at the end of the text. *)
Fixpoint to_end (r : re) : bool :=
  match r with
  | REnd => true
  | RSeq a REps => to_end a
  | RSeq _ b => to_end b
  | RCap _ a => to_end a
  | RAlt a b => to_end a && to_end b
  | _ => false
  end.

Lemma to_end_seq a b : to_end (RSeq a b) = true -> to_end b = true \/ (b = REps /\ to_end a = true).
Proof. destruct b; auto. Qed.

Lemma matches_to_end r s t : matches r s t -> to_end r = true -> after t = [].
Proof.
  induction 1; intros Hr; try done.
  - apply to_end_seq in Hr as [?|[-> ?]]; [auto|]. inversion H0; subst. auto.
  - simpl in Hr. bool_hyps. auto.
  - simpl in Hr. bool_hyps. auto.
  - auto.
Qed.

(** An expression that must reach the end fails where a character it never
    consumes is still ahead. *)
Lemma m_avoids_None c r s k :
  all_sets (fun p => negb (p c)) r = true -> to_end r = true -> c ∈ after s -> m r s k = None.
Proof.
  intros Hr Hend Hc. destruct (m r s k) as [t|] eqn:E; [|done]. exfalso.
  apply m_sound in E as (u & Hm & _). destruct (matches_avoids _ _ _ _ Hm Hr) as (w & [Hw _] & Hf).
  rewrite (matches_to_end _ _ _ Hm Hend), app_nil_r in Hw. rewrite Hw in Hc.
  apply forallb_Forall in Hf. rewrite Forall_forall in Hf. apply Hf in Hc.
  by rewrite N.eqb_refl in Hc.
Qed.

(** ** [exec] *)

Lemma exec_start r x t : m r (start x) Some = Some t -> exec r x = Some (start x, t).
Proof. intros H. unfold exec, find_match. destruct (length (after (start x))); simpl; by rewrite H. Qed.

Lemma search_sound r fuel s b t :
  search r fuel s = Some (b, t) ->
  matches r b t /\ exists w, moved w s b /\ caps b = caps s.
Proof.
  revert s. induction fuel as [|f IH]; intros s; simpl;
    destruct (m r s Some) eqn:E; intros H; simplify_eq.
  - apply m_sound in E as (? & ? & [= ->]). split; [done|]. exists []. auto using moved_nil.
  - apply m_sound in E as (? & ? & [= ->]). split; [done|]. exists []. auto using moved_nil.
  - destruct (after s) as [|c a] eqn:Ea; [done|].
    apply IH in H as (? & w & ? & ?). split; [done|]. exists ([c] ++ w).
    split; [|done]. eapply moved_app; [by apply moved_step1|done].
Qed.

Lemma exec_sound r x b t :
  exec r x = Some (b, t) ->
  matches r b t /\ exists w, x = w ++ after b /\ rbefore b = rev w /\ caps b = [].
Proof.
  intros (? & w & [H1 H2] & ?)%search_sound. split; [done|]. exists w.
  cbn in *. by rewrite app_nil_r in H2.
Qed.

Lemma search_complete r fuel s w b t :
  moved w s b -> caps b = caps s -> (length w <= fuel)%nat -> matches r b t ->
  search r fuel s <> None.
Proof.
  revert s w. induction fuel as [|f IH]; intros s w Hw Hc Hl Hm.
  - destruct w; [|simpl in Hl; lia]. destruct Hw as [H1 H2]. simpl in H1, H2.
    assert (b = s) as -> by (destruct b, s; simpl in *; congruence). simpl.
    destruct (m r s Some) eqn:E; [done|]. by eapply m_complete in E.
  - simpl. destruct (m r s Some) eqn:E; [done|]. destruct w as [|c w].
    + destruct Hw as [H1 H2]. simpl in H1, H2.
      assert (b = s) as -> by (destruct b, s; simpl in *; congruence).
      by eapply m_complete in E.
    + destruct Hw as [H1 H2]. simpl in H1. rewrite H1.
      eapply (IH _ w); [|done|simpl in Hl; lia|done]. split; [done|].
      simpl in *. by rewrite <- app_assoc in H2.
Qed.

(** A group of what [exec] returns holds a text of its body. *)
Lemma exec_group r x b t i w : exec r x = Some (b, t) -> group i t = Some w -> captured r i w.
Proof.
  intros (Hm & _ & _ & _ & Hc)%exec_sound Hg%group_elem.
  destruct (matches_captures _ _ _ _ _ Hm Hg) as [Hin|?]; [|done].
  rewrite Hc in Hin. by apply elem_of_nil in Hin.
Qed.

Lemma replace_all_none r f x : exec r x = None -> replace_all r f x = x.
Proof. intros H. unfold replace_all. cbn [replace_from]. unfold exec in H.
  change (restart (start x)) with (start x). by rewrite H. Qed.

(** An anchored match is found by [exec]. *)
Lemma exec_complete r x t : matches r (start x) t -> exec r x <> None.
Proof. intros H. by eapply (search_complete _ _ _ []); [apply moved_nil| |simpl; lia|]. Qed.

Lemma test_spec r x : test r x = true <-> exists b t, exec r x = Some (b, t).
Proof. unfold test. destruct (exec r x) as [[b t]|]; split; try done; [eauto|by intros (? & ? & ?)]. Qed.

#[export] Hint Constructors matches : cinder.
#[export] Hint Resolve moved_nil moved_app moved_step1 : cinder.
