(* ===== verification/JsValue.v ===== *)
(** * JavaScript values, [JSON.parse] and [JSON.stringify]

    [jsval] is what the sources call [unknown]: the plain data that comes
    out of [JSON.parse], a server response or a store.  An object is the
    list of its properties in insertion order ([set_prop] keeps one entry
    per key).  [parse_json] is the grammar of the language's [JSON.parse]
    ([None] is its SyntaxError), [stringify] its [JSON.stringify] without
    indentation; [parse_stringify] is their round trip. *)

From S2P Require Import Prelude JsString JsNumber.

Inductive jsval : Type :=
  | VUndef
  | VNull
  | VBool (b : bool)
  | VNum (n : jsnum)
  | VStr (s : jstr)
  | VArr (xs : list jsval)
  | VObj (ps : list (jstr * jsval)).

(** Induction that reaches into arrays and objects. *)
Section jsval_rect.
Context (P : jsval -> Prop).
Context (Hu : P VUndef) (Hn : P VNull) (Hb : forall b, P (VBool b))
  (Hi : forall n, P (VNum n)) (Hs : forall s, P (VStr s))
  (Ha : forall xs, Forall P xs -> P (VArr xs))
  (Ho : forall ps, Forall (fun p => P (snd p)) ps -> P (VObj ps)).
Fixpoint jsval_ind' (v : jsval) : P v :=
  match v with
  | VUndef => Hu
  | VNull => Hn
  | VBool b => Hb b
  | VNum n => Hi n
  | VStr s => Hs s
  | VArr xs => Ha xs ((fix go xs := match xs return Forall P xs with
      | [] => Forall_nil_2 _
      | x :: xs' => Forall_cons_2 _ _ _ (jsval_ind' x) (go xs')
      end) xs)
  | VObj ps => Ho ps ((fix go ps := match ps return Forall (fun p => P (snd p)) ps with
      | [] => Forall_nil_2 _
      | p :: ps' => Forall_cons_2 _ _ _ (jsval_ind' (snd p)) (go ps')
      end) ps)
  end.
End jsval_rect.

(** ** Properties *)

Fixpoint assoc {A} (k : jstr) (ps : list (jstr * A)) : option A :=
  match ps with
  | [] => None
  | (k', v) :: ps' => if seqb k' k then Some v else assoc k ps'
  end.

(** [v.k]: [undefined] when there is no such property. *)
Definition get (k : jstr) (v : jsval) : jsval :=
  match v with VObj ps => default VUndef (assoc k ps) | _ => VUndef end.

Fixpoint set_prop {A} (k : jstr) (v : A) (ps : list (jstr * A)) : list (jstr * A) :=
  match ps with
  | [] => [(k, v)]
  | (k', v') :: ps' => if seqb k' k then (k', v) :: ps' else (k', v') :: set_prop k v ps'
  end.

(** [a ?? b]. *)
Definition coalesce (a b : jsval) : jsval :=
  match a with VUndef | VNull => b | _ => a end.

Definition is_array (v : jsval) : bool := match v with VArr _ => true | _ => false end.
(** [v && typeof v === "object"]: arrays and objects. *)
Definition is_object (v : jsval) : bool := match v with VArr _ | VObj _ => true | _ => false end.
Definition is_record (v : jsval) : bool := match v with VObj _ => true | _ => false end.
Definition is_string (v : jsval) : bool := match v with VStr _ => true | _ => false end.
Definition as_string (v : jsval) : option jstr := match v with VStr s => Some s | _ => None end.

(** [Boolean(v)]. *)
Definition truthy_val (v : jsval) : bool :=
  match v with
  | VUndef | VNull => false
  | VBool b => b
  | VNum NaN => false
  | VNum n => negb (num_eq n (num 0))
  | VStr s => truthy s
  | VArr _ | VObj _ => true
  end.

(** [String(v)]; the elements of an array are joined by commas, with nothing
    for [null] and [undefined]. *)
Fixpoint to_string (v : jsval) : jstr :=
  match v with
  | VUndef => js "undefined"
  | VNull => js "null"
  | VBool b => if b then js "true" else js "false"
  | VNum n => show_num n
  | VStr s => s
  | VArr xs => join (js ",") ((fun x => match x with VUndef | VNull => [] | _ => to_string x end) <$> xs)
  | VObj _ => js "[object Object]"
  end.

(** [Number(v)]. *)
Definition to_number (v : jsval) : jsnum :=
  match v with
  | VUndef => NaN
  | VNull => num 0
  | VBool b => num (if b then 1 else 0)%Z
  | VNum n => n
  | VStr s => number_of_string s
  | VArr _ | VObj _ => number_of_string (to_string v)
  end.

(** ** [JSON.parse] *)

Local Open Scope N_scope.

Definition is_json_space (c : N) : bool := (c =? 32) || (c =? 9) || (c =? 10) || (c =? 13).
Definition skip_ws (s : jstr) : jstr := drop_while is_json_space s.

Definition hex_val (c : N) : option N := Z.to_N <$> hex_digit c.
Definition hex4 (a b c d : N) : option N :=
  x ← hex_val a; y ← hex_val b; z ← hex_val c; w ← hex_val d;
  Some (x * 4096 + y * 256 + z * 16 + w).

(** The one-character escapes. *)
Definition unescape (c : N) : option N :=
  if c =? 34 then Some 34 else if c =? 92 then Some 92 else if c =? 47 then Some 47
  else if c =? 98 then Some 8 else if c =? 102 then Some 12 else if c =? 110 then Some 10
  else if c =? 114 then Some 13 else if c =? 116 then Some 9 else None.

(** The characters of a string up to its closing quote. *)
Fixpoint parse_chars (s : jstr) : option (jstr * jstr) :=
  match s with
  | [] => None
  | c :: s1 =>
    if c =? 34 then Some ([], s1)
    else if c <? 32 then None
    else if c =? 92 then
      match s1 with
      | [] => None
      | e :: s2 =>
        if e =? 117 then
          match s2 with
          | a :: b :: x :: y :: s3 =>
            u ← hex4 a b x y; '(cs, r) ← parse_chars s3; Some (u :: cs, r)
          | _ => None
          end
        else u ← unescape e; '(cs, r) ← parse_chars s2; Some (u :: cs, r)
      end
    else '(cs, r) ← parse_chars s1; Some (c :: cs, r)
  end.

(** The fraction and the exponent of a JSONNumber, when there is one. *)
Definition parse_frac (s : jstr) : option (jstr * jstr) :=
  match s with
  | [] => Some ([], s)
  | c :: r =>
    if c =? 46 then let '(f, r') := span is_digit r in if truthy f then Some (f, r') else None
    else Some ([], s)
  end.

Definition parse_expo (s : jstr) : option (Z * jstr) :=
  match s with
  | [] => Some (0%Z, s)
  | c :: r =>
    if (c =? 101) || (c =? 69) then
      let '(sg, r1) := match r with
        | x :: r' => if x =? 45 then ((-1)%Z, r') else if x =? 43 then (1%Z, r') else (1%Z, r)
        | [] => (1%Z, r)
        end in
      let '(ds, r2) := span is_digit r1 in
      if truthy ds then Some ((sg * digits_value ds)%Z, r2) else None
    else Some (0%Z, s)
  end.

(** An integer part has no leading zero. *)
Definition int_part_ok (ip : jstr) : bool :=
  match ip with [] => false | d :: ip' => negb ((d =? 48) && truthy ip') end.

(** JSONNumber after its optional minus sign, greedily. *)
Definition parse_magnitude (neg : bool) (s : jstr) : option (jsnum * jstr) :=
  let '(ip, s2) := span is_digit s in
  '(fp, s3) ← parse_frac s2;
  '(e, s4) ← parse_expo s3;
  if int_part_ok ip then Some (of_decimal neg ip fp e, s4) else None.

Definition parse_number (s : jstr) : option (jsnum * jstr) :=
  match s with
  | c :: r => if c =? 45 then parse_magnitude true r else parse_magnitude false s
  | [] => parse_magnitude false s
  end.

(** A value, the members of an object after its first brace or a comma, and
    the elements of an array: [f] bounds the number of nested calls. *)
Fixpoint parse_value (f : nat) (s0 : jstr) : option (jsval * jstr) :=
  match f with
  | O => None
  | S f' =>
    match skip_ws s0 with
    | [] => None
    | c :: s =>
      if c =? 123 then
        match skip_ws s with
        | d :: r => if d =? 125 then Some (VObj [], r) else parse_members f' (d :: r) []
        | [] => None
        end
      else if c =? 91 then
        match skip_ws s with
        | d :: r => if d =? 93 then Some (VArr [], r) else parse_elements f' (d :: r)
        | [] => None
        end
      else if c =? 34 then '(cs, r) ← parse_chars s; Some (VStr cs, r)
      else if starts_with (js "true") (c :: s) then Some (VBool true, drop 4 (c :: s))
      else if starts_with (js "false") (c :: s) then Some (VBool false, drop 5 (c :: s))
      else if starts_with (js "null") (c :: s) then Some (VNull, drop 4 (c :: s))
      else '(n, r) ← parse_number (c :: s); Some (VNum n, r)
    end
  end
with parse_members (f : nat) (s0 : jstr) (acc : list (jstr * jsval)) : option (jsval * jstr) :=
  match f with
  | O => None
  | S f' =>
    match skip_ws s0 with
    | c :: s =>
      if c =? 34 then
        '(k, s1) ← parse_chars s;
        match skip_ws s1 with
        | d :: s2 =>
          if d =? 58 then
            '(v, s3) ← parse_value f' s2;
            let acc' := set_prop k v acc in
            match skip_ws s3 with
            | e :: s4 => if e =? 44 then parse_members f' s4 acc'
                         else if e =? 125 then Some (VObj acc', s4) else None
            | [] => None
            end
          else None
        | [] => None
        end
      else None
    | [] => None
    end
  end
with parse_elements (f : nat) (s0 : jstr) : option (jsval * jstr) :=
  match f with
  | O => None
  | S f' =>
    '(v, s1) ← parse_value f' s0;
    match skip_ws s1 with
    | e :: s2 =>
      if e =? 44 then
        '(w, r) ← parse_elements f' s2;
        match w with VArr vs => Some (VArr (v :: vs), r) | _ => None end
      else if e =? 93 then Some (VArr [v], s2) else None
    | [] => None
    end
  end.

Definition parse_json (s : jstr) : option jsval :=
  match parse_value (S (length s)) s with
  | Some (v, r) => match skip_ws r with [] => Some v | _ => None end
  | None => None
  end.

(** ** [JSON.stringify] *)

Definition hex_char (n : N) : N := if n <? 10 then 48 + n else 87 + n.
Definition escape_u (c : N) : jstr :=
  [92; 117; hex_char (c / 4096); hex_char (c / 256 mod 16); hex_char (c / 16 mod 16); hex_char (c mod 16)].
Definition is_lead (c : N) : bool := in_range 0xD800 0xDBFF c.
Definition is_trail (c : N) : bool := in_range 0xDC00 0xDFFF c.

Definition quote_char (c : N) : jstr :=
  if c =? 34 then [92; 34] else if c =? 92 then [92; 92]
  else if c =? 8 then [92; 98] else if c =? 12 then [92; 102] else if c =? 10 then [92; 110]
  else if c =? 13 then [92; 114] else if c =? 9 then [92; 116]
  else if c <? 32 then escape_u c else [c].

(** A surrogate without its partner is written as an escape. *)
Fixpoint quote_chars (s : jstr) : jstr :=
  match s with
  | [] => []
  | c :: s' =>
    if is_lead c then
      match s' with
      | d :: s'' => if is_trail d then c :: d :: quote_chars s'' else escape_u c ++ quote_chars s'
      | [] => escape_u c
      end
    else (if is_trail c then escape_u c else quote_char c) ++ quote_chars s'
  end.
Definition quote (s : jstr) : jstr := 34 :: quote_chars s ++ [34].

Definition is_undef (v : jsval) : bool := match v with VUndef => true | _ => false end.

Fixpoint stringify (v : jsval) : jstr :=
  match v with
  | VUndef | VNull => js "null"
  | VBool b => if b then js "true" else js "false"
  | VNum n => if is_finite n then show_num n else js "null"
  | VStr s => quote s
  | VArr xs => 91 :: join [44] (stringify <$> xs) ++ [93]
  | VObj ps =>
    123 :: join [44] (filter_map (fun p =>
      if is_undef (snd p) then None else Some (quote (fst p) ++ 58 :: stringify (snd p))) ps) ++ [125]
  end.

(** ** Round trip *)

Inductive json_ok : jsval -> Prop :=
  | ok_null : json_ok VNull
  | ok_bool b : json_ok (VBool b)
  | ok_int z : (Z.abs z < 10 ^ 21)%Z -> json_ok (VNum (num z))
  | ok_str s : json_ok (VStr s)
  | ok_arr xs : Forall json_ok xs -> json_ok (VArr xs)
  | ok_obj ps : NoDup ps.*1 -> Forall (fun p => json_ok (snd p)) ps -> json_ok (VObj ps).

(** What may follow a value inside a text. *)
Definition json_end (r : jstr) : Prop :=
  match r with [] => True | c :: _ => c = 44 \/ c = 93 \/ c = 125 end.

Lemma skip_ws_id c s : is_json_space c = false -> skip_ws (c :: s) = c :: s.
Proof. intros H. unfold skip_ws, drop_while. by rewrite span_none. Qed.

Lemma hex_val_char n : n < 16 -> hex_val (hex_char n) = Some n.
Proof.
  intros Hn. unfold hex_val, hex_char, hex_digit.
  destruct (N.ltb_spec n 10).
  - replace (is_digit (48 + n)) with true by (symmetry; char_lia). simpl. f_equal. lia.
  - replace (is_digit (87 + n)) with false by (symmetry; char_lia).
    replace (in_range 97 102 (87 + n)) with true by (symmetry; char_lia). simpl. f_equal. lia.
Qed.

Lemma parse_chars_escape c s :
  c < 65536 -> parse_chars (escape_u c ++ s) = '(cs, r) ← parse_chars s; Some (c :: cs, r).
Proof.
  intros Hc. unfold escape_u. cbn [app parse_chars].
  change (92 =? 34) with false. change (92 <? 32) with false. change (92 =? 92) with true.
  change (117 =? 117) with true. cbv iota. unfold hex4.
  assert (c / 4096 < 16) by (apply N.Div0.div_lt_upper_bound; lia).
  rewrite !hex_val_char by (done || apply N.mod_lt; done).
  cbn [mbind option_bind].
  replace (c / 4096 * 4096 + c / 256 mod 16 * 256 + c / 16 mod 16 * 16 + c mod 16) with c; [done|].
  pose proof (N.div_mod' c 16). pose proof (N.div_mod' (c / 16) 16).
  pose proof (N.div_mod' (c / 256) 16).
  rewrite !N.Div0.div_div in *. simpl (16 * 16) in *. simpl (256 * 16) in *. lia.
Qed.

Lemma parse_chars_plain c s :
  c <> 34 -> 32 <= c -> c <> 92 ->
  parse_chars (c :: s) = '(cs, r) ← parse_chars s; Some (c :: cs, r).
Proof.
  intros H1 H2 H3. cbn [parse_chars].
  apply N.eqb_neq in H1, H3. apply N.ltb_ge in H2. by rewrite H1, H2, H3.
Qed.

Lemma parse_chars_quote_char c s :
  is_lead c = false -> is_trail c = false ->
  parse_chars (quote_char c ++ s) = '(cs, r) ← parse_chars s; Some (c :: cs, r).
Proof.
  intros Hl Ht. unfold quote_char.
  repeat match goal with |- context [if N.eqb c ?n then _ else _] =>
    destruct (N.eqb_spec c n) as [->|]; [reflexivity|] end.
  destruct (N.ltb_spec c 32); [apply parse_chars_escape; lia|].
  by apply parse_chars_plain.
Qed.

Lemma surrogate_plain c : is_lead c = true \/ is_trail c = true -> c <> 34 /\ 32 <= c /\ c <> 92 /\ c < 65536.
Proof. unfold is_lead, is_trail, in_range. lia. Qed.

Lemma parse_quote_chars s r : parse_chars (quote_chars s ++ 34 :: r) = Some (s, r).
Proof.
  remember (length s) as n eqn:Hn. revert s Hn.
  induction n as [n IH] using lt_wf_ind. intros s Hn.
  destruct s as [|c s]; [done|]. cbn [quote_chars]. simpl in Hn.
  assert (Hs : parse_chars (quote_chars s ++ 34 :: r) = Some (s, r)) by (apply (IH (length s)); lia).
  destruct (is_lead c) eqn:El.
  - pose proof (surrogate_plain c (or_introl El)) as (? & ? & ? & ?).
    destruct s as [|d s].
    { rewrite <- (app_nil_l (34 :: r)) at 1. rewrite parse_chars_escape by done. done. }
    destruct (is_trail d) eqn:Et.
    + pose proof (surrogate_plain d (or_intror Et)) as (? & ? & ? & ?).
      cbn [app]. rewrite !parse_chars_plain by done. simpl in Hn.
      by rewrite (IH (length s)) by lia.
    + rewrite <- app_assoc, parse_chars_escape by done. by rewrite Hs.
  - destruct (is_trail c) eqn:Et.
    + pose proof (surrogate_plain c (or_intror Et)) as (? & ? & ? & ?).
      rewrite <- app_assoc, parse_chars_escape by done. by rewrite Hs.
    + rewrite <- app_assoc, parse_chars_quote_char by done. by rewrite Hs.
Qed.

Lemma json_end_frac r : json_end r -> parse_frac r = Some ([], r).
Proof.
  destruct r as [|c r]; simpl; [done|]. intros H.
  by assert (c =? 46 = false) as -> by lia.
Qed.
Lemma json_end_expo r : json_end r -> parse_expo r = Some (0%Z, r).
Proof.
  destruct r as [|c r]; simpl; [done|]. intros H.
  by assert ((c =? 101) || (c =? 69) = false) as -> by lia.
Qed.

Lemma parse_number_show z r :
  (Z.abs z < 10 ^ 21)%Z -> json_end r -> parse_number (show_Z z ++ r) = Some (num z, r).
Proof.
  intros Hz Hr. rewrite show_Z_digits.
  destruct (digits_ok (Z.abs_N z)) as (Hd & Hne & _).
  assert (Hmag : forall neg, neg = (z <? 0)%Z ->
    parse_magnitude neg (digits (Z.abs_N z) ++ r) = Some (num z, r)).
  { intros neg ->. unfold parse_magnitude.
    rewrite span_app_stop; [|done|destruct r; [done|]; simpl in Hr; char_lia].
    rewrite json_end_frac by done. cbn [mbind option_bind].
    rewrite json_end_expo by done. cbn [mbind option_bind].
    rewrite of_decimal_digits by done.
    pose proof (digits_no_leading_zero (Z.abs_N z)) as Hl. unfold int_part_ok.
    destruct (digits (Z.abs_N z)) as [|d ds]; [done|]. by rewrite Hl. }
  unfold parse_number. destruct (Z.ltb_spec z 0).
  - cbn [app]. change (45 =? 45) with true. cbv iota. apply Hmag. done.
  - specialize (Hmag false eq_refl). destruct (digits (Z.abs_N z)) as [|d ds]; [done|].
    cbn [app] in *. assert (d =? 45 = false) as -> by (simpl in Hd; bool_hyps; char_lia). done.
Qed.

Lemma set_prop_fresh {A} k (v : A) ps : ~ k ∈ ps.*1 -> set_prop k v ps = ps ++ [(k, v)].
Proof.
  induction ps as [|[k' v'] ps IH]; csimpl; [done|]. intros Hk.
  rewrite elem_of_cons in Hk. destruct (seqb k' k) eqn:E.
  - apply seqb_eq in E. subst. exfalso. apply Hk. by left.
  - rewrite IH; [done|]. intros ?. apply Hk. by right.
Qed.

(** The text of one member, and of the values of an array or an object. *)
Definition member_text (p : jstr * jsval) : jstr := quote (fst p) ++ 58 :: stringify (snd p).

Lemma json_ok_not_undef v : json_ok v -> is_undef v = false.
Proof. by destruct 1. Qed.

Lemma stringify_obj ps :
  Forall (fun p => json_ok (snd p)) ps ->
  stringify (VObj ps) = 123 :: join [44] (member_text <$> ps) ++ [125].
Proof.
  intros H. cbn [stringify]. f_equal. f_equal. f_equal.
  induction H as [|p ps Hp _ IH]; [done|]. cbn [filter_map fmap list_fmap].
  by rewrite (json_ok_not_undef _ Hp), IH.
Qed.

(** The first character of a value's text, which is never white space, never
    a closing bracket, and determines the branch of the parser. *)
Lemma show_Z_head z : exists c s, show_Z z = c :: s /\ (c = 45 \/ is_digit c = true).
Proof.
  rewrite show_Z_digits. destruct (digits_ok (Z.abs_N z)) as (Hd & Hn & _).
  destruct (z <? 0)%Z; [eauto|]. destruct (digits (Z.abs_N z)) as [|d ds]; [done|].
  simpl in Hd. bool_hyps. eauto.
Qed.

Lemma stringify_head v :
  json_ok v -> exists c s, stringify v = c :: s /\ is_json_space c = false /\ c <> 93.
Proof.
  destruct 1; try (eexists _, _; split; [reflexivity|]; done).
  - destruct b; eexists _, _; (split; [reflexivity|done]).
  - cbn [stringify num is_finite]. rewrite show_num_Z by done.
    destruct (show_Z_head z) as (c & s & -> & Hc). exists c, s. split; [done|].
    unfold is_json_space. char_lia.
Qed.

Lemma parse_value_int f z r :
  (Z.abs z < 10 ^ 21)%Z -> json_end r -> parse_value (S f) (show_Z z ++ r) = Some (VNum (num z), r).
Proof.
  intros Hz Hr. pose proof (parse_number_show z r Hz Hr) as Hp.
  destruct (show_Z_head z) as (c & s & E & Hc). rewrite E in *. cbn [app] in *.
  cbn [parse_value]. rewrite skip_ws_id by (unfold is_json_space; char_lia).
  assert (c =? 123 = false) as -> by char_lia.
  assert (c =? 91 = false) as -> by char_lia.
  assert (c =? 34 = false) as -> by char_lia.
  assert (starts_with (js "true") (c :: s ++ r) = false) as ->.
  { change (js "true") with [116; 114; 117; 101]. cbn [starts_with].
    assert (116 =? c = false) as -> by char_lia. done. }
  assert (starts_with (js "false") (c :: s ++ r) = false) as ->.
  { change (js "false") with [102; 97; 108; 115; 101]. cbn [starts_with].
    assert (102 =? c = false) as -> by char_lia. done. }
  assert (starts_with (js "null") (c :: s ++ r) = false) as ->.
  { change (js "null") with [110; 117; 108; 108]. cbn [starts_with].
    assert (110 =? c = false) as -> by char_lia. done. }
  by rewrite Hp.
Qed.

(** What the round trip says of one value, for every fuel and suffix. *)
Definition reads_back (v : jsval) : Prop :=
  forall f r, (length (stringify v) <= f)%nat -> json_end r ->
  parse_value f (stringify v ++ r) = Some (v, r).

Lemma parse_elements_join xs f r :
  Forall (fun v => json_ok v /\ reads_back v) xs -> xs <> [] ->
  (S (length (join [44%N] (stringify <$> xs))) <= f)%nat ->
  parse_elements f (join [44] (stringify <$> xs) ++ 93 :: r) = Some (VArr xs, r).
Proof.
  intros H. revert f. induction H as [|v xs [Hok Hv] _ IH]; intros f Hne Hf; [done|].
  destruct f as [|f]; [lia|].
  destruct xs as [|w xs]; csimpl in *.
  - rewrite Hv by (lia || (simpl; lia)). cbn [mbind option_bind].
    by rewrite skip_ws_id.
  - rewrite <- app_assoc. cbn [app]. rewrite !length_app in Hf. simpl in Hf.
    rewrite Hv by (lia || (simpl; lia)). cbn [mbind option_bind].
    rewrite skip_ws_id by done. cbn [app].
    change (44 =? 44) with true. cbv iota. rewrite IH by (done || lia). done.
Qed.

Lemma parse_members_join ps acc f r :
  Forall (fun p => json_ok (snd p) /\ reads_back (snd p)) ps -> ps <> [] ->
  NoDup (acc.*1 ++ ps.*1) ->
  (S (length (join [44%N] (member_text <$> ps))) <= f)%nat ->
  parse_members f (join [44] (member_text <$> ps) ++ 125 :: r) acc = Some (VObj (acc ++ ps), r).
Proof.
  intros H. revert f acc. induction H as [|[k v] ps [Hok Hv] _ IH]; intros f acc Hne Hnd Hf; [done|].
  destruct f as [|f]; [lia|]. simpl in Hv.
  assert (Hk : ~ k ∈ acc.*1).
  { intros Hin. apply NoDup_app in Hnd as (_ & Hnd & _). apply (Hnd k Hin). csimpl. by left. }
  assert (Hstep : forall rest, json_end rest ->
    (length (member_text (k, v)) <= S f)%nat ->
    parse_members (S f) (member_text (k, v) ++ rest) acc =
    match skip_ws rest with
    | e :: s4 => if e =? 44 then parse_members f s4 (acc ++ [(k, v)])
                 else if e =? 125 then Some (VObj (acc ++ [(k, v)]), s4) else None
    | [] => None
    end).
  { intros rest Hr Hlen. unfold member_text, quote in *. cbn [fst snd app] in *.
    rewrite <- !app_assoc. cbn [app parse_members]. rewrite skip_ws_id by done.
    change (34 =? 34) with true. cbv iota. rewrite parse_quote_chars. cbn [mbind option_bind].
    rewrite skip_ws_id by done. change (58 =? 58) with true. cbv iota.
    simpl in Hlen. rewrite !length_app in Hlen. simpl in Hlen.
    rewrite Hv by (done || lia). cbn [mbind option_bind]. by rewrite set_prop_fresh. }
  destruct ps as [|p ps]; cbn [fmap list_fmap join] in *.
  - rewrite Hstep by (lia || (simpl; lia)). by rewrite skip_ws_id.
  - rewrite <- app_assoc. cbn [app]. rewrite !length_app in Hf. cbn [length app] in Hf.
    rewrite Hstep by (lia || (simpl; lia)). rewrite skip_ws_id by done.
    change (44 =? 44) with true. cbv iota. rewrite IH; [by rewrite <- app_assoc|done| |cbn [app]; lia].
    rewrite fmap_app, <- app_assoc. done.
Qed.

Lemma json_reads_back v : json_ok v -> reads_back v.
Proof.
  induction v as [| |b|n|s|xs IH|ps IH] using jsval_ind'; intros Hok f r Hf Hr;
    inversion Hok; subst; (destruct f as [|f];
      [by destruct (stringify_head _ Hok) as (? & ? & E & _); rewrite E in Hf; simpl in Hf; lia|]).
  - done.
  - by destruct b.
  - cbn [stringify num is_finite]. rewrite show_num_Z by done. by apply parse_value_int.
  - cbn [stringify quote app parse_value]. rewrite skip_ws_id by done.
    rewrite <- app_assoc. cbn [app]. by rewrite parse_quote_chars.
  - assert (Hxs : Forall (fun v => json_ok v /\ reads_back v) xs).
    { rewrite Forall_forall in *. intros x Hx. split; [auto|]. apply IH; auto. }
    cbn [stringify app parse_value]. rewrite skip_ws_id by done.
    cbn [stringify length] in Hf. rewrite length_app in Hf. simpl in Hf.
    destruct xs as [|x xs]; [done|].
    rewrite <- app_assoc. cbn [app].
    pose proof (parse_elements_join (x :: xs) f r Hxs ltac:(done) ltac:(lia)) as Hp.
    apply Forall_cons in Hxs as [[Hx _] _].
    destruct (stringify_head _ Hx) as (c & t & E & Hc & Hc').
    assert (exists t', join [44] (stringify <$> x :: xs) = c :: t') as [t' Et].
    { csimpl. rewrite E. destruct xs; eauto. }
    rewrite Et in *. cbn [app] in *. rewrite skip_ws_id by done.
    apply N.eqb_neq in Hc'. by rewrite Hc'.
  - assert (Hps : Forall (fun p => json_ok (snd p) /\ reads_back (snd p)) ps).
    { rewrite Forall_forall in *. intros x Hx. split; [auto|]. apply IH; auto. }
    rewrite stringify_obj in * by done. cbn [app parse_value]. rewrite skip_ws_id by done.
    cbn [length] in Hf. rewrite length_app in Hf. simpl in Hf.
    destruct ps as [|p ps]; [done|].
    rewrite <- app_assoc. cbn [app].
    pose proof (parse_members_join (p :: ps) [] f r Hps ltac:(done) ltac:(done) ltac:(lia)) as Hp.
    assert (exists t', join [44] (member_text <$> p :: ps) = 34 :: t') as [t' Et].
    { csimpl. unfold member_text, quote. destruct ps; eauto. }
    rewrite Et in *. cbn [app] in *. by rewrite skip_ws_id.
Qed.

(** [JSON.parse(JSON.stringify(v))] gives [v] back. *)
Theorem parse_stringify v : json_ok v -> parse_json (stringify v) = Some v.
Proof.
  intros Hok. unfold parse_json.
  pose proof (json_reads_back v Hok (S (length (stringify v))) [] ltac:(lia) I) as H.
  rewrite app_nil_r in H. by rewrite H.
Qed.

Lemma assoc_elem {A} k (v : A) ps : assoc k ps = Some v -> (k, v) ∈ ps.
Proof.
  induction ps as [|[k' v'] ps IH]; simpl; [done|].
  destruct (seqb k' k) eqn:E; [|intros H; right; by apply IH].
  apply seqb_eq in E. intros [= ->]. subst. by left.
Qed.

#[export] Hint Constructors json_ok : cinder.

Lemma elem_of_set_prop {A} k (v : A) ps q : q ∈ set_prop k v ps -> q = (k, v) \/ q ∈ ps.
Proof.
  induction ps as [|[k' v'] ps IH]; simpl.
  - rewrite list_elem_of_singleton. auto.
  - destruct (seqb k' k) eqn:E; rewrite !elem_of_cons.
    + apply seqb_eq in E as ->. intros [->|?]; auto.
    + intros [->|[?|?]%IH]; auto.
Qed.

Lemma set_prop_keys {A} k (v : A) ps :
  (set_prop k v ps).*1 = if bool_decide (k ∈ ps.*1) then ps.*1 else ps.*1 ++ [k].
Proof.
  induction ps as [|[k' v'] ps IH]; [done|]. cbn [set_prop].
  destruct (seqb k' k) eqn:E.
  - apply seqb_eq in E as ->. rewrite bool_decide_eq_true_2; [done|]. by left.
  - apply seqb_neq in E. csimpl. rewrite IH.
    destruct (decide (k ∈ ps.*1)) as [H|H].
    + rewrite !bool_decide_eq_true_2; [done|by right|done].
    + rewrite !bool_decide_eq_false_2; [done| |done].
      rewrite elem_of_cons. intros [?|?]; congruence.
Qed.

Lemma set_prop_NoDup {A} k (v : A) ps : NoDup ps.*1 -> NoDup (set_prop k v ps).*1.
Proof.
  intros H. rewrite set_prop_keys. case_bool_decide as Hk; [done|].
  apply NoDup_app. repeat split; [done| |apply NoDup_singleton].
  intros x Hx ->%list_elem_of_singleton. done.
Qed.

Lemma assoc_set_prop {A} k k' (v : A) ps :
  assoc k' (set_prop k v ps) = if decide (k = k') then Some v else assoc k' ps.
Proof.
  induction ps as [|[j w] ps IH]; simpl.
  - case_decide as E; [subst; by rewrite seqb_refl|]. apply seqb_neq in E. by rewrite E.
  - destruct (seqb j k) eqn:Ej; simpl.
    + apply seqb_eq in Ej as ->. case_decide as E; [subst; by rewrite seqb_refl|].
      apply seqb_neq in E. by rewrite E.
    + rewrite IH. destruct (seqb j k') eqn:Ej'; [|done].
      apply seqb_eq in Ej' as ->. apply seqb_neq in Ej. by rewrite decide_False.
Qed.
