(* ===== verification/Uri.v ===== *)
(** * [encodeURIComponent]

    The UTF-8 percent encoding of the language, [None] where it throws
    [URIError] (a lone surrogate).  Keys and request paths are built with it,
    so what matters is which characters the result can contain and that
    different texts have different encodings. *)

From S2P Require Import Prelude JsString.
Local Open Scope N_scope.

(** Letters, digits and [-_.!~*'()]. *)
Definition is_unreserved (c : N) : bool :=
  is_letter c || is_digit c || one_of (js "-_.!~*'()") c.

Definition hex_upper (n : N) : N := if n <? 10 then 48 + n else 55 + n.
Definition percent (byte : N) : jstr := [37; hex_upper (byte / 16); hex_upper (byte mod 16)].

(** The UTF-8 bytes of a code point. *)
Definition utf8 (c : N) : list N :=
  if c <? 0x80 then [c]
  else if c <? 0x800 then [0xC0 + c / 0x40; 0x80 + c mod 0x40]
  else if c <? 0x10000 then [0xE0 + c / 0x1000; 0x80 + c / 0x40 mod 0x40; 0x80 + c mod 0x40]
  else [0xF0 + c / 0x40000; 0x80 + c / 0x1000 mod 0x40; 0x80 + c / 0x40 mod 0x40; 0x80 + c mod 0x40].

Definition is_lead_unit (c : N) : bool := in_range 0xD800 0xDBFF c.
Definition is_trail_unit (c : N) : bool := in_range 0xDC00 0xDFFF c.
Definition pair_value (c d : N) : N := 0x10000 + (c - 0xD800) * 0x400 + (d - 0xDC00).

Definition encode_cp (c : N) : jstr :=
  if is_unreserved c then [c] else flat_map percent (utf8 c).

Fixpoint encodeURIComponent (s : jstr) : option jstr :=
  match s with
  | [] => Some []
  | c :: s' =>
    if is_lead_unit c then
      match s' with
      | d :: s'' => if is_trail_unit d then app (encode_cp (pair_value c d)) <$> encodeURIComponent s''
                    else None
      | [] => None
      end
    else if is_trail_unit c then None
    else app (encode_cp c) <$> encodeURIComponent s'
  end.

(** ** What an encoding looks like *)

Lemma hex_upper_ok n : n < 16 -> is_unreserved (hex_upper n) = true /\ hex_upper n <> 37.
Proof.
  intros Hn. unfold hex_upper. destruct (N.ltb_spec n 10).
  - assert (is_digit (48 + n) = true) as H1 by char_lia. unfold is_unreserved. rewrite H1.
    split; [by rewrite orb_true_r|lia].
  - assert (is_letter (55 + n) = true) as H1 by char_lia. unfold is_unreserved. by rewrite H1; split; [|lia].
Qed.

Definition encoded_char (c : N) : bool := is_unreserved c || (c =? 37).

Lemma percent_ok b : b < 256 -> forallb encoded_char (percent b) = true.
Proof.
  intros Hb. unfold percent. cbn [forallb]. unfold encoded_char.
  assert (b / 16 < 16) by (apply N.Div0.div_lt_upper_bound; lia).
  assert (b mod 16 < 16) by (apply N.mod_lt; done).
  by rewrite (proj1 (hex_upper_ok _ H)), (proj1 (hex_upper_ok _ H0)).
Qed.

Lemma utf8_bytes c : c < 0x110000 -> Forall (fun b => b < 256) (utf8 c).
Proof.
  intros Hc. unfold utf8.
  assert (forall x, x mod 64 < 64) by (intros; apply N.mod_lt; done).
  pose proof (H c). pose proof (H (c / 64)). pose proof (H (c / 4096)).
  destruct (N.ltb_spec c 0x80); [repeat constructor; lia|].
  destruct (N.ltb_spec c 0x800).
  { assert (c / 0x40 < 32) by (apply N.Div0.div_lt_upper_bound; lia). repeat constructor; lia. }
  destruct (N.ltb_spec c 0x10000).
  { assert (c / 0x1000 < 16) by (apply N.Div0.div_lt_upper_bound; lia). repeat constructor; lia. }
  assert (c / 0x40000 < 8) by (apply N.Div0.div_lt_upper_bound; lia). repeat constructor; lia.
Qed.

Lemma encode_cp_chars c : c < 0x110000 -> forallb encoded_char (encode_cp c) = true.
Proof.
  intros Hc. unfold encode_cp. destruct (is_unreserved c) eqn:E.
  { cbn. unfold encoded_char. by rewrite E. }
  pose proof (utf8_bytes c Hc) as H. induction H as [|b bs Hb _ IH]; [done|].
  cbn [flat_map]. rewrite forallb_app, IH, percent_ok by done. done.
Qed.

Lemma pair_value_bound c d : is_lead_unit c = true -> is_trail_unit d = true -> pair_value c d < 0x110000.
Proof. unfold is_lead_unit, is_trail_unit, in_range, pair_value. lia. Qed.

(** The result holds letters, digits, [-_.!~*'()] and [%] only: none of the
    characters that separate the parts of a key or of a URL. *)
Lemma encode_chars s e :
  Forall (fun c => c < 65536) s -> encodeURIComponent s = Some e -> forallb encoded_char e = true.
Proof.
  remember (length s) as n eqn:Hn. revert s e Hn.
  induction n as [n IH] using lt_wf_ind. intros s e Hn Hs.
  destruct s as [|c s]; [by intros [= <-]|]. cbn [encodeURIComponent]. simpl in Hn.
  apply Forall_cons in Hs as [Hc Hs]. destruct (is_lead_unit c) eqn:El.
  - destruct s as [|d s]; [done|]. destruct (is_trail_unit d) eqn:Et; [|done].
    apply Forall_cons in Hs as [_ Hs].
    destruct (encodeURIComponent s) as [e'|] eqn:E; [|done]. intros [= <-].
    rewrite forallb_app, encode_cp_chars by (by apply pair_value_bound).
    by eapply (IH (length s)); [simpl in Hn; lia| | |].
  - destruct (is_trail_unit c); [done|].
    destruct (encodeURIComponent s) as [e'|] eqn:E; [|done]. intros [= <-].
    rewrite forallb_app, encode_cp_chars by lia.
    by eapply (IH (length s)); [simpl in Hn; lia| | |].
Qed.

(** ** Different texts have different encodings *)

Lemma hex_upper_inj a b : a < 16 -> b < 16 -> hex_upper a = hex_upper b -> a = b.
Proof. unfold hex_upper. destruct (N.ltb_spec a 10), (N.ltb_spec b 10); lia. Qed.

Lemma percent_inj a b x y : a < 256 -> b < 256 -> percent a ++ x = percent b ++ y -> a = b /\ x = y.
Proof.
  intros Ha Hb. unfold percent. cbn [app]. intros H. injection H as H1 H2 ->. split; [|done].
  assert (a / 16 < 16) by (apply N.Div0.div_lt_upper_bound; lia).
  assert (b / 16 < 16) by (apply N.Div0.div_lt_upper_bound; lia).
  apply hex_upper_inj in H1; [|done..]. apply hex_upper_inj in H2; [|by apply N.mod_lt..].
  rewrite (N.div_mod a 16), (N.div_mod b 16) by done. congruence.
Qed.

(** A code point is determined by its pieces of six bits. *)
Lemma six_bits c : c = 64 * (c / 64) + c mod 64.
Proof. by apply N.div_mod. Qed.
Lemma twelve_bits c : c / 64 = 64 * (c / 4096) + c / 64 mod 64.
Proof. change 4096 with (64 * 64). rewrite <- N.Div0.div_div. by apply N.div_mod. Qed.
Lemma eighteen_bits c : c / 4096 = 64 * (c / 262144) + c / 4096 mod 64.
Proof. change 262144 with (4096 * 64). rewrite <- N.Div0.div_div. by apply N.div_mod. Qed.

(** The number of bytes shows in the first byte, and the bytes show the code
    point. *)
Lemma utf8_prefix c d x y : c < 0x110000 -> d < 0x110000 -> utf8 c ++ x = utf8 d ++ y -> c = d.
Proof.
  intros Hc Hd. unfold utf8.
  assert (H2 : forall z, z < 0x800 -> z / 0x40 < 32) by (intros; apply N.Div0.div_lt_upper_bound; lia).
  assert (H3 : forall z, z < 0x10000 -> z / 0x1000 < 16) by (intros; apply N.Div0.div_lt_upper_bound; lia).
  pose proof (H2 c). pose proof (H2 d). pose proof (H3 c). pose proof (H3 d). clear H2 H3.
  pose proof (six_bits c). pose proof (six_bits d). pose proof (twelve_bits c). pose proof (twelve_bits d).
  pose proof (eighteen_bits c). pose proof (eighteen_bits d).
  change 0x40 with 64 in *. change 0x1000 with 4096 in *. change 0x40000 with 262144 in *.
  set (c0 := c mod 64) in *. set (c1 := c / 64) in *. set (c2 := c / 4096) in *. set (c3 := c / 262144) in *.
  set (m1 := c1 mod 64) in *. set (m2 := c2 mod 64) in *.
  set (d0 := d mod 64) in *. set (d1 := d / 64) in *. set (d2 := d / 4096) in *. set (d3 := d / 262144) in *.
  set (n1 := d1 mod 64) in *. set (n2 := d2 mod 64) in *.
  clearbody m1 m2 n1 n2 c0 c1 c2 c3 d0 d1 d2 d3.
  destruct (N.ltb_spec c 0x80); [|destruct (N.ltb_spec c 0x800); [|destruct (N.ltb_spec c 0x10000)]];
  (destruct (N.ltb_spec d 0x80); [|destruct (N.ltb_spec d 0x800); [|destruct (N.ltb_spec d 0x10000)]]);
  cbn [app]; intros E; apply (f_equal (take 4)) in E; cbn [take] in E; injection E; clear E; intros; lia.
Qed.

Lemma flat_percent_inj xs ys x y :
  Forall (fun b => b < 256) xs -> Forall (fun b => b < 256) ys -> length xs = length ys ->
  flat_map percent xs ++ x = flat_map percent ys ++ y -> xs = ys /\ x = y.
Proof.
  intros Hx. revert ys. induction Hx as [|a xs Ha _ IH]; intros [|b ys] Hy Hl; try done.
  cbn [flat_map]. rewrite <- !app_assoc. apply Forall_cons in Hy as [Hb Hy]. intros E.
  apply percent_inj in E as [-> E]; [|done..]. destruct (IH ys) as [-> ->]; auto.
Qed.

(** Two lists of bytes whose percent encodings start the same way agree up to
    the shorter one. *)
Lemma percent_common xs ys x y :
  Forall (fun b => b < 256) xs -> Forall (fun b => b < 256) ys ->
  flat_map percent xs ++ x = flat_map percent ys ++ y ->
  exists u v, xs ++ u = ys ++ v /\ (length xs = length ys -> x = y).
Proof.
  intros Hx. revert ys. induction Hx as [|a xs Ha _ IH]; intros ys Hy E.
  - exists ys, []. split; [by rewrite app_nil_r|]. intros Hl. by destruct ys.
  - destruct Hy as [|b ys Hb Hy]; [exists [], (a :: xs); split; [by rewrite app_nil_r|done]|].
    cbn [flat_map] in E. rewrite <- !app_assoc in E. apply percent_inj in E as [-> E]; [|done..].
    destruct (IH ys Hy E) as (u & v & Huv & Hl). exists u, v. split; [simpl; congruence|].
    simpl. intros ?. apply Hl. lia.
Qed.

Lemma encode_cp_prefix c d x y : c < 0x110000 -> d < 0x110000 ->
  encode_cp c ++ x = encode_cp d ++ y -> c = d /\ x = y.
Proof.
  intros Hc Hd. unfold encode_cp.
  assert (H37 : forall z w, exists r, flat_map percent (utf8 z) ++ w = 37 :: r).
  { intros z w. unfold utf8. repeat match goal with |- context [if ?b then _ else _] => destruct b end; eexists; reflexivity. }
  destruct (is_unreserved c) eqn:Ec, (is_unreserved d) eqn:Ed.
  - cbn [app]. by intros [= -> ->].
  - destruct (H37 d y) as [r ->]. cbn [app]. by intros [= -> _].
  - destruct (H37 c x) as [r ->]. cbn [app]. by intros [= <- _].
  - intros E. destruct (percent_common _ _ _ _ (utf8_bytes c Hc) (utf8_bytes d Hd) E) as (u & v & Huv & Hl).
    apply utf8_prefix in Huv as ->; [|done..]. auto.
Qed.

Lemma pair_value_inj c d c' d' : is_lead_unit c = true -> is_trail_unit d = true ->
  is_lead_unit c' = true -> is_trail_unit d' = true ->
  pair_value c d = pair_value c' d' -> c = c' /\ d = d'.
Proof. unfold is_lead_unit, is_trail_unit, in_range, pair_value. lia. Qed.
Lemma pair_value_high c d : 0x10000 <= pair_value c d.
Proof. unfold pair_value. lia. Qed.

Lemma encode_cp_not_nil c : encode_cp c <> [].
Proof.
  unfold encode_cp. destruct (is_unreserved c); [done|]. unfold utf8.
  repeat match goal with |- context [if ?b then _ else _] => destruct b end; done.
Qed.

(** The first code point of a text and the rest. *)
Definition first_cp (s : jstr) : option (N * jstr) :=
  match s with
  | [] => None
  | c :: s' =>
    if is_lead_unit c then
      match s' with
      | d :: s'' => if is_trail_unit d then Some (pair_value c d, s'') else None
      | [] => None
      end
    else if is_trail_unit c then None else Some (c, s')
  end.

Lemma encode_first s e : encodeURIComponent s = Some e ->
  (s = [] /\ e = []) \/
  exists c s' e', first_cp s = Some (c, s') /\ encodeURIComponent s' = Some e' /\ e = encode_cp c ++ e' /\
    (length s' < length s)%nat.
Proof.
  destruct s as [|c s]; [intros [= <-]; by left|]. cbn [encodeURIComponent first_cp]. intros H. right.
  destruct (is_lead_unit c).
  - destruct s as [|d s]; [done|]. destruct (is_trail_unit d); [|done].
    destruct (encodeURIComponent s) as [e'|] eqn:E; [|done]. injection H as <-.
    exists (pair_value c d), s, e'. repeat split; simpl; auto.
  - destruct (is_trail_unit c); [done|]. destruct (encodeURIComponent s) as [e'|] eqn:E; [|done].
    injection H as <-. exists c, s, e'. repeat split; simpl; auto.
Qed.

Lemma first_cp_inj s t c s' t' : Forall (fun x => x < 65536) s -> Forall (fun x => x < 65536) t ->
  first_cp s = Some (c, s') -> first_cp t = Some (c, t') -> s' = t' -> s = t.
Proof.
  intros Hs Ht. destruct s as [|x s], t as [|y t]; try done. cbn [first_cp].
  apply Forall_cons in Hs as [Hx _], Ht as [Hy _].
  destruct (is_lead_unit x) eqn:Ex, (is_lead_unit y) eqn:Ey.
  - destruct s as [|x' s]; [done|]. destruct (is_trail_unit x') eqn:Ex'; [|done].
    destruct t as [|y' t]; [done|]. destruct (is_trail_unit y') eqn:Ey'; [|done].
    intros [= H1 H2] [= H3 H4] H5. destruct (pair_value_inj x x' y y'); congruence.
  - destruct s as [|x' s]; [done|]. destruct (is_trail_unit x'); [|done]. destruct (is_trail_unit y); [done|].
    intros [= H1 _] [= H3 _]. pose proof (pair_value_high x x'). lia.
  - destruct (is_trail_unit x); [done|]. destruct t as [|y' t]; [done|]. destruct (is_trail_unit y'); [|done].
    intros [= H1 _] [= H3 _]. pose proof (pair_value_high y y'). lia.
  - destruct (is_trail_unit x); [done|]. destruct (is_trail_unit y); [done|].
    intros [= H1 H2] [= H3 H4] H5. congruence.
Qed.

Lemma first_cp_facts s c s' : Forall (fun x => x < 65536) s -> first_cp s = Some (c, s') ->
  c < 0x110000 /\ Forall (fun x => x < 65536) s'.
Proof.
  destruct s as [|x s]; [done|]. cbn [first_cp]. intros [Hx Hs]%Forall_cons.
  destruct (is_lead_unit x) eqn:Ex.
  - destruct s as [|d s]; [done|]. destruct (is_trail_unit d) eqn:Ed; [|done].
    apply Forall_cons in Hs as [_ Hs]. intros [= <- <-]. split; [by apply pair_value_bound|done].
  - destruct (is_trail_unit x); [done|]. intros [= <- <-]. split; [lia|done].
Qed.

Theorem encode_inj s t e : Forall (fun c => c < 65536) s -> Forall (fun c => c < 65536) t ->
  encodeURIComponent s = Some e -> encodeURIComponent t = Some e -> s = t.
Proof.
  remember (length s) as n eqn:Hn. revert s t e Hn.
  induction n as [n IH] using lt_wf_ind. intros s t e Hn Hs Ht Es Et.
  destruct (encode_first _ _ Es) as [[-> ->]|(c & s' & e1 & F1 & E1 & -> & L1)];
  destruct (encode_first _ _ Et) as [[-> H]|(d & t' & e2 & F2 & E2 & H & L2)].
  - done.
  - symmetry in H. apply app_eq_nil in H as [H _]. by apply encode_cp_not_nil in H.
  - apply app_eq_nil in H as [H _]. by apply encode_cp_not_nil in H.
  - destruct (first_cp_facts _ _ _ Hs F1) as [Hc Hs'], (first_cp_facts _ _ _ Ht F2) as [Hd Ht'].
    apply encode_cp_prefix in H as [-> ->]; [|done..].
    eapply first_cp_inj; [exact Hs|exact Ht|exact F1|exact F2|].
    eapply (IH (length s')); [lia|done|exact Hs'|exact Ht'|exact E1|exact E2].
Qed.
