(* ===== verification/Locale.v ===== *)
(** * Character data of the host

    [toLocaleLowerCase] and [localeCompare] follow the locale of the
    computer the app runs on, and [\p{L}], [\p{N}] and the case folding of
    the [i] flag follow the Unicode tables of its engine.  They are the
    fields of a class the components take as an argument; [LocaleLaws] is
    what is relied on, and [ascii_locale] an instance of both, with which
    the concrete examples are evaluated. *)

From S2P Require Import Prelude JsString Regex.

Class Locale : Type := {
  to_lower : jstr -> jstr;            (** [s.toLocaleLowerCase()] *)
  to_lower_case : jstr -> jstr;       (** [s.toLowerCase()] *)
  to_upper : jstr -> jstr;            (** [s.toUpperCase()] *)
  is_LN : N -> bool;                  (** [\p{L}] or [\p{N}], on a code point *)
  canon : N -> N;                     (** the folding of [i], on a code unit *)
  locale_compare : jstr -> jstr -> Z  (** [a.localeCompare(b)] *)
}.

(** Unicode's stability guarantees and the documented behaviour of the
    conversions on ASCII. *)
Class LocaleLaws (L : Locale) : Prop := {
  space_not_LN : forall c, is_space c = true -> is_LN c = false;
  to_upper_ascii : forall s, forallb is_ascii s = true -> to_upper s = ascii_upper <$> s;
  to_lower_case_ascii : forall s, forallb is_ascii s = true -> to_lower_case s = ascii_lower <$> s;
}.

Definition ascii_locale : Locale := {|
  to_lower s := ascii_lower <$> s;
  to_lower_case s := ascii_lower <$> s;
  to_upper s := ascii_upper <$> s;
  is_LN c := is_letter c || is_digit c;
  canon := ascii_lower;
  locale_compare a b := if bool_decide (a = b) then 0%Z else 1%Z
|}.

#[export] Instance ascii_locale_laws : LocaleLaws ascii_locale.
Proof.
  split.
  - intros c H. cbn. char_lia.
  - done.
  - done.
Qed.

(** ** Code points *)

Local Open Scope N_scope.
Definition is_surrogate_lead (c : N) : bool := in_range 0xD800 0xDBFF c.
Definition is_surrogate_trail (c : N) : bool := in_range 0xDC00 0xDFFF c.

(** The code points of a string, each with the code units that write it. *)
Fixpoint code_points (s : jstr) : list (jstr * N) :=
  match s with
  | [] => []
  | c :: s' =>
    match s' with
    | d :: s'' =>
      if is_surrogate_lead c && is_surrogate_trail d
      then ([c; d], 0x10000 + (c - 0xD800) * 0x400 + (d - 0xDC00)) :: code_points s''
      else ([c], c) :: code_points s'
    | [] => [([c], c)]
    end
  end.

(** [s.replace(/[^...]+/gu, r)]: runs of code points that fail [p]. *)
Fixpoint replace_cp_runs (p : N -> bool) (r : jstr) (inrun : bool) (cs : list (jstr * N)) : jstr :=
  match cs with
  | [] => []
  | (w, c) :: cs' =>
    if p c then w ++ replace_cp_runs p r false cs'
    else (if inrun then [] else r) ++ replace_cp_runs p r true cs'
  end.

(** A literal under the [i] flag, for text that is not only ASCII. *)
Definition chr_fold `{Locale} (c : N) : re := RSet (fun d => N.eqb (canon c) (canon d)).
Definition lit_fold `{Locale} (s : jstr) : re := seqs (chr_fold <$> s).

(** [Date.parse(s)] and [new Date(s).getTime()]: the milliseconds of an
    instant, [None] for [NaN].  Which texts beside the ISO format are accepted
    is left to the engine, so it is a parameter; no law is needed. *)
Class Dates := { date_parse : jstr -> option Z }.

(** [Date.parse(a) > Date.parse(b)]. *)
Definition date_after `{Dates} (a b : jstr) : bool :=
  match date_parse a, date_parse b with Some x, Some y => (y <? x)%Z | _, _ => false end.

(** A concrete instance for examples: milliseconds in decimal. *)
Definition decimal_dates : Dates := {| date_parse := fun s =>
  match s with
  | [] => None
  | _ => if forallb is_digit s
         then Some (fold_left (fun a c => a * 10 + (Z.of_N c - 48))%Z s 0%Z) else None
  end |}.
