(* ===== verification/Types.v ===== *)
(** * The shared data types ([packages/ui/src/types.ts])

    What the host sends and the apps exchange, one record per type alias and
    one inductive type per union of string literals.  Timestamps stay the
    strings they are on the wire; [unknown] is [jsval]. *)

From S2P Require Import Prelude JsString JsNumber JsValue.

Inductive Role := Student | Teacher.

Record User := mkUser {
  user_id : jstr;
  username : jstr;
  display_name : jstr;
  role : Role;
  grade_level : option jstr;
  section : option jstr;
  roll_number : option jstr;
  must_change_password : bool;
  user_created_at : jstr
}.

Record LoginResponse := mkLoginResponse {
  login_token : jstr;
  login_user : User;
  expires_at : jstr
}.

Record Classroom := mkClassroom {
  classroom_id : jstr;
  classroom_name : jstr;
  subject_code : option jstr;
  classroom_description : jstr;
  color : jstr;
  owner_teacher_id : jstr;
  owner_teacher_name : jstr;
  enrolment_code : jstr;
  student_count : Z;
  classroom_created_at : jstr
}.

Inductive AssignmentStatus := Draft | Published | Closed.

Record Assignment := mkAssignment {
  assignment_id : jstr;
  a_classroom_id : jstr;
  a_classroom_name : jstr;
  title : jstr;
  instructions : jstr;
  due_at : option jstr;
  max_points : jsnum;
  grading_scheme : jsval;
  a_status : AssignmentStatus;
  a_created_at : jstr;
  a_updated_at : jstr
}.

Record SubmissionVersion := mkSubmissionVersion {
  version_id : jstr;
  version_number : Z;
  doc_json : jsval;
  plaintext : jstr;
  change_note : option jstr;
  late : bool;
  version_created_at : jstr
}.

Record Grade := mkGrade {
  grade_id : jstr;
  points : option jsnum;
  grade_label : option jstr;
  feedback : jstr;
  published : bool;
  grade_updated_at : jstr
}.

Inductive SubmissionStatus := SDraft | SSubmitted | SResubmitted | SGraded | SWithdrawn.

Record Submission := mkSubmission {
  submission_id : jstr;
  s_assignment_id : jstr;
  s_assignment_title : jstr;
  s_student_id : jstr;
  s_student_name : jstr;
  s_status : SubmissionStatus;
  s_version : option SubmissionVersion;
  s_grade : option Grade;
  submitted_at : option jstr;
  s_updated_at : jstr
}.

Inductive LiveSessionTaskKind := TInstruction | TAssignment | TMaterial | TQuiz.
Inductive LiveSessionTaskState := TOpened | TInProgress | TCompleted | TFailed.

Record LiveSessionTask := mkLiveSessionTask {
  task_id : jstr;
  revision : Z;
  task_kind : LiveSessionTaskKind;
  target_id : option jstr;
  task_title : jstr;
  task_instructions : jstr;
  task_created_at : jstr
}.

Record LiveSessionTaskAcknowledgement := mkAck {
  ack_revision : Z;
  ack_state : LiveSessionTaskState;
  ack_updated_at : jstr
}.

Record LiveSession := mkLiveSession {
  live_id : jstr;
  live_classroom_id : jstr;
  live_classroom_name : jstr;
  module_id : jstr;
  module_name : jstr;
  duration_minutes : Z;
  join_code : jstr;
  starts_at : jstr;
  ends_at : jstr;
  ended_at : option jstr;
  server_now : option jstr;
  current_task : option LiveSessionTask;
  student_task_state : option LiveSessionTaskAcknowledgement;
  student_joined : option bool
}.

Record LiveSessionResult := mkLiveSessionResult {
  result_score : jsnum;
  result_elapsed_seconds : Z;
  task_revision : option Z;
  result_submitted_at : jstr
}.

Inductive NodeKind := NFolder | NNote | NPdf | NDeck.

Record StudyNode := mkStudyNode {
  node_id : jstr;
  node_owner_id : option jstr;
  node_parent_id : option jstr;
  node_classroom_id : option jstr;
  node_name : jstr;
  node_kind : NodeKind;
  node_position : Z;
  node_icon : option jstr;
  node_created_at : jstr;
  node_updated_at : jstr
}.

Record NoteBody := mkNoteBody { body_doc : jsval; body_text : jstr; body_updated_at : jstr }.

Record Card := mkCard {
  card_id : jstr;
  deck_node_id : jstr;
  front : jstr;
  back : jstr;
  source_node_id : option jstr;
  source_excerpt : option jstr;
  by_ai : bool
}.

#[export] Instance Role_eq : EqDecision Role. Proof. solve_decision. Defined.
#[export] Instance User_eq : EqDecision User. Proof. solve_decision. Defined.
#[export] Instance AssignmentStatus_eq : EqDecision AssignmentStatus. Proof. solve_decision. Defined.
#[export] Instance SubmissionStatus_eq : EqDecision SubmissionStatus. Proof. solve_decision. Defined.
#[export] Instance TaskKind_eq : EqDecision LiveSessionTaskKind. Proof. solve_decision. Defined.
#[export] Instance TaskState_eq : EqDecision LiveSessionTaskState. Proof. solve_decision. Defined.
#[export] Instance NodeKind_eq : EqDecision NodeKind. Proof. solve_decision. Defined.
