(* ===== verification/ClassroomState.v ===== *)
(** * Classroom state ([apps/forge/src/classrooms/classroomState.ts])

    The keys under which a student's classrooms are cached and queued, which
    failures are retried, the clock of a live session and the check of an
    activity's result. *)

From Stdlib Require Import QArith Qround.
From S2P Require Import Prelude JsString JsNumber Uri Locale Types.
Local Open Scope Z_scope.

(** ** Keys *)

(** [None] where [encodeURIComponent] throws. *)
Definition classroomScope (baseUrl userId : jstr) : option jstr :=
  e ← encodeURIComponent baseUrl; Some (js "student:" ++ e ++ js ":" ++ userId ++ js ":").

Inductive CacheName := CClassrooms | CAssignments | CSubmissions | CTree | CLiveSession.
Definition cache_name (n : CacheName) : jstr :=
  match n with
  | CClassrooms => js "classrooms" | CAssignments => js "assignments"
  | CSubmissions => js "submissions" | CTree => js "tree" | CLiveSession => js "live-session"
  end.
Definition classroomCacheKey (scope : jstr) (name : CacheName) : jstr :=
  scope ++ js "cache:" ++ cache_name name.
Definition submissionOutboxKey (scope assignmentId : jstr) : jstr :=
  scope ++ js "submission:" ++ assignmentId.
Definition belongsToClassroomScope (key scope : jstr) : bool := starts_with scope key.

(** ** Retries *)

Definition shouldRetryOutboxFailure (status : Z) (offline : bool) : bool :=
  offline || (status =? 408) || (status =? 425) || (status =? 429) || (500 <=? status).

(** ** Live sessions *)

Inductive StudentLiveModule := LClassroom | LTyping | LEnglish | LGames | LUnsupported.
Definition studentLiveModule (moduleId : jstr) : StudentLiveModule :=
  if seqb moduleId (js "classroom.live") then LClassroom
  else if seqb moduleId (js "typing") || seqb moduleId (js "typing.practice") then LTyping
  else if seqb moduleId (js "english") || seqb moduleId (js "english.practice") then LEnglish
  else if seqb moduleId (js "games") || seqb moduleId (js "games.practice") then LGames
  else LUnsupported.

Inductive ClockState := ClockEnded | ClockExpired | ClockActive.
#[export] Instance ClockState_eq : EqDecision ClockState. Proof. solve_decision. Defined.

(** [Math.ceil(ms / 1000)]. *)
Definition ceil_seconds (ms : Z) : Z := - ((- ms) / 1000).

Definition liveSessionClock `{Dates} (session : LiveSession) (nowMs : Z) : ClockState * Z :=
  if match ended_at session with Some e => truthy e | None => false end then (ClockEnded, 0)
  else
    match date_parse (ends_at session) with
    | None => (ClockExpired, 0)
    | Some endMs =>
      if endMs <=? nowMs then (ClockExpired, 0)
      else (ClockActive, Z.max 0 (ceil_seconds (endMs - nowMs)))
    end.

(** What is sent: the score and the whole seconds, or nothing. *)
Definition checkedLiveResult (score : option jsnum) (elapsedSeconds : jsnum) (durationMinutes : Z)
    : option (jsnum * Z) :=
  match score with
  | None => None
  | Some score =>
    if negb (is_finite score) || num_lt score (num 0) || num_lt (num 100) score then None
    else
      match elapsedSeconds with
      | Fin q => if num_lt elapsedSeconds (num 0) then None
                 else Some (score, Z.min (Qround_js q) (durationMinutes * 60))
      | _ => None
      end
  end.

(** The deadline as shown; [medium_short] is [Intl.DateTimeFormat] of the
    computer's locale. *)
Definition formatAssignmentDue `{Dates} (medium_short : Z -> jstr) (value : option jstr) : jstr :=
  match value with
  | Some ((_ :: _) as text) =>
    match date_parse text with None => js "No deadline" | Some ms => medium_short ms end
  | _ => js "No deadline"
  end.

(** ** Facts *)

Definition text_ok (s : jstr) : Prop := Forall (fun c => (c < 65536)%N) s.

Lemma cut_at_colon (a b x y : jstr) : ~ 58%N ∈ a -> ~ 58%N ∈ b ->
  a ++ 58%N :: x = b ++ 58%N :: y -> a = b /\ x = y.
Proof.
  revert b. induction a as [|c a IH]; intros [|d b] Ha Hb E; simpl in E.
  - by injection E as ->.
  - injection E as <- _. exfalso. apply Hb. left.
  - injection E as -> _. exfalso. apply Ha. left.
  - injection E as -> E. destruct (IH b) as [-> ->]; [| |done|done].
    + intros ?. apply Ha. by right.
    + intros ?. apply Hb. by right.
Qed.

Lemma encoded_no_colon s e : text_ok s -> encodeURIComponent s = Some e -> ~ 58%N ∈ e.
Proof.
  intros Hs He Hin. pose proof (encode_chars s e Hs He) as H.
  apply forallb_Forall in H. rewrite Forall_forall in H. by apply H in Hin.
Qed.

(** Two accounts never share cached or queued classroom data: a key made
    under one scope belongs to another scope only if the Host address and the
    user are the same, for user ids without a colon.  This is what keeps the
    second student on a shared computer away from the first one's outbox. *)
Theorem scope_isolation (base base' user user' scope scope' : jstr) (key : jstr) :
  text_ok base -> text_ok base' -> ~ 58%N ∈ user -> ~ 58%N ∈ user' ->
  classroomScope base user = Some scope -> classroomScope base' user' = Some scope' ->
  (exists a, key = submissionOutboxKey scope a) \/ (exists n, key = classroomCacheKey scope n) ->
  belongsToClassroomScope key scope' = true <-> base = base' /\ user = user'.
Proof.
  intros Hb Hb' Hu Hu'. unfold classroomScope.
  destruct (encodeURIComponent base) as [e|] eqn:E; [|done]. cbn [mbind option_bind].
  destruct (encodeURIComponent base') as [e'|] eqn:E'; [|done]. cbn [mbind option_bind].
  intros Hs Hs' Hkey. apply (inj Some) in Hs, Hs'. subst scope scope'.
  assert (exists rest, key = (js "student:" ++ e ++ js ":" ++ user ++ js ":") ++ rest) as (rest & ->).
  { destruct Hkey as [(a & ->)|(n & ->)]; eexists; reflexivity. }
  clear Hkey. unfold belongsToClassroomScope. rewrite starts_with_spec. split.
  - intros (r & H). rewrite <- !app_assoc in H. apply app_inv_head in H.
    change (js ":") with [58%N] in H. cbn [app] in H.
    apply cut_at_colon in H as [-> H]; [|exact (encoded_no_colon _ _ Hb E)|exact (encoded_no_colon _ _ Hb' E')].
    apply cut_at_colon in H as [-> _]; [|done..].
    split; [|done]. exact (encode_inj _ _ _ Hb Hb' E E').
  - intros [-> ->]. rewrite E in E'. apply (inj Some) in E' as ->. by eexists.
Qed.

Lemma ceil_seconds_bounds ms : 0 < ms -> 0 < ceil_seconds ms /\ 1000 * ceil_seconds ms - 1000 < ms <= 1000 * ceil_seconds ms.
Proof. unfold ceil_seconds. intros H. Z.div_mod_to_equations. lia. Qed.

(** The clock of a live session is active exactly while the session has
    not been ended and its end lies ahead; the seconds it shows are then the
    least whole number that covers the time left, and 0 otherwise. *)
Theorem live_clock_exact `{Dates} (session : LiveSession) (nowMs : Z) :
  let '(state, seconds) := liveSessionClock session nowMs in
  (state = ClockActive <->
     (ended_at session = None \/ ended_at session = Some []) /\
     exists endMs, date_parse (ends_at session) = Some endMs /\ nowMs < endMs) /\
  (state <> ClockActive -> seconds = 0) /\
  (forall endMs, state = ClockActive -> date_parse (ends_at session) = Some endMs ->
     1 <= seconds /\ 1000 * seconds - 1000 < endMs - nowMs <= 1000 * seconds).
Proof.
  unfold liveSessionClock.
  assert (Hended : (match ended_at session with Some e => truthy e | None => false end) = false <->
                   ended_at session = None \/ ended_at session = Some []).
  { destruct (ended_at session) as [[|c e]|]; split; auto; try done. by intros [|]. }
  destruct (match ended_at session with Some e => truthy e | None => false end) eqn:Ee.
  { split; [split; [done|]|split; done]. intros [Hn _]. by apply Hended in Hn. }
  destruct (date_parse (ends_at session)) as [endMs|] eqn:Ed.
  - destruct (Z.leb_spec endMs nowMs).
    + split; [split; [done|]|split; done]. intros [_ (x & [= <-] & ?)]. lia.
    + pose proof (ceil_seconds_bounds (endMs - nowMs) ltac:(lia)).
      split; [split; [|done]|split; [done|]].
      * intros _. split; [by apply Hended|]. exists endMs. auto.
      * intros x _ [= <-]. rewrite Z.max_r by lia. lia.
  - split; [split; [done|]|split; done]. by intros [_ (x & ? & _)].
Qed.

(** A result is only sent with a finite score from 0 to 100 and a time
    from 0 to the length of the session; anything else sends nothing. *)
Theorem live_result_in_range (score : option jsnum) (elapsed : jsnum) (duration : Z) (s : jsnum) (t : Z) :
  0 <= duration -> checkedLiveResult score elapsed duration = Some (s, t) ->
  score = Some s /\ is_finite s = true /\ num_lt s (num 0) = false /\ num_lt (num 100) s = false /\
  0 <= t <= duration * 60.
Proof.
  intros Hd. unfold checkedLiveResult. destruct score as [x|]; [|done].
  destruct (negb (is_finite x) || _ || _) eqn:E; [done|]. bool_hyps.
  destruct elapsed as [| |q]; [done..|]. destruct (num_lt (Fin q) (num 0)) eqn:Eq; [done|].
  intros [= <- <-]. repeat split; try done; [|lia].
  apply Z.min_glb; [|lia]. unfold Qround_js. unfold num_lt, num in Eq. apply negb_false_iff, Qle_bool_iff in Eq.
  change 0 with (Qfloor 0). apply Qfloor_resp_le.
  apply Qle_trans with q; [exact Eq|]. rewrite <- (Qplus_0_r q) at 1. apply Qplus_le_r. discriminate.
Qed.

(** ** Concrete accounts and sessions *)

Module ClassroomWitnesses.
Definition host : jstr := js "http://192.168.1.20:7373".
Definition scope_of (u : jstr) : jstr := default [] (classroomScope host u).

Lemma chars_ok s : forallb (fun c => (c <? 65536)%N) s = true -> text_ok s.
Proof. intros H. apply forallb_Forall in H. eapply Forall_impl; [exact H|]. intros c Hc. by apply N.ltb_lt. Qed.
Lemma no_colon s : forallb (fun c => negb (c =? 58)%N) s = true -> ~ 58%N ∈ s.
Proof. intros H Hin. apply forallb_Forall in H. rewrite Forall_forall in H. by specialize (H _ Hin). Qed.

(** The work one student queued is not the other one's. *)
Lemma scope_isolation_witness :
  belongsToClassroomScope (submissionOutboxKey (scope_of (js "u1")) (js "a7")) (scope_of (js "u2")) = true <->
  host = host /\ js "u1" = js "u2".
Proof.
  refine (scope_isolation host host (js "u1") (js "u2") (scope_of (js "u1")) (scope_of (js "u2")) _ _ _ _ _ _ _ _).
  - apply chars_ok. vm_compute. reflexivity.
  - apply chars_ok. vm_compute. reflexivity.
  - apply no_colon. vm_compute. reflexivity.
  - apply no_colon. vm_compute. reflexivity.
  - vm_compute. reflexivity.
  - vm_compute. reflexivity.
  - left. eexists. reflexivity.
Defined.

Lemma live_result_in_range_witness :
  Some (num 85) = Some (num 85) /\ is_finite (num 85) = true /\ num_lt (num 85) (num 0) = false /\
  num_lt (num 100) (num 85) = false /\ 0 <= 1800 <= 30 * 60.
Proof.
  apply (live_result_in_range (Some (num 85)) (num 4000) 30 (num 85) 1800); [discriminate|vm_compute; reflexivity].
Defined.
End ClassroomWitnesses.
