(* ===== verification/LiveSession.v ===== *)
(** * The live-session controller ([apps/forge/src/classrooms/LiveSession.tsx])

    What [useStudentLiveSession] keeps and does, one function per callback.
    A callback that awaits the Host is split at the [await]: [..._start] runs
    up to it and returns the request with what the closure captured, and
    [..._finish] is the continuation, run on whatever the state has become.
    The hook's memoised callbacks see [saved] as of the last render, which is
    the [saved] of the state they are called in; [setSaved] with a function
    sees the current one.  [disk] is the value last given to [cacheSet]; a
    value read back from it is one this controller wrote. *)

From S2P Require Import Prelude JsString JsNumber Locale Types ClassroomState.
Local Open Scope Z_scope.

Inductive ResultState :=
  | RActive | RSubmitting | RSubmitted | RExpired | REnded | RUnscored | RFailed.
#[export] Instance ResultState_eq : EqDecision ResultState. Proof. solve_decision. Defined.

Record CachedLiveSession := mkCached {
  c_session : LiveSession;
  c_joined : bool;
  c_offset : Z;
  c_result : option LiveSessionResult;
  c_state : ResultState;
  c_attempted : bool;
  c_message : jstr
}.

Record Controller := mkController {
  saved : option CachedLiveSession;
  sessions : list LiveSession;
  now : Z;
  discoverySequence : Z;
  mutationSequence : Z;
  attempted : bool;
  disk : option CachedLiveSession
}.

Definition set_saved (s : option CachedLiveSession) (c : Controller) : Controller :=
  mkController s (sessions c) (now c) (discoverySequence c) (mutationSequence c) (attempted c) (disk c).
Definition set_sessions (l : list LiveSession) (c : Controller) : Controller :=
  mkController (saved c) l (now c) (discoverySequence c) (mutationSequence c) (attempted c) (disk c).
Definition set_now (t : Z) (c : Controller) : Controller :=
  mkController (saved c) (sessions c) t (discoverySequence c) (mutationSequence c) (attempted c) (disk c).
Definition set_sequences (d m : Z) (c : Controller) : Controller :=
  mkController (saved c) (sessions c) (now c) d m (attempted c) (disk c).
Definition set_attempted (a : bool) (c : Controller) : Controller :=
  mkController (saved c) (sessions c) (now c) (discoverySequence c) (mutationSequence c) a (disk c).
Definition cacheSet (s : option CachedLiveSession) (c : Controller) : Controller :=
  mkController (saved c) (sessions c) (now c) (discoverySequence c) (mutationSequence c) (attempted c) s.

(** What a continuation may be waiting for. *)
Inductive Request :=
  | AskSessions (sequence : Z)
  | AskAcknowledge (session_id : jstr) (revision : Z) (state : LiveSessionTaskState) (sequence : Z)
  | AskSubmit (captured : CachedLiveSession) (score : jsnum) (seconds : Z).

(** What discovery may come back with: the sessions of a current Host; a 404
    of an older Host and then, room by room, a session, nothing or a failure
    (or no list of rooms); or another failure. *)
Inductive DiscoveryReply :=
  | Sessions (found : list LiveSession)
  | OldHost (rooms : option (list (option (option LiveSession))))
  | Unreachable.

Section controller.
Context `{Dates}.

Definition validCachedSession (c : CachedLiveSession) : bool :=
  truthy (live_id (c_session c)) && truthy (live_classroom_id (c_session c)) &&
  truthy (ends_at (c_session c)).

Definition clockOffset (session : LiveSession) (date_now : Z) : Z :=
  match server_now session with
  | Some text =>
    if truthy text then match date_parse text with Some ms => ms - date_now | None => 0 end else 0
  | None => 0
  end.

Definition task_revision (s : LiveSession) : Z :=
  match current_task s with Some t => revision t | None => 0 end.
Definition with_task (t : option LiveSessionTask) (a : option LiveSessionTaskAcknowledgement)
    (s : LiveSession) : LiveSession :=
  mkLiveSession (live_id s) (live_classroom_id s) (live_classroom_name s) (module_id s) (module_name s)
    (duration_minutes s) (join_code s) (starts_at s) (ends_at s) (ended_at s) (server_now s) t a
    (student_joined s).
Definition joined_session (s : LiveSession) : LiveSession :=
  mkLiveSession (live_id s) (live_classroom_id s) (live_classroom_name s) (module_id s) (module_name s)
    (duration_minutes s) (join_code s) (starts_at s) (ends_at s) (ended_at s) (server_now s)
    (current_task s) (student_task_state s) (Some true).

Definition mergeSession (current incoming : LiveSession) : LiveSession :=
  if task_revision incoming <? task_revision current
  then with_task (current_task current) (student_task_state current) incoming
  else if (task_revision current =? task_revision incoming) &&
          match student_task_state current, student_task_state incoming with
          | Some a, Some b => date_after (ack_updated_at a) (ack_updated_at b)
          | Some _, None => true
          | None, _ => false
          end
  then with_task (current_task incoming) (student_task_state current) incoming
  else incoming.

Definition store (next : option CachedLiveSession) (c : Controller) : Controller :=
  cacheSet next (set_attempted (match next with Some s => c_attempted s | None => false end)
                   (set_saved next c)).

(** *** Discovery *)

Definition discover_start (online : bool) (c : Controller) : Controller * list Request :=
  if negb online then (c, [])
  else
    let sequence := discoverySequence c + 1 in
    (set_sequences sequence (mutationSequence c) c, [AskSessions sequence]).

Definition found_sessions (r : DiscoveryReply) : option (list LiveSession) :=
  match r with
  | Sessions found => Some found
  | OldHost (Some responses) =>
    Some (filter_map (fun r => match r with Some (Some s) => Some (joined_session s) | _ => None end) responses)
  | OldHost None | Unreachable => None
  end.

Definition by_start (l r : LiveSession) : Z :=
  match date_parse (starts_at r), date_parse (starts_at l) with
  | Some b, Some a => b - a
  | _, _ => 0
  end.

Definition choose (found : list LiveSession) (current : option CachedLiveSession) : option LiveSession :=
  match find (fun item => match current with
                          | Some c => seqb (live_id item) (live_id (c_session c))
                          | None => false
                          end) found with
  | Some s => Some s
  | None => head found
  end.

Definition fresh (session : LiveSession) (joined : bool) (date_now : Z) (message : jstr) : CachedLiveSession :=
  mkCached session joined (clockOffset session date_now) None RActive false message.

Definition adopt (chosen : LiveSession) (current : option CachedLiveSession) (date_now : Z) : CachedLiveSession :=
  match current with
  | Some c =>
    if seqb (live_id (c_session c)) (live_id chosen)
    then mkCached (mergeSession (c_session c) chosen) (default (c_joined c) (student_joined chosen))
           (clockOffset chosen date_now) (c_result c) (c_state c) (c_attempted c) (c_message c)
    else fresh chosen (default false (student_joined chosen)) date_now []
  | None => fresh chosen (default false (student_joined chosen)) date_now []
  end.

Definition discover_finish (sequence date_now : Z) (r : DiscoveryReply) (c : Controller) : Controller :=
  match found_sessions r with
  | None => c
  | Some found =>
    if negb (sequence =? discoverySequence c) then c
    else
      let found := sort_js by_start found in
      let c := set_sessions found c in
      let next := (fun s => adopt s (saved c) date_now) <$> choose found (saved c) in
      cacheSet next (set_saved next c)
  end.

(** *** Mounting: the cache is read, then discovery starts *)

Definition mount_start (c : Controller) : Controller * Z :=
  let sequence := discoverySequence c + 1 in
  (set_sequences sequence (mutationSequence c) c, sequence).
Definition mount_finish (online : bool) (sequence : Z) (cached : option CachedLiveSession) (c : Controller)
    : Controller * list Request :=
  let c := match cached with
           | Some v => if (sequence =? discoverySequence c) && validCachedSession v
                       then store (Some v) c else c
           | None => c
           end in
  discover_start online c.
Definition unmount (c : Controller) : Controller :=
  set_sequences (discoverySequence c + 1) (mutationSequence c + 1) c.

(** *** What is shown *)

Definition visibleState (c : Controller) : option ResultState :=
  match saved c with
  | None => None
  | Some s =>
    Some match fst (liveSessionClock (c_session s) (now c + c_offset s)) with
         | ClockActive => c_state s
         | ClockEnded => REnded
         | ClockExpired => RExpired
         end
  end.
Definition visibly_active (c : Controller) : bool := bool_decide (visibleState c = Some RActive).

(** *** Choosing and joining *)

Definition selectSession (id : jstr) (date_now : Z) (c : Controller) : Controller :=
  match find (fun item => seqb (live_id item) id) (sessions c) with
  | None => c
  | Some s => store (Some (fresh s (default false (student_joined s)) date_now [])) c
  end.

Definition join_finish (session : LiveSession) (date_now : Z) (c : Controller) : Controller :=
  let c := store (Some (fresh session true date_now (js "Joined live classroom."))) c in
  set_sessions (session :: List.filter (fun item => negb (seqb (live_id item) (live_id session))) (sessions c)) c.

Definition joinDiscovered_start (c : Controller) : option CachedLiveSession :=
  match saved c with Some s => if visibly_active c then Some s else None | None => None end.
Definition joinDiscovered_finish (captured : CachedLiveSession) (session : LiveSession) (date_now : Z)
    (c : Controller) : Controller :=
  store (Some (mkCached session true (clockOffset session date_now) (c_result captured) (c_state captured)
                 (c_attempted captured) (js "Joined live classroom."))) c.

(** *** Acknowledging a task *)

Definition acknowledgeTask_start (online : bool) (state : LiveSessionTaskState) (c : Controller)
    : Controller * list Request :=
  match saved c with
  | Some s =>
    match current_task (c_session s) with
    | Some task =>
      if c_joined s && online && visibly_active c then
        let sequence := mutationSequence c + 1 in
        (set_sequences (discoverySequence c) sequence c,
         [AskAcknowledge (live_id (c_session s)) (revision task) state sequence])
      else (c, [])
    | None => (c, [])
    end
  | None => (c, [])
  end.

Definition acknowledgeTask_finish (session_id : jstr) (rev sequence : Z)
    (a : LiveSessionTaskAcknowledgement) (c : Controller) : Controller :=
  if negb (sequence =? mutationSequence c) then c
  else
    match saved c with
    | None => c
    | Some s =>
      if negb (seqb (live_id (c_session s)) session_id) ||
         negb (match current_task (c_session s) with Some t => revision t =? rev | None => false end)
      then c
      else
        let next := mkCached (with_task (current_task (c_session s)) (Some a) (c_session s)) (c_joined s)
          (c_offset s) (c_result s) (c_state s) (c_attempted s)
          (match ack_state a with TCompleted => js "Task marked complete." | _ => c_message s end) in
        cacheSet (Some next) (set_saved (Some next) c)
    end.

(** The 409 of an outdated revision starts a discovery. *)
Definition acknowledgeTask_failed (online : bool) (sequence : Z) (status : option Z) (c : Controller)
    : Controller * list Request :=
  if (sequence =? mutationSequence c) && bool_decide (status = Some 409) then discover_start online c
  else (c, []).

(** *** Sending a result *)

Definition with_result (s : CachedLiveSession) (attempted : bool) (result : option LiveSessionResult)
    (state : ResultState) (message : jstr) : CachedLiveSession :=
  mkCached (c_session s) (c_joined s) (c_offset s) result state attempted message.

Definition submitResult_start (online : bool) (score : option jsnum) (elapsedSeconds : jsnum) (c : Controller)
    : Controller * list Request :=
  match saved c with
  | None => (c, [])
  | Some s =>
    if attempted c || negb (visibly_active c) then (c, [])
    else
      match checkedLiveResult score elapsedSeconds (duration_minutes (c_session s)) with
      | None => (store (Some (with_result s (c_attempted s) (c_result s) RUnscored
          (js "This activity did not produce an objective score, so no result was sent."))) c, [])
      | Some (value, seconds) =>
        if negb online
        then (store (Some (with_result s (c_attempted s) (c_result s) RFailed
          (js "Reconnect before the class timer ends to send this result."))) c, [])
        else
          (store (Some (with_result s true (c_result s) RSubmitting (js "Sending result…")))
             (set_attempted true c),
           [AskSubmit s value seconds])
      end
  end.

Definition submitResult_finish (captured : CachedLiveSession) (reply : option LiveSessionResult)
    (c : Controller) : Controller :=
  match reply with
  | Some submitted => store (Some (with_result captured true (Some submitted) RSubmitted
      (js "Result submitted to your teacher."))) c
  | None => store (Some (with_result captured true None RFailed
      (js "Cinder could not confirm that the result reached the Host."))) c
  end.

(** *** Everything that can happen *)

Inductive event :=
  | Tick (t : Z)
  | Discover (online : bool)
  | Discovered (sequence date_now : Z) (r : DiscoveryReply)
  | Mount
  | Mounted (online : bool) (sequence : Z) (cached : option CachedLiveSession)
  | Unmount
  | Select (id : jstr) (date_now : Z)
  | Joined (session : LiveSession) (date_now : Z)
  | JoinedDiscovered (captured : CachedLiveSession) (session : LiveSession) (date_now : Z)
  | Acknowledge (online : bool) (state : LiveSessionTaskState)
  | Acknowledged (session_id : jstr) (rev sequence : Z) (a : LiveSessionTaskAcknowledgement)
  | AcknowledgeFailed (online : bool) (sequence : Z) (status : option Z)
  | Submit (online : bool) (score : option jsnum) (elapsedSeconds : jsnum)
  | Submitted (captured : CachedLiveSession) (reply : option LiveSessionResult).

Definition handle (e : event) (c : Controller) : Controller * list Request :=
  match e with
  | Tick t => (set_now t c, [])
  | Discover online => discover_start online c
  | Discovered sequence date_now r => (discover_finish sequence date_now r c, [])
  | Mount => (fst (mount_start c), [])
  | Mounted online sequence cached => mount_finish online sequence cached c
  | Unmount => (unmount c, [])
  | Select id date_now => (selectSession id date_now c, [])
  | Joined session date_now => (join_finish session date_now c, [])
  | JoinedDiscovered captured session date_now => (joinDiscovered_finish captured session date_now c, [])
  | Acknowledge online state => acknowledgeTask_start online state c
  | Acknowledged session_id rev sequence a => (acknowledgeTask_finish session_id rev sequence a c, [])
  | AcknowledgeFailed online sequence status => acknowledgeTask_failed online sequence status c
  | Submit online score elapsedSeconds => submitResult_start online score elapsedSeconds c
  | Submitted captured reply => (submitResult_finish captured reply c, [])
  end.

Fixpoint run (es : list event) (c : Controller) : Controller * list Request :=
  match es with
  | [] => (c, [])
  | e :: es' =>
    let '(c1, r1) := handle e c in
    let '(c2, r2) := run es' c1 in (c2, r1 ++ r2)
  end.
End controller.

Definition initial (t : Z) : Controller := mkController None [] t 0 0 false None.

(** ** Theorems *)

Module LiveFacts.
Section facts.
Context `{Dates}.

Lemma task_revision_with t a s : task_revision (with_task t a s) = match t with Some x => revision x | None => 0 end.
Proof. done. Qed.

Lemma merge_revision current incoming :
  task_revision (mergeSession current incoming) = Z.max (task_revision current) (task_revision incoming).
Proof.
  unfold mergeSession. destruct (Z.ltb_spec (task_revision incoming) (task_revision current)).
  - rewrite task_revision_with. fold (task_revision current). lia.
  - destruct (_ && _) eqn:E; [rewrite task_revision_with; fold (task_revision incoming)|]; lia.
Qed.

Lemma merge_id current incoming : live_id (mergeSession current incoming) = live_id incoming.
Proof. unfold mergeSession. destruct (_ <? _); [done|]. by destruct (_ && _). Qed.

(** A poll never takes a newer task away: the merged session has the
    later task revision of the two, keeps the student's own acknowledgement
    when the poll does not know a later one for that revision, and merging
    the same poll twice changes nothing. *)
Theorem merge_keeps_newest (current incoming : LiveSession) :
  task_revision (mergeSession current incoming) = Z.max (task_revision current) (task_revision incoming) /\
  mergeSession (mergeSession current incoming) incoming = mergeSession current incoming /\
  (forall a, student_task_state current = Some a -> task_revision incoming <= task_revision current ->
   exists b, student_task_state (mergeSession current incoming) = Some b /\
     date_after (ack_updated_at a) (ack_updated_at b) = false).
Proof.
  split; [apply merge_revision|]. split.
  - unfold mergeSession at 2 3. destruct (Z.ltb_spec (task_revision incoming) (task_revision current)) as [Hl|Hl].
    + unfold mergeSession. rewrite task_revision_with. fold (task_revision current).
      by replace (task_revision incoming <? task_revision current) with true by lia.
    + destruct (_ && _) eqn:E.
      * unfold mergeSession. rewrite task_revision_with. fold (task_revision incoming).
        rewrite Z.ltb_irrefl, Z.eqb_refl. cbn [student_task_state with_task andb].
        apply andb_true_iff in E as [_ E]. by rewrite E.
      * unfold mergeSession. rewrite Z.ltb_irrefl, Z.eqb_refl. cbn [andb].
        destruct (student_task_state incoming) as [b|]; [|done].
        unfold date_after. destruct (date_parse _) as [x|]; [|done]. by rewrite Z.ltb_irrefl.
  - intros a Ha Hr. unfold mergeSession.
    assert (Hirr : date_after (ack_updated_at a) (ack_updated_at a) = false).
    { unfold date_after. destruct (date_parse _); [apply Z.ltb_irrefl|done]. }
    destruct (Z.ltb_spec (task_revision incoming) (task_revision current)).
    + exists a. cbn [student_task_state with_task]. done.
    + replace (task_revision current =? task_revision incoming) with true by lia. rewrite Ha. cbn [andb].
      destruct (student_task_state incoming) as [b|] eqn:Eb; [|by exists a].
      destruct (date_after (ack_updated_at a) (ack_updated_at b)) eqn:Ed; [by exists a|by exists b].
Qed.

Definition by_id (id : jstr) (s : LiveSession) : bool := seqb (live_id s) id.

(** A discovery that was overtaken by a later one, or that failed,
    changes nothing.  One that counts keeps the session the student is in as
    long as the Host still lists it, with its result, state and attempt, and
    with the later task; otherwise it moves on to a listed session, or to
    none exactly when none is listed. *)
Theorem discovery_keeps_session (sequence date_now : Z) (r : DiscoveryReply) (c : Controller) :
  (sequence <> discoverySequence c \/ found_sessions r = None -> discover_finish sequence date_now r c = c) /\
  (forall found, found_sessions r = Some found -> sequence = discoverySequence c ->
    (saved (discover_finish sequence date_now r c) = None <-> found = []) /\
    (forall s, saved c = Some s -> (exists x, x ∈ found /\ live_id x = live_id (c_session s)) ->
     exists s', saved (discover_finish sequence date_now r c) = Some s' /\
       live_id (c_session s') = live_id (c_session s) /\
       task_revision (c_session s) <= task_revision (c_session s') /\
       c_result s' = c_result s /\ c_state s' = c_state s /\ c_attempted s' = c_attempted s) /\
    (forall s', saved (discover_finish sequence date_now r c) = Some s' ->
     exists x, x ∈ found /\ live_id x = live_id (c_session s'))).
Proof.
  unfold discover_finish. split.
  - intros [Hs| ->]; [|done]. destruct (found_sessions r); [|done].
    by replace (sequence =? discoverySequence c) with false by lia.
  - intros found -> ->. rewrite Z.eqb_refl. cbn [negb]. cbv zeta. unfold cacheSet, set_saved. cbn [saved].
    set (sorted := sort_js by_start found).
    assert (Hperm : sorted ≡ₚ found) by apply sort_js_perm.
    assert (Hin : forall x, x ∈ sorted <-> x ∈ found) by (intros; by rewrite Hperm).
    change (saved (set_sessions sorted c)) with (saved c).
    assert (Hchoose : match choose sorted (saved c) with Some x => x ∈ found | None => found = [] end).
    { unfold choose. destruct (find _ sorted) as [x|] eqn:Ef.
      - apply find_Some in Ef as [Hx _]. by apply Hin.
      - destruct sorted as [|y l]; cbn [head]; [|apply Hin; left].
        destruct found as [|z l]; [done|]. exfalso. apply (elem_of_nil z), Hin. left. }
    assert (Hadopt : forall x, live_id (c_session (adopt x (saved c) date_now)) = live_id x).
    { intros x. unfold adopt. destruct (saved c) as [s|]; [|done]. destruct (seqb _ _); [|done]. apply merge_id. }
    split; [|split].
    + destruct (choose sorted (saved c)) as [x|]; [|done]. split; [done|]. intros ->. by apply elem_of_nil in Hchoose.
    + intros s Hs (x & Hx & Hid). rewrite Hs in *. unfold choose in *.
      destruct (find _ sorted) as [y|] eqn:Ef.
      2:{ exfalso. apply Hin in Hx. pose proof (find_None _ sorted x Ef Hx) as Hf. by apply seqb_neq in Hf. }
      apply find_Some in Ef as [Hy Hyid]. apply seqb_eq in Hyid. eexists. split; [reflexivity|].
      unfold adopt. rewrite <- Hyid, seqb_refl. cbn [c_session c_result c_state c_attempted].
      rewrite merge_id, merge_revision. repeat split; try done. lia.
    + intros s' Hs'. destruct (choose sorted (saved c)) as [x|]; [|done]. injection Hs' as <-.
      exists x. split; [done|]. by rewrite Hadopt.
Qed.

(** *** One result at a time *)

(** Events other than the ones that put a stored session back: choosing,
    joining and reading the cache. *)
Definition keeps_session (e : event) : bool :=
  match e with
  | Select _ _ | Joined _ _ | JoinedDiscovered _ _ _ | Mounted _ _ _ => false
  | _ => true
  end.
Definition is_submit (r : Request) : bool := match r with AskSubmit _ _ _ => true | _ => false end.
Definition submits (rs : list Request) : nat := length (List.filter is_submit rs).

Lemma discover_start_attempted online c :
  attempted (fst (discover_start online c)) = attempted c /\ submits (snd (discover_start online c)) = 0%nat.
Proof. unfold discover_start. by destruct online. Qed.

(** Nothing is sent, and a set flag stays set. *)
Ltac quiet := split; [intros; split; done|split; [cbn; lia|done]].

Lemma handle_submits e c : keeps_session e = true ->
  (attempted c = true -> attempted (fst (handle e c)) = true /\ submits (snd (handle e c)) = 0%nat) /\
  (submits (snd (handle e c)) <= 1)%nat /\
  (submits (snd (handle e c)) = 1%nat -> attempted (fst (handle e c)) = true).
Proof.
  destruct e; try done; intros _; cbn [handle fst snd].
  - quiet.
  - destruct (discover_start_attempted online c) as [-> ->]. quiet.
  - unfold discover_finish. destruct (found_sessions r); [|quiet]. destruct (negb _); quiet.
  - quiet.
  - quiet.
  - unfold acknowledgeTask_start. destruct (saved c) as [s|]; [|quiet].
    destruct (current_task _); [|quiet]. destruct (_ && _ && _); quiet.
  - unfold acknowledgeTask_finish. destruct (negb _); [quiet|]. destruct (saved c); [|quiet].
    destruct (_ || _); quiet.
  - unfold acknowledgeTask_failed. destruct (_ && _); [|quiet].
    destruct (discover_start_attempted online c) as [-> ->]. quiet.
  - unfold submitResult_start. destruct (saved c) as [s|]; [|quiet].
    destruct (attempted c) eqn:Ea; cbn [orb]; [quiet|]. destruct (negb (visibly_active c)); [quiet|].
    destruct (checkedLiveResult _ _ _) as [[v t]|]; [|quiet].
    destruct online; cbn [negb]; cbv iota; [|quiet]. split; [done|]. split; [cbn; lia|done].
  - unfold submitResult_finish. destruct reply; quiet.
Qed.

(** As long as no session is chosen, joined or reloaded, at most one
    result is sent, however often the activity reports one and whatever the
    Host and the network do in between. *)
Theorem one_submission (es : list event) (c : Controller) :
  forallb keeps_session es = true ->
  (submits (snd (run es c)) <= (if attempted c then 0 else 1))%nat.
Proof.
  revert c. induction es as [|e es IH]; intros c; [cbn; lia|].
  cbn [forallb run]. intros [He Hes]%andb_true_iff.
  destruct (handle_submits e c He) as (H1 & H2 & H3).
  destruct (handle e c) as [c1 r1]. cbn [fst snd] in *. specialize (IH c1 Hes).
  destruct (run es c1) as [c2 r2]. cbn [snd] in *. unfold submits in *.
  rewrite List.filter_app, length_app. destruct (attempted c).
  - destruct (H1 eq_refl) as [Ha ->]. rewrite Ha in IH. lia.
  - destruct (attempted c1); [lia|]. destruct (length (List.filter is_submit r1)) as [|[|]]; [lia| |lia].
    by specialize (H3 eq_refl).
Qed.
End facts.
End LiveFacts.

(** ** Concrete sessions *)

Module LiveWitnesses.
Import LiveFacts.
#[local] Instance dates : Dates := decimal_dates.

Definition lesson (id : jstr) (starts ends : jstr) (joined : option bool) : LiveSession :=
  mkLiveSession id (js "c1") (js "Maths") (js "typing") (js "Typing") 30 (js "ABC") starts ends None None
    None None joined.
Definition first_lesson : LiveSession := lesson (js "s1") (js "0") (js "1000000") (Some true).
Definition second_lesson : LiveSession := lesson (js "s2") (js "500000") (js "2000000") (Some true).

(** A first lesson is found and its result is sent; then the Host lists the
    second lesson only. *)
Definition one_lesson_later : list event :=
  [Discover true; Discovered 1 0 (Sessions [first_lesson]);
   Submit true (Some (num 90)) (num 60);
   Submitted (adopt first_lesson None 0) (Some (mkLiveSessionResult (num 90) 60 None (js "1")));
   Tick 600000; Discover true; Discovered 2 600000 (Sessions [second_lesson])].

(** After a result was sent in one session, the result of the next one
    is dropped: [discover] takes the new session over with [attempted] false
    but leaves the flag that [submitResult] tests set, so in a joined, active
    session with no attempt on record a submission sends nothing and says
    nothing. *)
Theorem next_session_cannot_submit :
  let '(c, rs) := run one_lesson_later (initial 0) in
  submits rs = 1%nat /\ visibleState c = Some RActive /\
  (option_map (fun s => (live_id (c_session s), c_joined s, c_attempted s)) (saved c) =
     Some (js "s2", true, false)) /\
  handle (Submit true (Some (num 80)) (num 60)) c = (c, []).
Proof. vm_compute. repeat split; reflexivity. Qed.

Lemma one_submission_witness :
  submits (snd (run one_lesson_later (initial 0))) = 1%nat /\
  (submits (snd (run one_lesson_later (initial 0))) <= 1)%nat.
Proof.
  split; [vm_compute; reflexivity|].
  assert (H : forallb keeps_session one_lesson_later = true) by (vm_compute; reflexivity).
  exact (one_submission one_lesson_later (initial 0) H).
Defined.
End LiveWitnesses.
