(* ===== verification/GradebookIntent.v ===== *)
(** * The Gradebook assistant ([apps/teacher/src/gradebookIntent.ts])

    A teacher's sentence ("change 1F to 15", "give Alice full marks on all
    assignments") becomes a list of reviewed actions.  [Cells] models the A1
    addresses, [Headers] the authoritative headers, [Intent] the two
    resolvers; the theorems bound what an action may touch. *)

From Stdlib Require Import QArith Qround Lqa.
From S2P Require Import Prelude JsString JsNumber Regex JsValue Locale Types.
Local Open Scope Z_scope.

(** ** Data (declared in [UniverGradebook.tsx]) *)

Inductive WorkbookCellValue :=
  | CellStr (s : jstr) | CellNum (n : jsnum) | CellBool (b : bool) | CellNull.

Inductive GradebookAction :=
  | SetGrade (student_id assignment_id : jstr) (points : jsnum)
  | AddColumn (title : jstr) (assignment_id : option jstr)
      (values : list (jstr * WorkbookCellValue))
  | UpdateAssignment (assignment_id title : jstr) (max_points : jsnum)
  | SetCell (sheet cell : jstr) (value : WorkbookCellValue).

Record Sheet := mkSheet {
  sheet_name : jstr;
  sheet_range : jstr;
  sheet_values : list (list WorkbookCellValue)
}.

Record GradebookAiContext := mkContext {
  active_sheet : jstr;
  sheets : list Sheet
}.

Record GradebookIntent := mkIntent {
  message : jstr;
  actions : list GradebookAction
}.

Inductive GradebookCellTarget :=
  | Identity (address : jstr)
  | AssignmentHeader (address : jstr) (assignment : Assignment)
  | GradeCell (address : jstr) (assignment : Assignment) (student : User)
  | Custom (address : jstr).

(** [String(v ?? "")] of a cell that may not exist. *)
Definition cell_text (v : option WorkbookCellValue) : jstr :=
  match v with
  | Some (CellStr s) => s
  | Some (CellNum n) => show_num n
  | Some (CellBool b) => if b then js "true" else js "false"
  | Some CellNull | None => []
  end.

(** ** Cell addresses *)

Module Cells.

(** [/^([A-Z]{1,3})([1-9]\d{0,3})$/] and its reverse. *)
Definition re_letters : re := between 1 3 (RSet is_upper).
Definition re_row : re := RSeq (RSet (in_range 49 57)) (upto 3 r_digit).
Definition re_standard : re := seqs [RBegin; RCap 1 re_letters; RCap 2 re_row; REnd].
Definition re_reversed : re := seqs [RBegin; RCap 1 re_row; RCap 2 re_letters; REnd].

Definition groups (r : re) (x : jstr) : option (jstr * jstr) :=
  '(_, t) ← exec r x;
  Some (default [] (group 1 t), default [] (group 2 t)).

Section cells.
Context `{Locale}.

Definition compact_address (value : jstr) : jstr :=
  to_upper (replace_chars (fun c => (c =? 36)%N || is_space c) (fun _ => []) value).

Definition normalizeCellAddress (value : jstr) : option jstr :=
  let compact := compact_address value in
  match groups re_standard compact with
  | Some (l, d) => Some (l ++ d)
  | None => match groups re_reversed compact with
            | Some (d, l) => Some (l ++ d)
            | None => None
            end
  end.

Record Location := mkLocation { address : jstr; column : Z; row : Z }.

Definition column_value (letters : jstr) : Z :=
  fold_left (fun column c => column * 26 + Z.of_N c - 64) letters 0.

Definition parseCellAddress (value : jstr) : option Location :=
  address ← normalizeCellAddress value;
  '(letters, ds) ← groups re_standard address;
  Some (mkLocation address (column_value letters - 1) (digits_value ds - 1)).
End cells.

(** The loop of [columnName]; [fuel] bounds its iterations, and
    [columnName_fuel] shows that [column + 1] of them always suffice. *)
Fixpoint column_loop (fuel : nat) (value : Z) (label : jstr) : jstr :=
  match fuel with
  | O => label
  | S f =>
    if 0 <? value then
      let remainder := (value - 1) mod 26 in
      column_loop f ((value - 1) / 26) (Z.to_N (65 + remainder) :: label)
    else label
  end.
Definition columnName (column : Z) : jstr := column_loop (Z.to_nat (column + 1)) (column + 1) [].

(** *** Addresses are what the patterns say *)

Definition is_letters (l : jstr) : Prop := forallb is_upper l = true /\ (1 <= length l <= 3)%nat.
Definition is_row (d : jstr) : Prop :=
  exists c r, d = c :: r /\ in_range 49 57 c = true /\ forallb is_digit r = true /\ (length r <= 3)%nat.

Lemma re_letters_sound s t :
  matches re_letters s t -> exists w, moved w s t /\ is_letters w /\ caps t = caps s.
Proof.
  intros (w & ? & ? & ? & ?)%matches_between_set; [|lia]. exists w. unfold is_letters. auto.
Qed.

Lemma re_row_sound s t :
  matches re_row s t -> exists w, moved w s t /\ is_row w /\ caps t = caps s.
Proof.
  intros (u & (c & Hc & ? & Ec)%matches_set & (w & ? & ? & ? & Ew)%matches_upto_set)%matches_seq.
  exists ([c] ++ w). split; [by eapply moved_app|]. split; [|congruence]. by exists c, w.
Qed.

(** Two captured parts between [^] and [$]. *)
Lemma two_groups_sound ra rb P Q x a b :
  (forall s t, matches ra s t -> exists w, moved w s t /\ P w /\ caps t = caps s) ->
  (forall s t, matches rb s t -> exists w, moved w s t /\ Q w /\ caps t = caps s) ->
  groups (seqs [RBegin; RCap 1 ra; RCap 2 rb; REnd]) x = Some (a, b) ->
  x = a ++ b /\ P a /\ Q b.
Proof.
  intros Ha Hb. unfold groups. destruct (exec _ x) as [[s t]|] eqn:E; simpl; [|done].
  apply exec_sound in E as (Hm & w & -> & Hbef & Hcap). cbn [seqs foldr] in Hm.
  apply matches_seq in Hm as (s0 & [-> Hnil]%matches_begin & Hm).
  rewrite Hnil in Hbef. symmetry in Hbef. apply (f_equal (@rev N)) in Hbef.
  rewrite rev_involutive in Hbef. simpl in Hbef. subst w.
  apply matches_seq in Hm as (s1 & (u1 & w1 & Hra & Hmv & Hmv1 & Hc1)%matches_cap & Hm).
  apply matches_seq in Hm as (s2 & (u2 & w2 & Hrb & Hmvb & Hmv2 & Hc2)%matches_cap & Hm).
  apply matches_seq in Hm as (s3 & [-> Hend]%matches_end & Hm).
  inversion Hm; subst.
  apply Ha in Hra as (w1' & Hmv1' & HP & Hca).
  apply Hb in Hrb as (w2' & Hmv2' & HQ & Hcb).
  assert (w1' = w1) as ->. { apply moved_matched in Hmv, Hmv1'. congruence. }
  assert (w2' = w2) as ->. { apply moved_matched in Hmvb, Hmv2'. congruence. }
  unfold group. rewrite Hc2, Hcb, Hc1. cbn. intros [= <- <-]. split; [|done].
  destruct Hmv1 as [-> _], Hmv2 as [-> _]. rewrite Hend. by rewrite app_nil_r.
Qed.

Lemma two_groups_complete ra rb x s1 s2 :
  matches ra (start x) s1 -> matches rb (capture 1 (start x) s1) s2 -> after s2 = [] ->
  exists a b, groups (seqs [RBegin; RCap 1 ra; RCap 2 rb; REnd]) x = Some (a, b).
Proof.
  intros Ha Hb Hend. unfold groups.
  destruct (exec _ x) as [[b t]|] eqn:E; [cbn; eauto|]. exfalso. revert E.
  eapply exec_complete. cbn [seqs foldr].
  econstructor; [by apply m_begin|]. econstructor; [by apply m_cap|].
  econstructor; [by apply m_cap|]. econstructor; [by apply m_end|]. constructor.
Qed.

Lemma build_row d a s : is_row d -> after s = d ++ a -> matches re_row s (advance d a s).
Proof.
  intros (c & r & -> & ? & ? & ?) Ha. unfold re_row. econstructor; [by apply m_set|].
  rewrite <- advance_cons. by apply build_upto.
Qed.

Lemma is_row_digits d : is_row d -> forallb is_digit d = true /\ d <> [].
Proof. intros (c & r & -> & ? & H & ?). simpl. rewrite H. split; [char_lia|done]. Qed.

(** The parts of an address are determined by it. *)
Lemma split_classes p (l l' d d' : jstr) :
  forallb p l = true -> forallb p l' = true ->
  forallb (fun c => negb (p c)) d = true -> forallb (fun c => negb (p c)) d' = true ->
  l ++ d = l' ++ d' -> l = l' /\ d = d'.
Proof.
  intros Hl Hl' Hd Hd' E.
  assert (Hsp : forall l d, forallb p l = true -> forallb (fun c => negb (p c)) d = true ->
                span p (l ++ d) = (l, d)).
  { intros a b Ha Hb. apply span_app_stop; [done|]. destruct b; [done|]. simpl in Hb. by bool_hyps. }
  pose proof (Hsp l d Hl Hd) as H1. rewrite E, (Hsp l' d' Hl' Hd') in H1. by injection H1.
Qed.

Lemma letters_not_row l d : is_letters l -> is_row d ->
  forallb is_upper l = true /\ forallb (fun c => negb (is_upper c)) d = true.
Proof.
  intros [? _] [Hd _]%is_row_digits. split; [done|].
  apply forallb_Forall in Hd. apply forallb_Forall. eapply Forall_impl; [exact Hd|].
  simpl. intros c Hc. char_lia.
Qed.

Lemma standard_sound x l d : groups re_standard x = Some (l, d) -> x = l ++ d /\ is_letters l /\ is_row d.
Proof. apply two_groups_sound; [apply re_letters_sound|apply re_row_sound]. Qed.
Lemma reversed_sound x d l : groups re_reversed x = Some (d, l) -> x = d ++ l /\ is_row d /\ is_letters l.
Proof. apply two_groups_sound; [apply re_row_sound|apply re_letters_sound]. Qed.

Lemma standard_complete l d :
  is_letters l -> is_row d -> groups re_standard (l ++ d) = Some (l, d).
Proof.
  intros Hl Hd.
  destruct (two_groups_complete re_letters re_row (l ++ d)
    (advance l d (start (l ++ d))) (advance d [] (capture 1 (start (l ++ d)) (advance l d (start (l ++ d))))))
    as (l' & d' & E).
  - by apply build_between; [|apply Hl|apply Hl].
  - apply build_row; [done|]. cbn. by rewrite app_nil_r.
  - done.
  - unfold re_standard. rewrite E.
    destruct (standard_sound _ _ _ E) as (Heq & Hl' & Hd').
    destruct (letters_not_row _ _ Hl Hd), (letters_not_row _ _ Hl' Hd').
    apply (split_classes is_upper) in Heq as [-> ->]; done.
Qed.

(** An address in normal form. *)
Definition is_address (a : jstr) : Prop := exists l d, a = l ++ d /\ is_letters l /\ is_row d.

Lemma normalize_shape `{Locale} v a : normalizeCellAddress v = Some a -> is_address a.
Proof.
  unfold normalizeCellAddress.
  destruct (groups re_standard _) as [[l d]|] eqn:E1.
  - intros [= <-]. apply standard_sound in E1 as (_ & ? & ?). by exists l, d.
  - destruct (groups re_reversed _) as [[d l]|] eqn:E2; [|done].
    intros [= <-]. apply reversed_sound in E2 as (_ & ? & ?). by exists l, d.
Qed.

Lemma address_upper_digit a :
  is_address a -> forallb (fun c => is_upper c || is_digit c) a = true.
Proof.
  intros (l & d & -> & [Hl _] & [Hd _]%is_row_digits).
  rewrite forallb_app, andb_true_iff, !forallb_Forall in *.
  split; (eapply Forall_impl; [eassumption|]); simpl; intros c Hc; by rewrite Hc, ?orb_true_r.
Qed.

Lemma compact_address_id `{L : Locale, !LocaleLaws L} a : is_address a -> compact_address a = a.
Proof.
  intros Ha%address_upper_digit. rewrite forallb_Forall in Ha. unfold compact_address.
  rewrite replace_chars_none.
  - rewrite to_upper_ascii.
    + rewrite <- (list_fmap_id a) at 2. apply list_fmap_ext. intros i c Hc.
      rewrite Forall_lookup in Ha. apply Ha in Hc.
      assert (is_lower c = false) as Hl by char_lia. unfold ascii_upper, id. by rewrite Hl.
    + apply forallb_Forall. eapply Forall_impl; [exact Ha|]. simpl. intros. char_lia.
  - apply forallb_Forall. eapply Forall_impl; [exact Ha|]. simpl. intros. char_lia.
Qed.

Lemma normalize_address `{L : Locale, !LocaleLaws L} a :
  is_address a -> normalizeCellAddress a = Some a.
Proof.
  intros Ha. unfold normalizeCellAddress. rewrite (compact_address_id a Ha).
  destruct Ha as (l & d & -> & Hl & Hd). by rewrite standard_complete.
Qed.

Lemma parse_address `{L : Locale, !LocaleLaws L} l d :
  is_letters l -> is_row d ->
  parseCellAddress (l ++ d) = Some (mkLocation (l ++ d) (column_value l - 1) (digits_value d - 1)).
Proof.
  intros Hl Hd. unfold parseCellAddress.
  rewrite normalize_address by (by exists l, d). cbn [mbind option_bind].
  by rewrite standard_complete.
Qed.

(** *** Columns in bijective base 26 *)

Lemma column_value_snoc l c : column_value (l ++ [c]) = column_value l * 26 + Z.of_N c - 64.
Proof. unfold column_value. by rewrite fold_left_app. Qed.

Lemma column_value_nonneg l : forallb is_upper l = true -> 0 <= column_value l.
Proof.
  induction l as [|c l IH] using rev_ind; [done|].
  rewrite forallb_app, column_value_snoc. simpl. intros H. bool_hyps.
  specialize (IH H). char_lia.
Qed.

Lemma column_loop_label fuel v label : column_loop fuel v label = column_loop fuel v [] ++ label.
Proof.
  revert v label. induction fuel as [|f IH]; intros v label; simpl; [done|].
  destruct (0 <? v); [|done]. rewrite (IH _ (_ :: label)), (IH _ [_]). by rewrite <- app_assoc.
Qed.

(** The number of letters of a value: [1, 27, 703, 18279, ...]. *)
Fixpoint last_of_length (k : nat) : Z :=
  match k with O => 0 | S k' => 26 * last_of_length k' + 26 end.

Lemma column_loop_ok fuel v :
  0 <= v <= Z.of_nat fuel ->
  let w := column_loop fuel v [] in
  forallb is_upper w = true /\ column_value w = v /\
  (forall k, v <= last_of_length k -> (length w <= k)%nat) /\ (0 < v -> w <> []).
Proof.
  revert v. induction fuel as [|f IH]; intros v Hv w; subst w; cbn [column_loop].
  - assert (v = 0) as -> by lia. repeat split; [intros; simpl; lia|lia].
  - destruct (Z.ltb_spec 0 v) as [Hpos|Hpos].
    2:{ assert (v = 0) as -> by lia. repeat split; [intros; simpl; lia|lia]. }
    rewrite column_loop_label.
    pose proof (Z.div_mod (v - 1) 26 ltac:(done)) as Hdm.
    pose proof (Z.mod_pos_bound (v - 1) 26 ltac:(done)) as Hm.
    destruct (IH ((v - 1) / 26)) as (Hu & Hc & Hlen & _); [lia|].
    rewrite forallb_app, Hu, column_value_snoc, Hc. cbn [forallb andb].
    repeat split.
    + char_lia.
    + rewrite Z2N.id by lia. lia.
    + intros [|k] Hk; cbn [last_of_length] in Hk; [lia|].
      rewrite length_app. simpl. specialize (Hlen k ltac:(lia)). lia.
    + by intros _ [? ?]%app_eq_nil.
Qed.

Lemma columnName_ok c :
  0 <= c ->
  forallb is_upper (columnName c) = true /\ column_value (columnName c) = c + 1 /\
  (forall k, c < last_of_length k -> (length (columnName c) <= k)%nat) /\ columnName c <> [].
Proof.
  intros Hc. destruct (column_loop_ok (Z.to_nat (c + 1)) (c + 1)) as (? & ? & H3 & ?); [lia|].
  repeat split; try done; [|auto with lia]. intros k Hk. apply H3. lia.
Qed.

Lemma columnName_letters c : 0 <= c < 18278 -> is_letters (columnName c).
Proof.
  intros Hc. destruct (columnName_ok c) as (Hu & _ & Hl & Hn); [lia|].
  split; [done|]. specialize (Hl 3%nat ltac:(simpl; lia)).
  destruct (columnName c); [done|simpl in *; lia].
Qed.

Lemma column_loop_value fuel l :
  forallb is_upper l = true -> column_value l <= Z.of_nat fuel ->
  column_loop fuel (column_value l) [] = l.
Proof.
  revert l. induction fuel as [|f IH]; intros l Hu Hf.
  - destruct l as [|c l] using rev_ind; [done|].
    rewrite forallb_app in Hu. simpl in Hu. bool_hyps.
    rewrite column_value_snoc in Hf. pose proof (column_value_nonneg l H). char_lia.
  - destruct l as [|c l _] using rev_ind; [done|].
    rewrite forallb_app in Hu. simpl in Hu. bool_hyps.
    pose proof (column_value_nonneg l H) as Hnn. rewrite column_value_snoc in *.
    assert (65 <= Z.of_N c <= 90) by char_lia.
    cbn [column_loop]. replace (0 <? _) with true by lia.
    replace ((column_value l * 26 + Z.of_N c - 64 - 1) / 26) with (column_value l).
    2:{ apply (Z.div_unique_pos _ _ _ (Z.of_N c - 65)); lia. }
    replace ((column_value l * 26 + Z.of_N c - 64 - 1) mod 26) with (Z.of_N c - 65).
    2:{ apply (Z.mod_unique_pos _ _ (column_value l)); lia. }
    rewrite column_loop_label, IH by (done || lia). do 2 f_equal. lia.
Qed.

Lemma columnName_value l :
  forallb is_upper l = true -> l <> [] -> columnName (column_value l - 1) = l.
Proof.
  intros Hu Hn. unfold columnName. rewrite Z.sub_add. apply column_loop_value; [done|].
  pose proof (column_value_nonneg l Hu). lia.
Qed.

Lemma column_value_bound l k :
  forallb is_upper l = true -> (length l <= k)%nat -> column_value l <= last_of_length k.
Proof.
  revert l. induction k as [|k IH]; intros l Hu Hl; [by destruct l; simpl in Hl; try lia|].
  destruct l as [|c l _] using rev_ind.
  { cbn [last_of_length]. unfold column_value. simpl.
    assert (0 <= last_of_length k) by (clear; induction k; simpl; lia). lia. }
  rewrite forallb_app in Hu. simpl in Hu. bool_hyps.
  rewrite length_app in Hl. simpl in Hl. rewrite column_value_snoc.
  specialize (IH l H ltac:(lia)). cbn [last_of_length]. char_lia.
Qed.

(** *** Rows *)

Lemma is_row_bound d : is_row d -> 1 <= digits_value d <= 9999.
Proof.
  intros Hr. destruct (is_row_digits d Hr) as [Hd _]. destruct Hr as (c & r & -> & ? & ? & ?).
  pose proof (digits_value_bound (c :: r) 4 Hd ltac:(simpl; lia)) as Hb.
  change (10 ^ Z.of_nat 4) with 10000 in Hb. split; [|lia].
  change (c :: r) with ([c] ++ r). rewrite digits_value_app.
  change (digits_value [c]) with (0 * 10 + (Z.of_N c - 48)).
  pose proof (digits_value_bound r (length r) H0 ltac:(lia)) as Hr.
  assert (0 < 10 ^ Z.of_nat (length r)) by (apply Z.pow_pos_nonneg; lia). 
  assert (1 <= Z.of_N c - 48) by char_lia. nia.
Qed.

Lemma show_row r : 1 <= r <= 9999 -> is_row (show_Z r) /\ digits_value (show_Z r) = r.
Proof.
  intros Hr. rewrite show_Z_digits. replace (r <? 0) with false by lia.
  destruct (digits_ok (Z.abs_N r)) as (Hd & Hn & Hv).
  pose proof (digits_no_leading_zero (Z.abs_N r)) as Hl.
  assert (length (digits (Z.abs_N r)) <= 4)%nat by (apply length_digits; simpl; lia).
  split; [|lia]. destruct (digits (Z.abs_N r)) as [|c ds]; [done|]. exists c, ds.
  simpl in Hd, H. bool_hyps. repeat split; [|done|lia].
  destruct (N.eqb_spec c 48) as [->|]; [|char_lia]. simpl in Hl.
  destruct ds; [|done]. unfold digits_value in Hv. simpl in Hv. lia.
Qed.

End Cells.

Import Cells.

(** ** Headers and cell targets *)

Module Headers.

(** A lazy title, an optional dash, a slash, the maximum, [points?]. *)
Definition r_points : re := RSeq (lit_i (js "point")) (ROpt true (chr_i 115)).
Definition re_header : re :=
  seqs [RBegin; RCap 1 (RStar false r_dot); r_spaces; ROpt true (RSeq (chr 45) r_spaces);
        chr 47; r_spaces; RCap 2 r_decimal; r_spaces; ROpt true r_points; REnd].
(** A title between double or curly quotes. *)
Definition re_quoted : re :=
  seqs [RBegin; RSet (one_of [34; 8220]%N); RCap 1 (RStar true r_dot);
        RSet (one_of [34; 8221]%N); REnd].

Record ParsedHeader := mkParsed { parsed_title : jstr; maxPoints : option jsnum }.

Definition parseAssignmentHeader_text (value : jstr) : ParsedHeader :=
  let text := trim value in
  match exec re_header text with
  | Some (_, t) =>
    mkParsed (replace_first re_quoted (fun _ u => default [] (group 1 u))
                (trim (default [] (group 1 t))))
             (Some (number_of_string (default [] (group 2 t))))
  | None => mkParsed text None
  end.
Definition parseAssignmentHeader (value : option WorkbookCellValue) : ParsedHeader :=
  parseAssignmentHeader_text (cell_text value).

Definition formatAssignmentHeader (a : Assignment) : jstr :=
  s_quote ++ title a ++ s_quote ++ js "  -/" ++ show_num (max_points a).

Section headers.
Context `{Locale}.

Definition normalizeWords (value : jstr) : jstr :=
  trim (replace_cp_runs is_LN (js " ") false (code_points
    (replace_chars (one_of [8217; 39]%N) (fun _ => js " ") (to_lower (trim value))))).

Definition gradebookValues (workbook : option GradebookAiContext)
    : option (list (list WorkbookCellValue)) :=
  w ← workbook;
  sheet_values <$> find (fun s => seqb (sheet_name s) (js "Gradebook")) (sheets w).

Definition assignmentForHeader (value : option WorkbookCellValue)
    (assignments : list Assignment) : option Assignment :=
  let parsed := parseAssignmentHeader value in
  if negb (truthy (parsed_title parsed)) then None
  else
    let words := normalizeWords (parsed_title parsed) in
    let titleMatches :=
      List.filter (fun a => seqb (normalizeWords (title a)) words) assignments in
    match titleMatches with
    | [a] => Some a
    | _ => find (fun a => match maxPoints parsed with
                          | Some p => num_eq (max_points a) p
                          | None => false
                          end) titleMatches
    end.

Definition findGradebookAssignmentColumn (assignment : Assignment)
    (assignments : list Assignment) (workbook : option GradebookAiContext) : Z :=
  let headers := default [] (head (default [] (gradebookValues workbook))) in
  let exact := find_index_Z (fun header =>
    match assignmentForHeader (Some header) assignments with
    | Some a => seqb (assignment_id a) (assignment_id assignment)
    | None => false
    end) headers in
  if 0 <=? exact then exact
  else find_index_Z (fun item => seqb (assignment_id item) (assignment_id assignment)) assignments + 2.

Definition resolveGradebookCellTarget (cell : jstr) (roster : list User)
    (assignments : list Assignment) (workbook : option GradebookAiContext)
    : option GradebookCellTarget :=
  location ← parseCellAddress cell;
  let values := default [] (gradebookValues workbook) in
  let header := row0 ← values !! 0%nat; at_Z row0 (column location) in
  let assignment := match assignmentForHeader header assignments with
    | Some a => Some a
    | None =>
      if 2 <=? column location then
        match at_Z assignments (column location - 2) with
        | Some canonical => if seqb (trim (cell_text header)) [] then Some canonical else None
        | None => None
        end
      else None
    end in
  if column location <=? 1 then Some (Identity (address location))
  else
    match assignment with
    | None => Some (Custom (address location))
    | Some a =>
      if row location =? 0 then Some (AssignmentHeader (address location) a)
      else
        let name := trim (cell_text (r ← at_Z values (row location); at_Z r 1)) in
        let student := match find (fun u => seqb (to_lower (username u)) (to_lower name)) roster with
          | Some u => Some u
          | None => at_Z roster (row location - 1)
          end in
        match student with
        | Some u => Some (GradeCell (address location) a u)
        | None => Some (Custom (address location))
        end
    end.

Record AssignmentColumn := mkColumn {
  col_assignment_id : jstr; header_cell : jstr; col_title : jstr; col_max_points : jsnum }.
Record StudentRow := mkRow {
  row_student_id : jstr; row_number : Z; row_name : jstr; row_username : option jstr }.
Record CellMap := mkCellMap {
  coordinate_format : jstr;
  assignment_columns : list AssignmentColumn;
  student_rows : list StudentRow }.

Definition buildGradebookCellMap (roster : list User) (assignments : list Assignment)
    (workbook : option GradebookAiContext) (includeNames : bool) : CellMap :=
  mkCellMap (js "A1 (column letters first; 1F is normalized to F1)")
    ((fun a => mkColumn (assignment_id a)
        (columnName (findGradebookAssignmentColumn a assignments workbook) ++ js "1")
        (title a) (max_points a)) <$> assignments)
    (imap (fun index u => mkRow (user_id u) (Z.of_nat index + 2)
        (if includeNames then display_name u else js "Student " ++ show_Z (Z.of_nat index + 1))
        (if includeNames then Some (username u) else None)) roster).
End headers.
End Headers.
Import Headers.

(** ** The resolvers *)

Module Intent.

Record IntentInput := mkInput {
  prompt : jstr;
  roster : list User;
  assignments : list Assignment;
  workbook : option GradebookAiContext;
  submissionFor : jstr -> jstr -> option Submission
}.

Definition wi (s : jstr) : re := lit_i s.
Definition r_full_marks : re :=
  alts [seqs [wi (js "full"); r_spaces1; wi (js "mark"); ROpt true (chr_i 115)];
        wi (js "maximum"); wi (js "max")].
(** [%|percent|points?|pts?] *)
Definition r_unit : re :=
  alts [chr 37; wi (js "percent"); r_points; RSeq (wi (js "pt")) (ROpt true (chr_i 115))].
(** [-?\d+(?:\.\d+)?] *)
Definition r_signed : re := RSeq (ROpt true (chr 45)) r_decimal.

Definition re_cell_edit : re :=
  seqs [RWordB;
        alts [wi (js "change"); wi (js "edit"); wi (js "rename"); wi (js "set");
              wi (js "update"); wi (js "make"); wi (js "put")];
        r_spaces1;
        ROpt true (RSeq (wi (js "the")) r_spaces1);
        ROpt true (RSeq (wi (js "cell")) r_spaces1);
        ROpt true (wi (js "gradebook!"));
        RCap 1 (RAlt (seqs [between 1 3 (RSet is_letter); r_spaces; between 1 4 r_digit])
                     (seqs [between 1 4 r_digit; r_spaces; between 1 3 (RSet is_letter)]));
        r_spaces1;
        alts [RSeq (wi (js "to")) (ROpt true (RSeq r_spaces1 (wi (js "be")))); wi (js "as"); chr 61];
        r_spaces1;
        RCap 2 (rplus false r_dot);
        r_spaces;
        ROpt true (RSet (one_of (js ".!")));
        REnd].

(** The quotes trimmed around a value: straight and curly, at either end. *)
Definition is_any_quote : N -> bool := one_of [34; 39; 8220; 8221; 8216; 8217]%N.
Definition re_outer_quotes : re :=
  RAlt (RSeq RBegin (RSet is_any_quote)) (RSeq (RSet is_any_quote) REnd).

Record CellEdit := mkEdit { edit_cell : jstr; rawValue : jstr }.

Section intent.
Context `{Locale}.

Definition parseCellEdit (p : jstr) : option CellEdit :=
  let compact := replace_runs is_space (js " ") (trim p) in
  '(_, t) ← exec re_cell_edit compact;
  cell ← normalizeCellAddress (default [] (group 1 t));
  let raw := trim (replace_all re_outer_quotes (const []) (trim (default [] (group 2 t)))) in
  if truthy raw then Some (mkEdit cell raw) else None.

Definition parseWorkbookValue (value : jstr) : WorkbookCellValue :=
  if test (seqs [RBegin; alts [wi (js "blank"); wi (js "empty"); wi (js "null")]; REnd]) value
  then CellNull
  else if test (seqs [RBegin; wi (js "true"); REnd]) value then CellBool true
  else if test (seqs [RBegin; wi (js "false"); REnd]) value then CellBool false
  else if test (seqs [RBegin; r_signed; REnd]) value then CellNum (number_of_string value)
  else CellStr value.

Record Score := mkScore { score_points : jsnum; interpretation : jstr }.

(** [Math.round(max * amount) / 100]. *)
Definition percent_points (maximum amount : jsnum) : jsnum :=
  num_div_lit (math_round (num_mul maximum amount)) 100.

Definition pointsForGrade (value : jstr) (assignment : Assignment) : option Score :=
  if test (seqs [RBegin; r_full_marks; REnd]) (trim value)
  then Some (mkScore (max_points assignment) (js "full marks"))
  else
    '(_, t) ← exec (seqs [RBegin; RCap 1 r_signed; r_spaces; ROpt true (RCap 2 r_unit); REnd])
                   (trim value);
    let amount := number_of_string (default [] (group 1 t)) in
    if negb (is_finite amount) || num_lt amount (num 0) then None
    else
      let unit := group 2 t in
      if bool_decide (unit = Some (js "%")) || bool_decide (to_lower <$> unit = Some (js "percent"))
      then if num_lt (num 100) amount then None
           else Some (mkScore (percent_points (max_points assignment) amount)
                              (show_num amount ++ js "%"))
      else if num_lt (max_points assignment) amount then None
      else Some (mkScore amount (show_num amount ++ js " points")).

Definition findMentionedStudents (p : jstr) (roster : list User) : list User :=
  let normalizedPrompt := js " " ++ normalizeWords p ++ js " " in
  let candidates := flat_map (fun u =>
    (fun label => (u, normalizeWords label)) <$> [display_name u; username u]) roster in
  let matching := List.filter (fun c =>
    truthy (snd c) &&
    test (seqs [RAlt RBegin (chr 32); lit_fold (snd c); RAlt (chr 32) REnd]) normalizedPrompt)
    candidates in
  let sorted := sort_js (fun a b => jlen (snd b) - jlen (snd a)) matching in
  snd <$> fold_left (fun acc c => set_prop (user_id (fst c)) (fst c) acc) sorted [].

Definition re_score_after_word : re :=
  seqs [RWordB; alts [RSeq (wi (js "to")) (ROpt true (RSeq r_spaces1 (wi (js "be"))));
                      wi (js "at"); wi (js "with"); wi (js "as")];
        r_spaces1; RCap 1 r_signed; r_spaces; ROpt true (RCap 2 r_unit)].
Definition re_score_at_end : re :=
  seqs [RCap 1 r_signed; r_spaces; ROpt true (RCap 2 r_unit); r_spaces;
        ROpt true (RSet (one_of (js ".!"))); REnd].

Definition score_match (p : jstr) : option (jsnum * jstr) :=
  '(_, t) ← orelse (exec re_score_after_word p) (exec re_score_at_end (trim p));
  Some (number_of_string (default [] (group 1 t)), default [] (to_lower <$> group 2 t)).

(** The two words a bulk request must mention. *)
Definition mentions (words : list re) (text : jstr) : bool :=
  test (seqs [RWordB; alts words; RWordB]) text.
Definition plural (s : jstr) : re := RSeq (lit s) (ROpt true (chr 115)).
Definition mentions_full_marks (text : jstr) : bool :=
  mentions [seqs [lit (js "full"); r_spaces1; plural (js "mark")];
            lit (js "maximum"); lit (js "max")] text.

Definition minimum (ns : list jsnum) : jsnum :=
  fold_left (fun a n => if num_lt n a then n else a) ns (Inf false).

(** What one submitted assignment receives. *)
Definition bulk_points (fullmarks percent : bool) (amount : jsnum) (a : Assignment) : jsnum :=
  if fullmarks then max_points a
  else if percent then percent_points (max_points a) amount else amount.

Definition bulk_interpretation (full interpreted percent : bool) (scored : bool) (amount : jsnum) : jstr :=
  if interpreted then
    if scored && negb full
    then js "I interpreted “" ++ show_num amount ++
         js " points for every grade” as 100% because these assignments have different maximums."
    else js "I interpreted the request as full marks on each assignment."
  else if percent then js "I converted " ++ show_num amount ++ js "% to each assignment’s point scale."
  else js "I used " ++ show_num amount ++ js " points for each assignment.".

(** The part after the student is known. *)
Definition bulkActions (input : IntentInput) (student : User) (fullMarks : bool)
    (scored : option (jsnum * jstr)) : GradebookIntent :=
  let submitted := List.filter (fun a =>
    match submissionFor input (user_id student) (assignment_id a) with Some _ => true | None => false end)
    (assignments input) in
  match submitted with
  | [] => mkIntent (display_name student ++ js " has no submitted assignments that can be graded.") []
  | _ =>
    let amount := match scored with Some (n, _) => n | None => num 100 end in
    let unit := match scored with Some (_, u) => u | None => [] end in
    let percent := seqb unit (js "%") || seqb unit (js "percent") in
    let interpreted :=
      if negb fullMarks && negb percent && num_eq amount (num 100)
      then existsb (fun a => num_lt (max_points a) amount) submitted
      else fullMarks in
    if negb (is_finite amount) || num_lt amount (num 0) || (percent && num_lt (num 100) amount)
    then mkIntent (js "That score is outside the allowed range.") []
    else if negb interpreted && negb percent && existsb (fun a => num_lt (max_points a) amount) submitted
    then mkIntent (js "That request would exceed an assignment maximum of " ++
           show_num (minimum (max_points <$> submitted)) ++
           js ". Use a percentage or say “full marks” instead.") []
    else
      let acts := (fun a => SetGrade (user_id student) (assignment_id a)
                     (bulk_points interpreted percent amount a)) <$> submitted in
      let skipped := Z.of_nat (length (assignments input)) - Z.of_nat (length submitted) in
      mkIntent
        (bulk_interpretation fullMarks interpreted percent
           (match scored with Some _ => true | None => false end) amount ++
         js " Prepared " ++ show_Z (Z.of_nat (length acts)) ++ js " submitted grade(s) for " ++
         display_name student ++ js "." ++
         (if skipped =? 0 then [] else
            js " Skipped " ++ show_Z skipped ++ js " assignment(s) without a submission."))
        acts
  end.

Definition resolveBulkGrades (input : IntentInput) : option GradebookIntent :=
  let normalized := normalizeWords (prompt input) in
  let fullMarks := mentions_full_marks normalized in
  if negb (mentions [plural (js "grade"); plural (js "score"); plural (js "assignment")] normalized) ||
     (negb (mentions [lit (js "all"); lit (js "every"); lit (js "everything")] normalized) &&
      negb fullMarks)
  then None
  else
    match findMentionedStudents (prompt input) (roster input) with
    | [student] =>
      let scored := score_match (prompt input) in
      if negb fullMarks && (match scored with Some _ => false | None => true end) then None
      else Some (bulkActions input student fullMarks scored)
    | [] => Some (mkIntent (js "I recognized a request to change several grades, but I could not match the student name or username to this classroom.") [])
    | _ => Some (mkIntent (js "I recognized a bulk-grade request, but it mentions more than one student. Please make one reviewed request per student.") [])
    end.

Definition has_higher_grade (input : IntentInput) (assignment_id : jstr) (limit : jsnum) : bool :=
  let entries := (fun u => submissionFor input (user_id u) assignment_id) <$> roster input in
  match find (fun s : option Submission =>
    num_lt limit (default (num 0) (sub ← s; g ← s_grade sub; points g))) entries with
  | Some (Some _) => true
  | _ => false
  end.

Definition resolveHeaderEdit (input : IntentInput) (address : jstr) (a : Assignment) (raw : jstr)
    : GradebookIntent :=
  let parsed := parseAssignmentHeader_text raw in
  let new_title := if seqb (normalizeWords (parsed_title parsed)) (normalizeWords (title a))
                   then title a else parsed_title parsed in
  let maximum := default (max_points a) (maxPoints parsed) in
  if negb (truthy new_title) || negb (is_finite maximum) || num_le maximum (num 0) ||
     num_lt (num 10000) maximum
  then mkIntent (js "Use a heading such as “Story Writing / 20” for " ++ address ++ js ".") []
  else if has_higher_grade input (assignment_id a) maximum
  then mkIntent (js "I cannot reduce " ++ title a ++ js " to " ++ show_num maximum ++
         js " points because an existing grade is higher. Adjust that grade first.") []
  else if seqb new_title (title a) && num_eq maximum (max_points a)
  then mkIntent (address ++ js " already shows " ++ title a ++ js " / " ++
         show_num (max_points a) ++ js ".") []
  else mkIntent (address ++ js " is the authoritative header for " ++ title a ++
         js ". I will update the assignment itself so the change persists everywhere.")
         [UpdateAssignment (assignment_id a) new_title maximum].

Definition resolveGradeEdit (input : IntentInput) (address : jstr) (a : Assignment) (u : User)
    (raw : jstr) : GradebookIntent :=
  match submissionFor input (user_id u) (assignment_id a) with
  | None => mkIntent (address ++ js " cannot be graded because " ++ display_name u ++
              js " has not submitted " ++ title a ++ js ".") []
  | Some _ =>
    match pointsForGrade raw a with
    | None => mkIntent (address ++ js " is " ++ display_name u ++ js "’s " ++ title a ++
                js " grade. Enter 0–" ++ show_num (max_points a) ++
                js ", a percentage, or “full marks”.") []
    | Some score => mkIntent (address ++ js " is " ++ display_name u ++ js "’s " ++ title a ++
                js " grade (" ++ interpretation score ++ js ").")
                [SetGrade (user_id u) (assignment_id a) (score_points score)]
    end
  end.

Definition resolveCellEdit (input : IntentInput) : option GradebookIntent :=
  edit ← parseCellEdit (prompt input);
  Some match resolveGradebookCellTarget (edit_cell edit) (roster input) (assignments input)
               (workbook input) with
  | None => mkIntent (js "I could not find cell " ++ edit_cell edit ++ js ".") []
  | Some (Identity address) =>
    mkIntent (address ++ js " contains protected student identity data and cannot be edited from the Gradebook assistant.") []
  | Some (AssignmentHeader address a) => resolveHeaderEdit input address a (rawValue edit)
  | Some (GradeCell address a u) => resolveGradeEdit input address a u (rawValue edit)
  | Some (Custom address) =>
    mkIntent (address ++ js " is a local custom Gradebook cell.")
      [SetCell (js "Gradebook") address (parseWorkbookValue (rawValue edit))]
  end.

Definition resolveGradebookIntent (input : IntentInput) : option GradebookIntent :=
  match resolveCellEdit input with
  | Some i => Some i
  | None => resolveBulkGrades input
  end.
End intent.
End Intent.

(** ** A concrete classroom

    The data of [scripts/gradebook-intent.test.mjs], for the examples and
    the witnesses. *)

Module Fixture.
Definition student (id name uname : jstr) : User :=
  mkUser id uname name Student None None None false [].
Definition work (id t : jstr) (maximum : Z) : Assignment :=
  mkAssignment id (js "c1") [] t [] None (num maximum) VNull Published [] [].

Definition ayaan : User := student (js "s1") (js "Ayaan") (js "Thomas").
Definition daksh : User := student (js "s2") (js "Daksh Ashu Jain") (js "Daksh").
Definition poem : Assignment := work (js "a1") (js "Poem Submission") 20.
Definition essay : Assignment := work (js "a2") (js "Essay on Poem") 100.
Definition story : Assignment := work (js "a3") (js "Story Writing") 50.

Definition text (s : jstr) : WorkbookCellValue := CellStr s.
Definition book : GradebookAiContext :=
  mkContext (js "Gradebook") [mkSheet (js "Gradebook") (js "A1:G3")
    [[text (js "Student"); text (js "Username"); text (js "Poem Submission / 20");
      text (js "Essay on Poem / 100"); text (js "Teacher note"); text (js "Story Writing / 50"); CellNull];
     [text (js "Ayaan"); text (js "Thomas"); CellNum (num 10); CellNull; text []; CellNull; CellNull];
     [text (js "Daksh Ashu Jain"); text (js "Daksh"); CellNum (num 19); CellNum (num 0); text []; CellNull; CellNull]]].

Definition graded (u a : jstr) (p : option jsnum) : Submission :=
  mkSubmission (u ++ a) a [] u [] SSubmitted None
    (Some (mkGrade (u ++ a) p None [] true [])) None [].
Definition submissions (u a : jstr) : option Submission :=
  if seqb u (js "s1") then
    if seqb a (js "a1") then Some (graded u a (Some (num 10)))
    else if seqb a (js "a2") || seqb a (js "a3") then Some (graded u a None) else None
  else if seqb u (js "s2") then
    if seqb a (js "a1") then Some (graded u a (Some (num 19)))
    else if seqb a (js "a2") then Some (graded u a (Some (num 0))) else None
  else None.
Definition ask (p : jstr) : Intent.IntentInput :=
  Intent.mkInput p [ayaan; daksh] [poem; essay; story] (Some book) submissions.
#[export] Instance loc : Locale := ascii_locale.
End Fixture.

Import Intent.

(** ** Properties *)

Module Properties.
(** *** Headers *)

Definition header_tail : re :=
  seqs [r_spaces; ROpt true (RSeq (chr 45) r_spaces); chr 47; r_spaces; RCap 2 r_decimal;
        r_spaces; ROpt true r_points; REnd].

#[local] Opaque m.
Lemma header_tail_digits ds s :
  forallb is_digit ds = true -> ds <> [] -> after s = js "  -/" ++ ds ->
  exists t, m header_tail s Some = Some t /\ caps t = (2%nat, ds) :: caps s.
Proof.
  intros Hd Hne Ha. destruct ds as [|d0 ds]; [done|]. simpl in Hd. apply andb_true_iff in Hd as [Hd0 Hd].
  set (s1 := advance (js "  -/") (d0 :: ds) s). set (s2 := advance (d0 :: ds) [] s1).
  exists (capture 2 s1 s2). split.
  2:{ unfold capture. cbn [caps]. f_equal. f_equal. by apply (moved_text (d0 :: ds)), advance_moved,
        eq_sym, app_nil_r. }
  assert (Hns : is_space d0 = false) by char_lia.
  change (js "  -/") with [32; 32; 45; 47]%N in *.
  unfold header_tail, chr, r_spaces, r_space. cbn [seqs foldr]. rewrite m_seq_run.
  apply (m_greedy_star is_space [32;32]%N (45%N :: 47%N :: d0 :: ds)); [done..|].
  rewrite m_seq_run. apply m_opt_take. rewrite m_seq_run, (m_set_run _ 45%N (47%N :: d0 :: ds)) by done.
  apply (m_greedy_star is_space [] (47%N :: d0 :: ds)); [done..|]. cbn [after advance].
  replace (length (47%N :: d0 :: ds) <? length (45%N :: 47%N :: d0 :: ds))%nat with true
    by (symmetry; apply Nat.ltb_lt; simpl; lia).
  rewrite m_seq_run, (m_set_run _ 47%N (d0 :: ds)) by done. rewrite m_seq_run.
  apply (m_greedy_star is_space [] (d0 :: ds)); [done..|].
  rewrite m_seq_run, m_cap_run. unfold r_decimal, rplus, r_digit, chr. rewrite !m_seq_run, (m_set_run _ d0 ds) by done.
  apply (m_greedy_star is_digit ds []); [symmetry; apply app_nil_r|done|done|].
  apply m_opt_skip; [intros; rewrite m_seq_run; by apply m_set_fail|].
  rewrite m_seq_run. apply (m_greedy_star is_space [] []); [done..|].
  rewrite m_seq_run. apply m_opt_skip; [intros; unfold r_points; unfold chr_i; simpl lit_i; unfold chr_i; rewrite !m_seq_run; by apply m_set_fail|].
  rewrite m_seq_run, m_end_run, m_eps_run by done. unfold capture, advance, s1, s2. cbn.
  by rewrite <- app_assoc.
Qed.

(** The quoted title reaches up to the last quote: what follows a shorter
    title still holds a quote, which the rest of the expression never takes. *)
Lemma header_match t ds :
  forallb (fun c => negb (is_eol c)) t = true -> forallb is_digit ds = true -> ds <> [] ->
  let x := s_quote ++ t ++ s_quote ++ js "  -/" ++ ds in
  exists u, exec re_header x = Some (start x, u) /\
    group 1 u = Some (s_quote ++ t ++ s_quote) /\ group 2 u = Some ds.
Proof.
  intros Ht Hd Hne x. set (q := s_quote ++ t ++ s_quote).
  set (s1 := capture 1 (start x) (advance q (js "  -/" ++ ds) (start x))).
  assert (Hx : x = q ++ js "  -/" ++ ds) by (unfold x, q; by rewrite <- !app_assoc).
  destruct (header_tail_digits ds s1) as (u & Hu & Hc); [done..|].
  exists u. unfold group. rewrite Hc. split; [|split; [|done]].
  2:{ unfold s1, capture. cbn [caps find fst snd Nat.eqb fmap option_fmap option_map]. f_equal.
      apply (moved_text q), advance_moved. exact Hx. }
  apply exec_start. change re_header with (RSeq RBegin (RSeq (RCap 1 (RStar false r_dot)) header_tail)).
  rewrite m_seq_run, m_begin_run, m_seq_run, m_cap_run by done.
  apply (m_lazy_star _ q (js "  -/" ++ ds)); [done| | |exact Hu].
  { unfold q. rewrite !forallb_app, Ht. done. }
  intros w1 w2 Hq Hw2. apply (m_avoids_None c_quote); [vm_compute; reflexivity..|].
  cbn [after capture advance]. apply elem_of_app. left.
  assert (Hl : last (w1 ++ w2) = Some c_quote).
  { rewrite <- Hq. unfold q. rewrite app_assoc. apply last_snoc. }
  rewrite last_app in Hl. destruct (last w2) as [c|] eqn:E.
  - injection Hl as ->. apply last_Some_elem_of in E. done.
  - by apply last_None in E.
Qed.

Lemma quoted_match t :
  forallb (fun c => negb (is_eol c)) t = true ->
  replace_first re_quoted (fun _ u => default [] (group 1 u)) (s_quote ++ t ++ s_quote) = t.
Proof.
  intros Ht. unfold replace_first. set (x := s_quote ++ t ++ s_quote).
  assert (Hm : matches re_quoted (start x) (advance s_quote [] (capture 1 (advance s_quote (t ++ s_quote) (start x))
            (advance t s_quote (advance s_quote (t ++ s_quote) (start x)))))).
  { unfold re_quoted. cbn [seqs foldr]. econstructor; [by apply m_begin|].
    econstructor; [by apply build_set|]. econstructor; [by apply m_cap, build_star|].
    econstructor; [by apply build_set|]. econstructor; [by apply m_end|]. constructor. }
  destruct (exec re_quoted x) as [[b u]|] eqn:E; [|by apply exec_complete in Hm].
  clear Hm. apply exec_sound in E as (Hm & w & Hx & Hw & Hcb).
  unfold re_quoted in Hm. cbn [seqs foldr] in Hm.
  apply matches_seq in Hm as (s0 & [-> Hb]%matches_begin & Hm).
  rewrite Hb in Hw. symmetry in Hw. apply (f_equal (@rev N)) in Hw. rewrite rev_involutive in Hw.
  simpl in Hw. subst w. simpl in Hx.
  apply matches_seq in Hm as (s1 & (c1 & [H1 _] & _ & _)%matches_set & Hm).
  apply matches_seq in Hm as (s2 & (u2 & w & _ & _ & [H2 _] & Hc2)%matches_cap & Hm).
  apply matches_seq in Hm as (s3 & (c3 & [H3 _] & _ & Hc3)%matches_set & Hm).
  apply matches_seq in Hm as (s4 & [-> Hend]%matches_end & Hm). inversion Hm; subst.
  rewrite H3, Hend in H2. rewrite H2 in H1. rewrite H1 in Hx.
  unfold group. rewrite Hc3, Hc2, Hend. cbn [find fst snd Nat.eqb fmap option_fmap option_map default].
  rewrite H1, <- Hx, Nat.sub_diag. simpl. rewrite app_nil_r. unfold x, s_quote in Hx. simpl in Hx.
  injection Hx as _ Hx. apply app_inj_tail in Hx as [-> _]. done.
Qed.

Lemma parse_formatted (a : Assignment) (k : Z) :
  forallb (fun c => negb (is_eol c)) (title a) = true -> max_points a = num k -> 0 <= k < 10 ^ 21 ->
  parseAssignmentHeader (Some (CellStr (formatAssignmentHeader a))) = mkParsed (title a) (Some (num k)).
Proof.
  intros Ht Hm Hk. unfold parseAssignmentHeader, parseAssignmentHeader_text, formatAssignmentHeader.
  cbn [cell_text]. rewrite Hm, show_num_Z, show_Z_digits by lia.
  replace (k <? 0) with false by lia. rewrite Zabs2N.abs_N_nonneg by lia.
  destruct (digits_ok (Z.to_N k)) as (Hd & Hne & _).
  pose proof (number_of_digits (Z.to_N k) ltac:(lia)) as Hn. rewrite Z2N.id in Hn by lia.
  revert Hd Hne Hn. generalize (digits (Z.to_N k)) as ds. intros ds Hd Hne Hn.
  destruct (header_match (title a) ds) as (u & E & G1 & G2); [done..|].
  rewrite trimmed_trim.
  2:{ split; [done|]. destruct ds as [|d ds _] using rev_ind; [done|].
      rewrite !app_assoc, rev_app_distr. simpl. rewrite forallb_app in Hd. simpl in Hd. bool_hyps. char_lia. }
  rewrite E. cbv iota beta. rewrite G1, G2. unfold default, id. rewrite Hn. f_equal.
  rewrite trimmed_trim; [by apply quoted_match|].
  split; [done|]. by rewrite !app_assoc, rev_app_distr.
Qed.

(** The header the app writes for an assignment leads back to that
    assignment: parsing [formatAssignmentHeader] and looking its title and
    maximum up among the classroom's assignments finds it, when no other
    assignment has the same title words and maximum.  Quotes, slashes and
    numbers inside the title do not confuse the parser. *)
Theorem header_roundtrip `{L : Locale} (a : Assignment) (assignments : list Assignment) (k : Z) :
  a ∈ assignments -> title a <> [] -> forallb (fun c => negb (is_eol c)) (title a) = true ->
  max_points a = num k -> 0 <= k < 10 ^ 21 ->
  (forall b, b ∈ assignments -> normalizeWords (title b) = normalizeWords (title a) ->
     num_eq (max_points b) (max_points a) = true -> b = a) ->
  assignmentForHeader (Some (CellStr (formatAssignmentHeader a))) assignments = Some a.
Proof.
  intros Hin Hne Ht Hm Hk Huniq. unfold assignmentForHeader. rewrite (parse_formatted a k) by done.
  cbn [parsed_title maxPoints]. rewrite (proj2 (truthy_true _) Hne). cbn [negb].
  set (same := fun b : Assignment => seqb _ _). rewrite <- Hm.
  assert (Ha : a ∈ List.filter same assignments).
  { apply list_elem_of_In, filter_In. split; [by apply list_elem_of_In|apply seqb_refl]. }
  assert (Hself : num_eq (max_points a) (max_points a) = true).
  { rewrite Hm. apply Z.eqb_refl. }
  assert (Hall : forall b, b ∈ List.filter same assignments ->
            num_eq (max_points b) (max_points a) = true -> b = a).
  { intros b [Hb Hs]%list_elem_of_In%filter_In. apply Huniq; [by apply list_elem_of_In|].
    by apply seqb_eq. }
  revert Ha Hall. generalize (List.filter same assignments) as l. intros l Ha Hall.
  set (p := fun b => num_eq (max_points b) (max_points a)).
  assert (Hf : find p l = Some a).
  { destruct (find p l) as [b|] eqn:E.
    - apply find_Some in E as [Hb Hp]. f_equal. by apply Hall.
    - assert (p a = false) as HH by (by eapply find_None). unfold p in HH. by rewrite Hself in HH. }
  destruct l as [|b [|]]; [by apply elem_of_nil in Ha|by apply list_elem_of_singleton in Ha as ->|done].
Qed.

(** *** Percentages *)

(** A maximum with at most two decimals: the product with a percentage is
    rounded at the second decimal, so it stays within the maximum. *)
Definition two_decimals (n : jsnum) : Prop :=
  exists q k, n = Fin q /\ (q * 100 == inject_Z k)%Q /\ 0 <= k <= 1000000.

Lemma num_lt_false_Q p q : num_lt (Fin p) (Fin q) = false <-> (q <= p)%Q.
Proof. unfold num_lt. rewrite negb_false_iff. apply Qle_bool_iff. Qed.

Lemma of_Q_small q : (0 <= q <= inject_Z (10 ^ 21))%Q -> of_Q q = Fin (Qred q).
Proof.
  intros [H0 H1]. unfold of_Q.
  assert (Ho : (inject_Z (10 ^ 21) < overflow)%Q) by (vm_compute; reflexivity).
  destruct (Qle_bool overflow q) eqn:E1.
  { apply Qle_bool_iff in E1. exfalso. apply (Qlt_irrefl q).
    eapply Qle_lt_trans; [exact H1|]. eapply Qlt_le_trans; [exact Ho|done]. }
  destruct (Qle_bool q (- overflow)) eqn:E2; [|done].
  apply Qle_bool_iff in E2. exfalso.
  assert (- overflow < 0)%Q as Hn by (vm_compute; reflexivity).
  apply (Qlt_irrefl 0). eapply Qle_lt_trans; [exact H0|]. by eapply Qle_lt_trans.
Qed.

(** [p] is [a] per cent of [m], rounded to the nearest hundredth, halves up;
    for a maximum of at most a million, so that nothing overflows. *)
Definition rounded_share (m a p : jsnum) : Prop :=
  exists x, a = Fin x /\ (0 <= x <= 100)%Q /\
  forall q, m = Fin q -> (0 <= q <= 1000000)%Q ->
  exists n : Z, p = Fin (Qred (inject_Z n / 100)) /\ (inject_Z n - (1 # 2) <= q * x < inject_Z n + (1 # 2))%Q.

Lemma percent_rounded (m a : jsnum) :
  is_finite a = true -> num_lt a (num 0) = false -> num_lt (num 100) a = false -> rounded_share m a (percent_points m a).
Proof.
  destruct a as [| |x]; [done..|]. intros _ H0 H100. unfold num in *. rewrite num_lt_false_Q in H0, H100.
  change (inject_Z 100) with 100%Q in *. change (inject_Z 0) with 0%Q in *.
  exists x. split; [done|]. split; [by split|]. intros q -> Hq.
  assert (Hlo : (0 <= q * x)%Q) by (apply Qmult_le_0_compat; [lra|done]).
  assert (Hhi : (q * x <= 1000000 * 100)%Q) by (apply Qmult_le_compat_nonneg; split; lra).
  assert (Hmul : num_mul (Fin q) (Fin x) = Fin (Qred (q * x))).
  { unfold num_mul. apply of_Q_small. split; [done|]. eapply Qle_trans; [exact Hhi|]. by vm_compute. }
  unfold percent_points. rewrite Hmul. unfold math_round, num_div_lit, num.
  exists (Qround_js (Qred (q * x))). split; [done|]. unfold Qround_js.
  pose proof (Qfloor_le (Qred (q * x) + (1 # 2))) as Hf. pose proof (Qlt_floor (Qred (q * x) + (1 # 2))) as Hc.
  rewrite inject_Z_plus in Hc. change (inject_Z 1) with 1%Q in Hc. rewrite !Qred_correct in Hf at 2. rewrite Qred_correct in Hc at 1.
  split; lra.
Qed.
Lemma share_in_range (limit amount p : jsnum) :
  two_decimals limit -> rounded_share limit amount p -> num_lt p (num 0) = false /\ num_lt limit p = false.
Proof.
  intros (q & k & -> & Hq & Hk) (x & -> & Hx & H).
  assert (Hk0 : (0 <= inject_Z k)%Q) by (change 0%Q with (inject_Z 0); rewrite <- Zle_Qle; lia).
  assert (Hk1 : (inject_Z k <= inject_Z 1000000)%Q) by (rewrite <- Zle_Qle; lia). change (inject_Z 1000000) with 1000000%Q in Hk1.
  destruct (H q eq_refl) as (n & -> & Hl & Hu); [lra|].
  assert (Hlo : (0 <= q * x)%Q) by (apply Qmult_le_0_compat; lra).
  assert (Hhi : (q * x <= inject_Z k)%Q) by (rewrite <- Hq; apply Qmult_le_compat_nonneg; split; lra).
  assert (Hn0 : 0 <= n).
  { apply Zlt_succ_le. rewrite Zlt_Qlt. unfold Z.succ. rewrite inject_Z_plus. change (inject_Z 0) with 0%Q. change (inject_Z 1) with 1%Q. lra. }
  assert (Hnk : n <= k).
  { apply Z.lt_succ_r. rewrite Zlt_Qlt. unfold Z.succ. rewrite inject_Z_plus. change (inject_Z 1) with 1%Q. lra. }
  rewrite Zle_Qle in Hn0, Hnk. change (inject_Z 0) with 0%Q in Hn0. unfold num, Qdiv. change (inject_Z 0) with 0%Q. change (/ 100)%Q with (1 # 100)%Q.
  rewrite !num_lt_false_Q, !Qred_correct. split; lra.
Qed.

Section properties.
Context `{L : Locale}.

Lemma row_of_value d : is_row d -> show_Z (digits_value d) = d.
Proof.
  intros Hr. pose proof (is_row_bound d Hr). destruct (is_row_digits d Hr) as [Hd _].
  rewrite show_Z_digits. replace (digits_value d <? 0) with false by lia.
  rewrite Zabs2N.abs_N_nonneg by lia. apply digits_of_value; [done|].
  destruct Hr as (c & r & -> & Hc & _). by assert ((c =? 48)%N = false) as -> by char_lia.
Qed.

(** Every spreadsheet address of a column below 18278 and a row below
    9999 that the app itself writes ([columnName] and the row number) is
    parsed back to the same column and row. *)
Theorem address_roundtrip `{!LocaleLaws L} (c r : Z) :
  0 <= c < 18278 -> 0 <= r < 9999 ->
  let a := columnName c ++ show_Z (r + 1) in
  parseCellAddress a = Some (mkLocation a c r).
Proof.
  intros Hc Hr a. destruct (columnName_ok c) as (_ & Hv & _); [lia|].
  destruct (show_row (r + 1)) as [Hrow Hrv]; [lia|].
  unfold a. rewrite parse_address by (done || by apply columnName_letters).
  rewrite Hv, Hrv. do 2 f_equal; lia.
Qed.

(** Whatever text normalises to an address, the address is in normal
    form: normalising it again changes nothing, and parsing the text gives a
    column below 18278 and a row below 9999 whose A1 name is that address. *)
Theorem normalized_address `{!LocaleLaws L} (v a : jstr) :
  normalizeCellAddress v = Some a ->
  normalizeCellAddress a = Some a /\
  exists loc, parseCellAddress v = Some loc /\ address loc = a /\
    0 <= column loc < 18278 /\ 0 <= row loc < 9999 /\
    a = columnName (column loc) ++ show_Z (row loc + 1).
Proof.
  intros Hv. pose proof (normalize_shape v a Hv) as Ha.
  split; [by apply normalize_address|]. unfold parseCellAddress. rewrite Hv.
  cbn [mbind option_bind]. destruct Ha as (l & d & -> & Hl & Hd).
  rewrite standard_complete by done. eexists. split; [reflexivity|]. cbn [address column row].
  pose proof (is_row_bound d Hd). destruct Hl as [Hu Hlen].
  assert (l <> []) as Hne by (destruct l; [simpl in Hlen; lia|done]).
  pose proof (column_value_bound l 3 Hu ltac:(lia)) as Hb. cbn in Hb.
  assert (1 <= column_value l).
  { destruct l as [|c l _] using rev_ind; [done|]. rewrite forallb_app in Hu. simpl in Hu. bool_hyps.
    rewrite column_value_snoc. pose proof (column_value_nonneg l H0). char_lia. }
  repeat split; try lia. rewrite columnName_value by done.
  by rewrite Z.sub_add, row_of_value.
Qed.

(** The last three are what the resolver may not touch: the identity
    columns are [Identity], whatever the workbook holds. *)
Lemma target_columns cell rs ws wb t :
  resolveGradebookCellTarget cell rs ws wb = Some t ->
  exists loc, parseCellAddress cell = Some loc /\
  match t with
  | Identity a => a = address loc /\ column loc <= 1
  | AssignmentHeader a w => a = address loc /\ 2 <= column loc /\ row loc = 0 /\ w ∈ ws
  | GradeCell a w u => a = address loc /\ 2 <= column loc /\ row loc <> 0 /\ w ∈ ws /\ u ∈ rs
  | Custom a => a = address loc /\ 2 <= column loc
  end.
Proof.
  unfold resolveGradebookCellTarget. destruct (parseCellAddress cell) as [loc|]; [|done].
  cbn [mbind option_bind]. set (hdr := (row0 ← _; _) : option WorkbookCellValue).
  intros H. exists loc. split; [done|]. destruct (Z.leb_spec (column loc) 1) as [Hc|Hc]; [by simplify_eq|].
  assert (Hw : forall w, (match assignmentForHeader hdr ws with
      | Some a => Some a
      | None => if 2 <=? column loc then match at_Z ws (column loc - 2) with
          | Some canonical => if seqb (trim (cell_text hdr)) [] then Some canonical else None
          | None => None end else None end) = Some w -> w ∈ ws).
  { intros w. destruct (assignmentForHeader hdr ws) as [a|] eqn:Ea.
    - intros [= <-]. unfold assignmentForHeader in Ea. destruct (negb _); [done|].
      revert Ea. set (p := fun a : Assignment => seqb _ _). intros Ea.
      assert (a ∈ List.filter p ws) as Hin.
      { destruct (List.filter p ws) as [|x [|y l]]; [done|injection Ea as ->; by left|].
        by apply find_Some in Ea as [? _]. }
      apply list_elem_of_In, filter_In in Hin as [? _]. by apply list_elem_of_In.
    - destruct (2 <=? column loc); [|done]. destruct (at_Z ws _) eqn:Eat; [|done].
      destruct (seqb _ _); [|done]. intros [= <-]. by eapply at_Z_elem. }
  revert H Hw. destruct (match assignmentForHeader hdr ws with Some a => _ | None => _ end) as [w|];
    intros H Hw; [|by simplify_eq; auto with lia].
  specialize (Hw w eq_refl). destruct (Z.eqb_spec (row loc) 0); [simplify_eq; auto with lia|].
  revert H. set (st := match find _ rs with Some u => _ | None => _ end).
  assert (Hst : forall u, st = Some u -> u ∈ rs).
  { intros u. subst st. destruct (find _ rs) eqn:Ef.
    - intros [= <-]. by apply find_Some in Ef as [? _].
    - apply at_Z_elem. }
  destruct st as [u|]; intros H; simplify_eq; [|auto with lia].
  specialize (Hst u eq_refl). auto with lia.
Qed.

(** What may be recorded as points of an assignment. *)
Definition points_allowed (w : Assignment) (p : jsnum) : Prop :=
  p = max_points w \/
  (is_finite p = true /\ num_lt p (num 0) = false /\ num_lt (max_points w) p = false) \/
  (exists amount, rounded_share (max_points w) amount p).

(** The cells the Gradebook keeps for the headings and the grades: those of a
    column that shows the heading of an assignment, or nothing where an
    assignment has its place, in the first row and in the rows of students. *)
Definition cell_at (input : IntentInput) (r c : Z) : jstr :=
  cell_text (row ← at_Z (default [] (gradebookValues (workbook input))) r; at_Z row c).
Definition known_by_heading (ws : list Assignment) (w : Assignment) : Prop :=
  title w <> [] /\ forallb (fun c => negb (is_eol c)) (title w) = true /\
  (exists k, max_points w = num k /\ 0 <= k < 10 ^ 21) /\
  (forall b, b ∈ ws -> normalizeWords (title b) = normalizeWords (title w) ->
     num_eq (max_points b) (max_points w) = true -> b = w).
Definition assignment_column (input : IntentInput) (c : Z) : Prop :=
  exists w, w ∈ assignments input /\
    ((cell_at input 0 c = formatAssignmentHeader w /\ known_by_heading (assignments input) w) \/
     (trim (cell_at input 0 c) = [] /\ at_Z (assignments input) (c - 2) = Some w)).
Definition student_row (input : IntentInput) (r : Z) : Prop :=
  exists u, u ∈ roster input /\
    (to_lower (username u) = to_lower (trim (cell_at input r 1)) \/ at_Z (roster input) (r - 1) = Some u).
Definition kept_cell (input : IntentInput) (loc : Location) : Prop :=
  assignment_column input (column loc) /\ (row loc = 0 \/ student_row input (row loc)).

Definition action_allowed (input : IntentInput) (a : GradebookAction) : Prop :=
  match a with
  | SetGrade s w p =>
    exists u wk, u ∈ roster input /\ wk ∈ assignments input /\ user_id u = s /\
      assignment_id wk = w /\ submissionFor input s w <> None /\ points_allowed wk p
  | UpdateAssignment w t limit =>
    exists wk, wk ∈ assignments input /\ assignment_id wk = w /\ t <> [] /\
      is_finite limit = true /\ num_lt (num 0) limit = true /\ num_lt (num 10000) limit = false /\
      (forall u, u ∈ roster input -> num_lt limit
         (default (num 0) (sub ← submissionFor input (user_id u) w; g ← s_grade sub; points g)) = false) /\
      (t <> title wk \/ num_eq limit (max_points wk) = false)
  | SetCell sh cell v =>
    sh = js "Gradebook" /\ exists loc, parseCellAddress cell = Some loc /\ 2 <= column loc /\ ~ kept_cell input loc
  | AddColumn _ _ _ => False
  end.

Lemma num_le_false a b : is_finite a = true -> is_finite b = true ->
  num_le a b = false -> num_lt b a = true.
Proof.
  unfold num_le, num_lt, num_eq. destruct a as [| |p], b as [| |q]; try done. intros _ _ H.
  apply orb_false_iff in H as [H1 H2]. apply negb_false_iff in H1. apply negb_true_iff.
  apply not_true_iff_false. intros H3. apply not_true_iff_false in H2. apply H2.
  apply Qeq_bool_iff. apply Qle_antisym; by apply Qle_bool_iff.
Qed.

Lemma pointsForGrade_allowed raw w s :
  pointsForGrade raw w = Some s -> points_allowed w (score_points s).
Proof.
  unfold pointsForGrade. destruct (test _ _); [intros [= <-]; by left|].
  destruct (exec _ _) as [[b t]|]; cbn [mbind option_bind]; [|done].
  set (amount := number_of_string _). set (unit := group 2 t).
  destruct (negb (is_finite amount) || _) eqn:E; [done|]. bool_hyps.
  destruct (_ || _).
  - destruct (num_lt (num 100) amount) eqn:E100; [done|]. intros [= <-]. right. right. exists amount. by apply percent_rounded.
  - destruct (num_lt (max_points w) amount) eqn:Em; [done|]. intros [= <-]. right. left. auto.
Qed.

Lemma header_edit_allowed input address w raw a :
  w ∈ assignments input -> a ∈ actions (resolveHeaderEdit input address w raw) ->
  action_allowed input a.
Proof.
  intros Hw. unfold resolveHeaderEdit.
  set (nt := if seqb _ _ then _ else _). set (limit := default _ _).
  destruct (negb (truthy nt) || _ || _ || _) eqn:E; [by intros ?%elem_of_nil|]. bool_hyps.
  destruct (has_higher_grade _ _ _) eqn:Eh; [by intros ?%elem_of_nil|].
  destruct (seqb nt _ && _) eqn:Es; [by intros ?%elem_of_nil|].
  cbn [actions]. intros ->%list_elem_of_singleton. cbn [action_allowed].
  exists w. repeat split; try done.
  - by apply truthy_true.
  - by apply num_le_false.
  - intros u Hu. unfold has_higher_grade in Eh. revert Eh.
    set (p := fun s : option Submission => num_lt limit _). intros Eh.
    change (p (submissionFor input (user_id u) (assignment_id w)) = false).
    destruct (find p _) as [[s|]|] eqn:Ef; [done| |].
    + apply find_Some in Ef as [_ Ef]. unfold p in Ef. cbn in Ef.
      assert (num_lt limit (num 0) = false) as Hc.
      { apply num_le_false in H1; [|done|done]. clear -H1. destruct limit as [|[]|q]; try done.
        unfold num_lt, num in *. apply negb_false_iff. apply negb_true_iff in H1.
        apply Qle_bool_iff. apply not_true_iff_false in H1. rewrite Qle_bool_iff in H1.
        apply Qnot_le_lt in H1. by apply Qlt_le_weak. }
      by rewrite Hc in Ef.
    + eapply find_None; [exact Ef|]. apply list_elem_of_fmap. eauto.
  - apply andb_false_iff in Es as [Es|Es]; [left; by apply seqb_neq|by right].
Qed.

Lemma grade_edit_allowed input address w u raw a :
  w ∈ assignments input -> u ∈ roster input ->
  a ∈ actions (resolveGradeEdit input address w u raw) -> action_allowed input a.
Proof.
  intros Hw Hu. unfold resolveGradeEdit.
  destruct (submissionFor input _ _) as [sub|] eqn:Es; [|by intros ?%elem_of_nil].
  destruct (pointsForGrade raw w) as [s|] eqn:Ep; [|by intros ?%elem_of_nil].
  cbn [actions]. intros ->%list_elem_of_singleton. exists u, w.
  repeat split; try done; [by rewrite Es|by eapply pointsForGrade_allowed].
Qed.

Lemma heading_found ws w header :
  w ∈ ws -> cell_text header = formatAssignmentHeader w -> known_by_heading ws w -> assignmentForHeader header ws = Some w.
Proof.
  intros Hin Hh (Ht & He & (k & Hm & Hk) & Hu).
  rewrite <- (header_roundtrip w ws k) by done. unfold assignmentForHeader, parseAssignmentHeader. by rewrite Hh.
Qed.
(** What is taken for a cell of the teacher's is no heading and no grade. *)
Lemma custom_not_kept `{!LocaleLaws L} input cell loc a :
  resolveGradebookCellTarget cell (roster input) (assignments input) (workbook input) = Some (Custom a) ->
  parseCellAddress cell = Some loc -> ~ kept_cell input loc.
Proof.
  unfold resolveGradebookCellTarget. intros H Hl. rewrite Hl in H. revert H. cbn [mbind option_bind].
  destruct (Z.leb_spec (column loc) 1) as [|Hc]; [done|].
  set (header := _ ≫= (fun row0 => _) : option WorkbookCellValue). intros H [(w & Hw & Hcol) Hrow].
  assert (Hh : cell_at input 0 (column loc) = cell_text header) by done. rewrite Hh in Hcol. clear Hh. clearbody header.
  set (known := match assignmentForHeader header (assignments input) with Some a => Some a | None => _ end) in H.
  assert (Ha : known <> None).
  { unfold known. destruct Hcol as [[Ht Hk]|[Ht Hk]].
    - by rewrite (heading_found _ _ _ Hw Ht Hk).
    - destruct (assignmentForHeader _ _); [done|]. replace (2 <=? column loc) with true by lia.
      rewrite Hk, Ht, seqb_refl. done. }
  destruct known as [w'|]; [|done]. destruct (Z.eqb_spec (row loc) 0) as [|Hr]; [done|].
  destruct Hrow as [|(u & Hu & Hs)]; [done|]. revert H.
  destruct (find _ (roster input)) as [u'|] eqn:Ef; [done|].
  destruct Hs as [Hs|Hs]; [|by rewrite Hs].
  pose proof (find_None _ _ _ Ef Hu) as Hn. cbv beta in Hn.
  apply seqb_neq in Hn. by destruct Hn.
Qed.

Lemma cell_edit_allowed `{!LocaleLaws L} input i a :
  resolveCellEdit input = Some i -> a ∈ actions i -> action_allowed input a.
Proof.
  unfold resolveCellEdit. destruct (parseCellEdit (prompt input)) as [e|]; [|done].
  cbn [mbind option_bind]. intros [= <-].
  destruct (resolveGradebookCellTarget _ _ _ _) as [t|] eqn:Et; [|by intros ?%elem_of_nil].
  pose proof Et as Et'. apply target_columns in Et' as (loc & Hloc & Ht). destruct t as [ad|ad w|ad w u|ad].
  - by intros ?%elem_of_nil.
  - destruct Ht as (_ & _ & _ & Hw). by apply header_edit_allowed.
  - destruct Ht as (_ & _ & _ & Hw & Hu). by apply grade_edit_allowed.
  - destruct Ht as [-> Hc]. cbn [actions]. intros ->%list_elem_of_singleton.
    split; [done|].
    assert (Hn : normalizeCellAddress (edit_cell e) = Some (address loc)).
    { unfold parseCellAddress in Hloc. destruct (normalizeCellAddress _) as [n|]; [|done].
      cbn [mbind option_bind] in Hloc. destruct (groups _ n) as [[l d]|]; [|done].
      cbn in Hloc. by simplify_eq. }
    destruct (normalized_address _ _ Hn) as (Hid & loc' & Hl' & Ha & _).
    pose proof Hl' as Hl2. rewrite Hl2 in Hloc. injection Hloc as ->. exists loc.
    split; [|split; [done|by eapply custom_not_kept]].
    unfold parseCellAddress in *. rewrite Hid. rewrite Hn in Hl'. done.
Qed.

Lemma mentioned_in_roster p rs u : u ∈ findMentionedStudents p rs -> u ∈ rs.
Proof.
  unfold findMentionedStudents. set (keep := fun c : User * jstr => _ && _).
  set (sorted := sort_js _ _). set (step := fun acc (c : User * jstr) => set_prop _ _ acc).
  assert (Hs : forall c, c ∈ sorted -> fst c ∈ rs).
  { intros c Hc. unfold sorted in Hc. rewrite (sort_js_perm _ _) in Hc.
    apply list_elem_of_In, filter_In in Hc as [Hc _].
    apply in_flat_map in Hc as (x & Hx & Hc). apply list_elem_of_In in Hx, Hc.
    apply list_elem_of_fmap in Hc as (l & -> & _). done. }
  assert (forall acc q, q ∈ fold_left step sorted acc ->
          q ∈ acc \/ snd q ∈ rs) as Hf.
  { revert Hs. generalize sorted as l. induction l as [|c l IH]; intros Hl acc q Hq; [by left|].
    simpl in Hq. apply IH in Hq as [Hq|?]; [|by right|by intros; apply Hl; right].
    apply elem_of_set_prop in Hq as [->|?]; [right; apply Hl; by left|by left]. }
  intros (q & -> & Hq)%list_elem_of_fmap. apply Hf in Hq as [?%elem_of_nil|?]; done.
Qed.

(** Everything [bulkActions] prepares. *)
Lemma bulk_actions_spec input u full scored :
  actions (bulkActions input u full scored) = [] \/
  exists f : Assignment -> jsnum,
    (forall w, w ∈ assignments input -> submissionFor input (user_id u) (assignment_id w) <> None ->
       points_allowed w (f w)) /\
    actions (bulkActions input u full scored) =
      (fun w => SetGrade (user_id u) (assignment_id w) (f w)) <$>
      List.filter (fun w => match submissionFor input (user_id u) (assignment_id w) with
                            | Some _ => true | None => false end) (assignments input).
Proof.
  unfold bulkActions. set (has := fun w : Assignment => match submissionFor input (user_id u) (assignment_id w) with
                           | Some _ => true | None => false end).
  set (ws := List.filter has (assignments input)).
  destruct ws as [|w0 ws'] eqn:Ews; [by left|]. rewrite <- Ews. clear Ews.
  set (amount := match scored with Some (n, _) => n | None => num 100 end).
  set (percent := seqb _ _ || seqb _ _). set (interp := if _ && _ && _ then _ else full).
  destruct (negb (is_finite amount) || _ || _) eqn:E1; [by left|].
  destruct (negb interp && _ && _) eqn:E2; [by left|].
  right. exists (bulk_points interp percent amount). split; [|done].
  intros w Hw Hs. bool_hyps. unfold bulk_points. destruct interp; [by left|].
  destruct percent; simpl in *.
  - right. right. exists amount. by apply percent_rounded.
  - right. left. repeat split; try done.
    assert (w ∈ ws) as Hin.
    { apply list_elem_of_In, filter_In. split; [by apply list_elem_of_In|]. unfold has.
      by destruct (submissionFor _ _ _). }
    apply not_true_iff_false. intros Hlt. apply not_true_iff_false in E2. apply E2.
    apply existsb_exists. exists w. split; [by apply list_elem_of_In|done].
Qed.

Lemma intent_allowed `{!LocaleLaws L} (input : IntentInput) (i : GradebookIntent) :
  resolveGradebookIntent input = Some i -> Forall (action_allowed input) (actions i).
Proof.
  unfold resolveGradebookIntent. rewrite Forall_forall.
  destruct (resolveCellEdit input) as [i'|] eqn:Ec.
  - intros [= <-] a. by apply cell_edit_allowed.
  - unfold resolveBulkGrades. destruct (_ || _); [done|].
    destruct (findMentionedStudents _ _) as [|u [|]] eqn:Em;
      [by intros [= <-] ? ?%elem_of_nil| |by intros [= <-] ? ?%elem_of_nil].
    destruct (_ && _); [done|]. intros [= <-] a Ha.
    assert (u ∈ roster input) as Hu.
    { eapply mentioned_in_roster. rewrite Em. by left. }
    destruct (bulk_actions_spec input u (mentions_full_marks (normalizeWords (prompt input)))
                (score_match (prompt input))) as [E|(f & Hf & E)].
    { rewrite E in Ha. by apply elem_of_nil in Ha. }
    rewrite E in Ha. apply list_elem_of_fmap in Ha as (w & -> & Hw).
    apply list_elem_of_In, filter_In in Hw as [Hw Hs]. apply list_elem_of_In in Hw.
    exists u, w. repeat split; try done; [by destruct (submissionFor _ _ _)|].
    apply Hf; [done|]. by destruct (submissionFor _ _ _).
Qed.


(** A bulk request that prepares anything prepares exactly one grade for
    every assignment the student has submitted, in the order of the
    assignments, and nothing for anyone else. *)
Theorem bulk_grades_every_submission (input : IntentInput) (i : GradebookIntent) :
  resolveBulkGrades input = Some i -> actions i <> [] ->
  exists u, u ∈ roster input /\ findMentionedStudents (prompt input) (roster input) = [u] /\
    (fun a => match a with SetGrade s w _ => Some (s, w) | _ => None end) <$> actions i =
    (fun w => Some (user_id u, assignment_id w)) <$>
      List.filter (fun w => match submissionFor input (user_id u) (assignment_id w) with
                            | Some _ => true | None => false end) (assignments input).
Proof.
  unfold resolveBulkGrades. destruct (_ || _); [done|].
  destruct (findMentionedStudents _ _) as [|u [|]] eqn:Em; [by intros [= <-]| |by intros [= <-]].
  destruct (_ && _); [done|]. intros [= <-] Hne.
  exists u. split; [|split; [done|]].
  { eapply mentioned_in_roster. rewrite Em. by left. }
  destruct (bulk_actions_spec input u (mentions_full_marks (normalizeWords (prompt input)))
              (score_match (prompt input))) as [E|(f & _ & E)]; [done|].
  rewrite E, <- list_fmap_compose. done.
Qed.
End properties.
End Properties.

(** ** The theorems at concrete inputs *)

Module Witnesses.
Import Fixture.
Import Properties.

(** "I" asked the assistant: the actions it prepares. *)
Definition prepared (p : jstr) : option (list GradebookAction) :=
  actions <$> resolveGradebookIntent (ask p).

Example cell_edit_grade :
  prepared (js "Change cell 2F to 15") = Some [SetGrade (js "s1") (js "a3") (num 15)].
Proof. vm_compute. reflexivity. Qed.
Example cell_edit_identity : prepared (js "Change A2 to Bob") = Some [].
Proof. vm_compute. reflexivity. Qed.

(** A percentage of a maximum with three decimals is rounded up past it. *)
Example percent_past_the_maximum :
  let p := percent_points (Fin (12345 # 1000)) (num 100) in
  p = Fin (247 # 20) /\ num_lt (Fin (12345 # 1000)) p = true.
Proof. split; vm_compute; reflexivity. Qed.

Lemma address_roundtrip_witness : parseCellAddress (js "F1") = Some (mkLocation (js "F1") 5 0).
Proof.
  assert (H1 : 0 <= 5 < 18278) by lia. assert (H2 : 0 <= 0 < 9999) by lia.
  exact (address_roundtrip 5 0 H1 H2).
Defined.

Lemma normalized_address_witness : normalizeCellAddress (js " 1$f") = Some (js "F1") /\
  normalizeCellAddress (js "F1") = Some (js "F1").
Proof.
  assert (H : normalizeCellAddress (js " 1$f") = Some (js "F1")) by (vm_compute; reflexivity).
  split; [exact H|]. exact (proj1 (normalized_address _ _ H)).
Defined.

Lemma header_roundtrip_witness :
  assignmentForHeader (Some (CellStr (formatAssignmentHeader essay))) [poem; essay; story] = Some essay.
Proof.
  apply (header_roundtrip essay [poem; essay; story] 100).
  - right. left.
  - done.
  - vm_compute. reflexivity.
  - reflexivity.
  - lia.
  - intros b Hb E _. apply elem_of_cons in Hb as [->|[->|[->|Hb]%elem_of_cons]%elem_of_cons].
    + vm_compute in E. discriminate.
    + done.
    + vm_compute in E. discriminate.
    + by apply elem_of_nil in Hb.
Defined.


Definition full_marks_request : IntentInput := ask (js "Give Ayaan full marks on all assignments").

Lemma bulk_grades_every_submission_witness : exists i u,
  resolveBulkGrades full_marks_request = Some i /\ length (actions i) = 3%nat /\
  findMentionedStudents (prompt full_marks_request) (roster full_marks_request) = [u].
Proof.
  destruct (resolveBulkGrades full_marks_request) as [i|] eqn:E; [|vm_compute in E; discriminate].
  assert (H : length (actions i) = 3%nat) by (vm_compute in E; injection E as <-; reflexivity).
  assert (Hne : actions i <> []) by (intros H'; rewrite H' in H; discriminate).
  destruct (bulk_grades_every_submission full_marks_request i E Hne) as (u & _ & Hu & _).
  exists i, u. split; [reflexivity|]. split; [exact H|exact Hu].
Defined.
End Witnesses.
