(* ===== verification/PaperLogic.v ===== *)
(** * Question papers ([apps/teacher/src/paperLogic.ts])

    A model's answer becomes a paper: [Json] finds, repairs and salvages the
    JSON, [Normalise] turns it into a paper within fixed bounds, [Text]
    writes the student and the teacher copies, [Legacy] reads the papers of
    older versions, [Diagrams] checks diagram sources and [Pages] writes the
    page ranges of a citation. *)

From Stdlib Require Import QArith Qround.
From S2P Require Import Prelude JsString JsNumber Regex JsValue Uri.
Local Open Scope Z_scope.

(** ** Data *)

Inductive ExamBoard := CIE | IGCSE | CBSE | ICSE.
Inductive DifficultyLevel := D1 | D2 | D3 | D4 | D5.
Inductive PaperSourceMode := MAdapt | MExcerpt | MFullPage.
#[export] Instance ExamBoard_eq : EqDecision ExamBoard. Proof. solve_decision. Defined.
#[export] Instance DifficultyLevel_eq : EqDecision DifficultyLevel. Proof. solve_decision. Defined.
#[export] Instance PaperSourceMode_eq : EqDecision PaperSourceMode. Proof. solve_decision. Defined.

Record PaperDiagram := mkDiagram { imageDataUrl : jstr; caption : jstr; alt : jstr }.
Record PaperMarkingPoint := mkPoint { point_text : jstr; point_marks : Z }.
Record PaperScheme := mkScheme {
  markingPoints : list PaperMarkingPoint;
  acceptedAlternatives : list jstr;
  guidance : jstr
}.
Record PaperSubpart := mkSubpart {
  part_label : jstr; part_prompt : jstr; part_marks : Z; part_answer : jstr;
  part_workingLines : Z; part_scheme : PaperScheme
}.
Record PaperQuestion := mkQuestion {
  question_id : jstr; q_prompt : jstr; q_marks : Z; q_answer : jstr; q_workingLines : Z;
  subparts : list PaperSubpart; diagram : option PaperDiagram; q_source : jstr;
  q_scheme : PaperScheme
}.
Record GeneratedPaper := mkPaper { p_instructions : list jstr; questions : list PaperQuestion }.

(** Declared in [paperLibrary.ts]. *)
Record PaperSourceCitation := mkCitation { source_name : jstr; pages : list Z }.

Record PaperMetadata := mkMetadata {
  meta_title : jstr; subject : jstr; board : ExamBoard; syllabusCode : jstr; year : jstr;
  session : jstr; paperVariant : jstr; durationMinutes : Z; sources : list PaperSourceCitation;
  headerText : option jstr; footerText : option jstr;
  repeatHeader : option bool; repeatFooter : option bool
}.

Definition boardName (b : ExamBoard) : jstr :=
  match b with
  | CIE => js "Cambridge International AS & A Level (CIE)"
  | IGCSE => js "Cambridge IGCSE"
  | CBSE => js "CBSE"
  | ICSE => js "CISCE / ICSE"
  end.

Definition difficultyName (l : DifficultyLevel) : jstr :=
  match l with
  | D1 => js "Foundation" | D2 => js "Developing" | D3 => js "Exam standard"
  | D4 => js "Advanced" | D5 => js "Stretch"
  end.

Definition PAPER_OUTPUT_TOKEN_OPTIONS : list (Z * jstr) :=
  [(512, js "512 - Smoke test"); (1024, js "1,024 - Small test"); (2048, js "2,048 - Economy");
   (4096, js "4,096 - Balanced"); (8192, js "8,192 - Full paper")].
Definition DEFAULT_PAPER_OUTPUT_TOKENS : Z := 4096.
Definition normalizePaperOutputTokens (value : jsval) : jsnum :=
  let numeric := to_number value in
  if existsb (fun o : Z * jstr => num_eq (num (fst o)) numeric) PAPER_OUTPUT_TOKEN_OPTIONS then numeric
  else num DEFAULT_PAPER_OUTPUT_TOKENS.

(** ** Page ranges of a citation *)

Module Pages.

(** [[...new Set(pages)].sort(...)]. *)
Definition sorted_pages (ps : list Z) : list Z := sort_js (fun l r => l - r) (remove_dups ps).

(** The loop: the current range and the pages after it. *)
Fixpoint ranges_from (s e : Z) (rest : list Z) : list (Z * Z) :=
  match rest with
  | [] => [(s, e)]
  | page :: rest' =>
    if page =? e + 1 then ranges_from s page rest' else (s, e) :: ranges_from page page rest'
  end.
Definition page_ranges (ps : list Z) : list (Z * Z) :=
  match sorted_pages ps with [] => [] | p :: rest => ranges_from p p rest end.
Definition show_range (r : Z * Z) : jstr :=
  if fst r =? snd r then show_Z (fst r) else show_Z (fst r) ++ js "-" ++ show_Z (snd r).

Definition compactPageRanges (ps : list Z) : jstr :=
  match sorted_pages ps with
  | [] => []
  | [_] => js "p." ++ js " " ++ join (js ", ") (show_range <$> page_ranges ps)
  | _ => js "pp." ++ js " " ++ join (js ", ") (show_range <$> page_ranges ps)
  end.

Definition sourceSummary (sources : list PaperSourceCitation) : jstr :=
  join (js "; ") ((fun source =>
    let pages := compactPageRanges (pages source) in
    if truthy pages then source_name source ++ js " (" ++ pages ++ js ")" else source_name source)
    <$> sources).
End Pages.
Import Pages.

(** ** Cleaning what a model wrote *)

Module Clean.

Definition re_markers : re :=
  seqs [chr 91; alts [lit_i (js "CINDER_QUESTIONS"); lit_i (js "CINDER_ANSWER_KEY");
                      lit_i (js "WORKING_SPACE")]; chr 93].
Definition re_fence_open (languages : list jstr) : re :=
  seqs [RBegin; lit (js "```"); ROpt true (alts (lit_i <$> languages)); r_spaces].
Definition re_fence_close : re := seqs [r_spaces; lit (js "```"); REnd].
Definition re_headings : re := seqs [RBeginLine; between 1 6 (chr 35); r_spaces1].
Definition re_underscores : re := RSeq (chr 95) (rplus true (chr 95)).

Definition clean_text (value : jstr) : jstr :=
  let s := replace_all re_markers (const []) value in
  let s := replace_first (re_fence_open [js "json"; js "text"; js "markdown"; js "md"]) (const []) s in
  let s := replace_first re_fence_close (const []) s in
  let s := replace_all re_headings (const []) s in
  let s := replace_all (lit (js "**")) (const []) s in
  let s := replace_all re_underscores (const []) s in
  let s := replace_all (RSeq (chr 13) (chr 10)) (const s_nl) s in
  trim s.
Definition cleanModelText (value : jsval) (fallback : jstr) : jstr :=
  match value with VStr s => clean_text s | _ => fallback end.

Definition numeric (value : jsval) (fallback minimum maximum : Z) : Z :=
  match to_number value with
  | Fin q => Z.max minimum (Z.min maximum (Qround_js q))
  | _ => fallback
  end.

Definition safeId (index : nat) : jstr := js "question-" ++ show_Z (Z.of_nat index + 1).

(** [s.slice(0, n)]. *)
Definition cut (n : N) (s : jstr) : jstr := take (N.to_nat n) s.
End Clean.
Import Clean.

(** ** Diagram sources *)

Module Diagrams.

Definition ALLOWED_SVG_TAGS : list jstr :=
  [js "svg"; js "g"; js "line"; js "rect"; js "circle"; js "ellipse"; js "polyline";
   js "polygon"; js "path"; js "text"].

Definition re_forbidden_tags : re :=
  alts ((lit_i <$> [js "<!doctype"; js "<?xml"; js "<script"; js "<style"; js "<foreignObject";
                    js "<image"; js "<use"]) ++
        [RSeq (lit_i (js "<a")) RWordB] ++
        (lit_i <$> [js "<iframe"; js "<object"; js "<embed"])).
Definition re_tag : re :=
  seqs [chr 60; ROpt true (chr 47); r_spaces;
        RCap 1 (RSeq (RSet is_letter)
                     (RStar true (RSet (fun c => is_word c || one_of (js ":-") c))));
        RWordB].
Definition re_forbidden_attributes : re :=
  alts [seqs [RWordB; lit_i (js "on"); rplus true (RSet is_letter); r_spaces; chr 61];
        seqs [RWordB; alts (lit_i <$> [js "href"; js "xlink:href"; js "src"; js "style"]);
              r_spaces; chr 61];
        seqs [lit_i (js "url"); r_spaces; chr 40];
        lit_i (js "javascript:"); lit_i (js "data:")].
Definition re_comment : re :=
  seqs [lit (js "<!--"); RStar false (RSet (fun _ => true)); lit (js "-->")].
Definition re_dropped_attributes : re :=
  seqs [r_space; alts (lit_i <$> [js "width"; js "height"; js "xmlns"]); r_spaces; chr 61;
        r_spaces; RSet (one_of [34; 39]%N); RStar true (RSet (fun c => negb (one_of [34; 39]%N c)));
        RSet (one_of [34; 39]%N)].
Definition re_svg_open : re := seqs [RBegin; lit_i (js "<svg"); RWordB].
Definition re_svg_close : re := seqs [lit_i (js "</svg>"); r_spaces; REnd].
Definition re_view_box : re := seqs [RWordB; lit (js "viewBox"); r_spaces; chr 61].

Definition quoted (s : jstr) : jstr := s_quote ++ s ++ s_quote.

Definition sanitizeDiagramSvg (value : jsval) : jstr :=
  match value with
  | VStr s =>
    let svg := cut 24000 (trim s) in
    if negb (test re_svg_open svg) || negb (test re_svg_close svg) then []
    else if test re_forbidden_tags svg then []
    else
      let tags := (fun bt => ascii_lower <$> default [] (group 1 (snd bt))) <$> match_all re_tag svg in
      if existsb (fun tag => negb (existsb (seqb tag) ALLOWED_SVG_TAGS)) tags then []
      else if test re_forbidden_attributes svg then []
      else
        let svg := replace_all re_comment (const []) svg in
        let svg := replace_all re_dropped_attributes (const []) svg in
        let svg := replace_first re_svg_open (const (js "<svg xmlns=" ++
          quoted (js "http://www.w3.org/2000/svg") ++ js " width=" ++ quoted (js "720") ++
          js " height=" ++ quoted (js "360"))) svg in
        let opening := match index_of (js ">") svg with Some i => take (S i) svg | None => [] end in
        if negb (test re_view_box opening)
        then replace_first re_svg_open (const (js "<svg viewBox=" ++ quoted (js "0 0 720 360"))) svg
        else svg
  | _ => []
  end.

Definition is_base64 (c : N) : bool := is_letter c || is_digit c || one_of (js "+/") c.
Definition re_image_data : re :=
  seqs [RBegin; lit_i (js "data:image/"); alts [lit_i (js "png"); lit_i (js "jpeg")];
        lit_i (js ";base64,"); rplus true (RSet is_base64); upto 2 (chr 61); REnd].

Definition sanitizeDiagramImageDataUrl (value : jsval) : jstr :=
  match value with
  | VStr s =>
    if 7000000 <? jlen s then []
    else let dataUrl := trim s in if test re_image_data dataUrl then dataUrl else []
  | _ => []
  end.
End Diagrams.
Import Diagrams.

(** ** From a model's JSON to a paper within bounds *)

Module Normalise.

Definition EMPTY_SCHEME : PaperScheme := mkScheme [] [] [].

Definition normalizePointObject (availableMarks : Z) (item : jsval) : option PaperMarkingPoint :=
  if negb (is_object item) then None
  else
    let text := cut 600 (cleanModelText (coalesce (get (js "text") item) (get (js "point") item)) []) in
    if negb (truthy text) then None
    else Some (mkPoint text (numeric (get (js "marks") item) 1 0 (Z.max 1 availableMarks))).

Definition normalizePoint (availableMarks : Z) (item : jsval) : option PaperMarkingPoint :=
  match item with
  | VStr s =>
    let text := cut 600 (clean_text s) in
    if truthy text then Some (mkPoint text 1) else None
  | _ => normalizePointObject availableMarks item
  end.

Definition elements (v : jsval) : list jsval := match v with VArr xs => xs | _ => [] end.

(** [items.map(clean).filter(Boolean).slice(0, most)]. *)
Definition clean_list (limit : N) (most : nat) (v : jsval) : list jstr :=
  take most (List.filter truthy ((fun item => cut limit (cleanModelText item [])) <$> elements v)).

Definition normalizeScheme (value : jsval) (availableMarks : Z) : PaperScheme :=
  if negb (is_object value) then EMPTY_SCHEME
  else
    let rawPoints := coalesce (get (js "marking_points") value) (get (js "markingPoints") value) in
    let rawAlternatives := coalesce (get (js "accepted_alternatives") value)
                                    (get (js "acceptedAlternatives") value) in
    mkScheme (filter_map (normalizePoint availableMarks) (take 20 (elements rawPoints)))
      (clean_list 400 20 rawAlternatives)
      (cut 2000 (cleanModelText (coalesce (get (js "guidance") value) (get (js "notes") value)) [])).

Definition scheme_of (v : jsval) : jsval :=
  coalesce (coalesce (get (js "scheme") v) (get (js "marking_scheme") v)) (get (js "markingScheme") v).
Definition working_lines_of (v : jsval) : jsval :=
  coalesce (get (js "working_lines") v) (get (js "workingLines") v).
Definition prompt_of (v : jsval) : jsval := coalesce (get (js "prompt") v) (get (js "question") v).

Definition normalizeSubpart (p : nat * jsval) : option PaperSubpart :=
  let '(index, candidate) := p in
  if negb (is_object candidate) then None
  else
    let prompt := cut 4000 (cleanModelText (prompt_of candidate) []) in
    if negb (truthy prompt) then None
    else
      let marks := numeric (get (js "marks") candidate) 1 1 50 in
      Some (mkSubpart
        (cut 5 (cleanModelText (get (js "label") candidate) [(97 + N.of_nat index)%N]))
        prompt marks
        (cut 8000 (cleanModelText (get (js "answer") candidate) []))
        (numeric (working_lines_of candidate) 3 0 12)
        (normalizeScheme (scheme_of candidate) marks)).

Definition normalizeSubparts (value : jsval) : list PaperSubpart :=
  filter_map normalizeSubpart (imap pair (take 12 (elements value))).

Definition normalizeDiagram (value : jsval) : option PaperDiagram :=
  if negb (is_object value) then None
  else
    let url := sanitizeDiagramImageDataUrl
                 (coalesce (get (js "imageDataUrl") value) (get (js "image_data_url") value)) in
    if negb (truthy url) then None
    else Some (mkDiagram url (cut 240 (cleanModelText (get (js "caption") value) []))
                (cut 240 (cleanModelText (get (js "alt") value) (js "Question diagram")))).

Definition total_marks (parts : list PaperSubpart) : Z :=
  fold_left (fun total part => total + part_marks part) parts 0.

Definition default_lines (marks : Z) : Z := if 5 <=? marks then 6 else if 3 <=? marks then 4 else 2.

Definition normalizeQuestion (p : nat * jsval) : option PaperQuestion :=
  let '(index, question) := p in
  if negb (is_object question) then None
  else
    let prompt := cut 8000 (cleanModelText (prompt_of question) []) in
    if negb (truthy prompt) then None
    else
      let parts := normalizeSubparts (coalesce (get (js "subparts") question) (get (js "parts") question)) in
      let marks := match parts with
                   | [] => numeric (get (js "marks") question) 1 1 100
                   | _ => total_marks parts
                   end in
      Some (mkQuestion
        (or_str (cut 80 (cleanModelText (get (js "id") question) (safeId index))) (safeId index))
        prompt marks
        (cut 12000 (cleanModelText (get (js "answer") question) []))
        (numeric (working_lines_of question) (default_lines marks) 0 14)
        parts
        (normalizeDiagram (get (js "diagram") question))
        (cut 300 (cleanModelText (get (js "source") question) []))
        (normalizeScheme (scheme_of question) marks)).

Definition msg_no_paper : jstr := js "The AI response did not contain a paper specification.".
Definition msg_no_list : jstr := js "The AI response did not contain a questions list.".
Definition msg_no_questions : jstr := js "The AI response did not contain usable questions.".

Definition normalizeGeneratedPaper (value0 : jsval) : outcome jstr GeneratedPaper :=
  let root := if is_array value0 then VObj [(js "questions", value0)] else value0 in
  if negb (is_object root) then Throw msg_no_paper
  else
    let nested := coalesce (coalesce (coalesce (get (js "paper") root) (get (js "question_paper") root))
                                     (get (js "questionPaper") root)) (get (js "data") root) in
    let candidate := if is_record nested then nested else root in
    if negb (is_array (get (js "questions") candidate)) then Throw msg_no_list
    else
      let qs := filter_map normalizeQuestion
                  (imap pair (take 50 (elements (get (js "questions") candidate)))) in
      match qs with
      | [] => Throw msg_no_questions
      | _ => Ok (mkPaper (clean_list 1000 12 (get (js "instructions") candidate)) qs)
      end.

Definition paperTotalMarks (paper : GeneratedPaper) : Z :=
  fold_left (fun total q => total + q_marks q) (questions paper) 0.
End Normalise.
Import Normalise.

(** ** Finding, repairing and salvaging the JSON *)

Module Json.

Definition msg_unstructured : jstr := js "The AI did not return structured paper data.".
Definition msg_malformed : jstr :=
  js "The AI returned malformed paper data. Try creating the paper again.".

Definition extractJsonObject (value : jstr) : outcome jstr jstr :=
  let cleaned := trim (replace_first re_fence_close (const [])
                   (replace_first (re_fence_open [js "json"]) (const []) value)) in
  match index_of (js "{") cleaned, last_index_of 125 cleaned with
  | Some start, Some stop =>
    if (stop <=? start)%nat then Throw msg_unstructured
    else Ok (drop start (take (S stop) cleaned))
  | _, _ => Throw msg_unstructured
  end.

(** The loop over the characters; a surrogate pair is an ordinary character
    and is copied unit by unit. *)
Fixpoint repair_loop (inString escaped : bool) (s : jstr) : jstr :=
  match s with
  | [] => if escaped then [92; 92]%N else []
  | c :: s' =>
    if negb inString then c :: repair_loop (c =? 34)%N escaped s'
    else if escaped then
      (if one_of (js "/bfnrtu" ++ [34; 92]%N) c then [92; c]%N else [92; 92; c]%N) ++ repair_loop true false s'
    else if (c =? 92)%N then repair_loop true true s'
    else if (c =? 34)%N then c :: repair_loop false false s'
    else (if (c =? 10)%N then [92; 110]%N else if (c =? 13)%N then [92; 114]%N
          else if (c =? 9)%N then [92; 116]%N else [c]) ++ repair_loop true false s'
  end.
Definition re_trailing_comma : re := seqs [chr 44; r_spaces; RCap 1 (RSet (one_of [125; 93]%N))].
Definition repairCommonJsonIssues (value : jstr) : jstr :=
  replace_all re_trailing_comma (fun _ t => default [] (group 1 t)) (repair_loop false false value).

(** The loop of [recoverCompleteQuestions].  [fragment] is what has been read
    since [objectStart], reversed; [None] stands for [-1]. *)
Definition parse_fragment (fragment : jstr) : option jsval :=
  match parse_json fragment with
  | Some v => Some v
  | None => parse_json (repairCommonJsonIssues fragment)
  end.

Fixpoint recover_loop (s : jstr) (fragment : option jstr) (depth : Z) (inString escaped : bool)
    : list jsval :=
  match s with
  | [] => []
  | c :: s' =>
    let grown := cons c <$> fragment in
    if inString then
      if escaped then recover_loop s' grown depth true false
      else if (c =? 92)%N then recover_loop s' grown depth true true
      else recover_loop s' grown depth (negb (c =? 34)%N) false
    else if (c =? 34)%N then recover_loop s' grown depth true escaped
    else if (c =? 123)%N then
      recover_loop s' (if depth =? 0 then Some [c] else grown) (depth + 1) false escaped
    else if ((c =? 125)%N && (0 <? depth)) then
      match (if depth - 1 =? 0 then grown else None) with
      | Some text =>
        match parse_fragment (rev text) with
        | Some v => v :: recover_loop s' None (depth - 1) false escaped
        | None => recover_loop s' None (depth - 1) false escaped
        end
      | None => recover_loop s' grown (depth - 1) false escaped
      end
    else if ((c =? 93)%N && (depth =? 0)) then []
    else recover_loop s' grown depth false escaped
  end.

Definition re_questions_list : re :=
  seqs [RSet (one_of [34; 39]%N); lit_i (js "questions"); RSet (one_of [34; 39]%N);
        r_spaces; chr 58; r_spaces; chr 91].

Definition recoverCompleteQuestions (value : jstr) : outcome jstr (option GeneratedPaper) :=
  match exec re_questions_list value with
  | None => Ok None
  | Some (_, t) =>
    match recover_loop (after t) None 0 false false with
    | [] => Ok None
    | qs => Some <$> normalizeGeneratedPaper
              (VObj [(js "instructions", VArr []); (js "questions", VArr qs)])
    end
  end.

Definition re_own_message : re :=
  alts [lit (js "AI response"); lit (js "questions"); lit (js "paper specification")].

Section parse.
(** The message of the [SyntaxError] that [JSON.parse] throws for a text: it
    depends on the engine, and some engines quote the text in it. *)
Variable syntax_message : jstr -> jstr.

Definition json_parse (text : jstr) : outcome jstr jsval :=
  match parse_json text with Some v => Ok v | None => Throw (syntax_message text) end.

Definition recover_or_fail (value : jstr) : outcome jstr GeneratedPaper :=
  match recoverCompleteQuestions value with
  | Ok (Some recovered) => Ok recovered
  | Ok None => Throw msg_malformed
  | Throw e => Throw e
  end.

Definition parseGeneratedPaperResponse (value : jstr) : outcome jstr GeneratedPaper :=
  match extractJsonObject value with
  | Throw _ => recover_or_fail value
  | Ok json =>
    match json_parse json ≫= normalizeGeneratedPaper with
    | Ok paper => Ok paper
    | Throw message =>
      if test re_own_message message then Throw message
      else
        catch (json_parse (repairCommonJsonIssues json) ≫= normalizeGeneratedPaper)
              (fun _ => recover_or_fail value)
    end
  end.
End parse.
End Json.
Import Json.

(** ** The student and the teacher copy *)

Module Text.

Definition nonempty (xs : list jstr) : list jstr := List.filter truthy xs.

Definition metadataLines (m : PaperMetadata) : list jstr :=
  let details := nonempty [
    boardName (board m);
    (if truthy (syllabusCode m) then js "Syllabus " ++ syllabusCode m else []);
    (if truthy (year m) then year m else []);
    (if truthy (session m) then session m else []);
    (if truthy (paperVariant m) then js "Paper " ++ paperVariant m else [])] in
  nonempty [
    or_str (trim (meta_title m)) (js "Question paper");
    trim (subject m);
    join (js " | ") details;
    (if 0 <? durationMinutes m
     then js "Time allowed: " ++ show_Z (durationMinutes m) ++ js " minutes" else []);
    (match sources m with [] => [] | _ => js "Sources: " ++ sourceSummary (sources m) end)].

Definition blank_lines (n : Z) : list jstr := repeat [] (Z.to_nat n).
Definition in_brackets (n : Z) : jstr := js " [" ++ show_Z n ++ js "]".
Definition numbered (index : nat) (text : jstr) : jstr := show_Z (Z.of_nat index + 1) ++ js ". " ++ text.

Definition part_lines (part : PaperSubpart) : list jstr :=
  (js "   (" ++ part_label part ++ js ") " ++ part_prompt part ++ in_brackets (part_marks part))
    :: blank_lines (part_workingLines part).

Definition question_lines (index : nat) (q : PaperQuestion) : list jstr :=
  [ []; numbered index (q_prompt q ++ in_brackets (q_marks q)) ] ++
  (match diagram q with
   | Some d => [js "[Diagram: " ++ or_str (caption d) (alt d) ++ js "]"]
   | None => []
   end) ++
  flat_map part_lines (subparts q) ++
  (match subparts q with [] => blank_lines (q_workingLines q) | _ => [] end).

Definition questionPaperText (m : PaperMetadata) (paper : GeneratedPaper) : jstr :=
  trim (join s_nl (metadataLines m ++
    (match p_instructions paper with
     | [] => []
     | items => [] :: js "Instructions" :: ((fun item => js "- " ++ item) <$> items)
     end) ++
    concat (imap question_lines (questions paper)))).

Definition schemeLines (scheme : option PaperScheme) (indent : jstr) : list jstr :=
  match scheme with
  | None => []
  | Some s =>
    ((fun point => indent ++ js "- " ++ point_text point ++ in_brackets (point_marks point))
       <$> markingPoints s) ++
    (match acceptedAlternatives s with
     | [] => []
     | alts => [indent ++ js "Also accept: " ++ join (js "; ") alts]
     end) ++
    (if truthy (guidance s) then [indent ++ js "Guidance: " ++ guidance s] else [])
  end.

Definition key_part_lines (part : PaperSubpart) : list jstr :=
  (js "   (" ++ part_label part ++ js ") " ++ or_str (part_answer part) (js "No answer supplied.") ++
   in_brackets (part_marks part)) :: schemeLines (Some (part_scheme part)) (js "      ").

Definition key_lines (index : nat) (q : PaperQuestion) : list jstr :=
  [ []; (match subparts q with
         | [] => numbered index (or_str (q_answer q) (js "No answer supplied.") ++ in_brackets (q_marks q))
         | _ => numbered index (q_prompt q ++ in_brackets (q_marks q))
         end) ] ++
  schemeLines (Some (q_scheme q)) (js "   ") ++
  flat_map key_part_lines (subparts q) ++
  (if truthy (q_source q) then [js "   Source note: " ++ q_source q] else []).

Definition answerKeyText (m : PaperMetadata) (paper : GeneratedPaper) : jstr :=
  trim (join s_nl (nonempty [
      or_str (trim (meta_title m)) (js "Question paper") ++ js " - Marking scheme";
      trim (subject m); boardName (board m); js "Teacher copy. Do not give this to students."] ++
    concat (imap key_lines (questions paper)))).
End Text.
Import Text.

(** ** Papers saved as plain text by older versions *)

Module Legacy.

(** [s.split(/\r?\n/)]. *)
Definition drop_cr (line : jstr) : jstr :=
  match rev line with c :: r => if (c =? 13)%N then rev r else line | [] => line end.
Fixpoint split_lines_from (lines : list jstr) : list jstr :=
  match lines with
  | [] => []
  | [last] => [last]
  | line :: rest => drop_cr line :: split_lines_from rest
  end.
Definition split_lines (s : jstr) : list jstr := split_lines_from (split 10 s).

Definition r_number : re := between 1 3 r_digit.
Definition r_lazy_text : re := rplus false r_dot.
Definition re_answer : re :=
  seqs [RBegin; r_spaces; RCap 1 r_number; RSet (one_of (js ").:-|")); r_spaces;
        RCap 2 r_lazy_text; r_spaces; REnd].
Definition re_table : re :=
  seqs [RBegin; r_spaces; ROpt true (chr 124); r_spaces; RCap 1 r_number; r_spaces; chr 124; r_spaces;
        RCap 2 r_number; r_spaces; chr 124; r_spaces; RCap 3 r_lazy_text; r_spaces;
        ROpt true (chr 124); r_spaces; REnd].
Definition re_plain : re :=
  seqs [RBegin; r_spaces; ROpt true (RSeq (lit (js "question")) r_spaces); RCap 1 r_number;
        RSet (one_of (js ").:")); r_spaces; RCap 2 r_lazy_text;
        ROpt true (seqs [r_spaces; chr 91; RCap 3 r_number; chr 93]); r_spaces; REnd].
(** [/^marks|question$/i]: the anchors bind tighter than the bar. *)
Definition re_header_row : re :=
  RAlt (RSeq RBegin (lit_i (js "marks"))) (RSeq (lit_i (js "question")) REnd).
Definition re_dropped_line : re :=
  alts [seqs [RBegin; lit_i (js "source"); ROpt true (chr_i 115); chr 58];
        RSeq RBegin (lit_i (js "subject:"));
        RSeq RBegin (lit_i (js "student section"))].

Definition number_group (i : nat) (t : st) : Z := digits_value (default [] (group i t)).
Definition text_group (i : nat) (t : st) : jstr := default [] (group i t).

Definition legacy_answers (answerText : jstr) : gmap Z jstr :=
  fold_left (fun answers line =>
    match exec re_answer line with
    | Some (_, t) => <[number_group 1 t := clean_text (text_group 2 t)]> answers
    | None => answers
    end) (split_lines answerText) ∅.

(** The number, the marks and the prompt of a line. *)
Definition legacy_line (line : jstr) : option (Z * Z * jstr) :=
  match exec re_table line with
  | Some (_, t) => Some (number_group 1 t, number_group 2 t, clean_text (text_group 3 t))
  | None =>
    match exec re_plain line with
    | Some (_, t) =>
      Some (number_group 1 t,
            numeric (match group 3 t with Some s => VStr s | None => VUndef end) 1 1 100,
            clean_text (text_group 2 t))
    | None => None
    end
  end.

Definition plain_question (id prompt : jstr) (marks : Z) (answer : jstr) (workingLines : Z) : PaperQuestion :=
  mkQuestion id prompt marks answer workingLines [] None [] EMPTY_SCHEME.

Definition legacy_questions (answers : gmap Z jstr) (lines : list jstr) : list PaperQuestion :=
  fold_left (fun questions line =>
    match legacy_line line with
    | Some (number, marks, prompt) =>
      if negb (truthy prompt) || test re_header_row prompt then questions
      else questions ++ [plain_question (safeId (length questions)) prompt marks
                           (default [] (answers !! number)) (default_lines marks)]
    | None => questions
    end) lines [].

Definition legacyPaperToSpec (questionText answerText : jstr) : GeneratedPaper :=
  match legacy_questions (legacy_answers answerText) (split_lines questionText) with
  | [] =>
    let cleaned := cut 8000 (join (js " ") (List.filter
      (fun line => truthy (trim line) && negb (test re_dropped_line line))
      (split_lines (clean_text questionText)))) in
    mkPaper [] (if truthy cleaned
                then [plain_question (safeId 0) cleaned 1 (clean_text answerText) 3] else [])
  | qs => mkPaper [] qs
  end.
End Legacy.

(** ** Links and prompts *)

(** [None] where [encodeURIComponent] throws. *)
Definition officialSourceUrl (b : ExamBoard) (syllabusCode subject year : jstr) : option jstr :=
  query ← encodeURIComponent
    (join (js " ") (nonempty [syllabusCode; subject; year; js "past papers specimen"]));
  Some match b with
  | CIE | IGCSE => js "https://www.cambridgeinternational.org/search-results/?query=" ++ query
  | CBSE => js "https://cbseacademic.nic.in/sqp_archive.html"
  | ICSE => js "https://cisce.org/?s=" ++ query
  end.

Definition difficultyPrompt (level : DifficultyLevel) : jstr :=
  match level with
  | D1 => js "Use direct recall and one-step applications, but avoid trivial arithmetic repetition."
  | D2 => js "Use familiar contexts with two-step reasoning and a balanced mix of knowledge and application."
  | D3 => js "Match real board-exam demand: multi-step application, data interpretation and precise command words; keep pure recall below 30 percent."
  | D4 => js "Use unfamiliar contexts, linked concepts, explanation and evaluation at the upper end of the selected board's normal demand."
  | D5 => js "Create stretch questions above routine exam demand, requiring synthesis, assumptions, justification and error analysis while remaining inside the syllabus."
  end.
