(* ===== verification/PaperFacts.v ===== *)
(** * Theorems about question papers

    What [PaperLogic] guarantees: the bounds of a normalised paper, the
    outcomes of reading a model's response, what survives a truncated one,
    and that the student copy never depends on teacher-only text. *)

From Stdlib Require Import QArith Qround.
From S2P Require Import Prelude JsString JsNumber Regex JsValue Uri PaperLogic.
Import Pages Clean Diagrams Normalise Json Text Legacy.
Local Open Scope Z_scope.

(** ** The bounds of a normalised paper *)

Module Bounds.

Definition within (n : N) (s : jstr) : Prop := (length s <= N.to_nat n)%nat.
Definition filled (n : N) (s : jstr) : Prop := s <> [] /\ within n s.

Definition scheme_ok (available : Z) (s : PaperScheme) : Prop :=
  (length (markingPoints s) <= 20)%nat /\
  Forall (fun p => filled 600 (point_text p) /\ 0 <= point_marks p <= Z.max 1 available) (markingPoints s) /\
  (length (acceptedAlternatives s) <= 20)%nat /\ Forall (filled 400) (acceptedAlternatives s) /\
  within 2000 (guidance s).
Definition part_ok (p : PaperSubpart) : Prop :=
  within 5 (part_label p) /\ filled 4000 (part_prompt p) /\ 1 <= part_marks p <= 50 /\
  within 8000 (part_answer p) /\ 0 <= part_workingLines p <= 12 /\ scheme_ok (part_marks p) (part_scheme p).
Definition diagram_ok (d : PaperDiagram) : Prop :=
  test re_image_data (imageDataUrl d) = true /\ jlen (imageDataUrl d) <= 7000000 /\
  within 240 (caption d) /\ within 240 (alt d).
Definition question_ok (q : PaperQuestion) : Prop :=
  filled 80 (question_id q) /\ filled 8000 (q_prompt q) /\
  (length (subparts q) <= 12)%nat /\ Forall part_ok (subparts q) /\
  match subparts q with [] => 1 <= q_marks q <= 100 | ps => q_marks q = total_marks ps end /\
  1 <= q_marks q <= 600 /\ within 12000 (q_answer q) /\ 0 <= q_workingLines q <= 14 /\
  match diagram q with Some d => diagram_ok d | None => True end /\
  within 300 (q_source q) /\ scheme_ok (q_marks q) (q_scheme q).
Definition paper_ok (p : GeneratedPaper) : Prop :=
  (1 <= length (questions p) <= 50)%nat /\ Forall question_ok (questions p) /\
  (length (p_instructions p) <= 12)%nat /\ Forall (filled 1000) (p_instructions p).

Lemma cut_within n s : within n (cut n s).
Proof. unfold within, cut. rewrite length_take. lia. Qed.
Lemma cut_filled n s : truthy (cut n s) = true -> filled n (cut n s).
Proof. intros H%truthy_true. split; [done|apply cut_within]. Qed.

Lemma numeric_bounds v fallback lo hi :
  lo <= fallback <= hi -> lo <= numeric v fallback lo hi <= hi.
Proof. unfold numeric. destruct (to_number v); lia. Qed.

Lemma clean_list_ok limit most v :
  (length (clean_list limit most v) <= most)%nat /\ Forall (filled limit) (clean_list limit most v).
Proof.
  unfold clean_list. split; [rewrite length_take; lia|]. apply Forall_take, Forall_forall.
  intros s [Hs Ht]%list_elem_of_In%filter_In. apply list_elem_of_In, list_elem_of_fmap in Hs as (x & -> & _).
  by apply cut_filled.
Qed.

Lemma normalizePoint_ok available item p :
  normalizePoint available item = Some p ->
  filled 600 (point_text p) /\ 0 <= point_marks p <= Z.max 1 available.
Proof.
  assert (Hgen : forall x, normalizePointObject available x = Some p ->
    filled 600 (point_text p) /\ 0 <= point_marks p <= Z.max 1 available).
  { intros x. unfold normalizePointObject. destruct (is_object x); simpl negb; cbv iota zeta; [|done].
    destruct (truthy _) eqn:Et; simpl negb; cbv iota; [|done]. intros [= <-].
    split; [by apply cut_filled|apply numeric_bounds; lia]. }
  destruct item as [| | | |s| |]; try exact (Hgen _).
  unfold normalizePoint. cbv zeta. destruct (truthy _) eqn:Et; [|done]. intros [= <-].
  split; [by apply cut_filled|cbn [point_marks]; lia].
Qed.

Lemma normalizeScheme_ok v available : scheme_ok available (normalizeScheme v available).
Proof.
  unfold normalizeScheme. destruct (is_object v); simpl negb; cbv iota zeta.
  - unfold scheme_ok. cbn [markingPoints acceptedAlternatives guidance].
    set (raw := coalesce _ _). set (alts := coalesce _ _). repeat split.
    + etransitivity; [apply length_filter_map|]. rewrite length_take. lia.
    + apply filter_map_Forall. intros x p _. apply normalizePoint_ok.
    + apply clean_list_ok.
    + apply clean_list_ok.
    + apply cut_within.
  - unfold scheme_ok, within; simpl; repeat split; try constructor; lia.
Qed.

Lemma normalizeSubpart_ok x p : normalizeSubpart x = Some p -> part_ok p.
Proof.
  destruct x as [i v]. unfold normalizeSubpart. destruct (is_object v); simpl negb; cbv iota zeta; [|done].
  destruct (truthy _) eqn:Et; simpl negb; cbv iota; [|done]. intros [= <-].
  unfold part_ok. cbn [part_label part_prompt part_marks part_answer part_workingLines part_scheme].
  repeat split; try apply cut_within; try (apply numeric_bounds; lia); try by apply cut_filled.
  all: apply normalizeScheme_ok.
Qed.

Lemma length_imap_take {A} n (l : list A) : length (imap pair (take n l)) = Nat.min n (length l).
Proof. by rewrite length_imap, length_take. Qed.

Lemma normalizeSubparts_ok v :
  (length (normalizeSubparts v) <= 12)%nat /\ Forall part_ok (normalizeSubparts v).
Proof.
  unfold normalizeSubparts. split.
  - etransitivity; [apply length_filter_map|]. rewrite length_imap_take. lia.
  - apply filter_map_Forall. intros x p _. apply normalizeSubpart_ok.
Qed.

Lemma total_marks_acc ps acc :
  fold_left (fun total p => total + part_marks p) ps acc = acc + total_marks ps.
Proof.
  unfold total_marks. revert acc. induction ps as [|p ps IH]; intros acc; cbn [fold_left]; [lia|].
  rewrite (IH (acc + part_marks p)), (IH (0 + part_marks p)). lia.
Qed.
Lemma total_marks_cons p ps : total_marks (p :: ps) = part_marks p + total_marks ps.
Proof. unfold total_marks at 1. cbn [fold_left]. by rewrite total_marks_acc. Qed.

Lemma total_marks_bounds ps : Forall part_ok ps ->
  Z.of_nat (length ps) <= total_marks ps <= 50 * Z.of_nat (length ps).
Proof.
  induction 1 as [|p ps Hp _ IH]; [done|]. rewrite total_marks_cons. simpl length.
  destruct Hp as (_ & _ & Hm & _). lia.
Qed.

Lemma image_ok v : truthy (sanitizeDiagramImageDataUrl v) = true ->
  test re_image_data (sanitizeDiagramImageDataUrl v) = true /\ jlen (sanitizeDiagramImageDataUrl v) <= 7000000.
Proof.
  unfold sanitizeDiagramImageDataUrl. destruct v; try done.
  destruct (Z.ltb_spec 7000000 (jlen s)); [done|]. cbv zeta.
  destruct (test re_image_data (trim s)) eqn:E; [|done]. intros _. split; [done|].
  pose proof (length_trim s). unfold jlen in *. lia.
Qed.

Lemma normalizeDiagram_ok v d : normalizeDiagram v = Some d -> diagram_ok d.
Proof.
  unfold normalizeDiagram. destruct (is_object v); simpl negb; cbv iota zeta; [|done].
  destruct (truthy _) eqn:Et; simpl negb; cbv iota; [|done]. intros [= <-].
  apply image_ok in Et as [? ?]. unfold diagram_ok. cbn [imageDataUrl caption alt].
  repeat split; try done; apply cut_within.
Qed.

Lemma safeId_filled i : (i < 50)%nat -> filled 80 (safeId i).
Proof.
  intros Hi. unfold safeId. split; [done|]. unfold within. rewrite length_app.
  rewrite show_Z_digits. replace (Z.of_nat i + 1 <? 0) with false by lia.
  pose proof (length_digits (Z.abs_N (Z.of_nat i + 1)) 1 ltac:(simpl; lia)). simpl length at 1. lia.
Qed.

Lemma default_lines_bounds m : 0 <= default_lines m <= 14.
Proof. unfold default_lines. destruct (5 <=? m), (3 <=? m); lia. Qed.

Lemma normalizeQuestion_ok i v q : (i < 50)%nat -> normalizeQuestion (i, v) = Some q -> question_ok q.
Proof.
  intros Hi. unfold normalizeQuestion. destruct (is_object v); simpl negb; cbv iota zeta; [|done].
  destruct (truthy _) eqn:Et; simpl negb; cbv iota; [|done].
  set (ps := normalizeSubparts _). set (marks := match ps with [] => _ | _ => _ end). intros [= <-].
  destruct (normalizeSubparts_ok (coalesce (get (js "subparts") v) (get (js "parts") v))) as [Hl Hps].
  fold ps in Hl, Hps. pose proof (total_marks_bounds ps Hps) as Ht.
  assert (Hm : match ps with [] => 1 <= marks <= 100 | ps' => marks = total_marks ps' end /\ 1 <= marks <= 600).
  { unfold marks. destruct ps as [|p ps'].
    - pose proof (numeric_bounds (get (js "marks") v) 1 1 100 ltac:(lia)). lia.
    - split; [done|]. simpl length in *. lia. }
  destruct Hm as [Hm1 Hm2]. unfold question_ok.
  cbn [question_id q_prompt q_marks q_answer q_workingLines subparts diagram q_source q_scheme].
  split; [|split; [by apply cut_filled|split; [done|split; [done|split; [clear -Hm1; by destruct ps|split; [done|]]]]]].
  - unfold or_str. destruct (truthy (cut 80 _)) eqn:E; [by apply cut_filled|by apply safeId_filled].
  - repeat split; try apply cut_within; try (apply numeric_bounds, default_lines_bounds).
    + destruct (normalizeDiagram _) eqn:Ed; [|done]. by eapply normalizeDiagram_ok.
    + apply normalizeScheme_ok.
    + apply normalizeScheme_ok.
    + apply normalizeScheme_ok.
    + apply normalizeScheme_ok.
    + apply normalizeScheme_ok.
Qed.

Lemma elem_of_imap_pair {A} (l : list A) i x : (i, x) ∈ imap pair l -> (i < length l)%nat.
Proof.
  intros (j & Hj)%list_elem_of_lookup. rewrite list_lookup_imap in Hj.
  destruct (l !! j) eqn:E; simplify_eq/=. by apply lookup_lt_Some in E.
Qed.

Lemma normalize_ok v p : normalizeGeneratedPaper v = Ok p -> paper_ok p.
Proof.
  unfold normalizeGeneratedPaper. set (root := if is_array v then _ else _).
  destruct (is_object root); simpl negb; cbv iota zeta; [|done].
  set (nested := coalesce _ _). set (cand := if is_record nested then _ else _).
  destruct (is_array (get (js "questions") cand)); cbn [negb]; cbv iota; [|done].
  set (items := take 50 (elements (get (js "questions") cand))).
  assert (Hall : Forall question_ok (filter_map normalizeQuestion (imap pair items))).
  { apply filter_map_Forall. intros [i x] q Hx. apply normalizeQuestion_ok.
    apply elem_of_imap_pair in Hx. unfold items in Hx. rewrite length_take in Hx. lia. }
  pose proof (length_filter_map normalizeQuestion (imap pair items)) as Hl.
  rewrite length_imap in Hl. unfold items in Hl at 2. rewrite length_take in Hl.
  destruct (filter_map normalizeQuestion (imap pair items)) as [|q qs]; [done|]. intros [= <-].
  unfold paper_ok. cbn [questions p_instructions].
  split; [simpl length in *; lia|]. split; [done|]. apply clean_list_ok.
Qed.

Lemma normalize_error v e : normalizeGeneratedPaper v = Throw e ->
  e = msg_no_paper \/ e = msg_no_list \/ e = msg_no_questions.
Proof.
  unfold normalizeGeneratedPaper.
  destruct (negb _); [intros [= <-]; left; reflexivity|]. cbv zeta.
  destruct (negb _); [intros [= <-]; right; left; reflexivity|].
  destruct (filter_map _ _); [intros [= <-]; right; right; reflexivity|discriminate].
Qed.
End Bounds.
Import Bounds.

(** ** What survives a truncated response *)

Module Recovery.

(** Scanning [w] inside an object at depth [d] only extends the fragment. *)
Definition scans (d : Z) (w : jstr) : Prop := forall f s,
  recover_loop (w ++ s) (Some f) d false false = recover_loop s (Some (rev w ++ f)) d false false.

Lemma scans_nil d : scans d [].
Proof. done. Qed.
Lemma scans_app d u w : scans d u -> scans d w -> scans d (u ++ w).
Proof. intros Hu Hw f s. by rewrite <- app_assoc, Hu, Hw, rev_app_distr, <- app_assoc. Qed.

Definition plain_char (c : N) : bool := negb (one_of [34; 123; 125; 93]%N c).
Lemma scans_plain d w : forallb plain_char w = true -> scans d w.
Proof.
  induction w as [|c w IH]; [intros; apply scans_nil|]. simpl. intros [Hc Hw]%andb_true_iff f s.
  unfold plain_char in Hc. simpl in Hc. bool_hyps. cbn [app recover_loop].
  replace (c =? 34)%N with false by lia. replace (c =? 123)%N with false by lia.
  replace (c =? 125)%N with false by lia. replace (c =? 93)%N with false by lia. cbn [andb].
  cbn [fmap option_fmap option_map]. rewrite (IH Hw). simpl. by rewrite <- app_assoc.
Qed.

(** Inside a string. *)
Lemma scan_escape d (c : N) f s :
  recover_loop (92%N :: c :: s) (Some f) d true false = recover_loop s (Some (c :: 92%N :: f)) d true false.
Proof. done. Qed.
Lemma scan_plain_char d c f s : (c <> 34)%N -> (c <> 92)%N ->
  recover_loop (c :: s) (Some f) d true false = recover_loop s (Some (c :: f)) d true false.
Proof.
  intros H1 H2. cbn [recover_loop]. replace (c =? 92)%N with false by lia.
  by replace (c =? 34)%N with false by lia.
Qed.
Lemma hex_char_plain n : (n < 16)%N -> (hex_char n <> 34)%N /\ (hex_char n <> 92)%N.
Proof. unfold hex_char. intros. destruct (n <? 10)%N eqn:E; lia. Qed.

Lemma scan_escape_u d c f s : (c < 65536)%N ->
  recover_loop (escape_u c ++ s) (Some f) d true false =
  recover_loop s (Some (rev (escape_u c) ++ f)) d true false.
Proof.
  intros Hc. unfold escape_u. cbn [app]. rewrite scan_escape.
  assert (c / 4096 < 16)%N by (apply N.Div0.div_lt_upper_bound; lia).
  rewrite !scan_plain_char by (apply hex_char_plain; done || (apply N.mod_lt; done)). done.
Qed.

Lemma scan_quote_char d c f s :
  recover_loop (quote_char c ++ s) (Some f) d true false =
  recover_loop s (Some (rev (quote_char c) ++ f)) d true false.
Proof.
  unfold quote_char. 
  destruct (N.eqb_spec c 34); [apply scan_escape|]. destruct (N.eqb_spec c 92); [apply scan_escape|].
  destruct (N.eqb_spec c 8); [apply scan_escape|]. destruct (N.eqb_spec c 12); [apply scan_escape|].
  destruct (N.eqb_spec c 10); [apply scan_escape|]. destruct (N.eqb_spec c 13); [apply scan_escape|].
  destruct (N.eqb_spec c 9); [apply scan_escape|].
  destruct (N.ltb_spec c 32); [apply scan_escape_u; lia|]. cbn [app rev].
  apply scan_plain_char; lia.
Qed.

Lemma scan_quote_chars d s r f :
  recover_loop (quote_chars s ++ 34%N :: r) (Some f) d true false =
  recover_loop r (Some (34%N :: rev (quote_chars s) ++ f)) d false false.
Proof.
  remember (length s) as n eqn:Hn. revert s f Hn.
  induction n as [n IH] using lt_wf_ind. intros s f Hn.
  destruct s as [|c s]; [done|]. cbn [quote_chars]. simpl in Hn.
  assert (Hs : forall f, recover_loop (quote_chars s ++ 34%N :: r) (Some f) d true false =
    recover_loop r (Some (34%N :: rev (quote_chars s) ++ f)) d false false) by (intros; apply (IH (length s)); lia).
  destruct (is_lead c) eqn:El.
  - pose proof (surrogate_plain c (or_introl El)) as (? & ? & ? & ?).
    destruct s as [|e s]; [by rewrite scan_escape_u|].
    destruct (is_trail e) eqn:Et.
    + pose proof (surrogate_plain e (or_intror Et)) as (? & ? & ? & ?).
      cbn [app]. rewrite !scan_plain_char by done. simpl in Hn.
      rewrite (IH (length s)) by lia. simpl. by rewrite <- !app_assoc.
    + rewrite <- app_assoc, scan_escape_u by done. rewrite Hs. by rewrite rev_app_distr, <- app_assoc.
  - destruct (is_trail c) eqn:Et.
    + pose proof (surrogate_plain c (or_intror Et)) as (? & ? & ? & ?).
      rewrite <- app_assoc, scan_escape_u by done. rewrite Hs. by rewrite rev_app_distr, <- app_assoc.
    + rewrite <- app_assoc, scan_quote_char. rewrite Hs. by rewrite rev_app_distr, <- app_assoc.
Qed.

Lemma scans_quote d s : scans d (quote s).
Proof.
  intros f r. unfold quote. cbn [app recover_loop]. change ((34 =? 34)%N) with true. cbv iota.
  rewrite <- app_assoc. cbn [app fmap option_fmap option_map]. rewrite scan_quote_chars.
  simpl. rewrite rev_app_distr. simpl. by rewrite <- app_assoc.
Qed.

Lemma scans_join d xs : Forall (scans d) xs -> scans d (join [44%N] xs).
Proof.
  induction 1 as [|x xs Hx _ IH]; [apply scans_nil|]. destruct xs as [|y xs]; [done|].
  cbn [join]. apply scans_app; [done|]. apply scans_app; [by apply scans_plain|done].
Qed.

(** A bracketed list one level down. *)
Lemma scans_object d w : 1 <= d -> scans (d + 1) w -> scans d (123%N :: w ++ [125%N]).
Proof.
  intros Hd Hw f s. cbn [app recover_loop].
  change ((123 =? 34)%N) with false. change ((123 =? 123)%N) with true. cbv iota.
  replace (d =? 0) with false by lia. rewrite <- app_assoc. cbn [fmap option_fmap option_map].
  rewrite Hw. cbn [app recover_loop]. change ((125 =? 34)%N) with false. change ((125 =? 123)%N) with false.
  change ((125 =? 125)%N) with true. replace (0 <? d + 1) with true by lia. cbn [andb].
  replace (d + 1 - 1) with d by lia. replace (d =? 0) with false by lia.
  simpl. by rewrite rev_app_distr, <- app_assoc.
Qed.
Lemma scans_bracket d : 1 <= d -> scans d [93%N].
Proof. intros Hd f s. cbn [app recover_loop]. simpl. replace (d =? 0) with false by lia. done. Qed.

Lemma digits_plain z : forallb plain_char (show_Z z) = true.
Proof.
  assert (H : forall n, forallb plain_char (digits n) = true).
  { intros n. destruct (digits_ok n) as (Hd & _). rewrite forallb_Forall in *.
    eapply Forall_impl; [exact Hd|]. intros c Hc. unfold plain_char. simpl. char_lia. }
  rewrite show_Z_digits. destruct (z <? 0); simpl; by rewrite H.
Qed.

Lemma scans_member d p : scans d (stringify (snd p)) -> scans d (member_text p).
Proof.
  intros Hp. unfold member_text. apply scans_app; [apply scans_quote|].
  apply (scans_app d [58%N]); [by apply scans_plain|done].
Qed.

Lemma scans_value v d : json_ok v -> 1 <= d -> scans d (stringify v).
Proof.
  revert d. induction v as [| |b|n|s|xs IH|ps IH] using jsval_ind'; intros d Hok Hd; inversion Hok; subst.
  - by apply scans_plain.
  - by apply scans_plain; destruct b.
  - cbn [stringify num is_finite]. rewrite show_num_Z by done. apply scans_plain, digits_plain.
  - apply scans_quote.
  - cbn [stringify]. change (91%N :: ?a) with ([91%N] ++ a).
    apply scans_app; [by apply scans_plain|]. apply scans_app; [|by apply scans_bracket].
    apply scans_join, Forall_fmap, Forall_forall. intros x Hx.
    rewrite Forall_forall in IH. apply IH; [done| |done]. by eapply Forall_forall in Hx; [|done].
  - rewrite stringify_obj by done. apply scans_object; [done|].
    apply scans_join, Forall_fmap, Forall_forall. intros p Hp. apply scans_member.
    rewrite Forall_forall in IH. apply IH; [done| |lia]. by eapply Forall_forall in Hp; [|done].
Qed.

(** A complete object at the top level is read back and collected. *)
Lemma recover_object v s :
  json_ok v -> is_record v = true ->
  recover_loop (stringify v ++ s) None 0 false false = v :: recover_loop s None 0 false false.
Proof.
  intros Hok Hr. destruct v as [| | | | | |ps]; try done.
  assert (Hp : parse_fragment (stringify (VObj ps)) = Some (VObj ps)).
  { unfold parse_fragment. by rewrite parse_stringify. }
  revert Hp. inversion Hok as [| | | | |? _ Hps]; subst. rewrite stringify_obj by done.
  set (w := join _ _). intros Hp.
  assert (Hw : scans 1 w).
  { apply scans_join, Forall_fmap, Forall_forall. intros p Hin. apply scans_member, scans_value; [|done].
    by eapply Forall_forall in Hin; [|done]. }
  cbn [app recover_loop]. change ((123 =? 34)%N) with false. change ((123 =? 123)%N) with true.
  change (0 =? 0) with true. cbv iota. rewrite <- app_assoc, Hw. cbn [app recover_loop].
  change ((125 =? 34)%N) with false. change ((125 =? 123)%N) with false. change ((125 =? 125)%N) with true.
  change (0 + 1) with 1. change (0 <? 1) with true. change (1 - 1) with 0. change (0 =? 0) with true.
  cbn [andb fmap option_fmap option_map].
  replace (rev (125%N :: rev w ++ [123%N])) with (123%N :: w ++ [125%N])
    by (simpl; by rewrite rev_app_distr, rev_involutive).
  by rewrite Hp.
Qed.

Lemma recover_objects os s :
  Forall (fun v => json_ok v /\ is_record v = true) os ->
  recover_loop (concat ((fun v => stringify v ++ [44%N]) <$> os) ++ s) None 0 false false =
  os ++ recover_loop s None 0 false false.
Proof.
  induction 1 as [|v os [Hok Hr] _ IH]; [done|]. cbn [fmap list_fmap concat].
  rewrite <- !app_assoc. rewrite recover_object by done. cbn [app]. f_equal. apply IH.
Qed.

Lemma exec_questions s : exists b t,
  exec re_questions_list (js "{" ++ quoted (js "questions") ++ js ":[" ++ s) = Some (b, t) /\ after t = s.
Proof. eexists _, _. split; [reflexivity|reflexivity]. Qed.

(** A response cut off in the middle of its list loses only what comes
    after the cut: every question object written completely before it is
    collected, in order, whatever follows. *)
Theorem complete_questions_recovered (os : list jsval) (rest : jstr) :
  Forall (fun v => json_ok v /\ is_record v = true) os -> os <> [] ->
  recoverCompleteQuestions (js "{" ++ quoted (js "questions") ++ js ":[" ++
    concat ((fun v => stringify v ++ [44%N]) <$> os) ++ rest) =
  Some <$> normalizeGeneratedPaper (VObj [(js "instructions", VArr []);
    (js "questions", VArr (os ++ recover_loop rest None 0 false false))]).
Proof.
  intros Hos Hne. unfold recoverCompleteQuestions.
  destruct (exec_questions (concat ((fun v => stringify v ++ [44%N]) <$> os) ++ rest)) as (b & t & -> & ->).
  rewrite recover_objects by done. by destruct os.
Qed.
End Recovery.

(** ** Reading a response *)

Module Responses.

(** *** Taking the object out of its fence *)

Lemma fence_open_none langs c x : (c <> 96)%N -> exec (re_fence_open langs) (c :: x) = None.
Proof.
  intros Hc. destruct (exec _ _) as [[b t]|] eqn:E; [|done]. exfalso.
  apply exec_sound in E as (Hm & w & Hx & Hw & _).
  unfold re_fence_open in Hm. cbn [seqs foldr] in Hm.
  apply matches_seq in Hm as (s0 & [-> Hb]%matches_begin & Hm).
  rewrite Hb in Hw. symmetry in Hw. apply (f_equal (@rev N)) in Hw. rewrite rev_involutive in Hw.
  simpl in Hw. subst w. simpl in Hx.
  apply matches_seq in Hm as (s1 & Hl & _). change (js "```") with [96; 96; 96]%N in Hl. cbn [lit] in Hl.
  apply matches_seq in Hl as (s2 & (d & [Hd _] & Hp & _)%matches_set & _).
  rewrite <- Hx in Hd. injection Hd as -> _. by apply N.eqb_eq in Hp.
Qed.

Lemma fence_open_some rest :
  (exists y, rest = 123%N :: y) ->
  exists t, exec (re_fence_open [js "json"]) ((js "```json" ++ s_nl) ++ rest) =
    Some (start ((js "```json" ++ s_nl) ++ rest), t) /\ after t = rest.
Proof.
  intros (y & ->). set (x := _ ++ _).
  set (s1 := advance (js "```") (js "json" ++ s_nl ++ 123%N :: y) (start x)).
  set (s2 := advance (js "json") (s_nl ++ 123%N :: y) s1).
  exists (advance s_nl (123%N :: y) s2). split; [|done]. apply exec_start.
  unfold re_fence_open. cbn [seqs foldr]. rewrite m_seq_run, m_begin_run, m_seq_run by done.
  rewrite (m_lit_run (js "```") (js "json" ++ s_nl ++ 123%N :: y)) by done. fold s1.
  rewrite m_seq_run. apply m_opt_take. change (alts (lit_i <$> [js "json"])) with (lit_i (js "json")).
  rewrite (m_lit_i_run (js "json") (s_nl ++ 123%N :: y)) by done. fold s2.
  replace (length (after s2) <? length (after s1))%nat with true
    by (symmetry; apply Nat.ltb_lt; simpl; lia).
  rewrite m_seq_run. by apply (m_greedy_star is_space s_nl (123%N :: y)).
Qed.

Lemma fence_close_avoids b t :
  matches re_fence_close b t -> forallb (fun x => negb (x =? 125)%N) (after b) = true.
Proof.
  intros Hm. destruct (matches_avoids 125%N _ _ _ Hm) as (w & [Hw _] & Hf); [vm_compute; reflexivity|].
  by rewrite (matches_to_end _ _ _ Hm eq_refl), app_nil_r in Hw; rewrite Hw.
Qed.

(** A text that ends in a brace has no closing fence. *)
Lemma fence_close_none x : exec re_fence_close (x ++ [125%N]) = None.
Proof.
  destruct (exec _ _) as [[b t]|] eqn:E; [|done]. exfalso.
  apply exec_sound in E as (Hm & w & Hx & _ & _). pose proof (fence_close_avoids _ _ Hm) as Hf.
  destruct (after b) as [|c r _] eqn:Eb using rev_ind.
  - apply matches_seq in Hm as (s1 & (v & [Hv _] & _)%matches_star_set & Hm).
    rewrite Eb in Hv. symmetry in Hv. apply app_eq_nil in Hv as [_ Hv].
    apply matches_seq in Hm as (s2 & Hl & _). change (js "```") with [96; 96; 96]%N in Hl. cbn [lit] in Hl.
    apply matches_seq in Hl as (s3 & (d & [Hd _] & _)%matches_set & _). by rewrite Hv in Hd.
  - rewrite app_assoc in Hx. apply app_inj_tail in Hx as [_ <-].
    rewrite forallb_app in Hf. simpl in Hf. by rewrite andb_false_r in Hf.
Qed.

(** With a closing fence after the brace, what is left in front of the match
    is the text up to the brace, perhaps with the line break. *)
Lemma fence_close_some x : exists y,
  replace_first re_fence_close (const []) ((x ++ [125]) ++ s_nl ++ js "```")%N = (x ++ [125%N]) ++ y /\
  (y = [] \/ y = s_nl).
Proof.
  set (text := ((x ++ [125]) ++ s_nl ++ js "```")%N). unfold replace_first.
  destruct (exec re_fence_close text) as [[b t]|] eqn:E.
  - apply exec_sound in E as (Hm & w & Hx & _ & _). pose proof (fence_close_avoids _ _ Hm) as Hf.
    unfold const. rewrite (matches_to_end _ _ _ Hm eq_refl), !app_nil_r.
    assert (Hw : exists y, w = (x ++ [125%N]) ++ y /\ y ++ after b = s_nl ++ js "```").
    { unfold text in Hx. apply app_eq_app in Hx as (l & [[H1 H2]|[H1 H2]]).
      - destruct l as [|c l _] using rev_ind.
        + exists []. rewrite app_nil_r in H1. split; [by rewrite app_nil_r|done].
        + rewrite app_assoc in H1. apply app_inj_tail in H1 as [_ <-]. rewrite H2, !forallb_app in Hf.
          simpl in Hf. by rewrite andb_false_r in Hf.
      - exists l. split; [done|done]. }
    destruct Hw as (y & Hw & Hy). exists y.
    assert (Htake : take (length text - length (after b)) text = w).
    { rewrite Hx, length_app, Nat.add_sub. apply take_app_length. }
    rewrite Htake. split; [done|].
    apply matches_seq in Hm as (s1 & (v & [Hv _] & _)%matches_star_set & Hm).
    apply matches_seq in Hm as (s2 & Hl & Hm). change (js "```") with [96; 96; 96]%N in Hl. cbn [lit] in Hl.
    assert (Hlen : (3 <= length (after b))%nat).
    { apply matches_seq in Hl as (s3 & (d1 & [Hd1 _] & _)%matches_set & Hl).
      apply matches_seq in Hl as (s4 & (d2 & [Hd2 _] & _)%matches_set & (d3 & [Hd3 _] & _)%matches_set).
      rewrite Hv, Hd1, Hd2, Hd3, length_app. simpl. lia. }
    destruct y as [|c1 [|c2 y]]; [by left| |].
    + right. by injection Hy as -> _.
    + apply (f_equal length) in Hy. rewrite length_app in Hy. simpl in Hy. lia.
  - exfalso. revert E. eapply (search_complete _ _ (start text) (x ++ [125%N])).
    + instantiate (1 := advance (x ++ [125%N]) (s_nl ++ js "```") (start text)). done.
    + done.
    + unfold text. simpl. rewrite !length_app. lia.
    + unfold re_fence_close. cbn [seqs foldr].
      eapply m_seq; [apply (build_star true is_space s_nl (js "```")); done|].
      eapply m_seq; [by apply (build_lit (js "```") [])|].
      eapply m_seq; [by apply m_end|apply m_eps].
Qed.

Lemma rev_braces (x : jstr) : rev (123%N :: x ++ [125%N]) = 125%N :: rev x ++ [123%N].
Proof. cbn [rev]. by rewrite rev_app_distr. Qed.

Lemma trim_braces x y : (y = [] \/ y = s_nl) -> trim ((123%N :: x ++ [125%N]) ++ y) = 123%N :: x ++ [125%N].
Proof.
  assert (Hb : trimmed (123%N :: x ++ [125%N])) by (split; [done|by rewrite rev_braces]).
  intros [->| ->]; [by rewrite app_nil_r; apply trimmed_trim|].
  unfold trim, trim_start, drop_while. rewrite (span_none is_space) by done.
  unfold trim_end, drop_while. cbn [snd]. rewrite rev_app_distr, rev_braces.
  change (rev s_nl ++ 125%N :: rev x ++ [123%N]) with (10%N :: 125%N :: rev x ++ [123%N]).
  cbn [span]. change (is_space 10%N) with true. change (is_space 125%N) with false. cbv iota. cbn [snd].
  by rewrite <- rev_braces, rev_involutive.
Qed.

(** *** The object of a well-formed response *)

Lemma index_of_brace x : index_of (js "{") (123%N :: x) = Some 0%nat.
Proof. done. Qed.
Lemma last_index_of_snoc c (x : jstr) : last_index_of c (x ++ [c]) = Some (length x).
Proof.
  induction x as [|a x IH]; simpl; [by rewrite N.eqb_refl|]. by rewrite IH.
Qed.

Lemma extract_braces x pre post :
  (pre = [] /\ post = []) \/ (pre = js "```json" ++ s_nl /\ post = s_nl ++ js "```") ->
  extractJsonObject (pre ++ (123%N :: x ++ [125%N]) ++ post) = Ok (123%N :: x ++ [125%N]).
Proof.
  intros Hfence. unfold extractJsonObject.
  assert (Hc : trim (replace_first re_fence_close (const []) (replace_first (re_fence_open [js "json"])
            (const []) (pre ++ (123%N :: x ++ [125%N]) ++ post))) = 123%N :: x ++ [125%N]).
  { destruct Hfence as [[-> ->]|[-> ->]].
    - rewrite app_nil_r. cbn [app]. unfold replace_first at 2. rewrite fence_open_none by done.
      unfold replace_first. change (123%N :: x ++ [125%N]) with ((123%N :: x) ++ [125%N]).
      rewrite fence_close_none. rewrite <- (app_nil_r ((123%N :: x) ++ [125%N])) at 1.
      apply (trim_braces x []). by left.
    - set (rest := (123%N :: x ++ [125%N]) ++ s_nl ++ js "```").
      assert (Hopen : replace_first (re_fence_open [js "json"]) (const []) ((js "```json" ++ s_nl) ++ rest) = rest).
      { unfold replace_first.
        assert (exists t, exec (re_fence_open [js "json"]) ((js "```json" ++ s_nl) ++ rest) =
                  Some (start ((js "```json" ++ s_nl) ++ rest), t) /\ after t = rest) as (t & -> & ->).
        { apply fence_open_some. exists (x ++ [125%N] ++ s_nl ++ js "```").
          unfold rest. cbn [app]. by rewrite <- app_assoc. }
        cbn [after start]. by rewrite Nat.sub_diag. }
      rewrite Hopen. unfold rest. change (123%N :: x ++ [125%N]) with ((123%N :: x) ++ [125%N]).
      destruct (fence_close_some (123%N :: x)) as (y & -> & Hy). by apply (trim_braces x y). }
  cbv zeta. rewrite Hc, index_of_brace. change (123%N :: x ++ [125%N]) with ((123%N :: x) ++ [125%N]).
  rewrite last_index_of_snoc. cbn [length Nat.leb]. cbv iota. rewrite drop_0.
  f_equal. apply firstn_all2. rewrite length_app. simpl. lia.
Qed.

(** A well-formed answer is taken as it is: for the JSON text of an
    object, alone or inside a code fence, the result is exactly what
    [normalizeGeneratedPaper] makes of that object, its error included; no
    repair, no recovery and no other message comes in between. *)
Theorem wellformed_response (syntax_message : jstr -> jstr) (v : jsval) (pre post : jstr) :
  json_ok v -> is_record v = true ->
  (pre = [] /\ post = []) \/ (pre = js "```json" ++ s_nl /\ post = s_nl ++ js "```") ->
  parseGeneratedPaperResponse syntax_message (pre ++ stringify v ++ post) = normalizeGeneratedPaper v.
Proof.
  intros Hok Hr Hf. unfold parseGeneratedPaperResponse.
  assert (Hx : extractJsonObject (pre ++ stringify v ++ post) = Ok (stringify v)).
  { destruct v as [| | | | | |ps]; try done. inversion Hok; subst. rewrite stringify_obj by done.
    by apply extract_braces. }
  rewrite Hx. unfold json_parse. rewrite parse_stringify by done. cbn [mbind outcome_bind].
  destruct (normalizeGeneratedPaper v) as [p|e] eqn:E; [done|].
  by apply normalize_error in E as [->|[->| ->]].
Qed.

(** Words by which a message passes for one of the file's own. *)
Definition own_words : list jstr := [js "AI response"; js "questions"; js "paper specification"].
Definition mentions (words : list jstr) (message : jstr) : Prop :=
  exists w before behind, w ∈ words /\ message = before ++ w ++ behind.
Lemma own_message_mentions message : test re_own_message message = true -> mentions own_words message.
Proof.
  unfold test. destruct (exec re_own_message message) as [[b t]|] eqn:E; [intros _|done].
  apply exec_sound in E as (Hm & before & Hb & _). unfold re_own_message, own_words in *. cbn [alts] in Hm.
  assert (exists w, w ∈ [js "AI response"; js "questions"; js "paper specification"] /\ matches (lit w) b t)
    as (w & Hw & [(Ht & _) _]%matches_lit).
  { repeat match goal with H : matches (RAlt _ _) _ _ |- _ => apply matches_alt in H as [?|?] end;
      eexists; (split; [|eassumption]); set_solver. }
  exists w, before, (after t). split; [done|]. by rewrite Hb, Ht.
Qed.

(** The messages a caller can get. *)
Inductive reported (syntax_message : jstr -> jstr) : jstr -> Prop :=
  | rep_malformed : reported syntax_message msg_malformed
  | rep_no_paper : reported syntax_message msg_no_paper
  | rep_no_list : reported syntax_message msg_no_list
  | rep_no_questions : reported syntax_message msg_no_questions
  | rep_engine text : mentions own_words (syntax_message text) ->
      reported syntax_message (syntax_message text).

Definition outcome_ok (syntax_message : jstr -> jstr) (o : outcome jstr GeneratedPaper) : Prop :=
  match o with Ok p => paper_ok p | Throw e => reported syntax_message e end.

Lemma normalize_outcome sm v : outcome_ok sm (normalizeGeneratedPaper v).
Proof.
  destruct (normalizeGeneratedPaper v) as [p|e] eqn:E; cbn [outcome_ok]; [by eapply normalize_ok|].
  apply normalize_error in E as [->|[->| ->]];
    [apply rep_no_paper|apply rep_no_list|apply rep_no_questions].
Qed.

Lemma recover_or_fail_outcome sm value : outcome_ok sm (recover_or_fail value).
Proof.
  unfold recover_or_fail, recoverCompleteQuestions.
  destruct (exec _ _) as [[b t]|]; [|apply rep_malformed].
  destruct (recover_loop _ _ _ _ _) as [|q qs]; [apply rep_malformed|].
  pose proof (normalize_outcome sm (VObj [(js "instructions", VArr []); (js "questions", VArr (q :: qs))])) as H.
  by destruct (normalizeGeneratedPaper _).
Qed.

Lemma repaired_outcome sm value json :
  outcome_ok sm (catch (json_parse sm (repairCommonJsonIssues json) ≫= normalizeGeneratedPaper)
                       (fun _ => recover_or_fail value)).
Proof.
  destruct (json_parse _ _ ≫= _) as [p|e] eqn:E; [|apply recover_or_fail_outcome].
  apply outcome_bind_ok in E as (v & _ & E). by eapply normalize_ok.
Qed.

Lemma parse_outcome (syntax_message : jstr -> jstr) (value : jstr) :
  outcome_ok syntax_message (parseGeneratedPaperResponse syntax_message value).
Proof.
  unfold parseGeneratedPaperResponse.
  destruct (extractJsonObject value) as [json|]; [|apply recover_or_fail_outcome].
  unfold json_parse at 1. destruct (parse_json json) as [v|]; cbn [mbind outcome_bind].
  - pose proof (normalize_outcome syntax_message v) as Hv.
    destruct (normalizeGeneratedPaper v) as [p|e]; [done|].
    destruct (test re_own_message e); [done|apply repaired_outcome].
  - destruct (test re_own_message (syntax_message json)) eqn:Et; [by apply rep_engine, own_message_mentions|].
    apply repaired_outcome.
Qed.

(** C35. Whatever a model answers, the teacher gets a paper within bounds (1
    to 50 questions, at most 12 parts each, marks that are positive and add
    up, no empty prompt, every text cut to its limit, a diagram only as a
    checked PNG or JPEG data URL), or one of the four messages of the file, or
    the JSON engine's own message about the text it could not read, when that
    message happens to hold "AI response", "questions" or "paper
    specification". *)
Theorem response_outcomes (syntax_message : jstr -> jstr) (value : jstr) :
  outcome_ok syntax_message (parseGeneratedPaperResponse syntax_message value).
Proof. apply parse_outcome. Qed.
End Responses.

(** ** Page ranges *)

Module PageFacts.

Definition covers (rs : list (Z * Z)) (p : Z) : Prop := exists r, r ∈ rs /\ fst r <= p <= snd r.
Definition apart (a b : Z * Z) : Prop := snd a + 1 < fst b.

Lemma ranges_from_ok s e rest :
  s <= e -> StronglySorted Z.lt (e :: rest) ->
  (forall p, covers (ranges_from s e rest) p <-> s <= p <= e \/ p ∈ rest) /\
  Forall (fun r => s <= fst r <= snd r) (ranges_from s e rest) /\
  StronglySorted apart (ranges_from s e rest).
Proof.
  revert s e. induction rest as [|q rest IH]; intros s e Hse Hs; cbn [ranges_from].
  - split; [|split; [by repeat constructor|repeat constructor]]. intros p. unfold covers. split.
    + intros (r & ->%list_elem_of_singleton & Hr). by left.
    + intros [?|?%elem_of_nil]; [|done]. exists (s, e). split; [by left|done].
  - apply StronglySorted_inv in Hs as [Hs Hall]. inversion Hall as [|? ? Heq _]; subst.
    destruct (Z.eqb_spec q (e + 1)) as [->|Hne].
    + destruct (IH s (e + 1)) as (Hc & Hf & Hap); [lia|done|]. split; [|done].
      intros p. rewrite Hc, elem_of_cons. split; [intros [?|?]|intros [?|[->|?]]]; auto; try lia.
    + destruct (IH q q) as (Hc & Hf & Hap); [lia|done|]. split; [|split].
      * intros p. unfold covers in *. setoid_rewrite elem_of_cons. specialize (Hc p). split.
        -- intros (r & [->|Hr] & Hp); [by left|]. right.
           destruct (proj1 Hc) as [?|?]; [by exists r|left; lia|by right].
        -- intros [Hp|Hp]; [exists (s, e); auto|].
           destruct (proj2 Hc) as (r & Hr & Hp'); [|by exists r; auto].
           destruct Hp as [->|Hp]; [left; lia|by right].
      * constructor; [done|]. eapply Forall_impl; [exact Hf|]. intros r Hr. simpl in *. lia.
      * constructor; [done|]. eapply Forall_impl; [exact Hf|]. intros r Hr. unfold apart. simpl in *. lia.
Qed.

Lemma sorted_pages_ok ps : StronglySorted Z.lt (sorted_pages ps) /\ forall p, p ∈ sorted_pages ps <-> p ∈ ps.
Proof.
  unfold sorted_pages. set (l := remove_dups ps).
  assert (Hperm : sort_js (fun a b => a - b) l ≡ₚ l) by apply sort_js_perm.
  split.
  - assert (Hle : StronglySorted (ordered (fun a b : Z => a - b)) (sort_js (fun a b => a - b) l)).
    { apply sort_js_sorted; [intros; lia|intros; lia]. }
    assert (Hnd : NoDup (sort_js (fun a b => a - b) l)) by (rewrite Hperm; apply NoDup_remove_dups).
    clear -Hle Hnd. induction Hle as [|x xs _ IH Hx]; [constructor|]. apply NoDup_cons in Hnd as [Hn Hnd].
    constructor; [by apply IH|]. rewrite Forall_forall in *. intros y Hy. specialize (Hx y Hy).
    unfold ordered in Hx. assert (x <> y) by congruence. lia.
  - intros p. rewrite Hperm. apply elem_of_remove_dups.
Qed.

(** The page ranges of a citation name exactly the cited pages, in order,
    without overlap, and as few ranges as possible: two neighbouring ranges
    always leave a gap. *)
Theorem page_ranges_exact (ps : list Z) :
  (forall p, p ∈ ps <-> covers (page_ranges ps) p) /\
  Forall (fun r => fst r <= snd r) (page_ranges ps) /\ StronglySorted apart (page_ranges ps) /\
  (compactPageRanges ps = [] <-> ps = []).
Proof.
  unfold page_ranges, compactPageRanges. destruct (sorted_pages_ok ps) as [Hs Hin].
  destruct (sorted_pages ps) as [|q rest] eqn:E.
  - split; [|split; [constructor|split; [constructor|]]].
    + intros p. rewrite <- Hin. split; [by intros ?%elem_of_nil|intros (r & ?%elem_of_nil & _); done].
    + split; [|done]. intros _. destruct ps as [|x ps]; [done|]. exfalso.
      apply (elem_of_nil x), Hin. by left.
  - destruct (ranges_from_ok q q rest) as (Hc & Hf & Hap); [lia|done|]. split; [|split; [|split; [done|]]].
    + intros p. rewrite <- Hin, Hc, elem_of_cons. split; [intros [->|?]; [left; lia|by right]|].
      intros [?|?]; [left; lia|by right].
    + eapply Forall_impl; [exact Hf|]. intros r Hr. simpl in *. lia.
    + split; [by destruct rest|]. intros ->. done.
Qed.
End PageFacts.

(** ** The student copy *)

Module StudentCopy.

(** What is left when every teacher-only part is blanked. *)
Definition student_part (p : PaperSubpart) : PaperSubpart :=
  mkSubpart (part_label p) (part_prompt p) (part_marks p) [] (part_workingLines p) EMPTY_SCHEME.
Definition student_question (q : PaperQuestion) : PaperQuestion :=
  mkQuestion [] (q_prompt q) (q_marks q) [] (q_workingLines q) (student_part <$> subparts q)
    (diagram q) [] EMPTY_SCHEME.
Definition student_view (p : GeneratedPaper) : GeneratedPaper :=
  mkPaper (p_instructions p) (student_question <$> questions p).

(** The student copy is a function of what students may see: blanking
    every answer, marking scheme, source note and id changes nothing, so two
    papers that differ only there print the same, whatever those parts say. *)
Theorem student_copy_hides_answers (m : PaperMetadata) (p p' : GeneratedPaper) :
  student_view p = student_view p' -> questionPaperText m p = questionPaperText m p'.
Proof.
  assert (Hq : forall i q, question_lines i (student_question q) = question_lines i q).
  { intros i q. unfold question_lines, student_question. cbn [q_prompt q_marks diagram subparts q_workingLines].
    f_equal. f_equal. f_equal; [|by destruct (subparts q)].
    induction (subparts q) as [|s ss IH]; [done|]. csimpl. by rewrite IH. }
  assert (Hview : forall p, questionPaperText m p = questionPaperText m (student_view p)).
  { intros x. unfold questionPaperText, student_view. cbn [p_instructions questions].
    do 4 f_equal. rewrite imap_fmap. f_equal. apply imap_ext. intros i q _. symmetry. apply Hq. }
  intros H. rewrite (Hview p), (Hview p'). by rewrite H.
Qed.
End StudentCopy.

(** ** Diagram sources *)

Module DiagramFacts.

Definition image_prefixes : list jstr := [js "data:image/png;base64,"; js "data:image/jpeg;base64,"].

(** What the image check lets through is a PNG or JPEG data URL and
    nothing else: a prefix (in any case) followed by base64 characters and at
    most two [=].  It holds no quote, angle bracket or space, so it cannot
    leave the attribute it is written into. *)
Theorem image_data_url_shape (v : jsval) :
  sanitizeDiagramImageDataUrl v = [] \/
  exists p b e, sanitizeDiagramImageDataUrl v = p ++ b ++ e /\
    ascii_lower <$> p ∈ image_prefixes /\ b <> [] /\ forallb is_base64 b = true /\
    forallb (N.eqb 61) e = true /\ (length e <= 2)%nat.
Proof.
  destruct (truthy (sanitizeDiagramImageDataUrl v)) eqn:Et; [|left; by destruct (sanitizeDiagramImageDataUrl v)].
  right. apply image_ok in Et as [Ht _]. revert Ht. generalize (sanitizeDiagramImageDataUrl v) as x.
  intros x (b & t & (Hm & w & Hx & Hw & _)%exec_sound)%test_spec.
  unfold re_image_data in Hm. cbn [seqs foldr] in Hm.
  apply matches_seq in Hm as (s0 & [-> Hb]%matches_begin & Hm).
  rewrite Hb in Hw. symmetry in Hw. apply (f_equal (@rev N)) in Hw. rewrite rev_involutive in Hw.
  simpl in Hw. subst w. simpl in Hx.
  apply matches_seq in Hm as (s1 & (p1 & [H1 _] & L1 & _)%matches_lit_i & Hm).
  apply matches_seq in Hm as (s2 & Halt & Hm).
  apply matches_seq in Hm as (s3 & (p3 & [H3 _] & L3 & _)%matches_lit_i & Hm).
  apply matches_seq in Hm as (s4 & Hplus & Hm).
  apply matches_seq in Hplus as (s4' & (c & [H4 _] & Hc & _)%matches_set & (w & [H4' _] & Hw & _)%matches_star_set).
  apply matches_seq in Hm as (s5 & (e & [H5 _] & He & Hl & _)%matches_upto_set & Hm).
  apply matches_seq in Hm as (s6 & [-> Hend]%matches_end & Hm). clear Hm.
  assert (Hfmt : exists p2, after s1 = p2 ++ after s2 /\
            (ascii_lower <$> p2 = js "png" \/ ascii_lower <$> p2 = js "jpeg")).
  { assert (H : matches (RAlt (lit_i (js "png")) (lit_i (js "jpeg"))) s1 s2) by exact Halt.
    apply matches_alt in H as [H|H]; apply matches_lit_i in H as (p2 & [H2 _] & L2 & _);
      exists p2; (split; [done|]); rewrite L2; [by left|by right]. }
  destruct Hfmt as (p2 & H2 & L2).
  exists (p1 ++ p2 ++ p3), (c :: w), e.
  split; [|split; [|split; [done|split; [|split; [done|done]]]]].
  - rewrite Hx, H1, H2, H3, H4, H4', H5, Hend, app_nil_r. simpl. by rewrite <- !app_assoc.
  - rewrite !fmap_app, L1, L3. destruct L2 as [-> | ->]; [left|right; left].
  - simpl. by rewrite Hc.
Qed.

(** The SVG check can be bypassed: comments are removed after the
    forbidden tags were looked for, and removing one can write such a tag.
    The input below passes every check and comes out with a script. *)
Theorem svg_check_bypassed :
  sanitizeDiagramSvg (VStr (js "<svg><<!-- -->script>alert(1)<<!-- -->/script></svg>")) =
  js "<svg viewBox=" ++ quoted (js "0 0 720 360") ++ js " xmlns=" ++ quoted (js "http://www.w3.org/2000/svg") ++
  js " width=" ++ quoted (js "720") ++ js " height=" ++ quoted (js "360") ++
  js "><script>alert(1)</script></svg>".
Proof. vm_compute. reflexivity. Qed.
End DiagramFacts.

(** ** Repairing *)

Module Repairs.

(** [w] is copied as it is, outside and inside a string. *)
Definition copied (w : jstr) : Prop := forall s,
  repair_loop false false (w ++ s) = w ++ repair_loop false false s.
Definition copied_in (w : jstr) : Prop := forall s,
  repair_loop true false (w ++ s) = w ++ repair_loop true false s.

Lemma copied_app u w : copied u -> copied w -> copied (u ++ w).
Proof. intros Hu Hw s. by rewrite <- !app_assoc, Hu, Hw. Qed.
Lemma copied_in_app u w : copied_in u -> copied_in w -> copied_in (u ++ w).
Proof. intros Hu Hw s. by rewrite <- !app_assoc, Hu, Hw. Qed.

Lemma copied_plain w : forallb (fun c => negb (c =? 34)%N) w = true -> copied w.
Proof.
  induction w as [|c w IH]; [done|]. simpl. intros [Hc Hw]%andb_true_iff s. bool_hyps.
  cbn [app repair_loop negb]. replace (c =? 34)%N with false by lia. by rewrite (IH Hw).
Qed.

Lemma copied_in_char c : (c <> 34 -> c <> 92 -> c <> 10 -> c <> 13 -> c <> 9)%N ->
  (c <> 34)%N -> (c <> 92)%N -> (c <> 10)%N -> (c <> 13)%N -> copied_in [c].
Proof.
  intros H9 H1 H2 H3 H4 s. specialize (H9 H1 H2 H3 H4). cbn [app repair_loop negb].
  replace (c =? 92)%N with false by lia. replace (c =? 34)%N with false by lia.
  replace (c =? 10)%N with false by lia. replace (c =? 13)%N with false by lia.
  by replace (c =? 9)%N with false by lia.
Qed.
Lemma copied_in_escape c : one_of (js "/bfnrtu" ++ [34; 92]%N) c = true -> copied_in [92%N; c].
Proof. intros Hc s. cbn [app repair_loop negb]. simpl (92 =? 92)%N. cbv iota. by rewrite Hc. Qed.

Lemma copied_in_hex n : (n < 16)%N -> copied_in [hex_char n].
Proof. intros Hn. unfold hex_char. destruct (n <? 10)%N eqn:E; apply copied_in_char; lia. Qed.

Lemma copied_in_escape_u c : (c < 65536)%N -> copied_in (escape_u c).
Proof.
  intros Hc. unfold escape_u. change (copied_in ([92; 117]%N ++ [hex_char (c / 4096)] ++
    [hex_char (c / 256 mod 16)] ++ [hex_char (c / 16 mod 16)] ++ [hex_char (c mod 16)])).
  assert (c / 4096 < 16)%N by (apply N.Div0.div_lt_upper_bound; lia).
  repeat apply copied_in_app; try (by apply copied_in_escape); apply copied_in_hex; done || by apply N.mod_lt.
Qed.

Lemma copied_in_quote_char c : copied_in (quote_char c).
Proof.
  unfold quote_char.
  destruct (N.eqb_spec c 34); [by apply copied_in_escape|]. destruct (N.eqb_spec c 92); [by apply copied_in_escape|].
  destruct (N.eqb_spec c 8); [by apply copied_in_escape|]. destruct (N.eqb_spec c 12); [by apply copied_in_escape|].
  destruct (N.eqb_spec c 10); [by apply copied_in_escape|]. destruct (N.eqb_spec c 13); [by apply copied_in_escape|].
  destruct (N.eqb_spec c 9); [by apply copied_in_escape|].
  destruct (N.ltb_spec c 32); [apply copied_in_escape_u; lia|]. by apply copied_in_char.
Qed.

Lemma copied_in_quote_chars s : copied_in (quote_chars s).
Proof.
  remember (length s) as n eqn:Hn. revert s Hn.
  induction n as [n IH] using lt_wf_ind. intros s Hn.
  destruct s as [|c s]; [done|]. cbn [quote_chars]. simpl in Hn.
  assert (Hs : copied_in (quote_chars s)) by (apply (IH (length s)); lia).
  destruct (is_lead c) eqn:El.
  - pose proof (surrogate_plain c (or_introl El)) as (? & ? & ? & ?).
    destruct s as [|e s]; [by apply copied_in_escape_u|].
    destruct (is_trail e) eqn:Et.
    + pose proof (surrogate_plain e (or_intror Et)) as (? & ? & ? & ?). simpl in Hn.
      change (copied_in ([c] ++ [e] ++ quote_chars s)).
      apply copied_in_app; [apply copied_in_char; lia|].
      apply copied_in_app; [apply copied_in_char; lia|]. apply (IH (length s)); lia.
    + apply copied_in_app; [by apply copied_in_escape_u|done].
  - destruct (is_trail c) eqn:Et.
    + pose proof (surrogate_plain c (or_intror Et)) as (? & ? & ? & ?).
      apply copied_in_app; [by apply copied_in_escape_u|done].
    + apply copied_in_app; [apply copied_in_quote_char|done].
Qed.

Lemma copied_quote s : copied (quote s).
Proof.
  intros r. unfold quote. cbn [app repair_loop negb]. simpl (34 =? 34)%N.
  rewrite <- app_assoc. rewrite (copied_in_quote_chars s). cbn [app repair_loop negb].
  simpl (34 =? 92)%N. simpl (34 =? 34)%N. cbv iota. by rewrite <- app_assoc.
Qed.

Lemma copied_join xs : Forall copied xs -> copied (join [44%N] xs).
Proof.
  induction 1 as [|x xs Hx _ IH]; [done|]. destruct xs as [|y xs]; [done|].
  cbn [join]. apply copied_app; [done|]. apply copied_app; [by apply copied_plain|done].
Qed.

Lemma copied_digits z : copied (show_Z z).
Proof.
  apply copied_plain. pose proof (Recovery.digits_plain z) as H. rewrite forallb_Forall in *.
  eapply Forall_impl; [exact H|]. intros c Hc. unfold Recovery.plain_char in Hc. simpl in Hc. bool_hyps. lia.
Qed.

Lemma copied_value v : json_ok v -> copied (stringify v).
Proof.
  induction v as [| |b|n|s|xs IH|ps IH] using jsval_ind'; intros Hok; inversion Hok; subst.
  - by apply copied_plain.
  - by apply copied_plain; destruct b.
  - cbn [stringify num is_finite]. rewrite show_num_Z by done. apply copied_digits.
  - apply copied_quote.
  - cbn [stringify]. change (91%N :: ?a) with ([91%N] ++ a).
    apply copied_app; [by apply copied_plain|]. apply copied_app; [|by apply copied_plain].
    apply copied_join, Forall_fmap, Forall_forall. intros x Hx.
    rewrite Forall_forall in IH. apply IH; [done|]. by eapply Forall_forall in Hx; [|done].
  - rewrite stringify_obj by done. change (123%N :: ?a) with ([123%N] ++ a).
    apply copied_app; [by apply copied_plain|]. apply copied_app; [|by apply copied_plain].
    apply copied_join, Forall_fmap, Forall_forall. intros p Hp. unfold compose, member_text.
    apply copied_app; [apply copied_quote|]. apply (copied_app [58%N]); [by apply copied_plain|].
    rewrite Forall_forall in IH. apply IH; [done|]. by eapply Forall_forall in Hp; [|done].
Qed.

End Repairs.

Module RepairFacts.
Import Repairs.

(** A character a model may write raw into a string: not a quote, not a
    backslash, no control character but tab and line breaks. *)
Definition raw_ok (c : N) : bool :=
  negb (c =? 34)%N && negb (c =? 92)%N && negb (c =? 44)%N &&
  ((32 <=? c)%N || (c =? 9)%N || (c =? 10)%N || (c =? 13)%N).
Definition escaped_raw (s : jstr) : jstr :=
  flat_map (fun c => if (c =? 10)%N then [92; 110]%N else if (c =? 13)%N then [92; 114]%N
                     else if (c =? 9)%N then [92; 116]%N else [c]) s.

Lemma repair_raw s r : forallb raw_ok s = true ->
  repair_loop true false (s ++ 34%N :: r) = escaped_raw s ++ 34%N :: repair_loop false false r.
Proof.
  induction s as [|c s IH]; [done|]. simpl. intros [Hc Hs]%andb_true_iff.
  unfold raw_ok in Hc. apply andb_true_iff in Hc as [Hc _]. bool_hyps.
  replace (c =? 92)%N with false by lia. replace (c =? 34)%N with false by lia.
  rewrite (IH Hs). by rewrite <- app_assoc.
Qed.

Lemma parse_raw s r : forallb raw_ok s = true ->
  parse_chars (escaped_raw s ++ 34%N :: r) = Some (s, r).
Proof.
  induction s as [|c s IH]; [done|]. cbn [escaped_raw flat_map forallb]. intros [Hc Hs]%andb_true_iff.
  fold (escaped_raw s). specialize (IH Hs). rewrite <- app_assoc.
  destruct (N.eqb_spec c 10) as [->|]; [cbn; by rewrite IH|].
  destruct (N.eqb_spec c 13) as [->|]; [cbn; by rewrite IH|].
  destruct (N.eqb_spec c 9) as [->|]; [cbn; by rewrite IH|].
  unfold raw_ok in Hc. rewrite !andb_true_iff in Hc. destruct Hc as [[[H1 H2] H3] H4]. cbn [app].
  rewrite parse_chars_plain by lia. by rewrite IH.
Qed.

Lemma escaped_raw_no_comma s : forallb raw_ok s = true -> ~ 44%N ∈ escaped_raw s.
Proof.
  intros Hs (x & Hx & Hin)%list_elem_of_In%in_flat_map. rewrite forallb_Forall, Forall_forall in Hs.
  apply list_elem_of_In in Hx. specialize (Hs x Hx). unfold raw_ok in Hs. bool_hyps.
  destruct (N.eqb_spec x 10), (N.eqb_spec x 13), (N.eqb_spec x 9); simpl in Hin; lia.
Qed.

Lemma trailing_comma_none x : ~ 44%N ∈ x -> exec re_trailing_comma x = None.
Proof.
  intros Hx. destruct (exec _ _) as [[b t]|] eqn:E; [|done]. exfalso.
  apply exec_sound in E as (Hm & w & -> & _). unfold re_trailing_comma in Hm. cbn [seqs foldr] in Hm.
  apply matches_seq in Hm as (s1 & (c & [Hc _] & Hp & _)%matches_set & _).
  apply N.eqb_eq in Hp as <-. apply Hx. rewrite Hc. apply elem_of_app. right. left.
Qed.

(** The repair step leaves the characters of well-formed JSON alone, and
    gives a string with raw tabs and line breaks (and no comma) the value the
    model meant: after the repair it parses to that very text. *)
Theorem repair_keeps_and_reads (v : jsval) (raw : jstr) :
  json_ok v -> forallb raw_ok raw = true ->
  repair_loop false false (stringify v) = stringify v /\
  parse_json (repairCommonJsonIssues (s_quote ++ raw ++ s_quote)) = Some (VStr raw).
Proof.
  intros Hok Hraw. split.
  - pose proof (copied_value v Hok []) as H. by rewrite !app_nil_r in H.
  - unfold repairCommonJsonIssues.
    assert (E : repair_loop false false (s_quote ++ raw ++ s_quote) = s_quote ++ escaped_raw raw ++ s_quote).
    { change (s_quote ++ raw ++ s_quote) with (34%N :: raw ++ 34%N :: []).
      cbn [repair_loop negb]. change (34 =? 34)%N with true. by rewrite (repair_raw raw [] Hraw). }
    rewrite E, replace_all_none.
    + unfold parse_json. change (s_quote ++ escaped_raw raw ++ s_quote) with (34%N :: escaped_raw raw ++ 34%N :: []).
      cbn [parse_value]. rewrite skip_ws_id by done. by rewrite (parse_raw raw [] Hraw).
    + apply trailing_comma_none. rewrite !elem_of_app. pose proof (escaped_raw_no_comma raw Hraw).
      intros [H1|[H1|H1]]; [|done|]; by apply list_elem_of_singleton in H1.
Qed.

(** Removing trailing commas also edits the inside of strings: this
    well-formed text is changed and then reads as another string. *)
Theorem repair_edits_strings :
  parse_json (repairCommonJsonIssues (stringify (VStr (js "the list [1, 2, ]")))) =
    Some (VStr (js "the list [1, 2]")).
Proof. vm_compute. reflexivity. Qed.
End RepairFacts.

(** ** Papers of older versions *)

Module LegacyFacts.

Definition legacy_ok (i : nat) (q : PaperQuestion) : Prop :=
  question_id q = safeId i /\ q_prompt q <> [] /\ 0 <= q_marks q <= 999 /\
  2 <= q_workingLines q <= 6 /\ subparts q = [] /\ diagram q = None /\ q_source q = [] /\
  q_scheme q = EMPTY_SCHEME.

Lemma number_group_bound r x b t i :
  exec r x = Some (b, t) -> (forall a, (i, a) ∈ cap_bodies r -> a = r_number) ->
  0 <= number_group i t <= 999.
Proof.
  intros E Hb. unfold number_group. destruct (group i t) as [w|] eqn:Eg; cbn [default]; [|cbn; lia].
  destruct (exec_group _ _ _ _ _ _ E Eg) as (a & u & v & Ha & Hm & Hw).
  rewrite (Hb a Ha) in Hm. apply matches_between_set in Hm as (w' & Hw' & Hd & Hl & _); [|lia].
  assert (w' = w) as -> by (apply moved_matched in Hw, Hw'; congruence).
  pose proof (digits_value_bound w 3 Hd ltac:(lia)). unfold id. lia.
Qed.

Lemma legacy_line_marks line n marks prompt :
  legacy_line line = Some (n, marks, prompt) -> 0 <= marks <= 999.
Proof.
  unfold legacy_line. destruct (exec re_table line) as [[b t]|] eqn:E.
  - intros [= _ <- _]. eapply number_group_bound; [exact E|].
    intros a Ha. cbn in Ha. rewrite !elem_of_cons in Ha. destruct Ha as [Ha|[Ha|[Ha|Ha]]]; simplify_eq; [done|].
    by apply elem_of_nil in Ha.
  - destruct (exec re_plain line) as [[b t]|]; [|done]. intros [= _ <- _].
    pose proof (numeric_bounds (match group 3 t with Some s => VStr s | None => VUndef end) 1 1 100 ltac:(lia)).
    lia.
Qed.

Lemma default_lines_range m : 2 <= default_lines m <= 6.
Proof. unfold default_lines. destruct (5 <=? m), (3 <=? m); lia. Qed.

Lemma legacy_questions_ok answers lines :
  forall i q, legacy_questions answers lines !! i = Some q -> legacy_ok i q.
Proof.
  unfold legacy_questions.
  assert (H : forall qs, (forall i q, qs !! i = Some q -> legacy_ok i q) -> forall i q,
    fold_left (fun questions line =>
      match legacy_line line with
      | Some (number, marks, prompt) =>
        if negb (truthy prompt) || test re_header_row prompt then questions
        else questions ++ [plain_question (safeId (length questions)) prompt marks
                             (default [] (answers !! number)) (default_lines marks)]
      | None => questions
      end) lines qs !! i = Some q -> legacy_ok i q); [|by apply H].
  induction lines as [|line lines IH]; intros qs Hqs; [done|]. cbn [fold_left]. apply IH.
  destruct (legacy_line line) as [[[n marks] prompt]|] eqn:El; [|done].
  destruct (negb (truthy prompt) || _) eqn:Ep; [done|]. bool_hyps. intros i q.
  rewrite lookup_app. destruct (qs !! i) eqn:Ei; [intros [= <-]; auto|].
  intros Hq. apply lookup_ge_None in Ei. destruct (i - length qs)%nat eqn:Ej; [|done].
  injection Hq as <-. replace i with (length qs) by lia.
  repeat split; try apply default_lines_range.
  - by apply truthy_true.
  - by eapply legacy_line_marks in El as [? _].
  - by eapply legacy_line_marks in El as [_ ?].
Qed.

(** Opening a paper of an older version always gives a usable paper: its
    questions are numbered [question-1], [question-2], ... without gap or
    repetition, none has an empty prompt, marks lie between 0 and 999, and
    nothing but the prompt and the answer is taken from the old text. *)
Theorem legacy_paper_shape (questionText answerText : jstr) :
  p_instructions (legacyPaperToSpec questionText answerText) = [] /\
  forall i q, questions (legacyPaperToSpec questionText answerText) !! i = Some q -> legacy_ok i q.
Proof.
  unfold legacyPaperToSpec. set (answers := legacy_answers _). set (lines := split_lines questionText).
  pose proof (legacy_questions_ok answers lines) as H.
  destruct (legacy_questions answers lines) as [|q qs]; [|split; [done|exact H]].
  split; [done|]. intros i q. cbn [questions]. set (cleaned := cut 8000 _).
  destruct (truthy cleaned) eqn:Et; [|done]. destruct i as [|i]; [|done]. intros [= <-].
  repeat split; try done. by apply truthy_true.
Qed.

(** The filter that is to skip a header row also skips every question
    that begins with "marks" or ends in "question". *)
Theorem legacy_drops_a_question :
  q_prompt <$> questions (legacyPaperToSpec
    (js "1. Define momentum. [2]" ++ s_nl ++ js "2. Restate the research question [3]") []) =
  [js "Define momentum."].
Proof. vm_compute. reflexivity. Qed.
End LegacyFacts.

(** ** The theorems at concrete inputs *)

Module PaperWitnesses.
Import Recovery Responses StudentCopy RepairFacts LegacyFacts.

(** Text with [']s for double quotes. *)
Definition dq (s : jstr) : jstr := (fun c => if (c =? 39)%N then 34%N else c) <$> s.
Definition neutral (text : jstr) : jstr := js "Unexpected end of JSON input".
Definition quoting (text : jstr) : jstr := js "Unexpected token in " ++ text.

Definition fenced_response : jstr := dq (js "```json
  {'instructions':['Show **working**'],'questions':[{'id':'q1','prompt':'[CINDER_QUESTIONS] Find the force.','marks':3,'answer':'6 N','working_lines':4,'source':'Paper.pdf, p. 2','subparts':[],'diagram':null}]}
  ```").
Definition truncated_response : jstr := dq (js "{
    'instructions': ['Answer every question.'],
    'questions': [
      {'id':'q1','prompt':'State the unit of force.','marks':1,'answer':'N'},
      {'id':'q2','prompt':'Calculate the force.','marks':2,'answer':'6 N'},
      {'id':'q3','prompt':'This question was cut off").

Definition prompts (o : outcome jstr GeneratedPaper) : option (list (jstr * Z)) :=
  match o with Ok p => Some ((fun q => (q_prompt q, q_marks q)) <$> questions p) | Throw _ => None end.

Example fenced_response_read :
  prompts (parseGeneratedPaperResponse neutral fenced_response) = Some [(js "Find the force.", 3)].
Proof. vm_compute. reflexivity. Qed.
Example page_ranges_of_the_test : compactPageRanges [1; 2; 3; 5; 8; 9] = js "pp. 1-3, 5, 8-9".
Proof. vm_compute. reflexivity. Qed.

(** Whether a truncated answer is salvaged depends on the wording of the
    JSON engine: with a neutral message both complete questions are
    recovered, with a message that quotes the text, and so the word
    "questions", the repair and the recovery are skipped and the engine's
    message is thrown. *)
Theorem quoting_engine_skips_recovery :
  prompts (parseGeneratedPaperResponse neutral truncated_response) =
    Some [(js "State the unit of force.", 1); (js "Calculate the force.", 2)] /\
  parseGeneratedPaperResponse quoting truncated_response =
    Throw (quoting (ok_or (extractJsonObject truncated_response) [])).
Proof. split; vm_compute; reflexivity. Qed.

Definition one_question (text : jstr) : jsval := VObj [(js "prompt", VStr text)].
Definition one_paper (text : jstr) : jsval := VObj [(js "questions", VArr [one_question text])].

Lemma one_question_ok text : json_ok (one_question text).
Proof. apply ok_obj; [apply NoDup_singleton|]. repeat constructor. Qed.

Lemma wellformed_response_witness :
  prompts (parseGeneratedPaperResponse neutral ((js "```json" ++ s_nl) ++
    stringify (one_paper (js "Define work.")) ++ s_nl ++ js "```")) = Some [(js "Define work.", 1)].
Proof.
  assert (H1 : json_ok (one_paper (js "Define work."))).
  { apply ok_obj; [apply NoDup_singleton|]. constructor; [|constructor]. cbn [snd].
    apply ok_arr. constructor; [apply one_question_ok|constructor]. }
  assert (H2 : is_record (one_paper (js "Define work.")) = true) by reflexivity.
  rewrite (wellformed_response neutral (one_paper (js "Define work.")) (js "```json" ++ s_nl)
             (s_nl ++ js "```") H1 H2 (or_intror (conj eq_refl eq_refl))).
  vm_compute. reflexivity.
Defined.

Lemma complete_questions_recovered_witness :
  (fun o => length (questions o)) <$> ok_or (recoverCompleteQuestions (js "{" ++ quoted (js "questions") ++ js ":[" ++
    concat ((fun v => stringify v ++ [44%N]) <$> [one_question (js "First."); one_question (js "Second.")]) ++
    dq (js "{'prompt':'Cut o"))) None = Some 2%nat.
Proof.
  assert (H : Forall (fun v => json_ok v /\ is_record v = true)
                [one_question (js "First."); one_question (js "Second.")]).
  { constructor; [split; [apply one_question_ok|reflexivity]|].
    constructor; [split; [apply one_question_ok|reflexivity]|constructor]. }
  assert (Hne : [one_question (js "First."); one_question (js "Second.")] <> []) by discriminate.
  rewrite (complete_questions_recovered _ (dq (js "{'prompt':'Cut o")) H Hne).
  vm_compute. reflexivity.
Defined.

Definition answered (answer : jstr) : GeneratedPaper :=
  mkPaper [] [mkQuestion (js "q") (js "Find the force.") 3 answer 2 [] None answer
                (mkScheme [mkPoint answer 3] [] [])].
Definition physics : PaperMetadata :=
  mkMetadata (js "Physics") (js "AS Physics") CIE (js "9702") (js "2026") [] [] 60 [] None None None None.

Lemma student_copy_hides_answers_witness :
  questionPaperText physics (answered (js "6 N")) = questionPaperText physics (answered (js "7 N")).
Proof.
  assert (H : student_view (answered (js "6 N")) = student_view (answered (js "7 N"))) by reflexivity.
  exact (student_copy_hides_answers physics _ _ H).
Defined.

Lemma repair_keeps_and_reads_witness :
  parse_json (repairCommonJsonIssues (s_quote ++ (js "line" ++ s_nl ++ js "line") ++ s_quote)) =
    Some (VStr (js "line" ++ s_nl ++ js "line")).
Proof.
  assert (H : forallb raw_ok (js "line" ++ s_nl ++ js "line") = true) by (vm_compute; reflexivity).
  exact (proj2 (repair_keeps_and_reads _ _ (one_question_ok (js "x")) H)).
Defined.
End PaperWitnesses.
