(* ===== verification/Countdown.v ===== *)
(** * The student's timer

    [apps/forge/src/components/studentTools.ts] and the hook [useCountdown] of
    [Countdown.tsx]: a timer with four states, driven by the clock and the
    buttons, written to [localStorage] on every change and restored from
    there.  Times are milliseconds; a deadline read back from storage may be
    any number, so it is a rational. *)

From Stdlib Require Import QArith Qround Lqa.
From S2P Require Import Prelude JsString JsNumber JsValue.
Local Open Scope Z_scope.

Definition TIMER_MINUTES : list Z := [5; 10; 15; 20; 25; 30].

Inductive Status := Idle | Running | Paused | Done.
#[export] Instance Status_eq : EqDecision Status. Proof. solve_decision. Defined.

Record StoredCountdown := mkTimer {
  minutes : Z; status : Status; deadline : Q; pausedSeconds : Z }.

Definition remainingSeconds (deadline : Q) (now : Z) : Z :=
  Z.max 0 (Qceiling ((deadline - inject_Z now) / 1000)).

Definition status_text (s : Status) : jstr :=
  match s with
  | Idle => js "idle" | Running => js "running" | Paused => js "paused" | Done => js "done"
  end.
Definition parse_status (v : jsval) : option Status :=
  match v with
  | VStr s => find (fun x => seqb (status_text x) s) [Idle; Running; Paused; Done]
  | _ => None
  end.
(** [TIMER_MINUTES.includes(v)]: only the very numbers. *)
Definition parse_minutes (v : jsval) : option Z :=
  match v with VNum n => find (fun k => num_eq (num k) n) TIMER_MINUTES | _ => None end.

Definition fallback : StoredCountdown := mkTimer 25 Idle 0 (25 * 60).

Definition restoreCountdown (value : option jstr) (now : Z) : StoredCountdown :=
  match value with
  | None | Some [] => fallback
  | Some text =>
    match parse_json text with
    | None => fallback
    | Some saved =>
      match parse_minutes (get (js "minutes") saved), parse_status (get (js "status") saved) with
      | Some minutes, Some status =>
        let deadline := match get (js "deadline") saved with
                        | VNum (Fin q) => if Qle_bool 0 q then q else 0%Q
                        | _ => 0%Q
                        end in
        let pausedSeconds := match get (js "pausedSeconds") saved with
                             | VNum (Fin q) => Z.max 0 (Z.min (minutes * 60) (Qround_js q))
                             | _ => minutes * 60
                             end in
        if bool_decide (status = Running) && (remainingSeconds deadline now =? 0)
        then mkTimer minutes Done 0 0
        else mkTimer minutes status deadline pausedSeconds
      | _, _ => fallback
      end
    end
  end.

(** [JSON.stringify(timer)]. *)
Definition timer_json (t : StoredCountdown) : jsval :=
  VObj [(js "minutes", VNum (num (minutes t))); (js "status", VStr (status_text (status t)));
        (js "deadline", VNum (Fin (deadline t))); (js "pausedSeconds", VNum (num (pausedSeconds t)))].

(** ** The hook *)

Record Countdown := mkCountdown {
  timer : StoredCountdown; shown_now : Z; floatingOpen : bool }.

Definition is_active (s : Status) : bool := match s with Running | Paused => true | _ => false end.

(** The first render: [None] also when [localStorage] throws. *)
Definition useCountdown (stored : option jstr) (t : Z) : Countdown :=
  let timer := restoreCountdown stored t in
  mkCountdown timer t (is_active (status timer)).

Definition seconds (c : Countdown) : Z :=
  match status (timer c) with
  | Running => remainingSeconds (deadline (timer c)) (shown_now c)
  | Paused => pausedSeconds (timer c)
  | Done => 0
  | Idle => minutes (timer c) * 60
  end.

Definition tick (t : Z) (c : Countdown) : Countdown :=
  match status (timer c) with
  | Running =>
    let timer' := if remainingSeconds (deadline (timer c)) t =? 0
                  then mkTimer (minutes (timer c)) Done 0 0 else timer c in
    mkCountdown timer' t (floatingOpen c)
  | _ => c
  end.

Definition choose (value : Z) (c : Countdown) : Countdown :=
  if existsb (Z.eqb value) TIMER_MINUTES
  then mkCountdown (mkTimer value Idle 0 (value * 60)) (shown_now c) (floatingOpen c) else c.

Definition toggle (t : Z) (c : Countdown) : Countdown :=
  let current := timer c in
  if is_active (status current)
  then mkCountdown (mkTimer (minutes current) Idle 0 (minutes current * 60)) (shown_now c) (floatingOpen c)
  else mkCountdown (mkTimer (minutes current) Running (inject_Z (t + minutes current * 60000))
                      (minutes current * 60)) t true.

Definition pause (t : Z) (c : Countdown) : Countdown :=
  let current := timer c in
  match status current with
  | Running =>
    let next := remainingSeconds (deadline current) t in
    mkCountdown (mkTimer (minutes current) (if next =? 0 then Done else Paused) 0 next)
      (shown_now c) (floatingOpen c)
  | Paused =>
    mkCountdown (mkTimer (minutes current) Running (inject_Z (t + pausedSeconds current * 1000))
                   (pausedSeconds current)) t (floatingOpen c)
  | _ => c
  end.

Definition showFloating (c : Countdown) : Countdown := mkCountdown (timer c) (shown_now c) true.
Definition hideFloating (c : Countdown) : Countdown := mkCountdown (timer c) (shown_now c) false.

(** [Math.floor(s / 60)] and [s % 60], each padded to two digits. *)
Definition pad2 (n : Z) : jstr :=
  let d := show_Z n in if (length d <? 2)%nat then 48%N :: d else d.
Definition clock_text (s : Z) : jstr := pad2 (s / 60) ++ js ":" ++ pad2 (s mod 60).

(** ** Steps *)

Inductive action := ATick | AChoose (value : Z) | AToggle | APause | AShow | AHide.
Definition act (a : action) (t : Z) (c : Countdown) : Countdown :=
  match a with
  | ATick => tick t c | AChoose v => choose v c | AToggle => toggle t c | APause => pause t c
  | AShow => showFloating c | AHide => hideFloating c
  end.

(** The last time a [Date] can hold. *)
Definition last_time : Z := 8640000000000000.

(** States reachable by time [t], from a first render with nothing stored,
    when the clock never runs backwards. *)
Inductive reachable : Z -> Countdown -> Prop :=
  | reach_start t : 0 <= t <= last_time -> reachable t (useCountdown None t)
  | reach_step t t' a c : reachable t c -> t <= t' <= last_time -> reachable t' (act a t' c).

(** ** Lemmas *)

Lemma remaining_Z d now : remainingSeconds (inject_Z d) now = Z.max 0 (- ((now - d) / 1000)).
Proof.
  unfold remainingSeconds. f_equal. unfold Qceiling.
  assert (E : - ((inject_Z d - inject_Z now) / 1000) == (now - d) # 1000).
  { unfold Qdiv, Qeq. simpl. lia. }
  by rewrite E.
Qed.

Lemma remaining_bounds d now k : 0 <= k -> d <= now + k * 1000 -> 0 <= remainingSeconds (inject_Z d) now <= k.
Proof. intros Hk Hd. rewrite remaining_Z. Z.div_mod_to_equations. lia. Qed.
Lemma remaining_exact now k : 0 <= k -> remainingSeconds (inject_Z (now + k * 1000)) now = k.
Proof. intros Hk. rewrite remaining_Z. Z.div_mod_to_equations. lia. Qed.
Lemma remaining_zero d now : remainingSeconds (inject_Z d) now = 0 <-> d <= now.
Proof. rewrite remaining_Z. Z.div_mod_to_equations. lia. Qed.

Lemma TIMER_MINUTES_bounds m : m ∈ TIMER_MINUTES -> 5 <= m <= 30.
Proof. unfold TIMER_MINUTES. rewrite !elem_of_cons, elem_of_nil. lia. Qed.

(** What every reachable state satisfies at time [t]. *)
Record timer_ok (t : Z) (c : Countdown) : Prop := {
  ok_minutes : minutes (timer c) ∈ TIMER_MINUTES;
  ok_paused : 0 <= pausedSeconds (timer c) <= minutes (timer c) * 60;
  ok_now : 0 <= shown_now c <= t;
  ok_status : match status (timer c) with
              | Running => exists d, deadline (timer c) = inject_Z d /\
                  0 <= d <= shown_now c + minutes (timer c) * 60000
              | Paused => deadline (timer c) = 0%Q /\ 1 <= pausedSeconds (timer c)
              | _ => deadline (timer c) = 0%Q
              end
}.

Lemma act_ok a t t' c : timer_ok t c -> t <= t' -> timer_ok t' (act a t' c).
Proof.
  intros [Hm Hp Hn Hs] Ht. pose proof (TIMER_MINUTES_bounds _ Hm) as Hb. destruct a; cbn [act].
  - unfold tick. destruct (status (timer c)) eqn:Es.
    1,3,4: by constructor; rewrite ?Es; [| |lia|].
    destruct Hs as (d & Hd & Hdb).
    destruct (_ =? 0); constructor; cbn [timer minutes pausedSeconds shown_now deadline status]; rewrite ?Es; try done; try lia.
    exists d. split; [done|lia].
  - unfold choose. destruct (existsb _ _) eqn:E; [|constructor; try done; lia].
    apply existsb_exists in E as (v & Hv & Hvm). apply Z.eqb_eq in Hvm as <-. apply list_elem_of_In in Hv.
    pose proof (TIMER_MINUTES_bounds _ Hv).
    constructor; cbn [timer minutes pausedSeconds shown_now deadline status]; done || lia.
  - unfold toggle. destruct (is_active _).
    + constructor; cbn [timer minutes pausedSeconds shown_now deadline status]; done || lia.
    + constructor; cbn [timer minutes pausedSeconds shown_now deadline status]; try done; try lia.
      eexists. split; [reflexivity|lia].
  - unfold pause. destruct (status (timer c)) eqn:Es.
    1,4: by constructor; rewrite ?Es; [| |lia|].
    + destruct Hs as (d & Hd & Hdb). rewrite Hd.
      pose proof (remaining_bounds d t' (minutes (timer c) * 60) ltac:(lia) ltac:(lia)) as Hr.
      destruct (Z.eqb_spec (remainingSeconds (inject_Z d) t') 0);
        constructor; cbn [timer minutes pausedSeconds shown_now deadline status]; try done; try lia.
      split; [done|lia].
    + destruct Hs as [Hd H1].
      constructor; cbn [timer minutes pausedSeconds shown_now deadline status]; try done; try lia.
      eexists. split; [reflexivity|lia].
  - constructor; cbn [timer shown_now showFloating]; try done; lia.
  - constructor; cbn [timer shown_now hideFloating]; try done; lia.
Qed.

Lemma reachable_ok t c : reachable t c -> timer_ok t c /\ 0 <= t <= last_time.
Proof.
  induction 1 as [t Ht|t t' a c _ [IH Hb] Ht].
  - split; [|done]. constructor; cbn; try lia; try done. right; right; right; right; left.
  - split; [apply (act_ok a t t' c IH); lia|lia].
Qed.

(** ** Theorems *)

(** However the buttons are pressed and whenever the clock ticks, the
    chosen length stays one of the six, a paused timer has at least one second
    left, and the time shown lies between zero and the chosen length. *)
Theorem countdown_in_range (t : Z) (c : Countdown) :
  reachable t c ->
  minutes (timer c) ∈ TIMER_MINUTES /\ 0 <= seconds c <= minutes (timer c) * 60 /\
  (status (timer c) = Paused -> 1 <= seconds c).
Proof.
  intros [[Hm Hp Hn Hs] _]%reachable_ok. pose proof (TIMER_MINUTES_bounds _ Hm). split; [done|].
  unfold seconds. destruct (status (timer c)); try (split; [lia|done]).
  - destruct Hs as (d & -> & Hd). split; [|done]. apply remaining_bounds; lia.
  - destruct Hs as [_ H1]. split; [lia|done].
Qed.

(** Pausing keeps the time: a timer with time left that is paused and
    resumed, however much later, runs with exactly the whole seconds it
    showed; and a running timer is done at the first tick at or after its
    deadline, not before. *)
Theorem pause_keeps_time (t t1 t2 : Z) (c : Countdown) (d : Z) :
  reachable t c -> status (timer c) = Running -> deadline (timer c) = inject_Z d -> t <= t1 ->
  (t1 < d ->
    status (timer (pause t1 c)) = Paused /\ status (timer (pause t2 (pause t1 c))) = Running /\
    seconds (pause t2 (pause t1 c)) = seconds (tick t1 c)) /\
  (status (timer (tick t1 c)) = Done <-> d <= t1).
Proof.
  intros [[Hm Hp Hn Hs] _]%reachable_ok Hr Hd Ht. unfold tick. rewrite Hr, Hd. split.
  - intros Hlt. pose proof (remaining_zero d t1) as Hz.
    assert (Hne : (remainingSeconds (inject_Z d) t1 =? 0) = false) by (apply Z.eqb_neq; lia).
    unfold pause at 1 2 3 4. rewrite Hr, Hd, Hne. cbn [timer status pausedSeconds minutes].
    split; [done|]. cbv zeta. unfold pause. rewrite Hr, Hd, Hne. cbn [timer status pausedSeconds minutes].
    split; [done|]. unfold seconds. cbn [timer status deadline shown_now]. rewrite Hr, Hd.
    apply remaining_exact. unfold remainingSeconds. lia.
  - pose proof (remaining_zero d t1) as Hz. destruct (Z.eqb_spec (remainingSeconds (inject_Z d) t1) 0) as [E|E];
      cbn [timer status].
    + split; [by intros _; apply Hz|done].
    + rewrite Hr. split; [done|]. intros ?. by apply Hz in H.
Qed.

Lemma timer_json_ok t c : timer_ok t c -> t <= last_time -> json_ok (timer_json (timer c)).
Proof.
  intros [Hm Hp Hn Hs] Ht. pose proof (TIMER_MINUTES_bounds _ Hm). unfold last_time in Ht.
  assert (exists d, deadline (timer c) = inject_Z d /\ Z.abs d < 10 ^ 21) as (d & Hd & Hdb).
  { destruct (status (timer c)); [by exists 0| |by exists 0; destruct Hs as [-> _]|by exists 0].
    destruct Hs as (d & -> & ?). exists d. split; [done|lia]. }
  unfold timer_json. rewrite Hd. apply ok_obj.
  - apply (bool_decide_unpack _). vm_compute. exact I.
  - repeat apply Forall_cons_2; try apply Forall_nil_2; cbn [snd].
    + apply ok_int. lia.
    + apply ok_str.
    + apply (ok_int d). lia.
    + apply ok_int. lia.
Qed.

(** Closing and reopening the app does not lose the timer: what is
    written to storage is restored as it was, except that a running timer
    whose deadline has passed meanwhile comes back as done. *)
Theorem countdown_restored (t t' : Z) (c : Countdown) :
  reachable t c -> t <= t' ->
  restoreCountdown (Some (stringify (timer_json (timer c)))) t' =
  (if bool_decide (status (timer c) = Running) && (remainingSeconds (deadline (timer c)) t' =? 0)
   then mkTimer (minutes (timer c)) Done 0 0 else timer c).
Proof.
  intros [Hok Hb]%reachable_ok Ht. pose proof (timer_json_ok t c Hok ltac:(lia)) as Hj.
  destruct Hok as [Hm Hp Hn Hs]. unfold restoreCountdown.
  pose proof (parse_stringify _ Hj) as Hparse.
  destruct (stringify (timer_json (timer c))) as [|x xs] eqn:Est; [by vm_compute in Hparse|].
  rewrite Hparse. clear Hparse Est Hj.
  change (get (js "minutes") (timer_json (timer c))) with (VNum (num (minutes (timer c)))).
  change (get (js "status") (timer_json (timer c))) with (VStr (status_text (status (timer c)))).
  change (get (js "deadline") (timer_json (timer c))) with (VNum (Fin (deadline (timer c)))).
  change (get (js "pausedSeconds") (timer_json (timer c))) with (VNum (num (pausedSeconds (timer c)))).
  assert (Hmin : parse_minutes (VNum (num (minutes (timer c)))) = Some (minutes (timer c))).
  { unfold TIMER_MINUTES in Hm. rewrite !elem_of_cons, elem_of_nil in Hm.
    destruct Hm as [->|[->|[->|[->|[->|[->|[]]]]]]]; reflexivity. }
  assert (Hst : parse_status (VStr (status_text (status (timer c)))) = Some (status (timer c)))
    by (by destruct (status (timer c))).
  assert (Hpos : Qle_bool 0 (deadline (timer c)) = true).
  { apply Qle_bool_iff. destruct (status (timer c)).
    - by rewrite Hs. - destruct Hs as (d & -> & Hd). change 0%Q with (inject_Z 0). rewrite <- Zle_Qle. lia.
    - by destruct Hs as [-> _]. - by rewrite Hs. }
  assert (Hround : Qround_js (inject_Z (pausedSeconds (timer c))) = pausedSeconds (timer c)).
  { unfold Qround_js, Qfloor, inject_Z, Qplus. cbn [Qnum Qden]. Z.div_mod_to_equations. lia. }
  rewrite Hmin, Hst. cbv zeta. rewrite Hpos. unfold num at 1. rewrite Hround.
  rewrite Z.min_r, Z.max_r by lia. destruct (_ && _); [done|]. by destruct (timer c).
Qed.

(** ** A concrete run *)

Module CountdownWitness.
(** Five minutes, started at 1000 ms and paused at 61 500 ms. *)
Definition started : Countdown := toggle 1000 (choose 5 (useCountdown None 0)).
Lemma started_reachable : reachable 1000 started.
Proof.
  apply (reach_step 0 1000 AToggle (choose 5 (useCountdown None 0))); [|unfold last_time; lia].
  apply (reach_step 0 0 (AChoose 5) (useCountdown None 0)); [|unfold last_time; lia].
  apply reach_start. unfold last_time; lia.
Qed.

Lemma countdown_in_range_witness : 0 <= seconds started <= 300 /\ clock_text (seconds started) = js "05:00".
Proof.
  split; [|vm_compute; reflexivity]. exact (proj1 (proj2 (countdown_in_range 1000 started started_reachable))).
Defined.

Lemma pause_keeps_time_witness : seconds (pause 999999 (pause 61500 started)) = 240.
Proof.
  assert (H1 : status (timer started) = Running) by reflexivity.
  assert (H2 : deadline (timer started) = inject_Z 301000) by reflexivity.
  assert (H3 : 1000 <= 61500) by lia. assert (H4 : 61500 < 301000) by lia.
  destruct (proj1 (pause_keeps_time 1000 61500 999999 started 301000 started_reachable H1 H2 H3) H4) as (_ & _ & E).
  rewrite E. vm_compute. reflexivity.
Defined.

Lemma countdown_restored_witness :
  restoreCountdown (Some (stringify (timer_json (timer started)))) 2000 = timer started.
Proof.
  assert (H : 1000 <= 2000) by lia.
  rewrite (countdown_restored 1000 2000 started started_reachable H). vm_compute. reflexivity.
Defined.
End CountdownWitness.
