(* ===== verification/HostAddress.v ===== *)
(** * Where the apps may connect

    [apps/teacher/src/teacherSession.ts] and
    [apps/forge/src/matchboxConnection.ts]: the check of a typed Host address
    (written twice in the sources, [Teacher] and [Student] here), and the
    stored session of the teacher app.  The browser's URL parser is a
    parameter. *)

From Stdlib Require Import QArith Qround.
From S2P Require Import Prelude JsString JsNumber Regex JsValue Locale.
Local Open Scope Z_scope.

(** ** The URL parser *)

Record Url := mkUrl {
  hostname : jstr; url_username : jstr; url_password : jstr;
  pathname : jstr; protocol : jstr; origin : jstr }.

(** [new URL(text)]: [None] where it throws. *)
Class UrlParser := { new_URL : jstr -> option Url }.

Definition re_http : re :=
  seqs [RBegin; lit_i (js "http"); ROpt true (chr_i 115); lit (js "://")].

(** Documented behaviour: the scheme of the result is the scheme that was
    written, in lower case. *)
Class UrlLaws (P : UrlParser) : Prop := {
  scheme_kept : forall s u, new_URL s = Some u -> test re_http s = true ->
    protocol u = js "http:" \/ protocol u = js "https:"
}.

(** ** [Number.parseInt(s, 16)] *)

Fixpoint hex_prefix (s : jstr) : jstr :=
  match s with
  | c :: s' => match hex_digit c with Some _ => c :: hex_prefix s' | None => [] end
  | [] => []
  end.
Definition parseInt16 (s0 : jstr) : option Z :=
  let s := trim_start s0 in
  let '(neg, s) := match s with
                   | c :: r => if (c =? 45)%N then (true, r) else if (c =? 43)%N then (false, r) else (false, s)
                   | [] => (false, s)
                   end in
  let s := match s with
           | a :: b :: r => if (a =? 48)%N && ((b =? 120)%N || (b =? 88)%N) then r else s
           | _ => s
           end in
  match hex_prefix s with
  | [] => None
  | ds => match radix_value 16 0 ds with
          | Some v => Some (if neg : bool then - v else v)
          | None => None
          end
  end.
(** [n & mask] for a mask below [2^31]; [NaN & mask] is 0. *)
Definition bit_and (n : option Z) (mask : Z) : Z := match n with Some z => Z.land z mask | None => 0 end.

(** ** Local addresses *)

Section local.
Context `{Locale}.

Definition strip_host (hostname : jstr) : jstr :=
  let s := replace_all (RAlt (RSeq RBegin (chr 91)) (RSeq (chr 93) REnd)) (const []) hostname in
  let s := replace_first (RSeq (chr 46) REnd) (const []) s in
  to_lower_case s.

Definition byte_number (n : jsnum) : bool :=
  is_integer n && num_le (num 0) n && num_le n (num 255).
Definition part_is (n : jsnum) (k : Z) : bool := num_eq n (num k).

Definition private_ipv4 (a b : jsnum) : bool :=
  part_is a 127 || part_is a 10 ||
  (part_is a 172 && num_le (num 16) b && num_le b (num 31)) ||
  (part_is a 192 && part_is b 168) || (part_is a 169 && part_is b 254).

Definition private_ipv6 (host : jstr) : bool :=
  if seqb host (js "::1") then true
  else if negb (includes (js ":") host) then false
  else
    let group := parseInt16 (or_str (hd [] (split 58 host)) (js "0")) in
    (bit_and group 0xfe00 =? 0xfc00) || (bit_and group 0xffc0 =? 0xfe80).

Definition isLocalNetworkHost (hostname : jstr) : bool :=
  let host := strip_host hostname in
  if seqb host (js "localhost") || ends_with (js ".local") host then true
  else
    let ipv4 := number_of_string <$> split 46 host in
    match ipv4 with
    | [a; b; c; d] => if forallb byte_number ipv4 then private_ipv4 a b else private_ipv6 host
    | _ => private_ipv6 host
    end.

Context `{UrlParser}.

Definition msg_scheme : jstr := js "The Host address must start with http:// or https://.".
Definition msg_invalid : jstr := js "Enter a valid Cinder Host address.".
Definition msg_no_host : jstr := js "The Host address has no host.".
Definition msg_credentials : jstr := js "The Host address cannot contain credentials or parameters.".
Definition msg_path : jstr := js "The Host address cannot contain an extra path.".
Definition msg_https : jstr := js "Use HTTPS when connecting outside the local school network.".

Definition normalizeTeacherHostAddress (value : jstr) : outcome jstr jstr :=
  let input := trim value in
  if negb (test re_http input) then Throw msg_scheme
  else
    match new_URL input with
    | None => Throw msg_invalid
    | Some url =>
      if negb (truthy (hostname url)) then Throw msg_no_host
      else if truthy (url_username url) || truthy (url_password url) ||
              includes (js "?") input || includes (js "#") input then Throw msg_credentials
      else if negb (seqb (pathname url) (js "/")) then Throw msg_path
      else if seqb (protocol url) (js "http:") && negb (isLocalNetworkHost (hostname url))
      then Throw msg_https
      else Ok (origin url)
    end.
End local.

(** The student app's copy. *)
Module Student.
Section student.
Context `{Locale}.
Definition isMatchboxLocalHost (hostname : jstr) : bool :=
  let host := to_lower_case (replace_first (RSeq (chr 46) REnd) (const [])
    (replace_all (RAlt (RSeq RBegin (chr 91)) (RSeq (chr 93) REnd)) (const []) hostname)) in
  if seqb host (js "localhost") || ends_with (js ".local") host then true
  else
    let ipv4 := number_of_string <$> split 46 host in
    match ipv4 with
    | [a; b; c; d] => if forallb byte_number ipv4 then private_ipv4 a b else private_ipv6 host
    | _ => private_ipv6 host
    end.

Context `{UrlParser}.

Definition normalizeMatchboxHostAddress (value : jstr) : outcome jstr jstr :=
  let input := trim value in
  if negb (test re_http input) then Throw msg_scheme
  else
    match new_URL input with
    | None => Throw msg_invalid
    | Some url =>
      if negb (truthy (hostname url)) then Throw msg_no_host
      else if truthy (url_username url) || truthy (url_password url) ||
              includes (js "?") input || includes (js "#") input then Throw msg_credentials
      else if negb (seqb (pathname url) (js "/")) then Throw msg_path
      else if seqb (protocol url) (js "http:") && negb (isMatchboxLocalHost (hostname url))
      then Throw msg_https
      else Ok (origin url)
    end.
End student.
End Student.

Definition isCurrentTeacherWorkspaceGeneration (requestGeneration currentGeneration : Z) : bool :=
  requestGeneration =? currentGeneration.
Definition isCurrentMatchboxSessionGeneration (requestGeneration currentGeneration : Z) : bool :=
  requestGeneration =? currentGeneration.

(** ** The stored session of the teacher app *)

Record StoredTeacherSession := mkStored { baseUrl : jstr; token : jstr; stored_user : jsval }.

Definition parseStoredTeacherSession (raw fallbackBaseUrl : jstr) : option StoredTeacherSession :=
  match parse_json raw with
  | None | Some VNull => None
  | Some value =>
    match get (js "token") value with
    | VStr token =>
      let user := get (js "user") value in
      if negb (truthy token) || negb (truthy_val user) ||
         negb (match get (js "role") user with VStr r => seqb r (js "teacher") | _ => false end)
      then None
      else
        let url := match get (js "baseUrl") value with
                   | VStr u => if truthy u then u else fallbackBaseUrl
                   | _ => fallbackBaseUrl
                   end in
        Some (mkStored url token user)
    | _ => None
    end
  end.

Inductive StartupView := WorkspaceView | CreateSchoolView | SignInView.
Definition teacherStartupView (needsSetup : option bool) (signedIn : bool) : StartupView :=
  if signedIn then WorkspaceView
  else match needsSetup with Some true => CreateSchoolView | _ => SignInView end.

Definition teacherReconnectDelay (online signedIn : bool) : option Z :=
  if signedIn && negb online then Some 20000 else None.

(** ** What the checks accept *)

Definition octet (n : N) : bool := (n <=? 255)%N.
Definition dotted (a b c d : N) : jstr := join [46%N] [digits a; digits b; digits c; digits d].

(** The private ranges of IPv4: loopback, the three private blocks and
    link-local. *)
Definition private_address (a b : N) : bool :=
  ((a =? 127) || (a =? 10) || ((a =? 172) && (16 <=? b) && (b <=? 31)) ||
   ((a =? 192) && (b =? 168)) || ((a =? 169) && (b =? 254)))%N.

Module AddressFacts.

Definition dotted_char (c : N) : bool := is_digit c || (c =? 46)%N.

Lemma digits_chars n : forallb is_digit (digits n) = true.
Proof. apply digits_ok. Qed.
Lemma digits_nonempty n : digits n <> [].
Proof. apply digits_ok. Qed.
Lemma digits_no_dot n : ~ (46%N : N) ∈ digits n.
Proof.
  intros Hin. pose proof (digits_chars n) as H. rewrite forallb_Forall in H.
  rewrite Forall_forall in H. by specialize (H _ Hin).
Qed.

Lemma dotted_chars a b c d : forallb dotted_char (dotted a b c d) = true.
Proof.
  assert (H : forall n, forallb dotted_char (digits n) = true).
  { intros n. apply forallb_Forall. pose proof (digits_chars n) as Hn. apply forallb_Forall in Hn.
    eapply Forall_impl; [exact Hn|]. intros x Hx. unfold dotted_char. by rewrite Hx. }
  unfold dotted, join. rewrite !forallb_app, !H. done.
Qed.

Lemma dotted_last a b c d : exists s x, dotted a b c d = s ++ [x] /\ is_digit x = true.
Proof.
  destruct (exists_last (digits_nonempty d)) as (s & x & E).
  exists (digits a ++ [46%N] ++ digits b ++ [46%N] ++ digits c ++ [46%N] ++ s), x. split.
  - unfold dotted, join. rewrite E, <- !app_assoc. reflexivity.
  - pose proof (digits_chars d) as H. rewrite E, forallb_app in H. simpl in H. by bool_hyps.
Qed.


Lemma lower_dotted c : dotted_char c = true -> ascii_lower c = c.
Proof.
  unfold dotted_char, ascii_lower. intros Hc. destruct (is_upper c) eqn:E; [|done]. char_lia.
Qed.

Lemma strip_dotted `{LocaleLaws} a b c d : strip_host (dotted a b c d) = dotted a b c d.
Proof.
  unfold strip_host. pose proof (dotted_chars a b c d) as Hall. apply forallb_Forall in Hall.
  destruct (dotted_last a b c d) as (s & x & Elast & Hx).
  assert (Hnot : forall y, dotted_char y = false -> ~ y ∈ dotted a b c d).
  { intros y Hy Hin. rewrite Forall_forall in Hall. by rewrite (Hall _ Hin) in Hy. }
  rewrite replace_all_none.
  2: { destruct (exec _ _) as [[b0 t]|] eqn:E; [|done]. exfalso.
       apply exec_sound in E as (Hm & w & Hw & _).
       apply matches_alt in Hm as [Hm|Hm]; apply matches_seq in Hm as (u & Hm1 & Hm2).
       - apply matches_begin in Hm1 as [-> _]. unfold chr in Hm2.
         apply matches_set in Hm2 as (y & [Hy _] & <-%N.eqb_eq & _).
         apply (Hnot 91%N); [done|]. rewrite Hw, Hy. set_solver.
       - unfold chr in Hm1. apply matches_set in Hm1 as (y & [Hy _] & <-%N.eqb_eq & _).
         apply (Hnot 93%N); [done|]. rewrite Hw, Hy. set_solver. }
  unfold replace_first. destruct (exec _ _) as [[b0 t]|] eqn:E.
  { exfalso. apply exec_sound in E as (Hm & w & Hw & _).
    apply matches_seq in Hm as (u & Hm1 & [-> Hend]%matches_end). unfold chr in Hm1.
    apply matches_set in Hm1 as (y & [Hy _] & <-%N.eqb_eq & _).
    rewrite Hend, app_nil_r in Hy. rewrite Hy, Elast in Hw.
    by apply app_inj_tail in Hw as [_ ->]. }
  rewrite to_lower_case_ascii.
  - induction Hall as [|y ys Hy _ IH] in Hnot |- *; [done|]. cbn. f_equal; [|apply IH].
    + by apply lower_dotted.
    + intros z Hz Hin. by apply (Hnot z Hz), list_elem_of_further.
  - apply forallb_Forall. eapply Forall_impl; [exact Hall|]. intros y Hy. unfold dotted_char in Hy. char_lia.
Qed.

Lemma local_name_dotted a b c d :
  seqb (dotted a b c d) (js "localhost") || ends_with (js ".local") (dotted a b c d) = false.
Proof.
  destruct (dotted_last a b c d) as (s & x & E & Hx). rewrite E. apply orb_false_iff. split.
  - apply seqb_neq. change (js "localhost") with (js "localhos" ++ js "t").
    intros [_ ->]%app_inj_tail. done.
  - unfold ends_with. rewrite rev_app_distr. cbn [rev app].
    change (rev (js ".local")) with (108%N :: rev (js ".loca")). cbn [starts_with].
    destruct (N.eqb_spec 108 x) as [<-|]; done.
Qed.

Lemma split_dotted a b c d : split 46 (dotted a b c d) = [digits a; digits b; digits c; digits d].
Proof. apply split_join; [done|]. repeat (constructor; [apply digits_no_dot|]). constructor. Qed.

Lemma byte_number_num z : byte_number (num z) = (0 <=? z) && (z <=? 255).
Proof. unfold byte_number. by rewrite is_integer_Z, !num_le_Z. Qed.
Lemma part_is_num z k : part_is (num z) k = (z =? k).
Proof. apply num_eq_Z. Qed.

Lemma private_ipv4_num a b :
  private_ipv4 (num (Z.of_N a)) (num (Z.of_N b)) = private_address a b.
Proof. unfold private_ipv4, private_address. rewrite !part_is_num, !num_le_Z. lia. Qed.

(** A dotted quad is judged by its first two numbers. *)
Lemma local_dotted `{LocaleLaws} a b c d :
  octet a && octet b && octet c && octet d = true ->
  isLocalNetworkHost (dotted a b c d) = private_address a b.
Proof.
  unfold octet. intros Ho. bool_hyps. unfold isLocalNetworkHost.
  rewrite strip_dotted, local_name_dotted, split_dotted. cbn [fmap list_fmap].
  rewrite !number_of_digits by lia. cbn [forallb]. rewrite !byte_number_num.
  replace (_ && _) with true by lia. apply private_ipv4_num.
Qed.

Lemma copies_agree_host `{Locale} h : Student.isMatchboxLocalHost h = isLocalNetworkHost h.
Proof. done. Qed.
Lemma copies_agree `{Locale, UrlParser} v :
  Student.normalizeMatchboxHostAddress v = normalizeTeacherHostAddress v.
Proof. done. Qed.

(** The conditions under which an address is accepted. *)
Definition connectable `{Locale} (input : jstr) (u : Url) : Prop :=
  hostname u <> [] /\ url_username u = [] /\ url_password u = [] /\
  includes (js "?") input = false /\ includes (js "#") input = false /\ pathname u = js "/" /\
  (protocol u = js "https:" \/ protocol u = js "http:" /\ isLocalNetworkHost (hostname u) = true).

Lemma normalize_Ok `{Locale} {P : UrlParser} {UL : UrlLaws P} v o :
  normalizeTeacherHostAddress v = Ok o ->
  exists u, new_URL (trim v) = Some u /\ o = origin u /\ connectable (trim v) u.
Proof.
  unfold normalizeTeacherHostAddress. destruct (test re_http (trim v)) eqn:Ht; [|done].
  cbn [negb]. destruct (new_URL (trim v)) as [u|] eqn:Eu; [|done].
  pose proof (scheme_kept _ _ Eu Ht) as Hs.
  destruct (truthy (hostname u)) eqn:Eh; [|done]. apply truthy_true in Eh. cbn [negb].
  destruct (url_username u) as [|] eqn:En; [|done].
  destruct (url_password u) as [|] eqn:Ep; [|done]. cbn [truthy orb].
  destruct (includes _ _) eqn:Eq; [done|]. destruct (includes _ _) eqn:Ehash in |- *; [done|]. cbn [orb].
  destruct (seqb (pathname u) _) eqn:Epath; [|done]. apply seqb_eq in Epath. cbn [negb].
  intros Hr. exists u. split; [done|].
  destruct (seqb (protocol u) _) eqn:Eproto, (isLocalNetworkHost (hostname u)) eqn:El; cbn in Hr;
    try (exfalso; clear -Hr; discriminate Hr); apply (f_equal (fun r => match r with Ok x => x | _ => o end)) in Hr;
    cbn in Hr; split; [done| |done| |done|]; unfold connectable;
    (do 6 (split; [done|])); rewrite ?seqb_eq, ?seqb_neq in Eproto; destruct Hs; auto; contradiction.
Qed.

Lemma normalize_http `{Locale, UrlParser} v u :
  test re_http (trim v) = true -> new_URL (trim v) = Some u ->
  url_username u = [] -> url_password u = [] ->
  includes (js "?") (trim v) = false -> includes (js "#") (trim v) = false ->
  pathname u = js "/" -> protocol u = js "http:" -> hostname u <> [] ->
  normalizeTeacherHostAddress v =
    if isLocalNetworkHost (hostname u) then Ok (origin u) else Throw msg_https.
Proof.
  intros Ht Hu Hn Hp Hq Hh Hpath Hproto Hhost. unfold normalizeTeacherHostAddress.
  apply truthy_true in Hhost. rewrite Ht, Hu, Hhost, Hn, Hp, Hq, Hh, Hpath, Hproto, !seqb_refl.
  by destruct (isLocalNetworkHost _).
Qed.
End AddressFacts.

(** ** Properties *)

Import AddressFacts.

(** An address given with [http:] whose host is a dotted quad, and which is
    otherwise well formed, is accepted exactly when the quad is loopback,
    private or link-local; any other is refused with the message that asks for
    HTTPS.  The student app's copy decides the same. *)
Theorem plain_http_stays_local `{LocaleLaws} `{UrlParser} (value : jstr) (o : jstr) (a b c d : N) :
  test re_http (trim value) = true -> new_URL (trim value) = Some (mkUrl (dotted a b c d) [] [] (js "/") (js "http:") o) ->
  octet a && octet b && octet c && octet d = true ->
  includes (js "?") (trim value) || includes (js "#") (trim value) = false ->
  let verdict := if private_address a b then Ok o else Throw msg_https in
  normalizeTeacherHostAddress value = verdict /\ Student.normalizeMatchboxHostAddress value = verdict.
Proof.
  intros Ht Hu Ho Hq verdict.
  assert (Hv : normalizeTeacherHostAddress value = verdict); [|split; [exact Hv|exact (eq_trans (copies_agree value) Hv)]].
  apply orb_false_iff in Hq as [Hq1 Hq2].
  rewrite (normalize_http value _ Ht Hu); cbn [hostname origin]; [|done..|].
  - by rewrite local_dotted.
  - destruct (dotted_last a b c d) as (s & x & -> & _). by destruct s.
Qed.

(** Every address either app accepts is the origin of a URL with a host, no
    user name, password, query, fragment or path, which uses HTTPS or names a
    computer of the local network. *)
Theorem accepted_address `{Locale} {P : UrlParser} {UL : UrlLaws P} (value o : jstr) :
  normalizeTeacherHostAddress value = Ok o \/ Student.normalizeMatchboxHostAddress value = Ok o ->
  exists u, new_URL (trim value) = Some u /\ o = origin u /\ connectable (trim value) u.
Proof. intros [Hv|Hv]; [exact (normalize_Ok value o Hv)|exact (normalize_Ok value o (eq_trans (eq_sym (copies_agree value)) Hv))]. Qed.

(** The text both apps store for a session. *)
Definition stored_text (url token : jstr) (user : jsval) : jstr :=
  stringify (VObj [(js "baseUrl", VStr url); (js "token", VStr token); (js "user", user)]).

(** What the teacher app stores for a signed-in teacher is read back as the
    same session, with the address the app was started with where the stored one
    is empty; a session without a token, or of another role, is not read. *)
Theorem stored_session_roundtrip (url token fallback : jstr) (user : jsval) (r : jstr) :
  json_ok user -> get (js "role") user = VStr r -> truthy_val user = true ->
  parseStoredTeacherSession (stored_text url token user) fallback =
    if truthy token && seqb r (js "teacher")
    then Some (mkStored (or_str url fallback) token user) else None.
Proof.
  intros Hok Hr Hu. unfold parseStoredTeacherSession, stored_text. rewrite parse_stringify.
  2: { constructor; [|repeat constructor; done].
       repeat (apply NoDup_cons; split; [by apply (bool_decide_unpack _); vm_compute|]); apply NoDup_nil_2. }
  change (get (js "token") _) with (VStr token).
  change (get (js "user") _) with user.
  change (get (js "baseUrl") _) with (VStr url).
  cbv zeta. rewrite Hr, Hu. unfold or_str.
  destruct (truthy token), (seqb r (js "teacher")), (truthy url); reflexivity.
Qed.

Module AddressWitnesses.
Definition demo_url : Url :=
  mkUrl (dotted 192 168 1 20) [] [] (js "/") (js "http:") (js "http://192.168.1.20:8742").
Definition demo_text : jstr := js " http://192.168.1.20:8742 ".
(** A parser that knows one address. *)
Definition demo_parser : UrlParser :=
  {| new_URL s := if seqb s (trim demo_text) then Some demo_url else None |}.
#[export] Instance demo_laws : UrlLaws demo_parser.
Proof. split. intros s u. cbn. destruct (seqb s _); [|done]. intros [= <-] _. by left. Qed.

Lemma plain_http_stays_local_witness :
  @normalizeTeacherHostAddress ascii_locale demo_parser demo_text = Ok (js "http://192.168.1.20:8742") /\
  @Student.normalizeMatchboxHostAddress ascii_locale demo_parser demo_text = Ok (js "http://192.168.1.20:8742").
Proof.
  apply (@plain_http_stays_local ascii_locale ascii_locale_laws demo_parser demo_text (js "http://192.168.1.20:8742") 192 168 1 20);
    vm_compute; reflexivity.
Defined.
Lemma accepted_address_witness :
  exists u, @new_URL demo_parser (trim demo_text) = Some u /\
    js "http://192.168.1.20:8742" = origin u /\ @connectable ascii_locale (trim demo_text) u.
Proof.
  apply (@accepted_address ascii_locale demo_parser demo_laws demo_text). left.
  vm_compute. reflexivity.
Defined.
Definition demo_user : jsval := VObj [(js "id", VStr (js "u1")); (js "role", VStr (js "teacher"))].
Lemma demo_user_ok : json_ok demo_user.
Proof.
  constructor; [|repeat constructor; done].
  repeat (apply NoDup_cons; split; [by apply (bool_decide_unpack _); vm_compute|]); apply NoDup_nil_2.
Qed.
Lemma stored_session_roundtrip_witness :
  parseStoredTeacherSession (stored_text [] (js "t0") demo_user) (js "http://127.0.0.1:8742") =
    Some (mkStored (js "http://127.0.0.1:8742") (js "t0") demo_user).
Proof.
  exact (stored_session_roundtrip [] (js "t0") (js "http://127.0.0.1:8742") demo_user (js "teacher")
    demo_user_ok eq_refl eq_refl).
Defined.
End AddressWitnesses.
