(* ===== verification/SessionStore.v ===== *)
(** * Where a session is kept ([packages/ui/src/session.ts])

    The installed apps keep one encrypted value through native commands; in a
    browser the value is in [localStorage].  Each operation takes whether the
    native commands it calls work; a command that fails changes nothing (the
    native side writes atomically).  [Queue] is the promise chain that runs the
    operations one at a time. *)

From stdpp Require Import gmap.
From S2P Require Import Prelude JsString.

Record Device := mkDevice {
  isTauriRuntime : bool;
  native : option jstr;
  local : gmap jstr jstr
}.

Definition set_native (v : option jstr) (d : Device) : Device := mkDevice (isTauriRuntime d) v (local d).
Definition set_local (m : gmap jstr jstr) (d : Device) : Device := mkDevice (isTauriRuntime d) (native d) m.

Definition removeItems (keys : list jstr) (m : gmap jstr jstr) : gmap jstr jstr := foldl (fun m k => delete k m) m keys.
Arguments removeItems : simpl never.
Definition removeWebValues (keys : list jstr) (d : Device) : Device := set_local (removeItems keys (local d)) d.

Definition legacy_value (keys : list jstr) (d : Device) : option jstr :=
  match find (fun v => match v with Some v => truthy v | None => false end) ((fun k => local d !! k) <$> keys) with
  | Some (Some v) => Some v
  | _ => None
  end.

Definition loadSessionValue (keys : list jstr) (load_ok save_ok : bool) (d : Device) : option jstr * Device :=
  match (if isTauriRuntime d && load_ok then native d else None) with
  | Some ((_ :: _) as v) => (Some v, removeWebValues keys d)
  | _ =>
    match legacy_value keys d with
    | None => (None, d)
    | Some legacy =>
      (Some legacy,
       if isTauriRuntime d && save_ok then removeWebValues keys (set_native (Some legacy) d) else d)
    end
  end.

Definition saveSessionValue (keys : list jstr) (value : jstr) (save_ok : bool) (d : Device) : bool * Device :=
  if isTauriRuntime d then
    if save_ok then (true, removeWebValues keys (set_native (Some value) d)) else (false, d)
  else
    match keys with
    | k :: others => (true, set_local (removeItems others (<[k := value]> (local d))) d)
    | [] => (true, d)
    end.

Definition clearSessionValue (keys : list jstr) (clear_ok : bool) (d : Device) : Device :=
  removeWebValues keys (if isTauriRuntime d && clear_ok then set_native None d else d).

(** ** The queue *)

(** [tail] is settled when nothing waits; an operation starts when those
    enqueued before it have settled, whatever their results. *)
Section queue.
Context {S R : Type}.
Definition operation : Type := S -> outcome jstr R * S.
Record Queue := mkQueue { waiting : list operation; settled : list (outcome jstr R); store : S }.
Definition enqueue (op : operation) (q : Queue) : Queue := mkQueue (waiting q ++ [op]) (settled q) (store q).
Definition run_next (q : Queue) : Queue :=
  match waiting q with
  | [] => q
  | op :: rest => let '(r, s) := op (store q) in mkQueue rest (settled q ++ [r]) s
  end.
Inductive turn := Enqueue (op : operation) | RunNext.
Definition turns (ts : list turn) (q : Queue) : Queue :=
  foldl (fun q t => match t with Enqueue op => enqueue op q | RunNext => run_next q end) q ts.

(** Running operations one after the other. *)
Fixpoint in_order (ops : list operation) (s : S) : list (outcome jstr R) * S :=
  match ops with
  | [] => ([], s)
  | op :: ops' => let '(r, s1) := op s in let '(rs, s2) := in_order ops' s1 in (r :: rs, s2)
  end.
Definition enqueued (ts : list turn) : list operation :=
  filter_map (fun t => match t with Enqueue op => Some op | RunNext => None end) ts.

Lemma in_order_app xs ys s :
  in_order (xs ++ ys) s =
    (fst (in_order xs s) ++ fst (in_order ys (snd (in_order xs s))), snd (in_order ys (snd (in_order xs s)))).
Proof.
  revert s. induction xs as [|x xs IH]; intros s; cbn; [by destruct (in_order ys s)|].
  destruct (x s) as [r s1]. rewrite IH. by destruct (in_order xs s1) as [rs s2].
Qed.

Lemma turns_split ts s0 :
  exists done_ops, enqueued ts = done_ops ++ waiting (turns ts (mkQueue [] [] s0)) /\
    (settled (turns ts (mkQueue [] [] s0)), store (turns ts (mkQueue [] [] s0))) = in_order done_ops s0.
Proof.
  induction ts as [|t ts IH] using rev_ind; [by exists []|].
  unfold turns, enqueued in *. rewrite foldl_app. cbn [foldl].
  set (q := foldl _ _ ts) in *. destruct IH as (ops & Hops & Hrun).
  rewrite filter_map_app, Hops. destruct t as [op|]; cbn [filter_map].
  - exists ops. cbn [enqueue waiting settled store]. by rewrite <- app_assoc.
  - rewrite app_nil_r. unfold run_next. destruct (waiting q) as [|op rest] eqn:Ew; [by exists ops; rewrite Ew|].
    exists (ops ++ [op]). rewrite in_order_app, <- Hrun. cbn [fst snd in_order].
    destruct (op (store q)) as [r s1] eqn:Eop. cbn. split; [by rewrite <- app_assoc|done].
Qed.
End queue.
Arguments Queue S R : clear implicits.
Arguments operation S R : clear implicits.
Arguments turn S R : clear implicits.

(** ** Properties *)

Module StoreFacts.

Lemma lookup_removeItems keys m k :
  removeItems keys m !! k = if bool_decide (k ∈ keys) then None else m !! k.
Proof.
  revert m. unfold removeItems. induction keys as [|x keys IH]; intros m; cbn.
  - by rewrite bool_decide_eq_false_2 by apply not_elem_of_nil.
  - rewrite IH. destruct (decide (x = k)) as [->|Hx].
    + rewrite lookup_delete_eq, (bool_decide_eq_true_2 (k ∈ k :: keys)) by left. by case_bool_decide.
    + rewrite lookup_delete_ne by done. erewrite (bool_decide_ext (k ∈ x :: keys)); [done|].
      rewrite elem_of_cons. split; [by intros [->|]|by right].
Qed.

Lemma legacy_value_None keys d :
  (forall k, k ∈ keys -> forall v, local d !! k = Some v -> v = []) -> legacy_value keys d = None.
Proof.
  intros H. unfold legacy_value. destruct (find _ _) as [[v|]|] eqn:E; [|done|done]. exfalso.
  apply find_Some in E as [Hin Hv]. apply list_elem_of_fmap in Hin as (k & Hk & Hin).
  by rewrite (H k Hin v (eq_sym Hk)) in Hv.
Qed.
Lemma legacy_removed keys d : legacy_value keys (removeWebValues keys d) = None.
Proof.
  apply legacy_value_None. intros k Hk v. cbn. rewrite lookup_removeItems.
  by rewrite bool_decide_eq_true_2.
Qed.
Lemma legacy_first k keys v d : v <> [] -> local d !! k = Some v -> legacy_value (k :: keys) d = Some v.
Proof. intros Hv Hk. unfold legacy_value. cbn. rewrite Hk. by destruct v. Qed.
Lemma legacy_value_nonempty keys d v : legacy_value keys d = Some v -> v <> [].
Proof.
  unfold legacy_value. destruct (find _ _) as [[w|]|] eqn:E; [|done|done].
  intros [= ->]. apply find_Some in E as [_ Hv]. by destruct v.
Qed.
End StoreFacts.

Import StoreFacts.

(** Whatever the device held before: a session that was saved is the one
    loaded next, in an installed app as in a browser; an installed app whose
    native storage fails reports it, keeps what it had and writes nothing to
    [localStorage]; and after sign-out nothing is loaded, provided an installed
    app's native storage works. *)
Theorem saved_session_loads (k : jstr) (keys : list jstr) (value : jstr) (ok load_ok save_ok : bool) (d : Device) :
  NoDup (k :: keys) -> value <> [] ->
  let '(saved, d') := saveSessionValue (k :: keys) value ok d in
  saved = (ok || negb (isTauriRuntime d)) /\
  (saved = true -> fst (loadSessionValue (k :: keys) true save_ok d') = Some value) /\
  (saved = false -> d' = d) /\
  (isTauriRuntime d = true -> forall x v, local d' !! x = Some v -> local d !! x = Some v) /\
  (saved = true -> isTauriRuntime d = true -> forall x, x ∈ k :: keys -> local d' !! x = None) /\
  fst (loadSessionValue (k :: keys) load_ok save_ok (clearSessionValue (k :: keys) true d')) = None.
Proof.
  intros Hnd Hv. apply NoDup_cons in Hnd as [Hk _].
  assert (Hclear : forall d1, fst (loadSessionValue (k :: keys) load_ok save_ok (clearSessionValue (k :: keys) true d1)) = None).
  { intros d1. unfold loadSessionValue, clearSessionValue. rewrite legacy_removed.
    destruct d1 as [[] n l]; cbn; [by destruct load_ok|done]. }
  unfold saveSessionValue. destruct (isTauriRuntime d) eqn:Et; [destruct ok|]; cbn.
  - split; [done|]. split; [intros _; unfold loadSessionValue; cbn; rewrite Et; by destruct value|].
    split; [done|]. split; [|split; [|apply Hclear]].
    + intros _ x v. rewrite lookup_removeItems. by case_bool_decide.
    + intros _ _ x Hx. rewrite lookup_removeItems. by rewrite bool_decide_eq_true_2.
  - by repeat split.
  - split; [by destruct ok|]. split; [|split; [done|split; [done|split; [done|apply Hclear]]]].
    intros _. unfold loadSessionValue. cbn. rewrite Et. cbn.
    rewrite (legacy_first _ _ value); [done|done|]. cbn. rewrite lookup_removeItems.
    rewrite bool_decide_eq_false_2 by done. apply lookup_insert_eq.
Qed.

(** Where nothing is stored natively, a session an older version kept in
    [localStorage] is loaded now and again at the next start, whichever native
    commands fail; once the move to native storage works, the text is only
    there. *)
Theorem legacy_session_migrates (keys : list jstr) (v : jstr) (load_ok save_ok load_again save_again : bool) (d : Device) :
  legacy_value keys d = Some v -> native d = None -> (isTauriRuntime d && save_ok = true -> load_again = true) ->
  let '(first, d1) := loadSessionValue keys load_ok save_ok d in
  first = Some v /\ fst (loadSessionValue keys load_again save_again d1) = Some v /\
  (isTauriRuntime d && save_ok = true -> native d1 = Some v /\ legacy_value keys d1 = None).
Proof.
  intros Hl Hn Hagain. pose proof (legacy_value_nonempty _ _ _ Hl) as Hv.
  assert (E : forall lo so, loadSessionValue keys lo so d =
    (Some v, if isTauriRuntime d && so then removeWebValues keys (set_native (Some v) d) else d)).
  { intros lo so. unfold loadSessionValue. rewrite Hl, Hn. by destruct (isTauriRuntime d && lo). }
  rewrite E. split; [done|]. destruct (isTauriRuntime d && save_ok) eqn:Et.
  - apply andb_true_iff in Et as [Et _]. rewrite (Hagain eq_refl). split; [|by rewrite legacy_removed].
    unfold loadSessionValue. cbn. rewrite Et. by destruct v.
  - by rewrite E.
Qed.

(** However enqueuing and running interleave, once nothing waits every
    operation has run exactly once, in the order it was enqueued, on the store
    the one before it left; a rejected operation does not stop those after it. *)
Theorem operations_run_in_order {S R} (ts : list (turn S R)) (s0 : S) :
  waiting (turns ts (mkQueue [] [] s0)) = [] ->
  (settled (turns ts (mkQueue [] [] s0)), store (turns ts (mkQueue [] [] s0))) = in_order (enqueued ts) s0.
Proof.
  intros Hw. destruct (turns_split ts s0) as (ops & Hops & Hrun). by rewrite Hops, Hw, app_nil_r.
Qed.

Module StoreWitnesses.
Definition keys : list jstr := [js "cinder.matchbox.session"; js "cinder.student.session"].
Definition desktop : Device := mkDevice true None {[ js "cinder.student.session" := js "old" ]}.

Lemma saved_session_loads_witness :
  fst (loadSessionValue keys true true (snd (saveSessionValue keys (js "new") true desktop))) = Some (js "new").
Proof.
  refine (proj1 (proj2 (saved_session_loads _ [js "cinder.student.session"] (js "new") true true true desktop _ _)) _).
  - apply (bool_decide_unpack _). vm_compute. exact I.
  - discriminate.
  - reflexivity.
Defined.
Lemma legacy_session_migrates_witness :
  fst (loadSessionValue keys true true desktop) = Some (js "old").
Proof.
  refine (proj1 (legacy_session_migrates keys (js "old") true true true true desktop _ _ _)).
  - vm_compute. reflexivity.
  - reflexivity.
  - reflexivity.
Defined.
Definition add (n : nat) : operation nat unit := fun s => (if (n =? 0)%nat then Throw [] else Ok tt, (s + n)%nat).
Definition busy_turns : list (turn nat unit) := [Enqueue (add 1); RunNext; Enqueue (add 0); Enqueue (add 2); RunNext; RunNext].
Lemma operations_run_in_order_witness :
  (settled (turns busy_turns (mkQueue [] [] 0)), store (turns busy_turns (mkQueue [] [] 0))) =
    ([Ok tt; Throw []; Ok tt], 3%nat).
Proof. exact (operations_run_in_order busy_turns 0%nat eq_refl). Defined.
End StoreWitnesses.
