(* ===== verification/SessionClient.v ===== *)
(** * What the sessions of both apps share

    The client object ([CinderApi] of packages/ui/src/api.ts: its base address
    and its token), the storage operations a session queues
    (packages/ui/src/session.ts), the value that is stored, and the list of
    accounts remembered on a device. *)

From S2P Require Import Prelude JsString JsValue.

Record CinderApi := mkApi { api_base : jstr; api_token : option jstr }.

(** [baseUrl.replace(/\/+$/, "")] *)
Definition strip_slashes (s : jstr) : jstr := rev (drop_while (N.eqb 47) (rev s)).
Definition new_api (base : jstr) (token : option jstr) : CinderApi := mkApi (strip_slashes base) token.
(** [if (this.token) headers.set("Authorization", ...)] *)
Definition bearer (a : CinderApi) : option jstr :=
  match api_token a with Some ((_ :: _) as t) => Some t | _ => None end.

Inductive StoreOp := SaveOp (session : jsval) | ClearOp.
Definition perform (o : StoreOp) (works : bool) (d : option jsval) : option jsval :=
  if works then match o with SaveOp v => Some v | ClearOp => None end else d.

(** [{ baseUrl, token, user }] *)
Definition session_value (base token : jstr) (user : jsval) : jsval :=
  VObj [(js "baseUrl", VStr base); (js "token", VStr token); (js "user", user)].

Definition readKnownAccounts (raw : option jstr) : list jstr :=
  match parse_json (default (js "[]") raw) with
  | Some (VArr items) => filter_map as_string items
  | _ => []
  end.
Definition remember (name : jstr) (known : list jstr) : list jstr :=
  take 12 (name :: List.filter (fun n => negb (seqb n name)) known).
