(* ===== verification/MatchboxSession.v ===== *)
(** * The student's session ([apps/forge/src/matchboxSession.tsx])

    [MatchboxSessionGate]: its React state is [View], its two refs, the client
    objects it shares between closures ([apis], one per [new CinderApi]), the
    queue of storage operations of [session.ts] and what is stored ([disk]).
    A handler that awaits is cut at each [await]: what its continuation will
    need is kept in [waits] (an answer of the network) or next to the queued
    storage operation, and runs on whatever the state has become.  Closures see
    the state of the last render, which is the state they are called in.

    [requests] and [issued] record what was sent and which Host answered a
    sign-in with which token; nothing reads them.  Stored sessions are JSON values here: the
    text in between is [JSON.stringify]'s, read back by [parse_stringify] of
    JsValue.  The gate is the root of the app, so it is not unmounted. *)

From stdpp Require Import gmap.
From S2P Require Import Prelude JsString JsNumber Regex JsValue Locale HostAddress SessionStore SessionClient.
Local Open Scope Z_scope.

Inductive Call :=
  | CallMe | CallLogin (username password : jstr) | CallLogout | CallPassword (current next : jstr).
Record Sent := mkSent { sent_base : jstr; sent_token : option jstr; sent_call : Call }.

(** What runs when a storage operation has settled. *)
Inductive Cont :=
  | AfterRefreshSave (promise : nat) (generation : Z) (current : jsval)
  | AfterRefreshClear (promise : nat)
  | AfterInitSave
  | AfterInitClear
  | AfterLoginSave (generation : Z) (api : nat) (password token : jstr) (user : jsval) (known : list jstr)
  | AfterSwitchClear
  | AfterConnectionClear (normalized label : jstr)
  | AfterPasswordSave (generation : Z) (updated : jsval).

(** What waits for an answer. *)
Inductive Wait :=
  | WaitRefresh (promise : nat) (generation : Z) (api : nat) (base token : jstr) (user : jsval)
  | WaitInitMe (api : nat) (stored : jsval)
  | WaitProbe
  | WaitLogin (generation : Z) (api : nat) (base password : jstr) (known : list jstr)
  | WaitConnection (base : jstr) (signed_in : bool) (api : nat) (label : jstr)
  | WaitPassword (generation : Z) (base : jstr) (token : option jstr).

Inductive Reply :=
  | ReplyUser (user : jsval)
  | ReplyLogin (token : jstr) (user : jsval)
  | ReplyProbe (found : bool)
  | ReplyConnection (checked : outcome jstr jstr)
  | ReplyFailure (is_api_error offline : bool).

Record View := mkView {
  loading : bool;
  v_baseUrl : jstr;
  v_deviceLabel : jstr;
  v_api : nat;
  v_user : option jsval;
  v_token : option jstr;
  v_online : bool;
  temporaryPassword : jstr;
  connectionOpen : bool;
  knownAccounts : list jstr;
  login_busy : option Z
}.

Record Gate := mkGate {
  view : View;
  sessionGeneration : Z;
  refreshInFlight : option (Z * nat);
  promises : nat;
  apis : list CinderApi;
  waits : list Wait;
  queue : list (StoreOp * Cont);
  disk : option jsval;
  requests : list Sent;
  issued : list (jstr * jstr)
}.

Definition set_loading (x : bool) (w : View) : View := mkView x (v_baseUrl w) (v_deviceLabel w) (v_api w) (v_user w) (v_token w) (v_online w) (temporaryPassword w) (connectionOpen w) (knownAccounts w) (login_busy w).
Definition set_v_baseUrl (x : jstr) (w : View) : View := mkView (loading w) x (v_deviceLabel w) (v_api w) (v_user w) (v_token w) (v_online w) (temporaryPassword w) (connectionOpen w) (knownAccounts w) (login_busy w).
Definition set_v_deviceLabel (x : jstr) (w : View) : View := mkView (loading w) (v_baseUrl w) x (v_api w) (v_user w) (v_token w) (v_online w) (temporaryPassword w) (connectionOpen w) (knownAccounts w) (login_busy w).
Definition set_v_api (x : nat) (w : View) : View := mkView (loading w) (v_baseUrl w) (v_deviceLabel w) x (v_user w) (v_token w) (v_online w) (temporaryPassword w) (connectionOpen w) (knownAccounts w) (login_busy w).
Definition set_v_user (x : option jsval) (w : View) : View := mkView (loading w) (v_baseUrl w) (v_deviceLabel w) (v_api w) x (v_token w) (v_online w) (temporaryPassword w) (connectionOpen w) (knownAccounts w) (login_busy w).
Definition set_v_token (x : option jstr) (w : View) : View := mkView (loading w) (v_baseUrl w) (v_deviceLabel w) (v_api w) (v_user w) x (v_online w) (temporaryPassword w) (connectionOpen w) (knownAccounts w) (login_busy w).
Definition set_v_online (x : bool) (w : View) : View := mkView (loading w) (v_baseUrl w) (v_deviceLabel w) (v_api w) (v_user w) (v_token w) x (temporaryPassword w) (connectionOpen w) (knownAccounts w) (login_busy w).
Definition set_temporaryPassword (x : jstr) (w : View) : View := mkView (loading w) (v_baseUrl w) (v_deviceLabel w) (v_api w) (v_user w) (v_token w) (v_online w) x (connectionOpen w) (knownAccounts w) (login_busy w).
Definition set_connectionOpen (x : bool) (w : View) : View := mkView (loading w) (v_baseUrl w) (v_deviceLabel w) (v_api w) (v_user w) (v_token w) (v_online w) (temporaryPassword w) x (knownAccounts w) (login_busy w).
Definition set_knownAccounts (x : list jstr) (w : View) : View := mkView (loading w) (v_baseUrl w) (v_deviceLabel w) (v_api w) (v_user w) (v_token w) (v_online w) (temporaryPassword w) (connectionOpen w) x (login_busy w).
Definition set_login_busy (x : option Z) (w : View) : View := mkView (loading w) (v_baseUrl w) (v_deviceLabel w) (v_api w) (v_user w) (v_token w) (v_online w) (temporaryPassword w) (connectionOpen w) (knownAccounts w) x.
Definition set_view (x : View) (g : Gate) : Gate := mkGate x (sessionGeneration g) (refreshInFlight g) (promises g) (apis g) (waits g) (queue g) (disk g) (requests g) (issued g).
Definition set_sessionGeneration (x : Z) (g : Gate) : Gate := mkGate (view g) x (refreshInFlight g) (promises g) (apis g) (waits g) (queue g) (disk g) (requests g) (issued g).
Definition set_refreshInFlight (x : option (Z * nat)) (g : Gate) : Gate := mkGate (view g) (sessionGeneration g) x (promises g) (apis g) (waits g) (queue g) (disk g) (requests g) (issued g).
Definition set_promises (x : nat) (g : Gate) : Gate := mkGate (view g) (sessionGeneration g) (refreshInFlight g) x (apis g) (waits g) (queue g) (disk g) (requests g) (issued g).
Definition set_apis (x : list CinderApi) (g : Gate) : Gate := mkGate (view g) (sessionGeneration g) (refreshInFlight g) (promises g) x (waits g) (queue g) (disk g) (requests g) (issued g).
Definition set_waits (x : list Wait) (g : Gate) : Gate := mkGate (view g) (sessionGeneration g) (refreshInFlight g) (promises g) (apis g) x (queue g) (disk g) (requests g) (issued g).
Definition set_queue (x : list (StoreOp * Cont)) (g : Gate) : Gate := mkGate (view g) (sessionGeneration g) (refreshInFlight g) (promises g) (apis g) (waits g) x (disk g) (requests g) (issued g).
Definition set_disk (x : option jsval) (g : Gate) : Gate := mkGate (view g) (sessionGeneration g) (refreshInFlight g) (promises g) (apis g) (waits g) (queue g) x (requests g) (issued g).
Definition set_requests (x : list Sent) (g : Gate) : Gate := mkGate (view g) (sessionGeneration g) (refreshInFlight g) (promises g) (apis g) (waits g) (queue g) (disk g) x (issued g).
Definition set_issued (x : list (jstr * jstr)) (g : Gate) : Gate := mkGate (view g) (sessionGeneration g) (refreshInFlight g) (promises g) (apis g) (waits g) (queue g) (disk g) (requests g) x.

Definition upd (f : View -> View) (g : Gate) : Gate := set_view (f (view g)) g.

Definition DEV_HOST : jstr := js "http://127.0.0.1:7373".
Definition SESSION_KEYS : list jstr := [js "cinder.matchbox.session"; js "cinder.student.session"].

Definition username (u : jsval) : jstr := to_string (get (js "username") u).
Definition must_change_password (u : jsval) : bool := truthy_val (get (js "must_change_password") u).

(** [{ ...stored, user }] *)
Definition with_user (stored user : jsval) : jsval :=
  match stored with VObj ps => VObj (set_prop (js "user") user ps) | _ => VObj [(js "user", user)] end.

Definition valid_session (v : jsval) : bool :=
  is_string (get (js "baseUrl") v) && is_string (get (js "token") v) &&
  match get (js "role") (get (js "user") v) with VStr r => seqb r (js "student") | _ => false end.
Definition text_of (v : jsval) : jstr := default [] (as_string v).

(** The text read from storage: [None] where it is cleared. *)
Definition readStoredSession (raw : option jstr) : option jsval :=
  match raw with
  | None | Some [] => None
  | Some text => match parse_json text with
                 | Some v => if valid_session v then Some v else None
                 | None => None
                 end
  end.

Lemma stored_text_read base token user :
  json_ok user -> get (js "role") user = VStr (js "student") ->
  readStoredSession (Some (stringify (session_value base token user))) = Some (session_value base token user).
Proof.
  intros Hok Hr. unfold readStoredSession.
  assert (Hne : exists c s, stringify (session_value base token user) = c :: s) by (do 2 eexists; reflexivity).
  destruct Hne as (c & s & E). rewrite E, <- E, parse_stringify.
  - change (valid_session (session_value base token user)) with
      (match get (js "role") user with VStr r => seqb r (js "student") | _ => false end).
    by rewrite Hr, seqb_refl.
  - constructor; [|repeat constructor; done].
    repeat (apply NoDup_cons; split; [by apply (bool_decide_unpack _); vm_compute|]); apply NoDup_nil_2.
Qed.

Definition setToken_api (i : nat) (t : option jstr) (g : Gate) : Gate :=
  set_apis (alter (fun a => mkApi (api_base a) t) i (apis g)) g.
Definition send (i : nat) (c : Call) (g : Gate) : Gate :=
  match apis g !! i with
  | Some a => set_requests (requests g ++ [mkSent (api_base a) (bearer a) c]) g
  | None => g
  end.
Definition issue (i : nat) (t : jstr) (g : Gate) : Gate :=
  match apis g !! i with
  | Some a => set_issued ((api_base a, t) :: issued g) g
  | None => g
  end.
Definition await (w : Wait) (g : Gate) : Gate := set_waits (waits g ++ [w]) g.
Definition store_op (o : StoreOp) (k : Cont) (g : Gate) : Gate := set_queue (queue g ++ [(o, k)]) g.
Definition is_current (generation : Z) (g : Gate) : bool :=
  isCurrentMatchboxSessionGeneration generation (sessionGeneration g).
Definition bump (g : Gate) : Gate := set_refreshInFlight None (set_sessionGeneration (sessionGeneration g + 1) g).

(** The steps of every sign-out, in the order of the code. *)
Definition sign_out (api : nat) (k : Cont) (g : Gate) : Gate :=
  store_op ClearOp k
    (upd (set_temporaryPassword [])
      (upd (set_v_user None) (upd (set_v_token None) (setToken_api api None (bump g))))).

(** ** Refresh *)

Definition settle (promise : nat) (g : Gate) : Gate :=
  match refreshInFlight g with
  | Some (_, p) => if (p =? promise)%nat then set_refreshInFlight None g else g
  | None => g
  end.

Definition refresh_start (g : Gate) : Gate :=
  let generation := sessionGeneration g in
  let v := view g in
  if match refreshInFlight g with Some (gen, _) => gen =? generation | None => false end then g
  else
    match v_user v, v_token v with
    | Some user, Some token =>
      if negb (truthy token) then g
      else
        let p := promises g in
        set_promises (S p) (set_refreshInFlight (Some (generation, p))
          (await (WaitRefresh p generation (v_api v) (v_baseUrl v) token user) (send (v_api v) CallMe g)))
    | _, _ => g
    end.

Definition refresh_finish (p : nat) (generation : Z) (api : nat) (base token : jstr) (user : jsval)
    (r : Reply) (g : Gate) : Gate :=
  match r with
  | ReplyUser current =>
    if negb (is_current generation g) then settle p g
    else if negb (seqb (stringify current) (stringify user))
    then store_op (SaveOp (session_value base token current)) (AfterRefreshSave p generation current) g
    else settle p (upd (set_v_online true) g)
  | ReplyFailure is_api offline =>
    if negb (is_current generation g) then settle p g
    else if is_api && offline then settle p (upd (set_v_online false) g)
    else sign_out api (AfterRefreshClear p) g
  | _ => g
  end.

Definition refresh_saved (p : nat) (generation : Z) (current : jsval) (g : Gate) : Gate :=
  if negb (is_current generation g) then settle p g
  else settle p (upd (set_v_online true) (upd (set_v_user (Some current)) g)).

(** ** Start-up *)

(** Up to the first request.  Nothing else can run before it, so the storage
    operations it awaits are not queued behind others; [normalize] is
    [normalizeHostAddress]. *)
Definition mount (config_url config_label : option jstr) (normalize : jstr -> option jstr)
    (stored0 : option jsval) (known : list jstr) : Gate :=
  let stored := match stored0 with Some v => if valid_session v then Some v else None | None => None end in
  let fallback := default DEV_HOST config_url in
  let first := match stored with Some v => text_of (get (js "baseUrl") v) | None => fallback end in
  let '(stored, nextUrl) :=
    match normalize first with
    | Some u => (stored, u)
    | None => (None, default DEV_HOST (normalize fallback))
    end in
  let token := (fun v => text_of (get (js "token") v)) <$> stored in
  let v := mkView true nextUrl (default (js "Student device") config_label) 1
             ((fun v => get (js "user") v) <$> stored) token false [] false known None in
  let g := mkGate v 0 None 0 [new_api DEV_HOST None; new_api nextUrl token] [] [] stored [] [] in
  match stored with
  | Some s => await (WaitInitMe 1 s) (send 1 CallMe g)
  | None => await WaitProbe g
  end.

Definition init_finish (api : nat) (stored : jsval) (r : Reply) (g : Gate) : Gate :=
  match r with
  | ReplyUser current =>
    store_op (SaveOp (with_user stored current)) AfterInitSave
      (upd (set_v_online true) (upd (set_v_user (Some current)) g))
  | ReplyFailure true false => store_op ClearOp AfterInitClear (setToken_api api None (bump g))
  | ReplyFailure _ _ => upd (set_loading false) (upd (set_v_online false) g)
  | _ => g
  end.
Definition init_cleared (g : Gate) : Gate :=
  upd (set_loading false) (upd (set_v_token None) (upd (set_v_user None) g)).
Definition probe_finish (r : Reply) (g : Gate) : Gate :=
  match r with
  | ReplyProbe found => upd (set_loading false) (upd (set_v_online found) g)
  | _ => g
  end.

(** ** Signing in *)

(** [LoginScreen] disables its button while one attempt is under way. *)
Definition login_done (generation : Z) (g : Gate) : Gate :=
  if bool_decide (login_busy (view g) = Some generation) then upd (set_login_busy None) g else g.

Definition login_start (name password : jstr) (g : Gate) : Gate :=
  let g := bump g in
  let v := view g in
  let generation := sessionGeneration g in
  await (WaitLogin generation (v_api v) (v_baseUrl v) password (knownAccounts v))
    (upd (set_login_busy (Some generation)) (send (v_api v) (CallLogin name password) g)).

Definition login_finish (generation : Z) (api : nat) (base password : jstr) (known : list jstr)
    (r : Reply) (g : Gate) : Gate :=
  match r with
  | ReplyLogin token user =>
    let g := issue api token g in
    if negb (is_current generation g) then login_done generation g
    else store_op (SaveOp (session_value base token user))
           (AfterLoginSave generation api password token user known) g
  | ReplyFailure _ _ => login_done generation g
  | _ => g
  end.

Definition login_saved (generation : Z) (api : nat) (password token : jstr) (user : jsval)
    (known : list jstr) (saved : bool) (g : Gate) : Gate :=
  let g' := login_done generation g in
  if negb (is_current generation g) then g'
  else if negb saved then g'
  else
    upd (fun v => set_knownAccounts (remember (username user) known) (set_v_online true
           (set_temporaryPassword (if must_change_password user then password else [])
             (set_v_user (Some user) (set_v_token (Some token) v)))))
      (setToken_api api (Some token) g').

(** ** Leaving *)

Definition switchAccount (g : Gate) : Gate :=
  let v := view g in
  sign_out (v_api v) AfterSwitchClear (if v_online v then send (v_api v) CallLogout g else g).

(** The checks before a new address is used; [validate], [forget_ok] and
    [save_ok] are the native commands. *)
Definition checkConnection `{Locale, UrlParser} (tauri : bool) (validate : jstr -> outcome jstr jstr)
    (forget_ok probe save_ok : bool) (nextUrl : jstr) : outcome jstr jstr :=
  match HostAddress.Student.normalizeMatchboxHostAddress nextUrl with
  | Throw e => Throw e
  | Ok n =>
    match (if tauri then validate n else Ok n) with
    | Throw e => Throw e
    | Ok n =>
      if tauri && negb forget_ok then Throw (js "forget_host_identity")
      else if negb probe then Throw (js "No Cinder Host answered at that address.")
      else if tauri && negb save_ok then Throw (js "save_config")
      else Ok n
    end
  end.

Definition saveConnection_start (nextLabel : jstr) (g : Gate) : Gate :=
  let v := view g in
  await (WaitConnection (v_baseUrl v) (match v_user v with Some _ => v_online v | None => false end) (v_api v)
           (or_str (trim nextLabel) (js "Student device"))) g.

Definition saveConnection_finish (base : jstr) (signed_in : bool) (api : nat) (label : jstr)
    (r : Reply) (g : Gate) : Gate :=
  match r with
  | ReplyConnection (Ok normalized) =>
    if seqb normalized base
    then upd (fun v => set_connectionOpen false (set_v_online true (set_v_deviceLabel label v))) g
    else
      let g := upd (fun v => set_login_busy None (set_loading true v)) g in
      sign_out api (AfterConnectionClear normalized label) (if signed_in then send api CallLogout g else g)
  | _ => g
  end.

Definition connection_cleared (normalized label : jstr) (g : Gate) : Gate :=
  let i := length (apis g) in
  upd (fun v => set_loading false (set_connectionOpen false (set_v_online true
         (set_v_api i (set_v_deviceLabel label (set_v_baseUrl normalized v))))))
    (set_apis (apis g ++ [new_api normalized None]) g).

(** ** Changing the password *)

Definition password_start (current next : jstr) (g : Gate) : Gate :=
  let v := view g in
  await (WaitPassword (sessionGeneration g) (v_baseUrl v) (v_token v)) (send (v_api v) (CallPassword current next) g).
Definition password_saved (generation : Z) (updated : jsval) (g : Gate) : Gate :=
  if negb (is_current generation g) then g
  else upd (set_temporaryPassword []) (upd (set_v_user (Some updated)) g).
Definition password_finish (generation : Z) (base : jstr) (token : option jstr) (r : Reply) (g : Gate) : Gate :=
  match r with
  | ReplyUser updated =>
    if negb (is_current generation g) then g
    else
      match token with
      | Some ((_ :: _) as t) =>
        store_op (SaveOp (session_value base t updated)) (AfterPasswordSave generation updated) g
      | _ => password_saved generation updated g
      end
  | _ => g
  end.

(** ** Events *)

Inductive Event :=
  | RefreshTick
  | SubmitLogin (name password : jstr)
  | SwitchAccount
  | OpenConnection
  | CloseConnection
  | SubmitConnection (label : jstr)
  | SubmitPassword (current next : jstr)
  | Answer (i : nat) (r : Reply)
  | RunStore (works : bool).

Definition answer (w : Wait) (r : Reply) (g : Gate) : Gate :=
  match w with
  | WaitRefresh p gen api base token user => refresh_finish p gen api base token user r g
  | WaitInitMe api stored => init_finish api stored r g
  | WaitProbe => probe_finish r g
  | WaitLogin gen api base password known => login_finish gen api base password known r g
  | WaitConnection base signed_in api label => saveConnection_finish base signed_in api label r g
  | WaitPassword gen base token => password_finish gen base token r g
  end.

Definition resume (k : Cont) (works : bool) (g : Gate) : Gate :=
  match k with
  | AfterRefreshSave p gen current => refresh_saved p gen current g
  | AfterRefreshClear p => settle p g
  | AfterInitSave => upd (set_loading false) g
  | AfterInitClear => init_cleared g
  | AfterLoginSave gen api password token user known => login_saved gen api password token user known works g
  | AfterSwitchClear => g
  | AfterConnectionClear normalized label => connection_cleared normalized label g
  | AfterPasswordSave gen updated => password_saved gen updated g
  end.

(** Where an event can happen, what it does.  While the gate loads it shows no
    form, and the first refresh is due twenty seconds after a session was read
    at start-up, when the four seconds of its first request are long over. *)
Definition handle (e : Event) (g : Gate) : option Gate :=
  let v := view g in
  match e with
  | Answer i r =>
    match waits g !! i with
    | Some w => Some (answer w r (set_waits (delete i (waits g)) g))
    | None => None
    end
  | RunStore works =>
    match queue g with
    | (o, k) :: q => Some (resume k works (set_disk (perform o works (disk g)) (set_queue q g)))
    | [] => None
    end
  | _ =>
    if loading v then None
    else
      match e with
      | RefreshTick => Some (refresh_start g)
      | SubmitLogin name password =>
        match v_user v, login_busy v with
        | None, None => if truthy (trim name) && truthy password
                        then Some (login_start (trim name) password g) else None
        | _, _ => None
        end
      | SwitchAccount => match v_user v with Some _ => Some (switchAccount g) | None => None end
      | OpenConnection => Some (upd (set_connectionOpen true) g)
      | CloseConnection => Some (upd (set_connectionOpen false) g)
      | SubmitConnection label => if connectionOpen v then Some (saveConnection_start label g) else None
      | SubmitPassword current next =>
        match v_user v with
        | Some u => if must_change_password u then Some (password_start current next g) else None
        | None => None
        end
      | Answer _ _ | RunStore _ => None
      end
  end.

(** ** Runs *)

(** Clearing the store works; saving may fail.  A clearing that fails is passed
    over by [clearSessionValue], see [failed_clear_signs_in_again]. *)
Definition clear_works (e : Event) (g : Gate) : Prop :=
  match e, queue g with RunStore false, (ClearOp, _) :: _ => False | _, _ => True end.

Inductive step : Gate -> Gate -> Prop :=
  | step_event e g g' : clear_works e g -> handle e g = Some g' -> step g g'.
Definition reachable : Gate -> Gate -> Prop := rtc step.

(** The states of a run of events. *)
Fixpoint run (es : list Event) (g : Gate) : option Gate :=
  match es with
  | [] => Some g
  | e :: es' => match handle e g with Some g' => run es' g' | None => None end
  end.

(** No clearing of the store failed in a run. *)
Fixpoint clears_work (es : list Event) (g : Gate) : Prop :=
  match es with
  | [] => True
  | e :: es' => clear_works e g /\ match handle e g with Some g' => clears_work es' g' | None => True end
  end.
Lemma run_reachable es g g' : clears_work es g -> run es g = Some g' -> reachable g g'.
Proof.
  revert g. induction es as [|e es IH]; intros g; cbn [run clears_work].
  - intros _ Hr. apply (inj Some) in Hr as <-. apply rtc_refl.
  - intros [He Hes]. destruct (handle e g) as [g1|] eqn:Hh; [|done]. intros Hr.
    eapply rtc_l; [|by apply IH]. by apply (step_event e).
Qed.

Module GateFacts.

(** What may be stored once the queue has drained, whichever saves fail. *)
Fixpoint final_values (d : option jsval) (q : list (StoreOp * Cont)) : list (option jsval) :=
  match q with
  | [] => [d]
  | (SaveOp v, _) :: q' => final_values (Some v) q' ++ final_values d q'
  | (ClearOp, _) :: q' => final_values None q'
  end.

Lemma final_values_snoc_save v k d q x :
  x ∈ final_values d (q ++ [(SaveOp v, k)]) -> x = Some v \/ x ∈ final_values d q.
Proof.
  revert d. induction q as [|[[w|] k'] q IH]; intros d; cbn; rewrite ?elem_of_app.
  - rewrite !elem_of_cons. tauto.
  - intros [Hx|Hx]; apply IH in Hx; tauto.
  - apply IH.
Qed.
Lemma final_values_snoc_clear k d q x : x ∈ final_values d (q ++ [(ClearOp, k)]) -> x = None.
Proof.
  revert d. induction q as [|[[w|] k'] q IH]; intros d; cbn; rewrite ?elem_of_app.
  - by intros ?%list_elem_of_singleton.
  - intros [Hx|Hx]; by apply IH in Hx.
  - apply IH.
Qed.
Lemma final_values_run o k works d q x :
  (works = false -> o = ClearOp -> False) ->
  x ∈ final_values (perform o works d) q -> x ∈ final_values d ((o, k) :: q).
Proof.
  intros Hc. destruct o as [v|], works; cbn; rewrite ?elem_of_app; try tauto; by destruct Hc.
Qed.

(** *** What a continuation counts on *)

Inductive Claim :=
  | Free
  | Signed (generation : Z) (token : option jstr)
  | SigningIn (generation : Z)
  | StartUp.

Definition wait_claim (w : Wait) : Claim :=
  match w with
  | WaitRefresh _ gen _ _ token _ => Signed gen (Some token)
  | WaitInitMe _ _ | WaitProbe => StartUp
  | WaitLogin gen _ _ _ _ => SigningIn gen
  | WaitConnection _ _ _ _ => Free
  | WaitPassword gen _ token => Signed gen token
  end.
Definition cont_claim (k : Cont) : Claim :=
  match k with
  | AfterRefreshSave _ gen _ | AfterPasswordSave gen _ => Signed gen None
  | AfterLoginSave gen _ _ _ _ _ => SigningIn gen
  | AfterInitSave | AfterInitClear => StartUp
  | AfterRefreshClear _ | AfterSwitchClear | AfterConnectionClear _ _ => Free
  end.
Definition claims (g : Gate) : list Claim := (wait_claim <$> waits g) ++ (cont_claim ∘ snd <$> queue g).

Definition claim_ok (g : Gate) (c : Claim) : Prop :=
  match c with
  | Free => True
  | Signed gen token => gen <= sessionGeneration g /\
      (gen = sessionGeneration g -> v_user (view g) <> None /\
         forall t, token = Some t -> v_token (view g) = Some t)
  | SigningIn gen => gen <= sessionGeneration g /\
      (gen = sessionGeneration g -> v_user (view g) = None /\ login_busy (view g) = Some gen)
  | StartUp => False
  end.
Definition login_gen (c : Claim) : option Z := match c with SigningIn gen => Some gen | _ => None end.

(** The storage operations but for the save of a sign-in under way. *)
Definition not_login (gen : Z) (p : StoreOp * Cont) : bool :=
  negb (bool_decide (login_gen (cont_claim (snd p)) = Some gen)).
Definition others (g : Gate) : list (StoreOp * Cont) := List.filter (not_login (sessionGeneration g)) (queue g).
(** A stored session is the one signed in. *)
Definition stored_ok (g : Gate) (d : option jsval) : Prop :=
  match d with
  | Some s => exists t, v_token (view g) = Some t /\ get (js "token") s = VStr t
  | None => True
  end.
Definition op_ok (p : StoreOp * Cont) : Prop :=
  match p with
  | (o, AfterLoginSave _ _ _ token _ _) => exists s, o = SaveOp s /\ get (js "token") s = VStr token
  | _ => True
  end.

Record Inv (g : Gate) : Prop := {
  inv_user : v_user (view g) = None <-> v_token (view g) = None;
  inv_claims : Forall (claim_ok g) (claims g);
  inv_ops : Forall op_ok (queue g);
  inv_logins : NoDup (filter_map login_gen (claims g));
  inv_disk : Forall (stored_ok g) (final_values (disk g) (others g))
}.

(** *** Updates that keep the invariant *)

(** What the invariant depends on. *)
Definition core (g : Gate) :=
  (sessionGeneration g, v_user (view g), v_token (view g), login_busy (view g), waits g, queue g, disk g).

Lemma inv_core g g' : core g = core g' -> Inv g -> Inv g'.
Proof.
  unfold core. intros E [H1 H2 H3 H4 H5]. simplify_eq.
  assert (Ec : claims g = claims g') by (unfold claims; congruence).
  split.
  - congruence.
  - rewrite <- Ec. eapply Forall_impl; [exact H2|]. intros [|? ?|?|]; cbn; try done; intros [? Hx]; split; try lia; intros Hy.
    + destruct Hx as [? Ht]; [congruence|]. split; [congruence|]. intros t0 Ht0. rewrite <- (Ht _ Ht0). congruence.
    + destruct Hx; [congruence|]. split; congruence.
  - congruence.
  - by rewrite <- Ec.
  - assert (Eo : others g = others g') by (unfold others; congruence). rewrite <- Eo.
    replace (disk g') with (disk g). eapply Forall_impl; [exact H5|].
    intros [s|]; [|done]. intros (t & ? & ?). exists t. split; [congruence|done].
Qed.

Lemma core_send i c g : core (send i c g) = core g.
Proof. unfold send. by destruct (apis g !! i). Qed.
Lemma core_issue i c g : core (issue i c g) = core g.
Proof. unfold issue. by destruct (apis g !! i). Qed.
Lemma core_settle p g : core (settle p g) = core g.
Proof. unfold settle. destruct (refreshInFlight g) as [[? ?]|]; [|done]. by destruct (_ =? _)%nat. Qed.

Lemma claims_perm_wait g i w : waits g !! i = Some w ->
  claims g ≡ₚ wait_claim w :: claims (set_waits (delete i (waits g)) g).
Proof.
  intros Hi. unfold claims. cbn. apply delete_Permutation in Hi. rewrite Hi at 1. done.
Qed.

(** Taking an answered wait out. *)
Lemma inv_take g i w : waits g !! i = Some w -> Inv g ->
  Inv (set_waits (delete i (waits g)) g) /\ claim_ok g (wait_claim w) /\
  forall gen, wait_claim w = SigningIn gen ->
    gen ∉ filter_map login_gen (claims (set_waits (delete i (waits g)) g)).
Proof.
  intros Hi [H1 H2 H3 H4 H5]. pose proof (claims_perm_wait g i w Hi) as Hp.
  rewrite Hp in H2. apply Forall_cons in H2 as [Hw H2].
  rewrite (filter_map_perm _ _ _ Hp) in H4. cbn in H4. split; [split; try done|split; [done|]].
  - destruct (login_gen (wait_claim w)); [by apply NoDup_cons in H4 as [? ?]|done].
  - intros gen Hg. rewrite Hg in H4. cbn in H4. by apply NoDup_cons in H4 as [? ?].
Qed.

Lemma inv_await g w : Inv g -> claim_ok g (wait_claim w) -> login_gen (wait_claim w) = None -> Inv (await w g).
Proof.
  intros [H1 H2 H3 H4 H5] Hw Hl.
  assert (Hp : claims (await w g) ≡ₚ wait_claim w :: claims g).
  { unfold claims, await. cbn. rewrite fmap_app, <- app_assoc. cbn. by rewrite <- Permutation_middle. }
  split; try done.
  - rewrite Hp. by constructor.
  - rewrite (filter_map_perm _ _ _ Hp). cbn. by rewrite Hl.
Qed.

Lemma claims_store o k g : claims (store_op o k g) = claims g ++ [cont_claim k].
Proof. unfold claims, store_op. cbn. rewrite fmap_app, app_assoc. done. Qed.

Lemma others_store o k g :
  others (store_op o k g) = others g ++ (if not_login (sessionGeneration g) (o, k) then [(o, k)] else []).
Proof. unfold others, store_op. cbn. by rewrite List.filter_app. Qed.

(** Queuing a save: of the session signed in, or of the one being signed in. *)
Lemma inv_save g s t k :
  Inv g -> claim_ok g (cont_claim k) -> op_ok (SaveOp s, k) ->
  (forall gen, login_gen (cont_claim k) = Some gen ->
     gen = sessionGeneration g /\ gen ∉ filter_map login_gen (claims g)) ->
  get (js "token") s = VStr t -> (login_gen (cont_claim k) = None -> v_token (view g) = Some t) ->
  Inv (store_op (SaveOp s) k g).
Proof.
  intros [H1 H2 H3 H4 H5] Hk Hop Hfresh Ht Ho. split; [done| | | |].
  - rewrite claims_store, Forall_app. split; [done|]. by repeat constructor.
  - cbn. rewrite Forall_app. split; [done|]. by repeat constructor.
  - rewrite claims_store, filter_map_app. cbn. destruct (login_gen (cont_claim k)) as [gen|]; [|by rewrite app_nil_r].
    destruct (Hfresh gen eq_refl) as [_ Hf].
    apply NoDup_app. split; [done|]. split; [|by apply NoDup_singleton].
    by intros x Hx ->%list_elem_of_singleton.
  - rewrite others_store. unfold not_login. cbn [snd]. case_bool_decide as Hl; cbn [negb]; [by rewrite app_nil_r|].
    apply Forall_forall. intros x [->|Hx]%final_values_snoc_save.
    + exists t. split; [|done]. apply Ho. destruct (login_gen (cont_claim k)) as [gen|] eqn:Eg; [|done].
      destruct (Hfresh gen eq_refl) as [-> _]. done.
    + rewrite Forall_forall in H5. exact (H5 x Hx).
Qed.

(** A claim no younger than the present generation. *)
Definition claim_le (g : Gate) (c : Claim) : Prop :=
  match c with
  | Free => True
  | Signed gen _ | SigningIn gen => gen <= sessionGeneration g
  | StartUp => False
  end.
Lemma claim_ok_le g c : claim_ok g c -> claim_le g c.
Proof. destruct c; cbn; tauto. Qed.

(** A new generation outdates every claim. *)
Lemma claim_bump g g' c : claim_le g c -> sessionGeneration g' = sessionGeneration g + 1 -> claim_ok g' c.
Proof. destruct c; cbn; try done; intros ? ->; split; try lia; intros; lia. Qed.

Lemma inv_sign_out api k g :
  Forall (claim_le g) (claims g) -> Forall op_ok (queue g) -> NoDup (filter_map login_gen (claims g)) ->
  cont_claim k = Free -> Inv (sign_out api k g).
Proof.
  intros H2 H3 H4 Hk. unfold sign_out. split; [done| | | |].
  - rewrite claims_store, Forall_app. split; [|rewrite Hk; by repeat constructor].
    eapply Forall_impl; [exact H2|]. intros c Hc. by apply (claim_bump g).
  - cbn. rewrite Forall_app. split; [done|]. repeat constructor. by destruct k.
  - rewrite claims_store, filter_map_app, Hk. by rewrite app_nil_r.
  - rewrite others_store. unfold not_login. cbn [snd]. rewrite Hk. cbn.
    apply Forall_forall. by intros x ->%final_values_snoc_clear.
Qed.
Lemma inv_leave api k g : Inv g -> cont_claim k = Free -> Inv (sign_out api k g).
Proof.
  intros [H1 H2 H3 H4 H5]. apply inv_sign_out; [|done..].
  eapply Forall_impl; [exact H2|apply claim_ok_le].
Qed.

Lemma inv_set_user g u : Inv g -> v_user (view g) <> None -> Inv (upd (set_v_user (Some u)) g).
Proof.
  intros [H1 H2 H3 H4 H5] Hu. split; try done.
  - cbn. split; [done|]. by intros ?%H1.
  - eapply Forall_impl; [exact H2|]. intros [|gen t|gen|]; cbn; try done; intros [? Hx]; split; try done; intros Hg.
    + by destruct (Hx Hg).
    + by destruct (Hx Hg).
Qed.

Lemma inv_login_done g gen : Inv g -> gen ∉ filter_map login_gen (claims g) -> Inv (login_done gen g).
Proof.
  intros HI Hf. unfold login_done. case_bool_decide as Hb; [|done]. destruct HI as [H1 H2 H3 H4 H5].
  split; try done. apply Forall_forall. intros c Hc. rewrite Forall_forall in H2. specialize (H2 c Hc).
  destruct c as [|g0 t|g0|]; cbn in *; try done. destruct H2 as [? Hx]. split; [done|]. intros Hg.
  destruct (Hx Hg) as [_ Hb']. rewrite Hb' in Hb. injection Hb as ->. destruct Hf.
  apply elem_of_filter_map. by exists (SigningIn gen).
Qed.

Lemma login_gen_inv c gen : login_gen c = Some gen -> c = SigningIn gen.
Proof. destruct c; cbn; congruence. Qed.

Lemma others_bump g g' : Forall (claim_ok g) (claims g) -> v_user (view g) = None -> login_busy (view g) = None ->
  queue g' = queue g -> sessionGeneration g' = sessionGeneration g + 1 -> others g' = others g.
Proof.
  intros Hc Hu Hb Hq Hg. unfold others. rewrite Hq. clear Hq. unfold claims in Hc. apply Forall_app in Hc as [_ Hc].
  induction (queue g) as [|[o k] q IH]; [done|]. cbn in Hc. apply Forall_cons in Hc as [Hk Hc].
  cbn [List.filter]. rewrite (IH Hc). unfold not_login. cbn [snd].
  destruct (login_gen (cont_claim k)) as [gen|] eqn:E; [|done].
  apply login_gen_inv in E. rewrite E in Hk. destruct Hk as [Hle Heq].
  assert (gen <> sessionGeneration g).
  { intros Hx. destruct (Heq Hx) as [_ Hbusy]. congruence. }
  rewrite !bool_decide_eq_false_2; [done| |]; intros [= ?]; lia.
Qed.

Lemma inv_login_start name password g :
  Inv g -> v_user (view g) = None -> login_busy (view g) = None -> Inv (login_start name password g).
Proof.
  intros [H1 H2 H3 H4 H5] Hu Hb.
  set (gen := sessionGeneration g + 1).
  set (w := WaitLogin gen (v_api (view g)) (v_baseUrl (view g)) password (knownAccounts (view g))).
  set (g1 := await w (upd (set_login_busy (Some gen)) (bump g))).
  apply (inv_core g1).
  { unfold login_start, send. cbn. by destruct (apis g !! _). }
  assert (Hp : claims g1 ≡ₚ SigningIn gen :: claims g).
  { unfold claims, g1, await. cbn. rewrite fmap_app, <- app_assoc. cbn. by rewrite <- Permutation_middle. }
  split; try done.
  - rewrite Hp. constructor; [cbn; split; [lia|done]|].
    eapply Forall_impl; [exact H2|]. intros c Hc. eapply claim_bump; [by apply claim_ok_le|done].
  - rewrite (filter_map_perm _ _ _ Hp). cbn. apply NoDup_cons. split; [|done].
    intros (c & Hc & Hl)%elem_of_filter_map. rewrite Forall_forall in H2. specialize (H2 c Hc).
    apply login_gen_inv in Hl as ->. destruct H2 as [? _]. lia.
  - rewrite (others_bump g) by done. exact H5.
Qed.

(** *** Answers *)

Lemma inv_answer w r g :
  Inv g -> claim_ok g (wait_claim w) ->
  (forall gen, wait_claim w = SigningIn gen -> gen ∉ filter_map login_gen (claims g)) ->
  Inv (answer w r g).
Proof.
  intros HI Hw Hf. destruct w as [p gen api base token user|api stored| |gen api base password known
    |base signed_in api label|gen base token]; cbn [answer]; try (by destruct Hw).
  - destruct Hw as [_ Hw]. destruct r as [current| | | |is_api offline]; try exact HI; cbn [refresh_finish].
    + unfold is_current, isCurrentMatchboxSessionGeneration.
      destruct (Z.eqb_spec gen (sessionGeneration g)) as [Hg|]; cbn [negb].
      2:{ eapply inv_core; [symmetry; apply core_settle|done]. }
      destruct (Hw Hg) as [Hu Ht]. destruct (negb _).
      * eapply (inv_save _ _ token); try done; [|by intros _; apply Ht].
        cbn. split; [lia|]. by intros _.
      * eapply inv_core; [symmetry; apply core_settle|]. by apply (inv_core g).
    + destruct (negb _); [eapply inv_core; [symmetry; apply core_settle|done]|].
      destruct (_ && _); [|by apply inv_leave].
      eapply inv_core; [symmetry; apply core_settle|]. by apply (inv_core g).
  - specialize (Hf gen eq_refl). destruct Hw as [_ Hw].
    destruct r as [|token user| | |]; try exact HI; cbn [login_finish].
    + set (g1 := issue api token g). pose proof (core_issue api token g) as Hc. fold g1 in Hc.
      assert (HI1 : Inv g1) by (by eapply inv_core; [symmetry; exact Hc|]).
      assert (Hcl : claims g1 = claims g) by (unfold core in Hc; unfold claims; simplify_eq; congruence).
      unfold is_current, isCurrentMatchboxSessionGeneration.
      destruct (Z.eqb_spec gen (sessionGeneration g1)) as [Hg|]; cbn [negb].
      2:{ apply inv_login_done; [done|]. by rewrite Hcl. }
      assert (Hg0 : gen = sessionGeneration g) by (unfold core in Hc; simplify_eq; congruence).
      destruct (Hw Hg0) as [Hu Hb].
      assert (v_user (view g1) = None /\ login_busy (view g1) = Some gen) as [Hu1 Hb1].
      { unfold core in Hc. simplify_eq. split; congruence. }
      eapply (inv_save _ _ token); try done.
      * cbn. split; [lia|done].
      * by eexists.
      * intros ? [= <-]. by rewrite Hcl.
    + by apply inv_login_done.
  - destruct r as [| | |[n|e]|]; try exact HI. cbn [saveConnection_finish].
    destruct (seqb n base); [by apply (inv_core g)|].
    destruct HI as [H1 H2 H3 H4 H5].
    set (g1 := upd _ g). set (g2 := if signed_in then _ else _).
    assert (Hc : core g2 = core g1) by (unfold g2; destruct signed_in; [apply core_send|done]).
    assert (Hcl : claims g2 = claims g) by (unfold core in Hc; unfold claims; simplify_eq; cbn in *; congruence).
    assert (Hq : queue g2 = queue g /\ sessionGeneration g2 = sessionGeneration g).
    { unfold core in Hc. simplify_eq. done. }
    destruct Hq as [Hq Hgen]. apply inv_sign_out; rewrite ?Hcl, ?Hq; try done.
    eapply Forall_impl; [exact H2|]. intros c Hc'%claim_ok_le. unfold claim_le in *. by rewrite Hgen.
  - destruct Hw as [_ Hw]. destruct r as [updated| | | |]; try exact HI. cbn [password_finish].
    unfold is_current, isCurrentMatchboxSessionGeneration.
    destruct (Z.eqb_spec gen (sessionGeneration g)) as [Hg|]; cbn [negb]; [|done].
    destruct (Hw Hg) as [Hu Ht].
    assert (Hsaved : Inv (password_saved gen updated g)).
    { unfold password_saved. destruct (negb _); [done|].
      eapply inv_core; [|apply (inv_set_user _ updated HI Hu)]. done. }
    destruct token as [[|c cs]|]; [done| |done].
    eapply (inv_save _ _ (c :: cs)); try done; [|by intros _; apply Ht]. cbn. split; [lia|by intros _].
Qed.

(** *** Storage operations *)

Definition popped (o : StoreOp) (works : bool) (q : list (StoreOp * Cont)) (g : Gate) : Gate :=
  set_disk (perform o works (disk g)) (set_queue q g).

Lemma claims_popped g o k q works : queue g = (o, k) :: q ->
  claims g ≡ₚ cont_claim k :: claims (popped o works q g).
Proof. intros Hq. unfold claims. rewrite Hq. cbn. by rewrite <- Permutation_middle. Qed.

Lemma final_values_cases d q x : x ∈ final_values d q -> x = d \/ forall d', x ∈ final_values d' q.
Proof.
  revert d. induction q as [|[[v|] k] q IH]; intros d; cbn.
  - intros ->%list_elem_of_singleton. by left.
  - rewrite elem_of_app. intros [H|H].
    + right. intros d'. rewrite elem_of_app. by left.
    + apply IH in H as [->|H]; [by left|]. right. intros d'. rewrite elem_of_app. right. apply H.
  - intros H. by right.
Qed.

(** What is left of the invariant once the head of the queue is taken off. *)
Lemma inv_pop g o k q works : queue g = (o, k) :: q -> (works = false -> o <> ClearOp) -> Inv g ->
  (not_login (sessionGeneration g) (o, k) = true -> Inv (popped o works q g)) /\
  claim_ok g (cont_claim k) /\ op_ok (o, k) /\
  (v_user (view g) = None <-> v_token (view g) = None) /\
  Forall (claim_ok g) (claims (popped o works q g)) /\ Forall op_ok q /\
  NoDup (filter_map login_gen (cont_claim k :: claims (popped o works q g))).
Proof.
  intros Hq Hworks [H1 H2 H3 H4 H5]. pose proof (claims_popped g o k q works Hq) as Hp.
  rewrite Hp in H2. apply Forall_cons in H2 as [Hk H2]. rewrite Hq in H3. apply Forall_cons in H3 as [Hop H3].
  rewrite (filter_map_perm _ _ _ Hp) in H4.
  split; [|done]. intros Hn. split; try done.
  - cbn in H4. by destruct (login_gen (cont_claim k)); [apply NoDup_cons in H4 as [_ ?]|].
  - unfold others in H5. rewrite Hq in H5. cbn [List.filter] in H5. rewrite Hn in H5.
    apply Forall_forall. intros x Hx. rewrite Forall_forall in H5. apply (H5 x).
    apply (final_values_run o k works); [|done]. intros Hw Ho. by apply Hworks.
Qed.

Lemma core_upd_same f g :
  v_user (f (view g)) = v_user (view g) -> v_token (f (view g)) = v_token (view g) ->
  login_busy (f (view g)) = login_busy (view g) -> core (upd f g) = core g.
Proof. intros H1 H2 H3. unfold core. cbn. congruence. Qed.

(** A sign-in whose save has settled. *)
Lemma inv_login_saved g o gen api password token user known q works :
  queue g = (o, AfterLoginSave gen api password token user known) :: q -> Inv g ->
  Inv (login_saved gen api password token user known works (popped o works q g)).
Proof.
  intros Hq HI. pose proof (inv_ops g HI) as Hop. rewrite Hq in Hop.
  apply Forall_cons in Hop as [(s & -> & Hs) _].
  destruct (inv_pop g (SaveOp s) _ q works Hq) as (Hpop & Hk & _ & H1 & H2 & H3 & H4); [by intros _|done|].
  cbn [cont_claim filter_map login_gen] in H4. apply NoDup_cons in H4 as [Hfresh H4].
  unfold login_saved, is_current, isCurrentMatchboxSessionGeneration.
  destruct Hk as [Hle Hk].
  change (sessionGeneration (popped _ works q g)) with (sessionGeneration g).
  destruct (Z.eqb_spec gen (sessionGeneration g)) as [Hg|Hg]; cbn [negb].
  2:{ apply inv_login_done; [|done]. apply Hpop. unfold not_login. cbn.
      rewrite bool_decide_eq_false_2; [done|]. by intros [= ?]. }
  destruct (Hk Hg) as [Hu Hb]. pose proof (proj1 H1 Hu) as Ht.
  assert (Hothers : others g = List.filter (not_login gen) q).
  { unfold others. rewrite Hq, <- Hg. cbn [List.filter]. unfold not_login at 1. cbn.
    by rewrite bool_decide_eq_true_2. }
  pose proof (inv_disk g HI) as H5. rewrite Hothers in H5.
  assert (Hnone : forall x, x ∈ final_values (disk g) (List.filter (not_login gen) q) -> x = None).
  { intros [v|] Hx; [|done]. rewrite Forall_forall in H5. destruct (H5 _ Hx) as (t & Ht' & _). congruence. }
  destruct works; cbn [negb].
  - unfold login_done. cbn [view popped]. change (view (popped _ _ _ g)) with (view g).
    rewrite Hb, bool_decide_eq_true_2 by done. split; try done.
    + apply Forall_forall. intros c Hc. rewrite Forall_forall in H2. specialize (H2 c Hc).
      destruct c as [|g0 t|g0|]; cbn in *; try done.
      * destruct H2 as [? Hx]. split; [done|]. intros Hg0. by destruct (Hx Hg0) as [[] _].
      * destruct H2 as [? Hx]. split; [done|]. intros Hg0. destruct Hfresh.
        apply elem_of_filter_map. exists (SigningIn g0). split; [exact Hc|]. cbn. congruence.
    + match goal with |- Forall (stored_ok ?X) _ =>
        assert (Ho : others X = List.filter (not_login gen) q) by (rewrite Hg; reflexivity);
        assert (Hd : disk X = Some s) by reflexivity; rewrite Ho, Hd
      end.
      apply Forall_forall. intros x [->|Hx]%final_values_cases; [by exists token|]. by rewrite (Hnone x).
  - apply inv_login_done; [|done]. split; try done.
    match goal with |- Forall (stored_ok ?X) _ =>
      assert (Ho : others X = List.filter (not_login gen) q) by (rewrite Hg; reflexivity);
      assert (Hd : disk X = disk g) by reflexivity; rewrite Ho, Hd
    end.
    apply Forall_forall. intros x Hx. by rewrite (Hnone x).
Qed.

Lemma inv_run_store g o k q works :
  queue g = (o, k) :: q -> (works = false -> o <> ClearOp) -> Inv g -> Inv (resume k works (popped o works q g)).
Proof.
  intros Hq Hw HI. destruct (inv_pop g o k q works Hq Hw HI) as (Hpop & Hk & Hop & H1 & H2 & H3 & H4).
  destruct k as [p gen current|p| | |gen api password token user known| |normalized label|gen updated];
    cbn [resume]; try (by destruct Hk); try (specialize (Hpop eq_refl)).
  - unfold refresh_saved, is_current, isCurrentMatchboxSessionGeneration.
    change (sessionGeneration (popped _ works q g)) with (sessionGeneration g).
    destruct (Z.eqb_spec gen (sessionGeneration g)) as [Hg|]; cbn [negb].
    2:{ eapply inv_core; [symmetry; apply core_settle|done]. }
    destruct Hk as [_ Hk]. destruct (Hk Hg) as [Hu _].
    eapply inv_core; [symmetry; apply core_settle|].
    eapply inv_core; [|apply (inv_set_user _ current Hpop Hu)]. done.
  - eapply inv_core; [symmetry; apply core_settle|done].
  - by apply inv_login_saved.
  - done.
  - by eapply inv_core; [|exact Hpop].
  - unfold password_saved, is_current, isCurrentMatchboxSessionGeneration.
    change (sessionGeneration (popped _ works q g)) with (sessionGeneration g).
    destruct (Z.eqb_spec gen (sessionGeneration g)) as [Hg|]; cbn [negb]; [|done].
    destruct Hk as [_ Hk]. destruct (Hk Hg) as [Hu _].
    eapply inv_core; [|apply (inv_set_user _ updated Hpop Hu)]. done.
Qed.

(** *** Events *)

Lemma inv_handle e g g' : Inv g -> clear_works e g -> handle e g = Some g' -> Inv g'.
Proof.
  intros HI Hc. unfold handle. destruct e as [|name password| | | |label|current next|i r|works].
  8: { destruct (waits g !! i) as [w|] eqn:Hw; [|done]. intros Hr. apply (inj Some) in Hr as <-.
       destruct (inv_take g i w Hw HI) as (HI1 & Hk & Hf). by apply inv_answer. }
  8: { destruct (queue g) as [|[o k] q] eqn:Hq; [done|]. intros Hr. apply (inj Some) in Hr as <-.
       apply (inv_run_store g o k q works); [done| |done]. intros -> ->. unfold clear_works in Hc. by rewrite Hq in Hc. }
  all: destruct (loading (view g)); [done|].
  - intros Hr. apply (inj Some) in Hr as <-. unfold refresh_start. cbv zeta.
    destruct (match refreshInFlight g with Some (gen, _) => gen =? sessionGeneration g | None => false end); [done|].
    destruct (v_user (view g)) as [user|] eqn:Hu; [|done]. destruct (v_token (view g)) as [token|] eqn:Ht; [|done].
    destruct (truthy token); [|done]. cbn [negb].
    eapply inv_core; [|apply (inv_await (send (v_api (view g)) CallMe g)
      (WaitRefresh (promises g) (sessionGeneration g) (v_api (view g)) (v_baseUrl (view g)) token user))]; [done| |
      |done].
    + eapply inv_core; [symmetry; apply core_send|done].
    + pose proof (core_send (v_api (view g)) CallMe g) as Hs. unfold core in Hs. cbn. simplify_eq.
      split; [lia|]. intros _. split; [congruence|]. intros ? [= <-]. congruence.
  - destruct (v_user (view g)) eqn:Hu; [done|]. destruct (login_busy (view g)) eqn:Hb; [done|].
    destruct (_ && _); [|done]. intros Hr. apply (inj Some) in Hr as <-. by apply inv_login_start.
  - destruct (v_user (view g)); [|done]. intros Hr. apply (inj Some) in Hr as <-. unfold switchAccount.
    apply inv_leave; [|done]. destruct (v_online _); [|done].
    eapply inv_core; [symmetry; apply core_send|done].
  - intros Hr. apply (inj Some) in Hr as <-. by eapply inv_core; [|exact HI].
  - intros Hr. apply (inj Some) in Hr as <-. by eapply inv_core; [|exact HI].
  - destruct (connectionOpen _); [|done]. intros Hr. apply (inj Some) in Hr as <-.
    by apply inv_await.
  - destruct (v_user (view g)) as [u|] eqn:Hu; [|done]. destruct (must_change_password u); [|done].
    intros Hr. apply (inj Some) in Hr as <-. unfold password_start. apply inv_await; [| |done].
    + eapply inv_core; [symmetry; apply core_send|done].
    + pose proof (core_send (v_api (view g)) (CallPassword current next) g) as Hs. unfold core in Hs. cbn. simplify_eq.
      split; [lia|]. intros _. split; [congruence|]. intros t Ht. congruence.
Qed.

(** *** Start-up *)

Definition session_of (g : Gate) (s : jsval) : Prop :=
  exists t, v_token (view g) = Some t /\ get (js "token") s = VStr t.
Inductive starting (g : Gate) : Prop :=
  | starting_me api ps :
      loading (view g) = true -> waits g = [WaitInitMe api (VObj ps)] -> queue g = [] -> v_user (view g) <> None ->
      session_of g (VObj ps) -> disk g = Some (VObj ps) -> starting g
  | starting_probe :
      loading (view g) = true -> waits g = [WaitProbe] -> queue g = [] -> v_user (view g) = None ->
      v_token (view g) = None -> disk g = None -> starting g
  | starting_save s s0 :
      loading (view g) = true -> waits g = [] -> queue g = [(SaveOp s, AfterInitSave)] -> v_user (view g) <> None ->
      session_of g s -> disk g = Some s0 -> session_of g s0 -> starting g
  | starting_clear :
      loading (view g) = true -> waits g = [] -> queue g = [(ClearOp, AfterInitClear)] -> starting g.

Lemma inv_idle g : waits g = [] -> queue g = [] -> (v_user (view g) = None <-> v_token (view g) = None) ->
  (match disk g with Some s => session_of g s | None => True end) -> Inv g.
Proof.
  intros Hw Hq Hu Hd. split; try done; unfold claims, others; rewrite ?Hw, ?Hq; cbn; try (by constructor).
Qed.

Lemma starting_handle e g g' : starting g -> clear_works e g -> handle e g = Some g' -> starting g' \/ Inv g'.
Proof.
  intros Hs Hc Hh.
  assert (Hl : loading (view g) = true) by (by destruct Hs).
  destruct e as [|name password| | | |label|current next|i r|works];
    try (unfold handle in Hh; rewrite Hl in Hh; discriminate Hh).
  - cbn [handle] in Hh. destruct Hs as [api ps _ Hw Hq Hu Ht Hd|_ Hw Hq Hu Ht Hd|? ? ? Hw|? Hw];
      rewrite Hw in Hh; try discriminate Hh; destruct i as [|i]; try discriminate Hh;
      cbn [lookup list_lookup] in Hh; apply (inj Some) in Hh as <-; cbn [answer].
    + set (g1 := set_waits _ g).
      assert (HI : Inv g1).
      { apply inv_idle; [done|done| |by unfold g1; cbn; rewrite Hd].
        destruct Ht as (t & Ht & _). cbn. rewrite Ht. split; [intros Hx; by destruct (Hu Hx)|done]. }
      destruct r as [current| | | |[] []]; try (by right); cbn [init_finish].
      * left. apply (starting_save _ (with_user (VObj ps) current) (VObj ps)); [exact Hl|done| |done| |exact Hd|exact Ht].
        -- change (queue g ++ [(SaveOp (with_user (VObj ps) current), AfterInitSave)] =
             [(SaveOp (with_user (VObj ps) current), AfterInitSave)]). by rewrite Hq.
        -- destruct Ht as (t & Ht & Hg). exists t. split; [exact Ht|]. unfold with_user, get.
           rewrite assoc_set_prop. rewrite decide_False by (intros E; by vm_compute in E). exact Hg.
      * right. by eapply inv_core; [|exact HI].
      * left. apply starting_clear; [exact Hl|done|].
        change (queue g ++ [(ClearOp, AfterInitClear)] = [(ClearOp, AfterInitClear)]). by rewrite Hq.
      * right. by eapply inv_core; [|exact HI].
      * right. by eapply inv_core; [|exact HI].
    + right. set (g1 := set_waits _ g).
      assert (HI : Inv g1) by (apply inv_idle; [done|done|by cbn; rewrite Hu, Ht|by cbn; rewrite Hd]).
      destruct r; cbn [probe_finish]; try done. by eapply inv_core; [|exact HI].
  - cbn [handle] in Hh. destruct Hs as [? ? ? ? Hq|? ? Hq|s s0 _ Hw Hq Hu Ht Hd Ht0|_ Hw Hq]; rewrite Hq in Hh;
      try discriminate Hh; apply (inj Some) in Hh as <-; right; cbn [resume].
    + apply inv_idle; try done.
      * cbn. destruct Ht as (t & Ht & _). rewrite Ht. split; [intros Hx; by destruct (Hu Hx)|done].
      * cbn. destruct works; cbn; [done|by rewrite Hd].
    + destruct works; [|unfold clear_works in Hc; by rewrite Hq in Hc].
      by apply inv_idle.
Qed.

Lemma starting_mount config_url config_label normalize stored known :
  starting (mount config_url config_label normalize stored known).
Proof.
  unfold mount. destruct stored as [v|].
  2:{ by destruct (normalize _); apply starting_probe. }
  destruct (valid_session v) eqn:Ev; [|by destruct (normalize _); apply starting_probe].
  destruct (normalize _) as [u|]; [|by apply starting_probe].
  unfold valid_session in Ev. bool_hyps.
  destruct v as [| | | | | |ps]; try done.
  eapply (starting_me _ 1 ps); try done.
  exists (text_of (get (js "token") (VObj ps))). split; [done|].
  by destruct (get (js "token") (VObj ps)).
Qed.

Lemma reachable_inv m g : starting m -> reachable m g -> starting g \/ Inv g.
Proof.
  intros Hm Hr. assert (H : starting m \/ Inv m) by (by left). clear Hm.
  induction Hr as [m|m g1 g [e m' g1' Hc Hh] Hr IH]; [done|]. apply IH.
  destruct H as [H|H]; [by eapply starting_handle|right; by eapply inv_handle].
Qed.
End GateFacts.

Import GateFacts.

(** C2. However the answers of the Host, the storage operations, the timer and
    the user interleave, and whichever saves fail, as long as no clearing of the
    store fails: when no storage operation is under way, the token of the stored
    session is the token of the account signed in, and nothing at all is stored
    where no account is. *)
Theorem disk_follows_account (config_url config_label : option jstr) (normalize : jstr -> option jstr)
    (stored : option jsval) (known : list jstr) (es : list Event) (g : Gate) :
  let m := mount config_url config_label normalize stored known in
  run es m = Some g -> clears_work es m -> queue g = [] ->
  (forall s, disk g = Some s -> exists t, v_token (view g) = Some t /\ get (js "token") s = VStr t) /\
  (v_user (view g) = None -> disk g = None).
Proof.
  cbv zeta. intros Hrun Hc Hq. pose proof (run_reachable _ _ _ Hc Hrun) as Hr.
  assert (H : (v_user (view g) = None -> v_token (view g) = None) /\
    forall s, disk g = Some s -> session_of g s).
  { destruct (reachable_inv _ _ (starting_mount _ _ _ _ _) Hr) as [H|[H1 _ _ _ H5]].
    - destruct H as [api ps _ _ _ Hu Ht Hd|_ _ _ Hu Ht Hd|? ? ? ? Hq'|? ? Hq']; try congruence.
      + split; [by intros ?%Hu|]. intros s Hs. by replace s with (VObj ps) by congruence.
      + split; [done|]. intros s Hs. congruence.
    - split; [apply H1|]. unfold others in H5. rewrite Hq in H5. cbn in H5. apply Forall_cons in H5 as [H5 _].
      intros s Hs. by rewrite Hs in H5. }
  destruct H as [H1 H2]. split; [exact H2|]. intros Hu. destruct (disk g) as [s|]; [|done].
  destruct (H2 s eq_refl) as (t & Ht & _). by rewrite (H1 Hu) in Ht.
Qed.

(** ** Tokens and Hosts *)

Module TokenFacts.

Section vouched.
(** Where a token came from before the app was started. *)
Context (kept : jstr -> jstr -> Prop).
Definition vouched (g : Gate) (base t : jstr) : Prop := (base, t) ∈ issued g \/ kept base t.

Definition login_cont (k : Cont) : option (nat * jstr) :=
  match k with AfterLoginSave _ api _ token _ _ => Some (api, token) | _ => None end.
Definition login_wait (w : Wait) : option nat := match w with WaitLogin _ api _ _ _ => Some api | _ => None end.

(** Every token an object holds, a request carried or a sign-in is about to
    store came from the Host it belongs to. *)
Record Owned (g : Gate) : Prop := {
  own_apis : forall i a t, apis g !! i = Some a -> api_token a = Some t -> vouched g (api_base a) t;
  own_sent : forall r t, r ∈ requests g -> sent_token r = Some t -> vouched g (sent_base r) t;
  own_queue : forall o k api t, (o, k) ∈ queue g -> login_cont k = Some (api, t) ->
    exists a, apis g !! api = Some a /\ vouched g (api_base a) t;
  own_waits : forall w api, w ∈ waits g -> login_wait w = Some api -> is_Some (apis g !! api);
  own_api : is_Some (apis g !! v_api (view g))
}.

Lemma own_frame g g' :
  apis g' = apis g -> requests g' = requests g -> issued g' = issued g ->
  (forall p, p ∈ queue g' -> p ∈ queue g \/ login_cont (snd p) = None) ->
  (forall w, w ∈ waits g' -> w ∈ waits g \/ login_wait w = None) ->
  v_api (view g') = v_api (view g) -> Owned g -> Owned g'.
Proof.
  intros Ha Hr Hi Hq Hw Hv [H1 H2 H3 H4 H5]. unfold vouched in *. split; unfold vouched; rewrite ?Ha, ?Hr, ?Hi, ?Hv; try done.
  - intros o k api t [Hin|Hn]%Hq Hl; [by eapply H3|]. cbn in Hn. congruence.
  - intros w api [Hin|Hn]%Hw Hl; [by eapply H4|congruence].
Qed.

(** The ways a handler changes only what the invariant does not read. *)
Ltac framed g := apply (own_frame g); try reflexivity;
  [by left|by left|].

Lemma own_upd f g : v_api (f (view g)) = v_api (view g) -> Owned g -> Owned (upd f g).
Proof. intros Hv HO. apply (own_frame g); [reflexivity..| | |exact Hv|exact HO]; auto. Qed.
Lemma own_settle p g : Owned g -> Owned (settle p g).
Proof.
  intros HO. unfold settle. destruct (refreshInFlight g) as [[? ?]|]; [|done].
  destruct (_ =? _)%nat; [|done]. by framed g.
Qed.
Lemma own_bump g : Owned g -> Owned (bump g).
Proof. intros HO. by framed g. Qed.
Lemma own_await w g : Owned g -> login_wait w = None -> Owned (await w g).
Proof.
  intros HO Hw. apply (own_frame g); try reflexivity; [auto| |exact HO].
  intros w'. cbn. rewrite elem_of_app, list_elem_of_singleton. intros [?| ->]; auto.
Qed.
Lemma own_store o k g : Owned g -> login_cont k = None -> Owned (store_op o k g).
Proof.
  intros HO Hk. apply (own_frame g); try reflexivity; [|auto|exact HO].
  intros p. cbn. rewrite elem_of_app, list_elem_of_singleton. intros [?| ->]; auto.
Qed.

Lemma own_send i c g : Owned g -> Owned (send i c g).
Proof.
  intros HO. unfold send. destruct (apis g !! i) as [a|] eqn:Ea; [|done]. destruct HO as [H1 H2 H3 H4 H5].
  split; try done. intros r t. cbn. rewrite elem_of_app, list_elem_of_singleton. intros [Hr| ->]; [by apply H2|].
  cbn. unfold bearer. destruct (api_token a) as [[|c0 cs]|] eqn:Et; try done. intros [= <-]. by eapply H1.
Qed.

Lemma own_issue i t g : Owned g -> Owned (issue i t g).
Proof.
  intros HO. unfold issue. destruct (apis g !! i) as [a|]; [|done]. destruct HO as [H1 H2 H3 H4 H5].
  assert (Hm : forall b u, vouched g b u -> forall x, vouched (set_issued (x :: issued g) g) b u).
  { intros b u [H|H] x; [left; by right|by right]. }
  split; try done.
  - intros j b u Hb Hu. apply Hm. by eapply H1.
  - intros r u Hr Hu. apply Hm. by eapply H2.
  - intros o k api u Hin Hl. destruct (H3 o k api u Hin Hl) as (b & ? & ?). exists b. split; [done|by apply Hm].
Qed.

Lemma own_setToken i t g : Owned g ->
  (forall a u, t = Some u -> apis g !! i = Some a -> vouched g (api_base a) u) -> Owned (setToken_api i t g).
Proof.
  intros [H1 H2 H3 H4 H5] Ht. split; cbn; try done.
  - intros j a u. rewrite list_lookup_alter. case_decide as Hij; [subst j|apply H1].
    intros (b & Hb & ->)%fmap_Some. cbn. intros ->. by apply (Ht b u).
  - intros o k api u Hin Hl. destruct (H3 o k api u Hin Hl) as (b & Hb & Hi).
    rewrite list_lookup_alter. case_decide; subst; rewrite Hb; eexists; (split; [reflexivity|exact Hi]).
  - intros w api Hw Hl. apply lookup_lt_is_Some. rewrite length_alter. apply lookup_lt_is_Some. by eapply H4.
  - apply lookup_lt_is_Some. rewrite length_alter. by apply lookup_lt_is_Some.
Qed.

Lemma own_sign_out api k g : Owned g -> login_cont k = None -> Owned (sign_out api k g).
Proof.
  intros HO Hk. unfold sign_out. apply own_store; [|done]. repeat (apply own_upd; [done|]).
  apply own_setToken; [by apply own_bump|done].
Qed.

Lemma own_push base f g : v_api (f (view g)) = length (apis g) -> Owned g ->
  Owned (upd f (set_apis (apis g ++ [new_api base None]) g)).
Proof.
  intros Hv [H1 H2 H3 H4 H5].
  assert (Hold : forall i a, apis g !! i = Some a -> (apis g ++ [new_api base None]) !! i = Some a)
    by (intros i a Hi; apply lookup_app_l_Some; done).
  split; cbn; try done.
  - intros i a t [Ha|[_ Ha]]%lookup_app_Some Ht; [by eapply H1|]. apply list_lookup_singleton_Some in Ha as [_ <-]. done.
  - intros o k api t Hin Hl. destruct (H3 o k api t Hin Hl) as (b & ? & ?). exists b. auto.
  - intros w api Hw Hl. destruct (H4 w api Hw Hl) as [a Ha]. exists a. auto.
  - rewrite Hv. exists (new_api base None). by apply list_lookup_middle.
Qed.

Lemma own_login_done gen g : Owned g -> Owned (login_done gen g).
Proof. intros HO. unfold login_done. case_bool_decide; [by apply own_upd|done]. Qed.
Lemma own_password_saved gen u g : Owned g -> Owned (password_saved gen u g).
Proof. intros HO. unfold password_saved. destruct (negb _); [done|]. by do 2 (apply own_upd; [done|]). Qed.

Lemma own_answer w r g : Owned g -> (forall api, login_wait w = Some api -> is_Some (apis g !! api)) ->
  Owned (answer w r g).
Proof.
  intros HO Hw. destruct w as [p gen api base token user|api stored| |gen api base password known
    |base signed_in api label|gen base token]; cbn [answer].
  - destruct r; cbn [refresh_finish]; try done.
    + destruct (negb _); [by apply own_settle|]. destruct (negb _); [by apply own_store|].
      by apply own_settle, own_upd.
    + destruct (negb _); [by apply own_settle|]. destruct (_ && _); [by apply own_settle, own_upd|].
      by apply own_sign_out.
  - destruct r as [u| | | |[] []]; cbn [init_finish]; try done; try (by do 2 (apply own_upd; [done|])).
    + apply own_store; [|done]. by do 2 (apply own_upd; [done|]).
    + apply own_store; [|done]. apply own_setToken; [by apply own_bump|done].
  - destruct r; cbn [probe_finish]; try done. by do 2 (apply own_upd; [done|]).
  - destruct r as [|token user| | |]; cbn [login_finish]; try done; [|by apply own_login_done].
    pose proof (own_issue api token g HO) as HI. destruct (negb _); [by apply own_login_done|].
    destruct (Hw api eq_refl) as [a Ha]. destruct HI as [H1 H2 H3 H4 H5]. split; try done.
    intros o k api' t. unfold store_op. cbn. rewrite elem_of_app, list_elem_of_singleton.
    intros [Hin|[= -> ->]] Hl; [by eapply H3|]. cbn in Hl. simplify_eq.
    exists a. unfold issue, vouched. rewrite Ha. cbn. split; [done|]. left. by left.
  - destruct r as [| | |[n|e]|]; cbn [saveConnection_finish]; try done. destruct (seqb n base); [by apply own_upd|].
    apply own_sign_out; [|done]. destruct signed_in; [apply own_send|]; by apply own_upd.
  - destruct r; cbn [password_finish]; try done. destruct (negb _); [done|].
    destruct token as [[|c cs]|]; try (by apply own_password_saved). by apply own_store.
Qed.

Lemma own_resume k works g :
  Owned g -> (forall api t, login_cont k = Some (api, t) -> exists a, apis g !! api = Some a /\ vouched g (api_base a) t) ->
  Owned (resume k works g).
Proof.
  intros HO Hk. destruct k; cbn [resume]; try done.
  - unfold refresh_saved. destruct (negb _); [by apply own_settle|].
    apply own_settle. by do 2 (apply own_upd; [done|]).
  - by apply own_settle.
  - by apply own_upd.
  - by do 3 (apply own_upd; [done|]).
  - unfold login_saved. pose proof (own_login_done generation g HO) as HD.
    destruct (negb _); [done|]. destruct (negb works); [done|]. apply own_upd; [done|].
    apply own_setToken; [done|]. intros a u [= <-]. destruct (Hk _ _ eq_refl) as (b & Hb & Hi).
    unfold login_done. case_bool_decide; cbn; intros Ha; simplify_eq; exact Hi.
  - by apply own_push.
  - by apply own_password_saved.
Qed.

Lemma own_handle e g g' : Owned g -> handle e g = Some g' -> Owned g'.
Proof.
  intros HO. unfold handle. destruct e as [|name password| | | |label|current next|i r|works].
  8: { destruct (waits g !! i) as [w|] eqn:Hw; [|done]. intros Hr. apply (inj Some) in Hr as <-.
       apply own_answer.
       - apply (own_frame g); try reflexivity; [by left| |done]. intros w'. cbn. intros Hin. left.
         eapply elem_of_submseteq; [exact Hin|]. apply sublist_submseteq, sublist_delete.
       - intros api. apply (own_waits g HO). by eapply list_elem_of_lookup_2. }
  8: { destruct (queue g) as [|[o k] q] eqn:Hq; [done|]. intros Hr. apply (inj Some) in Hr as <-.
       apply own_resume.
       - apply (own_frame g); try reflexivity; [|by left|done]. intros p Hp. left. rewrite Hq. by right.
       - intros api t. apply (own_queue g HO o). rewrite Hq. by left. }
  all: destruct (loading (view g)); [done|].
  - intros Hr. apply (inj Some) in Hr as <-. unfold refresh_start. cbv zeta.
    destruct (match refreshInFlight g with Some (gen, _) => gen =? sessionGeneration g | None => false end); [done|].
    destruct (v_user (view g)) as [user|]; [|done]. destruct (v_token (view g)) as [token|]; [|done].
    destruct (truthy token); [|done]. cbn [negb].
    apply (own_frame (await (WaitRefresh (promises g) (sessionGeneration g) (v_api (view g)) (v_baseUrl (view g)) token user)
      (send (v_api (view g)) CallMe g))); try reflexivity; [by left|by left|].
    apply own_await; [by apply own_send|done].
  - destruct (v_user (view g)); [done|]. destruct (login_busy (view g)); [done|].
    destruct (_ && _); [|done]. intros Hr. apply (inj Some) in Hr as <-. unfold login_start. cbv zeta.
    set (g1 := upd _ _). assert (H1 : Owned g1).
    { unfold g1. apply own_upd; [done|]. by apply own_send, own_bump. }
    assert (Ha : is_Some (apis g1 !! v_api (view (bump g)))).
    { pose proof (own_api g HO) as Ha. unfold g1. cbn. unfold send. by destruct (apis (bump g) !! _). }
    destruct H1 as [A1 A2 A3 A4 A5]. split; try done.
    intros w api. cbn. rewrite elem_of_app, list_elem_of_singleton. intros [Hin| ->] Hl; [by eapply A4|].
    cbn in Hl. simplify_eq. exact Ha.
  - destruct (v_user (view g)); [|done]. intros Hr. apply (inj Some) in Hr as <-. unfold switchAccount. cbv zeta.
    apply own_sign_out; [|done]. destruct (v_online _); [by apply own_send|done].
  - intros Hr. apply (inj Some) in Hr as <-. by apply own_upd.
  - intros Hr. apply (inj Some) in Hr as <-. by apply own_upd.
  - destruct (connectionOpen _); [|done]. intros Hr. apply (inj Some) in Hr as <-. by apply own_await.
  - destruct (v_user (view g)) as [u|]; [|done]. destruct (must_change_password u); [|done].
    intros Hr. apply (inj Some) in Hr as <-. apply own_await; [by apply own_send|done].
Qed.

End vouched.

(** What was stored: a session, with the address it was stored with, where
    that address still passes the checks. *)
Definition stored_with (normalize : jstr -> option jstr) (stored : option jsval) (base t : jstr) : Prop :=
  exists s b u, stored = Some s /\ get (js "token") s = VStr t /\ get (js "baseUrl") s = VStr b /\
    normalize b = Some u /\ base = strip_slashes u.

Lemma own_mount config_url config_label normalize stored known :
  Owned (stored_with normalize stored) (mount config_url config_label normalize stored known).
Proof.
  assert (H : forall url tok v d, v_api v = 1%nat ->
    (forall t, tok = Some t -> stored_with normalize stored (strip_slashes url) t) ->
    Owned (stored_with normalize stored) (mkGate v 0 None 0 [new_api DEV_HOST None; new_api url tok] [] [] d [] [])).
  { intros url tok v d Hv Ht. split; cbn; rewrite ?Hv.
    - intros [|[|i]] a t; cbn; try done; intros [= <-]; cbn; [done|]. intros ->. right. by apply Ht.
    - by intros r t ?%elem_of_nil.
    - by intros o k api t ?%elem_of_nil.
    - by intros w api ?%elem_of_nil.
    - by eexists. }
  unfold mount. destruct stored as [v|]; [destruct (valid_session v) eqn:Ev|]; destruct (normalize _) as [u|] eqn:En; cbv zeta;
    (apply own_await; [|done]); try (apply own_send); apply H; try done.
  intros t [= <-]. unfold valid_session in Ev. bool_hyps.
  destruct (get (js "token") v) as [| | | |t| |] eqn:Et; try done. destruct (get (js "baseUrl") v) as [| | | |b| |] eqn:Eb; try done.
  by exists v, b, u.
Qed.
End TokenFacts.

(** C1. A bearer token is only ever sent to the Host that answered the sign-in
    with it, or, for the token found in the store at start-up, to the address it
    was stored with, and that only when the address still passes the checks: no
    interleaving of sign-ins, sign-outs and changes of Host sends the token of
    one Host to another. *)
Theorem token_stays_with_host (config_url config_label : option jstr) (normalize : jstr -> option jstr)
    (stored : option jsval) (known : list jstr) (es : list Event) (g : Gate) (r : Sent) (t : jstr) :
  run es (mount config_url config_label normalize stored known) = Some g ->
  r ∈ requests g -> sent_token r = Some t ->
  (sent_base r, t) ∈ issued g \/
  exists s b u, stored = Some s /\ get (js "token") s = VStr t /\ get (js "baseUrl") s = VStr b /\
    normalize b = Some u /\ sent_base r = strip_slashes u.
Proof.
  intros Hr. apply (TokenFacts.own_sent (TokenFacts.stored_with normalize stored)).
  pose proof (TokenFacts.own_mount config_url config_label normalize stored known) as HO. revert HO Hr.
  generalize (mount config_url config_label normalize stored known). induction es as [|e es IH]; intros m HO Hr.
  - by apply (inj Some) in Hr as <-.
  - cbn [run] in Hr. destruct (handle e m) as [m'|] eqn:Hh; [|done].
    apply (IH m'); [by eapply TokenFacts.own_handle|done].
Qed.

Module GateWitnesses.

Definition student (name : jstr) : jsval :=
  VObj [(js "username", VStr name); (js "role", VStr (js "student")); (js "must_change_password", VBool false)].
Definition at_start : Gate := mount None None Some None [].

(** Amy signs in, hands the computer to Bob while a refresh of hers is still
    unanswered, and that refresh is answered last. *)
Definition handover : list Event :=
  [Answer 0 (ReplyProbe true); SubmitLogin (js " amy ") (js "first-pass"); Answer 0 (ReplyLogin (js "t1") (student (js "amy")));
   RunStore true; RefreshTick; SwitchAccount; SubmitLogin (js "bob") (js "other-pass"); RunStore true;
   Answer 1 (ReplyLogin (js "t2") (student (js "bob"))); RunStore true; Answer 0 (ReplyUser (student (js "amy k")))].
Definition handed_over : Gate := default at_start (run handover at_start).

Lemma handover_runs : run handover at_start = Some handed_over.
Proof. vm_compute. reflexivity. Qed.
Lemma disk_follows_account_witness :
  disk handed_over = Some (session_value DEV_HOST (js "t2") (student (js "bob"))) /\
  exists t, v_token (view handed_over) = Some t /\
    get (js "token") (session_value DEV_HOST (js "t2") (student (js "bob"))) = VStr t.
Proof.
  assert (Hd : disk handed_over = Some (session_value DEV_HOST (js "t2") (student (js "bob")))) by (vm_compute; reflexivity).
  split; [exact Hd|].
  refine (proj1 (disk_follows_account None None Some None [] handover handed_over handover_runs _ _) _ Hd).
  - vm_compute. repeat split.
  - vm_compute. reflexivity.
Defined.

Definition ann_stored : jsval := session_value (js "http://10.0.0.2:7373") (js "t0") (student (js "ann")).
Lemma token_stays_with_host_witness :
  ((DEV_HOST, js "t1") ∈ issued handed_over \/
   exists s b u, None = Some s /\ get (js "token") s = VStr (js "t1") /\ get (js "baseUrl") s = VStr b /\ Some b = Some u /\
     DEV_HOST = strip_slashes u) /\
  requests (mount None None Some (Some ann_stored) []) = [mkSent (js "http://10.0.0.2:7373") (Some (js "t0")) CallMe] /\
  requests (mount None None (fun u => if seqb u DEV_HOST then Some u else None) (Some ann_stored) []) = [].
Proof.
  split; [|split; vm_compute; reflexivity].
  refine (token_stays_with_host None None Some None [] handover handed_over (mkSent DEV_HOST (Some (js "t1")) CallLogout) (js "t1")
    handover_runs _ eq_refl).
  apply (list_elem_of_lookup_2 _ 2). vm_compute. reflexivity.
Defined.

(** An account that leaves while the Host is away, on a computer whose native
    store could not be cleared, is signed in again at the next start. *)
Definition left_behind : Gate :=
  default at_start (run [Answer 0 (ReplyFailure true true); SwitchAccount; RunStore false] (mount None None Some (Some ann_stored) [])).
Example failed_clear_signs_in_again :
  v_user (view left_behind) = None /\ (sent_call <$> requests left_behind) = [CallMe] /\
  v_user (view (mount None None Some (disk left_behind) [])) = Some (student (js "ann")).
Proof. vm_compute. done. Qed.
End GateWitnesses.
