(* ===== verification/TeacherSession.v ===== *)
(** * The teacher's session ([apps/teacher/src/App.tsx])

    [App]: its React state is [View], its three refs ([generation],
    [loadInFlight], [reconnectInFlight]), the client objects closures share
    ([apis]), the queue of storage operations and what is stored ([disk]).  As
    in [MatchboxSession] a handler is cut at each [await]: what its
    continuation needs is kept in [waits], or next to the queued storage
    operation.  [requests], [issued] and [source] record what was sent, which
    Host answered a sign-in with which token and whom the workspace shown was
    asked from;
    nothing reads them.  A reply to a reconnection carries whether the effect
    was cleaned up meanwhile; either is allowed at any time. *)

From S2P Require Import Prelude JsString JsValue HostAddress SessionClient.
Local Open Scope Z_scope.

Inductive TeacherTab :=
  | TabDashboard | TabStudents | TabClassrooms | TabAssignments | TabAttendance | TabGradebook | TabPapers | TabSettings.
#[export] Instance TeacherTab_eq : EqDecision TeacherTab. Proof. solve_decision. Defined.

(** What [loadWorkspace] fetches. *)
Record Workspace := mkWorkspace { stats : jsval; students : jsval; classrooms : jsval; assignments : jsval }.
Definition zero_stats : jsval :=
  VObj ((fun k => (k, VNum (JsNumber.num 0))) <$>
    [js "students"; js "classrooms"; js "pending_submissions"; js "ungraded_submissions"; js "present_today"]).
(** [resetTeacherWorkspaceState] *)
Definition resetTeacherWorkspaceState (generation : Z) : Z * Workspace :=
  (generation + 1, mkWorkspace zero_stats (VArr []) (VArr []) (VArr [])).
Definition EMPTY : Workspace := snd (resetTeacherWorkspaceState 0).

Inductive Call := CallStatus | CallMe | CallLogin (username password : jstr) | CallLogout | CallWorkspace.
Record Sent := mkSent { sent_base : jstr; sent_token : option jstr; sent_call : Call }.
(** A Host and the token shown to it. *)
Definition Credentials : Type := jstr * option jstr.

(** What runs after a load of the workspace. *)
Inductive Then := ThenNothing | ThenStarted | ThenRetried (generation : Z).
(** What runs when a storage operation has settled. *)
Inductive Cont :=
  | AfterStartSave (generation : Z) (api : nat)
  | AfterStartClear
  | AfterRetryClear (generation : Z)
  | AfterLoginSave (generation : Z) (api : nat) (token : jstr) (user : jsval)
  | AfterStaleClear (generation : Z)
  | AfterLogoutClear
  | AfterSwitchClear (normalized label : jstr) (needs_setup : bool).
(** What waits for an answer; [WaitView]: a request of one of the views, which
    calls [onUpdated] when it succeeds. *)
Inductive Wait :=
  | WaitStatus (generation : Z) (api : nat) (host : jstr) (session : option StoredTeacherSession)
  | WaitStartMe (generation : Z) (api : nat) (host : jstr) (session : StoredTeacherSession)
  | WaitLoad (generation : Z) (asked : Credentials) (next : Then)
  | WaitRetry (generation : Z) (api : nat)
  | WaitLogin (generation : Z) (api : nat) (base : jstr)
  | WaitConnection (base : jstr) (api : nat) (signed_in : bool) (label : jstr)
  | WaitSwitched (normalized label : jstr) (needs_setup : bool)
  | WaitView (api : nat).
Inductive Reply :=
  | ReplyStatus (needs_setup : bool)
  | ReplyUser (user : jsval) (cancelled : bool)
  | ReplyLogin (token : jstr) (user : jsval)
  | ReplyWorkspace (w : Workspace)
  | ReplyConnection (checked : outcome jstr (jstr * bool))
  | ReplySettled
  | ReplyFailure (is_api_error offline cancelled : bool).

Record View := mkView {
  loading : bool;
  needsSetup : option bool;
  v_baseUrl : jstr;
  deviceLabel : jstr;
  v_api : nat;
  v_user : option jsval;
  v_online : bool;
  tab : TeacherTab;
  workspace : Workspace;
  refreshing : bool;
  connectionOpen : bool;
  knownAccounts : list jstr;
  login_busy : option Z
}.
Record App := mkApp {
  view : View;
  generation : Z;
  loadInFlight : option Z;
  reconnectInFlight : option Z;
  apis : list CinderApi;
  waits : list Wait;
  queue : list (StoreOp * Cont);
  disk : option jsval;
  requests : list Sent;
  issued : list (jstr * jstr);
  source : option Credentials
}.

Definition set_loading (x : bool) (w : View) : View := mkView x (needsSetup w) (v_baseUrl w) (deviceLabel w) (v_api w) (v_user w) (v_online w) (tab w) (workspace w) (refreshing w) (connectionOpen w) (knownAccounts w) (login_busy w).
Definition set_needsSetup (x : option bool) (w : View) : View := mkView (loading w) x (v_baseUrl w) (deviceLabel w) (v_api w) (v_user w) (v_online w) (tab w) (workspace w) (refreshing w) (connectionOpen w) (knownAccounts w) (login_busy w).
Definition set_v_baseUrl (x : jstr) (w : View) : View := mkView (loading w) (needsSetup w) x (deviceLabel w) (v_api w) (v_user w) (v_online w) (tab w) (workspace w) (refreshing w) (connectionOpen w) (knownAccounts w) (login_busy w).
Definition set_deviceLabel (x : jstr) (w : View) : View := mkView (loading w) (needsSetup w) (v_baseUrl w) x (v_api w) (v_user w) (v_online w) (tab w) (workspace w) (refreshing w) (connectionOpen w) (knownAccounts w) (login_busy w).
Definition set_v_api (x : nat) (w : View) : View := mkView (loading w) (needsSetup w) (v_baseUrl w) (deviceLabel w) x (v_user w) (v_online w) (tab w) (workspace w) (refreshing w) (connectionOpen w) (knownAccounts w) (login_busy w).
Definition set_v_user (x : option jsval) (w : View) : View := mkView (loading w) (needsSetup w) (v_baseUrl w) (deviceLabel w) (v_api w) x (v_online w) (tab w) (workspace w) (refreshing w) (connectionOpen w) (knownAccounts w) (login_busy w).
Definition set_v_online (x : bool) (w : View) : View := mkView (loading w) (needsSetup w) (v_baseUrl w) (deviceLabel w) (v_api w) (v_user w) x (tab w) (workspace w) (refreshing w) (connectionOpen w) (knownAccounts w) (login_busy w).
Definition set_tab (x : TeacherTab) (w : View) : View := mkView (loading w) (needsSetup w) (v_baseUrl w) (deviceLabel w) (v_api w) (v_user w) (v_online w) x (workspace w) (refreshing w) (connectionOpen w) (knownAccounts w) (login_busy w).
Definition set_workspace (x : Workspace) (w : View) : View := mkView (loading w) (needsSetup w) (v_baseUrl w) (deviceLabel w) (v_api w) (v_user w) (v_online w) (tab w) x (refreshing w) (connectionOpen w) (knownAccounts w) (login_busy w).
Definition set_refreshing (x : bool) (w : View) : View := mkView (loading w) (needsSetup w) (v_baseUrl w) (deviceLabel w) (v_api w) (v_user w) (v_online w) (tab w) (workspace w) x (connectionOpen w) (knownAccounts w) (login_busy w).
Definition set_connectionOpen (x : bool) (w : View) : View := mkView (loading w) (needsSetup w) (v_baseUrl w) (deviceLabel w) (v_api w) (v_user w) (v_online w) (tab w) (workspace w) (refreshing w) x (knownAccounts w) (login_busy w).
Definition set_knownAccounts (x : list jstr) (w : View) : View := mkView (loading w) (needsSetup w) (v_baseUrl w) (deviceLabel w) (v_api w) (v_user w) (v_online w) (tab w) (workspace w) (refreshing w) (connectionOpen w) x (login_busy w).
Definition set_login_busy (x : option Z) (w : View) : View := mkView (loading w) (needsSetup w) (v_baseUrl w) (deviceLabel w) (v_api w) (v_user w) (v_online w) (tab w) (workspace w) (refreshing w) (connectionOpen w) (knownAccounts w) x.
Definition set_view (x : View) (g : App) : App := mkApp x (generation g) (loadInFlight g) (reconnectInFlight g) (apis g) (waits g) (queue g) (disk g) (requests g) (issued g) (source g).
Definition set_generation (x : Z) (g : App) : App := mkApp (view g) x (loadInFlight g) (reconnectInFlight g) (apis g) (waits g) (queue g) (disk g) (requests g) (issued g) (source g).
Definition set_loadInFlight (x : option Z) (g : App) : App := mkApp (view g) (generation g) x (reconnectInFlight g) (apis g) (waits g) (queue g) (disk g) (requests g) (issued g) (source g).
Definition set_reconnectInFlight (x : option Z) (g : App) : App := mkApp (view g) (generation g) (loadInFlight g) x (apis g) (waits g) (queue g) (disk g) (requests g) (issued g) (source g).
Definition set_apis (x : list CinderApi) (g : App) : App := mkApp (view g) (generation g) (loadInFlight g) (reconnectInFlight g) x (waits g) (queue g) (disk g) (requests g) (issued g) (source g).
Definition set_waits (x : list Wait) (g : App) : App := mkApp (view g) (generation g) (loadInFlight g) (reconnectInFlight g) (apis g) x (queue g) (disk g) (requests g) (issued g) (source g).
Definition set_queue (x : list (StoreOp * Cont)) (g : App) : App := mkApp (view g) (generation g) (loadInFlight g) (reconnectInFlight g) (apis g) (waits g) x (disk g) (requests g) (issued g) (source g).
Definition set_disk (x : option jsval) (g : App) : App := mkApp (view g) (generation g) (loadInFlight g) (reconnectInFlight g) (apis g) (waits g) (queue g) x (requests g) (issued g) (source g).
Definition set_requests (x : list Sent) (g : App) : App := mkApp (view g) (generation g) (loadInFlight g) (reconnectInFlight g) (apis g) (waits g) (queue g) (disk g) x (issued g) (source g).
Definition set_issued (x : list (jstr * jstr)) (g : App) : App := mkApp (view g) (generation g) (loadInFlight g) (reconnectInFlight g) (apis g) (waits g) (queue g) (disk g) (requests g) x (source g).
Definition set_source (x : option Credentials) (g : App) : App := mkApp (view g) (generation g) (loadInFlight g) (reconnectInFlight g) (apis g) (waits g) (queue g) (disk g) (requests g) (issued g) x.
Definition upd (f : View -> View) (g : App) : App := set_view (f (view g)) g.

Definition DEV_HOST : jstr := js "http://127.0.0.1:7373".
Definition teacher_name (u : jsval) : jstr := to_string (get (js "username") u).
Definition rememberAccount (name : jstr) (g : App) : App := upd (fun w => set_knownAccounts (remember name (knownAccounts w)) w) g.
Definition forgetAccount (name : jstr) (g : App) : App :=
  upd (fun w => set_knownAccounts (List.filter (fun n => negb (seqb n name)) (knownAccounts w)) w) g.

Definition setToken_api (i : nat) (t : option jstr) (g : App) : App :=
  set_apis (alter (fun a => mkApi (api_base a) t) i (apis g)) g.
Definition credentials (i : nat) (g : App) : Credentials :=
  match apis g !! i with Some a => (api_base a, bearer a) | None => ([], None) end.
Definition send (i : nat) (c : Call) (g : App) : App :=
  set_requests (requests g ++ [mkSent (fst (credentials i g)) (snd (credentials i g)) c]) g.
Definition issue (i : nat) (t : jstr) (g : App) : App := set_issued ((fst (credentials i g), t) :: issued g) g.
Definition await (w : Wait) (g : App) : App := set_waits (waits g ++ [w]) g.
Definition store_op (o : StoreOp) (k : Cont) (g : App) : App := set_queue (queue g ++ [(o, k)]) g.
Definition is_current (gen : Z) (g : App) : bool := isCurrentTeacherWorkspaceGeneration gen (generation g).

Definition resetWorkspace (g : App) : App :=
  let (gen, empty) := resetTeacherWorkspaceState (generation g) in
  set_source None (set_generation gen (set_loadInFlight None (set_reconnectInFlight None
    (upd (fun w => set_tab TabDashboard (set_refreshing false (set_workspace empty w))) g)))).
(** The steps of every sign-out. *)
Definition sign_out (api : nat) (k : Cont) (g : App) : App :=
  store_op ClearOp k (upd (set_v_user None) (setToken_api api None (resetWorkspace g))).

(** ** Loading the workspace *)

Definition retried (gen : Z) (g : App) : App :=
  if bool_decide (reconnectInFlight g = Some gen) then set_reconnectInFlight None g else g.
Definition continue (k : Then) (g : App) : App :=
  match k with
  | ThenNothing => g
  | ThenStarted => upd (set_loading false) g
  | ThenRetried gen => retried gen g
  end.
Definition loadWorkspace (api : nat) (gen : Z) (k : Then) (g : App) : App :=
  if negb (is_current gen g) then continue k g
  else if bool_decide (loadInFlight g = Some gen) then continue k g
  else await (WaitLoad gen (credentials api g) k)
         (send api CallWorkspace (upd (set_refreshing true) (set_loadInFlight (Some gen) g))).
Definition load_finish (gen : Z) (asked : Credentials) (k : Then) (r : Reply) (g : App) : App :=
  continue k
    (if negb (is_current gen g) then g
     else upd (set_refreshing false) (set_loadInFlight None
       match r with
       | ReplyWorkspace w => set_source (Some asked) (upd (fun v => set_v_online true (set_workspace w v)) g)
       | _ => upd (set_v_online false) g
       end)).

(** ** Start-up *)

(** Up to the first request; nothing else of the app runs before it.
    [normalize] is [normalizeHostAddress], [stored0] the session
    [storedSession] reads. *)
Definition mount (tauri : bool) (config_url config_label : option jstr) (normalize : jstr -> option jstr)
    (stored0 : option StoredTeacherSession) (disk0 : option jsval) (known : list jstr) : App :=
  let fallback := default DEV_HOST config_url in
  let host0 := match stored0 with Some s => baseUrl s | None => fallback end in
  let '(session, host, gen, disk1) :=
    match normalize host0 with
    | Some h => (stored0, h, 1, disk0)
    | None => match stored0 with Some _ => (None, fallback, 2, None) | None => (None, fallback, 1, disk0) end
    end in
  let token := token <$> session in
  let v := mkView true None host (default (js "Teacher computer") config_label) 1 None false TabDashboard EMPTY false
             (tauri && negb (match config_url with Some u => truthy u | None => false end) &&
              match session with None => true | _ => false end) known None in
  await (WaitStatus gen 1 host session) (send 1 CallStatus
    (mkApp v gen None None [new_api DEV_HOST None; new_api host token] [] [] disk1 [] [] None)).

Definition offline_session (session : option StoredTeacherSession) (g : App) : App :=
  match session with
  | Some s => rememberAccount (teacher_name (stored_user s)) (upd (set_v_user (Some (stored_user s))) (upd (set_v_online false) g))
  | None => upd (set_v_online false) g
  end.
Definition started (g : App) : App := upd (set_loading false) g.
Definition status_finish (gen : Z) (api : nat) (host : jstr) (session : option StoredTeacherSession) (r : Reply) (g : App) : App :=
  match r with
  | ReplyStatus needs =>
    if negb (is_current gen g) then started g
    else
      let g := upd (fun w => set_v_online true (set_needsSetup (Some needs) w)) g in
      match session with
      | Some s => if needs then started g else await (WaitStartMe gen api host s) (send api CallMe g)
      | None => started g
      end
  | _ => started (if is_current gen g then offline_session session g else g)
  end.
Definition start_me_finish (gen : Z) (api : nat) (host : jstr) (session : StoredTeacherSession) (r : Reply) (g : App) : App :=
  match r with
  | ReplyUser current _ =>
    if negb (is_current gen g) then started g
    else store_op (SaveOp (session_value host (token session) current)) (AfterStartSave gen api)
           (rememberAccount (teacher_name current) (upd (set_v_user (Some current)) g))
  | ReplyFailure is_api offline _ =>
    if negb (is_current gen g) then started g
    else if is_api && offline then started (offline_session (Some session) g)
    else sign_out api AfterStartClear g
  | _ => g
  end.
Definition start_saved (gen : Z) (api : nat) (saved : bool) (g : App) : App :=
  if negb (is_current gen g) then started g
  else if saved then loadWorkspace api gen ThenStarted g
  else sign_out api AfterStartClear g.

(** ** Reconnecting *)

Definition retry_start (g : App) : App :=
  let gen := generation g in
  if bool_decide (reconnectInFlight g = Some gen) then g
  else await (WaitRetry gen (v_api (view g))) (send (v_api (view g)) CallMe (set_reconnectInFlight (Some gen) g)).
Definition retry_finish (gen : Z) (api : nat) (r : Reply) (g : App) : App :=
  match r with
  | ReplyUser current cancelled =>
    if cancelled || negb (is_current gen g) then retried gen g
    else loadWorkspace api gen (ThenRetried gen) (rememberAccount (teacher_name current) (upd (set_v_user (Some current)) g))
  | ReplyFailure is_api offline cancelled =>
    if cancelled || negb (is_current gen g) then retried gen g
    else
      let g := upd (set_v_online false) g in
      if is_api && offline then retried gen g else sign_out api (AfterRetryClear gen) g
  | _ => g
  end.

(** A view's request has settled: its [onUpdated] loads with the client of
    the render it belongs to, in the generation of the moment. *)
Definition view_settled (api : nat) (r : Reply) (g : App) : App :=
  match r with ReplySettled => loadWorkspace api (generation g) ThenNothing g | _ => g end.

(** ** Signing in and out *)

(** The sign-in form is busy until its attempt settles. *)
Definition login_done (gen : Z) (g : App) : App :=
  if bool_decide (login_busy (view g) = Some gen) then upd (set_login_busy None) g else g.
Definition login_start (name password : jstr) (g : App) : App :=
  let g := resetWorkspace g in
  let gen := generation g in let v := view g in
  await (WaitLogin gen (v_api v) (v_baseUrl v)) (upd (set_login_busy (Some gen)) (send (v_api v) (CallLogin name password) g)).
Definition login_finish (gen : Z) (api : nat) (base : jstr) (r : Reply) (g : App) : App :=
  match r with
  | ReplyLogin token user =>
    let g := issue api token g in
    if negb (is_current gen g) then login_done gen g
    else store_op (SaveOp (session_value base token user)) (AfterLoginSave gen api token user) g
  | ReplyFailure _ _ _ => login_done gen g
  | _ => g
  end.
Definition login_saved (gen : Z) (api : nat) (token : jstr) (user : jsval) (saved : bool) (g : App) : App :=
  if negb (is_current gen g) then store_op ClearOp (AfterStaleClear gen) g
  else if negb saved then login_done gen g
  else loadWorkspace api gen ThenNothing
         (rememberAccount (teacher_name user)
           (upd (fun w => set_v_online true (set_v_user (Some user) w)) (setToken_api api (Some token) (login_done gen g)))).
Definition logout (g : App) : App :=
  sign_out (v_api (view g)) AfterLogoutClear (send (v_api (view g)) CallLogout g).

(** ** Changing the Host *)

Definition saveConnection_start (nextLabel : jstr) (g : App) : App :=
  let v := view g in
  await (WaitConnection (v_baseUrl v) (v_api v) (match v_user v with Some _ => true | None => false end)
           (or_str (trim nextLabel) (js "Teacher computer"))) g.
Definition connection_done (normalized label : jstr) (api : nat) (needs : bool) (g : App) : App :=
  upd (fun w => set_connectionOpen false (set_v_online true (set_needsSetup (Some needs) (set_v_api api
    (set_deviceLabel label (set_v_baseUrl normalized w)))))) g.
Definition saveConnection_finish (base : jstr) (api : nat) (signed_in : bool) (label : jstr) (r : Reply) (g : App) : App :=
  match r with
  | ReplyConnection (Ok (normalized, needs)) =>
    if seqb normalized base then connection_done normalized label api needs g
    else sign_out api (AfterSwitchClear normalized label needs) (if signed_in then send api CallLogout g else g)
  | _ => g
  end.
(** When both the sign-out and the clearing have settled. *)
Definition switched (normalized label : jstr) (needs : bool) (g : App) : App :=
  connection_done normalized label (length (apis g)) needs
    (upd (set_login_busy None) (set_apis (apis g ++ [new_api normalized None]) g)).

(** ** Events *)

Inductive Event :=
  | Retry
  | SubmitLogin (name password : jstr)
  | Logout
  | Refresh
  | UseView
  | Navigate (next : TeacherTab)
  | ForgetAccount (name : jstr)
  | SchoolCreated
  | OpenConnection
  | CloseConnection
  | SubmitConnection (label : jstr)
  | Answer (i : nat) (r : Reply)
  | RunStore (works : bool).
Definition navigate (next : TeacherTab) : TeacherTab :=
  match next with TabStudents | TabAttendance | TabAssignments => TabClassrooms | t => t end.
Definition answer (w : Wait) (r : Reply) (g : App) : App :=
  match w with
  | WaitStatus gen api host session => status_finish gen api host session r g
  | WaitStartMe gen api host session => start_me_finish gen api host session r g
  | WaitLoad gen asked k => load_finish gen asked k r g
  | WaitRetry gen api => retry_finish gen api r g
  | WaitLogin gen api base => login_finish gen api base r g
  | WaitConnection base api signed_in label => saveConnection_finish base api signed_in label r g
  | WaitSwitched normalized label needs => switched normalized label needs g
  | WaitView api => view_settled api r g
  end.
Definition resume (k : Cont) (works : bool) (g : App) : App :=
  match k with
  | AfterStartSave gen api => start_saved gen api works g
  | AfterStartClear => started g
  | AfterRetryClear gen => retried gen g
  | AfterLoginSave gen api token user => login_saved gen api token user works g
  | AfterStaleClear gen => login_done gen g
  | AfterLogoutClear => g
  | AfterSwitchClear normalized label needs => await (WaitSwitched normalized label needs) g
  end.
Definition shown_view (g : App) : StartupView :=
  teacherStartupView (needsSetup (view g)) (match v_user (view g) with Some _ => true | None => false end).

Definition handle (e : Event) (g : App) : option App :=
  let v := view g in
  match e with
  | Answer i r =>
    match waits g !! i with
    | Some w => Some (answer w r (set_waits (delete i (waits g)) g))
    | None => None
    end
  | RunStore works =>
    match queue g with
    | (o, k) :: q => Some (resume k works (set_disk (perform o works (disk g)) (set_queue q g)))
    | [] => None
    end
  | Retry =>
    match teacherReconnectDelay (v_online v) (match v_user v with Some _ => true | None => false end) with
    | Some _ => Some (retry_start g)
    | None => None
    end
  | _ =>
    if loading v then None
    else
      match e, shown_view g with
      | SubmitLogin name password, SignInView =>
        match login_busy v with None => Some (login_start (trim name) password g) | Some _ => None end
      | Logout, WorkspaceView => Some (logout g)
      | Refresh, WorkspaceView => Some (loadWorkspace (v_api v) (generation g) ThenNothing g)
      | UseView, WorkspaceView => Some (await (WaitView (v_api v)) g)
      | Navigate next, WorkspaceView => Some (upd (set_tab (navigate next)) g)
      | ForgetAccount name, WorkspaceView => Some (forgetAccount name g)
      | SchoolCreated, CreateSchoolView => Some (upd (set_needsSetup (Some false)) g)
      | OpenConnection, _ => Some (upd (set_connectionOpen true) g)
      | CloseConnection, _ => Some (upd (set_connectionOpen false) g)
      | SubmitConnection label, _ => if connectionOpen v then Some (saveConnection_start label g) else None
      | _, _ => None
      end
  end.
Fixpoint run (es : list Event) (g : App) : option App :=
  match es with
  | [] => Some g
  | e :: es' => match handle e g with Some g' => run es' g' | None => None end
  end.

(** ** Whom a token is shown to *)

Module TokenFacts.

Section vouched.
(** Where a token came from before the app was started. *)
Context (kept : jstr -> jstr -> Prop).
Definition vouched (g : App) (base t : jstr) : Prop := (base, t) ∈ issued g \/ kept base t.

(** The value stored for a session of a Host. *)
Definition stored_for (g : App) (v : jsval) : Prop :=
  exists base token user, v = session_value base token user /\ vouched g (strip_slashes base) token.
Definition at_base (g : App) (api : nat) (base : jstr) : Prop :=
  exists a, apis g !! api = Some a /\ api_base a = strip_slashes base.
Definition wait_ok (g : App) (w : Wait) : Prop :=
  match w with
  | WaitStatus _ _ host (Some s) | WaitStartMe _ _ host s => vouched g (strip_slashes host) (token s)
  | WaitLogin _ api base | WaitConnection base api _ _ => at_base g api base
  | _ => True
  end.
Definition op_ok (d0 : option jsval) (g : App) (p : StoreOp * Cont) : Prop :=
  (forall v, fst p = SaveOp v -> stored_for g v) /\
  match snd p with
  | AfterLoginSave _ api t _ => exists a, apis g !! api = Some a /\ vouched g (api_base a) t
  | _ => True
  end.

Record Owned (d0 : option jsval) (g : App) : Prop := {
  ow_apis : forall i a t, apis g !! i = Some a -> bearer a = Some t -> vouched g (api_base a) t;
  ow_sent : forall r t, r ∈ requests g -> sent_token r = Some t -> vouched g (sent_base r) t;
  ow_view : at_base g (v_api (view g)) (v_baseUrl (view g));
  ow_waits : Forall (wait_ok g) (waits g);
  ow_queue : Forall (op_ok d0 g) (queue g);
  ow_disk : disk g = None \/ disk g = d0 \/ exists v, disk g = Some v /\ stored_for g v
}.

(** Updates that touch none of this. *)
Definition parts (g : App) := (apis g, requests g, v_api (view g), v_baseUrl (view g), waits g, queue g, disk g, issued g).
Lemma owned_parts d0 g g' : parts g = parts g' -> Owned d0 g -> Owned d0 g'.
Proof.
  unfold parts. intros E [H1 H2 H3 H4 H5 H6]. simplify_eq.
  assert (Ha : forall api base, at_base g api base -> at_base g' api base) by (intros api base (a & ? & ?); exists a; split; congruence).
  assert (Ei : forall b t, vouched g b t -> vouched g' b t) by (unfold vouched; intros b t; by replace (issued g') with (issued g)). split.
  - intros i a t. replace (apis g') with (apis g). intros Hi Ht. apply Ei. by eapply H1.
  - intros r t. replace (requests g') with (requests g). intros Hr Ht. apply Ei. by apply H2.
  - replace (v_api (view g')) with (v_api (view g)). replace (v_baseUrl (view g')) with (v_baseUrl (view g)). by apply Ha.
  - replace (waits g') with (waits g). eapply Forall_impl; [exact H4|].
    intros [? ? ? [?|]| | | | | | |]; cbn; auto.
  - replace (queue g') with (queue g). eapply Forall_impl; [exact H5|]. intros [o k] [Hs Hk]. split.
    + intros v Hv. destruct (Hs v Hv) as (b & u & us & ? & ?). exists b, u, us. auto.
    + destruct k; try done. cbn in *. replace (apis g') with (apis g). destruct Hk as (a & ? & ?). exists a. auto.
  - replace (disk g') with (disk g). destruct H6 as [?|[?|(v & ? & b & u & us & ? & ?)]]; [by left|by right; left|right; right].
    exists v. split; [done|]. exists b, u, us. auto.
Qed.
Lemma owned_await d0 w g : wait_ok g w -> Owned d0 g -> Owned d0 (await w g).
Proof.
  intros Hw [H1 H2 H3 H4 H5 H6]. split; try done. cbn. apply Forall_app. split; [exact H4|]. apply Forall_singleton. exact Hw.
Qed.
Lemma owned_store d0 o k g : op_ok d0 g (o, k) -> Owned d0 g -> Owned d0 (store_op o k g).
Proof. intros Ho [H1 H2 H3 H4 H5 H6]. split; try done. cbn. apply Forall_app. split; [exact H5|]. apply Forall_singleton. exact Ho. Qed.
Lemma owned_send d0 i c g : Owned d0 g -> Owned d0 (send i c g).
Proof.
  intros [H1 H2 H3 H4 H5 H6]. split; try done. intros r t. cbn. rewrite elem_of_app. intros [Hr|Hr]; [by apply H2|].
  apply list_elem_of_singleton in Hr as ->. cbn. unfold credentials.
  destruct (apis g !! i) as [a|] eqn:Ea; [|done]. cbn. by apply H1 with i.
Qed.
(** A token put on a client, or taken off it. *)
Lemma owned_setToken d0 i t g : Owned d0 g ->
  (forall a u, apis g !! i = Some a -> t = Some u -> vouched g (api_base a) u) -> Owned d0 (setToken_api i t g).
Proof.
  intros [H1 H2 H3 H4 H5 H6] Ht.
  assert (Hb : forall api base, at_base g api base -> at_base (setToken_api i t g) api base).
  { intros api base (a & Ea & Eb). unfold at_base, setToken_api. cbn. destruct (decide (i = api)) as [->|Hn].
    - rewrite list_lookup_alter_eq, Ea. eexists. split; [reflexivity|done].
    - rewrite list_lookup_alter_ne by done. by exists a. }
  split; try done.
  - intros j a u. cbn. destruct (decide (i = j)) as [<-|Hn].
    + rewrite list_lookup_alter_eq. destruct (apis g !! i) as [b|] eqn:Eb; [|done]. cbn. intros Ha. apply (inj Some) in Ha as <-.
      unfold bearer. cbn. destruct t as [[|c t]|]; [done| |done]. intros Hu. apply (inj Some) in Hu as <-. by apply (Ht b).
    + rewrite list_lookup_alter_ne by done. apply H1.
  - by apply Hb.
  - eapply Forall_impl; [exact H4|]. intros [? ? ? [?|]| | | | | | |]; cbn; auto.
  - eapply Forall_impl; [exact H5|]. intros [o k] [Hs Hk]. split; [done|]. destruct k; try done. cbn in *.
    destruct Hk as (a & Ea & Hi). destruct (decide (i = api)) as [->|Hn].
    + rewrite list_lookup_alter_eq, Ea. eexists. split; [reflexivity|done].
    + rewrite list_lookup_alter_ne by done. by exists a.
Qed.
Lemma owned_reset d0 g : Owned d0 g -> Owned d0 (resetWorkspace g).
Proof. by apply owned_parts. Qed.
Lemma owned_sign_out d0 api k g : (forall g', op_ok d0 g' (ClearOp, k)) -> Owned d0 g -> Owned d0 (sign_out api k g).
Proof.
  intros Hk HO. apply owned_store; [apply Hk|]. eapply owned_parts; [|apply (owned_setToken d0 api None (resetWorkspace g)); [by apply owned_reset|done]].
  done.
Qed.
Lemma clear_ok d0 g k : match k with AfterLoginSave _ _ _ _ => False | _ => True end -> op_ok d0 g (ClearOp, k).
Proof. intros Hk. split; [done|]. by destruct k. Qed.
Lemma owned_continue d0 k g : Owned d0 g -> Owned d0 (continue k g).
Proof. apply owned_parts. destruct k; try done. cbn. unfold retried. by case_bool_decide. Qed.
Lemma owned_retried d0 gen g : Owned d0 g -> Owned d0 (retried gen g).
Proof. apply (owned_continue d0 (ThenRetried gen)). Qed.
Lemma owned_login_done d0 gen g : Owned d0 g -> Owned d0 (login_done gen g).
Proof. apply owned_parts. unfold login_done. by case_bool_decide. Qed.
Lemma owned_load d0 api gen k g : Owned d0 g -> Owned d0 (loadWorkspace api gen k g).
Proof.
  intros HO. unfold loadWorkspace. destruct (negb _); [by apply owned_continue|]. case_bool_decide; [by apply owned_continue|].
  apply owned_await; [done|]. eapply owned_send, owned_parts; [|exact HO]. done.
Qed.
Lemma owned_issue d0 i t g : is_Some (apis g !! i) -> Owned d0 g -> Owned d0 (issue i t g).
Proof.
  intros _ [H1 H2 H3 H4 H5 H6].
  assert (Hin : forall b u, vouched g b u -> vouched (issue i t g) b u) by (intros b u [H|H]; [left; by right|by right]). split; try done.
  - intros j a u Ha Hu. by apply Hin, H1 with j.
  - intros r u Hr Hu. by apply Hin, H2.
  - eapply Forall_impl; [exact H4|]. intros [? ? ? [?|]| | | | | | |]; cbn; auto.
  - eapply Forall_impl; [exact H5|]. intros [o k] [Hs Hk]. split.
    + intros v Hv. destruct (Hs v Hv) as (b & u & us & ? & ?). exists b, u, us. auto.
    + destruct k; try done. cbn in *. destruct Hk as (a & Ea & ?). exists a. auto.
  - destruct H6 as [?|[?|(v & ? & b & u & us & ? & ?)]]; [by left|by right; left|right; right].
    exists v. split; [done|]. exists b, u, us. auto.
Qed.

Lemma ok_save d0 g base t u k : vouched g (strip_slashes base) t ->
  match k with AfterLoginSave _ api t' _ => exists a, apis g !! api = Some a /\ vouched g (api_base a) t' | _ => True end ->
  op_ok d0 g (SaveOp (session_value base t u), k).
Proof.
  intros Hi Hk. split; [|done]. cbn. intros v Hv. injection Hv as <-. exists base, t, u. done.
Qed.
(** Whatever is answered. *)
Lemma owned_sign_out' d0 api k g : match k with AfterLoginSave _ _ _ _ => False | _ => True end ->
  Owned d0 g -> Owned d0 (sign_out api k g).
Proof. intros Hk. apply owned_sign_out. intros g'. by apply clear_ok. Qed.
Lemma owned_offline d0 s g : Owned d0 g -> Owned d0 (offline_session s g).
Proof. apply owned_parts. by destruct s. Qed.
Lemma owned_started d0 g : Owned d0 g -> Owned d0 (started g).
Proof. by apply owned_parts. Qed.
Lemma owned_done d0 normalized label api needs g : at_base g api normalized -> Owned d0 g ->
  Owned d0 (connection_done normalized label api needs g).
Proof. intros Hb [H1 H2 H3 H4 H5 H6]. by split. Qed.
Lemma owned_push d0 base g : Owned d0 g -> Owned d0 (set_apis (apis g ++ [new_api base None]) g).
Proof.
  intros [H1 H2 H3 H4 H5 H6].
  assert (Hl : forall i a, apis g !! i = Some a -> (apis g ++ [new_api base None]) !! i = Some a)
    by (intros; by apply lookup_app_l_Some).
  assert (Hb : forall api b, at_base g api b -> at_base (set_apis (apis g ++ [new_api base None]) g) api b).
  { intros api b (a & Ha & Eb). exists a. split; [by apply Hl|done]. }
  split; try done.
  - intros i a t Ha. apply lookup_app_Some in Ha as [Ha|[_ Ha]]; [by apply H1 with i|].
    apply list_lookup_singleton_Some in Ha as [_ <-]. done.
  - by apply Hb.
  - eapply Forall_impl; [exact H4|]. intros [? ? ? [?|]| | | | | | |]; cbn; auto.
  - eapply Forall_impl; [exact H5|]. intros [o k] [Hs Hk]. split; [done|]. destruct k; try done. cbn in *.
    destruct Hk as (a & Ha & Hi). exists a. split; [by apply Hl|done].
Qed.
Ltac unchanged := match goal with H : Owned ?d _ |- Owned ?d _ => eapply owned_parts; [|exact H]; done end.
Lemma owned_answer d0 w r g : wait_ok g w -> Owned d0 g -> Owned d0 (answer w r g).
Proof.
  destruct w as [gen api host session|gen api host s|gen asked k|gen api|gen api base|base api signed label|normalized label needs|api];
    cbn [answer wait_ok]; intros Hw HO.
  - unfold status_finish. assert (Hoff : Owned d0 (started (if is_current gen g then offline_session session g else g)))
      by (apply owned_started; destruct (is_current gen g); [by apply owned_offline|done]).
    destruct r; try exact Hoff. destruct (negb _); [by apply owned_started|].
    assert (HO2 : Owned d0 (upd (fun w => set_v_online true (set_needsSetup (Some needs_setup) w)) g)) by unchanged.
    destruct session as [s|]; [|by apply owned_started]. destruct needs_setup; [by apply owned_started|].
    apply owned_await; [exact Hw|]. by apply owned_send.
  - unfold start_me_finish. destruct r; try done.
    + destruct (negb _); [by apply owned_started|]. apply owned_store; [by apply ok_save|]. unchanged.
    + destruct (negb _); [by apply owned_started|]. destruct (_ && _); [by apply owned_started, owned_offline|].
      by apply owned_sign_out'.
  - unfold load_finish. apply owned_continue. destruct (negb _); [done|]. eapply owned_parts; [|exact HO]. by destruct r.
  - unfold retry_finish. destruct r; try done.
    + destruct (_ || _); [by apply owned_retried|]. apply owned_load. unchanged.
    + destruct (_ || _); [by apply owned_retried|]. destruct (_ && _); [apply owned_retried; unchanged|].
      apply owned_sign_out'; [done|]. unchanged.
  - unfold login_finish. destruct r; try done; [|by apply owned_login_done].
    destruct Hw as (a & Ha & Hb).
    assert (HO2 : Owned d0 (issue api token g)) by (by apply owned_issue).
    destruct (negb _); [by apply owned_login_done|]. apply owned_store; [|done].
    assert (Hin : vouched (issue api token g) (api_base a) token).
    { left. unfold issue, credentials. rewrite Ha. by left. }
    apply ok_save; [by rewrite <- Hb|]. by exists a.
  - unfold saveConnection_finish. destruct r as [| | | |[[normalized needs]|]| |]; try done.
    destruct (seqb normalized base) eqn:E; [apply seqb_eq in E as ->; by apply owned_done|].
    apply owned_sign_out'; [done|]. destruct signed; [by apply owned_send|done].
  - unfold switched. apply owned_done.
    + unfold at_base. cbn. exists (new_api normalized None). split; [|done]. rewrite lookup_app_r, Nat.sub_diag by lia. done.
    + eapply owned_parts; [|by apply (owned_push d0 normalized)]. done.
  - unfold view_settled. destruct r; try done. by apply owned_load.
Qed.
Lemma owned_resume d0 k works g :
  match k with AfterLoginSave _ api t _ => exists a, apis g !! api = Some a /\ vouched g (api_base a) t | _ => True end ->
  Owned d0 g -> Owned d0 (resume k works g).
Proof.
  intros Hk HO. destruct k as [gen api| |gen|gen api t u|gen| |normalized label needs]; cbn [resume].
  - unfold start_saved. destruct (negb _); [by apply owned_started|]. destruct works; [by apply owned_load|by apply owned_sign_out'].
  - by apply owned_started.
  - by apply owned_retried.
  - unfold login_saved. destruct (negb _); [by apply owned_store|]. destruct (negb _); [by apply owned_login_done|].
    apply owned_load. eapply owned_parts; [|apply (owned_setToken d0 api (Some t) (login_done gen g)); [by apply owned_login_done|]]; [done|].
    assert (El : apis (login_done gen g) = apis g /\ issued (login_done gen g) = issued g)
      by (unfold login_done; by case_bool_decide). unfold vouched in *. destruct El as [-> ->].
    intros a' u' Ha' Hu'. injection Hu' as <-. destruct Hk as (a & Ha & Hi). congruence.
  - by apply owned_login_done.
  - done.
  - by apply owned_await.
Qed.
Lemma owned_handle d0 e g g' : Owned d0 g -> handle e g = Some g' -> Owned d0 g'.
Proof.
  intros HO. pose proof HO as [H1 H2 H3 H4 H5 H6]. unfold handle.
  assert (Hafter : match e with Answer _ _ | RunStore _ | Retry => True | _ => (if loading (view g) then None else
      match e, shown_view g with
      | SubmitLogin name password, SignInView =>
        match login_busy (view g) with None => Some (login_start (trim name) password g) | Some _ => None end
      | Logout, WorkspaceView => Some (logout g)
      | Refresh, WorkspaceView => Some (loadWorkspace (v_api (view g)) (generation g) ThenNothing g)
      | UseView, WorkspaceView => Some (await (WaitView (v_api (view g))) g)
      | Navigate next, WorkspaceView => Some (upd (set_tab (navigate next)) g)
      | ForgetAccount name, WorkspaceView => Some (forgetAccount name g)
      | SchoolCreated, CreateSchoolView => Some (upd (set_needsSetup (Some false)) g)
      | OpenConnection, _ => Some (upd (set_connectionOpen true) g)
      | CloseConnection, _ => Some (upd (set_connectionOpen false) g)
      | SubmitConnection label, _ => if connectionOpen (view g) then Some (saveConnection_start label g) else None
      | _, _ => None
      end) = Some g' -> Owned d0 g' end).
  { destruct e; try done; destruct (loading (view g)); try done; destruct (shown_view g); try done;
      try (intros Hr; apply (inj Some) in Hr as <-; unchanged);
      try (destruct (connectionOpen _); [|done]; intros Hr; apply (inj Some) in Hr as <-; by apply owned_await);
      try (intros Hr; apply (inj Some) in Hr as <-).
    - destruct (login_busy _); [done|]. intros Hr. apply (inj Some) in Hr as <-. unfold login_start.
      apply owned_await; [exact H3|]. eapply owned_parts; [|eapply owned_send, owned_reset, HO]. done.
    - unfold logout. apply owned_sign_out'; [done|]. by apply owned_send.
    - by apply owned_load.
    - by apply owned_await. }
  destruct e as [| | | | | | | | | | |i r|works]; try exact Hafter.
  - destruct (teacherReconnectDelay _ _); [|done]. intros Hr. apply (inj Some) in Hr as <-. unfold retry_start.
    case_bool_decide; [done|]. apply owned_await; [done|]. eapply owned_send, owned_parts; [|exact HO]. done.
  - destruct (waits g !! i) as [w|] eqn:Ew; [|done]. intros Hr. apply (inj Some) in Hr as <-.
    apply owned_answer.
    + rewrite Forall_forall in H4. specialize (H4 w (list_elem_of_lookup_2 _ _ _ Ew)). by destruct w as [? ? ? [?|]| | | | | | |].
    + split; try done. cbn. by apply Forall_delete.
  - destruct (queue g) as [|[o k] q] eqn:Eq; [done|]. intros Hr. apply (inj Some) in Hr as <-.
    apply Forall_cons in H5 as [[Ho Hk] H5].
    apply owned_resume; [done|]. split; try done. cbn. destruct works, o as [v|]; cbn; try done.
    + right; right. exists v. split; [done|]. by apply Ho.
    + by left.
Qed.
Lemma owned_run d0 es g g' : Owned d0 g -> run es g = Some g' -> Owned d0 g'.
Proof.
  revert g. induction es as [|e es IH]; intros g HO; cbn [run].
  - intros Hr. by apply (inj Some) in Hr as <-.
  - destruct (handle e g) as [g1|] eqn:Eh; [|done]. apply IH. by eapply owned_handle.
Qed.
End vouched.

(** What was stored: a session, with the address it was stored with, where
    that address still passes the checks. *)
Definition stored_with (normalize : jstr -> option jstr) (stored : option StoredTeacherSession) (base t : jstr) : Prop :=
  exists s u, stored = Some s /\ t = token s /\ normalize (baseUrl s) = Some u /\ base = strip_slashes u.
Lemma owned_mount tauri url label normalize stored0 d0 known :
  Owned (stored_with normalize stored0) d0 (mount tauri url label normalize stored0 d0 known).
Proof.
  unfold mount. set (kept := stored_with normalize stored0).
  assert (H : forall v gen host (session : option StoredTeacherSession) d,
    v_api v = 1%nat -> v_baseUrl v = host -> d = None \/ d = d0 ->
    (forall s, session = Some s -> kept (strip_slashes host) (token s)) ->
    Owned kept d0 (await (WaitStatus gen 1 host session) (send 1 CallStatus
      (mkApp v gen None None [new_api DEV_HOST None; new_api host (token <$> session)] [] [] d [] [] None)))).
  { intros v gen host session d Ev Eb Hd Hk. apply owned_await; [destruct session; [right; by apply Hk|done]|]. apply owned_send. split; try done.
    - intros [|[|i]] a t; cbn; try done; intros Ha; apply (inj Some) in Ha as <-; [done|].
      unfold bearer. destruct session as [s|]; [|done]. cbn. destruct (token s) as [|c t'] eqn:Et; [done|].
      intros Hb. apply (inj Some) in Hb as <-. right. rewrite <- Et. by apply Hk.
    - by intros r t ?%elem_of_nil.
    - cbn. rewrite Ev, Eb. by exists (new_api host (token <$> session)).
    - cbn. destruct Hd; auto. }
  destruct (normalize _) as [u|] eqn:En; [|destruct stored0 as [s|]]; cbv zeta; apply H; try done; auto.
  intros s ->. by exists s, u.
Qed.
End TokenFacts.
Import TokenFacts.


(** ** Whose workspace is shown *)

Module WorkspaceFacts.

(** While an address is checked or changed the dialog is in front: it is not
    closed, and nobody signs in or out behind it.  The page does not see to
    that, see [login_during_switch].  And the Host answers with a workspace only
    to a token. *)
Definition changing (g : App) : bool :=
  existsb (fun w => match w with WaitConnection _ _ _ _ | WaitSwitched _ _ _ => true | _ => false end) (waits g) ||
  existsb (fun p : StoreOp * Cont => match snd p with AfterSwitchClear _ _ _ => true | _ => false end) (queue g).
Definition in_front (e : Event) : bool :=
  match e with SubmitLogin _ _ | Logout | CloseConnection | SubmitConnection _ => false | _ => true end.
Definition authenticated (e : Event) (g : App) : bool :=
  match e with
  | Answer i (ReplyWorkspace _) => match waits g !! i with Some (WaitLoad _ (_, None) _) => false | _ => true end
  | _ => true
  end.
(** Something holds at every event of a run. *)
Fixpoint along (ok : Event -> App -> bool) (es : list Event) (g : App) : bool :=
  match es with
  | [] => true
  | e :: es' => ok e g && match handle e g with Some g' => along ok es' g' | None => true end
  end.
Definition dialog_in_front (e : Event) (g : App) : bool := negb (changing g && negb (in_front e)).
Inductive step : App -> App -> Prop :=
  | step_event e g g' : changing g && negb (in_front e) = false -> authenticated e g = true -> handle e g = Some g' -> step g g'.

(** What a continuation counts on while its generation is current. *)
Inductive Claim :=
  | Free
  | Starting (gen : Z) (api : nat)
  | SigningIn (gen : Z) (api : nat)
  | Signed (gen : Z) (api : nat)
  | Loading (gen : Z) (asked : Credentials)
  | Checking (api : nat)
  | Viewing (api : nat)
  | Switching.
Definition wait_claim (w : Wait) : Claim :=
  match w with
  | WaitStatus gen api _ _ | WaitStartMe gen api _ _ => Starting gen api
  | WaitLoad gen asked _ => Loading gen asked
  | WaitRetry gen api => Signed gen api
  | WaitLogin gen api _ => SigningIn gen api
  | WaitConnection _ api _ _ => Checking api
  | WaitSwitched _ _ _ => Switching
  | WaitView api => Viewing api
  end.
Definition cont_claim (k : Cont) : Claim :=
  match k with
  | AfterStartSave gen api => Signed gen api
  | AfterLoginSave gen api _ _ => SigningIn gen api
  | AfterSwitchClear _ _ _ => Switching
  | _ => Free
  end.
Definition claims (g : App) : list Claim := (wait_claim <$> waits g) ++ (cont_claim ∘ snd <$> queue g).
Definition gen_of (c : Claim) : option Z :=
  match c with
  | Starting gen _ | SigningIn gen _ | Signed gen _ | Loading gen _ => Some gen
  | _ => None
  end.
Definition signer (c : Claim) : option Z := match c with Starting gen _ | SigningIn gen _ => Some gen | _ => None end.
Definition conn (c : Claim) : option unit := match c with Checking _ | Switching => Some tt | _ => None end.
Definition not_newer (g : App) (c : Claim) : Prop := forall gen, gen_of c = Some gen -> gen <= generation g.
Definition older (g : App) (c : Claim) : Prop := forall gen, gen_of c = Some gen -> gen < generation g.
(** A load without a token, which brings nothing. *)
Definition bare (c : Claim) : Prop := match c with Loading _ asked => snd asked = None | _ => False end.
Definition stale (g : App) (c : Claim) : Prop := bare c \/ older g c.
(** Of a current claim. *)
Definition holds (g : App) (c : Claim) : Prop :=
  match c with
  | Starting _ api | SigningIn _ api => v_user (view g) = None /\ api = v_api (view g)
  | Signed _ api => v_user (view g) <> None /\ api = v_api (view g)
  | Loading _ asked => snd asked = None \/ v_user (view g) <> None /\ asked = credentials (v_api (view g)) g
  | Viewing api => snd (credentials api g) = None \/ v_user (view g) <> None /\ api = v_api (view g)
  | Checking api => api = v_api (view g)
  | Free | Switching => True
  end.
Definition claim_ok (g : App) (c : Claim) : Prop :=
  not_newer g c /\ (gen_of c = None \/ gen_of c = Some (generation g) -> holds g c).

Record Inv (g : App) : Prop := {
  inv_shown : match source g with
              | None => workspace (view g) = EMPTY
              | Some asked => v_user (view g) <> None /\ credentials (v_api (view g)) g = asked
              end;
  inv_claims : Forall (claim_ok g) (claims g);
  inv_signers : NoDup (filter_map signer (claims g));
  inv_conn : (length (filter_map conn (claims g)) <= 1)%nat;
  inv_switch : Switching ∈ claims g -> v_user (view g) = None /\ Forall (stale g) (claims g)
}.

Definition same (g g' : App) : Prop :=
  generation g = generation g' /\ v_user (view g) = v_user (view g') /\ v_api (view g) = v_api (view g') /\
  apis g = apis g' /\ workspace (view g) = workspace (view g') /\
  source g = source g'.
Lemma claim_same g g' c : same g g' -> claim_ok g c -> claim_ok g' c.
Proof.
  intros (E1 & E2 & E3 & E4 & _ & _) [Hn Hh]. split; [unfold not_newer; by rewrite <- E1|].
  rewrite <- E1. intros Hg. specialize (Hh Hg). destruct c; cbn in *; unfold credentials in *; by rewrite <- ?E2, <- ?E3, <- ?E4.
Qed.
Lemma stale_same g g' c : generation g = generation g' -> stale g c -> stale g' c.
Proof. intros E. unfold stale, older. by rewrite E. Qed.
Lemma shown_same g g' : same g g' ->
  match source g with None => workspace (view g) = EMPTY | Some a => v_user (view g) <> None /\ credentials (v_api (view g)) g = a end ->
  match source g' with None => workspace (view g') = EMPTY | Some a => v_user (view g') <> None /\ credentials (v_api (view g')) g' = a end.
Proof. intros (_ & E2 & E3 & E4 & E5 & E6). unfold credentials. by rewrite <- E2, <- E3, <- E4, <- E5, <- E6. Qed.

(** Claims come and go. *)
Lemma inv_perm g g' : same g g' -> claims g' ≡ₚ claims g -> Inv g -> Inv g'.
Proof.
  intros Hs Hp [H1 H2 H3 H4 H5]. split.
  - by eapply shown_same.
  - rewrite Hp. eapply Forall_impl; [exact H2|]. intros c. by apply claim_same.
  - by rewrite (filter_map_perm _ _ _ Hp).
  - by rewrite (Permutation_length (filter_map_perm conn _ _ Hp)).
  - rewrite Hp. intros Hw. destruct (H5 Hw) as [Hu Hst]. destruct Hs as (E1 & E2 & _).
    split; [congruence|]. eapply Forall_impl; [exact Hst|]. intros c. by apply stale_same.
Qed.
(** A claim is taken up: what it may count on. *)
Record Taken (c : Claim) (g : App) : Prop := {
  tk_inv : Inv g;
  tk_ok : claim_ok g c;
  tk_signer : forall gen, signer c = Some gen -> gen ∉ filter_map signer (claims g);
  tk_conn : is_Some (conn c) -> filter_map conn (claims g) = [];
  tk_switch : Switching ∈ claims g -> stale g c;
  tk_switching : c = Switching -> v_user (view g) = None /\ Forall (stale g) (claims g)
}.
Lemma teacher_inv_take g g' c : same g g' -> claims g ≡ₚ c :: claims g' -> Inv g -> Taken c g'.
Proof.
  intros Hs Hp [H1 H2 H3 H4 H5]. rewrite Hp in H2. apply Forall_cons in H2 as [Hc H2].
  rewrite (filter_map_perm _ _ _ Hp) in H3. rewrite (Permutation_length (filter_map_perm conn _ _ Hp)) in H4.
  assert (Eg : generation g = generation g') by apply Hs. assert (Eu : v_user (view g) = v_user (view g')) by apply Hs.
  assert (H5' : Switching ∈ c :: claims g' -> v_user (view g') = None /\ stale g' c /\ Forall (stale g') (claims g')).
  { rewrite <- Hp. intros Hw. destruct (H5 Hw) as [Hu Hst]. rewrite Hp in Hst. apply Forall_cons in Hst as [Hsc Hst].
    split_and!; [congruence|by eapply stale_same|]. eapply Forall_impl; [exact Hst|]. intros x. by apply stale_same. }
  split.
  - split.
    + by eapply shown_same.
    + eapply Forall_impl; [exact H2|]. intros x. by apply claim_same.
    + cbn in H3. destruct (signer c); [by apply NoDup_cons in H3 as [_ H3]|done].
    + cbn in H4. destruct (conn c); cbn in H4; lia.
    + intros Hw. destruct H5' as (? & _ & ?); [by right|done].
  - by eapply claim_same.
  - intros gen Hg. cbn in H3. rewrite Hg in H3. by apply NoDup_cons in H3 as [? _].
  - intros [[] Hn]. cbn in H4. rewrite Hn in H4. cbn in H4. apply length_zero_iff_nil. lia.
  - intros Hw. by destruct H5' as (_ & ? & _); [right|].
  - intros ->. destruct H5' as (? & _ & ?); [by left|done].
Qed.
(** A claim is made. *)
Lemma inv_make g g' c : same g g' -> claims g' ≡ₚ c :: claims g -> Inv g -> claim_ok g c ->
  (forall gen, signer c = Some gen -> gen ∉ filter_map signer (claims g)) ->
  (is_Some (conn c) -> filter_map conn (claims g) = []) ->
  (Switching ∈ claims g -> stale g c) ->
  (c = Switching -> v_user (view g) = None /\ Forall (stale g) (claims g)) -> Inv g'.
Proof.
  intros Hs Hp [H1 H2 H3 H4 H5] Hc Hsg Hcn Hsw Hsw'.
  assert (Eg : generation g = generation g') by apply Hs. assert (Eu : v_user (view g) = v_user (view g')) by apply Hs. split.
  - by eapply shown_same.
  - rewrite Hp. constructor; [by eapply claim_same|]. eapply Forall_impl; [exact H2|]. intros x. by apply claim_same.
  - rewrite (filter_map_perm _ _ _ Hp). cbn. destruct (signer c) as [gen|]; [|done]. apply NoDup_cons. auto.
  - rewrite (Permutation_length (filter_map_perm conn _ _ Hp)). cbn. destruct (conn c); [|done]. by rewrite Hcn.
  - rewrite Hp. intros Hw.
    assert (Hall : v_user (view g) = None /\ stale g c /\ Forall (stale g) (claims g)).
    { apply elem_of_cons in Hw as [<-|Hw].
      - destruct (Hsw' eq_refl) as [? ?]. split_and!; [done|by right|done].
      - destruct (H5 Hw) as [? ?]. split_and!; auto. }
    destruct Hall as (Hu & Hsc & Hst). split; [congruence|]. constructor; [by eapply stale_same|].
    eapply Forall_impl; [exact Hst|]. intros x. by apply stale_same.
Qed.
Lemma claims_await w g : claims (await w g) ≡ₚ wait_claim w :: claims g.
Proof. unfold claims, await. cbn. rewrite fmap_app, <- app_assoc. cbn. by rewrite <- Permutation_middle. Qed.
Lemma teacher_claims_store o k g : claims (store_op o k g) ≡ₚ cont_claim k :: claims g.
Proof. unfold claims, store_op. cbn. rewrite fmap_app, app_assoc. cbn. by rewrite <- Permutation_cons_append. Qed.

(** Signing out outdates every claim. *)
Lemma claims_sign_out api k g : claims (sign_out api k g) ≡ₚ cont_claim k :: claims g.
Proof. unfold sign_out. rewrite teacher_claims_store. done. Qed.
Lemma outdated g g' c : not_newer g c -> generation g' = generation g + 1 -> older g' c.
Proof. intros Hn E gen Hg. specialize (Hn gen Hg). lia. Qed.
Lemma stale_claim g c : not_newer g c -> stale g c -> (gen_of c = None -> holds g c) -> claim_ok g c.
Proof.
  intros Hn Hst Hh. split; [done|]. intros [Hg|Hg]; [by apply Hh|]. destruct Hst as [Hb|Hst].
  - destruct c; try done. by left.
  - specialize (Hst _ Hg). lia.
Qed.
Lemma older_newer g c : older g c -> not_newer g c.
Proof. intros Ho gen Hg. specialize (Ho gen Hg). lia. Qed.
Lemma credentials_cleared api i g : snd (credentials i g) = None \/ i = api ->
  snd (credentials i (setToken_api api None g)) = None.
Proof.
  unfold credentials, setToken_api. cbn. destruct (decide (api = i)) as [->|Hn].
  - rewrite list_lookup_alter_eq. by destruct (apis g !! i).
  - rewrite list_lookup_alter_ne by done. by intros [?|<-].
Qed.
Lemma teacher_inv_sign_out g api k : Inv g -> api = v_api (view g) ->
  (cont_claim k = Free \/ cont_claim k = Switching /\ filter_map conn (claims g) = []) -> Inv (sign_out api k g).
Proof.
  intros [H1 H2 H3 H4 H5] Eapi Hk. set (g' := sign_out api k g).
  assert (Eg : generation g' = generation g + 1) by done.
  assert (Hst : Forall (older g') (claims g')).
  { unfold g'. rewrite claims_sign_out. constructor.
    - intros gen Hg. destruct Hk as [->|[-> _]] in Hg; done.
    - eapply Forall_impl; [exact H2|]. intros c [Hn _]. by eapply outdated. }
  split.
  - done.
  - apply Forall_forall. intros c Hc. assert (Ho : older g' c) by (by eapply Forall_forall in Hst).
    apply stale_claim; [by apply older_newer|by right|].
    unfold g' in Hc. rewrite claims_sign_out in Hc. apply elem_of_cons in Hc as [->|Hc].
    + by destruct Hk as [->|[-> _]].
    + eapply Forall_forall in H2; [|exact Hc]. destruct H2 as [_ Hh]. destruct c; cbn; try done; intros _.
      * apply Hh. by left.
      * left. apply (credentials_cleared api). destruct Hh as [Hh|[_ Hh]]; [by left|by left|right; congruence].
  - unfold g'. rewrite (filter_map_perm _ _ _ (claims_sign_out api k g)). cbn. by destruct Hk as [->|[-> _]].
  - unfold g'. rewrite (Permutation_length (filter_map_perm conn _ _ (claims_sign_out api k g))). cbn.
    destruct Hk as [->|[-> E]]; cbn; [done|]. by rewrite E.
  - intros _. split; [done|]. eapply Forall_impl; [exact Hst|]. by right.
Qed.
(** A teacher is signed in. *)
Lemma teacher_inv_set_user g g' u : Inv g -> generation g' = generation g -> v_user (view g') = Some u -> v_api (view g') = v_api (view g) ->
  claims g' = claims g -> workspace (view g') = workspace (view g) -> source g' = source g ->
  (forall i, i <> v_api (view g) \/ v_user (view g) <> None -> credentials i g' = credentials i g) ->
  (forall c, c ∈ claims g -> signer c <> Some (generation g)) -> Switching ∉ claims g -> Inv g'.
Proof.
  intros [H1 H2 H3 H4 H5] Eg Eu Ea Ec Ew Es Hcr Hsg Hsw. split; rewrite ?Ec; try done.
  - rewrite Es, Ew, Ea, Eu. destruct (source g) as [asked|]; [|done]. destruct H1 as [Hu Hc].
    split; [done|]. by rewrite Hcr by (by right).
  - apply Forall_forall. intros c Hc. pose proof (proj1 (Forall_forall _ _) H2 c Hc) as [Hn Hh].
    split; [unfold not_newer; by rewrite Eg|]. rewrite Eg. intros Hg. specialize (Hh Hg). specialize (Hsg c Hc).
    destruct c as [|gen api|gen api|gen api|gen asked|api|api|]; cbn in *; rewrite ?Eu, ?Ea; try done.
    + destruct Hg as [|Hg]; [done|congruence].
    + destruct Hg as [|Hg]; [done|congruence].
    + by destruct Hh.
    + destruct Hh as [?|[Hu ->]]; [by left|right]. split; [done|]. by rewrite Hcr by (by right).
    + destruct (decide (api = v_api (view g))) as [->|Hapi]; [by right|]. rewrite Hcr by (by left).
      destruct Hh as [?|[_ ?]]; [by left|done].
Qed.

Lemma is_current_true gen g : is_current gen g = true <-> gen = generation g.
Proof. apply Z.eqb_eq. Qed.
Lemma is_current_false gen g : negb (is_current gen g) = false -> gen = generation g.
Proof. rewrite negb_false_iff. apply is_current_true. Qed.

(** The parts that do not matter here. *)
Lemma inv_same g g' : same g g' -> claims g' = claims g -> Inv g -> Inv g'.
Proof. intros Hs E. apply inv_perm; [done|by rewrite E]. Qed.
Lemma same_refl g : same g g.
Proof. done. Qed.
Ltac light := match goal with H : Inv ?g |- Inv ?g' => apply (inv_same g); [|done|exact H]; done end.
Lemma inv_started g : Inv g -> Inv (started g).
Proof. intros H. light. Qed.
Lemma inv_retried gen g : Inv g -> Inv (retried gen g).
Proof. intros H. unfold retried. case_bool_decide; [light|done]. Qed.
Lemma teacher_inv_login_done gen g : Inv g -> Inv (login_done gen g).
Proof. intros H. unfold login_done. case_bool_decide; [light|done]. Qed.
Lemma inv_continue k g : Inv g -> Inv (continue k g).
Proof. intros H. destruct k; [done|by apply inv_started|by apply inv_retried]. Qed.

Lemma inv_load api gen k g : Inv g ->
  (gen = generation g -> snd (credentials api g) = None \/ v_user (view g) <> None /\ api = v_api (view g)) ->
  Inv (loadWorkspace api gen k g).
Proof.
  intros H Hg. unfold loadWorkspace. destruct (negb (is_current gen g)) eqn:Ec; [by apply inv_continue|].
  case_bool_decide; [by apply inv_continue|]. apply is_current_false in Ec as ->. specialize (Hg eq_refl).
  set (g1 := send _ _ _). assert (Hi : Inv g1) by (unfold g1; light).
  eapply (inv_make g1); [|apply claims_await|exact Hi|..]; try done.
  - split; [intros gen Hg'; injection Hg' as <-; cbn; lia|]. intros _. cbn. destruct Hg as [?|[? ->]]; [by left|by right].
  - by intros [? ?].
  - intros Hw. destruct (inv_switch _ Hi Hw) as [Hn _]. destruct Hg as [?|[Hu _]]; [by left|]. by destruct Hu.
Qed.

(** A session is taken up again: its claim is current and nobody is signed in. *)
Lemma inv_signed_in g api u : Taken (Starting (generation g) api) g ->
  Inv (rememberAccount (teacher_name u) (upd (set_v_user (Some u)) g)).
Proof.
  intros [Hi [_ Hh] Hsg _ Hsw _]. apply (teacher_inv_set_user g _ u); try done.
  - intros c Hc Hs. apply (Hsg (generation g)); [done|]. apply elem_of_filter_map. by exists c.
  - intros Hw. destruct (Hsw Hw) as [[]|Ho]. specialize (Ho (generation g) eq_refl). lia.
Qed.
Lemma inv_offline g gen api s : Taken (Starting gen api) g -> gen = generation g -> Inv (offline_session s g).
Proof.
  intros Ht ->. destruct s as [s|]; cbn [offline_session]; [|destruct Ht as [H]; light].
  pose proof (inv_signed_in g api (stored_user s) Ht) as H. light.
Qed.

Lemma taken_signer_fresh c g gen : Taken c g -> signer c = Some gen -> forall x, x ∈ claims g -> signer x <> Some gen.
Proof. intros Ht Hc x Hx Hs. apply (tk_signer _ _ Ht gen Hc). apply elem_of_filter_map. by exists x. Qed.

Lemma inv_status gen api host session r g : Taken (Starting gen api) g -> Inv (status_finish gen api host session r g).
Proof.
  intros Ht. pose proof (tk_inv _ _ Ht) as Hi. unfold status_finish.
  assert (Hoff : Inv (started (if is_current gen g then offline_session session g else g))).
  { apply inv_started. destruct (is_current gen g) eqn:Ec; [|done]. apply is_current_true in Ec. by eapply inv_offline. }
  destruct r; try exact Hoff. destruct (negb _) eqn:Ec; [by apply inv_started|]. apply is_current_false in Ec.
  set (g1 := upd _ g). assert (H1 : Inv g1) by (unfold g1; light).
  destruct session as [s|]; [|by apply inv_started]. destruct needs_setup; [by apply inv_started|].
  set (g2 := send api CallMe g1). assert (H2 : Inv g2) by (unfold g2; light).
  eapply (inv_make g2); [|apply claims_await|exact H2|..]; try done.
  - destruct Ht as [_ Ho _ _ _ _]. destruct Ho as [Hn Hh]. split; [exact Hn|exact Hh].
  - apply (tk_signer _ _ Ht).
  - intros [? ?]. done.
  - apply (tk_switch _ _ Ht).
Qed.
Lemma inv_start_me gen api host s r g : Taken (Starting gen api) g -> Inv (start_me_finish gen api host s r g).
Proof.
  intros Ht. pose proof (tk_inv _ _ Ht) as Hi. unfold start_me_finish. destruct r; try done.
  - destruct (negb _) eqn:Ec; [by apply inv_started|]. apply is_current_false in Ec as ->.
    pose proof (inv_signed_in g api user Ht) as H1. set (g1 := rememberAccount _ _) in *.
    eapply (inv_make g1); [|apply teacher_claims_store|exact H1|..]; try done.
    + split; [intros gen Hg; injection Hg as <-; cbn; lia|]. intros _. cbn. split; [done|].
      destruct Ht as [_ [_ Hh] _ _ _ _]. cbn in Hh. by apply Hh; right.
    + by intros [? ?].
    + intros Hw. destruct (inv_switch _ H1 Hw) as [Hn _]. done.
  - destruct (negb _) eqn:Ec; [by apply inv_started|]. apply is_current_false in Ec.
    destruct (_ && _); [apply inv_started; by eapply inv_offline|]. apply teacher_inv_sign_out; [done| |by left]. destruct (tk_ok _ _ Ht) as [_ Hh]. apply Hh. right. by rewrite Ec.
Qed.
Lemma inv_load_finish gen asked k r g : Taken (Loading gen asked) g ->
  match r with ReplyWorkspace _ => snd asked <> None | _ => True end -> Inv (load_finish gen asked k r g).
Proof.
  intros Ht Hr. pose proof (tk_inv _ _ Ht) as Hi. unfold load_finish. apply inv_continue.
  destruct (negb _) eqn:Ec; [done|]. apply is_current_false in Ec.
  destruct Ht as [_ [_ Hh] _ _ _ _]. cbn in Hh.
  destruct r as [| | |w| | |]; try light. destruct Hh as [?|[Hu Ha]]; [by right; f_equal|done|].
  by destruct Hi as [H1 H2 H3 H4 H5].
Qed.
Lemma inv_retry_finish gen api r g : Taken (Signed gen api) g -> Inv (retry_finish gen api r g).
Proof.
  intros Ht. pose proof (tk_inv _ _ Ht) as Hi. unfold retry_finish. destruct r; try done.
  - destruct (_ || _) eqn:Ec; [by apply inv_retried|]. apply orb_false_iff in Ec as [_ Ec]. apply is_current_false in Ec.
    destruct Ht as [_ [_ Hh] _ _ Hsw _]. cbn in Hh. destruct Hh as [Hu Ha]; [by right; f_equal|].
    apply inv_load; [|intros _; by right]. apply (teacher_inv_set_user g _ user); try done.
    + intros c Hc Hs. destruct (v_user (view g)) eqn:Eu; [|done].
      pose proof (proj1 (Forall_forall _ _) (inv_claims _ Hi) c Hc) as [_ Hcl].
      destruct c; try done; cbn in *; injection Hs as ->; destruct Hcl as [Hcl _]; auto; congruence.
    + intros Hw. destruct (inv_switch _ Hi Hw). done.
  - destruct (_ || _) eqn:Ec; [by apply inv_retried|].
    set (g1 := upd _ g). assert (H1 : Inv g1) by (unfold g1; light).
    destruct (_ && _); [by apply inv_retried|]. apply teacher_inv_sign_out; [done| |by left].
    apply orb_false_iff in Ec as [_ Ec]. apply is_current_false in Ec. destruct (tk_ok _ _ Ht) as [_ Hh]. apply Hh. right. by rewrite Ec.
Qed.
Lemma inv_login_finish gen api base r g : Taken (SigningIn gen api) g -> Inv (login_finish gen api base r g).
Proof.
  intros Ht. pose proof (tk_inv _ _ Ht) as Hi. unfold login_finish. destruct r; try done; [|by apply teacher_inv_login_done].
  set (g1 := issue api token g). assert (H1 : Inv g1) by (unfold g1; light).
  destruct (negb _); [by apply teacher_inv_login_done|].
  eapply (inv_make g1); [|apply teacher_claims_store|exact H1|..]; try done.
  - destruct Ht as [_ [Hn Hh] _ _ _ _]. by split.
  - apply (tk_signer _ _ Ht).
  - by intros [? ?].
  - apply (tk_switch _ _ Ht).
Qed.
Lemma teacher_inv_login_saved gen api token user works g : Taken (SigningIn gen api) g ->
  Inv (login_saved gen api token user works g).
Proof.
  intros Ht. pose proof (tk_inv _ _ Ht) as Hi. unfold login_saved. destruct (negb (is_current gen g)) eqn:Ec.
  { eapply (inv_make g); [|apply teacher_claims_store|exact Hi|..]; try done; [by intros [? ?]|by right]. }
  destruct (negb works); [by apply teacher_inv_login_done|]. apply is_current_false in Ec. subst gen.
  pose proof (teacher_inv_login_done (generation g) g Hi) as Hd.
  assert (Es : same g (login_done (generation g) g) /\ claims (login_done (generation g) g) = claims g)
    by (unfold login_done; by case_bool_decide). destruct Es as [(E1 & E2 & E3 & E4 & E5 & E6) Ecl].
  set (g1 := login_done (generation g) g) in *.
  destruct Ht as [_ [_ Hh] Hsg _ Hsw _]. destruct Hh as [Hu ->]; [by right|].
  apply inv_load; [|intros _; right; split; [done|exact E3]].
  apply (teacher_inv_set_user g1 _ user); try done.
  - intros i Hor. destruct Hor as [Hn|Hn]; [|congruence]. unfold credentials, setToken_api. cbn. rewrite list_lookup_alter_ne; congruence.
  - rewrite Ecl, <- E1. intros c Hc Hs. apply (Hsg (generation g)); [done|]. apply elem_of_filter_map. by exists c.
  - rewrite Ecl. intros Hw. destruct (Hsw Hw) as [[]|Ho]. specialize (Ho (generation g) eq_refl). lia.
Qed.
Lemma inv_save_finish base api signed label r g : Taken (Checking api) g -> Inv (saveConnection_finish base api signed label r g).
Proof.
  intros Ht. pose proof (tk_inv _ _ Ht) as Hi. unfold saveConnection_finish. destruct r as [| | | |[[normalized needs]|]| |]; try done.
  destruct Ht as [_ [_ Ha] _ Hc _ _]. cbn in Ha. rewrite Ha by (by left). destruct (seqb normalized base); [light|].
  apply teacher_inv_sign_out; [destruct signed; [light|done]|by destruct signed|]. right. split; [done|]. destruct signed; by apply Hc.
Qed.
(** A new client, while every claim is outdated. *)
Lemma inv_switched normalized label needs g : Taken Switching g -> Inv (switched normalized label needs g).
Proof.
  intros Ht. destruct (tk_switching _ _ Ht eq_refl) as [Hu Hst]. pose proof (tk_conn _ _ Ht (mk_is_Some _ _ eq_refl)) as Hc.
  destruct (tk_inv _ _ Ht) as [H1 H2 H3 H4 H5].
  assert (Hs : source g = None /\ workspace (view g) = EMPTY) by (destruct (source g); [by destruct H1|done]). destruct Hs as [Es Ew].
  split; try done.
  - cbn. by rewrite Es.
  - apply Forall_forall. intros c Hin. pose proof (proj1 (Forall_forall _ _) H2 c Hin) as [Hnn Hh].
    apply stale_claim; [done|by eapply Forall_forall in Hst|].
    assert (Hn : conn c = None). { destruct (conn c) eqn:En; [|done].
      assert (Hx : u ∈ filter_map conn (claims g)) by (apply elem_of_filter_map; by exists c). rewrite Hc in Hx. by apply elem_of_nil in Hx. }
    destruct c; try done. intros _. left. destruct Hh as [Hh|[? _]]; [by left| |done]. revert Hh. unfold credentials. cbn.
    destruct (decide (api < length (apis g))%nat).
    + by rewrite lookup_app_l.
    + rewrite lookup_app_r by lia. by destruct (api - length (apis g))%nat as [|[|]].
Qed.
Lemma inv_start_saved gen api saved g : Taken (Signed gen api) g -> Inv (start_saved gen api saved g).
Proof.
  intros Ht. pose proof (tk_inv _ _ Ht) as Hi. unfold start_saved. destruct (negb _) eqn:Ec; [by apply inv_started|].
  apply is_current_false in Ec as ->. destruct (tk_ok _ _ Ht) as [_ Hh]. destruct Hh as [Hu Ha]; [by right|].
  destruct saved; [|apply teacher_inv_sign_out; [done|done|by left]]. apply inv_load; [done|]. intros _. by right.
Qed.
Lemma teacher_inv_answer w r g : Taken (wait_claim w) g ->
  match w, r with WaitLoad _ asked _, ReplyWorkspace _ => snd asked <> None | _, _ => True end -> Inv (answer w r g).
Proof.
  destruct w; cbn [wait_claim answer]; intros Ht Hr.
  - by apply inv_status.
  - by apply inv_start_me.
  - by apply inv_load_finish.
  - by apply inv_retry_finish.
  - by apply inv_login_finish.
  - by apply inv_save_finish.
  - by apply inv_switched.
  - pose proof (tk_inv _ _ Ht) as Hi. unfold view_settled. destruct r; try done. apply inv_load; [done|]. intros _.
    destruct (tk_ok _ _ Ht) as [_ Hh]. apply Hh. by left.
Qed.
Lemma inv_resume k works g : Taken (cont_claim k) g -> Inv (resume k works g).
Proof.
  destruct k; cbn [cont_claim resume]; intros Ht; pose proof (tk_inv _ _ Ht) as Hi; [by apply inv_start_saved|by apply inv_started|
    by apply inv_retried|by apply teacher_inv_login_saved|by apply teacher_inv_login_done|done|].
  eapply (inv_make g); [|apply claims_await|exact Hi|..]; try done; cbn.
  - intros _. apply (tk_conn _ _ Ht). by eexists.
  - by right.
  - intros _. apply (tk_switching _ _ Ht eq_refl).
Qed.
(** Nothing changes the Host. *)
Lemma changing_conn g : changing g = false -> filter_map conn (claims g) = [].
Proof.
  unfold changing, claims. intros [Hw Hq]%orb_false_iff. rewrite filter_map_app. apply app_nil. split.
  - revert Hw. induction (waits g) as [|w l IH]; [done|]. cbn. intros [Hw Hl]%orb_false_iff. rewrite <- IH by done. by destruct w.
  - revert Hq. induction (queue g) as [|[o k] l IH]; [done|]. cbn. intros [Hk Hl]%orb_false_iff. rewrite <- IH by done. by destruct k.
Qed.
Lemma changing_switch g : filter_map conn (claims g) = [] -> Switching ∉ claims g.
Proof. intros E Hin. assert (Hx : tt ∈ filter_map conn (claims g)) by (apply elem_of_filter_map; by exists Switching). rewrite E in Hx. by apply elem_of_nil in Hx. Qed.
Lemma inv_no_switch g : Inv g -> v_user (view g) <> None -> Switching ∉ claims g.
Proof. intros Hi Hu Hw. by destruct (inv_switch _ Hi Hw). Qed.
Lemma inv_retry_start g : Inv g -> v_user (view g) <> None -> Inv (retry_start g).
Proof.
  intros Hi Hu. unfold retry_start. case_bool_decide; [done|]. set (g1 := send _ _ _). assert (H1 : Inv g1) by (unfold g1; light).
  eapply (inv_make g1); [|apply claims_await|exact H1|..]; try done.
  - split; [intros gen Hg; injection Hg as <-; cbn; lia|]. done.
  - by intros [? ?].
  - intros Hw. by destruct (inv_no_switch _ H1 Hu).
Qed.
Lemma teacher_inv_login_start name password g : Inv g -> v_user (view g) = None -> filter_map conn (claims g) = [] ->
  Inv (login_start name password g).
Proof.
  intros Hi Hu Hc. unfold login_start. set (g1 := resetWorkspace g). pose proof (changing_switch _ Hc) as Hw.
  assert (Hst : Forall (older g1) (claims g1)).
  { eapply Forall_impl; [exact (inv_claims _ Hi)|]. intros c [Hn _]. by eapply outdated. }
  assert (H1 : Inv g1).
  { destruct Hi as [H1 H2 H3 H4 H5]. split; try done. apply Forall_forall. intros c Hin. assert (Ho : older g1 c) by (by eapply Forall_forall in Hst).
    apply stale_claim; [by apply older_newer|by right|]. eapply Forall_forall in H2; [|exact Hin]. destruct H2 as [_ Hh]. destruct c; try done; intros _; apply Hh; by left. }
  set (g2 := upd _ _). assert (H2 : Inv g2) by (unfold g2; light).
  eapply (inv_make g2); [|apply claims_await|exact H2|..]; try done.
  - split; [intros gen Hg; injection Hg as <-; cbn; lia|]. done.
  - intros gen Hg Hin. injection Hg as <-. apply elem_of_filter_map in Hin as (c & Hin & Hs).
    eapply Forall_forall in Hst; [|exact Hin]. specialize (Hst (generation g + 1)).
    assert (E : gen_of c = signer c) by (by destruct c). rewrite E, Hs in Hst. specialize (Hst eq_refl). cbn in Hst. lia.
Qed.
Lemma claims_delete i w g : waits g !! i = Some w -> claims g ≡ₚ wait_claim w :: claims (set_waits (delete i (waits g)) g).
Proof.
  intros Hw. unfold claims. cbn. rewrite (delete_Permutation _ _ _ Hw) at 1. done.
Qed.
Lemma inv_step g g' : step g g' -> Inv g -> Inv g'.
Proof.
  intros [e g1 g2 Hf Hauth He] Hi. unfold handle in He.
  assert (Hc : in_front e = false -> filter_map conn (claims g1) = []).
  { intros E. rewrite E, andb_true_r in Hf. by apply changing_conn. }
  assert (Hsi : shown_view g1 = SignInView -> v_user (view g1) = None)
    by (unfold shown_view, teacherStartupView; by destruct (v_user (view g1))).
  assert (Hws : shown_view g1 = WorkspaceView -> v_user (view g1) <> None)
    by (unfold shown_view, teacherStartupView; destruct (v_user (view g1)); [done|by destruct (needsSetup _) as [[]|]]).
  destruct e as [|name password| | | |next|name| | | |label|i r|works]; cbn [in_front] in Hc.
  - unfold teacherReconnectDelay in He. destruct (v_user (view g1)) eqn:Eu; [|done]. destruct (v_online _); [done|].
    apply (inj Some) in He as <-. apply inv_retry_start; [done|congruence].
  - destruct (loading _); [done|]. destruct (shown_view g1); try done. destruct (login_busy _); [done|].
    apply (inj Some) in He as <-. apply teacher_inv_login_start; auto.
  - destruct (loading _); [done|]. destruct (shown_view g1); try done. apply (inj Some) in He as <-.
    apply teacher_inv_sign_out; [light|done|by left].
  - destruct (loading _); [done|]. destruct (shown_view g1); try done. apply (inj Some) in He as <-.
    apply inv_load; [done|]. intros _. right. split; [auto|done].
  - destruct (loading _); [done|]. destruct (shown_view g1); try done. apply (inj Some) in He as <-.
    eapply (inv_make g1); [|apply claims_await|exact Hi|..]; try done.
    + split; [done|]. intros _. right. split; [auto|done].
    + by intros [? ?].
    + by right.
  - destruct (loading _); [done|]. destruct (shown_view g1); try done. apply (inj Some) in He as <-. light.
  - destruct (loading _); [done|]. destruct (shown_view g1); try done. apply (inj Some) in He as <-. light.
  - destruct (loading _); [done|]. destruct (shown_view g1); try done. apply (inj Some) in He as <-. light.
  - destruct (loading _); [done|]. destruct (shown_view g1); apply (inj Some) in He as <-; light.
  - destruct (loading _); [done|]. destruct (shown_view g1); apply (inj Some) in He as <-; light.
  - assert (Hr : Inv (saveConnection_start label g1)).
    { eapply (inv_make g1); [|apply claims_await|exact Hi|..]; try done.
      - intros _. exact (Hc eq_refl).
      - by right. }
    destruct (loading _); [done|]. destruct (shown_view g1), (connectionOpen _); try done; by apply (inj Some) in He as <-.
  - destruct (waits g1 !! i) as [w|] eqn:Ew; [|done]. apply (inj Some) in He as <-.
    apply teacher_inv_answer; [eapply (teacher_inv_take g1); [|by apply claims_delete|done]; done|].
    cbn in Hauth. destruct w as [| |? [? [?|]] ?| | | | |], r; try done. by rewrite Ew in Hauth.
  - destruct (queue g1) as [|[o k] q] eqn:Eq; [done|]. apply (inj Some) in He as <-.
    apply inv_resume. eapply (teacher_inv_take g1); [| |done]; [done|]. unfold claims. cbn. rewrite Eq. cbn.
    by rewrite <- Permutation_middle.
Qed.
Lemma inv_mount tauri url label normalize stored0 d0 known : Inv (mount tauri url label normalize stored0 d0 known).
Proof.
  unfold mount.
  assert (H : forall v gen host (session : option StoredTeacherSession) d l ap,
    v_api v = 1%nat -> v_user v = None -> workspace v = EMPTY ->
    Inv (await (WaitStatus gen 1 host session) (send 1 CallStatus (mkApp v gen None None ap [] [] d [] l None)))).
  { intros v gen host session d l ap Ea Eu Ew. split; cbn; try done.
    - constructor; [|done]. split; [intros x Hx; injection Hx as <-; cbn; lia|]. cbn. by rewrite Ea, Eu.
    - apply NoDup_singleton.
    - lia.
    - by intros ?%list_elem_of_singleton. }
  destruct (normalize _); [|destruct stored0 as [s|]]; cbv zeta; by apply H.
Qed.
Lemma along_steps es g g' :
  run es g = Some g' -> along dialog_in_front es g = true -> along authenticated es g = true -> rtc step g g'.
Proof.
  revert g. induction es as [|e es IH]; intros g; cbn [run along].
  - intros E _ _. apply (inj Some) in E as <-. apply rtc_refl.
  - destruct (handle e g) as [g1|] eqn:Eh; [|done]. intros Hr [Hf Hfs]%andb_true_iff [Ha Has]%andb_true_iff.
    apply negb_true_iff in Hf. eapply rtc_l; [by econstructor|by apply IH].
Qed.
End WorkspaceFacts.
Import WorkspaceFacts.

(** C3. For every order of answers, storage operations and uses of the page, as
    long as the connection dialog stays open and nobody signs in or out while it
    works (without this, [login_during_switch]), and as long as the Host answers
    with a workspace only to a token: the workspace shown is empty, or a teacher
    is signed in and it was asked for with the credentials the app uses now. *)
Theorem workspace_of_account (tauri : bool) (url label : option jstr) (normalize : jstr -> option jstr)
    (stored0 : option StoredTeacherSession) (d0 : option jsval) (known : list jstr) (es : list Event) (g : App) :
  let m := mount tauri url label normalize stored0 d0 known in
  run es m = Some g -> along dialog_in_front es m = true -> along authenticated es m = true ->
  workspace (view g) = EMPTY \/
  exists asked, source g = Some asked /\ v_user (view g) <> None /\ credentials (v_api (view g)) g = asked.
Proof.
  cbv zeta. intros Hrun Hf Ha. pose proof (along_steps _ _ _ Hrun Hf Ha) as Hr. assert (Hi : Inv g).
  { clear Hrun Hf Ha. revert Hr. generalize (inv_mount tauri url label normalize stored0 d0 known).
    induction 2 as [|? ? ? Hs _ IH]; [done|]. by apply IH, (inv_step _ _ Hs). }
  pose proof (inv_shown _ Hi) as H. destruct (source g) as [asked|].
  - right. by exists asked.
  - by left.
Qed.

(** ** Runs *)

Module Runs.

Definition same_address (value : jstr) : option jstr := Some value.
Definition first : App := mount false (Some DEV_HOST) None same_address None None [].
Definition ada : jsval := VObj [(js "username", VStr (js "ada"))].
Definition ada_workspace : Workspace := mkWorkspace zero_stats (VArr [ada]) (VArr []) (VArr []).
Definition sign_in (token : jstr) : list Event :=
  [SubmitLogin (js "ada") (js "pw"); Answer 0 (ReplyLogin token ada); RunStore true; Answer 0 (ReplyWorkspace ada_workspace)].
Definition signed_in : list Event := Answer 0 (ReplyStatus false) :: sign_in (js "t1").
Definition other : jstr := js "http://10.0.0.2:7373".
(** The address is changed; the dialog is closed while the sign-out at the old
    Host is still under way, and the teacher signs in again. *)
Definition change : list Event :=
  [OpenConnection; SubmitConnection []; Answer 0 (ReplyConnection (Ok (other, false)))].
Definition close_early : list Event :=
  [CloseConnection; SubmitLogin (js "ada") (js "pw"); RunStore true; Answer 0 (ReplyLogin (js "t2") ada); RunStore true;
   Answer 0 ReplySettled; Answer 0 (ReplyWorkspace ada_workspace)].
Definition changed : list Event := [RunStore true; Answer 0 ReplySettled].

Definition after (es : list Event) : App := default first (run es first).

End Runs.
Import Runs.

Lemma workspace_of_account_witness :
  run signed_in first = Some (after signed_in) /\ source (after signed_in) = Some (DEV_HOST, Some (js "t1")) /\
  (workspace (view (after signed_in)) = EMPTY \/ exists asked, source (after signed_in) = Some asked /\
   v_user (view (after signed_in)) <> None /\ credentials (v_api (view (after signed_in))) (after signed_in) = asked).
Proof.
  assert (Hr : run signed_in first = Some (after signed_in)) by (vm_compute; reflexivity).
  split; [exact Hr|]. split; [vm_compute; reflexivity|].
  apply (workspace_of_account false (Some DEV_HOST) None same_address None None [] signed_in (after signed_in) Hr); vm_compute; reflexivity.
Defined.


(** The dialog can be closed while the old Host is still asked to sign the
    teacher out; a sign-in meanwhile completes at the old Host, and what it
    loads is shown as the new Host's, where the teacher has no session. *)
Theorem login_during_switch :
  exists g, run (signed_in ++ change ++ close_early) first = Some g /\
    v_baseUrl (view g) = other /\ credentials (v_api (view g)) g = (other, None) /\
    v_user (view g) = Some ada /\ workspace (view g) = ada_workspace /\ source g = Some (DEV_HOST, Some (js "t2")) /\
    disk g = Some (session_value DEV_HOST (js "t2") ada).
Proof. eexists. split; [vm_compute; reflexivity|]. vm_compute. repeat split. Qed.

(** An address of the configuration that [normalizeHostAddress] refuses is
    used all the same. *)
Theorem refused_address_used (url : jstr) (normalize : jstr -> option jstr) (d0 : option jsval) (known : list jstr) :
  let g := mount true (Some url) None normalize None d0 known in
  requests g = [mkSent (strip_slashes (default url (normalize url))) None CallStatus] /\
  v_baseUrl (view g) = default url (normalize url).
Proof. cbv zeta. unfold mount. cbn. by destruct (normalize url). Qed.

(** ** Which pages can be shown *)

Module TabFacts.
Definition hidden (t : TeacherTab) : bool := match t with TabStudents | TabAssignments | TabAttendance => true | _ => false end.
(** An operation leaves the page as it is or goes to the overview. *)
Definition stays (g g' : App) : Prop := tab (view g') = tab (view g) \/ tab (view g') = TabDashboard.

Lemma stays_continue k g : tab (view (continue k g)) = tab (view g).
Proof. destruct k; cbn; [done..|]. unfold retried. by case_bool_decide. Qed.
Lemma stays_load api gen k g : tab (view (loadWorkspace api gen k g)) = tab (view g).
Proof. unfold loadWorkspace. destruct (negb _); [apply stays_continue|]. case_bool_decide; [apply stays_continue|done]. Qed.
Lemma stays_done gen g : tab (view (login_done gen g)) = tab (view g).
Proof. unfold login_done. by case_bool_decide. Qed.
Lemma stays_offline session g : tab (view (started (offline_session session g))) = tab (view g).
Proof. by destruct session. Qed.
Lemma stays_answer w r g : stays g (answer w r g).
Proof.
  destruct w; cbn [answer]; unfold stays, status_finish, start_me_finish, load_finish, retry_finish, login_finish,
    saveConnection_finish, switched, view_settled, retried; rewrite ?stays_continue; repeat case_match;
    rewrite ?stays_load, ?stays_done, ?stays_offline; first [by left | by right].
Qed.
Lemma stays_resume k works g : stays g (resume k works g).
Proof.
  destruct k; cbn [resume]; unfold stays, start_saved, login_saved, retried; repeat case_match;
    rewrite ?stays_load, ?stays_done; cbn; rewrite ?stays_done; first [by left | by right].
Qed.
Lemma handle_tab e g g' : handle e g = Some g' -> hidden (tab (view g)) = false -> hidden (tab (view g')) = false.
Proof.
  intros Hh Ht. assert (Hs : stays g g' -> hidden (tab (view g')) = false) by (intros [E|E]; by rewrite E).
  unfold handle in Hh. destruct e; repeat case_match; simplify_eq; try (by apply Hs; left); try (by apply Hs; right);
    try (apply Hs; left; apply stays_load).
  - apply Hs. unfold retry_start. case_bool_decide; by left.
  - by destruct next.
  - apply Hs. eapply (stays_answer w r (set_waits _ g)).
  - apply Hs. eapply (stays_resume c works (set_disk _ (set_queue l g))).
Qed.
End TabFacts.

(** The page of students is never shown, nor the lists of all assignments and
    all registers: what the navigation cannot reach no step reaches. *)
Theorem students_page_never_shown es tauri url label normalize stored0 d0 known g :
  run es (mount tauri url label normalize stored0 d0 known) = Some g ->
  tab (view g) <> TabStudents /\ tab (view g) <> TabAssignments /\ tab (view g) <> TabAttendance.
Proof.
  assert (H : forall es g0, TabFacts.hidden (tab (view g0)) = false -> run es g0 = Some g -> TabFacts.hidden (tab (view g)) = false).
  { clear es. intros es. induction es as [|e es IH]; intros g0 Hg; cbn; [by intros [= ->]|].
    destruct (handle e g0) eqn:Eh; [|done]. apply IH. by eapply TabFacts.handle_tab. }
  intros Hr. apply H in Hr; [by destruct (tab (view g))|]. unfold mount. repeat case_match; done.
Qed.
