(* ===== verification/Outbox.v ===== *)
(** * Work that waits for the Host
    ([packages/ui/src/cache.ts], [apps/forge/src/classrooms/StudentClassrooms.tsx])

    [Database] is the student's IndexedDB.  [Rooms] is what the classroom page
    keeps and the requests it has under way: [load], [flushCurrentStudent],
    [submit] and [withdraw] are cut where they wait for the Host, and what
    follows the wait is a [Proc].  Requests to IndexedDB are taken to succeed
    and, since each is one transaction, as one step with what comes before the
    next request to the Host.  The button of the assignment page is free again
    when the [load] that follows a submission starts, since that [load]
    disables it too. *)

From stdpp Require Import gmap.
From S2P Require Import Prelude JsString JsNumber JsValue Locale Types ClassroomState.
Local Open Scope Z_scope.

(** ** The database *)

Record SubmissionPayload := mkPayload {
  assignmentId : jstr; payload_doc : jsval; payload_text : jstr; payload_note : jstr }.

Inductive OutboxPayload := SubmissionEntry (p : SubmissionPayload) | NoteEntry (v : jsval).
Record OutboxEntry := mkEntry { entry_key : jstr; entry_payload : OutboxPayload; queuedAt : jstr }.

(** What the page shows of the Host, and what it caches of it. *)
Record Shown := mkShown {
  classrooms : list Classroom;
  assignments : list Assignment;
  submissions : list (jstr * option Submission);
  nodes : list StudyNode
}.
Definition nothing_shown : Shown := mkShown [] [] [] [].

Inductive CacheValue :=
  | CachedClassrooms (l : list Classroom)
  | CachedAssignments (l : list Assignment)
  | CachedSubmissions (l : list (jstr * option Submission))
  | CachedTree (l : list StudyNode)
  | CachedDraft (doc : jsval) (text : jstr)
  | CachedNote (body : NoteBody)
  | CachedCards (l : list Card).

(** The outbox in the order of [getAll]: ascending keys. *)
Record Database := mkDatabase {
  cache : gmap jstr CacheValue;
  outbox : list (jstr * OutboxEntry)
}.

Fixpoint key_lt (a b : jstr) : bool :=
  match a, b with
  | [], _ :: _ => true
  | x :: a', y :: b' => (x <? y)%N || ((x =? y)%N && key_lt a' b')
  | _, [] => false
  end.
Fixpoint put (k : jstr) (e : OutboxEntry) (l : list (jstr * OutboxEntry)) : list (jstr * OutboxEntry) :=
  match l with
  | [] => [(k, e)]
  | (k', e') :: l' =>
    if seqb k k' then (k, e) :: l' else if key_lt k k' then (k, e) :: l else (k', e') :: put k e l'
  end.
Definition without (k : jstr) (l : list (jstr * OutboxEntry)) : list (jstr * OutboxEntry) :=
  List.filter (fun p => negb (seqb (fst p) k)) l.

Definition queueOffline (e : OutboxEntry) (now : jstr) (d : Database) : Database :=
  mkDatabase (cache d) (put (entry_key e) (mkEntry (entry_key e) (entry_payload e) now) (outbox d)).
Definition outboxEntries (d : Database) : list OutboxEntry := snd <$> outbox d.
Definition removeOutbox (k : jstr) (d : Database) : Database := mkDatabase (cache d) (without k (outbox d)).
Definition cacheSet (k : jstr) (v : CacheValue) (d : Database) : Database := mkDatabase (<[k := v]> (cache d)) (outbox d).
Definition cacheGet (k : jstr) (d : Database) : option CacheValue := cache d !! k.
Definition cacheRemove (k : jstr) (d : Database) : Database := mkDatabase (delete k (cache d)) (outbox d).
Definition clearStudentCache (d : Database) : Database := mkDatabase ∅ [].

(** ** The page *)

Inductive Failure := ApiFailure (status : Z) (offline : bool) (text : jstr) | OtherFailure (text : jstr).
Definition is_offline (f : Failure) : bool := match f with ApiFailure _ o _ => o | OtherFailure _ => false end.
Definition errorMessage (f : Failure) : jstr := match f with ApiFailure _ _ m | OtherFailure m => m end.

(** What waits for the Host: [submitWork] inside a flush, the reads of [load],
    [submitWork] and [withdrawWork] of the assignment page. *)
Inductive Proc :=
  | Flushing (request : Z) (current : OutboxEntry) (todo : list OutboxEntry)
  | Fetching (request : Z)
  | Submitting (p : SubmissionPayload) (now : jstr)
  | Withdrawing.

Record Rooms := mkRooms {
  scope : jstr;
  online : bool;
  loading : bool;
  busy : bool;
  generation : Z;
  shown : Shown;
  queued : list jstr;
  message : jstr;
  detail_message : jstr;
  db : Database;
  procs : list Proc;
  sent : list SubmissionPayload
}.

Definition set_scope (x : jstr) (g : Rooms) : Rooms := mkRooms x (online g) (loading g) (busy g) (generation g) (shown g) (queued g) (message g) (detail_message g) (db g) (procs g) (sent g).
Definition set_online (x : bool) (g : Rooms) : Rooms := mkRooms (scope g) x (loading g) (busy g) (generation g) (shown g) (queued g) (message g) (detail_message g) (db g) (procs g) (sent g).
Definition set_loading (x : bool) (g : Rooms) : Rooms := mkRooms (scope g) (online g) x (busy g) (generation g) (shown g) (queued g) (message g) (detail_message g) (db g) (procs g) (sent g).
Definition set_busy (x : bool) (g : Rooms) : Rooms := mkRooms (scope g) (online g) (loading g) x (generation g) (shown g) (queued g) (message g) (detail_message g) (db g) (procs g) (sent g).
Definition set_generation (x : Z) (g : Rooms) : Rooms := mkRooms (scope g) (online g) (loading g) (busy g) x (shown g) (queued g) (message g) (detail_message g) (db g) (procs g) (sent g).
Definition set_shown (x : Shown) (g : Rooms) : Rooms := mkRooms (scope g) (online g) (loading g) (busy g) (generation g) x (queued g) (message g) (detail_message g) (db g) (procs g) (sent g).
Definition set_queued (x : list jstr) (g : Rooms) : Rooms := mkRooms (scope g) (online g) (loading g) (busy g) (generation g) (shown g) x (message g) (detail_message g) (db g) (procs g) (sent g).
Definition set_message (x : jstr) (g : Rooms) : Rooms := mkRooms (scope g) (online g) (loading g) (busy g) (generation g) (shown g) (queued g) x (detail_message g) (db g) (procs g) (sent g).
Definition set_detail_message (x : jstr) (g : Rooms) : Rooms := mkRooms (scope g) (online g) (loading g) (busy g) (generation g) (shown g) (queued g) (message g) x (db g) (procs g) (sent g).
Definition set_db (x : Database) (g : Rooms) : Rooms := mkRooms (scope g) (online g) (loading g) (busy g) (generation g) (shown g) (queued g) (message g) (detail_message g) x (procs g) (sent g).
Definition set_procs (x : list Proc) (g : Rooms) : Rooms := mkRooms (scope g) (online g) (loading g) (busy g) (generation g) (shown g) (queued g) (message g) (detail_message g) (db g) x (sent g).
Definition set_sent (x : list SubmissionPayload) (g : Rooms) : Rooms := mkRooms (scope g) (online g) (loading g) (busy g) (generation g) (shown g) (queued g) (message g) (detail_message g) (db g) (procs g) x.

Definition mine (scope : jstr) (e : OutboxEntry) : bool :=
  match entry_payload e with SubmissionEntry _ => belongsToClassroomScope (entry_key e) scope | NoteEntry _ => false end.

Definition readQueued (g : Rooms) : Rooms :=
  set_queued (filter_map (fun e => if mine (scope g) e
                                   then match entry_payload e with
                                        | SubmissionEntry p => Some (assignmentId p) | NoteEntry _ => None end
                                   else None) (outboxEntries (db g))) g.

Definition msg_rejected : jstr :=
  js "A waiting submission was rejected by the Host and was not sent. Your original note is still saved on this device.".

Definition cache_all (scope : jstr) (s : Shown) (d : Database) : Database :=
  cacheSet (classroomCacheKey scope CTree) (CachedTree (nodes s))
    (cacheSet (classroomCacheKey scope CSubmissions) (CachedSubmissions (submissions s))
      (cacheSet (classroomCacheKey scope CAssignments) (CachedAssignments (assignments s))
        (cacheSet (classroomCacheKey scope CClassrooms) (CachedClassrooms (classrooms s)) d))).
Definition cached_all (scope : jstr) (d : Database) : Shown :=
  mkShown
    (match cacheGet (classroomCacheKey scope CClassrooms) d with Some (CachedClassrooms l) => l | _ => [] end)
    (match cacheGet (classroomCacheKey scope CAssignments) d with Some (CachedAssignments l) => l | _ => [] end)
    (match cacheGet (classroomCacheKey scope CSubmissions) d with Some (CachedSubmissions l) => l | _ => [] end)
    (match cacheGet (classroomCacheKey scope CTree) d with Some (CachedTree l) => l | _ => [] end).

Definition spawn (p : Proc) (g : Rooms) : Rooms := set_procs (procs g ++ [p]) g.

(** The [finally] of [load]. *)
Definition load_done (request : Z) (g : Rooms) : Rooms :=
  readQueued (if request =? generation g then set_loading false g else g).

(** The [catch] of [load]. *)
Definition load_failed (request : Z) (f : Failure) (g : Rooms) : Rooms :=
  load_done request
    (if negb (request =? generation g) then g
     else
       let g := set_shown (cached_all (scope g) (db g)) g in
       if is_offline f then g else set_message (errorMessage f) g).

Definition after_flush (request : Z) (g : Rooms) : Rooms :=
  let g := readQueued g in
  if negb (request =? generation g) then load_done request g else spawn (Fetching request) g.

(** The loop of [flushCurrentStudent] up to its next request. *)
Fixpoint next_own (scope : jstr) (todo : list OutboxEntry) : option (OutboxEntry * list OutboxEntry) :=
  match todo with
  | [] => None
  | e :: rest => if mine scope e then Some (e, rest) else next_own scope rest
  end.
Definition flush_on (request : Z) (todo : list OutboxEntry) (g : Rooms) : Rooms :=
  match next_own (scope g) todo with
  | Some (e, rest) => spawn (Flushing request e rest) g
  | None => after_flush request g
  end.

(** What an answer means for an entry: gone or kept, and whether to go on. *)
Inductive Verdict := Delivered | Refused | Later | Stop.
Definition verdict (r : outcome Failure unit) : Verdict :=
  match r with
  | Ok _ => Delivered
  | Throw (OtherFailure _) => Stop
  | Throw (ApiFailure status offline _) =>
    if shouldRetryOutboxFailure status offline then (if offline then Stop else Later) else Refused
  end.

Definition flush_answer (request : Z) (e : OutboxEntry) (todo : list OutboxEntry) (r : outcome Failure unit)
    (g : Rooms) : Rooms :=
  match verdict r with
  | Delivered =>
    let g := match entry_payload e with SubmissionEntry p => set_sent (sent g ++ [p]) g | NoteEntry _ => g end in
    flush_on request todo (set_db (removeOutbox (entry_key e) (db g)) g)
  | Refused => flush_on request todo (set_message msg_rejected (set_db (removeOutbox (entry_key e) (db g)) g))
  | Later => flush_on request todo g
  | Stop => after_flush request g
  end.

Definition load (g : Rooms) : Rooms :=
  let request := generation g + 1 in
  let g := set_message [] (set_loading true (set_generation request g)) in
  if negb (online g) then load_failed request (ApiFailure 0 true (js "Host unavailable")) g
  else flush_on request (outboxEntries (db g)) g.

Definition fetched (request : Z) (r : outcome Failure Shown) (g : Rooms) : Rooms :=
  match r with
  | Ok next =>
    if negb (request =? generation g) then load_done request g
    else load_done request (set_db (cache_all (scope g) next (db g)) (set_shown next g))
  | Throw f => load_failed request f g
  end.

(** The effect on [load]: its cleanup, then the new [load]. *)
Definition props_changed (now_online : bool) (g : Rooms) : Rooms :=
  load (set_online now_online (set_generation (generation g + 1) g)).

(** ** The assignment page *)

Definition graded (current : option Submission) : bool :=
  match current with
  | Some s => bool_decide (s_status s = SGraded) || match s_grade s with Some gr => published gr | None => false end
  | None => false
  end.
Definition current_of (id : jstr) (g : Rooms) : option Submission :=
  match find (fun p => seqb (fst p) id) (submissions (shown g)) with Some (_, s) => s | None => None end.

(** The length of a text in UTF-8. *)
Definition utf8_length (s : jstr) : Z :=
  foldr (fun p n => n + (if (snd p <? 128)%N then 1 else if (snd p <? 2048)%N then 2
                         else if (snd p <? 65536)%N then 3 else 4)) 0 (code_points s).

(** [doc] and [text] are what the sanitizer and the two parsers make of the note. *)
Definition prepared (id : jstr) (current : option Submission) (title : jstr) (doc : jsval) (text : jstr)
    : outcome jstr SubmissionPayload :=
  if negb (truthy text) then Throw (js "The selected note is empty.")
  else if (1024 * 1024 <? utf8_length text) || (2 * 1024 * 1024 <? utf8_length (stringify doc))
  then Throw (js "This note is too large to submit.")
  else Ok (mkPayload id doc text
             ((match current with Some _ => js "Resubmitted from " | None => js "Submitted from " end) ++
              [8220%N] ++ title ++ [8221%N])).

Definition msg_sent : jstr := js "Work submitted. This saved version will not change when you edit the note.".
Definition msg_went_offline : jstr := js "The Host went offline. This version will be sent when this account reconnects.".
Definition msg_saved : jstr := js "Saved on this device. It will be sent when this account reconnects.".

Definition key_of (p : SubmissionPayload) (g : Rooms) : jstr := submissionOutboxKey (scope g) (assignmentId p).
Definition enqueue (p : SubmissionPayload) (now : jstr) (g : Rooms) : Rooms :=
  set_db (queueOffline (mkEntry (key_of p g) (SubmissionEntry p) now) now (db g)) g.

Definition submit (id title : jstr) (doc : jsval) (text now : jstr) (g : Rooms) : Rooms :=
  if loading g || graded (current_of id g) then g
  else
    match prepared id (current_of id g) title doc text with
    | Throw e => set_detail_message e g
    | Ok p =>
      if online g
      then spawn (Submitting p now) (set_busy true (set_detail_message [] (set_db (removeOutbox (key_of p g) (db g)) g)))
      else readQueued (set_detail_message msg_saved (enqueue p now g))
    end.

Definition submit_answer (p : SubmissionPayload) (now : jstr) (r : outcome Failure unit) (g : Rooms) : Rooms :=
  match r with
  | Ok _ => set_busy false (load (set_detail_message msg_sent (set_sent (sent g ++ [p]) g)))
  | Throw f =>
    set_busy false
      (if is_offline f then readQueued (set_detail_message msg_went_offline (enqueue p now g))
       else set_detail_message (errorMessage f) g)
  end.

Definition withdraw (id : jstr) (confirmed : bool) (g : Rooms) : Rooms :=
  if loading g then g
  else if existsb (seqb id) (queued g)
  then set_detail_message (js "The waiting submission was cancelled.")
         (readQueued (set_db (removeOutbox (submissionOutboxKey (scope g) id) (db g)) g))
  else
    let current := current_of id g in
    if negb (online g) || match current with Some s => bool_decide (s_status s = SWithdrawn) | None => true end ||
       graded current || negb confirmed then g
    else spawn Withdrawing (set_detail_message [] (set_busy true g)).
Definition withdraw_answer (r : outcome Failure unit) (g : Rooms) : Rooms :=
  set_busy false match r with
                 | Ok _ => load (set_detail_message (js "Submission taken back.") g)
                 | Throw f => set_detail_message (errorMessage f) g
                 end.

(** ** Events *)

Inductive Event :=
  | Online (b : bool)
  | Submit (id title : jstr) (doc : jsval) (text now : jstr)
  | Withdraw (id : jstr) (confirmed : bool)
  | Answered (i : nat) (r : outcome Failure unit)
  | Fetched (i : nat) (r : outcome Failure Shown).

Definition handle (e : Event) (g : Rooms) : Rooms :=
  match e with
  | Online b => if Bool.eqb b (online g) then g else props_changed b g
  | Submit id title doc text now => if busy g then g else submit id title doc text now g
  | Withdraw id confirmed => if busy g then g else withdraw id confirmed g
  | Answered i r =>
    let g' := set_procs (delete i (procs g)) g in
    match procs g !! i with
    | Some (Flushing request e todo) => flush_answer request e todo r g'
    | Some (Submitting p now) => submit_answer p now r g'
    | Some Withdrawing => withdraw_answer r g'
    | _ => g
    end
  | Fetched i r =>
    match procs g !! i with
    | Some (Fetching request) => fetched request r (set_procs (delete i (procs g)) g)
    | _ => g
    end
  end.
Definition run (es : list Event) (g : Rooms) : Rooms := foldl (fun g e => handle e g) g es.

(** The page when it opens: its first [load]. *)
Definition opened (scope : jstr) (is_online : bool) (d : Database) : Rooms :=
  load (mkRooms scope is_online true false 0 nothing_shown [] [] [] d [] []).

(** ** Properties *)

Module OutboxFacts.

Definition entry_at (k : jstr) (l : list (jstr * OutboxEntry)) : option OutboxEntry :=
  snd <$> find (fun p => seqb (fst p) k) l.

Lemma seqb_sym a b : seqb a b = seqb b a.
Proof. unfold seqb. apply bool_decide_ext. split; congruence. Qed.

Lemma entry_at_put k e l : entry_at k (put k e l) = Some e.
Proof.
  unfold entry_at. induction l as [|[k' e'] l IH]; cbn; [by rewrite seqb_refl|].
  destruct (seqb k k') eqn:E; cbn; [by rewrite seqb_refl|].
  destruct (key_lt k k'); cbn; [by rewrite seqb_refl|].
  by rewrite seqb_sym, E.
Qed.
Lemma entry_at_without k l : entry_at k (without k l) = None.
Proof.
  unfold entry_at, without. induction l as [|[k' e'] l IH]; cbn; [done|].
  destruct (seqb k' k) eqn:E; cbn; [done|]. by rewrite E.
Qed.

(** What is kept of the entries whose keys satisfy [p], when another key is
    written or removed. *)
Lemma filter_put (p : jstr -> bool) k e l : p k = false ->
  List.filter (fun x => p (fst x)) (put k e l) = List.filter (fun x => p (fst x)) l.
Proof.
  intros Hk. induction l as [|[k' e'] l IH]; cbn; [by rewrite Hk|].
  destruct (seqb k k') eqn:E; cbn.
  - apply seqb_eq in E as <-. by rewrite Hk.
  - destruct (key_lt k k'); cbn; [by rewrite Hk|]. by rewrite IH.
Qed.
Lemma filter_without (p : jstr -> bool) k l : p k = false ->
  List.filter (fun x => p (fst x)) (without k l) = List.filter (fun x => p (fst x)) l.
Proof.
  intros Hk. unfold without. induction l as [|[k' e'] l IH]; cbn; [done|].
  destruct (seqb k' k) eqn:E; cbn; [|by rewrite IH].
  apply seqb_eq in E as ->. by rewrite Hk.
Qed.

(** *** What the steps keep *)

Definition outside (g : Rooms) : list (jstr * OutboxEntry) :=
  List.filter (fun p => negb (belongsToClassroomScope (fst p) (scope g))) (outbox (db g)).
Definition proc_mine (scope : jstr) (p : Proc) : Prop :=
  match p with Flushing _ e _ => mine scope e = true | _ => True end.

(** The account [s], the entries [l] of the others. *)
Record Apart (s : jstr) (l : list (jstr * OutboxEntry)) (g : Rooms) : Prop := {
  apart_scope : scope g = s;
  apart_outside : outside g = l;
  apart_procs : Forall (proc_mine s) (procs g)
}.

Lemma apart_frame s l g g' :
  scope g' = scope g -> outbox (db g') = outbox (db g) -> procs g' = procs g -> Apart s l g -> Apart s l g'.
Proof. intros Hs Ho Hp [H1 H2 H3]. split; [congruence| |congruence]. unfold outside. rewrite Hs, Ho. exact H2. Qed.
Lemma apart_spawn s l p g : Apart s l g -> proc_mine s p -> Apart s l (spawn p g).
Proof. intros [H1 H2 H3] Hp. split; [done|done|]. cbn. apply Forall_app. by repeat constructor. Qed.
Lemma apart_removed s l k g : Apart s l g -> belongsToClassroomScope k s = true ->
  Apart s l (set_db (removeOutbox k (db g)) g).
Proof.
  intros [H1 H2 H3] Hk. split; [done| |done]. unfold outside. cbn. rewrite H1.
  rewrite (filter_without (fun k => negb (belongsToClassroomScope k s))) by (by rewrite Hk).
  rewrite <- H1. exact H2.
Qed.
Lemma belongs_own s id : belongsToClassroomScope (submissionOutboxKey s id) s = true.
Proof. apply starts_with_app. Qed.
Lemma apart_enqueue s l p now g : Apart s l g -> Apart s l (enqueue p now g).
Proof.
  intros [H1 H2 H3]. split; [done| |done]. unfold outside. cbn. rewrite H1.
  rewrite (filter_put (fun k => negb (belongsToClassroomScope k s))).
  - rewrite <- H1. exact H2.
  - unfold key_of. rewrite H1. by rewrite belongs_own.
Qed.
Lemma apart_readQueued s l g : Apart s l g -> Apart s l (readQueued g).
Proof. by apply apart_frame. Qed.

Lemma apart_load_done s l request g : Apart s l g -> Apart s l (load_done request g).
Proof. intros H. apply apart_readQueued. destruct (_ =? _); [by apply (apart_frame _ _ g)|done]. Qed.
Lemma apart_load_failed s l request f g : Apart s l g -> Apart s l (load_failed request f g).
Proof.
  intros H. apply apart_load_done. destruct (negb _); [done|].
  destruct (is_offline f); by apply (apart_frame _ _ g).
Qed.
Lemma apart_after_flush s l request g : Apart s l g -> Apart s l (after_flush request g).
Proof.
  intros H. unfold after_flush. pose proof (apart_readQueued _ _ _ H) as H'.
  destruct (negb _); [by apply apart_load_done|]. by apply apart_spawn.
Qed.
Lemma next_own_mine s todo e rest : next_own s todo = Some (e, rest) -> mine s e = true.
Proof.
  induction todo as [|x todo IH]; cbn; [done|]. destruct (mine s x) eqn:E; [by intros [= <- <-]|done].
Qed.
Lemma apart_flush_on s l request todo g : Apart s l g -> Apart s l (flush_on request todo g).
Proof.
  intros H. unfold flush_on. destruct (next_own _ _) as [[e rest]|] eqn:E; [|by apply apart_after_flush].
  apply apart_spawn; [done|]. apply next_own_mine in E. by rewrite (apart_scope _ _ _ H) in E.
Qed.
Lemma apart_load s l g : Apart s l g -> Apart s l (load g).
Proof.
  intros H. unfold load. set (g1 := set_message [] _). assert (H1 : Apart s l g1) by (by apply (apart_frame _ _ g)).
  destruct (negb _); [by apply apart_load_failed|by apply apart_flush_on].
Qed.
Lemma mine_belongs s e : mine s e = true -> belongsToClassroomScope (entry_key e) s = true.
Proof. unfold mine. by destruct (entry_payload e). Qed.
Lemma apart_sent s l x g : Apart s l g -> Apart s l (set_sent x g).
Proof. by apply apart_frame. Qed.
Lemma apart_message s l x g : Apart s l g -> Apart s l (set_message x g).
Proof. by apply apart_frame. Qed.
Lemma apart_detail s l x g : Apart s l g -> Apart s l (set_detail_message x g).
Proof. by apply apart_frame. Qed.
Lemma apart_busy s l x g : Apart s l g -> Apart s l (set_busy x g).
Proof. by apply apart_frame. Qed.

Lemma apart_flush_answer s l request e todo r g :
  Apart s l g -> mine s e = true -> Apart s l (flush_answer request e todo r g).
Proof.
  intros H He%mine_belongs. unfold flush_answer. destruct (verdict r).
  - apply apart_flush_on, apart_removed; [|done]. destruct (entry_payload e); [by apply apart_sent|done].
  - by apply apart_flush_on, apart_message, apart_removed.
  - by apply apart_flush_on.
  - by apply apart_after_flush.
Qed.

Lemma apart_submit s l id title doc text now g : Apart s l g -> Apart s l (submit id title doc text now g).
Proof.
  intros H. unfold submit. destruct (_ || _); [done|]. destruct (prepared _ _ _ _ _) as [p|m]; [|by apply apart_detail].
  destruct (online g).
  - apply apart_spawn; [|done]. apply apart_busy, apart_detail, apart_removed; [done|].
    unfold key_of. rewrite (apart_scope _ _ _ H). apply belongs_own.
  - by apply apart_readQueued, apart_detail, apart_enqueue.
Qed.
Lemma apart_submit_answer s l p now r g : Apart s l g -> Apart s l (submit_answer p now r g).
Proof.
  intros H. unfold submit_answer. destruct r as [?|f].
  - by apply apart_busy, apart_load, apart_detail, apart_sent.
  - apply apart_busy. destruct (is_offline f); [|by apply apart_detail].
    by apply apart_readQueued, apart_detail, apart_enqueue.
Qed.
Lemma apart_withdraw s l id c g : Apart s l g -> Apart s l (withdraw id c g).
Proof.
  intros H. unfold withdraw. destruct (loading g); [done|]. destruct (existsb _ _).
  - apply apart_detail, apart_readQueued, apart_removed; [done|]. rewrite (apart_scope _ _ _ H). apply belongs_own.
  - cbv zeta. destruct (_ || _); [done|]. by apply apart_spawn; [apply apart_detail, apart_busy|].
Qed.

Lemma apart_take s l i g : Apart s l g -> Apart s l (set_procs (delete i (procs g)) g).
Proof.
  intros [H1 H2 H3]. split; [done|done|]. cbn. rewrite Forall_forall in H3 |- *. intros p Hp. apply H3.
  eapply elem_of_submseteq; [exact Hp|]. apply sublist_submseteq, sublist_delete.
Qed.

Lemma apart_handle s l e g : Apart s l g -> Apart s l (handle e g).
Proof.
  intros H. destruct e as [b|id title doc text now|id c|i r|i r]; cbn [handle].
  - destruct (Bool.eqb _ _); [done|]. by apply apart_load, (apart_frame _ _ g).
  - destruct (busy g); [done|by apply apart_submit].
  - destruct (busy g); [done|by apply apart_withdraw].
  - pose proof (apart_take s l i g H) as H'. destruct (procs g !! i) as [p|] eqn:Ep; [|done].
    pose proof (apart_procs _ _ _ H) as Hp. rewrite Forall_forall in Hp.
    specialize (Hp p (list_elem_of_lookup_2 _ _ _ Ep)).
    destruct p as [request e todo|request|p now|]; [by apply apart_flush_answer|done|by apply apart_submit_answer|].
    unfold withdraw_answer. apply apart_busy. destruct r; [by apply apart_load, apart_detail|by apply apart_detail].
  - pose proof (apart_take s l i g H) as H'. destruct (procs g !! i) as [[request e todo|request|p now|]|]; try done.
    unfold fetched. destruct r as [next|f]; [|by apply apart_load_failed].
    destruct (negb _); [by apply apart_load_done|]. apply apart_load_done. by eapply apart_frame; [..|exact H'].
Qed.
End OutboxFacts.

(** *** The flush, one entry after the other *)

(** What an answer says: the work was taken; the Host could not be asked; it
    asks for the work another time (statuses 408, 425, 429 and from 500 on); or
    it refuses the work for good. *)
Definition taken (r : outcome Failure unit) : bool := match r with Ok _ => true | Throw _ => false end.
Definition unasked (r : outcome Failure unit) : bool :=
  match r with Throw (OtherFailure _) => true | Throw (ApiFailure _ away _) => away | Ok _ => false end.
Definition refused (r : outcome Failure unit) : bool :=
  match r with
  | Throw (ApiFailure status false _) => negb (existsb (Z.eqb status) [408; 425; 429]) && (status <? 500)
  | _ => false
  end.
(** What is expected of a flush whose entries get the answers [ans]: the
    student's own entries are tried in key order up to the first for which the
    Host could not be asked; those it took or refused for good are gone. *)
Section expected.
Variable ans : OutboxEntry -> outcome Failure unit.
Definition stops (e : OutboxEntry) : bool := unasked (ans e).
Definition gone (e : OutboxEntry) : bool := taken (ans e) || refused (ans e).
Definition delivered (e : OutboxEntry) : bool := taken (ans e).
Fixpoint tried (own : list OutboxEntry) : list OutboxEntry :=
  match own with
  | [] => []
  | e :: own' => e :: (if stops e then [] else tried own')
  end.
Definition payloads (es : list OutboxEntry) : list SubmissionPayload :=
  filter_map (fun e => match entry_payload e with SubmissionEntry p => Some p | NoteEntry _ => None end) es.
Definition all_without (es : list OutboxEntry) (l : list (jstr * OutboxEntry)) : list (jstr * OutboxEntry) :=
  foldl (fun l e => without (entry_key e) l) l es.
End expected.

Module FlushFacts.
Import OutboxFacts.
Section flush.
Variable ans : OutboxEntry -> outcome Failure unit.

Lemma verdict_says r :
  match verdict r with
  | Delivered => taken r = true /\ unasked r = false /\ refused r = false
  | Refused => taken r = false /\ unasked r = false /\ refused r = true
  | Later => taken r = false /\ unasked r = false /\ refused r = false
  | Stop => taken r = false /\ unasked r = true /\ refused r = false
  end.
Proof.
  destruct r as [u|[status away m|m]]; [done| |done]. cbn. unfold shouldRetryOutboxFailure. destruct away; [done|]. cbn [orb].
  rewrite orb_false_r. replace (status <? 500) with (negb (500 <=? status)) by lia. rewrite orb_assoc.
  by destruct (status =? 408), (status =? 425), (status =? 429), (500 <=? status).
Qed.
Lemma next_own_filter s todo : 
  match next_own s todo with
  | Some (e, rest) => List.filter (mine s) todo = e :: List.filter (mine s) rest
  | None => List.filter (mine s) todo = []
  end.
Proof.
  induction todo as [|x todo IH]; cbn; [done|]. destruct (mine s x) eqn:E; [done|exact IH].
Qed.

Lemma flush_step request todo g e rest r :
  next_own (scope g) todo = Some (e, rest) -> procs g = [] ->
  handle (Answered 0 r) (flush_on request todo g) = flush_answer request e rest r g.
Proof. intros Hn Hp. unfold flush_on. rewrite Hn. destruct g. cbn in *. by subst. Qed.

Lemma payloads_app a b : payloads (a ++ b) = payloads a ++ payloads b.
Proof. apply filter_map_app. Qed.

(** The loop as it ends: [after_flush] on the expected outbox. *)
Lemma flush_loop s request own todo g :
  List.filter (mine s) todo = own -> scope g = s -> procs g = [] ->
  exists g', run ((fun e => Answered 0 (ans e)) <$> tried ans own) (flush_on request todo g) = after_flush request g' /\
    scope g' = s /\ procs g' = [] /\ generation g' = generation g /\
    outbox (db g') = all_without (List.filter (gone ans) (tried ans own)) (outbox (db g)) /\
    sent g' = sent g ++ payloads (List.filter (delivered ans) (tried ans own)) /\
    message g' = (if existsb (refused ∘ ans) (tried ans own) then msg_rejected else message g).
Proof.
  revert todo g. induction own as [|e own IH]; intros todo g Hown Hs Hp;
    pose proof (next_own_filter s todo) as Hn; destruct (next_own s todo) as [[e' rest]|] eqn:En;
    rewrite Hown in Hn; try discriminate Hn.
  - exists g. unfold flush_on. rewrite Hs, En. cbn. by rewrite app_nil_r.
  - injection Hn as <- Hrest. symmetry in Hrest. rewrite <- Hs in En.
    cbn [tried]. rewrite fmap_cons. unfold run. cbn [foldl]. rewrite (flush_step _ _ _ _ _ _ En Hp).
    unfold flush_answer, gone, delivered, stops. cbn [List.filter existsb compose].
    pose proof (verdict_says (ans e)) as Hv. destruct (verdict (ans e)); destruct Hv as (Et & Eu & Er);
      unfold compose; rewrite ?Et, ?Eu, ?Er; cbn [orb].
    + set (g1 := set_db _ _).
      assert (H1 : scope g1 = s /\ procs g1 = [] /\ generation g1 = generation g /\
        outbox (db g1) = without (entry_key e) (outbox (db g)) /\ sent g1 = sent g ++ payloads [e] /\ message g1 = message g).
      { unfold g1, payloads. cbn. destruct (entry_payload e); cbn; rewrite ?app_nil_r; auto 6. }
      clearbody g1. destruct H1 as (Hs1 & Hp1 & Hg1 & Ho1 & Hsent1 & Hm1).
      destruct (IH rest g1 Hrest Hs1 Hp1) as (g' & Hrun & A & B & C & D & F & G). exists g'.
      split; [exact Hrun|]. repeat split; [done|done|congruence| | |by rewrite G, Hm1].
      * rewrite D, Ho1. done.
      * rewrite F, Hsent1, <- app_assoc. f_equal. by rewrite <- payloads_app.
    + set (g1 := set_message _ _).
      assert (H1 : scope g1 = s /\ procs g1 = [] /\ generation g1 = generation g /\
        outbox (db g1) = without (entry_key e) (outbox (db g)) /\ sent g1 = sent g /\ message g1 = msg_rejected) by (unfold g1; cbn; auto 6).
      clearbody g1. destruct H1 as (Hs1 & Hp1 & Hg1 & Ho1 & Hsent1 & Hm1).
      destruct (IH rest g1 Hrest Hs1 Hp1) as (g' & Hrun & A & B & C & D & F & G). exists g'.
      split; [exact Hrun|]. repeat split; [done|done|congruence| | |rewrite G, Hm1; by destruct (existsb _ _)].
      * rewrite D, Ho1. done.
      * rewrite F, Hsent1. done.
    + destruct (IH rest g Hrest Hs Hp) as (g' & Hrun & Hall). exists g'. split; [exact Hrun|]. exact Hall.
    + exists g. cbn. by rewrite app_nil_r.
Qed.
End flush.
End FlushFacts.

Import OutboxFacts FlushFacts.

(** C32. A page opened while the Host is reachable sends the waiting work of its
    student before it asks for anything: the student's entries one by one in
    key order, up to the first for which the Host could not be asked.  Entries
    the Host took or refused for good leave the outbox; all others stay, those
    it asks for another time among them; only what it took counts as sent, and
    the page says when something was refused. *)
Theorem flush_exact (s : jstr) (d : Database) (ans : OutboxEntry -> outcome Failure unit) :
  let own := List.filter (mine s) (outboxEntries d) in
  let g := run ((fun e => Answered 0 (ans e)) <$> tried ans own) (opened s true d) in
  outbox (db g) = all_without (List.filter (gone ans) (tried ans own)) (outbox d) /\
  sent g = payloads (List.filter (delivered ans) (tried ans own)) /\
  message g = (if existsb (refused ∘ ans) (tried ans own) then msg_rejected else []) /\
  procs g = [Fetching 1].
Proof.
  intros own g. subst g. unfold opened, load. cbn [generation online negb].
  set (g0 := set_message [] _).
  destruct (flush_loop ans s 1 own (outboxEntries (db g0)) g0) as (g' & Hrun & A & B & C & D & F & G);
    [done|done|done|]. unfold g0 in Hrun at 1. cbn [db generation] in Hrun.
  change (db (mkRooms s true true false 0 nothing_shown [] [] [] d [] [])) with d in *.
  match goal with |- outbox (db ?x) = _ /\ _ => assert (Hx : x = after_flush 1 g') by exact Hrun; rewrite Hx end.
  change (generation g0) with 1 in C. unfold after_flush.
  change (generation (readQueued g')) with (generation g'). rewrite C.
  change (outbox (db g') = all_without (List.filter (gone ans) (tried ans own)) (outbox d) /\
    sent g' = payloads (List.filter (delivered ans) (tried ans own)) /\
    message g' = (if existsb (refused ∘ ans) (tried ans own) then msg_rejected else []) /\ procs g' ++ [Fetching 1] = [Fetching 1]).
  by rewrite B, D, F, G.
Qed.

(** Whatever happens on the page of one account, the entries other
    accounts left in the outbox of the shared computer stay as they are, and
    none of them is ever sent. *)
Theorem other_accounts_untouched (s : jstr) (is_online : bool) (d : Database) (es : list Event) :
  let others l := List.filter (fun p => negb (belongsToClassroomScope (fst p) s)) l in
  let g := run es (opened s is_online d) in
  others (outbox (db g)) = others (outbox d) /\ Forall (proc_mine s) (procs g).
Proof.
  intros others g.
  assert (H : Apart s (others (outbox d)) g).
  { subst g. unfold run. assert (H0 : Apart s (others (outbox d)) (opened s is_online d)).
    { apply apart_load. by split. }
    revert H0. generalize (opened s is_online d). induction es as [|e es IH]; intros g0 H0; [exact H0|].
    cbn [foldl]. by apply IH, apart_handle. }
  destruct H as [H1 H2 H3]. unfold outside in H2. rewrite H1 in H2. done.
Qed.

Lemma load_keeps g :
  outbox (db (load g)) = outbox (db g) /\ sent (load g) = sent g /\ detail_message (load g) = detail_message g.
Proof.
  unfold load, load_failed, load_done, flush_on, after_flush, load_done. repeat case_match; done.
Qed.

(** A note that was handed in reaches the Host exactly once or waits
    exactly once: online, any older version that waited is dropped first, and
    afterwards the version was taken by the Host, or waits if the Host was
    away, or neither if the Host refused it, which is said; offline, the
    version waits in place of any older one. *)
Theorem submit_outcome (id title : jstr) (doc : jsval) (text now : jstr) (p : SubmissionPayload)
    (r : outcome Failure unit) (g : Rooms) :
  busy g = false -> loading g = false -> graded (current_of id g) = false -> procs g = [] ->
  prepared id (current_of id g) title doc text = Ok p ->
  let k := submissionOutboxKey (scope g) id in
  let g1 := handle (Submit id title doc text now) g in
  let g2 := handle (Answered 0 r) g1 in
  if online g then
    entry_at k (outbox (db g1)) = None /\
    match r with
    | Ok _ => entry_at k (outbox (db g2)) = None /\ sent g2 = sent g ++ [p] /\ detail_message g2 = msg_sent
    | Throw f =>
      sent g2 = sent g /\
      if is_offline f
      then entry_at k (outbox (db g2)) = Some (mkEntry k (SubmissionEntry p) now) /\ detail_message g2 = msg_went_offline
      else entry_at k (outbox (db g2)) = None /\ detail_message g2 = errorMessage f
    end
  else
    entry_at k (outbox (db g1)) = Some (mkEntry k (SubmissionEntry p) now) /\ sent g1 = sent g /\
    detail_message g1 = msg_saved.
Proof.
  intros Hb Hl Hg Hp Hprep k g1 g2.
  assert (Hpid : assignmentId p = id).
  { unfold prepared in Hprep. destruct (negb _); [done|]. destruct (_ || _); [done|]. by injection Hprep as <-. }
  assert (E1 : g1 = if online g
      then spawn (Submitting p now) (set_busy true (set_detail_message [] (set_db (removeOutbox k (db g)) g)))
      else readQueued (set_detail_message msg_saved (enqueue p now g))).
  { unfold g1. cbn [handle]. rewrite Hb. unfold submit. rewrite Hl, Hg, Hprep. cbn [orb].
    unfold key_of. by rewrite Hpid. }
  assert (Hkey : key_of p g = k) by (unfold key_of; by rewrite Hpid).
  destruct (online g) eqn:Eo.
  - assert (E2 : g2 = submit_answer p now r (set_procs [] g1)).
    { unfold g2. rewrite E1. unfold spawn. cbn [handle procs set_procs set_busy set_detail_message set_db].
      rewrite Hp. reflexivity. }
    clearbody g1 g2. subst g1 g2. split; [apply entry_at_without|].
    destruct r as [u|f]; cbn [submit_answer].
    + set (g3 := set_detail_message msg_sent _).
      assert (H3 : entry_at k (outbox (db g3)) = None) by apply entry_at_without.
      assert (Hsent : sent g3 = sent g ++ [p]) by reflexivity.
      assert (Hmsg : detail_message g3 = msg_sent) by reflexivity.
      clearbody g3.
      assert (Hload : outbox (db (load g3)) = outbox (db g3) /\ sent (load g3) = sent g3 /\ detail_message (load g3) = detail_message g3).
      { apply load_keeps. }
      destruct Hload as (A & B & C). cbn. rewrite A, B, C. auto.
    + split; [by destruct (is_offline f)|]. destruct (is_offline f) eqn:Ef.
      * cbn. split; [|done]. unfold key_of. cbn. rewrite Hpid. apply entry_at_put.
      * cbn. split; [apply entry_at_without|done].
  - clearbody g1. subst g1. cbn. rewrite Hkey. split; [apply entry_at_put|done].
Qed.

(** ** Concrete pages *)

Module OutboxWitnesses.
Definition s0 : jstr := js "student:host:u1:".
Definition older : SubmissionPayload := mkPayload (js "a1") VNull (js "first draft") (js "n").
Definition waiting_db : Database :=
  mkDatabase ∅ [(submissionOutboxKey s0 (js "a1"), mkEntry (submissionOutboxKey s0 (js "a1")) (SubmissionEntry older) (js "0"))].
(** The older version is being sent when the Host seems away; the student
    hands in the final version; then the Host's answer arrives. *)
Definition slow_host : list Event :=
  [Online false; Submit (js "a1") (js "Essay") VNull (js "final text") (js "1"); Answered 0 (Ok tt)].

(** A version handed in while an older one is still being sent can be
    lost: the flush removes the entry of the assignment by its key when the Host
    takes the older version, although the entry now holds the newer one.  The
    student has been told that it is saved and will be sent, but the outbox is
    empty and the Host has only the older version. *)
Theorem newer_version_lost :
  let g := run slow_host (opened s0 true waiting_db) in
  detail_message g = msg_saved /\ sent g = [older] /\ outbox (db g) = [] /\ queued g = [] /\ procs g = [].
Proof. vm_compute. repeat split; reflexivity. Qed.

Definition quiet_page : Rooms := mkRooms s0 true false false 1 nothing_shown [] [] [] waiting_db [] [].
Definition final : SubmissionPayload :=
  mkPayload (js "a1") VNull (js "final text") (js "Submitted from " ++ [8220%N] ++ js "Essay" ++ [8221%N]).
Lemma submit_outcome_witness :
  entry_at (submissionOutboxKey s0 (js "a1")) (outbox (db (handle (Submit (js "a1") (js "Essay") VNull (js "final text") (js "1")) quiet_page))) = None.
Proof.
  refine (proj1 (submit_outcome (js "a1") (js "Essay") VNull (js "final text") (js "1") final (Ok tt) quiet_page _ _ _ _ _)).
  - reflexivity.
  - reflexivity.
  - vm_compute. reflexivity.
  - reflexivity.
  - vm_compute. reflexivity.
Defined.
End OutboxWitnesses.
