(* ===== verification/HostTransport.v ===== *)
(** * How the apps reach the Host ([packages/ui/src/hostTransport.ts])

    In an installed app a request is one framed message to the native side and
    one framed message back.  The platform's parts are written out: UTF-8 as
    [TextEncoder] and [TextDecoder] do it (a code unit without its other half
    and an ill-formed byte become U+FFFD, a leading byte order mark is
    dropped), [DataView]'s big-endian words and the statuses [new Response]
    takes. *)

From S2P Require Import Prelude JsString JsNumber JsValue Uri.
Local Open Scope N_scope.

Abbreviation bytes := (list N).

(** ** UTF-8 *)

(** The code points of a text; [TextEncoder] writes U+FFFD for half a pair. *)
Fixpoint scalars (s : jstr) : list N :=
  match s with
  | [] => []
  | c :: s' =>
    if is_lead_unit c then
      match s' with
      | d :: s'' => if is_trail_unit d then pair_value c d :: scalars s'' else 0xFFFD :: scalars s'
      | [] => [0xFFFD]
      end
    else (if is_trail_unit c then 0xFFFD else c) :: scalars s'
  end.
Definition TextEncoder_encode (s : jstr) : bytes := flat_map utf8 (scalars s).

(** The decoder: the continuation bytes still needed, the value so far and the
    bounds of the next byte. *)
Record Decoding := mkDecoding { needed : nat; value : N; lower : N; upper : N }.
Definition at_rest : Decoding := mkDecoding 0 0 0x80 0xBF.

(** A byte where no sequence is under way. *)
Definition first_byte (b : N) : list N * Decoding :=
  if b <=? 0x7F then ([b], at_rest)
  else if in_range 0xC2 0xDF b then ([], mkDecoding 1 (b - 0xC0) 0x80 0xBF)
  else if in_range 0xE0 0xEF b
  then ([], mkDecoding 2 (b - 0xE0) (if b =? 0xE0 then 0xA0 else 0x80) (if b =? 0xED then 0x9F else 0xBF))
  else if in_range 0xF0 0xF4 b
  then ([], mkDecoding 3 (b - 0xF0) (if b =? 0xF0 then 0x90 else 0x80) (if b =? 0xF4 then 0x8F else 0xBF))
  else ([0xFFFD], at_rest).
Definition next_byte (b : N) (s : Decoding) : list N * Decoding :=
  match needed s with
  | O => first_byte b
  | S n =>
    if in_range (lower s) (upper s) b then
      let v := value s * 64 + (b - 0x80) in
      match n with O => ([v], at_rest) | _ => ([], mkDecoding n v 0x80 0xBF) end
    else let '(out, s') := first_byte b in (0xFFFD :: out, s')
  end.
Fixpoint decode_bytes (s : Decoding) (bs : bytes) : list N :=
  match bs with
  | [] => match needed s with O => [] | _ => [0xFFFD] end
  | b :: bs' => let '(out, s') := next_byte b s in out ++ decode_bytes s' bs'
  end.
Definition TextDecoder_decode (bs : bytes) : jstr :=
  let cps := decode_bytes at_rest bs in
  flat_map cp_to_utf16 (match cps with c :: cps' => if c =? 0xFEFF then cps' else cps | [] => [] end).

(** ** Frames *)

Definition setUint32 (n : N) : bytes :=
  [n / 0x1000000 mod 256; n / 0x10000 mod 256; n / 0x100 mod 256; n mod 256].
Definition getUint32 (bs : bytes) : option N :=
  match bs with
  | a :: b :: c :: d :: _ => Some (((a * 256 + b) * 256 + c) * 256 + d)
  | _ => None
  end.

Definition frame (head : jsval) (body : bytes) : bytes :=
  let encoded := TextEncoder_encode (stringify head) in
  setUint32 (N.of_nat (length encoded)) ++ encoded ++ body.

Inductive Thrown :=
  | HostTransportError (code message : jstr)
  | AbortError
  | RangeError
  | SyntaxError
  | Other (text : jstr).

Definition unframe (raw : bytes) : outcome Thrown (jsval * bytes) :=
  match getUint32 raw with
  | None => Throw RangeError
  | Some n =>
    let headLength := N.to_nat n in
    match parse_json (TextDecoder_decode (take headLength (drop 4 raw))) with
    | Some head => Ok (head, drop (4 + headLength) raw)
    | None => Throw SyntaxError
    end
  end.

(** ** Requests *)

Definition NAMED_FAILURES : list jstr := [js "host_identity_changed"; js "host_outdated"; js "invalid"].

(** What [invoke("host_request", framed)] comes to, raced with the abort of the
    page's own timer. *)
Inductive Settled := Answered (raw : bytes) | Failed (text : jstr) | Aborted.

(** [new Response(body, { status, headers })]. *)
Record Response := mkResponse { status : Z; headers : jsval; body : option bytes }.
Definition null_status (status : Z) : bool := existsb (Z.eqb status) [101; 204; 205; 304]%Z.
Definition new_Response (b : option bytes) (code : Z) (headers : jsval) : outcome Thrown Response :=
  let status := (code mod 65536)%Z in
  if (status <? 200)%Z || (599 <? status)%Z then Throw RangeError else Ok (mkResponse status headers b).

Definition request_head (url method : jstr) (headers : jsval) (timeoutMs : Z) : jsval :=
  VObj [(js "url", VStr url); (js "method", VStr method); (js "headers", headers);
        (js "timeoutMs", VNum (num (timeoutMs + 2000)))].

Definition named_failure (text : jstr) : option jstr :=
  find (fun known => starts_with (known ++ [58]) text) NAMED_FAILURES.

Definition status_of (head : jsval) : Z :=
  match get (js "status") head with VNum (Fin q) => Qround.Qfloor q | _ => 0 end.

Definition hostFetch (settled : Settled) : outcome Thrown Response :=
  match settled with
  | Aborted => Throw AbortError
  | Failed text =>
    match named_failure text with
    | Some code => Throw (HostTransportError code (trim (drop (length code + 1) text)))
    | None => Throw (Other text)
    end
  | Answered raw =>
    match unframe raw with
    | Throw e => Throw e
    | Ok (head, responseBody) =>
      new_Response (if null_status (status_of head) then None else Some responseBody) (status_of head)
        (get (js "headers") head)
    end
  end.

(** ** Round trips *)

Module TransportFacts.

Definition scalar (c : N) : bool := (c <? 0xD800) || ((0xE000 <=? c) && (c <? 0x110000)).

Lemma in_range_true a b x : a <= x <= b -> in_range a b x = true.
Proof. unfold in_range. lia. Qed.

Lemma decode_cont s b bs n : needed s = S n -> lower s <= b <= upper s ->
  decode_bytes s (b :: bs) =
    let v := value s * 64 + (b - 0x80) in
    match n with O => v :: decode_bytes at_rest bs | _ => decode_bytes (mkDecoding n v 0x80 0xBF) bs end.
Proof.
  intros Hn Hb. cbn [decode_bytes]. unfold next_byte. rewrite Hn, in_range_true by done. by destruct n.
Qed.

Lemma low_six c : c mod 64 < 64.
Proof. apply N.mod_lt. done. Qed.

Lemma decode_first b bs : decode_bytes at_rest (b :: bs) = let '(out, s') := first_byte b in out ++ decode_bytes s' bs.
Proof. done. Qed.

Lemma decode_utf8 c bs : scalar c = true -> decode_bytes at_rest (utf8 c ++ bs) = c :: decode_bytes at_rest bs.
Proof.
  unfold scalar. intros Hc. unfold utf8. pose proof (low_six c). pose proof (low_six (c / 64)). pose proof (low_six (c / 4096)).
  pose proof (six_bits c). pose proof (twelve_bits c). pose proof (eighteen_bits c).
  destruct (N.ltb_spec c 0x80).
  { cbn [app]. rewrite decode_first. unfold first_byte. replace (c <=? 127) with true by lia. done. }
  destruct (N.ltb_spec c 0x800).
  { cbn [app]. change 0x40 with 64. rewrite decode_first. unfold first_byte.
    replace (192 + c / 64 <=? 127) with false by lia. rewrite in_range_true by lia. cbn [app].
    rewrite (decode_cont _ _ _ 0) by (try reflexivity; cbn; lia). cbn. f_equal. lia. }
  destruct (N.ltb_spec c 0x10000).
  { cbn [app]. change 0x40 with 64. change 0x1000 with 4096. rewrite decode_first. unfold first_byte.
    replace (224 + c / 4096 <=? 127) with false by lia.
    replace (in_range 194 223 (224 + c / 4096)) with false by (unfold in_range; lia).
    rewrite in_range_true by lia. cbn [app].
    rewrite (decode_cont _ _ _ 1); [|reflexivity|].
    2:{ cbn [lower upper]. destruct (N.eqb_spec (224 + c / 4096) 224), (N.eqb_spec (224 + c / 4096) 237); lia. }
    cbn [value]. cbv zeta.
    rewrite (decode_cont _ _ _ 0) by (try reflexivity; cbn; lia). cbn [value]. cbv zeta. f_equal. lia. }
  cbn [app]. change 0x40 with 64. change 0x1000 with 4096. change 0x40000 with 262144. rewrite decode_first. unfold first_byte.
  replace (240 + c / 262144 <=? 127) with false by lia.
  replace (in_range 194 223 (240 + c / 262144)) with false by (unfold in_range; lia).
  replace (in_range 224 239 (240 + c / 262144)) with false by (unfold in_range; lia).
  rewrite in_range_true by lia. cbn [app].
  rewrite (decode_cont _ _ _ 2); [|reflexivity|].
  2:{ cbn [lower upper]. destruct (N.eqb_spec (240 + c / 262144) 240), (N.eqb_spec (240 + c / 262144) 244); lia. }
  cbn [value]. cbv zeta.
  rewrite (decode_cont _ _ _ 1); [|reflexivity|cbn; lia]. cbn [value]. cbv zeta.
  rewrite (decode_cont _ _ _ 0) by (try reflexivity; cbn; lia). cbn [value]. cbv zeta. f_equal. lia.
Qed.

Lemma decode_all cs bs : forallb scalar cs = true -> decode_bytes at_rest (flat_map utf8 cs ++ bs) = cs ++ decode_bytes at_rest bs.
Proof.
  induction cs as [|c cs IH]; [done|]. cbn [forallb flat_map]. intros [Hc Hcs]%andb_true_iff.
  rewrite <- app_assoc, decode_utf8 by done. cbn [app]. by rewrite IH.
Qed.

(** A text that is well formed UTF-16. *)
Fixpoint well_formed (s : jstr) : bool :=
  match s with
  | [] => true
  | c :: s' =>
    if is_lead_unit c then match s' with d :: s'' => is_trail_unit d && well_formed s'' | [] => false end
    else negb (is_trail_unit c) && (c <? 0x10000) && well_formed s'
  end.

Lemma cp_of_unit c : c < 0x10000 -> cp_to_utf16 c = [c].
Proof. intros H. unfold cp_to_utf16. by replace (c <? 0x10000) with true by lia. Qed.
Lemma cp_of_pair c d : is_lead_unit c = true -> is_trail_unit d = true -> cp_to_utf16 (pair_value c d) = [c; d].
Proof.
  unfold is_lead_unit, is_trail_unit, pair_value, in_range. intros Hc Hd. unfold cp_to_utf16.
  replace (_ <? _) with false by lia.
  assert (E : 0x10000 + (c - 0xD800) * 0x400 + (d - 0xDC00) - 0x10000 = (c - 0xD800) * 0x400 + (d - 0xDC00)) by lia.
  rewrite E. set (x := c - 0xD800) in *. set (y := d - 0xDC00) in *.
  assert (Hy : y < 0x400) by (unfold y; lia).
  rewrite N.div_add_l, (N.div_small y) by lia.
  rewrite (N.add_comm (x * 0x400)), N.Div0.mod_add, N.mod_small by done.
  f_equal; [|f_equal]; unfold x, y; lia.
Qed.

Lemma scalars_ok s : well_formed s = true -> forallb scalar (scalars s) = true /\ flat_map cp_to_utf16 (scalars s) = s.
Proof.
  remember (length s) as n eqn:En. revert s En. induction n as [n IH] using lt_wf_ind. intros [|c s] ->; [done|].
  cbn [well_formed scalars]. destruct (is_lead_unit c) eqn:Ec.
  - destruct s as [|d s]; [done|]. intros [Hd Hs]%andb_true_iff. rewrite Hd.
    destruct (IH (length s) ltac:(cbn; lia) s eq_refl Hs) as [H1 H2].
    cbn [forallb flat_map]. rewrite H1, H2, cp_of_pair by done. split; [|done].
    pose proof (pair_value_bound c d Ec Hd). pose proof (pair_value_high c d). unfold scalar. lia.
  - intros Hw. bool_hyps. destruct (is_trail_unit c) eqn:Et; [done|].
    destruct (IH (length s) ltac:(cbn; lia) s eq_refl ltac:(done)) as [H2 H3].
    cbn [forallb flat_map]. rewrite H2, H3, cp_of_unit by lia. split; [|done].
    unfold scalar. unfold is_lead_unit, is_trail_unit, in_range in *. lia.
Qed.

Lemma decode_encode s : well_formed s = true -> hd 0 s <> 0xFEFF -> TextDecoder_decode (TextEncoder_encode s) = s.
Proof.
  intros Hw Hbom. destruct (scalars_ok s Hw) as [H1 H2]. unfold TextDecoder_decode, TextEncoder_encode.
  rewrite <- (app_nil_r (flat_map utf8 (scalars s))), decode_all by done. cbn [decode_bytes at_rest needed]. rewrite app_nil_r.
  destruct (scalars s) as [|c cs] eqn:Es; [done|].
  destruct (N.eqb_spec c 0xFEFF) as [->|]; [|done]. exfalso. apply Hbom. rewrite <- H2. done.
Qed.

Lemma getUint32_set n bs : n < 0x100000000 -> getUint32 (setUint32 n ++ bs) = Some n.
Proof.
  intros Hn. unfold setUint32, getUint32. cbn [app]. f_equal.
  change 0x1000000 with (256 * (256 * 256)). change 0x10000 with (256 * 256). change 0x100 with 256.
  rewrite <- !N.Div0.div_div.
  pose proof (N.div_mod' n 256). pose proof (N.div_mod' (n / 256) 256).
  pose proof (N.div_mod' (n / 256 / 256) 256). pose proof (N.div_mod' (n / 256 / 256 / 256) 256).
  assert (n / 256 / 256 / 256 / 256 = 0).
  { rewrite !N.Div0.div_div. apply N.div_small. exact Hn. }
  lia.
Qed.
End TransportFacts.

Import TransportFacts.

Lemma frame_unframe ps body : let head := VObj ps in
  json_ok head -> well_formed (stringify head) = true ->
  N.of_nat (length (TextEncoder_encode (stringify head))) < 0x100000000 -> unframe (frame head body) = Ok (head, body).
Proof.
  intros head Hok Hw Hlen. unfold unframe, frame. cbv zeta. set (enc := TextEncoder_encode (stringify head)) in *.
  rewrite getUint32_set by done. rewrite Nat2N.id.
  change (drop 4 (setUint32 (N.of_nat (length enc)) ++ enc ++ body)) with (enc ++ body).
  change (drop (4 + length enc) (setUint32 (N.of_nat (length enc)) ++ enc ++ body)) with (drop (length enc) (enc ++ body)).
  rewrite take_app_length, drop_app_length. unfold enc. rewrite decode_encode; [rewrite parse_stringify by exact Hok; reflexivity|exact Hw|].
  unfold head. rewrite stringify_obj; [done|]. by inversion Hok.
Qed.

(** ** Properties *)

(** The two ends of a frame agree: a header object and a body of any bytes
    come out of [unframe] as they went into [frame], whatever characters the
    header's text has. *)
Theorem frame_roundtrip (ps : list (jstr * jsval)) (body : bytes) :
  json_ok (VObj ps) -> well_formed (stringify (VObj ps)) = true ->
  N.of_nat (length (TextEncoder_encode (stringify (VObj ps)))) < 0x100000000 ->
  unframe (frame (VObj ps) body) = Ok (VObj ps, body).
Proof. apply frame_unframe. Qed.

Definition answer_head (st : Z) (hs : jsval) : jsval := VObj [(js "status", VNum (num st)); (js "headers", hs)].

Lemma status_of_answer st hs : status_of (answer_head st hs) = st.
Proof.
  unfold status_of, answer_head. change (get (js "status") _) with (VNum (num st)). cbn. apply Qround.Qfloor_Z.
Qed.

Lemma named_failure_code code msg : code ∈ NAMED_FAILURES -> named_failure (code ++ 58 :: msg) = Some code.
Proof.
  unfold NAMED_FAILURES. intros Hc. unfold named_failure.
  repeat (apply elem_of_cons in Hc as [->|Hc]; [vm_compute; reflexivity|]). by apply elem_of_nil in Hc.
Qed.

(** What a request of an installed app comes to: an answer framed with its
    status and headers becomes the response with the same status, headers and
    body (no body for the statuses that have none), a failure the native side
    names becomes that failure with its message, and no status outside 200 to
    599 gets through. *)
Theorem transport_outcomes (st : Z) (hs : jsval) (b : bytes) (code msg : jstr) :
  json_ok (answer_head st hs) -> well_formed (stringify (answer_head st hs)) = true ->
  N.of_nat (length (TextEncoder_encode (stringify (answer_head st hs)))) < 0x100000000 ->
  (0 <= st < 65536)%Z -> code ∈ NAMED_FAILURES ->
  hostFetch (Answered (frame (answer_head st hs) b)) =
    (if (200 <=? st)%Z && (st <=? 599)%Z
     then Ok (mkResponse st hs (if null_status st then None else Some b)) else Throw RangeError) /\
  hostFetch (Failed (code ++ 58 :: msg)) = Throw (HostTransportError code (trim msg)) /\
  hostFetch Aborted = Throw AbortError.
Proof.
  intros Hok Hw Hlen Hst Hcode. split; [|split; [|done]].
  - unfold hostFetch. unfold answer_head in *. rewrite frame_unframe by done.
    fold (answer_head st hs). rewrite status_of_answer.
    change (get (js "headers") (answer_head st hs)) with hs.
    unfold new_Response. cbv zeta. rewrite Z.mod_small by done.
    destruct (Z.ltb_spec st 200), (Z.ltb_spec 599 st), (Z.leb_spec 200 st), (Z.leb_spec st 599); try lia; done.
  - unfold hostFetch. rewrite named_failure_code by done. do 2 f_equal. f_equal.
    by rewrite <- drop_drop, drop_app_length.
Qed.

Module TransportWitnesses.
Definition head0 : list (jstr * jsval) := [(js "url", VStr (js "http://127.0.0.1/é€😀")); (js "timeoutMs", VNum (num 12000))].
Lemma obj2_ok (k1 k2 : jstr) (v1 v2 : jsval) : k1 <> k2 -> json_ok v1 -> json_ok v2 -> json_ok (VObj [(k1, v1); (k2, v2)]).
Proof.
  intros Hk H1 H2. constructor; [|repeat constructor; done]. apply NoDup_cons. split; [|apply NoDup_singleton].
  by rewrite list_elem_of_singleton.
Qed.
Lemma frame_roundtrip_witness : unframe (frame (VObj head0) [1; 2; 255]) = Ok (VObj head0, [1; 2; 255]).
Proof.
  apply (frame_roundtrip head0 [1; 2; 255]).
  - apply obj2_ok; [by vm_compute|constructor|]. by constructor.
  - vm_compute. reflexivity.
  - vm_compute. reflexivity.
Defined.
Lemma transport_outcomes_witness :
  hostFetch (Answered (frame (answer_head 204 (VArr [])) [7])) = Ok (mkResponse 204 (VArr []) None).
Proof.
  refine (proj1 (transport_outcomes 204 (VArr []) [7] (js "host_outdated") [] _ _ _ _ _)).
  - apply obj2_ok; [by vm_compute| |].
    + by constructor.
    + constructor. constructor.
  - vm_compute. reflexivity.
  - vm_compute. reflexivity.
  - split; [by vm_compute|by vm_compute].
  - right. left.
Defined.
End TransportWitnesses.
