(* ===== verification/Api.v ===== *)
(** * The client of the Host ([packages/ui/src/api.ts])

    [CinderApi.request] and one definition per method of the class: the HTTP
    method, the path, the body and the timeout of its request.  [path] is
    [None] where [encodeURIComponent] throws.  The answer of the Host is what
    [HostTransport.hostFetch] makes of the native side's.  The routes of
    [crates/host/src/routes] are written out at the end, with the choice the
    Host's router makes, so that the two sides can be compared. *)

From S2P Require Import Prelude JsString JsNumber JsValue Uri HostTransport.
Local Open Scope Z_scope.

(** ** [request] *)

Inductive Body := NoBody | JsonBody (v : jsval) | FormBody (file : jstr).
Record Call := mkCall { method : jstr; path : option jstr; call_body : Body; timeoutMs : Z }.
Definition default_timeout : Z := 10000.

(** [code] is what the Host put in [error], usually a string. *)
Record ApiError := mkApiError { code : jsval; message : jsval; error_status : Z }.
Definition offline (e : ApiError) : bool := error_status e =? 0.

(** The headers of a request: [Authorization] where there is a token, and the
    content type of a text body that does not set its own. *)
Definition request_headers (token : option jstr) (own : list (jstr * jstr)) (b : Body) : list (jstr * jstr) :=
  let hs := match token with
            | Some ((_ :: _) as t) => set_prop (js "Authorization") (js "Bearer " ++ t) own
            | _ => own
            end in
  match b with
  | JsonBody _ => match assoc (js "Content-Type") hs with
                  | Some _ => hs
                  | None => hs ++ [(js "Content-Type", js "application/json")]
                  end
  | _ => hs
  end.

Definition strip_trailing (s : jstr) : jstr := rev (drop_while (N.eqb 47) (rev s)).
Definition request_url (baseUrl : jstr) (p : jstr) : jstr := strip_trailing baseUrl ++ p.

Inductive Raised := Api (e : ApiError) | Raw (e : Thrown).

Definition text_or (v : jsval) (d : jstr) : jsval := match v with VNull | VUndef => VStr d | _ => v end.
Definition response_ok (r : Response) : bool := (200 <=? status r) && (status r <=? 299).
Definition response_json (r : Response) : option jsval := parse_json (TextDecoder_decode (default [] (body r))).

(** What follows [await hostFetch]; [aborted] is [controller.signal.aborted]. *)
Definition request (aborted : bool) (answer : outcome Thrown Response) : outcome Raised jsval :=
  match answer with
  | Throw (HostTransportError c m) => Throw (Api (mkApiError (VStr c) (VStr m) 0))
  | Throw _ =>
    Throw (Api (mkApiError (VStr (if aborted then js "timeout" else js "offline"))
                  (VStr (if aborted then js "The teacher computer did not respond in time."
                         else js "The teacher computer is currently unreachable.")) 0))
  | Ok response =>
    if negb (response_ok response) then
      let b := default VNull (response_json response) in
      Throw (Api (mkApiError (text_or (get (js "error") b) (js "request_failed"))
                    (text_or (get (js "message") b)
                       (js "Request failed (" ++ show_num (num (status response)) ++ js ")"))
                    (status response)))
    else if status response =? 204 then Ok VUndef
    else match response_json response with
         | Some v => Ok v
         | None => Throw (Raw SyntaxError)
         end
  end.

(** [materialBlob] reads the same answer as bytes. *)
Definition blob_answer (aborted : bool) (answer : outcome Thrown Response) : outcome Raised bytes :=
  match answer with
  | Throw (HostTransportError c m) => Throw (Api (mkApiError (VStr c) (VStr m) 0))
  | Throw _ =>
    Throw (Api (mkApiError (VStr (if aborted then js "timeout" else js "offline"))
                  (VStr (if aborted then js "The material download timed out."
                         else js "The teacher computer is currently unreachable.")) 0))
  | Ok response =>
    if negb (response_ok response)
    then Throw (Api (mkApiError (VStr (js "request_failed")) (VStr (js "The material could not be opened."))
                       (status response)))
    else Ok (default [] (body response))
  end.

Definition isCinderHealthResponse (v : jsval) : bool :=
  is_object v &&
  match get (js "ok") v with VBool b => b | _ => false end &&
  match get (js "version") v with VStr s => truthy (trim s) | _ => false end.

Definition check_health (r : outcome Raised jsval) : outcome Raised jsval :=
  match r with
  | Ok v => if isCinderHealthResponse v then Ok v
            else Throw (Api (mkApiError (VStr (js "invalid_host"))
                               (VStr (js "The server did not identify as Cinder Host.")) 200))
  | Throw e => Throw e
  end.
Definition probeHost (aborted : bool) (answer : outcome Thrown Response) : bool :=
  match check_health (request aborted answer) with Ok _ => true | Throw _ => false end.

(** ** The requests *)

Definition or_null (s : option jstr) : jsval :=
  match s with Some ((_ :: _) as t) => VStr t | _ => VNull end.
Definition opt_str (s : option jstr) : jsval := match s with Some t => VStr t | None => VNull end.
Definition with_query (base : jstr) (classroomId : option jstr) : option jstr :=
  match classroomId with
  | Some ((_ :: _) as c) => (fun e => base ++ js "?classroom_id=" ++ e) <$> encodeURIComponent c
  | _ => Some base
  end.

Module CinderApi.
Definition health (timeoutMs : Z) : Call :=
  mkCall (js "GET") (Some (js "/api/health")) (NoBody) timeoutMs.
Definition authStatus : Call :=
  mkCall (js "GET") (Some (js "/api/auth/status")) (NoBody) 2000.
Definition login (username password : jstr) (expectedRole : jstr) (deviceLabel : option jstr) : Call :=
  mkCall (js "POST") (Some (js "/api/auth/login")) (JsonBody (VObj [(js "username", VStr username);
    (js "password", VStr password); (js "expected_role", VStr expectedRole);
    (js "device_label", or_null deviceLabel)])) default_timeout.
Definition me : Call :=
  mkCall (js "GET") (Some (js "/api/me")) (NoBody) 4000.
Definition logout : Call :=
  mkCall (js "POST") (Some (js "/api/auth/logout")) (NoBody) default_timeout.
Definition bootstrapTeacher (username displayName password bootstrapPin : jstr) : Call :=
  mkCall (js "POST") (Some (js "/api/auth/bootstrap")) (JsonBody (VObj [(js "username", VStr username);
    (js "display_name", VStr displayName); (js "password", VStr password);
    (js "bootstrap_pin", VStr bootstrapPin)])) default_timeout.
Definition registerTeacher (username displayName password invitePin : jstr) : Call :=
  mkCall (js "POST") (Some (js "/api/auth/register-teacher")) (JsonBody (VObj [(js "username", VStr username);
    (js "display_name", VStr displayName); (js "password", VStr password);
    (js "invite_pin", VStr invitePin)])) default_timeout.
Definition generateTeacherInvite : Call :=
  mkCall (js "POST") (Some (js "/api/teacher/invite-pin")) (NoBody) default_timeout.
Definition teacherAccounts : Call :=
  mkCall (js "GET") (Some (js "/api/teacher/accounts")) (NoBody) default_timeout.
Definition deleteTeacher (teacherId currentPassword : jstr) : Call :=
  mkCall (js "DELETE") (Some (js "/api/teacher/accounts/" ++ teacherId)) (JsonBody
    (VObj [(js "current_password", VStr currentPassword)])) default_timeout.
Definition recoverTeacher (username recoveryCode newPassword : jstr) : Call :=
  mkCall (js "POST") (Some (js "/api/auth/recover")) (JsonBody (VObj [(js "username", VStr username);
    (js "recovery_code", VStr recoveryCode); (js "new_password", VStr newPassword)])) default_timeout.
Definition changePassword (currentPassword newPassword : jstr) : Call :=
  mkCall (js "POST") (Some (js "/api/auth/change-password")) (JsonBody
    (VObj [(js "current_password", VStr currentPassword); (js "new_password", VStr newPassword)])) default_timeout.
Definition students : Call :=
  mkCall (js "GET") (Some (js "/api/teacher/users")) (NoBody) default_timeout.
Definition createStudent (input : jsval) : Call :=
  mkCall (js "POST") (Some (js "/api/teacher/users")) (JsonBody input) default_timeout.
Definition resetStudentCredentials (studentId : jstr) : Call :=
  mkCall (js "POST") (Some (js "/api/teacher/users/" ++ studentId ++ js "/reset-credentials"))
    (NoBody) default_timeout.
Definition updateStudent (studentId : jstr) (input : jsval) : Call :=
  mkCall (js "PATCH") (Some (js "/api/teacher/users/" ++ studentId)) (JsonBody input) default_timeout.
Definition deleteStudent (studentId : jstr) : Call :=
  mkCall (js "DELETE") (Some (js "/api/teacher/users/" ++ studentId)) (NoBody) default_timeout.
Definition recoverStudent (username recoveryCode newPassword : jstr) : Call :=
  mkCall (js "POST") (Some (js "/api/auth/student-recover")) (JsonBody (VObj [(js "username", VStr username);
    (js "recovery_code", VStr recoveryCode); (js "new_password", VStr newPassword)])) default_timeout.
Definition classrooms : Call :=
  mkCall (js "GET") (Some (js "/api/classrooms")) (NoBody) default_timeout.
Definition joinClassroom (code : jstr) : Call :=
  mkCall (js "POST") (Some (js "/api/classrooms/join")) (JsonBody (VObj [(js "code", VStr code)])) default_timeout.
Definition classroomTeachers (id : jstr) : Call :=
  mkCall (js "GET") (Some (js "/api/classrooms/" ++ id ++ js "/teachers")) (NoBody) default_timeout.
Definition addClassroomTeacher (id teacherId : jstr) : Call :=
  mkCall (js "POST") (Some (js "/api/classrooms/" ++ id ++ js "/teachers")) (JsonBody
    (VObj [(js "teacher_id", VStr teacherId)])) default_timeout.
Definition removeClassroomTeacher (id teacherId : jstr) : Call :=
  mkCall (js "DELETE") (Some (js "/api/classrooms/" ++ id ++ js "/teachers/" ++ teacherId)) (NoBody) default_timeout.
Definition createClassroom (input : jsval) : Call :=
  mkCall (js "POST") (Some (js "/api/classrooms")) (JsonBody input) default_timeout.
Definition updateClassroom (id : jstr) (input : jsval) : Call :=
  mkCall (js "PATCH") (Some (js "/api/classrooms/" ++ id)) (JsonBody input) default_timeout.
Definition deleteClassroom (id : jstr) : Call :=
  mkCall (js "DELETE") (Some (js "/api/classrooms/" ++ id)) (NoBody) default_timeout.
Definition classroomRoster (id : jstr) : Call :=
  mkCall (js "GET") (Some (js "/api/classrooms/" ++ id)) (NoBody) default_timeout.
Definition enrolStudent (classroomId studentId : jstr) : Call :=
  mkCall (js "POST") (Some (js "/api/classrooms/" ++ classroomId ++ js "/students")) (JsonBody
    (VObj [(js "student_id", VStr studentId)])) default_timeout.
Definition removeStudent (classroomId studentId : jstr) : Call :=
  mkCall (js "DELETE") (Some (js "/api/classrooms/" ++ classroomId ++ js "/students/" ++ studentId))
    (NoBody) default_timeout.
Definition startLiveSession (input : jsval) : Call :=
  mkCall (js "POST") (Some (js "/api/live-sessions")) (JsonBody input) default_timeout.
Definition activeLiveSession (classroomId : jstr) : Call :=
  mkCall (js "GET") (Some (js "/api/classrooms/" ++ classroomId ++ js "/live-session")) (NoBody) default_timeout.
Definition activeStudentLiveSessions : Call :=
  mkCall (js "GET") (Some (js "/api/live-sessions/active")) (NoBody) default_timeout.
Definition joinLiveSession (code : jstr) : Call :=
  mkCall (js "POST") (Some (js "/api/live-sessions/join")) (JsonBody (VObj [(js "code", VStr code)])) default_timeout.
Definition joinLiveSessionById (id : jstr) : Call :=
  mkCall (js "POST") (Some (js "/api/live-sessions/" ++ id ++ js "/join")) (NoBody) default_timeout.
Definition assignLiveSessionTask (id : jstr) (input : jsval) : Call :=
  mkCall (js "POST") (Some (js "/api/live-sessions/" ++ id ++ js "/task")) (JsonBody input) default_timeout.
Definition acknowledgeLiveSessionTask (id : jstr) (revision : Z) (state : jstr) : Call :=
  mkCall (js "POST") (Some (js "/api/live-sessions/" ++ id ++ js "/task-ack")) (JsonBody
    (VObj [(js "revision", VNum (num revision)); (js "state", VStr state)])) default_timeout.
Definition liveSessionHistory (classroomId : jstr) : Call :=
  mkCall (js "GET") (Some (js "/api/classrooms/" ++ classroomId ++ js "/live-sessions")) (NoBody) default_timeout.
Definition liveSessionDetails (id : jstr) : Call :=
  mkCall (js "GET") (Some (js "/api/live-sessions/" ++ id)) (NoBody) default_timeout.
Definition submitLiveSessionResult (id : jstr) (input : jsval) : Call :=
  mkCall (js "POST") (Some (js "/api/live-sessions/" ++ id ++ js "/result")) (JsonBody input) default_timeout.
Definition endLiveSession (id : jstr) : Call :=
  mkCall (js "POST") (Some (js "/api/live-sessions/" ++ id ++ js "/end")) (NoBody) default_timeout.
Definition quizzes (classroomId : option jstr) : Call :=
  mkCall (js "GET") (with_query (js "/api/quizzes") classroomId) (NoBody) default_timeout.
Definition createQuiz (input : jsval) : Call :=
  mkCall (js "POST") (Some (js "/api/quizzes")) (JsonBody input) default_timeout.
Definition updateQuiz (id : jstr) (input : jsval) : Call :=
  mkCall (js "PATCH") (Some (js "/api/quizzes/" ++ id)) (JsonBody input) default_timeout.
Definition duplicateQuiz (id : jstr) : Call :=
  mkCall (js "POST") (Some (js "/api/quizzes/" ++ id ++ js "/duplicate")) (NoBody) default_timeout.
Definition publishQuiz (id : jstr) : Call :=
  mkCall (js "POST") (Some (js "/api/quizzes/" ++ id ++ js "/publish")) (NoBody) default_timeout.
Definition archiveQuiz (id : jstr) : Call :=
  mkCall (js "DELETE") (Some (js "/api/quizzes/" ++ id)) (NoBody) default_timeout.
Definition deliverQuiz (id : jstr) (input : jsval) : Call :=
  mkCall (js "POST") (Some (js "/api/quizzes/" ++ id ++ js "/deliver")) (JsonBody input) default_timeout.
Definition quizDeliveries (classroomId : option jstr) : Call :=
  mkCall (js "GET") (with_query (js "/api/quiz-deliveries") classroomId) (NoBody) default_timeout.
Definition startQuizAttempt (deliveryId : jstr) : Call :=
  mkCall (js "POST") (Some (js "/api/quiz-deliveries/" ++ deliveryId ++ js "/start")) (NoBody) default_timeout.
Definition quizAttempt (id : jstr) : Call :=
  mkCall (js "GET") (Some (js "/api/quiz-attempts/" ++ id)) (NoBody) default_timeout.
Definition quizAttempts (deliveryId : jstr) : Call :=
  mkCall (js "GET") (Some (js "/api/quiz-deliveries/" ++ deliveryId ++ js "/attempts")) (NoBody) default_timeout.
Definition saveQuizResponse (id questionId : jstr) (answer : jsval) : Call :=
  mkCall (js "PUT") (Some (js "/api/quiz-attempts/" ++ id ++ js "/responses/" ++ questionId)) (JsonBody
    (VObj [(js "answer", answer)])) default_timeout.
Definition submitQuizAttempt (id : jstr) : Call :=
  mkCall (js "POST") (Some (js "/api/quiz-attempts/" ++ id ++ js "/submit")) (NoBody) default_timeout.
Definition reopenQuizAttempt (id : jstr) : Call :=
  mkCall (js "POST") (Some (js "/api/quiz-attempts/" ++ id ++ js "/reopen")) (NoBody) default_timeout.
Definition gradeQuizResponse (id questionId : jstr) (points : jsnum) (feedback : jstr) : Call :=
  mkCall (js "PUT") (Some (js "/api/quiz-attempts/" ++ id ++ js "/responses/" ++ questionId ++ js "/grade"))
    (JsonBody (VObj [(js "points", VNum points); (js "feedback", VStr feedback)])) default_timeout.
Definition releaseQuizResults (deliveryId : jstr) : Call :=
  mkCall (js "POST") (Some (js "/api/quiz-deliveries/" ++ deliveryId ++ js "/release")) (NoBody) default_timeout.
Definition quizStatistics (deliveryId : jstr) : Call :=
  mkCall (js "GET") (Some (js "/api/quiz-deliveries/" ++ deliveryId ++ js "/stats")) (NoBody) default_timeout.
Definition assignments (classroomId : option jstr) : Call :=
  mkCall (js "GET") (with_query (js "/api/assignments") classroomId) (NoBody) default_timeout.
Definition createAssignment (input : jsval) : Call :=
  mkCall (js "POST") (Some (js "/api/assignments")) (JsonBody input) default_timeout.
Definition updateAssignment (id : jstr) (input : jsval) : Call :=
  mkCall (js "PATCH") (Some (js "/api/assignments/" ++ id)) (JsonBody input) default_timeout.
Definition deleteAssignment (id : jstr) : Call :=
  mkCall (js "DELETE") (Some (js "/api/assignments/" ++ id)) (NoBody) default_timeout.
Definition submissions (assignmentId : jstr) : Call :=
  mkCall (js "GET") (Some (js "/api/assignments/" ++ assignmentId ++ js "/submissions")) (NoBody) default_timeout.
Definition mySubmission (assignmentId : jstr) : Call :=
  mkCall (js "GET") (Some (js "/api/assignments/" ++ assignmentId ++ js "/submission")) (NoBody) default_timeout.
Definition submitWork (assignmentId : jstr) (docJson : jsval) (plaintext : jstr) (changeNote : option jstr) : Call :=
  mkCall (js "PUT") (Some (js "/api/assignments/" ++ assignmentId ++ js "/submission")) (JsonBody
    (VObj [(js "doc_json", docJson); (js "plaintext", VStr plaintext);
    (js "change_note", or_null changeNote)])) default_timeout.
Definition withdrawWork (assignmentId : jstr) : Call :=
  mkCall (js "DELETE") (Some (js "/api/assignments/" ++ assignmentId ++ js "/submission")) (NoBody) default_timeout.
Definition saveGrade (submissionId : jstr) (input : jsval) : Call :=
  mkCall (js "PUT") (Some (js "/api/submissions/" ++ submissionId ++ js "/grade")) (JsonBody input) default_timeout.
Definition comments (submissionId : jstr) : Call :=
  mkCall (js "GET") (Some (js "/api/submissions/" ++ submissionId ++ js "/comments")) (NoBody) default_timeout.
Definition addComment (submissionId body : jstr) (anchor : jsval) : Call :=
  mkCall (js "POST") (Some (js "/api/submissions/" ++ submissionId ++ js "/comments")) (JsonBody
    (VObj [(js "body", VStr body); (js "anchor", anchor)])) default_timeout.
Definition gradeHistory (submissionId : jstr) : Call :=
  mkCall (js "GET") (Some (js "/api/submissions/" ++ submissionId ++ js "/grade-history")) (NoBody) default_timeout.
Definition attendance (classroomId day : jstr) : Call :=
  mkCall (js "GET") (Some (js "/api/classrooms/" ++ classroomId ++ js "/attendance/" ++ day))
    (NoBody) default_timeout.
Definition saveAttendance (classroomId day studentId status note : jstr) : Call :=
  mkCall (js "PUT") (Some (js "/api/classrooms/" ++ classroomId ++ js "/attendance/" ++ day)) (JsonBody
    (VObj [(js "student_id", VStr studentId); (js "status", VStr status); (js "note", VStr note)])) default_timeout.
Definition dashboard : Call :=
  mkCall (js "GET") (Some (js "/api/teacher/dashboard")) (NoBody) default_timeout.
Definition tree : Call :=
  mkCall (js "GET") (Some (js "/api/tree")) (NoBody) default_timeout.
Definition createNode (input : jsval) : Call :=
  mkCall (js "POST") (Some (js "/api/nodes")) (JsonBody input) default_timeout.
Definition updateNode (id : jstr) (input : jsval) : Call :=
  mkCall (js "PATCH") (Some (js "/api/nodes/" ++ id)) (JsonBody input) default_timeout.
Definition deleteNode (id : jstr) : Call :=
  mkCall (js "DELETE") (Some (js "/api/nodes/" ++ id)) (NoBody) default_timeout.
Definition uploadMaterial (classroomId : jstr) (file : jstr) : Call :=
  mkCall (js "POST") ((fun c => js "/api/files?shared=true&classroom_id="
    ++ c) <$> encodeURIComponent classroomId) (FormBody file) 60000.
Definition materialBlob (id : jstr) : Call :=
  mkCall (js "GET") (Some (js "/api/files/" ++ id)) (NoBody) 60000.
Definition note (id : jstr) : Call :=
  mkCall (js "GET") (Some (js "/api/notes/" ++ id)) (NoBody) default_timeout.
Definition saveNote (id : jstr) (docJson : jsval) (plaintext : jstr) (baseUpdatedAt : option jstr) : Call :=
  mkCall (js "PUT") (Some (js "/api/notes/" ++ id)) (JsonBody (VObj [(js "doc_json", docJson);
    (js "plaintext", VStr plaintext); (js "base_updated_at", opt_str baseUpdatedAt)])) default_timeout.
Definition searchPapers (query : jstr) : Call :=
  mkCall (js "POST") (Some (js "/api/papers/search")) (JsonBody (VObj [(js "query", VStr query)])) 120000.
Definition fetchPaperSource (url : jstr) : Call :=
  mkCall (js "POST") (Some (js "/api/papers/fetch")) (JsonBody (VObj [(js "url", VStr url)])) 120000.
Definition findPaperFigures (pages : jsval) : Call :=
  mkCall (js "POST") (Some (js "/api/papers/figures")) (JsonBody (VObj [(js "pages", pages)])) 190000.
Definition questionPapers : Call :=
  mkCall (js "GET") (Some (js "/api/papers")) (NoBody) default_timeout.
Definition saveQuestionPaper (id : jstr) (input : jsval) : Call :=
  mkCall (js "PATCH") (Some (js "/api/papers/" ++ id)) (JsonBody input) default_timeout.
Definition deleteQuestionPaper (id : jstr) : Call :=
  mkCall (js "DELETE") (Some (js "/api/papers/" ++ id)) (NoBody) default_timeout.
Definition chat (messages context maxOutputTokens : jsval) : Call :=
  mkCall (js "POST") (Some (js "/api/ai/chat")) (JsonBody (VObj [(js "messages", messages);
    (js "context", context); (js "max_output_tokens", maxOutputTokens)])) 190000.
Definition cards (deckId : jstr) : Call :=
  mkCall (js "GET") (Some (js "/api/decks/" ++ deckId ++ js "/cards")) (NoBody) default_timeout.
Definition createCard (deckId front back : jstr) : Call :=
  mkCall (js "POST") (Some (js "/api/decks/" ++ deckId ++ js "/cards")) (JsonBody (VObj [(js "front", VStr front);
    (js "back", VStr back); (js "source_node_id", VNull); (js "source_excerpt", VNull)])) default_timeout.
Definition deleteCard (cardId : jstr) : Call :=
  mkCall (js "DELETE") (Some (js "/api/cards/" ++ cardId)) (NoBody) default_timeout.
End CinderApi.

(** ** The routes of the Host *)

Inductive Segment := Word (w : jstr) | Param.
Record Route := mkRoute { route_method : jstr; route_pattern : list Segment; route_handler : jstr }.

Definition routes_ai : list Route :=
  [mkRoute (js "POST") [Word (js "api"); Word (js "ai"); Word (js "chat")] (js "chat")].
Definition routes_assignments : list Route :=
  [mkRoute (js "GET") [Word (js "api"); Word (js "assignments")] (js "list_assignments");
   mkRoute (js "POST") [Word (js "api"); Word (js "assignments")] (js "create_assignment");
   mkRoute (js "GET") [Word (js "api"); Word (js "assignments"); Param] (js "get_assignment");
   mkRoute (js "PATCH") [Word (js "api"); Word (js "assignments"); Param] (js "update_assignment");
   mkRoute (js "DELETE") [Word (js "api"); Word (js "assignments"); Param] (js "delete_assignment");
   mkRoute (js "GET") [Word (js "api"); Word (js "assignments"); Param; Word (js "submission")] (js "get_my_submission");
   mkRoute (js "PUT") [Word (js "api"); Word (js "assignments"); Param; Word (js "submission")] (js "submit_work");
   mkRoute (js "DELETE") [Word (js "api"); Word (js "assignments"); Param; Word (js "submission")] (js "withdraw_work");
   mkRoute (js "GET") [Word (js "api"); Word (js "assignments"); Param; Word (js "submissions")] (js "list_submissions");
   mkRoute (js "GET") [Word (js "api"); Word (js "submissions"); Param] (js "get_submission");
   mkRoute (js "PUT") [Word (js "api"); Word (js "submissions"); Param; Word (js "grade")] (js "save_grade");
   mkRoute (js "GET") [Word (js "api"); Word (js "submissions"); Param; Word (js "comments")] (js "list_comments");
   mkRoute (js "POST") [Word (js "api"); Word (js "submissions"); Param; Word (js "comments")] (js "add_comment");
   mkRoute (js "GET") [Word (js "api"); Word (js "submissions"); Param; Word (js "grade-history")] (js "grade_history")].
Definition routes_attendance : list Route :=
  [mkRoute (js "GET") [Word (js "api"); Word (js "classrooms"); Param; Word (js "attendance"); Param] (js "read_day");
   mkRoute (js "PUT") [Word (js "api"); Word (js "classrooms"); Param; Word (js "attendance"); Param] (js "save_record")].
Definition routes_auth : list Route :=
  [mkRoute (js "GET") [Word (js "api"); Word (js "auth"); Word (js "status")] (js "status");
   mkRoute (js "POST") [Word (js "api"); Word (js "auth"); Word (js "login")] (js "login");
   mkRoute (js "POST") [Word (js "api"); Word (js "auth"); Word (js "logout")] (js "logout");
   mkRoute (js "POST") [Word (js "api"); Word (js "auth"); Word (js "bootstrap")] (js "bootstrap");
   mkRoute (js "POST") [Word (js "api"); Word (js "auth"); Word (js "register-teacher")] (js "register_teacher");
   mkRoute (js "POST") [Word (js "api"); Word (js "auth"); Word (js "recover")] (js "recover_teacher");
   mkRoute (js "POST") [Word (js "api"); Word (js "auth"); Word (js "student-recover")] (js "recover_student");
   mkRoute (js "POST") [Word (js "api"); Word (js "auth"); Word (js "change-password")] (js "change_password");
   mkRoute (js "GET") [Word (js "api"); Word (js "me")] (js "me");
   mkRoute (js "POST") [Word (js "api"); Word (js "teacher"); Word (js "invite-pin")] (js "generate_teacher_invite");
   mkRoute (js "GET") [Word (js "api"); Word (js "teacher"); Word (js "accounts")] (js "list_teachers");
   mkRoute (js "DELETE") [Word (js "api"); Word (js "teacher"); Word (js "accounts"); Param] (js "delete_teacher");
   mkRoute (js "GET") [Word (js "api"); Word (js "teacher"); Word (js "users")] (js "list_users");
   mkRoute (js "POST") [Word (js "api"); Word (js "teacher"); Word (js "users")] (js "create_student");
   mkRoute (js "PATCH") [Word (js "api"); Word (js "teacher"); Word (js "users"); Param] (js "update_student");
   mkRoute (js "DELETE") [Word (js "api"); Word (js "teacher"); Word (js "users"); Param] (js "delete_student");
   mkRoute (js "POST") [Word (js "api"); Word (js "teacher"); Word (js "users"); Param; Word (js "reset-credentials")] (js "reset_student_credentials")].
Definition routes_cards : list Route :=
  [mkRoute (js "GET") [Word (js "api"); Word (js "decks"); Param; Word (js "cards")] (js "cards::list");
   mkRoute (js "POST") [Word (js "api"); Word (js "decks"); Param; Word (js "cards")] (js "cards::create");
   mkRoute (js "DELETE") [Word (js "api"); Word (js "cards"); Param] (js "cards::remove")].
Definition routes_classrooms : list Route :=
  [mkRoute (js "GET") [Word (js "api"); Word (js "classrooms")] (js "classrooms::list");
   mkRoute (js "POST") [Word (js "api"); Word (js "classrooms")] (js "classrooms::create");
   mkRoute (js "POST") [Word (js "api"); Word (js "classrooms"); Word (js "join")] (js "classrooms::join");
   mkRoute (js "GET") [Word (js "api"); Word (js "classrooms"); Param] (js "roster");
   mkRoute (js "PATCH") [Word (js "api"); Word (js "classrooms"); Param] (js "classrooms::update");
   mkRoute (js "DELETE") [Word (js "api"); Word (js "classrooms"); Param] (js "archive");
   mkRoute (js "POST") [Word (js "api"); Word (js "classrooms"); Param; Word (js "students")] (js "enrol");
   mkRoute (js "DELETE") [Word (js "api"); Word (js "classrooms"); Param; Word (js "students"); Param] (js "classrooms::remove");
   mkRoute (js "GET") [Word (js "api"); Word (js "classrooms"); Param; Word (js "teachers")] (js "classroom_teachers");
   mkRoute (js "POST") [Word (js "api"); Word (js "classrooms"); Param; Word (js "teachers")] (js "add_co_teacher");
   mkRoute (js "DELETE") [Word (js "api"); Word (js "classrooms"); Param; Word (js "teachers"); Param] (js "remove_co_teacher")].
Definition routes_dashboard : list Route :=
  [mkRoute (js "GET") [Word (js "api"); Word (js "teacher"); Word (js "dashboard")] (js "stats")].
Definition routes_files : list Route :=
  [mkRoute (js "POST") [Word (js "api"); Word (js "files")] (js "upload");
   mkRoute (js "GET") [Word (js "api"); Word (js "files"); Param] (js "download")].
Definition routes_health : list Route :=
  [mkRoute (js "GET") [Word (js "api"); Word (js "health")] (js "health")].
Definition routes_live_sessions : list Route :=
  [mkRoute (js "POST") [Word (js "api"); Word (js "live-sessions")] (js "start");
   mkRoute (js "GET") [Word (js "api"); Word (js "live-sessions"); Word (js "active")] (js "active_for_student");
   mkRoute (js "POST") [Word (js "api"); Word (js "live-sessions"); Word (js "join")] (js "live_sessions::join");
   mkRoute (js "POST") [Word (js "api"); Word (js "live-sessions"); Param; Word (js "join")] (js "join_by_id");
   mkRoute (js "GET") [Word (js "api"); Word (js "live-sessions"); Param] (js "details");
   mkRoute (js "POST") [Word (js "api"); Word (js "live-sessions"); Param; Word (js "task")] (js "assign_task");
   mkRoute (js "POST") [Word (js "api"); Word (js "live-sessions"); Param; Word (js "task-ack")] (js "acknowledge_task");
   mkRoute (js "POST") [Word (js "api"); Word (js "live-sessions"); Param; Word (js "result")] (js "submit_result");
   mkRoute (js "POST") [Word (js "api"); Word (js "live-sessions"); Param; Word (js "end")] (js "end");
   mkRoute (js "GET") [Word (js "api"); Word (js "classrooms"); Param; Word (js "live-session")] (js "active_for_classroom");
   mkRoute (js "GET") [Word (js "api"); Word (js "classrooms"); Param; Word (js "live-sessions")] (js "session_history")].
Definition routes_notes : list Route :=
  [mkRoute (js "GET") [Word (js "api"); Word (js "notes"); Param] (js "get_note");
   mkRoute (js "PUT") [Word (js "api"); Word (js "notes"); Param] (js "save_note");
   mkRoute (js "GET") [Word (js "api"); Word (js "search")] (js "notes::search")].
Definition routes_papers : list Route :=
  [mkRoute (js "GET") [Word (js "api"); Word (js "papers")] (js "list_papers");
   mkRoute (js "POST") [Word (js "api"); Word (js "papers"); Word (js "search")] (js "papers::search");
   mkRoute (js "POST") [Word (js "api"); Word (js "papers"); Word (js "fetch")] (js "fetch_source");
   mkRoute (js "POST") [Word (js "api"); Word (js "papers"); Word (js "figures")] (js "figures");
   mkRoute (js "GET") [Word (js "api"); Word (js "papers"); Param] (js "get_paper");
   mkRoute (js "PATCH") [Word (js "api"); Word (js "papers"); Param] (js "update_paper");
   mkRoute (js "DELETE") [Word (js "api"); Word (js "papers"); Param] (js "delete_paper")].
Definition routes_quizzes : list Route :=
  [mkRoute (js "GET") [Word (js "api"); Word (js "quizzes")] (js "list_quizzes");
   mkRoute (js "POST") [Word (js "api"); Word (js "quizzes")] (js "create_quiz");
   mkRoute (js "GET") [Word (js "api"); Word (js "quizzes"); Param] (js "get_quiz");
   mkRoute (js "PATCH") [Word (js "api"); Word (js "quizzes"); Param] (js "update_quiz");
   mkRoute (js "DELETE") [Word (js "api"); Word (js "quizzes"); Param] (js "archive_quiz");
   mkRoute (js "POST") [Word (js "api"); Word (js "quizzes"); Param; Word (js "duplicate")] (js "duplicate_quiz");
   mkRoute (js "POST") [Word (js "api"); Word (js "quizzes"); Param; Word (js "publish")] (js "publish_quiz");
   mkRoute (js "POST") [Word (js "api"); Word (js "quizzes"); Param; Word (js "deliver")] (js "deliver_quiz");
   mkRoute (js "GET") [Word (js "api"); Word (js "quiz-deliveries")] (js "list_deliveries");
   mkRoute (js "POST") [Word (js "api"); Word (js "quiz-deliveries"); Param; Word (js "start")] (js "start_attempt");
   mkRoute (js "GET") [Word (js "api"); Word (js "quiz-deliveries"); Param; Word (js "attempts")] (js "list_attempts");
   mkRoute (js "POST") [Word (js "api"); Word (js "quiz-deliveries"); Param; Word (js "release")] (js "release_results");
   mkRoute (js "GET") [Word (js "api"); Word (js "quiz-deliveries"); Param; Word (js "stats")] (js "statistics");
   mkRoute (js "GET") [Word (js "api"); Word (js "quiz-attempts"); Param] (js "get_attempt");
   mkRoute (js "PUT") [Word (js "api"); Word (js "quiz-attempts"); Param; Word (js "responses"); Param] (js "save_response");
   mkRoute (js "POST") [Word (js "api"); Word (js "quiz-attempts"); Param; Word (js "submit")] (js "submit_attempt");
   mkRoute (js "POST") [Word (js "api"); Word (js "quiz-attempts"); Param; Word (js "reopen")] (js "reopen_attempt");
   mkRoute (js "PUT") [Word (js "api"); Word (js "quiz-attempts"); Param; Word (js "responses"); Param; Word (js "grade")] (js "grade_response")].
Definition routes_tree : list Route :=
  [mkRoute (js "GET") [Word (js "api"); Word (js "tree")] (js "get_tree");
   mkRoute (js "POST") [Word (js "api"); Word (js "nodes")] (js "create_node");
   mkRoute (js "PATCH") [Word (js "api"); Word (js "nodes"); Param] (js "update_node");
   mkRoute (js "DELETE") [Word (js "api"); Word (js "nodes"); Param] (js "delete_node")].
Definition host_routes : list Route :=
  routes_ai ++ routes_assignments ++ routes_attendance ++ routes_auth ++ routes_cards ++ routes_classrooms ++
  routes_dashboard ++ routes_files ++ routes_health ++ routes_live_sessions ++ routes_notes ++
  routes_papers ++ routes_quizzes ++ routes_tree.

(** The router prefers a word to a parameter, segment by segment; a parameter
    takes any segment that is not empty. *)
Definition after_word (w : jstr) (rs : list (list Segment * Route)) : list (list Segment * Route) :=
  filter_map (fun p => match p with (Word w' :: rest, r) => if seqb w' w then Some (rest, r) else None | _ => None end) rs.
Definition after_param (rs : list (list Segment * Route)) : list (list Segment * Route) :=
  filter_map (fun p => match p with (Param :: rest, r) => Some (rest, r) | _ => None end) rs.
Fixpoint resolve (rs : list (list Segment * Route)) (segs : list jstr) : list Route :=
  match segs with
  | [] => filter_map (fun p => match p with ([], r) => Some r | _ => None end) rs
  | s :: segs' =>
    match resolve (after_word s rs) segs' with
    | [] => match s with [] => [] | _ => resolve (after_param rs) segs' end
    | found => found
    end
  end.
Definition all_routes : list (list Segment * Route) := (fun r => (route_pattern r, r)) <$> host_routes.
Definition strip_query (p : jstr) : jstr := take_while (fun c => negb (c =? 63)%N) p.
Definition segments (p : jstr) : list jstr := tail (split 47 (strip_query p)).
(** The handler that serves a request. *)
Definition dispatch (m p : jstr) : option jstr :=
  route_handler <$> find (fun r => seqb (route_method r) m) (resolve all_routes (segments p)).

(** Every request of the client with the handler it is meant for; [i] and [j]
    are identifiers, [d] a day, the rest is arbitrary. *)
Definition contract (i j d s : jstr) (o : option jstr) (v : jsval) (n : Z) : list (Call * jstr) :=
  [(CinderApi.health n, js "health");
   (CinderApi.authStatus, js "status");
   (CinderApi.login s s s o, js "login");
   (CinderApi.me, js "me");
   (CinderApi.logout, js "logout");
   (CinderApi.bootstrapTeacher s s s s, js "bootstrap");
   (CinderApi.registerTeacher s s s s, js "register_teacher");
   (CinderApi.generateTeacherInvite, js "generate_teacher_invite");
   (CinderApi.teacherAccounts, js "list_teachers");
   (CinderApi.deleteTeacher i s, js "delete_teacher");
   (CinderApi.recoverTeacher s s s, js "recover_teacher");
   (CinderApi.changePassword s s, js "change_password");
   (CinderApi.students, js "list_users");
   (CinderApi.createStudent v, js "create_student");
   (CinderApi.resetStudentCredentials i, js "reset_student_credentials");
   (CinderApi.updateStudent i v, js "update_student");
   (CinderApi.deleteStudent i, js "delete_student");
   (CinderApi.recoverStudent s s s, js "recover_student");
   (CinderApi.classrooms, js "classrooms::list");
   (CinderApi.joinClassroom s, js "classrooms::join");
   (CinderApi.classroomTeachers i, js "classroom_teachers");
   (CinderApi.addClassroomTeacher i s, js "add_co_teacher");
   (CinderApi.removeClassroomTeacher i j, js "remove_co_teacher");
   (CinderApi.createClassroom v, js "classrooms::create");
   (CinderApi.updateClassroom i v, js "classrooms::update");
   (CinderApi.deleteClassroom i, js "archive");
   (CinderApi.classroomRoster i, js "roster");
   (CinderApi.enrolStudent i s, js "enrol");
   (CinderApi.removeStudent i j, js "classrooms::remove");
   (CinderApi.startLiveSession v, js "start");
   (CinderApi.activeLiveSession i, js "active_for_classroom");
   (CinderApi.activeStudentLiveSessions, js "active_for_student");
   (CinderApi.joinLiveSession s, js "live_sessions::join");
   (CinderApi.joinLiveSessionById i, js "join_by_id");
   (CinderApi.assignLiveSessionTask i v, js "assign_task");
   (CinderApi.acknowledgeLiveSessionTask i n s, js "acknowledge_task");
   (CinderApi.liveSessionHistory i, js "session_history");
   (CinderApi.liveSessionDetails i, js "details");
   (CinderApi.submitLiveSessionResult i v, js "submit_result");
   (CinderApi.endLiveSession i, js "end");
   (CinderApi.quizzes o, js "list_quizzes");
   (CinderApi.createQuiz v, js "create_quiz");
   (CinderApi.updateQuiz i v, js "update_quiz");
   (CinderApi.duplicateQuiz i, js "duplicate_quiz");
   (CinderApi.publishQuiz i, js "publish_quiz");
   (CinderApi.archiveQuiz i, js "archive_quiz");
   (CinderApi.deliverQuiz i v, js "deliver_quiz");
   (CinderApi.quizDeliveries o, js "list_deliveries");
   (CinderApi.startQuizAttempt i, js "start_attempt");
   (CinderApi.quizAttempt i, js "get_attempt");
   (CinderApi.quizAttempts i, js "list_attempts");
   (CinderApi.saveQuizResponse i j v, js "save_response");
   (CinderApi.submitQuizAttempt i, js "submit_attempt");
   (CinderApi.reopenQuizAttempt i, js "reopen_attempt");
   (CinderApi.gradeQuizResponse i j (num n) s, js "grade_response");
   (CinderApi.releaseQuizResults i, js "release_results");
   (CinderApi.quizStatistics i, js "statistics");
   (CinderApi.assignments o, js "list_assignments");
   (CinderApi.createAssignment v, js "create_assignment");
   (CinderApi.updateAssignment i v, js "update_assignment");
   (CinderApi.deleteAssignment i, js "delete_assignment");
   (CinderApi.submissions i, js "list_submissions");
   (CinderApi.mySubmission i, js "get_my_submission");
   (CinderApi.submitWork i v s o, js "submit_work");
   (CinderApi.withdrawWork i, js "withdraw_work");
   (CinderApi.saveGrade i v, js "save_grade");
   (CinderApi.comments i, js "list_comments");
   (CinderApi.addComment i s v, js "add_comment");
   (CinderApi.gradeHistory i, js "grade_history");
   (CinderApi.attendance i d, js "read_day");
   (CinderApi.saveAttendance i d s s s, js "save_record");
   (CinderApi.dashboard, js "stats");
   (CinderApi.tree, js "get_tree");
   (CinderApi.createNode v, js "create_node");
   (CinderApi.updateNode i v, js "update_node");
   (CinderApi.deleteNode i, js "delete_node");
   (CinderApi.uploadMaterial s s, js "upload");
   (CinderApi.materialBlob i, js "download");
   (CinderApi.note i, js "get_note");
   (CinderApi.saveNote i v s o, js "save_note");
   (CinderApi.searchPapers s, js "papers::search");
   (CinderApi.fetchPaperSource s, js "fetch_source");
   (CinderApi.findPaperFigures v, js "figures");
   (CinderApi.questionPapers, js "list_papers");
   (CinderApi.saveQuestionPaper i v, js "update_paper");
   (CinderApi.deleteQuestionPaper i, js "delete_paper");
   (CinderApi.chat v v v, js "chat");
   (CinderApi.cards i, js "cards::list");
   (CinderApi.createCard i s s, js "cards::create");
   (CinderApi.deleteCard i, js "cards::remove")].

(** ** Properties *)

Module ApiFacts.

Lemma hostFetch_status settled r : hostFetch settled = Ok r -> 200 <= status r <= 599.
Proof.
  unfold hostFetch. destruct settled as [raw|text|]; [|by destruct (named_failure text)|done].
  destruct (unframe raw) as [[head b]|]; [|done]. unfold new_Response. cbv zeta.
  destruct (_ || _) eqn:E; [done|]. intros [= <-]. cbn. lia.
Qed.

(** *** Paths *)

(** The characters of the Host's identifiers (UUIDs) and of days. *)
Definition id_char (c : N) : bool := is_digit c || in_range 97 102 c || (c =? 45)%N.
Definition id_ok (i : jstr) : bool := truthy i && forallb id_char i.

Inductive Sym := Lit (w : jstr) | Id (k : nat).
Section syms.
Variable env : list jstr.
Definition conc (x : Sym) : jstr := match x with Lit w => w | Id k => nth k env [] end.
Definition path_of (xs : list Sym) : jstr := 47%N :: join [47%N] (conc <$> xs).

(** Resolution where an identifier is never a word of a route. *)
Fixpoint resolve_sym (rs : list (list Segment * Route)) (xs : list Sym) : list Route :=
  match xs with
  | [] => filter_map (fun p => match p with ([], r) => Some r | _ => None end) rs
  | Lit s :: xs' =>
    match resolve_sym (after_word s rs) xs' with
    | [] => match s with [] => [] | _ => resolve_sym (after_param rs) xs' end
    | found => found
    end
  | Id _ :: xs' => resolve_sym (after_param rs) xs'
  end.

Definition words_ok (rs : list (list Segment * Route)) : bool :=
  forallb (fun p => forallb (fun s => match s with Word w => negb (id_ok w) | Param => true end) (fst p)) rs.

Lemma words_after (f : list Segment * Route -> option (list Segment * Route)) rs :
  (forall p q, f p = Some q -> exists s, fst p = s :: fst q) -> words_ok rs = true -> words_ok (filter_map f rs) = true.
Proof.
  intros Hf H. unfold words_ok in *. apply forallb_Forall. apply forallb_Forall in H.
  apply Forall_forall. intros q (p & Hp & Hq)%elem_of_filter_map. rewrite Forall_forall in H. specialize (H p Hp).
  destruct (Hf p q Hq) as [s E]. rewrite E in H. cbn in H. by apply andb_true_iff in H as [_ ?].
Qed.
Lemma words_after_word w rs : words_ok rs = true -> words_ok (after_word w rs) = true.
Proof.
  apply words_after. intros [[|[w'|] rest] r] q; try done. destruct (seqb w' w); [|done]. intros [= <-]. by eexists.
Qed.
Lemma words_after_param rs : words_ok rs = true -> words_ok (after_param rs) = true.
Proof. apply words_after. intros [[|[w'|] rest] r] q; try done. intros [= <-]. by eexists. Qed.

Lemma after_word_id i rs : id_ok i = true -> words_ok rs = true -> after_word i rs = [].
Proof.
  intros Hi H. unfold after_word. induction rs as [|[[|[w|] rest] r] rs IH]; cbn in *; bool_hyps; try done; auto.
  destruct (seqb w i) eqn:E; [|auto]. apply seqb_eq in E as ->. congruence.
Qed.
Lemma resolve_nil segs : resolve [] segs = [].
Proof. induction segs as [|s segs IH]; cbn; [done|]. rewrite IH. by destruct s. Qed.

Lemma resolve_conc rs xs : Forall (fun i => id_ok i = true) env ->
  Forall (fun x => match x with Id k => (k < length env)%nat | Lit _ => True end) xs -> words_ok rs = true ->
  resolve rs (conc <$> xs) = resolve_sym rs xs.
Proof.
  intros He Hx. revert rs. induction Hx as [|[w|k] xs Hk Hxs IH]; intros rs Hrs; cbn; [done| |].
  - rewrite IH by (by apply words_after_word). rewrite IH by (by apply words_after_param). done.
  - assert (Hi : id_ok (nth k env []) = true).
    { rewrite Forall_forall in He. apply He. apply nth_elem_of. exact Hk. }
    rewrite after_word_id, resolve_nil by done.
    destruct (nth k env []) eqn:E; [done|]. by rewrite IH by (by apply words_after_param).
Qed.

(** A path without a query is cut where it was joined. *)
Lemma segments_path xs q : xs <> [] ->
  Forall (fun x => forallb (fun c => negb (c =? 47)%N && negb (c =? 63)%N) (conc x) = true) xs ->
  q = [] \/ (exists r, q = 63%N :: r) -> segments (path_of xs ++ q) = conc <$> xs.
Proof.
  intros Hne Hx Hq. unfold segments.
  assert (Hfree : forallb (fun c => negb (c =? 63)%N) (path_of xs) = true).
  { unfold path_of. cbn [forallb]. clear Hne Hq. apply forallb_Forall. induction Hx as [|x xs Hx Hxs IH]; cbn; [constructor|].
    assert (Hfx : Forall (fun c => negb (c =? 63)%N = true) (conc x)).
    { apply forallb_Forall in Hx. eapply Forall_impl; [exact Hx|]. intros c Hc. by apply andb_true_iff in Hc as [_ ?]. }
    destruct xs as [|y ys]; [done|]. cbn in *. apply Forall_app. split; [done|]. by constructor. }
  assert (Hs : strip_query (path_of xs ++ q) = path_of xs).
  { unfold strip_query, take_while. destruct Hq as [->|(r & ->)].
    - by rewrite app_nil_r, span_all.
    - by rewrite span_app_stop. }
  rewrite Hs. unfold path_of. cbn [split]. rewrite N.eqb_refl. cbn [tail]. apply split_join.
  - by destruct xs.
  - apply Forall_fmap. eapply Forall_impl; [exact Hx|]. intros x Hc Hin. cbn in Hin.
    apply forallb_Forall in Hc. rewrite Forall_forall in Hc. by specialize (Hc _ Hin).
Qed.

Definition sym_ok (x : Sym) : bool :=
  match x with
  | Lit w => forallb (fun c => negb (c =? 47)%N && negb (c =? 63)%N) w
  | Id k => (k <? length env)%nat
  end.

(** A request whose path is that of [xs] is served by what [xs] resolves to. *)
Lemma dispatch_sym m xs q h :
  Forall (fun i => id_ok i = true) env -> xs <> [] -> forallb sym_ok xs = true ->
  q = [] \/ (exists r, q = 63%N :: r) -> words_ok all_routes = true ->
  route_handler <$> find (fun r => seqb (route_method r) m) (resolve_sym all_routes xs) = Some h ->
  dispatch m (path_of xs ++ q) = Some h.
Proof.
  intros He Hne Hxs Hq Hw Hh. unfold dispatch. apply forallb_Forall in Hxs.
  rewrite segments_path, resolve_conc; try done.
  - eapply Forall_impl; [exact Hxs|]. intros [w|k]; cbn; [done|]. apply Nat.ltb_lt.
  - eapply Forall_impl; [exact Hxs|]. intros [w|k]; cbn; [done|]. intros Hk%Nat.ltb_lt.
    rewrite Forall_forall in He. specialize (He (nth k env []) ltac:(by apply nth_elem_of)).
    unfold id_ok in He. apply andb_true_iff in He as [_ He]. apply forallb_Forall in He. apply forallb_Forall.
    eapply Forall_impl; [exact He|]. intros c Hc. unfold id_char in Hc. char_lia.
Qed.
End syms.

(** The segments of the paths of [contract], and which query follows. *)
Definition shapes : list (list Sym * nat) :=
  [([Lit (js "api"); Lit (js "health")], 0%nat);
   ([Lit (js "api"); Lit (js "auth"); Lit (js "status")], 0%nat);
   ([Lit (js "api"); Lit (js "auth"); Lit (js "login")], 0%nat);
   ([Lit (js "api"); Lit (js "me")], 0%nat);
   ([Lit (js "api"); Lit (js "auth"); Lit (js "logout")], 0%nat);
   ([Lit (js "api"); Lit (js "auth"); Lit (js "bootstrap")], 0%nat);
   ([Lit (js "api"); Lit (js "auth"); Lit (js "register-teacher")], 0%nat);
   ([Lit (js "api"); Lit (js "teacher"); Lit (js "invite-pin")], 0%nat);
   ([Lit (js "api"); Lit (js "teacher"); Lit (js "accounts")], 0%nat);
   ([Lit (js "api"); Lit (js "teacher"); Lit (js "accounts"); Id 0], 0%nat);
   ([Lit (js "api"); Lit (js "auth"); Lit (js "recover")], 0%nat);
   ([Lit (js "api"); Lit (js "auth"); Lit (js "change-password")], 0%nat);
   ([Lit (js "api"); Lit (js "teacher"); Lit (js "users")], 0%nat);
   ([Lit (js "api"); Lit (js "teacher"); Lit (js "users")], 0%nat);
   ([Lit (js "api"); Lit (js "teacher"); Lit (js "users"); Id 0; Lit (js "reset-credentials")], 0%nat);
   ([Lit (js "api"); Lit (js "teacher"); Lit (js "users"); Id 0], 0%nat);
   ([Lit (js "api"); Lit (js "teacher"); Lit (js "users"); Id 0], 0%nat);
   ([Lit (js "api"); Lit (js "auth"); Lit (js "student-recover")], 0%nat);
   ([Lit (js "api"); Lit (js "classrooms")], 0%nat);
   ([Lit (js "api"); Lit (js "classrooms"); Lit (js "join")], 0%nat);
   ([Lit (js "api"); Lit (js "classrooms"); Id 0; Lit (js "teachers")], 0%nat);
   ([Lit (js "api"); Lit (js "classrooms"); Id 0; Lit (js "teachers")], 0%nat);
   ([Lit (js "api"); Lit (js "classrooms"); Id 0; Lit (js "teachers"); Id 1], 0%nat);
   ([Lit (js "api"); Lit (js "classrooms")], 0%nat);
   ([Lit (js "api"); Lit (js "classrooms"); Id 0], 0%nat);
   ([Lit (js "api"); Lit (js "classrooms"); Id 0], 0%nat);
   ([Lit (js "api"); Lit (js "classrooms"); Id 0], 0%nat);
   ([Lit (js "api"); Lit (js "classrooms"); Id 0; Lit (js "students")], 0%nat);
   ([Lit (js "api"); Lit (js "classrooms"); Id 0; Lit (js "students"); Id 1], 0%nat);
   ([Lit (js "api"); Lit (js "live-sessions")], 0%nat);
   ([Lit (js "api"); Lit (js "classrooms"); Id 0; Lit (js "live-session")], 0%nat);
   ([Lit (js "api"); Lit (js "live-sessions"); Lit (js "active")], 0%nat);
   ([Lit (js "api"); Lit (js "live-sessions"); Lit (js "join")], 0%nat);
   ([Lit (js "api"); Lit (js "live-sessions"); Id 0; Lit (js "join")], 0%nat);
   ([Lit (js "api"); Lit (js "live-sessions"); Id 0; Lit (js "task")], 0%nat);
   ([Lit (js "api"); Lit (js "live-sessions"); Id 0; Lit (js "task-ack")], 0%nat);
   ([Lit (js "api"); Lit (js "classrooms"); Id 0; Lit (js "live-sessions")], 0%nat);
   ([Lit (js "api"); Lit (js "live-sessions"); Id 0], 0%nat);
   ([Lit (js "api"); Lit (js "live-sessions"); Id 0; Lit (js "result")], 0%nat);
   ([Lit (js "api"); Lit (js "live-sessions"); Id 0; Lit (js "end")], 0%nat);
   ([Lit (js "api"); Lit (js "quizzes")], 1%nat);
   ([Lit (js "api"); Lit (js "quizzes")], 0%nat);
   ([Lit (js "api"); Lit (js "quizzes"); Id 0], 0%nat);
   ([Lit (js "api"); Lit (js "quizzes"); Id 0; Lit (js "duplicate")], 0%nat);
   ([Lit (js "api"); Lit (js "quizzes"); Id 0; Lit (js "publish")], 0%nat);
   ([Lit (js "api"); Lit (js "quizzes"); Id 0], 0%nat);
   ([Lit (js "api"); Lit (js "quizzes"); Id 0; Lit (js "deliver")], 0%nat);
   ([Lit (js "api"); Lit (js "quiz-deliveries")], 1%nat);
   ([Lit (js "api"); Lit (js "quiz-deliveries"); Id 0; Lit (js "start")], 0%nat);
   ([Lit (js "api"); Lit (js "quiz-attempts"); Id 0], 0%nat);
   ([Lit (js "api"); Lit (js "quiz-deliveries"); Id 0; Lit (js "attempts")], 0%nat);
   ([Lit (js "api"); Lit (js "quiz-attempts"); Id 0; Lit (js "responses"); Id 1], 0%nat);
   ([Lit (js "api"); Lit (js "quiz-attempts"); Id 0; Lit (js "submit")], 0%nat);
   ([Lit (js "api"); Lit (js "quiz-attempts"); Id 0; Lit (js "reopen")], 0%nat);
   ([Lit (js "api"); Lit (js "quiz-attempts"); Id 0; Lit (js "responses"); Id 1; Lit (js "grade")], 0%nat);
   ([Lit (js "api"); Lit (js "quiz-deliveries"); Id 0; Lit (js "release")], 0%nat);
   ([Lit (js "api"); Lit (js "quiz-deliveries"); Id 0; Lit (js "stats")], 0%nat);
   ([Lit (js "api"); Lit (js "assignments")], 1%nat);
   ([Lit (js "api"); Lit (js "assignments")], 0%nat);
   ([Lit (js "api"); Lit (js "assignments"); Id 0], 0%nat);
   ([Lit (js "api"); Lit (js "assignments"); Id 0], 0%nat);
   ([Lit (js "api"); Lit (js "assignments"); Id 0; Lit (js "submissions")], 0%nat);
   ([Lit (js "api"); Lit (js "assignments"); Id 0; Lit (js "submission")], 0%nat);
   ([Lit (js "api"); Lit (js "assignments"); Id 0; Lit (js "submission")], 0%nat);
   ([Lit (js "api"); Lit (js "assignments"); Id 0; Lit (js "submission")], 0%nat);
   ([Lit (js "api"); Lit (js "submissions"); Id 0; Lit (js "grade")], 0%nat);
   ([Lit (js "api"); Lit (js "submissions"); Id 0; Lit (js "comments")], 0%nat);
   ([Lit (js "api"); Lit (js "submissions"); Id 0; Lit (js "comments")], 0%nat);
   ([Lit (js "api"); Lit (js "submissions"); Id 0; Lit (js "grade-history")], 0%nat);
   ([Lit (js "api"); Lit (js "classrooms"); Id 0; Lit (js "attendance"); Id 2], 0%nat);
   ([Lit (js "api"); Lit (js "classrooms"); Id 0; Lit (js "attendance"); Id 2], 0%nat);
   ([Lit (js "api"); Lit (js "teacher"); Lit (js "dashboard")], 0%nat);
   ([Lit (js "api"); Lit (js "tree")], 0%nat);
   ([Lit (js "api"); Lit (js "nodes")], 0%nat);
   ([Lit (js "api"); Lit (js "nodes"); Id 0], 0%nat);
   ([Lit (js "api"); Lit (js "nodes"); Id 0], 0%nat);
   ([Lit (js "api"); Lit (js "files")], 2%nat);
   ([Lit (js "api"); Lit (js "files"); Id 0], 0%nat);
   ([Lit (js "api"); Lit (js "notes"); Id 0], 0%nat);
   ([Lit (js "api"); Lit (js "notes"); Id 0], 0%nat);
   ([Lit (js "api"); Lit (js "papers"); Lit (js "search")], 0%nat);
   ([Lit (js "api"); Lit (js "papers"); Lit (js "fetch")], 0%nat);
   ([Lit (js "api"); Lit (js "papers"); Lit (js "figures")], 0%nat);
   ([Lit (js "api"); Lit (js "papers")], 0%nat);
   ([Lit (js "api"); Lit (js "papers"); Id 0], 0%nat);
   ([Lit (js "api"); Lit (js "papers"); Id 0], 0%nat);
   ([Lit (js "api"); Lit (js "ai"); Lit (js "chat")], 0%nat);
   ([Lit (js "api"); Lit (js "decks"); Id 0; Lit (js "cards")], 0%nat);
   ([Lit (js "api"); Lit (js "decks"); Id 0; Lit (js "cards")], 0%nat);
   ([Lit (js "api"); Lit (js "cards"); Id 0], 0%nat)].

Lemma with_query_app base o q : with_query [] o = Some q -> with_query base o = Some (base ++ q).
Proof.
  unfold with_query. destruct o as [[|c cs]|]; try (intros [= <-]; by rewrite app_nil_r).
  destruct (encodeURIComponent (c :: cs)); [|done]. cbn. by intros [= <-].
Qed.
Lemma with_query_head o q : with_query [] o = Some q -> q = [] \/ exists r, q = 63%N :: r.
Proof.
  unfold with_query. destruct o as [[|c cs]|]; try (intros [= <-]; by left).
  destruct (encodeURIComponent (c :: cs)); [|done]. cbn. intros Hq. apply (inj Some) in Hq as <-.
  right. eexists. reflexivity.
Qed.

Definition with_tail (p q e : jstr) (k : nat) : jstr :=
  match k with O => p | 1%nat => p ++ q | _ => p ++ (js "?shared=true&classroom_id=" ++ e) end.

Lemma contract_paths i j d s o v n q e : with_query [] o = Some q -> encodeURIComponent s = Some e ->
  Forall2 (fun p x => path (fst p) = Some (with_tail (path_of [i; j; d] (fst x)) q e (snd x)))
    (contract i j d s o v n) shapes.
Proof.
  intros Hq He. unfold contract, shapes.
  repeat (apply Forall2_cons; split; [lazymatch goal with
    | |- path (fst (CinderApi.quizzes _, _)) = _ => exact (with_query_app _ o q Hq)
    | |- path (fst (CinderApi.quizDeliveries _, _)) = _ => exact (with_query_app _ o q Hq)
    | |- path (fst (CinderApi.assignments _, _)) = _ => exact (with_query_app _ o q Hq)
    | |- path (fst (CinderApi.uploadMaterial _ _, _)) = _ =>
      cbn [fst snd path CinderApi.uploadMaterial]; rewrite He; vm_compute; reflexivity
    | |- _ => vm_compute; reflexivity
    end|]).
  apply Forall2_nil_2.
Qed.

Definition served_by (m : jstr) (xs : list Sym) : option jstr :=
  route_handler <$> find (fun r => seqb (route_method r) m) (resolve_sym all_routes xs).
Lemma contract_handlers i j d s o v n :
  Forall2 (fun p x => served_by (method (fst p)) (fst x) = Some (snd p) /\ fst x <> [] /\
                      forallb (sym_ok [i; j; d]) (fst x) = true)
    (contract i j d s o v n) shapes.
Proof.
  unfold contract, shapes.
  repeat (apply Forall2_cons; split; [split; [vm_compute; reflexivity|split; [discriminate|vm_compute; reflexivity]]|]).
  apply Forall2_nil_2.
Qed.
Lemma routes_words_ok : words_ok all_routes = true.
Proof. vm_compute. reflexivity. Qed.
End ApiFacts.

Import ApiFacts.

(** C31. Every request the client can make is served by the handler of the Host
    it is meant for: with the method and path the client builds, the Host's
    router picks that route and no other, for any identifiers and days of the
    Host's form and any text in the queries. *)
Theorem client_meets_routes (i j d s q e : jstr) (o : option jstr) (v : jsval) (n : Z) :
  id_ok i = true -> id_ok j = true -> id_ok d = true ->
  with_query [] o = Some q -> encodeURIComponent s = Some e ->
  Forall (fun p => exists pth, path (fst p) = Some pth /\ dispatch (method (fst p)) pth = Some (snd p))
    (contract i j d s o v n).
Proof.
  intros Hi Hj Hd Hq He.
  pose proof (contract_paths i j d s o v n q e Hq He) as Hp.
  pose proof (contract_handlers i j d s o v n) as Hh.
  apply Forall_lookup. intros k [c h] Hk.
  destruct (Forall2_lookup_l _ _ _ _ _ Hp Hk) as ([xs m] & Hx & Hpath).
  destruct (Forall2_lookup_lr _ _ _ _ _ _ Hh Hk Hx) as (Hserved & Hne & Hsym). cbn [fst snd] in *.
  exists (with_tail (path_of [i; j; d] xs) q e m). split; [exact Hpath|].
  assert (Henv : Forall (fun x => id_ok x = true) [i; j; d]) by (repeat constructor; done).
  pose proof (fun q0 H => dispatch_sym [i; j; d] (method c) xs q0 h Henv Hne Hsym H routes_words_ok Hserved) as Hd0.
  destruct m as [|[|m]]; cbn [with_tail].
  - rewrite <- (app_nil_r (path_of _ _)). apply Hd0. by left.
  - apply Hd0. by eapply with_query_head.
  - apply Hd0. right. exists (js "shared=true&classroom_id=" ++ e). vm_compute. reflexivity.
Qed.

(** What a request of an installed app raises or returns: it counts as
    offline exactly when no answer with a proper status came back, so an
    answer of the Host is never mistaken for its absence; an error keeps the
    Host's status, which lies outside 200 to 299, and a result only comes
    with a status inside. *)
Theorem request_outcomes (aborted : bool) (settled : Settled) :
  match request aborted (hostFetch settled), hostFetch settled with
  | Ok v, Ok r => 200 <= status r <= 299 /\ (status r = 204 /\ v = VUndef \/ response_json r = Some v)
  | Throw (Api e), Ok r => offline e = false /\ error_status e = status r /\ 300 <= status r <= 599
  | Throw (Raw e), Ok r => e = SyntaxError /\ 200 <= status r <= 299 /\ response_json r = None
  | Throw (Api e), Throw t => offline e = true /\
      (forall c m, t = HostTransportError c m -> code e = VStr c /\ message e = VStr m)
  | _, Throw _ => False
  end.
Proof.
  destruct (hostFetch settled) as [r|t] eqn:E.
  - pose proof (hostFetch_status _ _ E) as Hs. unfold request, response_ok.
    destruct (Z.leb_spec 200 (status r)); [|lia]. cbn [andb].
    destruct (Z.leb_spec (status r) 299); cbn [negb].
    + destruct (Z.eqb_spec (status r) 204); [split; [lia|by left]|].
      destruct (response_json r); [split; [lia|by right]|]. done.
    + unfold offline. cbn. split; [|lia]. apply Z.eqb_neq. lia.
  - destruct t; cbn [request]; (split; [reflexivity|]); intros c m Heq; try discriminate Heq.
    by injection Heq as <- <-.
Qed.

Module ApiWitnesses.
Definition uuid : jstr := js "3f2b8c1e-9d4a-4b7e-8f00-a1b2c3d4e5f6".
Lemma client_meets_routes_witness :
  Forall (fun p => exists pth, path (fst p) = Some pth /\ dispatch (method (fst p)) pth = Some (snd p))
    (contract uuid uuid (js "2026-03-01") (js "7 B & C") (Some (js "a b")) VNull 5).
Proof.
  apply (client_meets_routes uuid uuid (js "2026-03-01") (js "7 B & C") (js "?classroom_id=a%20b") (js "7%20B%20%26%20C")
    (Some (js "a b")) VNull 5); vm_compute; reflexivity.
Defined.
End ApiWitnesses.
