(* ===== verification/TeacherLive.v ===== *)
(** * Live sessions of the teacher ([apps/teacher/src/LiveSessionControls.tsx])

    [LiveSessionControls] of one classroom (the page mounts it anew for
    another): its React state is [View], its ref [generation].  A handler is
    cut at each [await]; what its continuation needs is kept in [waits].
    [requests] and [applied], the generation of the refresh last shown, record
    what happened; nothing reads them.  [None] is [NaN] where the code
    computes with times. *)

From S2P Require Import Prelude JsString JsNumber JsValue Locale Types ClassroomState Countdown Api.
Local Open Scope Z_scope.

(** ** Data *)

Record Participant := mkParticipant {
  p_student_id : jstr;
  p_student_name : jstr;
  p_joined_at : jstr;
  last_seen_at : jstr;
  p_result : option LiveSessionResult;
  p_task_state : option LiveSessionTaskAcknowledgement
}.
Record TaskProgress := mkTaskProgress {
  progress_task : LiveSessionTask;
  progress_participants : list (jstr * jstr * option LiveSessionTaskAcknowledgement * option LiveSessionResult)
}.
Record Details := mkDetails {
  session : LiveSession;
  participants : list Participant;
  tasks : list LiveSessionTask;
  task_progress : list TaskProgress
}.
(** As sent: an older Host leaves out the tasks. *)
Record SentDetails := mkSentDetails {
  sent_session : LiveSession;
  sent_participants : list Participant;
  sent_tasks : option (list LiveSessionTask);
  sent_progress : option (list TaskProgress)
}.
Definition details_of (d : SentDetails) : Details :=
  mkDetails (sent_session d) (sent_participants d) (default [] (sent_tasks d)) (default [] (sent_progress d)).
Record HistoryItem := mkHistoryItem { item_session : LiveSession; participant_count : Z; completed_count : Z }.
(** What the page needs of a quiz. *)
Record QuizHead := mkQuizHead { quiz_id : jstr; quiz_title : jstr; published_version : option Z }.

(** ** State *)

(** What runs when a refresh settles: [finally { setBusy(false) }] or nothing. *)
Inductive Then := ThenNothing | ThenIdle.
Inductive Wait :=
  | WaitActive (request : Z) (k : Then)
  | WaitDetails (request : Z) (k : Then)
  | WaitHistory (request : Z)
  | WaitTree (request : Z)
  | WaitQuizzes (request : Z)
  | WaitStart
  | WaitEnd
  | WaitDeliver (session_id task_title instructions : jstr)
  | WaitAssign
  | WaitView.
Inductive Ask :=
  | AskActive
  | AskDetails (id : jstr)
  | AskHistory
  | AskTree
  | AskQuizzes
  | AskStart (minutes : Z)
  | AskEnd (id : jstr)
  | AskDeliver (quiz session_id : jstr)
  | AskAssign (session_id : jstr) (kind : LiveSessionTaskKind) (target : option jstr) (task_title instructions : jstr).
Inductive Reply :=
  | ReplyActive (found : option LiveSession)
  | ReplyDetails (d : SentDetails)
  | ReplyHistory (items : list HistoryItem)
  | ReplyTree (nodes : list StudyNode)
  | ReplyQuizzes (items : list QuizHead)
  | ReplySession (started : LiveSession)
  | ReplyDelivery (id : jstr)
  | ReplyDone
  | ReplyFailure (text : option jstr) (not_found : bool).

Record View := mkView {
  duration : Z;
  details : option Details;
  history : list HistoryItem;
  materials : list StudyNode;
  quizzes : list QuizHead;
  historyDetails : option Details;
  kind : LiveSessionTaskKind;
  targetId : jstr;
  title_text : jstr;
  instructions_text : jstr;
  now : Z;
  clockOffsetMs : option Z;
  busy : bool;
  error : jstr
}.
Record Controls := mkControls {
  view : View;
  assignments : list Assignment;
  mounted : bool;
  generation : Z;
  waits : list Wait;
  requests : list Ask;
  applied : option Z
}.

Definition set_duration (x : Z) (w : View) : View := mkView x (details w) (history w) (materials w) (quizzes w) (historyDetails w) (kind w) (targetId w) (title_text w) (instructions_text w) (now w) (clockOffsetMs w) (busy w) (error w).
Definition set_details (x : option Details) (w : View) : View := mkView (duration w) x (history w) (materials w) (quizzes w) (historyDetails w) (kind w) (targetId w) (title_text w) (instructions_text w) (now w) (clockOffsetMs w) (busy w) (error w).
Definition set_history (x : list HistoryItem) (w : View) : View := mkView (duration w) (details w) x (materials w) (quizzes w) (historyDetails w) (kind w) (targetId w) (title_text w) (instructions_text w) (now w) (clockOffsetMs w) (busy w) (error w).
Definition set_materials (x : list StudyNode) (w : View) : View := mkView (duration w) (details w) (history w) x (quizzes w) (historyDetails w) (kind w) (targetId w) (title_text w) (instructions_text w) (now w) (clockOffsetMs w) (busy w) (error w).
Definition set_quizzes (x : list QuizHead) (w : View) : View := mkView (duration w) (details w) (history w) (materials w) x (historyDetails w) (kind w) (targetId w) (title_text w) (instructions_text w) (now w) (clockOffsetMs w) (busy w) (error w).
Definition set_historyDetails (x : option Details) (w : View) : View := mkView (duration w) (details w) (history w) (materials w) (quizzes w) x (kind w) (targetId w) (title_text w) (instructions_text w) (now w) (clockOffsetMs w) (busy w) (error w).
Definition set_kind (x : LiveSessionTaskKind) (w : View) : View := mkView (duration w) (details w) (history w) (materials w) (quizzes w) (historyDetails w) x (targetId w) (title_text w) (instructions_text w) (now w) (clockOffsetMs w) (busy w) (error w).
Definition set_targetId (x : jstr) (w : View) : View := mkView (duration w) (details w) (history w) (materials w) (quizzes w) (historyDetails w) (kind w) x (title_text w) (instructions_text w) (now w) (clockOffsetMs w) (busy w) (error w).
Definition set_title_text (x : jstr) (w : View) : View := mkView (duration w) (details w) (history w) (materials w) (quizzes w) (historyDetails w) (kind w) (targetId w) x (instructions_text w) (now w) (clockOffsetMs w) (busy w) (error w).
Definition set_instructions_text (x : jstr) (w : View) : View := mkView (duration w) (details w) (history w) (materials w) (quizzes w) (historyDetails w) (kind w) (targetId w) (title_text w) x (now w) (clockOffsetMs w) (busy w) (error w).
Definition set_now (x : Z) (w : View) : View := mkView (duration w) (details w) (history w) (materials w) (quizzes w) (historyDetails w) (kind w) (targetId w) (title_text w) (instructions_text w) x (clockOffsetMs w) (busy w) (error w).
Definition set_clockOffsetMs (x : option Z) (w : View) : View := mkView (duration w) (details w) (history w) (materials w) (quizzes w) (historyDetails w) (kind w) (targetId w) (title_text w) (instructions_text w) (now w) x (busy w) (error w).
Definition set_busy (x : bool) (w : View) : View := mkView (duration w) (details w) (history w) (materials w) (quizzes w) (historyDetails w) (kind w) (targetId w) (title_text w) (instructions_text w) (now w) (clockOffsetMs w) x (error w).
Definition set_error (x : jstr) (w : View) : View := mkView (duration w) (details w) (history w) (materials w) (quizzes w) (historyDetails w) (kind w) (targetId w) (title_text w) (instructions_text w) (now w) (clockOffsetMs w) (busy w) x.
Definition set_view (x : View) (g : Controls) : Controls := mkControls x (assignments g) (mounted g) (generation g) (waits g) (requests g) (applied g).
Definition set_assignments (x : list Assignment) (g : Controls) : Controls := mkControls (view g) x (mounted g) (generation g) (waits g) (requests g) (applied g).
Definition set_mounted (x : bool) (g : Controls) : Controls := mkControls (view g) (assignments g) x (generation g) (waits g) (requests g) (applied g).
Definition set_generation (x : Z) (g : Controls) : Controls := mkControls (view g) (assignments g) (mounted g) x (waits g) (requests g) (applied g).
Definition set_waits (x : list Wait) (g : Controls) : Controls := mkControls (view g) (assignments g) (mounted g) (generation g) x (requests g) (applied g).
Definition set_requests (x : list Ask) (g : Controls) : Controls := mkControls (view g) (assignments g) (mounted g) (generation g) (waits g) x (applied g).
Definition set_applied (x : option Z) (g : Controls) : Controls := mkControls (view g) (assignments g) (mounted g) (generation g) (waits g) (requests g) x.
(** After the component is gone, setting its state does nothing. *)
Definition upd (f : View -> View) (g : Controls) : Controls := if mounted g then set_view (f (view g)) g else g.

(** ** What is sent *)

Definition kind_name (k : LiveSessionTaskKind) : jstr :=
  match k with
  | TInstruction => js "instruction" | TAssignment => js "assignment" | TMaterial => js "material" | TQuiz => js "quiz"
  end.
Definition send (a : Ask) (g : Controls) : Controls := set_requests (requests g ++ [a]) g.
Definition await (w : Wait) (g : Controls) : Controls := set_waits (waits g ++ [w]) g.

Section controls.
Context `{Dates} (classroomId : jstr).

(** The requests, as calls of the client. *)
Definition call_of (a : Ask) : Call :=
  match a with
  | AskActive => CinderApi.activeLiveSession classroomId
  | AskDetails id => CinderApi.liveSessionDetails id
  | AskHistory => CinderApi.liveSessionHistory classroomId
  | AskTree => CinderApi.tree
  | AskQuizzes => CinderApi.quizzes (Some classroomId)
  | AskStart minutes => CinderApi.startLiveSession (VObj [(js "classroom_id", VStr classroomId); (js "module_id", VStr (js "classroom.live"));
      (js "module_name", VStr (js "Live Classroom")); (js "duration_minutes", VNum (num minutes))])
  | AskEnd id => CinderApi.endLiveSession id
  | AskDeliver quiz session_id => CinderApi.deliverQuiz quiz (VObj [(js "kind", VStr (js "live")); (js "live_session_id", VStr session_id)])
  | AskAssign session_id k target t i => CinderApi.assignLiveSessionTask session_id
      (VObj [(js "kind", VStr (kind_name k)); (js "target_id", match target with Some id => VStr id | None => VNull end);
             (js "title", VStr t); (js "instructions", VStr i)])
  end.

(** ** What is shown *)

Definition ended (s : LiveSession) : bool := match ended_at s with Some e => truthy e | None => false end.
Definition server_offset (s : LiveSession) (date_now : Z) (otherwise : option Z) : option Z :=
  match server_now s with
  | Some text => if truthy text then (fun ms => ms - date_now) <$> date_parse text else otherwise
  | None => otherwise
  end.
Definition remaining (v : View) : option Z :=
  match details v with
  | Some d =>
    match date_parse (ends_at (session d)), clockOffsetMs v with
    | Some ends, Some offset => Some (Z.max 0 (ceil_seconds (ends - now v - offset)))
    | _, _ => None
    end
  | None => Some 0
  end.
Definition countdown (v : View) : jstr := match remaining v with Some s => clock_text s | None => js "NaN:NaN" end.
Definition active (v : View) : bool :=
  match details v with
  | Some d => negb (ended (session d)) && match remaining v with Some s => 0 <? s | None => false end
  | None => false
  end.
(** A participant is shown as connected. *)
Definition connected (v : View) (p : Participant) (date_now : Z) : bool :=
  match clockOffsetMs v, date_parse (last_seen_at p) with
  | Some offset, Some seen => date_now + offset - seen <? 25000
  | _, _ => false
  end.
(** [targets], as their ids and names. *)
Definition targets (g : Controls) : list (jstr * jstr) :=
  match kind (view g) with
  | TAssignment =>
    (fun a => (assignment_id a, title a)) <$>
      List.filter (fun a => seqb (a_classroom_id a) classroomId && match a_status a with Published => true | _ => false end)
        (assignments g)
  | TMaterial => (fun n => (node_id n, node_name n)) <$> materials (view g)
  | TQuiz => (fun q => (quiz_id q, quiz_title q)) <$> quizzes (view g)
  | TInstruction => []
  end.

(** ** Refreshing *)

Definition settle (k : Then) (g : Controls) : Controls := match k with ThenIdle => upd (set_busy false) g | ThenNothing => g end.
Definition refresh (k : Then) (g : Controls) : Controls :=
  let request := generation g + 1 in
  await (WaitActive request k) (send AskActive (set_generation request g)).
Definition apply_details (request : Z) (next : option Details) (t : Z) (g : Controls) : Controls :=
  let g := upd (fun v => set_error [] (set_clockOffsetMs
      (match next with Some d => server_offset (session d) t (clockOffsetMs v) | None => clockOffsetMs v end)
      (set_details next v))) (set_applied (Some request) g) in
  await (WaitQuizzes request) (await (WaitTree request) (await (WaitHistory request)
    (send AskQuizzes (send AskTree (send AskHistory g))))).
Definition show (request : Z) (k : Then) (next : option Details) (t : Z) (g : Controls) : Controls :=
  settle k (if request =? generation g then apply_details request next t g else g).
Definition refresh_failed (request : Z) (k : Then) (text : option jstr) (g : Controls) : Controls :=
  settle k (if request =? generation g
            then upd (set_error (failure_text text (js "Live classroom could not be loaded."))) g else g).
Definition refresh_answered (request : Z) (k : Then) (r : Reply) (t : Z) (g : Controls) : Controls :=
  match r with
  | ReplyActive (Some s) => await (WaitDetails request k) (send (AskDetails (live_id s)) g)
  | ReplyActive None => show request k None t g
  | ReplyFailure text _ => refresh_failed request k text g
  | _ => g
  end.
Definition details_answered (request : Z) (k : Then) (r : Reply) (t : Z) (g : Controls) : Controls :=
  match r with
  | ReplyDetails d => show request k (Some (details_of d)) t g
  | ReplyFailure text _ => refresh_failed request k text g
  | _ => g
  end.
Definition history_answered (request : Z) (r : Reply) (g : Controls) : Controls :=
  match r with
  | ReplyHistory items => if request =? generation g then upd (set_history items) g else g
  | ReplyFailure text not_found =>
    if not_found then g else upd (set_error (failure_text text (js "Session history could not be loaded."))) g
  | _ => g
  end.
Definition material (n : StudyNode) : bool :=
  match node_owner_id n with Some o => negb (truthy o) | None => true end &&
  match node_classroom_id n with Some c => seqb c classroomId | None => false end &&
  match node_kind n with NPdf => true | _ => false end.
Definition tree_answered (request : Z) (r : Reply) (g : Controls) : Controls :=
  match r with
  | ReplyTree nodes => if request =? generation g then upd (set_materials (List.filter material nodes)) g else g
  | _ => g
  end.
Definition published_quiz (q : QuizHead) : bool := match published_version q with Some v => negb (v =? 0) | None => false end.
Definition quizzes_answered (request : Z) (r : Reply) (g : Controls) : Controls :=
  match r with
  | ReplyQuizzes items => if request =? generation g then upd (set_quizzes (List.filter published_quiz items)) g else g
  | _ => g
  end.

(** ** Commands *)

Definition begin (g : Controls) : Controls := upd (fun v => set_error [] (set_busy true v)) g.
Definition failed (text : option jstr) (otherwise : jstr) (g : Controls) : Controls :=
  upd (fun v => set_busy false (set_error (failure_text text otherwise) v)) g.
Definition start (g : Controls) : Controls := await WaitStart (send (AskStart (duration (view g))) (begin g)).
Definition start_answered (r : Reply) (t : Z) (g : Controls) : Controls :=
  match r with
  | ReplySession started =>
    refresh ThenIdle (upd (fun v => set_now t (set_clockOffsetMs (server_offset started t (Some 0))
      (set_details (Some (mkDetails started [] [] [])) v))) g)
  | ReplyFailure text _ => failed text (js "Live classroom could not be started.") g
  | _ => g
  end.
Definition end_session (id : jstr) (g : Controls) : Controls := await WaitEnd (send (AskEnd id) (begin g)).
Definition end_answered (r : Reply) (g : Controls) : Controls :=
  match r with
  | ReplyDone => refresh ThenIdle g
  | ReplyFailure text _ => failed text (js "Live classroom could not be ended.") g
  | _ => g
  end.
(** The form can be sent: a title, and something chosen unless the task is an
    instruction. *)
Definition submittable (g : Controls) : bool :=
  let v := view g in
  active v && negb (busy v) && truthy (trim (title_text v)) &&
  match kind v with
  | TInstruction => true
  | _ => truthy (targetId v) && existsb (fun p : jstr * jstr => seqb (fst p) (targetId v)) (targets g)
  end.
Definition assignTask (id : jstr) (g : Controls) : Controls :=
  let v := view g in
  let t := trim (title_text v) in let i := trim (instructions_text v) in
  match kind v with
  | TQuiz => await (WaitDeliver id t i) (send (AskDeliver (targetId v) id) (begin g))
  | k => await WaitAssign
           (send (AskAssign id k (if truthy (targetId v) then Some (targetId v) else None) t i) (begin g))
  end.
Definition msg_not_assigned : jstr := js "The task could not be assigned.".
Definition deliver_answered (id t i : jstr) (r : Reply) (g : Controls) : Controls :=
  match r with
  | ReplyDelivery delivery => await WaitAssign (send (AskAssign id TQuiz (Some delivery) t i) g)
  | ReplyFailure text _ => failed text msg_not_assigned g
  | _ => g
  end.
Definition assign_answered (r : Reply) (g : Controls) : Controls :=
  match r with
  | ReplyDone => refresh ThenIdle (upd (fun v => set_targetId [] (set_instructions_text [] (set_title_text [] v))) g)
  | ReplyFailure text _ => failed text msg_not_assigned g
  | _ => g
  end.

(** ** Events *)

Inductive Event :=
  | Tick (t : Z)
  | Start
  | EndSession (confirmed : bool)
  | Submit
  | ChooseDuration (minutes : Z)
  | ChooseKind (k : LiveSessionTaskKind)
  | ChooseTarget (id : jstr)
  | TypeTitle (text : jstr)
  | TypeInstructions (text : jstr)
  | ViewHistory (i : nat)
  | CloseDetail
  | SetAssignments (l : list Assignment)
  | Unmount
  | Answer (i : nat) (r : Reply) (t : Z).
Definition answer (w : Wait) (r : Reply) (t : Z) (g : Controls) : Controls :=
  match w with
  | WaitActive request k => refresh_answered request k r t g
  | WaitDetails request k => details_answered request k r t g
  | WaitHistory request => history_answered request r g
  | WaitTree request => tree_answered request r g
  | WaitQuizzes request => quizzes_answered request r g
  | WaitStart => start_answered r t g
  | WaitEnd => end_answered r g
  | WaitDeliver id t' i => deliver_answered id t' i r g
  | WaitAssign => assign_answered r g
  | WaitView => match r with ReplyDetails d => upd (set_historyDetails (Some (details_of d))) g | _ => g end
  end.
(** What may answer what. *)
Definition fits (w : Wait) (r : Reply) : bool :=
  match r, w with
  | ReplyFailure _ _, _ => true
  | ReplyActive _, WaitActive _ _ | ReplyDetails _, WaitDetails _ _ | ReplyDetails _, WaitView => true
  | ReplyHistory _, WaitHistory _ | ReplyTree _, WaitTree _ | ReplyQuizzes _, WaitQuizzes _ => true
  | ReplySession _, WaitStart | ReplyDelivery _, WaitDeliver _ _ _ => true
  | ReplyDone, WaitEnd | ReplyDone, WaitAssign => true
  | _, _ => false
  end.
Definition handle (e : Event) (g : Controls) : option Controls :=
  let v := view g in
  match e with
  | Answer i r t =>
    match waits g !! i with
    | Some w => if fits w r then Some (answer w r t (set_waits (delete i (waits g)) g)) else None
    | None => None
    end
  | _ =>
    if negb (mounted g) then None
    else
      match e with
      | Tick t =>
        match details v with
        | Some d => if ended (session d) then None else Some (refresh ThenNothing (upd (set_now t) g))
        | None => None
        end
      | Start => if active v || busy v then None else Some (start g)
      | EndSession confirmed =>
        match details v with
        | Some d =>
          if active v && negb (busy v) then Some (if confirmed then end_session (live_id (session d)) g else g) else None
        | None => None
        end
      | Submit =>
        match details v with
        | Some d => if submittable g then Some (assignTask (live_id (session d)) g) else None
        | None => None
        end
      | ChooseDuration minutes =>
        if active v || negb (existsb (Z.eqb minutes) [5; 10; 15; 20; 25; 30]) then None else Some (upd (set_duration minutes) g)
      | ChooseKind k => if active v then Some (upd (fun v => set_targetId [] (set_kind k v)) g) else None
      | ChooseTarget id =>
        match active v, kind v with
        | false, _ | _, TInstruction => None
        | _, _ =>
          match find (fun p : jstr * jstr => seqb (fst p) id) (targets g) with
          | Some p => Some (upd (fun v => set_title_text (snd p) (set_targetId id v)) g)
          | None => if truthy id then None else Some (upd (set_targetId id) g)
          end
        end
      | TypeTitle text => if active v then Some (upd (set_title_text text) g) else None
      | TypeInstructions text => if active v then Some (upd (set_instructions_text text) g) else None
      | ViewHistory i =>
        match history v !! i with
        | Some item => Some (await WaitView (send (AskDetails (live_id (item_session item))) g))
        | None => None
        end
      | CloseDetail => Some (upd (set_historyDetails None) g)
      | SetAssignments l => Some (set_assignments l g)
      | Unmount => Some (set_mounted false (set_generation (generation g + 1) g))
      | Answer _ _ _ => None
      end
  end.
Fixpoint run (es : list Event) (g : Controls) : option Controls :=
  match es with
  | [] => Some g
  | e :: es' => match handle e g with Some g' => run es' g' | None => None end
  end.
Definition mount (l : list Assignment) (t : Z) : Controls :=
  refresh ThenNothing (mkControls (mkView 15 None [] [] [] None TInstruction [] [] [] t (Some 0) false []) l true 0 [] [] None).

Definition reachable (g : Controls) : Prop := exists l t es, run es (mount l t) = Some g.
Lemma reachable_ind' (P : Controls -> Prop) :
  (forall l t, P (mount l t)) -> (forall e g g', reachable g -> P g -> handle e g = Some g' -> P g') ->
  forall g, reachable g -> P g.
Proof.
  intros H0 Hs g (l & t & es & Hr).
  assert (Hgo : forall es g0, reachable g0 -> P g0 -> run es g0 = Some g -> P g).
  { clear l t es Hr. induction es as [|e es IH]; intros g0 Hg0 HP; cbn [run].
    - intros E. by apply (inj Some) in E as <-.
    - destruct (handle e g0) as [g1|] eqn:Eh; [|done]. apply IH; [|by eapply Hs].
      destruct Hg0 as (l & t & es0 & Hr). exists l, t, (es0 ++ [e]).
      clear -Hr Eh. revert Hr. generalize (mount l t). induction es0 as [|x xs IHx]; intros g2; cbn.
      + intros E. apply (inj Some) in E as ->. by rewrite Eh.
      + destruct (handle x g2); [|done]. apply IHx. }
  apply (Hgo es (mount l t)); [by exists l, t, []|apply H0|done].
Qed.

(** ** Commands, one at a time *)

Definition command (w : Wait) : bool :=
  match w with
  | WaitStart | WaitEnd | WaitDeliver _ _ _ | WaitAssign | WaitActive _ ThenIdle | WaitDetails _ ThenIdle => true
  | _ => false
  end.
Definition commands (g : Controls) : nat := length (List.filter command (waits g)).
Definition balanced (g : Controls) : Prop := mounted g = true -> commands g = Nat.b2n (busy (view g)).

Lemma commands_await w g : commands (await w g) = (commands g + Nat.b2n (command w))%nat.
Proof. unfold commands, await. cbn. rewrite List.filter_app, length_app. cbn. by destruct (command w). Qed.
Lemma commands_delete i w l : l !! i = Some w ->
  length (List.filter command l) = (length (List.filter command (delete i l)) + Nat.b2n (command w))%nat.
Proof.
  revert i. induction l as [|x l IH]; intros [|i] Hi; try done; cbn in Hi |- *.
  - apply (inj Some) in Hi as ->. destruct (command w); cbn; lia.
  - change (delete (S i) (x :: l)) with (x :: delete i l). cbn. specialize (IH i Hi). destruct (command x); cbn; by rewrite IH.
Qed.
(** Updates that leave both alone. *)
Definition same_commands (g g' : Controls) : Prop :=
  mounted g' = mounted g /\ commands g' = commands g /\ busy (view g') = busy (view g).
Lemma balanced_same g g' : same_commands g g' -> balanced g -> balanced g'.
Proof. unfold balanced. intros (-> & -> & ->). done. Qed.
Lemma same_upd f g : (forall v, busy (f v) = busy v) -> same_commands g (upd f g).
Proof. intros Hf. unfold same_commands, upd. destruct (mounted g) eqn:E; cbn; rewrite ?Hf, ?E; done. Qed.
Lemma same_trans g g' g'' : same_commands g g' -> same_commands g' g'' -> same_commands g g''.
Proof. unfold same_commands. intros (-> & -> & ->) (-> & -> & ->). done. Qed.
Lemma same_apply request next t g : same_commands g (apply_details request next t g).
Proof.
  unfold apply_details. set (g1 := upd _ _).
  assert (H1 : same_commands g g1).
  { unfold g1. apply (same_trans _ (set_applied (Some request) g)); [done|]. by apply same_upd. }
  eapply same_trans; [exact H1|]. unfold same_commands. rewrite !commands_await. cbn.
  split; [done|]. split; [|done]. unfold commands. cbn. lia.
Qed.
(** A command's wait has ended. *)
Definition ending (g : Controls) : Prop := mounted g = true -> commands g = 0%nat /\ busy (view g) = true.
Lemma ending_same g g' : same_commands g g' -> ending g -> ending g'.
Proof. unfold ending. intros (-> & -> & ->). done. Qed.
Lemma ended_busy f g : (forall v, busy (f v) = false) -> ending g -> balanced (upd f g).
Proof. unfold ending, balanced, upd. intros Hf He. destruct (mounted g) eqn:E; cbn; [|by rewrite E]. intros _. rewrite Hf. by apply He. Qed.
Lemma ended_await w g : command w = true -> ending g -> balanced (await w g).
Proof. unfold ending, balanced. intros Hw He Hm. rewrite commands_await, Hw. destruct (He Hm) as [-> Hb]. cbn. by rewrite Hb. Qed.
Lemma balanced_await w g : command w = false -> balanced g -> balanced (await w g).
Proof. unfold balanced. intros Hw He Hm. rewrite commands_await, Hw, Nat.add_0_r. by apply He. Qed.
Lemma same_send a g : same_commands g (send a g).
Proof. done. Qed.

Definition idle_wait (k : Then) : bool := match k with ThenIdle => true | ThenNothing => false end.
Definition answered (c : bool) (g : Controls) : Prop := if c then ending g else balanced g.
Lemma answered_same c g g' : same_commands g g' -> answered c g -> answered c g'.
Proof. destruct c; [apply ending_same|apply balanced_same]. Qed.
Lemma balanced_settle k g : answered (idle_wait k) g -> balanced (settle k g).
Proof. destruct k; cbn; [done|]. by apply ended_busy. Qed.
Lemma balanced_waiting w k g : command w = idle_wait k -> answered (idle_wait k) g -> balanced (await w g).
Proof. destruct k; cbn; [apply balanced_await|apply ended_await]. Qed.
Lemma balanced_show request k next t g : answered (idle_wait k) g -> balanced (show request k next t g).
Proof.
  intros Ha. apply balanced_settle. destruct (request =? generation g); [|done]. eapply answered_same; [apply same_apply|done].
Qed.
Lemma balanced_refresh_failed request k text g : answered (idle_wait k) g -> balanced (refresh_failed request k text g).
Proof.
  intros Ha. apply balanced_settle. destruct (request =? generation g); [|done]. eapply answered_same; [by apply same_upd|done].
Qed.
Lemma balanced_failed text otherwise g : ending g -> balanced (failed text otherwise g).
Proof. by apply ended_busy. Qed.
Lemma balanced_refresh k g : answered (idle_wait k) g -> balanced (refresh k g).
Proof. intros Ha. by apply (balanced_waiting _ k); [destruct k|]. Qed.

Lemma balanced_answer w r t g : fits w r = true -> answered (command w) g -> balanced (answer w r t g).
Proof.
  assert (Hk : forall request k, command (WaitActive request k) = idle_wait k /\ command (WaitDetails request k) = idle_wait k)
    by (intros request []; done).
  destruct w as [request k|request k|request|request|request| | |id t' i| |]; cbn [answer]; intros Hf Ha.
  - rewrite (proj1 (Hk request k)) in Ha. destruct r as [[s|]| | | | | | | |]; try done; cbn [refresh_answered].
    + apply (balanced_waiting _ k); [apply Hk|]. by eapply answered_same.
    + by apply balanced_show.
    + by apply balanced_refresh_failed.
  - rewrite (proj2 (Hk request k)) in Ha. destruct r; try done; [by apply balanced_show|by apply balanced_refresh_failed].
  - destruct r; try done; cbn [history_answered].
    + destruct (_ =? _); [|done]. eapply balanced_same; [by apply same_upd|done].
    + destruct not_found; [done|]. eapply balanced_same; [by apply same_upd|done].
  - destruct r; try done; cbn [tree_answered]. destruct (_ =? _); [|done]. eapply balanced_same; [by apply same_upd|done].
  - destruct r; try done; cbn [quizzes_answered]. destruct (_ =? _); [|done]. eapply balanced_same; [by apply same_upd|done].
  - destruct r; try done; [|by apply balanced_failed]. apply (balanced_refresh ThenIdle). eapply ending_same; [by apply same_upd|done].
  - destruct r; try done; [|by apply balanced_failed]. by apply (balanced_refresh ThenIdle).
  - destruct r; try done; [|by apply balanced_failed]. by apply ended_await.
  - destruct r; try done; [|by apply balanced_failed]. apply (balanced_refresh ThenIdle). eapply ending_same; [by apply same_upd|done].
  - destruct r; try done. eapply balanced_same; [by apply same_upd|done].
Qed.
(** A command begins while none is under way. *)
Lemma balanced_begin w a g : mounted g = true -> busy (view g) = false -> command w = true -> balanced g ->
  balanced (await w (send a (begin g))).
Proof.
  intros Hm Hb Hw Hg. apply ended_await; [done|]. intros _. unfold begin, upd. rewrite Hm. cbn. split; [|done].
  specialize (Hg Hm). rewrite Hb in Hg. exact Hg.
Qed.
Lemma balanced_handle e g g' : balanced g -> handle e g = Some g' -> balanced g'.
Proof.
  intros Hg. unfold handle. destruct e as [t| |confirmed| |m|k|id|text|text|i| |l| |i r t];
    [..|destruct (waits g !! i) as [w|] eqn:Ew; [|done]; destruct (fits w r) eqn:Ef; [|done]; intros E; apply (inj Some) in E as <-;
        apply balanced_answer; [done|]; pose proof (commands_delete _ _ _ Ew) as Hd; unfold answered, ending, balanced, commands in *;
        cbn in *; destruct (command w); intros Hm; specialize (Hg Hm); destruct (busy (view g)); cbn in *; lia || (split; [lia|done]) ];
    destruct (mounted g) eqn:Em; cbn [negb]; try done.
  - destruct (details (view g)); [|done]. destruct (ended _); [done|]. intros E. apply (inj Some) in E as <-.
    apply (balanced_refresh ThenNothing). eapply balanced_same; [by apply same_upd|done].
  - destruct (active _); [done|]. destruct (busy _) eqn:Eb; [done|]. intros E. apply (inj Some) in E as <-. by apply balanced_begin.
  - destruct (details (view g)); [|done]. destruct (active _); [|done]. destruct (busy _) eqn:Eb; [done|]. cbn.
    intros E. apply (inj Some) in E as <-. destruct confirmed; [|done]. by apply balanced_begin.
  - destruct (details (view g)); [|done]. destruct (submittable g) eqn:Es; [|done]. intros E. apply (inj Some) in E as <-.
    unfold submittable in Es. destruct (busy _) eqn:Eb; [by rewrite andb_false_r in Es|].
    unfold assignTask. destruct (kind (view g)); by apply balanced_begin.
  - destruct (_ || _); [done|]. intros E. apply (inj Some) in E as <-. eapply balanced_same; [by apply same_upd|done].
  - destruct (active _); [|done]. intros E. apply (inj Some) in E as <-. eapply balanced_same; [by apply same_upd|done].
  - destruct (active (view g)), (kind (view g)); try done; destruct (find _ _); try (destruct (truthy id); [done|]); intros E; apply (inj Some) in E as <-;
      (eapply balanced_same; [by apply same_upd|done]).
  - destruct (active _); [|done]. intros E. apply (inj Some) in E as <-. eapply balanced_same; [by apply same_upd|done].
  - destruct (active _); [|done]. intros E. apply (inj Some) in E as <-. eapply balanced_same; [by apply same_upd|done].
  - destruct (history (view g) !! i); [|done]. intros E. apply (inj Some) in E as <-. by apply balanced_await.
  - intros E. apply (inj Some) in E as <-. eapply balanced_same; [by apply same_upd|done].
  - intros E. by apply (inj Some) in E as <-.
  - intros E. apply (inj Some) in E as <-. done.
Qed.

(** Over every run at most one command is under way, the buttons are blocked
    exactly while one is, and so they are free again once the Host has
    answered everything, whatever it answered. *)
Theorem one_command_at_a_time (g : Controls) : reachable g -> mounted g = true ->
  (commands g <= 1)%nat /\ (busy (view g) = true <-> commands g = 1%nat) /\ (waits g = [] -> busy (view g) = false).
Proof.
  intros Hr Hm. assert (Hb : balanced g).
  { revert g Hr Hm. apply (reachable_ind' (fun g => mounted g = true -> balanced g)).
    - intros l t _. by cbn.
    - intros e g g' _ IH Hh Hm'. destruct (mounted g) eqn:Em; [by eapply balanced_handle; [apply IH|]|].
      eapply balanced_handle; [|exact Hh]. unfold balanced. by rewrite Em. }
  specialize (Hb Hm). destruct (busy (view g)); cbn in Hb; rewrite Hb.
  - split; [lia|]. split; [done|]. intros Hw. unfold commands in Hb. by rewrite Hw in Hb.
  - split; [lia|]. split; [|done]. split; [done|lia].
Qed.

(** ** Refreshes, in the order they began *)

Definition pending (w : Wait) : option Z :=
  match w with WaitActive request _ | WaitDetails request _ => Some request | _ => None end.
Definition pendings (g : Controls) : list Z := filter_map pending (waits g).
(** Every refresh under way has a number of its own, none later than the last
    one begun, and what is shown is of none of them. *)
Record in_turn (g : Controls) : Prop := {
  or_once : NoDup (pendings g);
  or_bound : Forall (fun r => r <= generation g) (pendings g);
  or_applied : forall r, applied g = Some r -> r <= generation g /\ r ∉ pendings g
}.
Definition same_order (g g' : Controls) : Prop :=
  pendings g' ≡ₚ pendings g /\ generation g' = generation g /\ applied g' = applied g.
Lemma ordered_same g g' : same_order g g' -> in_turn g -> in_turn g'.
Proof.
  intros (Hp & Eg & Ea) [H1 H2 H3]. split; rewrite ?Hp, ?Eg, ?Ea; try done.
  intros r Hr. destruct (H3 r Hr) as [? Hn]. split; [done|]. by rewrite Hp.
Qed.
Lemma order_upd f g : same_order g (upd f g).
Proof. unfold upd, same_order. by destruct (mounted g). Qed.
Lemma pendings_await w g : pendings (await w g) = pendings g ++ filter_map pending [w].
Proof. unfold pendings, await. cbn. by rewrite filter_map_app. Qed.
Lemma order_await w g : pending w = None -> same_order g (await w g).
Proof. intros Hw. unfold same_order. rewrite pendings_await. cbn. rewrite Hw, app_nil_r. done. Qed.
Lemma order_trans g g' g'' : same_order g g' -> same_order g' g'' -> same_order g g''.
Proof. intros (H1 & H2 & H3) (H4 & H5 & H6). unfold same_order. by rewrite H4, H1, H5, H2, H6, H3. Qed.
Lemma order_settle k g : same_order g (settle k g).
Proof. destruct k; [done|apply order_upd]. Qed.
Lemma ordered_refresh k g : in_turn g -> in_turn (refresh k g).
Proof.
  intros [H1 H2 H3]. unfold refresh. set (g1 := send _ _). assert (Ep : pendings g1 = pendings g) by done.
  assert (Hnew : generation g + 1 ∉ pendings g) by (intros Hin; eapply Forall_forall in H2; [|exact Hin]; cbn in H2; lia).
  split; rewrite ?pendings_await, ?Ep; cbn [filter_map pending].
  - apply NoDup_app. split; [done|]. split; [|apply NoDup_singleton]. intros r Hr ->%list_elem_of_singleton. done.
  - apply Forall_app. split; [|constructor; [cbn; lia|done]]. eapply Forall_impl; [exact H2|]. cbn. lia.
  - intros r Hr. destruct (H3 r Hr) as [Hle Hn]. split; [cbn; lia|]. rewrite elem_of_app.
    intros [?| ->%list_elem_of_singleton]; [done|lia].
Qed.
(** A refresh that is no longer waiting may be shown or ask on. *)
Definition fresh_request (request : Z) (g : Controls) : Prop :=
  request <= generation g /\ (request ∉ pendings g) /\ applied g <> Some request.
Lemma ordered_again w request g : pending w = Some request -> fresh_request request g -> in_turn g -> in_turn (await w g).
Proof.
  intros Hw (Hle & Hn & Ha) [H1 H2 H3]. split; rewrite ?pendings_await; cbn [filter_map]; rewrite ?Hw.
  - apply NoDup_app. split; [done|]. split; [|apply NoDup_singleton]. by intros r Hr ->%list_elem_of_singleton.
  - apply Forall_app. split; [done|]. by constructor.
  - intros r Hr. destruct (H3 r Hr) as [? Hnr]. split; [done|]. rewrite elem_of_app.
    intros [?| ->%list_elem_of_singleton]; [done|]. by apply Ha.
Qed.
Lemma ordered_show request k next t g : fresh_request request g -> in_turn g -> in_turn (show request k next t g).
Proof.
  intros (Hle & Hn & _) Ho. eapply ordered_same; [apply order_settle|]. destruct (Z.eqb_spec request (generation g)); [|done].
  unfold apply_details. set (g1 := upd _ _).
  assert (H1 : in_turn g1).
  { unfold g1. eapply ordered_same; [apply order_upd|]. destruct Ho as [H1 H2 H3]. split; try done.
    intros r Hr. apply (inj Some) in Hr as <-. done. }
  eapply ordered_same; [|exact H1].
  do 3 (eapply order_trans; [|by apply order_await]). done.
Qed.
Lemma ordered_answer w r t g : in_turn g -> match pending w with Some request => fresh_request request g | None => True end ->
  in_turn (answer w r t g).
Proof.
  assert (Hfail : forall request k text g, in_turn g -> in_turn (refresh_failed request k text g)).
  { intros request k text g0 Ho. eapply ordered_same; [apply order_settle|]. destruct (_ =? _); [|done].
    eapply ordered_same; [apply order_upd|done]. }
  assert (Hupd : forall f g, in_turn g -> in_turn (upd f g)) by (intros f g0; apply ordered_same, order_upd).
  intros Ho Hw.
  destruct w as [request k|request k|request|request|request| | |id t' i| |]; cbn [answer]; cbn in Hw; destruct r as [[s|]| | | | | | | |];
    cbn [refresh_answered details_answered history_answered tree_answered quizzes_answered start_answered end_answered
         deliver_answered assign_answered]; try done;
    try (destruct (request =? generation g); [|done]); try (destruct not_found; [done|]);
    try (by apply Hupd); try (by apply Hfail); try (by apply ordered_show); try (by apply ordered_refresh; try apply Hupd).
  - apply (ordered_again _ request); [done|done|]. by apply (ordered_same g).
  - eapply ordered_same; [by apply order_await|]. by apply (ordered_same g).
Qed.
Lemma pendings_delete i w l : l !! i = Some w ->
  filter_map pending l ≡ₚ filter_map pending [w] ++ filter_map pending (delete i l).
Proof. intros Hw. rewrite <- filter_map_app. apply filter_map_perm, (delete_Permutation _ _ _ Hw). Qed.
(** What is left when a wait is answered. *)
Lemma ordered_taken g i w : waits g !! i = Some w -> in_turn g ->
  in_turn (set_waits (delete i (waits g)) g) /\
  match pending w with Some request => fresh_request request (set_waits (delete i (waits g)) g) | None => True end.
Proof.
  intros Hw [H1 H2 H3]. unfold pendings in *. rewrite (pendings_delete _ _ _ Hw) in H1, H2. apply NoDup_app in H1 as (_ & Hd & H1).
  apply Forall_app in H2 as [H2w H2].
  assert (H3' : forall r, applied g = Some r -> r <= generation g /\ (r ∉ filter_map pending [w]) /\ r ∉ filter_map pending (delete i (waits g))).
  { intros r Hr. destruct (H3 r Hr) as [? Hn]. rewrite (pendings_delete _ _ _ Hw), elem_of_app in Hn. tauto. }
  split.
  - split; [done|done|]. intros r Hr. cbn. destruct (H3' r Hr) as (? & _ & ?). done.
  - cbn in *. destruct (pending w) as [request|]; [|done]. apply Forall_cons in H2w as [Hle _]. split; [done|]. split.
    + apply (Hd request). by left.
    + intros Ha. destruct (H3' _ Ha) as (_ & Hn & _). apply Hn. by left.
Qed.
Lemma ordered_handle e g g' : in_turn g -> handle e g = Some g' -> in_turn g'.
Proof.
  intros Ho. unfold handle.
  assert (Hupd : forall f, in_turn (upd f g)) by (intros f; eapply ordered_same; [apply order_upd|done]).
  assert (Hcmd : forall w a, pending w = None -> in_turn (await w (send a (begin g)))).
  { intros w a Hw. eapply ordered_same; [by apply order_await|]. apply (ordered_same (begin g)); [done|]. apply Hupd. }
  destruct e as [t| |confirmed| |m|k|id|text|text|i| |l| |i r t];
    [..|destruct (waits g !! i) as [w|] eqn:Ew; [|done]; destruct (fits w r); [|done]; intros E; apply (inj Some) in E as <-;
        by apply ordered_answer; eapply ordered_taken]; destruct (mounted g); cbn [negb]; try done.
  - destruct (details (view g)); [|done]. destruct (ended _); [done|]. intros E. apply (inj Some) in E as <-. by apply ordered_refresh.
  - destruct (_ || _); [done|]. intros E. apply (inj Some) in E as <-. by apply Hcmd.
  - destruct (details (view g)); [|done]. destruct (_ && _); [|done]. intros E. apply (inj Some) in E as <-.
    destruct confirmed; [by apply Hcmd|done].
  - destruct (details (view g)); [|done]. destruct (submittable g); [|done]. intros E. apply (inj Some) in E as <-.
    unfold assignTask. by destruct (kind (view g)); apply Hcmd.
  - destruct (_ || _); [done|]. intros E. by apply (inj Some) in E as <-.
  - destruct (active _); [|done]. intros E. by apply (inj Some) in E as <-.
  - destruct (active (view g)), (kind (view g)); try done; destruct (find _ _); try (destruct (truthy id); [done|]);
      intros E; by apply (inj Some) in E as <-.
  - destruct (active _); [|done]. intros E. by apply (inj Some) in E as <-.
  - destruct (active _); [|done]. intros E. by apply (inj Some) in E as <-.
  - destruct (history (view g) !! i); [|done]. intros E. apply (inj Some) in E as <-.
    eapply ordered_same; [by apply order_await|]. by apply (ordered_same g).
  - intros E. by apply (inj Some) in E as <-.
  - intros E. apply (inj Some) in E as <-. by apply (ordered_same g).
  - intros E. apply (inj Some) in E as <-. destruct Ho as [H1 H2 H3]. split; [done| |].
    + eapply Forall_impl; [exact H2|]. cbn. lia.
    + intros r Hr. destruct (H3 r Hr). cbn. split; [lia|done].
Qed.
Lemma applied_upd f g : applied (upd f g) = applied g.
Proof. unfold upd. by destruct (mounted g). Qed.
Lemma applied_settle k g : applied (settle k g) = applied g.
Proof. destruct k; [done|apply applied_upd]. Qed.
Lemma applied_show request k next t g :
  applied (show request k next t g) = if request =? generation g then Some request else applied g.
Proof. unfold show. rewrite applied_settle. destruct (_ =? _); [|done]. unfold apply_details. cbn. by rewrite applied_upd. Qed.
Lemma applied_failed request k text g : applied (refresh_failed request k text g) = applied g.
Proof. unfold refresh_failed. rewrite applied_settle. destruct (_ =? _); [apply applied_upd|done]. Qed.
Lemma applied_answer w r t g :
  applied (answer w r t g) = applied g \/ pending w = Some (generation g) /\ applied (answer w r t g) = Some (generation g).
Proof.
  destruct w as [request k|request k|request|request|request| | |id t' i| |]; cbn [answer]; destruct r as [[s|]| | | | | | | |];
    cbn [refresh_answered details_answered history_answered tree_answered quizzes_answered start_answered end_answered
         deliver_answered assign_answered]; try (by left); rewrite ?applied_show; unfold failed;
    try (by left; rewrite ?applied_failed, ?applied_upd); try (by left; destruct (_ =? _); rewrite ?applied_upd);
    try (by left; destruct not_found; rewrite ?applied_upd); try (by left; cbn; rewrite applied_upd);
    (destruct (Z.eqb_spec request (generation g)) as [->|]; [by right|by left]).
Qed.

Lemma applied_page e g g' : match e with Answer _ _ _ => False | _ => True end -> handle e g = Some g' -> applied g' = applied g.
Proof.
  unfold handle. destruct e as [t| |confirmed| |m|k|id|text|text|i| |l| |i r t]; intros Hn; try done; destruct (mounted g); cbn [negb]; try done.
  - destruct (details (view g)); [|done]. destruct (ended _); [done|]. intros E. apply (inj Some) in E as <-. cbn. apply applied_upd.
  - destruct (_ || _); [done|]. intros E. apply (inj Some) in E as <-. cbn. apply applied_upd.
  - destruct (details (view g)); [|done]. destruct (_ && _); [|done]. intros E. apply (inj Some) in E as <-.
    destruct confirmed; [cbn; apply applied_upd|done].
  - destruct (details (view g)); [|done]. destruct (submittable g); [|done]. intros E. apply (inj Some) in E as <-.
    unfold assignTask. destruct (kind (view g)); cbn; apply applied_upd.
  - destruct (_ || _); [done|]. intros E. apply (inj Some) in E as <-. apply applied_upd.
  - destruct (active _); [|done]. intros E. apply (inj Some) in E as <-. apply applied_upd.
  - destruct (active (view g)), (kind (view g)); try done; destruct (find _ _); try (destruct (truthy id); [done|]);
      intros E; apply (inj Some) in E as <-; apply applied_upd.
  - destruct (active _); [|done]. intros E. apply (inj Some) in E as <-. apply applied_upd.
  - destruct (active _); [|done]. intros E. apply (inj Some) in E as <-. apply applied_upd.
  - destruct (history (view g) !! i); [|done]. intros E. by apply (inj Some) in E as <-.
  - intros E. apply (inj Some) in E as <-. apply applied_upd.
  - intros E. by apply (inj Some) in E as <-.
  - intros E. by apply (inj Some) in E as <-.
Qed.

(** The page never goes back: what it shows is the answer to one refresh, a
    step either leaves it or shows the answer to a later one, which is then
    the last one begun, and no refresh is shown twice. *)
Theorem refreshes_shown_in_order (e : Event) (g g' : Controls) : reachable g -> handle e g = Some g' ->
  applied g' = applied g \/
  applied g' = Some (generation g) /\ (forall r, applied g = Some r -> r < generation g).
Proof.
  intros Hr Hh. assert (Ho : in_turn g).
  { clear Hh. revert g Hr. apply (reachable_ind' in_turn); [|by intros; eapply ordered_handle].
    intros l t. apply (ordered_refresh ThenNothing). by split; [apply NoDup_nil_2|..]. }
  destruct e as [t| |confirmed| |m|k|id|text|text|i| |l| |i r t]; try (left; refine (applied_page _ _ _ _ Hh); exact I).
  unfold handle in Hh. destruct (waits g !! i) as [w|] eqn:Ew; [|done]. destruct (fits w r); [|done].
  apply (inj Some) in Hh as <-. destruct (applied_answer w r t (set_waits (delete i (waits g)) g)) as [E|[Hp E]]; [by left|right].
  split; [exact E|]. intros r' Hr'. destruct (ordered_taken g i w Ew Ho) as [Ho' Hw]. rewrite Hp in Hw. destruct Hw as (_ & _ & Hn).
  destruct (or_applied _ Ho r' Hr') as [Hle _]. cbn in Hn. destruct (decide (r' = generation g)) as [->|]; [done|lia].
Qed.

(** ** What a task names *)

Definition tidy (v : View) : Prop :=
  Forall (fun n => material n = true) (materials v) /\ Forall (fun q => published_quiz q = true) (quizzes v) /\
  (kind v = TInstruction -> targetId v = []).
Lemma tidy_upd f g : (tidy (view g) -> tidy (f (view g))) -> tidy (view g) -> tidy (view (upd f g)).
Proof. unfold upd. destruct (mounted g); auto. Qed.
Lemma tidy_settle k g : tidy (view g) -> tidy (view (settle k g)).
Proof. destruct k; [done|]. by apply tidy_upd. Qed.
Lemma tidy_show request k next t g : tidy (view g) -> tidy (view (show request k next t g)).
Proof. intros Hg. apply tidy_settle. destruct (_ =? _); [|done]. by apply tidy_upd. Qed.
Lemma tidy_failed request k text g : tidy (view g) -> tidy (view (refresh_failed request k text g)).
Proof. intros Hg. apply tidy_settle. destruct (_ =? _); [|done]. by apply tidy_upd. Qed.
Lemma Forall_kept {A} (p : A -> bool) l : Forall (fun x => p x = true) (List.filter p l).
Proof. apply Forall_forall. intros x Hx. by apply list_elem_of_In, filter_In in Hx as [_ ?]. Qed.
Lemma tidy_answer w r t g : tidy (view g) -> tidy (view (answer w r t g)).
Proof.
  intros Hg. destruct w as [request k|request k|request|request|request| | |id t' i| |]; cbn [answer]; destruct r as [[s|]| | | | | | | |];
    cbn [refresh_answered details_answered history_answered tree_answered quizzes_answered start_answered end_answered
         deliver_answered assign_answered]; try exact Hg; try (by apply tidy_show); try (by apply tidy_failed);
    try (destruct (_ =? _); [|exact Hg]); try (destruct not_found; [exact Hg|]); try (by apply tidy_upd);
    apply tidy_upd; try done; intros (H1 & H2 & H3); (split; [|split]); try done; apply Forall_kept.
Qed.
Lemma tidy_handle e g g' : tidy (view g) -> handle e g = Some g' -> tidy (view g').
Proof.
  intros Hg. unfold handle. destruct e as [t| |confirmed| |m|k|id|text|text|i| |l| |i r t];
    [..|destruct (waits g !! i) as [w|]; [|done]; destruct (fits w r); [|done]; intros E; apply (inj Some) in E as <-;
        by apply tidy_answer]; destruct (mounted g); cbn [negb]; try done.
  - destruct (details (view g)); [|done]. destruct (ended _); [done|]. intros E. apply (inj Some) in E as <-. by apply tidy_upd.
  - destruct (_ || _); [done|]. intros E. apply (inj Some) in E as <-. by apply tidy_upd.
  - destruct (details (view g)); [|done]. destruct (_ && _); [|done]. intros E. apply (inj Some) in E as <-.
    destruct confirmed; [by apply tidy_upd|done].
  - destruct (details (view g)); [|done]. destruct (submittable g); [|done]. intros E. apply (inj Some) in E as <-.
    unfold assignTask. destruct (kind (view g)); by apply tidy_upd.
  - destruct (_ || _); [done|]. intros E. apply (inj Some) in E as <-. by apply tidy_upd.
  - destruct (active _); [|done]. intros E. apply (inj Some) in E as <-. apply tidy_upd; [|done]. by intros (? & ? & _).
  - destruct (active (view g)); [|done]. destruct (kind (view g)) eqn:Ek; [done|..]; destruct (find _ _);
      try (destruct (truthy id); [done|]); intros E; apply (inj Some) in E as <-; (apply tidy_upd; [|done]);
      intros (? & ? & _); (split; [done|]); (split; [done|]); cbn; by rewrite Ek.
  - destruct (active _); [|done]. intros E. apply (inj Some) in E as <-. by apply tidy_upd.
  - destruct (active _); [|done]. intros E. apply (inj Some) in E as <-. by apply tidy_upd.
  - destruct (history (view g) !! i); [|done]. intros E. by apply (inj Some) in E as <-.
  - intros E. apply (inj Some) in E as <-. by apply tidy_upd.
  - intros E. by apply (inj Some) in E as <-.
  - intros E. by apply (inj Some) in E as <-.
Qed.

(** The request a submitted task comes to. *)
Definition task_request (id : jstr) (g : Controls) (a : Ask) : Prop :=
  let v := view g in
  match a with
  | AskAssign id' k target t i =>
    id' = id /\ t = trim (title_text v) /\ t <> [] /\ i = trim (instructions_text v) /\
    match k, target with
    | TInstruction, None => True
    | TAssignment, Some x => exists b, b ∈ assignments g /\ assignment_id b = x /\ a_classroom_id b = classroomId /\ a_status b = Published
    | TMaterial, Some x => exists n, n ∈ materials v /\ node_id n = x /\ material n = true
    | _, _ => False
    end
  | AskDeliver x id' =>
    id' = id /\ trim (title_text v) <> [] /\ exists q, q ∈ quizzes v /\ quiz_id q = x /\ published_quiz q = true
  | _ => False
  end.
Lemma target_listed g x : existsb (fun p : jstr * jstr => seqb (fst p) x) (targets g) = true -> exists name, (x, name) ∈ targets g.
Proof.
  intros Hx. apply existsb_exists in Hx as ([y name] & Hin & E). apply seqb_eq in E. cbn in E. subst y. exists name.
  by apply list_elem_of_In.
Qed.
Lemma truthy_not_nil s : truthy s = true -> s <> [].
Proof. by destruct s. Qed.

(** A task that is handed out goes to the session shown, with a title that is
    not blank; it names a published assignment, a document or a published quiz
    of this classroom, or nothing if it is an instruction. *)
Theorem task_names_own_work (g g' : Controls) : reachable g -> handle Submit g = Some g' ->
  exists d a, details (view g) = Some d /\ requests g' = requests g ++ [a] /\ task_request (live_id (session d)) g a.
Proof.
  intros Hr Hh. assert (Ht : tidy (view g)).
  { clear Hh. revert g Hr. apply (reachable_ind' (fun g => tidy (view g))); [|by intros; eapply tidy_handle]. by repeat split. }
  destruct Ht as (Hm & Hq & Hi). unfold handle in Hh. destruct (mounted g) eqn:Em; [|done]. cbn [negb] in Hh.
  destruct (details (view g)) as [d|]; [|done]. destruct (submittable g) eqn:Es; [|done]. apply (inj Some) in Hh as <-.
  unfold submittable in Es. apply andb_prop in Es as [Es Htarget]. apply andb_prop in Es as [_ Htitle]. apply truthy_not_nil in Htitle.
  exists d. assert (Hrq : requests (begin g) = requests g) by (unfold begin, upd; by rewrite Em).
  unfold assignTask, task_request.
  destruct (kind (view g)) eqn:Ek; [|apply andb_prop in Htarget as [Htr Htarget]; rewrite ?Htr;
    apply target_listed in Htarget as [name Hin]; unfold targets in Hin; rewrite Ek in Hin;
    apply list_elem_of_fmap in Hin as (x & Ex & Hin); injection Ex as Ex _ ..]; eexists; (split; [done|]); cbn; rewrite Hrq; (split; [done|]).
  - rewrite Hi by done. done.
  - apply list_elem_of_In, filter_In in Hin as [Hin Hx]. apply andb_prop in Hx as [Hc Hs]. apply seqb_eq in Hc.
    split_and!; try done. exists x. split; [by apply list_elem_of_In|]. split_and!; [done|done|]. by destruct (a_status x).
  - split_and!; try done. exists x. split_and!; [done|done|]. by eapply Forall_forall in Hm.
  - split_and!; try done. exists x. split_and!; [done|done|]. by eapply Forall_forall in Hq.
Qed.

(** ** The two clocks *)

(** The teacher's page is active exactly while the student's clock
    ([liveSessionClock]) is, and shows the same seconds, when both follow the
    Host's clock. *)
Theorem clock_of_the_students (v : View) (d : Details) (offset : Z) :
  details v = Some d -> clockOffsetMs v = Some offset ->
  (active v = true <-> fst (liveSessionClock (session d) (now v + offset)) = ClockActive) /\
  (active v = true -> remaining v = Some (snd (liveSessionClock (session d) (now v + offset)))).
Proof.
  intros Hd Ho. unfold active, remaining, liveSessionClock, ended. rewrite Hd, Ho.
  destruct (match ended_at (session d) with Some e => truthy e | None => false end); [by cbn|].
  destruct (date_parse (ends_at (session d))) as [ends|]; [|by cbn]. cbn [negb andb].
  replace (ends - now v - offset) with (ends - (now v + offset)) by ring.
  destruct (Z.leb_spec ends (now v + offset)) as [Hle|Hlt]; cbn.
  - assert (ceil_seconds (ends - (now v + offset)) <= 0) by (unfold ceil_seconds; Z.div_mod_to_equations; lia).
    rewrite Z.max_l by lia. done.
  - pose proof (ceil_seconds_bounds (ends - (now v + offset)) ltac:(lia)) as [Hpos _]. rewrite Z.max_r by lia.
    apply Z.ltb_lt in Hpos. by rewrite Hpos.
Qed.

(** ** A slow Host *)

(** The requests of one refresh are outstanding when the next begins. *)
Record slow (d : Details) (g : Controls) : Prop := {
  sl_mounted : mounted g = true;
  sl_details : details (view g) = Some d;
  sl_ended : ended (session d) = false;
  sl_waits : waits g = [WaitDetails (generation g) ThenNothing]
}.
(** Five seconds: the timer begins a refresh, the Host answers the second
    request of the one before, then the first of the new one. *)
Definition round (r : Z * SentDetails * LiveSession) : list Event :=
  let '(t, d, s) := r in [Tick t; Answer 0 (ReplyDetails d) t; Answer 0 (ReplyActive (Some s)) t].
Lemma slow_round d r g : slow d g -> exists g', run (round r) g = Some g' /\ slow d g'.
Proof.
  destruct r as [[t d'] s]. intros [H1 H2 H3 H4]. destruct g as [v l m n w q a]. cbn in *. subst m w.
  eexists. split.
  - unfold round, run, handle. cbn. rewrite H2, H3. cbn. destruct (Z.eqb_spec n (n + 1)); [lia|]. reflexivity.
  - by split.
Qed.
Lemma run_app es es' g : run (es ++ es') g = match run es g with Some g' => run es' g' | None => None end.
Proof. revert g. induction es as [|e es IH]; intros g; cbn; [done|]. destruct (handle e g); [apply IH|done]. Qed.
(** When the two requests of a refresh together take longer than the five
    seconds between two refreshes, each begins before the one before is
    answered: whatever the Host answers, the page goes on showing what it
    showed, without a message. *)
Theorem slow_host_never_shown (rounds : list (Z * SentDetails * LiveSession)) (d : Details) (g : Controls) :
  slow d g -> exists g', run (concat (round <$> rounds)) g = Some g' /\ details (view g') = Some d.
Proof.
  revert g. induction rounds as [|r rounds IH]; intros g Hs.
  - exists g. split; [done|apply Hs].
  - destruct (slow_round d r g Hs) as (g1 & E1 & H1). destruct (IH g1 H1) as (g2 & E2 & H2).
    exists g2. split; [|done]. cbn. by rewrite run_app, E1.
Qed.

End controls.

(** ** Runs *)

Module TeacherLiveRuns.
#[local] Existing Instance decimal_dates.

Definition room : jstr := js "room".
Definition lesson : LiveSession :=
  mkLiveSession (js "s1") room (js "Physics") (js "classroom.live") (js "Live Classroom") 15 (js "ABC") (js "0") (js "900000")
    None (Some (js "1000")) None None None.
Definition sent (l : list Participant) : SentDetails := mkSentDetails lesson l None None.
Definition quiz : QuizHead := mkQuizHead (js "q1") (js "Forces") (Some 1).
Definition homework : Assignment :=
  mkAssignment (js "a1") room (js "Physics") (js "Waves") [] None (num 10) VNull Published [] [].
Definition begun : Controls := mount [homework] 1000.
Definition opened : list Event :=
  [Answer 0 (ReplyActive (Some lesson)) 1000; Answer 0 (ReplyDetails (sent [])) 1000;
   Answer 0 (ReplyHistory []) 1000; Answer 0 (ReplyTree []) 1000; Answer 0 (ReplyQuizzes [quiz]) 1000].
Definition after (es : list Event) : Controls := default begun (run room es begun).
Lemma reached es : is_Some (run room es begun) -> reachable room (after es).
Proof. intros [g E]. exists [homework], 1000, es. unfold after. by rewrite E. Qed.

Definition give : list Event :=
  opened ++ [ChooseKind TAssignment; ChooseTarget (js "a1")].

Lemma one_command_at_a_time_witness :
  busy (view (after (give ++ [Submit]))) = true /\ commands (after (give ++ [Submit])) = 1%nat.
Proof.
  assert (Hr : reachable room (after (give ++ [Submit]))) by (apply reached; vm_compute; by eexists).
  assert (Hb : busy (view (after (give ++ [Submit]))) = true) by (vm_compute; reflexivity).
  split; [exact Hb|].
  exact (proj1 (proj1 (proj2 (one_command_at_a_time room _ Hr ltac:(vm_compute; reflexivity)))) Hb).
Defined.
Lemma refreshes_shown_in_order_witness :
  exists g', handle room (Answer 0 (ReplyActive None) 7000) (after (opened ++ [Tick 6000])) = Some g' /\
    applied (after (opened ++ [Tick 6000])) = Some 1 /\ (applied g' = Some 1 \/ applied g' = Some 2 /\ 1 < 2).
Proof.
  assert (Hr : reachable room (after (opened ++ [Tick 6000]))) by (apply reached; vm_compute; by eexists).
  assert (Hh : is_Some (handle room (Answer 0 (ReplyActive None) 7000) (after (opened ++ [Tick 6000])))) by (vm_compute; by eexists).
  destruct Hh as [g' Hh]. exists g'. split; [exact Hh|]. split; [vm_compute; reflexivity|].
  destruct (refreshes_shown_in_order room (Answer 0 (ReplyActive None) 7000) _ _ Hr Hh) as [E|[E Hn]].
  - left. rewrite E. vm_compute. reflexivity.
  - right. split; [rewrite E; vm_compute; reflexivity|].
    exact (Hn 1 ltac:(vm_compute; reflexivity)).
Defined.
Lemma task_names_own_work_witness :
  exists g', handle room Submit (after give) = Some g' /\
    requests g' = requests (after give) ++ [AskAssign (js "s1") TAssignment (Some (js "a1")) (js "Waves") []] /\
    exists d a, details (view (after give)) = Some d /\ requests g' = requests (after give) ++ [a] /\
      task_request room (live_id (session d)) (after give) a.
Proof.
  assert (Hr : reachable room (after give)) by (apply reached; vm_compute; by eexists).
  assert (Hh : is_Some (handle room Submit (after give))) by (vm_compute; by eexists).
  destruct Hh as [g' Hh]. exists g'. split; [exact Hh|]. split; [|exact (task_names_own_work room (after give) g' Hr Hh)].
  revert Hh. vm_compute. intros E. injection E as <-. reflexivity.
Defined.
Lemma clock_of_the_students_witness :
  active (view (after opened)) = true /\ remaining (view (after opened)) = Some 899.
Proof.
  destruct (clock_of_the_students (view (after opened)) (details_of (sent [])) 0 ltac:(vm_compute; reflexivity) ltac:(vm_compute; reflexivity)) as [Ha Hs].
  assert (Hx : active (view (after opened)) = true) by (apply Ha; vm_compute; reflexivity).
  split; [exact Hx|]. etransitivity; [exact (Hs Hx)|vm_compute; reflexivity].
Defined.
Definition waiting : list Event := opened ++ [Tick 6000; Answer 0 (ReplyActive (Some lesson)) 8000].
Definition ada : Participant := mkParticipant (js "u1") (js "Ada") (js "7000") (js "7000") None None.
Lemma slow_host_never_shown_witness :
  slow (details_of (sent [])) (after waiting) /\
  exists g', run room (concat (round <$> [(11000, sent [ada], lesson); (16000, sent [ada], lesson)])) (after waiting) = Some g' /\
    details (view g') = Some (details_of (sent [])).
Proof.
  assert (Hs : slow (details_of (sent [])) (after waiting)) by (split; vm_compute; reflexivity).
  split; [exact Hs|].
  exact (slow_host_never_shown room [(11000, sent [ada], lesson); (16000, sent [ada], lesson)] _ _ Hs).
Defined.

(** A quiz is delivered before its task is assigned; when that fails and the
    teacher tries again, it is delivered to the class a second time. *)
Theorem quiz_delivered_twice :
  requests (after (opened ++ [ChooseKind TQuiz; ChooseTarget (js "q1"); Submit; Answer 0 (ReplyDelivery (js "d1")) 2000;
    Answer 0 (ReplyFailure None false) 2000; Submit; Answer 0 (ReplyDelivery (js "d2")) 3000])) =
  requests (after opened) ++
    [AskDeliver (js "q1") (js "s1"); AskAssign (js "s1") TQuiz (Some (js "d1")) (js "Forces") [];
     AskDeliver (js "q1") (js "s1"); AskAssign (js "s1") TQuiz (Some (js "d2")) (js "Forces") []].
Proof. vm_compute. reflexivity. Qed.
(** The message of an older refresh whose history failed appears after a newer
    one has been shown. *)
Theorem old_history_failure_shown :
  error (view (after (firstn 2 opened ++ [Tick 6000; Answer 3 (ReplyActive None) 6000; Answer 0 (ReplyFailure None false) 7000]))) =
    js "Session history could not be loaded." /\
  applied (after (firstn 2 opened ++ [Tick 6000; Answer 3 (ReplyActive None) 6000; Answer 0 (ReplyFailure None false) 7000])) = Some 2.
Proof. split; vm_compute; reflexivity. Qed.

End TeacherLiveRuns.
