(* ===== verification/QuizManager.v ===== *)
(** * Quizzes of a classroom ([apps/teacher/src/QuizManager.tsx])

    [QuizManager] as the classroom's page mounts it, with that one classroom:
    the editor of drafts, the library, deliveries and the marking of answers.
    A handler is cut at each [await]; what its continuation needs is kept in
    [waits].  [requests] records what was sent; nothing reads it.  What the
    browser checks before it submits the form ([required], [min], [max],
    [step]) is [form_valid].  [iso] is [new Date(value).toISOString()], with
    [None] for its RangeError. *)

From Stdlib Require Import QArith.
From S2P Require Import Prelude JsString JsNumber JsValue Api.
Local Open Scope Z_scope.

(** ** Data *)

Inductive QuizQuestionKind := SingleChoice | TrueFalse | ShortAnswer.
#[export] Instance QuizQuestionKind_eq : EqDecision QuizQuestionKind. Proof. solve_decision. Defined.
Record QuizQuestionInput := mkQuestion {
  q_id : option jstr;
  q_kind : QuizQuestionKind;
  prompt : jstr;
  options : list jstr;
  canonical_answer : jsval;
  max_points : jsnum;
  required : bool
}.
Definition blankQuestion : QuizQuestionInput := mkQuestion None SingleChoice [] [[]; []] (VStr []) (num 1) true.
Record Quiz := mkQuiz {
  quiz_id : jstr;
  quiz_title : jstr;
  quiz_instructions : jstr;
  time_limit_minutes : option jsnum;
  published_version : option Z;
  quiz_questions : list QuizQuestionInput
}.
Record Delivery := mkDelivery { delivery_id : jstr; results_released_at : option jstr }.
Record Response := mkResponse { response_question : jstr; answer_text : jsval; points : option jsnum; feedback : jstr }.
Record Attempt := mkAttempt {
  attempt_id : jstr;
  submitted_at : option jstr;
  attempt_questions : list (jstr * QuizQuestionKind);
  responses : list Response
}.
Record Form := mkForm { title : jstr; instructions : jstr; limit_text : jstr; questions : list QuizQuestionInput }.
Definition blank_form : Form := mkForm [] [] [] [blankQuestion].
(** What a save sends. *)
Record Input := mkInput {
  in_classroom : jstr;
  in_title : jstr;
  in_instructions : jstr;
  in_limit : option jsnum;
  in_questions : list QuizQuestionInput
}.
Record Review := mkReview { delivery : Delivery; attempts : list Attempt; stats : jsval }.

(** ** State *)

(** What runs when a refresh has settled. *)
Inductive After := AfterMount | AfterSave | AfterRun (success : jstr).
Inductive Wait :=
  | WaitLists (k : After)
  | WaitSave
  | WaitAction (success : jstr)
  | WaitReview (d : Delivery)
  | WaitThenReview (d : Delivery).
Inductive Ask :=
  | AskLists
  | AskCreate (input : Input)
  | AskUpdate (id : jstr) (input : Input)
  | AskDuplicate (id : jstr)
  | AskPublish (id : jstr)
  | AskDeliver (id : jstr) (opens due : option jstr)
  | AskArchive (id : jstr)
  | AskReview (id : jstr)
  | AskReopen (attempt : jstr)
  | AskGrade (attempt question : jstr) (points : jsnum) (feedback : jstr)
  | AskRelease (id : jstr).
Inductive Reply :=
  | ReplyLists (quizzes : list Quiz) (deliveries : list Delivery)
  | ReplyReview (attempts : list Attempt) (stats : jsval)
  | ReplyDone
  | ReplyFailure (text : option jstr).
Record Manager := mkManager {
  quizzes : list Quiz;
  deliveries : list Delivery;
  editing : option jstr;
  editorOpen : bool;
  form : Form;
  review : option Review;
  preview : bool;
  schedule : jstr * jstr;
  message : jstr;
  busy : bool;
  waits : list Wait;
  requests : list Ask
}.

Definition set_quizzes (x : list Quiz) (g : Manager) : Manager := mkManager x (deliveries g) (editing g) (editorOpen g) (form g) (review g) (preview g) (schedule g) (message g) (busy g) (waits g) (requests g).
Definition set_deliveries (x : list Delivery) (g : Manager) : Manager := mkManager (quizzes g) x (editing g) (editorOpen g) (form g) (review g) (preview g) (schedule g) (message g) (busy g) (waits g) (requests g).
Definition set_editing (x : option jstr) (g : Manager) : Manager := mkManager (quizzes g) (deliveries g) x (editorOpen g) (form g) (review g) (preview g) (schedule g) (message g) (busy g) (waits g) (requests g).
Definition set_editorOpen (x : bool) (g : Manager) : Manager := mkManager (quizzes g) (deliveries g) (editing g) x (form g) (review g) (preview g) (schedule g) (message g) (busy g) (waits g) (requests g).
Definition set_form (x : Form) (g : Manager) : Manager := mkManager (quizzes g) (deliveries g) (editing g) (editorOpen g) x (review g) (preview g) (schedule g) (message g) (busy g) (waits g) (requests g).
Definition set_review (x : option Review) (g : Manager) : Manager := mkManager (quizzes g) (deliveries g) (editing g) (editorOpen g) (form g) x (preview g) (schedule g) (message g) (busy g) (waits g) (requests g).
Definition set_preview (x : bool) (g : Manager) : Manager := mkManager (quizzes g) (deliveries g) (editing g) (editorOpen g) (form g) (review g) x (schedule g) (message g) (busy g) (waits g) (requests g).
Definition set_schedule (x : jstr * jstr) (g : Manager) : Manager := mkManager (quizzes g) (deliveries g) (editing g) (editorOpen g) (form g) (review g) (preview g) x (message g) (busy g) (waits g) (requests g).
Definition set_message (x : jstr) (g : Manager) : Manager := mkManager (quizzes g) (deliveries g) (editing g) (editorOpen g) (form g) (review g) (preview g) (schedule g) x (busy g) (waits g) (requests g).
Definition set_busy (x : bool) (g : Manager) : Manager := mkManager (quizzes g) (deliveries g) (editing g) (editorOpen g) (form g) (review g) (preview g) (schedule g) (message g) x (waits g) (requests g).
Definition set_waits (x : list Wait) (g : Manager) : Manager := mkManager (quizzes g) (deliveries g) (editing g) (editorOpen g) (form g) (review g) (preview g) (schedule g) (message g) (busy g) x (requests g).
Definition set_requests (x : list Ask) (g : Manager) : Manager := mkManager (quizzes g) (deliveries g) (editing g) (editorOpen g) (form g) (review g) (preview g) (schedule g) (message g) (busy g) (waits g) x.
Definition with_prompt (x : jstr) (q : QuizQuestionInput) : QuizQuestionInput := mkQuestion (q_id q) (q_kind q) x (options q) (canonical_answer q) (max_points q) (required q).
Definition with_options (x : list jstr) (q : QuizQuestionInput) : QuizQuestionInput := mkQuestion (q_id q) (q_kind q) (prompt q) x (canonical_answer q) (max_points q) (required q).
Definition with_canonical_answer (x : jsval) (q : QuizQuestionInput) : QuizQuestionInput := mkQuestion (q_id q) (q_kind q) (prompt q) (options q) x (max_points q) (required q).
Definition with_max_points (x : jsnum) (q : QuizQuestionInput) : QuizQuestionInput := mkQuestion (q_id q) (q_kind q) (prompt q) (options q) (canonical_answer q) x (required q).

(** ** What is sent *)

Definition kind_name (k : QuizQuestionKind) : jstr :=
  match k with SingleChoice => js "single_choice" | TrueFalse => js "true_false" | ShortAnswer => js "short_answer" end.
Definition or_null {A} (f : A -> jsval) (o : option A) : jsval := match o with Some x => f x | None => VNull end.
Definition question_json (q : QuizQuestionInput) : jsval :=
  VObj (match q_id q with Some id => [(js "id", VStr id)] | None => [] end ++
    [(js "kind", VStr (kind_name (q_kind q))); (js "prompt", VStr (prompt q)); (js "options", VArr (VStr <$> options q));
     (js "canonical_answer", canonical_answer q); (js "max_points", VNum (max_points q)); (js "required", VBool (required q))]).
Definition input_json (i : Input) : jsval :=
  VObj [(js "classroom_id", VStr (in_classroom i)); (js "title", VStr (in_title i)); (js "instructions", VStr (in_instructions i));
        (js "time_limit_minutes", or_null VNum (in_limit i)); (js "questions", VArr (question_json <$> in_questions i))].
Definition send (a : Ask) (g : Manager) : Manager := set_requests (requests g ++ [a]) g.
Definition await (w : Wait) (g : Manager) : Manager := set_waits (waits g ++ [w]) g.

Section manager.
Context (classroomId : jstr) (iso : jstr -> option jstr).

Definition calls_of (a : Ask) : list Call :=
  match a with
  | AskLists => [CinderApi.quizzes (Some classroomId); CinderApi.quizDeliveries (Some classroomId)]
  | AskCreate i => [CinderApi.createQuiz (input_json i)]
  | AskUpdate id i => [CinderApi.updateQuiz id (input_json i)]
  | AskDuplicate id => [CinderApi.duplicateQuiz id]
  | AskPublish id => [CinderApi.publishQuiz id]
  | AskDeliver id opens due => [CinderApi.deliverQuiz id (VObj [(js "kind", VStr (js "homework"));
      (js "opens_at", or_null VStr opens); (js "due_at", or_null VStr due)])]
  | AskArchive id => [CinderApi.archiveQuiz id]
  | AskReview id => [CinderApi.quizAttempts id; CinderApi.quizStatistics id]
  | AskReopen id => [CinderApi.reopenQuizAttempt id]
  | AskGrade id q p f => [CinderApi.gradeQuizResponse id q p f]
  | AskRelease id => [CinderApi.releaseQuizResults id]
  end.

(** ** Lists *)

Definition settled (k : After) (g : Manager) : Manager :=
  match k with
  | AfterMount => g
  | AfterSave => set_busy false (set_message (js "Quiz draft saved.") g)
  | AfterRun success => set_busy false (set_message success g)
  end.
Definition refreshed (k : After) (qs : list Quiz) (ds : list Delivery) (g : Manager) : Manager :=
  settled k (set_deliveries ds (set_quizzes qs g)).
Definition refresh (k : After) (g : Manager) : Manager :=
  if truthy classroomId then await (WaitLists k) (send AskLists g) else refreshed k [] [] g.
Definition refresh_failed (k : After) (text : option jstr) (g : Manager) : Manager :=
  match k with
  | AfterMount => set_message (default (js "Quizzes could not be loaded.") text) g
  | AfterSave => set_busy false (set_message (default (js "Quiz could not be saved.") text) g)
  | AfterRun _ => set_busy false (set_message (default (js "The quiz could not be updated.") text) g)
  end.

(** ** The editor *)

Definition form_of (q : Quiz) : Form :=
  mkForm (quiz_title q) (quiz_instructions q) (match time_limit_minutes q with Some n => show_num n | None => [] end)
    (quiz_questions q).
Definition edit (q : option Quiz) (g : Manager) : Manager :=
  set_form (match q with Some q => form_of q | None => blank_form end)
    (set_preview false (set_editing (quiz_id <$> q) (set_editorOpen true g))).
Definition set_questions (f : list QuizQuestionInput -> list QuizQuestionInput) (g : Manager) : Manager :=
  set_form (mkForm (title (form g)) (instructions (form g)) (limit_text (form g)) (f (questions (form g)))) g.
Definition updateQuestion (index : nat) (patch : QuizQuestionInput -> QuizQuestionInput) (g : Manager) : Manager :=
  set_questions (alter patch index) g.
(** Another kind starts with new options and a new answer. *)
Definition with_kind (k : QuizQuestionKind) (q : QuizQuestionInput) : QuizQuestionInput :=
  mkQuestion (q_id q) k (prompt q) (match k with SingleChoice => [[]; []] | _ => [] end)
    (match k with TrueFalse => VBool true | _ => VStr [] end) (max_points q) (required q).
Definition move_up (index : nat) (l : list QuizQuestionInput) : list QuizQuestionInput :=
  match index with
  | O => l
  | S before =>
    match l !! before, l !! index with
    | Some a, Some b => <[before := b]> (<[index := a]> l)
    | _, _ => l
    end
  end.

(** What the browser asks of the fields. *)
Definition between (lo hi step : Q) (n : jsnum) : bool :=
  match n with
  | Fin q => Qle_bool lo q && Qle_bool q hi && Pos.eqb (Qden (Qred ((q - lo) / step)%Q)) 1
  | _ => false
  end.
Definition limit_valid (text : jstr) : bool := negb (truthy text) || between 1%Q 180%Q 1%Q (number_of_string text).
Definition question_valid (q : QuizQuestionInput) : bool :=
  truthy (prompt q) && between (1#2)%Q 1000%Q (1#2)%Q (max_points q) &&
  match q_kind q with
  | SingleChoice =>
    forallb truthy (options q) && truthy (to_string (canonical_answer q)) &&
    existsb (seqb (to_string (canonical_answer q))) (options q)
  | _ => true
  end.
Definition form_valid (f : Form) : bool :=
  truthy (title f) && limit_valid (limit_text f) && forallb question_valid (questions f).

Definition input_of (f : Form) : Input :=
  mkInput classroomId (title f) (instructions f)
    (if truthy (limit_text f) then Some (number_of_string (limit_text f)) else None) (questions f).
Definition begin (g : Manager) : Manager := set_message [] (set_busy true g).
Definition failed (text : option jstr) (otherwise : jstr) (g : Manager) : Manager :=
  set_busy false (set_message (default otherwise text) g).
Definition save (g : Manager) : Manager :=
  let input := input_of (form g) in
  await WaitSave (send (match editing g with Some id => AskUpdate id input | None => AskCreate input end) (begin g)).
Definition save_answered (r : Reply) (g : Manager) : Manager :=
  match r with
  | ReplyDone => refresh AfterSave (set_editorOpen false (set_editing None g))
  | ReplyFailure text => failed text (js "Quiz could not be saved.") g
  | _ => g
  end.

(** ** The library *)

Definition act (a : Ask) (success : jstr) (g : Manager) : Manager := await (WaitAction success) (send a (begin g)).
Definition action_answered (success : jstr) (r : Reply) (g : Manager) : Manager :=
  match r with
  | ReplyDone => refresh (AfterRun success) g
  | ReplyFailure text => failed text (js "The quiz could not be updated.") g
  | _ => g
  end.
(** A date that cannot be written throws inside the [try]. *)
Definition date_or_null (text : jstr) : option (option jstr) :=
  if truthy text then Some <$> iso text else Some None.
Definition assign (id : jstr) (g : Manager) : Manager :=
  match date_or_null (fst (schedule g)), date_or_null (snd (schedule g)) with
  | Some opens, Some due => act (AskDeliver id opens due) (js "Quiz assigned.") g
  | _, _ => failed (Some (js "Invalid time value")) [] (begin g)
  end.

(** ** Results *)

Definition reviewDelivery (d : Delivery) (g : Manager) : Manager :=
  await (WaitReview d) (send (AskReview (delivery_id d)) (set_busy true g)).
Definition review_answered (d : Delivery) (r : Reply) (g : Manager) : Manager :=
  match r with
  | ReplyReview l s => set_busy false (set_review (Some (mkReview d l s)) g)
  | ReplyFailure text => failed text (js "Results could not be loaded.") g
  | _ => g
  end.
(** [window.prompt] answers [null] when it is cancelled. *)
Definition prompted_points (p : option jstr) : jsnum := to_number (match p with Some text => VStr text | None => VNull end).
Definition gradable (a : Attempt) (question : jstr) : bool :=
  match submitted_at a with Some t => truthy t | None => false end &&
  existsb (fun q : jstr * QuizQuestionKind => seqb (fst q) question && bool_decide (snd q = ShortAnswer)) (attempt_questions a) &&
  existsb (fun r => seqb (response_question r) question) (responses a).
Definition grade (d : Delivery) (a : Attempt) (question : jstr) (p f : option jstr) (g : Manager) : Manager :=
  let response := find (fun r => seqb (response_question r) question) (responses a) in
  if is_finite (prompted_points p) then
    await (WaitThenReview d)
      (send (AskGrade (attempt_id a) question (prompted_points p)
        (match f with Some text => text | None => match response with Some r => feedback r | None => [] end end)) g)
  else g.

(** ** Events *)

Inductive Event :=
  | NewQuiz
  | EditQuiz (i : nat)
  | CancelEdit
  | TogglePreview
  | TypeTitle (text : jstr)
  | TypeLimit (text : jstr)
  | TypeInstructions (text : jstr)
  | AddQuestion
  | RemoveQuestion (i : nat)
  | MoveUp (i : nat)
  | ChooseKind (i : nat) (k : QuizQuestionKind)
  | TypePoints (i : nat) (text : jstr)
  | TypePrompt (i : nat) (text : jstr)
  | TypeOption (i j : nat) (text : jstr)
  | AddOption (i : nat)
  | ChooseAnswer (i : nat) (text : jstr)
  | ChooseTruth (i : nat) (b : bool)
  | Save
  | Duplicate (i : nat)
  | Publish (i : nat)
  | Assign (i : nat)
  | Archive (i : nat)
  | SetSchedule (opens due : jstr)
  | ReviewDelivery (i : nat)
  | Release
  | Reopen (i : nat)
  | Grade (i : nat) (question : jstr) (p f : option jstr)
  | CloseReview
  | Answer (i : nat) (r : Reply).
Definition answer (w : Wait) (r : Reply) (g : Manager) : Manager :=
  match w with
  | WaitLists k =>
    match r with
    | ReplyLists qs ds => refreshed k qs ds g
    | ReplyFailure text => refresh_failed k text g
    | _ => g
    end
  | WaitSave => save_answered r g
  | WaitAction success => action_answered success r g
  | WaitReview d => review_answered d r g
  | WaitThenReview d => match r with ReplyDone => reviewDelivery d g | _ => g end
  end.
Definition fits (w : Wait) (r : Reply) : bool :=
  match r, w with
  | ReplyFailure _, _ => true
  | ReplyLists _ _, WaitLists _ | ReplyReview _ _, WaitReview _ => true
  | ReplyDone, WaitSave | ReplyDone, WaitAction _ | ReplyDone, WaitThenReview _ => true
  | _, _ => false
  end.
(** What changes a question, and when its field is there. *)
Definition question_edit (e : Event) : option (nat * (QuizQuestionInput -> option QuizQuestionInput)) :=
  match e with
  | ChooseKind i k => Some (i, fun q => Some (with_kind k q))
  | TypePoints i text => Some (i, fun q => Some (with_max_points (number_of_string text) q))
  | TypePrompt i text => Some (i, fun q => Some (with_prompt text q))
  | TypeOption i j text => Some (i, fun q =>
      if bool_decide (q_kind q = SingleChoice) && (j <? length (options q))%nat then Some (with_options (<[j := text]> (options q)) q) else None)
  | AddOption i => Some (i, fun q =>
      if bool_decide (q_kind q = SingleChoice) then Some (with_options (options q ++ [[]]) q) else None)
  | ChooseAnswer i text => Some (i, fun q =>
      if bool_decide (q_kind q = SingleChoice) && (negb (truthy text) || existsb (seqb text) (options q))
      then Some (with_canonical_answer (VStr text) q) else None)
  | ChooseTruth i b => Some (i, fun q =>
      if bool_decide (q_kind q = TrueFalse) then Some (with_canonical_answer (VBool b) q) else None)
  | _ => None
  end.
(** A button of a row of the library. *)
Definition library_action (e : Event) : option (nat * (Quiz -> Manager -> Manager)) :=
  match e with
  | EditQuiz i => Some (i, fun q => edit (Some q))
  | Duplicate i => Some (i, fun q => act (AskDuplicate (quiz_id q)) (js "Quiz duplicated."))
  | Publish i => Some (i, fun q => act (AskPublish (quiz_id q)) (js "Quiz published."))
  | Assign i => Some (i, fun q => match published_version q with
      | Some v => if v =? 0 then id else assign (quiz_id q)
      | None => id
      end)
  | Archive i => Some (i, fun q => act (AskArchive (quiz_id q)) (js "Quiz archived."))
  | _ => None
  end.
Definition editor_event (e : Event) (g : Manager) : option Manager :=
  let f := form g in
  match e with
  | CancelEdit => Some (set_preview false (set_editing None (set_editorOpen false g)))
  | TogglePreview => Some (set_preview (negb (preview g)) g)
  | TypeTitle text => Some (set_form (mkForm text (instructions f) (limit_text f) (questions f)) g)
  | TypeLimit text => Some (set_form (mkForm (title f) (instructions f) text (questions f)) g)
  | TypeInstructions text => Some (set_form (mkForm (title f) text (limit_text f) (questions f)) g)
  | AddQuestion => Some (set_questions (fun l => l ++ [blankQuestion]) g)
  | RemoveQuestion i => if (length (questions f) =? 1)%nat then None else Some (set_questions (fun l => delete i l) g)
  | MoveUp i => Some (set_questions (move_up i) g)
  | Save => if busy g || negb (form_valid f) then None else Some (save g)
  | _ =>
    match question_edit e with
    | Some (i, patch) =>
      match questions f !! i with
      | Some q => match patch q with Some q' => Some (updateQuestion i (fun _ => q') g) | None => None end
      | None => None
      end
    | None => None
    end
  end.
Definition review_event (e : Event) (r : Review) (g : Manager) : option Manager :=
  match e with
  | Release =>
    match results_released_at (delivery r) with
    | None => Some (await (WaitThenReview (delivery r)) (send (AskRelease (delivery_id (delivery r))) g))
    | Some _ => None
    end
  | Reopen i =>
    match attempts r !! i, results_released_at (delivery r) with
    | Some a, None => Some (await (WaitThenReview (delivery r)) (send (AskReopen (attempt_id a)) g))
    | _, _ => None
    end
  | Grade i question p f =>
    match attempts r !! i with
    | Some a => if gradable a question then Some (grade (delivery r) a question p f g) else None
    | None => None
    end
  | CloseReview => Some (set_review None g)
  | _ => None
  end.
Definition handle (e : Event) (g : Manager) : option Manager :=
  match e with
  | Answer i r =>
    match waits g !! i with
    | Some w => if fits w r then Some (answer w r (set_waits (delete i (waits g)) g)) else None
    | None => None
    end
  | NewQuiz => if truthy classroomId then Some (edit None g) else None
  | SetSchedule opens due => Some (set_schedule (opens, due) g)
  | ReviewDelivery i =>
    match deliveries g !! i with
    | Some d => if busy g then None else Some (reviewDelivery d g)
    | None => None
    end
  | Release | Reopen _ | Grade _ _ _ _ | CloseReview =>
    match review g with Some r => review_event e r g | None => None end
  | _ =>
    match library_action e with
    | Some (i, f) =>
      match quizzes g !! i with Some q => if busy g then None else Some (f q g) | None => None end
    | None => if editorOpen g then editor_event e g else None
    end
  end.
Fixpoint run (es : list Event) (g : Manager) : option Manager :=
  match es with
  | [] => Some g
  | e :: es' => match handle e g with Some g' => run es' g' | None => None end
  end.
Definition mount : Manager :=
  refresh AfterMount (mkManager [] [] None false blank_form None false ([], []) [] false [] []).

Lemma editor_keeps (ok : Event -> Prop) (P : Manager -> Prop) :
  (forall e g g', ok e -> P g -> handle e g = Some g' -> P g') ->
  forall es g g', Forall ok es -> run es g = Some g' -> P g -> P g'.
Proof.
  intros Hs es. induction es as [|e es IH]; intros g g' Hok; cbn [run].
  - intros E. by apply (inj Some) in E as <-.
  - apply Forall_cons in Hok as [He Hok]. destruct (handle e g) as [g1|] eqn:Eh; [|done]. intros Hr HP. by eapply IH, Hs.
Qed.

(** ** What is saved *)

Definition in_range (lo hi : Q) (n : jsnum) : Prop := exists q, n = Fin q /\ (lo <= q <= hi)%Q.
Record wf_question (q : QuizQuestionInput) : Prop := {
  wf_prompt : prompt q <> [];
  wf_points : in_range (1#2) 1000 (max_points q);
  wf_choice : q_kind q = SingleChoice -> ([] ∉ options q) /\ to_string (canonical_answer q) ∈ options q
}.
Record wf_input (i : Input) : Prop := {
  wf_title : in_title i <> [];
  wf_limit : forall n, in_limit i = Some n -> exists q z, n = Fin q /\ q == inject_Z z /\ 1 <= z <= 180;
  wf_questions : Forall wf_question (in_questions i)
}.
(** The answer is of the kind of the question. *)
Definition answers_kind (q : QuizQuestionInput) : Prop :=
  match q_kind q with
  | TrueFalse => exists b, canonical_answer q = VBool b
  | _ => exists s, canonical_answer q = VStr s
  end.
(** There is a question, and every answer is of its kind. *)
Definition complete (l : list QuizQuestionInput) : Prop := l <> [] /\ Forall answers_kind l.
(** The quizzes the Host lists are complete. *)
Definition complete_reply (e : Event) : Prop :=
  match e with Answer _ (ReplyLists l _) => Forall (fun q => complete (quiz_questions q)) l | _ => True end.
(** [given]: all that the Host lists is complete. *)
Section fine.
Context (given : bool).
Definition request_ok (a : Ask) : Prop :=
  match a with
  | AskCreate i => wf_input i /\ complete (in_questions i)
  | AskUpdate _ i => wf_input i /\ (given = true -> complete (in_questions i))
  | _ => True
  end.
Lemma between_range lo hi step n : between lo hi step n = true -> in_range lo hi n.
Proof.
  unfold between. destruct n as [| |q]; try done. intros [[H1 H2]%andb_prop _]%andb_prop.
  exists q. by rewrite <- !Qle_bool_iff.
Qed.
Lemma question_valid_wf q : question_valid q = true -> wf_question q.
Proof.
  unfold question_valid. intros [[Hp Hm]%andb_prop Hk]%andb_prop. split.
  - by destruct (prompt q).
  - by apply between_range in Hm.
  - intros E. rewrite E in Hk. apply andb_prop in Hk as [[Ho _]%andb_prop Ha]. split.
    + intros Hin. rewrite forallb_forall in Ho. apply list_elem_of_In in Hin. by specialize (Ho _ Hin).
    + apply existsb_exists in Ha as (o & Hin & <-%seqb_eq). by apply list_elem_of_In.
Qed.
Lemma limit_integer n : between 1%Q 180%Q 1%Q n = true -> exists q z, n = Fin q /\ (q == inject_Z z)%Q /\ 1 <= z <= 180.
Proof.
  unfold between. destruct n as [| |q]; try done. intros [[H1 H2]%andb_prop Hd]%andb_prop. apply Pos.eqb_eq in Hd.
  set (d := ((q - 1) / 1)%Q) in *. exists q, (Qnum (Qred d) + 1). split; [done|].
  assert (Ed : (d == inject_Z (Qnum (Qred d)))%Q).
  { rewrite <- (Qred_correct d) at 1. destruct (Qred d) as [a b]. cbn in *. subst b. reflexivity. }
  assert (Eq : (q == inject_Z (Qnum (Qred d) + 1))%Q).
  { rewrite inject_Z_plus, <- Ed. unfold d. field. }
  split; [exact Eq|]. apply Qle_bool_iff in H1, H2. rewrite Eq in H1, H2.
  change 1%Q with (inject_Z 1) in H1. change 180%Q with (inject_Z 180) in H2. rewrite <- Zle_Qle in H1, H2. done.
Qed.
Lemma form_valid_wf f : form_valid f = true -> wf_input (input_of f).
Proof.
  unfold form_valid, limit_valid. intros [[Ht Hl]%andb_prop Hq]%andb_prop. split.
  - cbn. by destruct (title f).
  - intros n. cbn. destruct (truthy (limit_text f)); [|done]. intros E. apply (inj Some) in E as <-. by apply limit_integer.
  - cbn. apply forallb_Forall in Hq. eapply Forall_impl; [exact Hq|]. apply question_valid_wf.
Qed.

Record fine (g : Manager) : Prop := {
  fi_requests : Forall request_ok (requests g);
  fi_form : editorOpen g = true -> editing g = None \/ given = true -> complete (questions (form g));
  fi_quizzes : given = true -> Forall (fun q => complete (quiz_questions q)) (quizzes g)
}.
Definition same_editor (g g' : Manager) : Prop :=
  requests g' = requests g /\ editorOpen g' = editorOpen g /\ editing g' = editing g /\ form g' = form g /\ quizzes g' = quizzes g.
Lemma fine_same g g' : same_editor g g' -> fine g -> fine g'.
Proof. intros (E1 & E2 & E3 & E4 & E5) [H1 H2 H3]. split; rewrite ?E1, ?E2, ?E3, ?E4, ?E5; done. Qed.
Lemma fine_send a g : request_ok a -> fine g -> fine (send a g).
Proof. intros Ha [H1 H2 H3]. split; [|done|done]. apply Forall_app. by split; [|apply Forall_singleton]. Qed.
Lemma fine_await w g : fine g -> fine (await w g).
Proof. by apply fine_same. Qed.
Lemma fine_act a success g : request_ok a -> fine g -> fine (act a success g).
Proof. intros Ha Hg. apply fine_await, fine_send; [done|]. by apply (fine_same g). Qed.
Lemma fine_settled k g : fine g -> fine (settled k g).
Proof. destruct k; by apply fine_same. Qed.
Lemma fine_refreshed k qs ds g : (given = true -> Forall (fun q => complete (quiz_questions q)) qs) -> fine g -> fine (refreshed k qs ds g).
Proof. intros Hq [H1 H2 H3]. apply fine_settled. by split. Qed.
Lemma fine_refresh k g : fine g -> fine (refresh k g).
Proof.
  intros Hg. unfold refresh. destruct (truthy classroomId); [by apply fine_await, fine_send|]. by apply fine_refreshed.
Qed.
Lemma fine_review d g : fine g -> fine (reviewDelivery d g).
Proof. intros Hg. apply fine_await, fine_send; [done|]. by apply (fine_same g). Qed.
Lemma fine_closed g : fine g -> fine (set_editorOpen false (set_editing None g)).
Proof. intros [H1 H2 H3]. by split. Qed.
Definition told (e : Event) : Prop := given = true -> complete_reply e.
Lemma fine_answer i w r g : told (Answer i r) -> fine g -> fine (answer w r g).
Proof.
  intros He Hg. destruct w as [k| |success|d|d], r as [qs ds|l s| |text]; cbn [answer]; try done.
  - by apply fine_refreshed.
  - destruct k; by apply (fine_same g).
  - apply fine_refresh. by apply fine_closed.
  - by apply (fine_same g).
  - by apply fine_refresh.
  - by apply (fine_same g).
  - by apply (fine_same g).
  - by apply (fine_same g).
  - by apply fine_review.
Qed.
(** The form is changed while it is open. *)
Lemma fine_form f g : fine g -> (complete (questions (form g)) -> complete (questions f)) -> fine (set_form f g).
Proof. intros [H1 H2 H3] Hf. split; [done| |done]. cbn. auto. Qed.
Lemma question_edit_kind e i patch q q' : question_edit e = Some (i, patch) -> patch q = Some q' -> answers_kind q -> answers_kind q'.
Proof.
  unfold answers_kind. destruct e; try done; intros E; apply (inj Some) in E; injection E as <- <-; intros Hp.
  - apply (inj Some) in Hp as <-. cbn. destruct k; by eexists.
  - by apply (inj Some) in Hp as <-.
  - by apply (inj Some) in Hp as <-.
  - destruct (_ && _); [|done]. by apply (inj Some) in Hp as <-.
  - destruct (bool_decide _); [|done]. by apply (inj Some) in Hp as <-.
  - destruct (bool_decide (q_kind q = SingleChoice)) eqn:Ek; [|done]. apply bool_decide_eq_true in Ek.
    destruct (_ || _); [|done]. apply (inj Some) in Hp as <-. cbn. rewrite Ek. intros _. by eexists.
  - destruct (bool_decide (q_kind q = TrueFalse)) eqn:Ek; [|done]. apply bool_decide_eq_true in Ek.
    apply (inj Some) in Hp as <-. cbn. rewrite Ek. intros _. by eexists.
Qed.
(** Moving a question up keeps the questions. *)
Lemma move_up_perm i l : move_up i l ≡ₚ l.
Proof.
  destruct i as [|b]; [done|]. cbn. destruct (l !! b) as [x|] eqn:Ex; [|done]. destruct (l !! S b) as [y|] eqn:Ey; [|done].
  revert l Ex Ey. induction b as [|b IH]; intros [|z l] Ex Ey; try done; cbn in *.
  - apply (inj Some) in Ex as ->. destruct l as [|z' l]; [done|]. cbn in *. apply (inj Some) in Ey as ->. apply Permutation_swap.
  - by rewrite IH.
Qed.
Lemma fine_editor_event e g g' : fine g -> editorOpen g = true -> editor_event e g = Some g' -> fine g'.
Proof.
  intros Hg Ho. pose proof Hg as [H1 H2 _]. unfold editor_event.
  destruct (question_edit e) as [[i patch]|] eqn:Ee.
  - assert (Hgo : match questions (form g) !! i with
      | Some q => match patch q with Some q' => Some (updateQuestion i (fun _ => q') g) | None => None end
      | None => None end = Some g' -> fine g').
    { destruct (questions (form g) !! i) as [q|] eqn:Eq; [|done]. destruct (patch q) as [q'|] eqn:Ep; [|done].
      intros E. apply (inj Some) in E as <-. apply fine_form; [done|]. cbn. intros [Hne Hf].
      split; [intros Ha; apply Hne, nil_length_inv; by apply (f_equal length) in Ha; rewrite length_alter in Ha|].
      apply Forall_alter; [done|]. intros x Hx Hax. rewrite Eq in Hx. apply (inj Some) in Hx as ->. by eapply question_edit_kind. }
    destruct e; try done; exact Hgo.
  - destruct e; try done; intros E; try (apply (inj Some) in E as <-; by apply (fine_same g));
      try (apply (inj Some) in E as <-; by apply fine_form).
    + apply (inj Some) in E as <-. by apply (fine_same (set_editorOpen false (set_editing None g))), fine_closed.
    + apply (inj Some) in E as <-. apply fine_form; [done|]. cbn. intros [Hne Hf]. split; [by destruct (questions (form g))|].
      apply Forall_app. split; [done|]. apply Forall_singleton. by exists [].
    + destruct (Nat.eqb_spec (length (questions (form g))) 1) as [|H1q]; [done|]. apply (inj Some) in E as <-. apply fine_form; [done|]. cbn.
      intros [Hne Hf]. split; [|by apply Forall_delete]. intros Hd. apply (f_equal length) in Hd. cbn in Hd.
      destruct (questions (form g)) as [|x [|y l]] eqn:Eq; [done|done|]. destruct i as [|[|i]]; done.
    + apply (inj Some) in E as <-. apply fine_form; [done|]. cbn. intros [Hne Hf]. split; [|by rewrite move_up_perm].
      intros Hm. apply Hne, Permutation_nil_r. by rewrite <- (move_up_perm i), Hm.
    + destruct (busy g || negb (form_valid (form g))) eqn:Ev; [done|]. apply orb_false_iff in Ev as [_ Ev%negb_false_iff].
      apply (inj Some) in E as <-. apply fine_await, fine_send; [|by apply (fine_same g)].
      apply form_valid_wf in Ev. cbn. destruct (editing g); cbn; auto.
Qed.
Lemma fine_edit q g : (given = true -> forall x, q = Some x -> complete (quiz_questions x)) -> fine g -> fine (edit q g).
Proof.
  intros Hq [H1 H2 H3]. split; [done| |done]. cbn. destruct q as [q|].
  - intros _ [|Hg]; [done|]. by apply (Hq Hg q).
  - intros _ _. split; [done|]. apply Forall_singleton. by exists [].
Qed.
Lemma fine_library e i f q g : library_action e = Some (i, f) -> quizzes g !! i = Some q -> fine g -> fine (f q g).
Proof.
  intros El Hq Hg. revert El.
  destruct e; try done; intros E; apply (inj Some) in E; injection E as <- <-; try (by apply fine_act).
  { apply fine_edit; [|done]. intros Hgv x [= <-]. pose proof (fi_quizzes _ Hg Hgv) as Hf. rewrite Forall_forall in Hf.
    apply Hf. by eapply list_elem_of_lookup_2. }
  destruct (published_version q) as [v|]; [|done]. destruct (v =? 0); [done|]. unfold assign.
  destruct (date_or_null _); [|by apply (fine_same g)]. destruct (date_or_null _); [by apply fine_act|by apply (fine_same g)].
Qed.
Lemma fine_handle e g g' : told e -> fine g -> handle e g = Some g' -> fine g'.
Proof.
  intros He Hg. unfold handle.
  assert (Hpage : match library_action e with
    | Some (i, f) => match quizzes g !! i with Some q => if busy g then None else Some (f q g) | None => None end
    | None => if editorOpen g then editor_event e g else None
    end = Some g' -> fine g').
  { destruct (library_action e) as [[i f]|] eqn:El.
    - destruct (quizzes g !! i) as [q|] eqn:Eq; [|done]. destruct (busy g); [done|]. intros E. apply (inj Some) in E as <-.
      by eapply fine_library.
    - destruct (editorOpen g) eqn:Eo; [by apply fine_editor_event|done]. }
  destruct e; try exact Hpage.
  - destruct (truthy _); [|done]. intros E. apply (inj Some) in E as <-. by apply fine_edit.
  - intros E. apply (inj Some) in E as <-. by apply (fine_same g).
  - destruct (deliveries g !! i); [|done]. destruct (busy g); [done|]. intros E. apply (inj Some) in E as <-. by apply fine_review.
  - destruct (review g) as [r|]; [|done]. cbn. destruct (results_released_at _); [done|]. intros E. apply (inj Some) in E as <-.
    by apply fine_await, fine_send.
  - destruct (review g) as [r|]; [|done]. cbn. destruct (attempts r !! i); [|done]. destruct (results_released_at _); [done|].
    intros E. apply (inj Some) in E as <-. by apply fine_await, fine_send.
  - destruct (review g) as [r|]; [|done]. cbn. destruct (attempts r !! i); [|done]. destruct (gradable _ _); [|done].
    intros E. apply (inj Some) in E as <-. unfold grade. destruct (is_finite _); [|done]. by apply fine_await, fine_send.
  - destruct (review g); [|done]. cbn. intros E. apply (inj Some) in E as <-. by apply (fine_same g).
  - destruct (waits g !! i) as [w|]; [|done]. destruct (fits w r); [|done]. intros E. apply (inj Some) in E as <-.
    apply (fine_answer i); [exact He|]. by apply (fine_same g).
Qed.
End fine.

(** C21. Every draft the editor saves has a title, a time limit of 1 to 180 whole
    minutes or none, and questions with a text, points within range and, for a
    single choice, an answer among the options, none of which is blank.  A new
    one has at least one question and answers of the kind of their questions;
    a changed one has them too, if the quizzes the Host lists do. *)
Theorem saved_quizzes_wellformed es (g : Manager) (a : Ask) : run es mount = Some g -> a ∈ requests g ->
  match a with
  | AskCreate i => wf_input i /\ in_questions i <> [] /\ Forall answers_kind (in_questions i)
  | AskUpdate _ i =>
    wf_input i /\ (Forall complete_reply es -> in_questions i <> [] /\ Forall answers_kind (in_questions i))
  | _ => True
  end.
Proof.
  intros Hr Ha.
  assert (Hf : forall given, Forall (told given) es -> request_ok given a).
  { intros given Hes. assert (Hm : fine given mount) by (apply fine_refresh; by split).
    pose proof (editor_keeps (told given) (fine given) (fine_handle given) es mount g Hes Hr Hm) as [Hq _ _].
    rewrite Forall_forall in Hq. by apply Hq. }
  assert (H0 : request_ok false a) by (apply Hf, Forall_true; intros e; by intros ?).
  destruct a; try done; split; [apply H0|]. intros Hes.
  apply (Hf true); [|done]. eapply Forall_impl; [exact Hes|]. by intros e He _.
Qed.

(** ** A quiz opened and saved *)

Lemma limit_reads_back z : 1 <= z <= 180 ->
  truthy (show_num (num z)) = true /\ number_of_string (show_num (num z)) = num z.
Proof. intros Hz. apply number_of_shown. lia. Qed.
(** Opening a quiz of the library and saving it at once sends it as the Host
    gave it, under its id. *)
Theorem opened_quiz_saved_as_it_was (g : Manager) (i : nat) (q : Quiz) :
  quizzes g !! i = Some q -> busy g = false -> quiz_title q <> [] ->
  (time_limit_minutes q = None \/ exists z, time_limit_minutes q = Some (num z) /\ 1 <= z <= 180) ->
  forallb question_valid (quiz_questions q) = true ->
  exists g', run [EditQuiz i; Save] g = Some g' /\
    requests g' = requests g ++ [AskUpdate (quiz_id q)
      (mkInput classroomId (quiz_title q) (quiz_instructions q) (time_limit_minutes q) (quiz_questions q))].
Proof.
  intros Hq Hb Ht Hl Hv.
  assert (Hlim : limit_valid (limit_text (form_of q)) = true /\ in_limit (input_of (form_of q)) = time_limit_minutes q).
  { unfold form_of, limit_valid, input_of. cbn. destruct Hl as [->|(z & -> & Hz)]; [done|].
    destruct (limit_reads_back z Hz) as [-> ->]. split; [|done]. cbn. destruct Hz as [H1 H2].
    assert (E : Qden (Qred ((inject_Z z - 1) / 1)%Q) = 1%positive).
    { replace (Qred ((inject_Z z - 1) / 1)%Q) with (inject_Z (z - 1)); [done|]. rewrite <- (Qred_Z (z - 1)). apply Qred_complete.
      unfold Z.sub. rewrite inject_Z_plus, inject_Z_opp. field. }
    rewrite E. rewrite andb_true_r. apply andb_true_intro. rewrite !Qle_bool_iff. change 1%Q with (inject_Z 1).
    change 180%Q with (inject_Z 180). by rewrite <- !Zle_Qle. }
  destruct Hlim as [Hlv Hli].
  assert (Hfv : form_valid (form_of q) = true).
  { unfold form_valid. rewrite Hlv. cbn. rewrite Hv. by destruct (quiz_title q). }
  exists (save (edit (Some q) g)). split.
  - cbn [run handle library_action]. rewrite Hq, Hb. cbn [run handle library_action]. unfold editor_event. cbn. by rewrite Hb, Hfv.
  - cbn. do 3 f_equal. unfold input_of in *. cbn in *. by rewrite Hli.
Qed.

(** ** What does not go as meant *)

(** Cancelling the first prompt marks the answer with 0 points: [null] is the
    number 0. *)
Theorem cancelled_prompt_grades_zero (g : Manager) (r : Review) (i : nat) (a : Attempt) (question : jstr) :
  review g = Some r -> attempts r !! i = Some a -> gradable a question = true ->
  exists g' f, handle (Grade i question None None) g = Some g' /\
    requests g' = requests g ++ [AskGrade (attempt_id a) question (num 0) f].
Proof.
  intros Er Ea Eg. unfold handle. rewrite Er. unfold review_event. rewrite Ea, Eg.
  eexists _, _. split; [reflexivity|]. reflexivity.
Qed.
(** After the results were released the page still shows the delivery as it was
    before, and offers to release it again. *)
Theorem release_not_shown (g : Manager) (r : Review) (l : list Attempt) (s : jsval) :
  waits g = [] -> review g = Some r -> results_released_at (delivery r) = None ->
  exists g', run [Release; Answer 0 ReplyDone; Answer 0 (ReplyReview l s)] g = Some g' /\
    review g' = Some (mkReview (delivery r) l s) /\ deliveries g' = deliveries g /\ is_Some (handle Release g').
Proof.
  intros Hw Hr Hn. eexists. split; [|split; [|split]].
  - unfold run, handle, review_event. rewrite Hr, Hn. cbn. rewrite Hw. reflexivity.
  - reflexivity.
  - reflexivity.
  - unfold handle, review_event. cbn. rewrite Hn. by eexists.
Qed.

End manager.

(** ** Runs *)

Module QuizManagerRuns.

Definition no_date (value : jstr) : option jstr := None.
Definition room : jstr := js "room".
Definition fact : QuizQuestionInput := mkQuestion (Some (js "x")) TrueFalse (js "Light is a wave") [] (VBool true) (num 2) true.
Definition waves : Quiz := mkQuiz (js "z1") (js "Waves") [] (Some (num 20)) (Some 1) [fact].
Definition given : Delivery := mkDelivery (js "d1") None.
Definition listed : list Event := [Answer 0 (ReplyLists [waves] [given])].
Definition after (es : list Event) : Manager := default (mount room) (run room no_date es (mount room)).
Lemma quiz_reached es : is_Some (run room no_date es (mount room)) -> run room no_date es (mount room) = Some (after es).
Proof. intros [g E]. unfold after. by rewrite E. Qed.

Definition write : list Event :=
  listed ++ [NewQuiz; TypeTitle (js "Sound"); TypeLimit (js "15"); TypePrompt 0 (js "Faster in?"); TypeOption 0 0 (js "air");
             TypeOption 0 1 (js "water"); ChooseAnswer 0 (js "water"); TypePoints 0 (js "1.5"); Save].
Definition written : Input :=
  mkInput room (js "Sound") [] (Some (num 15))
    [mkQuestion None SingleChoice (js "Faster in?") [js "air"; js "water"] (VStr (js "water")) (Fin (3#2)) true].
Definition reopened : list Event := listed ++ [EditQuiz 0; AddQuestion; RemoveQuestion 1; Save].
Lemma saved_quizzes_wellformed_witness :
  (requests (after write) = [AskLists; AskCreate written] /\ wf_input written /\
   in_questions written <> [] /\ Forall answers_kind (in_questions written)) /\
  (last (requests (after reopened)) = Some (AskUpdate (js "z1") (mkInput room (js "Waves") [] (Some (num 20)) [fact])) /\
   Forall answers_kind [fact]).
Proof.
  split.
  - assert (Hr : run room no_date write (mount room) = Some (after write)) by (apply quiz_reached; vm_compute; by eexists).
    assert (E : requests (after write) = [AskLists; AskCreate written]) by (vm_compute; reflexivity).
    split; [exact E|]. refine (saved_quizzes_wellformed room no_date write (after write) (AskCreate written) Hr _).
    rewrite E. right. left.
  - assert (Hr : run room no_date reopened (mount room) = Some (after reopened)) by (apply quiz_reached; vm_compute; by eexists).
    assert (E : requests (after reopened) = [AskLists; AskUpdate (js "z1") (mkInput room (js "Waves") [] (Some (num 20)) [fact])])
      by (vm_compute; reflexivity).
    split; [by rewrite E|].
    refine (proj2 (proj2 (saved_quizzes_wellformed room no_date reopened (after reopened) (AskUpdate (js "z1") (mkInput room (js "Waves") [] (Some (num 20)) [fact])) Hr _) _)).
    + rewrite E. right. left.
    + repeat constructor; [done|]. by eexists.
Defined.
Lemma opened_quiz_saved_as_it_was_witness :
  exists g', run room no_date [EditQuiz 0; Save] (after listed) = Some g' /\
    requests g' = requests (after listed) ++ [AskUpdate (js "z1") (mkInput room (js "Waves") [] (Some (num 20)) [fact])].
Proof.
  apply (opened_quiz_saved_as_it_was room no_date (after listed) 0 waves); try (vm_compute; reflexivity).
  - discriminate.
  - right. exists 20. split; [reflexivity|lia].
Defined.
Definition marked : Attempt :=
  mkAttempt (js "t1") (Some (js "now")) [(js "x", ShortAnswer)] [mkResponse (js "x") (VStr (js "because")) (Some (num 2)) (js "good")].
Definition reviewing : list Event := listed ++ [ReviewDelivery 0; Answer 0 (ReplyReview [marked] VNull)].
Lemma cancelled_prompt_grades_zero_witness :
  exists g' f, handle room no_date (Grade 0 (js "x") None None) (after reviewing) = Some g' /\
    requests g' = requests (after reviewing) ++ [AskGrade (js "t1") (js "x") (num 0) f].
Proof.
  apply (cancelled_prompt_grades_zero room no_date (after reviewing) (mkReview given [marked] VNull) 0 marked); vm_compute; reflexivity.
Defined.
Lemma release_not_shown_witness :
  exists g', run room no_date [Release; Answer 0 ReplyDone; Answer 0 (ReplyReview [marked] VNull)] (after reviewing) = Some g' /\
    review g' = Some (mkReview given [marked] VNull) /\ deliveries g' = deliveries (after reviewing) /\
    is_Some (handle room no_date Release g').
Proof.
  apply (release_not_shown room no_date (after reviewing) (mkReview given [marked] VNull) [marked] VNull); vm_compute; reflexivity.
Defined.
(** A new quiz can be begun while another is being saved; when that save
    succeeds the editor is closed over it. *)
Theorem save_closes_new_quiz :
  editorOpen (after (write ++ [NewQuiz; TypeTitle (js "Light")])) = true /\
  editorOpen (after (write ++ [NewQuiz; TypeTitle (js "Light"); Answer 0 ReplyDone])) = false.
Proof. split; vm_compute; reflexivity. Qed.

End QuizManagerRuns.
