(* ===== verification/Workspace.v ===== *)
(** * The student's workspace ([apps/forge/src/forgeData.ts])

    Notes, files and activity are the objects they are in storage (JSON
    values), since the code keeps every property it read.  An operation that
    stamps its record takes the identifier and the time it would make.
    [localStorage] is a finite map; an operation on it takes whether writing
    works. *)

From stdpp Require Import gmap.
From S2P Require Import Prelude JsString JsNumber JsValue Locale.
Local Open Scope Z_scope.

Inductive WidgetId := WTimer | WLibrary | WStudio | WActivity.
#[export] Instance WidgetId_eq : EqDecision WidgetId. Proof. solve_decision. Defined.
Definition widget_name (w : WidgetId) : jstr :=
  match w with
  | WTimer => js "timer" | WLibrary => js "library" | WStudio => js "studio" | WActivity => js "activity"
  end.
Definition ALL_WIDGETS : list WidgetId := [WTimer; WLibrary; WStudio; WActivity].
Definition widget_of (v : jsval) : option WidgetId :=
  match v with
  | VStr s => find (fun w => seqb (widget_name w) s) ALL_WIDGETS
  | _ => None
  end.

Record ForgeData := mkForgeData {
  profileName : jstr;
  notes : list jsval;
  studioNotes : list jsval;
  files : list jsval;
  activity : list jsval;
  widgets : list WidgetId;
  notesMigratedAt : jsval
}.
Definition EMPTY_DATA : ForgeData := mkForgeData [] [] [] [] [] ALL_WIDGETS VUndef.

Definition LEGACY_STORAGE_KEY : jstr := js "cinder.forge.workspace.v1".
Definition MIGRATION_OWNER_KEY : jstr := js "cinder.matchbox.workspace.migration-owner".
Definition documentKeyPrefix (accountId : jstr) : jstr := js "cinder.matchbox." ++ accountId ++ js ".document.".
Definition workspaceStorageKey (accountId : jstr) : jstr := js "cinder.matchbox." ++ accountId ++ js ".workspace.v1".

(** ** Legacy notes *)

Definition replace_each (c : N) (w : jstr) (s : jstr) : jstr := flat_map (fun x => if (x =? c)%N then w else [x]) s.
Fixpoint normalize_newlines (s : jstr) : jstr :=
  match s with
  | [] => []
  | c :: s' =>
    if (c =? 13)%N
    then c_nl :: match s' with d :: s'' => if (d =? 10)%N then normalize_newlines s'' else normalize_newlines s' | [] => [] end
    else c :: normalize_newlines s'
  end.
Definition textToHtml (text : jstr) : jstr :=
  let escaped := replace_each 62 (js "&gt;") (replace_each 60 (js "&lt;") (replace_each 38 (js "&amp;") text)) in
  join [] ((fun line => js "<p>" ++ or_str line (js "<br>") ++ js "</p>") <$> split c_nl (normalize_newlines escaped)).

Definition id_of (v : jsval) : option jstr := as_string (get (js "id") v).
Definition text_at (k : jstr) (v : jsval) : jstr := default [] (as_string (get k v)).

Fixpoint not_yet (existing : list jstr) (ns : list jsval) : list jsval :=
  match ns with
  | [] => []
  | n :: ns' =>
    match id_of n with
    | Some i => if existsb (seqb i) existing then not_yet existing ns' else n :: not_yet (i :: existing) ns'
    | None => not_yet existing ns'
    end
  end.
Definition convert_note (n : jsval) : jsval :=
  VObj [(js "id", get (js "id") n);
        (js "title", VStr (or_str (text_at (js "title") n) (js "Untitled note")));
        (js "topic", VStr (text_at (js "topic") n));
        (js "bodyHtml", VStr (textToHtml (text_at (js "body") n)));
        (js "createdAt", get (js "createdAt") n);
        (js "updatedAt", get (js "createdAt") n)].

Section dates.
Context `{Dates}.
Definition updated (v : jsval) : option Z :=
  match get (js "updatedAt") v with VStr s => date_parse s | _ => None end.
Definition newest_first (l r : jsval) : Z :=
  match updated r, updated l with Some b, Some a => b - a | _, _ => 0 end.
Definition migrateNotes (ns docs : list jsval) : list jsval :=
  sort_js newest_first (docs ++ (convert_note <$> not_yet (filter_map id_of docs) ns)).

(** ** Reading and writing *)

Definition msg_unreadable : jstr :=
  js "Saved workspace could not be read. The original data has been preserved; changes will not overwrite it. Export any new writing before closing Cinder Student.".

Definition required : list (jstr * list jstr) :=
  [(js "notes", [js "id"; js "title"; js "body"; js "topic"; js "createdAt"]);
   (js "studioNotes", [js "id"; js "title"; js "bodyHtml"; js "topic"; js "createdAt"; js "updatedAt"]);
   (js "files", [js "id"; js "name"; js "addedAt"])].
Definition records_ok (fields : list jstr) (v : jsval) : bool :=
  match v with
  | VUndef => true
  | VArr items => forallb (fun item => truthy_val item && forallb (fun f => is_string (get f item)) fields) items
  | _ => false
  end.
Definition items_at (k : jstr) (v : jsval) : list jsval := match get k v with VArr xs => xs | _ => [] end.

(** [filter((widget, index) => ... && indexOf(widget) === index)]. *)
Fixpoint first_widgets (seen : list WidgetId) (vs : list jsval) : list WidgetId :=
  match vs with
  | [] => []
  | v :: vs' =>
    match widget_of v with
    | Some w => if bool_decide (w ∈ seen) then first_widgets seen vs' else w :: first_widgets (w :: seen) vs'
    | None => first_widgets seen vs'
    end
  end.
Definition rename_focus (v : jsval) : jsval :=
  match v with VStr s => if seqb s (js "focus") then VStr (js "timer") else v | _ => v end.

Definition supported (parsed : jsval) : bool :=
  is_record parsed &&
  match get (js "version") parsed with VUndef => true | VNum n => num_eq n (num 1) | _ => false end.

Definition decodeWorkspace (now : jstr) (raw : option jstr) : outcome jstr ForgeData :=
  match raw with
  | None | Some [] => Ok EMPTY_DATA
  | Some text =>
    match parse_json text with
    | None => Throw msg_unreadable
    | Some parsed =>
      if negb (supported parsed) || negb (forallb (fun f => records_ok (snd f) (get (fst f) parsed)) required)
      then Throw msg_unreadable
      else
        let ws := match get (js "widgets") parsed with
                  | VArr vs => first_widgets [] (rename_focus <$> vs)
                  | _ => ALL_WIDGETS
                  end in
        let ns := items_at (js "notes") parsed in
        let stored := items_at (js "studioNotes") parsed in
        let migrated := get (js "notesMigratedAt") parsed in
        let pending := negb (Nat.eqb (length ns) 0) && negb (truthy_val migrated) in
        Ok (mkForgeData
              (text_at (js "profileName") parsed) ns
              (if pending then migrateNotes ns stored else stored)
              (items_at (js "files") parsed) (items_at (js "activity") parsed)
              (match ws with [] => ALL_WIDGETS | _ => ws end)
              (if truthy_val migrated then migrated else if pending then VStr now else VUndef))
    end
  end.
End dates.

Definition workspace_json (d : ForgeData) : jsval :=
  VObj [(js "version", VNum (num 1)); (js "profileName", VStr (profileName d)); (js "notes", VArr (notes d));
        (js "studioNotes", VArr (studioNotes d)); (js "files", VArr (files d)); (js "activity", VArr (activity d));
        (js "widgets", VArr ((fun w => VStr (widget_name w)) <$> widgets d)); (js "notesMigratedAt", notesMigratedAt d)].

(** [initialWorkspace]: what is read, and the storage after it.  [works] says
    of each of its two writes whether the engine accepts it; [full] is the
    message of the exception when it does not. *)
Definition initialWorkspace `{Dates} (now full : jstr) (works : bool * bool) (accountId name : jstr)
    (m : gmap jstr jstr) : outcome jstr ForgeData * gmap jstr jstr :=
  let scopedKey := workspaceStorageKey accountId in
  let finish raw :=
    match decodeWorkspace now raw with
    | Ok d => Ok (if truthy (profileName d) || negb (truthy name) then d
                  else mkForgeData name (notes d) (studioNotes d) (files d) (activity d) (widgets d)
                         (notesMigratedAt d))
    | Throw e => Throw e
    end in
  let raw := m !! scopedKey in
  if truthy (default [] raw) then (finish raw, m)
  else
    let owner := default [] (m !! MIGRATION_OWNER_KEY) in
    match m !! LEGACY_STORAGE_KEY with
    | Some ((_ :: _) as legacy) =>
      if negb (truthy owner) || seqb owner accountId
      then
        if negb (fst works) then (Throw full, m)
        else
          let m := <[MIGRATION_OWNER_KEY := accountId]> m in
          if negb (snd works) then (Throw full, m)
          else (finish (Some legacy), <[scopedKey := legacy]> m)
      else (finish raw, m)
    | _ => (finish raw, m)
    end.

(** ** The operations of [useForgeData] *)

Definition activity_item (id now label detail : jstr) : jsval :=
  VObj [(js "id", VStr id); (js "label", VStr label); (js "detail", VStr detail); (js "createdAt", VStr now)].
Definition logged (item : jsval) (l : list jsval) : list jsval := take 100 (item :: l).
Definition quoted_name (verb name : jstr) : jstr := verb ++ js " “" ++ name ++ js "”".
Definition with_props (ps : list (jstr * jsval)) (v : jsval) : jsval :=
  match v with
  | VObj old => VObj (fold_left (fun o p => set_prop (fst p) (snd p) o) ps old)
  | _ => VObj ps
  end.
Definition has_id (i : jstr) (v : jsval) : bool := match id_of v with Some j => seqb j i | None => false end.
Definition change_note (i : jstr) (ps : list (jstr * jsval)) (d : ForgeData) : ForgeData :=
  mkForgeData (profileName d) (notes d)
    ((fun n => if has_id i n then with_props ps n else n) <$> studioNotes d)
    (files d) (activity d) (widgets d) (notesMigratedAt d).

Definition setProfileName (id now name : jstr) (d : ForgeData) : ForgeData :=
  let clean := take 80 (trim name) in
  mkForgeData clean (notes d) (studioNotes d) (files d)
    (if truthy clean && negb (seqb clean (profileName d))
     then logged (activity_item id now (js "Profile updated") (js "Name saved on this device")) (activity d)
     else activity d)
    (widgets d) (notesMigratedAt d).
Definition addReferenceFile (act now id name : jstr) (size : Z) (d : ForgeData) : ForgeData :=
  let clean := take 160 (trim name) in
  let file := VObj [(js "id", VStr id); (js "name", VStr clean); (js "size", VNum (num size)); (js "addedAt", VStr now)] in
  mkForgeData (profileName d) (notes d) (studioNotes d) (file :: files d)
    (logged (activity_item act now (quoted_name (js "Added") clean) (js "Reference file")) (activity d))
    (widgets d) (notesMigratedAt d).
Definition removeReferenceFile (id : jstr) (d : ForgeData) : ForgeData :=
  mkForgeData (profileName d) (notes d) (studioNotes d) (List.filter (fun f => negb (has_id id f)) (files d))
    (activity d) (widgets d) (notesMigratedAt d).
Definition addStudioNote (id act now title topic bodyHtml : jstr) (d : ForgeData) : ForgeData :=
  let title := or_str (trim title) (js "Untitled note") in
  let note := VObj [(js "id", VStr id); (js "title", VStr title); (js "topic", VStr (trim topic));
                    (js "bodyHtml", VStr bodyHtml); (js "createdAt", VStr now); (js "updatedAt", VStr now)] in
  mkForgeData (profileName d) (notes d) (note :: studioNotes d) (files d)
    (logged (activity_item act now (quoted_name (js "Started") title) (js "Studio note")) (activity d))
    (widgets d) (notesMigratedAt d).
Definition updateStudioNote (id now title topic bodyHtml : jstr) (d : ForgeData) : ForgeData :=
  change_note id [(js "title", VStr (or_str (trim title) (js "Untitled note"))); (js "topic", VStr (trim topic));
                  (js "bodyHtml", VStr bodyHtml); (js "updatedAt", VStr now)] d.
Definition removeStudioNote (id now : jstr) (d : ForgeData) : ForgeData :=
  change_note id [(js "deletedAt", VStr now)] d.
Definition restoreStudioNote (id : jstr) (d : ForgeData) : ForgeData :=
  change_note id [(js "deletedAt", VUndef)] d.
Fixpoint unique (seen ws : list WidgetId) : list WidgetId :=
  match ws with
  | [] => []
  | w :: ws' => if bool_decide (w ∈ seen) then unique seen ws' else w :: unique (w :: seen) ws'
  end.
Definition setWidgets (ws : list WidgetId) (d : ForgeData) : ForgeData :=
  mkForgeData (profileName d) (notes d) (studioNotes d) (files d) (activity d)
    (match unique [] ws with [] => [WTimer] | l => l end) (notesMigratedAt d).

(** The hook: its state, and the storage it writes to.  [opens] and [works]
    say whether the engine lets the storage be listed and written. *)
Record Workspace := mkWorkspace { data : ForgeData; readError : jstr; saveError : jstr; storage : gmap jstr jstr }.
Definition msg_not_saved : jstr :=
  js "Changes could not be saved on this device. Export your open document before closing Cinder Student.".
Definition msg_not_all_cleared : jstr := js "Workspace could not be cleared. Some saved data remains on this device.".
Definition msg_not_cleared : jstr := js "Workspace could not be cleared. Saved data remains on this device.".

Definition useForgeData `{Dates} (now full : jstr) (works : bool * bool) (accountId name : jstr)
    (m : gmap jstr jstr) : Workspace :=
  match initialWorkspace now full works accountId name m with
  | (Ok d, m) => mkWorkspace d [] [] m
  | (Throw e, m) => mkWorkspace EMPTY_DATA e [] m
  end.
(** The effect that saves after every change. *)
Definition save_effect (accountId : jstr) (works : bool) (w : Workspace) : Workspace :=
  if truthy (readError w) then mkWorkspace (data w) (readError w) (readError w) (storage w)
  else if works
  then mkWorkspace (data w) (readError w) []
         (<[workspaceStorageKey accountId := stringify (workspace_json (data w))]> (storage w))
  else mkWorkspace (data w) (readError w) msg_not_saved (storage w).
Definition resetWorkspace (accountId : jstr) (opens works : bool) (w : Workspace) : bool * Workspace :=
  if negb opens then (false, mkWorkspace (data w) (readError w) msg_not_all_cleared (storage w))
  else
    let kept := filter (fun p => negb (starts_with (documentKeyPrefix accountId) (fst p)) = true) (storage w) in
    if works
    then (true, mkWorkspace EMPTY_DATA [] (saveError w)
                  (<[workspaceStorageKey accountId := stringify (workspace_json EMPTY_DATA)]> kept))
    else (false, mkWorkspace (data w) (readError w) msg_not_cleared kept).

Definition relativeTime `{Dates} (now : Z) (iso : jstr) : jstr :=
  match date_parse iso with
  | None => js "NaNd ago"
  | Some t =>
    let minutes := Z.max 0 (now - t) / 60000 in
    if minutes <? 1 then js "Just now"
    else if minutes <? 60 then show_Z minutes ++ js "m ago"
    else
      let hours := minutes / 60 in
      if hours <? 24 then show_Z hours ++ js "h ago"
      else if hours / 24 =? 1 then js "Yesterday" else show_Z (hours / 24) ++ js "d ago"
  end.

(** ** Properties *)

Module WorkspaceFacts.

(** *** Records, with what the writer leaves out *)

(** A property set to [undefined] is not written. *)
Definition settle_record (v : jsval) : jsval :=
  match v with VObj ps => VObj (List.filter (fun p => negb (is_undef (snd p))) ps) | _ => v end.
Definition settled (d : ForgeData) : ForgeData :=
  mkForgeData (profileName d) (notes d) (settle_record <$> studioNotes d) (files d) (activity d) (widgets d) (notesMigratedAt d).

Definition has_strings (fields : list jstr) (v : jsval) : bool :=
  truthy_val v && forallb (fun f => is_string (get f v)) fields.
Definition member_ok (v : jsval) : Prop := v = VUndef \/ json_ok v.
Definition record_ok (fields : list jstr) (v : jsval) : Prop :=
  exists ps, v = VObj ps /\ NoDup ps.*1 /\ Forall (fun p => member_ok (snd p)) ps /\ has_strings fields v = true.

Definition note_fields : list jstr := [js "id"; js "title"; js "body"; js "topic"; js "createdAt"].
Definition doc_fields : list jstr := [js "id"; js "title"; js "bodyHtml"; js "topic"; js "createdAt"; js "updatedAt"].
Definition file_fields : list jstr := [js "id"; js "name"; js "addedAt"].

Lemma assoc_settle k ps : NoDup ps.*1 -> get k (settle_record (VObj ps)) = get k (VObj ps).
Proof.
  cbn [settle_record get]. induction ps as [|[j v] ps IH]; [done|]. csimpl. intros [Hj Hnd]%NoDup_cons.
  destruct (is_undef v) eqn:E; cbn [negb].
  - destruct v; try done. rewrite (IH Hnd). destruct (seqb j k) eqn:Ek; [|done].
    apply seqb_eq in Ek as ->. destruct (assoc k ps) as [v|] eqn:Ea; [|done].
    apply assoc_elem in Ea. destruct Hj. apply list_elem_of_fmap. by exists (k, v).
  - cbn [assoc]. destruct (seqb j k); [done|]. exact (IH Hnd).
Qed.

Lemma settle_ok fields v : record_ok fields v -> json_ok (settle_record v) /\ has_strings fields (settle_record v) = true.
Proof.
  intros (ps & -> & Hnd & Hok & Hf). split.
  - constructor.
    + clear Hok Hf. induction ps as [|[j v] ps IH]; [constructor|]. csimpl in *. apply NoDup_cons in Hnd as [Hj Hnd].
      cbn [List.filter]. destruct (negb _); [|by apply IH]. csimpl. constructor; [|by apply IH].
      intros (q & -> & [Hq _]%list_elem_of_In%filter_In)%list_elem_of_fmap. apply Hj, list_elem_of_fmap.
      exists q. by rewrite <- list_elem_of_In in Hq.
    + apply Forall_forall. intros p [Hp Hu]%list_elem_of_In%filter_In. rewrite <- list_elem_of_In in Hp.
      rewrite Forall_forall in Hok. destruct (Hok p Hp) as [E|]; [|done]. by rewrite E in Hu.
  - unfold has_strings in *. cbn [truthy_val settle_record andb] in *. apply forallb_Forall. apply forallb_Forall in Hf.
    eapply Forall_impl; [exact Hf|]. intros f Hs. cbn beta in *. by rewrite <- Hs, <- (assoc_settle f ps Hnd).
Qed.

(** *** What is written *)

Lemma stringify_members ps : stringify (VObj ps) = stringify (settle_record (VObj ps)).
Proof.
  cbn [stringify settle_record]. do 2 f_equal. f_equal. induction ps as [|[k v] ps IH]; [done|].
  cbn [filter_map List.filter fst snd]. destruct (is_undef v) eqn:E; cbn [negb]; [exact IH|].
  cbn [filter_map fst snd]. rewrite E. by rewrite IH.
Qed.
Lemma stringify_settle v : stringify (settle_record v) = stringify v.
Proof. destruct v; try done. by rewrite <- stringify_members. Qed.
Lemma stringify_docs xs : stringify (VArr (settle_record <$> xs)) = stringify (VArr xs).
Proof.
  cbn [stringify]. do 3 f_equal. rewrite <- list_fmap_compose. apply list_fmap_ext.
  intros. apply stringify_settle.
Qed.

Definition saved_members (d : ForgeData) : list (jstr * jsval) :=
  [(js "version", VNum (num 1)); (js "profileName", VStr (profileName d)); (js "notes", VArr (notes d));
   (js "studioNotes", VArr (studioNotes d)); (js "files", VArr (files d)); (js "activity", VArr (activity d));
   (js "widgets", VArr ((fun w => VStr (widget_name w)) <$> widgets d))] ++
  (if is_undef (notesMigratedAt d) then [] else [(js "notesMigratedAt", notesMigratedAt d)]).

Lemma stringify_obj_ext ps qs :
  Forall2 (fun p q => fst p = fst q /\ is_undef (snd p) = is_undef (snd q) /\ stringify (snd p) = stringify (snd q)) ps qs ->
  stringify (VObj ps) = stringify (VObj qs).
Proof.
  intros H. cbn [stringify]. do 3 f_equal. induction H as [|p q ps qs (E1 & E2 & E3) _ IH]; [done|].
  cbn [filter_map]. rewrite E1, E2, E3. by rewrite IH.
Qed.

Lemma saved_text d : stringify (workspace_json d) = stringify (VObj (saved_members (settled d))).
Proof.
  transitivity (stringify (workspace_json (settled d))).
  - apply stringify_obj_ext. repeat (apply Forall2_cons_2; [split; [reflexivity|split; [reflexivity|try reflexivity; symmetry; apply stringify_docs]]|]).
    constructor.
  - unfold workspace_json. rewrite stringify_members. unfold saved_members. cbn [settle_record List.filter snd is_undef negb].
    by destruct (is_undef (notesMigratedAt (settled d))).
Qed.

(** *** Workspaces that survive a reload *)

Record sound (d : ForgeData) : Prop := {
  so_notes : Forall json_ok (notes d) /\ forallb (has_strings note_fields) (notes d) = true;
  so_docs : Forall (record_ok doc_fields) (studioNotes d);
  so_files : Forall json_ok (files d) /\ forallb (has_strings file_fields) (files d) = true;
  so_activity : Forall json_ok (activity d);
  so_widgets : NoDup (widgets d) /\ widgets d <> [];
  so_migrated : (notes d = [] /\ notesMigratedAt d = VUndef) \/
                (truthy_val (notesMigratedAt d) = true /\ json_ok (notesMigratedAt d))
}.

Lemma widget_of_name w : widget_of (VStr (widget_name w)) = Some w.
Proof. destruct w; vm_compute; reflexivity. Qed.
Lemma rename_name w : rename_focus (VStr (widget_name w)) = VStr (widget_name w).
Proof. destruct w; vm_compute; reflexivity. Qed.
Lemma first_widgets_names ws seen : NoDup ws -> (forall w, w ∈ ws -> ~ w ∈ seen) ->
  first_widgets seen (rename_focus <$> ((fun w => VStr (widget_name w)) <$> ws)) = ws.
Proof.
  revert seen. induction ws as [|w ws IH]; intros seen Hnd Hs; [done|].
  apply NoDup_cons in Hnd as [Hw Hnd]. cbn [fmap list_fmap first_widgets].
  rewrite rename_name, widget_of_name, bool_decide_eq_false_2 by (apply Hs; by left).
  f_equal. apply IH; [done|]. intros x Hx [->|Hin]%elem_of_cons; [done|]. by apply (Hs x); [right|].
Qed.
Lemma first_widgets_NoDup vs seen : NoDup (first_widgets seen vs) /\ forall w, w ∈ first_widgets seen vs -> ~ w ∈ seen.
Proof.
  revert seen. induction vs as [|v vs IH]; intros seen; cbn [first_widgets];
    [split; [constructor|by intros w ?%elem_of_nil]|].
  destruct (widget_of v) as [w|]; [|apply IH]. case_bool_decide as Hw; [apply IH|].
  destruct (IH (w :: seen)) as [Hnd Hs]. split.
  - constructor; [|done]. intros Hin. apply (Hs w Hin). by left.
  - intros x [->|Hx]%elem_of_cons; [done|]. intros Hin. apply (Hs x Hx). by right.
Qed.

Lemma saved_ok d : sound d -> json_ok (VObj (saved_members (settled d))).
Proof.
  intros [[Hn _] Hd [Hf _] Ha _ Hm]. constructor.
  - unfold saved_members. rewrite fmap_app.
    destruct (is_undef _); cbn; (apply (bool_decide_unpack _); vm_compute; exact I).
  - unfold saved_members. apply Forall_app. split.
    + assert (json_ok (VArr (studioNotes (settled d)))).
      { constructor. apply Forall_fmap. eapply Forall_impl; [exact Hd|]. intros v Hv. exact (proj1 (settle_ok _ _ Hv)). }
      assert (json_ok (VArr ((fun w => VStr (widget_name w)) <$> widgets (settled d)))).
      { constructor. apply Forall_fmap, Forall_true. intros w. constructor. }
      repeat (apply Forall_cons; split; [cbn [snd]; first [assumption|constructor; lia|by constructor]|]). constructor.
    + change (notesMigratedAt (settled d)) with (notesMigratedAt d).
      destruct Hm as [[_ ->]|[_ Hm]]; cbn; [constructor|].
      destruct (is_undef _); repeat constructor. exact Hm.
Qed.

(** Reading one member of what was written. *)
Lemma saved_get d :
  let v := VObj (saved_members d) in
  get (js "version") v = VNum (num 1) /\ get (js "profileName") v = VStr (profileName d) /\
  get (js "notes") v = VArr (notes d) /\ get (js "studioNotes") v = VArr (studioNotes d) /\
  get (js "files") v = VArr (files d) /\ get (js "activity") v = VArr (activity d) /\
  get (js "widgets") v = VArr ((fun w => VStr (widget_name w)) <$> widgets d) /\
  get (js "notesMigratedAt") v = notesMigratedAt d.
Proof.
  intros v. subst v. split_and!; try (vm_compute; reflexivity).
  unfold saved_members. destruct (notesMigratedAt d); vm_compute; reflexivity.
Qed.

Lemma records_ok_arr fields xs : records_ok fields (VArr xs) = forallb (has_strings fields) xs.
Proof. done. Qed.

Lemma decode_saved `{Dates} now d : sound d ->
  decodeWorkspace now (Some (stringify (workspace_json d))) = Ok (settled d).
Proof.
  intros Hd. rewrite saved_text. unfold decodeWorkspace.
  pose proof (parse_stringify _ (saved_ok d Hd)) as Hp. set (v := VObj (saved_members (settled d))) in *.
  destruct (saved_get (settled d)) as (G1 & G2 & G3 & G4 & G5 & G6 & G7 & G8). fold v in G1, G2, G3, G4, G5, G6, G7, G8.
  destruct (stringify v) as [|c s] eqn:Es; [by cbn in Hp|]. rewrite Hp.
  assert (Hs : supported v = true) by (unfold supported; rewrite G1; vm_compute; reflexivity).
  destruct Hd as [[_ Hn] Hdocs [_ Hf] _ [Hw Hw'] Hm].
  assert (Hr : forallb (fun f => records_ok (snd f) (get (fst f) v)) required = true).
  { unfold required. cbn [forallb fst snd]. rewrite G3, G4, G5, !records_ok_arr, !andb_true_iff. cbn [settled notes studioNotes files].
    split_and!; [done| |done|done]. apply forallb_Forall, Forall_fmap.
    eapply Forall_impl; [exact Hdocs|]. intros x Hx. exact (proj2 (settle_ok _ _ Hx)). }
  rewrite Hs, Hr. cbn [negb orb]. unfold items_at, text_at. rewrite G2, G3, G4, G5, G6, G7, G8.
  cbn [settled notes studioNotes files activity widgets notesMigratedAt profileName as_string default].
  rewrite first_widgets_names by (done || (intros ?? ?%elem_of_nil; done)).
  destruct (widgets d) as [|w ws] eqn:Ew; [done|].
  destruct Hm as [[E1 E2]|[-> _]].
  - rewrite E1, E2. unfold settled. by rewrite Ew, E1, E2.
  - rewrite andb_false_r. unfold settled. by rewrite Ew.
Qed.

(** *** The operations *)

(** What a change sets: any value for a property of its own, a string for one
    the loader requires. *)
Definition change_ok (p : jstr * jsval) : Prop :=
  member_ok (snd p) /\ (fst p ∈ doc_fields -> is_string (snd p) = true).

Lemma set_record_ok k x ps :
  change_ok (k, x) -> record_ok doc_fields (VObj ps) -> record_ok doc_fields (VObj (set_prop k x ps)).
Proof.
  intros [Hx Hk] (qs & [= <-] & Hnd & Hok & Hs). exists (set_prop k x ps). split_and!; [done| | |].
  - by apply set_prop_NoDup.
  - apply Forall_forall. intros q [->|Hq]%elem_of_set_prop; [done|]. rewrite Forall_forall in Hok. by apply Hok.
  - unfold has_strings in *. cbn [truthy_val andb] in *. apply forallb_Forall, Forall_forall.
    rewrite forallb_Forall, Forall_forall in Hs. intros f Hf. cbn [get]. rewrite assoc_set_prop.
    case_decide as E; [subst; by apply Hk|]. exact (Hs f Hf).
Qed.
Lemma with_props_ok cs v : Forall change_ok cs -> record_ok doc_fields v -> record_ok doc_fields (with_props cs v).
Proof.
  intros Hcs (ps & -> & Hv). assert (Hr : record_ok doc_fields (VObj ps)) by (by exists ps).
  clear Hv. cbn [with_props]. revert ps Hr. induction Hcs as [|[k x] cs Hc _ IH]; intros ps Hr; [done|].
  cbn [fold_left fst snd]. by apply IH, set_record_ok.
Qed.
Lemma change_note_ok i cs d : Forall change_ok cs -> sound d -> sound (change_note i cs d).
Proof.
  intros Hcs [Hn Hd Hf Ha Hw Hm]. split; try done. cbn [change_note studioNotes]. apply Forall_fmap.
  eapply Forall_impl; [exact Hd|]. intros v Hv. cbn. destruct (has_id i v); [by apply with_props_ok|done].
Qed.
Lemma set_string_ok k s : change_ok (k, VStr s).
Proof. split; [right; constructor|done]. Qed.
Lemma own_property_ok k x : bool_decide (k ∈ doc_fields) = false -> member_ok x -> change_ok (k, x).
Proof. intros Hk%bool_decide_eq_false Hx. by split. Qed.

Lemma logged_ok id now label detail l :
  Forall json_ok l -> Forall json_ok (logged (activity_item id now label detail) l).
Proof.
  intros Hl. apply Forall_take. constructor; [|done]. constructor.
  - apply (bool_decide_unpack _); vm_compute; exact I.
  - repeat constructor.
Qed.

Lemma unique_NoDup ws seen : NoDup (unique seen ws) /\ forall w, w ∈ unique seen ws -> ~ w ∈ seen.
Proof.
  revert seen. induction ws as [|w ws IH]; intros seen; cbn [unique]; [split; [constructor|by intros w ?%elem_of_nil]|].
  case_bool_decide as Hw; [apply IH|]. destruct (IH (w :: seen)) as [Hnd Hs]. split.
  - constructor; [|done]. intros Hin. apply (Hs w Hin). by left.
  - intros x [->|Hx]%elem_of_cons; [done|]. intros Hin. apply (Hs x Hx). by right.
Qed.

(** Everything the app can do to a workspace. *)
Inductive edit : ForgeData -> ForgeData -> Prop :=
  | e_name id now name d : edit d (setProfileName id now name d)
  | e_file act now id name size d : Z.abs size < 10 ^ 21 -> edit d (addReferenceFile act now id name size d)
  | e_remove_file id d : edit d (removeReferenceFile id d)
  | e_add id act now title topic body d : edit d (addStudioNote id act now title topic body d)
  | e_update id now title topic body d : edit d (updateStudioNote id now title topic body d)
  | e_remove id now d : edit d (removeStudioNote id now d)
  | e_restore id d : edit d (restoreStudioNote id d)
  | e_widgets ws d : edit d (setWidgets ws d)
  | e_reset d : edit d EMPTY_DATA.

Lemma empty_sound : sound EMPTY_DATA.
Proof.
  split; [by split; [constructor|]|constructor|by split; [constructor|]|constructor| |by left].
  split; [|done]. apply (bool_decide_unpack _); vm_compute; exact I.
Qed.

Lemma edit_sound d d' : edit d d' -> sound d -> sound d'.
Proof.
  destruct 1 as [id now name d|act now id name size d Hsz|id d|id act now title topic body d|id now title topic body d
                |id now d|id d|ws d|d]; intros Hd; pose proof Hd as [[Hn Hn'] Hdocs [Hf Hf'] Ha Hw Hm].
  - split; try done. cbn [setProfileName activity]. destruct (_ && _); [by apply logged_ok|done].
  - split; try done; [|by apply logged_ok]. cbn [addReferenceFile files]. split; [|done].
    constructor; [|done]. constructor; [apply (bool_decide_unpack _); vm_compute; exact I|]. repeat constructor. done.
  - split; try done. cbn [removeReferenceFile files]. split.
    + apply Forall_forall. intros x [Hx _]%list_elem_of_In%filter_In. rewrite <- list_elem_of_In in Hx.
      rewrite Forall_forall in Hf. by apply Hf.
    + apply forallb_Forall, Forall_forall. intros x [Hx _]%list_elem_of_In%filter_In. rewrite <- list_elem_of_In in Hx.
      rewrite forallb_Forall, Forall_forall in Hf'. by apply Hf'.
  - split; try done; [|by apply logged_ok]. cbn [addStudioNote studioNotes]. constructor; [|done].
    eexists. split; [reflexivity|]. split_and!; [apply (bool_decide_unpack _); vm_compute; exact I| |done].
    repeat (apply Forall_cons; split; [right; constructor|]). constructor.
  - apply change_note_ok; [|done]. repeat (apply Forall_cons; split; [apply set_string_ok|]). constructor.
  - apply change_note_ok; [|done]. apply Forall_cons; split; [apply set_string_ok|constructor].
  - apply change_note_ok; [|done]. apply Forall_cons; split; [|constructor].
    apply own_property_ok; [by vm_compute|by left].
  - split; try done. cbn [setWidgets widgets]. pose proof (unique_NoDup ws []) as [Hu _].
    destruct (unique [] ws); [split; [apply NoDup_singleton|done]|done].
  - apply empty_sound.
Qed.

(** *** The loader *)

Lemma get_ok k v : json_ok v -> member_ok (get k v).
Proof.
  destruct 1 as [| | | | |ps _ Hps]; try by left. cbn [get]. destruct (assoc k ps) as [x|] eqn:E; [|by left].
  right. apply assoc_elem in E. rewrite Forall_forall in Hps. exact (Hps _ E).
Qed.
Lemma items_ok k v : json_ok v -> Forall json_ok (items_at k v).
Proof.
  intros Hv. unfold items_at. destruct (get_ok k v Hv) as [->|Hg]; [constructor|].
  by destruct Hg; try constructor.
Qed.
Lemma items_strings k fields v : records_ok fields (get k v) = true -> forallb (has_strings fields) (items_at k v) = true.
Proof. unfold items_at. by destruct (get k v). Qed.
Lemma string_record v f fields : json_ok v -> has_strings (f :: fields) v = true -> record_ok (f :: fields) v.
Proof.
  intros Hv Hs. pose proof Hs as Hs'. unfold has_strings in Hs'. cbn [forallb] in Hs'. bool_hyps.
  destruct Hv as [| | | | |ps Hnd Hps]; try done. exists ps. split_and!; [done..| |done].
  eapply Forall_impl; [exact Hps|]. intros p. by right.
Qed.
Lemma string_records f fields l :
  Forall json_ok l -> forallb (has_strings (f :: fields)) l = true -> Forall (record_ok (f :: fields)) l.
Proof.
  rewrite forallb_Forall, !Forall_forall. intros Hl Hs x Hx. apply string_record; [by apply Hl|by apply Hs].
Qed.

Lemma not_yet_sub seen ns n : n ∈ not_yet seen ns -> n ∈ ns.
Proof.
  revert seen. induction ns as [|x ns IH]; intros seen; cbn [not_yet]; [done|].
  destruct (id_of x) as [i|]; [destruct (existsb _ _)|]; rewrite ?elem_of_cons; intros Hin.
  - right. by eapply IH.
  - destruct Hin; [by left|]. right. by eapply IH.
  - right. by eapply IH.
Qed.
Lemma convert_note_ok n : has_strings note_fields n = true -> record_ok doc_fields (convert_note n).
Proof.
  intros Hs. unfold has_strings, note_fields in Hs. cbn [forallb] in Hs. bool_hyps.
  destruct (get (js "id") n) eqn:Ei; try done. destruct (get (js "createdAt") n) eqn:Ec; try done.
  unfold convert_note. rewrite Ei, Ec. eexists. split; [reflexivity|].
  split_and!; [apply (bool_decide_unpack _); vm_compute; exact I| |done].
  repeat (apply Forall_cons; split; [right; constructor|]). constructor.
Qed.
Lemma migrated_ok `{Dates} ns docs :
  forallb (has_strings note_fields) ns = true -> Forall (record_ok doc_fields) docs ->
  Forall (record_ok doc_fields) (migrateNotes ns docs).
Proof.
  intros Hn Hd. unfold migrateNotes. rewrite sort_js_perm. apply Forall_app. split; [done|].
  apply Forall_fmap, Forall_forall. intros n Hin%not_yet_sub. apply convert_note_ok.
  rewrite forallb_Forall, Forall_forall in Hn. exact (Hn n Hin).
Qed.

Lemma loaded_sound `{Dates} now text v d :
  now <> [] -> parse_json text = Some v -> json_ok v -> decodeWorkspace now (Some text) = Ok d -> sound d.
Proof.
  intros Hnow Hp Hv. unfold decodeWorkspace. destruct text as [|c text]; [by intros [= <-]; apply empty_sound|].
  rewrite Hp. destruct (supported v); [|done]. cbn [negb orb].
  destruct (forallb _ required) eqn:Hr; [|done]. cbn [negb]. intros [= <-].
  unfold required in Hr. cbn [forallb fst snd] in Hr. rewrite !andb_true_iff in Hr. destruct Hr as (Hn & Hd & Hf & _).
  apply items_strings in Hn, Hd, Hf.
  assert (Hdocs : Forall (record_ok doc_fields) (items_at (js "studioNotes") v)) by (apply string_records; [by apply items_ok|done]).
  split; cbn [notes studioNotes files activity widgets notesMigratedAt].
  - split; [by apply items_ok|done].
  - destruct (_ && _); [by apply migrated_ok|done].
  - split; [by apply items_ok|done].
  - by apply items_ok.
  - assert (Hws : NoDup (match get (js "widgets") v with
      VArr vs => first_widgets [] (rename_focus <$> vs) | _ => ALL_WIDGETS end)).
    { destruct (get (js "widgets") v); try (apply (bool_decide_unpack _); vm_compute; exact I). apply first_widgets_NoDup. }
    destruct (match get (js "widgets") v with VArr _ => _ | _ => _ end); [|done].
    split; [apply (bool_decide_unpack _); vm_compute; exact I|done].
  - destruct (truthy_val (get (js "notesMigratedAt") v)) eqn:Em.
    + right. split; [done|]. destruct (get_ok (js "notesMigratedAt") v Hv) as [E|]; [by rewrite E in Em|done].
    + destruct (items_at (js "notes") v) as [|n ns]; [by left|]. right. split; [by destruct now|constructor].
Qed.

(** *** Migration of legacy notes *)

Lemma existsb_seqb i l : existsb (seqb i) l = true <-> i ∈ l.
Proof.
  rewrite existsb_exists. setoid_rewrite <- list_elem_of_In. split.
  - by intros (j & Hj & ->%seqb_eq).
  - intros Hi. exists i. by rewrite seqb_refl.
Qed.
Lemma id_of_convert n : id_of (convert_note n) = id_of n.
Proof. done. Qed.

Abbreviation ids := (filter_map id_of).

Lemma not_yet_spec seen ns :
  NoDup (ids (not_yet seen ns)) /\ (forall i, i ∈ ids (not_yet seen ns) <-> i ∈ ids ns /\ ~ i ∈ seen) /\
  Forall (fun n => n ∈ ns /\ exists i, id_of n = Some i) (not_yet seen ns).
Proof.
  revert seen. induction ns as [|n ns IH]; intros seen; cbn [not_yet filter_map].
  - split_and!; [constructor| |constructor]. intros i. rewrite elem_of_nil. tauto.
  - assert (Hs : forall seen, Forall (fun n => n ∈ ns /\ exists i, id_of n = Some i) (not_yet seen ns) ->
      Forall (fun m => m ∈ n :: ns /\ exists i, id_of m = Some i) (not_yet seen ns)).
    { intros seen' Hf. eapply Forall_impl; [exact Hf|]. intros m [Hm ?]. split; [by right|done]. }
    destruct (id_of n) as [j|] eqn:Ej; [|destruct (IH seen) as (? & ? & ?); auto].
    destruct (existsb (seqb j) seen) eqn:E.
    + apply existsb_seqb in E. destruct (IH seen) as (Hnd & Hi & Hf). split_and!; [done| |auto].
      intros i. rewrite Hi, elem_of_cons. naive_solver.
    + assert (Hj : ~ j ∈ seen) by (rewrite <- existsb_seqb; by rewrite E).
      destruct (IH (j :: seen)) as (Hnd & Hi & Hf). cbn [filter_map]. rewrite Ej. split_and!.
      * constructor; [|done]. rewrite Hi, elem_of_cons. tauto.
      * intros i. rewrite !elem_of_cons, Hi, elem_of_cons. destruct (decide (i = j)); naive_solver.
      * constructor; [|auto]. split; [by left|eauto].
Qed.

Lemma ids_convert l : ids (convert_note <$> l) = ids l.
Proof. rewrite filter_map_map. apply filter_map_ext. intros; apply id_of_convert. Qed.

Lemma not_yet_none seen ns : (forall i, i ∈ ids ns -> i ∈ seen) -> not_yet seen ns = [].
Proof.
  intros Hs. destruct (not_yet_spec seen ns) as (_ & Hi & Hf). destruct (not_yet seen ns) as [|n l] eqn:E; [done|].
  apply Forall_cons in Hf as [(_ & i & Ei) _]. cbn [filter_map] in Hi. rewrite Ei in Hi.
  destruct (proj1 (Hi i)) as [H1 H2]; [by left|]. destruct (H2 (Hs i H1)).
Qed.

(** Sorting by a comparator that is a difference of keys on this list. *)
Lemma sort_js_ext {A} (c c' : A -> A -> Z) l :
  (forall x y, x ∈ l -> y ∈ l -> c x y = c' x y) -> sort_js c l = sort_js c' l.
Proof.
  induction l as [|x l IH]; intros Hc; [done|]. cbn [sort_js]. rewrite IH by (intros; apply Hc; by right).
  assert (Hx : forall y, y ∈ sort_js c' l -> c x y = c' x y).
  { intros y Hy. rewrite sort_js_perm in Hy. apply Hc; [by left|by right]. }
  revert Hx. generalize (sort_js c' l) as m. induction m as [|y m IHm]; intros Hx; [done|]. cbn [insert_sorted].
  rewrite Hx by (by left). rewrite IHm; [done|]. intros; apply Hx; by right.
Qed.

Section migration.
Context `{Dates}.
Definition instant (v : jsval) : Z := default 0 (updated v).

Lemma newest_sorted l : (forall v, v ∈ l -> updated v <> None) ->
  StronglySorted (fun a b => instant b <= instant a) (sort_js newest_first l).
Proof.
  intros Hu. rewrite (sort_js_ext newest_first (fun a b => instant b - instant a)).
  - assert (Hs := sort_js_sorted (fun a b => instant b - instant a)). unfold ordered in Hs.
    specialize (Hs ltac:(intros; lia) ltac:(intros; lia) l).
    induction Hs as [|x m _ IH Hx]; constructor; [done|]. eapply Forall_impl; [exact Hx|]. cbn. lia.
  - intros x y Hx Hy. unfold newest_first, instant. pose proof (Hu x Hx). pose proof (Hu y Hy).
    by destruct (updated x), (updated y).
Qed.

Lemma migrated_elem ns docs x :
  x ∈ migrateNotes ns docs <-> x ∈ docs \/ exists n, x = convert_note n /\ n ∈ not_yet (ids docs) ns.
Proof. unfold migrateNotes. by rewrite sort_js_perm, elem_of_app, list_elem_of_fmap. Qed.
Lemma migrated_ids ns docs : ids (migrateNotes ns docs) ≡ₚ ids docs ++ ids (not_yet (ids docs) ns).
Proof.
  unfold migrateNotes. rewrite (filter_map_perm _ _ _ (sort_js_perm newest_first _)).
  by rewrite filter_map_app, ids_convert.
Qed.
End migration.
End WorkspaceFacts.
Import WorkspaceFacts.

(** ** Claims *)

(** C36. A workspace that was loaded from the text in storage and then edited
    in any way (renamed, notes added, changed, removed and restored, files
    added and removed, widgets chosen, everything cleared), when it is saved
    and loaded again, is the same workspace: nothing is lost, no note is
    migrated twice, and the loader accepts what the app wrote.  Only a
    property set to [undefined] (a restored note's [deletedAt]) is not
    written. *)
Theorem workspace_reloads `{Dates} now now' text v d0 d :
  now <> [] -> parse_json text = Some v -> json_ok v ->
  decodeWorkspace now (Some text) = Ok d0 -> rtc edit d0 d ->
  decodeWorkspace now' (Some (stringify (workspace_json d))) = Ok (settled d).
Proof.
  intros Hnow Hp Hv Hd Hr. apply decode_saved. apply (loaded_sound _ _ _ _ Hnow Hp Hv) in Hd.
  induction Hr as [d|d d1 d2 He _ IH]; [done|]. by eapply IH, edit_sound.
Qed.

(** Folding the legacy notes into documents loses nothing and invents
    nothing: every document stays as it was, every note that has an
    identifier has a document of that identifier, a document that was not
    there is the conversion of a note, identifiers stay distinct, running the
    migration again adds nothing, and the result is newest first when the
    dates can be read. *)
Theorem migration_complete `{Dates} ns docs :
  (forall x, x ∈ docs -> x ∈ migrateNotes ns docs) /\
  (forall n i, n ∈ ns -> id_of n = Some i -> exists x, x ∈ migrateNotes ns docs /\ id_of x = Some i) /\
  (forall x, x ∈ migrateNotes ns docs -> x ∈ docs \/ exists n, n ∈ ns /\ x = convert_note n) /\
  (NoDup (filter_map id_of docs) -> NoDup (filter_map id_of (migrateNotes ns docs))) /\
  migrateNotes ns (migrateNotes ns docs) ≡ₚ migrateNotes ns docs /\
  ((forall x, x ∈ docs ++ (convert_note <$> ns) -> updated x <> None) ->
   StronglySorted (fun a b => instant b <= instant a) (migrateNotes ns docs)).
Proof.
  destruct (not_yet_spec (filter_map id_of docs) ns) as (Hnd & Hi & Hf). rewrite Forall_forall in Hf.
  assert (Hids : forall i, i ∈ filter_map id_of ns -> i ∈ filter_map id_of (migrateNotes ns docs)).
  { intros i Hin. rewrite migrated_ids, elem_of_app, Hi. destruct (decide (i ∈ filter_map id_of docs)); auto. }
  split_and!.
  - intros x Hx. apply migrated_elem. by left.
  - intros n i Hn Ei. apply elem_of_filter_map, Hids, elem_of_filter_map. eauto.
  - intros x [Hx|(n & -> & Hn)]%migrated_elem; [by left|]. right. exists n. split; [|done]. by apply Hf in Hn as [? _].
  - intros Hdocs. rewrite migrated_ids. apply NoDup_app. split_and!; [done| |done].
    intros i H1 [_ H2]%Hi. by destruct H2.
  - unfold migrateNotes at 1. rewrite not_yet_none by done. by rewrite app_nil_r, sort_js_perm.
  - intros Hu. apply newest_sorted. intros x Hx. apply Hu. rewrite elem_of_app, list_elem_of_fmap in *.
    destruct Hx as [?|(n & -> & Hn)]; [by left|right]. exists n. split; [done|]. by apply Hf in Hn as [? _].
Qed.

(** Clearing everything leaves the pre-account copy of the workspace in
    storage: after a first sign-in that adopted it, [resetWorkspace] empties
    the account's workspace and its documents, while the text under the
    legacy key, with all its notes, can still be read. *)
Theorem legacy_copy_survives_reset `{Dates} now full accountId name legacy m :
  m !! workspaceStorageKey accountId = None -> m !! MIGRATION_OWNER_KEY = None ->
  m !! LEGACY_STORAGE_KEY = Some legacy -> truthy legacy = true ->
  let opened := useForgeData now full (true, true) accountId name m in
  storage opened !! workspaceStorageKey accountId = Some legacy /\
  let '(done, cleared) := resetWorkspace accountId true true opened in
  done = true /\ data cleared = EMPTY_DATA /\
  storage cleared !! workspaceStorageKey accountId = Some (stringify (workspace_json EMPTY_DATA)) /\
  storage cleared !! LEGACY_STORAGE_KEY = Some legacy.
Proof.
  intros H1 H2 H3 Ht opened.
  assert (Hp : starts_with (documentKeyPrefix accountId) LEGACY_STORAGE_KEY = false) by (vm_compute; reflexivity).
  assert (Hno : MIGRATION_OWNER_KEY <> LEGACY_STORAGE_KEY) by (vm_compute; discriminate).
  assert (Hne : workspaceStorageKey accountId <> LEGACY_STORAGE_KEY) by (vm_compute; discriminate).
  assert (E : exists d e, opened = mkWorkspace d e []
    (<[workspaceStorageKey accountId := legacy]> (<[MIGRATION_OWNER_KEY := accountId]> m))).
  { unfold opened, useForgeData, initialWorkspace. rewrite H1, H2, H3. cbn [default truthy negb orb fst snd].
    destruct legacy as [|c l]; [done|]. destruct (decodeWorkspace now _); eauto. }
  destruct E as (d & e & ->). cbn [storage]. split; [by rewrite lookup_insert_eq|].
  cbn [resetWorkspace negb]. split_and!; [done|done| |].
  - cbn [storage]. by rewrite lookup_insert_eq.
  - cbn [storage]. rewrite (lookup_insert_ne _ _ _ _ Hne). apply map_lookup_filter_Some. split; [|cbn [fst]; by rewrite Hp].
    by rewrite (lookup_insert_ne _ _ _ _ Hne), (lookup_insert_ne _ _ _ _ Hno).
Qed.

(** The hypotheses can hold. *)
Definition legacy_text : jstr :=
  stringify (VObj [(js "notes", VArr [VObj [(js "id", VStr (js "n1")); (js "title", VStr (js "Cells"));
    (js "body", VStr (js "<b>")); (js "topic", VStr []); (js "createdAt", VStr (js "5"))]])]).

Lemma workspace_reloads_witness : exists d0 d,
  @decodeWorkspace decimal_dates (js "7") (Some legacy_text) = Ok d0 /\
  d = restoreStudioNote (js "n1") (removeStudioNote (js "n1") (js "8") d0) /\ length (studioNotes d) = 1%nat /\
  @decodeWorkspace decimal_dates (js "9") (Some (stringify (workspace_json d))) = Ok (settled d).
Proof.
  destruct (@decodeWorkspace decimal_dates (js "7") (Some legacy_text)) as [d0|e] eqn:E; [|vm_compute in E; discriminate].
  exists d0, (restoreStudioNote (js "n1") (removeStudioNote (js "n1") (js "8") d0)). split_and!; [done..| |].
  - revert E. vm_compute. intros [= <-]. reflexivity.
  - apply (@workspace_reloads decimal_dates (js "7") (js "9") legacy_text
             (VObj [(js "notes", VArr [VObj [(js "id", VStr (js "n1")); (js "title", VStr (js "Cells"));
                (js "body", VStr (js "<b>")); (js "topic", VStr []); (js "createdAt", VStr (js "5"))]])]) d0).
    + vm_compute. discriminate.
    + vm_compute. reflexivity.
    + repeat constructor; apply (bool_decide_unpack _); vm_compute; exact I.
    + exact E.
    + apply (rtc_l _ _ (removeStudioNote (js "n1") (js "8") d0)); [constructor|].
      apply rtc_once. constructor.
Defined.

Lemma legacy_copy_survives_reset_witness :
  let m := <[LEGACY_STORAGE_KEY := legacy_text]> (empty : gmap jstr jstr) in
  let opened := @useForgeData decimal_dates (js "7") [] (true, true) (js "a") [] m in
  storage (snd (resetWorkspace (js "a") true true opened)) !! LEGACY_STORAGE_KEY = Some legacy_text.
Proof.
  intros m opened.
  assert (H1 : m !! workspaceStorageKey (js "a") = None) by (vm_compute; reflexivity).
  assert (H2 : m !! MIGRATION_OWNER_KEY = None) by (vm_compute; reflexivity).
  assert (H3 : m !! LEGACY_STORAGE_KEY = Some legacy_text) by (vm_compute; reflexivity).
  pose proof (@legacy_copy_survives_reset decimal_dates (js "7") [] (js "a") [] legacy_text m H1 H2 H3 eq_refl) as [_ H].
  fold opened in H. destruct (resetWorkspace (js "a") true true opened) as [b cleared]. cbn [snd].
  exact (proj2 (proj2 (proj2 H))).
Defined.

Definition text_note (i t : jstr) : jsval :=
  VObj [(js "id", VStr i); (js "title", VStr t); (js "body", VStr []); (js "topic", VStr []);
        (js "createdAt", VStr i); (js "updatedAt", VStr i)].
Lemma migration_complete_witness : exists l,
  @migrateNotes decimal_dates [text_note (js "3") []; text_note (js "1") (js "x")] [text_note (js "1") (js "kept")] = l /\ text_note (js "1") (js "kept") ∈ l /\ length l = 2%nat /\ StronglySorted (fun a b => @instant decimal_dates b <= @instant decimal_dates a) l.
Proof.
  eexists. split; [reflexivity|].
  destruct (@migration_complete decimal_dates [text_note (js "3") []; text_note (js "1") (js "x")] [text_note (js "1") (js "kept")])
    as (H1 & _ & _ & _ & _ & H6).
  split; [apply H1; by left|]. split; [vm_compute; reflexivity|]. apply H6.
  intros x Hx. apply list_elem_of_In in Hx. vm_compute in Hx.
  repeat (destruct Hx as [<-|Hx]; [vm_compute; discriminate|]). destruct Hx.
Defined.
