(* ===== verification/Quizzes.v ===== *)
(** * Taking a quiz ([apps/forge/src/classrooms/StudentQuizzes.tsx])

    The page keeps the answers it shows and the set of answers the Host may
    not have yet ([dirty]).  Saves go one after the other through a chain of
    promises ([pendingSave]): a save is a place in the chain, which runs when
    all before it have settled.  What awaits, an open request, a save or a
    submission, is a process; an event lets one of the parties move on.

    [host] is what the Host has stored for each attempt and question, and
    [typed] the questions whose text was changed since it was last handed to
    [save]; no operation of the page reads these two. *)

From S2P Require Import Prelude JsString JsNumber JsValue Locale Types ClassroomState.
Local Open Scope Z_scope.

Record QuizDelivery := mkDelivery {
  delivery_id : jstr;
  opens_at : option jstr;
  delivery_due_at : option jstr;
  results_released_at : option jstr;
  attempt_id : option jstr;
  attempt_state : option jstr
}.

Record QuizAttempt := mkAttempt {
  qa_id : jstr;
  qa_responses : list (jstr * jsval);
  qa_expires_at : option jstr;
  qa_submitted_at : option jstr;
  qa_server_now : jstr
}.

(** What may be under way.  A place in the chain is the number of saves that
    settle up to and including it. *)
Inductive Proc :=
  | Refreshing (submitted : bool)
  | Opening
  | Saving (place : nat)
  | SubmitLoop (id : jstr) (was_online : bool) (place : nat) (rest : list (jstr * jsval))
  | Draining (id : jstr) (place : nat)
  | Submitting (id : jstr).

Record Quizzes := mkQuizzes {
  online : bool;
  focusDeliveryId : option jstr;
  deliveries : list QuizDelivery;
  attempt : option QuizAttempt;
  index : Z;
  answers : list (jstr * jsval);
  message : jstr;
  clockOffsetMs : option Z;
  dirty : list (jstr * jsval);
  waiting : list (jstr * jstr);
  flying : option (jstr * jstr * jsval);
  outcomes : list bool;
  procs : list Proc;
  host : list ((jstr * jstr) * jsval);
  typed : list jstr
}.

(** ** Updates of one field *)

Definition set_online b g := mkQuizzes b (focusDeliveryId g) (deliveries g) (attempt g) (index g) (answers g) (message g) (clockOffsetMs g) (dirty g) (waiting g) (flying g) (outcomes g) (procs g) (host g) (typed g).
Definition set_deliveries ds g := mkQuizzes (online g) (focusDeliveryId g) ds (attempt g) (index g) (answers g) (message g) (clockOffsetMs g) (dirty g) (waiting g) (flying g) (outcomes g) (procs g) (host g) (typed g).
Definition set_attempt a g := mkQuizzes (online g) (focusDeliveryId g) (deliveries g) a (index g) (answers g) (message g) (clockOffsetMs g) (dirty g) (waiting g) (flying g) (outcomes g) (procs g) (host g) (typed g).
Definition set_index i g := mkQuizzes (online g) (focusDeliveryId g) (deliveries g) (attempt g) i (answers g) (message g) (clockOffsetMs g) (dirty g) (waiting g) (flying g) (outcomes g) (procs g) (host g) (typed g).
Definition set_answers a ts g := mkQuizzes (online g) (focusDeliveryId g) (deliveries g) (attempt g) (index g) a (message g) (clockOffsetMs g) (dirty g) (waiting g) (flying g) (outcomes g) (procs g) (host g) ts.
Definition set_message m g := mkQuizzes (online g) (focusDeliveryId g) (deliveries g) (attempt g) (index g) (answers g) m (clockOffsetMs g) (dirty g) (waiting g) (flying g) (outcomes g) (procs g) (host g) (typed g).
Definition set_clock c g := mkQuizzes (online g) (focusDeliveryId g) (deliveries g) (attempt g) (index g) (answers g) (message g) c (dirty g) (waiting g) (flying g) (outcomes g) (procs g) (host g) (typed g).
Definition set_dirty d g := mkQuizzes (online g) (focusDeliveryId g) (deliveries g) (attempt g) (index g) (answers g) (message g) (clockOffsetMs g) d (waiting g) (flying g) (outcomes g) (procs g) (host g) (typed g).
Definition set_chain w f o g := mkQuizzes (online g) (focusDeliveryId g) (deliveries g) (attempt g) (index g) (answers g) (message g) (clockOffsetMs g) (dirty g) w f o (procs g) (host g) (typed g).
Definition set_procs p g := mkQuizzes (online g) (focusDeliveryId g) (deliveries g) (attempt g) (index g) (answers g) (message g) (clockOffsetMs g) (dirty g) (waiting g) (flying g) (outcomes g) p (host g) (typed g).
Definition set_host h g := mkQuizzes (online g) (focusDeliveryId g) (deliveries g) (attempt g) (index g) (answers g) (message g) (clockOffsetMs g) (dirty g) (waiting g) (flying g) (outcomes g) (procs g) h (typed g).

Definition spawn (p : Proc) (g : Quizzes) : Quizzes := set_procs (procs g ++ [p]) g.

(** ** Saving *)

(** Equality of answers: [===] on strings and booleans, which is what the
    inputs of the page produce. *)
Definition same_answer (a b : jsval) : bool :=
  match a, b with
  | VStr s, VStr t => seqb s t
  | VBool b, VBool c => Bool.eqb b c
  | _, _ => false
  end.
Definition without (q : jstr) (d : list (jstr * jsval)) : list (jstr * jsval) :=
  List.filter (fun p => negb (seqb (fst p) q)) d.
Definition has (q : jstr) (d : list (jstr * jsval)) : bool := match assoc q d with Some _ => true | None => false end.

(** The promise [pendingSave.current]: how many saves settle before it does. *)
Definition place (g : Quizzes) : nat :=
  (length (outcomes g) + (match flying g with Some _ => 1 | None => 0 end) + length (waiting g))%nat.
Definition settled (n : nat) (g : Quizzes) : option bool :=
  match n with
  | O => Some true
  | S m => outcomes g !! m
  end.

(** [save] up to its await; [att] and [on] are the attempt and the connection
    of the render whose [save] it is. *)
Definition save (att : option jstr) (on : bool) (questionId : jstr) (answer : jsval) (g : Quizzes) : Quizzes :=
  let g := set_answers (set_prop questionId answer (answers g)) (List.filter (fun t => negb (seqb t questionId)) (typed g)) g in
  let g := set_dirty (set_prop questionId answer (dirty g)) g in
  match att with
  | Some attemptId => if on then set_chain (waiting g ++ [(attemptId, questionId)]) (flying g) (outcomes g) g else g
  | None => g
  end.
Definition att_of (g : Quizzes) : option jstr := qa_id <$> attempt g.

(** A call of [save] by an event: its message comes when its promise settles. *)
Definition save_now (questionId : jstr) (answer : jsval) (g : Quizzes) : Quizzes :=
  let g' := save (att_of g) (online g) questionId answer g in
  match attempt g with
  | Some _ => if online g then spawn (Saving (place g')) g' else g'
  | None => g'
  end.
Definition msg_saved : jstr := js "Answer saved.".
Definition after_save (failure : jstr) (ok : bool) (g : Quizzes) : Quizzes :=
  set_message (if ok then msg_saved else failure) g.

(** The next place of the chain, when the one before has settled. *)
Definition chain_next (g : Quizzes) : Quizzes :=
  match flying g, waiting g with
  | None, (attemptId, questionId) :: rest =>
    match assoc questionId (dirty g) with
    | None => set_chain rest None (outcomes g ++ [true]) g
    | Some latest => set_chain rest (Some (attemptId, questionId, latest)) (outcomes g) g
    end
  | _, _ => g
  end.
(** What becomes of the request in flight: stored and said so, stored without
    the page learning it, or not stored. *)
Inductive SaveReply := Stored | StoredUnheard | NotStored.
Definition save_answered (r : SaveReply) (g : Quizzes) : Quizzes :=
  match flying g with
  | None => g
  | Some (attemptId, questionId, latest) =>
    let ok := match r with Stored => true | _ => false end in
    let g := if match r with NotStored => false | _ => true end then set_host (((attemptId, questionId), latest) :: host g) g else g in
    let g := if ok && match assoc questionId (dirty g) with Some v => same_answer v latest | None => false end
             then set_dirty (without questionId (dirty g)) g else g in
    set_chain (waiting g) None (outcomes g ++ [ok]) g
  end.

(** The effect that runs when the connection, the attempt or its submission
    changed. *)
Definition submitted (a : QuizAttempt) : bool := truthy (default [] (qa_submitted_at a)).
Definition retry (g : Quizzes) : Quizzes :=
  match attempt g with
  | Some a => if online g && negb (submitted a)
              then fold_left (fun g p => save_now (fst p) (snd p) g) (dirty g) g else g
  | None => g
  end.
Definition deps (g : Quizzes) : bool * option jstr * option (option jstr) :=
  (online g, att_of g, qa_submitted_at <$> attempt g).
Definition rendered (before after : Quizzes) : Quizzes :=
  if bool_decide (deps before = deps after) then after else retry after.

(** ** Opening, submitting, refreshing *)

Definition open (delivery : QuizDelivery) (g : Quizzes) : Quizzes :=
  if negb (online g) && negb (truthy (default [] (attempt_id delivery)))
  then set_message (js "Connect to the Host to start this quiz.") g
  else spawn Opening g.
Definition open_answer `{Dates} (date_now : Z) (r : outcome jstr QuizAttempt) (g : Quizzes) : Quizzes :=
  match r with
  | Ok next =>
    set_message [] (set_index 0 (set_answers (fold_left (fun o p => set_prop (fst p) (snd p) o) (qa_responses next) []) []
      (set_clock ((fun t => t - date_now) <$> date_parse (qa_server_now next))
        (set_attempt (Some next) (set_dirty [] g)))))
  | Throw e => set_message e g
  end.

Definition refreshed (r : outcome jstr (list QuizDelivery)) (was_submit : bool) (g : Quizzes) : Quizzes :=
  match r with
  | Ok ds =>
    let g := set_deliveries ds g in
    let g := match find (fun d => match focusDeliveryId g with Some f => seqb (delivery_id d) f | None => false end) ds with
             | Some d => open d g
             | None => g
             end in
    if was_submit then set_message (js "Quiz submitted.") g else g
  | Throw e => set_message e g
  end.

Definition msg_unsaved : jstr := js "Some answers are not saved yet. Check the Host connection and try again.".

(** [submit]: the loop over the answers of its render. *)
Fixpoint submit_loop (id : jstr) (was_online : bool) (rest : list (jstr * jsval)) (g : Quizzes) : Quizzes :=
  match rest with
  | [] => spawn (Draining id (place g)) g
  | (q, a) :: rest =>
    if has q (dirty g)
    then
      let g := save (Some id) was_online q a g in
      if was_online then spawn (SubmitLoop id was_online (place g) rest) g else submit_loop id was_online rest g
    else submit_loop id was_online rest g
  end.
Definition submit (confirmed : bool) (g : Quizzes) : Quizzes :=
  match attempt g with
  | Some a => if confirmed then submit_loop (qa_id a) (online g) (answers g) g else g
  | None => g
  end.
Definition drained (id failure : jstr) (ok : bool) (g : Quizzes) : Quizzes :=
  if negb ok then set_message failure g
  else match dirty g with
       | [] => spawn (Submitting id) g
       | _ => set_message msg_unsaved g
       end.
Definition submit_answer (r : outcome jstr QuizAttempt) (g : Quizzes) : Quizzes :=
  match r with
  | Ok next => spawn (Refreshing true) (set_attempt (Some next) g)
  | Throw e => set_message e g
  end.

(** ** Events *)

Inductive Event :=
  | SetOnline (b : bool)
  | Open (d : QuizDelivery)
  | Refresh
  | Back
  | Go (i : Z)
  | Type_ (q : jstr) (text : jstr)
  | Choose (q : jstr) (a : jsval)
  | Blur (q : jstr)
  | Submit (confirmed : bool)
  | ChainNext
  | SaveAnswered (r : SaveReply)
  | Proceed (i : nat) (failure : jstr)
  | Opened (i : nat) (date_now : Z) (r : outcome jstr QuizAttempt)
  | Submitted (i : nat) (r : outcome jstr QuizAttempt)
  | Refreshed (i : nat) (r : outcome jstr (list QuizDelivery)).

Definition take_proc (i : nat) (g : Quizzes) : Quizzes := set_procs (take i (procs g) ++ drop (S i) (procs g)) g.

Definition proceed (i : nat) (failure : jstr) (g : Quizzes) : Quizzes :=
  match procs g !! i with
  | Some (Saving n) =>
    match settled n g with Some ok => after_save failure ok (take_proc i g) | None => g end
  | Some (SubmitLoop id was_online n rest) =>
    match settled n g with
    | Some ok => submit_loop id was_online rest (after_save failure ok (take_proc i g))
    | None => g
    end
  | Some (Draining id n) =>
    match settled n g with Some ok => drained id failure ok (take_proc i g) | None => g end
  | _ => g
  end.

Definition handle `{Dates} (e : Event) (g : Quizzes) : Quizzes :=
  match e with
  | SetOnline b => rendered g (set_online b g)
  | Open d => open d g
  | Refresh => spawn (Refreshing false) g
  | Back => rendered g (set_attempt None g)
  | Go i => set_index i g
  | Type_ q text => set_answers (set_prop q (VStr text) (answers g)) (q :: typed g) g
  | Choose q a => save_now q a g
  | Blur q => save_now q (coalesce (default VUndef (assoc q (answers g))) (VStr [])) g
  | Submit confirmed => submit confirmed g
  | ChainNext => chain_next g
  | SaveAnswered r => save_answered r g
  | Proceed i failure => proceed i failure g
  | Opened i date_now r =>
    match procs g !! i with
    | Some Opening => let g := take_proc i g in rendered g (open_answer date_now r g)
    | _ => g
    end
  | Submitted i r =>
    match procs g !! i with
    | Some (Submitting _) => let g := take_proc i g in rendered g (submit_answer r g)
    | _ => g
    end
  | Refreshed i r =>
    match procs g !! i with
    | Some (Refreshing s) => refreshed r s (take_proc i g)
    | _ => g
    end
  end.
Definition run `{Dates} (es : list Event) (g : Quizzes) : Quizzes := fold_left (fun g e => handle e g) es g.

(** What the page shows of the clock, and the state of a card of the list. *)
Definition remaining `{Dates} (now : Z) (g : Quizzes) : option Z :=
  match attempt g, clockOffsetMs g with
  | Some a, Some offset =>
    match qa_expires_at a with
    | Some ((_ :: _) as e) =>
      (fun t => Z.max 0 (ceil_seconds (t - now - offset))) <$> date_parse e
    | _ => None
    end
  | _, _ => None
  end.

Inductive Card := ViewResult | CardSubmitted | CardClosed | Resume | NotOpen | Start.
Definition card_state `{Dates} (now : Z) (d : QuizDelivery) : Card * bool :=
  let passed o (test : Z -> bool) :=
    match o with Some ((_ :: _) as s) => match date_parse s with Some t => test t | None => false end | _ => false end in
  let notOpen := passed (opens_at d) (fun t => now <? t) in
  let closed := passed (delivery_due_at d) (fun t => t <=? now) in
  let done := match attempt_state d with Some s => seqb s (js "submitted") | None => false end in
  let released := truthy (default [] (results_released_at d)) in
  let releasedWithoutSubmission := released && negb done in
  (if done then (if released then ViewResult else CardSubmitted)
   else if releasedWithoutSubmission then CardClosed
   else if truthy (default [] (attempt_id d)) then Resume
   else if notOpen then NotOpen
   else if closed then CardClosed else Start,
   notOpen || closed || releasedWithoutSubmission).

(** ** Properties *)

Module QuizFacts.

Definition key_is (id q : jstr) (k : jstr * jstr) : bool := seqb (fst k) id && seqb (snd k) q.
Definition host_at (id q : jstr) (g : Quizzes) : option jsval :=
  snd <$> find (fun e => key_is id q (fst e)) (host g).

Lemma has_true q d : has q d = true <-> exists v, assoc q d = Some v.
Proof. unfold has. destruct (assoc q d); split; [eauto|done|done|by intros (? & ?)]. Qed.
Lemma has_set q k v d : has q (set_prop k v d) = bool_decide (k = q) || has q d.
Proof. unfold has. rewrite assoc_set_prop. case_decide; [by rewrite bool_decide_eq_true_2|by rewrite bool_decide_eq_false_2]. Qed.
Lemma assoc_without q k d : assoc q (without k d) = if decide (k = q) then None else assoc q d.
Proof.
  induction d as [|[j v] d IH]; [by case_decide|]. cbn [without List.filter fst assoc]. fold (without k d).
  destruct (seqb j k) eqn:Ej; cbn [negb assoc]; rewrite IH.
  - apply seqb_eq in Ej as ->. case_decide as E; [done|]. apply seqb_neq in E. by rewrite E.
  - destruct (seqb j q) eqn:Eq; [|done]. apply seqb_eq in Eq as ->. apply seqb_neq in Ej. by rewrite decide_False.
Qed.
Lemma same_answer_eq a b : same_answer a b = true -> a = b.
Proof. destruct a, b; try done; cbn; [by intros ->%Bool.eqb_prop|by intros ->%seqb_eq]. Qed.
Lemma elem_filter_neq (q k : jstr) l : q ∈ List.filter (fun t => negb (seqb t k)) l <-> q <> k /\ q ∈ l.
Proof.
  rewrite list_elem_of_In, filter_In, negb_true_iff, seqb_neq, <- list_elem_of_In. tauto.
Qed.
Lemma host_at_cons id q e g : host_at id q (set_host (e :: host g) g) =
  if key_is id q (fst e) then Some (snd e) else host_at id q g.
Proof. unfold host_at. cbn. by destruct (key_is _ _ _). Qed.

Definition proc_of (A : jstr) (p : Proc) : Prop :=
  match p with SubmitLoop id _ _ _ | Draining id _ | Submitting id => id = A | _ => True end.

(** Everything the page shows is stored, or known to be not, or being typed. *)
Record Tracked (A : jstr) (g : Quizzes) : Prop := {
  tr_attempt : forall a, attempt g = Some a -> qa_id a = A;
  tr_answers : forall q, q ∈ typed g \/ has q (dirty g) = true \/ host_at A q g = assoc q (answers g);
  tr_dirty : forall q v, assoc q (dirty g) = Some v -> q ∈ typed g \/ assoc q (answers g) = Some v;
  tr_waiting : Forall (fun w => fst w = A) (waiting g);
  tr_flying : forall a q v, flying g = Some (a, q, v) -> a = A /\ has q (dirty g) = true;
  tr_procs : Forall (proc_of A) (procs g)
}.

Section tracked.
Context (A : jstr).

(** A change that leaves what is tracked alone. *)
Lemma tracked_frame g g' : answers g' = answers g -> typed g' = typed g -> dirty g' = dirty g -> host g' = host g ->
  waiting g' = waiting g -> flying g' = flying g ->
  (forall a, attempt g' = Some a -> qa_id a = A) -> Forall (proc_of A) (procs g') ->
  Tracked A g -> Tracked A g'.
Proof.
  intros E1 E2 E3 E4 E5 E6 Ha Hp [_ H2 H3 H4 H5 _].
  split; rewrite ?E1, ?E2, ?E3, ?E5, ?E6; try done. unfold host_at. rewrite E4. exact H2.
Qed.
Ltac frame g := apply (tracked_frame g); try reflexivity; try assumption.

Lemma tracked_spawn p g : proc_of A p -> Tracked A g -> Tracked A (spawn p g).
Proof. intros Hp HT. pose proof HT as [? _ _ _ _ ?]. frame g. cbn. apply Forall_app. auto. Qed.
Lemma tracked_take i g : Tracked A g -> Tracked A (take_proc i g).
Proof.
  intros HT. pose proof HT as [? _ _ _ _ ?]. frame g. cbn. apply Forall_app. split; [by apply Forall_take|by apply Forall_drop].
Qed.
Lemma tracked_message m g : Tracked A g -> Tracked A (set_message m g).
Proof. intros HT. pose proof HT as [? _ _ _ _ ?]. by frame g. Qed.

Lemma tracked_save att on q a g : (forall i, att = Some i -> i = A) -> Tracked A g -> Tracked A (save att on q a g).
Proof.
  intros Hatt [H1 H2 H3 H4 H5 H6].
  assert (HT : Tracked A (set_dirty (set_prop q a (dirty g))
    (set_answers (set_prop q a (answers g)) (List.filter (fun t => negb (seqb t q)) (typed g)) g))).
  { split; cbn; try done.
    - intros k. rewrite elem_filter_neq, has_set, assoc_set_prop, orb_true_iff, bool_decide_eq_true.
      change (host_at A k _) with (host_at A k g). destruct (decide (q = k)) as [E|E]; [by right; left; left|].
      destruct (H2 k) as [?|[?|?]]; auto.
    - intros k v. rewrite elem_filter_neq, !assoc_set_prop. case_decide as E; [by right|].
      intros [?|?]%H3; auto.
    - intros i k v [-> Hk]%H5. split; [done|]. rewrite has_set, Hk. apply orb_true_r. }
  unfold save. destruct att as [i|]; [|exact HT]. destruct on; [|exact HT].
  destruct HT as [T1 T2 T3 T4 T5 T6]. split; try done.
  cbn [waiting set_chain]. apply Forall_app. split; [exact T4|]. constructor; [|done]. by apply Hatt.
Qed.
Lemma att_is g : Tracked A g -> forall i, att_of g = Some i -> i = A.
Proof. intros HT i. unfold att_of. destruct (attempt g) as [a|] eqn:E; [|done]. intros [= <-]. by apply (tr_attempt _ _ HT). Qed.
Lemma tracked_save_now q a g : Tracked A g -> Tracked A (save_now q a g).
Proof.
  intros HT. pose proof (tracked_save (att_of g) (online g) q a g (att_is g HT) HT) as HS.
  unfold save_now. destruct (attempt g); [|done]. destruct (online g); [by apply tracked_spawn|done].
Qed.
Lemma tracked_retry g : Tracked A g -> Tracked A (retry g).
Proof.
  intros HT. unfold retry. destruct (attempt g); [|done]. destruct (_ && _); [|done].
  generalize (dirty g) as l. intros l. revert g HT. induction l as [|p l IH]; intros g HT; [done|].
  cbn [fold_left]. by apply IH, tracked_save_now.
Qed.
Lemma tracked_rendered b g : Tracked A g -> Tracked A (rendered b g).
Proof. intros HT. unfold rendered. case_bool_decide; [done|by apply tracked_retry]. Qed.

Lemma tracked_next g : Tracked A g -> Tracked A (chain_next g).
Proof.
  intros HT. pose proof HT as [H1 H2 H3 H4 H5 H6]. unfold chain_next.
  destruct (flying g) as [[[? ?] ?]|] eqn:Ef; [done|]. destruct (waiting g) as [|[i q] rest] eqn:Ew; [done|].
  apply Forall_cons in H4 as [Hi Hr]. cbn in Hi. subst i.
  destruct (assoc q (dirty g)) as [latest|] eqn:Ed; (split; [done|done|done|done| |done]); [|done].
  intros a k v [= <- <- <-]. split; [done|]. apply has_true. eauto.
Qed.
Lemma tracked_answered r g : Tracked A g -> Tracked A (save_answered r g).
Proof.
  intros HT. pose proof HT as [H1 H2 H3 H4 H5 H6]. unfold save_answered.
  destruct (flying g) as [[[i q] latest]|] eqn:Ef; [|done]. destruct (H5 i q latest eq_refl) as [-> Hq].
  assert (Hhost : forall k, k ∈ typed g \/ has k (dirty g) = true \/
            host_at A k (set_host (((A, q), latest) :: host g) g) = assoc k (answers g)).
  { intros k. rewrite host_at_cons. unfold key_is. cbn [fst snd]. rewrite seqb_refl. cbn [andb].
    destruct (seqb q k) eqn:Ek; [apply seqb_eq in Ek as <-; by right; left|apply H2]. }
  destruct r; cbn [andb]; (split; cbn [attempt typed dirty answers waiting flying procs set_chain set_dirty set_host]; try done).
  all: destruct (match assoc q (dirty g) with Some v => same_answer v latest | None => false end) eqn:Ed; try done.
  - intros k. cbn [dirty typed answers set_dirty set_host set_chain].
    destruct (assoc q (dirty g)) as [v|] eqn:Ev; [|done]. apply same_answer_eq in Ed as ->.
    destruct (decide (q = k)) as [<-|Hk].
    + destruct (H3 q latest Ev) as [?|Ha]; [by left|]. right; right. rewrite Ha.
      unfold host_at. cbn. unfold key_is. cbn. by rewrite !seqb_refl.
    + destruct (Hhost k) as [?|[Hd|?]]; [by left| |by right; right]. right; left.
      unfold has in *. by rewrite assoc_without, decide_False.
  - intros k v. cbn [dirty set_dirty set_host]. rewrite assoc_without. case_decide; [done|]. apply H3.
Qed.

Lemma tracked_submit_loop on rest g : Tracked A g -> Tracked A (submit_loop A on rest g).
Proof.
  revert g. induction rest as [|[q a] rest IH]; intros g HT; cbn [submit_loop]; [by apply tracked_spawn|].
  destruct (has q (dirty g)); [|by apply IH].
  assert (HS : Tracked A (save (Some A) on q a g)) by (apply tracked_save; [by intros ? [= <-]|done]).
  destruct on; [by apply tracked_spawn|by apply IH].
Qed.
Lemma tracked_drained failure ok g : Tracked A g -> Tracked A (drained A failure ok g).
Proof.
  intros HT. unfold drained. destruct ok; cbn [negb]; [|by apply tracked_message].
  destruct (dirty g); [by apply tracked_spawn|by apply tracked_message].
Qed.
Lemma tracked_proceed i failure g : Tracked A g -> Tracked A (proceed i failure g).
Proof.
  intros HT. pose proof (tracked_take i g HT) as HTt. unfold proceed.
  destruct (procs g !! i) as [p|] eqn:Ep; [|done].
  assert (Hp : proc_of A p) by (pose proof (tr_procs _ _ HT) as Hf; rewrite Forall_lookup in Hf; by eapply Hf).
  destruct p as [| |n|id on n rest|id n|id]; try done; cbn in Hp; subst; destruct (settled n g); try done.
  - by apply tracked_message.
  - by apply tracked_submit_loop, tracked_message.
  - by apply tracked_drained.
Qed.

(** The events of one attempt: no other is opened meanwhile. *)
Definition stays (e : Event) : Prop :=
  match e with
  | Opened _ _ (Ok _) => False
  | Submitted _ (Ok next) => qa_id next = A
  | _ => True
  end.

Lemma tracked_open d g : Tracked A g -> Tracked A (open d g).
Proof. intros HT. unfold open. destruct (_ && _); [by apply tracked_message|by apply tracked_spawn]. Qed.
Lemma tracked_index i g : Tracked A g -> Tracked A (set_index i g).
Proof. intros HT. pose proof HT as [? _ _ _ _ ?]. by frame g. Qed.
Lemma tracked_deliveries d g : Tracked A g -> Tracked A (set_deliveries d g).
Proof. intros HT. pose proof HT as [? _ _ _ _ ?]. by frame g. Qed.
Lemma tracked_online b g : Tracked A g -> Tracked A (set_online b g).
Proof. intros HT. pose proof HT as [? _ _ _ _ ?]. by frame g. Qed.
Lemma tracked_attempt a g : (forall x, a = Some x -> qa_id x = A) -> Tracked A g -> Tracked A (set_attempt a g).
Proof. intros Ha HT. pose proof HT as [? _ _ _ _ ?]. by frame g. Qed.
Lemma tracked_type q text g : Tracked A g ->
  Tracked A (set_answers (set_prop q (VStr text) (answers g)) (q :: typed g) g).
Proof.
  intros [H1 H2 H3 H4 H5 H6]. split; cbn; try done.
  - intros k. rewrite assoc_set_prop, elem_of_cons. case_decide as E; [by left; left|].
    change (host_at A k _) with (host_at A k g). destruct (H2 k) as [?|?]; auto.
  - intros k v Hv. rewrite assoc_set_prop, elem_of_cons. case_decide as E; [by left; left|].
    destruct (H3 k v Hv); auto.
Qed.
Lemma tracked_refreshed r s g : Tracked A g -> Tracked A (refreshed r s g).
Proof.
  intros HT. unfold refreshed. destruct r as [ds|e]; [|by apply tracked_message].
  apply tracked_deliveries with (d := ds) in HT. destruct (find _ ds) as [d|].
  - apply tracked_open with (d := d) in HT. destruct s; [by apply tracked_message|done].
  - destruct s; [by apply tracked_message|done].
Qed.

Lemma tracked_handle `{Dates} e g : stays e -> Tracked A g -> Tracked A (handle e g).
Proof.
  intros He HT. destruct e; cbn [handle].
  - by apply tracked_rendered, tracked_online.
  - by apply tracked_open.
  - by apply tracked_spawn.
  - by apply tracked_rendered, tracked_attempt.
  - by apply tracked_index.
  - by apply tracked_type.
  - by apply tracked_save_now.
  - by apply tracked_save_now.
  - unfold submit. destruct (attempt g) as [a|] eqn:Ea; [|done]. destruct confirmed; [|done].
    rewrite (tr_attempt _ _ HT a Ea). by apply tracked_submit_loop.
  - by apply tracked_next.
  - by apply tracked_answered.
  - by apply tracked_proceed.
  - destruct (procs g !! i) as [[]|]; try done. destruct r; [done|]. cbn.
    by apply tracked_rendered, tracked_message, tracked_take.
  - destruct (procs g !! i) as [[]|]; try done. apply tracked_rendered. destruct r as [next|err]; cbn.
    + apply tracked_spawn; [done|]. apply tracked_attempt; [by intros ? [= <-]|by apply tracked_take].
    + by apply tracked_message, tracked_take.
  - destruct (procs g !! i) as [[]|]; try done. by apply tracked_refreshed, tracked_take.
Qed.
Lemma tracked_run `{Dates} es g : Forall stays es -> Tracked A g -> Tracked A (run es g).
Proof.
  intros Hes. revert g. induction Hes as [|e es He _ IH]; intros g HT; [done|]. cbn [run fold_left]. by apply IH, tracked_handle.
Qed.

(** How many submissions are on their way to the Host. *)
Definition submissions (g : Quizzes) : nat :=
  length (List.filter (fun p => match p with Submitting _ => true | _ => false end) (procs g)).

Lemma submissions_spawn p g : submissions (spawn p g) =
  (submissions g + match p with Submitting _ => 1 | _ => 0 end)%nat.
Proof. unfold submissions. cbn. rewrite List.filter_app, length_app. by destruct p. Qed.
Lemma filter_drop_at {B} (p : B -> bool) i l :
  (length (List.filter p (take i l ++ drop (S i) l)) <= length (List.filter p l))%nat.
Proof.
  rewrite <- (take_drop i l) at 3. rewrite !List.filter_app, !length_app. apply Nat.add_le_mono_l.
  destruct (drop i l) as [|x m] eqn:E.
  - rewrite drop_ge; [done|]. apply (f_equal length) in E. rewrite length_drop in E. cbn in E. lia.
  - replace (drop (S i) l) with m; [cbn; destruct (p x); cbn; lia|].
    replace (S i) with (i + 1)%nat by lia. rewrite <- drop_drop, E. done.
Qed.
Lemma submissions_take i g : (submissions (take_proc i g) <= submissions g)%nat.
Proof. apply filter_drop_at. Qed.
End tracked.

(** A step that sends no submission. *)
Definition quiet (g g' : Quizzes) : Prop := (submissions g' <= submissions g)%nat.
Lemma quiet_trans g1 g2 g3 : quiet g1 g2 -> quiet g2 g3 -> quiet g1 g3.
Proof. unfold quiet. lia. Qed.
Lemma quiet_procs g g' : procs g' = procs g -> quiet g g'.
Proof. unfold quiet, submissions. by intros ->. Qed.
Lemma quiet_spawn p g : match p with Submitting _ => False | _ => True end -> quiet g (spawn p g).
Proof. intros Hp. unfold quiet. rewrite submissions_spawn. destruct p; lia || done. Qed.
Lemma procs_save att on q a g : procs (save att on q a g) = procs g.
Proof. unfold save. destruct att; [|done]. by destruct on. Qed.
Lemma quiet_save_now q a g : quiet g (save_now q a g).
Proof.
  assert (Hs : quiet g (save (att_of g) (online g) q a g)) by (apply quiet_procs, procs_save).
  unfold save_now. destruct (attempt g); [|done]. destruct (online g); [|done].
  eapply quiet_trans; [exact Hs|by apply quiet_spawn].
Qed.
Lemma quiet_rendered b g : quiet g (rendered b g).
Proof.
  unfold rendered. case_bool_decide as Hd; [by apply quiet_procs|]. clear Hd. unfold retry.
  destruct (attempt g); [|by apply quiet_procs]. destruct (_ && _); [|by apply quiet_procs].
  revert g. enough (Hl : forall l g, quiet g (fold_left (fun g p => save_now (fst p) (snd p) g) l g)) by (intros; apply Hl).
  intros l. induction l as [|p l IH]; intros g; [by apply quiet_procs|].
  cbn [fold_left]. eapply quiet_trans; [apply quiet_save_now|apply IH].
Qed.
Lemma quiet_submit_loop id on rest g : quiet g (submit_loop id on rest g).
Proof.
  revert g. induction rest as [|[q a] rest IH]; intros g; cbn [submit_loop]; [by apply quiet_spawn|].
  destruct (has q (dirty g)); [|apply IH].
  assert (Hs : quiet g (save (Some id) on q a g)) by (apply quiet_procs, procs_save).
  eapply quiet_trans; [exact Hs|]. destruct on; [by apply quiet_spawn|apply IH].
Qed.
Lemma quiet_open d g : quiet g (open d g).
Proof. unfold open. destruct (_ && _); [by apply quiet_procs|by apply quiet_spawn]. Qed.
Lemma quiet_answered r g : quiet g (save_answered r g).
Proof. apply quiet_procs. unfold save_answered. destruct (flying g) as [[[]]|]; [|done]. destruct r; cbn; repeat case_match; done. Qed.
Lemma quiet_next g : quiet g (chain_next g).
Proof. apply quiet_procs. unfold chain_next. destruct (flying g); [done|]. destruct (waiting g) as [|[]]; [done|]. repeat case_match; done. Qed.
Lemma quiet_refreshed r s g : quiet g (refreshed r s g).
Proof.
  unfold refreshed. destruct r as [ds|e]; [|by apply quiet_procs].
  assert (Ho : forall h, procs h = procs g -> quiet g (if s then set_message (js "Quiz submitted.") h else h))
    by (intros h Hh; apply quiet_procs; by destruct s).
  destruct (find _ ds) as [d|]; [|by apply Ho].
  eapply quiet_trans; [apply (quiet_procs g (set_deliveries ds g)); done|].
  eapply quiet_trans; [apply quiet_open|]. apply quiet_procs. by destruct s.
Qed.

Lemma sends_when_clean `{Dates} e g : quiet g (handle e g) \/ dirty (handle e g) = [].
Proof.
  assert (Ht : forall i, quiet g (take_proc i g)) by (intros i; apply submissions_take).
  assert (Hm : forall i m, quiet g (set_message m (take_proc i g))) by (intros i m; apply submissions_take).
  destruct e; cbn [handle]; try (left; by apply quiet_procs).
  - left. eapply quiet_trans; [|apply quiet_rendered]. by apply quiet_procs.
  - left. apply quiet_open.
  - left. by apply quiet_spawn.
  - left. eapply quiet_trans; [|apply quiet_rendered]. by apply quiet_procs.
  - left. apply quiet_save_now.
  - left. apply quiet_save_now.
  - left. unfold submit. destruct (attempt g); [|by apply quiet_procs]. destruct confirmed; [|by apply quiet_procs].
    apply quiet_submit_loop.
  - left. apply quiet_next.
  - left. apply quiet_answered.
  - unfold proceed. destruct (procs g !! i) as [[| |n|id on n rest|id n|id]|]; try (left; by apply quiet_procs);
      (destruct (settled n g) as [ok|]; [|left; by apply quiet_procs]).
    + left. apply Hm.
    + left. eapply quiet_trans; [|apply quiet_submit_loop]. apply Hm.
    + unfold drained. destruct ok; cbn [negb]; [|left; apply Hm].
      destruct (dirty (take_proc i g)) eqn:E; [by right|left; apply Hm].
  - left. destruct (procs g !! i) as [[]|]; try by apply quiet_procs.
    eapply quiet_trans; [apply (Ht i)|]. eapply quiet_trans; [|apply quiet_rendered].
    apply quiet_procs. by destruct r.
  - left. destruct (procs g !! i) as [[]|]; try by apply quiet_procs.
    eapply quiet_trans; [apply (Ht i)|]. eapply quiet_trans; [|apply quiet_rendered].
    destruct r; cbn; [|by apply quiet_procs]. eapply quiet_trans; [|by apply quiet_spawn]. by apply quiet_procs.
  - left. destruct (procs g !! i) as [[]|]; try by apply quiet_procs.
    eapply quiet_trans; [apply (Ht i)|apply quiet_refreshed].
Qed.

(** The page just after it opened [a], whose answers the Host sent. *)
Definition page0 : Quizzes := mkQuizzes true None [] None 0 [] [] (Some 0) [] [] None [] [] [] [].
Definition opened `{Dates} (a : QuizAttempt) : Quizzes :=
  let g := open_answer 0 (Ok a) page0 in
  set_host ((fun p => ((qa_id a, fst p), snd p)) <$> answers g) g.

Lemma find_answers id q l :
  snd <$> find (fun e => key_is id q (fst e)) ((fun p : jstr * jsval => ((id, fst p), snd p)) <$> l) = assoc q l.
Proof.
  induction l as [|[k v] l IH]; [done|]. cbn [fmap list_fmap find fst snd assoc]. unfold key_is at 1. cbn [fst snd].
  rewrite seqb_refl. cbn [andb]. destruct (seqb k q); [done|exact IH].
Qed.
Lemma tracked_opened `{Dates} a : Tracked (qa_id a) (opened a).
Proof.
  split; try done.
  - by intros ? [= <-].
  - intros q. right; right. unfold host_at, opened. cbn [host set_host]. by rewrite find_answers.
Qed.
End QuizFacts.
Import QuizFacts.

(** C14. As long as one attempt stays open, nothing the student answered is
    missing when it is handed in: however choosing, typing, retrying, losing and
    regaining the Host, and the answers of the Host interleave on its page, at
    the moment a submission goes out the Host has stored, for every question
    but those whose text was changed since its field was last left, exactly the
    answer the page shows.  ([answer_to_wrong_attempt] is what opening another
    attempt can do.) *)
Theorem submission_is_complete `{Dates} a es e :
  Forall (stays (qa_id a)) es -> stays (qa_id a) e ->
  let g := run es (opened a) in
  (submissions g < submissions (handle e g))%nat ->
  forall q, q ∈ typed (handle e g) \/ host_at (qa_id a) q (handle e g) = assoc q (answers (handle e g)).
Proof.
  intros Hes He g Hs q.
  assert (HT : Tracked (qa_id a) (handle e g)) by (apply tracked_handle; [done|apply tracked_run; [done|apply tracked_opened]]).
  destruct (sends_when_clean e g) as [Hq|Hd]; [unfold quiet in Hq; lia|].
  destruct (tr_answers _ _ HT q) as [?|[Hh|?]]; [by left| |by right]. by rewrite Hd in Hh.
Qed.

Module QuizWitnesses.

#[local] Existing Instance decimal_dates.
Definition attempt_of (id : jstr) (rs : list (jstr * jsval)) : QuizAttempt := mkAttempt id rs None None (js "0").
Definition q1 : jstr := js "q1".
Definition q2 : jstr := js "q2".
Definition choice (s : jstr) : jsval := VStr s.

(** Two answers are given while the first is still being saved; the quiz is
    then handed in. *)
Definition answered : list Event :=
  [Choose q1 (choice (js "a")); ChainNext; Choose q1 (choice (js "b")); Choose q2 (choice (js "c"));
   SaveAnswered Stored; ChainNext; SaveAnswered Stored; ChainNext; SaveAnswered Stored; Submit true].

Lemma submission_is_complete_witness :
  let g := run answered (opened (attempt_of (js "A") [])) in
  (submissions g < submissions (handle (Proceed 3 []) g))%nat /\
  host_at (js "A") q1 (handle (Proceed 3 []) g) = Some (choice (js "b")).
Proof.
  intros g. assert (Hs : (submissions g < submissions (handle (Proceed 3 []) g))%nat)
    by (apply Nat.ltb_lt; vm_compute; reflexivity).
  split; [exact Hs|].
  destruct (submission_is_complete (attempt_of (js "A") []) answered (Proceed 3 [])) with (q := q1) as [Ht|Hh];
    [by repeat constructor|done|exact Hs| |].
  - apply list_elem_of_In in Ht. vm_compute in Ht. destruct Ht.
  - etransitivity; [exact Hh|]. vm_compute. reflexivity.
Defined.

Definition two_attempts : list Event :=
  [Choose q1 (choice (js "x")); ChainNext; Choose q1 (choice (js "y"));
   Open (mkDelivery (js "d2") None None None (Some (js "B")) None); Opened 2 0 (Ok (attempt_of (js "B") []));
   SaveAnswered Stored; Choose q1 (choice (js "z")); ChainNext; SaveAnswered Stored; ChainNext;
   Proceed 0 []; Proceed 0 []; Proceed 0 []; Submit true; Proceed 0 []].
(** Two attempts that share a question (two deliveries of one quiz), the
    second opened while a save of the first waits in the chain: the answer
    given in attempt B is sent to attempt A, the page says it is saved, and B
    is handed in without it. *)
Theorem answer_to_wrong_attempt :
  let g := run two_attempts (opened (attempt_of (js "A") [])) in
  procs g = [Submitting (js "B")] /\ message g = msg_saved /\ dirty g = [] /\
  answers g = [(q1, choice (js "z"))] /\ host_at (js "A") q1 g = Some (choice (js "z")) /\ host_at (js "B") q1 g = None.
Proof. vm_compute. repeat split; reflexivity. Qed.

(** An answer changed while [submit] works through the answers of its render
    is set back to the one it had at the click. *)
Definition changed_late : list Event :=
  [SetOnline false; Choose q1 (choice (js "a")); Choose q2 (choice (js "b")); SetOnline true;
   Submit true; Choose q2 (choice (js "c")); ChainNext; SaveAnswered Stored; ChainNext; SaveAnswered NotStored;
   ChainNext; SaveAnswered Stored; Proceed 2 []].
Theorem late_change_reverted :
  let g := run (take 6 changed_late) (opened (attempt_of (js "A") [])) in
  let g' := run changed_late (opened (attempt_of (js "A") [])) in
  assoc q2 (answers g) = Some (choice (js "c")) /\ assoc q2 (answers g') = Some (choice (js "b")).
Proof. vm_compute. split; reflexivity. Qed.
End QuizWitnesses.
