(* ===== verification/PaperLibrary.v ===== *)
(** * The library of saved papers ([apps/teacher/src/paperLibrary.ts])

    A saved paper, the input of the Host and its row are the JavaScript
    objects they are, since the code passes on what it read from the old
    database without checking it.  The old database is a list of records, or
    cannot be read; [Library] is the mark of the migration, what the Host has,
    and the migrations under way. *)

From S2P Require Import Prelude JsString JsNumber JsValue.
Local Open Scope Z_scope.

Definition BOARDS : list jstr := [js "CIE"; js "IGCSE"; js "CBSE"; js "ICSE"].
Definition SOURCE_MODES : list jstr := [js "adapt"; js "excerpt"; js "full_page"].

Definition asRecord (value : jsval) : jsval := match value with VObj ps => VObj ps | _ => VObj [] end.
Definition page_ok (page : jsval) : bool :=
  match page with
  | VNum n => is_integer n && num_lt (num 0) n && num_le n (num 10000)
  | _ => false
  end.
Definition source_of (item : jsval) : option jsval :=
  let source := asRecord item in
  match get (js "name") source with
  | VStr name =>
    Some (VObj [(js "name", VStr name);
                (js "pages", VArr (match get (js "pages") source with VArr ps => List.filter page_ok ps | _ => [] end))])
  | _ => None
  end.
Definition asSources (value : jsval) : list jsval :=
  match value with VArr items => filter_map source_of items | _ => [] end.

Definition text_or_empty (v : jsval) : jsval := match v with VStr s => VStr s | _ => VStr [] end.
Definition one_of_strings (allowed : list jstr) (v : jsval) : bool :=
  match v with VStr s => existsb (seqb s) allowed | _ => false end.
Definition is_level (v : jsval) : bool :=
  match v with VNum n => existsb (fun k => num_eq (num k) n) [1; 2; 3; 4; 5] | _ => false end.
Definition or_undefined (v : jsval) : jsval := if truthy_val v then v else VUndef.

Definition fromRow (row : jsval) : jsval :=
  let spec := asRecord (get (js "spec") row) in
  let scheme := asRecord (get (js "scheme") row) in
  let advanced := asRecord (get (js "advanced") row) in
  VObj [(js "id", get (js "id") row);
        (js "title", get (js "title") row);
        (js "subject", get (js "subject") row);
        (js "questionText", text_or_empty (get (js "questionText") spec));
        (js "questionDocument", asRecord (get (js "questionDocument") spec));
        (js "answerKeyText", text_or_empty (get (js "answerKeyText") scheme));
        (js "answerKeyDocument", asRecord (get (js "answerKeyDocument") scheme));
        (js "sources", VArr (asSources (get (js "sources") row)));
        (js "classroomId", coalesce (get (js "classroom_id") row) VUndef);
        (js "board", if one_of_strings BOARDS (get (js "board") row) then get (js "board") row else VUndef);
        (js "syllabusCode", or_undefined (get (js "syllabus_code") row));
        (js "difficulty", if is_level (get (js "difficulty") row) then get (js "difficulty") row else VUndef);
        (js "sourceMode", if one_of_strings SOURCE_MODES (get (js "source_mode") row)
                          then get (js "source_mode") row else VStr (js "adapt"));
        (js "rightsConfirmed", get (js "rights_confirmed") row);
        (js "advanced", match get (js "year") advanced with VUndef => VUndef | _ => advanced end);
        (js "paperSpec", coalesce (get (js "paper") spec) VUndef);
        (js "createdAt", get (js "created_at") row);
        (js "updatedAt", get (js "updated_at") row)].

Definition spec_of (paper : jsval) : jsval :=
  VObj [(js "paper", coalesce (get (js "paperSpec") paper) VNull);
        (js "questionText", get (js "questionText") paper);
        (js "questionDocument", get (js "questionDocument") paper)].
Definition toInput (paper : jsval) : jsval :=
  VObj [(js "classroom_id", coalesce (get (js "classroomId") paper) VNull);
        (js "title", get (js "title") paper);
        (js "subject", get (js "subject") paper);
        (js "board", coalesce (get (js "board") paper) (VStr []));
        (js "syllabus_code", coalesce (get (js "syllabusCode") paper) (VStr []));
        (js "difficulty", coalesce (get (js "difficulty") paper) (VNum (num 3)));
        (js "source_mode", coalesce (get (js "sourceMode") paper) (VStr (js "adapt")));
        (js "rights_confirmed", coalesce (get (js "rightsConfirmed") paper) (VBool false));
        (js "spec", spec_of paper);
        (js "scheme", VObj [(js "answerKeyText", get (js "answerKeyText") paper);
                            (js "answerKeyDocument", get (js "answerKeyDocument") paper)]);
        (js "sources", get (js "sources") paper);
        (js "advanced", coalesce (get (js "advanced") paper) (VObj []))].

(** ** The move to the Host *)

Definition local_paper (record : jsval) : option jsval :=
  let paper := asRecord record in
  if is_string (get (js "id") paper) && is_string (get (js "title") paper) then Some paper else None.
(** [readLocalPapers]: [None] when the database cannot be read. *)
Definition readLocalPapers (records : option (list jsval)) : option (list jsval) := filter_map local_paper <$> records.

(** [/^[0-9a-f-]{36}$/i]. *)
Definition is_host_id (s : jstr) : bool :=
  Nat.eqb (length s) 36 &&
  forallb (fun c => is_digit c || (in_range 97 102 (ascii_lower c)) || (c =? 45)%N) s.

(** [uuid n] is the [n]-th result of [crypto.randomUUID]. *)
Section migration.
Context (uuid : nat -> jstr) (records : option (list jsval)).

Record Library := mkLibrary {
  moved : bool;
  papers : list (jstr * jsval);
  drawn : nat;
  moving : list (list jsval)
}.

(** What is next after a paper: another one, or the mark. *)
Definition carry_on (rest : list jsval) (i : nat) (l : Library) : Library :=
  match rest with
  | [] => mkLibrary true (papers l) (drawn l) (take i (moving l) ++ drop (S i) (moving l))
  | _ => mkLibrary (moved l) (papers l) (drawn l) (<[i := rest]> (moving l))
  end.
Definition migrateLocalPapers (l : Library) : Library :=
  if moved l then l
  else match readLocalPapers records with
       | None => mkLibrary true (papers l) (drawn l) (moving l)
       | Some [] => mkLibrary true (papers l) (drawn l) (moving l)
       | Some local => mkLibrary (moved l) (papers l) (drawn l) (moving l ++ [local])
       end.
(** The answer to the request migration [i] waits for. *)
Definition paper_answered (i : nat) (ok : bool) (l : Library) : Library :=
  match moving l !! i with
  | Some (paper :: rest) =>
    let own := default [] (as_string (get (js "id") paper)) in
    let '(id, n) := if is_host_id own then (own, drawn l) else (uuid (drawn l), S (drawn l)) in
    carry_on rest i (mkLibrary (moved l) (if ok then set_prop id (toInput paper) (papers l) else papers l) n (moving l))
  | _ => l
  end.

Inductive Event := List_ | Answered (i : nat) (ok : bool).
Definition handle (e : Event) (l : Library) : Library :=
  match e with List_ => migrateLocalPapers l | Answered i ok => paper_answered i ok l end.
Definition run (es : list Event) (l : Library) : Library := fold_left (fun l e => handle e l) es l.
Definition library0 : Library := mkLibrary false [] 0 [].
End migration.

(** [listSavedQuestionPapers], once nothing is moving. *)
Definition listSavedQuestionPapers (rows : list jsval) : list jsval := fromRow <$> rows.

(** ** Properties *)

Module LibraryFacts.

(** A row keeps what was sent: the members of the input are stored and
    returned as they are. *)
Definition keeps (row input : jsval) : Prop := forall k, get k input <> VUndef -> get k row = get k input.

Definition citation_ok (v : jsval) : Prop :=
  exists name ps, v = VObj [(js "name", VStr name); (js "pages", VArr (VNum <$> (num <$> ps)))] /\
                  Forall (fun p => 0 < p <= 10000) ps.
Definition absent_or (P : jsval -> Prop) (v : jsval) : Prop := v = VUndef \/ P v.

(** A paper as the editor makes it. *)
Record paper_ok (p : jsval) : Prop := {
  po_texts : Forall (fun k => exists s, get k p = VStr s) [js "title"; js "subject"; js "questionText"; js "answerKeyText"];
  po_docs : Forall (fun k => json_ok (get k p) /\ is_record (get k p) = true) [js "questionDocument"; js "answerKeyDocument"];
  po_sources : exists l, get (js "sources") p = VArr l /\ Forall citation_ok l;
  po_classroom : absent_or (fun v => is_string v = true) (get (js "classroomId") p);
  po_board : absent_or (fun v => one_of_strings BOARDS v = true) (get (js "board") p);
  po_syllabus : absent_or (fun v => exists c s, v = VStr (c :: s)) (get (js "syllabusCode") p);
  po_difficulty : exists k, get (js "difficulty") p = VNum (num k) /\ 1 <= k <= 5;
  po_mode : one_of_strings SOURCE_MODES (get (js "sourceMode") p) = true;
  po_rights : exists b, get (js "rightsConfirmed") p = VBool b;
  po_advanced : absent_or (fun v => json_ok v /\ is_record v = true /\ get (js "year") v <> VUndef) (get (js "advanced") p);
  po_spec : absent_or (fun v => json_ok v /\ v <> VNull) (get (js "paperSpec") p)
}.
Definition paper_fields : list jstr :=
  [js "title"; js "subject"; js "questionText"; js "questionDocument"; js "answerKeyText"; js "answerKeyDocument";
   js "sources"; js "classroomId"; js "board"; js "syllabusCode"; js "difficulty"; js "sourceMode";
   js "rightsConfirmed"; js "advanced"; js "paperSpec"].

Lemma page_num p : 0 < p <= 10000 -> page_ok (VNum (num p)) = true.
Proof.
  intros Hp. unfold page_ok. rewrite is_integer_Z, num_lt_Z, num_le_Z. lia.
Qed.
Lemma source_citation v : citation_ok v -> source_of v = Some v.
Proof.
  intros (name & ps & -> & Hps). unfold source_of. cbn [asRecord].
  change (get (js "name") (VObj [(js "name", VStr name); (js "pages", VArr (VNum <$> (num <$> ps)))])) with (VStr name).
  change (get (js "pages") (VObj [(js "name", VStr name); (js "pages", VArr (VNum <$> (num <$> ps)))]))
    with (VArr (VNum <$> (num <$> ps))). cbn iota. do 4 f_equal. f_equal. f_equal. f_equal.
  induction Hps as [|p ps Hp _ IH]; [done|]. cbn [fmap list_fmap List.filter]. by rewrite page_num, IH.
Qed.
Lemma asSources_citations l : Forall citation_ok l -> asSources (VArr l) = l.
Proof.
  cbn. induction 1 as [|v l Hv _ IH]; [done|]. cbn [filter_map]. by rewrite (source_citation v Hv), IH.
Qed.
Lemma citation_json v : citation_ok v -> json_ok v.
Proof.
  intros (name & ps & -> & Hps). constructor; [apply (bool_decide_unpack _); vm_compute; exact I|].
  repeat constructor. apply Forall_fmap, Forall_fmap. eapply Forall_impl; [exact Hps|].
  intros p Hp. apply (ok_int p). cbn beta in Hp. lia.
Qed.
Lemma asRecord_id v : is_record v = true -> asRecord v = v.
Proof. by destruct v. Qed.
Lemma one_of_coalesce allowed v d : one_of_strings allowed v = true -> coalesce v d = v.
Proof. by destruct v. Qed.
Lemma one_of_json allowed v : one_of_strings allowed v = true -> json_ok v.
Proof. destruct v; try done. constructor. Qed.

(** The members of the input, of the row made of it, and of the paper read. *)
Lemma get_here k v ps : get k (VObj ((k, v) :: ps)) = v.
Proof. cbn. by rewrite seqb_refl. Qed.
Lemma get_next k k' v ps : seqb k' k = false -> get k (VObj ((k', v) :: ps)) = get k (VObj ps).
Proof. cbn. by intros ->. Qed.
Ltac member := repeat first [rewrite get_here | rewrite get_next by (vm_compute; reflexivity)].

Lemma coalesced v d : json_ok d -> (v = VUndef \/ json_ok v) -> json_ok (coalesce v d).
Proof. intros Hd [->|Hv]; [exact Hd|]. destruct v; cbn; assumption. Qed.
Lemma absent_json (P : jsval -> Prop) v d : json_ok d -> (forall v, P v -> json_ok v) -> absent_or P v -> json_ok (coalesce v d).
Proof. intros Hd HP Hv. apply coalesced; [exact Hd|]. destruct Hv as [Hv|Hv]; [by left|right; by apply HP]. Qed.
Lemma string_json v : is_string v = true -> json_ok v.
Proof. destruct v; try done. constructor. Qed.

Section saved.
Context (p : jsval) (Hp : paper_ok p).

Lemma text_member k : k ∈ [js "title"; js "subject"; js "questionText"; js "answerKeyText"] -> exists s, get k p = VStr s.
Proof. intros Hk. pose proof (po_texts p Hp) as H. rewrite Forall_forall in H. by apply H. Qed.
Lemma doc_member k : k ∈ [js "questionDocument"; js "answerKeyDocument"] -> json_ok (get k p) /\ is_record (get k p) = true.
Proof. intros Hk. pose proof (po_docs p Hp) as H. rewrite Forall_forall in H. by apply H. Qed.
Ltac here := apply (bool_decide_unpack _); vm_compute; exact I.

Lemma text_json k : k ∈ [js "title"; js "subject"; js "questionText"; js "answerKeyText"] -> json_ok (get k p).
Proof. intros [s ->]%text_member. constructor. Qed.

Lemma input_json : json_ok (toInput p).
Proof.
  assert (Hs : forall v, one_of_strings SOURCE_MODES v = true -> json_ok v) by (intros v; apply one_of_json).
  constructor; [apply (bool_decide_unpack _); vm_compute; exact I|]. unfold spec_of.
  repeat (apply Forall_cons; split; cbn [snd]); [..|constructor].
  - eapply absent_json; [constructor|apply string_json|apply (po_classroom p Hp)].
  - apply text_json; here.
  - apply text_json; here.
  - eapply absent_json; [constructor|apply one_of_json|apply (po_board p Hp)].
  - eapply absent_json; [constructor| |apply (po_syllabus p Hp)]. intros v (c & s & ->). constructor.
  - destruct (po_difficulty p Hp) as (k & -> & Hk). apply (ok_int k). lia.
  - apply coalesced; [constructor|]. right. apply Hs, (po_mode p Hp).
  - destruct (po_rights p Hp) as (b & ->). constructor.
  - constructor; [apply (bool_decide_unpack _); vm_compute; exact I|].
    repeat (apply Forall_cons; split; cbn [snd]); [| | |constructor].
    + eapply absent_json; [constructor| |apply (po_spec p Hp)]. by intros v [? _].
    + apply text_json; here.
    + apply doc_member; here.
  - constructor; [apply (bool_decide_unpack _); vm_compute; exact I|].
    repeat (apply Forall_cons; split; cbn [snd]); [| |constructor].
    + apply text_json; here.
    + apply doc_member; here.
  - destruct (po_sources p Hp) as (l & -> & Hl). constructor. eapply Forall_impl; [exact Hl|apply citation_json].
  - eapply absent_json; [repeat constructor| |apply (po_advanced p Hp)]. by intros v [? _].
Qed.

Context (row : jsval) (Hrow : keeps row (toInput p)).

Lemma row_member k : json_ok (get k (toInput p)) -> get k row = get k (toInput p).
Proof. intros Hk. apply Hrow. by destruct Hk. Qed.
Lemma kept k v : get k (toInput p) = v -> json_ok v -> get k row = v.
Proof. intros E Hv. rewrite <- E in *. by apply row_member. Qed.

(** Each member of the row, and of the objects inside. *)
Lemma row_spec : get (js "spec") row = spec_of p.
Proof. apply kept; [reflexivity|]. pose proof input_json as Hj. inversion Hj as [| | | | |ps _ Hps]; subst.
  do 8 apply Forall_inv_tail in Hps. exact (Forall_inv Hps). Qed.
Lemma row_scheme : get (js "scheme") row =
  VObj [(js "answerKeyText", get (js "answerKeyText") p); (js "answerKeyDocument", get (js "answerKeyDocument") p)].
Proof. apply kept; [reflexivity|]. pose proof input_json as Hj. inversion Hj as [| | | | |ps _ Hps]; subst.
  do 9 apply Forall_inv_tail in Hps. exact (Forall_inv Hps). Qed.

Lemma read_texts : get (js "title") (fromRow row) = get (js "title") p /\
  get (js "subject") (fromRow row) = get (js "subject") p /\
  get (js "questionText") (fromRow row) = get (js "questionText") p /\
  get (js "answerKeyText") (fromRow row) = get (js "answerKeyText") p.
Proof.
  split_and!.
  - apply kept; [reflexivity|apply text_json; here].
  - apply kept; [reflexivity|apply text_json; here].
  - change (text_or_empty (get (js "questionText") (asRecord (get (js "spec") row))) = get (js "questionText") p).
    rewrite row_spec. cbn [asRecord spec_of]. member.
    destruct (text_member (js "questionText")) as [s ->]; [here|done].
  - change (text_or_empty (get (js "answerKeyText") (asRecord (get (js "scheme") row))) = get (js "answerKeyText") p).
    rewrite row_scheme. cbn [asRecord]. member.
    destruct (text_member (js "answerKeyText")) as [s ->]; [here|done].
Qed.
Lemma read_documents : get (js "questionDocument") (fromRow row) = get (js "questionDocument") p /\
  get (js "answerKeyDocument") (fromRow row) = get (js "answerKeyDocument") p.
Proof.
  split.
  - change (asRecord (get (js "questionDocument") (asRecord (get (js "spec") row))) = get (js "questionDocument") p).
    rewrite row_spec. cbn [asRecord spec_of]. member. apply asRecord_id, doc_member. here.
  - change (asRecord (get (js "answerKeyDocument") (asRecord (get (js "scheme") row))) = get (js "answerKeyDocument") p).
    rewrite row_scheme. cbn [asRecord]. member. apply asRecord_id, doc_member. here.
Qed.
Lemma read_choices : get (js "classroomId") (fromRow row) = get (js "classroomId") p /\
  get (js "board") (fromRow row) = get (js "board") p /\
  get (js "syllabusCode") (fromRow row) = get (js "syllabusCode") p /\
  get (js "difficulty") (fromRow row) = get (js "difficulty") p /\
  get (js "sourceMode") (fromRow row) = get (js "sourceMode") p /\
  get (js "rightsConfirmed") (fromRow row) = get (js "rightsConfirmed") p.
Proof.
  split_and!.
  - change (coalesce (get (js "classroom_id") row) VUndef = get (js "classroomId") p).
    rewrite (kept (js "classroom_id") (coalesce (get (js "classroomId") p) VNull)) by
      (reflexivity || (eapply absent_json; [constructor|apply string_json|apply (po_classroom p Hp)])).
    destruct (po_classroom p Hp) as [->|H]; [done|]. by destruct (get (js "classroomId") p).
  - change ((if one_of_strings BOARDS (get (js "board") row) then get (js "board") row else VUndef) = get (js "board") p).
    rewrite (kept (js "board") (coalesce (get (js "board") p) (VStr []))) by
      (reflexivity || (eapply absent_json; [constructor|apply one_of_json|apply (po_board p Hp)])).
    destruct (po_board p Hp) as [->|H]; [vm_compute; reflexivity|].
    rewrite (one_of_coalesce _ _ _ H). by rewrite H.
  - change (or_undefined (get (js "syllabus_code") row) = get (js "syllabusCode") p).
    rewrite (kept (js "syllabus_code") (coalesce (get (js "syllabusCode") p) (VStr []))); [|reflexivity|].
    + by destruct (po_syllabus p Hp) as [->|(c & s & ->)].
    + eapply absent_json; [constructor| |apply (po_syllabus p Hp)]. intros v (c & s & ->). constructor.
  - change ((if is_level (get (js "difficulty") row) then get (js "difficulty") row else VUndef) = get (js "difficulty") p).
    destruct (po_difficulty p Hp) as (k & E & Hk).
    rewrite (kept (js "difficulty") (VNum (num k))), E; [|change (coalesce (get (js "difficulty") p) (VNum (num 3)) = VNum (num k)); by rewrite E|apply ok_int; lia].
    replace (is_level (VNum (num k))) with true; [done|]. symmetry. cbn [is_level existsb]. rewrite !num_eq_Z. lia.
  - change ((if one_of_strings SOURCE_MODES (get (js "source_mode") row) then get (js "source_mode") row
             else VStr (js "adapt")) = get (js "sourceMode") p).
    pose proof (po_mode p Hp) as H.
    rewrite (kept (js "source_mode") (get (js "sourceMode") p)), H; [done| |by eapply one_of_json].
    change (coalesce (get (js "sourceMode") p) (VStr (js "adapt")) = get (js "sourceMode") p). by eapply one_of_coalesce.
  - destruct (po_rights p Hp) as (b & E). rewrite E. apply kept; [|constructor].
    change (coalesce (get (js "rightsConfirmed") p) (VBool false) = VBool b). by rewrite E.
Qed.
Lemma read_contents : get (js "sources") (fromRow row) = get (js "sources") p /\
  get (js "advanced") (fromRow row) = get (js "advanced") p /\
  get (js "paperSpec") (fromRow row) = get (js "paperSpec") p.
Proof.
  split_and!.
  - change (VArr (asSources (get (js "sources") row)) = get (js "sources") p).
    destruct (po_sources p Hp) as (l & E & Hl). rewrite E.
    rewrite (kept (js "sources") (VArr l)); [by rewrite asSources_citations|exact E|].
    constructor. eapply Forall_impl; [exact Hl|apply citation_json].
  - change ((match get (js "year") (asRecord (get (js "advanced") row)) with
             | VUndef => VUndef | _ => asRecord (get (js "advanced") row) end) = get (js "advanced") p).
    rewrite (kept (js "advanced") (coalesce (get (js "advanced") p) (VObj []))); [|reflexivity|].
    + destruct (po_advanced p Hp) as [->|(_ & Hr & Hy)]; [done|].
      destruct (get (js "advanced") p) as [| | | | | |ps]; try done. cbn [coalesce asRecord].
      by destruct (get (js "year") (VObj ps)).
    + eapply absent_json; [repeat constructor| |apply (po_advanced p Hp)]. by intros v [? _].
  - change (coalesce (get (js "paper") (asRecord (get (js "spec") row))) VUndef = get (js "paperSpec") p).
    rewrite row_spec. cbn [asRecord spec_of]. member.
    destruct (po_spec p Hp) as [->|[_ Hn]]; [done|]. by destruct (get (js "paperSpec") p).
Qed.
End saved.
End LibraryFacts.
Import LibraryFacts.

(** A paper saved on the Host is the paper read back: what is sent is the text
    of its input, and from any row that keeps the members of that input
    [fromRow] makes a paper with the same title, texts, documents, sources,
    classroom, board, syllabus, difficulty, mode, rights, options and
    specification. *)
Theorem saved_paper_reads_back (p : jsval) :
  paper_ok p ->
  parse_json (stringify (toInput p)) = Some (toInput p) /\
  forall row, keeps row (toInput p) -> forall k, k ∈ paper_fields -> get k (fromRow row) = get k p.
Proof.
  intros Hp. split; [by apply parse_stringify, input_json|]. intros row Hrow k Hk.
  destruct (read_texts p Hp row Hrow) as (? & ? & ? & ?). destruct (read_documents p Hp row Hrow) as (? & ?).
  destruct (read_choices p Hp row Hrow) as (? & ? & ? & ? & ? & ?). destruct (read_contents p Hp row Hrow) as (? & ? & ?).
  unfold paper_fields in Hk. repeat (apply elem_of_cons in Hk as [->|Hk]; [assumption|]). by apply elem_of_nil in Hk.
Qed.

Module Migration.
Section once.
Context (uuid : nat -> jstr).

(** The ids under which local papers go up. *)
Fixpoint assign (n : nat) (ps : list jsval) : list jstr :=
  match ps with
  | [] => []
  | p :: ps =>
    let own := default [] (as_string (get (js "id") p)) in
    if is_host_id own then own :: assign n ps else uuid n :: assign (S n) ps
  end.
Fixpoint accepted (ids : list jstr) (ps : list jsval) (oks : list bool) : list (jstr * jsval) :=
  match ids, ps, oks with
  | i :: ids, p :: ps, ok :: oks => (if ok then [(i, toInput p)] else []) ++ accepted ids ps oks
  | _, _, _ => []
  end.

Lemma accepted_ids ids ps oks q : q ∈ (accepted ids ps oks).*1 -> q ∈ ids.
Proof.
  revert ps oks. induction ids as [|i ids IH]; intros [|p ps] [|ok oks]; cbn [accepted]; try by intros ?%elem_of_nil.
  rewrite fmap_app, elem_of_app, elem_of_cons. destruct ok; cbn.
  - intros [->%list_elem_of_singleton|?]; [by left|right; by eapply IH].
  - intros [?%elem_of_nil|?]; [done|right; by eapply IH].
Qed.

Lemma answers_move records oks ps n done :
  ps <> [] -> length oks = length ps -> NoDup (done.*1 ++ assign n ps) ->
  exists n', run uuid records (Answered 0 <$> oks) (mkLibrary false done n [ps]) =
    mkLibrary true (done ++ accepted (assign n ps) ps oks) n' [].
Proof.
  revert oks n done. induction ps as [|p ps IH]; intros [|ok oks] n done Hne Hlen Hnd; [by destruct Hne|discriminate|discriminate|].
  apply eq_add_S in Hlen. cbn [fmap list_fmap run fold_left handle]. unfold paper_answered. cbn [moving lookup list_lookup].
  set (own := default [] (as_string (get (js "id") p))) in *. cbn [assign] in *. fold own in Hnd |- *.
  set (id := if is_host_id own then own else uuid n). set (m := if is_host_id own then n else S n).
  replace (if is_host_id own then (own, drawn (mkLibrary false done n [p :: ps])) else
    (uuid (drawn (mkLibrary false done n [p :: ps])), S (drawn (mkLibrary false done n [p :: ps])))) with (id, m)
    by (unfold id, m; by destruct (is_host_id own)).
  replace (if is_host_id own then own :: assign n ps else uuid n :: assign (S n) ps) with (id :: assign m ps)
    in * by (unfold id, m; by destruct (is_host_id own)).
  apply NoDup_app in Hnd as (Hd & Hx & Hr). apply NoDup_cons in Hr as [Hid Hr].
  assert (Hfresh : ~ id ∈ done.*1) by (intros Hin; apply (Hx id Hin); by left).
  assert (E : (if ok then set_prop id (toInput p) done else done) = done ++ (if ok then [(id, toInput p)] else [])).
  { destruct ok; [by apply set_prop_fresh|by rewrite app_nil_r]. }
  cbn [papers moved]. rewrite E. cbn [accepted]. rewrite app_assoc.
  destruct ps as [|p' ps].
  - destruct oks; [|done]. exists m. cbn. by rewrite app_nil_r.
  - cbn [carry_on moved papers drawn moving list_insert insert]. apply (IH oks m); [done|done|].
    rewrite fmap_app. apply NoDup_app. split_and!.
    + apply NoDup_app. split_and!; [done| |destruct ok; [apply NoDup_singleton|constructor]].
      destruct ok; cbn; intros x Hin; [intros ->%list_elem_of_singleton; done|by intros ?%elem_of_nil].
    + intros x [Hin|Hin]%elem_of_app Ha; [by apply (Hx x Hin); right|].
      destruct ok; cbn in Hin; [apply list_elem_of_singleton in Hin as ->; done|by apply elem_of_nil in Hin].
    + done.
Qed.
Lemma moved_stays records l es : moved l = true -> moving l = [] -> run uuid records es l = l.
Proof.
  intros H1 H2. induction es as [|e es IH]; [done|]. cbn [run fold_left].
  replace (handle uuid records e l) with l; [exact IH|]. destruct e as [|i ok]; cbn [handle].
  - unfold migrateLocalPapers. by rewrite H1.
  - unfold paper_answered. by rewrite H2.
Qed.
End once.
End Migration.
Import Migration.

(** C40. The old library goes up once, where the first listing of the papers is
    over before another begins: after it and the answers to what it sent, the
    Host has gained exactly the local papers it accepted, each under its own id
    or a new one, in their order, and whatever is asked afterwards nothing is
    sent again, not even the papers the Host could not take. *)
Theorem migration_runs_once (uuid : nat -> jstr) (records : option (list jsval)) (ps : list jsval) (oks : list bool) :
  readLocalPapers records = Some ps -> ps <> [] -> length oks = length ps -> NoDup (assign uuid 0 ps) ->
  let l := run uuid records (List_ :: (Answered 0 <$> oks)) library0 in
  moved l = true /\ papers l = accepted (assign uuid 0 ps) ps oks /\
  forall es, run uuid records es l = l.
Proof.
  intros Hr Hne Hlen Hnd.
  assert (Es : migrateLocalPapers records library0 = mkLibrary false [] 0 [ps])
    by (unfold migrateLocalPapers; rewrite Hr; by destruct ps).
  destruct (answers_move uuid records oks ps 0 [] Hne Hlen Hnd) as (n & E).
  assert (El : run uuid records (List_ :: (Answered 0 <$> oks)) library0 =
               mkLibrary true (accepted (assign uuid 0 ps) ps oks) n []) by (cbn [run fold_left handle]; by rewrite Es).
  intros l. subst l. rewrite El. split_and!; [done|done|]. intros es. by apply moved_stays.
Qed.

Module LibraryWitnesses.

Definition doc : jsval := VObj [(js "type", VStr (js "doc"))].
Definition paper_named (id : jstr) : jsval :=
  VObj [(js "id", VStr id); (js "title", VStr (js "Mock")); (js "subject", VStr (js "Physics"));
        (js "questionText", VStr (js "1. Why?")); (js "questionDocument", doc);
        (js "answerKeyText", VStr (js "Because.")); (js "answerKeyDocument", doc);
        (js "sources", VArr [VObj [(js "name", VStr (js "Notes")); (js "pages", VArr (VNum <$> (num <$> [1; 2])))]]);
        (js "board", VStr (js "CIE")); (js "difficulty", VNum (num 4)); (js "sourceMode", VStr (js "excerpt"));
        (js "rightsConfirmed", VBool true);
        (js "paperSpec", VObj [(js "questions", VArr [VObj [(js "answer", VStr (js "Because."))]])])].

Lemma mock_ok : paper_ok (paper_named (js "p")).
Proof.
  split.
  - repeat (apply Forall_cons; split; [eexists; vm_compute; reflexivity|]). constructor.
  - repeat (apply Forall_cons; split; [split; [|vm_compute; reflexivity]|]); [..|constructor];
      (constructor; [apply (bool_decide_unpack _); vm_compute; exact I|repeat constructor]).
  - eexists. split; [vm_compute; reflexivity|]. repeat constructor. exists (js "Notes"), [1; 2].
    split; [vm_compute; reflexivity|]. repeat constructor; lia.
  - by left.
  - right. vm_compute. reflexivity.
  - by left.
  - exists 4. split; [vm_compute; reflexivity|lia].
  - vm_compute. reflexivity.
  - exists true. vm_compute. reflexivity.
  - by left.
  - right. split; [|vm_compute; discriminate].
    repeat (constructor; try (apply (bool_decide_unpack _); vm_compute; exact I)).
Qed.
Lemma saved_paper_reads_back_witness :
  let p := paper_named (js "p") in
  get (js "difficulty") (fromRow (toInput p)) = VNum (num 4) /\ get (js "sources") (fromRow (toInput p)) = get (js "sources") p.
Proof.
  intros p. destruct (saved_paper_reads_back p mock_ok) as [_ H]. split.
  - etransitivity; [apply (H (toInput p)); [by intros k Hk|apply (bool_decide_unpack _); vm_compute; exact I]|vm_compute; reflexivity].
  - apply (H (toInput p)); [by intros k Hk|apply (bool_decide_unpack _); vm_compute; exact I].
Defined.

Definition uuids (n : nat) : jstr := js "00000000-0000-0000-0000-00000000000" ++ show_Z (Z.of_nat n).
Definition old_library : option (list jsval) := Some [paper_named (js "old-1"); VNull; paper_named (js "old-2")].
Lemma migration_runs_once_witness :
  (papers (run uuids old_library (List_ :: (Answered 0 <$> [false; true])) library0)).*1 = [uuids 1] /\
  forall es, let l := run uuids old_library (List_ :: (Answered 0 <$> [false; true])) library0 in
    run uuids old_library es l = l.
Proof.
  destruct (migration_runs_once uuids old_library [paper_named (js "old-1"); paper_named (js "old-2")] [false; true])
    as (_ & E & H).
  - vm_compute. reflexivity.
  - discriminate.
  - reflexivity.
  - apply (bool_decide_unpack _). vm_compute. exact I.
  - split; [|exact H]. etransitivity; [apply (f_equal (fmap fst)); exact E|]. vm_compute. reflexivity.
Defined.

(** Two lists that overlap, as in a double mount, move a paper twice: each
    draws an id of its own. *)
Theorem overlapping_lists_duplicate :
  let l := run uuids (Some [paper_named (js "old-1")]) [List_; List_; Answered 0 true; Answered 0 true] library0 in
  (papers l).*1 = [uuids 0; uuids 1].
Proof. vm_compute. reflexivity. Qed.

(** The marking scheme also travels in the column of the question paper: the
    specification is sent as it is, with the answers of its questions. *)
Theorem spec_carries_answers :
  get (js "paper") (get (js "spec") (toInput (paper_named (js "p")))) =
  VObj [(js "questions", VArr [VObj [(js "answer", VStr (js "Because."))]])].
Proof. vm_compute. reflexivity. Qed.
End LibraryWitnesses.
