(* ===== verification/PaperExport.v ===== *)
(** * Printing a paper ([apps/teacher/src/paperExport.ts])

    The layout of the PDF: what is drawn on which page and where.  Lengths are
    whole thousandths of a point, in which every constant of the file is
    exact.  What pdf-lib and the browser measure is a parameter: the width of
    a text in the regular or bold font, the size a picture is drawn at, and
    Unicode's compatibility decomposition.  Colours are left out. *)

From S2P Require Import Prelude JsString JsNumber Regex JsValue PaperLogic PaperFacts.
Import Pages Clean Diagrams Normalise Text StudentCopy.
Local Open Scope Z_scope.

Definition A4_WIDTH : Z := 595280.
Definition A4_HEIGHT : Z := 841890.
Definition PAGE_MARGIN : Z := 52000.
Definition CONTENT_BOTTOM : Z := 48000.
Definition contentWidth : Z := A4_WIDTH - PAGE_MARGIN * 2.
Definition SCHEME_SIZE : Z := 8600.
Definition SCHEME_LINE_HEIGHT : Z := 11000.

Inductive Kind := QuestionCopy | AnswerCopy.

(** What becomes of a diagram: drawn at a size, skipped, or an error. *)
Inductive Figure := Drawn (width height : Z) | Skipped | Failed.

Class Engine := {
  widthOfTextAtSize : bool -> jstr -> Z -> Z;
  figure : PaperDiagram -> Figure;
  nfkd : jstr -> jstr
}.

(** ** Text the standard fonts can show *)

Definition CHARACTER_REPLACEMENTS : list (N * jstr) :=
  [(0x2018, js "'"); (0x2019, js "'"); (0x201c, [34]); (0x201d, [34]); (0x2013, js "-"); (0x2014, js "-");
   (0x2026, js "..."); (0x2022, js "-"); (0xd7, js "x"); (0xf7, js "/"); (0x2264, js "<="); (0x2265, js ">=");
   (0x2260, js "!="); (0xb1, js "+/-"); (0x20b9, js "Rs."); (0x3a9, js "ohm"); (0x3b1, js "alpha");
   (0x3b2, js "beta"); (0x3b3, js "gamma"); (0x3b4, js "delta"); (0x3b8, js "theta"); (0x3bb, js "lambda");
   (0x3bc, js "mu"); (0x3c0, js "pi"); (0x3c3, js "sigma"); (0x3c6, js "phi"); (0x3c9, js "omega");
   (0xb2, js "^2"); (0xb3, js "^3")]%N.
Definition replacement (c : N) : jstr :=
  match find (fun p => N.eqb (fst p) c) CHARACTER_REPLACEMENTS with Some p => snd p | None => [c] end.
(** [[\x20-\x7e\u00b0]]. *)
Definition printable (c : N) : bool := in_range 0x20 0x7e c || (c =? 0xb0)%N.
Definition pdfSafeText `{Engine} (value : jstr) : jstr :=
  (fun c => if printable c then c else 63%N) <$>
  List.filter (fun c => negb (in_range 0x300 0x36f c)) (nfkd (flat_map replacement value)).

(** [s.trim().split(/\s+/).filter(Boolean)]. *)
Fixpoint words_from (word : jstr) (s : jstr) : list jstr :=
  match s with
  | [] => match word with [] => [] | _ => [word] end
  | c :: s => if is_space c then match word with [] => words_from [] s | _ => word :: words_from [] s end
              else words_from (word ++ [c]) s
  end.
Definition words (s : jstr) : list jstr := words_from [] s.

Section engine.
Context `{Engine}.

(** A word too wide for a line, character by character: the lines it fills
    and what is left over. *)
Fixpoint break_word (fits : jstr -> bool) (fragment word : jstr) : list jstr * jstr :=
  match word with
  | [] => ([], fragment)
  | c :: word =>
    if negb (fits (fragment ++ [c])) && truthy fragment
    then let '(ls, rest) := break_word fits [c] word in (fragment :: ls, rest)
    else break_word fits (fragment ++ [c]) word
  end.
Fixpoint wrap_words (fits : jstr -> bool) (line : jstr) (ws : list jstr) : list jstr :=
  match ws with
  | [] => match line with [] => [] | _ => [line] end
  | word :: ws =>
    let candidate := if truthy line then line ++ js " " ++ word else word in
    if fits candidate then wrap_words fits candidate ws
    else
      (if truthy line then [line] else []) ++
      (if fits word then wrap_words fits word ws
       else let '(ls, rest) := break_word fits [] word in ls ++ wrap_words fits rest ws)
  end.
Definition fits_in (maxWidth : Z) (strong : bool) (size : Z) (text : jstr) : bool :=
  widthOfTextAtSize strong text size <=? maxWidth.
Definition wrapLine (value : jstr) (maxWidth : Z) (strong : bool) (size : Z) : list jstr :=
  match words (pdfSafeText value) with
  | [] => [[]]
  | ws => wrap_words (fits_in maxWidth strong size) [] ws
  end.

(** ** Drawing *)

Inductive Drawing :=
  | Text (x y size : Z) (strong : bool) (text : jstr)
  | Rule (x1 x2 y : Z)
  | Picture (x y width height : Z).

(** The pages before the current one, the current one, and the baseline. *)
Record Layout := mkLayout { finished : list (list Drawing); page : list Drawing; y : Z }.
Definition draw (d : Drawing) (l : Layout) : Layout := mkLayout (finished l) (page l ++ [d]) (y l).
Definition when (b : bool) (f : Layout -> Layout) (l : Layout) : Layout := if b then f l else l.
Definition down (h : Z) (l : Layout) : Layout := mkLayout (finished l) (page l) (y l - h).

Record Options := mkOptions { o_x : Z; o_width : Z; o_size : Z; o_lineHeight : Z; o_strong : bool; o_gapAfter : Z }.
(** [options.lineHeight ?? size * 1.42]. *)
Definition default_height (size : Z) : Z := size * 142 / 100.
Definition plain : Options := mkOptions PAGE_MARGIN contentWidth 10500 (default_height 10500) false 0.
Definition sized (size : Z) (o : Options) : Options :=
  mkOptions (o_x o) (o_width o) size (default_height size) (o_strong o) (o_gapAfter o).
Definition spaced (lineHeight : Z) (o : Options) : Options :=
  mkOptions (o_x o) (o_width o) (o_size o) lineHeight (o_strong o) (o_gapAfter o).
Definition at_x (x width : Z) (o : Options) : Options :=
  mkOptions x width (o_size o) (o_lineHeight o) (o_strong o) (o_gapAfter o).
Definition bold (o : Options) : Options :=
  mkOptions (o_x o) (o_width o) (o_size o) (o_lineHeight o) true (o_gapAfter o).
Definition gap (g : Z) (o : Options) : Options :=
  mkOptions (o_x o) (o_width o) (o_size o) (o_lineHeight o) (o_strong o) g.

Section document.
Context (metadata : PaperMetadata) (kind : Kind).
Definition for_answers : bool := match kind with AnswerCopy => true | QuestionCopy => false end.

Definition drawCustomHeader (l : Layout) : Layout :=
  match trim (default [] (headerText metadata)) with
  | [] => l
  | header =>
    down 7000 (fold_left (fun l line => down 11000 (draw (Text PAGE_MARGIN (y l) 8500 true line) l))
                 (wrapLine header contentWidth true 8500) l)
  end.
Definition newPage (l : Layout) : Layout :=
  let l := mkLayout (finished l ++ [page l]) [] (A4_HEIGHT - PAGE_MARGIN) in
  if default false (repeatHeader metadata) then drawCustomHeader l else l.
Definition ensureSpace (height : Z) (l : Layout) : Layout :=
  if y l - height <? CONTENT_BOTTOM then newPage l else l.

Definition draw_lines (o : Options) (lines : list jstr) (l : Layout) : Layout :=
  fold_left (fun l line => down (o_lineHeight o) (draw (Text (o_x o) (y l) (o_size o) (o_strong o) line) l)) lines l.
Definition wrappedHeight (value : jstr) (o : Options) : Z :=
  Z.of_nat (length (wrapLine value (o_width o) (o_strong o) (o_size o))) * o_lineHeight o + o_gapAfter o.
Definition drawWrapped (value : jstr) (o : Options) (l : Layout) : Layout :=
  let lines := wrapLine value (o_width o) (o_strong o) (o_size o) in
  down (o_gapAfter o) (draw_lines o lines (ensureSpace (wrappedHeight value o) l)).

Definition scheme_options (x width : Z) : Options :=
  gap 1000 (spaced SCHEME_LINE_HEIGHT (sized SCHEME_SIZE (at_x x width plain))).
Definition schemeHeight (scheme : PaperScheme) (width : Z) : Z :=
  fold_left (fun total line => total + wrappedHeight line (scheme_options PAGE_MARGIN width)) (schemeLines (Some scheme) []) 0.
Definition drawScheme (scheme : PaperScheme) (x : Z) (l : Layout) : Layout :=
  fold_left (fun l line =>
      let o := scheme_options x (A4_WIDTH - PAGE_MARGIN - x) in
      drawWrapped line o (ensureSpace (wrappedHeight line o) l))
    (schemeLines (Some scheme) []) l.

Definition drawMark (marks baseline : Z) (l : Layout) : Layout :=
  let label := js "[" ++ show_Z marks ++ js "]" in
  draw (Text (A4_WIDTH - PAGE_MARGIN - widthOfTextAtSize true label 9500) baseline 9500 true label) l.

(** Ruled lines for the student's working. *)
Fixpoint working_lines (n : nat) (x : Z) (l : Layout) : Layout :=
  match n with
  | O => l
  | S n =>
    let l := down 12000 (ensureSpace 18000 l) in
    working_lines n x (down 6000 (draw (Rule x (A4_WIDTH - PAGE_MARGIN) (y l)) l))
  end.

Definition prompt_options : Options := gap 5000 (spaced 15000 (at_x (PAGE_MARGIN + 24000) (contentWidth - 70000) plain)).
Definition caption_options : Options := gap 4000 (spaced 10000 (sized 8000 (at_x (PAGE_MARGIN + 30000) (contentWidth - 60000) plain))).
Definition answer_options : Options := gap 4000 (sized 9800 (at_x (PAGE_MARGIN + 24000) (contentWidth - 24000) plain)).
Definition part_options : Options := gap 4000 (spaced 14200 (sized 10000 (at_x (PAGE_MARGIN + 50000) (contentWidth - 96000) plain))).
Definition source_options : Options := sized 8000 (at_x (PAGE_MARGIN + 24000) (contentWidth - 24000) plain).

Definition no_answer : jstr := js "No answer supplied.".
Definition part_text (part : PaperSubpart) : jstr :=
  if for_answers then or_str (part_answer part) no_answer else part_prompt part.

Definition part_height (part : PaperSubpart) : Z :=
  wrappedHeight (part_text part) part_options +
  (if for_answers then schemeHeight (part_scheme part) (contentWidth - 62000) else part_workingLines part * 18000).
Definition diagram_height (d : option PaperDiagram) : Z :=
  match d with
  | Some d => 215000 + (if truthy (caption d) then wrappedHeight (caption d) caption_options else 0)
  | None => 0
  end.
Definition estimated_height (question : PaperQuestion) : Z :=
  let no_parts := match subparts question with [] => true | _ => false end in
  wrappedHeight (q_prompt question) prompt_options + 9000 +
  diagram_height (diagram question) +
  (if for_answers && no_parts then wrappedHeight (or_str (q_answer question) no_answer) answer_options else 0) +
  (if for_answers then schemeHeight (q_scheme question) (contentWidth - 36000) else 0) +
  fold_left (fun t part => t + part_height part) (subparts question) 0 +
  (if no_parts && negb for_answers then q_workingLines question * 18000 else 0) +
  (if for_answers && truthy (q_source question)
   then wrappedHeight (js "Source note: " ++ q_source question) source_options else 0).

Definition draw_diagram (d : PaperDiagram) (l : Layout) : Layout :=
  match figure d with
  | Failed => drawWrapped (js "Diagram: " ++ alt d) (gap 4000 (sized 8500 plain)) l
  | Skipped => l
  | Drawn width height =>
    let l := ensureSpace (height + 26000) l in
    let picture := Picture (PAGE_MARGIN + (contentWidth - width) / 2) (y l - height) width height in
    when (truthy (caption d)) (drawWrapped (caption d) caption_options) (down (height + 5000) (draw picture l))
  end.

Definition draw_part (l : Layout) (part : PaperSubpart) : Layout :=
  let l := ensureSpace (wrappedHeight (part_text part) part_options +
             (if negb for_answers && negb (part_workingLines part =? 0) then 18000 else 0)) l in
  let label := Text (PAGE_MARGIN + 24000) (y l) 10000 false (js "(" ++ pdfSafeText (part_label part) ++ js ")") in
  when for_answers (drawScheme (part_scheme part) (PAGE_MARGIN + 62000))
  (when (negb for_answers) (working_lines (Z.to_nat (part_workingLines part)) (PAGE_MARGIN + 50000))
  (drawWrapped (part_text part) part_options (drawMark (part_marks part) (y l) (draw label l)))).

Definition pageCapacity : Z := A4_HEIGHT - PAGE_MARGIN - CONTENT_BOTTOM.
(** The number, the mark, the prompt and the diagram of a question. *)
Definition draw_prompt (question : PaperQuestion) (index : nat) (l : Layout) : Layout :=
  let label := Text PAGE_MARGIN (y l) 11000 true (show_Z (Z.of_nat index + 1) ++ js ".") in
  let l := drawWrapped (q_prompt question) prompt_options (drawMark (q_marks question) (y l) (draw label l)) in
  match diagram question with Some d => draw_diagram d l | None => l end.
(** What follows, in this order. *)
Definition draw_rest (question : PaperQuestion) (l : Layout) : Layout :=
  let no_parts := match subparts question with [] => true | _ => false end in
  when (for_answers && truthy (q_source question))
    (drawWrapped (js "Source note: " ++ q_source question) source_options)
  (when (no_parts && negb for_answers) (working_lines (Z.to_nat (q_workingLines question)) (PAGE_MARGIN + 24000))
  (fold_left draw_part (subparts question)
  (when for_answers (drawScheme (q_scheme question) (PAGE_MARGIN + 36000))
  (when (for_answers && no_parts) (drawWrapped (or_str (q_answer question) no_answer) answer_options) l)))).
Definition drawQuestion (question : PaperQuestion) (index : nat) (l : Layout) : Layout :=
  let promptHeight := wrappedHeight (q_prompt question) prompt_options in
  let start := ensureSpace (if estimated_height question <=? pageCapacity then estimated_height question
                            else Z.max 80000 (promptHeight + 20000)) l in
  let l := draw_rest question (draw_prompt question index start) in
  down (if y start =? y l then 14000 else 9000) l.

Definition board_details : jstr :=
  join (js " | ") (List.filter truthy
    [boardName (board metadata);
     if truthy (syllabusCode metadata) then js "Syllabus " ++ syllabusCode metadata else [];
     year metadata; session metadata;
     if truthy (paperVariant metadata) then js "Paper " ++ paperVariant metadata else []]).
Definition copy_title : jstr :=
  if for_answers then meta_title metadata ++ js " - Marking scheme" else meta_title metadata.

Definition draw_sources (l : Layout) : Layout :=
  match sources metadata with
  | [] => down 7000 l
  | _ => drawWrapped (js "Sources: " ++ sourceSummary (sources metadata)) (gap 6000 (spaced 11000 (sized 8000 plain))) l
  end.
Definition draw_rule (l : Layout) : Layout := down 15000 (draw (Rule PAGE_MARGIN (A4_WIDTH - PAGE_MARGIN) (y l)) l).
Definition draw_heading (l : Layout) : Layout :=
  let l := drawCustomHeader l in
  let l := drawWrapped (or_str copy_title (js "Question paper")) (gap 5000 (spaced 23000 (sized 19000 (bold plain)))) l in
  let l := drawWrapped (subject metadata) (gap 2000 (sized 11000 (bold plain))) l in
  let l := drawWrapped board_details (sized 8800 plain) l in
  draw_rule (draw_sources (when (negb for_answers && (0 <? durationMinutes metadata))
    (drawWrapped (js "Time allowed: " ++ show_Z (durationMinutes metadata) ++ js " minutes") (sized 8800 plain)) l)).
Definition draw_instructions (instructions : list jstr) (l : Layout) : Layout :=
  match instructions with
  | [] => l
  | _ =>
    if for_answers then l
    else
      let l := drawWrapped (js "Instructions") (gap 2000 (sized 10000 (bold plain))) l in
      down 8000 (fold_left (fun l instruction =>
        drawWrapped (js "- " ++ instruction) (sized 9300 (at_x (PAGE_MARGIN + 8000) (contentWidth - 8000) plain)) l)
        instructions l)
  end.

(** The footer of page [index] of [count]. *)
Definition draw_footer (count index : nat) (drawn : list Drawing) : list Drawing :=
  let pageNumber := show_Z (Z.of_nat index + 1) ++ js " of " ++ show_Z (Z.of_nat count) in
  let footer := trim (default [] (footerText metadata)) in
  drawn ++
  (if truthy footer && (default false (repeatFooter metadata) || Nat.eqb (S index) count)
   then [Text PAGE_MARGIN 24000 8000 false (take 160 (pdfSafeText footer))] else []) ++
  [Text (A4_WIDTH - PAGE_MARGIN - widthOfTextAtSize false pageNumber 8000) 24000 8000 false pageNumber].

Record Pdf := mkPdf { pdf_title : jstr; pdf_subject : jstr; pdf_pages : list (list Drawing) }.
Definition first_page : Layout := mkLayout [] [] (A4_HEIGHT - PAGE_MARGIN).
Definition draw_questions (qs : list PaperQuestion) (l : Layout) : Layout :=
  fold_left (fun l (e : nat * PaperQuestion) => drawQuestion (snd e) (fst e) l) (imap pair qs) l.
Definition createPaperPdf (paper : GeneratedPaper) : Pdf :=
  let l := draw_questions (questions paper) (draw_instructions (p_instructions paper) (draw_heading first_page)) in
  let pages := finished l ++ [page l] in
  mkPdf (pdfSafeText copy_title)
    (pdfSafeText (if for_answers then js "Marking scheme" else js "Question paper"))
    (imap (draw_footer (length pages)) pages).
End document.
End engine.

(** ** Properties *)

Module Wrapping.

Lemma pdfSafeText_printable `{Engine} s : forallb printable (pdfSafeText s) = true.
Proof.
  unfold pdfSafeText. induction (List.filter _ _) as [|c l IH]; [done|]. csimpl. rewrite IH, andb_true_r.
  destruct (printable c) eqn:E; [exact E|reflexivity].
Qed.

Definition dense (s : jstr) : jstr := List.filter (fun c => negb (is_space c)) s.
Lemma dense_app a b : dense (a ++ b) = dense a ++ dense b.
Proof. apply List.filter_app. Qed.
Lemma dense_concat ls : dense (concat ls) = concat (dense <$> ls).
Proof. induction ls as [|l ls IH]; [done|]. cbn [concat fmap list_fmap]. by rewrite dense_app, IH. Qed.
Lemma dense_id s : forallb (fun c => negb (is_space c)) s = true -> dense s = s.
Proof. induction s as [|c s IH]; [done|]. cbn. destruct (is_space c); [done|]. cbn. intros Hs. f_equal. by apply IH. Qed.

(** What words are made of, and that they are all of the text. *)
Lemma words_from_ok word s :
  forallb (fun c => negb (is_space c)) word = true ->
  concat (words_from word s) = word ++ dense s /\
  Forall (fun w => w <> [] /\ forallb (fun c => negb (is_space c)) w = true) (words_from word s).
Proof.
  revert word. induction s as [|c s IH]; intros word Hw; cbn [words_from dense List.filter].
  - destruct word; cbn; rewrite ?app_nil_r; (split; [done|]); repeat constructor; done.
  - destruct (is_space c) eqn:Ec; cbn [negb].
    + destruct (IH [] eq_refl) as [E Hf]. destruct word as [|d word]; [by split|].
      split; [cbn [concat]; by rewrite E|]. by constructor.
    + destruct (IH (word ++ [c])) as [E Hf]; [by rewrite forallb_app, Hw; cbn; rewrite Ec|].
      split; [|exact Hf]. rewrite E. by rewrite <- app_assoc.
Qed.
Lemma words_printable word s :
  forallb printable word = true -> forallb printable s = true -> Forall (fun w => forallb printable w = true) (words_from word s).
Proof.
  revert word. induction s as [|c s IH]; intros word Hw Hs; cbn [words_from].
  - destruct word; repeat constructor; done.
  - cbn in Hs. apply andb_true_iff in Hs as [Hc Hs]. destruct (is_space c).
    + destruct word as [|d word]; [by apply IH|]. constructor; [exact Hw|by apply IH].
    + apply IH; [|done]. rewrite forallb_app, Hw. cbn. by rewrite Hc.
Qed.

Section wrap.
Context (fits : jstr -> bool).
(** A line that fits, or one character that no line could be shorter than. *)
Definition good (l : jstr) : Prop := fits l = true \/ length l = 1%nat.

Lemma break_word_ok fragment word :
  (fragment = [] \/ good fragment) ->
  let '(ls, rest) := break_word fits fragment word in
  Forall good ls /\ (rest = [] \/ good rest) /\ concat ls ++ rest = fragment ++ word.
Proof.
  revert fragment. induction word as [|c word IH]; intros fragment Hf; cbn [break_word].
  - rewrite app_nil_r. by split_and!.
  - destruct (negb (fits (fragment ++ [c])) && truthy fragment) eqn:E.
    + apply andb_true_iff in E as [_ Ht]. specialize (IH [c] ltac:(right; by right)).
      destruct (break_word fits [c] word) as [ls rest]. destruct IH as (H1 & H2 & H3). split_and!; [|done|].
      * constructor; [|done]. destruct Hf as [->|?]; [done|done].
      * cbn [concat]. by rewrite <- app_assoc, H3.
    + specialize (IH (fragment ++ [c])).
      destruct (break_word fits (fragment ++ [c]) word) as [ls rest]. destruct IH as (H1 & H2 & H3).
      * right. apply andb_false_iff in E as [E|E]; [left; by destruct (fits _)|].
        right. destruct fragment; [done|done].
      * split_and!; [done|done|]. rewrite H3. by rewrite <- app_assoc.
Qed.

Lemma wrap_words_ok line ws :
  (line = [] \/ good line) ->
  Forall good (wrap_words fits line ws) /\
  dense (concat (wrap_words fits line ws)) = dense line ++ dense (concat ws).
Proof.
  revert line. induction ws as [|word ws IH]; intros line Hl; cbn [wrap_words].
  - destruct line as [|c l]; [by split|]. split; [constructor; [by destruct Hl|constructor]|].
    cbn [concat]. by rewrite !app_nil_r.
  - set (candidate := if truthy line then _ else word). cbn [concat]. rewrite dense_app.
    destruct (fits candidate) eqn:Ec.
    + destruct (IH candidate) as [H1 H2]; [right; by left|]. split; [done|]. rewrite H2, app_assoc. f_equal.
      unfold candidate. destruct line as [|c l]; [done|]. cbn [truthy]. rewrite !dense_app. by rewrite app_nil_l.
    + assert (Hline : Forall good (if truthy line then [line] else []) /\
                      dense (concat (if truthy line then [line] else [])) = dense line).
      { destruct line as [|c l]; [by split|]. cbn [truthy]. split.
        - constructor; [by destruct Hl|constructor].
        - cbn [concat]. by rewrite app_nil_r. }
      destruct Hline as [L1 L2]. destruct (fits word) eqn:Ew.
      * destruct (IH word) as [H1 H2]; [right; by left|]. split; [by apply Forall_app|].
        rewrite concat_app, dense_app, L2, H2. done.
      * pose proof (break_word_ok [] word ltac:(by left)) as Hb. destruct (break_word fits [] word) as [ls rest].
        destruct Hb as (B1 & B2 & B3). destruct (IH rest B2) as [H1 H2]. split.
        -- apply Forall_app. split; [done|]. by apply Forall_app.
        -- rewrite !concat_app, !dense_app, L2, H2. f_equal. rewrite app_assoc. f_equal.
           rewrite <- dense_app, B3. done.
Qed.

Lemma break_word_printable fragment word :
  forallb printable fragment = true -> forallb printable word = true ->
  Forall (fun l => forallb printable l = true) (fst (break_word fits fragment word)) /\
  forallb printable (snd (break_word fits fragment word)) = true.
Proof.
  revert fragment. induction word as [|c word IH]; intros fragment Hf Hw; cbn [break_word]; [by split|].
  cbn in Hw. apply andb_true_iff in Hw as [Hc Hw]. destruct (_ && _).
  - destruct (IH [c]) as [H1 H2]; [by cbn; rewrite Hc|done|]. destruct (break_word fits [c] word). split; [by constructor|done].
  - apply IH; [|done]. rewrite forallb_app, Hf. cbn. by rewrite Hc.
Qed.
Lemma wrap_words_printable line ws :
  forallb printable line = true -> Forall (fun w => forallb printable w = true) ws ->
  Forall (fun l => forallb printable l = true) (wrap_words fits line ws).
Proof.
  intros Hl Hws. revert line Hl. induction Hws as [|word ws Hw _ IH]; intros line Hl; cbn [wrap_words].
  - destruct line; repeat constructor; done.
  - assert (Hc : forallb printable (if truthy line then line ++ js " " ++ word else word) = true).
    { destruct line as [|c l]; [exact Hw|]. cbn [truthy]. by rewrite !forallb_app, Hl, Hw. }
    destruct (fits _); [by apply IH|].
    assert (Forall (fun l => forallb printable l = true) (if truthy line then [line] else [])) by (destruct line; repeat constructor; done).
    apply Forall_app. split; [done|]. destruct (fits word); [by apply IH|].
    destruct (break_word_printable [] word) as [H1 H2]; [done|done|]. destruct (break_word fits [] word).
    apply Forall_app. split; [done|]. by apply IH.
Qed.
End wrap.
End Wrapping.
Import Wrapping.

(** Wrapping a text keeps it: apart from white space, the lines are the
    printable form of the text, character by character; and every line fits
    the width, or is a single character that does not. *)
Theorem wrapping_keeps_text `{Engine} (value : jstr) (maxWidth : Z) (strong : bool) (size : Z) :
  dense (concat (wrapLine value maxWidth strong size)) = dense (pdfSafeText value) /\
  (dense (pdfSafeText value) <> [] -> Forall (fun l => fits_in maxWidth strong size l = true \/ length l = 1%nat)
     (wrapLine value maxWidth strong size)).
Proof.
  destruct (words_from_ok [] (pdfSafeText value) eq_refl) as [E _]. unfold wrapLine. fold (words (pdfSafeText value)) in E.
  destruct (words (pdfSafeText value)) as [|w ws]; [cbn in E; by rewrite <- E|].
  destruct (wrap_words_ok (fits_in maxWidth strong size) [] (w :: ws)) as [H1 H2]; [by left|]. split; [|done].
  rewrite H2, E. cbn [app]. change (dense []) with (@nil N). cbn [app].
  apply dense_id. unfold dense. apply forallb_forall. intros c Hc. by apply filter_In in Hc as [_ Hc].
Qed.

Module LayoutFacts.

(** ** What is drawn *)

Section all.
Context `{Engine} (metadata : PaperMetadata) (kind : Kind) (P : Drawing -> Prop).

Definition All (l : Layout) : Prop := Forall (Forall P) (finished l) /\ Forall P (page l).
Lemma all_draw d l : P d -> All l -> All (draw d l).
Proof. intros Hd [H1 H2]. split; [done|]. apply Forall_app. auto. Qed.
Lemma all_down h l : All l -> All (down h l).
Proof. done. Qed.
Lemma all_fresh l : All l -> All (mkLayout (finished l ++ [page l]) [] (A4_HEIGHT - PAGE_MARGIN)).
Proof. intros [H1 H2]. split; [|constructor]. apply Forall_app. auto. Qed.
Lemma all_fold {X} (f : Layout -> X -> Layout) xs l :
  (forall l x, All l -> All (f l x)) -> All l -> All (fold_left f xs l).
Proof. intros Hf. revert l. induction xs as [|x xs IH]; intros l Hl; [done|]. cbn. by apply IH, Hf. Qed.

(** A drawing whose place does not matter to [P]. *)
Context (text_ok : jstr -> Prop) (Htext : forall x y s b t, text_ok t -> P (Text x y s b t)).
Context (Hrule : forall x1 x2 y, P (Rule x1 x2 y)) (Hpicture : forall x y w h, P (Picture x y w h)).
Context (Hwrap : forall v w b s, Forall text_ok (wrapLine v w b s)).
Context (Hshow : forall z, text_ok (js "[" ++ show_Z z ++ js "]") /\ text_ok (show_Z z ++ js ".")).
Context (Hlabel : forall t, text_ok (js "(" ++ pdfSafeText t ++ js ")")).

Lemma all_lines (f : Layout -> jstr -> Drawing) h lines l :
  (forall l t, text_ok t -> P (f l t)) -> Forall text_ok lines -> All l ->
  All (fold_left (fun l line => down h (draw (f l line) l)) lines l).
Proof.
  intros Hf Hl. revert l. induction Hl as [|t ts Ht _ IH]; intros l Ha; [done|]. cbn [fold_left].
  apply IH, all_down, all_draw; auto.
Qed.
Lemma all_header l : All l -> All (drawCustomHeader metadata l).
Proof.
  intros Hl. unfold drawCustomHeader. destruct (trim _); [done|]. apply all_down.
  apply (all_lines (fun l line => Text PAGE_MARGIN (y l) 8500 true line)); auto.
Qed.
Lemma all_ensure h l : All l -> All (ensureSpace metadata h l).
Proof.
  intros Hl. unfold ensureSpace. destruct (_ <? _); [|done]. unfold newPage.
  destruct (default _ _); [by apply all_header, all_fresh|by apply all_fresh].
Qed.
Lemma all_wrapped v o l : All l -> All (drawWrapped metadata v o l).
Proof.
  intros Hl. unfold drawWrapped, draw_lines. apply all_down.
  apply (all_lines (fun l line => Text (o_x o) (y l) (o_size o) (o_strong o) line)); auto using all_ensure.
Qed.
Lemma all_scheme s x l : All l -> All (drawScheme metadata s x l).
Proof. intros Hl. apply all_fold; [|done]. intros. by apply all_wrapped, all_ensure. Qed.
Lemma all_working n x l : All l -> All (working_lines metadata n x l).
Proof.
  revert l. induction n as [|n IH]; intros l Hl; [done|]. cbn [working_lines].
  apply IH, all_down, all_draw; [done|]. by apply all_down, all_ensure.
Qed.
Lemma all_mark m b l : All l -> All (drawMark m b l).
Proof. intros Hl. apply all_draw; [|done]. apply Htext, Hshow. Qed.
Lemma all_when b f l : (forall l, All l -> All (f l)) -> All l -> All (when b f l).
Proof. intros Hf Hl. destruct b; cbn; auto. Qed.
Lemma all_part l p : All l -> All (draw_part metadata kind l p).
Proof.
  intros Hl. unfold draw_part. apply all_when; [intros; by apply all_scheme|].
  apply all_when; [intros; by apply all_working|]. apply all_wrapped, all_mark, all_draw; [by apply Htext|by apply all_ensure].
Qed.
Lemma all_diagram d l : All l -> All (draw_diagram metadata d l).
Proof.
  intros Hl. unfold draw_diagram. destruct (figure d) as [w h| |]; [|done|by apply all_wrapped].
  apply all_when; [intros; by apply all_wrapped|]. apply all_down, all_draw; [done|by apply all_ensure].
Qed.
Lemma all_prompt q i l : All l -> All (draw_prompt metadata q i l).
Proof.
  intros Hl. unfold draw_prompt.
  assert (Ha : All (drawWrapped metadata (q_prompt q) prompt_options (drawMark (q_marks q) (y l)
    (draw (Text PAGE_MARGIN (y l) 11000 true (show_Z (Z.of_nat i + 1) ++ js ".")) l)))).
  { apply all_wrapped, all_mark, all_draw; [|done]. apply Htext, Hshow. }
  destruct (diagram q); [by apply all_diagram|done].
Qed.
Lemma all_question q i l : All l -> All (drawQuestion metadata kind q i l).
Proof.
  intros Hl. unfold drawQuestion, draw_rest. apply all_down.
  apply all_when; [intros; by apply all_wrapped|]. apply all_when; [intros; by apply all_working|].
  apply all_fold; [intros; by apply all_part|]. apply all_when; [intros; by apply all_scheme|].
  apply all_when; [intros; by apply all_wrapped|]. by apply all_prompt, all_ensure.
Qed.
Lemma all_heading l : All l -> All (draw_heading metadata kind l).
Proof.
  intros Hl. unfold draw_heading, draw_rule, draw_sources. apply all_down, all_draw; [done|].
  set (l1 := when _ _ _). assert (Ha : All l1).
  { apply all_when; [intros; by apply all_wrapped|]. by do 3 apply all_wrapped; apply all_header. }
  destruct (sources metadata); [exact Ha|by apply all_wrapped].
Qed.
Lemma all_instructions ins l : All l -> All (draw_instructions metadata kind ins l).
Proof.
  intros Hl. unfold draw_instructions. destruct ins as [|i ins]; [done|]. destruct (for_answers kind); [done|].
  apply all_down, all_fold; [intros; by apply all_wrapped|by apply all_wrapped].
Qed.
Lemma all_body paper :
  All (draw_questions metadata kind (questions paper)
        (draw_instructions metadata kind (p_instructions paper) (draw_heading metadata kind first_page))).
Proof.
  apply all_fold; [intros; by apply all_question|]. apply all_instructions, all_heading. split; constructor.
Qed.
End all.

(** ** Text the fonts can show *)

Definition text_printable (d : Drawing) : Prop :=
  match d with Text _ _ _ _ t => forallb printable t = true | _ => True end.

Lemma wrapLine_printable `{Engine} v w b s : Forall (fun t => forallb printable t = true) (wrapLine v w b s).
Proof.
  pose proof (words_printable [] (pdfSafeText v) eq_refl (pdfSafeText_printable v)) as Hw.
  unfold wrapLine. fold (words (pdfSafeText v)) in Hw. destruct (words (pdfSafeText v)); [by repeat constructor|].
  by apply wrap_words_printable.
Qed.
Lemma show_Z_printable z : forallb printable (show_Z z) = true.
Proof.
  rewrite show_Z_digits. destruct (digits_ok (Z.abs_N z)) as (Hd & _).
  assert (Hp : forallb printable (digits (Z.abs_N z)) = true).
  { apply forallb_forall. intros c Hc. rewrite forallb_forall in Hd. specialize (Hd c Hc).
    unfold printable. char_lia. }
  destruct (z <? 0); [|done]. cbn [forallb]. by rewrite Hp.
Qed.
Lemma forallb_app3 (p : N -> bool) a b c : forallb p a = true -> forallb p b = true -> forallb p c = true ->
  forallb p (a ++ b ++ c) = true.
Proof. intros Ha Hb Hc. by rewrite !forallb_app, Ha, Hb, Hc. Qed.

Lemma body_printable `{Engine} metadata kind paper :
  All text_printable (draw_questions metadata kind (questions paper)
    (draw_instructions metadata kind (p_instructions paper) (draw_heading metadata kind first_page))).
Proof.
  apply (all_body metadata kind text_printable (fun t => forallb printable t = true)); try done.
  - intros. apply wrapLine_printable.
  - intros z. split; [by apply forallb_app3; [|apply show_Z_printable|]|].
    by rewrite forallb_app, show_Z_printable.
  - intros t. by apply forallb_app3; [|apply pdfSafeText_printable|].
Qed.

(** ** The student's view *)

Lemma fold_left_fmap {X Y B} (f : B -> Y -> B) (g : X -> Y) xs b :
  fold_left f (g <$> xs) b = fold_left (fun b x => f b (g x)) xs b.
Proof. revert b. induction xs as [|x xs IH]; intros b; [done|]. cbn. apply IH. Qed.
Lemma fold_left_ext {X B} (f g : B -> X -> B) xs b : (forall b x, f b x = g b x) -> fold_left f xs b = fold_left g xs b.
Proof. intros Hf. revert b. induction xs as [|x xs IH]; intros b; [done|]. cbn. by rewrite Hf, IH. Qed.

Lemma student_question_drawn `{Engine} metadata q i l :
  drawQuestion metadata QuestionCopy (student_question q) i l = drawQuestion metadata QuestionCopy q i l.
Proof.
  unfold drawQuestion.
  assert (E1 : estimated_height QuestionCopy (student_question q) = estimated_height QuestionCopy q).
  { unfold estimated_height, student_question. cbn [q_prompt diagram subparts q_workingLines for_answers andb].
    rewrite fold_left_fmap. by destruct (subparts q). }
  assert (E2 : forall l, draw_prompt metadata (student_question q) i l = draw_prompt metadata q i l) by done.
  assert (E3 : forall l, draw_rest metadata QuestionCopy (student_question q) l = draw_rest metadata QuestionCopy q l).
  { intros m. unfold draw_rest, student_question. cbn [subparts q_workingLines for_answers andb when].
    rewrite fold_left_fmap. by destruct (subparts q). }
  change (q_prompt (student_question q)) with (q_prompt q). by rewrite E1, E2, E3.
Qed.
Lemma student_questions `{Engine} metadata qs l :
  draw_questions metadata QuestionCopy (student_question <$> qs) l = draw_questions metadata QuestionCopy qs l.
Proof.
  unfold draw_questions. rewrite imap_fmap.
  transitivity (fold_left (fun l (e : nat * PaperQuestion) => drawQuestion metadata QuestionCopy (student_question (snd e)) (fst e) l) (imap pair qs) l).
  - rewrite <- (fold_left_fmap (fun l (e : nat * PaperQuestion) => drawQuestion metadata QuestionCopy (snd e) (fst e) l)
      (fun e => (fst e, student_question (snd e)))). f_equal. rewrite fmap_imap. by apply imap_ext.
  - apply fold_left_ext. intros b [i q]. apply student_question_drawn.
Qed.
End LayoutFacts.
Import LayoutFacts.

(** Whatever a paper says, every text drawn on the PDF is made of printable
    ASCII and the degree sign, which the standard fonts encode: exporting
    never fails on a character.  The numbers and brackets the layout adds are
    included, and so are header and footer. *)
Theorem pdf_text_encodable `{Engine} (metadata : PaperMetadata) (kind : Kind) (paper : GeneratedPaper) :
  Forall (Forall text_printable) (pdf_pages (createPaperPdf metadata kind paper)) /\
  forallb printable (pdf_title (createPaperPdf metadata kind paper)) = true /\
  forallb printable (pdf_subject (createPaperPdf metadata kind paper)) = true.
Proof.
  split_and!; [|apply pdfSafeText_printable|apply pdfSafeText_printable].
  destruct (body_printable metadata kind paper) as [Hf Hp]. unfold createPaperPdf. cbn [pdf_pages].
  set (pages := finished _ ++ [page _]). assert (Ha : Forall (Forall text_printable) pages) by (apply Forall_app; auto).
  apply Forall_lookup. intros i ds. rewrite list_lookup_imap. destruct (pages !! i) as [drawn|] eqn:E; [|done].
  intros [= <-]. rewrite Forall_lookup in Ha. unfold draw_footer. apply Forall_app. split; [by apply (Ha i)|].
  apply Forall_app. split.
  - destruct (_ && _); [|constructor]. constructor; [|constructor]. apply forallb_take, pdfSafeText_printable.
  - constructor; [|constructor]. cbn [text_printable]. rewrite !forallb_app, !show_Z_printable. done.
Qed.

(** The PDF for students does not depend on answers, marking schemes, notes
    on sources or identifiers: two papers with the same student view have the
    same pages. *)
Theorem student_pdf_hides_answers `{Engine} (metadata : PaperMetadata) (p p' : GeneratedPaper) :
  student_view p = student_view p' ->
  createPaperPdf metadata QuestionCopy p = createPaperPdf metadata QuestionCopy p'.
Proof.
  assert (Hview : forall x, createPaperPdf metadata QuestionCopy (student_view x) = createPaperPdf metadata QuestionCopy x).
  { intros x. unfold createPaperPdf, student_view. cbn [p_instructions questions]. by rewrite student_questions. }
  intros Hv. by rewrite <- (Hview p), <- (Hview p'), Hv.
Qed.

(** ** Where it is drawn *)

Module PageBounds.
Section bounds.
Context `{Engine} (metadata : PaperMetadata) (kind : Kind).

Definition TOP : Z := A4_HEIGHT - PAGE_MARGIN.
Definition header_height : Z :=
  match trim (default [] (headerText metadata)) with
  | [] => 0
  | header => Z.of_nat (length (wrapLine header contentWidth true 8500)) * 11000 + 7000
  end.
(** The height that is free on a page under the header. *)
Definition room : Z := TOP - header_height - CONTENT_BOTTOM.

(** Between the side margins, with its width; its lowest part, a quarter of
    the size under the baseline of a text, is over the bottom of the content,
    which only the rule of the heading may pass, by 7 points; and its highest
    part is under the top margin, into which a text of the first line rises by
    its size, at most 19 points. *)
Definition on_page (d : Drawing) : Prop :=
  match d with
  | Text x y size strong t =>
    PAGE_MARGIN <= x /\ x + widthOfTextAtSize strong t size <= A4_WIDTH - PAGE_MARGIN /\
    4 * CONTENT_BOTTOM + size <= 4 * y /\ y + size <= TOP + 19000
  | Rule x1 x2 y => PAGE_MARGIN <= x1 <= x2 /\ x2 <= A4_WIDTH - PAGE_MARGIN /\ CONTENT_BOTTOM - 7000 <= y <= TOP
  | Picture x y w h => PAGE_MARGIN <= x /\ x + w <= A4_WIDTH - PAGE_MARGIN /\ CONTENT_BOTTOM <= y /\ y + h <= TOP
  end.
Definition Placed (low : Z) (l : Layout) : Prop := All on_page l /\ CONTENT_BOTTOM + low <= y l <= TOP.

(** A block that fits on a page. *)
Definition Fits (value : jstr) (o : Options) : Prop := wrappedHeight value o <= room.
Definition options_ok (o : Options) : Prop :=
  (0 <= o_lineHeight o /\ 0 <= o_gapAfter o) /\ (0 <= o_size o <= 19000 /\ o_size o <= 4 * o_lineHeight o) /\
  PAGE_MARGIN <= o_x o /\ 2 * o_size o <= o_width o /\ o_x o + o_width o <= A4_WIDTH - PAGE_MARGIN.

Lemma placed_le a b l : b <= a -> Placed a l -> Placed b l.
Proof. intros Hab [H1 H2]. split; [done|]. lia. Qed.
Lemma placed_draw low d l : on_page d -> Placed low l -> Placed low (draw d l).
Proof. intros Hd [H1 H2]. split; [by apply all_draw|done]. Qed.
Lemma placed_down low h l : 0 <= h -> Placed (low + h) l -> Placed low (down h l).
Proof. intros Hh [H1 H2]. split; [done|]. cbn. lia. Qed.

(** A character is at most twice as wide as its size, and no text has no
    width. *)
Context (Hnarrow : forall strong t size, (length t <= 1)%nat -> 0 <= size -> widthOfTextAtSize strong t size <= 2 * size).
Lemma wrapped_fit v w b size : 0 <= size -> 2 * size <= w -> Forall (fun t => widthOfTextAtSize b t size <= w) (wrapLine v w b size).
Proof.
  intros Hs Hw. assert (Hgood : forall t, good (fits_in w b size) t -> widthOfTextAtSize b t size <= w).
  { intros t [Ht|Ht]; [by apply Z.leb_le|]. etransitivity; [by apply Hnarrow; [lia|]|done]. }
  unfold wrapLine. destruct (words (pdfSafeText v)) as [|x ws].
  - constructor; [|constructor]. etransitivity; [by apply Hnarrow; [cbn; lia|]|done].
  - destruct (wrap_words_ok (fits_in w b size) [] (x :: ws)) as [Hg _]; [by left|]. eapply Forall_impl; [exact Hg|exact Hgood].
Qed.
Lemma wrapLine_some v w b size : (1 <= length (wrapLine v w b size))%nat.
Proof.
  unfold wrapLine. destruct (words (pdfSafeText v)) as [|x ws] eqn:E; [cbn; lia|].
  assert (Hx : x <> []).
  { destruct (words_from_ok [] (pdfSafeText v) eq_refl) as [_ Hf]. fold (words (pdfSafeText v)) in Hf. rewrite E in Hf.
    by apply Forall_cons in Hf as [[? _] _]. }
  destruct (wrap_words (fits_in w b size) [] (x :: ws)) eqn:Ew; [|cbn; lia].
  destruct (wrap_words_ok (fits_in w b size) [] (x :: ws)) as [_ Hd]; [by left|]. rewrite Ew in Hd.
  destruct (words_from_ok [] (pdfSafeText v) eq_refl) as [_ Hf]. fold (words (pdfSafeText v)) in Hf. rewrite E in Hf.
  apply Forall_cons in Hf as [[_ Hs] _]. cbn [concat] in Hd. rewrite dense_app, (dense_id x Hs) in Hd. by destruct x.
Qed.
Lemma placed_lines (f : Z -> jstr -> Drawing) (h low : Z) lines l :
  Forall (fun t => forall y, CONTENT_BOTTOM + h <= y <= TOP -> on_page (f y t)) lines -> 0 <= h -> 0 <= low ->
  Placed (low + Z.of_nat (length lines) * h) l ->
  Placed low (fold_left (fun l line => down h (draw (f (y l) line) l)) lines l).
Proof.
  intros Hf Hh Hlow. revert l. induction Hf as [|t lines Ht _ IH]; intros l Hl.
  - cbn in *. eapply placed_le; [|exact Hl]. lia.
  - cbn [fold_left]. apply IH. cbn [length] in Hl. apply placed_down; [done|]. apply placed_draw.
    + apply Ht. destruct Hl as [_ Hy]. nia.
    + eapply placed_le; [|exact Hl]. lia.
Qed.

Context (Hroom : 211000 <= room).
Lemma header_space l : All on_page l -> y l = TOP ->
  Placed room (drawCustomHeader metadata l).
Proof.
  intros Hl Hy. pose proof Hroom as Hr. unfold drawCustomHeader. unfold room, header_height in Hr |- *.
  unfold TOP, A4_HEIGHT, PAGE_MARGIN, CONTENT_BOTTOM in Hr, Hy |- *.
  destruct (trim (default [] (headerText metadata))) as [|c s] eqn:E.
  - split; [done|]. unfold TOP, A4_HEIGHT, PAGE_MARGIN, CONTENT_BOTTOM. lia.
  - set (ls := wrapLine (c :: s) contentWidth true 8500) in Hr |- *.
    apply placed_down; [lia|].
    apply (placed_lines (fun y line => Text 52000 y 8500 true line) 11000).
    + pose proof (wrapped_fit (c :: s) contentWidth true 8500 ltac:(lia) ltac:(vm_compute; discriminate)) as Hw. fold ls in Hw.
      eapply Forall_impl; [exact Hw|]. intros t Ht z Hz. revert Ht Hz. cbn [on_page].
      unfold TOP, contentWidth, A4_WIDTH, A4_HEIGHT, PAGE_MARGIN, CONTENT_BOTTOM. lia.
    + lia.
    + lia.
    + split; [done|]. unfold TOP, A4_HEIGHT, PAGE_MARGIN, CONTENT_BOTTOM. lia.
Qed.
Lemma space_new l : All on_page l -> Placed room (newPage metadata l).
Proof.
  intros Hl. unfold newPage. pose proof (all_fresh on_page l Hl) as Hf.
  assert (Hh : Placed room (drawCustomHeader metadata (mkLayout (finished l ++ [page l]) [] (A4_HEIGHT - PAGE_MARGIN))))
    by (by apply header_space).
  destruct (default false (repeatHeader metadata)); [exact Hh|]. split; [exact Hf|].
  cbn [y]. unfold room, header_height, TOP, A4_HEIGHT, PAGE_MARGIN, CONTENT_BOTTOM. destruct (trim _); lia.
Qed.
Lemma ensure_space low h l : 0 <= h -> Placed low l -> Placed (Z.min h room) (ensureSpace metadata h l).
Proof.
  intros Hh [Ha Hy]. unfold ensureSpace. destruct (Z.ltb_spec (y l - h) CONTENT_BOTTOM).
  - eapply placed_le; [|by apply space_new]. lia.
  - split; [done|]. lia.
Qed.

Lemma placed_wrapped low v o l : options_ok o -> Fits v o -> Placed low l -> Placed 0 (drawWrapped metadata v o l).
Proof.
  intros ([Ho1 Ho2] & [Hs1 Hs2] & Hx1 & Hx2 & Hx3) Hv Hl. unfold drawWrapped, draw_lines. unfold Fits in Hv.
  assert (Hh : 0 <= wrappedHeight v o) by (unfold wrappedHeight; nia).
  apply placed_down; [done|].
  apply (placed_lines (fun y line => Text (o_x o) y (o_size o) (o_strong o) line)); [|done|lia|].
  - eapply Forall_impl; [apply wrapped_fit; lia|]. intros t Ht z Hz. cbv beta in Ht. cbn [on_page]. repeat split; lia.
  - eapply placed_le; [|by eapply ensure_space]. unfold wrappedHeight in *. lia.
Qed.
Lemma placed_fold {X} low (f : Layout -> X -> Layout) (ok : X -> Prop) xs l : 0 <= low ->
  (forall l x, ok x -> Placed 0 l -> Placed 0 (f l x)) -> Forall ok xs -> Placed low l -> Placed 0 (fold_left f xs l).
Proof.
  intros Hlow Hf Hxs Hl. apply (placed_le low 0) in Hl; [|done]. revert l Hl.
  induction Hxs as [|x xs Hx _ IH]; intros l Hl; [done|]. cbn. apply IH. by apply Hf.
Qed.
Lemma placed_when low b f l : 0 <= low -> (Placed low l -> b = true -> Placed 0 (f l)) -> Placed low l -> Placed 0 (when b f l).
Proof. intros Hlow Hf Hl. destruct b; cbn; [by apply Hf|]. by eapply placed_le. Qed.

Definition fits_scheme (s : PaperScheme) (x : Z) : Prop :=
  Forall (fun line => Fits line (scheme_options x (A4_WIDTH - PAGE_MARGIN - x))) (schemeLines (Some s) []).
Ltac opts := repeat split; vm_compute; discriminate.

Lemma placed_scheme low s x l : 0 <= low -> PAGE_MARGIN <= x <= 300000 -> fits_scheme s x -> Placed low l -> Placed 0 (drawScheme metadata s x l).
Proof.
  intros Hlow Hx Hs. apply (placed_fold low _ (fun line => Fits line (scheme_options x (A4_WIDTH - PAGE_MARGIN - x))) _ _ Hlow); [|exact Hs].
  intros m line Hline Hm. eapply placed_wrapped; [|exact Hline|].
  { unfold options_ok, scheme_options. cbn. unfold A4_WIDTH, PAGE_MARGIN, SCHEME_SIZE, SCHEME_LINE_HEIGHT in *. lia. }
  eapply ensure_space; [|exact Hm]. unfold wrappedHeight. cbn [o_lineHeight o_gapAfter scheme_options gap spaced].
  unfold SCHEME_LINE_HEIGHT. lia.
Qed.
Lemma placed_working n x l : PAGE_MARGIN <= x <= A4_WIDTH - PAGE_MARGIN -> Placed 0 l -> Placed 0 (working_lines metadata n x l).
Proof.
  intros Hx. revert l. induction n as [|n IH]; intros l Hl; [done|]. cbn [working_lines]. apply IH.
  assert (Hm : Placed 18000 (ensureSpace metadata 18000 l)).
  { eapply placed_le; [|eapply ensure_space; [|exact Hl]; lia]. lia. }
  apply placed_down; [lia|]. apply placed_draw.
  - destruct Hm as [_ Hy]. cbn. lia.
  - apply placed_down; [lia|]. eapply placed_le; [|exact Hm]. lia.
Qed.

(** The mark of a question or a part is not wider than the content. *)
Definition fits_mark (marks : Z) : Prop := widthOfTextAtSize true (js "[" ++ show_Z marks ++ js "]") 9500 <= contentWidth.
Lemma on_page_mark marks b : fits_mark marks -> 4 * CONTENT_BOTTOM + 9500 <= 4 * b -> b <= TOP ->
  on_page (Text (A4_WIDTH - PAGE_MARGIN - widthOfTextAtSize true (js "[" ++ show_Z marks ++ js "]") 9500) b 9500 true
             (js "[" ++ show_Z marks ++ js "]")).
Proof.
  unfold fits_mark, on_page. set (w := widthOfTextAtSize _ _ _). unfold contentWidth. intros ? ? ?. lia.
Qed.
Definition fits_part (p : PaperSubpart) : Prop :=
  0 <= part_workingLines p /\ fits_mark (part_marks p) /\
  widthOfTextAtSize false (js "(" ++ pdfSafeText (part_label p) ++ js ")") 10000 <= contentWidth - 24000 /\
  Fits (part_text kind p) part_options /\
  (for_answers kind = true -> fits_scheme (part_scheme p) (PAGE_MARGIN + 62000)).
Lemma wrapped_pos v o : options_ok o -> o_lineHeight o <= wrappedHeight v o.
Proof.
  intros ([H1 H2] & _). unfold wrappedHeight. pose proof (wrapLine_some v (o_width o) (o_strong o) (o_size o)). nia.
Qed.
Lemma placed_part l p : fits_part p -> Placed 0 l -> Placed 0 (draw_part metadata kind l p).
Proof.
  intros (_ & Hmk & Hlab & Hp & Hs) Hl. unfold draw_part.
  assert (Hh : 14200 <= wrappedHeight (part_text kind p) part_options) by (apply (wrapped_pos _ part_options); opts).
  set (h := wrappedHeight _ _ + _). assert (Hm : Placed 14200 (ensureSpace metadata h l)).
  { eapply placed_le; [|eapply (ensure_space 0 h); [|exact Hl]]; unfold h; destruct (_ && _); lia. }
  apply (placed_when 0); [lia| |].
  { intros Hx E. eapply placed_scheme; [| |by apply Hs|exact Hx]; [lia|]. unfold PAGE_MARGIN. lia. }
  apply (placed_when 0); [lia|intros; apply placed_working; [unfold A4_WIDTH, PAGE_MARGIN; lia|done]|].
  eapply placed_wrapped; [opts|exact Hp|]. destruct Hm as [Ha Hy].
  apply placed_draw; [apply on_page_mark; [done|cbn; lia..]|]. apply placed_draw; [|by split].
  cbn [on_page]. unfold contentWidth, A4_WIDTH, PAGE_MARGIN in *. lia.
Qed.

Definition fits_diagram (d : PaperDiagram) : Prop :=
  Fits (caption d) caption_options /\ Fits (js "Diagram: " ++ alt d) (gap 4000 (sized 8500 plain)) /\
  match figure d with Drawn width height => 0 <= width <= 370000 /\ 0 <= height <= 185000 | _ => True end.
Lemma placed_diagram d l : fits_diagram d -> Placed 0 l -> Placed 0 (draw_diagram metadata d l).
Proof.
  intros (Hc & Ha & Hf) Hl. unfold draw_diagram. destruct (figure d) as [w h| |]; [destruct Hf as [Hw Hf]|done|].
  - assert (Hm : Placed (h + 26000) (ensureSpace metadata (h + 26000) l)).
    { eapply placed_le; [|eapply ensure_space; [|exact Hl]; lia]. lia. }
    apply (placed_when 0); [lia|intros; by eapply placed_wrapped; [opts| |]|].
    apply placed_down; [lia|]. apply placed_draw.
    + destruct Hm as [_ Hy]. cbn [on_page]. assert (Hx : 0 <= (contentWidth - w) / 2 /\ 2 * ((contentWidth - w) / 2) <= contentWidth - w).
      { pose proof (Z.mul_div_le (contentWidth - w) 2 ltac:(lia)). split; [|lia]. apply Z.div_pos; [|lia].
        unfold contentWidth, A4_WIDTH, PAGE_MARGIN. lia. }
      unfold contentWidth, A4_WIDTH, PAGE_MARGIN in *. lia.
    + eapply placed_le; [|exact Hm]. lia.
  - eapply placed_wrapped; [opts|exact Ha|exact Hl].
Qed.

Record fits_question (q : PaperQuestion) : Prop := {
  fq_mark : fits_mark (q_marks q);
  fq_lines : 0 <= q_workingLines q;
  fq_prompt : Fits (q_prompt q) prompt_options;
  fq_diagram : forall d, diagram q = Some d -> fits_diagram d;
  fq_answer : Fits (or_str (q_answer q) no_answer) answer_options;
  fq_scheme : fits_scheme (q_scheme q) (PAGE_MARGIN + 36000);
  fq_parts : Forall fits_part (subparts q);
  fq_source : Fits (js "Source note: " ++ q_source q) source_options
}.
(** The number before a question. *)
Definition fits_number (i : nat) : Prop := widthOfTextAtSize true (show_Z (Z.of_nat i + 1) ++ js ".") 11000 <= contentWidth.
Lemma placed_prompt q i l : fits_question q -> fits_number i -> Placed 15000 l -> Placed 0 (draw_prompt metadata q i l).
Proof.
  intros Hq Hi Hl. unfold draw_prompt. unfold fits_number in Hi.
  assert (Hm : Placed 0 (drawWrapped metadata (q_prompt q) prompt_options (drawMark (q_marks q) (y l)
    (draw (Text PAGE_MARGIN (y l) 11000 true (show_Z (Z.of_nat i + 1) ++ js ".")) l)))).
  { eapply placed_wrapped; [opts|apply (fq_prompt q Hq)|]. pose proof Hl as [_ Hy].
    apply placed_draw; [apply on_page_mark; [apply (fq_mark q Hq)|cbn; lia..]|]. apply placed_draw; [|exact Hl].
    cbn [on_page]. unfold contentWidth, A4_WIDTH, PAGE_MARGIN in *. lia. }
  destruct (diagram q) as [d|] eqn:E; [|exact Hm]. apply placed_diagram; [by apply (fq_diagram q Hq)|exact Hm].
Qed.
Lemma scheme_pos s w : 0 <= schemeHeight s w.
Proof.
  unfold schemeHeight. assert (Hp : forall line, 0 <= wrappedHeight line (scheme_options PAGE_MARGIN w))
    by (intros line; unfold wrappedHeight; cbn [o_lineHeight o_gapAfter scheme_options gap spaced]; unfold SCHEME_LINE_HEIGHT; lia).
  enough (Hl : forall ls t, 0 <= t -> 0 <= fold_left (fun t line => t + wrappedHeight line (scheme_options PAGE_MARGIN w)) ls t)
    by (apply Hl; lia).
  induction ls as [|line ls IH]; intros t Ht; [done|]. cbn [fold_left]. apply IH. specialize (Hp line). lia.
Qed.
Lemma parts_pos ps t : 0 <= t -> Forall fits_part ps -> 0 <= fold_left (fun t part => t + part_height kind part) ps t.
Proof.
  intros Ht Hps. revert t Ht. induction Hps as [|p ps (Hw & _) _ IH]; intros t Ht; [done|]. cbn [fold_left].
  apply IH. unfold part_height. pose proof (wrapped_pos (part_text kind p) part_options ltac:(opts)) as Hwp.
  change (o_lineHeight part_options) with 14200 in Hwp. pose proof (scheme_pos (part_scheme p) (contentWidth - 62000)). destruct (for_answers kind); lia.
Qed.
Lemma estimated_pos q : fits_question q -> 15000 <= estimated_height kind q.
Proof.
  intros Hq. unfold estimated_height.
  assert (Hd : 0 <= diagram_height (diagram q)).
  { unfold diagram_height. destruct (diagram q) as [d|]; [|lia].
    pose proof (wrapped_pos (caption d) caption_options ltac:(opts)) as Hcp. change (o_lineHeight caption_options) with 10000 in Hcp.
    destruct (truthy _); lia. }
  pose proof (wrapped_pos (q_prompt q) prompt_options ltac:(opts)) as H1. change (o_lineHeight prompt_options) with 15000 in H1.
  pose proof (wrapped_pos (or_str (q_answer q) no_answer) answer_options ltac:(opts)) as H2.
  pose proof (wrapped_pos (js "Source note: " ++ q_source q) source_options ltac:(opts)) as H3.
  assert (H2' : 0 <= o_lineHeight answer_options) by (vm_compute; discriminate).
  assert (H3' : 0 <= o_lineHeight source_options) by (vm_compute; discriminate).
  pose proof (scheme_pos (q_scheme q) (contentWidth - 36000)).
  pose proof (parts_pos (subparts q) 0 ltac:(lia) (fq_parts q Hq)). pose proof (fq_lines q Hq).
  repeat match goal with |- context [if ?b then _ else _] => destruct b end; lia.
Qed.
(** Between questions the baseline may be under the bottom. *)
Lemma placed_question q i l : fits_question q -> fits_number i -> Placed (-22000) l -> Placed (-22000) (drawQuestion metadata kind q i l).
Proof.
  intros Hq Hi Hl. unfold drawQuestion.
  set (h := if _ <=? _ then _ else _).
  assert (Hpos : 15000 <= wrappedHeight (q_prompt q) prompt_options) by (apply (wrapped_pos _ prompt_options); opts).
  assert (Hm : Placed 15000 (ensureSpace metadata h l)).
  { unfold ensureSpace. destruct (Z.ltb_spec (y l - h) CONTENT_BOTTOM) as [Hlt|Hge].
    - eapply placed_le; [|apply space_new, Hl]. lia.
    - destruct Hl as [Ha Hy]. split; [done|]. unfold h in *.
      destruct (Z.leb_spec (estimated_height kind q) pageCapacity) as [_|_]; [|lia].
      pose proof (estimated_pos q Hq). lia. }
  assert (Hr : Placed 0 (draw_rest metadata kind q (draw_prompt metadata q i (ensureSpace metadata h l)))).
  { unfold draw_rest.
    apply (placed_when 0); [lia|intros; by eapply placed_wrapped; [opts|apply (fq_source q Hq)|]|].
    apply (placed_when 0); [lia|intros; apply placed_working; [unfold A4_WIDTH, PAGE_MARGIN; lia|done]|].
    eapply (placed_fold 0 _ fits_part); [lia|intros; by apply placed_part|apply (fq_parts q Hq)|].
    apply (placed_when 0); [lia|intros Hx _; eapply placed_scheme; [| |apply (fq_scheme q Hq)|exact Hx]; unfold PAGE_MARGIN; lia|].
    apply (placed_when 0); [lia|intros; by eapply placed_wrapped; [opts|apply (fq_answer q Hq)|]|].
    by apply placed_prompt. }
  apply placed_down; [destruct (_ =? _); lia|]. eapply placed_le; [|exact Hr]. destruct (_ =? _); lia.
Qed.

Definition title_options : Options := gap 5000 (spaced 23000 (sized 19000 (bold plain))).
Definition time_text : jstr := js "Time allowed: " ++ show_Z (durationMinutes metadata) ++ js " minutes".
Record fits_paper (paper : GeneratedPaper) : Prop := {
  fp_title : Fits (or_str (copy_title metadata kind) (js "Question paper")) title_options;
  fp_subject : Fits (subject metadata) (gap 2000 (sized 11000 (bold plain)));
  fp_board : Fits (board_details metadata) (sized 8800 plain);
  fp_time : Fits time_text (sized 8800 plain);
  fp_sources : Fits (js "Sources: " ++ sourceSummary (sources metadata)) (gap 6000 (spaced 11000 (sized 8000 plain)));
  fp_heading : Fits (js "Instructions") (gap 2000 (sized 10000 (bold plain)));
  fp_instructions : Forall (fun i => Fits (js "- " ++ i) (sized 9300 (at_x (PAGE_MARGIN + 8000) (contentWidth - 8000) plain)))
    (p_instructions paper);
  fp_questions : Forall fits_question (questions paper);
  fp_numbers : forall i, (i < length (questions paper))%nat -> fits_number i
}.

Lemma placed_heading paper : fits_paper paper -> Placed (-22000) (draw_heading metadata kind first_page).
Proof.
  intros Hf. unfold draw_heading, draw_rule.
  assert (H0 : Placed room (drawCustomHeader metadata first_page)) by (by apply header_space; [split; constructor|]).
  set (l := when _ _ _). assert (Hl : Placed 0 l).
  { apply (placed_when 0); [lia|intros Hx _; eapply placed_wrapped; [opts|apply (fp_time _ Hf)|exact Hx]|].
    eapply placed_wrapped; [opts|apply (fp_board _ Hf)|]. eapply placed_wrapped; [opts|apply (fp_subject _ Hf)|].
    eapply placed_wrapped; [opts|apply (fp_title _ Hf)|exact H0]. }
  assert (Hs : Placed (-7000) (draw_sources metadata l)).
  { unfold draw_sources. pose proof (fp_sources _ Hf) as Hsrc. destruct (sources metadata).
    - apply placed_down; [lia|]. exact Hl.
    - eapply placed_le; [|eapply placed_wrapped; [opts|exact Hsrc|exact Hl]]. lia. }
  apply placed_down; [lia|]. apply placed_draw; [|exact Hs].
  destruct Hs as [_ Hy]. cbn [on_page]. unfold A4_WIDTH, PAGE_MARGIN. lia.
Qed.
Lemma placed_instructions paper l : fits_paper paper -> Placed (-22000) l ->
  Placed (-22000) (draw_instructions metadata kind (p_instructions paper) l).
Proof.
  intros Hf Hl. unfold draw_instructions. pose proof (fp_instructions _ Hf) as Hi.
  destruct (p_instructions paper) as [|i ins] eqn:E; [done|]. destruct (for_answers kind); [done|].
  apply placed_down; [lia|]. eapply placed_le; [|eapply (placed_fold 0 _ _ (i :: ins)); [lia| |exact Hi|]]; [lia| |].
  - intros m x Hx Hm. eapply placed_wrapped; [opts|exact Hx|exact Hm].
  - eapply placed_wrapped; [opts|apply (fp_heading _ Hf)|exact Hl].
Qed.
Lemma placed_questions qs l : Forall fits_question qs -> (forall i, (i < length qs)%nat -> fits_number i) ->
  Placed (-22000) l -> Placed (-22000) (draw_questions metadata kind qs l).
Proof.
  intros Hqs Hn. unfold draw_questions.
  assert (Hf : forall ps l, Forall (fun e : nat * PaperQuestion => fits_question (snd e) /\ fits_number (fst e)) ps -> Placed (-22000) l ->
    Placed (-22000) (fold_left (fun l (e : nat * PaperQuestion) => drawQuestion metadata kind (snd e) (fst e) l) ps l)).
  { intros ps m Hps. revert m. induction Hps as [|e ps [He Hi] _ IH]; intros m Hm; [done|]. cbn. by apply IH, placed_question. }
  apply Hf. apply Forall_lookup. intros i e. rewrite list_lookup_imap. destruct (qs !! i) as [q|] eqn:E; [|done].
  intros [= <-]. rewrite Forall_lookup in Hqs. split; [by apply (Hqs i)|]. by apply Hn, lookup_lt_is_Some.
Qed.
End bounds.
End PageBounds.
Import PageBounds.

Definition footer_line (d : Drawing) : Prop := exists x t, d = Text x 24000 8000 false t.

(** C37. Nothing is drawn off the page: when at least 211 points are free under
    the header, every block of text fits on a page there, no character is wider
    than twice its size, every picture keeps to the size it is scaled to, and
    numbers, marks and labels are not wider than the content, everything on every page lies between the side margins,
    over the bottom of the content (the rule under the heading at most 7
    points under it) and under the top edge, apart from the lines of the
    footer at their place in the margin, which are not wrapped. *)
Theorem everything_on_page `{Engine} (metadata : PaperMetadata) (kind : Kind) (paper : GeneratedPaper) :
  (forall strong t size, (length t <= 1)%nat -> 0 <= size -> widthOfTextAtSize strong t size <= 2 * size) ->
  211000 <= room metadata -> fits_paper metadata kind paper ->
  Forall (Forall (fun d => on_page d \/ footer_line d)) (pdf_pages (createPaperPdf metadata kind paper)).
Proof.
  intros Hn Hroom Hf.
  destruct (placed_questions metadata kind Hn Hroom (questions paper) _ (fp_questions _ _ _ Hf) (fp_numbers _ _ _ Hf)
    (placed_instructions metadata kind Hn Hroom paper _ Hf (placed_heading metadata kind Hn Hroom paper Hf))) as [[Ha Hp] _].
  unfold createPaperPdf. cbn [pdf_pages]. set (pages := finished _ ++ [page _]).
  assert (Hall : Forall (Forall on_page) pages) by (apply Forall_app; auto).
  apply Forall_lookup. intros i ds. rewrite list_lookup_imap. destruct (pages !! i) as [drawn|] eqn:E; [|done].
  intros [= <-]. rewrite Forall_lookup in Hall. unfold draw_footer. apply Forall_app. split.
  - eapply Forall_impl; [by apply (Hall i)|]. by left.
  - apply Forall_app. split.
    + destruct (_ && _); [|constructor]. apply Forall_cons; split; [|constructor]. right. by eexists _, _.
    + apply Forall_cons; split; [|constructor]. right. by eexists _, _.
Qed.

Module ExportWitnesses.

(** Every character 57 hundredths of the size wide, pictures of a fixed size, ASCII text. *)
Definition typewriter : Engine := {|
  widthOfTextAtSize _ t size := size * Z.of_nat (length t) * 57 / 100;
  figure _ := Drawn 300000 180000;
  nfkd t := t
|}.
#[local] Existing Instance typewriter.
Definition meta : PaperMetadata := mkMetadata (js "Mock") (js "Physics") CIE (js "9702") (js "2024") (js "May") (js "22") 90
  [mkCitation (js "Notes") [1; 2; 4]] (Some (js " School ")) (Some (js "End")) (Some true) (Some true).
Definition scheme : PaperScheme := mkScheme [mkPoint (js "a reason") 1] [] (js "Be kind").
Definition question (prompt : jstr) : PaperQuestion :=
  mkQuestion (js "q") prompt 3 (js "Because.") 2
    [mkSubpart (js "a") (js "Why?") 3 (js "So.") 4 scheme] (Some (mkDiagram [] (js "A cell") (js "cell"))) (js "p. 3") scheme.
Definition mock (prompt : jstr) : GeneratedPaper := mkPaper [js "Answer all."] [question prompt].

Ltac fit := vm_compute; discriminate.
Lemma everything_on_page_witness :
  Forall (Forall (fun d => on_page d \/ footer_line d)) (pdf_pages (createPaperPdf meta AnswerCopy (mock (js "What is a cell?")))).
Proof.
  apply everything_on_page; [|fit|].
  { intros b [|c [|d t]] size Ht Hs; cbn in *; lia. }
  split; [fit|fit|fit|fit|fit|fit|apply Forall_cons; split; [fit|constructor]| |intros [|i] Hi; [fit|cbn in Hi; lia]].
  apply Forall_cons; split; [|constructor]. split; [fit|fit|fit| |fit| | |fit].
  - intros d E. apply (inj Some) in E as <-. split; [fit|]. split; [fit|]. vm_compute. repeat split; discriminate.
  - unfold fits_scheme. vm_compute schemeLines. repeat (apply Forall_cons; split; [fit|]). constructor.
  - apply Forall_cons; split; [|constructor]. split; [fit|]. split; [fit|]. split; [fit|]. split; [fit|]. intros _.
    unfold fits_scheme. vm_compute schemeLines. repeat (apply Forall_cons; split; [fit|]). constructor.
Defined.

Lemma student_pdf_hides_answers_witness :
  createPaperPdf meta QuestionCopy (mkPaper [] [mkQuestion (js "1") (js "Why?") 2 (js "Because.") 0 [] None (js "p. 3") scheme]) =
  createPaperPdf meta QuestionCopy (mkPaper [] [mkQuestion (js "2") (js "Why?") 2 (js "So.") 0 [] None [] EMPTY_SCHEME]).
Proof. apply student_pdf_hides_answers. vm_compute. reflexivity. Defined.

(** A prompt of more lines than a page has runs off it: [ensureSpace] can only
    start a new page, and the lines are drawn whatever is left. *)
Definition long_prompt : jstr := concat (replicate 60 (replicate 40 120%N ++ [32%N])).
Theorem long_prompt_leaves_page :
  existsb (existsb (fun d => match d with Text _ y _ _ _ => y <? 0 | _ => false end))
    (pdf_pages (createPaperPdf meta QuestionCopy (mock long_prompt))) = true.
Proof. vm_compute. reflexivity. Qed.

(** A footer is cut to 160 characters and not wrapped: one of that length is
    drawn past the right edge of the page. *)
Definition long_footer : PaperMetadata := mkMetadata (js "Mock") (js "Physics") CIE [] [] [] [] 0 [] None (Some (replicate 160 120%N)) None None.
Theorem footer_leaves_page :
  existsb (existsb (fun d => match d with Text x _ size b t => A4_WIDTH <? x + widthOfTextAtSize b t size | _ => false end))
    (pdf_pages (createPaperPdf long_footer QuestionCopy (mkPaper [] []))) = true.
Proof. vm_compute. reflexivity. Qed.

(** A line break in a text is printed as a question mark: it is replaced
    before the text is split into words. *)
Theorem line_break_becomes_mark :
  wrapLine (js "Read this:" ++ s_nl ++ js "then answer.") contentWidth false 10500 = [js "Read this:?then answer."].
Proof. vm_compute. reflexivity. Qed.
End ExportWitnesses.
