(* ===== verification/PaperHtml.v ===== *)
(** * The HTML copies of a paper ([paperHtml] of apps/teacher/src/PapersView.tsx)

    [paperHtml] writes the question paper or the marking scheme as one
    document.  The theorems: [escapeHtml] can be undone and its result holds
    no delimiter, the elements and attributes of a document are those of the
    template whatever the texts are, and the question paper does not depend
    on anything that is for the teacher only. *)

From S2P Require Import Prelude JsString JsNumber Regex JsValue Uri PaperLogic PaperFacts PaperExport.
Import Pages Text StudentCopy.
Local Open Scope Z_scope.

(** The template's text, with ['] for the double quote. *)
Definition h (s : jstr) : jstr := (fun c => if (c =? 39)%N then 34%N else c) <$> s.

Definition escapeHtml (value : jstr) : jstr :=
  let value := replace_chars (N.eqb 38) (fun _ => js "&amp;") value in
  let value := replace_chars (N.eqb 60) (fun _ => js "&lt;") value in
  let value := replace_chars (N.eqb 62) (fun _ => js "&gt;") value in
  replace_chars (N.eqb 34) (fun _ => js "&quot;") value.

Definition is_answer (k : Kind) : bool := match k with AnswerCopy => true | QuestionCopy => false end.
Definition when (b : bool) (s : jstr) : jstr := if b then s else [].

Definition style : jstr := h (js "@page{size:A4;margin:16mm 18mm}*{box-sizing:border-box}body{max-width:174mm;margin:0 auto;color:#171717;font:11pt/1.48 Arial,'Liberation Sans',sans-serif}header{padding-bottom:12pt;border-bottom:1px solid #999}h1{margin:0 0 5pt;font-size:20pt}header p{margin:2pt 0}.custom{font-size:8.5pt;font-weight:700;text-transform:uppercase;letter-spacing:.05em}.meta,.sources,footer{font-size:8.5pt;color:#444}footer{margin-top:18pt;padding-top:7pt;border-top:1px solid #bbb}.instructions{margin:12pt 0}.instructions h2{font-size:10pt;margin:0 0 4pt}.instructions ul{margin:0;padding-left:18pt}.question{margin:14pt 0;break-inside:avoid}.question-row,.subpart{display:grid;grid-template-columns:24pt 1fr 32pt;gap:5pt;align-items:start}.question-row p,.subpart p{margin:0;white-space:pre-wrap}.question-row>b,.subpart>b{text-align:right}.answer{margin:6pt 0 0 24pt!important;color:#26382b}.subpart .answer{margin-left:0!important}.subpart{margin:8pt 0 0 24pt}.working{margin:7pt 0 0 24pt}.working i{display:block;height:18pt;border-bottom:1px solid #bbb}figure{max-width:130mm;margin:10pt auto;text-align:center}figure img{display:block;max-width:100%;max-height:62mm;margin:auto}figcaption{margin-top:4pt;color:#555;font-size:8.5pt}.question small{display:block;margin:6pt 0 0 24pt;color:#555}").

Definition details (m : PaperMetadata) : jstr :=
  join (js " | ") (nonempty
    [boardName (board m);
     when (truthy (syllabusCode m)) (js "Syllabus " ++ syllabusCode m);
     year m; session m;
     when (truthy (paperVariant m)) (js "Paper " ++ paperVariant m)]).
Definition working (n : Z) : jstr := h (js "<div class='working'>") ++ concat (repeat (h (js "<i></i>")) (Z.to_nat n)) ++ h (js "</div>").
Definition figure_html (d : PaperDiagram) : jstr :=
  h (js "<figure><img src='") ++ escapeHtml (imageDataUrl d) ++ h (js "' alt='") ++ escapeHtml (alt d) ++ h (js "'>") ++
  when (truthy (caption d)) (h (js "<figcaption>") ++ escapeHtml (caption d) ++ h (js "</figcaption>")) ++ h (js "</figure>").
Definition answer_html (answer : jstr) : jstr :=
  h (js "<p class='answer'>") ++ escapeHtml (or_str answer (js "No answer supplied.")) ++ h (js "</p>").
Definition part_html (k : Kind) (p : PaperSubpart) : jstr :=
  h (js "<div class='subpart'><span>(") ++ escapeHtml (part_label p) ++ h (js ")</span><div><p>") ++ escapeHtml (part_prompt p) ++ h (js "</p>") ++
  when (is_answer k) (answer_html (part_answer p)) ++ h (js "</div><b>[") ++ show_Z (part_marks p) ++ h (js "]</b></div>") ++
  when (negb (is_answer k)) (working (part_workingLines p)).
Definition plain (q : PaperQuestion) : bool := match subparts q with [] => true | _ => false end.
Definition question_html (k : Kind) (index : nat) (q : PaperQuestion) : jstr :=
  h (js "<section class='question'><div class='question-row'><strong>") ++ show_Z (Z.of_nat index + 1) ++ h (js ".</strong><p>") ++
  escapeHtml (q_prompt q) ++ h (js "</p><b>[") ++ show_Z (q_marks q) ++ h (js "]</b></div>") ++
  match diagram q with Some d => figure_html d | None => [] end ++
  when (is_answer k && plain q) (answer_html (q_answer q)) ++
  concat (part_html k <$> subparts q) ++
  when (negb (is_answer k) && plain q) (working (q_workingLines q)) ++
  when (is_answer k && truthy (q_source q)) (h (js "<small>Source note: ") ++ escapeHtml (q_source q) ++ h (js "</small>")) ++
  h (js "</section>").
Definition instructions_html (k : Kind) (items : list jstr) : jstr :=
  when (negb (is_answer k) && match items with [] => false | _ => true end)
    (h (js "<section class='instructions'><h2>Instructions</h2><ul>") ++
     concat ((fun item => h (js "<li>") ++ escapeHtml item ++ h (js "</li>")) <$> items) ++ h (js "</ul></section>")).
Definition sources_html (sources : list PaperSourceCitation) : jstr :=
  match sources with
  | [] => []
  | _ => h (js "<p class='sources'><strong>Sources:</strong> ") ++ escapeHtml (sourceSummary sources) ++ h (js "</p>")
  end.
Definition header_html (o : option jstr) : jstr :=
  when (truthy (default [] o)) (h (js "<p class='custom'>") ++ escapeHtml (default [] o) ++ h (js "</p>")).
Definition footer_html (o : option jstr) : jstr :=
  when (truthy (default [] o)) (h (js "<footer>") ++ escapeHtml (default [] o) ++ h (js "</footer>")).
Definition html_title (m : PaperMetadata) (k : Kind) : jstr :=
  if is_answer k then meta_title m ++ js " - Marking scheme" else meta_title m.

Definition paperHtml (m : PaperMetadata) (paper : GeneratedPaper) (k : Kind) : jstr :=
  h (js "<!doctype html><html><head><meta charset='utf-8'><title>") ++ escapeHtml (html_title m k) ++
  h (js "</title><style>") ++ style ++ h (js "</style></head><body><header>") ++ header_html (headerText m) ++
  h (js "<h1>") ++ escapeHtml (html_title m k) ++ h (js "</h1><p><strong>") ++ escapeHtml (subject m) ++
  h (js "</strong></p><p class='meta'>") ++ escapeHtml (details m) ++
  when ((0 <? durationMinutes m) && negb (is_answer k)) (h (js " | Time: ") ++ show_Z (durationMinutes m) ++ h (js " minutes")) ++
  h (js "</p>") ++ sources_html (sources m) ++ h (js "</header>") ++ instructions_html k (p_instructions paper) ++
  concat (imap (question_html k) (questions paper)) ++ footer_html (footerText m) ++ h (js "</body></html>").

(** ** Escaping *)

Module Escaping.

Definition escape_char (c : N) : jstr :=
  if (c =? 38)%N then js "&amp;" else if (c =? 60)%N then js "&lt;" else if (c =? 62)%N then js "&gt;"
  else if (c =? 34)%N then js "&quot;" else [c].
(** What a browser shows for the text. *)
Fixpoint unescape (fuel : nat) (s : jstr) : jstr :=
  match fuel, s with
  | S n, c :: s' =>
    match List.find (fun p : jstr * N => starts_with (fst p) s) [(js "&amp;", 38%N); (js "&lt;", 60%N); (js "&gt;", 62%N); (js "&quot;", 34%N)] with
    | Some (e, d) => d :: unescape n (drop (length e) s)
    | None => c :: unescape n s'
    end
  | _, _ => []
  end.

Lemma escape_char_by_char s : escapeHtml s = flat_map escape_char s.
Proof.
  unfold escapeHtml, replace_chars. induction s as [|c s IH]; [done|].
  cbn [flat_map]. rewrite !flat_map_app, IH. f_equal. unfold escape_char.
  destruct (N.eqb_spec c 38) as [->|n1]; [reflexivity|]. destruct (N.eqb_spec c 60) as [->|n2]; [reflexivity|].
  destruct (N.eqb_spec c 62) as [->|n3]; [reflexivity|]. destruct (N.eqb_spec c 34) as [->|n4]; [reflexivity|].
  apply not_eq_sym, N.eqb_neq in n1, n2, n3, n4. rewrite n1. cbn [flat_map app]. rewrite n2. cbn [flat_map app].
  rewrite n3. cbn [flat_map app]. by rewrite n4.
Qed.
Lemma starts_with_other c s d e : c <> d -> starts_with (d :: e) (c :: s) = false.
Proof. intros Hn. cbn. by rewrite (proj2 (N.eqb_neq d c)) by congruence. Qed.
Lemma unescape_escaped s n : (length (flat_map escape_char s) <= n)%nat -> unescape n (flat_map escape_char s) = s.
Proof.
  revert n. induction s as [|c s IH]; intros n Hn; [by destruct n|]. cbn [flat_map] in *. unfold escape_char in *.
  destruct (N.eqb_spec c 38) as [->|n1]; [|destruct (N.eqb_spec c 60) as [->|n2]; [|destruct (N.eqb_spec c 62) as [->|n3];
    [|destruct (N.eqb_spec c 34) as [->|n4]]]]; rewrite length_app in Hn;
    (match type of Hn with (?a + _ <= _)%nat => let v := eval vm_compute in a in change a with v in Hn end);
    (destruct n as [|n]; [lia|]).
  5:{ cbn [app unescape List.find fst]. change (js "&amp;") with (38%N :: js "amp;"). change (js "&lt;") with (38%N :: js "lt;").
      change (js "&gt;") with (38%N :: js "gt;"). change (js "&quot;") with (38%N :: js "quot;"). rewrite !(starts_with_other c) by done. f_equal. apply IH. lia. }
  all: cbn; f_equal; apply IH; lia.
Qed.
Lemma escaped_chars s : forallb (fun c => negb (one_of [60; 62; 34]%N c)) (escapeHtml s) = true.
Proof.
  rewrite escape_char_by_char. apply forallb_Forall, Forall_flat_map, Forall_true. intros c. apply forallb_Forall.
  unfold escape_char. destruct (N.eqb_spec c 38) as [->|n1]; [reflexivity|]. destruct (N.eqb_spec c 60) as [->|n2]; [reflexivity|].
  destruct (N.eqb_spec c 62) as [->|n3]; [reflexivity|]. destruct (N.eqb_spec c 34) as [->|n4]; [reflexivity|].
  unfold one_of. cbn. by rewrite (proj2 (N.eqb_neq _ _) n2), (proj2 (N.eqb_neq _ _) n3), (proj2 (N.eqb_neq _ _) n4).
Qed.

(** Escaped text reads back as the text, and holds neither an angle
    bracket nor a double quote. *)
Theorem escape_reads_back (s : jstr) :
  unescape (length (escapeHtml s)) (escapeHtml s) = s /\
  forallb (fun c => negb (one_of [60; 62; 34]%N c)) (escapeHtml s) = true.
Proof. split; [|apply escaped_chars]. rewrite escape_char_by_char. by apply unescape_escaped. Qed.
End Escaping.

(** ** The elements of a document *)

Module Structure.
Import Escaping.

(** A reader of documents with double-quoted attributes: where it is, and the
    characters of the markup, without the texts and the attributes' values. *)
Inductive Place := InText | InTag | InValue.
Definition read (p : Place) (c : N) : Place * jstr :=
  match p with
  | InText => if (c =? 60)%N then (InTag, [c]) else (InText, [])
  | InTag => (if (c =? 62)%N then InText else if (c =? 34)%N then InValue else InTag, [c])
  | InValue => if (c =? 34)%N then (InTag, [c]) else (InValue, [])
  end.
Fixpoint scan (p : Place) (s : jstr) : Place * jstr :=
  match s with
  | [] => (p, [])
  | c :: s' => let '(q, a) := read p c in let '(r, b) := scan q s' in (r, a ++ b)
  end.
Definition structure (s : jstr) : jstr := snd (scan InText s).

(** Two texts that the reader passes in the same way. *)
Definition alike (p q : Place) (a b : jstr) : Prop := exists w, scan p a = (q, w) /\ scan p b = (q, w).
Lemma scan_app p a b : scan p (a ++ b) =
  let '(q, x) := scan p a in let '(r, y) := scan q b in (r, x ++ y).
Proof.
  revert p. induction a as [|c a IH]; intros p; [cbn; by destruct (scan p b)|]. cbn. destruct (read p c) as [q x].
  rewrite IH. destruct (scan q a) as [q' x']. destruct (scan q' b). by rewrite app_assoc.
Qed.
Lemma alike_app p q r a b c d : alike p q a b -> alike q r c d -> alike p r (a ++ c) (b ++ d).
Proof.
  intros (w & E1 & E2) (v & E3 & E4). exists (w ++ v). by rewrite !scan_app, E1, E2, E3, E4.
Qed.
Lemma alike_const p q c : fst (scan p c) = q -> alike p q c c.
Proof. intros <-. exists (snd (scan p c)). by destruct (scan p c). Qed.
Lemma alike_nil p : alike p p [] [].
Proof. by exists []. Qed.
Lemma scan_plain p s : p <> InTag -> forallb (fun c => negb (one_of [60; 62; 34]%N c)) s = true -> scan p s = (p, []).
Proof.
  intros Hp. induction s as [|c s IH]; [done|]. cbn [forallb]. intros [Hc Hs]%andb_prop. cbn [scan].
  assert (E : read p c = (p, [])); [|by rewrite E, IH].
  unfold one_of in Hc. cbn in Hc. destruct p; [|done|]; cbn [read].
  - by replace (c =? 60)%N with false by lia.
  - by replace (c =? 34)%N with false by lia.
Qed.
Lemma alike_text p a b : p <> InTag -> alike p p (escapeHtml a) (escapeHtml b).
Proof. intros Hp. exists []. by rewrite !scan_plain by (done || apply escaped_chars). Qed.
Lemma show_Z_plain z : forallb (fun c => negb (one_of [60; 62; 34]%N c)) (show_Z z) = true.
Proof.
  rewrite show_Z_digits. destruct (digits_ok (Z.abs_N z)) as (Hd & _). apply forallb_Forall in Hd.
  destruct (z <? 0); cbn [forallb]; [apply andb_true_intro; split; [reflexivity|]|].
  all: apply forallb_Forall; eapply Forall_impl; [exact Hd|]; intros c Hc; unfold is_digit, in_range in Hc; unfold one_of; cbn; lia.
Qed.
Lemma alike_number a b : alike InText InText (show_Z a) (show_Z b).
Proof. exists []. by rewrite !scan_plain by (done || apply show_Z_plain). Qed.
Lemma alike_when a b s t : a = b -> alike InText InText s t -> alike InText InText (when a s) (when b t).
Proof. intros -> H. destruct b; [done|apply alike_nil]. Qed.
Lemma alike_concat l l' : Forall2 (alike InText InText) l l' -> alike InText InText (concat l) (concat l').
Proof. induction 1; [apply alike_nil|by eapply alike_app]. Qed.

(** The front of two documents, piece by piece: a part of the template, a
    text, a number. *)
Ltac constant p c :=
  let q := eval vm_compute in (fst (scan p c)) in apply (alike_const p q c); vm_compute; reflexivity.
Ltac piece :=
  lazymatch goal with
  | |- alike _ _ (escapeHtml _) _ => apply alike_text; discriminate
  | |- alike _ _ (show_Z _) _ => apply alike_number
  | |- alike ?p _ (h ?c) _ => constant p (h c)
  | |- alike ?p _ style _ => constant p style
  end.
Ltac pieces := repeat (eapply alike_app; [solve [piece]|]); try solve [piece].

(** What decides the elements: how many there are of each, and which optional
    ones are there. *)
Definition figure_shape (d : PaperDiagram) : bool := truthy (caption d).
Definition question_shape (q : PaperQuestion) : option bool * list Z * Z * bool :=
  (figure_shape <$> diagram q, part_workingLines <$> subparts q, q_workingLines q, truthy (q_source q)).
Definition paper_shape (p : GeneratedPaper) : nat * list (option bool * list Z * Z * bool) :=
  (length (p_instructions p), question_shape <$> questions p).
Definition header_shape (m : PaperMetadata) : bool * bool * bool :=
  (match sources m with [] => false | _ => true end, truthy (default [] (headerText m)), truthy (default [] (footerText m))).

Lemma figure_alike d d' : figure_shape d = figure_shape d' -> alike InText InText (figure_html d) (figure_html d').
Proof.
  intros E. unfold figure_html. pieces. eapply alike_app; [apply alike_when; [exact E|pieces]|pieces].
Qed.
Lemma working_alike n n' : n = n' -> alike InText InText (working n) (working n').
Proof.
  intros <-. unfold working. pieces. eapply (alike_app _ InText); [|pieces]. apply alike_concat.
  induction (Z.to_nat n); constructor; [pieces|done].
Qed.
Lemma answer_alike a b : alike InText InText (answer_html a) (answer_html b).
Proof. unfold answer_html. pieces. Qed.
Lemma part_alike k p p' : part_workingLines p = part_workingLines p' -> alike InText InText (part_html k p) (part_html k p').
Proof.
  intros E. unfold part_html. pieces. eapply alike_app; [apply alike_when, answer_alike; done|]. pieces.
  by apply alike_when, working_alike.
Qed.
Lemma parts_alike k ps ps' : part_workingLines <$> ps = part_workingLines <$> ps' ->
  Forall2 (alike InText InText) (part_html k <$> ps) (part_html k <$> ps').
Proof.
  revert ps'. induction ps as [|p ps IH]; intros [|p' ps'] E; try done; constructor; injection E as E1 E2.
  - by apply part_alike.
  - by apply IH.
Qed.
Lemma question_alike k i q q' : question_shape q = question_shape q' -> alike InText InText (question_html k i q) (question_html k i q').
Proof.
  intros E. injection E as Ed Ep Ew Es. unfold question_html. pieces.
  assert (Epl : plain q = plain q') by (unfold plain; by destruct (subparts q), (subparts q')).
  eapply alike_app. { destruct (diagram q), (diagram q'); try done; [|apply alike_nil]. apply figure_alike. by injection Ed. }
  eapply alike_app; [apply alike_when, answer_alike; by rewrite Epl|].
  eapply alike_app; [by apply alike_concat, parts_alike|].
  eapply alike_app; [apply alike_when, working_alike; by rewrite ?Epl|].
  eapply alike_app; [apply alike_when; [by rewrite Es|pieces]|pieces].
Qed.
Lemma questions_alike k qs qs' f : question_shape <$> qs = question_shape <$> qs' ->
  Forall2 (alike InText InText) (imap (fun i => question_html k (f i)) qs) (imap (fun i => question_html k (f i)) qs').
Proof.
  revert qs' f. induction qs as [|q qs IH]; intros [|q' qs'] f E; try done;
    pose proof (f_equal head E) as E1; apply (f_equal tail) in E as E2; apply (inj Some) in E1; cbn; constructor.
  - by apply question_alike.
  - by apply (IH qs' (fun i => f (S i))).
Qed.
Lemma instructions_alike k xs ys : length xs = length ys -> alike InText InText (instructions_html k xs) (instructions_html k ys).
Proof.
  intros E. unfold instructions_html. apply alike_when; [by destruct xs, ys|]. pieces. eapply (alike_app _ InText); [|pieces].
  apply alike_concat. revert ys E. induction xs as [|x xs IH]; intros [|y ys] E; try done; constructor; [pieces|].
  apply IH. by injection E.
Qed.

(** C25. Whatever a model or a teacher writes, the elements and attributes of
    an exported document are the template's: two papers of the same shape
    (the same numbers of questions, parts, lines and instructions, the same
    optional parts present) give documents that differ only inside texts and
    attribute values, and a document ends outside every tag.  So no text can
    add an element, close one, or leave the attribute it is written into. *)
Theorem html_structure_fixed (k : Kind) (m m' : PaperMetadata) (p p' : GeneratedPaper)
    (Hm : header_shape m = header_shape m') (Hp : paper_shape p = paper_shape p') :
  structure (paperHtml m p k) = structure (paperHtml m' p' k) /\ fst (scan InText (paperHtml m p k)) = InText.
Proof.
  assert (H : alike InText InText (paperHtml m p k) (paperHtml m' p' k)); [|unfold structure; by destruct H as (w & -> & ->)].
  injection Hm as Hs Hh Hf. injection Hp as Hi Hq. unfold paperHtml. pieces.
  eapply alike_app; [apply alike_when; [exact Hh|pieces]|]. pieces.
  eapply alike_app.
  { assert (Hw : forall b n, alike InText InText (when b (h (js " | Time: ") ++ show_Z n ++ h (js " minutes"))) []).
    { intros [] n; [|apply alike_nil]. exists []. split; [|done]. cbn [when].
      rewrite scan_plain; [done|done|]. rewrite !forallb_app, show_Z_plain. reflexivity. }
    destruct (Hw ((0 <? durationMinutes m) && negb (is_answer k)) (durationMinutes m)) as (w & E1 & E2).
    destruct (Hw ((0 <? durationMinutes m') && negb (is_answer k)) (durationMinutes m')) as (w' & E3 & E4).
    exists w. split; [exact E1|]. rewrite E3. congruence. }
  pieces. eapply alike_app.
  { unfold sources_html. destruct (sources m), (sources m'); try done; [apply alike_nil|pieces]. }
  pieces. eapply alike_app; [by apply instructions_alike|].
  eapply alike_app; [by apply alike_concat, (questions_alike k _ _ id)|].
  eapply alike_app; [apply alike_when; [exact Hf|pieces]|pieces].
Qed.
End Structure.

(** ** The question paper *)

Module HtmlCopies.
Import Structure.

Lemma part_html_student p : part_html QuestionCopy (student_part p) = part_html QuestionCopy p.
Proof.
  unfold part_html, student_part. cbn [part_label part_prompt part_marks part_workingLines part_answer is_answer negb when].
  reflexivity.
Qed.
Lemma plain_student q : plain (student_question q) = plain q.
Proof. unfold plain, student_question. cbn [subparts]. by destruct (subparts q). Qed.
Lemma parts_html_student (ps : list PaperSubpart) : part_html QuestionCopy <$> (student_part <$> ps) = part_html QuestionCopy <$> ps.
Proof. rewrite <- list_fmap_compose. apply list_fmap_ext. intros i p _. apply part_html_student. Qed.
Lemma question_html_student i q : question_html QuestionCopy i (student_question q) = question_html QuestionCopy i q.
Proof.
  unfold question_html. rewrite plain_student.
  cbn [is_answer negb andb when student_question subparts diagram q_prompt q_marks q_workingLines]. by rewrite parts_html_student.
Qed.
Lemma questions_html_student (qs : list PaperQuestion) : imap (question_html QuestionCopy) (student_question <$> qs) = imap (question_html QuestionCopy) qs.
Proof. rewrite imap_fmap. apply imap_ext. intros i q _. apply question_html_student. Qed.

(** The exported question paper depends only on what a student may see:
    two papers that differ in answers, marking schemes or source notes give
    the same document. *)
Theorem html_question_copy_hides_answers (m : PaperMetadata) (p p' : GeneratedPaper) (Hp : student_view p = student_view p') :
  paperHtml m p QuestionCopy = paperHtml m p' QuestionCopy.
Proof.
  assert (H : forall p, paperHtml m (student_view p) QuestionCopy = paperHtml m p QuestionCopy); [|by rewrite <- H, Hp, H].
  intros q. unfold paperHtml. cbn [student_view questions p_instructions]. by rewrite questions_html_student.
Qed.

Definition asked (prompt answer : jstr) : GeneratedPaper :=
  mkPaper [js "Show < your > working."]
    [mkQuestion (js "q1") prompt 2 answer 1 [] (Some (mkDiagram (js "data:image/png;base64,AA==") (js "a&b") prompt)) (js "p. 1") Normalise.EMPTY_SCHEME].
Definition exam : PaperMetadata :=
  mkMetadata (js "Forces") (js "Physics") CIE (js "9702") (js "2026") [] [] 60 [mkCitation (js "2021.pdf") [1; 2]] None (Some (js "End")) None None.
Definition attack : jstr := h (js "'><script>alert(1)</script>").

Lemma html_structure_fixed_witness :
  structure (paperHtml exam (asked attack attack) AnswerCopy) = structure (paperHtml exam (asked (js "Define force.") (js "F = ma")) AnswerCopy) /\
  fst (scan InText (paperHtml exam (asked attack attack) AnswerCopy)) = InText.
Proof. apply html_structure_fixed; vm_compute; reflexivity. Defined.
Lemma html_question_copy_hides_answers_witness :
  paperHtml exam (asked (js "Define force.") (js "F = ma")) QuestionCopy = paperHtml exam (asked (js "Define force.") attack) QuestionCopy.
Proof. apply html_question_copy_hides_answers. vm_compute. reflexivity. Defined.
End HtmlCopies.
