(* ===== verification/PaperEditing.v ===== *)
(** * Editing, saving and reopening a question paper

    The editor of apps/teacher/src/PapersView.tsx: [Edits] is what a teacher
    can do to a paper on the page, as a state machine (a diagram file is read
    in the background, so a choice and its result are two events); [Records]
    is the record that is saved and what the studio reads back from one.  The
    theorems: edits keep a paper within bounds, and a saved paper is the paper
    that is opened again. *)

From Stdlib Require Import QArith Qround.
From S2P Require Import Prelude JsString JsNumber Regex JsValue Uri Types PaperLogic PaperFacts PaperLibrary.
Import Clean Diagrams Normalise Text Legacy Bounds.
Local Open Scope Z_scope.

(** ** A paper as a JavaScript object *)

Definition point_json (p : PaperMarkingPoint) : jsval :=
  VObj [(js "text", VStr (point_text p)); (js "marks", VNum (num (point_marks p)))].
Definition scheme_json (s : PaperScheme) : jsval :=
  VObj [(js "markingPoints", VArr (point_json <$> markingPoints s));
        (js "acceptedAlternatives", VArr (VStr <$> acceptedAlternatives s));
        (js "guidance", VStr (guidance s))].
Definition part_json (p : PaperSubpart) : jsval :=
  VObj [(js "label", VStr (part_label p)); (js "prompt", VStr (part_prompt p));
        (js "marks", VNum (num (part_marks p))); (js "answer", VStr (part_answer p));
        (js "workingLines", VNum (num (part_workingLines p))); (js "scheme", scheme_json (part_scheme p))].
Definition diagram_json (d : PaperDiagram) : jsval :=
  VObj [(js "imageDataUrl", VStr (imageDataUrl d)); (js "caption", VStr (caption d)); (js "alt", VStr (alt d))].
Definition question_json (q : PaperQuestion) : jsval :=
  VObj [(js "id", VStr (question_id q)); (js "prompt", VStr (q_prompt q)); (js "marks", VNum (num (q_marks q)));
        (js "answer", VStr (q_answer q)); (js "workingLines", VNum (num (q_workingLines q)));
        (js "subparts", VArr (part_json <$> subparts q));
        (js "diagram", match diagram q with Some d => diagram_json d | None => VNull end);
        (js "source", VStr (q_source q)); (js "scheme", scheme_json (q_scheme q))].
Definition paper_json (p : GeneratedPaper) : jsval :=
  VObj [(js "instructions", VArr (VStr <$> p_instructions p)); (js "questions", VArr (question_json <$> questions p))].

(** ** Edits on the page *)

Module Edits.

(** [Math.max(lo, Math.min(hi, Number(text) || fallback))].  A number that is
    not whole, which the field lets through, has no counterpart among the
    marks of the model: [None]. *)
Definition typed (fallback lo hi : Z) (text : jstr) : option Z :=
  match number_of_string text with
  | NaN => Some (Z.max lo (Z.min hi fallback))
  | Inf neg => Some (if neg then lo else hi)
  | Fin q =>
    if is_integer (Fin q)
    then Some (Z.max lo (Z.min hi (if Qfloor q =? 0 then fallback else Qfloor q)))
    else None
  end.

(** A chosen file, and what [FileReader] makes of it. *)
Record File := mkFile { file_type : jstr; bytes : list N }.
Definition base64_char (n : N) : N :=
  if (n <? 26)%N then (65 + n)%N else if (n <? 52)%N then (71 + n)%N
  else if (n <? 62)%N then (n - 4)%N else if (n =? 62)%N then 43%N else 47%N.
Fixpoint base64 (bs : list N) : jstr :=
  match bs with
  | a :: b :: c :: r =>
    base64_char (a / 4) :: base64_char (a mod 4 * 16 + b / 16) ::
    base64_char (b mod 16 * 4 + c / 64) :: base64_char (c mod 64) :: base64 r
  | [a; b] => [base64_char (a / 4); base64_char (a mod 4 * 16 + b / 16); base64_char (b mod 16 * 4); 61%N]
  | [a] => [base64_char (a / 4); base64_char (a mod 4 * 16); 61%N; 61%N]
  | [] => []
  end%N.
Definition data_url (f : File) : jstr := js "data:" ++ file_type f ++ js ";base64," ++ base64 (bytes f).
Definition readDiagramFile (f : File) : outcome jstr jstr :=
  if negb (seqb (file_type f) (js "image/png") || seqb (file_type f) (js "image/jpeg"))
  then Throw (js "Choose a PNG or JPEG image.")
  else if 5 * 1024 * 1024 <? Z.of_nat (length (bytes f)) then Throw (js "Diagram images must be 5 MB or smaller.")
  else Ok (data_url f).

Definition with_questions (qs : list PaperQuestion) (p : GeneratedPaper) : GeneratedPaper := mkPaper (p_instructions p) qs.
Definition replaceQuestion (index : nat) (q : PaperQuestion) (p : GeneratedPaper) : GeneratedPaper :=
  with_questions (<[index := q]> (questions p)) p.
Definition with_prompt (x : jstr) (q : PaperQuestion) : PaperQuestion :=
  mkQuestion (question_id q) x (q_marks q) (q_answer q) (q_workingLines q) (subparts q) (diagram q) (q_source q) (q_scheme q).
Definition with_marks (x : Z) (q : PaperQuestion) : PaperQuestion :=
  mkQuestion (question_id q) (q_prompt q) x (q_answer q) (q_workingLines q) (subparts q) (diagram q) (q_source q) (q_scheme q).
Definition with_answer (x : jstr) (q : PaperQuestion) : PaperQuestion :=
  mkQuestion (question_id q) (q_prompt q) (q_marks q) x (q_workingLines q) (subparts q) (diagram q) (q_source q) (q_scheme q).
Definition with_lines (x : Z) (q : PaperQuestion) : PaperQuestion :=
  mkQuestion (question_id q) (q_prompt q) (q_marks q) (q_answer q) x (subparts q) (diagram q) (q_source q) (q_scheme q).
Definition with_subparts (x : list PaperSubpart) (q : PaperQuestion) : PaperQuestion :=
  mkQuestion (question_id q) (q_prompt q) (q_marks q) (q_answer q) (q_workingLines q) x (diagram q) (q_source q) (q_scheme q).
Definition with_diagram (x : option PaperDiagram) (q : PaperQuestion) : PaperQuestion :=
  mkQuestion (question_id q) (q_prompt q) (q_marks q) (q_answer q) (q_workingLines q) (subparts q) x (q_source q) (q_scheme q).
Definition part_with_prompt (x : jstr) (p : PaperSubpart) : PaperSubpart :=
  mkSubpart (part_label p) x (part_marks p) (part_answer p) (part_workingLines p) (part_scheme p).
Definition part_with_answer (x : jstr) (p : PaperSubpart) : PaperSubpart :=
  mkSubpart (part_label p) (part_prompt p) (part_marks p) x (part_workingLines p) (part_scheme p).
Definition part_with_marks (x : Z) (p : PaperSubpart) : PaperSubpart :=
  mkSubpart (part_label p) (part_prompt p) x (part_answer p) (part_workingLines p) (part_scheme p).

(** The two faces of the page, what can be done on them, and the paper with
    the diagram files that are being read: with each, the paper of the moment
    it was chosen. *)
Inductive View := QuestionView | AnswerView.
Inductive Edit :=
  | EditPrompt (i : nat) (text : jstr)
  | EditAnswer (i : nat) (text : jstr)
  | EditPartPrompt (i j : nat) (text : jstr)
  | EditPartAnswer (i j : nat) (text : jstr)
  | EditPartMarks (i j : nat) (text : jstr)
  | EditMarks (i : nat) (text : jstr)
  | EditWorkingLines (i : nat) (text : jstr)
  | RemoveDiagram (i : nat)
  | ChooseDiagram (i : nat) (f : File)
  | DiagramRead (k : nat) (ok : bool)
  | RemoveQuestion (i : nat)
  | AttachFigure (id : jstr) (d : PaperDiagram)
  | AddBlankQuestion (uuid : jstr).
Record Sheet := mkSheet { paper : GeneratedPaper; reading : list (GeneratedPaper * nat * File) }.
Definition set_paper (p : GeneratedPaper) (s : Sheet) : Sheet := mkSheet p (reading s).

Definition isQuestion (v : View) : bool := match v with QuestionView => true | AnswerView => false end.
Definition no_subparts (q : PaperQuestion) : bool := match subparts q with [] => true | _ => false end.
(** A field of at most [limit] characters. *)
Definition fits (limit : Z) (text : jstr) : bool := jlen text <=? limit.

(** What the fields of question [i] make of it. *)
Definition edit_question (v : View) (e : Edit) (q : PaperQuestion) : option PaperQuestion :=
  match e with
  | EditPrompt _ text => if isQuestion v && fits 8000 text then Some (with_prompt text q) else None
  | EditAnswer _ text =>
    if negb (isQuestion v) && no_subparts q && fits 12000 text then Some (with_answer text q) else None
  | EditPartPrompt _ j text =>
    p ← subparts q !! j;
    if isQuestion v && fits 4000 text then Some (with_subparts (<[j := part_with_prompt text p]> (subparts q)) q) else None
  | EditPartAnswer _ j text =>
    p ← subparts q !! j;
    if negb (isQuestion v) && fits 8000 text
    then Some (with_subparts (<[j := part_with_answer text p]> (subparts q)) q) else None
  | EditPartMarks _ j text =>
    p ← subparts q !! j; marks ← typed 1 1 50 text;
    if isQuestion v
    then let parts := <[j := part_with_marks marks p]> (subparts q) in
         Some (with_marks (total_marks parts) (with_subparts parts q))
    else None
  | EditMarks _ text =>
    marks ← typed 1 1 100 text; if isQuestion v && no_subparts q then Some (with_marks marks q) else None
  | EditWorkingLines _ text =>
    lines ← typed 0 0 14 text; if isQuestion v && no_subparts q then Some (with_lines lines q) else None
  | RemoveDiagram _ =>
    match diagram q with Some _ => if isQuestion v then Some (with_diagram None q) else None | None => None end
  | _ => None
  end.
Definition question_of (e : Edit) : option nat :=
  match e with
  | EditPrompt i _ | EditAnswer i _ | EditPartPrompt i _ _ | EditPartAnswer i _ _ | EditPartMarks i _ _
  | EditMarks i _ | EditWorkingLines i _ | RemoveDiagram i => Some i
  | _ => None
  end.

Definition attached (i : nat) (url : jstr) (q : PaperQuestion) : PaperQuestion :=
  with_diagram (Some (mkDiagram url [] (js "Source diagram for question " ++ show_Z (Z.of_nat i + 1)))) q.
Definition attachFigure (id : jstr) (d : PaperDiagram) (p : GeneratedPaper) : GeneratedPaper :=
  with_questions ((fun q => if seqb (question_id q) id then with_diagram (Some d) q else q) <$> questions p) p.
Definition blank_question (uuid : jstr) : PaperQuestion :=
  mkQuestion uuid (js "New question") 1 [] 3 [] None [] EMPTY_SCHEME.
Definition addBlankQuestion (uuid : jstr) (p : GeneratedPaper) : GeneratedPaper :=
  with_questions (questions p ++ [blank_question uuid]) p.

(** One event; [None] when the page does not offer it. *)
Definition apply (v : View) (e : Edit) (s : Sheet) : option Sheet :=
  match e with
  | ChooseDiagram i f =>
    _ ← questions (paper s) !! i;
    if isQuestion v
    then Some (match readDiagramFile f with
               | Ok _ => mkSheet (paper s) (reading s ++ [(paper s, i, f)])
               | Throw _ => s
               end)
    else None
  | DiagramRead k ok =>
    '(chosen, i, f) ← reading s !! k;
    let rest := delete k (reading s) in
    match (if ok then questions chosen !! i else None) with
    | Some q => Some (mkSheet (replaceQuestion i (attached i (data_url f) q) chosen) rest)
    | None => Some (mkSheet (paper s) rest)
    end
  | RemoveQuestion i =>
    _ ← questions (paper s) !! i; Some (set_paper (with_questions (delete i (questions (paper s))) (paper s)) s)
  | AttachFigure id d => Some (set_paper (attachFigure id d (paper s)) s)
  | AddBlankQuestion uuid => Some (set_paper (addBlankQuestion uuid (paper s)) s)
  | _ =>
    i ← question_of e; q ← questions (paper s) !! i; q' ← edit_question v e q;
    Some (set_paper (replaceQuestion i q' (paper s)) s)
  end.
Fixpoint run (es : list (View * Edit)) (s : Sheet) : option Sheet :=
  match es with [] => Some s | (v, e) :: es' => s' ← apply v e s; run es' s' end.
End Edits.

(** ** The record of a paper, and the studio that opens one *)

Module Records.

Definition EMPTY_GENERATED_PAPER : GeneratedPaper := mkPaper [] [].
Definition EMPTY_DOCUMENT : jsval :=
  VObj [(js "type", VStr (js "doc")); (js "content", VArr [VObj [(js "type", VStr (js "paragraph"))]])].

(** In the studio every option has a value: the defaults fill the gaps. *)
Record PaperAdvancedOptions := mkAdvanced {
  year : jstr; session : jstr; paperVariant : jstr; durationMinutes : Z; topics : jstr;
  includeDiagrams : bool; headerText : jstr; footerText : jstr; repeatHeader : bool; repeatFooter : bool;
  maxOutputTokens : Z
}.
(** The fields of the studio that a record holds, [questionCount] and
    [totalMarks] being what the next generation is asked for. *)
Record Fields := mkFields {
  title : jstr; classroomId : jstr; board : ExamBoard; syllabusCode : jstr; difficulty : DifficultyLevel;
  sourceMode : PaperSourceMode; rightsConfirmed : bool; questionCount : Z; totalMarks : Z;
  advanced : PaperAdvancedOptions; paper : GeneratedPaper; sources : list PaperSourceCitation
}.

Definition board_code (b : ExamBoard) : jstr :=
  match b with CIE => js "CIE" | IGCSE => js "IGCSE" | CBSE => js "CBSE" | ICSE => js "ICSE" end.
Definition mode_code (m : PaperSourceMode) : jstr :=
  match m with MAdapt => js "adapt" | MExcerpt => js "excerpt" | MFullPage => js "full_page" end.
Definition level (d : DifficultyLevel) : Z := match d with D1 => 1 | D2 => 2 | D3 => 3 | D4 => 4 | D5 => 5 end.

(** *** What the studio saves *)

Definition metadata (subject : jstr) (f : Fields) : PaperMetadata :=
  let a := advanced f in
  mkMetadata (or_str (cut 120 (trim (title f))) (js "Untitled question paper")) subject (board f)
    (cut 40 (trim (syllabusCode f))) (cut 20 (trim (year a))) (cut 40 (trim (session a))) (cut 40 (trim (paperVariant a)))
    (durationMinutes a) (sources f) (Some (cut 160 (trim (headerText a)))) (Some (cut 160 (trim (footerText a))))
    (Some (repeatHeader a)) (Some (repeatFooter a)).

Definition advanced_json (a : PaperAdvancedOptions) : jsval :=
  VObj [(js "year", VStr (year a)); (js "session", VStr (session a)); (js "paperVariant", VStr (paperVariant a));
        (js "durationMinutes", VNum (num (durationMinutes a))); (js "topics", VStr (topics a));
        (js "includeDiagrams", VBool (includeDiagrams a)); (js "headerText", VStr (headerText a));
        (js "footerText", VStr (footerText a)); (js "repeatHeader", VBool (repeatHeader a));
        (js "repeatFooter", VBool (repeatFooter a)); (js "maxOutputTokens", VNum (num (maxOutputTokens a)))].
Definition citation_json (c : PaperSourceCitation) : jsval :=
  VObj [(js "name", VStr (source_name c)); (js "pages", VArr (VNum <$> (num <$> pages c)))].
Definition buildSavedPaper (subject : jstr) (f : Fields) (id created now : jstr) : jsval :=
  let m := metadata subject f in
  VObj [(js "id", VStr id); (js "title", VStr (meta_title m)); (js "subject", VStr subject);
        (js "questionText", VStr (questionPaperText m (paper f))); (js "questionDocument", EMPTY_DOCUMENT);
        (js "answerKeyText", VStr (answerKeyText m (paper f))); (js "answerKeyDocument", EMPTY_DOCUMENT);
        (js "sources", VArr (citation_json <$> sources f)); (js "classroomId", VStr (classroomId f));
        (js "board", VStr (board_code (board f))); (js "syllabusCode", VStr (PaperLogic.syllabusCode m));
        (js "difficulty", VNum (num (level (difficulty f)))); (js "sourceMode", VStr (mode_code (sourceMode f)));
        (js "rightsConfirmed", VBool (rightsConfirmed f)); (js "advanced", advanced_json (advanced f));
        (js "paperSpec", paper_json (paper f)); (js "createdAt", VStr created); (js "updatedAt", VStr now)].

(** *** What the studio reads *)

Definition text_of (v : jsval) (d : jstr) : jstr := match v with VStr s => s | _ => d end.
Definition flag_of (v : jsval) (d : bool) : bool := match v with VBool b => b | _ => d end.
Definition board_of (v : jsval) : ExamBoard :=
  default CIE (find (fun b => seqb (board_code b) (text_of v [])) [CIE; IGCSE; CBSE; ICSE]).
Definition mode_of (v : jsval) : PaperSourceMode :=
  default MAdapt (find (fun b => seqb (mode_code b) (text_of v [])) [MAdapt; MExcerpt; MFullPage]).
Definition difficulty_of (v : jsval) : DifficultyLevel :=
  default D3 (find (fun d => num_eq (num (level d)) (to_number v)) [D1; D2; D3; D4; D5]).
Definition whole (n : jsnum) (d : Z) : Z := match n with Fin q => Qfloor q | _ => d end.

Definition initialPaperSpec (saved : option jsval) : GeneratedPaper :=
  match saved with
  | None => EMPTY_GENERATED_PAPER
  | Some p =>
    if truthy_val (get (js "paperSpec") p)
    then ok_or (normalizeGeneratedPaper (get (js "paperSpec") p)) EMPTY_GENERATED_PAPER
    else match get (js "questionText") p, get (js "answerKeyText") p with
         | VStr question, VStr answer => legacyPaperToSpec question answer
         | _, _ => EMPTY_GENERATED_PAPER
         end
  end.
(** The saved options over the defaults; the duration is brought within its
    bounds. *)
Definition open_advanced (this_year : jstr) (v : jsval) : PaperAdvancedOptions :=
  mkAdvanced (text_of (get (js "year") v) this_year) (text_of (get (js "session") v) [])
    (text_of (get (js "paperVariant") v) [])
    (Z.max 10 (Z.min 360 (match get (js "durationMinutes") v with VNum n => whole n 60 | _ => 60 end)))
    (text_of (get (js "topics") v) []) (flag_of (get (js "includeDiagrams") v) true)
    (text_of (get (js "headerText") v) []) (text_of (get (js "footerText") v) [])
    (flag_of (get (js "repeatHeader") v) false) (flag_of (get (js "repeatFooter") v) true)
    (whole (normalizePaperOutputTokens (get (js "maxOutputTokens") v)) DEFAULT_PAPER_OUTPUT_TOKENS).
Definition citation_of (v : jsval) : PaperSourceCitation :=
  mkCitation (text_of (get (js "name") v) [])
    ((fun n => match n with VNum n => whole n 0 | _ => 0 end) <$> elements (get (js "pages") v)).

(** [paperTotalMarks] of a stored paper, as it stands. *)
Definition stored_marks (spec : jsval) : Z :=
  fold_left (fun total q => total + match get (js "marks") q with VNum n => whole n 0 | _ => 0 end)
    (elements (get (js "questions") spec)) 0.
Definition classroom_named (name : jstr) (classrooms : list Classroom) : option Classroom :=
  find (fun c => seqb (classroom_name c) name) classrooms.
Definition classroom_with_id (id : jstr) (classrooms : list Classroom) : option Classroom :=
  find (fun c => seqb (classroom_id c) id) classrooms.
Definition open (this_year : jstr) (classrooms : list Classroom) (saved : option jsval) : Fields :=
  let p := default (VObj []) saved in
  let first := head classrooms in
  let spec := get (js "paperSpec") p in
  mkFields (text_of (get (js "title") p) (js "Practice question paper"))
    (text_of (get (js "classroomId") p)
       (default (default [] (classroom_id <$> first))
          (classroom_id <$> (name ← as_string (get (js "subject") p); classroom_named name classrooms))))
    (board_of (get (js "board") p))
    (text_of (get (js "syllabusCode") p)
       (default (default [] (first ≫= subject_code))
          (id ← as_string (get (js "classroomId") p); c ← classroom_with_id id classrooms; subject_code c)))
    (difficulty_of (get (js "difficulty") p)) (mode_of (get (js "sourceMode") p))
    (flag_of (get (js "rightsConfirmed") p) false)
    (if truthy_val spec then Z.of_nat (length (elements (get (js "questions") spec))) else 10)
    (if truthy_val spec then stored_marks spec else 50)
    (open_advanced this_year (get (js "advanced") p)) (initialPaperSpec saved)
    (citation_of <$> elements (get (js "sources") p)).
End Records.

(** ** Attached diagrams *)

Module Attached.
Import Edits.

Lemma base64_ind (P : list N -> Prop) :
  P [] -> (forall a, P [a]) -> (forall a b, P [a; b]) -> (forall a b c r, P r -> P (a :: b :: c :: r)) -> forall l, P l.
Proof.
  intros H0 H1 H2 H3. fix IH 1. intros [|a [|b [|c r]]]; [done|by apply H1|by apply H2|by apply H3].
Qed.
Lemma base64_char_ok n : is_base64 (base64_char n) = true.
Proof. unfold base64_char, is_base64, one_of. cases; cbn [js]; char_lia. Qed.
Lemma base64_shape bs : exists b e, base64 bs = b ++ e /\ forallb is_base64 b = true /\
  forallb (N.eqb 61) e = true /\ (length e <= 2)%nat /\ (bs <> [] -> b <> []).
Proof.
  induction bs as [|x|x y|x y z r (b & e & E & Hb & He & Hl & Hn)] using base64_ind.
  - exists [], []. split_and!; (done || (cbn; lia)). 
  - exists [base64_char (x / 4); base64_char (x mod 4 * 16)], [61; 61]%N. cbn [forallb]. rewrite !base64_char_ok. split_and!; (done || (cbn; lia)).
  - exists [base64_char (x / 4); base64_char (x mod 4 * 16 + y / 16); base64_char (y mod 16 * 4)], [61]%N.
    cbn [forallb]. rewrite !base64_char_ok. split_and!; (done || (cbn; lia)).
  - eexists (_ :: _ :: _ :: _ :: b), e. cbn [base64]. rewrite E. cbn [forallb]. rewrite !base64_char_ok. split_and!; (done || (cbn; lia)).
Qed.
Lemma base64_length bs : 3 * jlen (base64 bs) <= 4 * (Z.of_nat (length bs) + 2).
Proof. unfold jlen. induction bs as [| | |x y z r IH] using base64_ind; cbn [base64 length] in *; lia. Qed.

Lemma image_url_match fmt b e : (fmt = js "png" \/ fmt = js "jpeg") -> b <> [] -> forallb is_base64 b = true ->
  forallb (N.eqb 61) e = true -> (length e <= 2)%nat ->
  test re_image_data (js "data:image/" ++ fmt ++ js ";base64," ++ b ++ e) = true.
Proof.
  intros Hfmt Hne Hb He Hl. unfold test.
  destruct (exec re_image_data _) eqn:E; [done|exfalso]. revert E. destruct b as [|c b]; [done|].
  cbn [forallb] in Hb. apply andb_prop in Hb as [Hc Hb].
  set (x := js "data:image/" ++ fmt ++ js ";base64," ++ (c :: b) ++ e).
  eapply exec_complete. unfold re_image_data. cbn [seqs foldr].
  eapply m_seq; [by apply m_begin|].
  eapply m_seq; [apply (build_lit_i (js "data:image/") (fmt ++ js ";base64," ++ (c :: b) ++ e)); done|].
  assert (Hf : forall s a, after s = fmt ++ a -> matches (alts [lit_i (js "png"); lit_i (js "jpeg")]) s (advance fmt a s)).
  { intros s a Ha. cbn [alts]. destruct Hfmt as [-> | ->]; [apply m_alt_l|apply m_alt_r]; by apply build_lit_i. }
  eapply m_seq; [by apply (Hf _ (js ";base64," ++ (c :: b) ++ e))|].
  eapply m_seq; [by apply (build_lit_i (js ";base64,") ((c :: b) ++ e))|].
  eapply m_seq.
  { unfold rplus. eapply m_seq; [by apply m_set|]. apply (build_star true is_base64 b e); done. }
  eapply m_seq; [apply (build_upto 2 (N.eqb 61) e []); [by rewrite app_nil_r|done|done]|].
  eapply m_seq; [by apply m_end|constructor].
Qed.
Definition not_space (c : N) : bool := negb (is_space c).
Lemma base64_not_space b : forallb is_base64 b = true -> forallb not_space b = true.
Proof.
  rewrite !forallb_Forall. intros H. eapply Forall_impl; [exact H|]. intros c Hc.
  unfold is_base64, one_of in Hc. change (js "+/") with [43; 47]%N in Hc. cbn [existsb] in Hc.
  unfold not_space, is_space, is_eol in *. char_lia.
Qed.
(** A file that was accepted and is not empty gives a URL that the check
    keeps. *)
Lemma accepted_url f url : readDiagramFile f = Ok url -> bytes f <> [] ->
  test re_image_data url = true /\ jlen url <= 7000000 /\ trim url = url.
Proof.
  unfold readDiagramFile. intros Hr Hne. cases; bool_hyps.
  assert (Hfmt : exists fmt, (fmt = js "png" \/ fmt = js "jpeg") /\ file_type f = js "image/" ++ fmt).
  { destruct (seqb (file_type f) (js "image/png")) eqn:E1; [apply seqb_eq in E1; eauto|].
    destruct (seqb (file_type f) (js "image/jpeg")) eqn:E2; [apply seqb_eq in E2; eauto|done]. }
  destruct Hfmt as (fmt & Hfmt & Et). pose proof (base64_length (bytes f)) as Hlen.
  destruct (base64_shape (bytes f)) as (b & e & Eb & Hb & He & Hl & Hn).
  assert (Eu : data_url f = js "data:image/" ++ fmt ++ js ";base64," ++ b ++ e) by (unfold data_url; rewrite Et, Eb; reflexivity).
  rewrite Eu. split_and!.
  - by apply image_url_match; [|apply Hn| | |].
  - rewrite <- Eb. unfold jlen in *. rewrite !length_app. 
    change (length (js "data:image/")) with 11%nat. change (length (js ";base64,")) with 8%nat.
    assert ((length fmt <= 4)%nat) by (destruct Hfmt as [-> | ->]; vm_compute; lia). lia.
  - apply trimmed_trim, (forallb_trimmed not_space); [|intros c Hc; by apply negb_true_iff in Hc].
    rewrite !forallb_app, (base64_not_space b Hb).
    rewrite (proj2 (forallb_Forall not_space e));
      [|apply forallb_Forall in He; eapply Forall_impl; [exact He|]; by intros c <-%N.eqb_eq].
    by destruct Hfmt as [-> | ->].
Qed.
End Attached.

(** ** Edits keep a paper within bounds *)

Module EditFacts.
Import Edits Attached.

(** What every edit keeps: less than [Bounds.question_ok], since a prompt can
    be emptied and the marks of a scheme are left behind by the marks of its
    question. *)
Definition part_in_bounds (p : PaperSubpart) : Prop :=
  within 5 (part_label p) /\ within 4000 (part_prompt p) /\ 1 <= part_marks p <= 50 /\
  within 8000 (part_answer p) /\ 0 <= part_workingLines p <= 12.
(** A diagram the check keeps, or an empty file. *)
Definition diagram_in_bounds (d : PaperDiagram) : Prop :=
  ((test re_image_data (imageDataUrl d) = true /\ jlen (imageDataUrl d) <= 7000000) \/
   exists t, imageDataUrl d = data_url (mkFile t [])) /\ within 240 (caption d).
Lemma diagram_ok_in_bounds d : diagram_ok d -> diagram_in_bounds d.
Proof. unfold diagram_ok, diagram_in_bounds. tauto. Qed.
Definition question_in_bounds (q : PaperQuestion) : Prop :=
  filled 80 (question_id q) /\ within 8000 (q_prompt q) /\
  ((length (subparts q) <= 12)%nat /\ Forall part_in_bounds (subparts q)) /\
  match subparts q with [] => 1 <= q_marks q <= 100 | ps => q_marks q = total_marks ps end /\
  within 12000 (q_answer q) /\ 0 <= q_workingLines q <= 14 /\
  match diagram q with Some d => diagram_in_bounds d | None => True end /\ within 300 (q_source q).
Definition in_bounds (p : GeneratedPaper) : Prop := Forall question_in_bounds (questions p).
Definition sheet_in_bounds (s : Sheet) : Prop :=
  in_bounds (paper s) /\ Forall (fun r => in_bounds (fst (fst r)) /\ exists u, readDiagramFile (snd r) = Ok u) (reading s).
(** What the picker of figures and the random ids supply. *)
Definition supplied (e : Edit) : Prop :=
  match e with
  | AttachFigure _ d => diagram_ok d
  | AddBlankQuestion uuid => filled 80 uuid
  | _ => True
  end.

Lemma typed_bounds fallback lo hi text n : lo <= hi -> typed fallback lo hi text = Some n -> lo <= n <= hi.
Proof. unfold typed. intros Hl E. cases; lia. Qed.
Lemma fits_within n text : fits (Z.of_N n) text = true -> within n text.
Proof. unfold fits, within, jlen. lia. Qed.

Lemma part_ok_in_bounds p : part_ok p -> part_in_bounds p.
Proof. unfold part_ok, part_in_bounds, filled. tauto. Qed.
Lemma question_ok_in_bounds q : question_ok q -> question_in_bounds q.
Proof.
  intros (Hid & [_ Hp] & Hl & Hparts & Hm & _ & Ha & Hw & Hd & Hs & _). split_and!; try done; try apply Hw; try apply Hid.
  - eapply Forall_impl; [exact Hparts|apply part_ok_in_bounds].
  - destruct (diagram q); [by apply diagram_ok_in_bounds|done].
Qed.
Lemma paper_ok_in_bounds p : paper_ok p -> in_bounds p.
Proof. intros (_ & H & _). eapply Forall_impl; [exact H|apply question_ok_in_bounds]. Qed.

Lemma with_parts q j x : part_in_bounds x -> question_in_bounds q ->
  (length (<[j := x]> (subparts q)) <= 12)%nat /\ Forall part_in_bounds (<[j := x]> (subparts q)).
Proof. intros Hx (_ & _ & [Hl Hp] & _). rewrite length_insert. split; [done|by apply Forall_insert]. Qed.
Lemma total_marks_insert j x p ps : ps !! j = Some p -> part_marks x = part_marks p ->
  total_marks (<[j := x]> ps) = total_marks ps.
Proof.
  intros Hj Hm. revert j Hj. induction ps as [|a ps IH]; intros [|j] Hj; simplify_eq/=;
    rewrite !total_marks_cons; [lia|by rewrite (IH j)].
Qed.
(** Text of a part: the marks stay as they were. *)
Lemma part_text_kept q j p x : question_in_bounds q -> subparts q !! j = Some p -> part_in_bounds x ->
  part_marks x = part_marks p -> question_in_bounds (with_subparts (<[j := x]> (subparts q)) q).
Proof.
  intros Hq Hj Hx Hm. pose proof (with_parts q j x Hx Hq) as Hps.
  pose proof (total_marks_insert j x p (subparts q) Hj Hm) as E.
  assert (Hk : match <[j:=x]> (subparts q) with [] => 1 <= q_marks q <= 100 | ps => q_marks q = total_marks ps end).
  { destruct Hq as (_ & _ & _ & Hmarks & _). destruct (subparts q) as [|a ps]; [done|]. destruct j; cbn in *; congruence. }
  unfold question_in_bounds in *. cbn. tauto.
Qed.

Ltac guarded H :=
  match type of H with (if ?b then _ else None) = _ => destruct b eqn:?; [|done] end;
  apply (inj Some) in H; subst; bool_hyps.
Lemma edit_question_bounds v e q q' : question_in_bounds q -> edit_question v e q = Some q' -> question_in_bounds q'.
Proof.
  intros Hq He. pose proof Hq as (Hid & Hp & Hps & Hm & Ha & Hw & Hd & Hs).
  destruct e; cbn [edit_question] in He; try done.
  - guarded He. unfold question_in_bounds in *. cbn. pose proof (fits_within 8000 text). tauto.
  - guarded He. unfold question_in_bounds in *. cbn. pose proof (fits_within 12000 text). tauto.
  - destruct (subparts q !! j) as [p|] eqn:Ej; cbn in He; [|done]. guarded He.
    apply (part_text_kept q j p); try done. pose proof (fits_within 4000 text).
    pose proof (Forall_lookup_1 _ _ _ _ (proj2 Hps) Ej). unfold part_in_bounds in *. cbn. tauto.
  - destruct (subparts q !! j) as [p|] eqn:Ej; cbn in He; [|done]. guarded He.
    apply (part_text_kept q j p); try done. pose proof (fits_within 8000 text).
    pose proof (Forall_lookup_1 _ _ _ _ (proj2 Hps) Ej). unfold part_in_bounds in *. cbn. tauto.
  - destruct (subparts q !! j) as [p|] eqn:Ej; cbn in He; [|done].
    destruct (typed 1 1 50 text) as [n|] eqn:Et; cbn in He; [|done]. guarded He. apply typed_bounds in Et; [|lia].
    pose proof (Forall_lookup_1 _ _ _ _ (proj2 Hps) Ej) as Hpj.
    assert (Hb : part_in_bounds (part_with_marks n p)) by (unfold part_in_bounds in *; cbn; tauto).
    pose proof (with_parts q j _ Hb Hq). unfold question_in_bounds. cbn.
    assert (match <[j:=part_with_marks n p]> (subparts q) with
            | [] => 1 <= total_marks (<[j:=part_with_marks n p]> (subparts q)) <= 100
            | ps => total_marks (<[j:=part_with_marks n p]> (subparts q)) = total_marks ps end)
      by (destruct (subparts q), j; done). unfold question_in_bounds in Hq. tauto.
  - destruct (typed 1 1 100 text) as [n|] eqn:Et; cbn in He; [|done]. guarded He. apply typed_bounds in Et; [|lia].
    unfold question_in_bounds, no_subparts in *. cbn. destruct (subparts q); [|done]. tauto.
  - destruct (typed 0 0 14 text) as [n|] eqn:Et; cbn in He; [|done]. guarded He. apply typed_bounds in Et; [|lia].
    unfold question_in_bounds in *. cbn. tauto.
  - destruct (diagram q); [|done]. guarded He. unfold question_in_bounds in *. cbn. tauto.
Qed.

Lemma replace_in_bounds i q p : question_in_bounds q -> in_bounds p -> in_bounds (replaceQuestion i q p).
Proof. intros. by apply Forall_insert. Qed.
Lemma diagram_attached d q : diagram_in_bounds d -> question_in_bounds q -> question_in_bounds (with_diagram (Some d) q).
Proof. unfold question_in_bounds. cbn. tauto. Qed.
Lemma source_diagram_ok f u text : readDiagramFile f = Ok u -> diagram_in_bounds (mkDiagram (data_url f) [] text).
Proof.
  intros Hr. split; [|by apply Nat.le_0_l]. cbn [imageDataUrl]. destruct f as [t [|b bs]]; [right; by exists t|left].
  assert (Hu : u = data_url (mkFile t (b :: bs))) by (unfold readDiagramFile in Hr; cases; congruence).
  subst u. by apply accepted_url in Hr as (? & ? & _).
Qed.
Lemma attach_in_bounds id d p : diagram_ok d -> in_bounds p -> in_bounds (attachFigure id d p).
Proof.
  intros Hd Hp. apply Forall_fmap. eapply Forall_impl; [exact Hp|]. intros q Hq. cbn.
  destruct (seqb _ _); [|done]. apply diagram_attached; [by apply diagram_ok_in_bounds|done].
Qed.
Lemma blank_in_bounds uuid : filled 80 uuid -> question_in_bounds (blank_question uuid).
Proof. intros H. unfold question_in_bounds. split_and!; try apply H; try done; try constructor; vm_compute; lia || discriminate. Qed.

Lemma apply_in_bounds v e s s' : supplied e -> sheet_in_bounds s -> apply v e s = Some s' -> sheet_in_bounds s'.
Proof.
  intros Hsup [Hp Hr] He.
  assert (Hedit : forall i, question_of e = Some i -> 
    (q ← questions (paper s) !! i; q' ← edit_question v e q; Some (set_paper (replaceQuestion i q' (paper s)) s)) = Some s' ->
    sheet_in_bounds s').
  { intros i _ E. destruct (questions (paper s) !! i) as [q|] eqn:Eq; [|done]. cbn in E.
    destruct (edit_question v e q) as [q'|] eqn:Ee; [|done]. apply (inj Some) in E as <-. split; [|done].
    apply replace_in_bounds; [|done]. eapply edit_question_bounds; [|exact Ee]. by eapply Forall_lookup_1. }
  destruct e; try (by eapply (Hedit _ eq_refl)); cbn [apply] in He.
  - destruct (questions (paper s) !! i); [|done]. cbn in He. guarded He.
    destruct (readDiagramFile f) eqn:Ef; [|done]. split; [done|]. apply Forall_app_2; [done|].
    constructor; [by split; [|eexists]|constructor].
  - destruct (reading s !! k) as [[[chosen i] f]|] eqn:Ek; [|done]. cbn in He.
    pose proof (Forall_lookup_1 _ _ _ _ Hr Ek) as [Hc [u Hu]]. cbn in Hc, Hu.
    assert (Hrest : Forall (fun r => in_bounds (fst (fst r)) /\ exists u, readDiagramFile (snd r) = Ok u) (delete k (reading s)))
      by by apply Forall_delete.
    destruct (if ok then questions chosen !! i else None) as [q|] eqn:Eq; apply (inj Some) in He as <-; split; try done.
    destruct ok; [|done]. apply replace_in_bounds; [|done].
    apply diagram_attached; [by eapply source_diagram_ok|by eapply Forall_lookup_1].
  - destruct (questions (paper s) !! i); [|done]. apply (inj Some) in He as <-. split; [by apply Forall_delete|done].
  - apply (inj Some) in He as <-. split; [by apply attach_in_bounds|done].
  - apply (inj Some) in He as <-. split; [|done]. apply Forall_app_2; [done|].
    constructor; [by apply blank_in_bounds|constructor].
Qed.
Lemma run_in_bounds es s s' : Forall (fun e => supplied (snd e)) es -> sheet_in_bounds s -> run es s = Some s' -> sheet_in_bounds s'.
Proof.
  intros Hes. revert s. induction Hes as [|[v e] es He _ IH]; intros s Hs Hr; cbn [run] in Hr; [by apply (inj Some) in Hr as <-|].
  destruct (apply v e s) as [s1|] eqn:E; [|done]. apply (IH s1); [by eapply apply_in_bounds|done].
Qed.

(** However a paper that a model wrote is edited, it stays within the
    bounds of the page: every prompt, answer and source within its limit,
    each part worth 1 to 50 marks and a question as many as its parts (or 1
    to 100 without parts), at most 14 working lines, and every diagram one
    that the check keeps when the paper is opened again, unless the teacher
    chose an empty file. *)
Theorem edits_keep_bounds (v : jsval) (p : GeneratedPaper) (es : list (View * Edit)) (s : Sheet)
    (Hp : normalizeGeneratedPaper v = Ok p) (Hes : Forall (fun e => supplied (snd e)) es) (Hr : run es (mkSheet p []) = Some s) :
  in_bounds (paper s).
Proof.
  apply normalize_ok, paper_ok_in_bounds in Hp. eapply run_in_bounds; [exact Hes| |exact Hr]. by split.
Qed.
End EditFacts.

(** ** A paper that is saved and opened again *)

Module Reopening.
Import Edits.

(** Text that reading a paper leaves alone. *)
Definition clean (s : jstr) : Prop := clean_text s = s.
Definition scheme_clean (s : PaperScheme) : Prop :=
  Forall (fun p => clean (point_text p)) (markingPoints s) /\ Forall clean (acceptedAlternatives s) /\ clean (guidance s).
Definition part_clean (p : PaperSubpart) : Prop :=
  clean (part_label p) /\ clean (part_prompt p) /\ clean (part_answer p) /\ scheme_clean (part_scheme p).
Definition diagram_clean (d : PaperDiagram) : Prop :=
  trim (imageDataUrl d) = imageDataUrl d /\ clean (caption d) /\ clean (alt d).
Definition question_clean (q : PaperQuestion) : Prop :=
  clean (question_id q) /\ clean (q_prompt q) /\ clean (q_answer q) /\ Forall part_clean (subparts q) /\
  match diagram q with Some d => diagram_clean d | None => True end /\ clean (q_source q) /\ scheme_clean (q_scheme q).
Definition paper_clean (p : GeneratedPaper) : Prop :=
  Forall clean (p_instructions p) /\ Forall question_clean (questions p).

Lemma cut_all n s : within n s -> cut n s = s.
Proof. intros H. by apply take_ge. Qed.
Lemma kept_text n s f : clean s -> within n s -> cut n (cleanModelText (VStr s) f) = s.
Proof. intros Hc Hw. cbn [cleanModelText]. rewrite Hc. by apply cut_all. Qed.
Lemma kept_number n f lo hi : lo <= n <= hi -> numeric (VNum (num n)) f lo hi = n.
Proof.
  intros H. unfold numeric. cbn [to_number num]. unfold Qround_js.
  replace (Qfloor (inject_Z n + (1 # 2))) with n; [lia|].
  unfold Qplus, inject_Z. cbn. rewrite Z.mul_1_r. replace (n * 2 + 1) with (1 + n * 2) by lia.
  by rewrite Z.div_add by lia.
Qed.
Lemma kept_list n most l : (length l <= most)%nat -> Forall (filled n) l -> Forall clean l ->
  clean_list n most (VArr (VStr <$> l)) = l.
Proof.
  intros Hl Hf Hc. unfold clean_list. cbn [elements]. rewrite <- list_fmap_compose.
  assert (E : List.filter truthy ((fun s => cut n (cleanModelText (VStr s) [])) <$> l) = l).
  { clear Hl. induction l as [|s l IH]; [done|]. inversion Hf as [|? ? [Hne Hw] Hf']; subst. inversion Hc; subst.
    rewrite fmap_cons. rewrite kept_text by done. cbn [List.filter]. rewrite (proj2 (truthy_true s)) by done. by rewrite IH. }
  unfold compose. rewrite E. by apply take_ge.
Qed.
Lemma filter_map_fmap {A B} (f : B -> option A) (g : A -> B) l : Forall (fun x => f (g x) = Some x) l ->
  filter_map f (g <$> l) = l.
Proof. induction 1 as [|x l Hx _ IH]; [done|]. cbn. by rewrite Hx, IH. Qed.

(** [x] stands where a member is read: the prompt of something is there. *)
Lemma kept_if {A} n s f (k : jstr -> A) : filled n s -> clean s ->
  (let text := cut n (cleanModelText (VStr s) f) in if negb (truthy text) then None else Some (k text)) = Some (k s).
Proof. intros [Hne Hw] Hc. cbv zeta. rewrite kept_text by done. by rewrite (proj2 (truthy_true s)). Qed.

Lemma kept_point available p : filled 600 (point_text p) -> 0 <= point_marks p <= Z.max 1 available -> clean (point_text p) ->
  normalizePoint available (point_json p) = Some p.
Proof.
  intros Hf Hm Hc.
  change (normalizePoint available (point_json p)) with
    (let text := cut 600 (cleanModelText (VStr (point_text p)) []) in if negb (truthy text) then None
     else Some (mkPoint text (numeric (VNum (num (point_marks p))) 1 0 (Z.max 1 available)))).
  rewrite (kept_if 600 _ _ (fun text => mkPoint text _)) by done. rewrite kept_number by done. by destruct p.
Qed.
Lemma kept_scheme available s : scheme_ok available s -> scheme_clean s -> normalizeScheme (scheme_json s) available = s.
Proof.
  intros (Hl & Hp & Hla & Ha & Hg) (Cp & Ca & Cg).
  change (normalizeScheme (scheme_json s) available) with
    (mkScheme (filter_map (normalizePoint available) (take 20 (point_json <$> markingPoints s)))
       (clean_list 400 20 (VArr (VStr <$> acceptedAlternatives s))) (cut 2000 (cleanModelText (VStr (guidance s)) []))).
  rewrite kept_list, kept_text by done. rewrite take_ge by by rewrite length_fmap.
  rewrite filter_map_fmap; [by destruct s|].
  rewrite Forall_forall in *. intros p Hin. destruct (Hp p Hin) as [? ?]. apply kept_point; auto.
Qed.
Lemma kept_part i p : part_ok p -> part_clean p -> normalizeSubpart (i, part_json p) = Some p.
Proof.
  intros (Hl & Hp & Hm & Ha & Hw & Hs) (Cl & Cp & Ca & Cs).
  change (normalizeSubpart (i, part_json p)) with
    (let prompt := cut 4000 (cleanModelText (VStr (part_prompt p)) []) in if negb (truthy prompt) then None
     else Some (let marks := numeric (VNum (num (part_marks p))) 1 1 50 in
       mkSubpart (cut 5 (cleanModelText (VStr (part_label p)) [(97 + N.of_nat i)%N])) prompt marks
         (cut 8000 (cleanModelText (VStr (part_answer p)) [])) (numeric (VNum (num (part_workingLines p))) 3 0 12)
         (normalizeScheme (scheme_json (part_scheme p)) marks))).
  rewrite (kept_if 4000 _ _ (fun prompt => let marks := _ in mkSubpart _ prompt marks _ _ _)) by done.
  cbv zeta. rewrite !kept_number, !kept_text, kept_scheme by done. by destruct p.
Qed.
Lemma kept_diagram d : diagram_ok d -> diagram_clean d -> normalizeDiagram (diagram_json d) = Some d.
Proof.
  intros (Ht & Hl & Hc & Ha) (Ct & Cc & Ca).
  change (normalizeDiagram (diagram_json d)) with
    (let url := sanitizeDiagramImageDataUrl (VStr (imageDataUrl d)) in if negb (truthy url) then None
     else Some (mkDiagram url (cut 240 (cleanModelText (VStr (caption d)) [])) (cut 240 (cleanModelText (VStr (alt d)) (js "Question diagram"))))).
  assert (E : sanitizeDiagramImageDataUrl (VStr (imageDataUrl d)) = imageDataUrl d).
  { unfold sanitizeDiagramImageDataUrl. rewrite Ct, Ht. by replace (7000000 <? jlen (imageDataUrl d)) with false by lia. }
  cbv zeta. rewrite E, !kept_text by done. rewrite (proj2 (truthy_true _)); [by destruct d|].
  intros E0. rewrite E0 in Ht. vm_compute in Ht. done.
Qed.
Lemma filter_map_indexed {A B} (f : nat * B -> option A) (g : A -> B) l :
  (forall i x, x ∈ l -> f (i, g x) = Some x) -> filter_map f (imap pair (g <$> l)) = l.
Proof.
  intros Hf. assert (H : forall h : nat -> nat, filter_map f (imap (fun i y => (h i, y)) (g <$> l)) = l); [|apply (H id)].
  induction l as [|x l IH]; intros h; [done|]. cbn. rewrite Hf by by left. f_equal.
  apply (IH (fun i y Hy => Hf i y (list_elem_of_further _ _ _ Hy)) (fun i => h (S i))).
Qed.
Lemma kept_question i q : question_ok q -> question_clean q -> normalizeQuestion (i, question_json q) = Some q.
Proof.
  intros (Hid & Hp & Hl & Hps & Hm & Hm' & Ha & Hw & Hd & Hs & Hsc) (Ci & Cp & Ca & Cps & Cd & Cs & Csc).
  change (normalizeQuestion (i, question_json q)) with
    (let prompt := cut 8000 (cleanModelText (VStr (q_prompt q)) []) in if negb (truthy prompt) then None
     else Some (let parts := normalizeSubparts (VArr (part_json <$> subparts q)) in
       let marks := match parts with [] => numeric (VNum (num (q_marks q))) 1 1 100 | _ => total_marks parts end in
       mkQuestion (or_str (cut 80 (cleanModelText (VStr (question_id q)) (safeId i))) (safeId i)) prompt marks
         (cut 12000 (cleanModelText (VStr (q_answer q)) []))
         (numeric (VNum (num (q_workingLines q))) (default_lines marks) 0 14) parts
         (normalizeDiagram (match diagram q with Some d => diagram_json d | None => VNull end))
         (cut 300 (cleanModelText (VStr (q_source q)) [])) (normalizeScheme (scheme_json (q_scheme q)) marks))).
  rewrite (kept_if 8000 _ _ (fun prompt => let parts := _ in let marks := _ in mkQuestion _ prompt marks _ _ parts _ _ _)) by done.
  assert (Ep : normalizeSubparts (VArr (part_json <$> subparts q)) = subparts q).
  { unfold normalizeSubparts. cbn [elements]. rewrite take_ge by by rewrite length_fmap.
    apply filter_map_indexed. rewrite Forall_forall in *. intros j x Hx. apply kept_part; auto. }
  assert (Em : match subparts q with [] => numeric (VNum (num (q_marks q))) 1 1 100 | _ => total_marks (subparts q) end = q_marks q)
    by (destruct (subparts q); [by apply kept_number|done]).
  assert (Ed : normalizeDiagram (match diagram q with Some d => diagram_json d | None => VNull end) = diagram q)
    by (destruct (diagram q); [by apply kept_diagram|done]).
  cbv zeta. rewrite Ep, Em, Ed, kept_number, !kept_text, kept_scheme by (done || apply Hid).
  unfold or_str. rewrite (proj2 (truthy_true (question_id q))) by apply Hid. by destruct q.
Qed.
Lemma kept_paper p : paper_ok p -> paper_clean p -> normalizeGeneratedPaper (paper_json p) = Ok p.
Proof.
  intros ([Hn Hn'] & Hq & Hl & Hi) [Ci Cq].
  change (normalizeGeneratedPaper (paper_json p)) with
    (let qs := filter_map normalizeQuestion (imap pair (take 50 (question_json <$> questions p))) in
     match qs with
     | [] => Throw msg_no_questions
     | _ => Ok (mkPaper (clean_list 1000 12 (VArr (VStr <$> p_instructions p))) qs)
     end).
  cbv zeta. rewrite take_ge by by rewrite length_fmap.
  rewrite filter_map_indexed by (rewrite Forall_forall in *; intros j x Hx; apply kept_question; auto).
  rewrite kept_list by done. destruct p as [ins qs]. cbn in *. destruct qs; [cbn in Hn; lia|done].
Qed.
End Reopening.

(** *** The record *)

Module RecordFacts.
Import Records Reopening.

Ltac fields := constructor; [apply (bool_decide_unpack _); vm_compute; exact I|];
  repeat (apply Forall_cons; split; cbn [snd]); [..|constructor];
  try first [apply ok_str | apply ok_bool | apply ok_null | apply ok_int; lia].

Lemma strings_json l : json_ok (VArr (VStr <$> l)).
Proof. constructor. apply Forall_fmap, Forall_true. intros. constructor. Qed.
Lemma scheme_json_ok available s : available <= 600 -> scheme_ok available s -> json_ok (scheme_json s).
Proof.
  intros Ha (_ & Hp & _). fields; [|apply strings_json].
  constructor. apply Forall_fmap. eapply Forall_impl; [exact Hp|]. intros p [_ Hm]. cbn. fields.
Qed.
Lemma part_json_ok p : part_ok p -> json_ok (part_json p).
Proof.
  intros (_ & _ & Hm & _ & Hw & Hs). fields. eapply scheme_json_ok; [|exact Hs]. lia.
Qed.
Lemma question_json_ok q : question_ok q -> json_ok (question_json q).
Proof.
  intros (_ & _ & _ & Hps & _ & Hm & _ & Hw & _ & _ & Hs). fields.
  - constructor. apply Forall_fmap. eapply Forall_impl; [exact Hps|apply part_json_ok].
  - destruct (diagram q); [|constructor]. fields.
  - eapply scheme_json_ok; [|exact Hs]. lia.
Qed.
Lemma paper_json_ok p : paper_ok p -> json_ok (paper_json p).
Proof.
  intros (_ & Hq & _). fields; [apply strings_json|]. constructor. apply Forall_fmap.
  eapply Forall_impl; [exact Hq|apply question_json_ok].
Qed.

(** Fields whose paper and options are as the studio keeps them. *)
Record settable (f : Fields) : Prop := {
  set_paper_ok : paper_ok (paper f);
  set_paper_clean : paper_clean (paper f);
  set_syllabus : cut 40 (trim (syllabusCode f)) <> [];
  set_duration : 10 <= durationMinutes (advanced f) <= 360;
  set_tokens : maxOutputTokens (advanced f) ∈ fst <$> PAPER_OUTPUT_TOKEN_OPTIONS;
  set_sources : Forall (fun c => Forall (fun p => 0 < p <= 10000) (pages c)) (sources f)
}.
(** The fields as they are read back. *)
Definition reread (f : Fields) : Fields :=
  let m := metadata [] f in
  mkFields (meta_title m) (classroomId f) (board f) (PaperLogic.syllabusCode m) (difficulty f) (sourceMode f)
    (rightsConfirmed f) (Z.of_nat (length (questions (paper f)))) (paperTotalMarks (paper f)) (advanced f) (paper f) (sources f).

Lemma advanced_json_ok a : 10 <= durationMinutes a <= 360 -> Z.abs (maxOutputTokens a) < 10 ^ 21 -> json_ok (advanced_json a).
Proof. intros Hd Ht. fields. Qed.
Lemma tokens_ok t : t ∈ fst <$> PAPER_OUTPUT_TOKEN_OPTIONS ->
  Z.abs t < 10 ^ 21 /\ whole (normalizePaperOutputTokens (VNum (num t))) DEFAULT_PAPER_OUTPUT_TOKENS = t.
Proof.
  intros H. cbn in H. rewrite !elem_of_cons in H. destruct H as [->|[->|[->|[->|[->|H]]]]];
    [split; vm_compute; reflexivity..|by apply elem_of_nil in H].
Qed.
Lemma saved_json_ok subject f id created now : settable f -> LibraryFacts.paper_ok (buildSavedPaper subject f id created now).
Proof.
  intros [Hp Hc Hs Hd Ht Hso]. constructor.
  - repeat (apply Forall_cons; split); [eexists; reflexivity..|constructor].
  - repeat (apply Forall_cons; split); [split; [cbn [get]|reflexivity]..|constructor].
    all: change (json_ok EMPTY_DOCUMENT); fields; constructor; constructor; [|constructor]; fields.
  - exists (citation_json <$> sources f). split; [reflexivity|]. apply Forall_fmap.
    eapply Forall_impl; [exact Hso|]. intros [name ps] Hps. by exists name, ps.
  - right. reflexivity.
  - right. change (one_of_strings BOARDS (VStr (board_code (board f))) = true). by destruct (board f).
  - right. change (exists c s, VStr (cut 40 (trim (syllabusCode f))) = VStr (c :: s)).
    destruct (cut 40 _) as [|c t]; [done|eauto].
  - exists (level (difficulty f)). split; [reflexivity|]. destruct (difficulty f); cbn; lia.
  - change (one_of_strings SOURCE_MODES (VStr (mode_code (sourceMode f))) = true). by destruct (sourceMode f).
  - exists (rightsConfirmed f). reflexivity.
  - right. change (json_ok (advanced_json (advanced f)) /\ is_record (advanced_json (advanced f)) = true /\ VStr (year (advanced f)) <> VUndef).
    split_and!; [|done..]. apply advanced_json_ok; [done|by apply tokens_ok].
  - right. change (json_ok (paper_json (paper f)) /\ paper_json (paper f) <> VNull). split; [by apply paper_json_ok|done].
Qed.

Lemma board_read b : board_of (VStr (board_code b)) = b.
Proof. by destruct b. Qed.
Lemma mode_read b : mode_of (VStr (mode_code b)) = b.
Proof. by destruct b. Qed.
Lemma difficulty_read d : difficulty_of (VNum (num (level d))) = d.
Proof. by destruct d. Qed.
Lemma citation_read c : citation_of (citation_json c) = c.
Proof.
  destruct c as [name ps]. change (citation_of (citation_json (mkCitation name ps))) with
    (mkCitation name ((fun n => match n with VNum n => whole n 0 | _ => 0 end) <$> (VNum <$> (num <$> ps)))).
  f_equal. rewrite <- !list_fmap_compose. rewrite <- (list_fmap_id ps) at 2. apply list_fmap_ext. intros i p _.
  cbn. apply Z.div_1_r.
Qed.
Lemma advanced_read this_year a : 10 <= durationMinutes a <= 360 -> maxOutputTokens a ∈ fst <$> PAPER_OUTPUT_TOKEN_OPTIONS ->
  open_advanced this_year (advanced_json a) = a.
Proof.
  intros Hd Ht. change (open_advanced this_year (advanced_json a)) with
    (mkAdvanced (year a) (session a) (paperVariant a) (Z.max 10 (Z.min 360 (Qfloor (inject_Z (durationMinutes a))))) (topics a)
       (includeDiagrams a) (headerText a) (footerText a) (repeatHeader a) (repeatFooter a)
       (whole (normalizePaperOutputTokens (VNum (num (maxOutputTokens a)))) DEFAULT_PAPER_OUTPUT_TOKENS)).
  rewrite (proj2 (tokens_ok _ Ht)), Qfloor_Z. replace (Z.max 10 _) with (durationMinutes a) by lia. by destruct a.
Qed.
Lemma stored_marks_ok p : stored_marks (paper_json p) = paperTotalMarks p.
Proof.
  change (stored_marks (paper_json p)) with (fold_left (fun total q => total +
    match get (js "marks") q with VNum n => whole n 0 | _ => 0 end) (question_json <$> questions p) 0).
  unfold paperTotalMarks. set (F := fun total q => _ : Z).
  assert (H : forall acc, fold_left F (question_json <$> questions p) acc = fold_left (fun total q => total + q_marks q) (questions p) acc); [|apply H].
  induction (questions p) as [|q qs IH]; intros acc; [done|]. rewrite fmap_cons. cbn [fold_left]. rewrite IH. f_equal.
  subst F. cbn beta. change (get (js "marks") (question_json q)) with (VNum (num (q_marks q))). cbn [whole num]. by rewrite Qfloor_Z.
Qed.

(** C22. A saved paper is the paper that is opened again: whatever the Host
    keeps of the input it was sent, the studio reads back the same questions,
    instructions, marking schemes, diagrams, options, citations and choices,
    with the title and the syllabus code as they were printed.  This holds for
    papers within the bounds an answer of a model is cut to ([paper_ok]: 1 to
    50 questions, none of them or of their parts without a text, and schemes of
    at most 20 points worth no more than their question), without the markup
    that is taken out of such an answer ([paper_clean]), with a duration of 10
    to 360 minutes, a syllabus code and sources whose pages are numbered from 1
    to 10000; [reopening_rewrites_text] and [fifty_first_question_lost] are
    what happens to others, which the studio lets a teacher write. *)
Theorem saved_paper_reopens (this_year subject id created now : jstr) (classrooms : list Classroom) (f : Fields) (row : jsval)
    (Hf : settable f) (Hrow : LibraryFacts.keeps row (toInput (buildSavedPaper subject f id created now))) :
  open this_year classrooms (Some (fromRow row)) = reread f.
Proof.
  pose proof (saved_json_ok subject f id created now Hf) as Hok.
  destruct (LibraryFacts.read_texts _ Hok row Hrow) as (Et & Es & _ & _).
  destruct (LibraryFacts.read_choices _ Hok row Hrow) as (Ec & Eb & Ey & Ed & Em & Er).
  destruct (LibraryFacts.read_contents _ Hok row Hrow) as (Eso & Ea & Ep).
  unfold open, initialPaperSpec. change (default (VObj []) (Some (fromRow row))) with (fromRow row).
  set (p := buildSavedPaper subject f id created now) in *.
  change (get (js "title") p) with (VStr (meta_title (metadata [] f))) in Et.
  change (get (js "classroomId") p) with (VStr (classroomId f)) in Ec.
  change (get (js "board") p) with (VStr (board_code (board f))) in Eb.
  change (get (js "syllabusCode") p) with (VStr (PaperLogic.syllabusCode (metadata [] f))) in Ey.
  change (get (js "difficulty") p) with (VNum (num (level (difficulty f)))) in Ed.
  change (get (js "sourceMode") p) with (VStr (mode_code (sourceMode f))) in Em.
  change (get (js "rightsConfirmed") p) with (VBool (rightsConfirmed f)) in Er.
  change (get (js "sources") p) with (VArr (citation_json <$> sources f)) in Eso.
  change (get (js "advanced") p) with (advanced_json (advanced f)) in Ea.
  change (get (js "paperSpec") p) with (paper_json (paper f)) in Ep.
  rewrite Et, Ec, Eb, Ey, Ed, Em, Er, Eso, Ea, Ep. cbn [text_of flag_of elements].
  change (truthy_val (paper_json (paper f))) with true. cbv iota.
  destruct Hf as [Hp Hc _ Hd Ht _].
  rewrite kept_paper, board_read, mode_read, difficulty_read, advanced_read, stored_marks_ok by done.
  change (elements (get (js "questions") (paper_json (paper f)))) with (question_json <$> questions (paper f)).
  rewrite length_fmap, <- list_fmap_compose.
  unfold reread. f_equal. rewrite <- (list_fmap_id (sources f)) at 2. apply list_fmap_ext. intros i c _. apply citation_read.
Qed.
End RecordFacts.

(** ** Runs *)

Module EditingRuns.
Import Edits EditFacts Reopening Records RecordFacts.

Definition part_a : PaperSubpart := mkSubpart (js "a") (js "Name the force.") 2 (js "Gravity") 2 EMPTY_SCHEME.
Definition two_questions : GeneratedPaper :=
  mkPaper [js "Answer all questions."]
    [mkQuestion (js "q1") (js "Define momentum.") 2 (js "Mass times velocity.") 2 [] None (js "2021.pdf, p. 3")
       (mkScheme [mkPoint (js "mass times velocity") 2] [js "mv"] (js "Accept symbols."));
     mkQuestion (js "q2") (js "A ball falls.") 2 [] 4 [part_a] None [] EMPTY_SCHEME].
Definition sheet_of (es : list (View * Edit)) : GeneratedPaper :=
  match run es (mkSheet two_questions []) with Some s => Edits.paper s | None => mkPaper [] [] end.

Definition png : File := mkFile (js "image/png") [1; 2; 3]%N.
Definition some_edits : list (View * Edit) :=
  [(QuestionView, EditPartMarks 1 0 (js "70")); (QuestionView, ChooseDiagram 0 png); (AnswerView, EditAnswer 0 (js "p = mv"));
   (QuestionView, AddBlankQuestion (js "new")); (QuestionView, EditMarks 2 []); (QuestionView, RemoveQuestion 0)].

Lemma edits_keep_bounds_witness : in_bounds (sheet_of some_edits) /\ q_marks <$> questions (sheet_of some_edits) = [50; 1].
Proof.
  assert (E : exists s, run some_edits (mkSheet two_questions []) = Some s) by (eexists; vm_compute; reflexivity).
  destruct (run some_edits (mkSheet two_questions [])) as [s|] eqn:Er; [|exfalso; by destruct E].
  split; [|vm_compute; reflexivity]. unfold sheet_of. rewrite Er.
  apply (edits_keep_bounds (paper_json two_questions) two_questions some_edits s); [vm_compute; reflexivity| |exact Er].
  repeat (apply Forall_cons; split; [exact I || (split; [discriminate|vm_compute; lia])|]). constructor.
Defined.

(** A diagram that has been read is put into the paper as it was when the file
    was chosen: what the teacher wrote meanwhile is gone. *)
Theorem diagram_discards_edits :
  q_prompt <$> questions (sheet_of [(QuestionView, ChooseDiagram 0 png); (QuestionView, EditPrompt 1 (js "A stone falls."))])
    = [js "Define momentum."; js "A stone falls."] /\
  q_prompt <$> questions (sheet_of [(QuestionView, ChooseDiagram 0 png); (QuestionView, EditPrompt 1 (js "A stone falls."));
                                    (QuestionView, DiagramRead 0 true)])
    = [js "Define momentum."; js "A ball falls."].
Proof. split; vm_compute; reflexivity. Qed.

Definition saved_fields (p : GeneratedPaper) : Fields :=
  mkFields (js " Mechanics ") (js "room") CIE (js "9702") D3 MAdapt false 2 4
    (mkAdvanced (js "2026") [] [] 60 [] true [] [] false true 4096) p [mkCitation (js "2021.pdf") [3; 4]].
Definition stored (p : GeneratedPaper) : jsval := toInput (buildSavedPaper (js "Physics") (saved_fields p) (js "p1") (js "t0") (js "t1")).
Definition reopened (p : GeneratedPaper) : GeneratedPaper :=
  Records.paper (open (js "2026") [] (Some (fromRow (stored p)))).

(** What is typed is cleaned like a model's answer when the paper is opened
    again: a power loses its operator, and a question whose prompt was
    emptied is gone. *)
Theorem reopening_rewrites_text :
  let p := sheet_of [(QuestionView, EditPrompt 0 (js "Evaluate 2**3.")); (QuestionView, EditPrompt 1 [])] in
  q_prompt <$> questions p = [js "Evaluate 2**3."; []] /\ q_prompt <$> questions (reopened p) = [js "Evaluate 23."].
Proof. split; vm_compute; reflexivity. Qed.
(** The fifty-first question is saved but not read. *)
Theorem fifty_first_question_lost :
  let p := mkPaper [] (repeat (blank_question (js "q")) 51) in
  length (questions p) = 51%nat /\ length (questions (reopened p)) = 50%nat.
Proof. split; vm_compute; reflexivity. Qed.

Lemma saved_paper_reopens_witness :
  open (js "2026") [] (Some (fromRow (stored two_questions))) = reread (saved_fields two_questions).
Proof.
  apply (saved_paper_reopens (js "2026") (js "Physics") (js "p1") (js "t0") (js "t1") [] (saved_fields two_questions) (stored two_questions)).
  - constructor; [| |vm_compute; discriminate|cbn; lia| |].
    + apply (normalize_ok (paper_json two_questions)). vm_compute. reflexivity.
    + unfold paper_clean, question_clean, part_clean, scheme_clean, clean. cbn.
      repeat match goal with
      | |- _ /\ _ => split
      | |- Forall _ [] => constructor
      | |- Forall _ (_ :: _) => apply Forall_cons
      | |- True => exact I
      | |- Forall _ _ => progress cbn
      | |- match _ with _ => _ end => progress cbn
      | |- _ = _ => vm_compute; reflexivity
      end.
    + vm_compute. right. right. right. left.
    + repeat constructor; cbn; lia.
  - intros k _. reflexivity.
Defined.
End EditingRuns.
