(* ===== verification/PaperDesk.v ===== *)
(** * The desk of question papers ([PapersView] of apps/teacher/src/PapersView.tsx)

    The library of saved papers, the paper that is open, and the studio it is
    worked on in, which React replaces by a new one whenever its key changes
    ([rerender]); an old studio saves its paper as it goes ([leave]).  A
    handler is cut at each [await]; what its continuation needs is kept in
    [waits].  Of a saved paper the desk only reads the id, the date and
    whether it has questions; the rest is [contents].  [host] records what the
    Host stores, [left] the papers the studios left behind; nothing reads
    these two. *)

From S2P Require Import Prelude JsString JsValue Locale.
Local Open Scope Z_scope.

Record Saved := mkSaved { saved_id : jstr; updatedAt : jstr; filled : bool; contents : jsval }.
Inductive Key := KeyPaper (id : jstr) | KeyNew (version : nat).
#[export] Instance Key_eq : EqDecision Key. Proof. solve_decision. Defined.
(** [work] is the paper that is worked on, [None] without questions; [latest]
    is [latestPaperRef], [timer] the paper the running timer will save,
    [discarding] is [discardingPaperRef]. *)
Record Studio := mkStudio {
  key : Key;
  paperId : jstr;
  work : option jsval;
  latest : option Saved;
  timer : option Saved;
  discarding : bool;
  deleting : bool
}.
Inductive Wait :=
  | WaitList
  | WaitSave (p : Saved)
  | WaitDelete (id : jstr) (captured : option jstr) (from : option Key).
Inductive Reply :=
  | ReplyList (papers : list Saved)
  | ReplyDone
  | ReplyFailure (text : option jstr).
Record Desk := mkDesk {
  savedPapers : list Saved;
  papersLoading : bool;
  papersError : jstr;
  activePaperId : option jstr;
  remembered : option jstr;
  newPaperVersion : nat;
  mounted : bool;
  studio : option Studio;
  waits : list Wait;
  host : list Saved;
  left : list Saved
}.

Definition set_savedPapers (x : list Saved) (g : Desk) : Desk := mkDesk x (papersLoading g) (papersError g) (activePaperId g) (remembered g) (newPaperVersion g) (mounted g) (studio g) (waits g) (host g) (left g).
Definition set_papersLoading (x : bool) (g : Desk) : Desk := mkDesk (savedPapers g) x (papersError g) (activePaperId g) (remembered g) (newPaperVersion g) (mounted g) (studio g) (waits g) (host g) (left g).
Definition set_papersError (x : jstr) (g : Desk) : Desk := mkDesk (savedPapers g) (papersLoading g) x (activePaperId g) (remembered g) (newPaperVersion g) (mounted g) (studio g) (waits g) (host g) (left g).
Definition set_activePaperId (x : option jstr) (g : Desk) : Desk := mkDesk (savedPapers g) (papersLoading g) (papersError g) x (remembered g) (newPaperVersion g) (mounted g) (studio g) (waits g) (host g) (left g).
Definition set_remembered (x : option jstr) (g : Desk) : Desk := mkDesk (savedPapers g) (papersLoading g) (papersError g) (activePaperId g) x (newPaperVersion g) (mounted g) (studio g) (waits g) (host g) (left g).
Definition set_newPaperVersion (x : nat) (g : Desk) : Desk := mkDesk (savedPapers g) (papersLoading g) (papersError g) (activePaperId g) (remembered g) x (mounted g) (studio g) (waits g) (host g) (left g).
Definition set_mounted (x : bool) (g : Desk) : Desk := mkDesk (savedPapers g) (papersLoading g) (papersError g) (activePaperId g) (remembered g) (newPaperVersion g) x (studio g) (waits g) (host g) (left g).
Definition set_studio (x : option Studio) (g : Desk) : Desk := mkDesk (savedPapers g) (papersLoading g) (papersError g) (activePaperId g) (remembered g) (newPaperVersion g) (mounted g) x (waits g) (host g) (left g).
Definition set_waits (x : list Wait) (g : Desk) : Desk := mkDesk (savedPapers g) (papersLoading g) (papersError g) (activePaperId g) (remembered g) (newPaperVersion g) (mounted g) (studio g) x (host g) (left g).
Definition set_host (x : list Saved) (g : Desk) : Desk := mkDesk (savedPapers g) (papersLoading g) (papersError g) (activePaperId g) (remembered g) (newPaperVersion g) (mounted g) (studio g) (waits g) x (left g).
Definition set_left (x : list Saved) (g : Desk) : Desk := mkDesk (savedPapers g) (papersLoading g) (papersError g) (activePaperId g) (remembered g) (newPaperVersion g) (mounted g) (studio g) (waits g) (host g) x.

Section desk.
Context `{Locale}.

Definition await (w : Wait) (g : Desk) : Desk := set_waits (waits g ++ [w]) g.
Definition key_of (g : Desk) : Key :=
  match activePaperId g with Some id => KeyPaper id | None => KeyNew (newPaperVersion g) end.
Definition find_paper (id : jstr) (l : list Saved) : option Saved := find (fun p => seqb (saved_id p) id) l.
Definition activePaper (g : Desk) : option Saved := id ← activePaperId g; find_paper id (savedPapers g).
Definition without (id : jstr) (l : list Saved) : list Saved := List.filter (fun p => negb (seqb (saved_id p) id)) l.
Definition put (p : Saved) (l : list Saved) : list Saved := p :: without (saved_id p) l.

(** ** The studio comes and goes *)

(** What a render puts into [latestPaperRef], and its effect into the timer. *)
Definition built (t id : jstr) (work : option jsval) : option Saved :=
  match work with Some c => if truthy id then Some (mkSaved id t true c) else None | None => None end.
(** A studio built at [t] for the open paper, or for a new one. *)
Definition enter (t : jstr) (g : Desk) : Studio :=
  match activePaper g with
  | Some p =>
    let work := if filled p then Some (contents p) else None in
    let current := built t (saved_id p) work in
    mkStudio (key_of g) (saved_id p) work current current false false
  | None => mkStudio (key_of g) [] None None None false false
  end.
(** [onSave]. *)
Definition save (p : Saved) (g : Desk) : Desk := await (WaitSave p) g.
Definition leave (s : Studio) (g : Desk) : Desk :=
  match latest s with
  | Some p => if discarding s then g else save p (set_left (left g ++ [p]) g)
  | None => g
  end.
Definition rerender (t : jstr) (g : Desk) : Desk :=
  if negb (mounted g) || papersLoading g then g
  else
    match studio g with
    | Some s => if bool_decide (key s = key_of g) then g else set_studio (Some (enter t g)) (leave s g)
    | None => set_studio (Some (enter t g)) g
    end.

(** ** The library *)

Definition by_update (l r : Saved) : Z := locale_compare (updatedAt r) (updatedAt l).
Definition list_answered (r : Reply) (t : jstr) (g : Desk) : Desk :=
  if negb (mounted g) then g
  else
    rerender t (set_papersLoading false
      match r with
      | ReplyList papers =>
        let g := set_papersError [] (set_savedPapers papers g) in
        match remembered g with
        | Some id =>
          if truthy id && negb (existsb (fun p => seqb (saved_id p) id) papers)
          then set_activePaperId None (set_remembered None g) else g
        | None => g
        end
      | ReplyFailure text =>
        set_papersError (match text with
          | Some m => js "Saved papers could not be opened: " ++ m
          | None => js "Saved papers could not be opened from the school server."
          end) (set_savedPapers [] g)
      | ReplyDone => g
      end).
Definition save_answered (p : Saved) (r : Reply) (t : jstr) (g : Desk) : Desk :=
  match r with
  | ReplyDone =>
    let g := set_remembered (Some (saved_id p)) (set_host (put p (host g)) g) in
    if negb (mounted g) then g
    else rerender t (set_activePaperId (Some (saved_id p)) (set_savedPapers (sort_js by_update (put p (savedPapers g))) g))
  | _ => g
  end.
Definition remove (id : jstr) (captured : option jstr) (from : option Key) (g : Desk) : Desk := await (WaitDelete id captured from) g.
Definition update_studio (k : Key) (f : Studio -> Studio) (g : Desk) : Desk :=
  match studio g with
  | Some s => if bool_decide (key s = k) then set_studio (Some (f s)) g else g
  | None => g
  end.
Definition delete_answered (id : jstr) (captured : option jstr) (from : option Key) (r : Reply) (t : jstr) (g : Desk) : Desk :=
  match r with
  | ReplyDone =>
    let g := set_savedPapers (without id (savedPapers g)) (set_host (without id (host g)) g) in
    rerender t (if bool_decide (captured = Some id) then set_remembered None (set_activePaperId None g) else g)
  | ReplyFailure _ =>
    match from with
    | Some k => update_studio k (fun s => mkStudio (key s) (paperId s) (work s) (latest s) (timer s) false false) g
    | None => g
    end
  | _ => g
  end.

(** ** Events *)

Inductive Event :=
  | Open (id : jstr)
  | New
  | RemoveFromLibrary (id : jstr)
  | DeleteCurrent
  | Edit (change : option jsval)
  | Generated (id : jstr) (made : jsval)
  | TimerFires
  | Unmount
  | Answer (i : nat) (r : Reply).
Definition answer (w : Wait) (r : Reply) (t : jstr) (g : Desk) : Desk :=
  match w with
  | WaitList => list_answered r t g
  | WaitSave p => save_answered p r t g
  | WaitDelete id captured from => delete_answered id captured from r t g
  end.
Definition fits (w : Wait) (r : Reply) : bool :=
  match r, w with
  | ReplyFailure _, _ => true
  | ReplyList _, WaitList => true
  | ReplyDone, WaitSave _ | ReplyDone, WaitDelete _ _ _ => true
  | _, _ => false
  end.
(** Work in the studio: [None] empties the paper. *)
Definition edited (change : option jsval) (t : jstr) (s : Studio) : Studio :=
  let current := built t (paperId s) change in
  mkStudio (key s) (paperId s) change current current (discarding s) (deleting s).
(** A paper was made; a new one gets the [id]. *)
Definition generated (id : jstr) (made : jsval) (t : jstr) (s : Studio) : Studio :=
  let id := or_str (paperId s) id in
  let current := built t id (Some made) in
  mkStudio (key s) id (Some made) current current (discarding s) (deleting s).
Definition handle (e : Event) (t : jstr) (g : Desk) : option Desk :=
  match e with
  | Answer i r =>
    match waits g !! i with
    | Some w => if fits w r then Some (answer w r t (set_waits (delete i (waits g)) g)) else None
    | None => None
    end
  | _ =>
    if negb (mounted g) then None
    else
      match e, studio g with
      | Open id, _ => match find_paper id (savedPapers g) with
                      | Some _ => Some (rerender t (set_remembered (Some id) (set_activePaperId (Some id) g)))
                      | None => None
                      end
      | New, _ => Some (rerender t (set_newPaperVersion (S (newPaperVersion g)) (set_remembered None (set_activePaperId None g))))
      | RemoveFromLibrary id, _ => match find_paper id (savedPapers g) with
                                   | Some _ => Some (remove id (activePaperId g) None g)
                                   | None => None
                                   end
      | DeleteCurrent, Some s =>
        if truthy (paperId s) && negb (deleting s)
        then Some (remove (paperId s) (activePaperId g) (Some (key s))
               (set_studio (Some (mkStudio (key s) (paperId s) (work s) (latest s) (timer s) true true)) g))
        else None
      | Edit change, Some s => Some (set_studio (Some (edited change t s)) g)
      | Generated id made, Some s =>
        if truthy id then
          Some (save (mkSaved (or_str (paperId s) id) t true made) (set_studio (Some (generated id made t s)) g))
        else None
      | TimerFires, Some s =>
        match timer s with
        | Some p =>
          let g := set_studio (Some (mkStudio (key s) (paperId s) (work s) (latest s) None (discarding s) (deleting s))) g in
          Some (if discarding s then g else save p g)
        | None => None
        end
      | Unmount, _ => Some (set_studio None (set_mounted false (match studio g with Some s => leave s g | None => g end)))
      | _, _ => None
      end
  end.
Fixpoint run (es : list (Event * jstr)) (g : Desk) : option Desk :=
  match es with
  | [] => Some g
  | (e, t) :: es' => match handle e t g with Some g' => run es' g' | None => None end
  end.
Definition mount (stored : option jstr) (papers : list Saved) : Desk :=
  await WaitList (mkDesk [] true [] stored stored 0 true None [] papers []).

(** ** Consistency *)

(** The Host lists a paper once. *)
Definition distinct (e : Event) : bool :=
  match e with Answer _ (ReplyList papers) => bool_decide (NoDup (saved_id <$> papers)) | _ => true end.
Definition reachable (g : Desk) : Prop :=
  exists stored papers es, forallb (fun p : Event * jstr => distinct (fst p)) es = true /\ run es (mount stored papers) = Some g.
Lemma reachable_desk (P : Desk -> Prop) : (forall stored papers, P (mount stored papers)) ->
  (forall e t g g', distinct e = true -> P g -> handle e t g = Some g' -> P g') -> forall g, reachable g -> P g.
Proof.
  intros H0 Hs g (stored & papers & es & Hd & Hr). revert Hd Hr. generalize (H0 stored papers). generalize (mount stored papers).
  induction es as [|[e t] es IH]; intros g0 HP; cbn [forallb run fst].
  - intros _ E. by apply (inj Some) in E as <-.
  - intros [Hd Hds]%andb_prop. destruct (handle e t g0) as [g1|] eqn:Eh; [|done]. intros Hr. by apply (IH g1); [eapply Hs|..].
Qed.

Lemma without_sub id l : without id l ⊆+ l.
Proof.
  unfold without. induction l as [|p l IH]; [done|]. cbn. destruct (negb _).
  - by apply submseteq_skip.
  - by apply submseteq_cons.
Qed.
Lemma without_fresh id l : id ∉ saved_id <$> without id l.
Proof.
  intros (p & Hp & Hin)%list_elem_of_fmap. apply list_elem_of_In, filter_In in Hin as [_ Hn]. apply negb_true_iff in Hn.
  rewrite <- Hp in Hn. unfold seqb in Hn. by apply bool_decide_eq_false in Hn.
Qed.
Lemma NoDup_without id l : NoDup (saved_id <$> l) -> NoDup (saved_id <$> without id l).
Proof.
  unfold without. induction l as [|p l IH]; [done|]. cbn. intros [Hn Hl]%NoDup_cons. destruct (negb _); [|by apply IH].
  cbn. apply NoDup_cons. split; [|by apply IH]. intros (q & Hq & Hin)%list_elem_of_fmap.
  apply list_elem_of_In, filter_In in Hin as [Hin _]. apply Hn. apply list_elem_of_fmap. exists q. split; [done|]. by apply list_elem_of_In.
Qed.
Lemma NoDup_put p l : NoDup (saved_id <$> l) -> NoDup (saved_id <$> sort_js by_update (put p l)).
Proof. intros Hl. rewrite sort_js_perm. cbn. apply NoDup_cons. split; [apply without_fresh|by apply NoDup_without]. Qed.

(** One row for each paper; what is remembered for the next start is what is
    open; the studio is that of the open paper. *)
Record consistent (g : Desk) : Prop := {
  co_rows : NoDup (saved_id <$> savedPapers g);
  co_remembered : mounted g = true -> remembered g = activePaperId g;
  co_studio : mounted g = true -> papersLoading g = false -> exists s, studio g = Some s /\ key s = key_of g
}.
(** All but the studio. *)
Record almost (g : Desk) : Prop := {
  al_rows : NoDup (saved_id <$> savedPapers g);
  al_remembered : mounted g = true -> remembered g = activePaperId g
}.
Lemma key_await w g : key_of (await w g) = key_of g.
Proof. done. Qed.
Definition same_desk (g g' : Desk) : Prop :=
  savedPapers g' = savedPapers g /\ mounted g' = mounted g /\ remembered g' = remembered g /\ activePaperId g' = activePaperId g /\
  newPaperVersion g' = newPaperVersion g /\ papersLoading g' = papersLoading g /\ (key <$> studio g') = (key <$> studio g).
Lemma consistent_same g g' : same_desk g g' -> consistent g -> consistent g'.
Proof.
  intros (E1 & E2 & E3 & E4 & E5 & E6 & E7) [H1 H2 H3]. split; rewrite ?E1, ?E2, ?E3, ?E4, ?E6; [done|done|].
  intros Hm Hl. destruct (H3 Hm Hl) as (s & Hs & Hk). rewrite Hs in E7. destruct (studio g') as [s'|]; [|done].
  exists s'. split; [done|]. cbn in E7. unfold key_of in *. rewrite E4, E5. congruence.
Qed.
Lemma rerender_consistent t g : almost g -> consistent (rerender t g).
Proof.
  intros [H1 H2]. unfold rerender. destruct (mounted g) eqn:Em; cbn [negb orb].
  - destruct (papersLoading g) eqn:El; [split; [done|auto|congruence]|].
    assert (Hnew : forall g', savedPapers g' = savedPapers g -> remembered g' = remembered g -> activePaperId g' = activePaperId g ->
      newPaperVersion g' = newPaperVersion g -> mounted g' = mounted g -> consistent (set_studio (Some (enter t g)) g')).
    { intros g' E1 E2 E3 E4 E5. split; cbn; rewrite ?E1, ?E2, ?E3, ?E5, ?Em; [done|auto|]. intros _ _. eexists. split; [done|].
      unfold key_of. cbn. rewrite E3, E4. unfold enter. by destruct (activePaper g). }
    destruct (studio g) as [s|] eqn:Es.
    + case_bool_decide as Hk.
      * split; [done|auto|]. intros _ _. by exists s.
      * unfold leave. destruct (latest s); [destruct (discarding s)|]; by apply Hnew.
    + by apply Hnew.
  - split; [done|congruence|congruence].
Qed.
Lemma consistent_almost g : consistent g -> almost g.
Proof. intros [H1 H2 H3]. by split. Qed.
Lemma consistent_answer w r t g : distinct (Answer 0 r) = true -> consistent g -> consistent (answer w r t g).
Proof.
  intros Hd Hg. pose proof (consistent_almost _ Hg) as [A1 A2]. destruct w as [|p|id captured from]; cbn [answer].
  - unfold list_answered. destruct (mounted g) eqn:Em; cbn [negb]; [|done]. apply rerender_consistent.
    destruct r as [papers| |text]; [|split; cbn; auto|split; cbn; [apply NoDup_nil_2|auto]].
    assert (Hp : NoDup (saved_id <$> papers)) by (by apply bool_decide_eq_true in Hd). split; cbn.
    + destruct (remembered g); [destruct (_ && _)|]; done.
    + intros _. specialize (A2 eq_refl). destruct (remembered g) eqn:Er; [destruct (_ && _)|]; cbn; congruence.
  - destruct r; try done. cbn. destruct (mounted g) eqn:Em; cbn [negb].
    + apply rerender_consistent. split; cbn; [by apply NoDup_put|done].
    + destruct Hg as [H1 H2 H3]. split; cbn; [done|congruence|congruence].
  - destruct r as [| |text]; try done; cbn.
    + apply rerender_consistent. case_bool_decide; split; cbn; try (by apply NoDup_without); done.
    + destruct from as [k|]; [|done]. unfold update_studio. destruct (studio g) as [s|] eqn:Es; [|done].
      case_bool_decide; [|done]. apply (consistent_same g); [|done]. unfold same_desk. cbn. by rewrite Es.
Qed.
Lemma consistent_handle e t g g' : distinct e = true -> consistent g -> handle e t g = Some g' -> consistent g'.
Proof.
  intros Hd Hg. pose proof (consistent_almost _ Hg) as [A1 A2]. unfold handle.
  destruct e as [id| |id| |change|id made| | |i r]; try (destruct (mounted g) eqn:Em; cbn [negb]; [|done]).
  - destruct (find_paper _ _); [|done]. intros E. apply (inj Some) in E as <-. apply rerender_consistent. by split.
  - intros E. apply (inj Some) in E as <-. apply rerender_consistent. by split.
  - destruct (find_paper _ _); [|done]. intros E. apply (inj Some) in E as <-. by apply (consistent_same g).
  - destruct (studio g) as [s|] eqn:Es; [|done]. destruct (_ && _); [|done]. intros E. apply (inj Some) in E as <-.
    apply (consistent_same g); [|done]. unfold same_desk. cbn. by rewrite Es.
  - destruct (studio g) as [s|] eqn:Es; [|done]. intros E. apply (inj Some) in E as <-.
    apply (consistent_same g); [|done]. unfold same_desk. cbn. by rewrite Es.
  - destruct (studio g) as [s|] eqn:Es; [|done]. destruct (truthy id); [|done]. intros E. apply (inj Some) in E as <-.
    apply (consistent_same g); [|done]. unfold same_desk. cbn. by rewrite Es.
  - destruct (studio g) as [s|] eqn:Es; [|done]. destruct (timer s); [|done]. intros E. apply (inj Some) in E as <-.
    apply (consistent_same g); [|done]. unfold same_desk. destruct (discarding s); cbn; by rewrite Es.
  - intros E. apply (inj Some) in E as <-. split; [|done|done]. cbn. unfold leave. destruct (studio g) as [s|]; [|done].
    destruct (latest s); [|done]. by destruct (discarding s).
  - destruct (waits g !! i) as [w|]; [|done]. destruct (fits w r); [|done]. intros E. apply (inj Some) in E as <-.
    apply consistent_answer; [done|]. by apply (consistent_same g).
Qed.

Lemma reachable_consistent g : reachable g -> consistent g.
Proof.
  revert g. apply reachable_desk; [|by intros; eapply consistent_handle]. intros stored papers. by split; [apply NoDup_nil_2|..].
Qed.

(** ** What a studio works on *)

(** The rest of an event on the studio: it goes on, on the same paper unless
    the event changes it, or it leaves what it has with the Host and another,
    if any, is built from the row of the paper that is open then. *)
Definition carries_on (e : Event) (s s' : Studio) : Prop :=
  key s' = key s /\
  match e with
  | Edit change => work s' = change /\ paperId s' = paperId s
  | Generated id made => work s' = Some made /\ paperId s' = or_str (paperId s) id
  | _ => work s' = work s /\ paperId s' = paperId s
  end.
(** [s] shows the row of the paper that is open, or nothing if it has none. *)
Definition shows_open (g : Desk) (s : Studio) : Prop :=
  key s = key_of g /\
  (forall p, p ∈ savedPapers g -> activePaperId g = Some (saved_id p) ->
     paperId s = saved_id p /\ work s = if filled p then Some (contents p) else None) /\
  ((forall p, p ∈ savedPapers g -> activePaperId g <> Some (saved_id p)) -> paperId s = [] /\ work s = None).
Definition in_step (g : Desk) : Prop := forall s, studio g = Some s -> exists d, latest s = built d (paperId s) (work s).

Lemma find_paper_unique p l : NoDup (saved_id <$> l) -> p ∈ l -> find_paper (saved_id p) l = Some p.
Proof.
  unfold find_paper. induction l as [|q l IH]; [by intros _ ?%elem_of_nil|]. cbn. intros [Hq Hl]%NoDup_cons [<-|Hp]%elem_of_cons.
  - by rewrite (proj2 (seqb_eq _ _) eq_refl).
  - destruct (seqb (saved_id q) (saved_id p)) eqn:E; [|by apply IH]. apply seqb_eq in E. destruct Hq. apply list_elem_of_fmap. by exists p.
Qed.
Lemma enter_shows t g : NoDup (saved_id <$> savedPapers g) -> shows_open g (enter t g).
Proof.
  intros Hn. unfold shows_open, enter, activePaper. split; [by destruct (_ ≫= _)|]. split.
  - intros p Hp Ha. rewrite Ha. cbn. by rewrite find_paper_unique.
  - intros Hno. destruct (activePaperId g) as [id|]; [|done]. cbn. destruct (find_paper id (savedPapers g)) as [p|] eqn:Ef; [|done].
    unfold find_paper in Ef. apply find_Some in Ef as [Hp Hi]. apply seqb_eq in Hi. destruct (Hno p Hp). by rewrite Hi.
Qed.

(** What happens to the studio at a render of the desk. *)
Inductive turned (e : Event) (g g' : Desk) : Prop :=
  | u_none : studio g = None -> studio g' = None -> turned e g g'
  | u_on s s' : studio g = Some s -> studio g' = Some s' -> carries_on e s s' -> turned e g g'
  | u_first s' : studio g = None -> studio g' = Some s' -> shows_open g' s' -> turned e g g'
  | u_left s : studio g = Some s ->
      (discarding s = false -> forall p, latest s = Some p -> WaitSave p ∈ waits g') ->
      (forall s', studio g' = Some s' -> key s' <> key s /\ shows_open g' s') -> turned e g g'.
Lemma turned_same e g g' : (forall s, carries_on e s s) -> studio g' = studio g -> turned e g g'.
Proof. intros He Es. destruct (studio g) as [s|] eqn:E; [by eapply u_on|by apply u_none]. Qed.
Lemma wait_added w g : w ∈ waits (await w g).
Proof. cbn. apply elem_of_app. right. by left. Qed.
Lemma rerender_turned e t g0 g : (forall s, carries_on e s s) -> studio g = studio g0 -> NoDup (saved_id <$> savedPapers g) ->
  turned e g0 (rerender t g).
Proof.
  intros He E0 Hn. unfold rerender. destruct (_ || _); [by apply turned_same|].
  destruct (studio g) as [s|] eqn:Es; [|eapply u_first; [by rewrite <- E0|reflexivity|exact (enter_shows t g Hn)]].
  case_bool_decide as Hk; [by apply turned_same; [|congruence]|].
  assert (Hshow : forall g', savedPapers g' = savedPapers g -> activePaperId g' = activePaperId g -> newPaperVersion g' = newPaperVersion g ->
    shows_open (set_studio (Some (enter t g)) g') (enter t g)).
  { intros g' E1 E2 E3. destruct (enter_shows t g Hn) as (Hsk & H1 & H2). unfold shows_open, key_of in *. cbn. rewrite E1, E2, E3. done. }
  assert (Hkey : key (enter t g) <> key s).
  { intros E. apply Hk. rewrite <- E. unfold enter. by destruct (activePaper g). }
  eapply (u_left _ _ _ s); [congruence| |].
  - intros Hd p Hp. unfold leave. rewrite Hp, Hd. apply wait_added.
  - intros s' [= <-]. split; [exact Hkey|]. unfold leave. destruct (latest s); [destruct (discarding s)|]; by apply Hshow.
Qed.
Lemma answer_turned i w r t g g1 : consistent g -> distinct (Answer i r) = true ->
  studio g1 = studio g -> savedPapers g1 = savedPapers g -> mounted g1 = mounted g -> turned (Answer i r) g (answer w r t g1).
Proof.
  intros [Hn _ _] Hd Es Ep Em. assert (He : forall s, carries_on (Answer i r) s s) by done.
  destruct w as [|p|id captured from]; cbn [answer].
  - unfold list_answered. destruct (negb (mounted g1)); [by apply turned_same|]. destruct r as [papers| |text].
    + apply rerender_turned; [done| |]; cbn; destruct (remembered _); try destruct (_ && _); try done; by apply bool_decide_eq_true in Hd.
    + apply rerender_turned; [done..|]. cbn. by rewrite Ep.
    + apply rerender_turned; [done..|]. apply NoDup_nil_2.
  - destruct r; try by apply turned_same. cbn. destruct (negb _); [by apply turned_same|].
    apply rerender_turned; [done..|]. cbn. rewrite Ep. by apply NoDup_put.
  - destruct r as [| |text]; try by apply turned_same.
    + cbn. apply rerender_turned; [done|by case_bool_decide|].
      assert (Hw : NoDup (saved_id <$> without id (savedPapers g1))) by (rewrite Ep; by apply NoDup_without). by case_bool_decide.
    + cbn. destruct from as [k|]; [|by apply turned_same]. unfold update_studio. destruct (studio g1) as [s|] eqn:E1; [|by apply turned_same; [|congruence]].
      case_bool_decide; [|by apply turned_same; [|congruence]]. eapply u_on; [by rewrite <- Es|reflexivity|done].
Qed.
Lemma handle_turned e t g g' : consistent g -> distinct e = true -> handle e t g = Some g' -> turned e g g'.
Proof.
  intros Hc Hd Hh. pose proof Hc as [Hn _ _]. unfold handle in Hh.
  destruct e as [id| |id| |change|id made| | |i r]; try (destruct (mounted g) eqn:Em; cbn [negb] in Hh; [|done]).
  - destruct (find_paper _ _); [|done]. apply (inj Some) in Hh as <-. by apply rerender_turned.
  - apply (inj Some) in Hh as <-. by apply rerender_turned.
  - destruct (find_paper _ _); [|done]. apply (inj Some) in Hh as <-. by apply turned_same.
  - destruct (studio g) as [s|] eqn:Es; [|done]. destruct (_ && _); [|done]. apply (inj Some) in Hh as <-.
    by eapply u_on; [exact Es|reflexivity|].
  - destruct (studio g) as [s|] eqn:Es; [|done]. apply (inj Some) in Hh as <-. by eapply u_on; [exact Es|reflexivity|].
  - destruct (studio g) as [s|] eqn:Es; [|done]. destruct (truthy id) eqn:Ei; [|done]. apply (inj Some) in Hh as <-.
    by eapply u_on; [exact Es|reflexivity|].
  - destruct (studio g) as [s|] eqn:Es; [|done]. destruct (timer s) as [p|]; [|done]. apply (inj Some) in Hh as <-.
    destruct (discarding s); by eapply u_on; [exact Es|reflexivity|].
  - apply (inj Some) in Hh as <-. destruct (studio g) as [s|] eqn:Es; [|by apply u_none].
    eapply u_left; [exact Es| |done]. intros Hds p Hp. unfold leave. rewrite Hp, Hds. apply wait_added.
  - destruct (waits g !! i) as [w|]; [|done]. destruct (fits w r); [|done]. apply (inj Some) in Hh as <-. by apply answer_turned.
Qed.
Lemma rerender_in_step t g : in_step g -> in_step (rerender t g).
Proof.
  intros Hg. unfold rerender. destruct (_ || _); [done|].
  assert (He : exists d, latest (enter t g) = built d (paperId (enter t g)) (work (enter t g))).
  { unfold enter. destruct (activePaper g) as [p|]; by exists t. }
  destruct (studio g) as [s|] eqn:Es; [case_bool_decide; [done|]|]; by intros s' [= <-].
Qed.
Lemma handle_in_step e t g g' : in_step g -> handle e t g = Some g' -> in_step g'.
Proof.
  intros Hg Hh. unfold handle in Hh.
  assert (Hset : forall s0, (exists d, latest s0 = built d (paperId s0) (work s0)) -> in_step (set_studio (Some s0) g)) by (by intros s0 H0 s' [= <-]).
  destruct e as [id| |id| |change|id made| | |i r]; try (destruct (mounted g); cbn [negb] in Hh; [|done]).
  - destruct (find_paper _ _); [|done]. apply (inj Some) in Hh as <-. by apply rerender_in_step.
  - apply (inj Some) in Hh as <-. by apply rerender_in_step.
  - destruct (find_paper _ _); [|done]. by apply (inj Some) in Hh as <-.
  - destruct (studio g) as [s|] eqn:Es; [|done]. destruct (_ && _); [|done]. apply (inj Some) in Hh as <-. apply Hset. exact (Hg s Es).
  - destruct (studio g) as [s|]; [|done]. apply (inj Some) in Hh as <-. apply Hset. by exists t.
  - destruct (studio g) as [s|]; [|done]. destruct (truthy id); [|done]. apply (inj Some) in Hh as <-. apply Hset. by exists t.
  - destruct (studio g) as [s|] eqn:Es; [|done]. destruct (timer s); [|done]. apply (inj Some) in Hh as <-.
    destruct (discarding s); intros s' [= <-]; exact (Hg s Es).
  - by apply (inj Some) in Hh as <-.
  - destruct (waits g !! i) as [w|]; [|done]. destruct (fits w r); [|done]. apply (inj Some) in Hh as <-.
    destruct w as [|p|id captured from]; cbn [answer].
    + unfold list_answered. destruct (negb _); [done|]. apply rerender_in_step.
      destruct r as [papers| |text]; try done. cbn. by destruct (remembered g); [destruct (_ && _)|].
    + destruct r; try done. cbn. destruct (negb _); [done|]. by apply rerender_in_step.
    + destruct r as [| |text]; try done; cbn.
      * apply rerender_in_step. by case_bool_decide.
      * destruct from as [k|]; [|done]. unfold update_studio. cbn. destruct (studio g) as [s|] eqn:Es; [|done].
        case_bool_decide; [|by intros s' Es'; apply Hg; rewrite <- Es', Es]. intros s' [= <-]. exact (Hg s Es).
Qed.
Lemma reachable_in_step g : reachable g -> in_step g.
Proof. revert g. apply reachable_desk; [done|]. intros e t g g' _. apply handle_in_step. Qed.

(** C27. However a studio goes, when another paper is opened, after a save, after a
    deletion or with the page, and as long as the Host lists a paper once, the paper worked on in it, as it was last edited
    or generated, is sent to the Host, unless it is being discarded or has no
    id yet, or no question: after any event the studio goes on with that paper
    or the paper is among the saves under way. *)
Theorem leaving_saves (e : Event) (t : jstr) (g g' : Desk) (s : Studio) (c : jsval) :
  reachable g -> distinct e = true -> handle e t g = Some g' ->
  studio g = Some s -> work s = Some c -> paperId s <> [] -> discarding s = false ->
  (exists s', studio g' = Some s' /\ carries_on e s s') \/ (exists d, WaitSave (mkSaved (paperId s) d true c) ∈ waits g').
Proof.
  intros Hr Hd Hh Hs Hw Hid Hds. destruct (reachable_in_step g Hr s Hs) as [d Hl].
  destruct (handle_turned e t g g' (reachable_consistent g Hr) Hd Hh) as [Hn|s0 s' E1 E2 Hc|s' Hn|s0 E1 Hleft _]; try congruence.
  - left. exists s'. split; [done|]. congruence.
  - right. exists d. assert (s0 = s) as -> by congruence. apply Hleft; [done|]. rewrite Hl, Hw. unfold built.
    assert (truthy (paperId s) = true) as -> by by destruct (paperId s). done.
Qed.

(** C28. As long as the Host lists a paper once: after every event the library has
    one row for a paper, what is remembered for the next start is what is open,
    and the studio either goes on with the paper it worked on, changed only by
    what is edited or generated in it, or was built anew from the row of the
    paper that is open, and is empty if that has no row or a new paper is
    begun; in both cases its key is that of the open paper. *)
Theorem desk_consistent (e : Event) (t : jstr) (g g' : Desk) : reachable g -> distinct e = true -> handle e t g = Some g' ->
  NoDup (saved_id <$> savedPapers g') /\
  (mounted g' = true -> remembered g' = activePaperId g' /\
    (papersLoading g' = false -> exists s', studio g' = Some s' /\ key s' = key_of g' /\
       ((exists s, studio g = Some s /\ carries_on e s s') \/ shows_open g' s'))).
Proof.
  intros Hr Hd Hh. pose proof (reachable_consistent g Hr) as Hc. pose proof (consistent_handle e t g g' Hd Hc Hh) as [H1 H2 H3].
  split; [done|]. intros Hm. split; [by apply H2|]. intros Hl. destruct (H3 Hm Hl) as (s' & Hs' & Hk). exists s'. split; [done|].
  split; [done|]. destruct (handle_turned e t g g' Hc Hd Hh) as [_ Hn|s s1 E1 E2 Hon|s1 _ E2 Hshow|s _ _ Hnew].
  - congruence.
  - left. exists s. split; [done|]. congruence.
  - right. congruence.
  - right. by apply Hnew.
Qed.

(** ** What does not go as meant *)

Lemma find_paper_in id l : id ∈ saved_id <$> l -> exists p, find_paper id l = Some p /\ saved_id p = id /\ p ∈ l.
Proof.
  unfold find_paper. induction l as [|q l IH]; cbn; [by intros ?%elem_of_nil|]. intros Hin.
  destruct (seqb (saved_id q) id) eqn:E.
  - apply seqb_eq in E. exists q. split; [done|]. split; [done|by left].
  - apply elem_of_cons in Hin as [->|Hin]; [by rewrite (proj2 (seqb_eq _ _) eq_refl) in E|].
    destruct (IH Hin) as (p & Hp & Hi & Hl). exists p. split; [done|]. split; [done|by right].
Qed.
Lemma in_put id p l : id ∈ saved_id <$> l \/ id = saved_id p -> id ∈ saved_id <$> sort_js by_update (put p l).
Proof.
  rewrite sort_js_perm. cbn. rewrite elem_of_cons. intros [(q & -> & Hin)%list_elem_of_fmap|]; [|by left].
  destruct (decide (saved_id q = saved_id p)) as [|Hn]; [by left|right]. apply list_elem_of_fmap. exists q. split; [done|].
  apply list_elem_of_In, filter_In. split; [by apply list_elem_of_In|]. apply negb_true_iff. by apply bool_decide_eq_false.
Qed.
Lemma filled_put p l : filled p = true -> Forall (fun q => filled q = true) l ->
  Forall (fun q => filled q = true) (sort_js by_update (put p l)).
Proof.
  intros Hp Hl. rewrite sort_js_perm. constructor; [done|]. apply Forall_forall. intros q Hq.
  apply list_elem_of_In, filter_In in Hq as [Hq _]. eapply Forall_forall in Hl; [done|]. by apply list_elem_of_In.
Qed.

(** The paper [y] is open while a save of [x] is under way. *)
Record bouncing (x y : jstr) (g : Desk) : Prop := {
  bo_mounted : mounted g = true;
  bo_loaded : papersLoading g = false;
  bo_other : x <> y /\ truthy x = true /\ truthy y = true;
  bo_active : activePaperId g = Some y;
  bo_filled : Forall (fun q => filled q = true) (savedPapers g);
  bo_rows : x ∈ saved_id <$> savedPapers g /\ y ∈ saved_id <$> savedPapers g;
  bo_studio : exists s p, studio g = Some s /\ key s = KeyPaper y /\ latest s = Some p /\ saved_id p = y /\ filled p = true /\
                          discarding s = false;
  bo_waits : exists p, waits g = [WaitSave p] /\ saved_id p = x /\ filled p = true
}.
Lemma entered x t g : activePaperId g = Some x -> truthy x = true -> x ∈ saved_id <$> savedPapers g ->
  Forall (fun q => filled q = true) (savedPapers g) ->
  exists p, latest (enter t g) = Some p /\ saved_id p = x /\ filled p = true /\ key (enter t g) = KeyPaper x /\ discarding (enter t g) = false.
Proof.
  intros Ha Hx Hin Hf. destruct (find_paper_in x (savedPapers g) Hin) as (p & Hp & Hi & Hl).
  eapply Forall_forall in Hf; [|exact Hl]. unfold enter, activePaper, key_of. rewrite Ha. cbn. rewrite Hp, Hf, Hi. unfold built. cbn. rewrite Hx.
  eexists. split; [done|]. done.
Qed.
Lemma bounce x y t g : bouncing x y g -> exists g', handle (Answer 0 ReplyDone) t g = Some g' /\ bouncing y x g'.
Proof.
  intros [Hm Hl (Hxy & Hx & Hy) Ha Hf [Hix Hiy] (s & p & Hs & Hk & Hp & Hpy & Hpf & Hd) (q & Hw & Hq & Hqf)].
  exists (save_answered q ReplyDone t (set_waits [] g)). split; [unfold handle; rewrite Hw; reflexivity|].
  set (g1 := set_activePaperId (Some (saved_id q)) (set_savedPapers (sort_js by_update (put q (savedPapers g)))
    (set_remembered (Some (saved_id q)) (set_host (put q (host g)) (set_waits [] g))))).
  assert (Hgo : save_answered q ReplyDone t (set_waits [] g) = set_studio (Some (enter t g1)) (leave s g1)).
  { unfold save_answered. cbn. rewrite Hm. cbn. fold g1. unfold rerender. cbn. rewrite Hm, Hl, Hs. cbn.
    case_bool_decide as E; [|done]. rewrite Hk in E. unfold key_of in E. cbn in E. congruence. }
  rewrite Hgo.
  destruct (entered x t g1) as (p1 & E1 & E2 & E3 & E4 & E5).
  { by cbn; rewrite Hq. }
  { done. }
  { cbn. apply in_put. by right. }
  { by apply filled_put. }
  assert (Elv : leave s g1 = save p (set_left (left g ++ [p]) g1)) by (unfold leave; by rewrite Hp, Hd). rewrite Elv.
  split; cbn; [done|done|by split_and!| |by apply filled_put|split; apply in_put; [by left|by right]| |].
  - by rewrite Hq.
  - by exists (enter t g1), p1.
  - exists p. done.
Qed.
Lemma bounces (x y : jstr) (g : Desk) (ts : list jstr) :
  bouncing x y g -> exists g', run ((fun t => (Answer 0 ReplyDone, t)) <$> ts) g = Some g' /\
    activePaperId g' = Some (if Nat.even (length ts) then y else x) /\ waits g' <> [].
Proof.
  revert x y g. induction ts as [|t ts IH]; intros x y g Hb.
  - exists g. split; [done|]. split; [apply Hb|]. destruct (bo_waits _ _ _ Hb) as (p & -> & _). done.
  - destruct (bounce x y t g Hb) as (g1 & E1 & H1). destruct (IH _ _ _ H1) as (g2 & E2 & H2 & H3).
    exists g2. cbn [fmap list_fmap run]. rewrite E1. split; [exact E2|]. split; [|done]. rewrite H2.
    replace (Nat.even (length (t :: ts))) with (negb (Nat.even (length ts))); [by destruct (Nat.even _)|].
    cbn [length]. rewrite Nat.even_succ, <- Nat.negb_even. done.
Qed.
(** Nothing is under way and a paper is worked on, one of the library. *)
Record at_rest (x : jstr) (g : Desk) : Prop := {
  re_mounted : mounted g = true;
  re_loaded : papersLoading g = false;
  re_waits : waits g = [];
  re_active : activePaperId g = Some x;
  re_row : x ∈ saved_id <$> savedPapers g;
  re_filled : Forall (fun q => filled q = true) (savedPapers g);
  re_work : exists s, studio g = Some s /\ paperId s = x /\ work s <> None /\ discarding s = false
}.
Lemma opening_bounces (x y t : jstr) (g : Desk) : reachable g -> at_rest x g -> y ∈ saved_id <$> savedPapers g ->
  x <> y -> x <> [] -> y <> [] -> exists g', handle (Open y) t g = Some g' /\ bouncing x y g'.
Proof.
  intros Hr [Hm Hl Hw Ha Hx Hf (s & Hs & Hid & Hwk & Hd)] Hy Hxy Hxn Hyn.
  destruct (find_paper_in y _ Hy) as (p & Hp & _). unfold handle. rewrite Hm, Hp. cbn [negb]. eexists. split; [reflexivity|].
  set (g1 := set_remembered (Some y) (set_activePaperId (Some y) g)).
  destruct (co_studio _ (reachable_consistent g Hr) Hm Hl) as (s1 & Hs1 & Hk). assert (s1 = s) as -> by congruence.
  destruct (work s) as [c|] eqn:Ew; [|done]. destruct (reachable_in_step g Hr s Hs) as [d Hlat]. rewrite Ew, Hid in Hlat.
  assert (Hxt : truthy x = true) by by destruct x. assert (Hyt : truthy y = true) by by destruct y.
  unfold built in Hlat. rewrite Hxt in Hlat.
  assert (Hgo : rerender t g1 = set_studio (Some (enter t g1)) (save (mkSaved x d true c) (set_left (left g ++ [mkSaved x d true c]) g1))).
  { unfold rerender. cbn. rewrite Hm, Hl, Hs. cbn. case_bool_decide as E; [rewrite Hk in E; unfold key_of in E; cbn in E; rewrite Ha in E; congruence|]. unfold leave. by rewrite Hlat, Hd. }
  rewrite Hgo. destruct (entered y t g1) as (p1 & E1 & E2 & E3 & E4 & E5); [done..|].
  split; cbn; [done..| |]; [by exists (enter t g1), p1|]. exists (mkSaved x d true c). by rewrite Hw.
Qed.
End desk.

(** ** Runs *)

Module PaperDeskRuns.
#[local] Existing Instance ascii_locale.

Definition day (n : N) : jstr := [(48 + n)%N].
Definition waves : Saved := mkSaved (js "w") (day 1) true VNull.
Definition optics : Saved := mkSaved (js "o") (day 2) true VNull.
Definition begun : Desk := mount (Some (js "w")) [optics; waves].
Definition after (es : list (Event * jstr)) : Desk := default begun (run es begun).
Definition opened : list (Event * jstr) := [(Answer 0 (ReplyList [optics; waves]), day 3)].
Definition went_over : list (Event * jstr) := opened ++ [(Open (js "o"), day 4)].
Lemma desk_reached es : forallb (fun p : Event * jstr => distinct (fst p)) es = true -> is_Some (run es begun) -> reachable (after es).
Proof. intros Hd [g E]. exists (Some (js "w")), [optics; waves], es. split; [done|]. unfold after. by rewrite E. Qed.

Lemma desk_consistent_witness :
  handle (Open (js "o")) (day 4) (after opened) = Some (after went_over) /\
  NoDup (saved_id <$> savedPapers (after went_over)) /\
  (exists s, studio (after went_over) = Some s /\ key s = key_of (after went_over) /\
     ((exists s0, studio (after opened) = Some s0 /\ carries_on (Open (js "o")) s0 s) \/ shows_open (after went_over) s)).
Proof.
  assert (Hr : reachable (after opened)) by (apply desk_reached; vm_compute; [reflexivity|by eexists]).
  assert (Hh : handle (Open (js "o")) (day 4) (after opened) = Some (after went_over)) by (vm_compute; reflexivity).
  split; [exact Hh|]. destruct (desk_consistent (Open (js "o")) (day 4) (after opened) (after went_over) Hr eq_refl Hh) as [H1 H2].
  split; [exact H1|]. exact (proj2 (H2 ltac:(vm_compute; reflexivity)) ltac:(vm_compute; reflexivity)).
Defined.
Definition kept : Saved := mkSaved (js "w") (day 3) true VNull.
(** The paper is edited, then another is opened: what is sent is the edited
    one. *)
Definition corrected : list (Event * jstr) := opened ++ [(Edit (Some (VBool true)), day 4)].
Example edited_paper_sent :
  waits (after (corrected ++ [(Open (js "o"), day 5)])) = [WaitSave (mkSaved (js "w") (day 4) true (VBool true))].
Proof. vm_compute. reflexivity. Qed.
Lemma leaving_saves_witness : exists g' s, handle (Open (js "o")) (day 5) (after corrected) = Some g' /\
  studio (after corrected) = Some s /\
  ((exists s', studio g' = Some s' /\ carries_on (Open (js "o")) s s') \/
   (exists d, WaitSave (mkSaved (paperId s) d true (VBool true)) ∈ waits g')).
Proof.
  assert (Hr : reachable (after corrected)) by (apply desk_reached; vm_compute; [reflexivity|by eexists]).
  assert (Hs : is_Some (studio (after corrected))) by (vm_compute; by eexists). destruct Hs as [s Hs].
  assert (Hh : is_Some (handle (Open (js "o")) (day 5) (after corrected))) by (vm_compute; by eexists). destruct Hh as [g' Hh].
  exists g', s. split; [exact Hh|]. split; [exact Hs|].
  apply (leaving_saves (Open (js "o")) (day 5) (after corrected) g' s (VBool true) Hr eq_refl Hh Hs);
    revert Hs; vm_compute; intros E; injection E as <-; (reflexivity || discriminate).
Defined.
(** The paper a teacher writes by hand has no id: nothing of it is sent. *)
Example handwritten_paper_lost :
  let es := opened ++ [(New, day 4); (Edit (Some (VBool true)), day 5); (Unmount, day 6)] in
  is_Some (run es begun) /\ waits (after es) = [WaitSave kept].
Proof. split; [vm_compute; by eexists|]. vm_compute. reflexivity. Qed.

(** Deleting the open paper in the library: its studio, which the deletion
    closes, saves it again, and it is opened. *)
Theorem deleted_paper_comes_back :
  let es := opened ++ [(RemoveFromLibrary (js "w"), day 4); (Answer 0 ReplyDone, day 5); (Answer 0 ReplyDone, day 6)] in
  is_Some (run es begun) /\ (saved_id <$> host (after es)) = [js "w"; js "o"] /\ activePaperId (after es) = Some (js "w").
Proof. split; [vm_compute; by eexists|]. split; vm_compute; reflexivity. Qed.
(** A new paper begun while another is open gives way to that one. *)
Theorem new_paper_gives_way :
  let es := opened ++ [(New, day 4); (Answer 0 ReplyDone, day 5)] in
  is_Some (run es begun) /\ activePaperId (after es) = Some (js "w").
Proof. split; [vm_compute; by eexists|]. vm_compute. reflexivity. Qed.
(** Opening a paper is enough to date it anew. *)
Theorem opening_updates :
  let es := opened ++ [(TimerFires, day 4); (Answer 0 ReplyDone, day 5)] in
  is_Some (run es begun) /\ find_paper (js "w") (savedPapers (after es)) = Some kept /\ updatedAt waves = day 1.
Proof. split; [vm_compute; by eexists|]. split; vm_compute; reflexivity. Qed.

End PaperDeskRuns.
