(* ===== verification/FigurePicker.v ===== *)
(** * Figures from a source paper ([apps/teacher/src/FigurePicker.tsx])

    A page of a PDF is drawn, the figures on it are looked for by the Host, and
    one of them, or the whole page, is attached to a question.  The requests
    under way are part of the state, and their answers are events, in any order.
    Every drawn page and every figure carries where it was taken from; nothing
    reads that but the theorems.  What the canvas of the browser does is the
    class [Images]. *)

From S2P Require Import Prelude JsString JsNumber Regex PaperLogic.
Local Open Scope Z_scope.

(** A canvas, its text as an image of either kind, and a part of it. *)
Class Images := {
  Image : Type;
  width : Image -> Z;
  height : Image -> Z;
  png_url : Image -> jstr;
  jpeg_url : Z -> Image -> jstr;   (** by the quality in hundredths *)
  region : Z -> Z -> Z -> Z -> Image -> option Image   (** [None] when there is nothing to draw on *)
}.

(** ** Cutting a figure out *)

Record PaperFigure := mkFigure { f_page : Z; box_2d : Z * Z * Z * Z; f_caption : jstr; f_alt : jstr }.
Definition MAX_DIAGRAM_CHARS : Z := 7000000.
(** [Math.round((part / 1000) * whole)], of the exact value: the rounding of
    binary64 can move a corner that falls between two dots by one. *)
Definition scaled (part whole : Z) : Z := (2 * part * whole + 1000) / 2000.
(** The corner and the size that are cut out of a box, given as its top, left,
    bottom and right in thousandths. *)
Definition crop_box (w h : Z) (box : Z * Z * Z * Z) : Z * Z * Z * Z :=
  let '(y1, x1, y2, x2) := box in
  (scaled x1 w, scaled y1 h, Z.max 8 (scaled (x2 - x1) w), Z.max 8 (scaled (y2 - y1) h)).
Definition cropFromCanvas `{Images} (canvas : Image) (box : Z * Z * Z * Z) : jstr :=
  let '(x, y, w, h) := crop_box (width canvas) (height canvas) box in
  match region x y w h canvas with
  | None => []
  | Some crop => if jlen (png_url crop) <=? MAX_DIAGRAM_CHARS then png_url crop else jpeg_url 85 crop
  end.

Section picker.
Context `{Images}.

(** ** State *)

(** [object] tells apart the values the props bring under the same id. *)
Record FigureSource := mkSource { source_id : jstr; source_name : jstr; object : nat }.
#[local] Instance source_eq : EqDecision FigureSource. Proof. solve_decision. Defined.
#[local] Instance quotient_eq : EqDecision QArith_base.Q. Proof. solve_decision. Defined.
#[local] Instance number_eq : EqDecision jsnum. Proof. solve_decision. Defined.
(** A drawn page: of which source, asked for as which number, and which it is. *)
Record Drawn := mkDrawn { image : Image; drawn_source : FigureSource; drawn_request : jsnum; drawn_page : jsnum }.
Record Candidate := mkCandidate { c_image : jstr; c_caption : jstr; c_alt : jstr; taken_from : Drawn }.
Inductive Request :=
  | Loading (no : nat) (s : FigureSource) (page : jsnum)
  | Looking (canvas : Drawn) (page : jsnum) (jpeg : jstr).
Record Picker := mkPicker {
  sources : list FigureSource; questions : list jstr;
  sourceId : jstr; pageNumber : jsnum; pageCount : Z; candidates : list Candidate; questionId : jstr;
  status : jstr; busy : bool; pageCanvas : option Drawn; effect_no : nat; pending : list Request;
  handed_over : list (jstr * PaperDiagram * Drawn)
}.
(** A PDF as its number of pages and what drawing one of them gives. *)
Record Pdf := mkPdf { numPages : Z; draw : jsnum -> outcome (option jstr) Image }.

Definition find_source (id : jstr) (l : list FigureSource) : option FigureSource := find (fun s => seqb (source_id s) id) l.
Definition source (w : Picker) : option FigureSource := find_source (sourceId w) (sources w).
Definition set_status (m : jstr) (w : Picker) : Picker :=
  mkPicker (sources w) (questions w) (sourceId w) (pageNumber w) (pageCount w) (candidates w) (questionId w) m (busy w) (pageCanvas w) (effect_no w)
    (pending w) (handed_over w).
Definition set_busy (b : bool) (w : Picker) : Picker :=
  mkPicker (sources w) (questions w) (sourceId w) (pageNumber w) (pageCount w) (candidates w) (questionId w) (status w) b (pageCanvas w) (effect_no w)
    (pending w) (handed_over w).
Definition set_candidates (l : list Candidate) (w : Picker) : Picker :=
  mkPicker (sources w) (questions w) (sourceId w) (pageNumber w) (pageCount w) l (questionId w) (status w) (busy w) (pageCanvas w) (effect_no w)
    (pending w) (handed_over w).
Definition set_canvas (c : option Drawn) (n : Z) (w : Picker) : Picker :=
  mkPicker (sources w) (questions w) (sourceId w) (pageNumber w) n (candidates w) (questionId w) (status w) (busy w) c (effect_no w)
    (pending w) (handed_over w).
Definition set_pending (l : list Request) (w : Picker) : Picker :=
  mkPicker (sources w) (questions w) (sourceId w) (pageNumber w) (pageCount w) (candidates w) (questionId w) (status w) (busy w) (pageCanvas w) (effect_no w)
    l (handed_over w).
Definition set_question (q : jstr) (w : Picker) : Picker :=
  mkPicker (sources w) (questions w) (sourceId w) (pageNumber w) (pageCount w) (candidates w) q (status w) (busy w) (pageCanvas w) (effect_no w)
    (pending w) (handed_over w).
Definition set_props (ss : list FigureSource) (qs : list jstr) (w : Picker) : Picker :=
  mkPicker ss qs (sourceId w) (pageNumber w) (pageCount w) (candidates w) (questionId w) (status w) (busy w) (pageCanvas w) (effect_no w)
    (pending w) (handed_over w).
Definition set_place (id : jstr) (page : jsnum) (w : Picker) : Picker :=
  mkPicker (sources w) (questions w) id page (pageCount w) (candidates w) (questionId w) (status w) (busy w) (pageCanvas w) (effect_no w)
    (pending w) (handed_over w).
Definition next_effect (w : Picker) : Picker :=
  mkPicker (sources w) (questions w) (sourceId w) (pageNumber w) (pageCount w) (candidates w) (questionId w) (status w) (busy w) (pageCanvas w) (S (effect_no w))
    (pending w) (handed_over w).
Definition onAttach (q : jstr) (d : PaperDiagram) (from : Drawn) (w : Picker) : Picker :=
  mkPicker (sources w) (questions w) (sourceId w) (pageNumber w) (pageCount w) (candidates w) (questionId w) (status w) (busy w) (pageCanvas w) (effect_no w)
    (pending w) (handed_over w ++ [(q, d, from)]).

(** ** Drawing the page *)

(** [Math.min(Math.max(1, pageNumber), numPages)] *)
Definition page_shown (page : jsnum) (pages : Z) : jsnum :=
  let p := if num_lt page (num 1) then num 1 else page in if num_lt (num pages) p then num pages else p.
(** The effect on the page and the source; the one before it is cancelled. *)
Definition load (w : Picker) : Picker :=
  let w := next_effect w in
  match source w with
  | None => w
  | Some s => set_pending (pending w ++ [Loading (effect_no w) s (pageNumber w)]) (set_candidates [] (set_status [] (set_busy true w)))
  end.
Definition renderPage (s : FigureSource) (page : jsnum) (r : outcome (option jstr) Pdf) : outcome (option jstr) (Drawn * Z) :=
  match r with
  | Ok pdf =>
    match draw pdf (page_shown page (numPages pdf)) with
    | Ok i => Ok (mkDrawn i s page (page_shown page (numPages pdf)), numPages pdf)
    | Throw m => Throw m
    end
  | Throw m => Throw m
  end.
Definition msg_unopened : jstr := js "That page could not be opened.".
Definition loaded (no : nat) (s : FigureSource) (page : jsnum) (r : outcome (option jstr) Pdf) (w : Picker) : Picker :=
  if negb (Nat.eqb no (effect_no w)) then w else
  set_busy false
    (match renderPage s page r with
     | Ok (c, n) => set_canvas (Some c) n w
     | Throw m => set_status (failure_text m msg_unopened) (set_canvas None (pageCount w) w)
     end).

(** ** Finding and attaching *)

(** [url.split(",")[1] ?? ""] *)
Definition after_comma (url : jstr) : jstr := default [] (split 44 url !! 1%nat).
Definition msg_looking : jstr := js "Looking for figures on this page...".
Definition detect (w : Picker) : Picker :=
  match pageCanvas w with
  | None => w
  | Some canvas =>
    set_pending (pending w ++ [Looking canvas (pageNumber w) (after_comma (jpeg_url 80 (image canvas)))]) (set_status msg_looking (set_busy true w))
  end.
Definition candidate_of (canvas : Drawn) (f : PaperFigure) : Candidate :=
  mkCandidate (cropFromCanvas (image canvas) (box_2d f)) (f_caption f)
    (or_str (f_alt f) (or_str (f_caption f) (js "Figure from the source paper"))) canvas.
Definition found_in (canvas : Drawn) (fs : list PaperFigure) : list Candidate :=
  List.filter (fun c => truthy (c_image c)) (candidate_of canvas <$> fs).
Definition found_message (n : nat) : jstr :=
  match n with
  | O => js "No figures were found on this page."
  | _ => show_Z (Z.of_nat n) ++ js " figure" ++ (if Nat.eqb n 1 then [] else js "s") ++ js " found. Check each one before attaching it."
  end.
Definition msg_unexamined : jstr := js "The page could not be examined.".
Definition detected (canvas : Drawn) (r : outcome (option jstr) (list PaperFigure)) (w : Picker) : Picker :=
  set_busy false
    (match r with
     | Ok fs => let found := found_in canvas fs in set_status (found_message (length found)) (set_candidates found w)
     | Throw m => set_status (failure_text m msg_unexamined) w
     end).
Definition name_or (d : jstr) (w : Picker) : jstr := match source w with Some s => source_name s | None => d end.
Definition msg_too_large : jstr := js "That page is too large to attach. Crop a figure from it instead.".
Definition msg_whole : jstr := js "Whole page ready. Attaching a complete page needs your school's rights to it.".
Definition useWholePage (w : Picker) : Picker :=
  match pageCanvas w with
  | None => w
  | Some canvas =>
    let jpeg := jpeg_url 82 (image canvas) in
    if MAX_DIAGRAM_CHARS <? jlen jpeg then set_status msg_too_large w else
    set_status msg_whole (set_candidates [mkCandidate jpeg (name_or (js "Source") w ++ js ", page " ++ show_num (pageNumber w))
      (js "Page " ++ show_num (pageNumber w) ++ js " of " ++ name_or (js "the source paper") w) canvas] w)
  end.
(** How a caption names the place. *)
Definition citation (caption : jstr) (s : option FigureSource) (page : jsnum) : jstr :=
  let name d := match s with Some s => source_name s | None => d end in
  if truthy caption then caption ++ js " (" ++ name (js "source") ++ js ", p. " ++ show_num page ++ js ")"
  else name (js "Source") ++ js ", p. " ++ show_num page.
Definition msg_no_question : jstr := js "Choose which question this figure belongs to.".
Definition msg_attached : jstr := js "Figure attached.".
Definition attach (c : Candidate) (w : Picker) : Picker :=
  if negb (truthy (questionId w)) then set_status msg_no_question w else
  set_status msg_attached (onAttach (questionId w) (mkDiagram (c_image c) (citation (c_caption c) (source w) (pageNumber w)) (c_alt c)) (taken_from c) w).
(** [/could not|too large|no figures/i] *)
Definition re_error : re := RAlt (lit_i (js "could not")) (RAlt (lit_i (js "too large")) (lit_i (js "no figures"))).
Definition status_is_error (w : Picker) : bool := test re_error (status w).

(** ** Events *)

Inductive Event :=
  | ChooseSource (id : jstr) | TypePage (v : jstr) | ChooseQuestion (q : jstr)
  | Detect | WholePage | Attach (i : nat)
  | Props (ss : list FigureSource) (qs : list jstr)
  | Loaded (i : nat) (r : outcome (option jstr) Pdf)
  | Detected (i : nat) (r : outcome (option jstr) (list PaperFigure)).
(** [Math.max(1, Number(v) || 1)] *)
Definition page_typed (v : jstr) : jsnum :=
  let n := number_of_string v in
  match n with NaN => num 1 | _ => if num_lt n (num 1) then num 1 else n end.
(** The effect runs when the page or the source is another. *)
Definition moved (w w' : Picker) : bool :=
  negb (bool_decide (source w = source w') && bool_decide (pageNumber w = pageNumber w')).
Definition settle (w w' : Picker) : Picker := if moved w w' then load w' else w'.
Definition step (ev : Event) (w : Picker) : Picker :=
  match ev with
  | ChooseSource id => match find_source id (sources w) with Some _ => settle w (set_place id (num 1) w) | None => w end
  | TypePage v => settle w (set_place (sourceId w) (page_typed v) w)
  | ChooseQuestion q => if existsb (seqb q) (questions w) then set_question q w else w
  | Detect => if busy w then w else detect w
  | WholePage => if busy w then w else useWholePage w
  | Attach i => match candidates w !! i with Some c => attach c w | None => w end
  | Props ss qs => settle w (set_props ss qs w)
  | Loaded i r =>
    match pending w !! i with Some (Loading no s page) => loaded no s page r (set_pending (delete i (pending w)) w) | _ => w end
  | Detected i r =>
    match pending w !! i with Some (Looking c _ _) => detected c r (set_pending (delete i (pending w)) w) | _ => w end
  end.
Definition run (es : list Event) (w : Picker) : Picker := fold_left (fun w ev => step ev w) es w.
Definition opened (ss : list FigureSource) (qs : list jstr) : Picker :=
  load (mkPicker ss qs (match ss with s :: _ => source_id s | [] => [] end) (num 1) 0 [] (match qs with q :: _ => q | [] => [] end) [] false None 0 [] []).

(** ** Properties *)

(** A drawn page of the source and the number that are chosen. *)
Definition placed (w : Picker) (d : Drawn) : Prop := Some (drawn_source d) = source w /\ drawn_request d = pageNumber w.
(** An image cut out of the page, or the whole of it. *)
Definition shows_page (url : jstr) (d : Drawn) : Prop := (exists box, url = cropFromCanvas (image d) box) \/ url = jpeg_url 82 (image d).
Definition drawn_well (d : Drawn) : Prop := exists pages, drawn_page d = page_shown (drawn_request d) pages.
Definition true_to_page (x : jstr * PaperDiagram * Drawn) : Prop :=
  let '(_, d, from) := x in
  shows_page (imageDataUrl d) from /\ drawn_well from /\
  exists text, caption d = citation text (Some (drawn_source from)) (drawn_request from).
Definition is_looking (r : Request) : bool := match r with Looking _ _ _ => true | _ => false end.
(** The source or the page is changed only while no figures are looked for, and
    there always is a source. *)
Fixpoint steady (es : list Event) (w : Picker) : Prop :=
  match es with
  | [] => True
  | ev :: es =>
    (moved w (step ev w) = true -> existsb is_looking (pending w) = false /\ source (step ev w) <> None) /\ steady es (step ev w)
  end.

(** What the buttons wait for. *)
Definition is_active (w : Picker) (r : Request) : bool := match r with Loading no _ _ => Nat.eqb no (effect_no w) | Looking _ _ _ => true end.
Definition active (w : Picker) : list Request := List.filter (is_active w) (pending w).
Definition request_ok (w : Picker) (r : Request) : Prop :=
  match r with
  | Loading no s page => (no <= effect_no w)%nat /\ (no = effect_no w -> Some s = source w /\ page = pageNumber w)
  | Looking c _ _ => placed w c /\ drawn_well c
  end.
Definition candidate_ok (w : Picker) (c : Candidate) : Prop :=
  placed w (taken_from c) /\ drawn_well (taken_from c) /\ shows_page (c_image c) (taken_from c).
Record Good (w : Picker) : Prop := {
  g_source : source w <> None;
  g_requests : Forall (request_ok w) (pending w);
  g_active : (length (active w) <= 1)%nat;
  g_busy : busy w = false -> active w = [];
  g_canvas : forall c, pageCanvas w = Some c -> drawn_well c /\ (placed w c \/ exists no s p, Loading no s p ∈ active w);
  g_candidates : Forall (candidate_ok w) (candidates w);
  g_handed : Forall true_to_page (handed_over w)
}.

Lemma filter_delete {A} (p : A -> bool) (l : list A) i x : l !! i = Some x ->
  List.filter p l = List.filter p (take i l) ++ (if p x then [x] else []) ++ List.filter p (drop (S i) l) /\
  List.filter p (delete i l) = List.filter p (take i l) ++ List.filter p (drop (S i) l).
Proof.
  intros Hi. rewrite delete_take_drop, List.filter_app. split; [|done]. rewrite <- (take_drop_middle l i x Hi) at 1.
  rewrite List.filter_app. cbn [List.filter]. by destruct (p x).
Qed.
(** A request that was active was the only one; one that was not leaves them. *)
Lemma active_delete w i r : pending w !! i = Some r -> (length (active w) <= 1)%nat ->
  List.filter (is_active w) (delete i (pending w)) = if is_active w r then [] else active w.
Proof.
  intros Hi Hn. unfold active in *. destruct (filter_delete (is_active w) _ _ _ Hi) as [E1 E2]. rewrite E2. rewrite E1 in *.
  destruct (is_active w r); [|done]. rewrite !length_app in Hn. cbn in Hn.
  destruct (List.filter _ (take i _)), (List.filter _ (drop _ _)); cbn in *; (done || lia).
Qed.
Lemma no_looking l : existsb is_looking l = false -> forall c p j, Looking c p j ∉ l.
Proof.
  intros Hl c p j Hin%list_elem_of_In. apply not_true_iff_false in Hl. apply Hl, existsb_exists. by eexists.
Qed.
(** The effect that draws the page. *)
Lemma good_load w : source w <> None -> Forall (fun r => match r with Loading no _ _ => (no <= effect_no w)%nat | _ => False end) (pending w) ->
  (forall c, pageCanvas w = Some c -> drawn_well c) -> Forall true_to_page (handed_over w) -> Good (load w).
Proof.
  intros Hs Hp Hc Hh. unfold load. change (source (next_effect w)) with (source w). destruct (source w) as [s|] eqn:Es; [|done].
  assert (Ea : List.filter (is_active (next_effect w)) (pending w) = []).
  { induction Hp as [|r l Hr Hl IH]; [done|]. cbn [List.filter]. destruct r as [no ? ?|]; [|done]. cbn [is_active].
    change (effect_no (next_effect w)) with (S (effect_no w)). destruct (Nat.eqb_spec no (S (effect_no w))); [lia|exact IH]. }
  set (w' := set_pending _ _).
  assert (Ha : active w' = [Loading (S (effect_no w)) s (pageNumber w)]).
  { unfold active. change (pending w') with (pending w ++ [Loading (S (effect_no w)) s (pageNumber w)]).
    change (is_active w') with (is_active (next_effect w)). rewrite List.filter_app, Ea. cbn. by rewrite Nat.eqb_refl. }
  split.
  - change (source w') with (source w). by rewrite Es.
  - change (pending w') with (pending w ++ [Loading (S (effect_no w)) s (pageNumber w)]). apply Forall_app. split.
    + eapply Forall_impl; [exact Hp|]. intros [no ? ?|] Hr; [|done]. cbn. change (effect_no w') with (S (effect_no w)). lia.
    + constructor; [|constructor]. cbn. change (effect_no w') with (S (effect_no w)). split; [lia|]. intros _. split; [|done]. by rewrite <- Es.
  - by rewrite Ha.
  - done.
  - intros c Ec. split; [by apply Hc|]. right. rewrite Ha. eexists _, _, _. by left.
  - constructor.
  - exact Hh.
Qed.

(** Two states that agree in all that matters. *)
Definition alike (w w' : Picker) : Prop :=
  pageCanvas w' = pageCanvas w /\ effect_no w' = effect_no w /\ pending w' = pending w /\ busy w' = busy w.
Lemma good_alike w w' : alike w w' -> source w' = source w -> pageNumber w' = pageNumber w ->
  Forall (candidate_ok w) (candidates w') -> Forall true_to_page (handed_over w') -> Good w -> Good w'.
Proof.
  intros (E3 & E4 & E5 & E6) E1 E2 Hc Hh [H1 H2 H3 H4 H5 _ _].
  assert (Ep : forall d, placed w' d <-> placed w d) by (intros d; unfold placed; by rewrite E1, E2).
  assert (Ea : active w' = active w) by (unfold active, is_active; by rewrite E4, E5).
  split.
  - by rewrite E1.
  - rewrite E5. eapply Forall_impl; [exact H2|]. intros [no s p|c p j]; cbn; [by rewrite E1, E2, E4|by rewrite Ep].
  - by rewrite Ea.
  - by rewrite Ea, E6.
  - intros c. rewrite E3, Ea, Ep. apply H5.
  - eapply Forall_impl; [exact Hc|]. intros c. unfold candidate_ok. by rewrite Ep.
  - exact Hh.
Qed.
Lemma good_settle w w' : alike w w' -> candidates w' = candidates w -> handed_over w' = handed_over w -> Good w ->
  (moved w w' = true -> existsb is_looking (pending w) = false /\ source w' <> None) -> Good (settle w w').
Proof.
  intros Ha Hc Hh Hw Hm. unfold settle. destruct (moved w w') eqn:Em.
  - destruct (Hm eq_refl) as [Hl Hs]. destruct Ha as (E1 & E2 & E3 & _). apply good_load; [done| | |by rewrite Hh; apply Hw].
    + rewrite E2, E3. pose proof (no_looking _ Hl) as Hno. pose proof (g_requests w Hw) as Hr. apply Forall_forall. intros r Hin.
      pose proof (proj1 (Forall_forall _ _) Hr r Hin) as Hok. destruct r as [no s p|c p j]; [apply Hok|by apply Hno in Hin].
    + intros c Ec. rewrite E1 in Ec. by apply (g_canvas w Hw).
  - unfold moved in Em. apply negb_false_iff, andb_true_iff in Em as [E1%bool_decide_eq_true E2%bool_decide_eq_true].
    apply (good_alike w); try done; [rewrite Hc; apply Hw|rewrite Hh; apply Hw].
Qed.
(** While nothing is active a drawn page is that of the place. *)
Lemma idle_placed w c : Good w -> busy w = false -> pageCanvas w = Some c -> drawn_well c /\ placed w c.
Proof.
  intros Hw Hb Hc. destruct (g_canvas w Hw c Hc) as [Hd [Hp|(no & s & p & Hin)]]; [done|]. rewrite (g_busy w Hw Hb) in Hin. by apply elem_of_nil in Hin.
Qed.
Lemma found_ok w d fs : placed w d -> drawn_well d -> Forall (candidate_ok w) (found_in d fs).
Proof.
  intros Hp Hd. apply Forall_forall. intros c [Hin _]%list_elem_of_In%filter_In. apply list_elem_of_In, list_elem_of_fmap in Hin as (f & -> & _).
  split; [done|]. split; [done|]. left. by exists (box_2d f).
Qed.
Lemma good_detect w : Good w -> busy w = false -> Good (detect w).
Proof.
  intros Hw Hb. unfold detect. destruct (pageCanvas w) as [c|] eqn:Ec; [|done]. destruct (idle_placed w c Hw Hb Ec) as [Hd Hp].
  set (r := Looking _ _ _). set (w' := set_pending _ _).
  assert (Ea : active w' = [r]).
  { unfold active. change (pending w') with (pending w ++ [r]). change (is_active w') with (is_active w). rewrite List.filter_app.
    change (List.filter (is_active w) (pending w)) with (active w). by rewrite (g_busy w Hw Hb). }
  destruct Hw as [H1 H2 H3 H4 H5 H6 H7]. split; try done.
  - apply Forall_app. split; [exact H2|]. by apply Forall_singleton.
  - by rewrite Ea.
  - intros c' Ec'. change (pageCanvas w') with (pageCanvas w) in Ec'. rewrite Ec in Ec'. injection Ec' as <-. split; [done|]. by left.
Qed.
Lemma good_whole w : Good w -> busy w = false -> Good (useWholePage w).
Proof.
  intros Hw Hb. unfold useWholePage. destruct (pageCanvas w) as [c|] eqn:Ec; [|done]. destruct (idle_placed w c Hw Hb Ec) as [Hd Hp].
  destruct (_ <? _); apply (good_alike w); try done; try apply Hw. constructor; [|constructor]. split; [done|]. split; [done|]. by right.
Qed.
Lemma good_attach w c : Good w -> c ∈ candidates w -> Good (attach c w).
Proof.
  intros Hw Hc. unfold attach. destruct (negb _); apply (good_alike w); try done; try apply Hw.
  apply Forall_app. split; [apply Hw|]. apply Forall_singleton.
  destruct (proj1 (Forall_forall _ _) (g_candidates w Hw) c Hc) as ([E1 E2] & Hd & Hs). split; [exact Hs|]. split; [exact Hd|].
  exists (c_caption c). cbn. by rewrite <- E1, <- E2.
Qed.
(** Taking the answer to a request. *)
Lemma good_taken w i r : Good w -> pending w !! i = Some r ->
  let w' := set_pending (delete i (pending w)) w in
  active w' = (if is_active w r then [] else active w) /\ Forall (request_ok w') (pending w').
Proof.
  intros Hw Hi w'. split; [exact (active_delete w i r Hi (g_active w Hw))|]. apply Forall_delete.
  eapply Forall_impl; [exact (g_requests w Hw)|]. by intros [].
Qed.
Lemma good_loaded w i no s p r : Good w -> pending w !! i = Some (Loading no s p) -> Good (loaded no s p r (set_pending (delete i (pending w)) w)).
Proof.
  intros Hw Hi. destruct (good_taken w i _ Hw Hi) as [Ea Hr]. unfold loaded. change (effect_no (set_pending _ w)) with (effect_no w).
  cbn [is_active] in Ea. set (w' := set_pending _ w) in *.
  pose proof (proj1 (Forall_forall _ _) (g_requests w Hw) _ (list_elem_of_lookup_2 _ _ _ Hi)) as [Hle Hcur].
  destruct Hw as [H1 H2 H3 H4 H5 H6 H7]. revert Ea. destruct (Nat.eqb_spec no (effect_no w)) as [E|E]; cbn [negb]; intros Ea.
  2:{ split; [exact H1|exact Hr|rewrite Ea; exact H3|rewrite Ea; exact H4|rewrite Ea; exact H5|exact H6|exact H7]. }
  assert (Hn : (length (active w') <= 1)%nat) by (rewrite Ea; cbn; lia).
  destruct (Hcur E) as [Es Ep]. unfold renderPage. destruct r as [pdf|m]; [destruct (draw pdf _) as [im|m]|].
  - split; [exact H1|exact Hr|exact Hn|intros _; exact Ea| |exact H6|exact H7].
    intros c [= <-]. split; [by exists (numPages pdf)|]. left. by split.
  - split; [exact H1|exact Hr|exact Hn|intros _; exact Ea|done|exact H6|exact H7].
  - split; [exact H1|exact Hr|exact Hn|intros _; exact Ea|done|exact H6|exact H7].
Qed.
Lemma good_detected w i c p j r : Good w -> pending w !! i = Some (Looking c p j) -> Good (detected c r (set_pending (delete i (pending w)) w)).
Proof.
  intros Hw Hi. destruct (good_taken w i _ Hw Hi) as [Ea Hr]. cbn [is_active] in Ea. unfold detected. set (w' := set_pending _ w) in *.
  pose proof (proj1 (Forall_forall _ _) (g_requests w Hw) _ (list_elem_of_lookup_2 _ _ _ Hi)) as [Hp Hd].
  assert (Hcv : forall c', pageCanvas w = Some c' -> drawn_well c' /\ placed w c').
  { intros c' Ec. destruct (g_canvas w Hw c' Ec) as [Hd' [Hp'|(no & s & q & Hin)]]; [done|]. exfalso.
    (* The request that is taken was the only active one. *)
    pose proof (g_active w Hw) as Hn. assert (Hl : Looking c p j ∈ active w).
    { apply list_elem_of_In, filter_In. split; [|done]. apply list_elem_of_In. by eapply list_elem_of_lookup_2. }
    destruct (active w) as [|x [|y l]]; cbn in Hn; [by apply elem_of_nil in Hl| |lia].
    apply list_elem_of_singleton in Hl, Hin. congruence. }
  assert (Hn : (length (active w') <= 1)%nat) by (rewrite Ea; cbn; lia).
  destruct Hw as [H1 H2 H3 H4 H5 H6 H7]. destruct r as [fs|m].
  - split; [exact H1|exact Hr|exact Hn|intros _; exact Ea| |exact (found_ok w c fs Hp Hd)|exact H7].
    intros c' Ec. destruct (Hcv c' Ec) as [? ?]. split; [done|by left].
  - split; [exact H1|exact Hr|exact Hn|intros _; exact Ea| |exact H6|exact H7].
    intros c' Ec. destruct (Hcv c' Ec) as [? ?]. split; [done|by left].
Qed.
Lemma good_step ev w : Good w -> (moved w (step ev w) = true -> existsb is_looking (pending w) = false /\ source (step ev w) <> None) -> Good (step ev w).
Proof.
  assert (Hl : forall v, source (load v) = source v /\ pageNumber (load v) = pageNumber v).
  { intros v. unfold load. change (source (next_effect v)) with (source v). destruct (source v) eqn:E; (split; [exact E|done]). }
  assert (Hm : forall v, moved w (settle w v) = moved w v /\ source (settle w v) = source v).
  { intros v. unfold settle. destruct (moved w v) eqn:E; [|done]. destruct (Hl v) as [E1 E2]. split; [|done]. unfold moved in *. by rewrite E1, E2. }
  intros Hw. destruct ev as [id|v|q| | |i|ss qs|i r|i r]; cbn [step].
  - destruct (find_source id (sources w)); [|done]. destruct (Hm (set_place id (num 1) w)) as [-> ->]. by apply good_settle.
  - destruct (Hm (set_place (sourceId w) (page_typed v) w)) as [-> ->]. by apply good_settle.
  - destruct (existsb _ _); [|done]. intros _. by apply (good_alike w); try apply Hw.
  - destruct (busy w) eqn:Eb; [done|]. intros _. by apply good_detect.
  - destruct (busy w) eqn:Eb; [done|]. intros _. by apply good_whole.
  - destruct (candidates w !! i) as [c|] eqn:Ec; [|done]. intros _. apply good_attach; [done|]. by eapply list_elem_of_lookup_2.
  - destruct (Hm (set_props ss qs w)) as [-> ->]. by apply good_settle.
  - destruct (pending w !! i) as [[no s p|c p j]|] eqn:Ei; [|done|done]. intros _. by apply good_loaded.
  - destruct (pending w !! i) as [[no s p|c p j]|] eqn:Ei; [done| |done]. intros _. by eapply good_detected.
Qed.

(** What is attached is what it says: as long as the source and the page are
    changed only while no figures are looked for, every figure handed over was
    cut out of a page of the source its caption names, or is that page, drawn
    for the number the caption names. *)
Theorem figures_from_their_page ss qs es (Hs : ss <> []) (Hst : steady es (opened ss qs)) :
  Forall true_to_page (handed_over (run es (opened ss qs))).
Proof.
  assert (Ho : Good (opened ss qs)).
  { apply good_load; [|constructor|done|constructor]. destruct ss as [|s ss]; [done|]. unfold source, find_source. cbn. by rewrite seqb_refl. }
  apply g_handed. revert Ho Hst. generalize (opened ss qs). clear. induction es as [|ev es IH]; intros w Hw Hst; [done|].
  destruct Hst as [H1 H2]. apply (IH (step ev w)); [by apply good_step|done].
Qed.

(** What is cut out is at least eight dots wide and high, begins on the page and
    ends at most one dot past the box, or eight past where it began. *)
Theorem crop_on_page w h y1 x1 y2 x2 (Hw : 0 < w) (Hh : 0 < h) (Hx : 0 <= x1 /\ x1 <= x2 <= 1000) (Hy : 0 <= y1 /\ y1 <= y2 <= 1000) :
  let '(x, y, cw, ch) := crop_box w h (y1, x1, y2, x2) in
  0 <= x <= w /\ 0 <= y <= h /\ 8 <= cw /\ 8 <= ch /\ x + cw <= Z.max (w + 1) (x + 8) /\ y + ch <= Z.max (h + 1) (y + 8).
Proof.
  assert (Hs : forall a b n, 0 < n -> 0 <= a /\ a <= b <= 1000 -> 0 <= scaled a n <= n /\ scaled a n + scaled (b - a) n <= n + 1).
  { intros a b n Hn Hab. unfold scaled. split.
    - split; [apply Z.div_pos; nia|]. apply Z.lt_succ_r, Z.div_lt_upper_bound; [done|]. nia.
    - assert (E1 := Z.mul_div_le (2 * a * n + 1000) 2000 ltac:(done)). assert (E2 := Z.mul_div_le (2 * (b - a) * n + 1000) 2000 ltac:(done)). nia. }
  cbn [crop_box]. destruct (Hs x1 x2 w Hw Hx), (Hs y1 y2 h Hh Hy). lia.
Qed.
End picker.

(** A cut-out whose exact image is too long is taken as a photograph of any
    length: only the whole page is refused for its size. *)
Lemma large_crop `{Images} canvas box crop :
  (let '(x, y, w, h) := crop_box (width canvas) (height canvas) box in region x y w h canvas = Some crop) ->
  MAX_DIAGRAM_CHARS < jlen (png_url crop) -> cropFromCanvas canvas box = jpeg_url 85 crop.
Proof.
  unfold cropFromCanvas. destruct (crop_box _ _ box) as [[[x y] w] h]. intros -> Hl. by replace (_ <=? _) with false by lia.
Qed.

(** ** Runs *)

Module PickerRuns.
(** Pages of 600 by 800 dots, told apart by their number. *)
Record Page := mkPage { p_number : Z; p_part : option (Z * Z * Z * Z) }.
Definition part_url (kind : jstr) (i : Page) : jstr :=
  kind ++ js "," ++ show_Z (p_number i) ++ match p_part i with Some (x, y, w, h) => js "+" ++ show_Z x | None => [] end.
#[local] Instance pages : Images := {|
  Image := Page;
  width _ := 600;
  height _ := 800;
  png_url := part_url (js "png");
  jpeg_url _ := part_url (js "jpeg");
  region x y w h i := Some (mkPage (p_number i) (Some (x, y, w, h)))
|}.
Definition paper : FigureSource := mkSource (js "s1") (js "June 2020") 0.
Definition three_pages : outcome (option jstr) Pdf :=
  Ok (mkPdf 3 (fun p => match p with Fin q => Ok (mkPage (QArith_base.Qnum q) None) | _ => Throw None end)).
Definition one_figure : outcome (option jstr) (list PaperFigure) := Ok [mkFigure 1 (100, 100, 500, 500) (js "A circuit") []].
Definition start : list Event := [Loaded 0 three_pages].
Definition go (es : list Event) : Picker := run es (opened [paper] [js "q1"]).
Definition last_handed (w : Picker) : option (jstr * jstr * jsnum) :=
  match last (handed_over w) with Some (_, d, from) => Some (imageDataUrl d, caption d, drawn_page from) | None => None end.

Lemma figures_from_their_page_witness :
  Forall true_to_page (handed_over (go (start ++ [Detect; Detected 0 one_figure; Attach 0]))) /\
  last_handed (go (start ++ [Detect; Detected 0 one_figure; Attach 0])) =
    Some (js "png,1+60", js "A circuit (June 2020, p. 1)", num 1).
Proof.
  split; [|vm_compute; reflexivity].
  apply (figures_from_their_page [paper] [js "q1"] (start ++ [Detect; Detected 0 one_figure; Attach 0])); [discriminate|].
  vm_compute. repeat split; discriminate.
Defined.
Lemma crop_on_page_witness : crop_box 600 800 (100, 100, 500, 500) = (60, 80, 240, 320) /\ 60 + 240 <= Z.max 601 68.
Proof.
  split; [reflexivity|]. assert (H1 : 0 < 600) by lia. assert (H2 : 0 < 800) by lia. assert (H3 : 0 <= 100 /\ 100 <= 500 <= 1000) by lia.
  destruct (crop_on_page 600 800 100 100 500 500 H1 H2 H3 H3) as (_ & _ & _ & _ & H4 & _). exact H4.
Defined.

(** Figures that are found after the page was turned are attached under the
    number of the next page. *)
Example figure_of_earlier_page :
  last_handed (go (start ++ [Detect; TypePage (js "2"); Detected 0 one_figure; Attach 0])) =
  Some (js "png,1+60", js "A circuit (June 2020, p. 2)", num 1).
Proof. vm_compute. done. Qed.

(** So is the whole page, once the answer has freed the buttons. *)
Example whole_page_of_earlier :
  last_handed (go (start ++ [Detect; TypePage (js "2"); Detected 0 (Throw None); WholePage; Attach 0])) =
  Some (js "jpeg,1", js "June 2020, page 2 (June 2020, p. 2)", num 1).
Proof. vm_compute. done. Qed.

(** A number past the last page shows the last page under that number. *)
Example page_past_the_end :
  last_handed (go (start ++ [TypePage (js "9"); Loaded 0 three_pages; WholePage; Attach 0])) =
  Some (js "jpeg,3", js "June 2020, page 9 (June 2020, p. 9)", num 3).
Proof. vm_compute. done. Qed.

(** When the source goes away while its page is drawn, the picker stays busy. *)
Example busy_for_good :
  let w := go [Props [mkSource (js "s2") (js "May 2019") 1] [js "q1"]; Loaded 0 three_pages] in
  busy w = true /\ pending w = [].
Proof. vm_compute. done. Qed.

(** A figure for a question that is gone is said to be attached. *)
Example attached_to_no_question :
  let w := go (start ++ [Detect; Detected 0 one_figure; Props [paper] [js "q2"]; Attach 0]) in
  status w = msg_attached /\ existsb (seqb (questionId w)) (questions w) = false.
Proof. vm_compute. done. Qed.
End PickerRuns.
