(* ===== verification/GradebookSheet.v ===== *)
(** * The Gradebook sheet ([apps/teacher/src/UniverGradebook.tsx],
    [GradebookView.tsx])

    [Workbook] is the workbook the sheet opens with, [Csv] the export, [Sync]
    how edits of grade cells become saved grades.  The spreadsheet itself is a
    third-party component: of it only the cells that hold grades are kept. *)

From stdpp Require Import gmap.
From S2P Require Import Prelude JsString JsNumber JsValue Locale Types GradebookIntent.
Import Headers.
Local Open Scope Z_scope.

Definition grade_key (student assignment : jstr) : jstr := student ++ js ":" ++ assignment.
Definition grade_text (points : option jsnum) : jstr := match points with Some n => show_num n | None => [] end.

(** ** The workbook of a classroom *)

Module Workbook.

(** A cell: its value, its formula, and whatever else was stored with it. *)
Record Cell := mkCell { cell_v : option WorkbookCellValue; cell_f : option jstr; cell_more : jsval }.
Abbreviation Matrix := (gmap nat (gmap nat Cell)).
Definition at_ (m : Matrix) (r c : nat) : option Cell := m !! r ≫= (fun row => row !! c).
Definition put (r c : nat) (x : Cell) (m : Matrix) : Matrix := <[r := <[c := x]> (default ∅ (m !! r))]> m.

Record SavedSheet := mkSavedSheet {
  sheet_id : jstr; sheet_title : jstr;
  sheet_rowCount : option Z; sheet_columnCount : option Z; sheet_cellData : option Matrix
}.
Record Book := mkBook {
  book_id : option jstr; book_name : jstr;
  book_sheetOrder : option (list jstr); book_sheets : option (list (jstr * SavedSheet))
}.
Definition storageKey (classroomId : jstr) : jstr := js "cinder.teacher.workbook." ++ classroomId.
Definition sheetId : jstr := js "cinder-gradebook".

Definition heading_style : jsval :=
  VObj [(js "s", VObj [(js "bg", VObj [(js "rgb", VStr (js "#f0e7de"))]); (js "bl", VNum (num 1))])].
Definition heading (text : jstr) : Cell := mkCell (Some (CellStr text)) None heading_style.
Definition plain_cell (v : option WorkbookCellValue) : Cell := mkCell v None (VObj []).

Section workbook.
Context `{Locale} (roster : list User) (assignments : list Assignment).
Context (scores : jstr -> option jstr) (submitted : jstr -> jstr -> bool).

Definition populated (cell : Cell) : bool :=
  truthy (trim (cell_text (cell_v cell))) || truthy (default [] (cell_f cell)).
Definition populatedColumns (previous : Matrix) : gset nat :=
  list_to_set (flat_map (fun row => filter_map (fun e : nat * Cell =>
    if (2 <=? fst e)%nat && populated (snd e) then Some (fst e) else None) (map_to_list (snd row))) (map_to_list previous)).
(** A column whose heading is text of the teacher's own. *)
Definition custom_heading (previous : Matrix) (column : nat) : bool :=
  let v := at_ previous 0 column ≫= cell_v in
  (2 <=? column)%nat && truthy (trim (cell_text v)) &&
  match assignmentForHeader v assignments with Some _ => false | None => true end.
Definition customColumns (previous : Matrix) : list nat :=
  sort_js (fun a b => Z.of_nat a - Z.of_nat b) (List.filter (custom_heading previous) (elements (populatedColumns previous))).

Definition copy_column (previous : Matrix) (target source : nat) (next : Matrix) : Matrix :=
  fold_left (fun next row => match snd row !! source with Some cell => put (fst row) target cell next | None => next end)
    (map_to_list previous) next.
Definition nextCellData (previous : Matrix) : Matrix :=
  fold_left (fun next e => copy_column previous (length assignments + 2 + fst e) (snd e) next)
    (imap pair (customColumns previous)) ∅.

Definition score_cell (student : User) (assignment : Assignment) : Cell :=
  let value := if submitted (user_id student) (assignment_id assignment)
               then scores (grade_key (user_id student) (assignment_id assignment)) else Some (js "—") in
  plain_cell match value with
             | None => None
             | Some [] => Some CellNull
             | Some v => Some (if is_finite (number_of_string v) then CellNum (number_of_string v) else CellStr v)
             end.
(** The cells written over it, in the order of the code. *)
Definition writes : list ((nat * nat) * Cell) :=
  [((0, 0)%nat, heading (js "Student")); ((0, 1)%nat, heading (js "Username"))] ++
  imap (fun column a => ((0, column + 2)%nat, heading (formatAssignmentHeader a))) assignments ++
  concat (imap (fun row student =>
    [((S row, 0)%nat, plain_cell (Some (CellStr (display_name student))));
     ((S row, 1)%nat, plain_cell (Some (CellStr (username student))))] ++
    imap (fun column a => ((S row, column + 2)%nat, score_cell student a)) assignments) roster).
Definition write_all (ws : list ((nat * nat) * Cell)) (m : Matrix) : Matrix :=
  fold_left (fun m w => put (fst (fst w)) (snd (fst w)) (snd w) m) ws m.
Definition cellData (previous : Matrix) : Matrix := write_all writes (nextCellData previous).
Definition grade_sheet (saved : option SavedSheet) : SavedSheet :=
  let sheet := default (mkSavedSheet sheetId (js "Gradebook") None None None) saved in
  mkSavedSheet sheetId (js "Gradebook")
    (Some (Z.max (Z.max (default 0 (sheet_rowCount sheet)) (Z.of_nat (length roster) + 40)) 120))
    (Some (Z.max (Z.max (default 0 (sheet_columnCount sheet)) (Z.of_nat (length assignments) + 12)) 30))
    (Some (cellData (default ∅ (sheet_cellData sheet)))).
(** [saved] is what was stored for the classroom: none when there is nothing
    or when it cannot be read. *)
Definition workbookData (classroomId classroomName : jstr) (saved : option Book) : Book :=
  let data := default (mkBook None [] (Some [sheetId]) (Some [])) saved in
  let sheets := default [] (book_sheets data) in
  mkBook (Some (default (js "cinder-gradebook-" ++ classroomId) (book_id data)))
    (classroomName ++ js " gradebook")
    (Some (let order := default [] (book_sheetOrder data) in
           if existsb (seqb sheetId) order then order else sheetId :: order))
    (Some (set_prop sheetId (grade_sheet (assoc sheetId sheets)) sheets)).

(** What belongs in a cell. *)
Definition sheet_cell (r c : nat) : option Cell :=
  match r, c with
  | O, O => Some (heading (js "Student"))
  | O, S O => Some (heading (js "Username"))
  | O, S (S j) => (fun a => heading (formatAssignmentHeader a)) <$> assignments !! j
  | S i, O => (fun s => plain_cell (Some (CellStr (display_name s)))) <$> roster !! i
  | S i, S O => (fun s => plain_cell (Some (CellStr (username s)))) <$> roster !! i
  | S i, S (S j) => s ← roster !! i; a ← assignments !! j; Some (score_cell s a)
  end.
End workbook.

Lemma at_put m r c x r' c' :
  at_ (put r c x m) r' c' = if decide (r = r' /\ c = c') then Some x else at_ m r' c'.
Proof.
  unfold at_, put. destruct (decide (r = r')) as [<-|Hr].
  - rewrite lookup_insert_eq. cbn. destruct (decide (c = c')) as [<-|Hc].
    + by rewrite lookup_insert_eq, decide_True.
    + rewrite lookup_insert_ne, decide_False by tauto. by destruct (m !! r).
  - by rewrite lookup_insert_ne, decide_False by tauto.
Qed.


Lemma at_copy_list l m target source r c : NoDup l.*1 ->
  at_ (fold_left (fun next (row : nat * gmap nat Cell) =>
         match snd row !! source with Some cell => put (fst row) target cell next | None => next end) l m) r c =
  match (if decide (c = target) then
           (list_to_map l : Matrix) !! r ≫= (fun row => row !! source) else None) with
  | Some x => Some x
  | None => at_ m r c
  end.
Proof.
  revert m. induction l as [|[i row] l IH]; intros m; cbn [fold_left fst snd fmap list_fmap list_to_map].
  { by destruct (decide (c = target)). }
  intros Hd. apply NoDup_cons in Hd as [Hi Hd]. rewrite IH by done. clear IH.
  destruct (decide (c = target)) as [->|Hc].
  - destruct (decide (r = i)) as [->|Hr].
    + rewrite list_to_map_cons, lookup_insert_eq, not_elem_of_list_to_map_1 by done. cbn.
      destruct (row !! source); [rewrite at_put, decide_True by done|]; done.
    + rewrite list_to_map_cons, lookup_insert_ne by done. destruct (_ ≫= _); [done|].
      destruct (row !! source); [rewrite at_put, decide_False by (intros [? ?]; congruence)|]; done.
  - destruct (row !! source); [rewrite at_put, decide_False by (intros [? ?]; congruence)|]; done.
Qed.
Lemma at_copy_column m target source next r c :
  at_ (copy_column m target source next) r c =
  match (if decide (c = target) then at_ m r source else None) with Some x => Some x | None => at_ next r c end.
Proof.
  unfold copy_column. rewrite at_copy_list by apply NoDup_fst_map_to_list.
  by rewrite list_to_map_to_list.
Qed.

Section rebuilt.
Context `{Locale} (roster : list User) (assignments : list Assignment).
Context (scores : jstr -> option jstr) (submitted : jstr -> jstr -> bool).
Abbreviation n := (length assignments).

Lemma imap_pair_snoc {A} (l : list A) x : imap pair (l ++ [x]) = imap pair l ++ [(length l, x)].
Proof. rewrite imap_app. cbn. by rewrite Nat.add_0_r. Qed.
Lemma imap_snoc {A B} (f : nat -> A -> B) l x : imap f (l ++ [x]) = imap f l ++ [f (length l) x].
Proof. rewrite imap_app. cbn. by rewrite Nat.add_0_r. Qed.
Lemma lookup_snoc_case {A} (l : list A) x i :
  (l ++ [x]) !! i = if decide (i = length l) then Some x else l !! i.
Proof.
  destruct (decide (i = length l)) as [->|Hi]; [by rewrite lookup_app_r, Nat.sub_diag by lia|].
  destruct (decide (i < length l)%nat); [by rewrite lookup_app_l by done|].
  rewrite !(lookup_ge_None_2 _ _); [done|lia|rewrite length_app; cbn; lia].
Qed.

Lemma at_copied m (cols : list nat) r c :
  at_ (fold_left (fun next (e : nat * nat) => copy_column m (n + 2 + fst e) (snd e) next) (imap pair cols) ∅) r c =
  if (c <? n + 2)%nat then None else cols !! (c - (n + 2))%nat ≫= at_ m r.
Proof.
  induction cols as [|x cols IH] using rev_ind.
  { unfold at_. cbn [imap fold_left]. rewrite lookup_nil, lookup_empty. by destruct (c <? n + 2)%nat. }
  rewrite imap_pair_snoc, fold_left_app. cbn [fold_left fst snd]. rewrite at_copy_column, IH, lookup_snoc_case.
  destruct (decide (c = n + 2 + length cols)%nat) as [->|Hc].
  - rewrite (proj2 (Nat.ltb_ge _ _)) by lia. rewrite decide_True by lia. cbn.
    destruct (at_ m r x); [done|]. rewrite (lookup_ge_None_2 _ _) by lia. done.
  - destruct (Nat.ltb_spec c (n + 2)%nat); [done|]. by rewrite decide_False by lia.
Qed.

Lemma write_all_app a b m : write_all (a ++ b) m = write_all b (write_all a m).
Proof. apply fold_left_app. Qed.
(** One row of cells from column 2 on. *)
Lemma at_write_row {A} (f : A -> Cell) xs row m r c :
  at_ (write_all (imap (fun j a => ((row, j + 2)%nat, f a)) xs) m) r c =
  match (if decide (r = row /\ 2 <= c)%nat then f <$> xs !! (c - 2)%nat else None) with
  | Some x => Some x
  | None => at_ m r c
  end.
Proof.
  induction xs as [|x xs IH] using rev_ind; [by destruct (decide _)|].
  rewrite imap_snoc, write_all_app. cbn [write_all fold_left fst snd]. rewrite at_put, IH, lookup_snoc_case.
  destruct (decide (row = r /\ length xs + 2 = c)%nat) as [[-> <-]|Hn].
  - rewrite decide_True by lia. by rewrite decide_True by lia.
  - destruct (decide (r = row /\ 2 <= c)%nat); [|done]. by rewrite decide_False by lia.
Qed.
Definition student_row (row : nat) (s : User) : list ((nat * nat) * Cell) :=
  [((S row, 0)%nat, plain_cell (Some (CellStr (display_name s))));
   ((S row, 1)%nat, plain_cell (Some (CellStr (username s))))] ++
  imap (fun column a => ((S row, column + 2)%nat, score_cell scores submitted s a)) assignments.
Definition student_cell (s : User) (c : nat) : option Cell :=
  match c with
  | O => Some (plain_cell (Some (CellStr (display_name s))))
  | S O => Some (plain_cell (Some (CellStr (username s))))
  | S (S j) => score_cell scores submitted s <$> assignments !! j
  end.
Lemma at_student_row row s m r c :
  at_ (write_all (student_row row s) m) r c =
  match (if decide (r = S row) then student_cell s c else None) with Some x => Some x | None => at_ m r c end.
Proof.
  unfold student_row. rewrite write_all_app, at_write_row. cbn [write_all fold_left fst snd]. rewrite !at_put.
  destruct (decide (r = S row)) as [->|Hr].
  - destruct c as [|[|j]]; cbn [student_cell].
    + rewrite decide_False by lia. rewrite decide_False by lia. by rewrite decide_True by done.
    + rewrite decide_False by lia. by rewrite decide_True by done.
    + rewrite decide_True by lia. replace (S (S j) - 2)%nat with j by lia.
      destruct (assignments !! j); [done|]. cbn. by rewrite !decide_False by lia.
  - rewrite decide_False by lia. by rewrite !decide_False by lia.
Qed.
Lemma at_rows m r c :
  at_ (write_all (concat (imap student_row roster)) m) r c =
  match (match r with O => None | S i => roster !! i ≫= fun s => student_cell s c end) with
  | Some x => Some x
  | None => at_ m r c
  end.
Proof.
  induction roster as [|s l IH] using rev_ind; [by destruct r|].
  rewrite imap_snoc, concat_app, write_all_app. cbn [concat]. rewrite app_nil_r, at_student_row, IH.
  destruct r as [|i]; [by rewrite decide_False by done|]. rewrite lookup_snoc_case.
  destruct (decide (i = length l)) as [->|Hi].
  - rewrite decide_True by done. cbn. destruct (student_cell s c); [done|].
    by rewrite (lookup_ge_None_2 _ _) by lia.
  - by rewrite decide_False by lia.
Qed.
Lemma at_written m r c :
  at_ (write_all (writes roster assignments scores submitted) m) r c =
  match sheet_cell roster assignments scores submitted r c with Some x => Some x | None => at_ m r c end.
Proof.
  unfold writes. rewrite !write_all_app.
  change (imap _ roster) with (imap student_row roster). rewrite at_rows, at_write_row.
  cbn [write_all fold_left fst snd]. rewrite !at_put.
  destruct r as [|i]; cbn [sheet_cell].
  - destruct c as [|[|j]].
    + rewrite decide_False by lia. rewrite decide_False by lia. by rewrite decide_True by done.
    + rewrite decide_False by lia. by rewrite decide_True by done.
    + rewrite decide_True by lia. replace (S (S j) - 2)%nat with j by lia.
      destruct (assignments !! j); [done|]. cbn. by rewrite !decide_False by lia.
  - rewrite decide_False by lia. rewrite !decide_False by lia.
    destruct (roster !! i) as [s|]; cbn; [|by destruct c as [|[|]]].
    destruct c as [|[|j]]; cbn; [done..|]. by destruct (assignments !! j).
Qed.
Lemma at_cellData previous r c :
  at_ (cellData roster assignments scores submitted previous) r c =
  match sheet_cell roster assignments scores submitted r c with
  | Some cell => Some cell
  | None => if (c <? n + 2)%nat then None
            else customColumns assignments previous !! (c - (n + 2))%nat ≫= at_ previous r
  end.
Proof. unfold cellData, nextCellData. by rewrite at_written, at_copied. Qed.
End rebuilt.
End Workbook.

(** The cells of the sheet in a workbook. *)
Definition grade_cells (b : Workbook.Book) (r c : nat) : option Workbook.Cell :=
  sheet ← assoc Workbook.sheetId (default [] (Workbook.book_sheets b));
  cells ← Workbook.sheet_cellData sheet; Workbook.at_ cells r c.

Definition old_book (saved : option Workbook.Book) : Workbook.Book := default (Workbook.mkBook None [] None None) saved.
Definition own `{Locale} (assignments : list Assignment) (saved : option Workbook.Book) : list nat :=
  Workbook.customColumns assignments
    (default ∅ (assoc Workbook.sheetId (default [] (Workbook.book_sheets (old_book saved))) ≫= Workbook.sheet_cellData)).
Lemma rebuilt_sheets `{Locale} roster assignments scores submitted classroomId classroomName saved :
  Workbook.book_sheets (Workbook.workbookData roster assignments scores submitted classroomId classroomName saved) =
  Some (set_prop Workbook.sheetId
    (Workbook.grade_sheet roster assignments scores submitted
      (assoc Workbook.sheetId (default [] (Workbook.book_sheets (old_book saved)))))
    (default [] (Workbook.book_sheets (old_book saved)))).
Proof. by destruct saved. Qed.
Lemma rebuilt_cells `{Locale} roster assignments scores submitted classroomId classroomName saved r c :
  grade_cells (Workbook.workbookData roster assignments scores submitted classroomId classroomName saved) r c =
  match Workbook.sheet_cell roster assignments scores submitted r c with
  | Some cell => Some cell
  | None => if (c <? length assignments + 2)%nat then None
            else own assignments saved !! (c - (length assignments + 2))%nat ≫= grade_cells (old_book saved) r
  end.
Proof.
  unfold grade_cells at 1. rewrite rebuilt_sheets. cbn [default from_option id].
  rewrite assoc_set_prop, decide_True by done. cbn [mbind option_bind Workbook.grade_sheet Workbook.sheet_cellData].
  rewrite Workbook.at_cellData. unfold own, grade_cells.
  destruct (assoc Workbook.sheetId _) as [[? ? ? ? [cells|]]|]; done.
Qed.

(** ** What the sheet is to show, said without the code *)

(** What a grade cell shows: a dash for work not handed in, and for work handed
    in the grade as it was typed: nothing, a number, or text. *)
Inductive grade_shown (scores : jstr -> option jstr) (submitted : jstr -> jstr -> bool) (student assignment : jstr) :
    option WorkbookCellValue -> Prop :=
  | not_handed_in : submitted student assignment = false ->
      grade_shown scores submitted student assignment (Some (CellStr (js "—")))
  | no_grade : submitted student assignment = true -> scores (student ++ js ":" ++ assignment) = None ->
      grade_shown scores submitted student assignment None
  | grade_emptied : submitted student assignment = true -> scores (student ++ js ":" ++ assignment) = Some [] ->
      grade_shown scores submitted student assignment (Some CellNull)
  | grade_number t : submitted student assignment = true -> scores (student ++ js ":" ++ assignment) = Some t ->
      t <> [] -> is_finite (number_of_string t) = true ->
      grade_shown scores submitted student assignment (Some (CellNum (number_of_string t)))
  | grade_word t : submitted student assignment = true -> scores (student ++ js ":" ++ assignment) = Some t ->
      is_finite (number_of_string t) = false ->
      grade_shown scores submitted student assignment (Some (CellStr t)).

(** The columns of the teacher's own in a workbook: to the right of the names,
    under a heading that is not blank and names no assignment. *)
Definition own_heading `{Locale} (assignments : list Assignment) (b : Workbook.Book) (c : nat) : Prop :=
  (2 <= c)%nat /\ exists cell, grade_cells b 0 c = Some cell /\ trim (cell_text (Workbook.cell_v cell)) <> [] /\
    assignmentForHeader (Workbook.cell_v cell) assignments = None.

Lemma score_cell_shown scores submitted s a :
  exists v, Workbook.score_cell scores submitted s a = Workbook.plain_cell v /\
    grade_shown scores submitted (user_id s) (assignment_id a) v.
Proof.
  unfold Workbook.score_cell, grade_key. eexists. split; [reflexivity|]. cbv zeta.
  destruct (submitted _ _) eqn:Es; [|by constructor].
  destruct (scores _) as [[|x t]|] eqn:Ec; [by constructor| |by constructor].
  destruct (is_finite _) eqn:Ef; by econstructor.
Qed.
Lemma elem_populatedColumns m r c x :
  Workbook.at_ m r c = Some x -> (2 <= c)%nat -> Workbook.populated x = true -> c ∈ Workbook.populatedColumns m.
Proof.
  unfold Workbook.at_. intros (row & Hr & Hc)%bind_Some H2 Hp. unfold Workbook.populatedColumns.
  apply elem_of_list_to_set, list_elem_of_In, in_flat_map. exists (r, row). split.
  - by apply list_elem_of_In, elem_of_map_to_list.
  - apply list_elem_of_In, elem_of_filter_map. exists (c, x). split; [by apply elem_of_map_to_list|].
    cbn [fst snd]. by rewrite (proj2 (Nat.leb_le 2 c) H2), Hp.
Qed.
Lemma elem_customColumns `{Locale} assignments m c :
  c ∈ Workbook.customColumns assignments m <->
  (2 <= c)%nat /\ exists x, Workbook.at_ m 0 c = Some x /\ trim (cell_text (Workbook.cell_v x)) <> [] /\
    assignmentForHeader (Workbook.cell_v x) assignments = None.
Proof.
  unfold Workbook.customColumns. rewrite sort_js_perm, list_elem_of_In, filter_In, <- list_elem_of_In, elem_of_elements.
  unfold Workbook.custom_heading. rewrite !andb_true_iff, Nat.leb_le.
  split.
  - intros (_ & (H2 & Ht) & Ha). split; [done|]. destruct (Workbook.at_ m 0 c) as [x|]; [|done]. exists x.
    cbn in *. split_and!; [done|by destruct (trim _)|by destruct (assignmentForHeader _ _)].
  - intros (H2 & x & Hx & Ht & Ha). rewrite Hx. cbn. rewrite Ha.
    assert (truthy (trim (cell_text (Workbook.cell_v x))) = true) as Et by by destruct (trim _).
    split_and!; [|done..]. eapply elem_populatedColumns; [done..|]. unfold Workbook.populated. by rewrite Et.
Qed.
Lemma sorted_lt (l : list nat) :
  NoDup l -> StronglySorted (ordered (fun a b => Z.of_nat a - Z.of_nat b)) l -> StronglySorted lt l.
Proof.
  intros Hn. induction 1 as [|x l Hl IH Hx]; [constructor|]. apply NoDup_cons in Hn as [Hx' Hn].
  constructor; [by apply IH|]. rewrite Forall_forall in Hx |- *. intros y Hy. specialize (Hx y Hy). unfold ordered in Hx.
  destruct (decide (x = y)) as [->|]; [done|]. lia.
Qed.
Lemma customColumns_sorted `{Locale} assignments m : StronglySorted lt (Workbook.customColumns assignments m).
Proof.
  unfold Workbook.customColumns. apply sorted_lt; [|apply sort_js_sorted; intros; lia].
  rewrite sort_js_perm. apply base.NoDup_ListNoDup, List.NoDup_filter, base.NoDup_ListNoDup, NoDup_elements.
Qed.
Lemma elem_own `{Locale} assignments saved c : c ∈ own assignments saved <-> own_heading assignments (old_book saved) c.
Proof.
  unfold own. rewrite elem_customColumns. unfold own_heading, grade_cells.
  destruct (assoc Workbook.sheetId _) as [[? ? ? ? [cells|]]|]; cbn; [done| |].
  all: split; intros (? & x & Hx & _); discriminate Hx.
Qed.

Lemma outside_rows `{Locale} roster assignments scores submitted r c : (length roster < r)%nat ->
  Workbook.sheet_cell roster assignments scores submitted r c = None.
Proof.
  intros Hr. destruct r as [|i]; [lia|]. assert (roster !! i = None) as Hi by (apply lookup_ge_None_2; lia).
  destruct c as [|[|j]]; cbn; by rewrite Hi.
Qed.
Lemma right_cells {A} `{Locale} roster assignments scores submitted r k (l : list A) (f : A -> option Workbook.Cell) :
  match Workbook.sheet_cell roster assignments scores submitted r (length assignments + 2 + k) with
  | Some cell => Some cell
  | None => if (length assignments + 2 + k <? length assignments + 2)%nat then None
            else l !! (length assignments + 2 + k - (length assignments + 2))%nat ≫= f
  end = l !! k ≫= f.
Proof.
  replace (length assignments + 2 + k)%nat with (S (S (length assignments + k))) by lia.
  assert (assignments !! (length assignments + k)%nat = None) as Ha by (apply lookup_ge_None_2; lia).
  replace (Workbook.sheet_cell _ _ _ _ r _) with (@None Workbook.Cell).
  - replace (_ <? _)%nat with false by (symmetry; apply Nat.ltb_ge; lia).
    by replace (S (S (length assignments + k)) - (length assignments + 2))%nat with k by lia.
  - destruct r as [|i]; cbn; rewrite Ha; [done|]. by destruct (roster !! i).
Qed.

(** C38. The workbook opens with every name, heading and grade in its place,
    whatever was stored: a dash for work not handed in, nothing for an emptied
    grade, a number where the grade is one, and else its text.  To the right of
    the assignments follow, from left to right, exactly the stored columns
    whose heading is not blank and names no assignment, every cell as it was
    (a column under the heading of an assignment of the classroom, of whole
    points and with a title of one line apart from the others', is not among
    them).  Nothing else is shown,
    and the other sheets are left as they were. *)
Theorem workbook_rebuilt `{Locale} roster assignments scores submitted classroomId classroomName saved :
  let b := Workbook.workbookData roster assignments scores submitted classroomId classroomName saved in
  let right_of_assignments := (length assignments + 2)%nat in
  (grade_cells b 0 0 = Some (Workbook.heading (js "Student")) /\
   grade_cells b 0 1 = Some (Workbook.heading (js "Username")) /\
   (forall j a, assignments !! j = Some a ->
     grade_cells b 0 (j + 2) = Some (Workbook.heading (formatAssignmentHeader a))) /\
   (forall i s, roster !! i = Some s ->
     grade_cells b (i + 1) 0 = Some (Workbook.plain_cell (Some (CellStr (display_name s)))) /\
     grade_cells b (i + 1) 1 = Some (Workbook.plain_cell (Some (CellStr (username s)))) /\
     forall j a, assignments !! j = Some a ->
       exists v, grade_cells b (i + 1) (j + 2) = Some (Workbook.plain_cell v) /\
         grade_shown scores submitted (user_id s) (assignment_id a) v) /\
   (forall r c, (length roster < r)%nat -> (c < right_of_assignments)%nat -> grade_cells b r c = None)) /\
  (exists columns, StronglySorted lt columns /\
   (forall c, c ∈ columns <-> own_heading assignments (old_book saved) c) /\
   (forall a c cell, a ∈ assignments -> Properties.known_by_heading assignments a ->
     grade_cells (old_book saved) 0 c = Some cell ->
     cell_text (Workbook.cell_v cell) = formatAssignmentHeader a -> c ∉ columns) /\
   (forall k c r, columns !! k = Some c ->
     grade_cells b r (right_of_assignments + k) = grade_cells (old_book saved) r c) /\
   (forall k r, (length columns <= k)%nat -> grade_cells b r (right_of_assignments + k) = None)) /\
  (forall k, k <> Workbook.sheetId ->
    assoc k (default [] (Workbook.book_sheets b)) = assoc k (default [] (Workbook.book_sheets (old_book saved)))) /\
  exists order, Workbook.book_sheetOrder b = Some order /\ Workbook.sheetId ∈ order /\
    default [] (Workbook.book_sheetOrder (old_book saved)) `suffix_of` order.
Proof.
  intros b n. split_and!.
  - unfold b. by rewrite rebuilt_cells.
  - unfold b. by rewrite rebuilt_cells.
  - intros j a Hj. unfold b. rewrite rebuilt_cells, Nat.add_comm. cbn. by rewrite Hj.
  - intros i s Hi. rewrite (Nat.add_comm i). unfold b. split_and!; [rewrite rebuilt_cells; cbn; by rewrite Hi..|].
    intros j a Hj. rewrite rebuilt_cells, (Nat.add_comm j). cbn. rewrite Hi, Hj. cbn.
    destruct (score_cell_shown scores submitted s a) as (v & -> & Hv). by exists v.
  - intros r c Hr Hc. unfold b. rewrite rebuilt_cells, outside_rows by done.
    by replace (c <? _)%nat with true by (symmetry; apply Nat.ltb_lt; lia).
  - exists (own assignments saved). split_and!.
    + apply customColumns_sorted.
    + apply elem_own.
    + intros a c cell Ha Hk Hc Ht. rewrite elem_own. intros (_ & cell' & Hc' & _ & Hno). simplify_eq.
      by rewrite (Properties.heading_found _ a) in Hno.
    + intros k c r Hk. unfold b. rewrite rebuilt_cells. by rewrite right_cells, Hk.
    + intros k r Hk. unfold b. rewrite rebuilt_cells. by rewrite right_cells, lookup_ge_None_2.
  - intros k Hk. unfold b. rewrite rebuilt_sheets. cbn [default from_option id].
    rewrite assoc_set_prop, decide_False by done. done.
  - eexists. split; [reflexivity|].
    assert (Ho : default [] (Workbook.book_sheetOrder (old_book saved)) `suffix_of`
      default [] (Workbook.book_sheetOrder (default (Workbook.mkBook None [] (Some [Workbook.sheetId]) (Some [])) saved))).
    { destruct saved as [d|]; [done|]. cbn. apply suffix_nil. }
    set (order := default [] (Workbook.book_sheetOrder (default _ saved))) in *.
    cbv zeta. destruct (existsb (seqb Workbook.sheetId) order) eqn:Ex.
    + split; [|exact Ho]. apply existsb_exists in Ex as (x & Hx & Hq). apply seqb_eq in Hq as <-. by apply list_elem_of_In.
    + split; [by left|]. by apply suffix_cons_r.
Qed.

(** ** The export ([exportCsv]) and its file name ([teacherFiles.ts]) *)

Module Csv.
Section export.
Context (roster : list User) (roomAssignments : list Assignment) (scores : jstr -> option jstr).

(** [quote]: every quotation mark of the value is doubled. *)
Definition quote (value : jstr) : jstr :=
  c_quote :: replace_chars (N.eqb c_quote) (fun c => [c; c]) value ++ [c_quote].
Definition rows : list (list jstr) :=
  (js "Student" :: js "Username" :: (formatAssignmentHeader <$> roomAssignments)) ::
  ((fun student => display_name student :: username student ::
     ((fun a => default [] (scores (grade_key (user_id student) (assignment_id a)))) <$> roomAssignments)) <$> roster).
Definition bom : N := 0xfeff%N.
Definition text_of (rs : list (list jstr)) : jstr :=
  bom :: join [c_cr; c_nl] ((fun row => join (js ",") (quote <$> row)) <$> rs).
Definition csv_text : jstr := text_of rows.
End export.

Definition forbidden (c : N) : bool := one_of (js "<>:/\|?*") c || (c =? c_quote)%N || (c <=? 0x1f)%N.
Definition safeFilename (value : jstr) : jstr :=
  or_str (slice_to 100 (replace_runs is_space (js " ") (replace_chars forbidden (fun _ => js "-") (trim value))))
    (js "Cinder export").
Inductive Extension := ECsv | EHtml | EDoc | ETxt.
Definition extension_text (e : Extension) : jstr :=
  match e with ECsv => js "csv" | EHtml => js "html" | EDoc => js "doc" | ETxt => js "txt" end.
Definition mime (e : Extension) : jstr :=
  match e with
  | ECsv => js "text/csv;charset=utf-8"
  | EHtml | EDoc => js "text/html;charset=utf-8"
  | ETxt => js "text/plain;charset=utf-8"
  end.
(** What a save comes to: a file written by the native side at the path the
    dialog answered, nothing when it was closed, a download in a browser. *)
Inductive Saved := Written (path contents : jstr) | Cancelled | Download (name type contents : jstr).
Definition saveTextExport (isTauri : bool) (dialog : jstr -> option jstr) (defaultName contents : jstr) (extension : Extension) : Saved :=
  let filename := safeFilename defaultName ++ js "." ++ extension_text extension in
  if isTauri
  then match dialog filename with Some path => if truthy path then Written path contents else Cancelled | None => Cancelled end
  else Download filename (mime extension) contents.
Definition exportCsv (roster : list User) (roomAssignments : list Assignment) (scores : jstr -> option jstr)
    (isTauri : bool) (dialog : jstr -> option jstr) (classroom : option Classroom) : Saved :=
  saveTextExport isTauri dialog (match classroom with Some c => classroom_name c | None => js "Cinder" end ++ js " gradebook")
    (csv_text roster roomAssignments scores) ECsv.

(** The status line after an export: nothing is said when the dialog was
    closed, and a failure to write is told. *)
Definition export_status (result : outcome jstr Saved) : option jstr :=
  match result with
  | Ok Cancelled => None
  | Ok _ => Some (js "Gradebook exported.")
  | Throw m => Some m
  end.

(** A reader of comma-separated values (RFC 4180) whose fields are quoted. *)
Fixpoint read_field (s : jstr) : option (jstr * jstr) :=
  match s with
  | [] => None
  | c :: r =>
    if (c =? c_quote)%N
    then match r with
         | d :: r' => if (d =? c_quote)%N then '(f, t) ← read_field r'; Some (c_quote :: f, t) else Some ([], r)
         | [] => Some ([], [])
         end
    else '(f, t) ← read_field r; Some (c :: f, t)
  end.
Definition after_field (rest : jstr -> option (list (list jstr))) (f r : jstr) : option (list (list jstr)) :=
  match r with
  | [] => Some [[f]]
  | c :: r =>
    if (c =? 44)%N
    then rows ← rest r;
         match rows with row :: rows => Some ((f :: row) :: rows) | [] => None end
    else match r with
         | d :: r => if (c =? c_cr)%N && (d =? c_nl)%N then rows ← rest r; Some ([f] :: rows) else None
         | [] => None
         end
  end.
Fixpoint read_rows (fuel : nat) (s : jstr) : option (list (list jstr)) :=
  match fuel, s with
  | S fuel, q :: s =>
    if negb (q =? c_quote)%N then None else
    '(f, r) ← read_field s; after_field (read_rows fuel) f r
  | _, _ => None
  end.
Definition read_csv (s : jstr) : option (list (list jstr)) :=
  match s with c :: s => if (c =? bom)%N then read_rows (length s) s else None | [] => None end.

(** What may follow a field. *)
Definition field_end (r : jstr) : Prop := match r with c :: _ => c <> c_quote | [] => True end.
Lemma read_quoted value r : field_end r ->
  read_field (replace_chars (N.eqb c_quote) (fun c => [c; c]) value ++ c_quote :: r) = Some (value, r).
Proof.
  intros Hr. induction value as [|c value IH].
  - cbn. destruct r as [|d r]; [done|]. cbn in Hr. by apply N.eqb_neq in Hr as ->.
  - unfold replace_chars in *. cbn [flat_map]. destruct (N.eqb_spec c_quote c) as [<-|Hc].
    + rewrite <- app_assoc. cbn [app read_field]. rewrite N.eqb_refl. by rewrite IH.
    + rewrite <- app_assoc. cbn [app read_field]. rewrite (proj2 (N.eqb_neq _ _)) by congruence. by rewrite IH.
Qed.

Lemma read_rows_field fuel value r : field_end r ->
  read_rows (S fuel) (quote value ++ r) = after_field (read_rows fuel) value r.
Proof.
  intros Hr. unfold quote. cbn [app read_rows]. rewrite N.eqb_refl. cbn [negb].
  rewrite <- app_assoc. cbn [app]. by rewrite read_quoted.
Qed.
Lemma read_rows_more fuel fuel' s rs : (fuel <= fuel')%nat -> read_rows fuel s = Some rs -> read_rows fuel' s = Some rs.
Proof.
  revert fuel' s rs. induction fuel as [|fuel IH]; intros [|fuel'] s rs Hf; [done|done|lia|]. cbn [read_rows].
  destruct s as [|q s]; [done|]. destruct (negb _); [done|]. destruct (read_field s) as [[f r]|]; [|done].
  cbn [mbind option_bind]. unfold after_field. destruct r as [|c r]; [done|]. destruct (c =? 44)%N.
  - destruct (read_rows fuel r) as [rows|] eqn:E; [|done]. by rewrite (IH fuel' r rows) by (lia || done).
  - destruct r as [|d r]; [done|]. destruct (_ && _); [|done].
    destruct (read_rows fuel r) as [rows|] eqn:E; [|done]. by rewrite (IH fuel' r rows) by (lia || done).
Qed.

(** The last row, and a row before others. *)
Definition row_text (row : list jstr) : jstr := join (js ",") (quote <$> row).
Lemma row_text_cons v w row : row_text (v :: w :: row) = quote v ++ 44%N :: row_text (w :: row).
Proof. done. Qed.
Lemma length_row_text row : (length row <= length (row_text row))%nat.
Proof.
  induction row as [|v [|w row] IH]; [cbn; lia| |].
  - cbn. rewrite length_app. cbn. lia.
  - rewrite row_text_cons, length_app. unfold quote. cbn [length] in *. lia.
Qed.
Lemma read_last_row row : row <> [] -> read_rows (length row) (row_text row) = Some [row].
Proof.
  induction row as [|v [|w row] IH]; intros Hn; [done| |].
  - unfold row_text. cbn [fmap list_fmap join length]. rewrite <- (app_nil_r (quote v)). by rewrite read_rows_field.
  - rewrite row_text_cons. cbn [length]. rewrite read_rows_field by done. cbn [after_field].
    rewrite N.eqb_refl. change (S (length row)) with (length (w :: row)). by rewrite IH.
Qed.
Lemma read_row row fuel t rs : row <> [] -> read_rows fuel t = Some rs ->
  read_rows (length row + fuel) (row_text row ++ c_cr :: c_nl :: t) = Some (row :: rs).
Proof.
  intros Hn Ht. induction row as [|v [|w row] IH]; [done| |].
  - unfold row_text. cbn [fmap list_fmap join length Nat.add]. rewrite read_rows_field by done. cbn. by rewrite Ht.
  - rewrite row_text_cons, <- app_assoc. cbn [length Nat.add app]. rewrite read_rows_field by done. cbn [after_field].
    rewrite N.eqb_refl. cbn [length Nat.add] in IH. by rewrite IH.
Qed.
Lemma read_all rs : rs <> [] -> Forall (fun row => row <> []) rs ->
  exists fuel, (fuel <= length (join [c_cr; c_nl] (row_text <$> rs)))%nat /\
    read_rows fuel (join [c_cr; c_nl] (row_text <$> rs)) = Some rs.
Proof.
  intros Hn Hr. induction Hr as [|row [|row' rs] Hrow Hr IH]; [done| |].
  - exists (length row). split; [apply length_row_text|by apply read_last_row].
  - destruct IH as (fuel & Hf & E); [done|]. exists (length row + fuel)%nat. split.
    + pose proof (length_row_text row). cbn [fmap list_fmap join] in *. rewrite !length_app. cbn [length] in *. lia.
    + cbn [fmap list_fmap join app]. by apply read_row.
Qed.
Lemma rows_nonempty roster assignments scores : Forall (fun row => row <> []) (rows roster assignments scores).
Proof. constructor; [done|]. apply Forall_fmap, Forall_true. done. Qed.
Lemma read_text rs : rs <> [] -> Forall (fun row => row <> []) rs -> read_csv (text_of rs) = Some rs.
Proof.
  intros Hn Hr. destruct (read_all rs Hn Hr) as (fuel & Hf & E). unfold read_csv, text_of. rewrite N.eqb_refl.
  by eapply read_rows_more.
Qed.
End Csv.

(** C39. Whatever names, headings and scores contain (commas, quotation marks, line
    breaks), a reader of the exported file finds one row per student, with the
    heading first, and every field as it was. *)
Theorem csv_roundtrip roster roomAssignments scores :
  Csv.read_csv (Csv.csv_text roster roomAssignments scores) = Some (Csv.rows roster roomAssignments scores).
Proof. apply Csv.read_text; [done|apply Csv.rows_nonempty]. Qed.

Module SheetWitnesses.
Import Workbook.
#[local] Existing Instance ascii_locale.
Definition note (s : jstr) : Cell := mkCell (Some (CellStr s)) None (VObj []).
Definition formula (f : jstr) : Cell := mkCell None (Some f) (VObj []).
Definition essay : Assignment :=
  mkAssignment (js "a1") (js "c") (js "Room") (js "Essay") [] None (num 20) VNull Published [] [].
Definition saved_with (cells : Matrix) : option Book :=
  Some (mkBook None [] (Some [sheetId]) (Some [(sheetId, mkSavedSheet sheetId (js "Gradebook") None None (Some cells))])).
(** The teacher's columns D and E: one without a heading, one with a heading
    whose cell adds up its own column. *)
Definition own_columns : Matrix :=
  put 1 3 (note (js "late twice")) (put 0 4 (note (js "Bonus")) (put 1 4 (formula (js "=SUM(E3:E9)")) ∅)).

(** A column without a heading is dropped when the sheet is opened again; the
    one beside it moves to its place, with the text of its formulas. *)
Theorem untitled_column_dropped :
  let b := workbookData [] [essay] (fun _ => None) (fun _ _ => false) (js "c") (js "Room") (saved_with own_columns) in
  grade_cells (default (mkBook None [] None None) (saved_with own_columns)) 1 3 = Some (note (js "late twice")) /\
  (forall c, grade_cells b 1 c <> Some (note (js "late twice"))) /\
  grade_cells b 0 3 = Some (note (js "Bonus")) /\ grade_cells b 1 3 = Some (formula (js "=SUM(E3:E9)")).
Proof.
  intros b. assert (Hown : own [essay] (saved_with own_columns) = [4%nat]) by (vm_compute; reflexivity).
  split_and!; [vm_compute; reflexivity|intros c|vm_compute; reflexivity..].
  unfold b. rewrite rebuilt_cells, Hown.
  destruct c as [|[|[|[|c]]]]; [vm_compute; discriminate..|].
  cbn. done.
Qed.
End SheetWitnesses.
