(* ===== verification/GradebookSync.v ===== *)
(** * Saving grades from the sheet ([apps/teacher/src/UniverGradebook.tsx],
    [GradebookView.tsx])

    A change of a grade cell starts a timer of half a second; when it runs out
    the grade is saved on the Host, and every change of the scores writes the
    whole sheet anew.  The page, its last render and the sheet are a state;
    edits, timers, renders and answers of the Host are events, in any order.
    One classroom is looked at, with a fixed list of assignments; its roster
    may be loaded anew. *)

From S2P Require Import Prelude JsString JsNumber JsValue Types GradebookIntent GradebookSheet.
Import Headers.
Local Open Scope Z_scope.

(** What is used of the spreadsheet component.  [held] is what a cell holds, a
    formula or a value; a cell that holds a value reads as it, while one with a
    formula may change with any other. *)
Definition is_formula (v : WorkbookCellValue) : bool := match v with CellStr s => starts_with (js "=") s | _ => false end.
Class Spreadsheet := {
  Sheet : Type;
  held : Sheet -> nat -> nat -> option WorkbookCellValue;
  value_at : Sheet -> nat -> nat -> option WorkbookCellValue;
  set_value : nat -> nat -> WorkbookCellValue -> Sheet -> Sheet;
  clear_content : nat -> nat -> Sheet -> Sheet;   (** of that many rows and columns *)
  clear_all : Sheet -> Sheet
}.
Class SpreadsheetLaws (W : Spreadsheet) : Prop := {
  held_set : forall s r c v, held (set_value r c v s) r c = Some v;
  held_set_other : forall s r c v r' c', (r, c) <> (r', c') -> held (set_value r c v s) r' c' = held s r' c';
  value_held : forall s r c v, held s r c = Some v -> is_formula v = false -> value_at s r c = Some v
}.

Section sync.
Context {W : Spreadsheet} (assignments : list Assignment).

(** ** State *)

(** The state of [GradebookView]. *)
Record Page := mkPage {
  roster : list User;
  byAssignment : list (jstr * list Submission);
  scores : list (jstr * jstr);
  savingCell : jstr;
  status : jstr
}.
(** A grade that waits for its timer, and the cell it came from. *)
Record Pending := mkPending {
  p_row : nat; p_column : nat; p_student : User; p_assignment : Assignment; p_value : jstr; p_version : Z
}.
(** A grade as it is sent. *)
Record GradeRequest := mkGradeRequest {
  rq_submission : jstr; rq_points : option jsnum; rq_label : option jstr; rq_feedback : jstr; rq_publish : bool
}.
Record Save := mkSave { s_submission : Submission; s_assignment : Assignment; s_key : jstr; s_previous : jstr; s_pending : Pending }.
(** The effect that owns the sheet. *)
Record Univer := mkUniver {
  cells : Sheet;
  hydrated : bool;
  synchronizing : bool;
  renderedRosterCount : nat;
  timers : list (jstr * Pending);
  versions : list (jstr * Z);
  gradeValues : list (jstr * jstr);
  persistedGradeValues : list (jstr * jstr)
}.
(** [shown] is the page of the last render; [changed] whether roster or scores
    were set since, [effect_due] whether the effect on them has yet to run. *)
Record View := mkView {
  page : Page; shown : Page; changed : bool; effect_due : bool;
  univer : Univer; saves : list Save; requests : list GradeRequest
}.

Definition set_page (p : Page) (g : View) : View := mkView p (shown g) (changed g) (effect_due g) (univer g) (saves g) (requests g).
Definition set_univer (u : Univer) (g : View) : View := mkView (page g) (shown g) (changed g) (effect_due g) u (saves g) (requests g).
Definition set_changed (g : View) : View := mkView (page g) (shown g) true (effect_due g) (univer g) (saves g) (requests g).
Definition set_saves (ss : list Save) (g : View) : View := mkView (page g) (shown g) (changed g) (effect_due g) (univer g) ss (requests g).
Definition sent (r : GradeRequest) (g : View) : View := mkView (page g) (shown g) (changed g) (effect_due g) (univer g) (saves g) (requests g ++ [r]).
Definition set_status (m : jstr) (g : View) : View :=
  let p := page g in set_page (mkPage (roster p) (byAssignment p) (scores p) (savingCell p) m) g.
Definition set_savingCell (k : jstr) (g : View) : View :=
  let p := page g in set_page (mkPage (roster p) (byAssignment p) (scores p) k (status p)) g.
Definition set_scores (ss : list (jstr * jstr)) (g : View) : View :=
  let p := page g in set_changed (set_page (mkPage (roster p) (byAssignment p) ss (savingCell p) (status p)) g).
Definition set_score (k v : jstr) (g : View) : View := set_scores (set_prop k v (scores (page g))) g.
Definition set_byAssignment (b : list (jstr * list Submission)) (g : View) : View :=
  let p := page g in set_page (mkPage (roster p) b (scores p) (savingCell p) (status p)) g.
Definition set_cells (s : Sheet) (u : Univer) : Univer :=
  mkUniver s (hydrated u) (synchronizing u) (renderedRosterCount u) (timers u) (versions u) (gradeValues u) (persistedGradeValues u).
Definition set_timers ts vs (u : Univer) : Univer :=
  mkUniver (cells u) (hydrated u) (synchronizing u) (renderedRosterCount u) ts vs (gradeValues u) (persistedGradeValues u).
Definition set_values gs ps (u : Univer) : Univer :=
  mkUniver (cells u) (hydrated u) (synchronizing u) (renderedRosterCount u) (timers u) (versions u) gs ps.
Definition without_timer (k : jstr) (ts : list (jstr * Pending)) : list (jstr * Pending) :=
  List.filter (fun t => negb (seqb (fst t) k)) ts.

(** ** The page *)

Definition submissionFor (p : Page) (studentId assignmentId : jstr) : option Submission :=
  assoc assignmentId (byAssignment p) ≫= find (fun item => seqb (s_student_id item) studentId).
Definition submitted (p : Page) (studentId assignmentId : jstr) : bool :=
  match submissionFor p studentId assignmentId with Some _ => true | None => false end.
Definition points_text (g : option Grade) : jstr := grade_text (g ≫= points).
Definition score_key (student : User) (a : Assignment) : jstr := grade_key (user_id student) (assignment_id a).

(** [load], when its requests have come back. *)
Definition loaded_scores (pairs : list (jstr * list Submission)) : list (jstr * jstr) :=
  fold_left (fun ss e => fold_left (fun ss s => set_prop (grade_key (s_student_id s) (fst e)) (points_text (s_grade s)) ss) (snd e) ss)
    pairs [].
Definition msg_saved : jstr := js "Saved to Cinder".
Definition loaded (r : outcome jstr (list User * list (jstr * list Submission))) (g : View) : View :=
  match r with
  | Throw m => set_status m g
  | Ok (students, pairs) =>
    set_changed (set_page (mkPage students pairs (loaded_scores pairs) (savingCell (page g)) msg_saved) g)
  end.

(** [raw] and [points] of [saveScore]; [explicit] is what the sheet gives. *)
Definition explicit_of (value : jstr) : option jsnum := if truthy (trim value) then Some (number_of_string value) else None.
Definition points_of (explicit : option jsnum) : option jsnum :=
  let raw := match explicit with None => [] | Some n => show_num n end in
  if truthy (trim raw) then Some (number_of_string raw) else None.
Definition acceptable (a : Assignment) (points : option jsnum) : bool :=
  match points with
  | None => true
  | Some n => is_finite n && negb (num_lt n (num 0)) && negb (num_lt (max_points a) n)
  end.

(** [saveScore] up to its await, of the render whose function it is; [false]
    when it gives up. *)
Definition saveScore (p : Pending) (explicit : option jsnum) (g : View) : View * bool :=
  let a := p_assignment p in
  match submissionFor (shown g) (user_id (p_student p)) (assignment_id a) with
  | None => (g, false)
  | Some submission =>
    let key := score_key (p_student p) a in
    let previousScore := points_text (s_grade submission) in
    let points := points_of explicit in
    if acceptable a points
    then (set_saves (saves g ++ [mkSave submission a key previousScore p])
           (sent (mkGradeRequest (submission_id submission) points (s_grade submission ≫= grade_label)
                    (match s_grade submission with Some gr => feedback gr | None => [] end) true)
             (set_status (js "Saving…") (set_savingCell key g))), true)
    else (set_score key previousScore (set_status (js "Use a score from 0 to " ++ show_num (max_points a) ++ js ".") g), false)
  end.
Definition onScoreChange (p : Pending) (g : View) : View * bool :=
  saveScore p (explicit_of (p_value p)) (set_score (score_key (p_student p) (p_assignment p)) (p_value p) g).

(** ** The sheet *)

Definition cell_value (value : jstr) : WorkbookCellValue :=
  match value with
  | [] => CellNull
  | _ => if is_finite (number_of_string value) then CellNum (number_of_string value) else CellStr value
  end.
Definition dash : jstr := js "—".
Definition value_of (p : Page) (student : User) (a : Assignment) : jstr :=
  if submitted p (user_id student) (assignment_id a) then default [] (assoc (score_key student a) (scores p)) else dash.
Definition grade_value (value : jstr) : jstr := if seqb value dash then [] else value.

(** [syncAuthoritative]: the values written, in order, and what is remembered
    of them. *)
Definition grade_writes (p : Page) : list ((nat * nat) * WorkbookCellValue) :=
  [((0, 0)%nat, CellStr (js "Student")); ((0, 1)%nat, CellStr (js "Username"))] ++
  imap (fun column a => ((0, column + 2)%nat, CellStr (formatAssignmentHeader a))) assignments ++
  concat (imap (fun row student =>
    [((S row, 0)%nat, CellStr (display_name student)); ((S row, 1)%nat, CellStr (username student))] ++
    imap (fun column a => ((S row, column + 2)%nat, cell_value (value_of p student a))) assignments) (roster p)).
Definition remembered (p : Page) : list (jstr * jstr) :=
  concat ((fun student => (fun a => (score_key student a, grade_value (value_of p student a))) <$> assignments) <$> roster p).
Definition write_cells (ws : list ((nat * nat) * WorkbookCellValue)) (s : Sheet) : Sheet :=
  fold_left (fun s w => set_value (fst (fst w)) (snd (fst w)) (snd w) s) ws s.
Definition set_props (l : list (jstr * jstr)) : list (jstr * jstr) := fold_left (fun m e => set_prop (fst e) (snd e) m) l [].
Definition syncAuthoritative (g : View) : View :=
  let p := shown g in let u := univer g in
  let rowsToClear := Nat.max (renderedRosterCount u) (length (roster p)) in
  let cleared := clear_content (rowsToClear + 1) (length assignments + 2) (cells u) in
  let values := set_props (remembered p) in
  set_univer (mkUniver (write_cells (grade_writes p) cleared) (hydrated u) true (length (roster p)) [] (versions u) values values) g.
Definition resetWorkbook (g : View) : View :=
  syncAuthoritative (set_univer (set_cells (clear_all (cells (univer g))) (univer g)) g).
Definition resetSheet (g : View) : View := set_status (js "Sheet reset. Audited grades were kept.") (resetWorkbook g).

(** The listener on changed cells. *)
Record Range := mkRange { r_sheet : jstr; startRow : nat; endRow : nat; startColumn : nat; endColumn : nat }.
Definition touched (count : nat) (range : Range) : list (nat * nat) :=
  let firstRow := Nat.max 1 (startRow range) in
  let lastRow := Nat.min count (endRow range) in
  let firstColumn := Nat.max 2 (startColumn range) in
  let lastColumn := Nat.min (length assignments + 1) (endColumn range) in
  row ← seq firstRow (S lastRow - firstRow); (fun column => (row, column)) <$> seq firstColumn (S lastColumn - firstColumn).
Definition cell_changed (p : Page) (u : Univer) (rc : nat * nat) : Univer :=
  let (row, column) := rc in
  match roster p !! (row - 1)%nat, assignments !! (column - 2)%nat with
  | Some student, Some a =>
    if negb (submitted p (user_id student) (assignment_id a)) then u
    else
      let key := score_key student a in
      let value := trim (cell_text (value_at (cells u) row column)) in
      if seqb value (default [] (assoc key (gradeValues u))) then u
      else
        let version := default 0 (assoc key (versions u)) + 1 in
        set_timers (without_timer key (timers u) ++ [(key, mkPending row column student a value version)])
          (set_prop key version (versions u))
          (set_values (set_prop key value (gradeValues u)) (persistedGradeValues u) u)
  | _, _ => u
  end.
Definition value_changed (p : Page) (ranges : list Range) (u : Univer) : Univer :=
  if negb (hydrated u) || synchronizing u then u
  else fold_left (fun u range =>
    if seqb (r_sheet range) (js "Gradebook") then fold_left (cell_changed p) (touched (length (roster p)) range) u else u) ranges u.

(** What follows a save: the value is kept, or the cell goes back. *)
Definition one_cell (row column : nat) : Range := mkRange (js "Gradebook") row row column column.
Definition after_save (p : Pending) (saved : bool) (g : View) : View :=
  let u := univer g in let key := score_key (p_student p) (p_assignment p) in
  if saved then set_univer (set_values (gradeValues u) (set_prop key (p_value p) (persistedGradeValues u)) u) g
  else if negb (default 0 (assoc key (versions u)) =? p_version p) then g
  else
    let rollback := default [] (assoc key (persistedGradeValues u)) in
    let u := set_values (set_prop key rollback (gradeValues u)) (persistedGradeValues u) u in
    let u := set_cells (set_value (p_row p) (p_column p) (cell_value rollback) (cells u)) u in
    set_univer (value_changed (shown g) [one_cell (p_row p) (p_column p)] u) g.

(** The timer of a cell runs out. *)
Definition fire (key : jstr) (g : View) : View :=
  match assoc key (timers (univer g)) with
  | None => g
  | Some p =>
    let u := univer g in
    let g := set_univer (set_timers (without_timer key (timers u)) (versions u) u) g in
    let (g, waiting) := onScoreChange p g in
    if waiting then g else after_save p false g
  end.

(** The Host answers a save. *)
Definition with_grade (s : Submission) (gr : Grade) : Submission :=
  mkSubmission (submission_id s) (s_assignment_id s) (s_assignment_title s) (s_student_id s) (s_student_name s)
    (s_status s) (s_version s) (Some gr) (submitted_at s) (s_updated_at s).
Definition graded (id : jstr) (gr : Grade) (l : list Submission) : list Submission :=
  (fun item => if seqb (submission_id item) id then with_grade item gr else item) <$> l.
Definition save_answered (i : nat) (r : outcome jstr Grade) (g : View) : View :=
  match saves g !! i with
  | None => g
  | Some s =>
    let g := set_saves (take i (saves g) ++ drop (S i) (saves g)) g in
    match r with
    | Ok gr =>
      let g := set_score (s_key s) (grade_text (points gr)) g in
      let b := byAssignment (page g) in
      let id := assignment_id (s_assignment s) in
      let g := set_byAssignment (set_prop id (graded (submission_id (s_submission s)) gr (default [] (assoc id b))) b) g in
      after_save (s_pending s) true (set_savingCell [] (set_status msg_saved g))
    | Throw m => after_save (s_pending s) false (set_savingCell [] (set_status m (set_score (s_key s) (s_previous s) g)))
    end
  end.

(** ** Events *)

(** The effect on the roster and the scores; a render waits for it. *)
Definition effect (g : View) : View :=
  if effect_due g
  then syncAuthoritative (mkView (page g) (shown g) (changed g) false (univer g) (saves g) (requests g)) else g.

Inductive Event :=
  | Hydrate
  | Load
  | Loaded (r : outcome jstr (list User * list (jstr * list Submission)))
  | Edit (ws : list ((nat * nat) * WorkbookCellValue)) (ranges : list Range)
  | Fire (key : jstr)
  | SaveAnswered (i : nat) (r : outcome jstr Grade)
  | Render
  | Effect
  | SyncDone
  | Reset.
Definition handle (e : Event) (g : View) : View :=
  let u := univer g in
  match e with
  | Hydrate => set_univer (mkUniver (cells u) true (synchronizing u) (renderedRosterCount u) (timers u) (versions u)
                             (gradeValues u) (persistedGradeValues u)) g
  | Load => set_status (js "Loading…") g
  | Loaded r => loaded r g
  | Edit ws ranges => set_univer (value_changed (shown g) ranges (set_cells (write_cells ws (cells u)) u)) g
  | Fire key => fire key g
  | SaveAnswered i r => save_answered i r g
  | Render =>
    let g := effect g in mkView (page g) (page g) false (changed g) (univer g) (saves g) (requests g)
  | Effect => effect g
  | SyncDone => set_univer (mkUniver (cells u) (hydrated u) false (renderedRosterCount u) (timers u) (versions u)
                             (gradeValues u) (persistedGradeValues u)) g
  | Reset => resetSheet g
  end.
Definition run (es : list Event) (g : View) : View := fold_left (fun g e => handle e g) es g.
End sync.

(** ** When a grade is sent, to whom, and which *)

Module SyncFacts.
Section facts.
Context {W : Spreadsheet} (assignments : list Assignment).

Definition within (a : Assignment) (points : option jsnum) : Prop :=
  match points with
  | None => True
  | Some n => exists q, n = Fin q /\ num_lt n (num 0) = false /\ num_lt (max_points a) n = false
  end.
Lemma acceptable_within a points : acceptable a points = true -> within a points.
Proof.
  destruct points as [n|]; [|done]. cbn. intros [[Hf Hl]%andb_prop Hm]%andb_prop.
  destruct n; try discriminate Hf. eexists. split; [done|]. by rewrite negb_true_iff in Hl, Hm.
Qed.

Lemma requests_effect g : requests (effect assignments g) = requests g.
Proof. unfold effect. by destruct (effect_due g). Qed.
Lemma requests_after_save p b g : requests (after_save assignments p b g) = requests g.
Proof. unfold after_save. destruct b; [done|]. by destruct (negb _). Qed.
Definition request_of (s : Submission) (points : option jsnum) : GradeRequest :=
  mkGradeRequest (submission_id s) points (s_grade s ≫= grade_label)
    (match s_grade s with Some gr => feedback gr | None => [] end) true.
Lemma requests_saveScore p explicit g :
  requests (fst (saveScore p explicit g)) = requests g \/
  exists s, submissionFor (shown g) (user_id (p_student p)) (assignment_id (p_assignment p)) = Some s /\
    within (p_assignment p) (points_of explicit) /\
    requests (fst (saveScore p explicit g)) = requests g ++ [request_of s (points_of explicit)].
Proof.
  unfold saveScore. destruct (submissionFor _ _ _) as [s|]; [|by left].
  destruct (acceptable _ _) eqn:Ea; [|by left]. right. exists s. split_and!; [done|by apply acceptable_within|done].
Qed.
End facts.
End SyncFacts.
Import SyncFacts.

(** A grade is only ever sent when the timer of a changed cell runs out; it is
    sent for the submission the page shows for that student and assignment,
    with the points typed into the cell, which are none or within the range of
    the assignment, and with the label and feedback the submission has. *)
Theorem grade_sent {W : Spreadsheet} (assignments : list Assignment) e g :
  requests (handle assignments e g) = requests g \/
  exists key p s, e = Fire key /\ assoc key (timers (univer g)) = Some p /\
    submissionFor (shown g) (user_id (p_student p)) (assignment_id (p_assignment p)) = Some s /\
    within (p_assignment p) (points_of (explicit_of (p_value p))) /\
    requests (handle assignments e g) = requests g ++ [request_of s (points_of (explicit_of (p_value p)))].
Proof.
  destruct e as [| |r|ws ranges|key|i r| | | |]; try by left.
  - left. by destruct r as [[students pairs]|].
  - cbn [handle]. unfold fire. destruct (assoc key _) as [p|] eqn:Ep; [|by left]. unfold onScoreChange.
    set (g0 := set_score _ _ (set_univer _ g)).
    pose proof (requests_saveScore p (explicit_of (p_value p)) g0) as Hr.
    destruct (saveScore p _ g0) as [g1 waiting]. cbn [fst] in Hr.
    assert (E : requests (if waiting then g1 else after_save assignments p false g1) = requests g1)
      by (destruct waiting; [done|apply requests_after_save]).
    rewrite E. destruct Hr as [Hr|(s & Hs & Hw & Hr)]; [by left|].
    right. exists key, p, s. done.
  - left. cbn [handle]. unfold save_answered. destruct (saves g !! i) as [s|]; [|done].
    destruct r as [gr|m]; by rewrite requests_after_save.
  - left. cbn [handle]. cbv zeta. cbn [requests]. apply requests_effect.
  - left. apply requests_effect.
Qed.

(** ** One change of a cell, to its end *)

Module Settling.
Section settling.
Context {W : Spreadsheet} {L : SpreadsheetLaws W} (assignments : list Assignment).

Lemma write_cells_app a b s : write_cells (a ++ b) s = write_cells b (write_cells a s).
Proof. apply fold_left_app. Qed.
(** A cell that is written has the value written, if no other is written to it. *)
Lemma written ws s w : Forall (fun w => is_formula (snd w) = false) ws ->
  (forall w', w' ∈ ws -> fst w' = fst w -> snd w' = snd w) -> w ∈ ws ->
  value_at (write_cells ws s) (fst (fst w)) (snd (fst w)) = Some (snd w).
Proof.
  destruct w as [[r c] v]. cbn [fst snd]. intros Hf Hu Hin.
  assert (Hv : is_formula v = false) by exact (proj1 (Forall_forall _ _) Hf (r, c, v) Hin).
  apply value_held; [clear Hf|exact Hv]. revert Hu Hin. induction ws as [|[[r' c'] v'] ws IH] using rev_ind.
  { intros _ H. by apply elem_of_nil in H. }
  intros Hu Hin. rewrite write_cells_app. cbn [write_cells fold_left fst snd].
  destruct (decide ((r', c') = (r, c))) as [[= -> ->]|Hn].
  - rewrite held_set. f_equal. by apply (Hu (r, c, v')); [apply elem_of_app; right; by left|].
  - rewrite held_set_other by done. apply IH.
    + intros w' Hw'. apply Hu. apply elem_of_app. by left.
    + apply elem_of_app in Hin as [?|Hin]; [done|]. apply list_elem_of_singleton in Hin. congruence.
Qed.
Lemma set_props_last (l : list (jstr * jstr)) m k v :
  (forall w, w ∈ l -> fst w = k -> snd w = v) -> (k, v) ∈ l \/ assoc k m = Some v ->
  assoc k (fold_left (fun m e => set_prop (fst e) (snd e) m) l m) = Some v.
Proof.
  revert m. induction l as [|[k' v'] l IH]; intros m Hu Hin; cbn [fold_left fst snd].
  - destruct Hin as [Hin|]; [by apply elem_of_nil in Hin|done].
  - apply IH; [intros w Hw; apply Hu; by right|]. rewrite assoc_set_prop.
    destruct (decide (k' = k)) as [->|Hk].
    + right. f_equal. apply (Hu (k, v')); [by left|done].
    + destruct Hin as [Hin|]; [|by right]. apply elem_of_cons in Hin as [|]; [congruence|by left].
Qed.

(** Names and headings are no formulas, keys tell cells apart. *)
Record Plain (students : list User) : Prop := {
  pl_names : Forall (fun s => is_formula (CellStr (display_name s)) = false /\ is_formula (CellStr (username s)) = false) students;
  pl_headings : Forall (fun a => is_formula (CellStr (formatAssignmentHeader a)) = false) assignments;
  pl_keys : forall i s j a i' s' j' a', students !! i = Some s -> assignments !! j = Some a ->
    students !! i' = Some s' -> assignments !! j' = Some a' -> score_key s a = score_key s' a' -> i = i' /\ j = j'
}.
Definition plain_values (p : Page) : Prop :=
  forall s a, s ∈ roster p -> a ∈ assignments -> is_formula (cell_value (value_of p s a)) = false.

(** Where a write of [syncAuthoritative] goes. *)
Definition place_of (p : Page) (w : (nat * nat) * WorkbookCellValue) : Prop :=
  match fst w with
  | (O, O) => snd w = CellStr (js "Student")
  | (O, S O) => snd w = CellStr (js "Username")
  | (O, S (S j)) => exists a, assignments !! j = Some a /\ snd w = CellStr (formatAssignmentHeader a)
  | (S i, O) => exists s, roster p !! i = Some s /\ snd w = CellStr (display_name s)
  | (S i, S O) => exists s, roster p !! i = Some s /\ snd w = CellStr (username s)
  | (S i, S (S j)) => exists s a, roster p !! i = Some s /\ assignments !! j = Some a /\ snd w = cell_value (value_of p s a)
  end.
Lemma writes_placed p : Forall (place_of p) (grade_writes assignments p).
Proof.
  unfold grade_writes. rewrite !Forall_app. split_and!.
  - repeat constructor.
  - apply Forall_forall. intros w Hw. apply elem_of_lookup_imap in Hw as (j & a & -> & Ha).
    replace (j + 2)%nat with (S (S j)) by lia. by exists a.
  - apply Forall_concat, Forall_forall. intros row Hrow. apply elem_of_lookup_imap in Hrow as (i & s & -> & Hs).
    repeat constructor; [by exists s..|]. apply Forall_forall. intros w Hw.
    apply elem_of_lookup_imap in Hw as (j & a & -> & Ha). replace (j + 2)%nat with (S (S j)) by lia. by exists s, a.
Qed.
Lemma written_cell p i s j a : roster p !! i = Some s -> assignments !! j = Some a ->
  ((S i, S (S j)), cell_value (value_of p s a)) ∈ grade_writes assignments p.
Proof.
  intros Hs Ha. unfold grade_writes. rewrite !elem_of_app. right. right.
  apply list_elem_of_In, in_concat. eexists. split; [apply list_elem_of_In, elem_of_lookup_imap; by exists i, s|].
  apply list_elem_of_In, elem_of_app. right. apply elem_of_lookup_imap. exists j, a. split; [|done]. do 2 f_equal. lia.
Qed.
Lemma writes_plain p : Plain (roster p) -> plain_values p ->
  Forall (fun w => is_formula (snd w) = false) (grade_writes assignments p).
Proof.
  intros Hp Hv. eapply Forall_impl; [apply writes_placed|]. intros [[[|i] [|[|j]]] v]; unfold place_of; cbn [fst snd].
  - by intros ->.
  - by intros ->.
  - intros (a & Ha & ->). eapply Forall_lookup_1 in Ha; [|apply (pl_headings _ Hp)]. done.
  - intros (s & Hs & ->). eapply Forall_lookup_1 in Hs; [|apply (pl_names _ Hp)]. by destruct Hs.
  - intros (s & Hs & ->). eapply Forall_lookup_1 in Hs; [|apply (pl_names _ Hp)]. by destruct Hs.
  - intros (s & a & Hs & Ha & ->). apply Hv; by eapply list_elem_of_lookup_2.
Qed.

(** The sheet shows the page. *)
Record Synced (g : View) : Prop := {
  sy_cells : forall i s j a, roster (shown g) !! i = Some s -> assignments !! j = Some a ->
    value_at (cells (univer g)) (S i) (S (S j)) = Some (cell_value (value_of (shown g) s a));
  sy_values : forall i s j a, roster (shown g) !! i = Some s -> assignments !! j = Some a ->
    assoc (score_key s a) (gradeValues (univer g)) = Some (grade_value (value_of (shown g) s a)) /\
    assoc (score_key s a) (persistedGradeValues (univer g)) = Some (grade_value (value_of (shown g) s a))
}.
Lemma remembered_elem p i s j a : roster p !! i = Some s -> assignments !! j = Some a ->
  (score_key s a, grade_value (value_of p s a)) ∈ remembered assignments p.
Proof.
  intros Hs Ha. unfold remembered. apply list_elem_of_In, in_concat. eexists. split.
  - apply list_elem_of_In, list_elem_of_fmap. exists s. split; [reflexivity|by eapply list_elem_of_lookup_2].
  - apply list_elem_of_In, list_elem_of_fmap. exists a. split; [done|by eapply list_elem_of_lookup_2].
Qed.
Lemma remembered_values p i s j a : Plain (roster p) -> roster p !! i = Some s -> assignments !! j = Some a ->
  assoc (score_key s a) (set_props (remembered assignments p)) = Some (grade_value (value_of p s a)).
Proof.
  intros Hp Hs Ha. apply set_props_last; [|left; by eapply remembered_elem].
  intros w Hw Hk. apply list_elem_of_In, in_concat in Hw as (l & Hl & Hw).
  apply list_elem_of_In, list_elem_of_fmap in Hl as (s' & -> & Hs'). apply list_elem_of_In, list_elem_of_fmap in Hw as (a' & -> & Ha').
  cbn in Hk |- *. apply list_elem_of_lookup in Hs' as [i' Hs']. apply list_elem_of_lookup in Ha' as [j' Ha'].
  destruct (pl_keys _ Hp _ _ _ _ _ _ _ _ Hs' Ha' Hs Ha Hk) as [-> ->]. congruence.
Qed.
Lemma sync_synced g : Plain (roster (shown g)) -> plain_values (shown g) -> Synced (syncAuthoritative assignments g).
Proof.
  intros Hp Hv. split.
  - intros i s j a Hs Ha. change (shown (syncAuthoritative _ _)) with (shown g) in *.
    unfold syncAuthoritative. cbn [set_univer univer cells].
    apply (written _ _ ((S i, S (S j)), cell_value (value_of (shown g) s a))); [by apply writes_plain| |by apply written_cell].
    intros w' Hw' Hpos. eapply Forall_forall in Hw'; [|apply writes_placed]. unfold place_of in Hw'. rewrite Hpos in Hw'.
    cbn [fst] in Hw'. destruct Hw' as (s' & a' & Hs' & Ha' & E). rewrite E. simplify_eq. done.
  - intros i s j a Hs Ha. change (shown (syncAuthoritative _ _)) with (shown g) in *.
    unfold syncAuthoritative. cbn [set_univer univer gradeValues persistedGradeValues].
    split; by eapply remembered_values.
Qed.

(** The page agrees with what the Host holds. *)
Record Sound (held : jstr -> option jsnum) (p : Page) : Prop := {
  so_plain : Plain (roster p);
  so_agree : forall s a sub, s ∈ roster p -> a ∈ assignments ->
    submissionFor p (user_id s) (assignment_id a) = Some sub ->
    assoc (score_key s a) (scores p) = Some (points_text (s_grade sub)) /\
    held (submission_id sub) = s_grade sub ≫= points;
  so_ids : forall a a' l l' x x', assoc a (byAssignment p) = Some l -> assoc a' (byAssignment p) = Some l' ->
    x ∈ l -> x' ∈ l' -> submission_id x = submission_id x' -> a = a' /\ x = x'
}.
Record Settled (held : jstr -> option jsnum) (g : View) : Prop := {
  st_shown : shown g = page g;
  st_changed : changed g = false;
  st_effect : effect_due g = false;
  st_saves : saves g = [];
  st_timers : timers (univer g) = [];
  st_hydrated : hydrated (univer g) = true;
  st_synchronizing : synchronizing (univer g) = false;
  st_sound : Sound held (page g);
  st_synced : Synced g
}.

Lemma cell_value_text o : is_formula (cell_value (grade_text o)) = false.
Proof.
  destruct o as [n|]; [|done]. cbn [grade_text]. pose proof (show_num_chars n) as Hc.
  destruct (show_num n) as [|c t]; [done|]. unfold cell_value. destruct (is_finite _); [done|].
  cbn [is_formula]. cbn [forallb] in Hc. apply andb_prop in Hc as [Hc _].
  change (js "=") with [61%N]. cbn [starts_with]. destruct (N.eqb_spec 61 c) as [<-|]; [by vm_compute in Hc|done].
Qed.
Lemma sound_plain_values held p : Sound held p -> plain_values p.
Proof.
  intros Hs s a Hin Ha. unfold value_of, submitted. destruct (submissionFor _ _ _) as [sub|] eqn:Es; [|by vm_compute].
  destruct (so_agree _ _ Hs s a sub Hin Ha Es) as [-> _]. apply cell_value_text.
Qed.

Lemma page_effect g : page (effect assignments g) = page g /\ changed (effect assignments g) = changed g /\
  saves (effect assignments g) = saves g /\ requests (effect assignments g) = requests g /\
  hydrated (univer (effect assignments g)) = hydrated (univer g).
Proof. unfold effect. by destruct (effect_due g). Qed.
Definition redraw : list Event := [Render; Effect; SyncDone].
Lemma redrawn g : let g' := run assignments redraw g in
  page g' = page g /\ saves g' = saves g /\ requests g' = requests g /\ hydrated (univer g') = hydrated (univer g).
Proof.
  cbn [redraw run fold_left handle page saves requests univer hydrated set_univer].
  set (g1 := mkView _ _ _ _ _ _ _). destruct (page_effect g1) as (-> & _ & -> & -> & ->).
  destruct (page_effect g) as (? & _ & ? & ? & ?). done.
Qed.
Lemma settle held g : hydrated (univer g) = true -> saves g = [] -> changed g = true -> Sound held (page g) ->
  Settled held (run assignments redraw g).
Proof.
  intros Hh Hs Hc Hsound. cbn [redraw run fold_left handle].
  destruct (page_effect g) as (Hp & Hc' & Hs' & _ & Hh').
  set (g1 := mkView _ _ _ _ _ _ _). assert (E : effect assignments g1 =
    syncAuthoritative assignments (mkView (page g1) (page g1) false false (univer g1) (saves g1) (requests g1))).
  { unfold effect. cbn [g1 effect_due]. by rewrite Hc', Hc. }
  rewrite E.
  assert (Hpl : Synced (syncAuthoritative assignments (mkView (page g1) (page g1) false false (univer g1) (saves g1) (requests g1)))).
  { apply sync_synced; cbn [shown g1 page]; rewrite Hp; [apply (so_plain _ _ Hsound)|by eapply sound_plain_values]. }
  split; cbn [set_univer shown page changed effect_due saves univer timers hydrated synchronizing syncAuthoritative g1]; try done.
  - by rewrite Hs'.
  - by rewrite Hh'.
  - by rewrite Hp.
  - destruct Hpl as [H1 H2]. split; [exact H1|exact H2].
Qed.

(** The scores of cells that were not edited are kept. *)
Lemma sound_scores held p ss k st :
  (forall s a sub, s ∈ roster p -> a ∈ assignments -> submissionFor p (user_id s) (assignment_id a) = Some sub ->
    assoc (score_key s a) ss = assoc (score_key s a) (scores p)) ->
  Sound held p -> Sound held (mkPage (roster p) (byAssignment p) ss k st).
Proof.
  intros He [Hp Ha Hi]. split; [done| |done]. intros s a sub Hs Hin Es. cbn [scores roster] in *.
  rewrite (He s a sub) by done. by apply Ha.
Qed.
Lemma same_key p s a s' a' : Plain (roster p) -> s ∈ roster p -> a ∈ assignments -> s' ∈ roster p -> a' ∈ assignments ->
  score_key s a = score_key s' a' -> s = s' /\ a = a'.
Proof.
  intros Hp Hs Ha Hs' Ha' Hk. apply list_elem_of_lookup in Hs as [i Hs], Ha as [j Ha], Hs' as [i' Hs'], Ha' as [j' Ha'].
  destruct (pl_keys _ Hp _ _ _ _ _ _ _ _ Hs Ha Hs' Ha' Hk) as [-> ->]. split; congruence.
Qed.
Lemma sound_back held p s a sub text k st : Sound held p -> s ∈ roster p -> a ∈ assignments ->
  submissionFor p (user_id s) (assignment_id a) = Some sub ->
  Sound held (mkPage (roster p) (byAssignment p)
    (set_prop (score_key s a) (points_text (s_grade sub)) (set_prop (score_key s a) text (scores p))) k st).
Proof.
  intros Hp Hs Ha Es. apply sound_scores; [|done]. intros s' a' sub' Hs' Ha' Es'. rewrite !assoc_set_prop.
  destruct (decide _) as [Hk|]; [|done]. destruct (same_key p _ _ _ _ (so_plain _ _ Hp) Hs Ha Hs' Ha' Hk) as [<- <-].
  by destruct (so_agree _ _ Hp s a sub Hs Ha Es) as [-> _].
Qed.

(** The Host takes a grade for a submission. *)
Definition now_holds (held : jstr -> option jsnum) (id : jstr) (pts : option jsnum) : jstr -> option jsnum :=
  fun i => if seqb i id then pts else held i.
Lemma find_graded q id gr l : (forall x, q (with_grade x gr) = q x) ->
  find q (graded id gr l) = (fun x => if seqb (submission_id x) id then with_grade x gr else x) <$> find q l.
Proof.
  intros Hq. unfold graded. induction l as [|x l IH]; [done|]. cbn [fmap list_fmap find].
  assert (E : q (if seqb (submission_id x) id then with_grade x gr else x) = q x) by (destruct (seqb _ _); [apply Hq|done]).
  rewrite E. by destruct (q x).
Qed.
Lemma graded_id id gr x : submission_id (if seqb (submission_id x) id then with_grade x gr else x) = submission_id x.
Proof. by destruct (seqb _ _). Qed.
Definition graded_page (p : Page) (s : User) (a : Assignment) (sub : Submission) (gr : Grade) (ss : list (jstr * jstr)) (k st : jstr) : Page :=
  mkPage (roster p)
    (set_prop (assignment_id a) (graded (submission_id sub) gr (default [] (assoc (assignment_id a) (byAssignment p)))) (byAssignment p))
    ss k st.
Lemma submission_listed p s a sub : submissionFor p s a = Some sub ->
  exists l, assoc a (byAssignment p) = Some l /\ sub ∈ l /\ s_student_id sub = s.
Proof.
  unfold submissionFor. destruct (assoc a _) as [l|]; [|done]. cbn. intros Hf. exists l.
  apply find_Some in Hf as [? ?%seqb_eq]. done.
Qed.
Lemma sound_graded held p s a sub gr text k st : Sound held p -> s ∈ roster p -> a ∈ assignments ->
  submissionFor p (user_id s) (assignment_id a) = Some sub ->
  Sound (now_holds held (submission_id sub) (points gr))
    (graded_page p s a sub gr
      (set_prop (score_key s a) (grade_text (points gr)) (set_prop (score_key s a) text (scores p))) k st).
Proof.
  intros Hp Hs Ha Es. destruct (submission_listed _ _ _ _ Es) as (l & Hl & Hin & Hid). split.
  - apply (so_plain _ _ Hp).
  - intros s' a' sub' Hs' Ha' Es'. cbn [scores roster graded_page] in *. rewrite !assoc_set_prop.
    unfold submissionFor in Es'. cbn [byAssignment graded_page] in Es'. rewrite assoc_set_prop, Hl in Es'. cbn [default from_option id] in Es'.
    assert (Hold : exists sub0, submissionFor p (user_id s') (assignment_id a') = Some sub0 /\
      sub' = (if seqb (submission_id sub0) (submission_id sub) then with_grade sub0 gr else sub0)).
    { unfold submissionFor. destruct (decide (assignment_id a = assignment_id a')) as [E|E].
      - rewrite <- E, Hl. cbn [mbind option_bind] in Es' |- *. rewrite find_graded in Es' by done.
        destruct (find _ l) as [sub0|]; [|done]. exists sub0. split; [done|]. cbn in Es'. congruence.
      - destruct (assoc (assignment_id a') _) as [l'|] eqn:El'; [|done]. cbn [mbind option_bind] in Es' |- *. exists sub'. split; [done|].
        destruct (seqb _ _) eqn:Eq; [|done]. apply seqb_eq in Eq. apply find_Some in Es' as [Hin' _].
        destruct (so_ids _ _ Hp _ _ _ _ _ _ Hl El' Hin Hin' (eq_sym Eq)) as [? _]. done. }
    destruct Hold as (sub0 & E0 & ->). destruct (so_agree _ _ Hp _ _ _ Hs' Ha' E0) as [Hsc Hh]. unfold now_holds.
    rewrite graded_id. destruct (seqb (submission_id sub0) (submission_id sub)) eqn:Eq.
    + assert (score_key s a = score_key s' a') as ->; [|by rewrite decide_True by done].
      apply seqb_eq in Eq. destruct (submission_listed _ _ _ _ E0) as (l0 & Hl0 & Hin0 & Hid0).
      destruct (so_ids _ _ Hp _ _ _ _ _ _ Hl Hl0 Hin Hin0 (eq_sym Eq)) as [Ea Ex].
      unfold score_key. rewrite <- Ea, <- Hid, <- Hid0. by rewrite Ex.
    + assert (score_key s a <> score_key s' a') as Hk; [intros Hk|by rewrite !decide_False by done].
      destruct (same_key p _ _ _ _ (so_plain _ _ Hp) Hs Ha Hs' Ha' Hk) as [-> ->]. rewrite Es in E0. injection E0 as <-.
      by rewrite seqb_refl in Eq.
  - intros b b' lb lb' x x'. cbn [byAssignment graded_page]. rewrite !assoc_set_prop, Hl. cbn [default from_option id].
    assert (Hg : forall b lb x, (if decide (assignment_id a = b) then Some (graded (submission_id sub) gr l) else assoc b (byAssignment p)) = Some lb ->
      x ∈ lb -> exists lo xo, assoc b (byAssignment p) = Some lo /\ xo ∈ lo /\
        x = (if seqb (submission_id xo) (submission_id sub) then with_grade xo gr else xo)).
    { intros c lc y Hc Hy. destruct (decide _) as [<-|Hn].
      - injection Hc as <-. apply list_elem_of_fmap in Hy as (y0 & -> & Hy0). by exists l, y0.
      - exists lc, y. split_and!; [done..|]. destruct (seqb _ _) eqn:Eq; [|done]. apply seqb_eq in Eq.
        by destruct (so_ids _ _ Hp _ _ _ _ _ _ Hl Hc Hin Hy (eq_sym Eq)). }
    intros Hb Hb' Hx Hx' Hids. destruct (Hg _ _ _ Hb Hx) as (lo & xo & Hlo & Hxo & ->).
    destruct (Hg _ _ _ Hb' Hx') as (lo' & xo' & Hlo' & Hxo' & ->). rewrite !graded_id in Hids.
    by destruct (so_ids _ _ Hp _ _ _ _ _ _ Hlo Hlo' Hxo Hxo' Hids) as [-> ->].
Qed.

(** An edit of one grade cell. *)
Definition edit (i j : nat) (v : WorkbookCellValue) : Event := Edit [((S i, S (S j)), v)] [one_cell (S i) (S (S j))].
Definition typed (v : WorkbookCellValue) : jstr := trim (cell_text (Some v)).
Lemma touched_one n i j : (i < n)%nat -> (j < length assignments)%nat ->
  touched assignments n (one_cell (S i) (S (S j))) = [(S i, S (S j))].
Proof.
  intros Hi Hj. unfold touched, one_cell. cbn [startRow endRow startColumn endColumn].
  replace (Nat.max 1 (S i)) with (S i) by lia. replace (Nat.min n (S i)) with (S i) by lia.
  replace (Nat.max 2 (S (S j))) with (S (S j)) by lia. replace (Nat.min (length assignments + 1) (S (S j))) with (S (S j)) by lia.
  replace (S (S i) - S i)%nat with 1%nat by lia. by replace (S (S (S j)) - S (S j))%nat with 1%nat by lia.
Qed.
Lemma hydrated_cell_changed p u rc : hydrated (cell_changed assignments p u rc) = hydrated u.
Proof.
  destruct rc as [r c]. unfold cell_changed. destruct (roster p !! _); [|done]. destruct (assignments !! _); [|done].
  destruct (negb _); [done|]. by destruct (seqb _ _).
Qed.
Lemma hydrated_value_changed p rs u : hydrated (value_changed assignments p rs u) = hydrated u.
Proof.
  unfold value_changed. destruct (_ || _); [done|]. revert u. induction rs as [|r rs IH]; intros u; [done|]. cbn [fold_left].
  rewrite IH. destruct (seqb _ _); [|done]. generalize (touched assignments (length (roster p)) r) as l. intros l. revert u.
  induction l as [|rc l IHl]; intros u; [done|]. cbn [fold_left]. by rewrite IHl, hydrated_cell_changed.
Qed.
Lemma after_save_kept p b g : let g' := after_save assignments p b g in
  page g' = page g /\ shown g' = shown g /\ changed g' = changed g /\ saves g' = saves g /\ requests g' = requests g /\
  hydrated (univer g') = hydrated (univer g).
Proof.
  unfold after_save. destruct b; [done|]. destruct (negb _); [done|]. cbn [set_univer page shown changed saves requests univer].
  by rewrite hydrated_value_changed.
Qed.

Context (held : jstr -> option jsnum) (g : View) (i j : nat) (s : User) (a : Assignment) (sub : Submission) (v : WorkbookCellValue).
Context (Hg : Settled held g) (Hs : roster (page g) !! i = Some s) (Ha : assignments !! j = Some a).
Context (Hsub : submissionFor (page g) (user_id s) (assignment_id a) = Some sub) (Hv : is_formula v = false).
Context (Hnew : typed v <> points_text (s_grade sub)).

Definition asked : Pending := mkPending (S i) (S (S j)) s a (typed v) (default 0 (assoc (score_key s a) (versions (univer g))) + 1).
Lemma s_listed : s ∈ roster (page g). Proof. by eapply list_elem_of_lookup_2. Qed.
Lemma a_listed : a ∈ assignments. Proof. by eapply list_elem_of_lookup_2. Qed.
Lemma points_not_dash o : grade_value (grade_text o) = grade_text o.
Proof.
  unfold grade_value. destruct (seqb _ _) eqn:E; [|done]. apply seqb_eq in E. destruct o as [n|]; [|done].
  pose proof (show_num_chars n) as Hc. cbn [grade_text] in E. rewrite E in Hc. by vm_compute in Hc.
Qed.
Lemma edited : exists u, handle assignments (edit i j v) g = set_univer u g /\ timers u = [(score_key s a, asked)] /\
  hydrated u = true /\ synchronizing u = false.
Proof.
  cbn [edit handle]. eexists. split; [reflexivity|]. rewrite (st_shown _ _ Hg). unfold value_changed.
  cbn [set_cells hydrated synchronizing]. rewrite (st_hydrated _ _ Hg), (st_synchronizing _ _ Hg). cbn [negb orb fold_left].
  cbn [one_cell r_sheet]. rewrite seqb_refl, touched_one by eauto using lookup_lt_Some. cbn [fold_left cell_changed].
  replace (S i - 1)%nat with i by lia. replace (S (S j) - 2)%nat with j by lia. rewrite Hs, Ha.
  unfold submitted. rewrite Hsub. cbn [negb]. cbn [write_cells fold_left set_cells cells fst snd gradeValues].
  rewrite (value_held _ _ _ v) by (apply held_set || done). fold (typed v).
  destruct (sy_values _ (st_synced _ _ Hg) i s j a) as [Hgv _]; [by rewrite (st_shown _ _ Hg)|done|].
  rewrite Hgv. cbn [default from_option id]. rewrite (st_shown _ _ Hg).
  assert (E : grade_value (value_of (page g) s a) = points_text (s_grade sub)).
  { unfold value_of, submitted. rewrite Hsub.
    destruct (so_agree _ _ (st_sound _ _ Hg) s a sub s_listed a_listed Hsub) as [-> _]. apply points_not_dash. }
  rewrite E. rewrite (proj2 (seqb_neq _ _) Hnew).
  cbn [set_timers timers set_values set_cells versions hydrated synchronizing]. rewrite (st_timers _ _ Hg).
  cbn [without_timer List.filter app]. split_and!; [done|apply (st_hydrated _ _ Hg)|apply (st_synchronizing _ _ Hg)].
Qed.

(** The timer runs out: what is then asked of the Host. *)
Definition wanted : option jsnum := points_of (explicit_of (typed v)).
Definition base_save : Save := mkSave sub a (score_key s a) (points_text (s_grade sub)) asked.
Lemma fired : let g1 := run assignments [edit i j v; Fire (score_key s a)] g in
  hydrated (univer g1) = true /\ changed g1 = true /\
  if acceptable a wanted
  then saves g1 = [base_save] /\ requests g1 = requests g ++ [request_of sub wanted] /\
       exists k st, page g1 = mkPage (roster (page g)) (byAssignment (page g)) (set_prop (score_key s a) (typed v) (scores (page g))) k st
  else saves g1 = [] /\ requests g1 = requests g /\
       exists k st, page g1 = mkPage (roster (page g)) (byAssignment (page g))
         (set_prop (score_key s a) (points_text (s_grade sub)) (set_prop (score_key s a) (typed v) (scores (page g)))) k st.
Proof.
  cbn [run fold_left]. destruct edited as (u & -> & Ht & Hh & _). cbn [handle]. unfold fire.
  cbn [univer set_univer]. rewrite Ht. cbn [assoc]. rewrite seqb_refl.
  unfold onScoreChange, saveScore. cbn [p_student p_assignment p_value asked]. fold wanted.
  cbn [shown set_univer set_score set_scores set_page set_changed]. rewrite (st_shown _ _ Hg), Hsub.
  destruct (acceptable a wanted).
  - cbn [fst snd set_saves sent set_status set_savingCell set_score set_scores set_changed set_univer set_timers set_page saves requests page univer hydrated changed shown].
    rewrite (st_saves _ _ Hg). split_and!; [done|done|done|done|]. eexists _, _. reflexivity.
  - set (g1 := set_score _ _ _). destruct (after_save_kept asked false g1) as (-> & _ & -> & -> & -> & ->).
    cbn [g1 set_score set_scores set_status set_page set_changed set_univer set_timers saves requests page univer hydrated changed].
    split_and!; [done|done|apply (st_saves _ _ Hg)|done|]. eexists _, _. reflexivity.
Qed.

Lemma refused : acceptable a wanted = false ->
  Settled held (run assignments ([edit i j v; Fire (score_key s a)] ++ redraw) g) /\
  requests (run assignments ([edit i j v; Fire (score_key s a)] ++ redraw) g) = requests g.
Proof.
  intros Hr. pose proof fired as Hf. rewrite Hr in Hf. unfold run in *. rewrite fold_left_app.
  set (g1 := fold_left _ _ g) in *. destruct Hf as (Hh & Hc & Hsv & Hrq & k & st & Hp). fold (run assignments redraw g1). split.
  - apply settle; [done..|]. rewrite Hp. apply sound_back; [apply (st_sound _ _ Hg)|apply s_listed|apply a_listed|done].
  - by destruct (redrawn g1) as (_ & _ & -> & _).
Qed.
Lemma accepted : acceptable a wanted = true ->
  let g1 := run assignments ([edit i j v; Fire (score_key s a)] ++ redraw) g in
  requests g1 = requests g ++ [request_of sub wanted] /\
  (forall gr, points gr = wanted ->
     Settled (now_holds held (submission_id sub) wanted) (run assignments (SaveAnswered 0 (Ok gr) :: redraw) g1)) /\
  (forall m, Settled held (run assignments (SaveAnswered 0 (Throw m) :: redraw) g1)).
Proof.
  intros Hr. pose proof fired as Hf. rewrite Hr in Hf. intros g1. unfold g1, run in *. rewrite fold_left_app.
  set (g0 := fold_left _ _ g) in *. destruct Hf as (Hh & Hc & Hsv & Hrq & k & st & Hp). clearbody g0.
  fold (run assignments redraw g0). destruct (redrawn g0) as (Ep & Es & Er & Eh).
  set (g2 := run assignments redraw g0) in *. clearbody g2. rewrite Hp in Ep. rewrite Hsv in Es.
  split; [by rewrite Er|]. split.
  - intros gr Hgr. cbn [fold_left handle]. unfold save_answered. rewrite Es. cbn [lookup list_lookup].
    set (g3 := set_savingCell _ _). destruct (after_save_kept (s_pending base_save) true g3) as (Ep3 & _ & Ec3 & Es3 & _ & Eh3).
    apply settle; [rewrite Eh3; cbn; congruence|rewrite Es3; done|rewrite Ec3; done|].
    rewrite Ep3, <- Hgr. cbn [g3 set_savingCell set_status set_byAssignment set_score set_scores set_page set_changed set_saves page
      roster byAssignment scores base_save s_key s_submission s_assignment]. rewrite Ep. cbn [roster byAssignment scores].
    apply (sound_graded held (page g)); [apply (st_sound _ _ Hg)|apply s_listed|apply a_listed|done].
  - intros m. cbn [fold_left handle]. unfold save_answered. rewrite Es. cbn [lookup list_lookup].
    set (g3 := set_savingCell _ _). destruct (after_save_kept (s_pending base_save) false g3) as (Ep3 & _ & Ec3 & Es3 & _ & Eh3).
    apply settle; [rewrite Eh3; cbn; congruence|rewrite Es3; done|rewrite Ec3; done|].
    rewrite Ep3. cbn [g3 set_savingCell set_status set_score set_scores set_page set_changed set_saves page
      roster byAssignment scores base_save s_key s_previous]. rewrite Ep. cbn [roster byAssignment scores].
    apply sound_back; [apply (st_sound _ _ Hg)|apply s_listed|apply a_listed|done].
Qed.
End settling.
End Settling.

Import Settling.

(** C30. One change of a submitted grade cell, from typing to rest: a value outside
    the range sends nothing and leaves sheet, page and Host as they were; a
    value within sends one request, and if the Host takes it, page and sheet
    show what the Host now holds; if the request fails, they show what it
    still holds. *)
Theorem one_edit_settles {W : Spreadsheet} {L : SpreadsheetLaws W} (assignments : list Assignment)
    (held : jstr -> option jsnum) (g : View) (i j : nat) (s : User) (a : Assignment) (sub : Submission) (v : WorkbookCellValue) :
  Settled assignments held g -> roster (page g) !! i = Some s -> assignments !! j = Some a ->
  submissionFor (page g) (user_id s) (assignment_id a) = Some sub -> is_formula v = false ->
  typed v <> points_text (s_grade sub) ->
  let g1 := run assignments ([edit i j v; Fire (score_key s a)] ++ redraw) g in
  let pts := wanted v in
  if acceptable a pts
  then requests g1 = requests g ++ [request_of sub pts] /\
       (forall gr, points gr = pts ->
          Settled assignments (now_holds held (submission_id sub) pts) (run assignments (SaveAnswered 0 (Ok gr) :: redraw) g1)) /\
       (forall m, Settled assignments held (run assignments (SaveAnswered 0 (Throw m) :: redraw) g1))
  else Settled assignments held g1 /\ requests g1 = requests g.
Proof.
  intros Hg Hs Ha Hsub Hv Hnew g1 pts. destruct (acceptable a pts) eqn:Hr.
  - by eapply accepted.
  - by eapply refused.
Qed.

Module SyncWitnesses.

Definition grid : Type := gmap (nat * nat) WorkbookCellValue.
#[local] Instance plain_sheet : Spreadsheet := {|
  Sheet := grid;
  held s r c := s !! (r, c);
  value_at s r c := s !! (r, c);
  set_value r c v s := <[(r, c) := v]> s;
  clear_content rows columns s := filter (fun e => ~ (fst (fst e) < rows /\ snd (fst e) < columns)%nat) s;
  clear_all _ := ∅
|}.
#[local] Instance plain_laws : SpreadsheetLaws plain_sheet.
Proof.
  split; cbn.
  - intros. apply lookup_insert_eq.
  - intros. by apply lookup_insert_ne.
  - done.
Qed.

Definition pupil (id name : jstr) : User := mkUser id name name Student None None None false [].
Definition ada := pupil (js "s1") (js "Ada").
Definition bob := pupil (js "s2") (js "Bob").
Definition essay : Assignment :=
  mkAssignment (js "a1") (js "c") (js "Room") (js "Essay") [] None (num 20) VNull Published [] [].
Definition handed_in (id student : jstr) : Submission :=
  mkSubmission id (js "a1") (js "Essay") student [] SSubmitted None None None [].
Definition grade_of (n : Z) : Grade := mkGrade (js "g") (Some (num n)) None [] true [].
Definition opened : View :=
  let p := mkPage [ada; bob] [(js "a1", [handed_in (js "w1") (js "s1"); handed_in (js "w2") (js "s2")])]
    [(score_key ada essay, []); (score_key bob essay, [])] [] [] in
  run [essay] redraw (mkView p p true false (mkUniver ∅ true false 2 [] [] [] []) [] []).
Definition five : WorkbookCellValue := CellNum (num 5).

Lemma opened_settled : Settled [essay] (fun _ => None) opened.
Proof.
  apply settle; [done..|]. cbn [page]. split.
  - split.
    + repeat (constructor; [split; by vm_compute|]). constructor.
    + constructor; [by vm_compute|constructor].
    + intros [|[|i]] s [|j] a [|[|i']] s' [|j'] a' Hs Ha Hs' Ha' Hk; try discriminate; simplify_eq/=; first [done|by vm_compute in Hk].
  - intros s a sub Hs Ha Hsub. apply elem_of_cons in Ha as [->|Ha]; [|by apply elem_of_nil in Ha].
    cbn [roster] in Hs. rewrite !elem_of_cons in Hs. destruct Hs as [->|[->|Hs]]; [..|by apply elem_of_nil in Hs]; vm_compute in Hsub;
      injection Hsub as <-; split; vm_compute; reflexivity.
  - intros a a' l l' x x' Hl Hl' Hx Hx' Hid. cbn in Hl, Hl'.
    destruct (seqb (js "a1") a) eqn:Ea; [|done]. destruct (seqb (js "a1") a') eqn:Ea'; [|done].
    apply seqb_eq in Ea as <-, Ea' as <-. simplify_eq. split; [done|].
    rewrite !elem_of_cons in Hx, Hx'. destruct Hx as [->|[->|Hx]], Hx' as [->|[->|Hx']];
      try done; try (by apply elem_of_nil in Hx); try (by apply elem_of_nil in Hx'); by vm_compute in Hid.
Qed.
Lemma one_edit_settles_witness :
  let g1 := run [essay] ([edit 0 0 five; Fire (score_key ada essay)] ++ redraw) opened in
  requests g1 = [request_of (handed_in (js "w1") (js "s1")) (Some (num 5))] /\
  Settled [essay] (now_holds (fun _ => None) (js "w1") (Some (num 5)))
    (run [essay] (SaveAnswered 0 (Ok (grade_of 5)) :: redraw) g1).
Proof.
  intros g1.
  assert (Hn : typed five <> points_text (s_grade (handed_in (js "w1") (js "s1")))) by (vm_compute; discriminate).
  pose proof (one_edit_settles [essay] (fun _ => None) opened 0 0 ada essay (handed_in (js "w1") (js "s1")) five
    opened_settled eq_refl eq_refl ltac:(vm_compute; reflexivity) eq_refl Hn) as H.
  assert (Ew : wanted five = Some (num 5)) by (vm_compute; reflexivity).
  cbv zeta in H. rewrite Ew in H.
  assert (Ea : acceptable essay (Some (num 5)) = true) by (vm_compute; reflexivity).
  rewrite Ea in H. destruct H as (Hr & Hok & _). split.
  - etransitivity; [exact Hr|]. vm_compute. reflexivity.
  - by apply Hok.
Defined.

Definition quick : list Event :=
  [edit 0 0 five; edit 1 0 five; Fire (score_key ada essay)] ++ redraw ++ SaveAnswered 0 (Ok (grade_of 5)) :: redraw.
Definition cell_of (g : View) (r c : nat) : option WorkbookCellValue := value_at (cells (univer g)) r c.

(** Bob's grade is typed before the half second of Ada's is over: when Ada's
    is saved the sheet is written anew, Bob's timer is stopped and his cell is
    empty again; nothing is sent and nothing is said. *)
Theorem quick_second_edit_lost :
  let g := run [essay] quick opened in
  cell_of (run [essay] (take 2 quick) opened) 2 2 = Some five /\
  (rq_submission <$> requests g) = [js "w1"] /\ timers (univer g) = [] /\ saves g = [] /\
  cell_of g 2 2 = Some CellNull /\ status (page g) = msg_saved.
Proof. vm_compute. repeat split; reflexivity. Qed.

(** An edit in the fifty milliseconds after the sheet was written stays in the
    cell but is not taken for one. *)
Theorem edit_while_writing_ignored :
  let g := run [essay] [Loaded (Ok (roster (page opened), byAssignment (page opened))); Render; Effect;
                        edit 0 0 five; SyncDone] opened in
  cell_of g 1 2 = Some five /\ timers (univer g) = [] /\ requests g = [] /\ changed g = false.
Proof. vm_compute. repeat split; reflexivity. Qed.

(** A first save fails after a second one of the same cell was taken: the page
    goes back to the score before both, which the Host no longer holds. *)
Definition late_failure : list Event :=
  [edit 0 0 five; Fire (score_key ada essay)] ++ redraw ++
  [edit 0 0 (CellNum (num 6)); Fire (score_key ada essay)] ++ redraw ++
  [SaveAnswered 1 (Ok (grade_of 6)); SaveAnswered 0 (Throw (js "The Host did not answer."))] ++ redraw.
Theorem late_failure_hides_grade :
  let g := run [essay] late_failure opened in
  assoc (score_key ada essay) (scores (page g)) = Some [] /\ cell_of g 1 2 = Some CellNull /\
  (sub ← submissionFor (page g) (js "s1") (js "a1"); gr ← s_grade sub; points gr) = Some (num 6).
Proof. vm_compute. repeat split; reflexivity. Qed.
End SyncWitnesses.
