(* ===== verification/PaperStudio.v ===== *)
(** * The studio of question papers ([QuestionPaperStudio] of
    apps/teacher/src/PapersView.tsx)

    [References] is the choice of sources and what is read from them;
    [Generation] the requests a new paper takes and what is kept of the
    answers; [Publishing] what becomes of a finished paper: an assignment, a
    quiz, an exported file.  Reading a PDF, the answers of the Host and the
    random choices are parameters. *)

From Stdlib Require Import QArith.
From S2P Require Import Prelude JsString JsNumber Regex JsValue Uri Types Api QuizManager GradebookSheet.
From S2P Require Import PaperExport PaperLogic PaperFacts PaperLibrary PaperHtml PaperEditing.
Import Csv Clean Normalise Json Text Records.
Local Open Scope Z_scope.

(** A failure: the message of an [Error], or something else that was thrown. *)
Abbreviation failure := (option jstr).
Definition said (otherwise : jstr) (f : failure) : jstr := default otherwise f.

(** ** Sources *)

Module References.

(** A file or a downloaded material. *)
Record Blob := mkBlob { size : Z; blob_type : jstr; data : jstr }.
Record ExtractedPdf := mkExtracted { text : jstr; included : list Z }.
Record LocalFile := mkLocalFile { file_name : jstr; contents : Blob }.

Definition number_sign (n : nat) : jstr := js "[Page " ++ show_Z (Z.of_nat n) ++ js "] ".
Definition page_text (items : list jstr) : jstr := trim (replace_runs is_space (js " ") (join (js " ") items)).
(** The loop over the pages, from page [n] on. *)
Fixpoint read_pages (n : nat) (rest : list (list jstr)) (pages : list jstr) (includedPages : list Z) : list jstr * list Z :=
  match rest with
  | [] => (pages, includedPages)
  | items :: rest' =>
    let text := page_text items in
    let '(pages, includedPages) :=
      if truthy text then (pages ++ [number_sign n ++ text], includedPages ++ [Z.of_nat n]) else (pages, includedPages) in
    if 24000 <=? jlen (join s_nl pages) then (pages, includedPages) else read_pages (S n) rest' pages includedPages
  end.

Section references.
(** What the PDF reader makes of a file: the text items of each page. *)
Context (open_pdf : Blob -> outcome failure (list (list jstr))).

Definition extractPdfText (blob : Blob) (name : jstr) : outcome failure ExtractedPdf :=
  if 25 * 1024 * 1024 <? size blob then Throw (Some (name ++ js " is larger than the 25 MB reference limit."))
  else if truthy (blob_type blob) && negb (seqb (blob_type blob) (js "application/pdf"))
  then Throw (Some (name ++ js " is an image, not a text PDF."))
  else
    pdf ← open_pdf blob;
    let '(pages, includedPages) := read_pages 1 (take 40 pdf) [] [] in
    let text := cut 24000 (join s_nl pages) in
    if truthy text then Ok (mkExtracted text includedPages)
    else Throw (Some (name ++ js " has no selectable text. Scanned PDFs need OCR before the AI can use them.")).

(** *** Choosing *)

(** [[...new Set(l)]]. *)
Definition unique (l : list jstr) : list jstr := rev (remove_dups (rev l)).
Record Feed := mkFeed { materials : list StudyNode; selected : list jstr; localFiles : list LocalFile }.
Inductive Choice :=
  | CheckMaterial (id : jstr) (checked : bool)
  | AddFiles (files : list LocalFile)
  | DropFile (i : nat)
  | SourceFetched (node : StudyNode) (nodes : list StudyNode)
  | TreeRead (nodes : option (list StudyNode))
  | ChangeClassroom.
Definition is_pdf (n : StudyNode) : bool := bool_decide (node_kind n = NPdf).
Definition choose (c : Choice) (f : Feed) : Feed :=
  match c with
  | CheckMaterial id true => mkFeed (materials f) (take 8 (unique (selected f ++ [id]))) (localFiles f)
  | CheckMaterial id false => mkFeed (materials f) (List.filter (fun x => negb (seqb x id)) (selected f)) (localFiles f)
  | AddFiles files => mkFeed (materials f) (selected f) (take 8 (localFiles f ++ files))
  | DropFile i => mkFeed (materials f) (selected f) (delete i (localFiles f))
  | SourceFetched node nodes =>
    mkFeed (List.filter is_pdf nodes) (take 8 (unique (selected f ++ [node_id node]))) (localFiles f)
  | TreeRead (Some nodes) => mkFeed (List.filter is_pdf nodes) (selected f) (localFiles f)
  | TreeRead None => mkFeed [] (selected f) (localFiles f)
  | ChangeClassroom => mkFeed (materials f) [] (localFiles f)
  end.
(** What [addOnlinePaper] says of a paper it has fetched. *)
Definition fetched_status (node : StudyNode) : jstr := node_name node ++ js " added as a reference.".
Definition find_material (id : jstr) (f : Feed) : option StudyNode := find (fun m => seqb (node_id m) id) (materials f).
(** The materials on offer. *)
Definition classroomMaterials (classroomId : jstr) (f : Feed) : list StudyNode :=
  List.filter (fun m => negb (truthy classroomId) || bool_decide (node_classroom_id m = Some classroomId) ||
                        negb (truthy (default [] (node_classroom_id m)))) (materials f).
(** The sources of figures: their ids and names. *)
Definition figureSources (f : Feed) : list (jstr * jstr) :=
  filter_map (fun id => m ← find_material id f; Some (id, node_name m)) (selected f) ++
  imap (fun i file => (js "local-" ++ show_Z (Z.of_nat i), file_name file)) (localFiles f).

(** *** Reading *)

Context (materialBlob : jstr -> outcome failure Blob).
Record Collected := mkCollected { references : list jstr; cited : list PaperSourceCitation; warnings : list jstr }.
Definition collect (name : jstr) (extracted : outcome failure ExtractedPdf) (c : Collected) : Collected :=
  match extracted with
  | Ok e => mkCollected (references c ++ [js "REFERENCE: " ++ name ++ s_nl ++ text e]) (cited c ++ [mkCitation name (included e)]) (warnings c)
  | Throw f => mkCollected (references c) (cited c) (warnings c ++ [said (name ++ js " could not be read.") f])
  end.
Definition collect_material (f : Feed) (c : Collected) (id : jstr) : Collected :=
  match find_material id f with
  | Some m => collect (node_name m) (blob ← materialBlob id; extractPdfText blob (node_name m)) c
  | None => c
  end.
Definition collect_file (c : Collected) (file : LocalFile) : Collected :=
  collect (file_name file) (extractPdfText (contents file) (file_name file)) c.
Definition collected (f : Feed) : Collected :=
  fold_left collect_file (localFiles f) (fold_left (collect_material f) (selected f) (mkCollected [] [] [])).

(** [draw i] is the random index below [i + 1]. *)
Definition swap (i j : nat) (l : list jstr) : list jstr :=
  match l !! i, l !! j with Some a, Some b => <[j := a]> (<[i := b]> l) | _, _ => l end.
Fixpoint shuffle_from (draw : nat -> nat) (i : nat) (l : list jstr) : list jstr :=
  match i with O => l | S i' => shuffle_from draw i' (swap i (draw i) l) end.
Definition shuffle (draw : nat -> nat) (l : list jstr) : list jstr := shuffle_from draw (length l - 1) l.
Definition perReferenceLimit (n : nat) : Z := Z.max 2400 (19000 / Z.max 1 (Z.of_nat n)).
Definition context_of (refs : list jstr) : jstr :=
  cut 19500 (join (js "

") (cut (Z.to_N (perReferenceLimit (length refs))) <$> refs)).

Record Gathered := mkGathered { context : jstr; gathered_sources : list PaperSourceCitation; gathered_warnings : list jstr }.
Definition collectReferences (draw : nat -> nat) (f : Feed) : outcome failure Gathered :=
  if (8 <? length (selected f) + length (localFiles f))%nat
  then Throw (Some (js "Select no more than eight PDF references for one paper."))
  else if 100 * 1024 * 1024 <? fold_left (fun total file => total + size (contents file)) (localFiles f) 0
  then Throw (Some (js "Local PDF references must be 100 MB or less in total."))
  else
    let c := collected f in
    if ((0 <? length (selected f)) || (0 <? length (localFiles f)))%nat && match references c with [] => true | _ => false end
    then Throw (Some (or_str (join (js " ") (warnings c)) (js "None of the selected references could be read.")))
    else Ok (mkGathered (context_of (shuffle draw (references c))) (cited c) (warnings c)).
End references.
End References.

(** ** Making a paper *)

Module Generation.
Import References.

Record Request := mkRequest { message : jstr; context : option jstr; max_tokens : Z }.
Inductive Section_ := OptionsSection | FeedSection | EditingSection.
Record Studio := mkStudio {
  fields : Fields; paperId : jstr; createdAt : jstr; editorView : Edits.View; workspaceSection : Section_;
  status : jstr; previewRevision : nat
}.
Definition with_status (m : jstr) (s : Studio) : Studio :=
  mkStudio (fields s) (paperId s) (createdAt s) (editorView s) (workspaceSection s) m (previewRevision s).
(** The paper and the citations of a generation. *)
Definition with_paper (p : GeneratedPaper) (cited : list PaperSourceCitation) (f : Fields) : Fields :=
  mkFields (title f) (classroomId f) (board f) (syllabusCode f) (difficulty f) (sourceMode f) (rightsConfirmed f)
    (questionCount f) (totalMarks f) (advanced f) p cited.

Section prompt.
Context (locale_number : Z -> jstr) (subject teacherBrief : jstr) (referenceCount : nat) (f : Fields).
Definition schema_line : jstr := (fun c => if (c =? 126)%N then 34%N else c) <$>
  js "Schema: {~instructions~:[~string~],~questions~:[{~id~:~q1~,~prompt~:~string~,~marks~:4,~answer~:~string~,~working_lines~:4,~source~:~filename, p. 2, Q3 (adapted)~,~scheme~:{~marking_points~:[{~text~:~string~,~marks~:2}],~accepted_alternatives~:[~string~],~guidance~:~string~},~subparts~:[{~label~:~a~,~prompt~:~string~,~marks~:2,~answer~:~string~,~working_lines~:2,~scheme~:{~marking_points~:[{~text~:~string~,~marks~:1}],~accepted_alternatives~:[~string~],~guidance~:~string~}}],~diagram~:null}]}".
Definition makeGenerationPrompt (repair : bool) : jstr :=
  trim (s_nl ++ join s_nl [
    (if repair then js "Repair the supplied draft and return a complete replacement." else js "Create a new classroom-ready examination paper.");
    js "Return ONLY valid JSON. Do not use Markdown fences or explanatory text.";
    schema_line;
    js "Always set diagram to null. Never redraw, infer or approximate an examination diagram. If a question depends on a figure, choose a different self-contained question; the teacher can attach the exact PNG or JPEG from the cited official source afterwards.";
    js "Every question needs a marking scheme. Marking points must sum to that question's marks, or to each subpart's marks where subparts exist. State the creditable point, not the whole answer. List accepted alternative wordings a student could reasonably write, and use guidance for partial credit and common errors. The marking scheme is for the teacher only; never repeat it in a prompt.";
    [];
    js "Paper specification:";
    js "- Board: " ++ boardName (board f) ++ js ".";
    js "- Subject: " ++ subject ++ js ".";
    js "- Syllabus code: " ++ or_str (trim (syllabusCode f)) (js "not provided") ++ js ".";
    js "- Difficulty: " ++ difficultyName (difficulty f) ++ js ". " ++ difficultyPrompt (difficulty f);
    js "- Exactly " ++ show_Z (questionCount f) ++ js " top-level questions and exactly " ++ show_Z (totalMarks f) ++ js " marks in total. A parent question's marks must equal the sum of its subpart marks.";
    js "- Year: " ++ or_str (trim (year (advanced f))) (js "current syllabus") ++ js "; session: " ++ or_str (trim (session (advanced f))) (js "not specified") ++ js "; paper or variant: " ++ or_str (trim (paperVariant (advanced f))) (js "not specified") ++ js ".";
    js "- Topics: " ++ or_str (trim (topics (advanced f))) (js "balanced coverage of the selected subject") ++ js ".";
    js "- Teacher brief: " ++ or_str (cut 2000 (trim teacherBrief)) (js "No additional brief") ++ js ".";
    js "- " ++ (if includeDiagrams (advanced f) then js "You may select questions that use official source diagrams only when a self-contained alternative is unavailable, but still set diagram to null for exact teacher attachment." else js "Choose only self-contained questions that do not require diagrams.");
    js "- Use board-appropriate command words, mathematical notation and mark allocation. Do not create elementary recall questions at an advanced setting.";
    js "- " ++ match sourceMode f with
     | MAdapt => js "References are evidence, not a licence to copy. Write original questions in the source's style and difficulty; adapt rather than reproduce long passages."
     | MExcerpt => js "The teacher has confirmed the school may reproduce this material, so exact question wording from a reference is permitted where it is the best question. Cite the filename, page and question number for every reused question."
     | MFullPage => js "The teacher has confirmed the school may reproduce whole pages of this material. Still write the question text out in full; whole pages are attached as images by the teacher, not described by you."
     end;
    js "- Never invent a filename, page or question number.";
    (if (1 <? referenceCount)%nat then js "- Multiple REFERENCE blocks are supplied. Draw questions across all of them, not just the first, weighted by the teacher brief and topics rather than by block order." else []);
    js "- Put answers only in answer fields. Never put an answer key in a prompt.";
    js "- Give enough working_lines for a student to solve each question.";
    js "- Keep prompts and answers concise enough for the complete JSON response to finish.";
    js "- Fit the complete JSON response within " ++ locale_number (maxOutputTokens (advanced f)) ++ js " output tokens. Prefer concise wording over an incomplete response.";
    js "- Use neutral, grammatical language when a person's pronouns are unknown."] ++ s_nl).
End prompt.

Section generate.
(** [syntax_message] is the engine's, [chat n] the Host's answer to the n-th
    request, [prompt] the text of [makeGenerationPrompt]. *)
Context (syntax_message : jstr -> jstr) (chat : nat -> outcome failure jstr) (prompt : bool -> jstr).

Definition parsed (content : jstr) : outcome failure GeneratedPaper :=
  match parseGeneratedPaperResponse syntax_message content with Ok p => Ok p | Throw e => Throw (Some e) end.
Definition as_requested (f : Fields) (p : GeneratedPaper) : bool :=
  (Z.of_nat (length (questions p)) =? questionCount f) && (paperTotalMarks p =? totalMarks f).
Definition counts_message (p : GeneratedPaper) : jstr :=
  s_nl ++ js "The draft has " ++ show_Z (Z.of_nat (length (questions p))) ++ js " questions and " ++
  show_Z (paperTotalMarks p) ++ js " marks. Correct both counts exactly.".
Definition structure_message (f : Fields) : jstr :=
  js "The AI could not meet the requested structure (" ++ show_Z (questionCount f) ++ js " questions, " ++
  show_Z (totalMarks f) ++ js " marks). No incomplete paper was saved.".

(** The requests that were made, and the paper or the failure. *)
Definition attempt (references : option jstr) (f : Fields) : list Request * outcome failure GeneratedPaper :=
  let tokens := maxOutputTokens (advanced f) in
  let repairOutputTokens := Z.max tokens 8192 in
  let first := mkRequest (prompt false) references tokens in
  match chat 0 with
  | Throw e => ([first], Throw e)
  | Ok content =>
    if negb (truthy (trim content)) then ([first], Throw (Some (js "The AI returned an empty paper.")))
    else
      let '(requests, drafted) :=
        match parsed content with
        | Ok p => ([first], Ok p)
        | Throw _ =>
          ([first; mkRequest (prompt true) (Some (cut 19500 (js "DRAFT TO REPAIR:" ++ s_nl ++ content))) repairOutputTokens],
           repair ← chat 1; parsed repair)
        end in
      match drafted with
      | Throw e => (requests, Throw e)
      | Ok p =>
        if as_requested f p then (requests, Ok p)
        else
          (requests ++ [mkRequest (prompt true ++ counts_message p) (Some (cut 19500 (stringify (paper_json p)))) repairOutputTokens],
           repair ← chat (length requests); p' ← parsed repair;
           if as_requested f p' then Ok p' else Throw (Some (structure_message f)))
      end
  end.

Definition failed (e : failure) (before : GeneratedPaper) (s : Studio) : Studio :=
  let m := said (js "The question paper could not be created.") e in
  with_status (match questions before with [] => m | _ => m ++ js " The current preview was left unchanged." end) s.
Definition saved_status (warnings : list jstr) : jstr :=
  match warnings with
  | [] => js "Paper and separate answer key saved. Review before printing."
  | _ => js "Paper saved. Some references were skipped: " ++ join (js " ") warnings
  end.

(** [gathered] is what [collectReferences] gave, [save] how the Host answers
    a save, [uuid] and [now] the id and the time a new paper gets.  The result:
    the studio, the requests and the record that was sent to the Host. *)
Context (classroom : option Classroom) (subject : jstr) (gathered : outcome failure Gathered)
  (save : jsval -> outcome failure unit) (uuid now : jstr).
Definition generate (s : Studio) : Studio * list Request * option jsval :=
  let f := fields s in
  match classroom with
  | None => (with_status (js "Choose a classroom before creating a paper.") s, [], None)
  | Some _ =>
    if totalMarks f <? questionCount f then (with_status (js "Total marks must be at least the number of questions.") s, [], None)
    else if negb (bool_decide (sourceMode f = MAdapt)) && negb (rightsConfirmed f) then
      (with_status (js "Confirm your school may reproduce this board's material, or switch back to adapted questions.") s, [], None)
    else
      match gathered with
      | Throw e => (failed e (paper f) s, [], None)
      | Ok g =>
        let '(requests, made) := attempt (if truthy (References.context g) then Some (References.context g) else None) f in
        match made with
        | Throw e => (failed e (paper f) s, requests, None)
        | Ok p =>
          let id := or_str (paperId s) uuid in
          let created := if truthy (paperId s) then createdAt s else now in
          let f' := with_paper p (gathered_sources g) f in
          let record := buildSavedPaper subject f' id created now in
          let s' := mkStudio f' id created Edits.QuestionView (workspaceSection s) [] (S (previewRevision s)) in
          (match save record with
           | Ok _ => mkStudio f' id created Edits.QuestionView EditingSection (saved_status (gathered_warnings g)) (S (previewRevision s))
           | Throw e => failed e (paper f) s'
           end, requests, Some record)
        end
      end
  end.
End generate.
End Generation.

(** ** What becomes of a paper *)

Module Publishing.

(** What is sent to the Host to publish: the file, then the assignment. *)
Inductive Post :=
  | UploadMaterial (classroom file_name : jstr) (file : Pdf)
  | CreateAssignment (input : jsval).
Definition assignment_json (f : Fields) (m : PaperMetadata) : jsval :=
  let marks := paperTotalMarks (paper f) in
  VObj [(js "classroom_id", VStr (classroomId f)); (js "title", VStr (meta_title m));
        (js "instructions", VStr (meta_title m ++ js " is in the class materials. " ++
           show_Z (Z.of_nat (length (questions (paper f)))) ++ js " questions, " ++ show_Z marks ++ js " marks."));
        (js "due_at", VNull); (js "max_points", VNum (num marks));
        (js "grading_scheme", VObj [(js "kind", VStr (js "points")); (js "max_points", VNum (num marks))]);
        (js "publish", VBool true)].

Section publishing.
Context `{Engine} (subject : jstr).

(** [post] is the Host's answer to each request: a failure ends the run. *)
Definition publishAsAssignment (post : Post -> outcome failure unit) (f : Fields) : list Post * jstr :=
  if negb (truthy (classroomId f)) then ([], js "Choose a classroom before publishing.")
  else
    let m := metadata subject f in
    let upload := UploadMaterial (classroomId f) (safeFilename (meta_title m) ++ js ".pdf")
                    (createPaperPdf m QuestionCopy (paper f)) in
    let assignment := CreateAssignment (assignment_json f m) in
    match post upload with
    | Throw e => ([upload], said (js "The paper could not be published.") e)
    | Ok _ =>
      match post assignment with
      | Throw e => ([upload; assignment], said (js "The paper could not be published.") e)
      | Ok _ => ([upload; assignment], js "Published as an assignment, with the paper in class materials.")
      end
    end.

Definition convertible (q : PaperQuestion) : bool :=
  Edits.no_subparts q && match diagram q with None => true | Some _ => false end && truthy (trim (q_answer q)).
Definition quiz_question (q : PaperQuestion) : QuizManager.QuizQuestionInput :=
  QuizManager.mkQuestion None QuizManager.ShortAnswer (q_prompt q) [] (VStr (q_answer q)) (num (q_marks q)) true.
Definition quiz_input (f : Fields) : QuizManager.Input :=
  QuizManager.mkInput (classroomId f) (meta_title (metadata subject f)) (join (js " ") (p_instructions (paper f)))
    (if durationMinutes (advanced f) =? 0 then None else Some (num (durationMinutes (advanced f))))
    (quiz_question <$> List.filter convertible (questions (paper f))).
Definition plural (n : nat) (s : jstr) : jstr := if Nat.eqb n 1 then [] else s.
Definition converted_status (title : jstr) (n skipped : nat) : jstr :=
  js "Quiz “" ++ title ++ js "” created with " ++ show_Z (Z.of_nat n) ++ js " question" ++ plural n (js "s") ++ js "." ++
  (if Nat.eqb skipped 0 then []
   else js " " ++ show_Z (Z.of_nat skipped) ++ js " question" ++ plural skipped (js "s") ++ js " with subparts or figures need" ++
        (if Nat.eqb skipped 1 then js "s" else []) ++ js " to be added by hand.") ++
  js " Marking guidance stays in this paper's marking scheme.".
(** [create] is the Host's answer: the title of the quiz it made. *)
Definition convertToQuiz (create : QuizManager.Input -> outcome failure jstr) (f : Fields) : option QuizManager.Input * jstr :=
  if negb (truthy (classroomId f)) then (None, js "Choose a classroom before making a quiz.")
  else
    match List.filter convertible (questions (paper f)) with
    | [] => (None, js "None of these questions convert automatically. Quizzes take single-answer questions without figures.")
    | chosen =>
      let input := quiz_input f in
      (Some input,
       match create input with
       | Ok title => converted_status title (length chosen) (length (questions (paper f)) - length chosen)
       | Throw e => said (js "The quiz could not be created.") e
       end)
    end.

(** *** Exported files *)

Definition copy_of (v : Edits.View) : Kind := match v with Edits.QuestionView => QuestionCopy | Edits.AnswerView => AnswerCopy end.
Definition activeLabel (v : Edits.View) : jstr :=
  match v with Edits.QuestionView => js "Question paper" | Edits.AnswerView => js "Marking scheme" end.
Definition activeFilename (v : Edits.View) (f : Fields) : jstr :=
  meta_title (metadata subject f) ++ match v with Edits.QuestionView => [] | Edits.AnswerView => js " answer key" end.
Definition exported (extension : Extension) (v : Edits.View) (f : Fields) : jstr :=
  let m := metadata subject f in
  match extension, v with
  | ETxt, Edits.QuestionView => questionPaperText m (paper f)
  | ETxt, Edits.AnswerView => answerKeyText m (paper f)
  | _, _ => paperHtml m (paper f) (copy_of v)
  end.
Definition exportPaper (isTauri : bool) (dialog : jstr -> option jstr) (extension : Extension) (v : Edits.View) (f : Fields) : Csv.Saved :=
  saveTextExport isTauri dialog (activeFilename v f) (exported extension v f) extension.
(** [searchOfficialPapers]: what is searched for. *)
Definition search_query (searchQuery : jstr) (f : Fields) : jstr :=
  or_str (trim searchQuery)
    (join (js " ") (nonempty [boardName (board f); trim (syllabusCode f); subject; trim (year (advanced f));
                              trim (session (advanced f)); js "past paper"])).
End publishing.
End Publishing.

(** ** Sources: what reaches the model *)

Module ReferenceFacts.
Import References Bounds.

Lemma swap_perm i j l : swap i j l ≡ₚ l.
Proof. unfold swap. destruct (l !! i) eqn:Ei, (l !! j) eqn:Ej; try done. by apply Permutation_insert_swap. Qed.
Lemma shuffle_perm draw l : shuffle draw l ≡ₚ l.
Proof.
  unfold shuffle. generalize (length l - 1)%nat. intros n. revert l. induction n as [|n IH]; intros l; cbn; [done|].
  by rewrite IH, swap_perm.
Qed.
Lemma join_length sep n xs : Forall (within n) xs -> jlen (join sep xs) <= Z.of_nat (length xs) * (Z.of_N n + jlen sep).
Proof.
  unfold jlen, within. induction 1 as [|x xs Hx _ IH]; [done|].
  destruct xs as [|y xs]; [cbn; lia|]. change (join sep (x :: y :: xs)) with (x ++ sep ++ join sep (y :: xs)).
  rewrite !length_app. cbn [length] in *. lia.
Qed.
Lemma limit_fits n : (n <= 8)%nat -> Z.of_nat n * (perReferenceLimit n + 2) <= 19500.
Proof. unfold perReferenceLimit. intros H. do 9 (destruct n as [|n]; [vm_compute; discriminate|]). lia. Qed.

Section collected.
Context (open_pdf : Blob -> outcome failure (list (list jstr))) (materialBlob : jstr -> outcome failure Blob).
(** A reference and its citation. *)
Definition cites (r : jstr) (s : PaperSourceCitation) : Prop := exists t, r = js "REFERENCE: " ++ source_name s ++ s_nl ++ t.
Definition consistent (n : nat) (c : Collected) : Prop := Forall2 cites (references c) (cited c) /\ (length (references c) <= n)%nat.
Lemma collect_consistent name e n c : consistent n c -> consistent (S n) (collect name e c).
Proof.
  intros [H2 Hn]. destruct e as [e|f]; [|split; [done|cbn; lia]]. split; cbn.
  - apply Forall2_app; [done|]. constructor; [by exists (text e)|constructor].
  - rewrite length_app. cbn. lia.
Qed.
Lemma collected_consistent f : consistent (length (selected f) + length (localFiles f)) (collected open_pdf materialBlob f).
Proof.
  unfold collected.
  assert (Hm : forall ids n c, consistent n c -> consistent (n + length ids) (fold_left (collect_material open_pdf materialBlob f) ids c)).
  { induction ids as [|id ids IH]; intros n c Hc; cbn; [by rewrite Nat.add_0_r|]. rewrite <- Nat.add_succ_comm. apply IH.
    unfold collect_material. destruct (find_material id f); [by apply collect_consistent|]. destruct Hc. split; [done|lia]. }
  assert (Hl : forall fs n c, consistent n c -> consistent (n + length fs) (fold_left (collect_file open_pdf) fs c)).
  { induction fs as [|x fs IH]; intros n c Hc; cbn; [by rewrite Nat.add_0_r|]. rewrite <- Nat.add_succ_comm. apply IH.
    by apply collect_consistent. }
  apply Hl, (Hm (selected f) 0%nat). split; [constructor|cbn; lia].
Qed.

(** Every source that could be read is represented: whatever the random
    order, the context is the beginnings of all of them, each of the same
    limit of at least 2,400 characters and named, and the final cut removes
    nothing.  The citations are exactly these sources. *)
Theorem references_represented (draw : nat -> nat) (f : Feed) (g : Gathered)
    (Hg : collectReferences open_pdf materialBlob draw f = Ok g) :
  let refs := references (collected open_pdf materialBlob f) in
  exists order, order ≡ₚ refs /\ Forall2 cites refs (gathered_sources g) /\
    context g = join (s_nl ++ s_nl) (cut (Z.to_N (perReferenceLimit (length refs))) <$> order) /\
    2400 <= perReferenceLimit (length refs).
Proof.
  cbv zeta. unfold collectReferences in Hg.
  destruct (8 <? length (selected f) + length (localFiles f))%nat eqn:E8; [done|]. destruct (_ <? fold_left _ _ _) eqn:E100; [done|].
  destruct (_ && _) eqn:Er; [done|]. injection Hg as <-. cbn [context gathered_sources].
  destruct (collected_consistent f) as [H2 Hn]. set (refs := references (collected open_pdf materialBlob f)) in *.
  exists (shuffle draw refs). split; [apply shuffle_perm|]. split; [exact H2|]. split; [|unfold perReferenceLimit; lia].
  unfold context_of. rewrite (Permutation_length (shuffle_perm draw refs)). apply take_ge.
  bool_hyps. pose proof (limit_fits (length refs) ltac:(lia)) as Hl.
  assert (Hw : Forall (within (Z.to_N (perReferenceLimit (length refs)))) (cut (Z.to_N (perReferenceLimit (length refs))) <$> shuffle draw refs))
    by (apply Forall_fmap, Forall_true; intros; apply cut_within).
  apply (join_length (s_nl ++ s_nl)) in Hw. rewrite length_fmap, (Permutation_length (shuffle_perm draw refs)) in Hw.
  change (js "

") with (s_nl ++ s_nl). unfold jlen in *. change (length (s_nl ++ s_nl)) with 2%nat in Hw.
  assert (0 <= perReferenceLimit (length refs)) by (unfold perReferenceLimit; lia).
  rewrite Z2N.id in Hw by done. change (N.to_nat 19500) with (Z.to_nat 19500). lia.
Qed.
End collected.
End ReferenceFacts.

(** ** A generated paper *)

Module GenerationFacts.
Import References Generation Bounds Responses.

Section generation.
Context (syntax_message : jstr -> jstr) (chat : nat -> outcome failure jstr) (prompt : bool -> jstr).
Context (classroom : option Classroom) (subject : jstr) (gathered : outcome failure Gathered)
  (save : jsval -> outcome failure unit) (uuid now : jstr).

Lemma parsed_ok content p : parsed syntax_message content = Ok p -> paper_ok p.
Proof.
  unfold parsed. pose proof (parse_outcome syntax_message content) as H.
  destruct (parseGeneratedPaperResponse syntax_message content); [|done]. by intros [= <-].
Qed.
Definition sound (f : Fields) (r : list Request * outcome failure GeneratedPaper) : Prop :=
  (length (fst r) <= 3)%nat /\ forall p, snd r = Ok p -> paper_ok p /\ as_requested f p = true.
Lemma attempt_sound references f : sound f (attempt syntax_message chat prompt references f).
Proof.
  unfold attempt, sound. destruct (chat 0) as [content|e]; [|split; [cbn; lia|done]].
  destruct (negb (truthy (trim content))); [split; [cbn; lia|done]|].
  set (draft := match parsed syntax_message content with Ok _ => _ | Throw _ => _ end).
  assert (Hd : (length (fst draft) <= 2)%nat /\ forall p, snd draft = Ok p -> paper_ok p).
  { subst draft. destruct (parsed syntax_message content) as [p|] eqn:Ep; cbn; (split; [lia|]).
    - intros q [= <-]. by eapply parsed_ok.
    - destruct (chat 1) as [c|]; [|done]. cbn. apply parsed_ok. }
  destruct draft as [reqs [p|e]]; cbn in Hd; [|split; [cbn; lia|done]]. destruct Hd as [Hl Hp]. specialize (Hp p eq_refl).
  destruct (as_requested f p) eqn:Ea; [split; [cbn; lia|]; by intros q [= <-]|].
  split; [cbn; rewrite length_app; cbn; lia|]. cbn [snd]. intros q Hq.
  destruct (chat (length reqs)) as [c|]; [|done]. cbn in Hq. destruct (parsed syntax_message c) as [p'|] eqn:Ep; [|done]. cbn in Hq.
  destruct (as_requested f p') eqn:Ea'; [|done]. injection Hq as <-. split; [by eapply parsed_ok|done].
Qed.

(** What a run of [generate] on [s] leaves. *)
Definition made_or_kept (s s' : Studio) (record : option jsval) : Prop :=
  match record with
  | Some r =>
    paper_ok (paper (fields s')) /\
    Z.of_nat (length (questions (paper (fields s')))) = questionCount (fields s) /\
    paperTotalMarks (paper (fields s')) = totalMarks (fields s) /\
    r = buildSavedPaper subject (fields s') (paperId s') (createdAt s') now /\
    paperId s' = or_str (paperId s) uuid
  | None => s' = with_status (status s') s
  end.
Lemma kept_status m s : made_or_kept s (with_status m s) None.
Proof. reflexivity. Qed.

(** C24. A paper that is generated is the paper that was asked for.  At most
    three requests are made; what is sent to the Host is within bounds, has
    exactly the questions and marks that were asked for and is what the studio
    shows; without a paper to send, nothing of the studio but its message
    changes. *)
Theorem generated_paper_as_requested (s s' : Studio) (requests : list Request) (record : option jsval)
    (Hg : generate syntax_message chat prompt classroom subject gathered save uuid now s = (s', requests, record)) :
  (length requests <= 3)%nat /\ made_or_kept s s' record.
Proof.
  assert (Hquit : forall m reqs, (with_status m s, reqs, @None jsval) = (s', requests, record) -> (length reqs <= 3)%nat ->
    (length requests <= 3)%nat /\ made_or_kept s s' record)
    by (intros m reqs E Hl; injection E as <- <- <-; split; [done|apply kept_status]).
  unfold generate in Hg. destruct classroom; [|apply (Hquit _ _ Hg); cbn; lia].
  destruct (totalMarks _ <? _); [apply (Hquit _ _ Hg); cbn; lia|].
  destruct (_ && _); [apply (Hquit _ _ Hg); cbn; lia|].
  destruct gathered as [g|e]; [|apply (Hquit _ _ Hg); cbn; lia].
  set (r := attempt syntax_message chat prompt _ (fields s)) in Hg.
  assert (Hs : sound (fields s) r) by apply attempt_sound.
  destruct r as [reqs [p|e]], Hs as [Hl Hp]; cbn [fst snd] in Hl, Hp; [|by apply (Hquit _ _ Hg)]. clear Hquit.
  destruct (Hp p eq_refl) as [Hok Hr]. unfold as_requested in Hr. bool_hyps. injection Hg as <- <- <-. split; [done|].
  unfold made_or_kept. destruct (save _); cbn [fields paperId createdAt failed with_status paper with_paper]; by split_and!.
Qed.
End generation.
End GenerationFacts.

(** ** A paper as a quiz *)

Module QuizFacts.
Import Bounds Publishing.

Section quiz.
Context `{Engine} (subject : jstr).

Lemma convertible_plain q : convertible q = true <-> subparts q = [] /\ diagram q = None /\ truthy (trim (q_answer q)) = true.
Proof. unfold convertible, Edits.no_subparts. destruct (subparts q), (diagram q); cbn; naive_solver. Qed.

Lemma filter_sublist {A} (p : A -> bool) l : List.filter p l `sublist_of` l.
Proof. induction l as [|x l IH]; cbn; [constructor|]. destruct (p x); by constructor. Qed.

(** A quiz made of a paper has exactly the paper's plain questions that
    have an answer, in their order, each asking for a short answer with the
    paper's prompt, answer and marks; it is one that the quiz editor would
    save, when the time allowed is at most three hours. *)
Theorem converted_quiz_faithful (create : QuizManager.Input -> outcome failure jstr) (f : Fields) (input : QuizManager.Input)
    (Hp : paper_ok (paper f)) (Hd : 10 <= durationMinutes (advanced f) <= 180)
    (Hc : fst (convertToQuiz subject create f) = Some input) :
  QuizManager.wf_input input /\ Forall QuizManager.answers_kind (QuizManager.in_questions input) /\
  QuizManager.in_questions input <> [] /\
  exists chosen, chosen `sublist_of` questions (paper f) /\
    (forall q, q ∈ chosen <-> q ∈ questions (paper f) /\ subparts q = [] /\ diagram q = None /\ truthy (trim (q_answer q)) = true) /\
    Forall2 (fun q i => QuizManager.q_kind i = QuizManager.ShortAnswer /\ QuizManager.prompt i = q_prompt q /\
      QuizManager.canonical_answer i = VStr (q_answer q) /\ QuizManager.max_points i = num (q_marks q)) chosen (QuizManager.in_questions input).
Proof.
  unfold convertToQuiz in Hc. destruct (truthy (classroomId f)); cbn [negb] in Hc; [|done].
  set (chosen := List.filter convertible (questions (paper f))) in Hc.
  assert (Hi : input = quiz_input subject f) by (destruct chosen; cbn in Hc; [done|congruence]).
  assert (Hne : chosen <> []) by (by destruct chosen). clear Hc. subst input.
  change (QuizManager.in_questions (quiz_input subject f)) with (quiz_question <$> chosen).
  assert (Hin : forall q, q ∈ chosen <-> q ∈ questions (paper f) /\ convertible q = true)
    by (intros q; unfold chosen; rewrite !list_elem_of_In; apply List.filter_In).
  split; [|split; [|split; [by destruct chosen|]]].
  - constructor; cbn [quiz_input QuizManager.in_title QuizManager.in_limit QuizManager.in_questions].
    + cbn [metadata meta_title]. unfold or_str. destruct (truthy _) eqn:E; [by apply truthy_true|done].
    + intros n. replace (durationMinutes (advanced f) =? 0) with false by lia. intros [= <-].
      exists (inject_Z (durationMinutes (advanced f))), (durationMinutes (advanced f)). split; [done|split; [reflexivity|lia]].
    + apply Forall_fmap, Forall_forall. intros q [Hq _]%Hin. destruct Hp as (_ & Hqs & _).
      rewrite Forall_forall in Hqs. destruct (Hqs q Hq) as (_ & [Hpr _] & _ & _ & _ & Hm & _). constructor; cbn; [done| |done].
      exists (inject_Z (q_marks q)). split; [done|]. unfold Qle. cbn. lia.
  - apply Forall_fmap, Forall_true. intros q. by exists (q_answer q).
  - exists chosen. split; [|split].
    + apply filter_sublist.
    + intros q. rewrite Hin, convertible_plain. tauto.
    + apply Forall2_fmap_r, Forall_Forall2_diag, Forall_true. done.
Qed.
End quiz.
End QuizFacts.

(** ** Runs *)

Module StudioRuns.
Import References ReferenceFacts Generation GenerationFacts Publishing QuizFacts EditingRuns.

Definition node (id name : jstr) : StudyNode := mkStudyNode id None None (Some (js "room")) name NPdf 0 None [] [].
Definition names : list jstr := (fun n => js "p" ++ show_Z (Z.of_nat n)) <$> seq 1 9.
Definition shelf : list StudyNode := (fun n => node n (n ++ js ".pdf")) <$> names.
(** Eight sources are chosen and a ninth is fetched: it is announced, and not
    among the sources. *)
Definition full_feed : Feed := mkFeed shelf (take 8 names) [].
Theorem ninth_source_dropped :
  let f := choose (SourceFetched (node (js "p9") (js "p9.pdf")) shelf) full_feed in
  fetched_status (node (js "p9") (js "p9.pdf")) = js "p9.pdf added as a reference." /\ existsb (seqb (js "p9")) (selected f) = false.
Proof. split; vm_compute; reflexivity. Qed.

Definition pages_of (b : Blob) : outcome failure (list (list jstr)) := Ok [[data b; js " of "; data b]; [[]]].
Definition stored_blob (id : jstr) : outcome failure Blob := Ok (mkBlob 1000 (js "application/pdf") id).
Definition two_sources : Feed := mkFeed shelf [js "p1"; js "p2"] [].
Lemma references_represented_witness :
  exists g, collectReferences pages_of stored_blob (fun _ => 0%nat) two_sources = Ok g /\
    let refs := references (collected pages_of stored_blob two_sources) in
    exists order, order ≡ₚ refs /\ Forall2 cites refs (gathered_sources g) /\
      References.context g = join (s_nl ++ s_nl) (cut (Z.to_N (perReferenceLimit (length refs))) <$> order) /\
      2400 <= perReferenceLimit (length refs).
Proof.
  destruct (collectReferences pages_of stored_blob (fun _ => 0%nat) two_sources) as [g|e] eqn:E; [|vm_compute in E; done].
  exists g. split; [done|]. exact (references_represented pages_of stored_blob (fun _ => 0%nat) two_sources g E).
Defined.

Definition room : Classroom := mkClassroom (js "room") (js "Physics") None [] [] [] [] [] 3 [].
Definition no_text (text : jstr) : jstr := js "Unexpected end of JSON input".
Definition studio : Studio := mkStudio (saved_fields two_questions) (js "p1") (js "t0") Edits.AnswerView FeedSection [] 0.
Definition other : GeneratedPaper :=
  mkPaper [] [mkQuestion (js "n1") (js "State a law.") 2 (js "F = ma") 2 [] None [] EMPTY_SCHEME;
              mkQuestion (js "n2") (js "Draw a ray.") 2 [] 4 [] (Some (mkDiagram (js "data:image/png;base64,AA==") [] (js "A lens"))) [] EMPTY_SCHEME].
(** The first answer has one question too few, the second is right. *)
Definition answers (n : nat) : outcome failure jstr :=
  match n with
  | O => Ok (stringify (paper_json (mkPaper [] (take 1 (questions other)))))
  | _ => Ok (stringify (paper_json other))
  end.
Definition prompt (repair : bool) : jstr := makeGenerationPrompt show_Z (js "Physics") [] 2 (saved_fields two_questions) repair.
Definition gathered : outcome failure Gathered := Ok (mkGathered (js "REFERENCE: a.pdf") [mkCitation (js "a.pdf") [1]] []).
Definition outcome_of (save : jsval -> outcome failure unit) : Studio * list Request * option jsval :=
  generate no_text answers prompt (Some room) (js "Physics") gathered save (js "new") (js "t9") studio.
Definition result (save : jsval -> outcome failure unit) : Studio := fst (fst (outcome_of save)).

Lemma generated_paper_as_requested_witness :
  match outcome_of (fun _ => Ok tt) with
  | (s', requests, record) => (length requests <= 3)%nat /\ made_or_kept (js "Physics") (js "new") (js "t9") studio s' record
  end /\ q_prompt <$> questions (paper (fields (result (fun _ => Ok tt)))) = [js "State a law."; js "Draw a ray."].
Proof.
  split; [|vm_compute; reflexivity]. destruct (outcome_of (fun _ => Ok tt)) as [[s' requests] record] eqn:E.
  exact (generated_paper_as_requested no_text answers prompt (Some room) (js "Physics") gathered (fun _ => Ok tt) (js "new") (js "t9") studio s' requests record E).
Defined.

(** When the new paper cannot be saved, the message says that the preview was
    left as it was, but the new paper has taken its place. *)
Theorem failed_save_replaces_preview :
  let s := result (fun _ => Throw (Some (js "Offline."))) in
  status s = js "Offline. The current preview was left unchanged." /\
  q_prompt <$> questions (paper (fields s)) <> q_prompt <$> questions (paper (fields studio)).
Proof. split; [vm_compute; reflexivity|vm_compute; discriminate]. Qed.

Definition made_quiz : Fields := with_paper other [] (saved_fields two_questions).
Lemma converted_quiz_faithful_witness :
  exists input, fst (convertToQuiz (js "Physics") (fun i => Ok (QuizManager.in_title i)) made_quiz) = Some input /\
    QuizManager.wf_input input /\ length (QuizManager.in_questions input) = 1%nat.
Proof.
  destruct (fst (convertToQuiz (js "Physics") (fun i => Ok (QuizManager.in_title i)) made_quiz)) as [input|] eqn:E; [|vm_compute in E; done].
  exists input. split; [done|]. split.
  - apply (converted_quiz_faithful (js "Physics") (fun i => Ok (QuizManager.in_title i)) made_quiz input); [|cbn; lia|exact E].
    apply (Bounds.normalize_ok (paper_json other)). vm_compute. reflexivity.
  - vm_compute in E. injection E as <-. reflexivity.
Defined.
End StudioRuns.
