(* ===== verification/Script.v ===== *)
(** * Asynchronous handlers

    An [async] function of the source as a value: it reads and changes what the
    components share ([W]), and stops at each [await] with what it waits for
    ([query]) and what it does with the answer.  [Ret], [Do] and [Look] run
    without interruption, as JavaScript does between two [await]s; while a
    script waits, any other may run.  [System] is a set of waiting scripts over
    one shared state, in the order in which they began to wait.

    [wp] describes a script that runs alone and is answered within [ok]; [safe]
    one that runs among others which keep an invariant [I] at every [await] and
    only move the state forward along [le]. *)

From S2P Require Import Prelude.

Declare Scope script_scope.
Delimit Scope script_scope with script.

Create HintDb script.

Section scripts.
Context {W query : Type} {answer : query -> Type}.

Inductive Script (A : Type) : Type :=
  | Ret (x : A)
  | Do (f : W -> W) (s : Script A)
  | Look (k : W -> Script A)
  | Ask (q : query) (k : answer q -> Script A).
#[global] Arguments Ret {A} x.
#[global] Arguments Do {A} f s.
#[global] Arguments Look {A} k.
#[global] Arguments Ask {A} q k.

Fixpoint bind {A B} (s : Script A) (f : A -> Script B) : Script B :=
  match s with
  | Ret x => f x
  | Do g s => Do g (bind s f)
  | Look k => Look (fun w => bind (k w) f)
  | Ask q k => Ask q (fun a => bind (k a) f)
  end.
Definition update (f : W -> W) : Script unit := Do f (Ret tt).
Definition get : Script W := Look Ret.
Definition ask (q : query) : Script (answer q) := Ask q Ret.

(** Up to the next [await] or the end. *)
Fixpoint advance {A} (s : Script A) (w : W) : W * Script A :=
  match s with
  | Do f s => advance s (f w)
  | Look k => advance (k w) w
  | _ => (w, s)
  end.

(** To the end, the environment answering the [n]th question by [env n]. *)
Fixpoint finish {A} (s : Script A) (env : nat -> forall q, answer q) (n : nat) (w : W) : A * W :=
  match s with
  | Ret x => (x, w)
  | Do f s => finish s env n (f w)
  | Look k => finish (k w) env n w
  | Ask q k => finish (k (env n q)) env (S n) w
  end.

Record System := mkSystem { world : W; waiting : list (Script unit) }.

Definition start (s : Script unit) (y : System) : System :=
  let '(w, s) := advance s (world y) in
  mkSystem w (match s with Ret _ => waiting y | _ => waiting y ++ [s] end).
Definition resume (i : nat) (o : forall q, answer q) (y : System) : System :=
  match waiting y !! i with
  | Some (Ask q k) => start (k (o q)) (mkSystem (world y) (delete i (waiting y)))
  | _ => y
  end.

(** ** Alone *)

Section alone.
Context (ok : forall q, answer q -> Prop).

Fixpoint wp {A} (s : Script A) (post : A -> W -> Prop) (w : W) : Prop :=
  match s with
  | Ret x => post x w
  | Do f s => wp s post (f w)
  | Look k => wp (k w) post w
  | Ask q k => forall a, ok q a -> wp (k a) post w
  end.

Lemma wp_bind {A B} (s : Script A) (f : A -> Script B) post w :
  wp (bind s f) post w <-> wp s (fun x w => wp (f x) post w) w.
Proof.
  revert w. induction s as [x|g s IH|k IH|q k IH]; intros w; cbn; [done|apply IH|apply IH|].
  split; intros H a Ha; by apply IH, H.
Qed.
Lemma wp_mono {A} (s : Script A) (post post' : A -> W -> Prop) w :
  (forall x w, post x w -> post' x w) -> wp s post w -> wp s post' w.
Proof. intros H. revert w. induction s as [x|g s IH|k IH|q k IH]; cbn; eauto. Qed.
Lemma wp_finish {A} (s : Script A) post env n w :
  (forall n q, ok q (env n q)) -> wp s post w -> post (fst (finish s env n w)) (snd (finish s env n w)).
Proof. intros Hok. revert n w. induction s as [x|g s IH|k IH|q k IH]; cbn; eauto. Qed.
End alone.

(** ** Among others *)

Section invariant.
Context (I : W -> Prop) (le : W -> W -> Prop) (ok : forall q, answer q -> Prop).
Context `{!PreOrder le}.

(** [w0] is the state the current uninterrupted stretch began in. *)
Fixpoint safe {A} (s : Script A) (post : A -> W -> W -> Prop) (w0 w : W) : Prop :=
  match s with
  | Ret x => post x w0 w
  | Do f s => safe s post w0 (f w)
  | Look k => safe (k w) post w0 w
  | Ask q k => (I w /\ le w0 w) /\ forall a w', ok q a -> I w' -> le w w' -> safe (k a) post w' w'
  end.

Definition kept : unit -> W -> W -> Prop := fun _ w0 w => I w /\ le w0 w.

Lemma safe_bind {A B} (s : Script A) (f : A -> Script B) post w0 w :
  safe s (fun x w0 w => safe (f x) post w0 w) w0 w -> safe (bind s f) post w0 w.
Proof.
  revert w0 w. induction s as [x|g s IH|k IH|q k IH]; intros w0 w; cbn; [done|apply IH|apply IH|].
  intros [H1 H2]. split; [done|]. intros a w' Ha Hw Hle. by apply IH, H2.
Qed.
Lemma safe_mono {A} (s : Script A) (post post' : A -> W -> W -> Prop) w0 w :
  (forall x w0 w, post x w0 w -> post' x w0 w) -> safe s post w0 w -> safe s post' w0 w.
Proof.
  intros H. revert w0 w. induction s as [x|g s IH|k IH|q k IH]; intros w0 w; cbn; [auto|apply IH|apply IH|].
  intros [H1 H2]. split; [done|]. intros a w' Ha Hw Hle. by apply IH, H2.
Qed.

(** What a waiting script may rely on: the state has only moved forward. *)
Definition ready (w : W) (s : Script unit) : Prop :=
  match s with
  | Ask q k => forall a w', ok q a -> I w' -> le w w' -> safe (k a) kept w' w'
  | _ => True
  end.
Definition sound (y : System) : Prop := I (world y) /\ Forall (ready (world y)) (waiting y).

Lemma ready_later w w' s : le w w' -> ready w s -> ready w' s.
Proof.
  destruct s as [x|g s|k|q k]; cbn; [done..|]. intros Hle H a w2 Ha Hw Hle2.
  apply H; [done|done|]. by transitivity w'.
Qed.
Lemma safe_advance s w0 w :
  safe s kept w0 w ->
  let '(w', s') := advance s w in (I w' /\ le w0 w') /\ ready w' s'.
Proof.
  revert w. induction s as [x|g s IH|k IH|q k IH]; intros w H; cbn in *; [done|by apply IH|by apply IH|exact H].
Qed.
Lemma start_sound s y : sound y -> safe s kept (world y) (world y) -> sound (start s y).
Proof.
  intros [Hi Hw] Hs. unfold start. apply safe_advance in Hs.
  destruct (advance s (world y)) as [w' s']. destruct Hs as [[Hi' Hle] Hr].
  assert (Forall (ready w') (waiting y)) by (eapply Forall_impl; [exact Hw|]; intros; by eapply ready_later).
  split; [done|]. cbn. destruct s'; [done|by apply Forall_app_2; [|apply Forall_singleton]..].
Qed.
Lemma resume_sound i o y : (forall q, ok q (o q)) -> sound y -> sound (resume i o y).
Proof.
  intros Ho Hy. unfold resume. destruct (waiting y !! i) as [[x|g s|k|q k]|] eqn:Ei; try done.
  destruct Hy as [Hi Hw].
  apply start_sound; [split; [done|by apply Forall_delete]|].
  eapply Forall_lookup_1 in Ei; [|exact Hw]. by apply Ei.
Qed.
End invariant.

(** *** Scripts that keep an invariant and answer within [R] *)

Section keeping.
Context (I : W -> Prop) (ok : forall q, answer q -> Prop).
Definition anyhow : W -> W -> Prop := fun _ _ => True.
#[export] Instance anyhow_preorder : PreOrder anyhow.
Proof. by split. Qed.

Definition keeps {A} (s : Script A) (R : A -> Prop) : Prop :=
  forall w0 w, I w -> safe I anyhow ok s (fun x _ w' => I w' /\ R x) w0 w.

Lemma keeps_bind {A B} (s : Script A) (f : A -> Script B) R R' :
  keeps s R -> (forall x, R x -> keeps (f x) R') -> keeps (bind s f) R'.
Proof.
  intros Hs Hf w0 w Hw. apply safe_bind. eapply safe_mono; [|by apply Hs].
  intros x w1 w2 [Hw2 Hx]. by apply Hf.
Qed.
Lemma keeps_ret {A} (x : A) (R : A -> Prop) : R x -> keeps (Ret x) R.
Proof. done. Qed.
Lemma keeps_get : keeps get I.
Proof. done. Qed.
Lemma keeps_ask q : keeps (ask q) (ok q).
Proof. intros w0 w Hw. cbn. split; [done|]. auto. Qed.
Lemma keeps_update f : (forall w, I w -> I (f w)) -> keeps (update f) (fun _ => True).
Proof. intros Hf w0 w Hw. cbn. auto. Qed.
Lemma keeps_do {A} f (s : Script A) R : (forall w, I w -> I (f w)) -> keeps s R -> keeps (Do f s) R.
Proof. intros Hf Hs w0 w Hw. by apply Hs, Hf. Qed.
Lemma keeps_wait {A} q (k : answer q -> Script A) R : (forall a, ok q a -> keeps (k a) R) -> keeps (Ask q k) R.
Proof. intros Hk w0 w Hw. cbn. split; [done|]. intros a w' Ha Hw' _. by apply Hk. Qed.
Lemma keeps_mono {A} (s : Script A) (R R' : A -> Prop) : keeps s R -> (forall x, R x -> R' x) -> keeps s R'.
Proof. intros Hs H w0 w Hw. eapply safe_mono; [|by apply Hs]. cbn. naive_solver. Qed.
Lemma keeps_resume i o y : (forall q, ok q (o q)) -> sound I anyhow ok y -> sound I anyhow ok (resume i o y).
Proof. apply resume_sound. exact _. Qed.
Lemma keeps_start s y : sound I anyhow ok y -> keeps s (fun _ => True) -> sound I anyhow ok (start s y).
Proof.
  intros Hy Hs. apply start_sound; [exact _|done|].
  eapply safe_mono; [|apply Hs, Hy]. cbn. naive_solver.
Qed.
End keeping.
End scripts.

#[export] Hint Resolve keeps_ret keeps_get keeps_ask keeps_update : script.

#[global] Arguments Script W {query} answer A : assert.
#[global] Arguments System W {query} answer : assert.

Notation "x <- s ;; k" := (bind s (fun x => k%script))
  (at level 100, s at next level, right associativity) : script_scope.
Notation "s ;; k" := (bind s (fun _ : unit => k%script)) (at level 100, right associativity) : script_scope.
Bind Scope script_scope with Script.
