(* ===== verification/StudentPages.v ===== *)
(** * Assignments in the earlier student app ([apps/student/src/App.tsx])

    [Lists] is what HomeView, ClassroomsView, AssignmentsView and FeedbackView
    list, with the badge and the due date of a row.  [Drafts] is the editor of
    AssignmentsView: its React state, the database of cache.ts and what it waits
    for.  The document editor is a source of texts; a change of a document is
    stored as soon as it is made, and requests to IndexedDB work in the order
    they are made in. *)

From stdpp Require Import gmap.
From S2P Require Import Prelude JsString JsNumber JsValue Locale Types Outbox.
Local Open Scope Z_scope.

Definition EMPTY_DOCUMENT : jsval :=
  VObj [(js "type", VStr (js "doc")); (js "content", VArr [VObj [(js "type", VStr (js "paragraph"))]])].

Definition Subs : Type := list (jstr * option Submission).
(** [submissions[id]]: [None] where it is absent or [null]. *)
Definition submission_of (id : jstr) (subs : Subs) : option Submission :=
  match find (fun p => seqb (fst p) id) subs with Some (_, s) => s | None => None end.
Definition published_grade (s : option Submission) : bool :=
  match s with Some s => match s_grade s with Some g => published g | None => false end | None => false end.

(** ** Lists *)

Module Lists.

Definition closed (a : Assignment) : bool := bool_decide (a_status a = Closed).
Definition open_assignments (l : list Assignment) : list Assignment := List.filter (fun a => negb (closed a)) l.
Definition completed_assignments (l : list Assignment) : list Assignment := List.filter closed l.
Definition upcoming (subs : Subs) (l : list Assignment) : list Assignment :=
  take 5 (List.filter (fun a => negb (closed a) && negb (published_grade (submission_of (assignment_id a) subs))) l).
Definition submitted_count (subs : Subs) : nat := length (List.filter (fun p => match snd p with Some _ => true | None => false end) subs).
Definition graded_count (subs : Subs) : nat := length (List.filter (fun p => published_grade (snd p)) subs).
(** The number at the Feedback page's name, none for zero. *)
Definition feedback_badge (subs : Subs) : option nat := match graded_count subs with O => None | n => Some n end.

Definition materials (room : Classroom) (nodes : list StudyNode) : list StudyNode :=
  List.filter (fun n => match node_owner_id n with None | Some [] => true | _ => false end &&
                        bool_decide (node_classroom_id n = Some (classroom_id room)) &&
                        bool_decide (node_kind n = NPdf)) nodes.
Definition room_assignments (room : Classroom) (l : list Assignment) : list Assignment :=
  List.filter (fun a => seqb (a_classroom_id a) (classroom_id room)) (open_assignments l).

Definition relativeDue `{Dates} (now : Z) (value : option jstr) : jstr :=
  match value with
  | None | Some [] => js "No deadline"
  | Some v =>
    match date_parse v with
    | None => js "Due in NaN days"
    | Some t =>
      let days := - ((now - t) / 86400000) in
      if days <? 0 then show_Z (Z.abs days) ++ js " day" ++ (if days =? -1 then [] else js "s") ++ js " late"
      else if days =? 0 then js "Due today"
      else if days =? 1 then js "Due tomorrow"
      else js "Due in " ++ show_Z days ++ js " days"
    end
  end.

Inductive Tone := Good | Warning | Accent | Neutral.
Definition status_name (s : SubmissionStatus) : jstr :=
  match s with
  | SDraft => js "draft" | SSubmitted => js "submitted" | SResubmitted => js "resubmitted"
  | SGraded => js "graded" | SWithdrawn => js "withdrawn"
  end.
Definition row_late `{Dates} (now : Z) (a : Assignment) (s : option Submission) : bool :=
  match due_at a, s with
  | Some ((_ :: _) as v), None => match date_parse v with Some t => t <? now | None => false end
  | _, _ => false
  end.
Definition row_badge `{Dates} (now : Z) (a : Assignment) (s : option Submission) : Tone * jstr :=
  let late := row_late now a s in
  (if closed a || published_grade s then Good else if late then Warning
   else match s with Some _ => Accent | None => Neutral end,
   if closed a then js "Completed"
   else if published_grade s then js "Graded"
   else match s with
        | Some s => status_name (s_status s)
        | None => if late then js "Late" else js "Open"
        end).

(** FeedbackView: the rows and the points of one. *)
Definition feedback_rows (subs : Subs) (l : list Assignment) : list (Assignment * Submission) :=
  filter_map (fun a => match submission_of (assignment_id a) subs with
                       | Some s => if published_grade (Some s) then Some (a, s) else None
                       | None => None
                       end) l.
Definition points_text (a : Assignment) (s : Submission) : jstr :=
  (match s_grade s with
   | Some g => match points g with Some n => show_num n | None => [8212%N] end
   | None => [8212%N]
   end) ++ js "/" ++ show_num (max_points a).

Lemma lists_partition l : open_assignments l ++ completed_assignments l ≡ₚ l.
Proof.
  induction l as [|a l IH]; [done|]. unfold open_assignments, completed_assignments in *. cbn.
  destruct (closed a); cbn; [|by rewrite IH]. by rewrite <- Permutation_middle, IH.
Qed.

Lemma ceil_days now t k : - ((now - t) / 86400000) = k <-> t + (k - 1) * 86400000 < t + (t - now) <= t + k * 86400000.
Proof.
  pose proof (Z.div_mod (now - t) 86400000 ltac:(lia)). pose proof (Z.mod_pos_bound (now - t) 86400000 ltac:(lia)).
  split; nia.
Qed.
(** "Due today" is work that was due within the last day; what is due within
    the next day, one minute ahead included, is "Due tomorrow". *)
Lemma overdue_is_due_today `{Dates} now v t :
  v <> [] -> date_parse v = Some t ->
  (t <= now < t + 86400000 -> relativeDue now (Some v) = js "Due today") /\
  (now < t <= now + 86400000 -> relativeDue now (Some v) = js "Due tomorrow").
Proof.
  intros Hv Ht. unfold relativeDue. destruct v as [|c v]; [done|]. rewrite Ht. split; intros Hn.
  - by rewrite (proj2 (ceil_days now t 0)) by lia.
  - by rewrite (proj2 (ceil_days now t 1)) by lia.
Qed.

End Lists.

(** ** The editor of AssignmentsView *)

Module Drafts.

(** What waits: the read of a draft (with what it will show), a draft being
    stored, a submission being queued, sent, its draft being removed, the
    reload of the workspace after it, and a withdrawal. *)
Inductive Proc :=
  | Reading (instance : Z) (doc : jsval) (text note : jstr)
  | Storing
  | Queueing
  | Handing (id : jstr) (edit : option Z)
  | Removing
  | Updating (withdrawn : bool)
  | Withdrawing.

(** [instance] counts the runs of the effect that opens a draft, [sent] are the
    submissions made, and [typed] is the last text typed or saved for each
    assignment, numbered, until that text is handed in; nothing reads [sent],
    [typed] and the number in [Handing]. *)
Record Page := mkPage {
  selected : option Assignment;
  document : jsval;
  text : jstr;
  status : jstr;
  busy : bool;
  draftReady : bool;
  instance : Z;
  online : bool;
  subs : Subs;
  db : Database;
  procs : list Proc;
  sent : list (jstr * jsval * jstr * option jstr);
  edits : Z;
  typed : gmap jstr (Z * (jsval * jstr))
}.
Definition set_selected (x : option Assignment) (g : Page) : Page := mkPage x (document g) (text g) (status g) (busy g) (draftReady g) (instance g) (online g) (subs g) (db g) (procs g) (sent g) (edits g) (typed g).
Definition set_document (x : jsval) (g : Page) : Page := mkPage (selected g) x (text g) (status g) (busy g) (draftReady g) (instance g) (online g) (subs g) (db g) (procs g) (sent g) (edits g) (typed g).
Definition set_text (x : jstr) (g : Page) : Page := mkPage (selected g) (document g) x (status g) (busy g) (draftReady g) (instance g) (online g) (subs g) (db g) (procs g) (sent g) (edits g) (typed g).
Definition set_status (x : jstr) (g : Page) : Page := mkPage (selected g) (document g) (text g) x (busy g) (draftReady g) (instance g) (online g) (subs g) (db g) (procs g) (sent g) (edits g) (typed g).
Definition set_busy (x : bool) (g : Page) : Page := mkPage (selected g) (document g) (text g) (status g) x (draftReady g) (instance g) (online g) (subs g) (db g) (procs g) (sent g) (edits g) (typed g).
Definition set_draftReady (x : bool) (g : Page) : Page := mkPage (selected g) (document g) (text g) (status g) (busy g) x (instance g) (online g) (subs g) (db g) (procs g) (sent g) (edits g) (typed g).
Definition set_instance (x : Z) (g : Page) : Page := mkPage (selected g) (document g) (text g) (status g) (busy g) (draftReady g) x (online g) (subs g) (db g) (procs g) (sent g) (edits g) (typed g).
Definition set_online (x : bool) (g : Page) : Page := mkPage (selected g) (document g) (text g) (status g) (busy g) (draftReady g) (instance g) x (subs g) (db g) (procs g) (sent g) (edits g) (typed g).
Definition set_subs (x : Subs) (g : Page) : Page := mkPage (selected g) (document g) (text g) (status g) (busy g) (draftReady g) (instance g) (online g) x (db g) (procs g) (sent g) (edits g) (typed g).
Definition set_db (x : Database) (g : Page) : Page := mkPage (selected g) (document g) (text g) (status g) (busy g) (draftReady g) (instance g) (online g) (subs g) x (procs g) (sent g) (edits g) (typed g).
Definition set_procs (x : list Proc) (g : Page) : Page := mkPage (selected g) (document g) (text g) (status g) (busy g) (draftReady g) (instance g) (online g) (subs g) (db g) x (sent g) (edits g) (typed g).
Definition set_sent (x : list (jstr * jsval * jstr * option jstr)) (g : Page) : Page := mkPage (selected g) (document g) (text g) (status g) (busy g) (draftReady g) (instance g) (online g) (subs g) (db g) (procs g) x (edits g) (typed g).
Definition set_edits (x : Z) (g : Page) : Page := mkPage (selected g) (document g) (text g) (status g) (busy g) (draftReady g) (instance g) (online g) (subs g) (db g) (procs g) (sent g) x (typed g).
Definition set_typed (x : gmap jstr (Z * (jsval * jstr))) (g : Page) : Page := mkPage (selected g) (document g) (text g) (status g) (busy g) (draftReady g) (instance g) (online g) (subs g) (db g) (procs g) (sent g) (edits g) x.
Definition spawn (p : Proc) (g : Page) : Page := set_procs (procs g ++ [p]) g.
Definition draft_key (id : jstr) : jstr := js "assignment-draft:" ++ id.
Definition store_draft (id : jstr) (doc : jsval) (t : jstr) (g : Page) : Page :=
  set_typed (<[id := (edits g, (doc, t))]> (typed g))
    (set_edits (edits g + 1) (set_db (cacheSet (draft_key id) (CachedDraft doc t) (db g)) g)).
(** The record of [typed] forgets what was handed in, and nothing newer. *)
Definition forget (id : jstr) (edit : option Z) (g : Page) : Page :=
  if bool_decide (fst <$> typed g !! id = edit) then set_typed (delete id (typed g)) g else g.

Definition or_nullish (v d : jsval) : jsval := match v with VNull | VUndef => d | _ => v end.
Definition cached_draft (id : jstr) (d : Database) : option (jsval * jstr) :=
  match cacheGet (draft_key id) d with Some (CachedDraft doc t) => Some (doc, t) | _ => None end.
Definition restored (id : jstr) (g : Page) : jsval * jstr * jstr :=
  let existing := submission_of id (subs g) in
  let version := match existing with Some s => s_version s | None => None end in
  let fallback := match version with Some v => or_nullish (doc_json v) EMPTY_DOCUMENT | None => EMPTY_DOCUMENT end in
  match cached_draft id (db g) with
  | Some (doc, t) => (or_nullish doc fallback, t, js "Local draft restored")
  | None => (fallback, match version with Some v => plaintext v | None => [] end,
             match existing with
             | Some _ => js "Submission v" ++ show_Z (match version with Some v => version_number v | None => 1 end)
             | None => js "New draft"
             end)
  end.

(** The dependencies of the effect, and its cleanup and next run. *)
Definition deps (g : Page) : option jstr * option jstr :=
  (assignment_id <$> selected g,
   match selected g with
   | Some a => match submission_of (assignment_id a) (subs g) with Some s => version_id <$> s_version s | None => None end
   | None => None
   end).
Definition preparing (g : Page) : Page :=
  set_status (js "Preparing a clean draft…") (set_text [] (set_document EMPTY_DOCUMENT (set_draftReady false g))).
Definition reopen (g : Page) : Page :=
  let next := set_instance (instance g + 1) g in
  match selected g with
  | None => next
  | Some a =>
    let '(doc, t, note) := restored (assignment_id a) next in
    spawn (Reading (instance next) doc t note) (preparing next)
  end.
Definition rendered (old g : Page) : Page := if bool_decide (deps old = deps g) then g else reopen g.

Definition type (doc : jsval) (t : jstr) (g : Page) : Page :=
  match selected g with
  | Some a =>
    spawn Storing (store_draft (assignment_id a) doc t
      (set_status (js "Saving draft…") (set_text t (set_document doc g))))
  | None => g
  end.
Definition save_request (g : Page) : Page :=
  match selected g with
  | Some a => spawn Storing (store_draft (assignment_id a) (document g) (text g) g)
  | None => g
  end.

Definition submit (now : jstr) (g : Page) : Page :=
  match selected g with
  | None => g
  | Some a =>
    let id := assignment_id a in
    if negb (truthy (trim (text g))) then g
    else if negb (online g)
    then spawn Queueing (set_busy true
           (set_db (queueOffline (mkEntry (js "submission:" ++ id)
              (SubmissionEntry (mkPayload id (document g) (text g) (js "Queued while offline"))) now) now (db g)) g))
    else spawn (Handing id (fst <$> typed g !! id)) (set_busy true
           (set_sent (sent g ++ [(id, document g, text g,
              match submission_of id (subs g) with Some _ => Some (js "Updated work") | None => None end)]) g))
  end.

Definition withdrawable (g : Page) : bool :=
  match selected g with
  | Some a => negb (Lists.closed a) &&
              match submission_of (assignment_id a) (subs g) with
              | Some s => negb (bool_decide (s_status s = SWithdrawn))
              | None => false
              end
  | None => false
  end.
Definition submittable (g : Page) : bool :=
  match selected g with
  | Some a => negb (Lists.closed a || busy g || negb (draftReady g) || negb (truthy (trim (text g))))
  | None => false
  end.

Definition answered (p : Proc) (r : outcome Failure unit) (g : Page) : Page :=
  match p, r with
  | Reading i doc t note, _ =>
    if i =? instance g
    then set_draftReady true (set_status note (set_text t (set_document doc g))) else g
  | Storing, _ => set_status (js "Draft saved on this computer") g
  | Queueing, _ => set_busy false (set_status (js "Queued—will submit when connected") g)
  | Handing id edit, Ok _ =>
    spawn Removing (forget id edit (set_db (cacheRemove (draft_key id) (db g)) g))
  | Removing, _ => spawn (Updating false) (set_status (js "Submitted successfully") g)
  | Updating withdrawn, _ =>
    set_busy false (if withdrawn : bool then set_status (js "Submission withdrawn") g else g)
  | Withdrawing, Ok _ => spawn (Updating true) g
  | Handing _ _, Throw _ | Withdrawing, Throw _ => set_busy false g
  end.

Inductive Event :=
  | Select (a : option Assignment)
  | Props (is_online : bool) (next : Subs)
  | Type_ (doc : jsval) (t : jstr)
  | SaveRequest
  | Submit (now : jstr)
  | Withdraw (confirmed : bool)
  | Answered (i : nat) (r : outcome Failure unit).

Definition editing (g : Page) : bool := draftReady g && match selected g with Some _ => true | None => false end.
Definition handle (e : Event) (g : Page) : Page :=
  match e with
  | Select a => rendered g (set_selected a g)
  | Props o l => rendered g (set_subs l (set_online o g))
  | Type_ doc t => if editing g && is_object doc then type doc t g else g
  | SaveRequest => if editing g then save_request g else g
  | Submit now => if submittable g then submit now g else g
  | Withdraw confirmed =>
    if withdrawable g && online g && negb (busy g) && confirmed then spawn Withdrawing (set_busy true g) else g
  | Answered i r =>
    match procs g !! i with
    | Some p => answered p r (set_procs (delete i (procs g)) g)
    | None => g
    end
  end.
Definition run (es : list Event) (g : Page) : Page := foldl (fun g e => handle e g) g es.
Definition opened (is_online : bool) (l : Subs) (d : Database) (kept : gmap jstr (Z * (jsval * jstr))) : Page :=
  mkPage None EMPTY_DOCUMENT [] (js "Draft saved on this computer") false false 0 is_online l d [] [] 0 kept.

(** *** Typed text is kept *)

Definition reading (p : Proc) : option Z := match p with Reading i _ _ _ => Some i | _ => None end.
Definition working (p : Proc) : option unit :=
  match p with Reading _ _ _ _ | Storing => None | _ => Some tt end.
Definition open_id (g : Page) : option jstr := assignment_id <$> selected g.
Definition solid (v : jsval) : Prop := v <> VNull /\ v <> VUndef.
(** What was typed for an assignment, if anything waits to be handed in, is [doc] and [t]. *)
Definition agrees (g : Page) (id : jstr) (doc : jsval) (t : jstr) : Prop :=
  forall k d u, typed g !! id = Some (k, (d, u)) -> doc = d /\ t = u.

(** [b]: whether one of the procs that keep the page busy is waiting. *)
Record Inv (b : bool) (g : Page) : Prop := {
  draft_kept : forall id, cached_draft id (db g) = snd <$> typed g !! id;
  shown_typed : draftReady g = true -> forall id, open_id g = Some id -> agrees g id (document g) (text g);
  read_typed : forall i d t n, Reading i d t n ∈ procs g ->
    i <= instance g /\ solid d /\
    (i = instance g -> draftReady g = false /\ exists id, open_id g = Some id /\ agrees g id d t);
  reads_apart : NoDup (filter_map reading (procs g));
  one_at_work : length (filter_map working (procs g)) = if b then 1%nat else 0%nat;
  handing_typed : forall id e, Handing id e ∈ procs g ->
    forall k x, typed g !! id = Some (k, x) -> e = Some k;
  solid_document : solid (document g);
  solid_typed : forall id k d t, typed g !! id = Some (k, (d, t)) -> solid d
}.

Lemma or_solid v d : solid v -> or_nullish v d = v.
Proof. intros [H1 H2]. by destruct v. Qed.
Lemma or_nullish_solid v d : solid d -> solid (or_nullish v d).
Proof. intros Hd. by destruct v. Qed.
Lemma object_solid v : is_object v = true -> solid v.
Proof. by destruct v. Qed.
Lemma draft_key_inj i j : draft_key i = draft_key j -> i = j.
Proof. apply app_inv_head. Qed.

Lemma cached_set id id' doc t d :
  cached_draft id' (cacheSet (draft_key id) (CachedDraft doc t) d) =
    if bool_decide (id' = id) then Some (doc, t) else cached_draft id' d.
Proof.
  unfold cached_draft, cacheGet, cacheSet. cbn [cache]. case_bool_decide as E.
  - subst. by rewrite lookup_insert_eq.
  - rewrite lookup_insert_ne; [done|]. by intros ->%draft_key_inj.
Qed.
Lemma cached_remove id id' d :
  cached_draft id' (cacheRemove (draft_key id) d) = if bool_decide (id' = id) then None else cached_draft id' d.
Proof.
  unfold cached_draft, cacheGet, cacheRemove. cbn [cache]. case_bool_decide as E.
  - subst. by rewrite lookup_delete_eq.
  - rewrite lookup_delete_ne; [done|]. by intros ->%draft_key_inj.
Qed.

Lemma restored_typed b g id :
  Inv b g -> let '(d, t, _) := restored id g in solid d /\ agrees g id d t.
Proof.
  intros Hg. unfold restored.
  set (fallback := match match submission_of id (subs g) with Some s => s_version s | None => None end with
                   | Some v => _ | None => _ end).
  assert (Hf : solid fallback) by (unfold fallback; destruct (match submission_of id (subs g) with Some s => s_version s | None => None end);
    [by apply or_nullish_solid|done]).
  rewrite (draft_kept b g Hg). destruct (typed g !! id) as [[k [d t]]|] eqn:Et; csimpl.
  - pose proof (solid_typed b g Hg id k d t Et) as Hs. rewrite or_solid by done.
    split; [done|]. intros k' d' t' Ht. rewrite Et in Ht. by simplify_eq.
  - split; [done|]. intros k' d' t' Ht. by rewrite Et in Ht.
Qed.

Lemma inv_spawn b g p :
  Inv b g -> reading p = None -> working p = None -> Inv b (spawn p g).
Proof.
  intros Hg Hr Hw. destruct Hg as [H1 H2 H3 H4 H5 H6 H7 H8].
  constructor; cbn [spawn set_procs procs db typed draftReady document text instance]; try done.
  - intros i d t n [Hin|Hin%list_elem_of_singleton]%elem_of_app; [by apply H3 in Hin|by subst].
  - rewrite filter_map_app. cbn. by rewrite Hr, app_nil_r.
  - rewrite filter_map_app. cbn. by rewrite Hw, app_nil_r.
  - intros id e [Hin|Hin%list_elem_of_singleton]%elem_of_app; [by apply H6|by subst].
Qed.
Lemma draft_taken b g i p :
  procs g !! i = Some p -> Inv b g ->
  Inv (match working p with Some _ => false | None => b end) (set_procs (delete i (procs g)) g).
Proof.
  intros Hi [H1 H2 H3 H4 H5 H6 H7 H8].
  assert (Hp : procs g ≡ₚ p :: delete i (procs g)) by by apply delete_Permutation.
  assert (Hsub : forall q, q ∈ delete i (procs g) -> q ∈ procs g) by (intros q Hq; rewrite Hp; by right).
  constructor; cbn [set_procs procs db typed draftReady document text instance]; try done.
  - intros j d t n Hin. exact (H3 _ _ _ _ (Hsub _ Hin)).
  - rewrite (filter_map_perm reading _ _ Hp) in H4. cbn in H4. destruct (reading p); [by inversion H4|done].
  - rewrite (filter_map_perm working _ _ Hp) in H5. cbn in H5. destruct (working p); [|done].
    cbn in H5. destruct b; [lia|done].
  - intros id e Hin. by apply H6, Hsub.
Qed.

(** A proc that keeps the page busy, when none does. *)
Lemma inv_work g p :
  Inv false g -> working p = Some tt -> reading p = None ->
  (forall id e, p = Handing id e -> e = fst <$> typed g !! id) ->
  Inv true (spawn p g).
Proof.
  intros [H1 H2 H3 H4 H5 H6 H7 H8] Hw Hr Hp.
  constructor; cbn [spawn set_procs procs db typed draftReady document text instance]; try done.
  - intros i d t n [Hin|Hin%list_elem_of_singleton]%elem_of_app; [exact (H3 _ _ _ _ Hin)|by subst].
  - rewrite filter_map_app. cbn. by rewrite Hr, app_nil_r.
  - rewrite filter_map_app, length_app, H5. cbn. by rewrite Hw.
  - intros id e [Hin|Hin%list_elem_of_singleton]%elem_of_app; [by apply H6|]. subst.
    rewrite (Hp id e eq_refl). by intros k x ->.
Qed.

(** Storing what is shown, or a new text, while nothing is handed in. *)
Lemma inv_store g g1 id :
  Inv false g -> draftReady g = true -> open_id g = Some id -> solid (document g1) ->
  (procs g1, db g1, typed g1, instance g1, draftReady g1, open_id g1) =
    (procs g, db g, typed g, instance g, draftReady g, open_id g) ->
  Inv false (store_draft id (document g1) (text g1) g1).
Proof.
  intros [H1 H2 H3 H4 H5 H6 H7 H8] Hr Ho Hd [= E1 E2 E3 E4 E5 E6].
  assert (Hopen : forall d t, open_id (store_draft id d t g1) = Some id) by (intros; rewrite <- Ho, <- E6; done).
  constructor; cbn [store_draft set_typed set_edits set_db procs db typed draftReady document text instance edits];
    rewrite ?E1, ?E2, ?E3, ?E4, ?E5; try done.
  - intros id'. rewrite cached_set. case_bool_decide as E.
    + subst. by rewrite lookup_insert_eq.
    + by rewrite lookup_insert_ne by done.
  - intros _ id' Ho' k d u. rewrite Hopen in Ho'. injection Ho' as <-.
    cbn [store_draft set_typed typed]. rewrite lookup_insert_eq. by intros [= _ <- <-].
  - intros i d u n Hin. destruct (H3 i d u n Hin) as (Hle & Hs & Hcur). split; [done|]. split; [done|].
    intros Hi. destruct (Hcur Hi) as [Hf _]. by rewrite Hf in Hr.
  - intros id' e Hin. exfalso. apply list_elem_of_split in Hin as (l1 & l2 & El). rewrite El in H5.
    rewrite filter_map_app, length_app in H5. cbn in H5. lia.
  - intros id' k d u. destruct (decide (id' = id)) as [->|Hne].
    + rewrite lookup_insert_eq. by intros [= _ <- _].
    + rewrite lookup_insert_ne by done. apply H8.
Qed.

Lemma inv_reopen b old g :
  Inv b old -> (procs g, db g, typed g, instance g, document g) = (procs old, db old, typed old, instance old, document old) ->
  Inv b (reopen g).
Proof.
  intros [H1 H2 H3 H4 H5 H6 H7 H8] [= E1 E2 E3 E4 E5]. unfold reopen.
  assert (Hread : forall i d t n, Reading i d t n ∈ procs g -> i <= instance g /\ solid d).
  { intros i d t n Hin. rewrite E1 in Hin. rewrite E4. by destruct (H3 i d t n Hin) as (? & ? & _). }
  clear H2 H3. rewrite <- E2, <- E3 in H1. rewrite <- E1 in H4, H5, H6. rewrite <- E3 in H6, H8. rewrite <- E5 in H7.
  assert (Hold : forall i d t n, Reading i d t n ∈ procs g -> i <> instance g + 1).
  { intros i d t n Hin. apply Hread in Hin as [? _]. lia. }
  assert (Hset : Inv b (set_selected None (set_instance (instance g + 1) g))).
  { constructor; cbn [set_selected]; cbn [set_instance procs db typed draftReady document text instance]; try done.
    intros i d t n Hin. destruct (Hread i d t n Hin) as (Hle & Hs).
    split; [change (i <= instance g + 1); lia|]. split; [done|]. intros E. by apply Hold in Hin. }
  cbn zeta. destruct (selected g) as [a|] eqn:Ea.
  2: { replace (set_instance (instance g + 1) g) with (set_selected None (set_instance (instance g + 1) g)); [exact Hset|].
       destruct g; cbn in *. by subst. }
  pose proof (restored_typed b _ (assignment_id a) Hset) as Hrest.
  change (restored (assignment_id a) (set_selected None (set_instance (instance g + 1) g)))
    with (restored (assignment_id a) (set_instance (instance g + 1) g)) in Hrest.
  destruct (restored (assignment_id a) (set_instance (instance g + 1) g)) as [[doc t] note].
  destruct Hrest as [Hsd Hag].
  constructor; cbn [spawn preparing set_instance set_status set_text set_document set_draftReady set_procs procs db typed draftReady
                    document text instance]; try done.
  - intros i d u n [Hin|Hin%list_elem_of_singleton]%elem_of_app.
    + destruct (Hread i d u n Hin) as (Hle & Hs). split; [lia|]. split; [done|]. intros E. by apply Hold in Hin.
    + simplify_eq. split; [lia|]. split; [done|]. intros _. split; [done|]. exists (assignment_id a).
      split; [by unfold open_id; cbn; rewrite Ea|exact Hag].
  - rewrite filter_map_app. cbn. apply NoDup_app. split; [done|]. split; [|apply NoDup_singleton].
    intros i (p & Hp & Hi)%elem_of_filter_map ->%list_elem_of_singleton.
    destruct p; try done. injection Hi as ->. by apply Hold in Hp.
  - rewrite filter_map_app. cbn. by rewrite app_nil_r.
  - intros id e [Hin|Hin%list_elem_of_singleton]%elem_of_app; [by apply H6|done].
Qed.
Lemma draft_same b g g1 :
  Inv b g ->
  (procs g1, cache (db g1), typed g1, instance g1, draftReady g1, open_id g1, document g1, text g1) =
    (procs g, cache (db g), typed g, instance g, draftReady g, open_id g, document g, text g) -> Inv b g1.
Proof.
  intros [H1 H2 H3 H4 H5 H6 H7 H8] [= E1 E2 E3 E4 E5 E6 E7 E8].
  constructor; unfold agrees in *; rewrite ?E1, ?E3, ?E4, ?E5, ?E6, ?E7, ?E8; try done.
  intros id. rewrite <- H1. unfold cached_draft, cacheGet. by rewrite E2.
Qed.
Lemma inv_rendered b old g :
  Inv b old ->
  (procs g, db g, typed g, instance g, draftReady g, document g, text g) =
    (procs old, db old, typed old, instance old, draftReady old, document old, text old) ->
  Inv b (rendered old g).
Proof.
  intros Ho [= E1 E2 E3 E4 E5 E6 E7]. unfold rendered. case_bool_decide as Hd.
  - eapply draft_same; [exact Ho|]. unfold deps in Hd. injection Hd as Hd _. unfold open_id. congruence.
  - eapply inv_reopen; [exact Ho|]. congruence.
Qed.

(** The [Reading] of the last run of the effect arrives. *)
Lemma inv_shown b g doc t note :
  Inv b g -> solid doc -> (forall id, open_id g = Some id -> agrees g id doc t) ->
  (forall d u n, Reading (instance g) d u n ∉ procs g) ->
  Inv b (set_draftReady true (set_status note (set_text t (set_document doc g)))).
Proof.
  intros [H1 H2 H3 H4 H5 H6 H7 H8] Hs Ha Hn.
  constructor; cbn [set_draftReady set_status set_text set_document procs db typed draftReady document text instance]; try done.
  intros i d u n Hin. destruct (H3 i d u n Hin) as (Hle & Hd & _). split; [done|]. split; [done|].
  intros ->. by apply Hn in Hin.
Qed.

Lemma inv_forgotten g id e :
  Inv false g -> (forall k x, typed g !! id = Some (k, x) -> e = Some k) ->
  Inv false (forget id e (set_db (cacheRemove (draft_key id) (db g)) g)).
Proof.
  intros [H1 H2 H3 H4 H5 H6 H7 H8] He.
  assert (Hless : forall id' y, delete id (typed g) !! id' = Some y -> typed g !! id' = Some y).
  { intros id' y. destruct (decide (id' = id)) as [->|]; [by rewrite lookup_delete_eq|by rewrite lookup_delete_ne]. }
  set (g1 := set_typed (delete id (typed g)) (set_db (cacheRemove (draft_key id) (db g)) g)).
  assert (Hg1 : Inv false g1).
  { constructor; unfold agrees; cbn [g1 set_typed set_db procs db typed draftReady document text instance]; try done.
    - intros id'. rewrite cached_remove. case_bool_decide; [subst; by rewrite lookup_delete_eq|].
      by rewrite lookup_delete_ne.
    - intros Hr id' Ho k d u Ht. by eapply H2, Hless.
    - intros i d t n Hin. destruct (H3 i d t n Hin) as (Hle & Hs & Hcur). split; [done|]. split; [done|].
      intros Hi. destruct (Hcur Hi) as (Hf & id' & Ho & Ha). split; [done|]. exists id'. split; [done|].
      intros k d' u Ht. by eapply Ha, Hless.
    - intros id' e' Hin k x Ht. by eapply H6, Hless.
    - intros id' k d t Ht. by eapply H8, Hless. }
  unfold forget. cbn [typed set_db]. case_bool_decide as E; [exact Hg1|].
  assert (Et : typed g !! id = None).
  { destruct (typed g !! id) as [[k x]|] eqn:Et; [|done]. destruct E. by rewrite (He k x eq_refl). }
  eapply draft_same; [exact Hg1|]. unfold g1. cbn [procs db typed instance draftReady document text set_typed set_db].
  by rewrite delete_id.
Qed.

Lemma busy_irrelevant b x g : Inv b g -> Inv b (set_busy x g).
Proof. intros H. by eapply draft_same. Qed.
Lemma status_irrelevant b x g : Inv b g -> Inv b (set_status x g).
Proof. intros H. by eapply draft_same. Qed.
Lemma inv_answered g i p r :
  procs g !! i = Some p -> Inv (busy g) g ->
  let g' := answered p r (set_procs (delete i (procs g)) g) in Inv (busy g') g'.
Proof.
  intros Hi Hg. pose proof (draft_taken _ _ _ _ Hi Hg) as Ht. destruct Hg as [H1 H2 H3 H4 H5 H6 H7 H8].
  assert (Hp : procs g ≡ₚ p :: delete i (procs g)) by by apply delete_Permutation.
  assert (Hin : p ∈ procs g) by by eapply list_elem_of_lookup_2.
  set (g1 := set_procs (delete i (procs g)) g) in *.
  assert (Hbusy : working p = Some tt -> busy g = true).
  { intros Hw. rewrite (filter_map_perm working _ _ Hp) in H5. cbn in H5. rewrite Hw in H5. by destruct (busy g). }
  destruct p as [j doc t note| | |id e| |w|]; cbn [answered working] in *; cbn zeta.
  - change (instance g1) with (instance g). destruct (Z.eqb_spec j (instance g)) as [->|Hj]; [|exact Ht].
    destruct (H3 _ _ _ _ Hin) as (_ & Hs & Hcur). destruct (Hcur eq_refl) as (_ & id & Ho & Ha).
    change (Inv (busy g) (set_draftReady true (set_status note (set_text t (set_document doc g1))))).
    apply inv_shown; [exact Ht|exact Hs| |].
    + intros id' Ho'. change (open_id g = Some id') in Ho'. rewrite Ho in Ho'. by injection Ho' as <-.
    + intros d u n Hr. rewrite (filter_map_perm reading _ _ Hp) in H4. cbn in H4. apply NoDup_cons in H4 as [Hn _].
      apply Hn, elem_of_filter_map. by exists (Reading (instance g) d u n).
  - by apply status_irrelevant.
  - by apply busy_irrelevant, status_irrelevant.
  - destruct r as [[]|f]; [|by apply busy_irrelevant].
    change (busy _) with (busy (forget id e (set_db (cacheRemove (draft_key id) (db g1)) g1))).
    assert (Hb : busy (forget id e (set_db (cacheRemove (draft_key id) (db g1)) g1)) = true).
    { unfold forget. by case_bool_decide; apply Hbusy. }
    rewrite Hb. apply inv_work; [|done..]. apply inv_forgotten; [exact Ht|exact (H6 _ _ Hin)].
  - change (busy _) with (busy g). rewrite Hbusy by done. apply inv_work; [by apply status_irrelevant|done..].
  - destruct w; [by apply busy_irrelevant, status_irrelevant|by apply busy_irrelevant].
  - destruct r as [[]|f]; [|by apply busy_irrelevant].
    change (busy _) with (busy g). rewrite Hbusy by done. by apply inv_work.
Qed.

(** Nothing is typed or saved while work is being handed in or taken back. *)
Definition patient (e : Event) (g : Page) : Prop :=
  match e with Type_ _ _ | SaveRequest => busy g = false | _ => True end.
Definition step (g g' : Page) : Prop := exists e, patient e g /\ g' = handle e g.
Definition reachable : Page -> Page -> Prop := rtc step.

Fixpoint all_patient (es : list Event) (g : Page) : Prop :=
  match es with [] => True | e :: es => patient e g /\ all_patient es (handle e g) end.
Lemma draft_run es g : all_patient es g -> reachable g (run es g).
Proof.
  revert g. induction es as [|e es IH]; intros g H; [by apply rtc_refl|]. destruct H as [He Hes].
  eapply rtc_l; [by exists e|]. by apply IH.
Qed.

Lemma editing_open g : editing g = true -> exists a, selected g = Some a /\ draftReady g = true.
Proof. unfold editing. destruct (selected g) as [a|]; [|by rewrite andb_false_r]. intros [? _]%andb_true_iff. by exists a. Qed.
Lemma inv_stored g g1 a :
  Inv false g -> selected g = Some a -> draftReady g = true -> solid (document g1) ->
  (procs g1, db g1, typed g1, instance g1, draftReady g1, open_id g1) =
    (procs g, db g, typed g, instance g, draftReady g, open_id g) ->
  busy g1 = false ->
  let g2 := spawn Storing (store_draft (assignment_id a) (document g1) (text g1) g1) in Inv (busy g2) g2.
Proof.
  intros Hg Ha Hr Hd Hsame Hb g2. change (busy g2) with (busy g1). rewrite Hb. apply inv_spawn; [|done..].
  eapply inv_store; [exact Hg|exact Hr| |exact Hd|exact Hsame]. unfold open_id. by rewrite Ha.
Qed.
Lemma draft_handled e g : patient e g -> Inv (busy g) g -> Inv (busy (handle e g)) (handle e g).
Proof.
  assert (Hren : forall old g1, busy (rendered old g1) = busy g1).
  { intros old g1. unfold rendered, reopen. case_bool_decide; [done|]. cbn [selected set_instance].
    destruct (selected g1) as [a|]; [|done]. by destruct (restored _ _) as [[? ?] ?]. }
  intros Hp Hg. destruct e as [a|o l|doc t| |now|c|i r]; cbn [handle patient] in *.
  - rewrite Hren. by apply inv_rendered.
  - rewrite Hren. by apply inv_rendered.
  - destruct (editing g) eqn:He; [|done]. destruct (is_object doc) eqn:Hd; [|done]. cbn [andb].
    apply editing_open in He as (a & Ha & Hr). unfold type. rewrite Ha. rewrite Hp in Hg.
    apply (inv_stored g (set_status _ (set_text t (set_document doc g)))); try done. by apply object_solid.
  - destruct (editing g) eqn:He; [|done]. apply editing_open in He as (a & Ha & Hr). unfold save_request. rewrite Ha.
    rewrite Hp in Hg. apply (inv_stored g g); try done. apply Hg.
  - unfold submittable, submit. destruct (selected g) as [a|] eqn:Ha; [|done].
    destruct (busy g) eqn:Hb; [rewrite orb_true_r; cbn [orb negb]; by rewrite Hb|].
    destruct (negb _) eqn:Hs; [|by rewrite Hb]. destruct (negb (truthy (trim (text g)))); [by rewrite Hb|].
    destruct (negb (online g)).
    + apply (inv_work (set_busy true (set_db _ g))); try done. by eapply draft_same.
    + apply (inv_work (set_busy true (set_sent _ g))); [by eapply draft_same|done|done|].
      by intros id e [= <- <-].
  - destruct (busy g) eqn:Hb; [cbn [negb]; rewrite andb_false_r; cbn [andb]; by rewrite Hb|].
    destruct (_ && _); [|by rewrite Hb]. by apply (inv_work (set_busy true g)); [by eapply draft_same|..].
  - destruct (procs g !! i) as [p|] eqn:Hi; [|done]. by apply inv_answered.
Qed.

Lemma draft_reachable g0 g : Inv (busy g0) g0 -> reachable g0 g -> Inv (busy g) g.
Proof. intros H0. induction 1 as [|g1 g2 g3 (e & He & ->) _ IH]; [done|]. by apply IH, draft_handled. Qed.

Lemma opened_inv o l d kept :
  (forall id, cached_draft id d = snd <$> kept !! id) ->
  (forall id k doc t, kept !! id = Some (k, (doc, t)) -> is_object doc = true) ->
  Inv false (opened o l d kept).
Proof.
  intros Hd Hk. constructor; try done; [by intros ? ? ? ? ?%elem_of_nil|constructor|by intros ? ? ?%elem_of_nil|].
  intros id k doc t Ht. by eapply object_solid, Hk.
Qed.

Lemma read_arrives g doc t note :
  let g' := handle (Answered (length (procs g)) (Ok tt)) (spawn (Reading (instance g) doc t note) g) in
  draftReady g' = true /\ document g' = doc /\ text g' = t /\ status g' = note.
Proof.
  cbn [handle spawn set_procs procs]. rewrite list_lookup_middle by done. cbn [answered].
  change (instance (set_procs _ _)) with (instance g). by rewrite Z.eqb_refl.
Qed.
Lemma opens_as a g :
  open_id g <> Some (assignment_id a) ->
  let '(doc, t, note) := restored (assignment_id a) g in
  let g' := run [Select (Some a); Answered (length (procs g)) (Ok tt)] g in
  draftReady g' = true /\ document g' = doc /\ text g' = t /\ status g' = note.
Proof.
  intros Ho. destruct (restored (assignment_id a) g) as [[doc t] note] eqn:Er.
  cbn [run foldl]. cbn [handle]. unfold rendered. rewrite bool_decide_eq_false_2.
  - set (g1 := preparing (set_instance (instance g + 1) (set_selected (Some a) g))).
    assert (E : reopen (set_selected (Some a) g) = spawn (Reading (instance g1) doc t note) g1).
    { unfold reopen. change (selected (set_selected (Some a) g)) with (Some a). cbv beta iota zeta.
      change (restored (assignment_id a) (set_instance _ (set_selected _ g))) with (restored (assignment_id a) g).
      by rewrite Er. }
    rewrite E. change (procs g) with (procs g1). exact (read_arrives g1 doc t note).
  - unfold deps, open_id in *. cbn [selected set_selected]. intros [= E _]. by rewrite E in Ho.
Qed.

(** C16. The text last typed or saved for an assignment and not handed in since
    is what the editor shows whenever that assignment is open, and what it
    shows when the assignment is opened again, whatever was opened, submitted,
    withdrawn, answered or reloaded meanwhile, if nothing is typed and no draft
    is saved by hand while work is being handed in or taken back (and the
    drafts found on the device are objects).
    ([typing_while_handing_in_lost] is what typing then loses.) *)
Theorem typed_text_kept o l d kept g :
  (forall id, cached_draft id d = snd <$> kept !! id) ->
  (forall id k doc t, kept !! id = Some (k, (doc, t)) -> is_object doc = true) ->
  reachable (opened o l d kept) g ->
  forall id k doc t, typed g !! id = Some (k, (doc, t)) ->
  (draftReady g = true -> open_id g = Some id -> document g = doc /\ text g = t) /\
  (forall a, assignment_id a = id -> open_id g <> Some id ->
     let g' := run [Select (Some a); Answered (length (procs g)) (Ok tt)] g in
     draftReady g' = true /\ document g' = doc /\ text g' = t /\ status g' = js "Local draft restored").
Proof.
  intros Hd Hk Hr id k doc t Ht.
  pose proof (draft_reachable (opened o l d kept) g (opened_inv o l d kept Hd Hk) Hr) as Hg. split.
  - intros Hready Ho. exact (shown_typed _ _ Hg Hready id Ho k doc t Ht).
  - intros a <- Ho. pose proof (opens_as a g) as Hopen. unfold restored in Hopen.
    rewrite (draft_kept _ _ Hg), Ht in Hopen. csimpl in Hopen.
    rewrite or_solid in Hopen by exact (solid_typed _ _ Hg _ _ _ _ Ht). by apply Hopen.
Qed.
End Drafts.

Module DraftRuns.
Import Drafts.

Definition essay : Assignment :=
  mkAssignment (js "a1") (js "c1") (js "History") (js "Essay") [] None (num 10) VNull Published [] [].
Definition words (t : jstr) : jsval := VObj [(js "text", VStr t)].
Definition empty_page : Page := opened true [] (mkDatabase ∅ []) ∅.
Definition ok (i : nat) : Event := Answered i (Ok tt).
Definition draft : list Event := [Select (Some essay); ok 0; Type_ (words (js "one")) (js "one"); ok 0].

Lemma draft_reached : reachable empty_page (run (draft ++ [Select None]) empty_page).
Proof. apply draft_run. by vm_compute. Qed.
Lemma typed_text_kept_witness :
  typed (run (draft ++ [Select None]) empty_page) !! js "a1" = Some (0, (words (js "one"), js "one")) /\
  text (run [Select (Some essay); ok 0] (run (draft ++ [Select None]) empty_page)) = js "one".
Proof.
  split; [by vm_compute|].
  refine (proj1 (proj2 (proj2 (proj2 (typed_text_kept true [] (mkDatabase ∅ []) ∅ _ _ _ draft_reached (js "a1") 0
            (words (js "one")) (js "one") _) essay _ _)))); done.
Defined.

(** The version of a hand-in, as the Host lists it. *)
Definition handed_in (t : jstr) : Submission :=
  mkSubmission (js "s1") (js "a1") (js "Essay") (js "u1") (js "Ann") SSubmitted
    (Some (mkSubmissionVersion (js "v1") 1 (words t) t None false [])) None None [].

(** What is typed while work is handed in is lost: the draft is removed when
    the Host accepts the earlier text, and the reload shows that text again. *)
Example typing_while_handing_in_lost :
  let g := run (draft ++ [Submit []; Type_ (words (js "one two")) (js "one two"); ok 1; ok 0; ok 0;
                          Props true [(js "a1", Some (handed_in (js "one")))]; ok 1; ok 0]) empty_page in
  text g = js "one" /\ cached_draft (js "a1") (db g) = None /\
  (snd <$> typed g !! js "a1") = Some (words (js "one two"), js "one two").
Proof. by vm_compute. Qed.

(** A refused hand-in changes nothing the student can see. *)
Example refusal_is_silent :
  let g := run draft empty_page in
  let g' := run [Submit []; Answered 0 (Throw (ApiFailure 403 false (js "Closed")))] g in
  (status g', text g', busy g', document g') = (status g, text g, busy g, document g).
Proof. by vm_compute. Qed.
End DraftRuns.
