(* ===== verification/StudentNotes.v ===== *)
(** * Notes in the earlier student app ([apps/student/src/App.tsx])

    NotesView: its React state, the database of cache.ts, the save that waits for
    its 700 ms and the requests made ([sent], which nothing reads).  Handlers
    are [Script]s; a timer keeps what its closure holds.  [base] is the time of
    the copy a text was written over, which the Host compares. *)

From stdpp Require Import gmap.
From S2P Require Import Prelude Script JsString JsNumber JsValue Types Outbox StudentPages.
Local Open Scope Z_scope.

(** The payload of a note that waits. *)
Definition note_payload (id : jstr) (doc : jsval) (text base : jstr) : jsval :=
  VObj [(js "id", VStr id); (js "doc", doc); (js "text", VStr text); (js "base", VStr base)].
Definition note_key (id : jstr) : jstr := js "note:" ++ id.

Module Notes.
Local Open Scope script_scope.

Inductive Query :=
  | ReadNote (id : jstr)
  | PutNote (id : jstr) (doc : jsval) (text base : jstr)
  | NewNode (name : jstr) (room : option jstr).
Definition answer (q : Query) : Type :=
  match q with
  | ReadNote _ | PutNote _ _ _ _ => outcome Failure NoteBody
  | NewNode _ _ => outcome Failure StudyNode
  end.

(** A save that waits for its 700 ms, with what its closure holds. *)
Record Timer := mkTimer { for_id : jstr; its_doc : jsval; its_text : jstr; its_base : jstr; was_online : bool }.

Record World := mkWorld {
  nodes : list StudyNode;
  online : bool;
  selectedId : option jstr;
  body : option NoteBody;
  draft : jsval * jstr;
  status : jstr;
  saveTimer : option Timer;
  createOpen : bool;
  db : Database;
  sent : list Query
}.
Definition set_nodes (x : list StudyNode) (w : World) : World := mkWorld x (online w) (selectedId w) (body w) (draft w) (status w) (saveTimer w) (createOpen w) (db w) (sent w).
Definition set_online (x : bool) (w : World) : World := mkWorld (nodes w) x (selectedId w) (body w) (draft w) (status w) (saveTimer w) (createOpen w) (db w) (sent w).
Definition set_selectedId (x : option jstr) (w : World) : World := mkWorld (nodes w) (online w) x (body w) (draft w) (status w) (saveTimer w) (createOpen w) (db w) (sent w).
Definition set_body (x : option NoteBody) (w : World) : World := mkWorld (nodes w) (online w) (selectedId w) x (draft w) (status w) (saveTimer w) (createOpen w) (db w) (sent w).
Definition set_draft (x : jsval * jstr) (w : World) : World := mkWorld (nodes w) (online w) (selectedId w) (body w) x (status w) (saveTimer w) (createOpen w) (db w) (sent w).
Definition set_status (x : jstr) (w : World) : World := mkWorld (nodes w) (online w) (selectedId w) (body w) (draft w) x (saveTimer w) (createOpen w) (db w) (sent w).
Definition set_saveTimer (x : option Timer) (w : World) : World := mkWorld (nodes w) (online w) (selectedId w) (body w) (draft w) (status w) x (createOpen w) (db w) (sent w).
Definition set_createOpen (x : bool) (w : World) : World := mkWorld (nodes w) (online w) (selectedId w) (body w) (draft w) (status w) (saveTimer w) x (db w) (sent w).
Definition set_db (x : Database) (w : World) : World := mkWorld (nodes w) (online w) (selectedId w) (body w) (draft w) (status w) (saveTimer w) (createOpen w) x (sent w).
Definition set_sent (x : list Query) (w : World) : World := mkWorld (nodes w) (online w) (selectedId w) (body w) (draft w) (status w) (saveTimer w) (createOpen w) (db w) x.

Definition Handler : Type -> Type := Script World answer.
Definition request (q : Query) : Handler (answer q) := Do (fun w => set_sent (sent w ++ [q]) w) (ask q).

Definition show_body (b : NoteBody) (w : World) : World := set_draft (body_doc b, body_text b) (set_body (Some b) w).
Definition cache_note (id : jstr) (b : NoteBody) (w : World) : World :=
  set_db (cacheSet (note_key id) (CachedNote b) (db w)) w.

(** The effect on [selectedId]. *)
Definition openNote (id : jstr) : Handler unit :=
  r <- request (ReadNote id);;
  match r with
  | Ok next => update (fun w => cache_note id next (show_body next w))
  | Throw _ =>
    update (fun w => match cacheGet (note_key id) (db w) with Some (CachedNote b) => show_body b w | _ => w end)
  end.

Definition is_conflict (f : Failure) : bool := match f with ApiFailure status _ _ => status =? 409 | OtherFailure _ => false end.
Definition msg_conflict : jstr := js "Newer copy found—reload before saving".
Definition msg_waiting : jstr := js "Saved offline—waiting to sync".

(** [now] is the time at which a save that cannot reach the Host is queued. *)
Definition keep_offline (id : jstr) (doc : jsval) (text base now : jstr) (w : World) : World :=
  let entry := mkEntry (note_key id) (NoteEntry (note_payload id doc text base)) now in
  set_status msg_waiting (cache_note id (mkNoteBody doc text base) (set_db (queueOffline entry now (db w)) w)).
Definition save (is_online : bool) (id : jstr) (doc : jsval) (text base now : jstr) : Handler unit :=
  update (set_status (js "Saving…"));;
  r <- (if is_online then request (PutNote id doc text base)
        else Ret (Throw (ApiFailure 0 true (js "Offline")) : outcome Failure NoteBody));;
  match r with
  | Ok next => update (fun w => set_status (js "Saved") (cache_note id next (set_body (Some next) w)))
  | Throw f => update (if is_conflict f then set_status msg_conflict else keep_offline id doc text base now)
  end.

Definition notes (w : World) : list StudyNode :=
  List.filter (fun n => bool_decide (node_kind n = NNote) && match node_owner_id n with Some (_ :: _) => true | _ => false end) (nodes w).
(** The note whose editor is shown, with the body the editor saves against. *)
Definition editing (w : World) : option (jstr * NoteBody) :=
  match selectedId w, body w with
  | Some id, Some b => if existsb (fun n => seqb (node_id n) id) (notes w) then Some (id, b) else None
  | _, _ => None
  end.

Definition typed (doc : jsval) (text : jstr) (w : World) : World :=
  match editing w with
  | Some (id, b) => set_saveTimer (Some (mkTimer id doc text (body_updated_at b) (online w))) (set_draft (doc, text) w)
  | None => w
  end.

Definition createNote (name : jstr) (room : option jstr) : Handler (outcome Failure unit) :=
  w <- Script.get;;
  r <- request (NewNode name room);;
  match r with
  | Throw f => Ret (Throw f)
  | Ok node =>
    let next := nodes w ++ [node] in
    update (fun w' => set_createOpen false (set_selectedId (Some (node_id node))
              (set_db (cacheSet (js "tree") (CachedTree next) (db w')) (set_nodes next w'))));;
    openNote (node_id node);;
    Ret (Ok tt)
  end.

Inductive Event :=
  | Choose (id : jstr)
  | Type_ (doc : jsval) (text : jstr)
  | Fire (now : jstr)
  | SaveRequest (now : jstr)
  | OpenCreate | CloseCreate
  | Create (name : jstr) (room : option jstr)
  | Props (is_online : bool) (next : list StudyNode)
  | Answered (i : nat) (o : forall q, answer q).

Definition handle (e : Event) (y : System World answer) : System World answer :=
  let w := world y in
  match e with
  | Choose id =>
    if bool_decide (selectedId w = Some id) then y
    else start (update (set_selectedId (Some id));; openNote id) y
  | Type_ doc text => start (update (typed doc text)) y
  | Fire now =>
    match saveTimer w with
    | Some t => start (update (set_saveTimer None);; save (was_online t) (for_id t) (its_doc t) (its_text t) (its_base t) now) y
    | None => y
    end
  | SaveRequest now =>
    match editing w with
    | Some (id, b) => start (save (online w) id (fst (draft w)) (snd (draft w)) (body_updated_at b) now) y
    | None => y
    end
  | OpenCreate => if online w then start (update (set_createOpen true)) y else y
  | CloseCreate => start (update (set_createOpen false)) y
  | Create name room => if createOpen w && truthy (trim name) then start (_ <- createNote (trim name) room;; Ret tt) y else y
  | Props o l => start (update (fun w => set_nodes l (set_online o w))) y
  | Answered i o => resume i o y
  end.
Definition run (es : list Event) (y : System World answer) : System World answer := foldl (fun y e => handle e y) y es.

(** The page when it opens, with its first note. *)
Definition opened (is_online : bool) (l : list StudyNode) (d : Database) : System World answer :=
  let w := mkWorld l is_online None None (EMPTY_DOCUMENT, []) [] None false d [] in
  match notes w with
  | n :: _ => start (openNote (node_id n)) (mkSystem (set_selectedId (Some (node_id n)) w) [])
  | [] => mkSystem w []
  end.

Definition cached_note (id : jstr) (d : Database) : option NoteBody :=
  match cacheGet (note_key id) d with Some (CachedNote b) => Some b | _ => None end.
Lemma cached_note_set id b w : cached_note id (db (cache_note id b w)) = Some b.
Proof. unfold cached_note, cache_note, cacheGet, cacheSet. cbn [db set_db cache]. by rewrite lookup_insert_eq. Qed.

(** A save that nothing interrupts, by what the Host answers: accepted, the
    Host's copy is shown, cached and saved against next; a conflict is reported
    and changes nothing else; in every other case, and offline, exactly this
    text waits in the outbox, in place of what waited for the note, and the
    note opens with it as long as the Host cannot be reached. *)
Theorem save_outcome is_online id doc text base now r w (env : nat -> forall q, answer q) :
  (forall n, env n (PutNote id doc text base) = r) ->
  let w' := snd (finish (save is_online id doc text base now) env 0 w) in
  match (if is_online then r else Throw (ApiFailure 0 true (js "Offline"))) with
  | Ok next =>
    body w' = Some next /\ status w' = js "Saved" /\ cached_note id (db w') = Some next /\ outbox (db w') = outbox (db w)
  | Throw f =>
    body w' = body w /\
    if is_conflict f then status w' = msg_conflict /\ db w' = db w
    else
      status w' = msg_waiting /\
      OutboxFacts.entry_at (note_key id) (outbox (db w')) =
        Some (mkEntry (note_key id) (NoteEntry (note_payload id doc text base)) now) /\
      forall (env' : nat -> forall q, answer q) n, (forall k, exists f', env' k (ReadNote id) = Throw f') ->
        draft (snd (finish (openNote id) env' n w')) = (doc, text)
  end.
Proof.
  intros Hr w'. set (answered := if is_online then r else Throw (ApiFailure 0 true (js "Offline"))).
  assert (Hw : exists w1, (body w1, db w1) = (body w, db w) /\
    w' = match answered with
         | Ok next => set_status (js "Saved") (cache_note id next (set_body (Some next) w1))
         | Throw f => if is_conflict f then set_status msg_conflict w1 else keep_offline id doc text base now w1
         end).
  { unfold w', answered, save. destruct is_online; cbn [bind update finish request ask fst snd].
    - exists (set_sent (sent w ++ [PutNote id doc text base]) (set_status (js "Saving…") w)).
      rewrite Hr. destruct r as [next|f]; [done|]. cbn [bind update finish snd]. by destruct (is_conflict f).
    - by exists (set_status (js "Saving…") w). }
  destruct Hw as (w1 & [= Eb Ed] & ->). destruct answered as [next|f].
  - split; [done|]. split; [done|]. split; [apply cached_note_set|]. cbn. by rewrite Ed.
  - destruct (is_conflict f); [done|]. split; [done|]. split; [done|]. split.
    + cbn [keep_offline db set_status cache_note set_db cacheSet queueOffline outbox]. by rewrite OutboxFacts.entry_at_put.
    + intros env' n Henv. unfold openNote. cbn [bind update finish request ask].
      destruct (Henv n) as [f' ->]. cbn [finish snd bind update].
      change (cacheGet (note_key id) _) with (cacheGet (note_key id) (db (cache_note id (mkNoteBody doc text base)
        (set_db (queueOffline (mkEntry (note_key id) (NoteEntry (note_payload id doc text base)) now) now (db w1)) w1)))).
      pose proof (cached_note_set id (mkNoteBody doc text base)
        (set_db (queueOffline (mkEntry (note_key id) (NoteEntry (note_payload id doc text base)) now) now (db w1)) w1)) as E.
      unfold cached_note in E. by destruct (cacheGet _ _) as [[]|]; simplify_eq.
Qed.
End Notes.

Module NoteRuns.
Import Notes.

Definition note_node (id : jstr) : StudyNode := mkStudyNode id (Some (js "u1")) None None id NNote 0 None [] [].
Definition words (t : jstr) : jsval := VObj [(js "text", VStr t)].
Definition copy (t stamp : jstr) : NoteBody := mkNoteBody (words t) t stamp.
(** A Host that answers every read with a copy of the note read, and every save
    with a newer one. *)
Definition served (q : Query) : answer q :=
  match q with
  | ReadNote id => Ok (copy (id ++ js " text") (js "t0"))
  | PutNote _ _ t _ => Ok (copy t (js "t1"))
  | NewNode name _ => Ok (note_node name)
  end.
Definition away (q : Query) : answer q :=
  match q with
  | ReadNote _ | PutNote _ _ _ _ => Throw (ApiFailure 0 true (js "Offline"))
  | NewNode _ _ => Throw (ApiFailure 0 true (js "Offline"))
  end.
Definition two_notes : System World answer := opened true [note_node (js "A"); note_node (js "B")] (mkDatabase ∅ []).
Definition write (t : jstr) : Event := Type_ (words t) t.

(** An edit made less than 700 ms before another note is edited is neither sent
    nor stored. *)
Example next_note_cancels_save :
  let y := run [Answered 0 served; write (js "A edited"); Choose (js "B"); Answered 0 served; write (js "B edited");
                Fire []; Answered 0 served] two_notes in
  sent (world y) = [ReadNote (js "A"); ReadNote (js "B"); PutNote (js "B") (words (js "B edited")) (js "B edited") (js "t0")] /\
  cached_note (js "A") (db (world y)) = Some (copy (js "A text") (js "t0")) /\ outbox (db (world y)) = [].
Proof. by vm_compute. Qed.

(** While a chosen note is read, the editor under its name holds the note before
    it; what is typed there is saved as the chosen note. *)
Example earlier_note_saved_under_next :
  let y := run [Answered 0 served; Props false [note_node (js "A"); note_node (js "B")]; Choose (js "B");
                write (js "A text, more"); Fire []] two_notes in
  cached_note (js "B") (db (world y)) = Some (copy (js "A text, more") (js "t0")) /\
  OutboxFacts.entry_at (note_key (js "B")) (outbox (db (world y))) =
    Some (mkEntry (note_key (js "B")) (NoteEntry (note_payload (js "B") (words (js "A text, more")) (js "A text, more") (js "t0"))) []).
Proof. by vm_compute. Qed.

(** An answer that comes late replaces the note opened since. *)
Example late_note_replaces_shown :
  let y := run [Choose (js "B"); Answered 1 served; Answered 0 served] two_notes in
  selectedId (world y) = Some (js "B") /\ snd (draft (world y)) = js "A text".
Proof. by vm_compute. Qed.

(** After a save that waits, the note is still saved against the copy it was
    opened with; once the waiting text reached the Host, that is a conflict. *)
Example waiting_save_keeps_base :
  let y := run [Answered 0 served; write (js "one"); Fire []; Answered 0 away; write (js "two"); Fire []] two_notes in
  last (sent (world y)) = Some (PutNote (js "A") (words (js "two")) (js "two") (js "t0")).
Proof. by vm_compute. Qed.

Lemma save_outcome_witness :
  let w' := snd (finish (save true (js "A") VNull (js "text") (js "t0") []) (fun _ => away) 0 (world two_notes)) in
  status w' = msg_waiting /\ draft (snd (finish (openNote (js "A")) (fun _ => away) 0 w')) = (VNull, js "text").
Proof.
  pose proof (save_outcome true (js "A") VNull (js "text") (js "t0") [] (Throw (ApiFailure 0 true (js "Offline")))
                (world two_notes) (fun _ => away) (fun _ => eq_refl)) as (_ & Hs & _ & Hd).
  split; [exact Hs|]. apply Hd. intros _. by eexists.
Defined.
End NoteRuns.
