(* ===== verification/StudentCards.v ===== *)
(** * Flashcards and forms of the earlier student app ([apps/student/src/App.tsx])

    [Cards] is FlashcardsView, with its React state and the database of
    cache.ts; [Dialogs] are the checks and results of the forms that connect an
    app, recover an account and replace a password. *)

From stdpp Require Import gmap.
From S2P Require Import Prelude Script JsString JsNumber JsValue Types Outbox.
Local Open Scope Z_scope.

Module Cards.
Local Open Scope script_scope.

Inductive Query :=
  | ReadCards (deck : jstr) | AddCard (deck front back : jstr) | DeleteCard (id : jstr)
  | NewDeck (name : jstr) (room : option jstr).
Definition answer (q : Query) : Type :=
  match q with
  | ReadCards _ => outcome Failure (list Card)
  | AddCard _ _ _ | DeleteCard _ => outcome Failure unit
  | NewDeck _ _ => outcome Failure StudyNode
  end.

Record World := mkWorld {
  nodes : list StudyNode;
  online : bool;
  selected : option StudyNode;
  cards : list Card;
  index : Z;
  flipped : bool;
  createDeck : bool;
  createCard : bool;
  db : Database
}.
Definition set_nodes (x : list StudyNode) (w : World) : World := mkWorld x (online w) (selected w) (cards w) (index w) (flipped w) (createDeck w) (createCard w) (db w).
Definition set_online (x : bool) (w : World) : World := mkWorld (nodes w) x (selected w) (cards w) (index w) (flipped w) (createDeck w) (createCard w) (db w).
Definition set_selected (x : option StudyNode) (w : World) : World := mkWorld (nodes w) (online w) x (cards w) (index w) (flipped w) (createDeck w) (createCard w) (db w).
Definition set_cards (x : list Card) (w : World) : World := mkWorld (nodes w) (online w) (selected w) x (index w) (flipped w) (createDeck w) (createCard w) (db w).
Definition set_index (x : Z) (w : World) : World := mkWorld (nodes w) (online w) (selected w) (cards w) x (flipped w) (createDeck w) (createCard w) (db w).
Definition set_flipped (x : bool) (w : World) : World := mkWorld (nodes w) (online w) (selected w) (cards w) (index w) x (createDeck w) (createCard w) (db w).
Definition set_createDeck (x : bool) (w : World) : World := mkWorld (nodes w) (online w) (selected w) (cards w) (index w) (flipped w) x (createCard w) (db w).
Definition set_createCard (x : bool) (w : World) : World := mkWorld (nodes w) (online w) (selected w) (cards w) (index w) (flipped w) (createDeck w) x (db w).
Definition set_db (x : Database) (w : World) : World := mkWorld (nodes w) (online w) (selected w) (cards w) (index w) (flipped w) (createDeck w) (createCard w) x.

Definition Handler : Type -> Type := Script World answer.
Definition cards_key (id : jstr) : jstr := js "cards:" ++ id.
Definition cached_cards (id : jstr) (d : Database) : list Card :=
  match cacheGet (cards_key id) d with Some (CachedCards l) => l | _ => [] end.

Definition first_card (w : World) : World := set_flipped false (set_index 0 w).
Definition loadCards (deck : jstr) : Handler unit :=
  r <- ask (ReadCards deck);;
  match r with
  | Ok next => update (fun w => set_db (cacheSet (cards_key deck) (CachedCards next) (db w)) (set_cards next w))
  | Throw _ => update (fun w => set_cards (cached_cards deck (db w)) w)
  end;;
  update first_card.

Definition decks (w : World) : list StudyNode :=
  List.filter (fun n => bool_decide (node_kind n = NDeck) && match node_owner_id n with Some (_ :: _) => true | _ => false end) (nodes w).
Definition current_card (w : World) : option Card := at_Z (cards w) (index w).
Definition go (i : Z) (w : World) : World := set_flipped false (set_index i w).

(** The buttons, with what disables them. *)
Definition previous (w : World) : World :=
  match current_card w with Some _ => if index w =? 0 then w else go (index w - 1) w | None => w end.
Definition next (w : World) : World :=
  match current_card w with
  | Some _ => if Z.of_nat (length (cards w)) - 1 <=? index w then w else go (index w + 1) w
  | None => w
  end.
Definition pick (i : nat) (w : World) : World := match cards w !! i with Some _ => go (Z.of_nat i) w | None => w end.
Definition flip (w : World) : World := match current_card w with Some _ => set_flipped (negb (flipped w)) w | None => w end.

Definition removeCard (deck id : jstr) : Handler unit :=
  r <- ask (DeleteCard id);;
  match r with Ok _ => loadCards deck | Throw _ => Ret tt end.
Definition addCard (deck front back : jstr) : Handler (outcome Failure unit) :=
  r <- ask (AddCard deck (trim front) (trim back));;
  match r with
  | Ok _ => update (set_createCard false);; loadCards deck;; Ret (Ok tt)
  | Throw f => Ret (Throw f)
  end.
Definition select_deck (n : StudyNode) : Handler unit := update (set_selected (Some n));; loadCards (node_id n).
Definition addDeck (name : jstr) (room : option jstr) : Handler (outcome Failure unit) :=
  w <- Script.get;;
  r <- ask (NewDeck (trim name) room);;
  match r with
  | Throw f => Ret (Throw f)
  | Ok deck =>
    let next := nodes w ++ [deck] in
    update (fun w' => set_createDeck false (set_db (cacheSet (js "tree") (CachedTree next) (db w')) (set_nodes next w')));;
    select_deck deck;; Ret (Ok tt)
  end.

(** The card shown is one of the deck, or the deck is shown as empty. *)
Definition on_deck (w : World) : Prop :=
  (cards w = [] /\ index w = 0) \/ 0 <= index w < Z.of_nat (length (cards w)).
Lemma first_on_deck w : on_deck (first_card w).
Proof.
  unfold on_deck, first_card. cbn [cards index set_flipped set_index].
  destruct (cards w); [by left|right; cbn [length]; lia].
Qed.
Lemma current_on_deck w : on_deck w -> cards w <> [] -> current_card w <> None.
Proof.
  intros [[? _]|H] Hne; [done|]. unfold current_card, at_Z. destruct (Z.ltb_spec (index w) 0); [lia|].
  intros E%lookup_ge_None. lia.
Qed.
Lemma buttons_on_deck w i : on_deck w -> on_deck (previous w) /\ on_deck (next w) /\ on_deck (pick i w) /\ on_deck (flip w).
Proof.
  intros H. assert (Hgo : forall k, 0 <= k < Z.of_nat (length (cards w)) -> on_deck (go k w)) by (intros; by right).
  unfold previous, next, pick, flip. split_and!.
  - destruct (current_card w) eqn:E; [|done]. destruct (Z.eqb_spec (index w) 0); [done|]. apply Hgo.
    destruct H as [[Hn _]|H]; [|lia]. unfold current_card, at_Z in E. rewrite Hn in E. by destruct (index w <? 0), (Z.to_nat (index w)).
  - destruct (current_card w) eqn:E; [|done]. destruct (Z.leb_spec (Z.of_nat (length (cards w)) - 1) (index w)); [done|].
    apply Hgo. destruct H as [[Hn Hi]|H]; [rewrite Hn in *; cbn in *; lia|lia].
  - destruct (cards w !! i) eqn:E; [|done]. apply Hgo. apply lookup_lt_Some in E. lia.
  - destruct (current_card w); [|done]. exact H.
Qed.

(** A load that nothing interrupts shows the first card of what is cached,
    which is what the Host answered when it did. *)
Lemma load_cards_settles deck w env n :
  let w' := snd (finish (loadCards deck) env n w) in
  on_deck w' /\ index w' = 0 /\ flipped w' = false /\ cards w' = cached_cards deck (db w') /\
  match env n (ReadCards deck) with Ok l => cards w' = l | Throw _ => db w' = db w end.
Proof.
  cbn zeta. unfold loadCards. cbn [bind update ask finish].
  destruct (env n (ReadCards deck)) as [l|f]; cbn [bind update finish snd].
  - split; [apply first_on_deck|]. split; [done|]. split; [done|]. split; [|done].
    unfold cached_cards, cacheGet, cacheSet. cbn [first_card db set_flipped set_index set_db cache].
    by rewrite lookup_insert_eq.
  - split; [apply first_on_deck|done].
Qed.

(** Cards of a deck that was left arrive under the deck opened since. *)
Example late_deck_replaces_shown :
  let deck id := mkStudyNode id (Some (js "u1")) None None id NDeck 0 None [] [] in
  let card id := mkCard id [] id [] None None false in
  let host (q : Query) : answer q := match q with ReadCards d => Ok [card d] | NewDeck _ _ => Ok (deck []) | _ => Ok tt end in
  let y := resume 0 (fun q => host q) (resume 1 (fun q => host q)
             (start (select_deck (deck (js "B"))) (start (select_deck (deck (js "A")))
               (mkSystem (mkWorld [] true None [] 0 false false false (mkDatabase ∅ [])) [])))) in
  (node_id <$> selected (world y)) = Some (js "B") /\ (front <$> cards (world y)) = [js "A"].
Proof. by vm_compute. Qed.
End Cards.

(** ** Forms *)

Module Dialogs.

(** What stops a form before its request. *)
Definition msg_mismatch : jstr := js "The passwords do not match.".
Definition new_password_error (next confirm : jstr) : option jstr :=
  if Nat.ltb (length next) 8 then Some (js "Use at least 8 characters.")
  else if negb (seqb next confirm) then Some msg_mismatch else None.
Definition recovery_enabled (username code password : jstr) : bool :=
  truthy (trim username) && truthy (trim code) && negb (Nat.ltb (length password) 8).

(** RecoveryModal: the replacement code, or the error shown; [answered] is the
    Host's answer to the trimmed name and code. *)
Definition recover (username code password confirm : jstr) (answered : jstr -> jstr -> jstr -> outcome Failure jstr)
    : outcome jstr jstr :=
  if negb (seqb password confirm) then Throw msg_mismatch
  else match answered (trim username) (trim code) password with
       | Ok next => Ok next
       | Throw f => Throw (errorMessage f)
       end.

(** ConnectionModal: [found], [url] and [error] after a search. *)
Definition msg_none_found : jstr := js "No teacher app was found automatically. Enter its address below.".
Definition msg_no_search : jstr := js "Automatic discovery was unavailable. Enter the address manually.".
Definition discover (url : jstr) (found : list jstr) (hosts : outcome Failure (list jstr)) : list jstr * jstr * jstr :=
  match hosts with
  | Throw _ => (found, url, msg_no_search)
  | Ok l => (l, match l with h :: _ => if truthy h then h else url | [] => url end,
             match l with [] => msg_none_found | _ => [] end)
  end.

Lemma recovery_sends_trimmed username code password confirm answered next :
  recover username code password confirm answered = Ok next ->
  password = confirm /\ answered (trim username) (trim code) password = Ok next.
Proof.
  unfold recover. destruct (seqb password confirm) eqn:E; [|done]. apply seqb_eq in E. cbn [negb].
  destruct (answered _ _ _); [|done]. by intros [= ->].
Qed.
End Dialogs.
