(* ===== verification/StudentApp.v ===== *)
(** * The earlier student app ([apps/student/src/App.tsx])

    The session of [App], the workspace it loads and the outbox it empties.
    [World] is its React state, the client objects its closures share ([apis]),
    what is stored (the session of session.ts, the address in the native
    configuration, the remembered names, the database of cache.ts) and a record
    of the requests made, which nothing reads.  Every handler is a [Script]; a
    closure sees the state of the render it belongs to, so a handler reads what
    it closes over once, when it is called.

    Operations on the stored session run in the order they are called in
    (session.ts), so of those under way only the oldest is answered.  Requests
    to IndexedDB are taken to succeed, as one step with what precedes them.
    [tauri] is [isTauri()], which does not change. *)

From stdpp Require Import gmap.
From S2P Require Import Prelude Script JsString JsNumber JsValue Types SessionClient Outbox StudentNotes.
Local Open Scope Z_scope.
Local Open Scope script_scope.

Definition DEV_HOST : jstr := js "http://127.0.0.1:7373".
Definition text_of (v : jsval) : jstr := default [] (as_string v).
Definition must_change_password (u : jsval) : bool := truthy_val (get (js "must_change_password") u).

(** ** Requests and what answers them *)

Inductive Query :=
  | LoadConfig
  | ValidateHost (address : jstr)
  | SaveConfig (host_url : jstr) (device_label : option jstr)
  | LoadSession | SaveSession (v : jsval) | ClearSession
  | Probe (base : jstr)
  | Me
  | Login (name password label : jstr)
  | Logout
  | ChangePassword (current next : jstr)
  | Classrooms | Assignments | Tree
  | MySubmission (id : jstr)
  | Lists
  | Submissions (ids : list jstr)
  | SaveNote (payload : jsval)
  | SubmitWork (p : SubmissionPayload).

(** A storage operation answers whether it worked; one that raises (a browser
    whose [localStorage] is full) is a failure. *)
Definition answer (q : Query) : Type :=
  match q with
  | LoadConfig => outcome Failure (option jstr * option jstr)
  | ValidateHost _ => outcome Failure jstr
  | SaveConfig _ _ => outcome Failure unit
  | LoadSession => unit
  | SaveSession _ => outcome Failure bool
  | ClearSession => bool
  | Probe _ => bool
  | Me | ChangePassword _ _ => outcome Failure jsval
  | Login _ _ _ => outcome Failure (jstr * jsval)
  | Lists => outcome Failure (list Classroom * list Assignment * list StudyNode)
  | Submissions _ => outcome Failure (jstr -> option Submission)
  | Logout | Classrooms | Assignments | Tree | MySubmission _ | SaveNote _ | SubmitWork _ => outcome Failure unit
  end.

Record Request := mkRequest { to_base : jstr; with_token : option jstr; what : Query }.

Record World := mkWorld {
  loading : bool;
  baseUrl : jstr;
  deviceLabel : jstr;
  api : nat;
  user : option jsval;
  token : option jstr;
  online : bool;
  temporaryPassword : jstr;
  connectionOpen : bool;
  knownAccounts : list jstr;
  shown : Shown;
  refreshing : bool;
  offlineUnlocked : bool;
  signing_in : bool;
  sign_in_error : jstr;
  apis : list CinderApi;
  disk : option jstr;
  config : option (jstr * option jstr);
  remembered : option jstr;
  db : Database;
  requests : list Request
}.

Definition set_loading (x : bool) (w : World) : World := mkWorld x (baseUrl w) (deviceLabel w) (api w) (user w) (token w) (online w) (temporaryPassword w) (connectionOpen w) (knownAccounts w) (shown w) (refreshing w) (offlineUnlocked w) (signing_in w) (sign_in_error w) (apis w) (disk w) (config w) (remembered w) (db w) (requests w).
Definition set_baseUrl (x : jstr) (w : World) : World := mkWorld (loading w) x (deviceLabel w) (api w) (user w) (token w) (online w) (temporaryPassword w) (connectionOpen w) (knownAccounts w) (shown w) (refreshing w) (offlineUnlocked w) (signing_in w) (sign_in_error w) (apis w) (disk w) (config w) (remembered w) (db w) (requests w).
Definition set_deviceLabel (x : jstr) (w : World) : World := mkWorld (loading w) (baseUrl w) x (api w) (user w) (token w) (online w) (temporaryPassword w) (connectionOpen w) (knownAccounts w) (shown w) (refreshing w) (offlineUnlocked w) (signing_in w) (sign_in_error w) (apis w) (disk w) (config w) (remembered w) (db w) (requests w).
Definition set_api (x : nat) (w : World) : World := mkWorld (loading w) (baseUrl w) (deviceLabel w) x (user w) (token w) (online w) (temporaryPassword w) (connectionOpen w) (knownAccounts w) (shown w) (refreshing w) (offlineUnlocked w) (signing_in w) (sign_in_error w) (apis w) (disk w) (config w) (remembered w) (db w) (requests w).
Definition set_user (x : option jsval) (w : World) : World := mkWorld (loading w) (baseUrl w) (deviceLabel w) (api w) x (token w) (online w) (temporaryPassword w) (connectionOpen w) (knownAccounts w) (shown w) (refreshing w) (offlineUnlocked w) (signing_in w) (sign_in_error w) (apis w) (disk w) (config w) (remembered w) (db w) (requests w).
Definition set_token (x : option jstr) (w : World) : World := mkWorld (loading w) (baseUrl w) (deviceLabel w) (api w) (user w) x (online w) (temporaryPassword w) (connectionOpen w) (knownAccounts w) (shown w) (refreshing w) (offlineUnlocked w) (signing_in w) (sign_in_error w) (apis w) (disk w) (config w) (remembered w) (db w) (requests w).
Definition set_online (x : bool) (w : World) : World := mkWorld (loading w) (baseUrl w) (deviceLabel w) (api w) (user w) (token w) x (temporaryPassword w) (connectionOpen w) (knownAccounts w) (shown w) (refreshing w) (offlineUnlocked w) (signing_in w) (sign_in_error w) (apis w) (disk w) (config w) (remembered w) (db w) (requests w).
Definition set_temporaryPassword (x : jstr) (w : World) : World := mkWorld (loading w) (baseUrl w) (deviceLabel w) (api w) (user w) (token w) (online w) x (connectionOpen w) (knownAccounts w) (shown w) (refreshing w) (offlineUnlocked w) (signing_in w) (sign_in_error w) (apis w) (disk w) (config w) (remembered w) (db w) (requests w).
Definition set_connectionOpen (x : bool) (w : World) : World := mkWorld (loading w) (baseUrl w) (deviceLabel w) (api w) (user w) (token w) (online w) (temporaryPassword w) x (knownAccounts w) (shown w) (refreshing w) (offlineUnlocked w) (signing_in w) (sign_in_error w) (apis w) (disk w) (config w) (remembered w) (db w) (requests w).
Definition set_knownAccounts (x : list jstr) (w : World) : World := mkWorld (loading w) (baseUrl w) (deviceLabel w) (api w) (user w) (token w) (online w) (temporaryPassword w) (connectionOpen w) x (shown w) (refreshing w) (offlineUnlocked w) (signing_in w) (sign_in_error w) (apis w) (disk w) (config w) (remembered w) (db w) (requests w).
Definition set_shown (x : Shown) (w : World) : World := mkWorld (loading w) (baseUrl w) (deviceLabel w) (api w) (user w) (token w) (online w) (temporaryPassword w) (connectionOpen w) (knownAccounts w) x (refreshing w) (offlineUnlocked w) (signing_in w) (sign_in_error w) (apis w) (disk w) (config w) (remembered w) (db w) (requests w).
Definition set_refreshing (x : bool) (w : World) : World := mkWorld (loading w) (baseUrl w) (deviceLabel w) (api w) (user w) (token w) (online w) (temporaryPassword w) (connectionOpen w) (knownAccounts w) (shown w) x (offlineUnlocked w) (signing_in w) (sign_in_error w) (apis w) (disk w) (config w) (remembered w) (db w) (requests w).
Definition set_offlineUnlocked (x : bool) (w : World) : World := mkWorld (loading w) (baseUrl w) (deviceLabel w) (api w) (user w) (token w) (online w) (temporaryPassword w) (connectionOpen w) (knownAccounts w) (shown w) (refreshing w) x (signing_in w) (sign_in_error w) (apis w) (disk w) (config w) (remembered w) (db w) (requests w).
Definition set_signing_in (x : bool) (w : World) : World := mkWorld (loading w) (baseUrl w) (deviceLabel w) (api w) (user w) (token w) (online w) (temporaryPassword w) (connectionOpen w) (knownAccounts w) (shown w) (refreshing w) (offlineUnlocked w) x (sign_in_error w) (apis w) (disk w) (config w) (remembered w) (db w) (requests w).
Definition set_sign_in_error (x : jstr) (w : World) : World := mkWorld (loading w) (baseUrl w) (deviceLabel w) (api w) (user w) (token w) (online w) (temporaryPassword w) (connectionOpen w) (knownAccounts w) (shown w) (refreshing w) (offlineUnlocked w) (signing_in w) x (apis w) (disk w) (config w) (remembered w) (db w) (requests w).
Definition set_apis (x : list CinderApi) (w : World) : World := mkWorld (loading w) (baseUrl w) (deviceLabel w) (api w) (user w) (token w) (online w) (temporaryPassword w) (connectionOpen w) (knownAccounts w) (shown w) (refreshing w) (offlineUnlocked w) (signing_in w) (sign_in_error w) x (disk w) (config w) (remembered w) (db w) (requests w).
Definition set_disk (x : option jstr) (w : World) : World := mkWorld (loading w) (baseUrl w) (deviceLabel w) (api w) (user w) (token w) (online w) (temporaryPassword w) (connectionOpen w) (knownAccounts w) (shown w) (refreshing w) (offlineUnlocked w) (signing_in w) (sign_in_error w) (apis w) x (config w) (remembered w) (db w) (requests w).
Definition set_config (x : option (jstr * option jstr)) (w : World) : World := mkWorld (loading w) (baseUrl w) (deviceLabel w) (api w) (user w) (token w) (online w) (temporaryPassword w) (connectionOpen w) (knownAccounts w) (shown w) (refreshing w) (offlineUnlocked w) (signing_in w) (sign_in_error w) (apis w) (disk w) x (remembered w) (db w) (requests w).
Definition set_remembered (x : option jstr) (w : World) : World := mkWorld (loading w) (baseUrl w) (deviceLabel w) (api w) (user w) (token w) (online w) (temporaryPassword w) (connectionOpen w) (knownAccounts w) (shown w) (refreshing w) (offlineUnlocked w) (signing_in w) (sign_in_error w) (apis w) (disk w) (config w) x (db w) (requests w).
Definition set_db (x : Database) (w : World) : World := mkWorld (loading w) (baseUrl w) (deviceLabel w) (api w) (user w) (token w) (online w) (temporaryPassword w) (connectionOpen w) (knownAccounts w) (shown w) (refreshing w) (offlineUnlocked w) (signing_in w) (sign_in_error w) (apis w) (disk w) (config w) (remembered w) x (requests w).
Definition set_requests (x : list Request) (w : World) : World := mkWorld (loading w) (baseUrl w) (deviceLabel w) (api w) (user w) (token w) (online w) (temporaryPassword w) (connectionOpen w) (knownAccounts w) (shown w) (refreshing w) (offlineUnlocked w) (signing_in w) (sign_in_error w) (apis w) (disk w) (config w) (remembered w) (db w) x.

Definition App : Type -> Type := Script World answer.

(** ** Shared steps *)

Definition log (i : nat) (q : Query) (w : World) : World :=
  match apis w !! i with
  | Some a => set_requests (requests w ++ [mkRequest (api_base a) (bearer a) q]) w
  | None => w
  end.
Definition host (i : nat) (q : Query) : App (answer q) := Do (log i q) (ask q).
(** [probeHost] asks a client of its own, without a token. *)
Definition log_probe (base : jstr) (w : World) : World :=
  let a := new_api base None in set_requests (requests w ++ [mkRequest (api_base a) (bearer a) (Probe base)]) w.
Definition probeHost (base : jstr) : App bool := Do (log_probe base) (ask (Probe base)).

Definition setToken_api (i : nat) (t : option jstr) (w : World) : World :=
  set_apis (alter (fun a => mkApi (api_base a) t) i (apis w)) w.
(** [new CinderApi(base, t)], made the client of the page. *)
Definition use_client (base label : jstr) (t : option jstr) (w : World) : World :=
  set_api (length (apis w)) (set_deviceLabel label (set_baseUrl base (set_apis (apis w ++ [new_api base t]) w))).

Definition clearSession : App unit :=
  cleared <- ask ClearSession;;
  update (fun w => if cleared : bool then set_disk None w else w).
Definition saveSession (v : jsval) : App (outcome Failure unit) :=
  saved <- ask (SaveSession v);;
  match saved with
  | Ok b => update (fun w => if b : bool then set_disk (Some (stringify v)) w else w);; Ret (Ok tt)
  | Throw f => Ret (Throw f)
  end.

Definition valid_session (v : jsval) : bool :=
  is_string (get (js "baseUrl") v) && is_string (get (js "token") v) &&
  match get (js "role") (get (js "user") v) with VStr r => seqb r (js "student") | _ => false end.

Definition session_in (raw : option jstr) : option jsval :=
  match raw with
  | None | Some [] => None
  | Some text => match parse_json text with
                 | Some v => if valid_session v then Some v else None
                 | None => None
                 end
  end.
Definition storedSession : App (option jsval) :=
  _ <- ask LoadSession;;
  w <- Script.get;;
  match disk w with
  | None | Some [] => Ret None
  | Some text => match session_in (Some text) with
                 | Some v => Ret (Some v)
                 | None => clearSession;; Ret None
                 end
  end.

Section app.
Context (tauri : bool).

Definition normalizeHostAddress (value : jstr) : App (outcome Failure jstr) :=
  let trimmed := strip_slashes (trim value) in
  if tauri then ask (ValidateHost trimmed) else Ret (Ok trimmed).

(** ** The outbox *)

Definition deliver (i : nat) (e : OutboxEntry) : App (outcome Failure unit) :=
  match entry_payload e with
  | NoteEntry v => host i (SaveNote v)
  | SubmissionEntry p => host i (SubmitWork p)
  end.
Definition status_of (f : Failure) : option Z :=
  match f with ApiFailure status _ _ => Some status | OtherFailure _ => None end.
Definition drop (e : OutboxEntry) (w : World) : World := set_db (removeOutbox (entry_key e) (db w)) w.

Fixpoint flush_entries (i : nat) (es : list OutboxEntry) : App unit :=
  match es with
  | [] => Ret tt
  | e :: rest =>
    r <- deliver i e;;
    match r with
    | Ok _ => update (drop e);; flush_entries i rest
    | Throw f =>
      if is_offline f then Ret tt
      else if bool_decide (status_of f = Some 409) then update (drop e);; flush_entries i rest
      else flush_entries i rest
    end
  end.
Definition flushOutbox (i : nat) : App unit := w <- Script.get;; flush_entries i (outboxEntries (db w)).

(** ** The workspace *)

Definition cache_all (s : Shown) (d : Database) : Database :=
  cacheSet (js "tree") (CachedTree (nodes s))
    (cacheSet (js "submissions") (CachedSubmissions (submissions s))
      (cacheSet (js "assignments") (CachedAssignments (assignments s))
        (cacheSet (js "classrooms") (CachedClassrooms (classrooms s)) d))).
Definition cached_all (d : Database) : Shown :=
  mkShown
    (match cacheGet (js "classrooms") d with Some (CachedClassrooms l) => l | _ => [] end)
    (match cacheGet (js "assignments") d with Some (CachedAssignments l) => l | _ => [] end)
    (match cacheGet (js "submissions") d with Some (CachedSubmissions l) => l | _ => [] end)
    (match cacheGet (js "tree") d with Some (CachedTree l) => l | _ => [] end).

(** The two rounds of requests: three lists at once, then the student's
    submission to every assignment at once. *)
Definition fetch (i : nat) : App (outcome Failure Shown) :=
  update (fun w => log i Tree (log i Assignments (log i Classrooms w)));;
  lists <- ask Lists;;
  match lists with
  | Throw f => Ret (Throw f)
  | Ok (rooms, work, tree) =>
    let ids := assignment_id <$> work in
    update (fun w => foldl (fun w id => log i (MySubmission id) w) w ids);;
    found <- ask (Submissions ids);;
    match found with
    | Throw f => Ret (Throw f)
    | Ok sub => Ret (Ok (mkShown rooms work ((fun id => (id, sub id)) <$> ids) tree))
    end
  end.

Definition loadWorkspace (i : nat) : App unit :=
  update (set_refreshing true);;
  next <- fetch i;;
  match next with
  | Ok s =>
    update (fun w => set_offlineUnlocked false (set_online true (set_db (cache_all s (db w)) (set_shown s w))));;
    flushOutbox i
  | Throw _ => update (fun w => set_shown (cached_all (db w)) (set_online false w))
  end;;
  update (set_refreshing false).

(** ** Start-up *)

(** [{ ...session, user: current }] *)
Definition with_user (stored current : jsval) : jsval :=
  match stored with VObj ps => VObj (set_prop (js "user") current ps) | _ => VObj [(js "user", current)] end.

Definition readConfig : App (option jstr * option jstr) :=
  if tauri
  then r <- ask LoadConfig;; Ret (match r with Ok c => c | Throw _ => (Some DEV_HOST, Some (js "Student computer")) end)
  else Ret (Some DEV_HOST, Some (js "Student computer")).

Definition signed_out : App bool :=
  clearSession;; update (fun w => set_token None (set_user None w));; Ret false.

(** Whether the workspace may be loaded once [me] was asked. *)
Definition confirmSession (i : nat) (session : jsval) : App bool :=
  r <- host i Me;;
  match r with
  | Ok current =>
    update (set_user (Some current));;
    saved <- saveSession (with_user session current);;
    match saved with
    | Ok _ => update (set_online true);; Ret (negb (must_change_password current))
    | Throw f => if is_offline f then Ret (negb (must_change_password current)) else signed_out
    end
  | Throw f =>
    if is_offline f then Ret (negb (must_change_password (get (js "user") session))) else signed_out
  end.

Definition startup : App unit :=
  config <- readConfig;;
  stored <- storedSession;;
  let first := match stored with
               | Some s => text_of (get (js "baseUrl") s)
               | None => default DEV_HOST (fst config)
               end in
  address <- normalizeHostAddress first;;
  target <- match address with
            | Ok n => Ret (stored, n)
            | Throw _ => match stored with
                         | Some _ => clearSession;; Ret (None, DEV_HOST)
                         | None => Ret (None, DEV_HOST)
                         end
            end;;
  let session := fst target in
  let nextUrl := snd target in
  w <- Script.get;;
  let i := length (apis w) in
  update (use_client nextUrl (default (js "Student computer") (snd config))
            ((fun s => text_of (get (js "token") s)) <$> session));;
  match session with
  | Some s =>
    update (fun w => set_user (Some (get (js "user") s)) (set_token (Some (text_of (get (js "token") s))) w));;
    canLoadWorkspace <- confirmSession i s;;
    if canLoadWorkspace then loadWorkspace i else Ret tt
  | None =>
    found <- probeHost nextUrl;;
    update (set_online found)
  end;;
  update (set_loading false).

(** ** Signing in and out *)

Definition after_save (i : nat) (u : jsval) (saved : outcome Failure unit) : App (outcome Failure unit) :=
  match saved with
  | Throw f => Ret (Throw f)
  | Ok _ => if must_change_password u then Ret (Ok tt) else loadWorkspace i;; Ret (Ok tt)
  end.

Definition name_of (u : jsval) : jstr := to_string (get (js "username") u).
Definition names_json (l : list jstr) : jstr := stringify (VArr (VStr <$> l)).

Definition login (name password : jstr) : App (outcome Failure unit) :=
  w <- Script.get;;
  r <- host (api w) (Login name password (deviceLabel w));;
  match r with
  | Throw f => Ret (Throw f)
  | Ok (t, u) =>
    update (fun w' =>
      let next := remember (name_of u) (knownAccounts w') in
      set_remembered (Some (names_json next)) (set_knownAccounts next
        (set_offlineUnlocked false (set_online true
          (set_temporaryPassword (if must_change_password u then password else [])
            (set_user (Some u) (set_token (Some t) (setToken_api (api w) (Some t) w'))))))));;
    saved <- saveSession (session_value (baseUrl w) t u);;
    after_save (api w) u saved
  end.

(** [submit] of [LoginScreen] (packages/ui/src/components.tsx). *)
Definition signIn (name password : jstr) : App unit :=
  update (fun w => set_sign_in_error [] (set_signing_in true w));;
  r <- login (trim name) password;;
  update (fun w => set_signing_in false (match r with Throw f => set_sign_in_error (errorMessage f) w | Ok _ => w end)).

Definition without_submissions (s : Shown) : Shown := mkShown (classrooms s) (assignments s) [] (nodes s).

(** The next [LoginScreen] starts idle. *)
Definition logout : App unit :=
  w <- Script.get;;
  (if online w then _ <- host (api w) Logout;; Ret tt else Ret tt);;
  clearSession;;
  update (fun w' => set_sign_in_error [] (set_signing_in false (set_shown (without_submissions (shown w'))
            (set_user None (set_token None (setToken_api (api w) None w')))))).

(** ** The connection and the password *)

Definition msg_no_answer : jstr := js "No Cinder Teacher app answered at that address.".
Definition saved_label (label : jstr) : option jstr := match trim label with [] => None | l => Some l end.

Definition saveConnection (nextUrl nextLabel : jstr) : App (outcome Failure unit) :=
  w <- Script.get;;
  address <- normalizeHostAddress nextUrl;;
  match address with
  | Throw f => Ret (Throw f)
  | Ok normalised =>
    found <- probeHost normalised;;
    if negb found then Ret (Throw (OtherFailure msg_no_answer))
    else
      written <- (if tauri
                  then r <- ask (SaveConfig normalised (saved_label nextLabel));;
                       match r with
                       | Ok _ => update (set_config (Some (normalised, saved_label nextLabel)));; Ret (Ok tt)
                       | Throw f => Ret (Throw f)
                       end
                  else Ret (Ok tt));;
      match written with
      | Throw f => Ret (Throw f)
      | Ok _ =>
        w2 <- Script.get;;
        let i := length (apis w2) in
        update (fun w' => set_connectionOpen false (set_online true
                  (use_client normalised (default (js "Student computer") (saved_label nextLabel)) (token w) w')));;
        match user w, token w with
        | Some u, Some ((_ :: _) as t) =>
          saved <- saveSession (session_value normalised t u);;
          match saved with
          | Throw f => Ret (Throw f)
          | Ok _ => loadWorkspace i;; Ret (Ok tt)
          end
        | _, _ => Ret (Ok tt)
        end
      end
  end.

Definition changePassword (current next : jstr) : App (outcome Failure unit) :=
  w <- Script.get;;
  r <- host (api w) (ChangePassword current next);;
  match r with
  | Throw f => Ret (Throw f)
  | Ok updated =>
    update (fun w' => set_temporaryPassword [] (set_user (Some updated) w'));;
    saved <- match token w with
             | Some ((_ :: _) as t) => saveSession (session_value (baseUrl w) t updated)
             | _ => Ret (Ok tt)
             end;;
    match saved with
    | Throw f => Ret (Throw f)
    | Ok _ => loadWorkspace (api w);; Ret (Ok tt)
    end
  end.

(** ** The app *)

(** The three screens before the pages: the boot screen, the sign-in page and
    the lock shown while the Host is away. *)
Inductive Screen := BootScreen | SignInScreen | LockScreen | Pages.
Definition screen (w : World) : Screen :=
  if loading w then BootScreen
  else match user w with
       | None => SignInScreen
       | Some u => if negb (online w) && negb (offlineUnlocked w) && negb (must_change_password u)
                   then LockScreen else Pages
       end.
#[export] Instance Screen_eq : EqDecision Screen. Proof. solve_decision. Defined.

(** [Stored] is a change the pages make to the database, [NodesChanged] one to
    the notes and decks. *)
Inductive Event :=
  | SignIn (name password : jstr)
  | SignOut
  | OpenConnection | CloseConnection
  | SaveConnection (nextUrl nextLabel : jstr)
  | NewPassword (current next : jstr)
  | Refresh
  | Tick
  | Unlock
  | ClearCache
  | Stored (f : Database -> Database)
  | NodesChanged (l : list StudyNode)
  | Answered (i : nat) (o : forall q, answer q).

Definition ignore (s : App (outcome Failure unit)) : App unit := _ <- s;; Ret tt.
Definition refresh : App unit := w <- Script.get;; loadWorkspace (api w).

Definition is_storage (s : App unit) : bool :=
  match s with Ask LoadSession _ | Ask (SaveSession _) _ | Ask ClearSession _ => true | _ => false end.
(** A storage operation settles after those that began before it. *)
Definition may_settle (i : nat) (y : System World answer) : bool :=
  match waiting y !! i with
  | Some s => negb (is_storage s && existsb is_storage (take i (waiting y)))
  | None => false
  end.

Definition on (p : World -> bool) (s : App unit) (y : System World answer) : System World answer :=
  if p (world y) then start s y else y.
Definition at_screen (l : list Screen) (w : World) : bool := bool_decide (screen w ∈ l).

Definition handle (e : Event) (y : System World answer) : System World answer :=
  match e with
  | SignIn n p => on (fun w => at_screen [SignInScreen] w && negb (signing_in w) && truthy (trim n) && truthy p) (signIn n p) y
  | SignOut => on (at_screen [Pages]) logout y
  | OpenConnection => on (at_screen [SignInScreen; LockScreen; Pages]) (update (set_connectionOpen true)) y
  | CloseConnection => on connectionOpen (update (set_connectionOpen false)) y
  | SaveConnection u l => on (fun w => at_screen [SignInScreen; LockScreen; Pages] w && connectionOpen w && truthy (trim u))
                             (ignore (saveConnection u l)) y
  | NewPassword c n => on (fun w => at_screen [Pages] w && match user w with Some u => must_change_password u | None => false end)
                          (ignore (changePassword c n)) y
  | Refresh => on (fun w => at_screen [LockScreen; Pages] w && negb (refreshing w)) refresh y
  | Tick => on (fun w => match user w with Some _ => true | None => false end) refresh y
  | Unlock => on (at_screen [LockScreen]) (update (set_offlineUnlocked true)) y
  | ClearCache => on (at_screen [Pages]) (update (fun w => set_db (clearStudentCache (db w)) w);; refresh) y
  | Stored f => on (at_screen [Pages]) (update (fun w => set_db (f (db w)) w)) y
  | NodesChanged l =>
    on (at_screen [Pages]) (update (fun w =>
      set_shown (mkShown (classrooms (shown w)) (assignments (shown w)) (submissions (shown w)) l) w)) y
  | Answered i o => if may_settle i y then resume i o y else y
  end.
Definition run (es : list Event) (y : System World answer) : System World answer := foldl (fun y e => handle e y) y es.

Definition initial (known stored : option jstr) (d : Database) : World :=
  mkWorld true DEV_HOST (js "Student computer") 0 None None false [] false (readKnownAccounts known)
    nothing_shown false false false [] [new_api DEV_HOST None] stored None known d [].
Definition mounted (w : World) : System World answer := start startup (mkSystem w []).

End app.

(** ** Where requests go *)

Module AppFacts.
Section addresses.
Context (accepts : jstr -> Prop).

Definition good_base (b : jstr) : Prop :=
  b = strip_slashes DEV_HOST \/ exists n, accepts n /\ b = strip_slashes n.
(** The native check answers addresses it accepts, or fails. *)
Definition checked (q : Query) : answer q -> Prop :=
  match q with ValidateHost _ => fun a => forall n, a = Ok n -> accepts n | _ => fun _ => True end.

Record addressed (w : World) : Prop := {
  good_apis : Forall (fun a => good_base (api_base a)) (apis w);
  good_requests : Forall (fun r => good_base (to_base r)) (requests w);
  page_client : api_base <$> apis w !! api w = Some (strip_slashes (baseUrl w))
}.

Lemma addressed_same w w' :
  (apis w', requests w', api w', baseUrl w') = (apis w, requests w, api w, baseUrl w) ->
  addressed w -> addressed w'.
Proof. intros [= E1 E2 E3 E4] [H1 H2 H3]. constructor; congruence. Qed.
Lemma addressed_log i q w : addressed w -> addressed (log i q w).
Proof.
  intros [H1 H2 H3]. unfold log. destruct (apis w !! i) as [a|] eqn:Ea; [|done].
  constructor; cbn; [done| |done]. apply Forall_app_2; [done|]. apply Forall_singleton.
  by apply (Forall_lookup_1 _ _ _ _ H1 Ea).
Qed.
Lemma addressed_probe base w : good_base (strip_slashes base) -> addressed w -> addressed (log_probe base w).
Proof. intros Hb [H1 H2 H3]. constructor; cbn; [done| |done]. apply Forall_app_2; [done|]. by apply Forall_singleton. Qed.
Lemma addressed_token i t w : addressed w -> addressed (setToken_api i t w).
Proof.
  intros [H1 H2 H3]. constructor; cbn; [by apply Forall_alter|done|].
  rewrite list_lookup_alter. case_decide as E; [|done]. rewrite <- E in H3.
  by destruct (apis w !! i).
Qed.
Lemma addressed_client base label t w : good_base (strip_slashes base) -> addressed w -> addressed (use_client base label t w).
Proof.
  intros Hb [H1 H2 H3]. constructor; cbn; [|done|].
  - apply Forall_app_2; [done|]. by apply Forall_singleton.
  - by rewrite list_lookup_middle.
Qed.
Lemma addressed_logs i ids w : addressed w -> addressed (foldl (fun w id => log i (MySubmission id) w) w ids).
Proof. revert w. induction ids as [|id ids IH]; intros w Hw; [done|]. by apply IH, addressed_log. Qed.

Local Abbreviation keeps := (keeps addressed checked).
Local Abbreviation anything := (fun _ => True).

Lemma keeps_host i q : keeps (host i q) (checked q).
Proof. intros w0 w Hw. cbn. split; [by split; [apply addressed_log|]|]. auto. Qed.
Lemma keeps_probe base : good_base (strip_slashes base) -> keeps (probeHost base) anything.
Proof. intros Hb w0 w Hw. cbn. split; [by split; [apply addressed_probe|]|]. auto. Qed.
Lemma checked_good n a : checked (ValidateHost a) (Ok n) -> good_base (strip_slashes n).
Proof. intros H. right. exists n. split; [|done]. by apply H. Qed.

Hint Resolve addressed_log addressed_token addressed_logs : script.
(** One step of a handler; [update]s that leave clients and requests alone are closed. *)
Ltac step :=
  match goal with
  | |- keeps (bind (match ?x with _ => _ end) _) _ => destruct x
  | |- keeps (bind (bind _ _) _) _ => eapply keeps_bind; [|intros]
  | |- keeps (bind ?s _) _ => eapply keeps_bind; [|intros]
  | |- keeps (match ?x with _ => _ end) _ => destruct x
  | |- keeps (Ret _) _ => apply keeps_ret
  | |- keeps Script.get _ => apply keeps_get
  | |- keeps (ask _) _ => apply keeps_ask
  | |- keeps (host _ _) _ => apply keeps_host
  | |- keeps (update _) _ => apply keeps_update; intros
  end.
Ltac same := solve [auto with script | repeat case_match; (assumption || (match goal with H : addressed ?w |- _ => apply (addressed_same w); [reflexivity|exact H] end))].
Ltac steps := repeat (step; cbv beta); try same; try done.

Lemma keeps_clear : keeps clearSession anything.

Proof. unfold clearSession. steps. Qed.
Lemma keeps_save v : keeps (saveSession v) anything.
Proof. unfold saveSession. steps. Qed.
Lemma keeps_fetch i : keeps (fetch i) anything.
Proof. unfold fetch. steps. Qed.
Lemma keeps_flush i es : keeps (flush_entries i es) anything.
Proof.
  induction es as [|e es IH]; cbn [flush_entries]; [steps|].
  eapply keeps_bind with (R := anything); [unfold deliver; destruct (entry_payload e) as [p|v];
      [apply (keeps_host i (SubmitWork p))|apply (keeps_host i (SaveNote v))]|].
  intros r _. steps; exact IH.
Qed.
Lemma keeps_flushOutbox i : keeps (flushOutbox i) anything.
Proof. unfold flushOutbox. step; [steps|]. apply keeps_flush. Qed.
Lemma keeps_load i : keeps (loadWorkspace i) anything.
Proof.
  unfold loadWorkspace. step; [steps|]. step; [apply keeps_fetch|].
  step; steps. apply keeps_flushOutbox.
Qed.
Lemma keeps_signed_out : keeps signed_out anything.
Proof. unfold signed_out. step; [apply keeps_clear|]. steps. Qed.
Lemma keeps_confirm i s : keeps (confirmSession i s) anything.
Proof.
  unfold confirmSession. step; [apply keeps_host|]. destruct x as [u|f].
  - step; [steps|]. step; [apply keeps_save|]. steps. apply keeps_signed_out.
  - steps. apply keeps_signed_out.
Qed.
Lemma keeps_stored : keeps storedSession anything.
Proof. unfold storedSession. steps. all: apply keeps_clear. Qed.
Lemma keeps_normalize value :
  keeps (normalizeHostAddress true value) (fun a => forall n, a = Ok n -> good_base (strip_slashes n)).
Proof.
  unfold normalizeHostAddress. eapply keeps_mono; [apply (keeps_ask _ _ (ValidateHost _))|]. intros a Ha n ->. by eapply checked_good.
Qed.
Lemma good_dev : good_base (strip_slashes DEV_HOST).
Proof. by left. Qed.
Lemma keeps_config : keeps (readConfig true) anything.
Proof. unfold readConfig. steps. Qed.
Lemma keeps_startup : keeps (startup true) anything.
Proof.
  unfold startup. step; [apply keeps_config|]. step; [apply keeps_stored|].
  step; [apply keeps_normalize|]. cbv beta in *.
  eapply keeps_bind with (R := fun target => good_base (strip_slashes (snd target))).
  { destruct x1 as [n|f]; [apply keeps_ret, H1; done|]. pose proof good_dev.
    destruct x0; [step; [apply keeps_clear|]|]; by apply keeps_ret. }
  intros [session url] Hurl. cbn [fst snd] in *. step; [steps|].
  step; [step; by apply addressed_client|].
  destruct session as [s|]; (eapply keeps_bind with (R := anything); [|intros; steps]).
  - step; [steps|]. step; [apply keeps_confirm|]. steps. apply keeps_load.
  - step; [by apply keeps_probe|]. steps.
Qed.
Lemma keeps_after_save i u saved : keeps (after_save i u saved) anything.
Proof. unfold after_save. steps; apply keeps_load. Qed.
Lemma keeps_signIn n p : keeps (signIn n p) anything.
Proof.
  unfold signIn. step; [steps|]. eapply keeps_bind with (R := anything); [|intros; steps].
  unfold login. step; [steps|]. step; [apply keeps_host|]. destruct x1 as [[t u]|f]; [|steps].
  step; [steps|]; [|step; [apply keeps_save|apply keeps_after_save]].
  eapply addressed_same; [|apply (addressed_token (api x0) (Some t)); eassumption]. reflexivity.
Qed.
Lemma keeps_logout : keeps logout anything.
Proof.
  unfold logout. step; [steps|]. eapply keeps_bind with (R := anything).
  { destruct (online x); [|steps]. step; [apply keeps_host|]. steps. }
  intros _ _. step; [apply keeps_clear|]. steps.
  eapply addressed_same; [|apply (addressed_token (api x) None); eassumption]. reflexivity.
Qed.
Lemma keeps_saveConnection u l : keeps (saveConnection true u l) anything.
Proof.
  unfold saveConnection. step; [steps|]. step; [apply keeps_normalize|]. cbv beta in *.
  destruct x0 as [n|f]; [|steps]. specialize (H0 n eq_refl). step; [by apply keeps_probe|].
  destruct (negb x0); [steps|]. eapply keeps_bind with (R := anything); [steps|].
  intros [[]|f] _; [|steps]. step; [steps|]. step.
  - step. eapply addressed_same; [|apply addressed_client; eassumption]. reflexivity.
  - destruct (user x); [|steps]. destruct (token x) as [[|c t]|]; [steps| |steps].
    step; [apply keeps_save|]. steps; apply keeps_load.
Qed.
Lemma keeps_changePassword c n : keeps (changePassword c n) anything.
Proof.
  unfold changePassword. step; [steps|]. step; [apply keeps_host|]. destruct x0 as [u|f]; [|steps].
  step; [steps|]. eapply keeps_bind with (R := anything).
  { destruct (token x) as [[|d t]|]; [steps|apply keeps_save|steps]. }
  intros saved _. steps; apply keeps_load.
Qed.
Lemma keeps_refresh : keeps refresh anything.
Proof. unfold refresh. step; [steps|apply keeps_load]. Qed.
Lemma keeps_ignore s : keeps s anything -> keeps (ignore s) anything.
Proof. intros H. unfold ignore. step; [exact H|]. steps. Qed.

Definition event_checked (e : Event) : Prop :=
  match e with Answered _ o => forall q, checked q (o q) | _ => True end.
Definition addressed_run (y : System World answer) : Prop := sound addressed anyhow checked y.

Lemma on_addressed p s y : addressed_run y -> keeps s anything -> addressed_run (on p s y).
Proof. intros Hy Hs. unfold on. destruct (p _); [by apply keeps_start|done]. Qed.
Lemma handle_addressed e y : event_checked e -> addressed_run y -> addressed_run (handle true e y).
Proof.
  intros He Hy. destruct e; cbn [handle]; try (apply on_addressed; [exact Hy|]); try apply keeps_ignore.
  - apply keeps_signIn.
  - apply keeps_logout.
  - steps.
  - steps.
  - apply keeps_saveConnection.
  - apply keeps_changePassword.
  - apply keeps_refresh.
  - apply keeps_refresh.
  - steps.
  - step; [steps|apply keeps_refresh].
  - steps.
  - steps.
  - destruct (may_settle i y); [|done]. apply resume_sound; [exact _|exact He|exact Hy].
Qed.
Lemma initial_addressed known stored d : addressed (initial known stored d).
Proof. constructor; [|constructor|done]. apply Forall_singleton. apply good_dev. Qed.
Lemma run_addressed known stored d es :
  Forall event_checked es -> addressed_run (run true es (mounted true (initial known stored d))).
Proof.
  unfold run. induction es as [|e es IH] using rev_ind; intros H.
  - apply keeps_start; [|apply keeps_startup]. split; [apply initial_addressed|constructor].
  - apply Forall_app in H as [H He]. rewrite foldl_app. cbn [foldl].
    apply handle_addressed; [|by apply IH]. by inversion He.
Qed.
End addresses.
End AppFacts.

Import AppFacts.

(** C12. Whatever was stored on the device and however the app is used, answered
    and interleaved, an installed app sends its requests, probes of an address
    included, only to the development address or to an address the native check
    accepted; and the address shown is that of the client the pages use.  (A
    browser has no native check and is not covered.) *)
Theorem requests_to_checked_addresses accepts known stored d es :
  Forall (event_checked accepts) es ->
  let w := world (run true es (mounted true (initial known stored d))) in
  (forall r, r ∈ requests w ->
     to_base r = strip_slashes DEV_HOST \/ exists n, accepts n /\ to_base r = strip_slashes n) /\
  api_base <$> apis w !! api w = Some (strip_slashes (baseUrl w)).
Proof.
  intros H w. pose proof (run_addressed accepts known stored d es H) as [[_ Hr Hp] _].
  split; [|exact Hp]. intros r Hin. by eapply Forall_forall in Hr.
Qed.

(** ** A handler that runs alone *)

Module AloneFacts.

(** What is sent of a waiting entry. *)
Definition delivery (e : OutboxEntry) : Query :=
  match entry_payload e with NoteEntry v => SaveNote v | SubmissionEntry p => SubmitWork p end.
Definition request_by (a : CinderApi) (q : Query) : Request := mkRequest (api_base a) (bearer a) q.
Definition keyed (d : Database) : Prop := Forall (fun p => fst p = entry_key (snd p)) (outbox d).

Lemma log_by i a q w : apis w !! i = Some a -> log i q w = set_requests (requests w ++ [request_by a q]) w.
Proof. unfold log. by intros ->. Qed.
Lemma logs_by i a ids w : apis w !! i = Some a ->
  foldl (fun w id => log i (MySubmission id) w) w ids =
    set_requests (requests w ++ (request_by a ∘ MySubmission <$> ids)) w.
Proof.
  revert w. induction ids as [|id ids IH]; intros w Ha; cbn [foldl].
  - rewrite app_nil_r. by destruct w.
  - rewrite (log_by i a) by done. rewrite IH by done. cbn [requests set_requests fmap list_fmap].
    by rewrite <- app_assoc.
Qed.

Lemma cached_cache_all s d : cached_all (cache_all s d) = s.
Proof.
  unfold cached_all, cache_all, cacheGet, cacheSet. cbn [cache].
  rewrite lookup_insert_eq. repeat (rewrite lookup_insert_ne by done; try rewrite lookup_insert_eq). by destruct s.
Qed.
Lemma cached_same d d' : cache d' = cache d -> cached_all d' = cached_all d.
Proof. unfold cached_all, cacheGet. by intros ->. Qed.

Lemma keyed_remove k d : keyed d -> keyed (removeOutbox k d).
Proof.
  unfold keyed, removeOutbox, without. cbn [outbox]. rewrite !Forall_forall. intros H p Hp.
  apply H. by apply list_elem_of_In, filter_In in Hp as [Hp%list_elem_of_In _].
Qed.
Lemma kept_remove k d e :
  keyed d -> e ∈ outboxEntries d -> entry_key e <> k -> e ∈ outboxEntries (removeOutbox k d).
Proof.
  unfold keyed, outboxEntries, removeOutbox, without. intros H (p & -> & Hp)%list_elem_of_fmap Hk. cbn [outbox].
  apply list_elem_of_fmap. exists p. split; [done|]. apply list_elem_of_In, filter_In.
  split; [by apply list_elem_of_In|]. eapply Forall_forall in H; [|exact Hp]. rewrite H.
  by apply negb_true_iff, seqb_neq.
Qed.

(** The entries [es] have been tried up to the [m]th. *)
Definition tried (a : CinderApi) (es : list OutboxEntry) (m : nat) (d d' : Database) : Prop :=
  cache d' = cache d /\ keyed d' /\
  forall e, e ∈ outboxEntries d -> entry_key e ∉ entry_key <$> take m es -> e ∈ outboxEntries d'.
Definition flushed (a : CinderApi) (es : list OutboxEntry) (w w' : World) : Prop :=
  exists m d, w' = set_requests (requests w ++ (request_by a ∘ delivery <$> take m es)) (set_db d w) /\
    tried a es m (db w) d.

Lemma flush_none a es w : keyed (db w) -> flushed a es w w.
Proof.
  intros Hk. exists 0%nat, (db w). cbn. rewrite app_nil_r. split; [by destruct w|]. by split_and!.
Qed.
Lemma flush_entry_step a e es w d w' :
  cache d = cache (db w) -> keyed d ->
  (forall e', e' ∈ outboxEntries (db w) -> entry_key e' <> entry_key e -> e' ∈ outboxEntries d) ->
  flushed a es (set_db d (set_requests (requests w ++ [request_by a (delivery e)]) w)) w' ->
  flushed a (e :: es) w w'.
Proof.
  intros Hc Hk Hkept (m & d' & -> & Hc' & Hk' & Hd). exists (S m), d'. split.
  - cbn [take fmap list_fmap requests set_requests set_db]. by rewrite <- app_assoc.
  - split; [by rewrite Hc'|]. split; [done|]. intros e' He' Hn. apply Hd; cbn [db set_db].
    + apply Hkept; [done|]. intros E. apply Hn. cbn [take fmap list_fmap]. rewrite E. by left.
    + intros Hin. apply Hn. cbn [take fmap list_fmap]. by right.
Qed.

Section answers.
Context (ok : forall q, answer q -> Prop).
Local Abbreviation wp := (wp ok).

Lemma deliver_wp i a e w post :
  apis w !! i = Some a ->
  (forall r, post r (set_requests (requests w ++ [request_by a (delivery e)]) w)) ->
  wp (deliver i e) post w.
Proof.
  intros Ha H. unfold deliver, host, delivery in *. destruct (entry_payload e) as [p|v]; cbn; intros r _;
    rewrite (log_by i a) by done; apply H.
Qed.

Lemma set_db_requests rs w : set_db (db w) (set_requests rs w) = set_requests rs w.
Proof. by destruct w. Qed.

Lemma flush_wp i a es w :
  apis w !! i = Some a -> keyed (db w) -> wp (flush_entries i es) (fun _ => flushed a es w) w.
Proof.
  revert w. induction es as [|e es IH]; intros w Ha Hk; cbn [flush_entries]; [by apply flush_none|].
  apply wp_bind, (deliver_wp i a); [done|]. intros r.
  set (w1 := set_requests _ w).
  assert (Hnone : flushed a (e :: es) w w1).
  { eapply (flush_entry_step a e es w (db w)); [done..| |]; [auto|].
    rewrite set_db_requests. by apply flush_none. }
  assert (Hdrop : wp (flush_entries i es) (fun _ => flushed a (e :: es) w) (drop e w1)).
  { eapply wp_mono; [|apply IH; [done|by apply keyed_remove]]. intros ? w' Hw'.
    eapply (flush_entry_step a e es w (removeOutbox (entry_key e) (db w))); [done|by apply keyed_remove| |exact Hw'].
    intros e' He' Hne. by apply kept_remove. }
  assert (Hkeep : wp (flush_entries i es) (fun _ => flushed a (e :: es) w) w1).
  { eapply wp_mono; [|apply IH; [done|done]]. intros ? w' Hw'.
    eapply (flush_entry_step a e es w (db w)); [done..|auto|]. by rewrite set_db_requests. }
  destruct r as [u|f]; [exact Hdrop|]. destruct (is_offline f); [exact Hnone|].
  case_bool_decide; [exact Hdrop|exact Hkeep].
Qed.

Definition is_read (q : Query) : Prop := q ∈ [Classrooms; Assignments; Tree] \/ exists id, q = MySubmission id.

(** What a load leaves: [w'] after one that began in [w]. *)
Definition same_session (w w' : World) : Prop :=
  (user w', token w', disk w', loading w', baseUrl w', api w', apis w') =
  (user w, token w, disk w, loading w, baseUrl w, api w, apis w).
Definition loaded (a : CinderApi) (w w' : World) : Prop :=
  refreshing w' = false /\ shown w' = cached_all (db w') /\ same_session w w' /\
  ((online w' = false /\ db w' = db w /\
    exists reads, requests w' = requests w ++ (request_by a <$> reads) /\ Forall is_read reads) \/
   (online w' = true /\ offlineUnlocked w' = false /\
    exists reads m,
      requests w' = requests w ++ (request_by a <$> reads) ++ (request_by a ∘ delivery <$> take m (outboxEntries (db w))) /\
      Forall is_read reads /\
      forall e, e ∈ outboxEntries (db w) -> entry_key e ∉ entry_key <$> take m (outboxEntries (db w)) ->
        e ∈ outboxEntries (db w'))).

Lemma fetch_wp i a w :
  apis w !! i = Some a ->
  wp (fetch i) (fun _ w' => exists reads, w' = set_requests (requests w ++ (request_by a <$> reads)) w /\
                              Forall is_read reads) w.
Proof.
  intros Ha. unfold fetch. cbn [bind update Script.wp].
  rewrite (log_by i a Classrooms), (log_by i a Assignments), (log_by i a Tree) by done. cbn [requests set_requests apis].
  rewrite <- !app_assoc. cbn [app].
  intros [[[rooms work] tree]|f] _; cbn [bind Script.wp ask].
  - rewrite (logs_by i a) by done. intros found _.
    assert (H : exists reads, set_requests
      ((requests w ++ [request_by a Classrooms; request_by a Assignments; request_by a Tree]) ++
       (request_by a ∘ MySubmission <$> (assignment_id <$> work))) w = set_requests (requests w ++ (request_by a <$> reads)) w /\
      Forall is_read reads).
    { exists ([Classrooms; Assignments; Tree] ++ (MySubmission <$> (assignment_id <$> work))).
      rewrite fmap_app, <- app_assoc, <- !list_fmap_compose. split; [done|].
      apply Forall_app_2; [repeat constructor; left; set_solver|].
      apply Forall_fmap, Forall_true. intros x. right. by eexists. }
    destruct found; exact H.
  - exists [Classrooms; Assignments; Tree]. split; [done|]. repeat constructor; left; set_solver.
Qed.

Lemma load_wp i a w : apis w !! i = Some a -> keyed (db w) -> wp (loadWorkspace i) (fun _ => loaded a w) w.
Proof.
  intros Ha Hk. unfold loadWorkspace. cbn [bind update Script.wp].
  apply wp_bind. eapply wp_mono; [|apply (fetch_wp i a (set_refreshing true w)); done].
  intros r w1 (reads & -> & Hreads). apply wp_bind. destruct r as [s|f]; cbn [bind update Script.wp flushOutbox Script.get].
  - eapply wp_mono; [|apply (flush_wp i a); [done|done]].
    intros ? w2 (m & d & -> & Hc & Hkd & Hkept). cbn [Script.wp set_refreshing].
    split; [done|]. split; [cbn [shown db set_refreshing set_requests set_db set_shown set_online set_offlineUnlocked]|].
    { rewrite (cached_same (cache_all s (db w)) d) by exact Hc. by rewrite cached_cache_all. }
    split; [done|]. right. split; [done|]. split; [done|]. exists reads, m. split; [apply (eq_sym (app_assoc _ _ _))|done].
  - split; [done|]. split; [done|]. split; [done|]. left. split; [done|]. split; [done|]. by exists reads.
Qed.
End answers.
End AloneFacts.

Import AloneFacts.

(** A load that nothing interrupts: it ends, the page shows what is cached,
    the session is untouched, and either the Host failed, the page is offline
    and the database is as it was; or it is online, and after its reads the
    load sent a beginning of the waiting entries, each once and in order, and
    kept every entry it did not send. *)
Theorem load_settles i a w :
  apis w !! i = Some a -> keyed (db w) ->
  forall env n, loaded a w (snd (finish (loadWorkspace i) env n w)).
Proof.
  intros Ha Hk env n.
  exact (wp_finish (fun _ _ => True) (loadWorkspace i) (fun _ => loaded a w) env n w (fun _ _ => I) (load_wp _ i a w Ha Hk)).
Qed.

(** ** Start-up *)

Module StartupFacts.
Section startup.
Context (address : outcome Failure jstr) (me : outcome Failure jsval) (saved cleared : bool).

(** What start-up is told: of the address, of the session, and whether the
    stored session can be written and removed. *)
Definition told (q : Query) : answer q -> Prop :=
  match q with
  | ValidateHost _ => fun a => a = address
  | Me => fun a => a = me
  | SaveSession _ => fun a => a = Ok saved
  | ClearSession => fun a => a = cleared
  | _ => fun _ => True
  end.

(** The account, its token and what stays stored. *)
Definition started (stored : option jstr) : option jsval * option jstr * option jstr :=
  let removed := if cleared then None else stored in
  match session_in stored with
  | None => (None, None, match stored with None | Some [] => stored | _ => removed end)
  | Some s =>
    let t := text_of (get (js "token") s) in
    match address, me with
    | Throw _, _ => (None, None, removed)
    | Ok _, Ok u => (Some u, Some t, if saved then Some (stringify (with_user s u)) else stored)
    | Ok _, Throw f => if is_offline f then (Some (get (js "user") s), Some t, stored) else (None, None, removed)
    end
  end.
Definition account (w : World) := (user w, token w, disk w).

Lemma clear_wp post w :
  post tt (if cleared then set_disk None w else w) -> wp told clearSession post w.
Proof. intros H. cbn. by intros a ->. Qed.
Lemma save_wp v post w :
  post (Ok tt) (if saved then set_disk (Some (stringify v)) w else w) -> wp told (saveSession v) post w.
Proof. intros H. cbn. by intros a ->. Qed.
Lemma stored_wp post w :
  post (session_in (disk w))
    (match session_in (disk w), disk w with
     | None, Some (_ :: _) => if cleared then set_disk None w else w
     | _, _ => w
     end) -> wp told storedSession post w.
Proof.
  intros H. unfold storedSession. cbn [bind ask wp Script.get]. intros _ _.
  destruct (disk w) as [[|c text]|] eqn:Ed; [exact H| |exact H].
  destruct (session_in (Some (c :: text))); [exact H|]. apply wp_bind, clear_wp. exact H.
Qed.

(** The probe of the development address, without a token. *)
Definition only_probe : Request := mkRequest (strip_slashes DEV_HOST) None (Probe DEV_HOST).
Definition finished (x : option jsval * option jstr * option jstr) (w : World) : Prop :=
  loading w = false /\ refreshing w = false /\ account w = x /\
  match address with Throw _ => requests w = [only_probe] | Ok _ => True end.
Lemma rest_wp i a (b : bool) x n w :
  address = Ok n -> apis w !! i = Some a -> keyed (db w) -> refreshing w = false -> account w = x ->
  wp told (if b then loadWorkspace i else Ret tt) (fun _ w => wp told (update (set_loading false)) (fun _ => finished x) w) w.
Proof.
  intros Haddr Ha Hk Hr Hx. destruct b; [|by unfold finished; rewrite Haddr; split_and!].
  eapply wp_mono; [|by apply load_wp]. intros ? w' (Hr' & _ & Hs & _). injection Hs as Hu Ht Hd _ _ _ _.
  split; [done|]. split; [done|]. split; [|by rewrite Haddr]. unfold account in *. cbn [user token disk set_loading]. congruence.
Qed.

Lemma signed_out_wp post w :
  post false (set_token None (set_user None (if cleared then set_disk None w else w))) -> wp told signed_out post w.
Proof. intros H. unfold signed_out. apply wp_bind, clear_wp. exact H. Qed.

(** The state after the session was confirmed, or not. *)
Definition settled_session (s : jsval) (w w' : World) : Prop :=
  (apis w', db w', refreshing w') = (apis w, db w, refreshing w) /\
  account w' =
    match me with
    | Ok u => (Some u, token w, if saved then Some (stringify (with_user s u)) else disk w)
    | Throw f => if is_offline f then account w else (None, None, if cleared then None else disk w)
    end.
Lemma confirm_wp i a s w :
  apis w !! i = Some a -> wp told (confirmSession i s) (fun _ => settled_session s w) w.
Proof.
  intros Ha. unfold confirmSession, host. cbn [bind ask wp]. rewrite (log_by i a) by done.
  intros r Hr. cbn [told] in Hr. subst r. unfold settled_session. destruct me as [u|f].
  - cbn [bind update wp]. apply wp_bind, save_wp. by destruct saved.
  - destruct (is_offline f); [done|]. apply signed_out_wp. by destruct cleared.
Qed.

Lemma started_wp known stored d :
  keyed d -> wp told (startup true) (fun _ => finished (started stored)) (initial known stored d).
Proof.
  intros Hk. unfold startup, readConfig. cbn [bind ask wp]. intros c _.
  set (config := match c with Ok c => c | Throw _ => _ end). clearbody config.
  apply wp_bind, stored_wp. cbn [disk initial]. unfold started.
  destruct (session_in stored) as [s|] eqn:Es; cbn [normalizeHostAddress bind ask wp]; intros r Hr; cbn [told] in Hr; subst r.
  - destruct address as [n|f] eqn:Haddr.
    + cbn [bind Script.get wp fst snd update]. apply wp_bind. cbn [wp]. apply wp_bind.
      eapply wp_mono; [|eapply confirm_wp; reflexivity]. intros b w (Hsame & Hacc). injection Hsame as Ha Hd Hr.
      eapply rest_wp; [done|by rewrite Ha|by rewrite Hd|by rewrite Hr|].
      rewrite Hacc. cbn. by destruct me, stored as [[|]|], saved.
    + apply wp_bind. apply wp_bind, clear_wp. cbn [bind Script.get wp fst snd update]. intros found _.
      unfold finished. rewrite Haddr. by destruct cleared.
  - destruct address as [n|f] eqn:Haddr; cbn [bind Script.get wp fst snd update]; intros found _;
      unfold finished; rewrite Haddr; by destruct stored as [[|]|], cleared.
Qed.
End startup.
End StartupFacts.

Import StartupFacts.

(** C15. Start-up of an installed app: whatever is stored and answered it ends
    and the boot screen gives way; the account shown, its token and what stays
    stored are those of [started] (signed out, and the stored session removed,
    when the address is refused or the Host rejects the session; the stored
    account when the Host is away; the Host's account, stored again, when it
    answers); and a session whose address is refused is sent to nobody: the only
    request is then the probe of the development address, without a token. *)
Theorem startup_settles address me saved cleared known stored d env :
  keyed d -> (forall n q, told address me saved cleared q (env n q)) ->
  let w := snd (finish (startup true) env 0 (initial known stored d)) in
  loading w = false /\ refreshing w = false /\
  (user w, token w, disk w) = started address me saved cleared stored /\
  screen w <> BootScreen /\
  (forall f, address = Throw f -> requests w = [only_probe]).
Proof.
  intros Hk Henv w.
  pose proof (wp_finish _ _ _ env 0 _ Henv (started_wp address me saved cleared known stored d Hk)) as (Hl & Hr & Ha & Hs).
  split; [exact Hl|]. split; [exact Hr|]. split; [exact Ha|]. split; [|by intros f ->].
  unfold screen. fold w in Hl. rewrite Hl. by repeat case_match.
Qed.

(** ** Concrete runs *)

Module StudentRuns.

Definition unreachable : Failure := ApiFailure 0 true (js "Host unavailable").
Definition student (name : jstr) : jsval :=
  VObj [(js "id", VStr name); (js "role", VStr (js "student")); (js "username", VStr name);
        (js "must_change_password", VBool false)].
Definition room (name : jstr) : Classroom :=
  mkClassroom name name None [] [] [] [] [] 1 [].
Definition school : jstr := js "http://192.168.1.20:7373".
Definition other : jstr := js "http://192.168.1.66:7373".

(** A Host with one account and one classroom; [address] is what the native
    check answers. *)
Definition host_of (name : jstr) (address : outcome Failure jstr) (q : Query) : answer q :=
  match q with
  | LoadConfig => Ok (Some school, Some (js "Desk 4"))
  | ValidateHost _ => address
  | Me | ChangePassword _ _ => Ok (student name)
  | LoadSession => tt
  | SaveSession _ => Ok true
  | ClearSession | Probe _ => true
  | Login _ _ _ => Ok (name ++ js "-token", student name)
  | Lists => Ok ([room name], [], [])
  | Submissions _ => Ok (fun _ => None)
  | SaveConfig _ _ | Logout | Classrooms | Assignments | Tree | MySubmission _ | SaveNote _ | SubmitWork _ => Ok tt
  end.
Definition reply (name : jstr) (i : nat) : Event := Answered i (host_of name (Ok school)).
Definition replies (name : jstr) (n : nat) : list Event := replicate n (reply name 0).

Definition empty_db : Database := mkDatabase ∅ [].
Definition fresh : System World answer := mounted true (initial None None empty_db).
(** Four answers to the sign-in page; then the answers to the sign-in, the
    saving of the session and the two rounds of the load. *)
Definition sign_in (name : jstr) : list Event := SignIn name (js "secret") :: replies name 4.
Definition opened : list Event := replies (js "ann") 4.
Definition sign_out (name : jstr) : list Event := SignOut :: replies name 2.

Definition work : SubmissionPayload := mkPayload (js "a1") VNull (js "essay") (js "Queued while offline").
Definition queued_work : OutboxEntry := mkEntry (js "submission:a1") (SubmissionEntry work) [].

Example signed_in_after : screen (world (run true (opened ++ sign_in (js "ann")) fresh)) = Pages /\
  token (world (run true (opened ++ sign_in (js "ann")) fresh)) = Some (js "ann-token").
Proof. by vm_compute. Qed.

Definition ann := js "ann".
Definition bob := js "bob".
Definition at_work : list Event := opened ++ sign_in ann.

(** Ann hands work in while the Host is away and signs out; Bob signs in on the
    same computer, and her work is sent with his token. *)
Example outbox_crosses_accounts :
  let y := run true (at_work ++ [Stored (queueOffline queued_work [])] ++ sign_out ann ++ sign_in bob) fresh in
  last (requests (world y)) = Some (mkRequest school (Some (js "bob-token")) (SubmitWork work)).
Proof. by vm_compute. Qed.

(** A load of Ann's that ends after Bob signed in shows him her classrooms and
    stores them, and no later load is needed to read them there. *)
Example late_load_crosses_accounts :
  let y := run true (at_work ++ [Refresh; SignOut; reply ann 1; reply ann 1; SignIn bob (js "secret");
                                 reply bob 1; reply bob 1; reply ann 0; reply ann 1]) fresh in
  user (world y) = Some (student bob) /\ classrooms (shown (world y)) = [room ann] /\
  cacheGet (js "classrooms") (db (world y)) = Some (CachedClassrooms [room ann]).
Proof. by vm_compute. Qed.

(** A note that is queued again while its earlier version is being sent leaves
    the outbox with it, unsent. *)
Definition version (text : jstr) : OutboxEntry :=
  mkEntry (js "note:n1") (NoteEntry (note_payload (js "n1") VNull text [])) [].
Example newer_entry_dropped :
  let y := run true (at_work ++ [Stored (queueOffline (version (js "first")) []); Refresh] ++ replies ann 2 ++
                     [Stored (queueOffline (version (js "second")) [])] ++ replies ann 1) fresh in
  outbox (db (world y)) = [] /\
  forall r, r ∈ requests (world y) -> what r <> SaveNote (note_payload (js "n1") VNull (js "second") []).
Proof.
  vm_compute. split; [done|]. intros r Hr. repeat (apply elem_of_cons in Hr as [->|Hr]; [done|]). by apply elem_of_nil in Hr.
Qed.

(** A new address is given the token of the old one. *)
Example token_follows_connection :
  let moved := Answered 0 (host_of ann (Ok other)) in
  let y := run true (at_work ++ [OpenConnection; SaveConnection other []; moved; moved; moved; moved]) fresh in
  last (requests (world y)) = Some (mkRequest other (Some (js "ann-token")) Tree).
Proof. by vm_compute. Qed.

(** Changing the address while signing in signs the account in on a client
    that has no token. *)
Example signed_in_without_token :
  let y := run true (opened ++ [OpenConnection; SignIn ann (js "secret"); SaveConnection school []; reply ann 1; reply ann 1;
                                reply ann 1; reply ann 0; reply ann 0]) fresh in
  token (world y) = Some (js "ann-token") /\ (api_token <$> apis (world y) !! api (world y)) = Some None.
Proof. by vm_compute. Qed.

(** A session the Host has ended looks like a Host that is away. *)
Definition expired (q : Query) : answer q :=
  match q with Lists => Throw (ApiFailure 401 false (js "Session expired")) | q => host_of ann (Ok school) q end.
Example expired_session_locks :
  let y := run true (at_work ++ [Refresh; Answered 0 expired]) fresh in
  screen (world y) = LockScreen /\ token (world y) = Some (js "ann-token").
Proof. by vm_compute. Qed.

Lemma host_checked name q : checked (fun n => n = school) q (host_of name (Ok school) q).
Proof. destruct q; try done. by intros n [= <-]. Qed.
Lemma at_work_checked : Forall (event_checked (fun n => n = school)) at_work.
Proof. repeat (constructor; [first [exact I|exact (host_checked ann)]|]). constructor. Qed.
Lemma requests_to_checked_addresses_witness :
  api_base <$> apis (world (run true at_work fresh)) !! 1%nat = Some school /\
  (forall r, r ∈ requests (world (run true at_work fresh)) ->
     to_base r = strip_slashes DEV_HOST \/ exists n, n = school /\ to_base r = strip_slashes n).
Proof.
  split; [by vm_compute|].
  apply (requests_to_checked_addresses (fun n => n = school) None None empty_db at_work at_work_checked).
Defined.

Definition waiting_db : Database := mkDatabase ∅ [(js "submission:a1", queued_work)].
Definition ready : World :=
  set_db waiting_db (set_apis [mkApi school (Some (js "ann-token"))] (initial None None empty_db)).
Lemma load_settles_witness :
  outbox (db (snd (finish (loadWorkspace 0) (fun _ => host_of ann (Ok school)) 0 ready))) = [] /\
  loaded (mkApi school (Some (js "ann-token"))) ready (snd (finish (loadWorkspace 0) (fun _ => host_of ann (Ok school)) 0 ready)).
Proof.
  split; [by vm_compute|]. apply load_settles; [done|]. by apply Forall_singleton.
Defined.

Definition stored_session : jstr := stringify (session_value school (js "ann-token") (student ann)).
Definition told_env (me : outcome Failure jsval) (q : Query) : answer q :=
  match q with Me => me | q => host_of ann (Ok school) q end.
Lemma startup_settles_witness :
  let w := snd (finish (startup true) (fun _ => told_env (Throw unreachable)) 0 (initial None (Some stored_session) empty_db)) in
  user w = Some (student ann) /\
  (user w, token w, disk w) = started (Ok school) (Throw unreachable) true true (Some stored_session).
Proof.
  split; [by vm_compute|].
  apply (startup_settles (Ok school) (Throw unreachable) true true None (Some stored_session) empty_db
           (fun _ => told_env (Throw unreachable))); [constructor|].
  intros n q. by destruct q.
Defined.
End StudentRuns.
