(* ===== verification/DocumentEditor.v ===== *)
(** * The document editor of the student app
    ([apps/forge/src/studio/DocumentEditor.tsx])

    [Desk] is the state of one open [DocumentEditor]: its React state and refs,
    Quill's contents and selection, the [localStorage] its page settings and
    version history are kept in, and the workspace its [onUpdate] writes to.
    An event takes the time it happens at and whether [localStorage] accepts
    a write.

    Quill is a third-party library, known here through its documentation: a
    document is a sequence of characters and embeds, [getText] leaves the embeds
    out, an edit changes the range it names.  [Quill] is its interface,
    [QuillLaws] what is relied on, [plain_quill] an instance. *)

From stdpp Require Import gmap.
From S2P Require Import Prelude Script JsString JsNumber JsValue Locale Workspace.
From S2P Require PaperExport.
Local Open Scope Z_scope.
Local Open Scope script_scope.

Inductive TableAction := InsertTable | InsertRowBelow | InsertColumnRight | DeleteRow | DeleteColumn | DeleteTable.

Inductive Item := IChar (c : N) | IEmbed.
Definition text_of_items (l : list Item) : jstr := filter_map (fun i => match i with IChar c => Some c | IEmbed => None end) l.

(** A selection: [Range.index] and [Range.length]. *)
Definition Range : Type := nat * nat.

Class Quill := {
  Doc : Type;
  items : Doc -> list Item;
  innerHTML : Doc -> jstr;                       (** [quill.root.innerHTML] *)
  pasted : jstr -> Doc;                          (** the contents after [dangerouslyPasteHTML] *)
  getText : nat -> nat -> Doc -> jstr;
  deleteText : nat -> nat -> Doc -> Doc;
  insertText : nat -> jstr -> Doc -> Doc;
  insertEmbed : nat -> jstr -> jstr -> Doc -> Doc;
  table_at : option Range -> Doc -> bool;        (** [module.getTable()[0]] is not null *)
  table_edit : TableAction -> option Range -> Doc -> Doc;
  carried : option Range -> Doc -> Doc -> option Range;  (** where an edit leaves the selection *)
  sanitize : jstr -> jstr;                       (** [DOMPurify.sanitize] *)
  katex_accepts : jstr -> bool                   (** [katex.renderToString] does not throw *)
}.
Definition getLength `{Quill} (q : Doc) : nat := length (items q).
Definition full_text `{Quill} (q : Doc) : jstr := getText 0 (getLength q) q.

Class QuillLaws (Q : Quill) : Prop := {
  getText_items : forall i n q, getText i n q = text_of_items (take n (drop i (items q)));
  deleteText_items : forall i n q, (i + n < getLength q)%nat -> items (deleteText i n q) = take i (items q) ++ drop (i + n) (items q);
  insertText_items : forall i s q, (i < getLength q)%nat -> items (insertText i s q) = take i (items q) ++ (IChar <$> s) ++ drop i (items q);
}.

(** ** Page settings and versions *)

(** [settings] and a version are the objects they are in storage: a restored
    version's settings are taken as they were stored. *)
Record Extras := mkExtras { settings : jsval; versions : list jsval; loadError : option jstr }.

Definition settings_obj (paper : jstr) (landscape : bool) (margin : Z) (continuous : bool) (spacing header footer : jstr) : jsval :=
  VObj [(js "paper", VStr paper); (js "landscape", VBool landscape); (js "margin", VNum (num margin));
        (js "continuous", VBool continuous); (js "spacing", VStr spacing); (js "header", VStr header); (js "footer", VStr footer)].
Definition defaults : jsval := settings_obj (js "A4") false 20 false (js "1.5") [] [].

Definition is_true (v : jsval) : bool := match v with VBool b => b | _ => false end.
Definition is_str (s : jstr) (v : jsval) : bool := match v with VStr t => seqb t s | _ => false end.
Definition is_num (z : Z) (v : jsval) : bool := match v with VNum n => num_eq n (num z) | _ => false end.
Definition MARGINS : list Z := [12; 20; 25].
Definition SPACINGS : list jstr := [js "1"; js "1.15"; js "1.5"; js "2"].
Definition text_or_none (v : jsval) : jstr := default [] (as_string v).
Definition valid_settings (s : jsval) : jsval :=
  settings_obj
    (if is_str (js "Letter") (get (js "paper") s) then js "Letter" else js "A4")
    (is_true (get (js "landscape") s))
    (default 20 (find (fun m => is_num m (get (js "margin") s)) MARGINS))
    (is_true (get (js "continuous") s))
    (default (js "1.5") (find (fun t => is_str t (get (js "spacing") s)) SPACINGS))
    (text_or_none (get (js "header") s)) (text_or_none (get (js "footer") s)).
Definition version_fields : list jstr := [js "bodyHtml"; js "title"; js "topic"; js "savedAt"].
Definition is_version (v : jsval) : bool := truthy_val v && forallb (fun f => is_string (get f v)) version_fields.

Definition msg_not_read : jstr :=
  js "Saved page settings or version history could not be read. The original record has been preserved.".
Definition unreadable : Extras := mkExtras defaults [] (Some msg_not_read).
(** [opens]: [localStorage] can be read. *)
Definition readExtras (opens : bool) (stored : option jstr) : Extras :=
  if negb opens then unreadable
  else
    match parse_json (or_str (default [] stored) (js "null")) with
    | None => unreadable
    | Some raw =>
      if negb (truthy_val raw) then mkExtras defaults [] None
      else
        let s := get (js "settings") raw in
        mkExtras (valid_settings (if truthy_val s then s else VObj []))
          (match get (js "versions") raw with VArr vs => take 10 (List.filter is_version vs) | _ => [] end) None
    end.
Definition extras_json (x : Extras) : jsval := VObj [(js "settings", settings x); (js "versions", VArr (versions x))].

(** [{ ...v, ...ps }] *)
Definition indexed {A} (f : A -> jsval) (l : list A) : list (jstr * jsval) := imap (fun i x => (show_Z (Z.of_nat i), f x)) l.
Definition spread (v : jsval) : list (jstr * jsval) :=
  match v with VObj ps => ps | VArr xs => indexed (fun x => x) xs | VStr s => indexed (fun c => VStr [c]) s | _ => [] end.
Definition merged (v : jsval) (ps : list (jstr * jsval)) : jsval :=
  VObj (fold_left (fun o p => set_prop (fst p) (snd p) o) (spread v ++ ps) []).

Record Draft := mkDraft { title : jstr; topic : jstr; bodyHtml : jstr }.
Definition version_of (now : jstr) (s : jsval) (d : Draft) : jsval :=
  VObj [(js "title", VStr (title d)); (js "topic", VStr (topic d)); (js "bodyHtml", VStr (bodyHtml d));
        (js "savedAt", VStr now); (js "settings", merged s [])].

(** ** The editor *)

Inductive Panel := NoPanel | PagePanel | FindPanel | HistoryPanel | InsertPanel.
#[export] Instance Panel_eq : EqDecision Panel. Proof. solve_decision. Defined.

(** [edition] tells apart the objects that [draftRef] holds one after the
    other. *)
Record Desk `{Quill} := mkDesk {
  draft : Draft; edition : nat; quill : option Doc; selected : option Range; cursor : nat;
  extras : Extras; panel : Panel; message : jstr; busy : bool; finding : jstr; replacing : jstr;
  word_count : nat; alive : bool; disk : gmap jstr jstr; book : ForgeData
}.

Record File := mkFile { file_name : jstr; file_type : jstr; file_size : Z }.
Inductive Query `{Quill} :=
  | ReadWord (f : File)
  | ReadText (f : File)
  | ReadImage (f : File)
  | WriteWord (name : jstr) (q : Doc) (s : jsval).
(** The HTML of a Word file, the text of a file, the data URL of an image. *)
Definition answer `{Quill} (q : Query) : Type :=
  match q with WriteWord _ _ _ => outcome unit unit | _ => outcome unit jstr end.

Section editor.
Context `{Quill, Locale} (accountId noteId : jstr).
Local Abbreviation Script := (Script Desk answer).

Definition extras_key : jstr := documentKeyPrefix accountId ++ noteId.

(** *** The parts of the state *)

Definition with_draft (d : Draft) (n : nat) (b : ForgeData) (e : Desk) : Desk :=
  mkDesk _ d n (quill e) (selected e) (cursor e) (extras e) (panel e) (message e) (busy e) (finding e) (replacing e)
    (word_count e) (alive e) (disk e) b.
Definition with_quill (q : option Doc) (r : option Range) (n : nat) (e : Desk) : Desk :=
  mkDesk _ (draft e) (edition e) q r (cursor e) (extras e) (panel e) (message e) (busy e) (finding e) (replacing e)
    n (alive e) (disk e) (book e).
Definition at_cursor (r : option Range) (c : nat) (e : Desk) : Desk :=
  mkDesk _ (draft e) (edition e) (quill e) r c (extras e) (panel e) (message e) (busy e) (finding e) (replacing e)
    (word_count e) (alive e) (disk e) (book e).
Definition with_extras (x : Extras) (m : gmap jstr jstr) (e : Desk) : Desk :=
  mkDesk _ (draft e) (edition e) (quill e) (selected e) (cursor e) x (panel e) (message e) (busy e) (finding e) (replacing e)
    (word_count e) (alive e) m (book e).
Definition with_panel (p : Panel) (f r : jstr) (e : Desk) : Desk :=
  mkDesk _ (draft e) (edition e) (quill e) (selected e) (cursor e) (extras e) p (message e) (busy e) f r
    (word_count e) (alive e) (disk e) (book e).
Definition say (m : jstr) (e : Desk) : Desk :=
  mkDesk _ (draft e) (edition e) (quill e) (selected e) (cursor e) (extras e) (panel e) m (busy e) (finding e) (replacing e)
    (word_count e) (alive e) (disk e) (book e).
Definition set_busy (b : bool) (e : Desk) : Desk :=
  mkDesk _ (draft e) (edition e) (quill e) (selected e) (cursor e) (extras e) (panel e) (message e) b (finding e) (replacing e)
    (word_count e) (alive e) (disk e) (book e).
Definition with_alive (b : bool) (e : Desk) : Desk :=
  mkDesk _ (draft e) (edition e) (quill e) (selected e) (cursor e) (extras e) (panel e) (message e) (busy e) (finding e) (replacing e)
    (word_count e) b (disk e) (book e).

(** *** The draft *)

Definition update (now : jstr) (d : Draft) (e : Desk) : Desk :=
  with_draft d (S (edition e)) (updateStudioNote noteId now (title d) (topic d) (bodyHtml d) (book e)) e.
Definition set_title (now t : jstr) (e : Desk) : Desk := update now (mkDraft t (topic (draft e)) (bodyHtml (draft e))) e.
Definition set_topic (now t : jstr) (e : Desk) : Desk := update now (mkDraft (title (draft e)) t (bodyHtml (draft e))) e.
Definition count_words (text : jstr) : nat := length (PaperExport.words text).
(** Quill's text-change: its contents are now [q]. *)
Definition changed (now : jstr) (q : Doc) (r : option Range) (e : Desk) : Desk :=
  with_quill (Some q) r (count_words (full_text q))
    (update now (mkDraft (title (draft e)) (topic (draft e)) (innerHTML q)) e).

(** *** Settings and history *)

Definition msg_locked : jstr :=
  js "Page settings and history are locked because their saved record could not be read. Export this document before repairing its local data.".
Definition msg_not_saved : jstr := js "Document settings or history could not be saved. Export your document before closing.".
Definition saveExtras (works : bool) (next : Extras) (e : Desk) : bool * Desk :=
  if truthy (default [] (loadError (extras e))) then (false, say msg_locked e)
  else if works then (true, with_extras next (<[extras_key := stringify (extras_json next)]> (disk e)) e)
  else (false, say msg_not_saved e).
Definition configure (works : bool) (partial : list (jstr * jsval)) (e : Desk) : Desk :=
  snd (saveExtras works (mkExtras (merged (settings (extras e)) partial) (versions (extras e)) (loadError (extras e))) e).
Definition current_version (now : jstr) (e : Desk) : jsval := version_of now (settings (extras e)) (draft e).
Definition history_with (now : jstr) (e : Desk) : list jsval := take 10 (current_version now e :: versions (extras e)).
Definition msg_version_saved : jstr := js "Version saved on this device. The most recent 10 versions are kept.".
Definition snapshot (now : jstr) (works : bool) (e : Desk) : bool * Desk :=
  let '(saved, e') := saveExtras works (mkExtras (settings (extras e)) (history_with now e) (loadError (extras e))) e in
  (saved, if saved then say msg_version_saved e' else e').
Definition msg_restored : jstr := js "Version restored. Your previous draft is in history.".
Definition restore (now : jstr) (works : bool) (version : jsval) (e : Desk) : Desk :=
  let s := get (js "settings") version in
  let '(saved, e') := saveExtras works (mkExtras (if truthy_val s then s else defaults) (history_with now e) None) e in
  if negb saved then e'
  else
    let body := text_or_none (get (js "bodyHtml") version) in
    let e' := match quill e' with Some _ => changed now (pasted (sanitize body)) (Some (0, 0)%nat) e' | None => e' end in
    let html := match quill e' with Some q => or_str (innerHTML q) body | None => body end in
    say msg_restored
      (update now (mkDraft (text_or_none (get (js "title") version)) (text_or_none (get (js "topic") version)) html) e').

(** *** Find and replace *)

Definition msg_no_match : jstr := js "No matches found.".
Definition msg_match : jstr := js "Match selected in the document.".
(** The text from an index on; [index_from] is [text.indexOf(p, from)]. *)
Definition index_from (p text : jstr) (from : nat) : option nat :=
  let from := Nat.min from (length text) in (fun i => (from + i)%nat) <$> index_of p (drop from text).
Definition replace_selected (now : jstr) (e : Desk) : Desk :=
  match quill e, selected e with
  | Some q, Some (i, n) =>
    if seqb (to_lower (getText i n q)) (to_lower (finding e))
    then
      let q1 := deleteText i n q in
      let q2 := insertText i (replacing e) q1 in
      at_cursor (carried (carried (selected e) q q1) q1 q2) (i + length (replacing e))
        (changed now q2 (carried (carried (selected e) q q1) q1 q2) e)
    else e
  | _, _ => e
  end.
Definition select_next (e : Desk) : Desk :=
  match quill e with
  | Some q =>
    let text := to_lower (full_text q) in
    let term := to_lower (finding e) in
    match index_from term text (cursor e), index_of term text with
    | Some i, _ | None, Some i =>
      say msg_match (at_cursor (Some (i, length (finding e))) (i + length (finding e)) e)
    | None, None => say msg_no_match e
    end
  | None => e
  end.
Definition findNext (now : jstr) (replace : bool) (e : Desk) : Desk :=
  match quill e, finding e with
  | Some _, _ :: _ => select_next (if replace then replace_selected now e else e)
  | _, _ => e
  end.

(** *** Tables, images, page breaks and equations *)

Definition msg_no_table : jstr := js "Place the cursor in a table first.".
Definition table (now : jstr) (action : TableAction) (e : Desk) : Desk :=
  match quill e with
  | None => e
  | Some q =>
    let go := let q' := table_edit action (selected e) q in changed now q' (carried (selected e) q q') e in
    match action with
    | InsertTable => go
    | _ => if table_at (selected e) q then go else say msg_no_table e
    end
  end.
Definition insertion_point (q : Doc) (e : Desk) : nat :=
  match selected e with Some (i, _) => i | None => (getLength q - 1)%nat end.
Definition embed (now : jstr) (index : nat) (kind value : jstr) (e : Desk) : Desk :=
  match quill e with
  | Some q => changed now (insertEmbed index kind value q) (Some (S index, 0)%nat) e
  | None => e
  end.
Definition page_break (now : jstr) (e : Desk) : Desk :=
  match quill e with Some q => embed now (insertion_point q e) (js "page-break") (js "true") e | None => e end.
Definition msg_bad_equation : jstr := js "Could not insert that equation. Check the LaTeX expression.".
Definition equation (now value : jstr) (e : Desk) : Desk :=
  if negb (truthy (trim value)) then e
  else
    match quill e with
    | None => e
    | Some q =>
      if negb (alive e) then e
      else if katex_accepts value then embed now (insertion_point q e) (js "formula") value e
      else say msg_bad_equation e
    end.

Definition IMAGE_TYPES : list jstr := [js "image/png"; js "image/jpeg"; js "image/webp"; js "image/gif"].
Definition msg_image : jstr := js "Choose a PNG, JPEG, WebP or GIF smaller than 1 MB.".
Definition msg_image_unread : jstr := js "The image could not be read.".
Definition image_read (now : jstr) (index : nat) (r : outcome unit jstr) (e : Desk) : Desk :=
  match r with
  | Ok url => if alive e then embed now index (js "image") url e else e
  | Throw _ => if alive e then say msg_image_unread e else e
  end.
(** [later] is the time of the answer. *)
Definition insertImage (later : jstr) (file : option File) : Script unit :=
  e <- Script.get;;
  match file, quill e with
  | Some f, Some q =>
    if negb (existsb (seqb (file_type f)) IMAGE_TYPES) || (1024 * 1024 <? file_size f) then Script.update (say msg_image)
    else Ask (ReadImage f) (fun r => Script.update (image_read later (insertion_point q e) r))
  | _, _ => Ret tt
  end.

(** *** Files *)

Definition msg_export_failed : jstr := js "Word export failed. Try HTML export to keep your formatting.".
Definition exported (r : outcome unit unit) (e : Desk) : Desk :=
  let e := match r with Ok _ => e | Throw _ => if alive e then say msg_export_failed e else e end in
  if alive e then set_busy false e else e.
Definition exportDocx : Script unit :=
  e <- Script.get;;
  match quill e with
  | None => Ret tt
  | Some q => Do (set_busy true) (Ask (WriteWord (title (draft e)) q (settings (extras e))) (fun r => Script.update (exported r)))
  end.

Definition has_extension (ext name : jstr) : bool := ends_with ext (ascii_lower <$> name).
(** The HTML of a text node, with every line break a new paragraph. *)
Definition text_node_html (text : jstr) : jstr :=
  flat_map (fun c => if (c =? 38)%N then js "&amp;" else if (c =? 60)%N then js "&lt;" else if (c =? 62)%N then js "&gt;"
                     else if (c =? 160)%N then js "&nbsp;" else [c]) text.
Definition text_html (text : jstr) : jstr :=
  js "<p>" ++ replace_chars (N.eqb c_nl) (fun _ => js "</p><p>") (text_node_html text) ++ js "</p>".
(** [name.replace(/\.[^.]+$/, "")] *)
Definition base_name (name : jstr) : jstr :=
  match last_index_of 46 name with
  | Some i => if Nat.eqb (S i) (length name) then name else take i name
  | None => name
  end.

Definition msg_large : jstr := js "Choose a document smaller than 10 MB.".
Definition msg_type : jstr := js "Choose a .docx or .txt file.".
Definition msg_draft_changed : jstr :=
  js "Import cancelled because this draft changed while the file was opening. Your writing has been kept.".
Definition msg_imported : jstr :=
  js "Imported. Check the layout: advanced Word features may not transfer. Previous draft saved in history.".
Definition msg_import_failed : jstr := js "Could not import this document. Your previous draft is in history.".

(** What follows the reading of the file; [original] is the draft it began
    with. *)
Definition opened (now : jstr) (f : File) (original : nat) (r : outcome unit jstr) (e : Desk) : Desk :=
  let e :=
    match r with
    | Throw _ => if alive e then say msg_import_failed e else e
    | Ok html =>
      match alive e, quill e with
      | true, Some _ =>
        if negb (Nat.eqb (edition e) original) then say msg_draft_changed e
        else
          let e := changed now (pasted html) (Some (0, 0)%nat) e in
          let html := match quill e with Some q => innerHTML q | None => [] end in
          say msg_imported (update now (mkDraft (base_name (file_name f)) (topic (draft e)) html) e)
      | _, _ => e
      end
    end in
  if alive e then set_busy false e else e.
(** [now] is the time of the choice, [later] that of the answer. *)
Definition importFile (now later : jstr) (works : bool) (file : option File) : Script unit :=
  e <- Script.get;;
  match file, quill e with
  | Some f, Some _ =>
    if 10 * 1024 * 1024 <? file_size f then Script.update (say msg_large)
    else
      let original := edition e in
      let '(saved, e') := snapshot now works e in
      Do (fun _ => e')
        (if negb saved then Ret tt
         else
           Do (set_busy true)
             (if has_extension (js ".docx") (file_name f)
              then Ask (ReadWord f) (fun r => Script.update (opened later f original r))
              else if has_extension (js ".txt") (file_name f)
              then Ask (ReadText f) (fun r => Script.update (opened later f original
                     (match r with Ok text => Ok (text_html text) | Throw x => Throw x end)))
              else Do (say msg_type) (Do (fun e => if alive e then set_busy false e else e) (Ret tt))))
  | _, _ => Ret tt
  end.

(** *** Opening and closing *)

(** Quill is given the note's text before it reports changes. *)
Definition start_draft (n : jsval) : Draft := mkDraft (text_at (js "title") n) (text_at (js "topic") n) (text_at (js "bodyHtml") n).
Definition open_editor (opens : bool) (n : jsval) (m : gmap jstr jstr) (b : ForgeData) : Desk :=
  let x := readExtras opens (m !! extras_key) in
  let q := pasted (sanitize (text_at (js "bodyHtml") n)) in
  mkDesk _ (start_draft n) 0 (Some q) (Some (0, 0)%nat) 0 x NoPanel (default [] (loadError x)) false [] []
    (count_words (full_text q)) true m b.
Definition close_editor (e : Desk) : Desk := with_alive false (with_quill None None 0 e).
Definition show_panel (p : Panel) (e : Desk) : Desk :=
  with_panel (if bool_decide (panel e = p) then NoPanel else p) (finding e) (replacing e) e.
Definition look_for (t : jstr) (e : Desk) : Desk := at_cursor (selected e) 0 (with_panel (panel e) t (replacing e) e).
Definition replace_by (t : jstr) (e : Desk) : Desk := with_panel (panel e) (finding e) t e.

(** *** What happens to an editor *)

(** [Edited] is whatever is done inside Quill (typing, formatting, undo,
    redo, moving the selection only), [Configured] a choice of the page
    panel. *)
Inductive Setting := Paper (letter : bool) | Orientation (landscape : bool) | Margin (i : nat) | Spacing (i : nat)
  | View (continuous : bool) | Header (t : jstr) | Footer (t : jstr).
Definition chosen (c : Setting) : list (jstr * jsval) :=
  match c with
  | Paper l => [(js "paper", VStr (if l then js "Letter" else js "A4"))]
  | Orientation b => [(js "landscape", VBool b)]
  | Margin i => [(js "margin", VNum (num (nth i MARGINS 20)))]
  | Spacing i => [(js "spacing", VStr (nth i SPACINGS (js "1.5")))]
  | View b => [(js "continuous", VBool b)]
  | Header t => [(js "header", VStr t)]
  | Footer t => [(js "footer", VStr t)]
  end.

Inductive Event :=
  | Titled (t : jstr) | Topicked (t : jstr)
  | Selected (r : option Range) | Edited (q : Doc) (r : option Range)
  | Configured (c : Setting) | Saved | Restored (i : nat)
  | Looked (t : jstr) | Replaced (t : jstr) | Found (replace : bool)
  | Tabled (a : TableAction) | Broke | Wrote (formula : jstr)
  | Pictured (later : jstr) (f : option File) | Imported (later : jstr) (f : option File) | Exported
  | Answered (i : nat) (o : forall q : Query, answer q)
  | Opened (p : Panel) | Dismissed | Closed.

(** An event that is handled at once; what is not shown cannot be used. *)
Definition handle (now : jstr) (works : bool) (ev : Event) (e : Desk) : Desk :=
  match ev with
  | Titled t => set_title now t e
  | Topicked t => set_topic now t e
  | Selected r => at_cursor r (cursor e) e
  | Edited q r => changed now q r e
  | Configured c => configure works (chosen c) e
  | Saved => snd (snapshot now works e)
  | Restored i => match versions (extras e) !! i with Some v => restore now works v e | None => e end
  | Looked t => look_for t e
  | Replaced t => replace_by t e
  | Found b => findNext now b e
  | Tabled a => table now a e
  | Broke => page_break now e
  | Wrote v => equation now v e
  | Opened p => show_panel p e
  | Dismissed => say [] e
  | Closed => close_editor e
  | _ => e
  end.
Definition step (now : jstr) (works : bool) (ev : Event) (y : System Desk answer) : System Desk answer :=
  match ev with
  | Answered i o => resume i o y
  | _ =>
    if negb (alive (world y)) then y
    else
      match ev with
      | Pictured later f => start (insertImage later f) y
      | Imported later f => start (importFile now later works f) y
      | Exported => start exportDocx y
      | _ => start (Script.update (handle now works ev)) y
      end
  end.
Definition run (es : list (jstr * bool * Event)) (y : System Desk answer) : System Desk answer :=
  fold_left (fun y x => step (fst (fst x)) (snd (fst x)) (snd x) y) es y.

End editor.

(** ** Properties *)

(** *** What is stored *)

Module ExtrasFacts.

Lemma indexed_json {A} (f : A -> jsval) l :
  Forall (fun x => json_ok (f x)) l -> Forall (fun p => json_ok (snd p)) (indexed f l).
Proof.
  intros Hl. apply Forall_lookup. intros i p. unfold indexed. rewrite list_lookup_imap.
  destruct (l !! i) as [x|] eqn:Ei; [|done]. intros [= <-]. by eapply Forall_lookup in Hl.
Qed.
Lemma spread_json v : json_ok v -> Forall (fun p => json_ok (snd p)) (spread v).
Proof.
  destruct v; cbn [spread]; try constructor; inversion_clear 1; [| |done].
  - apply indexed_json, Forall_true. constructor.
  - by apply indexed_json.
Qed.
Lemma merged_json v ps : json_ok v -> Forall (fun p => json_ok (snd p)) ps -> json_ok (merged v ps).
Proof.
  intros Hv%spread_json Hps. unfold merged. pose proof (Forall_app_2 _ _ _ Hv Hps) as Hs.
  assert (Hn : json_ok (VObj [])) by (repeat constructor). revert Hn. generalize (@nil (jstr * jsval)) as acc.
  induction Hs as [|[k x] l Hx _ IH]; intros acc Ha; [exact Ha|]. cbn [fold_left]. apply IH.
  inversion_clear Ha. constructor; [by apply set_prop_NoDup|].
  apply Forall_forall. intros q [->|Hq]%elem_of_set_prop; [exact Hx|].
  match goal with Hf : Forall _ acc |- _ => rewrite Forall_forall in Hf; exact (Hf q Hq) end.
Qed.
Lemma keyed_json ps : bool_decide (NoDup ps.*1) = true -> Forall (fun p => json_ok (snd p)) ps -> json_ok (VObj ps).
Proof. intros Hk%bool_decide_eq_true. by constructor. Qed.
Lemma settings_json p l m c s h f : Z.abs m < 10 ^ 21 -> json_ok (settings_obj p l m c s h f).
Proof. intros Hm. apply keyed_json; [reflexivity|]. repeat constructor. exact Hm. Qed.
Lemma margin_small v : Z.abs (default 20 (find (fun m => is_num m v) MARGINS)) < 10 ^ 21.
Proof.
  assert (Hs : Forall (fun m => Z.abs m < 10 ^ 21) MARGINS) by (repeat constructor; lia). rewrite Forall_forall in Hs.
  destruct (find _ _) as [m|] eqn:E; [|done]. apply find_Some in E as [Hm _]. exact (Hs m Hm).
Qed.
Lemma valid_json s : json_ok (valid_settings s).
Proof. apply settings_json, margin_small. Qed.
Lemma version_json now s d : json_ok s -> json_ok (version_of now s d).
Proof.
  intros Hs. pose proof (merged_json s [] Hs (Forall_nil_2 _)) as Hm.
  apply keyed_json; [reflexivity|]. repeat apply Forall_cons_2; first [exact Hm|constructor].
Qed.
Lemma chosen_json c : Forall (fun p => json_ok (snd p)) (chosen c).
Proof.
  destruct c; repeat constructor. unfold MARGINS. do 3 (destruct i as [|i]; [cbn; lia|]). destruct i; cbn; lia.
Qed.

Lemma valid_get s s' : (forall k, get k s = get k s') -> valid_settings s = valid_settings s'.
Proof. intros Hg. unfold valid_settings. by rewrite !Hg. Qed.
Lemma valid_falsy s : valid_settings (if truthy_val s then s else VObj []) = valid_settings s.
Proof. destruct (truthy_val s) eqn:E; [done|]. apply valid_get. intros k. by destruct s. Qed.
Lemma found_idem {A} (p : A -> jsval -> bool) (val : A -> jsval) (l : list A) (d : A) v :
  d ∈ l -> (forall a b, a ∈ l -> b ∈ l -> p a (val b) = true <-> a = b) ->
  default d (find (fun a => p a (val (default d (find (fun a => p a v) l)))) l) = default d (find (fun a => p a v) l).
Proof.
  intros Hd Hp. set (x := default d (find (fun a => p a v) l)).
  assert (Hx : x ∈ l).
  { unfold x. destruct (find _ l) as [y|] eqn:E; [|done]. by apply find_Some in E as [? _]. }
  destruct (find (fun a => p a (val x)) l) as [y|] eqn:E.
  - apply find_Some in E as [Hy Hyx]. cbn. by apply Hp in Hyx.
  - apply find_None with (x := x) in E; [|done]. by rewrite (proj2 (Hp x x Hx Hx) eq_refl) in E.
Qed.
Lemma settings_get p l m c s h f :
  let o := settings_obj p l m c s h f in
  get (js "paper") o = VStr p /\ get (js "landscape") o = VBool l /\ get (js "margin") o = VNum (num m) /\
  get (js "continuous") o = VBool c /\ get (js "spacing") o = VStr s /\ get (js "header") o = VStr h /\ get (js "footer") o = VStr f.
Proof. split_and!; reflexivity. Qed.
Lemma valid_idem s : valid_settings (valid_settings s) = valid_settings s.
Proof.
  set (v := valid_settings s). unfold valid_settings at 1. unfold v at 1 2 3 4 5 6 7, valid_settings at 1 2 3 4 5 6 7.
  match goal with |- context [get _ (settings_obj ?p ?l ?m ?c ?sp ?h ?f)] =>
    destruct (settings_get p l m c sp h f) as (G1 & G2 & G3 & G4 & G5 & G6 & G7); rewrite G1, G2, G3, G4, G5, G6, G7 end.
  unfold v, valid_settings. f_equal.
  - by destruct (is_str _ _).
  - apply (found_idem is_num (fun m => VNum (num m))); [by right; left|]. intros a b _ _.
    change (num_eq (num b) (num a) = true <-> a = b). rewrite num_eq_Z. lia.
  - apply (found_idem is_str VStr); [by do 2 right; left|]. intros a b _ _.
    change (seqb b a = true <-> a = b). by rewrite seqb_eq.
Qed.

(** The record an editor reads or writes. *)
Record extras_ok (x : Extras) : Prop := {
  xo_settings : json_ok (settings x);
  xo_versions : Forall (fun v => json_ok v /\ is_version v = true) (versions x);
  xo_ten : (length (versions x) <= 10)%nat
}.

Lemma versions_kept vs : Forall (fun v => json_ok v /\ is_version v = true) vs -> (length vs <= 10)%nat ->
  take 10 (List.filter is_version vs) = vs.
Proof.
  intros Hv Hl. rewrite forallb_filter_id; [by apply take_ge|].
  apply forallb_Forall. eapply Forall_impl; [exact Hv|]. by intros v [].
Qed.
Lemma stored_settings v : json_ok v -> truthy_val (get (js "settings") v) = true -> json_ok (get (js "settings") v).
Proof.
  intros Hv. destruct v; try done. inversion_clear Hv as [| | | | |? _ Hps]. cbn [get].
  destruct (assoc _ ps) as [x|] eqn:E; [|done]. intros _. apply assoc_elem in E. rewrite Forall_forall in Hps. exact (Hps _ E).
Qed.

Lemma read_ok opens stored :
  (forall t v, stored = Some t -> parse_json t = Some v -> json_ok v) -> extras_ok (readExtras opens stored).
Proof.
  intros Hv. assert (Hd : json_ok defaults) by (by apply settings_json).
  unfold readExtras. destruct opens; [|split; [exact Hd|constructor|cbn; lia]]. cbn [negb].
  destruct (parse_json _) as [raw|] eqn:E; [|split; [exact Hd|constructor|cbn; lia]].
  destruct (truthy_val raw) eqn:Et; [|split; [exact Hd|constructor|cbn; lia]]. cbn [negb].
  assert (Hraw : json_ok raw).
  { destruct stored as [[|c t]|]; [by vm_compute in E; injection E as <-| |by vm_compute in E; injection E as <-].
    by apply (Hv (c :: t)). }
  split; cbn [settings versions]; [apply valid_json|..].
  - destruct (get (js "versions") raw) eqn:G; try constructor. apply Forall_take.
    apply Forall_forall. intros x [Hx Hs]%list_elem_of_In%filter_In. split; [|done]. rewrite <- list_elem_of_In in Hx.
    destruct raw; try done. inversion_clear Hraw as [| | | | |? _ Hps]. cbn [get] in G.
    destruct (assoc _ ps) as [y|] eqn:Ea; [|done]. cbn in G. subst y. apply assoc_elem in Ea. rewrite Forall_forall in Hps.
    specialize (Hps _ Ea). inversion_clear Hps as [| | | |? Hxs|]. rewrite Forall_forall in Hxs. exact (Hxs x Hx).
  - destruct (get _ raw); cbn; try lia. rewrite length_take. lia.
Qed.

(** What is written is read back, its settings made valid. *)
Lemma read_written x :
  extras_ok x -> readExtras true (Some (stringify (extras_json x))) = mkExtras (valid_settings (settings x)) (versions x) None.
Proof.
  intros [Hs Hv Hl].
  assert (Hj : json_ok (extras_json x)).
  { apply keyed_json; [reflexivity|]. repeat apply Forall_cons_2; [exact Hs| |constructor].
    constructor. eapply Forall_impl; [exact Hv|]. by intros v []. }
  pose proof (parse_stringify _ Hj) as Hp. unfold readExtras. cbn [negb].
  change (or_str _ _) with (stringify (extras_json x)). rewrite Hp. cbn [truthy_val extras_json negb].
  change (get (js "settings") _) with (settings x). change (get (js "versions") _) with (VArr (versions x)).
  by rewrite valid_falsy, versions_kept.
Qed.
End ExtrasFacts.
Import ExtrasFacts.

Module EditorFacts.
Section facts.
Context `{Quill, Locale} (accountId noteId : jstr).
Local Abbreviation Script := (Script Desk answer).

(** *** The steps every operation is made of *)

(** Nothing that is kept changes; the draft is written; the record of
    settings and versions is saved. *)
Inductive move (e : Desk) : Desk -> Prop :=
  | move_quiet e' : draft e' = draft e -> edition e' = edition e -> extras e' = extras e -> disk e' = disk e ->
      book e' = book e -> move e e'
  | move_update now d : move e (update noteId now d e)
  | move_save works x :
      (versions x = versions (extras e) \/ exists now, versions x = history_with now e) ->
      (extras_ok (extras e) -> json_ok (settings x)) -> (loadError (extras e) = None -> loadError x = None) ->
      move e (snd (saveExtras accountId noteId works x e)).
Abbreviation moves := (rtc move).

Lemma quietly e e' : draft e' = draft e -> edition e' = edition e -> extras e' = extras e -> disk e' = disk e ->
  book e' = book e -> moves e e'.
Proof. intros. by apply rtc_once, move_quiet. Qed.
Lemma then_quietly e e1 e' : moves e e1 -> draft e' = draft e1 -> edition e' = edition e1 -> extras e' = extras e1 ->
  disk e' = disk e1 -> book e' = book e1 -> moves e e'.
Proof. intros H1 **. etrans; [exact H1|]. by apply quietly. Qed.
Lemma update_moves now d e : moves e (update noteId now d e).
Proof. apply rtc_once. apply move_update. Qed.
Lemma changed_moves now q r e : moves e (changed noteId now q r e).
Proof. by eapply then_quietly; [apply update_moves|..]. Qed.

Lemma configure_moves works c e : moves e (configure accountId noteId works (chosen c) e).
Proof. apply rtc_once, move_save; [by left| |done]. intros [Hs _ _]. apply merged_json; [exact Hs|apply chosen_json]. Qed.
Lemma save_now_moves now works e :
  moves e (snd (saveExtras accountId noteId works (mkExtras (settings (extras e)) (history_with now e) (loadError (extras e))) e)).
Proof. apply rtc_once, move_save; [by right; exists now| |done]. by intros [Hs _ _]. Qed.
Lemma snapshot_moves now works e : moves e (snd (snapshot accountId noteId now works e)).
Proof.
  unfold snapshot. pose proof (save_now_moves now works e) as Hm. destruct (saveExtras _ _ _ _ _) as [[] e1]; [|exact Hm].
  by eapply then_quietly; [exact Hm|..].
Qed.
Lemma restore_moves now works i v e :
  versions (extras e) !! i = Some v -> moves e (restore accountId noteId now works v e).
Proof.
  intros Hv. unfold restore. set (x := mkExtras _ _ _).
  assert (Hm : moves e (snd (saveExtras accountId noteId works x e))).
  { apply rtc_once, move_save; [by right; exists now| |done]. intros [_ Hvs _]. cbn [x settings].
    pose proof (proj1 (Forall_lookup _ _) Hvs i v Hv) as [Hj _].
    destruct (truthy_val _) eqn:Et; [by apply stored_settings|by apply settings_json]. }
  destruct (saveExtras _ _ _ _ _) as [[] e1]; cbn [snd negb] in *; [|exact Hm]. etrans; [exact Hm|].
  destruct (quill e1) eqn:Eq; [etrans; [apply changed_moves|]|]; (eapply then_quietly; [apply update_moves|..]; reflexivity).
Qed.
Lemma embed_moves now i k v e : moves e (embed noteId now i k v e).
Proof. unfold embed. destruct (quill e); [apply changed_moves|done]. Qed.
Lemma find_moves now b e : moves e (findNext noteId now b e).
Proof.
  assert (Hs : forall e, moves e (select_next e)).
  { intros e0. unfold select_next. destruct (quill e0); [|done]. cbn zeta. repeat case_match; by apply quietly. }
  unfold findNext. destruct (quill e), (finding e); try done. destruct b; [|apply Hs]. etrans; [|apply Hs].
  unfold replace_selected. repeat case_match; try done. by eapply then_quietly; [apply changed_moves|..].
Qed.
Lemma handle_moves now works ev e : moves e (handle accountId noteId now works ev e).
Proof.
  destruct ev; cbn [handle]; try (by apply quietly); try apply update_moves; try apply changed_moves.
  - apply configure_moves.
  - apply snapshot_moves.
  - destruct (_ !! i) eqn:Ei; [|done]. by eapply restore_moves.
  - apply find_moves.
  - unfold table. destruct (quill e); [|done]. cbn zeta.
    destruct a; repeat case_match; first [apply changed_moves|by apply quietly].
  - unfold page_break. destruct (quill e); [apply embed_moves|done].
  - unfold equation. destruct (truthy _); [|done]. cbn [negb]. destruct (quill e); [|done].
    destruct (alive e); [|done]. destruct (katex_accepts _); [apply embed_moves|by apply quietly].
Qed.
Lemma opened_moves now f n r e : moves e (opened noteId now f n r e).
Proof.
  unfold opened. set (e1 := match r with Ok _ => _ | Throw _ => _ end).
  assert (Hm : moves e e1).
  { subst e1. destruct r; [|destruct (alive e); by apply quietly]. destruct (alive e), (quill e); try done.
    destruct (negb _); [by apply quietly|]. etrans; [apply changed_moves|].
    eapply then_quietly; [apply update_moves|..]; reflexivity. }
  destruct (alive e1); [|exact Hm]. by eapply then_quietly; [exact Hm|..].
Qed.
Lemma image_read_moves now i r e : moves e (image_read noteId now i r e).
Proof. unfold image_read. destruct r, (alive e); first [apply embed_moves|by apply quietly]. Qed.
Lemma exported_moves r e : moves e (exported r e).
Proof. unfold exported. destruct r; destruct (alive e) eqn:Ea; cbn [alive say]; rewrite ?Ea; by apply quietly. Qed.

(** *** Drafts and history *)

Definition shows (d : Draft) (v : jsval) : Prop :=
  get (js "title") v = VStr (title d) /\ get (js "topic") v = VStr (topic d) /\ get (js "bodyHtml") v = VStr (bodyHtml d).
Definition in_history (d : Draft) (e : Desk) : Prop := Exists (shows d) (versions (extras e)).

(** Editions only go up, and as long as the edition is the same, so is the
    draft, and a version of it stays in the history. *)
Definition later (e e' : Desk) : Prop :=
  (edition e <= edition e')%nat /\
  (edition e' = edition e -> draft e' = draft e /\ (in_history (draft e) e -> in_history (draft e') e')).
#[export] Instance later_preorder : PreOrder later.
Proof.
  split; [by intros e; split|]. intros e1 e2 e3 [H1 H2] [H3 H4]. split; [lia|]. intros Heq.
  destruct H2 as [D2 V2]; [lia|]. destruct H4 as [D4 V4]; [lia|]. split; [congruence|auto].
Qed.

Lemma later_same e e' :
  edition e' = edition e -> draft e' = draft e -> versions (extras e') = versions (extras e) -> later e e'.
Proof. intros H1 H2 H3. split; [lia|]. intros _. split; [done|]. unfold in_history. by rewrite H2, H3. Qed.
Lemma later_up e e' : (edition e < edition e')%nat -> later e e'.
Proof. split; lia. Qed.

Ltac newer := apply later_up; first [apply Nat.lt_succ_diag_r | cbn; lia].

Lemma shows_version now s d : shows d (version_of now s d).
Proof. done. Qed.
Lemma saved_history now works x e :
  versions x = history_with now e -> fst (saveExtras accountId noteId works x e) = true ->
  in_history (draft e) (snd (saveExtras accountId noteId works x e)).
Proof.
  unfold saveExtras, in_history. destruct (truthy _); [done|]. destruct works; [|done]. cbn. intros -> _.
  left. apply shows_version.
Qed.
Lemma save_draft works x e :
  let e' := snd (saveExtras accountId noteId works x e) in
  draft e' = draft e /\ edition e' = edition e /\ quill e' = quill e /\ alive e' = alive e /\ book e' = book e.
Proof. unfold saveExtras. destruct (truthy _); [done|]. by destruct works. Qed.
Lemma save_later works x e :
  (in_history (draft e) e -> Exists (shows (draft e)) (versions x)) -> later e (snd (saveExtras accountId noteId works x e)).
Proof.
  intros Hx. unfold saveExtras. destruct (truthy _); [by apply later_same|]. destruct works; [|by apply later_same].
  split; [done|]. intros _. split; [done|]. exact Hx.
Qed.
Lemma save_history_later now works x e :
  versions x = history_with now e -> later e (snd (saveExtras accountId noteId works x e)).
Proof. intros Hx. apply save_later. intros _. rewrite Hx. left. apply shows_version. Qed.

Lemma moves_later e e' : moves e e' -> later e e'.
Proof.
  induction 1 as [e|e e1 e2 Hm _ IH]; [done|]. etrans; [|exact IH].
  destruct Hm as [e1 H1 H2 H3|now d|works x [Hx|[now Hx]]].
  - apply later_same; congruence.
  - newer.
  - apply save_later. intros Hd. by rewrite Hx.
  - by eapply save_history_later.
Qed.
Lemma snapshot_later now works e : later e (snd (snapshot accountId noteId now works e)).
Proof. apply moves_later, snapshot_moves. Qed.
Lemma handle_later now works ev e : later e (handle accountId noteId now works ev e).
Proof. apply moves_later, handle_moves. Qed.
Lemma snapshot_saves now works e :
  fst (snapshot accountId noteId now works e) = true -> in_history (draft e) (snd (snapshot accountId noteId now works e)).
Proof.
  unfold snapshot. pose proof (saved_history now works (mkExtras (settings (extras e)) (history_with now e) (loadError (extras e))) e eq_refl) as Hs.
  destruct (saveExtras _ _ _ _ _) as [[] e']; cbn [fst snd] in *; [|done]. intros _. exact (Hs eq_refl).
Qed.
Lemma snapshot_draft now works e :
  let e' := snd (snapshot accountId noteId now works e) in
  draft e' = draft e /\ edition e' = edition e /\ quill e' = quill e /\ alive e' = alive e.
Proof.
  unfold snapshot. pose proof (save_draft works (mkExtras (settings (extras e)) (history_with now e) (loadError (extras e))) e) as Hd.
  destruct (saveExtras _ _ _ _ _) as [[] e']; cbn [snd] in *; naive_solver.
Qed.

(** What happens to the draft and the history when a version is restored. *)
Lemma restore_cases now works v e :
  let e' := restore accountId noteId now works v e in
  later e e' /\ ((draft e' = draft e /\ quill e' = quill e) \/ in_history (draft e) e').
Proof.
  unfold restore. set (x := mkExtras _ _ _).
  pose proof (save_history_later now works x e eq_refl) as Hl. pose proof (save_draft works x e) as Hd.
  pose proof (saved_history now works x e eq_refl) as Hs.
  destruct (saveExtras _ _ _ _ _) as [[] e1]; cbn [fst snd negb] in *; [|split; [done|left; split; apply Hd]].
  split.
  - apply later_up. destruct Hd as (_ & <- & _). destruct (quill e1); cbn; lia.
  - right. specialize (Hs eq_refl). destruct (quill e1); exact Hs.
Qed.

(** *** What waits for an answer *)

Definition covered (n : nat) (e : Desk) : Prop :=
  (n <= edition e)%nat /\ (n = edition e -> in_history (draft e) e).
Lemma covered_later n e e' : later e e' -> covered n e -> covered n e'.
Proof.
  intros [Hle Hs] [Hn Hc]. split; [lia|]. intros ->. destruct Hs as [Hd Hv]; [lia|]. apply Hv, Hc. lia.
Qed.

Inductive pending (e : Desk) : Script unit -> Prop :=
  | wait_word now f n : covered n e ->
      pending e (Ask (ReadWord f) (fun r => Script.update (opened noteId now f n r)))
  | wait_text now f n : covered n e ->
      pending e (Ask (ReadText f) (fun r => Script.update (opened noteId now f n
        (match r with Ok text => Ok (text_html text) | Throw x => Throw x end))))
  | wait_image now f i : pending e (Ask (ReadImage f) (fun r => Script.update (image_read noteId now i r)))
  | wait_export t q s : pending e (Ask (WriteWord t q s) (fun r => Script.update (exported r))).
Lemma pending_later e e' s : later e e' -> pending e s -> pending e' s.
Proof. intros Hl Hs. destruct Hs; constructor; by eapply covered_later. Qed.
Definition consistent (y : System Desk answer) : Prop := Forall (pending (world y)) (waiting y).
Lemma consistent_later e e' l : later e e' -> Forall (pending e) l -> Forall (pending e') l.
Proof. intros Hl Hf. eapply Forall_impl; [exact Hf|]. intros s. by apply pending_later. Qed.

(** Starting a script that ends or waits in a known way. *)
Lemma start_consistent s y :
  consistent y -> later (world y) (fst (advance s (world y))) ->
  snd (advance s (world y)) = Ret tt \/ pending (fst (advance s (world y))) (snd (advance s (world y))) ->
  consistent (start s y).
Proof.
  intros Hy Hl Hs. unfold start, consistent. destruct (advance s (world y)) as [e s']. cbn [fst snd world waiting] in *.
  pose proof (consistent_later _ _ _ Hl Hy) as Hf. destruct Hs as [->|Hp]; [done|].
  destruct Hp; (apply Forall_app_2; [done|apply Forall_singleton; by constructor]).
Qed.
Lemma start_update_consistent f y :
  consistent y -> later (world y) (f (world y)) -> consistent (start (Script.update f) y).
Proof. intros Hy Hl. apply start_consistent; [done|done|]. by left. Qed.

Lemma opened_cases now f n r e :
  covered n e ->
  let e' := opened noteId now f n r e in
  later e e' /\ ((draft e' = draft e /\ quill e' = quill e) \/ in_history (draft e) e').
Proof.
  intros [Hn Hc]. unfold opened. destruct r as [html|u].
  - destruct (alive e) eqn:Ea; [|rewrite Ea; split; [done|by left]].
    destruct (quill e) as [q|] eqn:Eq; [|rewrite Ea; split; [by apply later_same|by left]].
    destruct (Nat.eqb_spec (edition e) n) as [He|He]; cbn [negb].
    + change (alive (say _ _)) with (alive e). rewrite Ea. split; [newer|]. right. by apply Hc.
    + change (alive (say _ _)) with (alive e). rewrite Ea. split; [by apply later_same|by left].
  - destruct (alive e) eqn:Ea; cbn [alive say]; rewrite Ea; (split; [by apply later_same|by left]).
Qed.
Lemma image_read_later now i r e : later e (image_read noteId now i r e).
Proof. apply moves_later, image_read_moves. Qed.
Lemma exported_later r e : later e (exported r e).
Proof. unfold exported. destruct r; destruct (alive e) eqn:Ea; cbn [alive say]; rewrite ?Ea; by apply later_same. Qed.

Lemma import_consistent now lat works f y : consistent y -> consistent (start (importFile accountId noteId now lat works f) y).
Proof.
  intros Hy. unfold importFile. set (e := world y).
  apply start_consistent; [done|..]; fold e; cbn [advance bind Script.get];
    (destruct f as [f|]; [|first [done|by left]]); (destruct (quill e); [|first [done|by left]]);
    destruct (_ <? _); cbn [advance]; [by apply later_same| |by left|];
    pose proof (snapshot_later now works e) as Hl; pose proof (snapshot_saves now works e) as Hs;
    pose proof (snapshot_draft now works e) as (Hd & He & _ & Ha);
    destruct (snapshot _ _ _ _ _) as [[] e1]; cbn [fst snd negb advance] in *; try done; try (by left).
  - destruct (has_extension _ _); cbn [fst advance]; [etrans; [exact Hl|by apply later_same]|].
    destruct (has_extension _ _); cbn [fst advance]; (etrans; [exact Hl|]); [by apply later_same|].
    cbn [alive say set_busy]. destruct (alive e1); by apply later_same.
  - assert (Hc : covered (edition e) (set_busy true e1)).
    { split; [cbn; lia|]. intros _. cbn [draft set_busy]. rewrite Hd. exact (Hs eq_refl). }
    destruct (has_extension _ _); cbn [fst snd advance]; [right; by constructor|].
    destruct (has_extension _ _); cbn [fst snd advance]; [right; by constructor|]. by left.
Qed.
Lemma image_consistent now f y : consistent y -> consistent (start (insertImage noteId now f) y).
Proof.
  intros Hy. unfold insertImage. apply start_consistent; [done|..]; cbn [advance bind Script.get];
    (destruct f as [f|]; [|first [done|by left]]); (destruct (quill _); [|first [done|by left]]);
    destruct (_ || _); cbn [fst snd advance]; try done; [by left|]. right. constructor.
Qed.
Lemma export_consistent y : consistent y -> consistent (start exportDocx y).
Proof.
  intros Hy. apply start_consistent; [done|..]; cbn [exportDocx advance bind Script.get];
    (destruct (quill _); [|first [done|by left]]); cbn [fst snd advance]; [by apply later_same|]. right. constructor.
Qed.
Lemma resume_consistent i o y : consistent y -> consistent (resume i o y).
Proof.
  intros Hy. unfold resume. destruct (waiting y !! i) as [s|] eqn:Ei; [|done].
  pose proof (proj1 (Forall_lookup _ _) Hy i s Ei) as Hp.
  destruct Hp; (apply start_update_consistent; [by apply Forall_delete|]); cbn [world].
  - by apply opened_cases.
  - by apply opened_cases.
  - apply image_read_later.
  - apply exported_later.
Qed.
Lemma step_consistent now works ev y : consistent y -> consistent (step accountId noteId now works ev y).
Proof.
  intros Hy. unfold step. destruct ev; try (by apply resume_consistent); (destruct (alive _); [|done]); cbn [negb];
    first [by apply import_consistent|by apply image_consistent|by apply export_consistent
          |apply start_update_consistent; [done|apply handle_later]].
Qed.
Lemma run_consistent es y : consistent y -> consistent (run accountId noteId es y).
Proof.
  unfold run. revert y. induction es as [|x es IH]; intros y Hy; [done|]. cbn [fold_left]. by apply IH, step_consistent.
Qed.

(** *** Whatever every step keeps, every run keeps *)

Section kept.
Context (I : Desk -> Prop) (Hmove : forall e e', I e -> move e e' -> I e').
Local Abbreviation keeps s := (Script.keeps (answer := answer) I (fun _ _ => True) s (fun _ => True)).

Lemma moves_keep e e' : moves e e' -> I e -> I e'.
Proof. induction 1; eauto. Qed.
Lemma keeps_moves (f : Desk -> Desk) : (forall e, moves e (f e)) -> keeps (Script.update f).
Proof. intros Hf. apply keeps_update. intros e He. eapply moves_keep; eauto. Qed.
Lemma keeps_moved (f : Desk -> Desk) (s : Script unit) : (forall e, moves e (f e)) -> keeps s -> keeps (Do f s).
Proof. intros Hf Hs. apply keeps_do; [|exact Hs]. intros e He. eapply moves_keep; eauto. Qed.
Lemma keeps_here (k : Desk -> Script unit) : (forall e, I e -> keeps (k e)) -> keeps (bind Script.get k).
Proof. intros Hk. by eapply keeps_bind; [apply keeps_get|]. Qed.

Lemma import_keeps now lat works f : keeps (importFile accountId noteId now lat works f).
Proof.
  assert (Hdone : keeps (Ret tt)) by (by apply keeps_ret).
  apply keeps_here. intros e He. destruct f as [f|]; [|exact Hdone]. destruct (quill e); [|exact Hdone].
  destruct (_ <? _); [apply keeps_moves; intros; by apply quietly|].
  pose proof (snapshot_moves now works e) as Hm. destruct (snapshot _ _ _ _ _) as [saved e1]. cbn [snd] in Hm.
  apply keeps_do; [intros _ _; eapply moves_keep; eauto|]. destruct saved; [|exact Hdone]. cbn [negb].
  apply keeps_moved; [intros; by apply quietly|].
  repeat case_match.
  1-2: apply keeps_wait; intros; apply keeps_moves; intros; apply opened_moves.
  apply keeps_moved; [intros; by apply quietly|]. apply keeps_moved; [|exact Hdone].
  intros e2. destruct (alive e2); [by apply quietly|done].
Qed.
Lemma image_keeps now f : keeps (insertImage noteId now f).
Proof.
  apply keeps_here. intros e He. destruct f as [f|]; [|by apply keeps_ret]. destruct (quill e); [|by apply keeps_ret].
  destruct (_ || _); [apply keeps_moves; intros; by apply quietly|].
  apply keeps_wait. intros. apply keeps_moves. intros. apply image_read_moves.
Qed.
Lemma export_keeps : keeps exportDocx.
Proof.
  apply keeps_here. intros e He. destruct (quill e); [|by apply keeps_ret].
  apply keeps_moved; [intros; by apply quietly|]. apply keeps_wait. intros. apply keeps_moves. intros. apply exported_moves.
Qed.
Local Abbreviation all_sound := (sound (answer := answer) I anyhow (fun _ _ => True)).
Lemma step_keeps now works ev y : all_sound y -> all_sound (step accountId noteId now works ev y).
Proof.
  intros Hy. unfold step. destruct ev; try (by apply keeps_resume); (destruct (alive _); [|exact Hy]); cbn [negb];
    (apply keeps_start; [exact Hy|]);
    first [apply import_keeps|apply image_keeps|apply export_keeps|apply keeps_moves; intros; apply handle_moves].
Qed.
Lemma run_keeps es e : I e -> I (world (run accountId noteId es (mkSystem e []))).
Proof.
  intros He. assert (Hy : all_sound (mkSystem e [])) by (split; [done|constructor]). revert Hy. generalize (mkSystem (answer := answer) e []) as y.
  unfold run. induction es as [|x es IH]; intros y Hy; [apply Hy|]. cbn [fold_left]. by apply IH, step_keeps.
Qed.
End kept.

(** The record in storage, and the note in the workspace. *)
Record filed (m0 : gmap jstr jstr) (l0 : option jstr) (e : Desk) : Prop := {
  fi_ok : extras_ok (extras e);
  fi_lock : loadError (extras e) = l0 /\ (l0 = None \/ truthy (default [] l0) = true);
  fi_key : match loadError (extras e) with
           | Some _ => disk e !! extras_key accountId noteId = m0 !! extras_key accountId noteId
           | None => readExtras true (disk e !! extras_key accountId noteId) =
                     mkExtras (valid_settings (settings (extras e))) (versions (extras e)) None
           end;
  fi_other : forall k, k <> extras_key accountId noteId -> disk e !! k = m0 !! k
}.
Lemma history_ok now e : extras_ok (extras e) -> Forall (fun v => json_ok v /\ is_version v = true) (history_with now e).
Proof. intros [Hs Hv _]. apply Forall_take. constructor; [|done]. split; [by apply version_json|done]. Qed.
Lemma filed_move m0 l0 e e' : filed m0 l0 e -> move e e' -> filed m0 l0 e'.
Proof.
  intros [Hok Hlock Hkey Hother] Hm. destruct Hm as [e1 _ _ H3 H4 _|now d|works x Hv Hs Hl].
  - split; rewrite ?H3, ?H4; done.
  - by split.
  - unfold saveExtras. destruct Hlock as [He Hl0]. destruct (loadError (extras e)) as [t|] eqn:El.
    { change (default [] (Some t)) with t. assert (truthy t = true) as -> by (subst l0; naive_solver). split; cbn; rewrite ?El; done. }
    change (truthy (default [] None)) with false. destruct works; [|split; cbn; rewrite ?El; done]. specialize (Hl eq_refl).
    assert (Hx : extras_ok x).
    { pose proof Hok as [Hs0 Hv0 Hl1]. split; [by apply Hs|..]; destruct Hv as [->|[now ->]]; try done; [by apply history_ok|].
      unfold history_with. rewrite length_take. lia. }
    split; cbn [snd with_extras extras disk].
    + exact Hx.
    + by rewrite Hl.
    + rewrite Hl, lookup_insert_eq. by apply read_written.
    + intros k Hk. rewrite lookup_insert_ne by congruence. by apply Hother.
Qed.
Lemma filed_open opens n m b :
  (forall t v, m !! extras_key accountId noteId = Some t -> parse_json t = Some v -> json_ok v) ->
  filed m (loadError (readExtras opens (m !! extras_key accountId noteId))) (open_editor accountId noteId opens n m b).
Proof.
  intros Hj. pose proof (read_ok opens (m !! extras_key accountId noteId) Hj) as Hok. split; [exact Hok| | |done].
  - split; [done|]. unfold readExtras. repeat case_match; first [by left|by right].
  - cbn [extras open_editor disk]. unfold readExtras at 1. destruct opens; [|done]. cbn [negb].
    destruct (parse_json _) eqn:E; [|done]. destruct (negb (truthy_val j)) eqn:Et; cbn [loadError].
    + assert (E2 : readExtras true (m !! extras_key accountId noteId) = mkExtras defaults [] None).
      { unfold readExtras. cbn [negb]. by rewrite E, Et. }
      rewrite E2. reflexivity.
    + assert (E2 : exists s vs, readExtras true (m !! extras_key accountId noteId) = mkExtras (valid_settings s) vs None).
      { unfold readExtras. cbn [negb]. rewrite E, Et. eauto. }
      destruct E2 as (s & vs & ->). cbn [settings versions]. by rewrite valid_idem.
Qed.

Definition note_shows (d : Draft) (n : jsval) : Prop :=
  get (js "title") n = VStr (or_str (trim (title d)) (js "Untitled note")) /\
  get (js "topic") n = VStr (trim (topic d)) /\ get (js "bodyHtml") n = VStr (bodyHtml d).
Definition autosaved (e : Desk) : Prop :=
  edition e = 0%nat \/ Forall (fun n => has_id noteId n = true -> note_shows (draft e) n) (studioNotes (book e)).
Lemma autosaved_move e e' : autosaved e -> move e e' -> autosaved e'.
Proof.
  intros Ha Hm. destruct Hm as [e1 H1 H2 _ _ H5|now d|works x _ _ _].
  - unfold autosaved. by rewrite H1, H2, H5.
  - right. cbn [book update with_draft updateStudioNote change_note studioNotes draft]. apply Forall_fmap, Forall_true.
    intros n. cbn beta. destruct (has_id noteId n) eqn:En; cbn [compose]; rewrite ?En; [|done]. intros _.
    destruct n; try done. cbn [with_props fold_left fst snd]. unfold note_shows. cbn [get]. rewrite !assoc_set_prop.
    split_and!; reflexivity.
  - unfold saveExtras. destruct (truthy _); [exact Ha|]. by destruct works.
Qed.
End facts.
End EditorFacts.

(** *** Finding *)

Module FindFacts.

Lemma index_of_first p s i j a b : index_of p s = Some i -> s = a ++ p ++ b -> length a = j -> (i <= j)%nat.
Proof.
  revert i j a. induction s as [|c s IH]; intros i j a.
  - cbn. destruct (starts_with p []); [|done]. intros [= <-]. lia.
  - cbn [index_of]. destruct (starts_with p (c :: s)) eqn:Es; [intros [= <-]; lia|].
    destruct (index_of p s) as [k|] eqn:Ek; [|done]. intros [= <-] Hs Hj. destruct a as [|d a].
    + assert (starts_with p (c :: s) = true) by (apply starts_with_spec; by exists b). congruence.
    + injection Hs as -> Hs. cbn in Hj. destruct j as [|j]; [done|]. injection Hj as Hj.
      specialize (IH k j a eq_refl Hs Hj). lia.
Qed.
(** [p] occurs in [s] at [j]. *)
Definition at_place (p s : jstr) (j : nat) : Prop := take (length p) (drop j s) = p.
Lemma place_split p s j : (j <= length s)%nat -> at_place p s j -> exists b, s = take j s ++ p ++ b /\ length (take j s) = j.
Proof.
  unfold at_place. intros Hj Hp. exists (drop (length p) (drop j s)). split; [|rewrite length_take; lia].
  rewrite <- Hp at 1. by rewrite !take_drop.
Qed.
Lemma place_inside p s j : p <> [] -> at_place p s j -> (j + length p <= length s)%nat.
Proof.
  intros Hp Ha. assert (Hl : length (take (length p) (drop j s)) = length p) by (by rewrite Ha).
  rewrite length_take, length_drop in Hl. assert (length p <> 0)%nat by (by destruct p). lia.
Qed.
Lemma index_of_place p s i : index_of p s = Some i -> at_place p s i /\ (forall j, (j < i)%nat -> ~ at_place p s j).
Proof.
  intros Hi. pose proof (index_of_Some _ _ _ Hi) as Hs. split.
  - clear Hi. destruct Hs as (a & b & -> & <-). unfold at_place. rewrite drop_app_length. apply take_app_length.
  - intros j Hj Hp. assert (Hl : (i <= length s)%nat) by (destruct Hs as (a & b & -> & <-); rewrite length_app; lia).
    destruct (place_split p s j ltac:(lia) Hp) as (b & Hb & Hb'). pose proof (index_of_first _ _ _ _ _ _ Hi Hb Hb'). lia.
Qed.
Lemma index_of_nowhere p s : p <> [] -> index_of p s = None -> forall j, ~ at_place p s j.
Proof.
  intros Hp Hi j Ha. pose proof (place_inside _ _ _ Hp Ha). destruct (place_split p s j ltac:(lia) Ha) as (b & Hb & _).
  by apply (index_of_None _ _ _ _ Hi) in Hb.
Qed.
Lemma place_drop p s k j : at_place p (drop k s) j <-> at_place p s (k + j).
Proof. unfold at_place. by rewrite drop_drop. Qed.
End FindFacts.
Import FindFacts EditorFacts.

Section finding.
Context `{Quill, !QuillLaws H, Locale} (noteId : jstr).

Definition occurs (q : Doc) (term : jstr) (j : nat) : Prop := to_lower (getText j (length term) q) = to_lower term.
(** In this text and this term, lower case is taken letter by letter. *)
Definition letterwise (f : N -> N) (t term : jstr) : Prop :=
  forall s, (exists a b, t = a ++ s ++ b) \/ s = term -> to_lower s = f <$> s.

Lemma text_of_chars t : text_of_items (IChar <$> t) = t.
Proof. unfold text_of_items. induction t as [|c t IH]; [done|]. csimpl. by rewrite IH. Qed.
Lemma getText_chars q t i n : items q = IChar <$> t -> getText i n q = take n (drop i t).
Proof. intros Hq. by rewrite getText_items, Hq, <- fmap_drop, <- fmap_take, text_of_chars. Qed.
Lemma full_text_chars q t : items q = IChar <$> t -> full_text q = t.
Proof.
  intros Hq. unfold full_text, getLength. rewrite (getText_chars q t), Hq by done. rewrite length_fmap. by apply take_ge.
Qed.
Lemma occurs_place q t f term j :
  items q = IChar <$> t -> letterwise f t term -> occurs q term j <-> at_place (f <$> term) (f <$> t) j.
Proof.
  intros Hq Hf. unfold occurs, at_place. rewrite (getText_chars q t) by done.
  rewrite (Hf term) by (by right). rewrite length_fmap, <- fmap_drop, <- fmap_take.
  rewrite Hf; [done|]. left. exists (take j t), (drop (length term) (drop j t)). by rewrite !take_drop.
Qed.
(** Where a search from [from] ends. *)
Definition next_place (q : Doc) (term : jstr) (from i : nat) : Prop :=
  occurs q term i /\
  (((from <= i)%nat /\ forall j, (from <= j < i)%nat -> ~ occurs q term j) \/
   ((forall j, (from <= j)%nat -> ~ occurs q term j) /\ forall j, (j < i)%nat -> ~ occurs q term j)).

Lemma index_from_place p s from i : p <> [] -> index_from p s from = Some i ->
  (from <= i)%nat /\ at_place p s i /\ forall j, (from <= j < i)%nat -> ~ at_place p s j.
Proof.
  intros Hp. unfold index_from. destruct (index_of p _) as [k|] eqn:Ek; [|done]. intros [= <-].
  apply index_of_place in Ek as [Hk Hno]. rewrite place_drop in Hk. pose proof (place_inside _ _ _ Hp Hk) as Hin.
  assert (length p <> 0)%nat by (by destruct p).
  split_and!; [lia|done|]. intros j Hj Ha. apply (Hno (j - Nat.min from (length s))%nat); [lia|].
  rewrite place_drop. by replace (Nat.min from (length s) + (j - Nat.min from (length s)))%nat with j by lia.
Qed.
Lemma index_from_nowhere p s from : p <> [] -> index_from p s from = None -> forall j, (from <= j)%nat -> ~ at_place p s j.
Proof.
  intros Hp. unfold index_from. destruct (index_of p _) as [k|] eqn:Ek; [done|]. intros _ j Hj Ha.
  pose proof (place_inside _ _ _ Hp Ha). assert (length p <> 0)%nat by (by destruct p).
  apply (index_of_nowhere _ _ Hp Ek (j - Nat.min from (length s))%nat). rewrite place_drop.
  by replace (Nat.min from (length s) + (j - Nat.min from (length s)))%nat with j by lia.
Qed.

Lemma select_next_finds e q t f :
  quill e = Some q -> items q = IChar <$> t -> letterwise f t (finding e) -> finding e <> [] ->
  let e' := select_next e in
  quill e' = Some q /\ draft e' = draft e /\
  ((exists i, selected e' = Some (i, length (finding e)) /\ cursor e' = (i + length (finding e))%nat /\
              message e' = msg_match /\ next_place q (finding e) (cursor e) i) \/
   (selected e' = selected e /\ message e' = msg_no_match /\ forall j, ~ occurs q (finding e) j)).
Proof.
  intros Hq Ht Hf Hne. unfold select_next. rewrite Hq, (full_text_chars q t Ht).
  pose proof (fun j => occurs_place q t f (finding e) j Ht Hf) as Ho.
  rewrite (Hf t) by (left; exists [], []; by rewrite app_nil_r). rewrite (Hf (finding e)) by (by right).
  assert (Hp : f <$> finding e <> []) by (by destruct (finding e)).
  destruct (index_from _ _ _) as [i|] eqn:Ei; [|destruct (index_of _ _) as [i|] eqn:Ej].
  - apply index_from_place in Ei as (Hle & Hi & Hno); [|done]. split_and!; [done..|]. left. exists i.
    split_and!; [done..|]. split; [by apply Ho|]. left. split; [done|]. intros j Hj Hoj%Ho. by apply (Hno j).
  - apply index_of_place in Ej as [Hi Hno]. pose proof (index_from_nowhere _ _ _ Hp Ei) as Hafter.
    split_and!; [done..|]. left. exists i. split_and!; [done..|]. split; [by apply Ho|]. right.
    split; intros j Hj Hoj%Ho; [by apply (Hafter j)|by apply (Hno j)].
  - split_and!; [done..|]. right. split_and!; [done..|]. intros j Hoj%Ho. by apply (index_of_nowhere _ _ Hp Ej j).
Qed.
Lemma replace_selected_cases now e q :
  quill e = Some q ->
  let e1 := replace_selected noteId now e in
  e1 = e \/
  exists i n q1, selected e = Some (i, n) /\ to_lower (getText i n q) = to_lower (finding e) /\ quill e1 = Some q1 /\
    cursor e1 = (i + length (replacing e))%nat /\ finding e1 = finding e /\ bodyHtml (draft e1) = innerHTML q1 /\
    ((i + n < getLength q)%nat -> items q1 = take i (items q) ++ (IChar <$> replacing e) ++ drop (i + n) (items q)).
Proof.
  intros Hq. unfold replace_selected. rewrite Hq. destruct (selected e) as [[i n]|]; [|by left].
  destruct (seqb _ _) eqn:Es; [|by left]. apply seqb_eq in Es. right. exists i, n, (insertText i (replacing e) (deleteText i n q)).
  split_and!; try done. intros Hin. unfold getLength in Hin.
  assert (Hl : (i < getLength (deleteText i n q))%nat).
  { unfold getLength. rewrite deleteText_items by done. rewrite length_app, length_take, length_drop. lia. }
  rewrite insertText_items, deleteText_items by done. rewrite take_app_le by (rewrite length_take; lia).
  rewrite take_take, Nat.min_id. do 2 f_equal. rewrite drop_app_ge by (rewrite length_take; lia).
  rewrite length_take, Nat.min_l by lia. by rewrite Nat.sub_diag.
Qed.
End finding.

(** ** Claims *)

Section claims.
Context `{Quill, Locale} (accountId noteId : jstr).
Local Abbreviation start_of opens n m b := (mkSystem (answer := answer) (open_editor accountId noteId opens n m b) []).

(** The step [ev] replaces the draft by something that was not typed: a
    version that is restored, or an imported file that has been read. *)
Definition replaces (ev : Event) (y : System Desk answer) : Prop :=
  match ev with
  | Restored _ => True
  | Answered i _ =>
    match waiting y !! i with Some (Ask (ReadWord _) _) | Some (Ask (ReadText _) _) => True | _ => False end
  | _ => False
  end.

(** C17. Nothing written in the editor is lost: after any events, in any order,
    answered in any order and at any time, the note of the workspace has the
    title, the topic and the text of the draft once something was changed, and
    when a version is restored or an imported file replaces the draft, the
    draft it replaces is a version of the history; otherwise neither the draft
    nor the document changes. *)
Theorem nothing_written_is_lost opens n m b es :
  let y := run accountId noteId es (start_of opens n m b) in
  autosaved noteId (world y) /\
  forall now works ev, replaces ev y ->
    let e' := world (step accountId noteId now works ev y) in
    (draft e' = draft (world y) /\ quill e' = quill (world y)) \/ in_history (draft (world y)) e'.
Proof.
  intros y. split; [apply run_keeps; [apply autosaved_move|by left]|].
  assert (Hy : consistent noteId y) by (apply run_consistent; constructor).
  intros now works ev Hr. destruct ev; try done; cbn [replaces step] in *.
  - destruct (alive (world y)); [|by left]. cbn. destruct (_ !! i) as [v|]; [|by left]. apply restore_cases.
  - unfold resume. destruct (waiting y !! i) as [s|] eqn:Ei; [|by left].
    pose proof (proj1 (Forall_lookup _ _) Hy i s Ei) as Hp.
    destruct Hp as [now' f k Hc|now' f k Hc|now' f k|t q s]; try done; by apply (opened_cases noteId now' f k).
Qed.

(** C23. What the editor shows is what reopening the document reads: after any
    events the stored record reads back as the settings, made valid, and the
    versions of the editor, at most ten of them; a record that could not be
    read when the document was opened is never overwritten, and no other entry
    of the storage changes. *)
Theorem reopened_as_it_was opens n m b es
    (Hjson : forall t v, m !! extras_key accountId noteId = Some t -> parse_json t = Some v -> json_ok v) :
  let e := world (run accountId noteId es (start_of opens n m b)) in
  let key := extras_key accountId noteId in
  (length (versions (extras e)) <= 10)%nat /\
  (forall k, k <> key -> disk e !! k = m !! k) /\
  match loadError (readExtras opens (m !! key)) with
  | Some _ => disk e !! key = m !! key
  | None => readExtras true (disk e !! key) = mkExtras (valid_settings (settings (extras e))) (versions (extras e)) None
  end.
Proof.
  intros e key.
  assert (He : filed accountId noteId m (loadError (readExtras opens (m !! key))) e).
  { apply run_keeps; [apply filed_move|by apply filed_open]. }
  destruct He as [[_ _ Hten] [Hl _] Hk Ho]. rewrite Hl in Hk. done.
Qed.

(** Find and replace: "Replace" changes the document only where the
    selected text is the term, whatever the case of its letters, and puts the
    replacement there, after which the search goes on; in a document of text,
    "Find next" selects the first occurrence from there on, else the first of
    the document, and says that there is none only when there is none. *)
Theorem find_and_replace `{!QuillLaws H} now (replace : bool) e q (Hq : quill e = Some q) (Hterm : finding e <> []) :
  let e1 := if replace then replace_selected noteId now e else e in
  let e2 := findNext noteId now replace e in
  (e1 = e \/
   exists i n q1, selected e = Some (i, n) /\ to_lower (getText i n q) = to_lower (finding e) /\ quill e1 = Some q1 /\
     cursor e1 = (i + length (replacing e))%nat /\ bodyHtml (draft e1) = innerHTML q1 /\
     ((i + n < getLength q)%nat -> items q1 = take i (items q) ++ (IChar <$> replacing e) ++ drop (i + n) (items q))) /\
  forall q1 t f, quill e1 = Some q1 -> items q1 = IChar <$> t -> letterwise f t (finding e) ->
    quill e2 = Some q1 /\ draft e2 = draft e1 /\
    ((exists i, selected e2 = Some (i, length (finding e)) /\ cursor e2 = (i + length (finding e))%nat /\
                message e2 = msg_match /\ next_place q1 (finding e) (cursor e1) i) \/
     (selected e2 = selected e1 /\ message e2 = msg_no_match /\ forall j, ~ occurs q1 (finding e) j)).
Proof.
  intros e1 e2.
  pose proof (replace_selected_cases noteId now e q Hq) as Hcases. cbn zeta in Hcases.
  assert (Hf : finding e1 = finding e) by (subst e1; destruct replace; [destruct Hcases as [->|(i & n & q1 & Hc)]; [done|apply Hc]|done]).
  assert (E2 : e2 = select_next e1).
  { subst e2 e1. unfold findNext. rewrite Hq. by destruct (finding e). }
  split.
  { clear - Hcases. subst e1. destruct replace; [|by left]. destruct Hcases as [Hc|(i & n & q1 & ? & ? & ? & ? & _ & Hc)]; [by left|].
    right. by exists i, n, q1. }
  intros q1 t f Hq1 Ht Hl. rewrite E2, <- Hf in *. by apply (select_next_finds e1 q1 t f).
Qed.
End claims.

(** ** An instance, and examples *)

(** A document of plain text and embeds, which ends with a line break. *)
Definition plain_quill : Quill := {|
  Doc := list Item;
  items d := d;
  innerHTML d := flat_map (fun i => match i with IChar c => [c] | IEmbed => js "<img>" end) (take (length d - 1) d);
  pasted h := (IChar <$> h) ++ [IChar c_nl];
  getText i n d := text_of_items (take n (drop i d));
  deleteText i n d := take i d ++ drop (i + n) d;
  insertText i s d := take i d ++ (IChar <$> s) ++ drop i d;
  insertEmbed i _ _ d := take i d ++ IEmbed :: drop i d;
  table_at _ _ := false;
  table_edit _ _ d := d;
  carried r _ _ := r;
  sanitize h := h;
  katex_accepts := truthy
|}.
#[export] Instance plain_quill_laws : QuillLaws plain_quill.
Proof. split; reflexivity. Qed.

Module DocumentRuns.
#[local] Existing Instance plain_quill.
#[local] Existing Instance ascii_locale.
Local Abbreviation acc := (js "s1").
Local Abbreviation nid := (js "n1").
Definition a_note : jsval :=
  VObj [(js "id", VStr nid); (js "title", VStr (js "Cells")); (js "topic", VStr (js "Bio")); (js "bodyHtml", VStr (js "one"));
        (js "createdAt", VStr (js "1")); (js "updatedAt", VStr (js "1"))].
Definition a_book : ForgeData := mkForgeData [] [] [a_note] [] [] ALL_WIDGETS VUndef.
Definition opened_desk (m : gmap jstr jstr) : System Desk answer := mkSystem (open_editor acc nid true a_note m a_book) [].
Definition word_file : File := mkFile (js "Essay.docx") [] 10.
Definition picture : File := mkFile (js "x.png") [] 10.
Definition at_time (t : jstr) (ev : Event) : jstr * bool * Event := (t, true, ev).
Definition reads (h : jstr) : forall q : Query, answer q := fun q => match q with WriteWord _ _ _ => Ok tt | _ => Ok h end.
Definition typed : Event := Edited (pasted (js "two")) None.
Definition importing : list (jstr * bool * Event) := [at_time (js "2") typed; at_time (js "3") (Imported (js "4") (Some word_file))].

Lemma nothing_written_is_lost_witness :
  let y := run acc nid importing (opened_desk ∅) in
  let e' := world (step acc nid (js "5") true (Answered 0 (reads (js "three"))) y) in
  bodyHtml (draft (world y)) = js "two" /\ bodyHtml (draft e') = js "three" /\ in_history (draft (world y)) e'.
Proof.
  intros y e'. split; [vm_compute; reflexivity|]. split; [vm_compute; reflexivity|].
  destruct (nothing_written_is_lost acc nid true a_note ∅ a_book importing) as [_ Ht].
  destruct (Ht (js "5") true (Answered 0 (reads (js "three")))) as [[Hd _]|Hh]; [vm_compute; exact I| |exact Hh].
  exfalso. assert (Hb : bodyHtml (draft e') = bodyHtml (draft (world y))) by exact (f_equal bodyHtml Hd).
  revert Hb. vm_compute. discriminate.
Defined.

Definition restoring : list (jstr * bool * Event) :=
  [at_time (js "2") Saved; at_time (js "3") typed; at_time (js "4") (Configured (Margin 2)); at_time (js "5") (Restored 0)].
Lemma reopened_as_it_was_witness :
  let e := world (run acc nid restoring (opened_desk ∅)) in
  length (versions (extras e)) = 2%nat /\ bodyHtml (draft e) = js "one" /\
  readExtras true (disk e !! extras_key acc nid) = mkExtras (valid_settings (settings (extras e))) (versions (extras e)) None.
Proof.
  intros e. split; [vm_compute; reflexivity|]. split; [vm_compute; reflexivity|].
  refine (proj2 (proj2 (reopened_as_it_was acc nid true a_note ∅ a_book restoring _))). by intros t v.
Defined.

Definition searching : Desk := world (run acc nid
  [at_time (js "2") (Edited (pasted (js "Cell cell")) (Some (0, 4)%nat)); at_time (js "2") (Looked (js "CELL")); at_time (js "3") (Replaced (js "body"))]
  (opened_desk ∅)).
Lemma find_and_replace_witness :
  let e2 := findNext nid (js "4") true searching in
  innerHTML (default [] (quill e2)) = js "body cell" /\ selected e2 = Some (5, 4)%nat /\
  exists i, selected e2 = Some (i, 4)%nat /\ occurs (default [] (quill e2)) (js "CELL") i.
Proof.
  intros e2. split; [vm_compute; reflexivity|]. split; [vm_compute; reflexivity|].
  assert (Hl : letterwise ascii_lower (js "body cell" ++ [c_nl]) (finding searching)) by (by intros s _).
  destruct (find_and_replace nid (js "4") true searching (pasted (js "Cell cell"))) as [_ Ht];
    [vm_compute; reflexivity|vm_compute; discriminate|].
  assert (E : quill (replace_selected nid (js "4") searching) = Some (pasted (js "body cell"))) by (vm_compute; reflexivity).
  destruct (Ht _ _ ascii_lower E (eq_refl : items _ = IChar <$> (js "body cell" ++ [c_nl])) Hl) as (E2 & _ & [(i & Hs & _ & _ & Ho & _)|(_ & _ & Hno)]).
  - exists i. split; [exact Hs|]. unfold e2. rewrite E2. exact Ho.
  - exfalso. apply (Hno 5%nat). vm_compute. reflexivity.
Defined.

(** After an image, "Find next" selects the wrong text: the positions of the
    text, which leaves images out, are not the positions of the document. *)
Definition with_image : Doc := [IEmbed; IChar 97; IChar 98; IChar c_nl]%N.
Example image_shifts_selection :
  let e := world (run acc nid
    [at_time (js "2") (Edited with_image None); at_time (js "3") (Looked (js "b")); at_time (js "4") (Found false)] (opened_desk ∅)) in
  message e = msg_match /\ selected e = Some (1, 1)%nat /\ getText 1 1 with_image = js "a".
Proof. vm_compute. split_and!; reflexivity. Qed.

(** "Replace" on a selection that holds the term and an image removes the
    image. *)
Example replace_removes_image :
  let e := world (run acc nid
    [at_time (js "2") (Edited with_image (Some (0, 3)%nat)); at_time (js "3") (Looked (js "ab")); at_time (js "3") (Replaced (js "c"));
     at_time (js "4") (Found true)] (opened_desk ∅)) in
  quill e = Some (IChar <$> js "c" ++ [c_nl]).
Proof. vm_compute. reflexivity. Qed.

(** A file of another type takes a place in the history, before it is
    refused: of ten versions the oldest is gone. *)
Definition ten_versions : list (jstr * bool * Event) :=
  concat ((fun t => [at_time [t] (Titled [t]); at_time [t] Saved]) <$> js "abcdefghij").
Example refused_import_drops_version :
  let y := run acc nid ten_versions (opened_desk ∅) in
  let y' := step acc nid (js "k") true (Imported (js "k") (Some picture)) y in
  last ((fun v => get (js "title") v) <$> versions (extras (world y))) = Some (VStr (js "a")) /\
  message (world y') = msg_type /\
  last ((fun v => get (js "title") v) <$> versions (extras (world y'))) = Some (VStr (js "b")).
Proof. vm_compute. split_and!; reflexivity. Qed.
End DocumentRuns.
