(* ===== verification/DocumentFiles.v ===== *)
(** * Files made of a document ([apps/forge/src/studio/documentFiles.ts])

    The name a file is saved under, the portable HTML copy and the Word copy of
    a document.  A document is the tree the browser has for its sanitized HTML,
    an element with the properties the code reads; the Word file is the tree of
    objects handed to the docx library.  [decodes] says whether [atob] accepts a
    text, [css] is the style sheet of the editor.  Numbers of a colour are taken
    as exact, as they are up to 2^53. *)

From Stdlib Require Import QArith.
From S2P Require Import Prelude JsString JsNumber JsValue.
From S2P Require PaperExport.
From S2P Require DocumentEditor.
Local Open Scope Z_scope.

(** ** Names *)

Definition forbidden (c : N) : bool := one_of [60; 62; 58; 34; 47; 92; 124; 63; 42]%N c || (c <? 32)%N.
(** [link.download] *)
Definition download_name (name : jstr) : jstr := take 160 (replace_chars forbidden (fun _ => js "_") name).
Definition or_document (title : jstr) : jstr := or_str title (js "Document").

(** ** Settings *)

Record PageSettings := mkPageSettings {
  paper : jstr; landscape : bool; margin : jsnum; spacing : jstr; page_header : jstr; page_footer : jstr
}.
Definition page_settings (s : jsval) : PageSettings :=
  mkPageSettings (to_string (get (js "paper") s)) (truthy_val (get (js "landscape") s)) (to_number (get (js "margin") s))
    (to_string (get (js "spacing") s)) (to_string (get (js "header") s)) (to_string (get (js "footer") s)).

(** ** The HTML copy *)

Definition escape_char (c : N) : jstr :=
  if (c =? 38)%N then js "&amp;" else if (c =? 60)%N then js "&lt;" else if (c =? 62)%N then js "&gt;"
  else if (c =? 34)%N then js "&quot;" else if (c =? 39)%N then js "&#39;" else [c].
Definition escape (value : jstr) : jstr := flat_map escape_char value.
(** [s.replace(p, r)] for a text [p]. *)
Definition replace_once (p r s : jstr) : jstr :=
  match index_of p s with Some i => take i s ++ r ++ drop (i + length p) s | None => s end.
(** The template's text, with ['] for the double quote. *)
Definition h (s : jstr) : jstr := (fun c => if (c =? 39)%N then 34%N else c) <$> s.
Definition portable_style (css : jstr) (s : PageSettings) : jstr :=
  css ++ c_nl :: js "+body{margin:0;background:white;color:#202124;font:14px Arial,sans-serif}.document{max-width:210mm;margin:auto;padding:" ++
  show_num (margin s) ++ js "mm}.ql-editor{overflow:visible;padding:0;line-height:" ++ spacing s ++
  js "}img{max-width:100%}table{border-collapse:collapse;width:100%}td{border:1px solid #999;padding:6px}.document-page-break{break-after:page;border:0}header,footer{font-size:11px;color:#555;margin:12px 0}@page{size:" ++
  paper s ++ js " " ++ (if landscape s then js "landscape" else js "portrait") ++ js ";margin:" ++ show_num (margin s) ++
  js "mm}@media print{.document{padding:0;max-width:none}}".
(** [html] is the sanitized content of the editor. *)
Definition portableHtml (css title html : jstr) (s : PageSettings) : jstr :=
  replace_once (c_nl :: js "+body") (c_nl :: js "body")
    (h (js "<!doctype html><html lang='en'><head><meta charset='utf-8'><meta name='viewport' content='width=device-width,initial-scale=1'><title>") ++
     escape title ++ js "</title><style>" ++ portable_style css s ++
     h (js "</style></head><body><main class='document'><header>") ++ escape (page_header s) ++
     h (js "</header><div class='ql-editor'>") ++ html ++ js "</div><footer>" ++ escape (page_footer s) ++
     js "</footer></main></body></html>").

(** ** The Word copy *)

Record El := mkEl {
  tag : jstr; className : jstr; fontFamily : jstr; fontSize : jstr; colour : jstr; textAlign : jstr;
  data_value : jstr; data_list : jstr; src : jstr
}.
Inductive Node :=
  | TextNode (text : jstr)
  | OtherNode
  | Element (el : El) (children : list Node).

Record RunOptions := mkRunOptions {
  bold : bool; italics : bool; underline : bool; strike : bool; subScript : bool; superScript : bool;
  font : option jstr; size : option jsnum; color : option jstr
}.
Definition no_options : RunOptions := mkRunOptions false false false false false false None None None.
Inductive Run :=
  | TextRun (o : RunOptions) (text : jstr)
  | Break
  | ImageRun (kind data : jstr) (width height : Z).
Inductive Alignment := CENTER | RIGHT | JUSTIFIED | LEFT.
Record Paragraph := mkParagraph {
  p_runs : list Run; heading : Z; alignment : Alignment; line : jsnum; indent_left : option Z;
  bullet : option Z; numbering : option (nat * Z)
}.
Inductive Block :=
  | PageBreak
  | Blank
  | Para (p : Paragraph)
  | Table (rows : list (list Paragraph)).

Fixpoint textContent (n : Node) : jstr :=
  match n with TextNode t => t | OtherNode => [] | Element _ children => flat_map textContent children end.
Definition is_tag (names : list jstr) (el : El) : bool := existsb (seqb (tag el)) names.
Definition has_class (name : jstr) (el : El) : bool := existsb (seqb name) (PaperExport.words (className el)).

(** [parseFloat]: the longest beginning that is a decimal literal. *)
Definition decimal_literal (s : jstr) : option jsnum :=
  let '(neg, u) := match s with c :: u => if (c =? 45)%N then (true, u) else if (c =? 43)%N then (false, u) else (false, s) | [] => (false, s) end in
  if seqb u (js "Infinity") then Some (Inf neg)
  else match parse_unsigned u with Some _ => Some (signed_literal neg u) | None => None end.
Fixpoint longest_literal (n : nat) (s : jstr) : jsnum :=
  match n with
  | O => NaN
  | S m => match decimal_literal (take n s) with Some x => x | None => longest_literal m s end
  end.
Definition parseFloat (s : jstr) : jsnum := let t := trim_start s in longest_literal (length t) t.

(** [s.match(/\d+/g)] *)
Fixpoint digit_runs (run s : jstr) : list jstr :=
  match s with
  | [] => match run with [] => [] | _ => [run] end
  | c :: s' => if is_digit c then digit_runs (run ++ [c]) s'
               else match run with [] => digit_runs [] s' | _ => run :: digit_runs [] s' end
  end.
Fixpoint hex_digits (fuel : nat) (n : N) (acc : jstr) : jstr :=
  let acc := hex_char (n mod 16) :: acc in
  match fuel with
  | O => acc
  | S f => if (n / 16 =? 0)%N then acc else hex_digits f (n / 16) acc
  end.
Definition show_hex (n : N) : jstr := hex_digits (N.size_nat n) n [].
Definition pad2 (s : jstr) : jstr := repeat 48%N (2 - length s) ++ s.
Definition rgb_hex (c : jstr) : option jstr :=
  match digit_runs [] c with
  | r :: g :: b :: _ => Some (flat_map (fun n => pad2 (show_hex (Z.to_N (digits_value n)))) [r; g; b])
  | _ => None
  end.
(** The options of an element's content: its own over those around it. *)
Definition next_options (el : El) (o : RunOptions) : RunOptions :=
  mkRunOptions
    (bold o || is_tag [js "STRONG"; js "B"] el) (italics o || is_tag [js "EM"; js "I"] el) (underline o || is_tag [js "U"] el)
    (strike o || is_tag [js "S"; js "STRIKE"] el) (subScript o || is_tag [js "SUB"] el) (superScript o || is_tag [js "SUP"] el)
    (if truthy (fontFamily el) then Some (replace_chars (one_of [39; 34]%N) (fun _ => []) (fontFamily el)) else font o)
    (if truthy (fontSize el) then Some (math_round (num_mul (parseFloat (fontSize el)) (of_Q (3 # 2)%Q))) else size o)
    (match rgb_hex (colour el) with Some c => Some c | None => color o end).

Definition IMAGE_PREFIXES : list (jstr * jstr) :=
  [(js "data:image/png;base64,", js "png"); (js "data:image/jpeg;base64,", js "jpg"); (js "data:image/gif;base64,", js "gif")].
Definition image_data (s : jstr) : option (jstr * jstr) :=
  p ← find (fun p => starts_with (fst p) s) IMAGE_PREFIXES;
  let data := drop (length (fst p)) s in
  if truthy data && forallb (fun c => negb (is_eol c)) data then Some (snd p, data) else None.
(** The images on screen: source, width and height. *)
Definition Images : Type := list (jstr * (Z * Z)).
Definition or_Z (z d : Z) : Z := if z =? 0 then d else z.
Definition no_image : jstr := js "[Image — see HTML/PDF export]".
Definition image_run (images : Images) (s : jstr) : Run :=
  match image_data s with
  | Some (kind, data) =>
    let '(w, hgt) := default (0, 0) (assoc s images) in
    let nw := or_Z w 400 in let nh := or_Z hgt 300 in
    let width := Z.min nw 500 in
    ImageRun kind data width (Qround_js (inject_Z (nh * width) / inject_Z nw)%Q)
  | None => TextRun no_options no_image
  end.
Fixpoint runs (images : Images) (n : Node) (o : RunOptions) : list Run :=
  match n with
  | TextNode t => [TextRun o t]
  | OtherNode => []
  | Element el children =>
    let next := next_options el o in
    if is_tag [js "BR"] el then [Break]
    else if has_class (js "ql-formula") el then [TextRun next (or_str (data_value el) (flat_map textContent children))]
    else if is_tag [js "IMG"] el then [image_run images (src el)]
    else flat_map (fun child => runs images child next) children
  end.

(** The characters of the set after the first [p] that is followed by one. *)
Fixpoint after (p : jstr) (ok : N -> bool) (s : jstr) : jstr :=
  match s with
  | [] => []
  | _ :: s' =>
    let found := if starts_with p s then take_while ok (drop (length p) s) else [] in
    if truthy found then found else after p ok s'
  end.
Definition HEADINGS : list jstr := [js "H1"; js "H2"; js "H3"; js "H4"; js "H5"; js "H6"].
Definition alignment_of (s : jstr) : Alignment :=
  if seqb s (js "center") then CENTER else if seqb s (js "right") then RIGHT else if seqb s (js "justify") then JUSTIFIED else LEFT.
Definition paragraph (images : Images) (s : PageSettings) (el : El) (children : list Node) (instance : nat) : Paragraph :=
  let indent := digits_value (after (js "ql-indent-") is_digit (className el)) in
  mkParagraph (runs images (Element el children) no_options)
    (match find_index (seqb (tag el)) HEADINGS with Some i => Z.of_nat i + 1 | None => 0 end)
    (alignment_of (or_str (textAlign el) (after (js "ql-align-") is_word (className el))))
    (math_round (num_mul (number_of_string (spacing s)) (num 240)))
    (if indent =? 0 then None else Some (indent * 360))
    (if seqb (data_list el) (js "bullet") then Some (Z.min indent 8) else None)
    (if seqb (data_list el) (js "ordered") then Some (instance, Z.min indent 8) else None).

(** [el.querySelectorAll("tr")]: each with its children. *)
Fixpoint rows_of (n : Node) : list (list Node) :=
  match n with
  | Element el children => (if is_tag [js "TR"] el then [children] else []) ++ flat_map rows_of children
  | _ => []
  end.
Definition elements (l : list Node) : list (El * list Node) :=
  filter_map (fun n => match n with Element el c => Some (el, c) | _ => None end) l.
(** The blocks of the elements at the top, and the number of lists so far. *)
Fixpoint blocks (images : Images) (s : PageSettings) (listId : nat) (l : list (El * list Node)) : list Block :=
  match l with
  | [] => []
  | (el, children) :: l =>
    if has_class (js "document-page-break") el then PageBreak :: blocks images s listId l
    else if is_tag [js "TABLE"] el then
      Table ((fun row => (fun cell => paragraph images s (fst cell) (snd cell) 0) <$> elements row) <$> flat_map rows_of children)
      :: blocks images s listId l
    else if is_tag [js "OL"; js "UL"] el then
      ((fun item => Para (paragraph images s (fst item) (snd item) (S listId))) <$> elements children) ++
      blocks images s (S listId) l
    else Para (paragraph images s el children 0) :: blocks images s listId l
  end.

Definition mm (n : jsnum) : jsnum := math_round (num_mul n (of_Q (566929 # 10000)%Q)).
Record WordDocument := mkWordDocument {
  doc_title : jstr; page_width : jsnum; page_height : jsnum; doc_landscape : bool; doc_margin : jsnum;
  doc_header : jstr; doc_footer : jstr; body : list Block
}.
Definition word_document (title : jstr) (images : Images) (root : list Node) (s : PageSettings) : WordDocument :=
  let a4 := seqb (paper s) (js "A4") in
  mkWordDocument title
    (mm (if a4 then num 210 else of_Q (2159 # 10)%Q)) (mm (if a4 then num 297 else of_Q (2794 # 10)%Q))
    (landscape s) (mm (margin s)) (page_header s) (page_footer s ++ (if truthy (page_footer s) then js " · " else []))
    (match blocks images s 0 (elements root) with [] => [Blank] | l => l end).

Definition block_runs (b : Block) : list Run :=
  match b with
  | PageBreak | Blank => []
  | Para p => p_runs p
  | Table rows => flat_map (flat_map p_runs) rows
  end.
(** The document and the name it is saved under; it fails when an image cannot
    be decoded. *)
Definition exportWord (decodes : jstr -> bool) (title : jstr) (images : Images) (root : list Node) (s : PageSettings) :
    outcome unit (jstr * WordDocument) :=
  let d := word_document title images root s in
  if forallb (fun r => match r with ImageRun _ data _ _ => decodes data | _ => true end) (flat_map block_runs (body d))
  then Ok (download_name (or_document title ++ js ".docx"), d) else Throw tt.

(** ** Properties *)

(** A saved name has no character a file system refuses, and at most 160. *)
Lemma download_name_safe name :
  forallb (fun c => negb (forbidden c)) (download_name name) = true /\ (length (download_name name) <= 160)%nat.
Proof.
  unfold download_name. split; [|rewrite length_take; lia]. apply forallb_take, forallb_Forall.
  unfold replace_chars. apply Forall_flat_map, Forall_true. intros c.
  destruct (forbidden c) eqn:E; apply Forall_singleton; [reflexivity|by rewrite E].
Qed.
(** What is escaped has no character of the markup. *)
Lemma escape_no_markup s : forallb (fun c => negb (one_of [60; 62; 34; 39]%N c)) (escape s) = true.
Proof.
  apply forallb_Forall, Forall_flat_map, Forall_true. intros c. apply forallb_Forall. unfold escape_char.
  repeat match goal with |- context [(c =? ?n)%N] => destruct (N.eqb_spec c n); [by subst|] end.
  unfold one_of. cbn. repeat match goal with |- context [(c =? ?n)%N] => destruct (N.eqb_spec c n); [done|] end. done.
Qed.

Module WordFacts.

Section node_ind.
Context (P : Node -> Prop).
Context (Ht : forall t, P (TextNode t)) (Ho : P OtherNode) (He : forall el l, Forall P l -> P (Element el l)).
Fixpoint node_ind' (n : Node) : P n :=
  match n with
  | TextNode t => Ht t
  | OtherNode => Ho
  | Element el l => He el l ((fix go l := match l return Forall P l with
      | [] => Forall_nil_2 _
      | x :: l' => Forall_cons_2 _ _ _ (node_ind' x) (go l')
      end) l)
  end.
End node_ind.

(** The innermost of the enclosing elements that has a value. *)
Fixpoint innermost {A} (f : El -> option A) (anc : list El) : option A :=
  match anc with
  | [] => None
  | el :: anc => match f el with Some x => Some x | None => innermost f anc end
  end.
(** The formatting of a text by the elements around it, innermost first. *)
Definition formatted (anc : list El) : RunOptions :=
  mkRunOptions
    (existsb (is_tag [js "STRONG"; js "B"]) anc) (existsb (is_tag [js "EM"; js "I"]) anc) (existsb (is_tag [js "U"]) anc)
    (existsb (is_tag [js "S"; js "STRIKE"]) anc) (existsb (is_tag [js "SUB"]) anc) (existsb (is_tag [js "SUP"]) anc)
    (innermost (fun el => if truthy (fontFamily el)
       then Some (replace_chars (one_of [39; 34]%N) (fun _ => []) (fontFamily el)) else None) anc)
    (innermost (fun el => if truthy (fontSize el)
       then Some (math_round (num_mul (parseFloat (fontSize el)) (of_Q (3 # 2)%Q))) else None) anc)
    (innermost (fun el => rgb_hex (colour el)) anc).
Lemma formatted_cons el anc : next_options el (formatted anc) = formatted (el :: anc).
Proof.
  unfold next_options, formatted. cbn [bold italics underline strike subScript superScript font size color existsb innermost].
  f_equal; first [apply orb_comm|by destruct (truthy (fontFamily el))|by destruct (truthy (fontSize el))|by destruct (rgb_hex (colour el))].
Qed.

(** The texts a reader of the page is shown, each with the elements around it;
    a formula is shown by its source, an image that is not written by a
    notice. *)
Fixpoint shown (anc : list El) (n : Node) : list (list El * jstr) :=
  match n with
  | TextNode t => [(anc, t)]
  | OtherNode => []
  | Element el children =>
    if is_tag [js "BR"] el then []
    else if has_class (js "ql-formula") el then [(el :: anc, or_str (data_value el) (flat_map textContent children))]
    else if is_tag [js "IMG"] el then match image_data (src el) with Some _ => [] | None => [([], no_image)] end
    else flat_map (shown (el :: anc)) children
  end.
Definition pieces (anc : list El) (n : Node) : list (RunOptions * jstr) :=
  (fun p => (formatted (fst p), snd p)) <$> shown anc n.
Definition texts (l : list Run) : list (RunOptions * jstr) :=
  filter_map (fun r => match r with TextRun o t => Some (o, t) | _ => None end) l.

Lemma texts_app l l' : texts (l ++ l') = texts l ++ texts l'.
Proof. apply filter_map_app. Qed.
Lemma texts_flat {A} (f : A -> list Run) l : texts (flat_map f l) = flat_map (fun x => texts (f x)) l.
Proof. induction l as [|x l IH]; [done|]. cbn [flat_map]. by rewrite texts_app, IH. Qed.
Lemma pieces_flat anc l :
  (fun p => (formatted (fst p), snd p)) <$> flat_map (shown anc) l = flat_map (pieces anc) l.
Proof. induction l as [|x l IH]; [done|]. cbn [flat_map]. by rewrite fmap_app, IH. Qed.
Lemma flat_map_ext_in {A B} (f g : A -> list B) l : Forall (fun x => f x = g x) l -> flat_map f l = flat_map g l.
Proof. induction 1 as [|x l Hx _ IH]; [done|]. cbn [flat_map]. by rewrite Hx, IH. Qed.

Lemma texts_image images s :
  texts [image_run images s] =
  (fun p => (formatted (fst p), snd p)) <$> (match image_data s with Some _ => [] | None => [([], no_image)] end).
Proof.
  unfold image_run, texts. destruct (image_data s) as [[k d]|].
  - destruct (default (0, 0) (assoc s images)) as [w hgt]. cbn [filter_map fmap list_fmap]. reflexivity.
  - cbn [filter_map fmap list_fmap fst snd]. reflexivity.
Qed.
Lemma runs_pieces images n anc : texts (runs images n (formatted anc)) = pieces anc n.
Proof.
  revert anc. induction n as [t| |el l IH] using node_ind'; intros anc; [done..|]. cbn [runs]. unfold pieces. cbn [shown].
  rewrite formatted_cons. destruct (is_tag [js "BR"] el); [done|]. destruct (has_class _ el); [done|].
  destruct (is_tag [js "IMG"] el); [apply texts_image|]. rewrite texts_flat, pieces_flat.
  apply flat_map_ext_in. eapply Forall_impl; [exact IH|]. intros n Hn. apply Hn.
Qed.
Lemma pieces_same n anc anc' : formatted anc = formatted anc' -> pieces anc n = pieces anc' n.
Proof. intros Hf. by rewrite <- !(runs_pieces [] n), Hf. Qed.

(** An element that only groups others: a list, a table, its body, a row. *)
Definition groups (el : El) : bool :=
  negb (is_tag [js "BR"; js "IMG"; js "STRONG"; js "B"; js "EM"; js "I"; js "U"; js "S"; js "STRIKE"; js "SUB"; js "SUP"] el) &&
  negb (has_class (js "ql-formula") el) && negb (has_class (js "document-page-break") el) &&
  negb (truthy (fontFamily el)) && negb (truthy (fontSize el)) && match rgb_hex (colour el) with None => true | _ => false end.
Definition is_cell (n : Node) : bool :=
  match n with TextNode _ => false | OtherNode => true | Element _ _ => match rows_of n with [] => true | _ => false end end.
Fixpoint table_part (n : Node) : bool :=
  match n with
  | TextNode _ => false
  | OtherNode => true
  | Element el children => groups el && if is_tag [js "TR"] el then forallb is_cell children else forallb table_part children
  end.
Definition not_text (n : Node) : bool := match n with TextNode _ => false | _ => true end.
(** A document as the editor writes it: no text outside the blocks, no text
    outside the items of a list or the cells of a table, no table in a table,
    and no formatting of a list, a table or a row as a whole. *)
Definition block_shape (n : Node) : bool :=
  match n with
  | TextNode _ => false
  | OtherNode => true
  | Element el children =>
    if has_class (js "document-page-break") el then match children with [] => negb (has_class (js "ql-formula") el) && negb (is_tag [js "IMG"] el) | _ => false end
    else if is_tag [js "TABLE"] el then groups el && forallb table_part children
    else if is_tag [js "OL"; js "UL"] el then groups el && forallb not_text children
    else true
  end.

Lemma existsb_incl {A} (p : A -> bool) l l' : (forall x, x ∈ l -> x ∈ l') -> existsb p l' = false -> existsb p l = false.
Proof.
  intros Hl Hp. apply not_true_iff_false. rewrite existsb_exists. intros (x & Hx & Ht). apply list_elem_of_In in Hx.
  rewrite <- not_true_iff_false in Hp. apply Hp, existsb_exists. exists x. split; [|done]. apply list_elem_of_In; auto.
Qed.
Lemma groups_format el anc : groups el = true -> formatted (el :: anc) = formatted anc.
Proof.
  unfold groups. rewrite !andb_true_iff, !negb_true_iff. intros [[[[[Ht _] _] Hf] Hs] Hc].
  assert (Hn : forall names, Forall (fun t => t ∈ [js "BR"; js "IMG"; js "STRONG"; js "B"; js "EM"; js "I"; js "U"; js "S"; js "STRIKE"; js "SUB"; js "SUP"]) names -> is_tag names el = false).
  { intros names Hn. unfold is_tag in *. eapply existsb_incl; [|exact Ht]. by apply Forall_forall. }
  unfold formatted. cbn [existsb innermost]. rewrite Hf, Hs. destruct (rgb_hex (colour el)); [done|].
  rewrite !Hn by (apply (bool_decide_unpack _); vm_compute; exact I). done.
Qed.
Lemma groups_pieces el l anc : groups el = true -> pieces anc (Element el l) = flat_map (pieces anc) l.
Proof.
  intros Hg. unfold pieces at 1. cbn [shown].
  assert (Hs : is_tag [js "BR"] el = false /\ has_class (js "ql-formula") el = false /\ is_tag [js "IMG"] el = false).
  { unfold groups in Hg. rewrite !andb_true_iff, !negb_true_iff in Hg. destruct Hg as [[[[[Ht Hc] _] _] _] _].
    split_and!; [|done|]; unfold is_tag in *; (eapply existsb_incl; [|exact Ht]); intros x ->%list_elem_of_singleton; set_solver. }
  destruct Hs as (-> & -> & ->). rewrite pieces_flat. apply flat_map_ext_in, Forall_true. intros n.
  apply pieces_same. by apply groups_format.
Qed.

Lemma paragraph_pieces images s el l i : texts (p_runs (paragraph images s el l i)) = pieces [] (Element el l).
Proof. apply (runs_pieces images (Element el l) []). Qed.
Lemma element_pieces (l : list Node) :
  forallb not_text l = true -> flat_map (fun e => pieces [] (Element (fst e) (snd e))) (elements l) = flat_map (pieces []) l.
Proof.
  induction l as [|n l IH]; [done|]. cbn [forallb]. rewrite andb_true_iff. intros [Hn Hl].
  destruct n; [done|..]; cbn [elements filter_map flat_map fst snd]; unfold elements in IH; by rewrite IH.
Qed.

Definition cells_of (rows : list (list Node)) : list (El * list Node) := flat_map elements rows.
Lemma cells_app r r' : cells_of (r ++ r') = cells_of r ++ cells_of r'.
Proof. apply flat_map_app. Qed.
Lemma cell_rows l : forallb is_cell l = true -> flat_map rows_of l = [] /\ forallb not_text l = true.
Proof.
  induction l as [|n l IH]; [done|]. cbn [forallb flat_map]. rewrite andb_true_iff. intros [Hn [-> ->]%IH].
  destruct n; cbn [is_cell not_text] in *; try done. destruct (rows_of _); done.
Qed.
Lemma table_pieces n : table_part n = true ->
  flat_map (fun e => pieces [] (Element (fst e) (snd e))) (cells_of (rows_of n)) = pieces [] n.
Proof.
  induction n as [t| |el l IH] using node_ind'; [done..|]. cbn [table_part]. rewrite andb_true_iff. intros [Hg Hp].
  rewrite groups_pieces by done. cbn [rows_of]. destruct (is_tag [js "TR"] el).
  - apply cell_rows in Hp as [-> Hn]. cbn [app cells_of flat_map]. rewrite app_nil_r. by apply element_pieces.
  - cbn [app]. apply forallb_Forall in Hp. revert Hp. induction IH as [|n l Hn _ IHl]; intros Hp; [done|].
    apply Forall_cons in Hp as [Hpn Hpl]. cbn [flat_map]. rewrite cells_app, flat_map_app, Hn, IHl by done. done.
Qed.
Lemma flat_map_flat_map {A B C} (f : B -> list C) (g : A -> list B) l : flat_map f (flat_map g l) = flat_map (fun x => flat_map f (g x)) l.
Proof. induction l as [|x l IH]; [done|]. cbn [flat_map]. by rewrite flat_map_app, IH. Qed.
Lemma flat_map_fmap {A B C} (f : B -> list C) (g : A -> B) l : flat_map f (g <$> l) = flat_map (fun x => f (g x)) l.
Proof. induction l as [|x l IH]; [done|]. csimpl. by rewrite IH. Qed.

Lemma table_block images s l : forallb table_part l = true ->
  texts (block_runs (Table ((fun row => (fun cell => paragraph images s (fst cell) (snd cell) 0) <$> elements row) <$> flat_map rows_of l))) =
  flat_map (pieces []) l.
Proof.
  intros Hl. cbn [block_runs]. rewrite flat_map_fmap, texts_flat.
  transitivity (flat_map (fun e => pieces [] (Element (fst e) (snd e))) (cells_of (flat_map rows_of l))).
  - unfold cells_of. generalize (flat_map rows_of l) as rows. intros rows. rewrite flat_map_flat_map.
    apply flat_map_ext_in, Forall_true. intros row.
    rewrite flat_map_fmap, texts_flat. apply flat_map_ext_in, Forall_true. intros c. apply paragraph_pieces.
  - apply forallb_Forall in Hl. induction Hl as [|n l Hn _ IH]; [done|]. cbn [flat_map].
    by rewrite cells_app, flat_map_app, IH, table_pieces.
Qed.
Lemma list_block images s k l : forallb not_text l = true ->
  flat_map (fun b => texts (block_runs b)) ((fun item => Para (paragraph images s (fst item) (snd item) k)) <$> elements l) =
  flat_map (pieces []) l.
Proof.
  intros Hl. rewrite flat_map_fmap, <- element_pieces by done. apply flat_map_ext_in, Forall_true. intros e. apply paragraph_pieces.
Qed.
Lemma blocks_pieces images s k root : forallb block_shape root = true ->
  flat_map (fun b => texts (block_runs b)) (blocks images s k (elements root)) = flat_map (pieces []) root.
Proof.
  revert k. induction root as [|n root IH]; intros k; [done|]. cbn [forallb]. rewrite andb_true_iff. intros [Hn Hr].
  destruct n as [t| |el l]; [done|by apply IH|]. change (elements (Element el l :: root)) with ((el, l) :: elements root).
  cbn [blocks flat_map]. cbn [block_shape] in Hn.
  destruct (has_class (js "document-page-break") el).
  - destruct l; [|done]. apply andb_prop in Hn as [Hf%negb_true_iff Hi%negb_true_iff].
    assert (Hp : pieces [] (Element el []) = []).
    { unfold pieces. cbn [shown]. rewrite Hf, Hi. by destruct (is_tag [js "BR"] el). }
    cbn [flat_map]. by rewrite IH, Hp.
  - destruct (is_tag [js "TABLE"] el).
    + apply andb_prop in Hn as [Hg Hl]. cbn [flat_map]. rewrite table_block, IH by done. by rewrite groups_pieces.
    + destruct (is_tag [js "OL"; js "UL"] el).
      * apply andb_prop in Hn as [Hg Hl]. rewrite flat_map_app, list_block, IH by done. by rewrite groups_pieces.
      * cbn [flat_map block_runs]. by rewrite paragraph_pieces, IH.
Qed.
End WordFacts.
Import WordFacts.

(** C26. The Word copy is complete: of a document as the editor writes it, the
    texts of the exported file are the texts that are shown, in their order,
    none lost and none twice, each with the formatting that the elements around
    it give it, however paragraphs, lists and tables follow and contain each
    other. *)
Theorem word_copy_complete title images root s (Hshape : forallb block_shape root = true) :
  texts (flat_map block_runs (body (word_document title images root s))) = flat_map (pieces []) root.
Proof.
  rewrite <- (blocks_pieces images s 0 root Hshape), texts_flat. cbn [word_document body].
  by destruct (blocks images s 0 (elements root)).
Qed.

Module WordRuns.
Definition el (t c : jstr) : El := mkEl t c [] [] [] [] [] [] [].
Definition red (t : jstr) : El := mkEl t [] [] (js "16px") (js "rgb(255, 0, 10)") [] [] [] [].
Definition document : list Node :=
  [Element (el (js "H1") (js "ql-align-center")) [TextNode (js "Cells")];
   Element (el (js "OL") []) [Element (red (js "LI")) [TextNode (js "one"); Element (el (js "STRONG") []) [TextNode (js "two")]]];
   Element (el (js "HR") (js "document-page-break")) [];
   Element (el (js "TABLE") []) [Element (el (js "TBODY") []) [Element (el (js "TR") []) [Element (el (js "TD") []) [TextNode (js "three")]]]]].
Definition a4 : PageSettings := page_settings DocumentEditor.defaults.
Lemma word_copy_complete_witness :
  let d := word_document (js "Cells") [] document a4 in
  texts (flat_map block_runs (body d)) = flat_map (pieces []) document /\
  snd <$> texts (flat_map block_runs (body d)) = [js "Cells"; js "one"; js "two"; js "three"] /\
  (fun p => (bold (fst p), color (fst p))) <$> texts (flat_map block_runs (body d)) =
    [(false, None); (false, Some (js "ff000a")); (true, Some (js "ff000a")); (false, None)].
Proof.
  intros d. split; [apply (word_copy_complete (js "Cells") [] document a4); vm_compute; reflexivity|].
  vm_compute. split; reflexivity.
Defined.
Example page_of_word_document :
  let d := word_document (js "Cells") [] document a4 in
  (page_width d, page_height d, doc_margin d) = (num 11906, num 16838, num 1134).
Proof. vm_compute. reflexivity. Qed.

(** A title of more than 155 characters loses the extension of the file. *)
Example long_title_loses_extension :
  let saved := download_name (or_document (repeat 97%N 160) ++ js ".docx") in
  saved = repeat 97%N 160 /\ ends_with (js ".docx") saved = false.
Proof. vm_compute. split; reflexivity. Qed.
(** The rows of a table inside a cell are written twice. *)
Example nested_table_twice :
  let inner := Element (el (js "TABLE") []) [Element (el (js "TR") []) [Element (el (js "TD") []) [TextNode (js "x")]]] in
  let root := [Element (el (js "TABLE") []) [Element (el (js "TR") []) [Element (el (js "TD") []) [inner]]]] in
  snd <$> texts (flat_map block_runs (body (word_document [] [] root a4))) = [js "x"; js "x"].
Proof. vm_compute. reflexivity. Qed.
End WordRuns.
