(* ===== verification/DocumentBridge.v ===== *)
(** * From a note to a document ([packages/ui/src/documentBridge.ts])

    What a student hands in is a document of the editor, made of the HTML of a
    note.  Formatting that the documents do not have is refused; the lists of the
    note, one element with a kind at every item, become lists of one kind each.
    The parser of HTML and the one that makes the document are parameters; the
    page between them is the tree of [DocumentFiles]. *)

From S2P Require Import Prelude JsString JsValue DocumentFiles.

Definition EMPTY_DOCUMENT : jsval :=
  VObj [(js "type", VStr (js "doc")); (js "content", VArr [VObj [(js "type", VStr (js "paragraph"))]])].
Definition isProseMirrorDocument (value : jsval) : bool :=
  match value with
  | VObj _ =>
    match get (js "type") value, get (js "content") value with
    | VStr t, VArr _ => seqb t (js "doc")
    | _, _ => false
    end
  | _ => false
  end.

(** ** What is not supported *)

(** An element somewhere below. *)
Fixpoint contains (p : El -> bool) (n : Node) : bool :=
  match n with Element el children => p el || existsb (contains p) children | _ => false end.
Definition unsupported_kinds : list ((El -> bool) * jstr) :=
  [(is_tag [js "H4"; js "H5"; js "H6"], js "heading levels 4–6");
   (is_tag [js "IMG"], js "images");
   (is_tag [js "TABLE"], js "tables");
   (is_tag [js "IFRAME"; js "VIDEO"], js "embedded video");
   (has_class (js "ql-formula"), js "equations");
   (has_class (js "document-page-break"), js "page breaks");
   (fun el => seqb (data_list el) (js "checked") || seqb (data_list el) (js "unchecked"), js "checklists");
   (is_tag [js "SUB"; js "SUP"], js "subscript or superscript");
   (fun el => includes (js "ql-indent-") (className el), js "indented list levels")].
Definition unsupported (body : list Node) : list jstr :=
  map snd (List.filter (fun k => existsb (contains (fst k)) body) unsupported_kinds).

(** ** Lists *)

Definition is_li (n : Node) : bool := match n with Element el _ => is_tag [js "LI"] el | _ => false end.
Definition item_kind (n : Node) : jstr := match n with Element el _ => data_list el | _ => [] end.
Definition nextTag (n : Node) : jstr := if seqb (item_kind n) (js "ordered") then js "OL" else js "UL".
(** An element that was just made, and an item without its kind. *)
Definition createElement (t : jstr) : El := mkEl t [] [] [] [] [] [] [] [].
Definition without_kind (n : Node) : Node :=
  match n with
  | Element el cs =>
    Element (mkEl (tag el) (className el) (fontFamily el) (fontSize el) (colour el) (textAlign el) (data_value el) [] (src el)) cs
  | _ => n
  end.
(** The loop over the items; [lists] are those made so far, with their tags. *)
Definition place_item (lists : list (jstr * list Node)) (item : Node) : list (jstr * list Node) :=
  match rev lists with
  | (t, items) :: before => if seqb t (nextTag item) then rev before ++ [(t, items ++ [without_kind item])] else lists ++ [(nextTag item, [without_kind item])]
  | [] => [(nextTag item, [without_kind item])]
  end.
Definition split_lists (items : list Node) : list (jstr * list Node) := fold_left place_item items [].
Definition list_element (l : jstr * list Node) : Node := Element (createElement (fst l)) (snd l).
(** What an [ol] is replaced by. *)
Definition replacement (el : El) (children : list Node) : list Node :=
  let items := List.filter is_li children in
  if existsb (fun i => truthy (item_kind i)) items then map list_element (split_lists items) else [Element el children].
(** Inner lists come first, as in the reversed order of the document. *)
Fixpoint normalize (n : Node) : list Node :=
  match n with
  | Element el children =>
    let children := flat_map normalize children in
    if is_tag [js "OL"] el then replacement el children else [Element el children]
  | _ => [n]
  end.
Fixpoint without_ui (n : Node) : list Node :=
  match n with
  | Element el children => if has_class (js "ql-ui") el then [] else [Element el (flat_map without_ui children)]
  | _ => [n]
  end.
Definition normalizeQuillLists (body : list Node) : list Node := flat_map without_ui (flat_map normalize body).

(** ** Conversion *)

Definition msg_not_text : jstr := js "The Forge note must be provided as sanitized HTML text.".
Definition msg_unsupported (l : list jstr) : jstr := js "Unsupported Forge formatting: " ++ join (js ", ") l ++ js ".".
Definition msg_shape : jstr := js "TipTap returned an invalid document shape.".
Definition msg_unconverted (m : option jstr) : jstr :=
  js "The Forge note could not be converted to a Cinder document." ++ match m with Some m => js " " ++ m | None => [] end.
Section conversion.
Context (parse : jstr -> list Node) (generateJSON : list Node -> outcome (option jstr) jsval).
Definition convert_body (body : list Node) : outcome (option jstr) jsval :=
  match unsupported body with
  | [] =>
    match generateJSON (normalizeQuillLists body) with
    | Ok converted => if isProseMirrorDocument converted then Ok converted else Throw (Some msg_shape)
    | Throw m => Throw m
    end
  | l => Throw (Some (msg_unsupported l))
  end.
Definition forgeQuillHtmlToDocument (html : jsval) : outcome jstr jsval :=
  match html with
  | VStr html =>
    if negb (truthy (trim html)) then Ok EMPTY_DOCUMENT else
    match convert_body (parse html) with Ok v => Ok v | Throw m => Throw (msg_unconverted m) end
  | _ => Throw msg_not_text
  end.
End conversion.

(** ** Lists split by kind *)

Lemma place_item_snoc (before : list (jstr * list Node)) (t : jstr) (items : list Node) (item : Node) :
  place_item (before ++ [(t, items)]) item =
  if seqb t (nextTag item) then before ++ [(t, items ++ [without_kind item])]
  else before ++ [(t, items); (nextTag item, [without_kind item])].
Proof.
  unfold place_item. rewrite rev_unit, rev_involutive.
  case_match; [done|]. by rewrite <- app_assoc.
Qed.
(** The items with the tag of the list each of them is in. *)
Definition tagged (lists : list (jstr * list Node)) : list (jstr * Node) :=
  flat_map (fun l => map (pair (fst l)) (snd l)) lists.
Lemma tagged_app (l1 l2 : list (jstr * list Node)) : tagged (l1 ++ l2) = tagged l1 ++ tagged l2.
Proof. apply flat_map_app. Qed.
Lemma tagged_place (lists : list (jstr * list Node)) (item : Node) :
  tagged (place_item lists item) = tagged lists ++ [(nextTag item, without_kind item)].
Proof.
  destruct lists as [|[t items] before _] using rev_ind; [done|].
  rewrite place_item_snoc, tagged_app. case_match eqn:E.
  - apply seqb_eq in E as ->. rewrite tagged_app. cbn. rewrite map_app, !app_nil_r, <- app_assoc. done.
  - rewrite tagged_app. cbn. rewrite app_nil_r, <- !app_assoc. done.
Qed.
(** No list is empty, and a list differs in kind from the one before it. *)
Fixpoint alternating (lists : list (jstr * list Node)) : bool :=
  match lists with
  | [] => true
  | (t, items) :: rest =>
    negb (0 =? length items)%nat && match rest with (t', _) :: _ => negb (seqb t t') | [] => true end && alternating rest
  end.
Lemma alternating_grow (before : list (jstr * list Node)) (t : jstr) (items : list Node) (more : list Node) :
  alternating (before ++ [(t, items)]) = true -> alternating (before ++ [(t, items ++ more)]) = true.
Proof.
  induction before as [|[u l] before IH]; cbn [alternating app].
  - rewrite length_app, !andb_true_r, !negb_true_iff, !Nat.eqb_neq. lia.
  - rewrite !andb_true_iff. intros [[Hl Hk] Hr]. split_and!; [done| |by apply IH].
    destruct before as [|[]]; exact Hk.
Qed.
Lemma alternating_snoc (before : list (jstr * list Node)) (t u : jstr) (items : list Node) (x : Node) :
  seqb t u = false -> alternating (before ++ [(t, items)]) = true ->
  alternating (before ++ [(t, items); (u, [x])]) = true.
Proof.
  intros Hd. induction before as [|[v l] before IH]; cbn [alternating app].
  - rewrite Hd, !andb_true_r. done.
  - rewrite !andb_true_iff. intros [[Hl Hk] Hr]. split_and!; [done| |by apply IH].
    destruct before as [|[]]; exact Hk.
Qed.
Lemma alternating_place (lists : list (jstr * list Node)) (item : Node) :
  alternating lists = true -> alternating (place_item lists item) = true.
Proof.
  destruct lists as [|[t items] before _] using rev_ind; [done|]. intros H.
  rewrite place_item_snoc. case_match eqn:E; [by apply alternating_grow|by apply alternating_snoc].
Qed.
Lemma split_lists_snoc (items : list Node) (item : Node) :
  split_lists (items ++ [item]) = place_item (split_lists items) item.
Proof. apply fold_left_app. Qed.
Lemma split_tagged (items : list Node) :
  tagged (split_lists items) = map (fun i => (nextTag i, without_kind i)) items.
Proof.
  induction items as [|item items IH] using rev_ind; [done|].
  by rewrite split_lists_snoc, tagged_place, IH, map_app.
Qed.
(** Every item is in one list, of its own kind, in the order they had; lists side by side differ. *)
Theorem lists_by_kind (items : list Node) :
  tagged (split_lists items) = map (fun i => (nextTag i, without_kind i)) items /\
  alternating (split_lists items) = true.
Proof.
  split; [apply split_tagged|]. induction items as [|item items IH] using rev_ind; [done|].
  rewrite split_lists_snoc. by apply alternating_place.
Qed.

(** ** Normal form *)

Definition has_kinds (children : list Node) : bool :=
  existsb (fun i => truthy (item_kind i)) (List.filter is_li children).
(** No list of the page has a kind at its items. *)
Fixpoint settled (n : Node) : bool :=
  match n with
  | Element el children => negb (is_tag [js "OL"] el && has_kinds children) && forallb settled children
  | _ => true
  end.
Lemma normalize_settled_id (n : Node) : settled n = true -> normalize n = [n].
Proof.
  induction n as [t| |el l IH] using WordFacts.node_ind'; [done..|]. cbn [settled normalize].
  rewrite andb_true_iff, forallb_forall. intros [Hk Hl].
  assert (flat_map normalize l = l) as ->.
  { clear Hk. induction IH as [|n l Hn _ IHl]; [done|]. cbn. rewrite Hn by (apply Hl; by left).
    cbn. rewrite IHl; [done|]. intros x Hx. apply Hl. by right. }
  destruct (is_tag [js "OL"] el); [|done]. cbn in Hk. unfold replacement. fold (has_kinds l).
  by apply negb_true_iff in Hk as ->.
Qed.
Lemma li_not_ol (el : El) : is_tag [js "LI"] el = true -> is_tag [js "OL"] el = false.
Proof.
  unfold is_tag. cbn [existsb]. rewrite !orb_false_r. intros H. apply seqb_eq in H as H'.
  revert H. rewrite H'. intros _. reflexivity.
Qed.
Lemma kind_gone (n : Node) : truthy (item_kind (without_kind n)) = false.
Proof. by destruct n. Qed.
Lemma without_kind_settled (n : Node) : settled n = true -> settled (without_kind n) = true.
Proof. by destruct n. Qed.
Lemma tagged_items (lists : list (jstr * list Node)) : map snd (tagged lists) = flat_map snd lists.
Proof.
  induction lists as [|[t l] lists IH]; [done|]. unfold tagged. cbn [flat_map fst snd].
  rewrite map_app, map_map. cbn [snd]. rewrite map_id. f_equal. exact IH.
Qed.
(** The items of the lists made, one after the other, are those of the list before, without their kinds. *)
Lemma split_items (items : list Node) : flat_map snd (split_lists items) = map without_kind items.
Proof. by rewrite <- tagged_items, (split_tagged items), map_map. Qed.
Lemma in_made_list (items : list Node) (t : jstr) (l : list Node) (x : Node) :
  In (t, l) (split_lists items) -> In x l -> exists i, In i items /\ x = without_kind i.
Proof.
  intros Hl Hx.
  assert (In x (flat_map snd (split_lists items))) as H by (apply in_flat_map; by exists (t, l)).
  rewrite split_items in H. apply in_map_iff in H as (i & <- & Hi). by exists i.
Qed.
Lemma replacement_settled (el : El) (children : list Node) :
  forallb settled children = true -> forallb settled (replacement el children) = true.
Proof.
  intros Hc. unfold replacement. fold (has_kinds children). case_match eqn:E.
  - rewrite forallb_forall in *. intros n Hn. apply in_map_iff in Hn as ([t l] & <- & Hl).
    pose proof (fun x => in_made_list _ _ _ x Hl) as Hin.
    cbn [settled list_element fst snd]. rewrite andb_true_iff, negb_true_iff, forallb_forall. split.
    + apply andb_false_intro2, not_true_iff_false. intros He. apply existsb_exists in He as (x & Hx & Hk).
      apply filter_In in Hx as [Hx _]. destruct (Hin _ Hx) as (i & _ & ->). by rewrite kind_gone in Hk.
    + intros x Hx. destruct (Hin _ Hx) as (i & Hi & ->). apply filter_In in Hi as [Hi _].
      by apply without_kind_settled, Hc.
  - cbn. by rewrite E, andb_false_r, Hc.
Qed.
Lemma normalize_settled (n : Node) : forallb settled (normalize n) = true.
Proof.
  induction n as [t| |el l IH] using WordFacts.node_ind'; [done..|]. cbn [normalize].
  assert (forallb settled (flat_map normalize l) = true) as Hc.
  { induction IH as [|n l Hn _ IHl]; [done|]. cbn. by rewrite forallb_app, Hn, IHl. }
  case_match eqn:Ho; [by apply replacement_settled|]. cbn [forallb settled]. by rewrite Ho, Hc.
Qed.

(** ** The marks the editor draws at items *)

Fixpoint bare (n : Node) : bool :=
  match n with Element el children => negb (has_class (js "ql-ui") el) && forallb bare children | _ => true end.
Lemma without_ui_bare_id (n : Node) : bare n = true -> without_ui n = [n].
Proof.
  induction n as [t| |el l IH] using WordFacts.node_ind'; [done..|]. cbn [bare without_ui].
  rewrite andb_true_iff, forallb_forall. intros [Hk Hl]. apply negb_true_iff in Hk as ->.
  do 2 f_equal. induction IH as [|n l Hn _ IHl]; [done|]. cbn. rewrite Hn by (apply Hl; by left).
  cbn. rewrite IHl; [done|]. intros x Hx. apply Hl. by right.
Qed.
Lemma without_ui_bare (n : Node) : forallb bare (without_ui n) = true.
Proof.
  induction n as [t| |el l IH] using WordFacts.node_ind'; [done..|]. cbn [without_ui].
  case_match eqn:E; [done|]. cbn. rewrite E. cbn. rewrite andb_true_r.
  induction IH as [|n l Hn _ IHl]; [done|]. cbn. by rewrite forallb_app, Hn, IHl.
Qed.
(** A list without kinds has none when elements are taken out of it, or out of its items. *)
Lemma kinds_without_ui (children : list Node) :
  has_kinds children = false -> has_kinds (flat_map without_ui children) = false.
Proof.
  unfold has_kinds. induction children as [|n l IH]; [done|]. cbn [flat_map List.filter].
  destruct n as [t| |el cs]; [exact IH..|]. cbn [without_ui is_li].
  destruct (has_class (js "ql-ui") el); cbn [app]; [|cbn [List.filter is_li]]; case_match; try exact IH;
    cbn [existsb item_kind]; rewrite orb_false_iff; intros [Hk Hr]; [by apply IH|].
  apply orb_false_iff. split; [done|by apply IH].
Qed.
Lemma without_ui_settled (n : Node) : settled n = true -> forallb settled (without_ui n) = true.
Proof.
  induction n as [t| |el l IH] using WordFacts.node_ind'; [done..|]. cbn [settled without_ui].
  rewrite andb_true_iff, negb_true_iff, forallb_forall. intros [Hk Hl]. case_match; [done|].
  cbn [forallb settled]. rewrite andb_true_r. apply andb_true_iff. split.
  - apply negb_true_iff. destruct (is_tag [js "OL"] el); [|done]. by apply kinds_without_ui.
  - clear Hk. induction IH as [|n l Hn _ IHl]; [done|]. cbn.
    rewrite forallb_app, Hn by (apply Hl; by left). apply IHl. intros x Hx. apply Hl. by right.
Qed.
Lemma flat_map_all (f : Node -> list Node) (p : Node -> bool) (l : list Node) :
  (forall n, In n l -> forallb p (f n) = true) -> forallb p (flat_map f l) = true.
Proof.
  induction l as [|n l IH]; intros H; [done|]. cbn. rewrite forallb_app, H by (by left).
  apply IH. intros x Hx. apply H. by right.
Qed.
Lemma flat_map_id (f : Node -> list Node) (p : Node -> bool) (l : list Node) :
  (forall n, p n = true -> f n = [n]) -> forallb p l = true -> flat_map f l = l.
Proof.
  intros Hf. induction l as [|n l IH]; [done|]. cbn. rewrite andb_true_iff. intros [Hn Hl].
  rewrite Hf by done. cbn. by rewrite IH.
Qed.
Theorem lists_normalized (body : list Node) :
  forallb settled (normalizeQuillLists body) = true /\ forallb bare (normalizeQuillLists body) = true /\
  normalizeQuillLists (normalizeQuillLists body) = normalizeQuillLists body.
Proof.
  assert (forallb settled (normalizeQuillLists body) = true) as Hs.
  { apply flat_map_all. intros n Hn. apply without_ui_settled.
    assert (forallb settled (flat_map normalize body) = true) as H.
    { apply flat_map_all. intros m _. apply normalize_settled. }
    rewrite forallb_forall in H. by apply H. }
  assert (forallb bare (normalizeQuillLists body) = true) as Hb.
  { apply flat_map_all. intros n _. apply without_ui_bare. }
  split_and!; [done..|]. unfold normalizeQuillLists at 1.
  rewrite (flat_map_id normalize settled) by (done || apply normalize_settled_id).
  by apply (flat_map_id without_ui bare); [apply without_ui_bare_id|].
Qed.

(** ** Text *)

Definition page_text (l : list Node) : jstr := flat_map textContent l.
(** Every [ol] has items alone, as the editor of notes writes them. *)
Fixpoint items_only (n : Node) : bool :=
  match n with
  | Element el children => (negb (is_tag [js "OL"] el) || forallb is_li children) && forallb items_only children
  | _ => true
  end.
Lemma page_text_app (l1 l2 : list Node) : page_text (l1 ++ l2) = page_text l1 ++ page_text l2.
Proof. apply flat_map_app. Qed.
Lemma made_lists_text (lists : list (jstr * list Node)) :
  page_text (map list_element lists) = page_text (flat_map snd lists).
Proof.
  induction lists as [|[t l] lists IH]; [done|]. cbn [map flat_map]. rewrite page_text_app. cbn. f_equal. exact IH.
Qed.
Lemma without_kind_text (l : list Node) : page_text (map without_kind l) = page_text l.
Proof.
  induction l as [|n l IH]; [done|]. change (textContent (without_kind n) ++ page_text (map without_kind l) = textContent n ++ page_text l).
  rewrite IH. by destruct n.
Qed.
Lemma all_li_filter (l : list Node) : forallb is_li l = true -> List.filter is_li l = l.
Proof. induction l as [|n l IH]; [done|]. cbn. rewrite andb_true_iff. intros [-> Hl]. by rewrite IH. Qed.
Lemma replacement_text (el : El) (children : list Node) :
  forallb is_li children = true -> page_text (replacement el children) = page_text children.
Proof.
  intros H. unfold replacement. case_match; [|cbn; by rewrite app_nil_r].
  by rewrite made_lists_text, split_items, without_kind_text, all_li_filter.
Qed.
Lemma normalize_li (n : Node) : is_li n = true -> forallb is_li (normalize n) = true.
Proof.
  destruct n as [| |el cs]; [done..|]. cbn [is_li normalize]. intros H. rewrite li_not_ol by done. cbn [forallb is_li]. by rewrite H.
Qed.
Lemma normalize_text (n : Node) : items_only n = true -> page_text (normalize n) = textContent n.
Proof.
  induction n as [t| |el l IH] using WordFacts.node_ind'; [by intros; cbn; rewrite ?app_nil_r..|].
  cbn [items_only normalize textContent]. rewrite andb_true_iff, forallb_forall. intros [Ho Hl].
  assert (page_text (flat_map normalize l) = flat_map textContent l) as Ht.
  { clear Ho. induction IH as [|n l Hn _ IHl]; [done|]. cbn [flat_map]. rewrite page_text_app, Hn by (apply Hl; by left).
    f_equal. apply IHl. intros x Hx. apply Hl. by right. }
  destruct (is_tag [js "OL"] el); [|cbn; by rewrite app_nil_r].
  rewrite replacement_text; [done|]. cbn in Ho. rewrite forallb_forall in Ho.
  apply flat_map_all. intros n Hn. by apply normalize_li, Ho.
Qed.
(** A note whose lists hold items alone loses no text when its lists are made over. *)
Theorem list_text_kept (body : list Node) :
  forallb items_only body = true -> page_text (flat_map normalize body) = page_text body.
Proof.
  induction body as [|n l IH]; [done|]. cbn [forallb flat_map]. rewrite andb_true_iff. intros [Hn Hl].
  rewrite page_text_app, normalize_text, IH by done. done.
Qed.

(** ** What a conversion gives *)

Section conversion_facts.
Context (parse : jstr -> list Node) (generateJSON : list Node -> outcome (option jstr) jsval).
(** A document, or a refusal that begins with the same words; what is not supported never becomes one, and is named. *)
Theorem converted_or_refused (html : jstr) :
  let body := parse html in
  match forgeQuillHtmlToDocument parse generateJSON (VStr html) with
  | Ok d => isProseMirrorDocument d = true /\ (truthy (trim html) = true -> unsupported body = [] /\ generateJSON (normalizeQuillLists body) = Ok d)
  | Throw m => truthy (trim html) = true /\
      exists reason, m = msg_unconverted reason /\ (unsupported body <> [] -> reason = Some (msg_unsupported (unsupported body)))
  end.
Proof.
  cbv zeta. unfold forgeQuillHtmlToDocument. destruct (truthy (trim html)); [|done]. cbn [negb].
  unfold convert_body. destruct (unsupported (parse html)) as [|k l] eqn:Eu.
  - destruct (generateJSON _) as [d|m] eqn:E; [|split; [done|]; by exists m].
    destruct (isProseMirrorDocument d) eqn:Ed; [done|]. split; [done|]. by exists (Some msg_shape).
  - split; [done|]. eexists. split; [done|]. done.
Qed.
End conversion_facts.

Module BridgeRuns.
Definition plain (t : jstr) (cs : list Node) : Node := Element (createElement t) cs.
Definition item (kind text : jstr) : Node := Element (mkEl (js "LI") [] [] [] [] [] [] kind []) [TextNode text].
Definition note : list Node :=
  [plain (js "OL") [item (js "bullet") (js "a"); item (js "bullet") (js "b"); item (js "ordered") (js "c"); item (js "bullet") (js "d")]].
Definition entry (text : jstr) : Node := plain (js "LI") [TextNode text].
Example kinds_in_runs :
  normalizeQuillLists note =
  [plain (js "UL") [entry (js "a"); entry (js "b")]; plain (js "OL") [entry (js "c")]; plain (js "UL") [entry (js "d")]].
Proof. vm_compute. reflexivity. Qed.
(** An item without a kind beside one that has one becomes a bullet, not a number. *)
Example kindless_item_is_bullet :
  normalizeQuillLists [plain (js "OL") [item [] (js "a"); item (js "ordered") (js "b")]] =
  [plain (js "UL") [entry (js "a")]; plain (js "OL") [entry (js "b")]].
Proof. vm_compute. reflexivity. Qed.
(** What stands in such a list beside its items is lost, and nothing is said. *)
Example beside_items_lost :
  page_text (normalizeQuillLists [plain (js "OL") [item (js "ordered") (js "a"); plain (js "OL") [item [] (js "b")]]]) = js "a".
Proof. vm_compute. reflexivity. Qed.
Lemma list_text_kept_witness :
  forallb items_only note = true /\ page_text (flat_map normalize note) = js "abcd".
Proof. split; [reflexivity|]. rewrite (list_text_kept note); reflexivity. Defined.
Definition make (body : list Node) : outcome (option jstr) jsval := Ok (VObj [(js "type", VStr (js "doc")); (js "content", VArr [])]).
Example refused_names_all :
  forgeQuillHtmlToDocument (fun _ => [plain (js "TABLE") []; plain (js "P") [plain (js "IMG") []]]) make (VStr (js "x")) =
  Throw (js "The Forge note could not be converted to a Cinder document. Unsupported Forge formatting: images, tables.").
Proof. vm_compute. reflexivity. Qed.
End BridgeRuns.
