(* ===== verification/Updater.v ===== *)
(** * Updates of an app ([packages/ui/src/updater.tsx])

    The card that looks for a newer release and installs it.  Its two handlers
    wait for the native updater; what is waited for is part of the state and the
    answers are events.  [asked] counts the requests to the updater of the check
    under way, for the theorems alone. *)

From Stdlib Require Import QArith Qminmax Lqa.
From S2P Require Import Prelude JsString.
Local Open Scope Z_scope.

(** What a promise of the native code is rejected with. *)
Inductive Failure := AnError (message : jstr) | AString (text : jstr) | Another.
(** What a handler waits for. *)
Inductive Work :=
  | Idle
  | Versioning
  | Checking (attempt : nat)
  | Delayed
  | Installing (received total : Z)
  | Relaunching.
Record Card := mkCard {
  currentVersion : jstr; available : option jstr; status : jstr; busy : bool; progress : option Q;
  work : Work; asked : nat
}.

Definition msg_checking : jstr := js "Checking for updates…".
Definition msg_not_installed : jstr := js "Update checks are available in the installed app.".
Definition msg_releases : jstr := js "Checking GitHub Releases…".
Definition msg_none : jstr := js "No newer signed release was found.".
Definition msg_ready (appName version : jstr) : jstr := appName ++ js " " ++ version ++ js " is ready to install.".
Definition detail (f : Failure) : jstr :=
  match f with AnError m => m | AString t => t | Another => js "GitHub Releases did not return a readable response." end.
Definition msg_failed (f : Failure) : jstr :=
  js "Update check failed: " ++ detail f ++ js " Retry, or use Manual downloads below.".
Definition msg_downloading : jstr := js "Downloading the signed update…".
Definition msg_installed : jstr := js "Update installed. Restarting Cinder…".
Definition msg_uninstalled (f : Failure) : jstr :=
  match f with
  | AnError m => m ++ js " You can install the latest package manually below."
  | _ => js "The update could not be installed. Use the manual download below."
  end.

(** ** The handlers, from one wait to the next *)

Definition waits (k : Work) (c : Card) : Card :=
  mkCard (currentVersion c) (available c) (status c) (busy c) (progress c) k (asked c).
Definition says (m : jstr) (b : bool) (k : Work) (c : Card) : Card :=
  mkCard (currentVersion c) (available c) m b (progress c) k (asked c).
Definition ask (attempt : nat) (c : Card) : Card :=
  mkCard (currentVersion c) (available c) (status c) (busy c) (progress c) (Checking attempt) (S (asked c)).
Definition checkForUpdates (isTauri : bool) (c : Card) : Card :=
  if isTauri then mkCard (currentVersion c) (available c) msg_releases true None Versioning 0
  else says msg_not_installed (busy c) (work c) c.
Definition versioned (r : outcome Failure jstr) (c : Card) : Card :=
  match r with
  | Ok v => ask 0 (mkCard v (available c) (status c) (busy c) (progress c) (work c) (asked c))
  | Throw f => says (msg_failed f) false Idle c
  end.
(** The loop of [checkWithRetry], two attempts with a second between them. *)
Definition checked (appName : jstr) (attempt : nat) (r : outcome Failure (option jstr)) (c : Card) : Card :=
  match r with
  | Ok next =>
    mkCard (currentVersion c) next (match next with Some v => msg_ready appName v | None => msg_none end) false (progress c) Idle (asked c)
  | Throw f => if Nat.eqb attempt 0 then waits Delayed c else says (msg_failed f) false Idle c
  end.
Definition install (c : Card) : Card :=
  match available c with None => c | Some _ => says msg_downloading true (Installing 0 0) c end.
Inductive Download := Started (contentLength : option Z) | Progress (chunkLength : Z) | Finished.
Definition set_progress (p : option Q) (k : Work) (c : Card) : Card :=
  mkCard (currentVersion c) (available c) (status c) (busy c) p k (asked c).
(** [Math.min(100, (received / total) * 100)] *)
Definition part (received total : Z) : Q := Qmin 100 (inject_Z received / inject_Z total * 100).
Definition downloaded (received total : Z) (e : Download) (c : Card) : Card :=
  match e with
  | Started n => waits (Installing 0 (default 0 n)) c
  | Progress n =>
    let received := received + n in
    set_progress (if total =? 0 then None else Some (part received total)) (Installing received total) c
  | Finished => set_progress (Some 100%Q) (Installing received total) c
  end.
Definition installed (r : outcome Failure unit) (c : Card) : Card :=
  match r with Ok _ => says msg_installed (busy c) Relaunching c | Throw f => says (msg_uninstalled f) false Idle c end.
Definition relaunched (r : outcome Failure unit) (c : Card) : Card :=
  match r with Ok _ => waits Idle c | Throw f => says (msg_uninstalled f) false Idle c end.

(** ** The card *)

Inductive Event :=
  | Check | Install
  | Versioned (r : outcome Failure jstr) | Checked (r : outcome Failure (option jstr)) | Waited
  | Downloaded (e : Download) | Installed (r : outcome Failure unit) | Relaunched (r : outcome Failure unit).
(** One button is there, for the update that is known or for another check. *)
Definition step (isTauri : bool) (appName : jstr) (e : Event) (c : Card) : Card :=
  match e, work c with
  | Check, _ => match available c with None => if busy c then c else checkForUpdates isTauri c | Some _ => c end
  | Install, _ => if busy c then c else install c
  | Versioned r, Versioning => versioned r c
  | Checked r, Checking attempt => checked appName attempt r c
  | Waited, Delayed => ask 1 c
  | Downloaded e, Installing received total => downloaded received total e c
  | Installed r, Installing _ _ => installed r c
  | Relaunched r, Relaunching => relaunched r c
  | _, _ => c
  end.
(** The card looks for an update when it is first shown. *)
Definition mounted (isTauri : bool) : Card := checkForUpdates isTauri (mkCard [] None msg_checking false None Idle 0).
Definition run (isTauri : bool) (appName : jstr) (es : list Event) (c : Card) : Card :=
  fold_left (fun c e => step isTauri appName e c) es c.

(** ** Properties *)

(** Lengths are what the updater counts, so they are not negative. *)
Definition counted (e : Event) : bool :=
  match e with
  | Downloaded (Started (Some n)) | Downloaded (Progress n) => 0 <=? n
  | _ => true
  end.
Definition within (p : option Q) : Prop := match p with Some p => (0 <= p <= 100)%Q | None => True end.
Definition work_ok (c : Card) : Prop :=
  match work c with
  | Idle => True
  | Versioning => busy c = true /\ asked c = 0%nat
  | Checking k => busy c = true /\ asked c = S k /\ (k <= 1)%nat
  | Delayed => busy c = true /\ asked c = 1%nat
  | Installing r t => busy c = true /\ 0 <= r /\ 0 <= t /\ available c <> None
  | Relaunching => busy c = true /\ available c <> None
  end.
Record Good (c : Card) : Prop := { g_work : work_ok c; g_progress : within (progress c); g_asked : (asked c <= 2)%nat }.

Lemma part_within r t : 0 <= r -> 0 < t -> (0 <= part r t <= 100)%Q.
Proof.
  intros Hr Ht. unfold part. split; [|apply Q.le_min_l]. apply Q.min_glb; [discriminate|].
  apply Qmult_le_0_compat; [|discriminate]. unfold Qdiv. apply Qmult_le_0_compat.
  - change 0%Q with (inject_Z 0). by rewrite <- Zle_Qle.
  - apply Qinv_le_0_compat. change 0%Q with (inject_Z 0). rewrite <- Zle_Qle. lia.
Qed.
Lemma good_check isTauri c : Good c -> Good (checkForUpdates isTauri c).
Proof. intros [Hw Hp Ha]. destruct isTauri; split; cbn; try done; lia. Qed.
Lemma good_says m b k c : Good c -> k = Idle \/ (k = work c /\ b = busy c) -> Good (says m b k c).
Proof. intros [Hw Hp Ha] [->|[-> ->]]; by split. Qed.
Lemma good_downloaded r t e c : work c = Installing r t -> counted (Downloaded e) = true -> Good c -> Good (downloaded r t e c).
Proof.
  intros Ew Hn [Hw Hp Ha]. unfold work_ok in Hw. rewrite Ew in Hw. destruct Hw as (Hb & Hr & Ht & Hv).
  destruct e as [n|n|]; cbn in Hn; split; try done; cbn.
  - split_and!; [done|lia|destruct n; cbn; lia|done].
  - split_and!; [done|lia|done..].
  - destruct (Z.eqb_spec t 0); [done|]. apply part_within; lia.
Qed.
Lemma card_step isTauri appName e c : counted e = true -> Good c -> Good (step isTauri appName e c).
Proof.
  intros He Hc. destruct e as [| |r|r| |e|r|r]; cbn [step].
  - destruct (available c), (busy c); try done. by apply good_check.
  - destruct (busy c); [done|]. unfold install. destruct (available c) eqn:Ev; [|done]. destruct Hc. split; try done. cbn.
    by rewrite Ev.
  - destruct (work c) eqn:Ew; try done. destruct Hc as [Hw Hp Ha]. unfold work_ok in Hw. rewrite Ew in Hw.
    destruct Hw as [Hb Hk]. destruct r; [|by apply good_says; [split; [unfold work_ok; rewrite Ew| |]|left]].
    split; cbn; rewrite ?Hk; try done; lia.
  - destruct (work c) eqn:Ew; try done. destruct Hc as [Hw Hp Ha]. unfold work_ok in Hw. rewrite Ew in Hw.
    destruct Hw as (Hb & Hk & Hl). destruct r as [next|f]; [by split|]. cbn. destruct (Nat.eqb_spec attempt 0) as [->|]; by split.
  - destruct (work c) eqn:Ew; try done. destruct Hc as [Hw Hp Ha]. unfold work_ok in Hw. rewrite Ew in Hw.
    destruct Hw as (Hb & Hk). split; cbn; rewrite ?Hk; try done; lia.
  - destruct (work c) as [| | | |r t|] eqn:Ew; try done. by apply good_downloaded.
  - destruct (work c) eqn:Ew; try done. destruct Hc as [Hw Hp Ha]. unfold work_ok in Hw. rewrite Ew in Hw.
    destruct Hw as (Hb & _ & _ & Hv). destruct r; by split.
  - destruct (work c) eqn:Ew; try done. destruct Hc as [Hw Hp Ha]. destruct r; by split.
Qed.
Lemma good_run isTauri appName es c : forallb counted es = true -> Good c -> Good (run isTauri appName es c).
Proof.
  revert c. induction es as [|e es IH]; intros c He Hc; [done|]. cbn in He. apply andb_true_iff in He as [He Hes].
  apply IH; [done|]. by apply card_step.
Qed.
(** Whatever is pressed and answered, the bar is between nothing and a hundred,
    a check asks the updater at most twice, an update is only installed after
    one was found, and while anything is waited for the buttons are off. *)
Theorem updater_wellformed isTauri appName es (He : forallb counted es = true) :
  let c := run isTauri appName es (mounted isTauri) in
  within (progress c) /\ (asked c <= 2)%nat /\ (work c <> Idle -> busy c = true) /\
  (forall r t, work c = Installing r t -> available c <> None).
Proof.
  cbv zeta. assert (Good (mounted isTauri)) as H0 by (apply good_check; split; [done..|]; cbn; lia).
  destruct (good_run isTauri appName es _ He H0) as [Hw Hp Ha]. split_and!; [done..| |].
  - unfold work_ok in Hw. intros Hn. destruct (work _); by try apply Hw.
  - unfold work_ok in Hw. intros r t E. rewrite E in Hw. apply Hw.
Qed.

(** A check from the press to its end: what the version, the first and the
    second answer are decides what is said, what is on offer and how often the
    updater was asked. *)
Definition check_answers (v : outcome Failure jstr) (first second : outcome Failure (option jstr)) : list Event :=
  [Check; Versioned v; Checked first; Waited; Checked second].
Theorem check_outcome appName c v first second (Hi : work c = Idle) (Hb : busy c = false) (Ha : available c = None) :
  run true appName (check_answers v first second) c =
  match v with
  | Throw f => mkCard (currentVersion c) None (msg_failed f) false None Idle 0
  | Ok v =>
    match first, second with
    | Ok (Some u), _ => mkCard v (Some u) (msg_ready appName u) false None Idle 1
    | Ok None, _ => mkCard v None msg_none false None Idle 1
    | Throw _, Ok (Some u) => mkCard v (Some u) (msg_ready appName u) false None Idle 2
    | Throw _, Ok None => mkCard v None msg_none false None Idle 2
    | Throw _, Throw f => mkCard v None (msg_failed f) false None Idle 2
    end
  end.
Proof.
  unfold run, check_answers. cbn [fold_left step]. rewrite Ha, Hb.
  destruct v as [v|f]; [|cbn; by rewrite Ha]. destruct first as [[u|]|f]; [done..|]. destruct second as [[u|]|f']; try done.
  cbn. by rewrite Ha.
Qed.

Module UpdaterRuns.
Definition app : jstr := js "Matchbox".
Definition found : Card := run true app [Versioned (Ok (js "1.0")); Checked (Ok (Some (js "1.1")))] (mounted true).
Lemma updater_wellformed_witness :
  progress (run true app [Install; Downloaded (Started (Some 200)); Downloaded (Progress 50)] found) = Some (part 50 200) /\
  within (progress (run true app [Versioned (Ok (js "1.0")); Checked (Ok (Some (js "1.1"))); Install; Downloaded (Started (Some 200)); Downloaded (Progress 50)] (mounted true))).
Proof.
  split; [reflexivity|].
  exact (proj1 (updater_wellformed true app [Versioned (Ok (js "1.0")); Checked (Ok (Some (js "1.1"))); Install; Downloaded (Started (Some 200)); Downloaded (Progress 50)] eq_refl)).
Defined.
Lemma check_outcome_witness :
  run true app (check_answers (Ok (js "1.0")) (Throw Another) (Ok None)) (mkCard [] None [] false None Idle 0) =
  mkCard (js "1.0") None msg_none false None Idle 2.
Proof. apply (check_outcome app (mkCard [] None [] false None Idle 0) (Ok (js "1.0")) (Throw Another) (Ok None)); reflexivity. Defined.
(** The updater rejects with a text; the check shows it, the installation does not. *)
Example install_text_dropped :
  status (run true app [Install; Installed (Throw (AString (js "bad signature")))] found) =
    js "The update could not be installed. Use the manual download below." /\
  status (run true app [Versioned (Throw (AString (js "bad signature")))] (mounted true)) =
    js "Update check failed: bad signature Retry, or use Manual downloads below.".
Proof. split; vm_compute; reflexivity. Qed.
(** The bar of a download that failed stays, and is there when the next one begins. *)
Example failed_progress_stays :
  let es := [Install; Downloaded (Started (Some 200)); Downloaded (Progress 100); Installed (Throw Another); Install] in
  work (run true app es found) = Installing 0 0 /\ progress (run true app es found) = Some (part 100 200) /\ (part 100 200 == 50)%Q.
Proof. vm_compute. done. Qed.
End UpdaterRuns.
