(* ===== verification/StudentLibrary.v ===== *)
(** * The library of the student app and its files ([apps/forge/src/App.tsx],
    [theme.tsx], [studio/PdfPane.tsx])

    Reference files are listed in the workspace and stored in IndexedDB under a
    key of the account; [Shelf] is both, with the messages of the page and the
    pane a file is read in.  Adding, removing, opening and clearing are scripts
    that interleave; a transaction takes effect when it is answered.  [uuid] and
    [time] are the identifiers and times the app makes, in their order.  The PDF
    reader answers with a number of pages, a request for a password or a
    failure; the drawing of pages is not modelled. *)

From stdpp Require Import gmap.
From S2P Require Import Prelude Script JsString JsNumber JsValue Locale Workspace.
Local Open Scope Z_scope.
Local Open Scope script_scope.

Definition Blob : Type := list N.
Record PickedFile := mkPicked { pf_name : jstr; pf_type : jstr; pf_size : Z; pf_data : Blob }.

(** [transaction.error]: there is no space left, or another. *)
Inductive StoreError := Quota | OtherError.
Inductive Pdf := PdfPages (n : Z) | PdfPassword | PdfBad.

(** ** The store of theme.tsx *)

Definition LEGACY_BACKGROUND_IMAGE_KEY : jstr := js "custom-background".
Definition pdfAssetKey (accountId fileId : jstr) : jstr := js "account:" ++ accountId ++ js ":pdf:" ++ fileId.
Definition legacy_key (fileId : jstr) : jstr := js "pdf:" ++ fileId.
Definition under (prefixes : list jstr) (key : jstr) : bool := existsb (fun p => starts_with p key) prefixes.
Definition clear_prefixes (accountId : jstr) : list jstr := [js "account:" ++ accountId ++ js ":"; js "pdf:"].
Definition without_prefixes (prefixes : list jstr) (m : gmap jstr Blob) : gmap jstr Blob :=
  match prefixes with [] => m | _ => filter (fun p => negb (under prefixes (fst p)) = true) m end.

(** ** Sizes *)

Definition MAX_REFERENCE_BYTES : Z := 75 * 1024 * 1024.
Definition MB : Z := 1024 * 1024.
(** [x.toFixed(1)] of [bytes / MB], which a double holds exactly. *)
Definition tenths (bytes : Z) : Z := (20 * bytes + MB) / (2 * MB).
Definition formatBytes (bytes : Z) : jstr :=
  if MB <=? bytes then show_Z (tenths bytes / 10) ++ js "." ++ show_Z (tenths bytes mod 10) ++ js " MB"
  else show_Z (Z.max 1 ((2 * bytes + 1024) / 2048)) ++ js " KB".

(** ** State and requests *)

Inductive View := Opening | Shown (pages : Z) | Failed (text : jstr).
Record Pane := mkPane { pane_file : jstr; view : View }.
(** [pane_no] tells apart the panes opened one after the other: what was begun
    for an earlier one finds it is no longer alive. *)
Record Shelf := mkShelf {
  forge : Workspace; assets : gmap jstr Blob; toast : jstr; message : jstr; adding : bool;
  made : nat; pane : option Pane; pane_no : nat
}.
Inductive Query :=
  | ReadHead (f : PickedFile)
  | PutAsset (key : jstr) (b : Blob)
  | DropAsset (key : jstr)
  | ClearAssets (prefixes : list jstr)
  | GetAsset (key : jstr)
  | OpenPdf (b : Blob).
(** The beginning of a file is answered as the text it decodes to. *)
Definition answer (q : Query) : Type :=
  match q with
  | ReadHead _ => outcome StoreError jstr
  | OpenPdf _ => Pdf
  | _ => outcome StoreError unit
  end.

Section library.
Context (accountId : jstr) (uuid time : nat -> jstr).
Local Abbreviation Script := (Script Shelf answer).

Definition with_forge (d : Workspace) (w : Shelf) : Shelf :=
  mkShelf d (assets w) (toast w) (message w) (adding w) (made w) (pane w) (pane_no w).
Definition with_assets (m : gmap jstr Blob) (w : Shelf) : Shelf :=
  mkShelf (forge w) m (toast w) (message w) (adding w) (made w) (pane w) (pane_no w).
Definition set_toast (t : jstr) (w : Shelf) : Shelf :=
  mkShelf (forge w) (assets w) t (message w) (adding w) (made w) (pane w) (pane_no w).
Definition set_message (t : jstr) (w : Shelf) : Shelf :=
  mkShelf (forge w) (assets w) (toast w) t (adding w) (made w) (pane w) (pane_no w).
Definition set_adding (b : bool) (w : Shelf) : Shelf :=
  mkShelf (forge w) (assets w) (toast w) (message w) b (made w) (pane w) (pane_no w).
Definition making (n : nat) (w : Shelf) : Shelf :=
  mkShelf (forge w) (assets w) (toast w) (message w) (adding w) (made w + n)%nat (pane w) (pane_no w).
Definition with_pane (p : option Pane) (n : nat) (w : Shelf) : Shelf :=
  mkShelf (forge w) (assets w) (toast w) (message w) (adding w) (made w) p n.
Definition on_data (f : ForgeData -> ForgeData) (w : Shelf) : Shelf :=
  with_forge (mkWorkspace (f (data (forge w))) (readError (forge w)) (saveError (forge w)) (storage (forge w))) w.

(** ** Adding and removing *)

(** [writeAsset] with a blob; what it wrote is there when it returns. *)
Definition writeAsset (key : jstr) (b : Blob) : Script (outcome StoreError unit) :=
  r <- Script.ask (PutAsset key b);;
  match r with
  | Ok _ => Do (fun w => with_assets (<[key := b]> (assets w)) w) (Ret (Ok tt))
  | Throw x => Ret (Throw x)
  end.
Definition addReferenceFile (f : PickedFile) : Script (outcome StoreError unit) :=
  w <- Script.get;;
  let id := uuid (made w) in
  Do (making 1)
    (r <- writeAsset (pdfAssetKey accountId id) (pf_data f);;
     match r with
     | Throw x => Ret (Throw x)
     | Ok _ =>
       Do (fun w => set_toast (js "Reference file added")
             (making 1 (on_data (Workspace.addReferenceFile (uuid (made w)) (time (made w)) id (pf_name f) (pf_size f)) w)))
         (Ret (Ok tt))
     end).
Definition removeReferenceFile (id : jstr) : Script unit :=
  r <- Script.ask (DropAsset (pdfAssetKey accountId id));;
  match r with
  | Ok _ => Script.update (fun w => on_data (Workspace.removeReferenceFile id) (with_assets (delete (pdfAssetKey accountId id) (assets w)) w))
  | Throw _ => Script.update (set_toast (js "That file could not be removed"))
  end.

Definition named (name rest : jstr) : jstr := js "“" ++ name ++ js "”" ++ rest.
Definition is_pdf_file (f : PickedFile) : bool :=
  seqb (pf_type f) (js "application/pdf") || ends_with (js ".pdf") (ascii_lower <$> pf_name f).
Definition msg_not_pdf (f : PickedFile) : jstr := named (pf_name f) (js " is not a PDF.").
Definition msg_too_large (f : PickedFile) : jstr := named (pf_name f) (js " is larger than " ++ formatBytes MAX_REFERENCE_BYTES ++ js ".").
Definition msg_no_signature (f : PickedFile) : jstr := named (pf_name f) (js " does not contain a PDF document.").
Definition failure_message (f : PickedFile) (x : StoreError) : jstr :=
  match x with
  | Quota => js "There is not enough space on this device for that file."
  | OtherError => named (pf_name f) (js " could not be saved.")
  end.
Definition accept_file (f : PickedFile) : Script unit :=
  if negb (is_pdf_file f) then Script.update (set_message (msg_not_pdf f))
  else if MAX_REFERENCE_BYTES <? pf_size f then Script.update (set_message (msg_too_large f))
  else
    r <- Script.ask (ReadHead f);;
    match r with
    | Throw x => Script.update (set_message (failure_message f x))
    | Ok signature =>
      if negb (includes (js "%PDF-") signature) then Script.update (set_message (msg_no_signature f))
      else
        r <- addReferenceFile f;;
        match r with
        | Throw x => Script.update (set_message (failure_message f x))
        | Ok _ => Ret tt
        end
    end.
Fixpoint accept_each (fs : list PickedFile) : Script unit :=
  match fs with
  | [] => Script.update (set_adding false)
  | f :: fs => accept_file f;; accept_each fs
  end.
Definition accept (fs : list PickedFile) : Script unit :=
  match fs with [] => Ret tt | _ => Do (fun w => set_message [] (set_adding true w)) (accept_each fs) end.

(** ** Clearing everything *)

Definition msg_files_kept : jstr := js "Local files could not be cleared".
(** [opens] and [works]: [localStorage] can be listed, and written. *)
Definition reset (opens works : bool) (w : Shelf) : Shelf :=
  let '(done, d) := resetWorkspace accountId opens works (forge w) in
  set_toast (if done then js "Workspace cleared" else js "Workspace could not be completely cleared") (with_forge d w).
Definition clearWorkspace (opens works : bool) : Script unit :=
  r <- Script.ask (ClearAssets (clear_prefixes accountId));;
  match r with
  | Throw _ => Script.update (set_toast msg_files_kept)
  | Ok _ =>
    Do (fun w => with_assets (without_prefixes (clear_prefixes accountId) (assets w)) w)
      (r <- Script.ask (DropAsset LEGACY_BACKGROUND_IMAGE_KEY);;
       match r with
       | Throw _ => Script.update (set_toast msg_files_kept)
       | Ok _ => Script.update (fun w => reset opens works (with_assets (delete LEGACY_BACKGROUND_IMAGE_KEY (assets w)) w))
       end)
  end.

(** ** Reading a file beside a note *)

Definition msg_pdf_failed : jstr := js "That reference file could not be opened. Try another PDF.".
Definition msg_pdf_password : jstr := js "This PDF is password-protected. Add an unlocked copy to read it here.".
Definition pane_alive (n : nat) (w : Shelf) : bool :=
  match pane w with Some _ => Nat.eqb (pane_no w) n | None => false end.
Definition pane_shows (n : nat) (v : View) (w : Shelf) : Shelf :=
  match pane w with
  | Some p => if Nat.eqb (pane_no w) n then with_pane (Some (mkPane (pane_file p) v)) n w else w
  | None => w
  end.
(** [readAsset]: what is stored when it is answered. *)
Definition readAsset (key : jstr) : Script (outcome StoreError (option Blob)) :=
  r <- Script.ask (GetAsset key);;
  w <- Script.get;;
  Ret (match r with Ok _ => Ok (assets w !! key) | Throw x => Throw x end).
Definition load_pdf (n : nat) (b : Blob) : Script unit :=
  w <- Script.get;;
  if negb (pane_alive n w) then Ret tt
  else
    r <- Script.ask (OpenPdf b);;
    Script.update (pane_shows n (match r with PdfPages k => Shown k | PdfPassword => Failed msg_pdf_password | PdfBad => Failed msg_pdf_failed end)).
Definition openReference (fileId : jstr) : Script unit :=
  Do (fun w => with_pane (Some (mkPane fileId Opening)) (S (pane_no w)) w)
    (w <- Script.get;;
     let n := pane_no w in
     let key := pdfAssetKey accountId fileId in
     let failed := Script.update (pane_shows n (Failed msg_pdf_failed)) in
     r <- readAsset key;;
     match r with
     | Throw _ => failed
     | Ok (Some b) => load_pdf n b
     | Ok None =>
       r <- readAsset (legacy_key fileId);;
       match r with
       | Ok (Some b) =>
         r <- writeAsset key b;;
         match r with Ok _ => load_pdf n b | Throw _ => failed end
       | _ => failed
       end
     end).
Definition closeReference (w : Shelf) : Shelf := with_pane None (pane_no w) w.

(** ** What happens to the library *)

Inductive Event :=
  | Chosen (fs : list PickedFile) | Removed (id : jstr) | Referenced (id : jstr) | Closed
  | Cleared (opens works : bool) | Answered (i : nat) (o : forall q, answer q).
Definition step (ev : Event) (y : System Shelf answer) : System Shelf answer :=
  match ev with
  | Chosen fs => start (accept fs) y
  | Removed id => start (removeReferenceFile id) y
  | Referenced id => start (openReference id) y
  | Closed => start (Script.update closeReference) y
  | Cleared opens works => start (clearWorkspace opens works) y
  | Answered i o => resume i o y
  end.
Definition run (es : list Event) (y : System Shelf answer) : System Shelf answer := fold_left (fun y ev => step ev y) es y.

End library.

(** ** Zoom of the pane *)

(** In quarters. *)
Definition ZOOM_LEVELS : list Z := [2; 3; 4; 5; 6; 7; 8; 10; 12].
Definition stepZoom (direction zoom : Z) : Z :=
  let index := find_index_Z (Z.eqb zoom) ZOOM_LEVELS in
  let next := Z.max 0 (Z.min (Z.of_nat (length ZOOM_LEVELS) - 1) (index + direction)) in
  nth (Z.to_nat next) ZOOM_LEVELS zoom.

(** ** Properties *)

Module LibraryFacts.
Section facts.
Context (accountId : jstr) (uuid time : nat -> jstr).
Local Abbreviation key := (pdfAssetKey accountId).

Definition listed (id : jstr) (w : Shelf) : bool := existsb (has_id id) (files (data (forge w))).
(** Every file that is listed is stored, and every file of the account that is
    stored is listed; where a file [L id] from before there were accounts is
    left, it may stand for the listed one and may be copied to the account
    although it is listed no more. *)
Record matched (L : jstr -> option Blob) (w : Shelf) : Prop := {
  ma_listed : forall id, listed id w = true -> is_Some (assets w !! key id) \/ is_Some (L id);
  ma_stored : forall id, is_Some (assets w !! key id) -> listed id w = true \/ is_Some (L id);
  ma_legacy : forall id, assets w !! legacy_key id = L id
}.
Section legacy.
Context (L : jstr -> option Blob).
Local Abbreviation matched := (matched L).

Lemma key_inj id id' : key id = key id' -> id = id'.
Proof. unfold pdfAssetKey. intros Hk. by do 3 apply app_inv_head in Hk. Qed.
Lemma key_legacy id id' : key id <> legacy_key id'.
Proof. unfold pdfAssetKey, legacy_key. vm_compute (js "account:"). vm_compute (js "pdf:"). done. Qed.
Lemma has_id_str id i ps : has_id id (VObj ((js "id", VStr i) :: ps)) = seqb i id.
Proof. done. Qed.
Lemma has_id_same id id' v : has_id id v = true -> has_id id' v = true -> id = id'.
Proof.
  unfold has_id. destruct (id_of v) as [i|]; [|done]. by intros <-%seqb_eq <-%seqb_eq.
Qed.

Lemma matched_same w w' : assets w' = assets w -> data (forge w') = data (forge w) -> matched w -> matched w'.
Proof.
  intros Ha Hd [H1 H2 H3]. split; intros id; unfold listed; rewrite Ha, ?Hd; [apply H1|apply H2|apply H3].
Qed.

Lemma matched_put w id b act now name size :
  matched w ->
  matched (on_data (Workspace.addReferenceFile act now id name size) (with_assets (<[key id := b]> (assets w)) w)).
Proof.
  intros [H1 H2 H3].
  assert (El : forall i, listed i (on_data (Workspace.addReferenceFile act now id name size) (with_assets (<[key id := b]> (assets w)) w))
                = seqb id i || listed i w) by (intros i; unfold listed; cbn; by rewrite has_id_str).
  split; intros i; rewrite ?El; cbn [assets on_data with_forge with_assets].
  - destruct (seqb id i) eqn:E; [apply seqb_eq in E as ->; rewrite lookup_insert_eq; by left; eexists|].
    rewrite lookup_insert_ne; [apply H1|]. intros Hk%key_inj. subst. by rewrite seqb_refl in E.
  - destruct (seqb id i) eqn:E; [by left|]. rewrite lookup_insert_ne; [apply H2|].
    intros Hk%key_inj. subst. by rewrite seqb_refl in E.
  - rewrite lookup_insert_ne; [apply H3|apply key_legacy].
Qed.
Lemma matched_copy w id b : is_Some (L id) -> matched w -> matched (with_assets (<[key id := b]> (assets w)) w).
Proof.
  intros Hl [H1 H2 H3]. split; intros i; cbn [assets with_assets].
  - intros Hi. destruct (decide (id = i)) as [->|Hne]; [by right|]. rewrite lookup_insert_ne by (by intros ?%key_inj). by apply H1.
  - destruct (decide (id = i)) as [->|Hne]; [by right|]. rewrite lookup_insert_ne by (by intros ?%key_inj). apply H2.
  - rewrite lookup_insert_ne; [apply H3|apply key_legacy].
Qed.
Lemma matched_drop w id :
  matched w -> matched (on_data (Workspace.removeReferenceFile id) (with_assets (delete (key id) (assets w)) w)).
Proof.
  intros [H1 H2 H3].
  assert (El : forall i, listed i (on_data (Workspace.removeReferenceFile id) (with_assets (delete (key id) (assets w)) w))
                = listed i w && negb (seqb id i)).
  { intros i. unfold listed. cbn [on_data with_forge with_assets forge data Workspace.removeReferenceFile files].
    induction (files (data (forge w))) as [|f l IH]; [done|]. cbn [List.filter existsb].
    destruct (has_id id f) eqn:Ef; cbn [negb existsb]; rewrite IH; destruct (has_id i f) eqn:Ei; cbn [orb andb]; try done.
    - assert (id = i) as -> by (by eapply has_id_same). by rewrite seqb_refl, !andb_false_r.
    - destruct (seqb id i) eqn:E; [|done]. apply seqb_eq in E as ->. congruence. }
  split; intros i; rewrite ?El; cbn [assets on_data with_forge with_assets].
  - rewrite andb_true_iff, negb_true_iff, seqb_neq. intros [Hi Hne]. rewrite lookup_delete_ne by (by intros ?%key_inj). by apply H1.
  - destruct (decide (id = i)) as [->|Hne]; [rewrite lookup_delete_eq; by intros []|].
    rewrite lookup_delete_ne by (by intros ?%key_inj). intros Hs. destruct (H2 i Hs) as [->|?]; [left|by right].
    by apply negb_true_iff, seqb_neq.
  - rewrite lookup_delete_ne; [apply H3|apply key_legacy].
Qed.

Local Abbreviation keeps s R := (Script.keeps (answer := answer) matched (fun _ _ => True) s R).
Local Abbreviation done_ := (fun _ => True).

Lemma keeps_quiet (f : Shelf -> Shelf) :
  (forall w, assets (f w) = assets w /\ data (forge (f w)) = data (forge w)) -> keeps (Script.update f) done_.
Proof. intros Hf. apply keeps_update. intros w. apply matched_same; apply Hf. Qed.
Lemma pane_shows_quiet n v w : assets (pane_shows n v w) = assets w /\ data (forge (pane_shows n v w)) = data (forge w).
Proof. unfold pane_shows. destruct (pane w); [|done]. by destruct (Nat.eqb _ _). Qed.

Lemma add_keeps f : keeps (addReferenceFile accountId uuid time f) done_.
Proof.
  eapply keeps_bind; [apply keeps_get|]. intros w0 _. apply keeps_do; [intros w; by apply matched_same|].
  apply keeps_wait. intros [u|x] _; [|by apply keeps_ret]. intros w1 w Hw.
  cbn [bind safe]. split; [|done].
  by eapply matched_same; [..|apply (matched_put w (uuid (made w0)) (pf_data f) (uuid (made w)) (time (made w)) (pf_name f) (pf_size f) Hw)].
Qed.
Lemma remove_keeps id : keeps (removeReferenceFile accountId id) done_.
Proof.
  apply keeps_wait. intros [u|x] _; [|by apply keeps_quiet]. apply keeps_update. intros w. apply matched_drop.
Qed.
Lemma accept_file_keeps f : keeps (accept_file accountId uuid time f) done_.
Proof.
  unfold accept_file. destruct (negb (is_pdf_file f)); [by apply keeps_quiet|]. destruct (_ <? _); [by apply keeps_quiet|].
  apply keeps_wait. intros [sig|x] _; [|by apply keeps_quiet]. cbn [bind]. destruct (negb _); [by apply keeps_quiet|].
  eapply keeps_bind; [apply add_keeps|]. intros [u|x] _; [by apply keeps_ret|by apply keeps_quiet].
Qed.
Lemma accept_keeps fs : keeps (accept accountId uuid time fs) done_.
Proof.
  assert (He : forall fs, keeps (accept_each accountId uuid time fs) done_).
  { clear fs. intros fs. induction fs as [|f l IH]; [by apply keeps_quiet|]. cbn [accept_each]. eapply keeps_bind; [apply accept_file_keeps|]. intros _ _. exact IH. }
  destruct fs as [|f fs]; [by apply keeps_ret|]. apply keeps_do; [intros w; by apply matched_same|apply He].
Qed.
Lemma read_keeps k : keeps (readAsset k) (fun r => match r with Ok v => (forall id, k = legacy_key id -> v = L id) | Throw _ => True end).
Proof.
  apply keeps_wait. intros r _. eapply keeps_bind; [apply keeps_get|]. intros w Hw. apply keeps_ret.
  destruct r; [|done]. intros id ->. by apply (ma_legacy _ _ Hw).
Qed.
Lemma load_pdf_keeps n b : keeps (load_pdf n b) done_.
Proof.
  eapply keeps_bind; [apply keeps_get|]. intros w _. destruct (negb _); [by apply keeps_ret|].
  apply keeps_wait. intros r _. apply keeps_quiet. intros. apply pane_shows_quiet.
Qed.
Lemma open_keeps id : keeps (openReference accountId id) done_.
Proof.
  apply keeps_do; [intros w; by apply matched_same|]. eapply keeps_bind; [apply keeps_get|]. intros w _. cbn zeta.
  assert (Hf : keeps (Script.update (pane_shows (pane_no w) (Failed msg_pdf_failed))) done_)
    by (apply keeps_quiet; intros; apply pane_shows_quiet).
  eapply keeps_bind; [apply read_keeps|]. intros [[b|]|x] _; [apply load_pdf_keeps| |exact Hf].
  eapply keeps_bind; [apply read_keeps|]. intros [[b|]|x] Hr; [|exact Hf..]. specialize (Hr id eq_refl).
  eapply keeps_bind with (R := done_); [|intros [u|x] _; [apply load_pdf_keeps|exact Hf]].
  apply keeps_wait. intros [u|x] _; [|by apply keeps_ret]. apply keeps_do; [|by apply keeps_ret].
  intros w'. apply matched_copy. by rewrite <- Hr.
Qed.
Definition not_clearing (ev : Event) : Prop := match ev with Cleared _ _ => False | _ => True end.
Lemma step_matched ev y : not_clearing ev ->
  sound (answer := answer) matched anyhow (fun _ _ => True) y -> sound (answer := answer) matched anyhow (fun _ _ => True) (step accountId uuid time ev y).
Proof.
  intros Hev Hy. destruct ev; try done; cbn [step]; try (by apply keeps_resume); (apply keeps_start; [exact Hy|]).
  - apply accept_keeps.
  - apply remove_keeps.
  - apply open_keeps.
  - by apply keeps_quiet.
Qed.
End legacy.
End facts.

Lemma stepZoom_level d z : z ∈ ZOOM_LEVELS -> stepZoom d z ∈ ZOOM_LEVELS.
Proof.
  intros Hz. unfold stepZoom. set (n := Z.to_nat _).
  assert (Hn : (n < length ZOOM_LEVELS)%nat) by (unfold n; cbn [length ZOOM_LEVELS]; lia).
  apply list_elem_of_In, nth_In, Hn.
Qed.
End LibraryFacts.
Import LibraryFacts.

(** ** Claims *)

(** C19. The library and the store agree: if every listed file is stored and
    every stored one is listed, it is so after any choices of files, removals
    and openings of files, however their steps interleave and whichever of them
    fail, as long as nothing is cleared.  Only where a file from before there
    were accounts is left under its old key, which nothing here removes, may
    that one stand for the listed file, or a copy of it be stored although it
    is listed no more. *)
Theorem library_matches_store accountId uuid time es w
    (Hw : forall id, assets w !! legacy_key id = None -> listed id w = true <-> is_Some (assets w !! pdfAssetKey accountId id))
    (Hl : forall id, listed id w = true -> is_Some (assets w !! pdfAssetKey accountId id) \/ is_Some (assets w !! legacy_key id))
    (Hes : Forall not_clearing es) :
  let w' := world (run accountId uuid time es (mkSystem w [])) in
  (forall id, assets w !! legacy_key id = None -> listed id w' = true <-> is_Some (assets w' !! pdfAssetKey accountId id)) /\
  (forall id, listed id w' = true -> is_Some (assets w' !! pdfAssetKey accountId id) \/ is_Some (assets w' !! legacy_key id)) /\
  (forall id, assets w' !! legacy_key id = assets w !! legacy_key id).
Proof.
  set (L id := assets w !! legacy_key id).
  assert (Hm : matched accountId L w).
  { split; [exact Hl| |done]. intros id Hs. destruct (L id) eqn:E; [right; by eexists|]. left. by apply Hw. }
  assert (Hy : sound (answer := answer) (matched accountId L) anyhow (fun _ _ => True) (mkSystem w [])) by (split; [exact Hm|constructor]).
  assert (Hend : sound (answer := answer) (matched accountId L) anyhow (fun _ _ => True) (run accountId uuid time es (mkSystem w []))).
  { revert Hy. generalize (mkSystem (answer := answer) w []) as y. unfold run. clear -Hes.
    induction Hes as [|ev es Hev _ IH]; intros y Hy; [exact Hy|]. cbn [fold_left]. by apply IH, step_matched. }
  destruct Hend as [[H1 H2 H3] _]. cbv zeta. split_and!.
  - intros id Hn. change (L id = None) in Hn. split; intros Hi; [destruct (H1 id Hi) as [|Hx]|destruct (H2 id Hi) as [|Hx]]; try done;
      rewrite Hn in Hx; by destruct Hx.
  - intros id Hi. rewrite H3. by apply H1.
  - exact H3.
Qed.

(** "Clear everything" on every branch: when the files cannot be removed
    nothing is lost; when they can, no file of the account and none from before
    there were accounts is left, and no other file is touched; then, unless the
    background cannot be removed, the workspace is emptied with every document
    record of the account, or, where [localStorage] refuses, the message says
    that it was not. *)
Theorem clear_outcome accountId opens works env n w :
  let w' := snd (finish (clearWorkspace accountId opens works) env n w) in
  match env n (ClearAssets (clear_prefixes accountId)) with
  | Throw _ => w' = set_toast msg_files_kept w
  | Ok _ =>
    (forall k, under (clear_prefixes accountId) k = true -> assets w' !! k = None) /\
    (forall k, under (clear_prefixes accountId) k = false -> k <> LEGACY_BACKGROUND_IMAGE_KEY -> assets w' !! k = assets w !! k) /\
    match env (S n) (DropAsset LEGACY_BACKGROUND_IMAGE_KEY) with
    | Throw _ => toast w' = msg_files_kept /\ forge w' = forge w
    | Ok _ =>
      if opens && works
      then toast w' = js "Workspace cleared" /\ data (forge w') = EMPTY_DATA /\
           (forall k, starts_with (documentKeyPrefix accountId) k = true -> storage (forge w') !! k = None) /\
           (forall k, starts_with (documentKeyPrefix accountId) k = false -> k <> workspaceStorageKey accountId ->
              storage (forge w') !! k = storage (forge w) !! k)
      else toast w' = js "Workspace could not be completely cleared" /\ data (forge w') = data (forge w)
    end
  end.
Proof.
  unfold clearWorkspace. cbn [Script.ask bind finish]. destruct (env n (ClearAssets _)); [|done].
  assert (Hgone : forall k, under (clear_prefixes accountId) k = true -> without_prefixes (clear_prefixes accountId) (assets w) !! k = None).
  { intros k Hk. apply map_lookup_filter_None. right. intros b _. cbn [fst]. by rewrite Hk. }
  assert (Hkept : forall k, under (clear_prefixes accountId) k = false -> without_prefixes (clear_prefixes accountId) (assets w) !! k = assets w !! k).
  { intros k Hk. unfold without_prefixes. cbn [clear_prefixes]. destruct (assets w !! k) as [b|] eqn:Ea.
    - apply map_lookup_filter_Some. cbn [fst]. by rewrite Hk.
    - apply map_lookup_filter_None. by left. }
  cbn [finish Script.ask bind]. destruct (env (S n) (DropAsset _)) as [u|x].
  - assert (Ea : forall w1, assets (reset accountId opens works w1) = assets w1)
      by (intros w1; unfold reset; by destruct (resetWorkspace _ _ _ _)).
    cbn [finish Script.update snd]. rewrite Ea. cbn [assets with_assets]. split_and!.
    + intros k Hk. apply lookup_delete_None. right. by apply Hgone.
    + intros k Hk Hne. rewrite lookup_delete_ne by done. by apply Hkept.
    + unfold reset. cbn [forge with_assets]. unfold resetWorkspace. destruct opens; [|done]. cbn [negb andb].
      destruct works; [|done]. cbn [toast data forge with_forge set_toast storage]. split_and!; [done..| |].
      * intros k Hk. rewrite lookup_insert_ne; [|intros <-; revert Hk; unfold workspaceStorageKey, documentKeyPrefix].
        -- apply map_lookup_filter_None. right. intros b _. cbn [fst]. by rewrite Hk.
        -- rewrite starts_with_spec. intros (r & Hr). rewrite <- !app_assoc in Hr. by do 2 apply app_inv_head in Hr.
      * intros k Hk Hne. rewrite lookup_insert_ne by done. destruct (storage (forge w) !! k) as [b|] eqn:Eb.
        -- apply map_lookup_filter_Some. cbn [fst]. by rewrite Hk.
        -- apply map_lookup_filter_None. by left.
  - cbn [finish Script.update snd assets set_toast with_assets toast forge]. split_and!; [exact Hgone| |done..].
    intros k Hk _. by apply Hkept.
Qed.

(** ** Runs *)

Module LibraryRuns.
Definition acc : jstr := js "s1".
Definition uuid (n : nat) : jstr := show_Z (Z.of_nat n).
Definition book_file : PickedFile := mkPicked (js "Maths.PDF") [] 2048 [1; 2]%N.
Definition notes_file : PickedFile := mkPicked (js "notes.txt") (js "text/plain") 5 [3]%N.
Definition shelf (fs : list jsval) (m : gmap jstr Blob) : Shelf :=
  mkShelf (mkWorkspace (mkForgeData [] [] [] fs [] ALL_WIDGETS VUndef) [] [] ∅) m [] [] false 0 None 0.
Definition yes : forall q, answer q := fun q =>
  match q with ReadHead _ => Ok (js "%PDF-1.7") | OpenPdf _ => PdfPages 3 | _ => Ok tt end.
Definition no : forall q, answer q := fun q =>
  match q with ReadHead _ => Throw OtherError | OpenPdf _ => PdfBad | _ => Throw OtherError end.
Definition go (es : list Event) (w : Shelf) : Shelf := world (run acc uuid uuid es (mkSystem w [])).
Definition filed (id : jstr) : jsval := VObj [(js "id", VStr id); (js "name", VStr id); (js "addedAt", VStr id)].

Definition adding_two : list Event :=
  [Chosen [notes_file; book_file]; Answered 0 yes; Answered 0 yes; Referenced (js "0"); Answered 0 yes; Answered 0 yes].
Definition legacy_book : gmap jstr Blob := {[legacy_key (js "x") := [7]%N]}.
Lemma library_matches_store_witness :
  let w := go adding_two (shelf [] legacy_book) in
  (listed (js "0") w = true <-> is_Some (assets w !! pdfAssetKey acc (js "0"))) /\
  listed (js "0") w = true /\ message w = msg_not_pdf notes_file /\ pane w = Some (mkPane (js "0") (Shown 3)).
Proof.
  intros w. split; [|vm_compute; split_and!; reflexivity].
  refine (proj1 (library_matches_store acc uuid uuid adding_two (shelf [] legacy_book) _ _ _) (js "0") _).
  - intros id _. split; [done|]. cbn [assets shelf]. unfold legacy_book. rewrite lookup_singleton_ne; [by intros []|]. apply not_eq_sym, key_legacy.
  - done.
  - repeat constructor.
  - cbn [assets shelf]. unfold legacy_book. rewrite lookup_singleton_ne; [done|]. by vm_compute.
Defined.

Example sizes : formatBytes MAX_REFERENCE_BYTES = js "75.0 MB" /\ formatBytes 2048 = js "2 KB" /\ formatBytes 0 = js "1 KB" /\
  formatBytes 1625293 = js "1.6 MB".
Proof. vm_compute. split_and!; reflexivity. Qed.

(** When the background cannot be removed the message says that the files could
    not be, yet every file is gone and still listed. *)
Example failed_clear_loses_files :
  let stored := go [Chosen [book_file]; Answered 0 yes; Answered 0 yes] (shelf [] ∅) in
  let w := go [Cleared true true; Answered 0 yes; Answered 0 no] stored in
  toast w = msg_files_kept /\ listed (js "0") w = true /\ assets w !! pdfAssetKey acc (js "0") = None.
Proof. vm_compute. split_and!; reflexivity. Qed.

(** A file that is being added while everything is cleared stays on the device,
    unlisted. *)
Example added_while_clearing_stays :
  let w := go [Chosen [book_file]; Cleared true true; Answered 0 yes; Answered 0 yes; Answered 0 yes; Answered 0 yes] (shelf [] ∅) in
  toast w = js "Workspace cleared" /\ listed (js "0") w = false /\ assets w !! pdfAssetKey acc (js "0") = Some [1; 2]%N.
Proof. vm_compute. split_and!; reflexivity. Qed.

(** Removing a file from before there were accounts leaves it stored: only the
    key of the account is removed, also after the file was copied to it. *)
Example removed_legacy_file_stays :
  let w := go [Referenced (js "x"); Answered 0 yes; Answered 0 yes; Answered 0 yes; Answered 0 yes; Removed (js "x"); Answered 0 yes]
             (shelf [filed (js "x")] {[legacy_key (js "x") := [7]%N]}) in
  listed (js "x") w = false /\ assets w !! pdfAssetKey acc (js "x") = None /\ assets w !! legacy_key (js "x") = Some [7]%N.
Proof. vm_compute. split_and!; reflexivity. Qed.
End LibraryRuns.
