(* ===== verification/StudentShell.v ===== *)
(** * The frame of the student app ([apps/forge/src/App.tsx],
    [components/Topbar.tsx])

    Navigation, the search over notes and files, the notes page with its
    gallery, and what the home and live pages show.  [Shell] is the React state
    of [MatchboxWorkspace] with that of the notes page while it is mounted; the
    workspace is that of [Workspace].  [html_text] and [html_blocks] are the
    text of an HTML body and the texts of its children, as the browser's parser
    gives them; [uuid] and [time] are the identifiers and times the app makes. *)

From S2P Require Import Prelude JsString JsValue Locale Types Workspace.
From S2P Require LiveSession PaperExport.
Local Open Scope Z_scope.

Class Html := { html_text : jstr -> jstr; html_blocks : jstr -> list jstr }.

(** ** The top bar *)

Definition initials `{Locale} (profileName : jstr) : jstr :=
  flat_map (fun part => match part with c :: _ => to_upper [c] | [] => [] end) (take 2 (PaperExport.words profileName)).

(** ** Notes and files *)

Definition deleted (n : jsval) : bool := truthy_val (get (js "deletedAt") n).
Definition live_notes (d : ForgeData) : list jsval := List.filter (fun n => negb (deleted n)) (studioNotes d).
Definition deleted_notes (d : ForgeData) : list jsval := List.filter deleted (studioNotes d).
Definition id_text (v : jsval) : jstr := default [] (id_of v).
Definition same_id (id : jstr) (v : jsval) : bool := has_id id v.
Definition note_of (id : jstr) (d : ForgeData) : option jsval := find (has_id id) (studioNotes d).

(** Home: the widgets' numbers and latest entries. *)
Definition library_widget (d : ForgeData) : nat * option jstr := (length (files d), text_at (js "name") <$> head (files d)).
Definition studio_widget (d : ForgeData) : nat * option jstr :=
  (length (live_notes d), text_at (js "title") <$> find (fun n => negb (deleted n)) (studioNotes d)).
Definition activity_widget (d : ForgeData) : list jsval := take 4 (activity d).

(** ** Search *)

Section search.
Context `{Html, Locale}.

Definition note_matches (lower : jstr) (n : jsval) : bool :=
  negb (deleted n) &&
  existsb (fun v => includes lower (to_lower v))
    [text_at (js "title") n; text_at (js "topic") n; html_text (text_at (js "bodyHtml") n)].
Definition file_matches (lower : jstr) (f : jsval) : bool := includes lower (to_lower (text_at (js "name") f)).
Definition hits (query : jstr) (d : ForgeData) : list jstr :=
  let lower := to_lower query in
  ((fun n => js "document:" ++ id_text n) <$> List.filter (note_matches lower) (studioNotes d)) ++
  ((fun f => js "file:" ++ id_text f) <$> List.filter (file_matches lower) (files d)).
(** The submitted text, trimmed by the top bar. *)
Definition handleSearch (raw : jstr) (d : ForgeData) : jstr * list jstr :=
  match trim raw with [] => ([], []) | query => (query, hits query d) end.

(** A row of [SearchPanel]: an entry whose record is still there. *)
Inductive Row := FileRow (f : jsval) | NoteRow (id : jstr) (n : jsval).
Definition row_of (d : ForgeData) (entry : jstr) : option Row :=
  let parts := split 58 entry in
  let kind := nth 0 parts [] in
  match nth_error parts 1 with
  | None => None
  | Some id =>
    if seqb kind (js "file") then FileRow <$> find (has_id id) (files d)
    else NoteRow id <$> find (fun n => has_id id n && negb (deleted n)) (studioNotes d)
  end.
Definition rows (search : jstr * list jstr) (d : ForgeData) : list Row := filter_map (row_of d) (snd search).
End search.

(** ** The live page *)

Definition live_session (c : LiveSession.Controller) : option LiveSession := LiveSession.c_session <$> LiveSession.saved c.
Definition live_joined (c : LiveSession.Controller) : bool :=
  match LiveSession.saved c with Some s => LiveSession.c_joined s | None => false end.
Definition join_form_shown `{Dates} (c : LiveSession.Controller) : bool :=
  match live_session c with
  | None => true
  | Some _ => match LiveSession.visibleState c with Some LiveSession.REnded | Some LiveSession.RExpired => true | _ => false end
  end.
Definition code_text `{Locale} (value : jstr) : jstr := take 10 (to_upper value).
Definition sessions_shown (c : LiveSession.Controller) : bool := Nat.ltb 1 (length (LiveSession.sessions c)).
(** The button that joins a session that was found, and whether it works. *)
Definition join_button `{Dates} (online : bool) (c : LiveSession.Controller) : option bool :=
  match live_session c with
  | Some _ => if live_joined c then None else Some (online && LiveSession.visibly_active c)
  | None => None
  end.
Definition complete_button `{Dates} (online : bool) (c : LiveSession.Controller) : option bool :=
  match live_session c with
  | Some s =>
    match current_task s with
    | Some t =>
      if live_joined c &&
         match task_kind t with TInstruction => true | _ => false end &&
         negb (match student_task_state s with Some a => bool_decide (ack_state a = TCompleted) | None => false end)
      then Some (online && LiveSession.visibly_active c) else None
    | None => None
    end
  | None => None
  end.

(** ** Navigation and the notes page *)

Inductive Page := Home | Classrooms | Live | Library | Studio | Settings.
#[export] Instance Page_eq : EqDecision Page. Proof. solve_decision. Defined.

(** [renameSettled] is [settled]; [confirmReset] is that of the settings page
    while it is shown, [clearing] counts the calls of [clearWorkspace] that
    wait for the files to be removed. *)
Record Tab := mkTab {
  selectedId : option jstr; filter_text : jstr; menu : option jstr; renamingId : option jstr; settled : bool;
  referenceId : option jstr
}.
Record Shell := mkShell {
  page : Page; search : option (jstr * list jstr); openDocumentId : option jstr; tab : option Tab; data : ForgeData;
  toast : jstr; refreshKey : nat; collapsed : bool; made : nat; confirmReset : bool; clearing : nat
}.

Section shell.
Context `{Html, Locale} (uuid time : nat -> jstr).

Definition with_tab (t : option Tab) (s : Shell) : Shell :=
  mkShell (page s) (search s) (openDocumentId s) t (data s) (toast s) (refreshKey s) (collapsed s) (made s) (confirmReset s) (clearing s).
Definition with_data (d : ForgeData) (n : nat) (s : Shell) : Shell :=
  mkShell (page s) (search s) (openDocumentId s) (tab s) d (toast s) (refreshKey s) (collapsed s) (made s + n)%nat (confirmReset s) (clearing s).
Definition with_search (r : option (jstr * list jstr)) (s : Shell) : Shell :=
  mkShell (page s) r (openDocumentId s) (tab s) (data s) (toast s) (refreshKey s) (collapsed s) (made s) (confirmReset s) (clearing s).
Definition refreshed (connected : bool) (s : Shell) : Shell :=
  mkShell (page s) (search s) (openDocumentId s) (tab s) (data s)
    (if connected then js "Student data refreshed" else js "Cinder Host is unavailable")
    (if connected then S (refreshKey s) else refreshKey s) (collapsed s) (made s) (confirmReset s) (clearing s).
Definition hide_toast (s : Shell) : Shell :=
  mkShell (page s) (search s) (openDocumentId s) (tab s) (data s) [] (refreshKey s) (collapsed s) (made s) (confirmReset s) (clearing s).
Definition toggle_sidebar (s : Shell) : Shell :=
  mkShell (page s) (search s) (openDocumentId s) (tab s) (data s) (toast s) (refreshKey s) (negb (collapsed s)) (made s) (confirmReset s) (clearing s).
(** What is kept of the sidebar, and what is made of it. *)
Definition sidebar_text (c : bool) : jstr := if c then js "true" else js "false".
Definition sidebar_of (stored : option jstr) : bool := match stored with Some t => seqb t (js "true") | None => false end.

(** The notes page as it is mounted. *)
Definition new_tab (opened : option jstr) : Tab := mkTab opened [] None None false None.
Definition go (p : Page) (s : Shell) : Shell :=
  mkShell p None (openDocumentId s)
    (if bool_decide (p = Studio) then match tab s with Some t => Some t | None => Some (new_tab (openDocumentId s)) end else None)
    (data s) (toast s) (refreshKey s) (collapsed s) (made s) (bool_decide (p = Settings) && confirmReset s) (clearing s).
Definition selectPage (p : Page) (s : Shell) : Shell := go p s.

Definition select (id : option jstr) (t : Tab) : Tab := mkTab id (filter_text t) (menu t) (renamingId t) (settled t) (referenceId t).
Definition with_filter (f : jstr) (t : Tab) : Tab := mkTab (selectedId t) f (menu t) (renamingId t) (settled t) (referenceId t).
Definition with_menu (m : option jstr) (t : Tab) : Tab := mkTab (selectedId t) (filter_text t) m (renamingId t) (settled t) (referenceId t).
Definition renaming (r : option jstr) (b : bool) (t : Tab) : Tab := mkTab (selectedId t) (filter_text t) (menu t) r b (referenceId t).
Definition with_reference (r : option jstr) (t : Tab) : Tab := mkTab (selectedId t) (filter_text t) (menu t) (renamingId t) (settled t) r.
Definition on_tab (f : Tab -> Tab) (s : Shell) : Shell := with_tab (f <$> tab s) s.

(** [onOpenDocument]: the effect that follows selects the document only when
    [openDocumentId] has changed. *)
Definition onOpenDocument (id : jstr) (s : Shell) : Shell :=
  let s' := mkShell (page s) (search s) (Some id) (tab s) (data s) (toast s) (refreshKey s) (collapsed s) (made s) (confirmReset s) (clearing s) in
  let s' := selectPage Studio s' in
  if bool_decide (openDocumentId s = Some id) then s' else on_tab (select (Some id)) s'.
Definition open_row (r : Row) (s : Shell) : Shell :=
  with_search None (match r with FileRow _ => selectPage Library s | NoteRow id _ => onOpenDocument id s end).

(** The page a task is opened on, and what the Host is told. *)
Definition openLiveTask (kind : option LiveSessionTaskKind) (s : Shell) : Shell * LiveSessionTaskState :=
  let instruction := match kind with Some TInstruction => true | _ => false end in
  let p := if instruction then Live else Classrooms in
  (mkShell p (search s) (openDocumentId s) None (data s) (toast s) (refreshKey s) (collapsed s) (made s) false (clearing s),
   if instruction then TOpened else TInProgress).

Definition selected (t : Tab) (d : ForgeData) : option jsval :=
  match selectedId t with
  | Some id => find (fun n => has_id id n && negb (deleted n)) (studioNotes d)
  | None => None
  end.
Definition shown (t : Tab) (d : ForgeData) : list jsval :=
  List.filter (fun n => includes (to_lower (filter_text t))
                          (to_lower (text_at (js "title") n ++ js " " ++ text_at (js "topic") n))) (live_notes d).
Definition preview (n : jsval) : jstr :=
  let body := text_at (js "bodyHtml") n in
  take 260 (trim (replace_runs is_space (js " ") (or_str (join (js " ") (html_blocks body)) (html_text body)))).

(** Two identifiers and a time are made for a note and its entry of the
    activity. *)
Definition add_note (title topic bodyHtml : jstr) (s : Shell) : Shell :=
  with_data (addStudioNote (uuid (made s)) (uuid (S (made s))) (time (made s)) title topic bodyHtml (data s)) 2 s.
Definition createNote (s : Shell) : Shell :=
  on_tab (select (Some (uuid (made s)))) (add_note (js "Untitled note") [] [] s).
Definition update_note (id title topic bodyHtml : jstr) (s : Shell) : Shell :=
  with_data (updateStudioNote id (time (made s)) title topic bodyHtml (data s)) 0 s.
(** A new title for the note of a card. *)
Definition rename (id value : jstr) (s : Shell) : Shell :=
  match note_of id (data s) with
  | Some n => update_note id value (text_at (js "topic") n) (text_at (js "bodyHtml") n) s
  | None => s
  end.
Definition rename_enter (value : jstr) (s : Shell) : Shell :=
  match t ← tab s; renamingId t with
  | Some id => on_tab (renaming None true) (rename id value s)
  | None => s
  end.
Definition rename_escape (s : Shell) : Shell := on_tab (renaming None true) s.
(** The input of card [id] loses the focus, by itself or because it is removed
    from the page. *)
Definition rename_blur (id value : jstr) (s : Shell) : Shell :=
  match tab s with
  | Some t =>
    if settled t then on_tab (renaming (renamingId t) false) s
    else on_tab (renaming None false) (rename id value s)
  | None => s
  end.

Inductive MenuItem := MOpen | MRename | MDuplicate | MDelete.
Definition menu_run (i : MenuItem) (s : Shell) : Shell :=
  match t ← tab s; menu t with
  | Some id =>
    match note_of id (data s) with
    | Some n =>
      on_tab (with_menu None)
        (match i with
         | MOpen => on_tab (select (Some id)) s
         | MRename => on_tab (fun t => renaming (Some id) (settled t) t) s
         | MDuplicate => add_note (text_at (js "title") n ++ js " copy") (text_at (js "topic") n) (text_at (js "bodyHtml") n) s
         | MDelete => with_data (removeStudioNote id (time (made s)) (data s)) 0 s
         end)
    | None => s
    end
  | None => s
  end.
(** [arrows]: the item after or before the one with the focus, [-1] for none. *)
Definition arrow_target (down : bool) (index count : Z) : Z := ((if down then index + 1 else index - 1) + count) mod count.

(** What the open document reports: its text, or that it is to be deleted. *)
Definition editor_update (title topic bodyHtml : jstr) (s : Shell) : Shell :=
  match t ← tab s; selected t (data s) with
  | Some n => update_note (id_text n) title topic bodyHtml s
  | None => s
  end.
Definition editor_remove (s : Shell) : Shell :=
  match t ← tab s; selected t (data s) with
  | Some n => on_tab (select None) (with_data (removeStudioNote (id_text n) (time (made s)) (data s)) 0 s)
  | None => s
  end.

(** The settings page: everything is cleared after a confirmation and, some
    time later, the answers: whether the files are gone, and whether
    [resetWorkspace] could write the empty workspace. *)
Definition with_confirm (b : bool) (s : Shell) : Shell :=
  if bool_decide (page s = Settings)
  then mkShell (page s) (search s) (openDocumentId s) (tab s) (data s) (toast s) (refreshKey s) (collapsed s) (made s) b (clearing s) else s.
Definition clear_pressed (s : Shell) : Shell :=
  if bool_decide (page s = Settings) && confirmReset s
  then mkShell (page s) (search s) (openDocumentId s) (tab s) (data s) (toast s) (refreshKey s) (collapsed s) (made s) false (S (clearing s))
  else s.
Definition clear_answered (files_gone saved : bool) (s : Shell) : Shell :=
  match clearing s with
  | O => s
  | S n =>
    mkShell (page s) (search s) (openDocumentId s) (tab s) (if files_gone && saved then EMPTY_DATA else data s)
      (if negb files_gone then js "Local files could not be cleared"
       else if saved then js "Workspace cleared" else js "Workspace could not be completely cleared")
      (refreshKey s) (collapsed s) (made s) (confirmReset s) n
  end.

Inductive Event :=
  | Went (p : Page) | Searched (raw : jstr) | Picked (entry : jstr) | Dismissed | Toggled | Refreshed (connected : bool)
  | ToastGone | TaskOpened (kind : option LiveSessionTaskKind)
  | Created | CardOpened (id : jstr) | Left | Filtered (f : jstr) | MenuAt (id : option jstr) | MenuRun (i : MenuItem)
  | Entered (value : jstr) | Escaped | Blurred (id value : jstr) | RestoredNote (id : jstr)
  | Wrote (title topic bodyHtml : jstr) | Deleted | ReferenceAt (id : option jstr)
  | Confirm (b : bool) | ClearPressed | ClearAnswered (files_gone saved : bool).
Definition handle (ev : Event) (s : Shell) : Shell :=
  match ev with
  | Went p => selectPage p s
  | Searched raw => with_search (Some (handleSearch raw (data s))) s
  | Picked entry => match row_of (data s) entry with Some r => open_row r s | None => s end
  | Dismissed => with_search None s
  | Toggled => toggle_sidebar s
  | Refreshed c => refreshed c s
  | ToastGone => hide_toast s
  | TaskOpened k => fst (openLiveTask k s)
  | Created => match tab s with Some _ => createNote s | None => s end
  | CardOpened id => on_tab (select (Some id)) s
  | Left => on_tab (select None) s
  | Filtered f => on_tab (with_filter f) s
  | MenuAt m => on_tab (with_menu m) s
  | MenuRun i => menu_run i s
  | Entered v => rename_enter v s
  | Escaped => rename_escape s
  | Blurred id v => rename_blur id v s
  | RestoredNote id => with_data (restoreStudioNote id (data s)) 0 s
  | Wrote t p b => editor_update t p b s
  | Deleted => editor_remove s
  | ReferenceAt r => on_tab (with_reference r) s
  | Confirm b => with_confirm b s
  | ClearPressed => clear_pressed s
  | ClearAnswered f b => clear_answered f b s
  end.
Definition run (es : list Event) (s : Shell) : Shell := fold_left (fun s ev => handle ev s) es s.
Definition start (d : ForgeData) (stored : option jstr) : Shell := mkShell Home None None None d [] 0 (sidebar_of stored) 0 false 0.

End shell.

(** ** Properties *)

Module ShellFacts.
Import WorkspaceFacts.

Abbreviation ids := (filter_map id_of).
Lemma has_id_of i n : has_id i n = true <-> id_of n = Some i.
Proof. unfold has_id. destruct (id_of n) as [j|]; [rewrite seqb_eq|]; naive_solver. Qed.
Lemma find_unique (p : jsval -> bool) l i n :
  NoDup (ids l) -> n ∈ l -> id_of n = Some i -> p n = true -> find (fun x => has_id i x && p x) l = Some n.
Proof.
  induction l as [|x l IH]; [by intros _ ?%elem_of_nil|]. cbn [filter_map find]. intros Hnd Hn Hi Hp.
  apply elem_of_cons in Hn as [->|Hn].
  - by rewrite (proj2 (has_id_of i x) Hi), Hp.
  - assert (Hx : has_id i x = false).
    { apply not_true_iff_false. rewrite has_id_of. intros Hx. rewrite Hx in Hnd. apply NoDup_cons in Hnd as [Hnot _].
      apply Hnot, elem_of_filter_map. by exists n. }
    rewrite Hx. cbn [andb]. apply IH; try done. destruct (id_of x); [by apply NoDup_cons in Hnd as [_ ?]|done].
Qed.
Lemma note_of_unique d i n : NoDup (ids (studioNotes d)) -> n ∈ studioNotes d -> id_of n = Some i -> note_of i d = Some n.
Proof.
  intros Hnd Hn Hi. unfold note_of.
  assert (E : forall l, find (has_id i) l = find (fun x => has_id i x && true) l).
  { induction l as [|x l IH]; [done|]. cbn [find]. rewrite andb_true_r. by rewrite IH. }
  rewrite E. by apply find_unique.
Qed.

(** *** Search *)

Section search.
Context `{Html, Locale}.
(** Identifiers as the app makes them: distinct and without a colon. *)
Definition plain_ids (l : list jsval) : Prop :=
  NoDup (ids l) /\ Forall (fun v => exists i, id_of v = Some i /\ ~ 58%N ∈ i) l.

Lemma split_entry (kind id : jstr) : ~ 58%N ∈ kind -> ~ 58%N ∈ id -> split 58 (kind ++ 58%N :: id) = [kind; id].
Proof. intros Hk Hi. rewrite split_app by done. by rewrite split_none. Qed.
Lemma filter_map_all {A B} (f : A -> option B) (g : A -> B) (l : list A) :
  Forall (fun x => f x = Some (g x)) l -> filter_map f l = g <$> l.
Proof. induction 1 as [|x l Hx _ IH]; [done|]. csimpl. by rewrite Hx, IH. Qed.
Lemma colon_free s : existsb (N.eqb 58) s = false -> ~ 58%N ∈ s.
Proof. intros He Hin. apply not_true_iff_false in He. apply He, existsb_exists. exists 58%N. by rewrite <- list_elem_of_In. Qed.

Lemma note_row d n : plain_ids (studioNotes d) -> n ∈ studioNotes d -> deleted n = false ->
  row_of d (js "document:" ++ id_text n) = Some (NoteRow (id_text n) n).
Proof.
  intros [Hnd Hp] Hn Hd. rewrite Forall_forall in Hp. destruct (Hp n Hn) as (i & Hi & Hc). unfold row_of, id_text. rewrite Hi. change (default [] (Some i)) with i.
  change (js "document:" ++ i) with (js "document" ++ 58%N :: i). rewrite split_entry; [|by apply colon_free|done].
  cbn [nth nth_error]. change (seqb (js "document") (js "file")) with false. cbn match.
  rewrite (find_unique (fun x => negb (deleted x)) _ i n) by (done || by rewrite Hd). done.
Qed.
Lemma file_row d f : plain_ids (files d) -> f ∈ files d -> row_of d (js "file:" ++ id_text f) = Some (FileRow f).
Proof.
  intros [Hnd Hp] Hf. rewrite Forall_forall in Hp. destruct (Hp f Hf) as (i & Hi & Hc). unfold row_of, id_text. rewrite Hi. change (default [] (Some i)) with i.
  change (js "file:" ++ i) with (js "file" ++ 58%N :: i). rewrite split_entry; [|by apply colon_free|done].
  cbn [nth nth_error]. change (seqb (js "file") (js "file")) with true. cbn match.
  pose proof (find_unique (fun _ => true) _ i f Hnd Hf Hi eq_refl) as Hu.
  assert (E : forall l, find (has_id i) l = find (fun x => has_id i x && true) l).
  { induction l as [|x l IH]; [done|]. cbn [find]. rewrite andb_true_r. by rewrite IH. }
  by rewrite E, Hu.
Qed.
Lemma rows_of_hits q d : plain_ids (studioNotes d) -> plain_ids (files d) ->
  filter_map (row_of d) (hits q d) =
  ((fun n => NoteRow (id_text n) n) <$> List.filter (note_matches (to_lower q)) (studioNotes d)) ++
  (FileRow <$> List.filter (file_matches (to_lower q)) (files d)).
Proof.
  intros Hn Hf. unfold hits. rewrite filter_map_app, !filter_map_map. f_equal; apply filter_map_all, Forall_forall.
  - intros n [Hin Hm]%list_elem_of_In%filter_In. rewrite <- list_elem_of_In in Hin. apply note_row; [done..|].
    unfold note_matches in Hm. apply andb_prop in Hm as [Hd _]. by apply negb_true_iff in Hd.
  - intros f [Hin _]%list_elem_of_In%filter_In. rewrite <- list_elem_of_In in Hin. by apply file_row.
Qed.
End search.

(** *** What an event does to the notes *)

Section notes.
Context `{Html, Locale} (uuid time : nat -> jstr).

Inductive touch (s : Shell) : Shell -> Prop :=
  | t_none s' : data s' = data s -> made s' = made s -> touch s s'
  | t_add s' title topic body : data s' = addStudioNote (uuid (made s)) (uuid (S (made s))) (time (made s)) title topic body (data s) ->
      made s' = (made s + 2)%nat -> touch s s'
  | t_rename s' i n now title topic : note_of i (data s) = Some n ->
      data s' = updateStudioNote i now title topic (text_at (js "bodyHtml") n) (data s) -> made s' = made s -> touch s s'
  | t_remove s' i now : data s' = removeStudioNote i now (data s) -> made s' = made s -> touch s s'
  | t_restore s' i : data s' = restoreStudioNote i (data s) -> made s' = made s -> touch s s'.
(** Everything is cleared by an event: a call of [clearWorkspace] succeeds. *)
Definition clears (ev : Event) (s : Shell) : Prop := ev = ClearAnswered true true /\ (0 < clearing s)%nat.
Definition writing (ev : Event) : Prop := match ev with Wrote _ _ _ => True | _ => False end.

Lemma rename_touch i v s : touch s (rename time i v s).
Proof.
  unfold rename. destruct (note_of i (data s)) as [n|] eqn:E; [|by apply t_none].
  eapply t_rename; [exact E|reflexivity|]. cbn. lia.
Qed.
Lemma touch_tab s s' f : touch s s' -> touch s (on_tab f s').
Proof. destruct 1; [by apply t_none|by eapply t_add|by eapply t_rename|by eapply t_remove|by eapply t_restore]. Qed.
Lemma go_touch p s : touch s (go p s).
Proof. by apply t_none. Qed.
Lemma handle_touch ev s : ~ writing ev -> ~ clears ev s -> touch s (handle uuid time ev s).
Proof.
  intros Hw Hc. destruct ev; cbn [handle]; try (by apply t_none); try (by destruct Hw).
  - destruct (row_of _ _) as [[f|i n]|]; [| |by apply t_none]; unfold open_row; [by apply t_none|].
    unfold onOpenDocument. case_bool_decide; by apply t_none.
  - destruct (tab s); [|by apply t_none]. apply touch_tab. by eapply t_add.
  - unfold menu_run. destruct (_ ≫= _) as [id|]; [|by apply t_none]. destruct (note_of _ _) as [n|] eqn:E; [|by apply t_none].
    apply touch_tab. destruct i; [by apply t_none|by apply t_none|by eapply t_add|].
    eapply t_remove; [reflexivity|cbn; lia].
  - unfold rename_enter. destruct (_ ≫= _); [|by apply t_none]. apply touch_tab, rename_touch.
  - unfold rename_blur. destruct (tab s) as [t|]; [|by apply t_none]. case_match; apply touch_tab; [by apply t_none|apply rename_touch].
  - eapply t_restore; [reflexivity|cbn; lia].
  - unfold editor_remove. destruct (_ ≫= _); [|by apply t_none]. apply touch_tab. eapply t_remove; [reflexivity|cbn; lia].
  - unfold with_confirm. case_match; by apply t_none.
  - unfold clear_pressed. case_match; by apply t_none.
  - unfold clear_answered. destruct (clearing s) eqn:E; [by apply t_none|].
    destruct files_gone, saved; try by apply t_none. destruct Hc. split; [done|lia].
Qed.
Lemma wrote_data t p b s :
  let s' := handle uuid time (Wrote t p b) s in
  made s' = made s /\ (data s' = data s \/ exists i now, data s' = updateStudioNote i now t p b (data s)).
Proof.
  cbn [handle]. unfold editor_update. destruct (_ ≫= _) as [n|]; [|split; [done|by left]].
  split; [cbn; lia|]. right. by eexists _, _.
Qed.

Lemma with_props_get k cs v : (exists ps, v = VObj ps) -> Forall (fun c => fst c <> k) cs -> get k (with_props cs v) = get k v.
Proof.
  intros [ps ->] Hcs. cbn [with_props get]. f_equal. revert ps. induction Hcs as [|[j x] cs Hj _ IH]; intros ps; [done|].
  cbn [fold_left fst snd]. rewrite IH, assoc_set_prop. cbn [fst] in Hj. by rewrite decide_False by congruence.
Qed.
Lemma with_props_id cs v : (exists ps, v = VObj ps) -> Forall (fun c => fst c <> js "id") cs -> id_of (with_props cs v) = id_of v.
Proof. intros Hv Hcs. unfold id_of. by rewrite with_props_get. Qed.
Lemma with_props_last k x cs v : (exists ps, v = VObj ps) -> (k, x) ∈ cs -> NoDup cs.*1 -> get k (with_props cs v) = x.
Proof.
  intros [ps ->]. cbn [with_props get]. revert ps. induction cs as [|[j y] cs IH]; intros ps Hin Hnd; [by apply elem_of_nil in Hin|].
  cbn [fold_left fst snd]. csimpl in Hnd. apply NoDup_cons in Hnd as [Hj Hnd]. apply elem_of_cons in Hin as [[= <- <-]|Hin]; [|by apply IH].
  assert (Hcs : Forall (fun c => fst c <> k) cs).
  { apply Forall_forall. intros c Hc <-. apply Hj, list_elem_of_fmap. by exists c. }
  pose proof (with_props_get k cs (VObj (set_prop k x ps)) ltac:(eauto) Hcs) as E. cbn [with_props get] in E. rewrite E.
  rewrite assoc_set_prop. by rewrite decide_True.
Qed.

(** Distinct notes that the loader accepts, and identifiers yet to be made
    that none of them has. *)
Record sane (s : Shell) : Prop := {
  sa_sound : sound (data s);
  sa_ids : NoDup (ids (studioNotes (data s)));
  sa_fresh : forall k, (made s <= k)%nat -> ~ uuid k ∈ ids (studioNotes (data s))
}.
Definition kept (body : bool) (n n' : jsval) : Prop :=
  id_of n' = id_of n /\ (body = true -> get (js "bodyHtml") n' = get (js "bodyHtml") n).
#[export] Instance kept_preorder b : PreOrder (kept b).
Proof. split; [done|]. intros n1 n2 n3 [H1 H2] [H3 H4]. split; [congruence|]. intros Hb. rewrite H4, H2; done. Qed.
Definition all_kept (b : bool) (s s' : Shell) : Prop :=
  forall n, n ∈ studioNotes (data s) -> exists n', n' ∈ studioNotes (data s') /\ kept b n n'.

Lemma record_obj n : record_ok doc_fields n -> exists ps, n = VObj ps.
Proof. intros (ps & -> & _). eauto. Qed.
Lemma change_ids i cs d : Forall (record_ok doc_fields) (studioNotes d) -> Forall (fun c => fst c <> js "id") cs ->
  ids (studioNotes (change_note i cs d)) = ids (studioNotes d).
Proof.
  intros Hr Hcs. cbn [change_note studioNotes]. induction Hr as [|n l Hn _ IH]; [done|]. csimpl.
  rewrite IH. destruct (has_id i n); [|done]. rewrite with_props_id; [done|by apply record_obj|done].
Qed.
Lemma change_kept b i cs s s' : sane s -> Forall (fun c => fst c <> js "id") cs ->
  (b = true -> forall n, n ∈ studioNotes (data s) -> id_of n = Some i -> get (js "bodyHtml") (with_props cs n) = get (js "bodyHtml") n) ->
  data s' = change_note i cs (data s) -> all_kept b s s'.
Proof.
  intros [Hs _ _] Hcs Hb E n Hn. pose proof (so_docs _ Hs) as Hr. rewrite Forall_forall in Hr. specialize (Hr n Hn).
  destruct (has_id i n) eqn:Hi.
  - exists (with_props cs n). split.
    + rewrite E. cbn [change_note studioNotes]. apply list_elem_of_fmap. exists n. by rewrite Hi.
    + split; [apply with_props_id; [by apply record_obj|done]|]. intros Hb'. apply Hb; [done..|]. by apply has_id_of.
  - exists n. split; [|done]. rewrite E. cbn [change_note studioNotes]. apply list_elem_of_fmap. exists n. by rewrite Hi.
Qed.
Lemma change_sane i cs s s' : sane s -> edit (data s) (data s') -> data s' = change_note i cs (data s) -> made s' = made s ->
  Forall (fun c => fst c <> js "id") cs -> sane s'.
Proof.
  intros [Hs Hi Hf] He E Em Hcs. pose proof (change_ids i cs (data s) (so_docs _ Hs) Hcs) as Hids.
  split; [by eapply edit_sound|..]; rewrite E, Hids, ?Em; done.
Qed.

Lemma flagged_kept b i cs s s' : sane s -> Forall (fun c => fst c <> js "id" /\ fst c <> js "bodyHtml") cs ->
  edit (data s) (data s') -> data s' = change_note i cs (data s) -> made s' = made s -> sane s' /\ all_kept b s s'.
Proof.
  intros Hs Hcs He E Em. assert (Hid : Forall (fun c => fst c <> js "id") cs) by (eapply Forall_impl; [exact Hcs|]; by intros c []).
  split; [by eapply change_sane|]. eapply change_kept; [exact Hs|exact Hid| |exact E]. intros _ n Hn _.
  apply with_props_get; [|eapply Forall_impl; [exact Hcs|]; by intros c []].
  apply record_obj. pose proof (so_docs _ (sa_sound _ Hs)) as Hr. rewrite Forall_forall in Hr. by apply Hr.
Qed.

Lemma touch_kept b s s' : Inj (=) (=) uuid -> sane s -> touch s s' -> sane s' /\ all_kept b s s'.
Proof.
  intros Hu Hs Ht. pose proof Hs as [Hsd Hi Hf]. destruct Ht as [s' E Em|s' t p o E Em|s' i n now t p Hn E Em|s' i now E Em|s' i E Em].
  - split; [split; rewrite E, ?Em; done|]. intros n Hn. exists n. by rewrite E.
  - split.
    + split; [rewrite E; eapply edit_sound; [apply e_add|done]|..]; rewrite E; cbn [addStudioNote studioNotes filter_map];
        change (id_of _) with (Some (uuid (made s))); cbn match.
      * constructor; [|done]. apply Hf. lia.
      * intros k Hk [Hc|Hc]%elem_of_cons; [|by apply (Hf k); [lia|]]. apply Hu in Hc. lia.
    + intros n Hn. exists n. split; [|done]. rewrite E. by right.
  - assert (Hcs : Forall (fun c : jstr * jsval => fst c <> js "id")
      [(js "title", VStr (or_str (trim t) (js "Untitled note"))); (js "topic", VStr (trim p));
       (js "bodyHtml", VStr (text_at (js "bodyHtml") n)); (js "updatedAt", VStr now)]) by (repeat constructor; done).
    split; [eapply change_sane; [exact Hs|rewrite E; apply e_update|exact E|exact Em|exact Hcs]|].
    eapply change_kept; [exact Hs|exact Hcs| |exact E]. intros _ m Hm Him.
    rewrite (note_of_unique _ _ _ Hi Hm Him) in Hn. injection Hn as <-.
    pose proof (so_docs _ Hsd) as Hr. rewrite Forall_forall in Hr. pose proof (Hr m Hm) as Hrm.
    rewrite (with_props_last (js "bodyHtml") (VStr (text_at (js "bodyHtml") m))).
    + destruct Hrm as (ps & -> & _ & _ & Hst). unfold has_strings in Hst. cbn [truthy_val andb] in Hst.
      assert (Hb : is_string (get (js "bodyHtml") (VObj ps)) = true).
      { apply forallb_Forall in Hst. rewrite Forall_forall in Hst. apply Hst. unfold doc_fields. do 2 right. left. }
      unfold text_at. by destruct (get (js "bodyHtml") (VObj ps)).
    + by apply record_obj.
    + do 2 right. left.
    + apply (bool_decide_unpack _). vm_compute. exact I.
  - eapply flagged_kept; [exact Hs| |rewrite E; apply e_remove|exact E|exact Em]. by repeat constructor.
  - eapply flagged_kept; [exact Hs| |rewrite E; apply e_restore|exact E|exact Em]. by repeat constructor.
Qed.
Lemma wrote_kept t p o s : sane s ->
  sane (handle uuid time (Wrote t p o) s) /\ all_kept false s (handle uuid time (Wrote t p o) s).
Proof.
  intros Hs. destruct (wrote_data t p o s) as [Em [E|(i & now & E)]].
  - destruct Hs as [H1 H2 H3]. split; [split; rewrite E, ?Em; done|]. intros n Hn. exists n. by rewrite E.
  - assert (Hcs : Forall (fun c : jstr * jsval => fst c <> js "id")
      [(js "title", VStr (or_str (trim t) (js "Untitled note"))); (js "topic", VStr (trim p));
       (js "bodyHtml", VStr o); (js "updatedAt", VStr now)]) by (repeat constructor; done).
    split; [eapply change_sane; [exact Hs|rewrite E; apply e_update|exact E|exact Em|exact Hcs]|].
    eapply change_kept; [exact Hs|exact Hcs|done|exact E].
Qed.
Lemma cleared_sane ev s : sane s -> clears ev s -> sane (handle uuid time ev s).
Proof.
  intros [Hs Hi Hf] [-> Hc]. cbn [handle]. unfold clear_answered. destruct (clearing s); [lia|].
  split; cbn; [exact empty_sound|constructor|]. by intros k _ ?%elem_of_nil.
Qed.
Lemma event_kept ev s : Inj (=) (=) uuid -> sane s ->
  sane (handle uuid time ev s) /\
  (~ clears ev s -> all_kept false s (handle uuid time ev s) /\ (~ writing ev -> all_kept true s (handle uuid time ev s))).
Proof.
  intros Hu Hs. assert (Hd : clears ev s \/ ~ clears ev s).
  { unfold clears. destruct ev; try (by right; intros []). destruct files_gone, saved; try (by right; intros []).
    destruct (clearing s); [right; intros []; lia|left; split; [done|lia]]. }
  destruct Hd as [Hc|Hc]; [split; [by apply cleared_sane|done]|].
  assert (Hev : ~ writing ev \/ exists t p o, ev = Wrote t p o) by (destruct ev; try (by left; intros []); right; eauto).
  destruct Hev as [Hw|(t & p & o & ->)].
  - pose proof (handle_touch ev s Hw Hc) as Ht.
    destruct (touch_kept false s _ Hu Hs Ht) as [H1 H2], (touch_kept true s _ Hu Hs Ht) as [_ H3]. done.
  - destruct (wrote_kept t p o s Hs) as [H1 H2]. split_and!; [done..|]. intros _. split; [done|]. intros Hw. by destruct Hw.
Qed.

(** *** Clearing everything was confirmed *)

(** At some point of [es] it was pressed on the settings page, which asked. *)
Definition confirmed (es : list Event) (s : Shell) : Prop :=
  exists es1 es2, es = es1 ++ ClearPressed :: es2 /\
    let s1 := run uuid time es1 s in page s1 = Settings /\ confirmReset s1 = true.
Lemma clearing_moves ev s :
  (clearing (handle uuid time ev s) <= clearing s)%nat \/ (ev = ClearPressed /\ page s = Settings /\ confirmReset s = true).
Proof.
  destruct ev; cbn [handle]; try (left; cbn; lia).
  - left. destruct (row_of _ _) as [[f|i n]|]; [| |done]; unfold open_row; [done|]. unfold onOpenDocument. by case_bool_decide.
  - left. by destruct (tab s).
  - left. unfold menu_run. destruct (_ ≫= _) as [id|]; [|done]. destruct (note_of _ _); [|done]. by destruct i.
  - left. unfold rename_enter, rename. destruct (_ ≫= _) as [id|]; [|done]. by destruct (note_of id (data s)).
  - left. unfold rename_blur, rename. by repeat case_match.
  - left. unfold editor_update. by destruct (_ ≫= _).
  - left. unfold editor_remove. by destruct (_ ≫= _).
  - left. unfold with_confirm. by case_bool_decide.
  - unfold clear_pressed. case_bool_decide; [|left; cbn; lia]. destruct (confirmReset s); [by right|left; cbn; lia].
  - left. unfold clear_answered. destruct (clearing s) as [|k] eqn:E; [lia|cbn; lia].
Qed.
Lemma clearing_confirmed es s : clearing s = 0%nat -> (0 < clearing (run uuid time es s))%nat -> confirmed es s.
Proof.
  intros Hz. induction es as [|ev es IH] using rev_ind; [cbn; lia|]. unfold run. rewrite fold_left_app. cbn [fold_left].
  intros Hp. destruct (clearing_moves ev (run uuid time es s)) as [Hle|(-> & Hpg & Hc)].
  - destruct IH as (es1 & es2 & -> & Hat); [unfold run in Hle |- *; lia|]. exists es1, (es2 ++ [ev]). by rewrite <- app_assoc.
  - by exists es, [].
Qed.
End notes.
End ShellFacts.
Import ShellFacts.

(** ** Claims *)

(** C18. Nothing done on the pages of the app loses a note, clearing everything
    apart: whatever is opened, renamed, duplicated, deleted, restored, searched
    and written, in any order, every note is still in the workspace, which
    stays one that the loader accepts; and unless text is written in an open
    document, its text is what it was.  A note is only gone when everything was
    cleared: on the settings page, after the question was answered, and once
    the files were removed and the empty workspace was stored. *)
Theorem notes_never_lost `{Html, Locale} uuid time es s (Huuid : Inj (=) (=) uuid) (Hs : sane uuid s) (Hc : clearing s = 0%nat) :
  let s' := run uuid time es s in
  sane uuid s' /\
  ((exists es1 es2, es = es1 ++ ClearAnswered true true :: es2 /\ confirmed uuid time es1 s) \/
   forall n, n ∈ studioNotes (data s) ->
     exists n', n' ∈ studioNotes (data s') /\ id_of n' = id_of n /\
       (Forall (fun ev => ~ writing ev) es -> get (js "bodyHtml") n' = get (js "bodyHtml") n)).
Proof.
  cbn zeta. induction es as [|ev es IH] using rev_ind.
  - split; [done|]. right. intros n Hn. by exists n.
  - assert (E : run uuid time (es ++ [ev]) s = handle uuid time ev (run uuid time es s)) by (unfold run; by rewrite fold_left_app).
    rewrite E. destruct IH as [Hs1 Hk]. destruct (event_kept uuid time ev _ Huuid Hs1) as [Hs2 He]. split; [exact Hs2|].
    destruct Hk as [(es1 & es2 & -> & Hk)|Hk]; [left; exists es1, (es2 ++ [ev]); by rewrite <- app_assoc|].
    assert (Hd : clears ev (run uuid time es s) \/ ~ clears ev (run uuid time es s)).
    { unfold clears. destruct (decide (0 < clearing (run uuid time es s))%nat); [|right; by intros []].
      destruct ev as [| | | | | | | | | | | | | | | | | | | | | | |[] []]; (by left) || (right; by intros []). }
    destruct Hd as [[-> Hp]|Hn]; [left; exists es, []; split; [done|by apply clearing_confirmed]|].
    destruct (He Hn) as [Hf Ht]. right. intros n Hin. destruct (Hk n Hin) as (n1 & Hn1 & E1 & B1).
    assert (Hb : exists n2, n2 ∈ studioNotes (data (handle uuid time ev (run uuid time es s))) /\ id_of n2 = id_of n1 /\
                   (~ writing ev -> get (js "bodyHtml") n2 = get (js "bodyHtml") n1)).
    { destruct ev; try (destruct (Ht (fun x => x) n1 Hn1) as (n2 & ? & ? & Eb); exists n2; split_and!; [done..|]; intros _; by apply Eb).
      destruct (Hf n1 Hn1) as (n2 & ? & ? & _). exists n2. split_and!; [done..|]. intros Hw. by destruct Hw. }
    destruct Hb as (n2 & Hn2 & E2 & B2). exists n2. split_and!; [done|congruence|].
    intros [Hws Hw]%Forall_app. rewrite B2, B1; [done|done|]. by inversion Hw.
Qed.

(** A search shows exactly the notes and files that hold the words: in
    their order, every note that is not deleted and whose title, topic or text
    has them whatever the case, then every file whose name has them; and
    choosing a note leaves the search and opens that note on the notes page,
    unless it is the one that was last opened this way and the notes page is
    open. *)
Theorem search_shows_and_opens `{Html, Locale} raw d
    (Hnotes : plain_ids (studioNotes d)) (Hfiles : plain_ids (files d)) (Hraw : trim raw <> []) :
  let lower := to_lower (trim raw) in
  rows (handleSearch raw d) d =
    ((fun n => NoteRow (id_text n) n) <$> List.filter (note_matches lower) (studioNotes d)) ++
    (FileRow <$> List.filter (file_matches lower) (files d)) /\
  forall s n, data s = d -> n ∈ List.filter (note_matches lower) (studioNotes d) ->
    let s' := open_row (NoteRow (id_text n) n) s in
    page s' = Studio /\ search s' = None /\
    (openDocumentId s <> Some (id_text n) \/ tab s = None -> exists t, tab s' = Some t /\ selected t (data s') = Some n).
Proof.
  intros lower. split.
  - unfold rows, handleSearch. destruct (trim raw) as [|c q] eqn:E; [done|]. cbn [snd]. by apply rows_of_hits.
  - intros s n Hd [Hn Hm]%list_elem_of_In%filter_In. rewrite <- list_elem_of_In in Hn. apply andb_prop in Hm as [Hdel _].
    apply negb_true_iff in Hdel. intros s'.
    destruct Hnotes as [Hnd Hp]. rewrite Forall_forall in Hp. destruct (Hp n Hn) as (i & Hi & _).
    assert (Ei : id_text n = i) by (unfold id_text; by rewrite Hi).
    subst s'. unfold open_row, onOpenDocument. split_and!; [by case_bool_decide|by case_bool_decide|]. intros Ho.
    assert (Hsel : forall t, selectedId t = Some (id_text n) -> selected t d = Some n).
    { intros t Ht. unfold selected. rewrite Ht, Ei. apply find_unique; [done..|by rewrite Hdel]. }
    destruct Ho as [Ho|Ho].
    + rewrite (bool_decide_eq_false_2 (openDocumentId s = Some (id_text n))) by done.
      cbn. rewrite Hd. destruct (tab s) as [t|]; eexists; (split; [reflexivity|]); by apply Hsel.
    + case_bool_decide; cbn; rewrite Ho, Hd; eexists; (split; [reflexivity|]); by apply Hsel.
Qed.

Definition at_rest (s : Shell) : Prop := exists t, tab s = Some t /\ renamingId t = None /\ settled t = false.
(** A title typed on a card: Enter keeps it, Escape does not, leaving the field
    keeps it, and each only once, if the browser reports that the field lost the
    focus when it is removed. *)
Lemma rename_outcomes `{Html, Locale} uuid time s t id n v v' :
  tab s = Some t -> renamingId t = Some id -> settled t = false -> note_of id (data s) = Some n ->
  let renamed := updateStudioNote id (time (made s)) v (text_at (js "topic") n) (text_at (js "bodyHtml") n) (data s) in
  (data (run uuid time [Entered v; Blurred id v'] s) = renamed /\ data (run uuid time [Escaped; Blurred id v'] s) = data s /\
   data (run uuid time [Blurred id v] s) = renamed) /\
  at_rest (run uuid time [Entered v; Blurred id v'] s) /\ at_rest (run uuid time [Escaped; Blurred id v'] s) /\
  at_rest (run uuid time [Blurred id v] s).
Proof.
  destruct s as [p q o tb d m k c mk cf cl], t as [sel fl mn rn st rf]. cbn [tab renamingId settled data made].
  intros -> -> -> Hn. unfold run. cbn [fold_left handle].
  assert (Hr : forall tb f, rename time id f (mkShell p q o tb d m k c mk cf cl) =
    mkShell p q o tb (updateStudioNote id (time mk) f (text_at (js "topic") n) (text_at (js "bodyHtml") n) d) m k c (mk + 0)%nat cf cl)
    by (intros; unfold rename; cbn [data made]; by rewrite Hn).
  unfold rename_enter, rename_escape, rename_blur, on_tab, with_tab.
  cbn [tab mbind option_bind renamingId fmap option_fmap option_map renaming settled page search openDocumentId data toast refreshKey collapsed made confirmReset clearing].
  rewrite !Hr. cbn [tab fmap option_fmap option_map renaming settled renamingId page search openDocumentId data toast refreshKey collapsed made confirmReset clearing].
  split_and!; try done; eexists; (split; [reflexivity|done]).
Qed.

(** ** Runs *)

Module ShellRuns.
#[local] Existing Instance ascii_locale.
#[local] Instance tagless : Html := {| html_text s := s; html_blocks s := [s] |}.
Definition uuid (n : nat) : jstr := js "u" ++ repeat 49%N n.
Definition note (i t b : jstr) : jsval :=
  VObj [(js "id", VStr i); (js "title", VStr t); (js "topic", VStr []); (js "bodyHtml", VStr b); (js "createdAt", VStr i); (js "updatedAt", VStr i)].
Definition cells : jsval := note (js "a") (js "Cells") (js "the membrane").
Definition maths : jsval := note (js "b") (js "Maths") (js "sums").
Definition pdf : jsval := VObj [(js "id", VStr (js "c")); (js "name", VStr (js "Cell biology")); (js "addedAt", VStr [])].
Definition d0 : ForgeData := mkForgeData [] [] [cells; maths] [pdf] [] ALL_WIDGETS VUndef.
Definition s0 : Shell := start d0 None.

Lemma uuid_inj : Inj (=) (=) uuid.
Proof. intros x y Hxy. apply app_inv_head, (f_equal length) in Hxy. by rewrite !repeat_length in Hxy. Qed.
Lemma sane_s0 : sane uuid s0.
Proof.
  split.
  - split; cbn [d0 s0 start data notes studioNotes files activity widgets notesMigratedAt].
    + split; [constructor|done].
    + repeat constructor; eexists; (split; [reflexivity|]);
        (split_and!; [apply (bool_decide_unpack _); vm_compute; exact I|repeat constructor; right; constructor|reflexivity]).
    + split; [repeat constructor; apply (bool_decide_unpack _); vm_compute; exact I|reflexivity].
    + constructor.
    + split; [apply (bool_decide_unpack _); vm_compute; exact I|done].
    + by left.
  - apply (bool_decide_unpack _). vm_compute. exact I.
  - intros k _ Hk. revert Hk. change (filter_map id_of (studioNotes (data s0))) with [js "a"; js "b"].
    unfold uuid. change (js "u") with [117%N]. rewrite !elem_of_cons, elem_of_nil. intros [E|[E|[]]]; revert E; vm_compute (js _); discriminate.
Qed.
Definition busy : list Event :=
  [Went Studio; MenuAt (Some (js "a")); MenuRun MDuplicate; MenuAt (Some (js "a")); MenuRun MRename; Entered (js "Biology");
   Blurred (js "a") (js "Biology"); MenuAt (Some (js "b")); MenuRun MDelete; Created; Left].
Lemma notes_never_lost_witness :
  let s' := run uuid uuid busy s0 in
  (fun n => get (js "title") n) <$> live_notes (data s') = [VStr (js "Untitled note"); VStr (js "Cells copy"); VStr (js "Biology")] /\
  exists n', n' ∈ studioNotes (data s') /\ id_of n' = Some (js "b") /\ get (js "bodyHtml") n' = VStr (js "sums").
Proof.
  intros s'. split; [vm_compute; reflexivity|].
  destruct (notes_never_lost uuid uuid busy s0 uuid_inj sane_s0 eq_refl) as [_ [(es1 & es2 & E & _)|Hk]].
  { exfalso. assert (Hin : ClearAnswered true true ∈ busy) by (rewrite E; apply elem_of_app; right; left).
    repeat (apply elem_of_cons in Hin as [Hin|Hin]; [discriminate|]). by apply elem_of_nil in Hin. }
  destruct (Hk maths) as (n' & Hn & Hi & Hb); [by right; left|].
  exists n'. split_and!; [exact Hn|exact Hi|]. apply Hb. repeat constructor; intros [].
Defined.

Lemma search_shows_and_opens_witness :
  let s' := open_row (NoteRow (js "a") cells) s0 in
  rows (handleSearch (js " cell ") d0) d0 = [NoteRow (js "a") cells; FileRow pdf] /\
  page s' = Studio /\ exists t, tab s' = Some t /\ selected t (data s') = Some cells.
Proof.
  intros s'.
  assert (Hn : plain_ids (studioNotes d0)).
  { split; [apply (bool_decide_unpack _); vm_compute; exact I|]. repeat constructor; eexists; (split; [reflexivity|]); by apply colon_free. }
  assert (Hf : plain_ids (files d0)).
  { split; [apply (bool_decide_unpack _); vm_compute; exact I|]. repeat constructor; eexists; (split; [reflexivity|]); by apply colon_free. }
  destruct (search_shows_and_opens (js " cell ") d0 Hn Hf ltac:(vm_compute; discriminate)) as [Hr Ho].
  split; [rewrite Hr; vm_compute; reflexivity|].
  destruct (Ho s0 cells eq_refl) as (Hp & _ & Ht); [by left|]. split; [exact Hp|]. apply Ht. by right.
Defined.

(** Clearing everything is asked for, confirmed, and empties the workspace when
    the files are gone; until then, and when they cannot be removed, all is
    there. *)
Example cleared_when_confirmed :
  let asked := run uuid uuid [Went Settings; Confirm true; ClearPressed; Went Studio] s0 in
  data asked = d0 /\ data (handle uuid uuid (ClearAnswered false true) asked) = d0 /\
  data (handle uuid uuid (ClearAnswered true true) asked) = EMPTY_DATA /\
  data (run uuid uuid [Went Settings; ClearPressed; ClearAnswered true true] s0) = d0.
Proof. vm_compute. split_and!; reflexivity. Qed.

(** Choosing the same note a second time closes the search and shows the
    gallery; and a note that was found by a search opens again whenever the
    notes page is visited. *)
Example same_result_does_not_open :
  let opened := run uuid uuid [Picked (js "document:a")] s0 in
  let again := run uuid uuid [Left; Searched (js "cell"); Picked (js "document:a")] opened in
  (t ← tab opened; selected t (data opened)) = Some cells /\ page again = Studio /\ search again = None /\
  (t ← tab again; selected t (data again)) = None /\
  (let later := run uuid uuid [Went Home; Went Studio] again in t ← tab later; selected t (data later)) = Some cells.
Proof. vm_compute. split_and!; reflexivity. Qed.

(** Where no blur is reported for the removed field, the next title that is
    left by a click elsewhere is not kept. *)
Example missing_blur_loses_title :
  let s := run uuid uuid [Went Studio; MenuAt (Some (js "a")); MenuRun MRename; Escaped;
                          MenuAt (Some (js "b")); MenuRun MRename; Blurred (js "b") (js "Algebra")] s0 in
  data s = data s0.
Proof. vm_compute. reflexivity. Qed.
End ShellRuns.
