(* ===== verification/TeacherAttendance.v ===== *)
(** * The attendance register ([AttendanceView] and [AttendanceRow] of
    [apps/teacher/src/App.tsx])

    [Register] is the state of the view and of its rows.  A row keeps its own
    note and status from the moment it appears; React keeps it as long as its
    key, the day and the student, stays on the page, and [show] does the same.
    Loading and saving are scripts that interleave.  [sent] lists what was sent
    to the Host and, beside it, the register that was on the page then; nothing
    reads it. *)

From stdpp Require Import list.
From S2P Require Import Prelude Script JsString JsNumber JsValue Types.
Local Open Scope Z_scope.
Local Open Scope script_scope.

(** ** Data *)

Inductive AttendanceStatus := Present | Absent | Late | Excused.
#[export] Instance AttendanceStatus_eq : EqDecision AttendanceStatus.
Proof. solve_decision. Defined.
Record AttendanceRecord := mkRecord {
  student_id : jstr; student_name : jstr; r_status : option AttendanceStatus; r_note : jstr;
  checked_in : bool; present_percentage : option Z
}.
Record AttendanceDay := mkDay { d_classroom_id : jstr; d_day : jstr; records : list AttendanceRecord }.

(** [row_no] tells apart the rows mounted one after the other. *)
Record Row := mkRow { row_no : nat; row_note : jstr; row_status : option AttendanceStatus; row_busy : bool }.
Record Sent := mkSent {
  sv_room : jstr; sv_day : jstr; sv_student : jstr; sv_status : AttendanceStatus; sv_note : jstr;
  sv_shown : option AttendanceDay
}.
Record Register := mkRegister {
  rooms : list Classroom; classroomId : jstr; day : jstr; sheet : option AttendanceDay; error : jstr;
  rows : list (jstr * Row); born : nat; sent : list Sent
}.

Inductive Query :=
  | GetAttendance (room day : jstr)
  | SaveAttendance (room day student : jstr) (status : AttendanceStatus) (note : jstr)
  | Updated.
(** A failure carries its message, when it is an [Error]. *)
Definition answer (q : Query) : Type :=
  match q with
  | GetAttendance _ _ => outcome (option jstr) AttendanceDay
  | SaveAttendance _ _ _ _ _ => outcome (option jstr) AttendanceRecord
  | Updated => unit
  end.
Local Abbreviation Script := (Script Register answer).
Local Abbreviation System := (System Register answer).

Definition with_room (id : jstr) (w : Register) : Register :=
  mkRegister (rooms w) id (day w) (sheet w) (error w) (rows w) (born w) (sent w).
Definition with_rooms (cs : list Classroom) (w : Register) : Register :=
  mkRegister cs (classroomId w) (day w) (sheet w) (error w) (rows w) (born w) (sent w).
Definition with_day (d : jstr) (w : Register) : Register :=
  mkRegister (rooms w) (classroomId w) d (sheet w) (error w) (rows w) (born w) (sent w).
Definition set_error (m : jstr) (w : Register) : Register :=
  mkRegister (rooms w) (classroomId w) (day w) (sheet w) m (rows w) (born w) (sent w).
Definition with_rows (rs : list (jstr * Row)) (w : Register) : Register :=
  mkRegister (rooms w) (classroomId w) (day w) (sheet w) (error w) rs (born w) (sent w).
Definition sending (s : Sent) (w : Register) : Register :=
  mkRegister (rooms w) (classroomId w) (day w) (sheet w) (error w) (rows w) (born w) (sent w ++ [s]).

(** ** Rows *)

Definition row_key (day student : jstr) : jstr := day ++ js ":" ++ student.
Definition new_row (n : nat) (r : AttendanceRecord) : Row := mkRow n (r_note r) (r_status r) false.
Definition mounted (d : jstr) (old : list (jstr * Row)) (n : nat) (rs : list AttendanceRecord) : list (jstr * Row) :=
  imap (fun i r => let k := row_key d (student_id r) in (k, default (new_row (n + i) r) (assoc k old))) rs.
(** [setSheet], with the rows the page has then. *)
Definition show (s : option AttendanceDay) (w : Register) : Register :=
  let rs := match s with Some s => records s | None => [] end in
  mkRegister (rooms w) (classroomId w) (day w) s (error w)
    (mounted (day w) (rows w) (born w) rs) (born w + length rs)%nat (sent w).
Definition row_of (id : jstr) (w : Register) : option Row := assoc (row_key (day w) id) (rows w).
Definition record_of (id : jstr) (w : Register) : option AttendanceRecord :=
  s ← sheet w; find (fun r => seqb (student_id r) id) (records s).
(** A change of the row that was mounted as number [n]. *)
Definition on_row (key : jstr) (n : nat) (f : Row -> Row) (w : Register) : Register :=
  with_rows ((fun e => if seqb (fst e) key && Nat.eqb (row_no (snd e)) n then (fst e, f (snd e)) else e) <$> rows w) w.
Definition set_busy (b : bool) (r : Row) : Row := mkRow (row_no r) (row_note r) (row_status r) b.
Definition set_status (s : AttendanceStatus) (r : Row) : Row := mkRow (row_no r) (row_note r) (Some s) (row_busy r).
Definition set_note (t : jstr) (r : Row) : Row := mkRow (row_no r) t (row_status r) (row_busy r).

(** ** Loading and saving *)

Definition msg_not_loaded : jstr := js "Attendance could not be loaded.".
Definition msg_not_saved : jstr := js "Attendance could not be saved.".
Definition load (room d : jstr) : Script unit :=
  if truthy room then
    Do (set_error [])
      (r <- Script.ask (GetAttendance room d);;
       match r with
       | Ok s => Script.update (show (Some s))
       | Throw x => Script.update (fun w => set_error (failure_text x msg_not_loaded) (show None w))
       end)
  else Script.update (show None).
(** [save] of a row with the [onSave] of the render it belongs to.  The refresh
    of the workspace never fails and is waited for together with the load; it
    changes the register only through its props, so it may be asked second. *)
Definition save (id : jstr) (r : Row) (status : AttendanceStatus) (note : jstr) : Script unit :=
  w <- Script.get;;
  let room := classroomId w in let d := day w in
  let row := on_row (row_key d id) (row_no r) in
  Do (row (set_busy true)) (Do (set_error []) (Do (sending (mkSent room d id status note (sheet w)))
    (a <- Script.ask (SaveAttendance room d id status note);;
     match a with
     | Throw x => Script.update (fun w => row (set_busy false) (set_error (failure_text x msg_not_saved) w))
     | Ok _ =>
       load room d;;
       _ <- Script.ask Updated;;
       Script.update (row (fun r => set_busy false (set_status status r)))
     end))).
(** A status is pressed; the buttons of a busy row are disabled. *)
Definition press (id : jstr) (status : AttendanceStatus) : Script unit :=
  w <- Script.get;;
  match row_of id w with
  | Some r => if row_busy r then Ret tt else save id r status (row_note r)
  | None => Ret tt
  end.
(** The note loses the focus. *)
Definition blur (id : jstr) : Script unit :=
  w <- Script.get;;
  match row_of id w, record_of id w with
  | Some r, Some rec =>
    match row_status r with
    | Some status => if seqb (row_note r) (r_note rec) then Ret tt else save id r status (row_note r)
    | None => Ret tt
    end
  | _, _ => Ret tt
  end.
Definition type_note (id text : jstr) (w : Register) : Register :=
  match row_of id w with Some r => on_row (row_key (day w) id) (row_no r) (set_note text) w | None => w end.

(** ** Events *)

(** The classroom after the effect that looks for the chosen one. *)
Definition first_room (cs : list Classroom) : jstr := match cs with c :: _ => classroom_id c | [] => [] end.
Definition settled (w : Register) : jstr :=
  let id := classroomId w in
  if truthy id && existsb (fun c => seqb (classroom_id c) id) (rooms w) then id else first_room (rooms w).

Inductive Event :=
  | ChooseRoom (id : jstr) | ChooseDay (d : jstr) | Rooms (cs : list Classroom) | Refresh
  | Press (id : jstr) (status : AttendanceStatus) | Note (id text : jstr) | Blur (id : jstr)
  | Answered (i : nat) (o : forall q, answer q).

Definition apply (f : Register -> Register) (y : System) : System := mkSystem (f (world y)) (waiting y).
Definition reload (y : System) : System := start (load (classroomId (world y)) (day (world y))) y.
Definition settle (y : System) : System :=
  let id := settled (world y) in
  if seqb id (classroomId (world y)) then y else reload (apply (with_room id) y).
Definition cleared (w : Register) : Register := set_error [] (show None w).
Definition step (ev : Event) (y : System) : System :=
  match ev with
  | ChooseRoom id =>
    let y' := apply (fun w => cleared (with_room id w)) y in
    if seqb id (classroomId (world y)) then y' else settle (reload y')
  | ChooseDay d =>
    let y' := apply (fun w => cleared (with_day d w)) y in
    if seqb d (day (world y)) then y' else reload y'
  | Rooms cs => settle (apply (with_rooms cs) y)
  | Refresh => reload y
  | Press id status => start (press id status) y
  | Note id text => apply (type_note id text) y
  | Blur id => start (blur id) y
  | Answered i o => resume i o y
  end.
Definition run (es : list Event) (y : System) : System := fold_left (fun y ev => step ev y) es y.
Definition opened (cs : list Classroom) (today : jstr) : System :=
  reload (mkSystem (mkRegister cs (first_room cs) today None [] [] 0 []) []).

(** ** What a row and an empty page say *)

Definition percentage_text (r : AttendanceRecord) : jstr :=
  match present_percentage r with Some n => show_Z n ++ js "% present" | None => js "No attendance recorded" end.
Definition choices : list AttendanceStatus := [Present; Absent; Late; Excused].
Definition status_text (s : AttendanceStatus) : jstr :=
  match s with Present => js "present" | Absent => js "absent" | Late => js "late" | Excused => js "excused" end.
(** The buttons of a row: the text, whether it is marked as chosen and whether
    it can be pressed. *)
Definition buttons (r : Row) : list (jstr * bool * bool) :=
  (fun c => (status_text c, bool_decide (row_status r = Some c), negb (row_busy r))) <$> choices.
Definition page_text (w : Register) : option (jstr * jstr) :=
  match sheet w, rooms w with
  | Some _, _ => None
  | None, _ :: _ => Some (js "Loading attendance", js "Preparing this day’s register.")
  | None, [] => Some (js "No classroom selected", js "Create or join a teaching team before taking attendance.")
  end.

(** ** Properties *)

Module AttendanceFacts.

(** The register on the page is that of the chosen classroom and day. *)
Definition in_place (w : Register) : Prop :=
  match sheet w with Some s => d_classroom_id s = classroomId w /\ d_day s = day w | None => True end.
(** What was sent was about a student of the register on the page, for the
    classroom and the day of that register. *)
Definition well_placed (e : Sent) : Prop :=
  match sv_shown e with
  | Some s => d_classroom_id s = sv_room e /\ d_day s = sv_day e /\ sv_student e ∈ student_id <$> records s
  | None => False
  end.
(** A row belongs to a record on the page. *)
Definition rows_listed (w : Register) : Prop :=
  forall id, is_Some (row_of id w) -> exists s, sheet w = Some s /\ id ∈ student_id <$> records s.
Definition good (w : Register) : Prop := in_place w /\ rows_listed w /\ Forall well_placed (sent w).
Definition same_choice (w w' : Register) : Prop := classroomId w' = classroomId w /\ day w' = day w.
#[export] Instance same_choice_preorder : PreOrder same_choice.
Proof. split; [done|]. intros a b c [? ?] [? ?]. split; congruence. Qed.
(** The Host answers with the register it was asked for. *)
Definition as_asked (q : Query) : answer q -> Prop :=
  match q with
  | GetAttendance room d => fun a => match a with Ok s => d_classroom_id s = room /\ d_day s = d | Throw _ => True end
  | _ => fun _ => True
  end.

Lemma row_key_inj d i j : row_key d i = row_key d j -> i = j.
Proof. unfold row_key. intros Hk. by do 2 apply app_inv_head in Hk. Qed.
Lemma assoc_fst {A} k (l : list (jstr * A)) : is_Some (assoc k l) <-> k ∈ l.*1.
Proof.
  induction l as [|[k' v] l IH]; cbn [assoc fmap list_fmap fst]; [split; [by intros []|by intros []%elem_of_nil]|].
  rewrite elem_of_cons. destruct (seqb k' k) eqn:E.
  - apply seqb_eq in E as ->. naive_solver.
  - apply seqb_neq in E. rewrite IH. naive_solver.
Qed.
Lemma imap_fst {A K B} (k : A -> K) (f : nat -> A -> B) l : (imap (fun i x => (k x, f i x)) l).*1 = k <$> l.
Proof. revert f. induction l as [|x l IH]; intros f; [done|]. cbn [imap fmap list_fmap fst]. f_equal. apply (IH (f ∘ S)). Qed.
Lemma mounted_keys d old n rs : (mounted d old n rs).*1 = (fun r => row_key d (student_id r)) <$> rs.
Proof. apply imap_fst. Qed.
Lemma on_row_keys k n f w : (rows (on_row k n f w)).*1 = (rows w).*1.
Proof. cbn. rewrite <- list_fmap_compose. apply list_fmap_ext. intros i e _. cbn. by destruct (_ && _). Qed.
Lemma show_listed s w : rows_listed (show s w).
Proof.
  intros id Hr. apply assoc_fst in Hr. cbn [show rows day] in Hr. rewrite mounted_keys in Hr.
  destruct s as [s|]; [|by apply elem_of_nil in Hr]. exists s. split; [done|].
  apply list_elem_of_fmap in Hr as (r & Hk & Hr). apply row_key_inj in Hk as ->. by apply list_elem_of_fmap_2.
Qed.

(** Changes that keep [good] and the choice. *)
Definition mild (f : Register -> Register) : Prop :=
  forall w, good w -> good (f w) /\ same_choice w (f w).
Lemma mild_rows f : (forall w, sheet (f w) = sheet w /\ sent (f w) = sent w /\ (rows (f w)).*1 = (rows w).*1 /\ same_choice w (f w)) -> mild f.
Proof.
  intros Hf w (H1 & H2 & H3). destruct (Hf w) as (Es & Et & Er & Hc & Hd). split; [|done]. unfold good, in_place, rows_listed, row_of in *.
  rewrite Es, Et, Hc, Hd. split_and!; [done| |done]. intros id Hi. apply assoc_fst in Hi. rewrite Er in Hi.
  apply H2, assoc_fst, Hi.
Qed.
Lemma mild_error m : mild (set_error m).
Proof. by apply mild_rows. Qed.
Lemma mild_row k n f : mild (on_row k n f).
Proof. apply mild_rows. intros w. split_and!; [done..| |done]. apply on_row_keys. Qed.
Lemma mild_none : mild (show None).
Proof. intros w (_ & _ & H3). split; [|done]. split_and!; [done|apply show_listed|done]. Qed.
Lemma mild_some w s : good w -> d_classroom_id s = classroomId w -> d_day s = day w -> good (show (Some s) w).
Proof. intros (_ & _ & H3) Hc Hd. split_and!; [done|apply show_listed|done]. Qed.
Lemma mild_then f g : mild f -> mild g -> mild (fun w => g (f w)).
Proof. intros Hf Hg w Hw. destruct (Hf w Hw) as [H1 H2]. destruct (Hg _ H1) as [H3 H4]. split; [done|]. by etransitivity. Qed.

Local Abbreviation safely s := (forall w0 w, good w /\ same_choice w0 w -> safe good same_choice as_asked s (kept good same_choice) w0 w).
Lemma safely_update f : mild f -> safely (Script.update f : Script unit).
Proof. intros Hf w0 w [Hw Hc]. destruct (Hf w Hw). split; [done|]. by transitivity w. Qed.
Lemma safely_do f (s : Script unit) : mild f -> safely s -> safely (Do f s).
Proof. intros Hf Hs w0 w [Hw Hc]. destruct (Hf w Hw). apply Hs. split; [done|]. by transitivity w. Qed.

(** A load of the current choice. *)
Lemma safe_load room d w0 w : good w -> same_choice w0 w -> room = classroomId w -> d = day w ->
  safe good same_choice as_asked (load room d) (kept good same_choice) w0 w.
Proof.
  intros Hw Hc -> ->. unfold load. destruct (truthy _); [|by apply safely_update; [apply mild_none|]].
  cbn [safe]. destruct (mild_error [] w Hw) as [Hw1 Hc1].
  split; [split; [done|by transitivity w]|]. intros [s|x] w' Ha Hw' [Hc2 Hd2]; cbn in Hc2, Hd2.
  - destruct Ha as [Ha1 Ha2]. cbn [bind safe Script.update]. split; [|done]. apply mild_some; congruence.
  - apply safely_update; [|done]. apply mild_then; [apply mild_none|apply mild_error].
Qed.

(** A save that is sent for the row of a record on the page. *)
Lemma safe_save id r status note w0 w : good w -> same_choice w0 w -> is_Some (row_of id w) ->
  safe good same_choice as_asked (save id r status note) (kept good same_choice) w0 w.
Proof.
  intros Hw Hc Hrow. unfold save. cbn [bind safe Script.get Script.ask].
  set (w1 := sending _ _).
  assert (Hw1 : good w1 /\ same_choice w w1).
  { destruct (mild_error [] _ (proj1 (mild_row (row_key (day w) id) (row_no r) (set_busy true) w Hw))) as [(G1 & G2 & G3) _].
    split; [|done]. split_and!; [exact G1|exact G2|]. apply Forall_app_2; [exact G3|]. apply Forall_singleton. unfold well_placed. cbn [sv_shown].
    destruct Hw as (P1 & P2 & _). destruct (P2 id Hrow) as (s & Es & Hin). unfold in_place in P1. rewrite Es in P1 |- *. naive_solver. }
  destruct Hw1 as [Hg1 Hc1]. split; [split; [done|by transitivity w]|].
  intros [a|x] w' _ Hw' Hc'; cbn [bind].
  - apply safe_bind. eapply safe_mono; [|apply safe_load; [done..|symmetry; apply Hc'|symmetry; apply Hc']].
    intros [] w2 w3 [Hg3 Hc3]. cbn [bind safe Script.ask]. split; [done|]. intros _ w4 _ Hg4 Hc4.
    by apply safely_update; [apply mild_row|].
  - apply safely_update; [|done]. apply mild_then; [apply mild_error|apply mild_row].
Qed.
Lemma safe_press id status w : good w -> safe good same_choice as_asked (press id status) (kept good same_choice) w w.
Proof.
  intros Hw. unfold press. cbn [bind safe Script.get]. destruct (row_of id w) as [r|] eqn:Er; [|done].
  destruct (row_busy r); [done|]. apply safe_save; [done..|by rewrite Er].
Qed.
Lemma safe_blur id w : good w -> safe good same_choice as_asked (blur id) (kept good same_choice) w w.
Proof.
  intros Hw. unfold blur. cbn [bind safe Script.get]. destruct (row_of id w) as [r|] eqn:Er; [|done].
  destruct (record_of id w); [|done]. destruct (row_status r); [|done]. destruct (seqb _ _); [done|].
  apply safe_save; [done..|by rewrite Er].
Qed.

(** Another day or classroom is chosen only while nothing is awaited. *)
Definition orderly (ev : Event) (y : System) : Prop :=
  match ev with
  | ChooseDay _ => waiting y = []
  | ChooseRoom id => waiting y = [] /\ settled (with_room id (world y)) = id
  | Rooms cs => settled (with_rooms cs (world y)) = classroomId (world y)
  | Answered i o => forall q, as_asked q (o q)
  | _ => True
  end.
Fixpoint all_orderly (es : list Event) (y : System) : Prop :=
  match es with [] => True | ev :: es => orderly ev y /\ all_orderly es (step ev y) end.
Local Abbreviation ok y := (sound good same_choice as_asked y).

Lemma ok_reload y : ok y -> ok (reload y).
Proof. intros Hy. apply start_sound; [apply _|done|]. apply safe_load; [apply Hy|done..]. Qed.
Lemma ok_apply f y : mild f -> ok y -> ok (apply f y).
Proof.
  intros Hf [Hg Hw]. destruct (Hf _ Hg) as [Hg' Hc]. split; [done|]. cbn [apply world waiting].
  eapply Forall_impl; [exact Hw|]. intros s. apply ready_later; [apply _|done].
Qed.
Lemma ok_idle w y : waiting y = [] -> good w -> ok (mkSystem w (waiting y)).
Proof. intros -> Hw. split; [done|constructor]. Qed.
Lemma cleared_good w w' : sent w' = sent w -> good w -> good (cleared w').
Proof.
  intros Es (_ & _ & H3). unfold cleared. split_and!; [done|apply (show_listed None)|]. cbn [set_error show sent]. by rewrite Es.
Qed.
Lemma register_step_ok ev y : orderly ev y -> ok y -> ok (step ev y).
Proof.
  intros Ho Hy. destruct ev as [id|d|cs| |id st|id t|id|i o]; cbn [step orderly] in *.
  - destruct Ho as [Hw Hs].
    assert (Ho : ok (apply (fun w => cleared (with_room id w)) y)) by (apply ok_idle; [done|]; by eapply cleared_good, Hy).
    destruct (seqb _ _); [done|]. apply ok_reload in Ho. unfold settle.
    assert (Es : settled (world (reload (apply (fun w => cleared (with_room id w)) y))) = id).
    { etransitivity; [|exact Hs]. unfold reload, load, start. cbn [apply world]. by destruct (truthy _). }
    assert (Ei : classroomId (world (reload (apply (fun w => cleared (with_room id w)) y))) = id).
    { unfold reload, load, start. cbn [apply world]. by destruct (truthy _). }
    rewrite Es, Ei, seqb_refl. done.
  - assert (Ho' : ok (apply (fun w => cleared (with_day d w)) y)) by (apply ok_idle; [done|]; by eapply cleared_good, Hy).
    destruct (seqb _ _); [done|]. by apply ok_reload.
  - unfold settle. cbn [apply world]. rewrite Ho. cbn [with_rooms classroomId]. rewrite seqb_refl.
    apply (ok_apply (with_rooms cs)); [|done]. by apply mild_rows.
  - by apply ok_reload.
  - apply start_sound; [apply _|done|]. apply safe_press, Hy.
  - apply ok_apply; [|done]. unfold type_note. intros w Hw. destruct (row_of id w); [|done]. by apply mild_row.
  - apply start_sound; [apply _|done|]. apply safe_blur, Hy.
  - apply resume_sound; [apply _|done..].
Qed.
Lemma run_ok es y : all_orderly es y -> ok y -> ok (run es y).
Proof.
  revert y. induction es as [|ev es IH]; intros y Ho Hy; [done|]. destruct Ho as [H1 H2]. cbn [run fold_left].
  apply IH; [done|]. by apply register_step_ok.
Qed.
Lemma opened_ok cs today : ok (opened cs today).
Proof.
  apply ok_reload. split; [|constructor]. split_and!; [done| |constructor]. intros id [r Hr]. done.
Qed.
End AttendanceFacts.
Import AttendanceFacts.

(** ** Claims *)

(** C4. Attendance is saved where it is read: as long as another day or
    classroom is chosen only while no request is awaited, and the Host answers
    with the register that was asked for, the register on the page is always
    that of the chosen classroom and day, and every mark that is sent is for
    that classroom and day and for a student of that register, whatever else
    is pressed, typed, refreshed and answered in the meantime. *)
Theorem attendance_saved_where_read cs today es
    (Ho : all_orderly es (opened cs today)) :
  let w := world (run es (opened cs today)) in
  in_place w /\ Forall well_placed (sent w).
Proof.
  intros w. assert (Hk : sound good same_choice as_asked (run es (opened cs today))) by (apply run_ok; [done|apply opened_ok]).
  destruct Hk as [(H1 & _ & H3) _]. done.
Qed.

Module OutcomeFacts.
Lemma on_row_of id n f r w : row_of id w = Some r -> row_no r = n -> row_of id (on_row (row_key (day w) id) n f w) = Some (f r).
Proof.
  unfold row_of, on_row. cbn [with_rows rows day]. intros Hr <-. induction (rows w) as [|[k x] l IH]; [done|].
  cbn [assoc fmap list_fmap fst snd] in *. destruct (seqb k (row_key (day w) id)) eqn:E; cbn [andb].
  - injection Hr as ->. rewrite Nat.eqb_refl. cbn [assoc]. by rewrite E.
  - cbn [assoc]. rewrite E. by apply IH.
Qed.
Lemma assoc_imap k (f : nat -> AttendanceRecord -> Row) rs d id r :
  k = row_key d id -> id ∈ student_id <$> rs -> (forall i x, student_id x = id -> f i x = r) ->
  assoc k (imap (fun i x => (row_key d (student_id x), f i x)) rs) = Some r.
Proof.
  intros ->. revert f. induction rs as [|x rs IH]; intros f Hin Hf; [by apply elem_of_nil in Hin|]. cbn [imap assoc].
  destruct (seqb _ _) eqn:E.
  - apply seqb_eq, row_key_inj in E. by rewrite Hf.
  - apply (IH (f ∘ S)).
    + apply elem_of_cons in Hin as [->|Hin]; [by rewrite seqb_refl in E|done].
    + intros i y Hy. by apply Hf.
Qed.
(** A row whose student is still listed stays as it is. *)
Lemma show_keeps id r s w : row_of id w = Some r -> id ∈ student_id <$> records s -> row_of id (show (Some s) w) = Some r.
Proof.
  intros Hr Hin. unfold row_of in *. cbn [show rows day]. apply (assoc_imap _ _ _ (day w) id); [done..|].
  intros i x ->. by rewrite Hr.
Qed.
End OutcomeFacts.
Import OutcomeFacts.

(** One status that is pressed, on every branch: exactly one mark is sent,
    with the note as typed.  When the Host refuses, the row keeps its status
    and its note, the register stays and the message is shown.  When it
    accepts, the register is read again; the row shows the new status, or,
    where the register cannot be read, no register is shown and the message
    says so.  The row is not busy afterwards. *)
Theorem mark_outcome id r status env n w
    (Hr : row_of id w = Some r) (Hb : row_busy r = false) (Hc : truthy (classroomId w) = true) :
  let w' := snd (finish (press id status) env n w) in
  sent w' = sent w ++ [mkSent (classroomId w) (day w) id status (row_note r) (sheet w)] /\
  match env n (SaveAttendance (classroomId w) (day w) id status (row_note r)) with
  | Throw x => row_of id w' = Some r /\ sheet w' = sheet w /\ error w' = failure_text x msg_not_saved
  | Ok _ =>
    match env (S n) (GetAttendance (classroomId w) (day w)) with
    | Throw x => sheet w' = None /\ rows w' = [] /\ error w' = failure_text x msg_not_loaded
    | Ok s =>
      sheet w' = Some s /\ error w' = [] /\
      (id ∈ student_id <$> records s -> row_of id w' = Some (mkRow (row_no r) (row_note r) (Some status) false))
    end
  end.
Proof.
  intros w'. unfold w', press. cbn [bind finish Script.get]. rewrite Hr, Hb. unfold save. cbn [bind finish Script.get Script.ask].
  destruct (env n _) as [a|x]; cbn [bind].
  - unfold load. rewrite Hc. cbn [bind finish Script.ask]. destruct (env (S n) _) as [s|x]; cbn [bind finish Script.update Script.ask snd].
    + split_and!; [done..|]. intros Hin.
      set (w1 := show _ _). assert (E1 : row_of id w1 = Some (set_busy true r)).
      { apply show_keeps; [|done]. by apply (on_row_of id (row_no r) (set_busy true)). }
      apply (on_row_of id (row_no r) (fun r => set_busy false (set_status status r))) in E1; [|done]. exact E1.
    + done.
  - cbn [finish Script.update snd]. split_and!; [done| |done..].
    destruct r as [k t s b]. cbn in Hb. subst b.
    set (w1 := set_error _ (sending _ _)). assert (E1 : row_of id w1 = Some (set_busy true (mkRow k t s false))).
    { by apply (on_row_of id k (set_busy true) (mkRow k t s false) w). }
    by apply (on_row_of id k (set_busy false)) in E1.
Qed.

(** ** Runs *)

Module AttendanceRuns.
Definition maths : Classroom := mkClassroom (js "c1") (js "Maths") None [] [] [] [] [] 2 [].
Definition entry (id : jstr) (s : option AttendanceStatus) (note : jstr) : AttendanceRecord := mkRecord id id s note false None.
Definition register (d : jstr) (rs : list AttendanceRecord) : AttendanceDay := mkDay (js "c1") d rs.
(** The Host, with the records it has of any day. *)
Definition host (rs : list AttendanceRecord) : forall q, answer q := fun q =>
  match q with
  | GetAttendance room d => Ok (mkDay room d rs)
  | SaveAttendance _ _ id s note => Ok (entry id (Some s) note)
  | Updated => tt
  end.
Definition away : forall q, answer q := fun q =>
  match q with GetAttendance _ _ => Throw None | SaveAttendance _ _ _ _ _ => Throw None | Updated => tt end.
Definition mon : jstr := js "2025-01-06".
Definition tue : jstr := js "2025-01-07".
Definition go (es : list Event) : Register := world (run es (opened [maths] mon)).
Definition ada := js "ada".
Definition bob := js "bob".
Definition unmarked := [entry ada None []; entry bob None []].
Lemma as_asked_host rs q : as_asked q (host rs q).
Proof. by destruct q. Qed.

Definition a_day : list Event :=
  [Answered 0 (host unmarked); Press ada Late; Note bob (js "ill"); Press bob Absent;
   Answered 0 (host []); Answered 0 (host []); Answered 0 (host unmarked); Answered 0 (host unmarked);
   Answered 0 (host []); Answered 0 (host []); ChooseDay tue; Answered 0 (host unmarked); Press ada Present].
Lemma attendance_saved_where_read_witness :
  let w := go a_day in
  (in_place w /\ Forall well_placed (sent w)) /\
  ((fun e => (sv_day e, sv_student e, sv_note e)) <$> sent w) = [(mon, ada, []); (mon, bob, js "ill"); (tue, ada, [])] /\
  row_status <$> row_of bob w = Some None.
Proof.
  split; [|vm_compute; done]. apply attendance_saved_where_read.
  repeat split; try (vm_compute; reflexivity); intros q; apply as_asked_host.
Defined.

Definition shown : Register := go [Answered 0 (host unmarked); Note bob (js "ill")].
Definition bob_row : Row := mkRow 1 (js "ill") None false.
Lemma mark_outcome_witness :
  let w' := snd (finish (press bob Absent) (fun _ => host unmarked) 0 shown) in
  row_of bob w' = Some (mkRow 1 (js "ill") (Some Absent) false) /\ error w' = [].
Proof.
  destruct (mark_outcome bob bob_row Absent (fun _ => host unmarked) 0 shown) as (_ & _ & He & Hr); [vm_compute; reflexivity..|].
  split; [|exact He]. apply Hr. vm_compute. right. left.
Defined.

(** Another day is chosen before the first has been read: its late answer is
    shown under the other day, and a mark pressed there is sent for it. *)
Example late_day_shown_under_next :
  let w := go [ChooseDay tue; Answered 1 (host unmarked); Answered 0 (host [entry ada (Some Late) []]); Press ada Late] in
  day w = tue /\ d_day <$> sheet w = Some mon /\
  ((fun e => (sv_day e, sv_student e, sv_status e)) <$> sent w) = [(tue, ada, Late)].
Proof. vm_compute. done. Qed.

(** Rows keep what they showed: after a refresh the status and the note that a
    colleague has set meanwhile are not shown, and as soon as the note field is
    left, the earlier note is sent over the newer one. *)
Example refresh_keeps_old_rows :
  let w := go [Answered 0 (host [entry ada (Some Present) []]); Refresh;
               Answered 0 (host [entry ada (Some Absent) (js "rang in")]); Blur ada] in
  (r_status <$> record_of ada w, row_status <$> row_of ada w) = (Some (Some Absent), Some (Some Present)) /\
  ((fun e => (sv_student e, sv_status e, sv_note e)) <$> sent w) = [(ada, Present, [])].
Proof. vm_compute. done. Qed.

(** A note is typed and then another status pressed: leaving the note sends the
    old status and makes the row busy, so that the press is ignored. *)
Example press_after_note_ignored :
  let w := go [Answered 0 (host [entry ada (Some Present) []]); Note ada (js "ill"); Blur ada; Press ada Absent;
               Answered 0 (host []); Answered 0 (host [entry ada (Some Present) (js "ill")]); Answered 0 (host [])] in
  ((fun e => (sv_status e, sv_note e)) <$> sent w) = [(Present, js "ill")] /\ row_status <$> row_of ada w = Some (Some Present).
Proof. vm_compute. done. Qed.

(** Marking needs two requests; when only the second fails the mark is saved
    but the register is gone, under a message about loading. *)
Example marked_but_not_shown :
  let w := go [Answered 0 (host unmarked); Press ada Late; Answered 0 (host []); Answered 0 away; Answered 0 (host [])] in
  sheet w = None /\ error w = msg_not_loaded /\ sv_status <$> sent w = [Late] /\
  page_text w = Some (js "Loading attendance", js "Preparing this day’s register.").
Proof. vm_compute. done. Qed.
End AttendanceRuns.
