(* ===== verification/TeacherAssignments.v ===== *)
(** * Assignments and grading ([AssignmentsView], [AssignmentListRow],
    [CreateAssignmentModal], [EditAssignmentModal] and [GradeModal] of
    [apps/teacher/src/App.tsx])

    [Desk] is the state of the view and of the form that is open over it.
    What waits for the Host is a script; [asked] lists what was sent, and
    nothing reads it.  A form is modal, so nothing behind it can be pressed:
    the events that open a form do nothing while one is open.  What the browser
    checks before it submits a form is [points_ok].  [LocalTime] is the clock
    of the computer. *)

From Stdlib Require Import QArith.
From stdpp Require Import list.
From S2P Require Import Prelude Script JsString JsNumber JsValue Locale Types.
Local Open Scope Z_scope.
Local Open Scope script_scope.

(** ** Local time *)

Definition MINUTE : Z := 60000.
(** [offset t] is [getTimezoneOffset] at the instant [t]; [of_local l] the
    instant at which the computer's clock and calendar show what [l] shows in
    UTC; [minute_text t] the first sixteen characters of [toISOString];
    [read_minute] the time such a text shows, as if in UTC; [iso] [toISOString]
    and [invalid_time] the message of its [RangeError]. *)
Class LocalTime := {
  offset : Z -> Z;
  of_local : Z -> Z;
  minute_text : Z -> jstr;
  read_minute : jstr -> option Z;
  iso : Z -> jstr;
  invalid_time : jstr
}.
Definition local `{LocalTime} (t : Z) : Z := t - offset t * MINUTE.
(** From 1973, when the last zone took to whole minutes, to the year 9891: in
    that time the texts have four digits for the year. *)
Definition era (t : Z) : Prop := 10 ^ 11 <= t < 25 * 10 ^ 13.
(** A zone is less than a day away; a local time that stands for one instant
    only is read as that instant; the texts are read back up to the minute. *)
Class LocalTimeLaws (C : LocalTime) : Prop := {
  offset_bound : forall t, era t -> -1440 < offset t < 1440;
  of_local_only : forall t, era t ->
    (forall t', Z.abs (t' - t) <= 2 * 1440 * MINUTE -> local t' = local t -> t' = t) -> of_local (local t) = t;
  minute_text_some : forall t, era t -> truthy (minute_text t) = true;
  read_minute_text : forall t, era t -> read_minute (minute_text t) = Some (t - t mod MINUTE)
}.

Section times.
Context `{Dates, LocalTime}.
(** [dateTimeInput]; [None] is the [RangeError] of a date that cannot be read. *)
Definition dateTimeInput (value : option jstr) : option jstr :=
  match value with
  | None | Some [] => Some []
  | Some v =>
    t ← date_parse v;
    Some (minute_text (of_local (local t - offset t * MINUTE)))
  end.
(** [due ? new Date(due).toISOString() : null]. *)
Definition due_value (due : jstr) : outcome (option jstr) (option jstr) :=
  if truthy due
  then match read_minute due with Some l => Ok (Some (iso (of_local l))) | None => Throw (Some invalid_time) end
  else Ok None.
End times.

(** ** Data *)

Record AssignmentEditInput := mkEditInput {
  i_classroom : jstr; i_title : jstr; i_instructions : jstr; i_due : option jstr; i_points : jsnum;
  i_scheme : jsval; i_status : AssignmentStatus
}.
Record CreateInput := mkCreateInput {
  n_classroom : jstr; n_title : jstr; n_instructions : jstr; n_due : option jstr; n_points : jsnum;
  n_scheme : jsval; n_publish : bool
}.
Record SubmissionComment := mkComment { comment_id : jstr; author_name : jstr; comment_body : jstr }.
Record GradeChange := mkChange { change_id : jstr; changed_at : jstr }.

Record CreateForm := mkCreate {
  c_no : nat; c_room : jstr; c_title : jstr; c_instructions : jstr; c_due : jstr; c_points : jstr; c_publish : bool; c_error : jstr
}.
Record EditForm := mkEdit {
  e_no : nat; e_of : Assignment; e_room : jstr; e_title : jstr; e_instructions : jstr; e_due : jstr; e_points : jstr;
  e_status : AssignmentStatus; e_error : jstr; e_busy : bool
}.
Record GradeForm := mkGradeForm {
  g_no : nat; g_of : Submission; g_points : jstr; g_label : jstr; g_feedback : jstr; g_comment : jstr;
  g_comments : list SubmissionComment; g_history : list GradeChange; g_busy : bool; g_error : jstr
}.
Inductive Query :=
  | Submissions (assignment : jstr)
  | Comments (submission : jstr)
  | GradeHistory (submission : jstr)
  | SaveGrade (submission : jstr) (points : option jsnum) (label : option jstr) (feedback : jstr)
  | AddComment (submission body : jstr)
  | UpdateAssignment (id : jstr) (input : AssignmentEditInput)
  | CreateAssignment (input : CreateInput)
  | DeleteAssignment (id : jstr)
  | Updated.
Definition answer (q : Query) : Type :=
  match q with
  | Submissions _ => outcome (option jstr) (list Submission)
  | Comments _ => outcome (option jstr) (list SubmissionComment)
  | GradeHistory _ => outcome (option jstr) (list GradeChange)
  | UpdateAssignment _ _ => outcome (option jstr) Assignment
  | Updated => unit
  | _ => outcome (option jstr) unit
  end.
(** [made] counts the forms that were opened; [broken] is set when the page
    could not be drawn, after which the app shows nothing. *)
Record Desk := mkDesk {
  rooms : list Classroom; assignments : list Assignment;
  creating : option CreateForm; selected : option Assignment; editing : option EditForm;
  submissions : list Submission; grading : option GradeForm;
  made : nat; broken : bool; asked : list Query
}.
Local Abbreviation Script := (Script Desk answer).
Local Abbreviation System := (System Desk answer).

Definition with_props (cs : list Classroom) (l : list Assignment) (w : Desk) : Desk :=
  mkDesk cs l (creating w) (selected w) (editing w) (submissions w) (grading w) (made w) (broken w) (asked w).
Definition with_creating (f : option CreateForm) (w : Desk) : Desk :=
  mkDesk (rooms w) (assignments w) f (selected w) (editing w) (submissions w) (grading w) (made w) (broken w) (asked w).
Definition with_selected (a : option Assignment) (w : Desk) : Desk :=
  mkDesk (rooms w) (assignments w) (creating w) a (editing w) (submissions w) (grading w) (made w) (broken w) (asked w).
Definition with_editing (f : option EditForm) (w : Desk) : Desk :=
  mkDesk (rooms w) (assignments w) (creating w) (selected w) f (submissions w) (grading w) (made w) (broken w) (asked w).
Definition with_submissions (l : list Submission) (w : Desk) : Desk :=
  mkDesk (rooms w) (assignments w) (creating w) (selected w) (editing w) l (grading w) (made w) (broken w) (asked w).
Definition with_grading (f : option GradeForm) (w : Desk) : Desk :=
  mkDesk (rooms w) (assignments w) (creating w) (selected w) (editing w) (submissions w) f (made w) (broken w) (asked w).
Definition next_form (w : Desk) : Desk :=
  mkDesk (rooms w) (assignments w) (creating w) (selected w) (editing w) (submissions w) (grading w) (S (made w)) (broken w) (asked w).
Definition break (w : Desk) : Desk :=
  mkDesk (rooms w) (assignments w) (creating w) (selected w) (editing w) (submissions w) (grading w) (made w) true (asked w).
Definition asking (q : Query) (w : Desk) : Desk :=
  mkDesk (rooms w) (assignments w) (creating w) (selected w) (editing w) (submissions w) (grading w) (made w) (broken w) (asked w ++ [q]).
Definition send (q : Query) : Script (answer q) := Do (asking q) (Script.ask q).

(** What a request changes of the form it was sent from, if that is still open. *)
Definition on_creating (n : nat) (f : CreateForm -> CreateForm) (w : Desk) : Desk :=
  match creating w with Some c => if Nat.eqb (c_no c) n then with_creating (Some (f c)) w else w | None => w end.
Definition on_editing (n : nat) (f : EditForm -> EditForm) (w : Desk) : Desk :=
  match editing w with Some e => if Nat.eqb (e_no e) n then with_editing (Some (f e)) w else w | None => w end.
Definition on_grading (n : nat) (f : GradeForm -> GradeForm) (w : Desk) : Desk :=
  match grading w with Some g => if Nat.eqb (g_no g) n then with_grading (Some (f g)) w else w | None => w end.
Definition create_says (m : jstr) (c : CreateForm) : CreateForm :=
  mkCreate (c_no c) (c_room c) (c_title c) (c_instructions c) (c_due c) (c_points c) (c_publish c) m.
Definition edit_says (m : jstr) (busy : bool) (e : EditForm) : EditForm :=
  mkEdit (e_no e) (e_of e) (e_room e) (e_title e) (e_instructions e) (e_due e) (e_points e) (e_status e) m busy.
Definition grade_says (m : jstr) (busy : bool) (g : GradeForm) : GradeForm :=
  mkGradeForm (g_no g) (g_of g) (g_points g) (g_label g) (g_feedback g) (g_comment g) (g_comments g) (g_history g) busy m.
Definition set_comment (t : jstr) (g : GradeForm) : GradeForm :=
  mkGradeForm (g_no g) (g_of g) (g_points g) (g_label g) (g_feedback g) t (g_comments g) (g_history g) (g_busy g) (g_error g).
Definition set_comments (l : list SubmissionComment) (g : GradeForm) : GradeForm :=
  mkGradeForm (g_no g) (g_of g) (g_points g) (g_label g) (g_feedback g) (g_comment g) l (g_history g) (g_busy g) (g_error g).
Definition set_history (l : list GradeChange) (g : GradeForm) : GradeForm :=
  mkGradeForm (g_no g) (g_of g) (g_points g) (g_label g) (g_feedback g) (g_comment g) (g_comments g) l (g_busy g) (g_error g).

(** [min="0"], [step="0.5"] and, when grading, [max] of a number field. *)
Definition points_ok (maximum : option jsnum) (text : jstr) : bool :=
  negb (truthy text) ||
  (let n := number_of_string text in
   num_le (num 0) n && is_integer (num_mul n (num 2)) &&
   match maximum with Some m => num_le n m | None => true end).
Definition null_if_empty (s : jstr) : option jstr := if truthy s then Some s else None.

(** ** Submissions of the assignment that is open *)

Definition load_submissions (id : jstr) : Script unit :=
  r <- send (Submissions id);;
  match r with Ok l => Script.update (with_submissions l) | Throw _ => Ret tt end.
(** [setSelected] and the effect it starts. *)
Definition select (a : Assignment) : Script unit := Do (with_selected (Some a)) (load_submissions (assignment_id a)).
Definition refresh : Script unit := _ <- send Updated;; Ret tt.
Definition active (w : Desk) : list Assignment :=
  List.filter (fun a => match a_status a with Closed => false | _ => true end) (assignments w).
Definition completed (w : Desk) : list Assignment :=
  List.filter (fun a => match a_status a with Closed => true | _ => false end) (assignments w).

(** ** Status, edits and removal *)

Definition is_selected (a : Assignment) (w : Desk) : bool :=
  match selected w with Some s => seqb (assignment_id s) (assignment_id a) | None => false end.
Definition unchanged_but (status : AssignmentStatus) (a : Assignment) : AssignmentEditInput :=
  mkEditInput (a_classroom_id a) (title a) (instructions a) (due_at a) (max_points a) (grading_scheme a) status.
(** What was selected when the button was pressed is what counts afterwards.
    The refresh of the workspace changes only the props of the view, so it may
    be asked after the submissions have come. *)
Definition updateStatus (a : Assignment) (status : AssignmentStatus) : Script unit :=
  w <- Script.get;;
  r <- send (UpdateAssignment (assignment_id a) (unchanged_but status a));;
  match r with
  | Throw _ => Ret tt
  | Ok next => (if is_selected a w then select next else Ret tt);; refresh
  end.
Definition remove (a : Assignment) (opened confirmed : bool) : Script unit :=
  if confirmed then
    r <- send (DeleteAssignment (assignment_id a));;
    match r with
    | Throw _ => Ret tt
    | Ok _ => (if opened then Script.update (with_selected None) else Ret tt);; refresh
    end
  else Ret tt.

Section forms.
Context `{Dates, LocalTime}.

Definition start_edit (n : nat) (a : Assignment) : option EditForm :=
  due ← dateTimeInput (due_at a);
  Some (mkEdit n a (a_classroom_id a) (title a) (instructions a) due (show_num (max_points a)) (a_status a) [] false).
Definition open_edit (a : Assignment) (w : Desk) : Desk :=
  match editing w, start_edit (made w) a with
  | None, Some e => next_form (with_editing (Some e) w)
  | None, None => break w
  | Some _, _ => w
  end.
Definition edit_ready (e : EditForm) : bool :=
  negb (e_busy e) && truthy (e_room e) && truthy (trim (e_title e)) && points_ok None (e_points e).
Definition edit_input (e : EditForm) : outcome (option jstr) AssignmentEditInput :=
  match due_value (e_due e) with
  | Throw m => Throw m
  | Ok due => Ok (mkEditInput (e_room e) (trim (e_title e)) (trim (e_instructions e)) due
                    (number_of_string (e_points e)) (grading_scheme (e_of e)) (e_status e))
  end.
Definition msg_edit_failed : jstr := js "Assignment could not be saved.".
Definition save_edit : Script unit :=
  w <- Script.get;;
  match editing w with
  | Some e =>
    let failed x := Script.update (on_editing (e_no e) (edit_says (failure_text x msg_edit_failed) false)) in
    if negb (edit_ready e) then Ret tt else
    Do (on_editing (e_no e) (edit_says [] true))
      match edit_input e with
      | Throw x => failed x
      | Ok input =>
        r <- send (UpdateAssignment (assignment_id (e_of e)) input);;
        match r with
        | Throw x => failed x
        | Ok next =>
          Do (with_editing None) ((match selected w with Some _ => select next | None => Ret tt end);; refresh)
        end
      end
  | None => Ret tt
  end.

(** *** A new assignment *)

Definition first_room (w : Desk) : jstr := match rooms w with c :: _ => classroom_id c | [] => [] end.
Definition open_create (w : Desk) : Desk :=
  match creating w, rooms w with
  | None, _ :: _ => next_form (with_creating (Some (mkCreate (made w) (first_room w) [] [] [] (js "100") true [])) w)
  | _, _ => w
  end.
Definition create_ready (c : CreateForm) : bool := truthy (c_room c) && truthy (trim (c_title c)) && points_ok None (c_points c).
Definition points_scheme : jsval := VObj [(js "type", VStr (js "points"))].
Definition create_input (c : CreateForm) : outcome (option jstr) CreateInput :=
  match due_value (c_due c) with
  | Throw m => Throw m
  | Ok due => Ok (mkCreateInput (c_room c) (trim (c_title c)) (trim (c_instructions c)) due
                    (number_of_string (c_points c)) points_scheme (c_publish c))
  end.
Definition msg_create_failed : jstr := js "Assignment could not be created.".
Definition create : Script unit :=
  w <- Script.get;;
  match creating w with
  | Some c =>
    let failed x := Script.update (on_creating (c_no c) (create_says (failure_text x msg_create_failed))) in
    if negb (create_ready c) then Ret tt else
    Do (on_creating (c_no c) (create_says []))
      match create_input c with
      | Throw x => failed x
      | Ok input =>
        r <- send (CreateAssignment input);;
        match r with
        | Throw x => failed x
        | Ok _ => Do (with_creating None) refresh
        end
      end
  | None => Ret tt
  end.
End forms.

(** ** Grading *)

Definition start_grade (n : nat) (s : Submission) : GradeForm :=
  mkGradeForm n s (match s_grade s ≫= points with Some p => show_num p | None => [] end)
    (default [] (s_grade s ≫= grade_label)) (match s_grade s with Some g => feedback g | None => [] end) [] [] [] false [].
Definition open_grade (s : Submission) (w : Desk) : Desk :=
  match grading w with None => next_form (with_grading (Some (start_grade (made w) s)) w) | Some _ => w end.
Definition load_comments (n : nat) (id : jstr) : Script unit :=
  r <- send (Comments id);;
  match r with Ok l => Script.update (on_grading n (set_comments l)) | Throw _ => Ret tt end.
Definition load_history (n : nat) (id : jstr) : Script unit :=
  r <- send (GradeHistory id);;
  match r with Ok l => Script.update (on_grading n (set_history l)) | Throw _ => Ret tt end.

Definition msg_grade_failed : jstr := js "Grade could not be saved.".
Definition grade_points (g : GradeForm) : option jsnum := if truthy (g_points g) then Some (number_of_string (g_points g)) else None.
(** The comment, when there is one: sent, cleared from the form and read back. *)
Definition publish_comment (g : GradeForm) : Script (outcome (option jstr) unit) :=
  let id := submission_id (g_of g) in
  if truthy (trim (g_comment g)) then
    r <- send (AddComment id (trim (g_comment g)));;
    match r with
    | Throw x => Ret (Throw x)
    | Ok _ =>
      Do (on_grading (g_no g) (set_comment []))
        (r <- send (Comments id);;
         match r with
         | Throw x => Ret (Throw x)
         | Ok l => Do (on_grading (g_no g) (set_comments l)) (Ret (Ok tt))
         end)
    end
  else Ret (Ok tt).
(** [onSaved]. *)
Definition grade_saved (a : Assignment) : Script (outcome (option jstr) unit) :=
  r <- send (Submissions (assignment_id a));;
  match r with
  | Throw x => Ret (Throw x)
  | Ok l => Do (with_submissions l) (_ <- send Updated;; Ret (Ok tt))
  end.
Definition publish : Script unit :=
  w <- Script.get;;
  match grading w, selected w with
  | Some g, Some a =>
    let failed x := Script.update (on_grading (g_no g) (grade_says (failure_text x msg_grade_failed) false)) in
    if g_busy g || negb (points_ok (Some (max_points a)) (g_points g)) then Ret tt else
    Do (on_grading (g_no g) (grade_says [] true))
      (r <- send (SaveGrade (submission_id (g_of g)) (grade_points g) (null_if_empty (trim (g_label g))) (trim (g_feedback g)));;
       match r with
       | Throw x => failed x
       | Ok _ =>
         r <- publish_comment g;;
         match r with
         | Throw x => failed x
         | Ok _ =>
           r <- grade_saved a;;
           match r with
           | Throw x => failed x
           | Ok _ => Script.update (with_grading None)
           end
         end
       end)
  | _, _ => Ret tt
  end.

(** ** Events *)

Inductive Field := FRoom | FTitle | FInstructions | FDue | FPoints | FLabel | FFeedback | FComment.
Definition type_create (f : Field) (v : jstr) (c : CreateForm) : CreateForm :=
  match f with
  | FRoom => mkCreate (c_no c) v (c_title c) (c_instructions c) (c_due c) (c_points c) (c_publish c) (c_error c)
  | FTitle => mkCreate (c_no c) (c_room c) v (c_instructions c) (c_due c) (c_points c) (c_publish c) (c_error c)
  | FInstructions => mkCreate (c_no c) (c_room c) (c_title c) v (c_due c) (c_points c) (c_publish c) (c_error c)
  | FDue => mkCreate (c_no c) (c_room c) (c_title c) (c_instructions c) v (c_points c) (c_publish c) (c_error c)
  | FPoints => mkCreate (c_no c) (c_room c) (c_title c) (c_instructions c) (c_due c) v (c_publish c) (c_error c)
  | _ => c
  end.
Definition type_edit (f : Field) (v : jstr) (e : EditForm) : EditForm :=
  match f with
  | FRoom => mkEdit (e_no e) (e_of e) v (e_title e) (e_instructions e) (e_due e) (e_points e) (e_status e) (e_error e) (e_busy e)
  | FTitle => mkEdit (e_no e) (e_of e) (e_room e) v (e_instructions e) (e_due e) (e_points e) (e_status e) (e_error e) (e_busy e)
  | FInstructions => mkEdit (e_no e) (e_of e) (e_room e) (e_title e) v (e_due e) (e_points e) (e_status e) (e_error e) (e_busy e)
  | FDue => mkEdit (e_no e) (e_of e) (e_room e) (e_title e) (e_instructions e) v (e_points e) (e_status e) (e_error e) (e_busy e)
  | FPoints => mkEdit (e_no e) (e_of e) (e_room e) (e_title e) (e_instructions e) (e_due e) v (e_status e) (e_error e) (e_busy e)
  | _ => e
  end.
Definition type_grade (f : Field) (v : jstr) (g : GradeForm) : GradeForm :=
  match f with
  | FPoints => mkGradeForm (g_no g) (g_of g) v (g_label g) (g_feedback g) (g_comment g) (g_comments g) (g_history g) (g_busy g) (g_error g)
  | FLabel => mkGradeForm (g_no g) (g_of g) (g_points g) v (g_feedback g) (g_comment g) (g_comments g) (g_history g) (g_busy g) (g_error g)
  | FFeedback => mkGradeForm (g_no g) (g_of g) (g_points g) (g_label g) v (g_comment g) (g_comments g) (g_history g) (g_busy g) (g_error g)
  | FComment => set_comment v g
  | _ => g
  end.
Definition publish_box (b : bool) (c : CreateForm) : CreateForm :=
  mkCreate (c_no c) (c_room c) (c_title c) (c_instructions c) (c_due c) (c_points c) b (c_error c).
Definition status_box (s : AssignmentStatus) (e : EditForm) : EditForm :=
  mkEdit (e_no e) (e_of e) (e_room e) (e_title e) (e_instructions e) (e_due e) (e_points e) s (e_error e) (e_busy e).

(** The assignment that is open, when [row] is [None], or one of the lists. *)
Definition subject (row : option nat) (w : Desk) : option Assignment :=
  match row with None => selected w | Some i => if selected w then None else assignments w !! i end.
Inductive Event :=
  | Props (cs : list Classroom) (l : list Assignment)
  | Select (i : nat) | Back
  | NewAssignment | TypeNew (f : Field) (v : jstr) | Publishing (b : bool) | Create | CloseNew
  | EditAssignment (row : option nat) | TypeEdit (f : Field) (v : jstr) | Status (s : AssignmentStatus) | SaveEdit | CloseEdit
  | Complete (row : option nat) | Delete (row : option nat) (confirmed : bool)
  | OpenGrade (i : nat) | TypeGrade (f : Field) (v : jstr) | PublishGrade | CloseGrade
  | Answered (i : nat) (o : forall q, answer q).

Section events.
Context `{Dates, LocalTime}.
Definition apply (f : Desk -> Desk) (y : System) : System := mkSystem (f (world y)) (waiting y).
Definition blocked (w : Desk) : bool :=
  match creating w, editing w, grading w with None, None, None => false | _, _, _ => true end.
(** A button behind the forms. *)
Definition behind (y : System) (f : System) : System := if blocked (world y) then y else f.
Definition other_status (a : Assignment) : AssignmentStatus := match a_status a with Closed => Published | _ => Closed end.
Definition step (ev : Event) (y : System) : System :=
  let w := world y in
  if broken w then y else
  match ev with
  | Props cs l => apply (with_props cs l) y
  | Select i => behind y match subject (Some i) w with Some a => start (select a) y | None => y end
  | Back => behind y (apply (with_selected None) y)
  | NewAssignment => behind y (if selected w then y else apply open_create y)
  | TypeNew f v => match creating w with Some c => apply (on_creating (c_no c) (type_create f v)) y | None => y end
  | Publishing b => match creating w with Some c => apply (on_creating (c_no c) (publish_box b)) y | None => y end
  | Create => start create y
  | CloseNew => apply (with_creating None) y
  | EditAssignment row => behind y match subject row w with Some a => apply (open_edit a) y | None => y end
  | TypeEdit f v => match editing w with Some e => apply (on_editing (e_no e) (type_edit f v)) y | None => y end
  | Status s => match editing w with Some e => apply (on_editing (e_no e) (status_box s)) y | None => y end
  | SaveEdit => start save_edit y
  | CloseEdit => apply (with_editing None) y
  | Complete row => behind y match subject row w with Some a => start (updateStatus a (other_status a)) y | None => y end
  | Delete row confirmed =>
    behind y match subject row w with
             | Some a => start (remove a (match row with None => true | Some _ => false end) confirmed) y
             | None => y
             end
  | OpenGrade i =>
    behind y match selected w, submissions w !! i with
             | Some _, Some s =>
               start (load_history (made w) (submission_id s))
                 (start (load_comments (made w) (submission_id s)) (apply (open_grade s) y))
             | _, _ => y
             end
  | TypeGrade f v => match grading w with Some g => apply (on_grading (g_no g) (type_grade f v)) y | None => y end
  | PublishGrade => start publish y
  | CloseGrade => apply (with_grading None) y
  | Answered i o => resume i o y
  end.
Definition run (es : list Event) (y : System) : System := fold_left (fun y ev => step ev y) es y.
End events.
Definition opened (cs : list Classroom) (l : list Assignment) : System :=
  mkSystem (mkDesk cs l None None None [] None 0 false []) [].

(** ** What the rows say *)

Definition status_badge (s : AssignmentStatus) : jstr :=
  match s with Draft => js "draft" | Published => js "published" | Closed => js "Completed" end.
Definition complete_label (a : Assignment) : jstr := match a_status a with Closed => js "Reopen" | _ => js "Complete" end.
(** [formatDate] is the app's, with the locale of the computer. *)
Definition row_text (formatDate : option jstr -> jstr) (a : Assignment) : jstr * jstr * jstr * jstr :=
  (title a, a_classroom_name a ++ js " · " ++ formatDate (due_at a) ++ js " · " ++ show_num (max_points a) ++ js " points",
   status_badge (a_status a), complete_label a).
Definition submission_text (formatDate : option jstr -> jstr) (s : Submission) : jstr * jstr * jstr :=
  (s_student_name s,
   js "Version " ++ show_Z (match s_version s with Some v => version_number v | None => 1 end) ++ js " · " ++ formatDate (submitted_at s),
   if match s_grade s with Some g => published g | None => false end then js "Graded" else js "Review").

(** ** Properties *)

Module AssignmentFacts.

Section reopening.
Context `{Dates} {C : LocalTime} {L : LocalTimeLaws C}.
(** No change of the clock within three days. *)
Definition steady (t : Z) : Prop := forall t', Z.abs (t' - t) <= 3 * 1440 * MINUTE -> era t' /\ offset t' = offset t.
Lemma steady_bound t : steady t -> -1440 < offset t < 1440.
Proof. intros Hs. apply offset_bound. apply Hs. unfold MINUTE. lia. Qed.
Lemma steady_local t t1 : steady t -> Z.abs (t1 - t) <= 1440 * MINUTE -> of_local (t1 - offset t * MINUTE) = t1.
Proof.
  intros Hs Ht. unfold MINUTE in *.
  destruct (Hs t1) as [R1 E1]; [unfold MINUTE; lia|].
  replace (t1 - offset t * 60000) with (local t1) by (unfold local, MINUTE; lia).
  apply of_local_only; [done|]. intros t' Hn He. unfold local, MINUTE in He, Hn.
  assert (offset t' = offset t) by (apply Hs; unfold MINUTE; lia). lia.
Qed.
(** What the field shows is read back as the minute it shows. *)
Lemma due_reopened v t : v <> [] -> date_parse v = Some t -> steady t ->
  exists text, dateTimeInput (Some v) = Some text /\ due_value text = Ok (Some (iso (t - t mod MINUTE))).
Proof.
  intros Hv Ht Hs. unfold dateTimeInput. destruct v as [|c v]; [done|]. rewrite Ht. cbn [mbind option_bind].
  pose proof (steady_bound t Hs) as Hb. eexists. split; [reflexivity|]. unfold due_value.
  assert (E : of_local (local t - offset t * MINUTE) = local t).
  { apply steady_local; [done|]. unfold local, MINUTE in *. lia. }
  assert (Hera : era (local t)) by (apply Hs; unfold local, MINUTE; lia).
  rewrite E, minute_text_some, read_minute_text by done. do 3 f_equal.
  assert (Em : local t mod MINUTE = t mod MINUTE) by (unfold local; by rewrite Zminus_mod, Z.mod_mul, Z.sub_0_r, Z.mod_mod by done).
  rewrite Em. replace (local t - t mod MINUTE) with (t - t mod MINUTE - offset t * MINUTE) by (unfold local; lia).
  apply steady_local; [done|]. pose proof (Z.mod_pos_bound t MINUTE eq_refl). unfold MINUTE in *. lia.
Qed.
End reopening.

Lemma whole_points_ok z : 0 <= z < 10 ^ 20 ->
  points_ok None (show_num (num z)) = true /\ number_of_string (show_num (num z)) = num z.
Proof.
  intros Hz. destruct (number_of_shown z) as [E1 E2]; [lia|]. split; [|done]. unfold points_ok. rewrite E1, E2.
  assert (E3 : num_mul (num z) (num 2) = num (z * 2)).
  { cbn [num num_mul]. rewrite <- (of_Q_Z (z * 2)) by lia. apply of_Q_Qeq. by rewrite inject_Z_mult. }
  rewrite E3, is_integer_Z, num_le_Z. cbn [negb orb]. rewrite !andb_true_r. lia.
Qed.
End AssignmentFacts.
Import AssignmentFacts.

(** ** Claims *)

(** C9. An assignment with a title and a whole number of points (below 10^20) that
    is opened in its editor, from the list while no form is open, and saved
    without a change is sent as it is: its classroom,
    points, scheme and status, its title and instructions without the spaces
    around them, and its due time cut to the minute, if it has none or one from
    1973 on at which the clocks of the computer do not change within three days.
    (For one at which they do, [due_moves_at_clock_change].) *)
Theorem assignment_saved_as_it_was `{Dates} {C : LocalTime} {L : LocalTimeLaws C} (y : System) i a z
    (Hb : broken (world y) = false) (Hf : blocked (world y) = false) (Hs : selected (world y) = None)
    (Ha : assignments (world y) !! i = Some a)
    (Hr : a_classroom_id a <> []) (Ht : truthy (trim (title a)) = true)
    (Hp : max_points a = num z) (Hz : 0 <= z < 10 ^ 20)
    (Hd : match due_at a with None => True | Some v => v <> [] /\ exists t, date_parse v = Some t /\ steady t end) :
  asked (world (run [EditAssignment (Some i); SaveEdit] y)) = asked (world y) ++
    [UpdateAssignment (assignment_id a)
      (mkEditInput (a_classroom_id a) (trim (title a)) (trim (instructions a))
        (match due_at a with None => None | Some v => t ← date_parse v; Some (iso (t - t mod MINUTE)) end)
        (max_points a) (grading_scheme a) (a_status a))].
Proof.
  assert (Hdue : exists due, dateTimeInput (due_at a) = Some due /\
            due_value due = Ok (match due_at a with None => None | Some v => t ← date_parse v; Some (iso (t - t mod MINUTE)) end)).
  { destruct (due_at a) as [v|]; [|by exists []]. destruct Hd as (Hv & t & Et & St).
    rewrite Et. cbn [mbind option_bind]. by apply due_reopened. }
  destruct Hdue as (due & E1 & E2). destruct (whole_points_ok z Hz) as [P1 P2].
  unfold blocked in Hf. destruct (creating (world y)) eqn:Ec, (editing (world y)) eqn:Ee, (grading (world y)) eqn:Eg; try done.
  assert (S1 : step (EditAssignment (Some i)) y =
    mkSystem (next_form (with_editing (start_edit (made (world y)) a) (world y))) (waiting y)).
  { unfold step, behind, blocked, subject. rewrite Hb, Ec, Ee, Eg, Hs, Ha. unfold apply, open_edit.
    rewrite Ee. unfold start_edit. by rewrite E1. }
  unfold run. cbn [fold_left]. rewrite S1. unfold start_edit. rewrite E1. cbn [mbind option_bind].
  unfold step. cbn [world next_form with_editing broken]. rewrite Hb.
  unfold start, save_edit. cbn [bind advance Script.get editing world].
  unfold edit_ready. cbn [editing next_form with_editing e_busy e_room e_title e_points negb]. rewrite Ht, Hp, P1.
  destruct (a_classroom_id a) as [|c r] eqn:Er; [done|]. cbn [truthy andb negb advance bind].
  unfold edit_input. cbn [e_due e_room e_title e_instructions e_points e_of e_status]. rewrite E2, P2.
  cbn [send bind advance Script.ask asking world on_editing editing with_editing next_form edit_says e_no asked].
  by rewrite Nat.eqb_refl.
Qed.

Module GradeFacts.
(** The form after a failure. *)
Definition failed (x : option jstr) (g : GradeForm) : option GradeForm := Some (grade_says (failure_text x msg_grade_failed) false g).
Lemma on_grading_at k g f w : grading w = Some g -> g_no g = k -> on_grading k f w = with_grading (Some (f g)) w.
Proof. intros Hg <-. unfold on_grading. by rewrite Hg, Nat.eqb_refl. Qed.
End GradeFacts.
Import GradeFacts.

(** C8. Publishing a grade, on every branch: the grade is sent first, then the
    comment if there is one, then the submissions are read again; the first
    failure stops it, its message is shown and the form stays with what was
    typed.  A comment the Host has taken is cleared from the form, so that
    publishing again does not send it twice.  Only when everything has
    succeeded is the form closed, over the submissions as they now are. *)
Theorem publish_outcome env n w g a
    (Hg : grading w = Some g) (Ha : selected w = Some a) (Hb : g_busy g = false)
    (Hp : points_ok (Some (max_points a)) (g_points g) = true) :
  let w' := snd (finish publish env n w) in
  let id := submission_id (g_of g) in
  let grade := SaveGrade id (grade_points g) (null_if_empty (trim (g_label g))) (trim (g_feedback g)) in
  let reads := Submissions (assignment_id a) in
  let after k g sent :=
    match env k reads with
    | Throw x => asked w' = asked w ++ sent ++ [reads] /\ grading w' = failed x g
    | Ok l => asked w' = asked w ++ sent ++ [reads; Updated] /\ grading w' = None /\ submissions w' = l
    end in
  match env n grade with
  | Throw x => asked w' = asked w ++ [grade] /\ grading w' = failed x g
  | Ok _ =>
    let text := trim (g_comment g) in
    if truthy text then
      match env (S n) (AddComment id text) with
      | Throw x => asked w' = asked w ++ [grade; AddComment id text] /\ grading w' = failed x g
      | Ok _ =>
        match env (S (S n)) (Comments id) with
        | Throw x => asked w' = asked w ++ [grade; AddComment id text; Comments id] /\ grading w' = failed x (set_comment [] g)
        | Ok l => after (S (S (S n))) (set_comments l (set_comment [] g)) [grade; AddComment id text; Comments id]
        end
      end
    else after (S n) g [grade]
  end.
Proof.
  intros w' id grade reads after. unfold after, w', publish. clear after w'.
  cbn [bind finish Script.get]. rewrite Hg, Ha, Hb, Hp. cbn [orb negb finish].
  rewrite (on_grading_at _ g) by done. cbn [send bind finish Script.ask]. fold id grade.
  destruct (env n grade) as [u|x]; cbn [bind].
  2:{ cbn [finish Script.update snd]. by erewrite on_grading_at by reflexivity. }
  unfold publish_comment. fold id. destruct (truthy (trim (g_comment g))).
  - cbn [send bind finish Script.ask]. destruct (env (S n) _) as [u1|x]; cbn [bind].
    2:{ cbn [finish Script.update snd]. erewrite on_grading_at by reflexivity. cbn [asked with_grading asking]. by rewrite <- !app_assoc. }
    cbn [finish]. erewrite on_grading_at by reflexivity. cbn [finish send bind Script.ask].
    destruct (env (S (S n)) _) as [l|x]; cbn [bind].
    2:{ cbn [finish Script.update snd]. erewrite on_grading_at by reflexivity. cbn [asked with_grading asking]. by rewrite <- !app_assoc. }
    cbn [finish]. erewrite on_grading_at by reflexivity. cbn [bind]. unfold grade_saved. cbn [finish send bind Script.ask]. fold reads.
    destruct (env (S (S (S n))) reads) as [l'|x]; cbn [bind finish Script.update send Script.ask snd].
    + cbn [with_grading with_submissions asking grading asked submissions]. by rewrite <- !app_assoc.
    + erewrite on_grading_at by reflexivity. cbn [asked with_grading asking]. by rewrite <- !app_assoc.
  - unfold grade_saved. cbn [bind finish send Script.ask]. fold reads.
    destruct (env (S n) reads) as [l'|x]; cbn [bind finish Script.update send Script.ask snd].
    + cbn [with_grading with_submissions asking grading asked submissions]. by rewrite <- !app_assoc.
    + erewrite on_grading_at by reflexivity. cbn [asked with_grading asking]. by rewrite <- !app_assoc.
Qed.

(** ** Runs *)

Module AssignmentRuns.
(** A clock that is put forward by an hour at [change], as in New York. *)
Definition change : Z := 1000000 * MINUTE.
#[local] Instance clock : LocalTime := {|
  offset t := if t <? change then 300 else 240;
  of_local l := if change <=? l + 240 * MINUTE then l + 240 * MINUTE else l + 300 * MINUTE;
  minute_text t := [(if t / MINUTE <? 0 then 45%N else 43%N); Z.abs_N (t / MINUTE)];
  read_minute s := match s with
                   | [s; m] => Some ((if (s =? 45)%N then - Z.of_N m else Z.of_N m) * MINUTE)
                   | _ => None
                   end;
  iso t := show_Z t;
  invalid_time := js "Invalid time value"
|}.
#[local] Instance clock_laws : LocalTimeLaws clock.
Proof.
  split; cbn.
  - intros t _. destruct (t <? change); lia.
  - intros t _ _. unfold local, offset, clock, change, MINUTE. destruct (Z.ltb_spec t (1000000 * 60000));
      [rewrite (proj2 (Z.leb_gt _ _)) by lia|rewrite (proj2 (Z.leb_le _ _)) by lia]; lia.
  - done.
  - intros t _. f_equal. pose proof (Z.div_mod t MINUTE). unfold MINUTE in *.
    destruct (Z.ltb_spec (t / 60000) 0); cbn [N.eqb Pos.eqb]; lia.
Qed.
#[local] Existing Instance decimal_dates.

Definition maths : Classroom := mkClassroom (js "c1") (js "Maths") None [] [] [] [] [] 2 [].
Definition work (id : jstr) (t : jstr) (due : option jstr) (points : Z) : Assignment :=
  mkAssignment id (js "c1") (js "Maths") t (js "Read it.") due (num points) VNull Published [] [].
Definition essay : Assignment := work (js "a1") (js " Essay ") (Some (js "120000061500")) 20.
Definition quiz : Assignment := work (js "a2") (js "Quiz") None 100.
Definition handed (id work : jstr) : Submission := mkSubmission id work [] id id SSubmitted None None None [].
Definition yes : forall q, answer q := fun q =>
  match q with
  | Submissions a => Ok [handed (a ++ js "/ada") a; handed (a ++ js "/bob") a]
  | UpdateAssignment _ _ => Ok essay
  | Updated => tt
  | Comments _ | GradeHistory _ => Ok []
  | SaveGrade _ _ _ _ | AddComment _ _ | CreateAssignment _ | DeleteAssignment _ => Ok tt
  end.
Definition no : forall q, answer q := fun q =>
  match q with Updated => tt | Submissions _ | UpdateAssignment _ _ | Comments _ | GradeHistory _ => Throw None
  | SaveGrade _ _ _ _ | AddComment _ _ | CreateAssignment _ | DeleteAssignment _ => Throw None end.
Definition go (es : list Event) : Desk := world (run es (opened [maths] [essay; quiz])).

Lemma assignment_saved_as_it_was_witness :
  asked (go [EditAssignment (Some 0%nat); SaveEdit]) =
  [UpdateAssignment (js "a1") (mkEditInput (js "c1") (js "Essay") (js "Read it.") (Some (js "120000060000")) (num 20) VNull Published)].
Proof.
  refine (eq_trans (assignment_saved_as_it_was (opened [maths] [essay; quiz]) 0 essay 20 eq_refl eq_refl eq_refl eq_refl _ _ eq_refl _ _) _).
  - discriminate.
  - vm_compute. reflexivity.
  - lia.
  - split; [discriminate|]. exists 120000061500. split; [vm_compute; reflexivity|].
    intros t' Ht. unfold era. split; [unfold MINUTE in Ht; lia|]. cbn. unfold change, MINUTE in *. rewrite !(proj2 (Z.ltb_ge _ _)) by lia. reflexivity.
  - vm_compute. reflexivity.
Defined.

Definition grading_ada : list Event := [Select 0; Answered 0 yes; OpenGrade 0; TypeGrade FPoints (js "17.5"); TypeGrade FComment (js " Well done ")].
Definition ada_form : GradeForm := mkGradeForm 0 (handed (js "a1/ada") (js "a1")) (js "17.5") [] [] (js " Well done ") [] [] false [].
Lemma publish_outcome_witness :
  let w' := snd (finish publish (fun _ => yes) 0 (go grading_ada)) in
  grading w' = None /\ drop 3 (asked w') =
    [SaveGrade (js "a1/ada") (Some (Fin (35#2))) None []; AddComment (js "a1/ada") (js "Well done"); Comments (js "a1/ada");
     Submissions (js "a1"); Updated].
Proof.
  destruct (publish_outcome (fun _ => yes) 0 (go grading_ada) ada_form essay) as (E & Eg & _);
    [vm_compute; reflexivity..|].
  split; [exact Eg|]. rewrite E. vm_compute. reflexivity.
Defined.

(** Just after the clocks have changed the editor shows a time that is an hour
    off, and saving without a change moves the due time. *)
Example due_moves_at_clock_change :
  asked (world (run [EditAssignment (Some 0%nat); SaveEdit] (opened [maths] [work (js "a1") (js "Essay") (Some (show_Z (change + 60 * MINUTE))) 20]))) =
  [UpdateAssignment (js "a1") (mkEditInput (js "c1") (js "Essay") (js "Read it.") (Some (show_Z (change + 120 * MINUTE))) (num 20) VNull Published)].
Proof. vm_compute. done. Qed.

(** A maximum that is left empty is sent as 0. *)
Example empty_maximum_is_zero :
  asked (go [NewAssignment; TypeNew FTitle (js "Essay"); TypeNew FPoints []; Create]) =
  [CreateAssignment (mkCreateInput (js "c1") (js "Essay") [] None (num 0) points_scheme true)].
Proof. vm_compute. done. Qed.

(** The button stays enabled while a new assignment is sent: pressed twice, it
    makes two. *)
Example created_twice :
  length (asked (go [NewAssignment; TypeNew FTitle (js "Essay"); Create; Create])) = 2%nat.
Proof. vm_compute. done. Qed.

(** The submissions of the assignment opened before are listed under the next
    one until its own have come, or for good when they cannot be read: the form
    opened there grades the earlier work against the maximum of the later
    assignment. *)
Example earlier_work_under_next :
  let w := go [Select 0; Answered 0 yes; Back; Select 1; Answered 0 no; OpenGrade 0; TypeGrade FPoints (js "90"); PublishGrade] in
  (assignment_id <$> selected w) = Some (js "a2") /\
  last (asked w) = Some (SaveGrade (js "a1/ada") (Some (num 90)) None []).
Proof. vm_compute. done. Qed.

(** An assignment that was left while its status was being saved is opened again
    by the answer; when the status cannot be saved, nothing is shown at all. *)
Example back_is_undone :
  (assignment_id <$> selected (go [Select 0; Answered 0 yes; Complete None; Back; Answered 0 yes])) = Some (js "a1") /\
  (let w := go [Select 0; Answered 0 yes; Complete None] in
   world (run [Answered 0 no] (mkSystem w (waiting (run [Select 0; Answered 0 yes; Complete None] (opened [maths] [essay; quiz]))))) = w).
Proof. vm_compute. done. Qed.

(** The form of one student is closed while its grade is on its way, and that of
    another opened: the answer closes the other form with what was typed. *)
Example publishing_closes_next_form :
  let before := grading_ada ++ [PublishGrade; CloseGrade; OpenGrade 1; TypeGrade FFeedback (js "See me.")] in
  (g_feedback <$> grading (go before)) = Some (js "See me.") /\
  grading (go (before ++ [Answered 2 yes; Answered 4 yes; Answered 4 yes; Answered 4 yes; Answered 4 yes])) = None.
Proof. vm_compute. done. Qed.
End AssignmentRuns.
