(* ===== verification/TeacherAccounts.v ===== *)
(** * Accounts of teachers ([BootstrapScreen], [TeacherAccountModal],
    [TeacherRecoveryModal], [HostConnectionModal] and [SettingsView] of
    [apps/teacher/src/App.tsx])

    The first account of a school, joining with an invite, recovering a
    password, finding the Host, and the account page.  A form keeps what is
    typed in [texts]; [form_no] tells apart the forms opened one after the
    other.  [asked] lists what was sent beside the form it was sent from, and
    [forgotten] the names taken off the list of known accounts; nothing reads
    them. *)

From stdpp Require Import list.
From S2P Require Import Prelude Script JsString JsNumber Types.
Local Open Scope Z_scope.
Local Open Scope script_scope.

(** ** Data *)

Inductive Field := Username | DisplayName | Password | Confirm | Pin | Code.
#[export] Instance Field_eq : EqDecision Field. Proof. solve_decision. Defined.
Inductive Kind := Bootstrap | Join | Recovery.
#[export] Instance Kind_eq : EqDecision Kind. Proof. solve_decision. Defined.
(** [shown] is the recovery code, once there is one. *)
Record Form := mkForm { form_no : nat; texts : Field -> jstr; f_busy : bool; f_error : jstr; shown : jstr }.
Record Connection := mkConnection { conn_no : nat; url : jstr; label : jstr; found : list jstr; c_busy : bool; c_error : jstr }.
Record Invite := mkInvite { invite_pin : jstr; invite_expires_at : jstr }.
Record Settings := mkSettings {
  teachers : list User; invite : option Invite; inviteBusy : bool; deleting : option User;
  password : jstr; accountBusy : bool; accountError : jstr
}.
Inductive Query :=
  | BootstrapTeacher (username display_name password pin : jstr)
  | RegisterTeacher (username display_name password pin : jstr)
  | RecoverTeacher (username code password : jstr)
  | DiscoverHosts
  | SaveConnection (url label : jstr)
  | TeacherAccounts
  | TeacherInvite
  | DeleteTeacher (id password : jstr).
(** An account is answered by its recovery code; a removed one by whether it
    was the one signed in; the native search has no message of its own. *)
Definition answer (q : Query) : Type :=
  match q with
  | BootstrapTeacher _ _ _ _ | RegisterTeacher _ _ _ _ | RecoverTeacher _ _ _ => outcome (option jstr) jstr
  | DiscoverHosts => outcome unit (list jstr)
  | SaveConnection _ _ => outcome (option jstr) unit
  | TeacherAccounts => outcome (option jstr) (list User)
  | TeacherInvite => outcome (option jstr) Invite
  | DeleteTeacher _ _ => outcome (option jstr) bool
  end.
Record Office := mkOffice {
  forms : Kind -> option Form; connection : option Connection; settings : Settings;
  made : nat; asked : list (Query * option Form); forgotten : list jstr; signed_out : bool
}.
Local Abbreviation Script := (Script Office answer).
Local Abbreviation System := (System Office answer).

Definition with_forms (f : Kind -> option Form) (w : Office) : Office :=
  mkOffice f (connection w) (settings w) (made w) (asked w) (forgotten w) (signed_out w).
Definition set_form (k : Kind) (f : option Form) (w : Office) : Office :=
  with_forms (fun k' => if decide (k' = k) then f else forms w k') w.
Definition with_connection (c : option Connection) (w : Office) : Office :=
  mkOffice (forms w) c (settings w) (made w) (asked w) (forgotten w) (signed_out w).
Definition with_settings (s : Settings) (w : Office) : Office :=
  mkOffice (forms w) (connection w) s (made w) (asked w) (forgotten w) (signed_out w).
Definition next_form (w : Office) : Office :=
  mkOffice (forms w) (connection w) (settings w) (S (made w)) (asked w) (forgotten w) (signed_out w).
Definition forget (name : jstr) (w : Office) : Office :=
  mkOffice (forms w) (connection w) (settings w) (made w) (asked w) (forgotten w ++ [name]) (signed_out w).
Definition sign_out (w : Office) : Office :=
  mkOffice (forms w) (connection w) (settings w) (made w) (asked w) (forgotten w) true.
Definition asking (q : Query) (f : option Form) (w : Office) : Office :=
  mkOffice (forms w) (connection w) (settings w) (made w) (asked w ++ [(q, f)]) (forgotten w) (signed_out w).
Definition send (q : Query) (f : option Form) : Script (answer q) := Do (asking q f) (Script.ask q).

Definition on_form (k : Kind) (n : nat) (f : Form -> Form) (w : Office) : Office :=
  match forms w k with Some x => if Nat.eqb (form_no x) n then set_form k (Some (f x)) w else w | None => w end.
Definition says (m : jstr) (busy : bool) (f : Form) : Form := mkForm (form_no f) (texts f) busy m (shown f).
Definition show_code (c : jstr) (f : Form) : Form := mkForm (form_no f) (texts f) (f_busy f) (f_error f) c.

(** ** Accounts *)

Definition blank (k : Kind) (n : nat) : Form :=
  mkForm n (fun f => match k, f with Bootstrap, Username => js "teacher" | _, _ => [] end) false [] [].
(** [value.replace(/\D/g, "").slice(0, 8)]. *)
Definition pin_text (v : jstr) : jstr := slice_to 8 (List.filter is_digit v).
Definition typed (f : Field) (v : jstr) (x : Form) : Form :=
  let v := match f with Pin => pin_text v | _ => v end in
  mkForm (form_no x) (fun f' => if decide (f' = f) then v else texts x f') (f_busy x) (f_error x) (shown x).
Definition long_enough (x : Form) : bool := 8 <=? Z.of_nat (length (texts x Password)).
Definition pin_complete (x : Form) : bool := Z.of_nat (length (texts x Pin)) =? 8.
(** The button is enabled. *)
Definition ready (k : Kind) (x : Form) : bool :=
  match k with
  | Bootstrap => negb (f_busy x) && pin_complete x && truthy (trim (texts x DisplayName)) && long_enough x
  | Join => negb (f_busy x) && truthy (trim (texts x DisplayName)) && truthy (trim (texts x Username)) &&
            truthy (texts x Password) && pin_complete x
  | Recovery => truthy (trim (texts x Username)) && truthy (trim (texts x Code)) && long_enough x
  end.
Definition msg_short : jstr := js "Use at least 8 characters.".
Definition msg_mismatch : jstr := js "The passwords do not match.".
(** What is wrong with a form that can be submitted. *)
Definition complaint (k : Kind) (x : Form) : option jstr :=
  if (match k with Join => negb (long_enough x) | _ => false end) then Some msg_short
  else if seqb (texts x Password) (texts x Confirm) then None else Some msg_mismatch.
Definition request (k : Kind) (x : Form) : Query :=
  match k with
  | Bootstrap => BootstrapTeacher (texts x Username) (texts x DisplayName) (texts x Password) (texts x Pin)
  | Join => RegisterTeacher (texts x Username) (texts x DisplayName) (texts x Password) (texts x Pin)
  | Recovery => RecoverTeacher (trim (texts x Username)) (trim (texts x Code)) (texts x Password)
  end.
Definition code_of (q : Query) : answer q -> outcome (option jstr) jstr :=
  match q with
  | BootstrapTeacher _ _ _ _ | RegisterTeacher _ _ _ _ | RecoverTeacher _ _ _ => fun a => a
  | _ => fun _ => Throw None
  end.
Definition msg_failed (k : Kind) : jstr :=
  match k with
  | Bootstrap => js "Setup failed."
  | Join => js "Account could not be created."
  | Recovery => js "Recovery failed."
  end.
(** Only the recovery form stays enabled while it is sent. *)
Definition waits (k : Kind) : bool := match k with Recovery => false | _ => true end.
Definition submit (k : Kind) : Script unit :=
  w <- Script.get;;
  match forms w k with
  | Some x =>
    if truthy (shown x) || negb (ready k x) then Ret tt else
    match complaint k x with
    | Some m => Script.update (on_form k (form_no x) (fun f => says m (f_busy f) f))
    | None =>
      Do (on_form k (form_no x) (says [] (waits k)))
        (r <- send (request k x) (Some x);;
         match code_of _ r with
         | Ok c => Script.update (on_form k (form_no x) (fun f => says (f_error f) false (show_code c f)))
         | Throw m => Script.update (on_form k (form_no x) (says (failure_text m (msg_failed k)) false))
         end)
    end
  | None => Ret tt
  end.

(** ** The address of the Host *)

Definition on_connection (n : nat) (f : Connection -> Connection) (w : Office) : Office :=
  match connection w with Some c => if Nat.eqb (conn_no c) n then with_connection (Some (f c)) w else w | None => w end.
Definition conn_says (m : jstr) (busy : bool) (c : Connection) : Connection :=
  mkConnection (conn_no c) (url c) (label c) (found c) busy m.
Definition set_url (u : jstr) (c : Connection) : Connection := mkConnection (conn_no c) u (label c) (found c) (c_busy c) (c_error c).
Definition set_label (l : jstr) (c : Connection) : Connection := mkConnection (conn_no c) (url c) l (found c) (c_busy c) (c_error c).
Definition msg_none_found : jstr := js "No Cinder Host was found automatically. Enter its address below.".
Definition msg_no_discovery : jstr := js "Automatic discovery was unavailable. Enter the address manually.".
(** [setFound], [setUrl] and [setError] of the addresses that were found. *)
Definition hosts_found (hosts : list jstr) (c : Connection) : Connection :=
  mkConnection (conn_no c) (match hosts with h :: _ => if truthy h then h else url c | [] => url c end) (label c) hosts false
    (match hosts with [] => msg_none_found | _ => c_error c end).
Definition DEV_HOST : jstr := js "http://127.0.0.1:7373".
Definition discover (isTauri : bool) : Script unit :=
  w <- Script.get;;
  match connection w with
  | Some c =>
    if c_busy c then Ret tt else
    Do (on_connection (conn_no c) (conn_says [] true))
      (if isTauri then
         r <- send DiscoverHosts None;;
         match r with
         | Ok hosts => Script.update (on_connection (conn_no c) (hosts_found hosts))
         | Throw _ => Script.update (on_connection (conn_no c) (conn_says msg_no_discovery false))
         end
       else Script.update (on_connection (conn_no c) (hosts_found [DEV_HOST])))
  | None => Ret tt
  end.
Definition msg_no_connection : jstr := js "Connection failed.".
(** The form is closed by [onSave]. *)
Definition save_connection : Script unit :=
  w <- Script.get;;
  match connection w with
  | Some c =>
    if c_busy c || negb (truthy (trim (url c))) then Ret tt else
    Do (on_connection (conn_no c) (conn_says [] true))
      (r <- send (SaveConnection (url c) (label c)) None;;
       match r with
       | Ok _ => Script.update (with_connection None)
       | Throw x => Script.update (on_connection (conn_no c) (conn_says (failure_text x msg_no_connection) false))
       end)
  | None => Ret tt
  end.

(** ** Settings *)

Definition on_settings (f : Settings -> Settings) (w : Office) : Office := with_settings (f (settings w)) w.
Definition set_teachers (l : list User) (s : Settings) : Settings :=
  mkSettings l (invite s) (inviteBusy s) (deleting s) (password s) (accountBusy s) (accountError s).
Definition set_invite (i : option Invite) (s : Settings) : Settings :=
  mkSettings (teachers s) i (inviteBusy s) (deleting s) (password s) (accountBusy s) (accountError s).
Definition set_inviteBusy (b : bool) (s : Settings) : Settings :=
  mkSettings (teachers s) (invite s) b (deleting s) (password s) (accountBusy s) (accountError s).
Definition set_deleting (u : option User) (s : Settings) : Settings :=
  mkSettings (teachers s) (invite s) (inviteBusy s) u (password s) (accountBusy s) (accountError s).
Definition set_password (p : jstr) (s : Settings) : Settings :=
  mkSettings (teachers s) (invite s) (inviteBusy s) (deleting s) p (accountBusy s) (accountError s).
Definition set_accountBusy (b : bool) (s : Settings) : Settings :=
  mkSettings (teachers s) (invite s) (inviteBusy s) (deleting s) (password s) b (accountError s).
Definition set_accountError (m : jstr) (s : Settings) : Settings :=
  mkSettings (teachers s) (invite s) (inviteBusy s) (deleting s) (password s) (accountBusy s) m.

Definition msg_no_teachers : jstr := js "Teacher accounts could not be loaded.".
Definition loadTeachers : Script unit :=
  r <- send TeacherAccounts None;;
  match r with
  | Ok l => Script.update (on_settings (set_teachers l))
  | Throw x => Script.update (on_settings (set_accountError (failure_text x msg_no_teachers)))
  end.
Definition msg_no_invite : jstr := js "An invite PIN could not be generated.".
Definition generate : Script unit :=
  w <- Script.get;;
  if inviteBusy (settings w) then Ret tt else
  Do (on_settings (fun s => set_accountError [] (set_inviteBusy true s)))
    (r <- send TeacherInvite None;;
     match r with
     | Ok i => Script.update (on_settings (fun s => set_inviteBusy false (set_invite (Some i) s)))
     | Throw x => Script.update (on_settings (fun s => set_inviteBusy false (set_accountError (failure_text x msg_no_invite) s)))
     end).
Definition msg_not_deleted : jstr := js "The teacher account could not be deleted.".
Definition delete_account : Script unit :=
  w <- Script.get;;
  match deleting (settings w) with
  | Some u =>
    let secret := password (settings w) in
    if accountBusy (settings w) || negb (truthy secret) then Ret tt else
    Do (on_settings (fun s => set_accountError [] (set_accountBusy true s)))
      (r <- send (DeleteTeacher (user_id u) secret) None;;
       match r with
       | Throw x => Script.update (on_settings (fun s => set_accountBusy false (set_accountError (failure_text x msg_not_deleted) s)))
       | Ok deleted_current =>
         Do (fun w => on_settings (fun s => set_password [] (set_deleting None s)) (forget (username u) w))
           ((if deleted_current : bool then Script.update sign_out else loadTeachers);;
            Script.update (on_settings (set_accountBusy false)))
       end)
  | None => Ret tt
  end.
(** Only the account that is signed in, [me], has the button. *)
Definition ask_delete (me : User) (u : User) (s : Settings) : Settings :=
  if seqb (user_id u) (user_id me) then set_accountError [] (set_password [] (set_deleting (Some u) s)) else s.
Definition invite_button (s : Settings) : jstr :=
  if inviteBusy s then js "Generating…"
  else match invite s with Some _ => js "Rotate teacher invite PIN" | None => js "Generate teacher invite PIN" end.

(** ** Events *)

Inductive Event :=
  | OpenForm (k : Kind) | CloseForm (k : Kind) | Type_ (k : Kind) (f : Field) (v : jstr) | Submit (k : Kind)
  | OpenConnection (base name : jstr) | CloseConnection | TypeUrl (u : jstr) | TypeLabel (l : jstr) | Pick (i : nat)
  | Discover (isTauri : bool) | SaveHost
  | OpenSettings | Generate | AskDelete (i : nat) | TypePassword (p : jstr) | ConfirmDelete | CancelDelete
  | Answered (i : nat) (o : forall q, answer q).
Definition no_settings : Settings := mkSettings [] None false None [] false [].
Definition apply (f : Office -> Office) (y : System) : System := mkSystem (f (world y)) (waiting y).
Section office.
Context (me : User).
Definition step (ev : Event) (y : System) : System :=
  let w := world y in
  match ev with
  | OpenForm k => match forms w k with None => apply (fun w => next_form (set_form k (Some (blank k (made w))) w)) y | Some _ => y end
  | CloseForm k => apply (set_form k None) y
  | Type_ k f v =>
    match forms w k with
    | Some x => if truthy (shown x) then y else apply (set_form k (Some (typed f v x))) y
    | None => y
    end
  | Submit k => start (submit k) y
  | OpenConnection base name =>
    match connection w with
    | None => apply (fun w => next_form (with_connection (Some (mkConnection (made w) base name [] false [])) w)) y
    | Some _ => y
    end
  | CloseConnection => apply (with_connection None) y
  | TypeUrl u => match connection w with Some c => apply (on_connection (conn_no c) (set_url u)) y | None => y end
  | TypeLabel l => match connection w with Some c => apply (on_connection (conn_no c) (set_label l)) y | None => y end
  | Pick i =>
    match connection w with
    | Some c => match found c !! i with Some u => apply (on_connection (conn_no c) (set_url u)) y | None => y end
    | None => y
    end
  | Discover isTauri => start (discover isTauri) y
  | SaveHost => start save_connection y
  | OpenSettings => start loadTeachers (apply (with_settings no_settings) y)
  | Generate => start generate y
  | AskDelete i =>
    match teachers (settings w) !! i with Some u => apply (on_settings (ask_delete me u)) y | None => y end
  | TypePassword p => apply (on_settings (set_password p)) y
  | ConfirmDelete => start delete_account y
  | CancelDelete => apply (on_settings (set_deleting None)) y
  | Answered i o => resume i o y
  end.
Definition run (es : list Event) (y : System) : System := fold_left (fun y ev => step ev y) es y.
End office.
Definition closed : System := mkSystem (mkOffice (fun _ => None) None no_settings 0 [] [] false) [].

(** ** Properties *)

Module AccountFacts.

Definition eight_digits (p : jstr) : Prop := forallb is_digit p = true /\ length p = 8%nat.
(** The password of a request, as it was typed twice in its form. *)
Definition typed_twice (p : jstr) (f : option Form) : Prop :=
  (8 <= length p)%nat /\ exists x, f = Some x /\ texts x Password = p /\ texts x Confirm = p.
Definition request_ok (me : User) (e : Query * option Form) : Prop :=
  match fst e with
  | BootstrapTeacher _ n p pin | RegisterTeacher _ n p pin => truthy (trim n) = true /\ typed_twice p (snd e) /\ eight_digits pin
  | RecoverTeacher u c p => truthy u = true /\ truthy c = true /\ typed_twice p (snd e)
  | SaveConnection u _ => truthy (trim u) = true
  | DeleteTeacher id p => id = user_id me /\ truthy p = true
  | _ => True
  end.
Definition form_ok (x : Form) : Prop := forallb is_digit (texts x Pin) = true /\ (length (texts x Pin) <= 8)%nat.
Record fine (me : User) (w : Office) : Prop := {
  fi_forms : forall k x, forms w k = Some x -> form_ok x;
  fi_deleting : forall u, deleting (settings w) = Some u -> user_id u = user_id me;
  fi_asked : Forall (request_ok me) (asked w)
}.

Lemma pin_text_ok v : forallb is_digit (pin_text v) = true /\ (length (pin_text v) <= 8)%nat.
Proof.
  unfold pin_text, slice_to. split; [|rewrite length_take; lia].
  apply forallb_parts. induction v as [|c v IH]; [done|]. cbn [List.filter]. destruct (is_digit c) eqn:E; [|done]. cbn. by rewrite E.
Qed.
Lemma long_length x : long_enough x = true -> (8 <= length (texts x Password))%nat.
Proof. unfold long_enough. lia. Qed.
Lemma complete_digits x : form_ok x -> pin_complete x = true -> eight_digits (texts x Pin).
Proof. intros [H1 H2] Hp. split; [done|]. unfold pin_complete in Hp. lia. Qed.

Section fine.
Context (me : User).
Local Abbreviation keeps s := (Script.keeps (answer := answer) (fine me) (fun _ _ => True) s (fun _ => True)).

Lemma set_form_fine k f w : match f with Some x => form_ok x | None => True end -> fine me w -> fine me (set_form k f w).
Proof.
  intros Hf [H1 H2 H3]. split; [|done..]. intros k' x Hx. cbn in Hx. destruct (decide (k' = k)); [|by eapply H1].
  by rewrite Hx in Hf.
Qed.
Lemma on_form_fine k n f w : (forall x, texts (f x) = texts x) -> fine me w -> fine me (on_form k n f w).
Proof.
  intros Hf Hw. unfold on_form. destruct (forms w k) as [x|] eqn:Ex; [|done]. destruct (Nat.eqb _ _); [|done].
  apply set_form_fine; [|done]. unfold form_ok. rewrite Hf. by eapply fi_forms.
Qed.
Lemma on_settings_fine f w : (forall s, deleting (f s) = deleting s \/ deleting (f s) = None) -> fine me w -> fine me (on_settings f w).
Proof. intros Hf [H1 H2 H3]. split; [done| |done]. intros u Hu. cbn in Hu. destruct (Hf (settings w)); [apply H2|]; congruence. Qed.
Lemma with_connection_fine c w : fine me w -> fine me (with_connection c w).
Proof. by intros [H1 H2 H3]. Qed.
Lemma on_connection_fine n f w : fine me w -> fine me (on_connection n f w).
Proof. unfold on_connection. destruct (connection w); [|done]. destruct (Nat.eqb _ _); [|done]. apply with_connection_fine. Qed.
Lemma account_quiet f : (forall w, fine me w -> fine me (f w)) -> keeps (Script.update f).
Proof. apply keeps_update. Qed.
Lemma account_send_keeps q f : request_ok me (q, f) -> Script.keeps (fine me) (fun _ _ => True) (send q f) (fun _ => True).
Proof.
  intros Hq. apply keeps_do; [|apply keeps_ask]. intros w [H1 H2 H3]. split; [done..|]. by apply Forall_app_2, Forall_singleton.
Qed.

Lemma request_fine k x : form_ok x -> ready k x = true -> complaint k x = None -> request_ok me (request k x, Some x).
Proof.
  intros Hx Hr Hc. unfold complaint in Hc.
  assert (Hs : texts x Password = texts x Confirm /\ (match k with Join => long_enough x = true | _ => True end)).
  { destruct k; [..|]; try (destruct (seqb _ _) eqn:E; [apply seqb_eq in E|]; done).
    destruct (long_enough x); [|done]. cbn in Hc. destruct (seqb _ _) eqn:E; [apply seqb_eq in E|]; done. }
  destruct Hs as [Hs Hl]. unfold ready in Hr. destruct k; bool_hyps; cbn; unfold typed_twice;
    split_and!; eauto using long_length, complete_digits.
Qed.
Lemma submit_keeps k : keeps (submit k).
Proof.
  eapply keeps_bind; [apply keeps_get|]. intros w Hw. destruct (forms w k) as [x|] eqn:Ex; [|by apply keeps_ret].
  destruct (truthy (shown x) || negb (ready k x)) eqn:Er; [by apply keeps_ret|].
  destruct (complaint k x) as [m|] eqn:Ec; [by apply account_quiet; intros; apply on_form_fine|].
  apply keeps_do; [intros; by apply on_form_fine|]. eapply keeps_bind.
  - apply account_send_keeps, request_fine; [by eapply fi_forms|by destruct (ready k x); [|destruct (truthy _)]|done].
  - intros r _. destruct (code_of _ r); apply account_quiet; intros; by apply on_form_fine.
Qed.
Lemma discover_keeps b : keeps (discover b).
Proof.
  eapply keeps_bind; [apply keeps_get|]. intros w Hw. destruct (connection w) as [c|]; [|by apply keeps_ret].
  destruct (c_busy c); [by apply keeps_ret|]. apply keeps_do; [intros; by apply on_connection_fine|].
  destruct b; [|by apply account_quiet; intros; apply on_connection_fine]. eapply keeps_bind; [by apply account_send_keeps|].
  intros [l|] _; apply account_quiet; intros; by apply on_connection_fine.
Qed.
Lemma save_keeps : keeps save_connection.
Proof.
  eapply keeps_bind; [apply keeps_get|]. intros w Hw. destruct (connection w) as [c|]; [|by apply keeps_ret].
  destruct (c_busy c || negb (truthy (trim (url c)))) eqn:Er; [by apply keeps_ret|].
  apply orb_false_elim in Er as [_ Er%negb_false_iff].
  apply keeps_do; [intros; by apply on_connection_fine|]. eapply keeps_bind; [by apply account_send_keeps|].
  intros [l|] _; apply account_quiet; intros; [by apply with_connection_fine|by apply on_connection_fine].
Qed.
Lemma loadTeachers_keeps : keeps loadTeachers.
Proof.
  eapply keeps_bind; [by apply account_send_keeps|]. intros [l|x] _; apply account_quiet; intros; apply on_settings_fine; auto.
Qed.
Lemma generate_keeps : keeps generate.
Proof.
  eapply keeps_bind; [apply keeps_get|]. intros w Hw. destruct (inviteBusy _); [by apply keeps_ret|].
  apply keeps_do; [intros; apply on_settings_fine; auto|]. eapply keeps_bind; [by apply account_send_keeps|].
  intros [l|x] _; apply account_quiet; intros; apply on_settings_fine; auto.
Qed.
Lemma delete_keeps : keeps delete_account.
Proof.
  eapply keeps_bind; [apply keeps_get|]. intros w Hw. destruct (deleting (settings w)) as [u|] eqn:Eu; [|by apply keeps_ret].
  cbn zeta. destruct (accountBusy _ || negb (truthy _)) eqn:Er; [by apply keeps_ret|].
  apply orb_false_elim in Er as [_ Er%negb_false_iff].
  apply keeps_do; [intros; apply on_settings_fine; auto|]. eapply keeps_bind.
  - apply account_send_keeps. split; [by eapply fi_deleting|done].
  - intros [b|x] _; [|apply account_quiet; intros; apply on_settings_fine; auto].
    apply keeps_do; [intros w' [H1 H2 H3]; by split|]. eapply keeps_bind.
    + destruct b; [|apply loadTeachers_keeps]. apply account_quiet. by intros w' [H1 H2 H3].
    + intros _ _. apply account_quiet. intros. apply on_settings_fine; auto.
Qed.

Local Abbreviation ok y := (sound (fine me) anyhow (fun (q : Query) (_ : answer q) => True) y).
Lemma account_apply_ok f y : (fine me (world y) -> fine me (f (world y))) -> ok y -> ok (apply f y).
Proof.
  intros Hf [Hg Hw]. split; [by apply Hf|]. cbn [apply world waiting]. eapply Forall_impl; [exact Hw|].
  intros s. apply ready_later; [apply _|done].
Qed.
Lemma account_step_ok ev y : ok y -> ok (step me ev y).
Proof.
  intros Hy. assert (Hs : forall s, keeps s -> ok (start s y)) by (intros; by apply keeps_start).
  destruct ev as [k|k|k f v|k|base name| |u|l|i|b| | | |i|p| | |i o]; cbn [step];
    try (by apply Hs; auto using submit_keeps, discover_keeps, save_keeps, generate_keeps, delete_keeps).
  - destruct (forms (world y) k); [done|]. apply account_apply_ok; [|done]. intros Hw.
    assert (H : fine me (set_form k (Some (blank k (made (world y)))) (world y))).
    { apply set_form_fine; [|done]. destruct k; (split; [done|cbn; lia]). }
    by destruct H as [H1 H2 H3].
  - apply account_apply_ok; [|done]. by apply set_form_fine.
  - destruct (forms (world y) k) as [x|] eqn:Ex; [|done]. destruct (truthy _); [done|]. apply account_apply_ok; [|done]. intros Hw.
    apply set_form_fine; [|done]. pose proof (fi_forms _ _ Hw _ _ Ex) as Hx. unfold form_ok. cbn [typed texts].
    destruct (decide (Pin = f)) as [<-|]; [apply pin_text_ok|exact Hx].
  - destruct (connection _); [done|]. apply account_apply_ok; [|done]. by intros [H1 H2 H3].
  - apply account_apply_ok; [|done]. apply with_connection_fine.
  - destruct (connection _); [|done]. apply account_apply_ok; [|done]. apply on_connection_fine.
  - destruct (connection _); [|done]. apply account_apply_ok; [|done]. apply on_connection_fine.
  - destruct (connection _) as [c|]; [|done]. destruct (found c !! i); [|done]. apply account_apply_ok; [|done]. apply on_connection_fine.
  - apply keeps_start; [|apply loadTeachers_keeps]. apply account_apply_ok; [|done]. by intros [H1 H2 H3].
  - destruct (teachers (settings (world y)) !! i) as [u|]; [|done]. apply account_apply_ok; [|done]. intros [H1 H2 H3].
    split; [done| |done]. unfold on_settings, ask_delete. cbn [with_settings settings]. destruct (seqb _ _) eqn:E; [|done].
    cbn [set_accountError set_password set_deleting deleting]. intros u' [= <-]. by apply seqb_eq.
  - apply account_apply_ok; [|done]. apply on_settings_fine; auto.
  - apply account_apply_ok; [|done]. apply on_settings_fine; auto.
  - by apply keeps_resume.
Qed.
End fine.
End AccountFacts.
Import AccountFacts.

(** ** Claims *)

(** Whatever is typed, pressed and answered, and in whatever order: an
    account is only asked for with a name, a password of eight characters or
    more that was typed twice alike and a PIN of exactly eight digits; a
    password is only recovered with a name, a code and such a password; an
    address is only saved when there is one; and only the account that is
    signed in is ever deleted, with its password. *)
Theorem account_requests_wellformed (me : User) es :
  Forall (request_ok me) (asked (world (run me es closed))).
Proof.
  assert (Hok : sound (fine me) anyhow (fun (q : Query) (_ : answer q) => True) (run me es closed)).
  { assert (H0 : sound (fine me) anyhow (fun (q : Query) (_ : answer q) => True) closed) by (split; [by split|constructor]).
    revert H0. generalize closed as y. induction es as [|ev es IH]; intros y Hy; [done|]. cbn [run fold_left]. by apply IH, account_step_ok. }
  apply Hok.
Qed.

Lemma set_form_at k f w : forms (set_form k f w) k = f.
Proof. cbn. by rewrite decide_True. Qed.
Lemma on_form_at k n f x w : forms w k = Some x -> form_no x = n -> on_form k n f w = set_form k (Some (f x)) w.
Proof. intros Hx <-. unfold on_form. by rewrite Hx, Nat.eqb_refl. Qed.
(** One form that is submitted: the Host is asked once; its code is shown, or
    its message, over what was typed. *)
Lemma account_outcome k x env n w :
  forms w k = Some x -> shown x = [] -> ready k x = true -> complaint k x = None ->
  let w' := snd (finish (submit k) env n w) in
  asked w' = asked w ++ [(request k x, Some x)] /\
  forms w' k = Some match code_of _ (env n (request k x)) with
                    | Ok c => says [] false (show_code c x)
                    | Throw m => says (failure_text m (msg_failed k)) false x
                    end.
Proof.
  intros Hx Hs Hr Hc w'. unfold w', submit. cbn [bind finish Script.get]. rewrite Hx, Hs, Hr, Hc.
  cbn [truthy orb negb bind finish send Script.ask]. rewrite (on_form_at _ _ _ x) by done.
  set (w1 := asking _ _ _). assert (E1 : forms w1 k = Some (says [] (waits k) x)) by apply set_form_at.
  destruct (code_of _ _) as [c|m]; cbn [finish Script.update snd]; rewrite (on_form_at _ _ _ _ _ E1) by done; by rewrite set_form_at.
Qed.

Module AccountRuns.
Definition me : User := mkUser (js "t1") (js "ada") (js "Ada") Teacher None None None false [].
Definition go (es : list Event) : Office := world (run me es closed).
Definition joining : list Event :=
  [OpenForm Join; Type_ Join DisplayName (js "Ada"); Type_ Join Username (js "ada"); Type_ Join Password (js "engine-1843");
   Type_ Join Confirm (js "engine-1843"); Type_ Join Pin (js "1234 5678 9"); Submit Join].
Definition coded (c : jstr) : forall q, answer q := fun q =>
  match q with
  | BootstrapTeacher _ _ _ _ | RegisterTeacher _ _ _ _ | RecoverTeacher _ _ _ => Ok c
  | DiscoverHosts => Ok [js "http://10.0.0.9:7373"]
  | SaveConnection _ _ => Ok tt
  | TeacherAccounts => Ok [me]
  | TeacherInvite => Throw None
  | DeleteTeacher _ _ => Ok true
  end.
Example joined : (shown <$> forms (go (joining ++ [Answered 0 (coded (js "code"))])) Join) = Some (js "code") /\
  fst <$> asked (go joining) = [RegisterTeacher (js "ada") (js "Ada") (js "engine-1843") (js "12345678")].
Proof. vm_compute. done. Qed.

(** The form can be closed while the account is made: the code, which is
    answered only once, is then never shown. *)
Example closed_form_loses_code :
  let w := go (joining ++ [CloseForm Join; Answered 0 (coded (js "code"))]) in
  length (asked w) = 1%nat /\ (forall k, forms w k = None) /\ waiting (run me (joining ++ [CloseForm Join; Answered 0 (coded (js "code"))]) closed) = [].
Proof. split; [|split]; [vm_compute; reflexivity| |vm_compute; reflexivity]. by intros []. Qed.

(** An address that is typed while the Host is searched for is replaced by the
    one that is found. *)
Example found_host_replaces_typed :
  (url <$> connection (go [OpenConnection (js "http://old") (js "Desk"); Discover true; TypeUrl (js "https://school.example");
                           Answered 0 (coded [])])) = Some (js "http://10.0.0.9:7373").
Proof. vm_compute. done. Qed.

Example account_deleted :
  let w := go [OpenSettings; Answered 0 (coded []); AskDelete 0; TypePassword (js "engine-1843"); ConfirmDelete; Answered 0 (coded [])] in
  forgotten w = [js "ada"] /\ signed_out w = true /\ deleting (settings w) = None.
Proof. vm_compute. done. Qed.
End AccountRuns.
