(* ===== verification/TeacherClassroom.v ===== *)
(** * Classrooms and students ([StudentsView], [CreateStudentModal],
    [EditStudentModal], [ClassroomsView], [ClassroomFormModal] and
    [ClassroomWorkspace] of [apps/teacher/src/App.tsx])

    [School] is the state of the page of students, of the list of classrooms
    and of the classroom that is open.  [room_no] and [form_no] tell apart the
    rooms and forms opened one after the other: what was begun for one that is
    gone changes nothing.  What waits for the Host is a script.  [asked] lists
    what was sent; nothing reads it.  A form is
    modal, so nothing behind it can be pressed. *)

From stdpp Require Import list.
From S2P Require Import Prelude Script JsString JsNumber JsValue Types.
Local Open Scope Z_scope.
Local Open Scope script_scope.

(** ** Data *)

Record StudentInput := mkStudentInput {
  in_username : jstr; in_display_name : jstr; in_grade_level : option jstr; in_section : option jstr; in_roll_number : option jstr
}.
Record StudentCredentials := mkCredentials { cr_user : User; temporary_password : jstr; recovery_code : jstr }.
Record ClassroomInput := mkClassroomInput { in_name : jstr; in_code : option jstr; in_description : jstr; in_color : jstr }.
Record ClassroomRoster := mkRoster { ro_classroom : Classroom; ro_students : list User }.
Record ClassroomTeachers := mkTeachers { owner : User; co_teachers : list User }.
Record Blob := mkBlob { mime : jstr; data : list N }.
(** The four answers [load] waits for together. *)
Record RoomData := mkRoomData { rd_roster : ClassroomRoster; rd_nodes : list StudyNode; rd_teachers : ClassroomTeachers; rd_accounts : list User }.

Inductive Field := SUsername | SName | SGrade | SSection | SRoll | SRoom | CName | CCode | CDescription | CColor.
#[export] Instance Field_eq : EqDecision Field. Proof. solve_decision. Defined.
(** [f_of] is the student an editor is about. *)
Record Form := mkForm { form_no : nat; f_of : option User; texts : Field -> jstr; f_busy : bool; f_error : jstr }.
(** The forms about students, on either page that has them. *)
Record Page := mkPage {
  creating : option Form; editing : option Form; credentials : option StudentCredentials; p_error : jstr
}.
Inductive Section_ := Overview | Students | Materials | Assignments | Quizzes | Attendance | Live | Teachers_.
#[export] Instance Section_eq : EqDecision Section_. Proof. solve_decision. Defined.
Record Preview := mkPreview { pv_url : nat; pv_mime : jstr; pv_name : jstr }.
Record Room := mkRoom {
  room_no : nat; classroomId : jstr; roster : option ClassroomRoster; teachers : option ClassroomTeachers;
  accounts : list User; materials : list StudyNode; section : Section_; adding : bool; page : Page; renaming : option Form;
  teacherToAdd : jstr; preview : option Preview; busyId : jstr; uploading : bool; error : jstr; loadError : jstr; loading : bool
}.

Inductive Query :=
  | LoadRoom (classroom : jstr)
  | CreateStudent (classroom : jstr) (input : StudentInput)
  | UpdateStudent (id : jstr) (input : StudentInput)
  | ResetCredentials (id : jstr)
  | DeleteStudent (id : jstr)
  | CreateClassroom (input : ClassroomInput)
  | UpdateClassroom (id : jstr) (input : ClassroomInput)
  | DeleteClassroom (id : jstr)
  | AddTeacher (classroom id : jstr)
  | RemoveTeacher (classroom id : jstr)
  | EnrolStudent (classroom id : jstr)
  | RemoveStudent (classroom id : jstr)
  | UploadMaterial (classroom : jstr) (file : Blob)
  | MaterialBlob (id : jstr)
  | RenameNode (id name : jstr)
  | DeleteNode (id : jstr)
  | Updated.
Definition answer (q : Query) : Type :=
  match q with
  | LoadRoom _ => outcome (option jstr) RoomData
  | CreateStudent _ _ | ResetCredentials _ => outcome (option jstr) StudentCredentials
  | MaterialBlob _ => outcome (option jstr) Blob
  | Updated => unit
  | _ => outcome (option jstr) unit
  end.
(** [urls] are the object URLs that were made and not revoked. *)
Record School := mkSchool {
  students : list User; classrooms : list Classroom; students_page : Page; new_classroom : option Form; room : option Room;
  made : nat; urls : list nat; asked : list Query
}.
Local Abbreviation Script := (Script School answer).
Local Abbreviation System := (System School answer).

Definition with_props (l : list User) (cs : list Classroom) (w : School) : School :=
  mkSchool l cs (students_page w) (new_classroom w) (room w) (made w) (urls w) (asked w).
Definition with_page (p : Page) (w : School) : School :=
  mkSchool (students w) (classrooms w) p (new_classroom w) (room w) (made w) (urls w) (asked w).
Definition with_new (f : option Form) (w : School) : School :=
  mkSchool (students w) (classrooms w) (students_page w) f (room w) (made w) (urls w) (asked w).
Definition with_room (r : option Room) (w : School) : School :=
  mkSchool (students w) (classrooms w) (students_page w) (new_classroom w) r (made w) (urls w) (asked w).
Definition making (w : School) : School :=
  mkSchool (students w) (classrooms w) (students_page w) (new_classroom w) (room w) (S (made w)) (urls w) (asked w).
Definition with_urls (l : list nat) (w : School) : School :=
  mkSchool (students w) (classrooms w) (students_page w) (new_classroom w) (room w) (made w) l (asked w).
Definition asking (q : Query) (w : School) : School :=
  mkSchool (students w) (classrooms w) (students_page w) (new_classroom w) (room w) (made w) (urls w) (asked w ++ [q]).
Definition send (q : Query) : Script (answer q) := Do (asking q) (Script.ask q).

Definition set_creating (f : option Form) (p : Page) : Page := mkPage f (editing p) (credentials p) (p_error p).
Definition set_editing (f : option Form) (p : Page) : Page := mkPage (creating p) f (credentials p) (p_error p).
Definition set_credentials (c : option StudentCredentials) (p : Page) : Page := mkPage (creating p) (editing p) c (p_error p).
Definition set_p_error (m : jstr) (p : Page) : Page := mkPage (creating p) (editing p) (credentials p) m.

Definition set_data (d : RoomData) (ms : list StudyNode) (r : Room) : Room :=
  mkRoom (room_no r) (classroomId r) (Some (rd_roster d)) (Some (rd_teachers d)) (rd_accounts d) ms (section r) (adding r) (page r)
    (renaming r) (teacherToAdd r) (preview r) (busyId r) (uploading r) (error r) (loadError r) (loading r).
Definition set_loading (b : bool) (m : jstr) (r : Room) : Room :=
  mkRoom (room_no r) (classroomId r) (roster r) (teachers r) (accounts r) (materials r) (section r) (adding r) (page r)
    (renaming r) (teacherToAdd r) (preview r) (busyId r) (uploading r) (error r) m b.
Definition set_section (s : Section_) (r : Room) : Room :=
  mkRoom (room_no r) (classroomId r) (roster r) (teachers r) (accounts r) (materials r) s (adding r) (page r)
    (renaming r) (teacherToAdd r) (preview r) (busyId r) (uploading r) (error r) (loadError r) (loading r).
Definition set_adding (b : bool) (r : Room) : Room :=
  mkRoom (room_no r) (classroomId r) (roster r) (teachers r) (accounts r) (materials r) (section r) b (page r)
    (renaming r) (teacherToAdd r) (preview r) (busyId r) (uploading r) (error r) (loadError r) (loading r).
Definition set_page (p : Page) (r : Room) : Room :=
  mkRoom (room_no r) (classroomId r) (roster r) (teachers r) (accounts r) (materials r) (section r) (adding r) p
    (renaming r) (teacherToAdd r) (preview r) (busyId r) (uploading r) (error r) (loadError r) (loading r).
Definition set_renaming (f : option Form) (r : Room) : Room :=
  mkRoom (room_no r) (classroomId r) (roster r) (teachers r) (accounts r) (materials r) (section r) (adding r) (page r)
    f (teacherToAdd r) (preview r) (busyId r) (uploading r) (error r) (loadError r) (loading r).
Definition set_teacherToAdd (t : jstr) (r : Room) : Room :=
  mkRoom (room_no r) (classroomId r) (roster r) (teachers r) (accounts r) (materials r) (section r) (adding r) (page r)
    (renaming r) t (preview r) (busyId r) (uploading r) (error r) (loadError r) (loading r).
Definition set_preview (v : option Preview) (r : Room) : Room :=
  mkRoom (room_no r) (classroomId r) (roster r) (teachers r) (accounts r) (materials r) (section r) (adding r) (page r)
    (renaming r) (teacherToAdd r) v (busyId r) (uploading r) (error r) (loadError r) (loading r).
Definition set_busy (b : jstr) (r : Room) : Room :=
  mkRoom (room_no r) (classroomId r) (roster r) (teachers r) (accounts r) (materials r) (section r) (adding r) (page r)
    (renaming r) (teacherToAdd r) (preview r) b (uploading r) (error r) (loadError r) (loading r).
Definition set_uploading (b : bool) (r : Room) : Room :=
  mkRoom (room_no r) (classroomId r) (roster r) (teachers r) (accounts r) (materials r) (section r) (adding r) (page r)
    (renaming r) (teacherToAdd r) (preview r) (busyId r) b (error r) (loadError r) (loading r).
Definition set_error (m : jstr) (r : Room) : Room :=
  mkRoom (room_no r) (classroomId r) (roster r) (teachers r) (accounts r) (materials r) (section r) (adding r) (page r)
    (renaming r) (teacherToAdd r) (preview r) (busyId r) (uploading r) m (loadError r) (loading r).

Definition on_room (n : nat) (f : Room -> Room) (w : School) : School :=
  match room w with Some r => if Nat.eqb (room_no r) n then with_room (Some (f r)) w else w | None => w end.
(** The page of students, or the room mounted as number [n]. *)
Inductive Place := StudentsPage | InRoom (n : nat).
Definition on_page (pl : Place) (f : Page -> Page) (w : School) : School :=
  match pl with
  | StudentsPage => with_page (f (students_page w)) w
  | InRoom n => on_room n (fun r => set_page (f (page r)) r) w
  end.
Definition says (m : jstr) (busy : bool) (f : Form) : Form := mkForm (form_no f) (f_of f) (texts f) busy m.
Definition if_no (n : nat) (f : Form -> Form) (x : option Form) : option Form :=
  match x with Some y => if Nat.eqb (form_no y) n then Some (f y) else x | None => None end.

(** ** What the page shows *)

Definition is_owner (me : User) (r : Room) : bool :=
  match roster r with Some ro => seqb (owner_teacher_id (ro_classroom ro)) (user_id me) | None => false end.
Definition enrolled (r : Room) (id : jstr) : bool :=
  match roster r with Some ro => existsb (fun s => seqb (user_id s) id) (ro_students ro) | None => false end.
Definition assigned (r : Room) (id : jstr) : bool :=
  match teachers r with Some t => existsb (fun u => seqb (user_id u) id) (owner t :: co_teachers t) | None => false end.
Definition availableTeachers (r : Room) : list User := List.filter (fun u => negb (assigned r (user_id u))) (accounts r).
Definition listed_students (w : School) (r : Room) : list User :=
  if adding r then List.filter (fun s => negb (enrolled r (user_id s))) (students w)
  else match roster r with Some ro => ro_students ro | None => [] end.
Definition is_material (classroom : jstr) (n : StudyNode) : bool :=
  negb (match node_owner_id n with Some o => truthy o | None => false end) &&
  match node_classroom_id n with Some c => seqb c classroom | None => false end &&
  match node_kind n with NPdf => true | _ => false end.
Definition sections : list Section_ := [Overview; Students; Materials; Assignments; Quizzes; Attendance; Live; Teachers_].
Definition section_title (s : Section_) : jstr :=
  match s with
  | Overview => js "Overview" | Students => js "Students" | Materials => js "Materials" | Assignments => js "Assignments"
  | Quizzes => js "Quizzes" | Attendance => js "Attendance" | Live => js "Live classroom" | Teachers_ => js "Teachers"
  end.
Definition details_text (c : Classroom) : jstr :=
  or_str (classroom_description c) (js "No description") ++ js " · " ++
  or_str (default [] (subject_code c)) (js "No subject code").
(** A card of the list: badge, role, name, description, owner and numbers. *)
Definition card_text (me : User) (work : jstr -> nat) (c : Classroom) : list jstr :=
  [or_str (default [] (subject_code c)) (js "Subject");
   if seqb (owner_teacher_id c) (user_id me) then js "Owned" else js "Co-taught";
   classroom_name c; or_str (classroom_description c) (js "No description added.");
   js "Owner: " ++ owner_teacher_name c ++ js " · Code: " ++ enrolment_code c;
   show_Z (student_count c) ++ js " students · " ++ show_Z (Z.of_nat (work (classroom_id c))) ++ js " assignments"].
(** A row of the page of students. *)
Definition student_row (s : User) : list jstr :=
  [display_name s; username s;
   or_str (join (js " · ") (List.filter truthy [default [] (grade_level s); default [] (Types.section s)])) (js "—");
   or_str (default [] (roll_number s)) (js "—");
   if must_change_password s then js "Temporary PIN" else js "Active"].

(** The overview ([DashboardView]): its numbers, and the beginnings of its lists. *)
Definition metrics (stats : jsval) : list (jstr * jsval * jstr) :=
  [(js "Students", get (js "students") stats, js "Active accounts");
   (js "Classrooms", get (js "classrooms") stats, js "Subjects");
   (js "Submissions", get (js "pending_submissions") stats, js "Submitted work");
   (js "To grade", get (js "ungraded_submissions") stats, js "Needs review");
   (js "Present today", get (js "present_today") stats, js "Manually marked")].
Definition recent {A} (l : list A) : list A := take 6 l.
Definition recent_text (formatDate : option jstr -> jstr) (a : Assignment) : jstr * jstr :=
  (title a, a_classroom_name a ++ js " · " ++ formatDate (due_at a)).

(** ** Loading a classroom *)

Definition msg_not_loaded : jstr := js "Classroom details could not be loaded.".
Definition load (n : nat) (classroom : jstr) : Script unit :=
  Do (on_room n (set_loading true []))
    (r <- send (LoadRoom classroom);;
     match r with
     | Ok d => Script.update (on_room n (fun r => set_loading false (loadError r)
                                 (set_data d (List.filter (is_material classroom) (rd_nodes d)) r)))
     | Throw x => Script.update (on_room n (set_loading false (failure_text x msg_not_loaded)))
     end).
(** [load] and the refresh of the workspace run together; the refresh changes
    only the props of the page, so it may be asked second. *)
Definition reload (n : nat) (classroom : jstr) : Script unit := load n classroom;; _ <- send Updated;; Ret tt.
Definition refresh (pl : Place) (classroom : jstr) : Script unit :=
  match pl with
  | StudentsPage => _ <- send Updated;; Ret tt
  | InRoom n => reload n classroom
  end.

(** ** Forms *)

Definition null_if_empty (s : jstr) : option jstr := if truthy s then Some s else None.
Definition student_input (f : Form) : StudentInput :=
  mkStudentInput (trim (texts f SUsername)) (trim (texts f SName)) (null_if_empty (trim (texts f SGrade)))
    (null_if_empty (trim (texts f SSection))) (null_if_empty (trim (texts f SRoll))).
Definition student_ready (f : Form) : bool := negb (f_busy f) && truthy (trim (texts f SUsername)) && truthy (trim (texts f SName)).
Definition classroom_input (f : Form) : ClassroomInput :=
  mkClassroomInput (trim (texts f CName)) (null_if_empty (trim (texts f CCode))) (trim (texts f CDescription)) (texts f CColor).
Definition classroom_ready (f : Form) : bool := negb (f_busy f) && truthy (trim (texts f CName)).

Definition first_room (cs : list Classroom) : jstr := match cs with c :: _ => classroom_id c | [] => [] end.
Definition new_student (cs : list Classroom) (n : nat) : Form :=
  mkForm n None (fun f => match f with SRoom => first_room cs | _ => [] end) false [].
Definition edit_form (s : User) (n : nat) : Form :=
  mkForm n (Some s) (fun f => match f with
    | SUsername => username s | SName => display_name s | SGrade => default [] (grade_level s)
    | SSection => default [] (Types.section s) | SRoll => default [] (roll_number s) | _ => [] end) false [].
Definition classroom_form (c : option Classroom) (n : nat) : Form :=
  mkForm n None (fun f => match f, c with
    | CName, Some c => classroom_name c | CCode, Some c => default [] (subject_code c)
    | CDescription, Some c => classroom_description c | CColor, Some c => color c | CColor, None => js "#d9631f" | _, _ => [] end) false [].

Definition msg_not_created : jstr := js "Account could not be created.".
Definition create_student (pl : Place) (classroom : jstr) (f : Form) : Script unit :=
  if negb (student_ready f) then Ret tt else
  let form g := on_page pl (fun p => set_creating (if_no (form_no f) g (creating p)) p) in
  Do (form (says [] true))
    (a <- send (CreateStudent (texts f SRoom) (student_input f));;
     match a with
     | Ok c => Do (on_page pl (fun p => set_credentials (Some c) (set_creating None p))) (refresh pl classroom)
     | Throw x => Script.update (form (says (failure_text x msg_not_created) false))
     end).
Definition msg_not_changed : jstr := js "Student could not be updated.".
Definition edit_student (pl : Place) (classroom : jstr) (f : Form) : Script unit :=
  match f_of f with
  | None => Ret tt
  | Some s =>
    if negb (student_ready f) then Ret tt else
    let form g := on_page pl (fun p => set_editing (if_no (form_no f) g (editing p)) p) in
    Do (form (says [] true))
      (a <- send (UpdateStudent (user_id s) (student_input f));;
       match a with
       | Ok _ => Do (on_page pl (set_editing None)) (refresh pl classroom)
       | Throw x => Script.update (form (says (failure_text x msg_not_changed) false))
       end)
  end.
Definition msg_room_not_saved : jstr := js "Classroom could not be saved.".
Definition create_classroom : Script unit :=
  w <- Script.get;;
  match new_classroom w with
  | None => Ret tt
  | Some f =>
    if negb (classroom_ready f) then Ret tt else
    let form g w := with_new (if_no (form_no f) g (new_classroom w)) w in
    Do (form (says [] true))
      (a <- send (CreateClassroom (classroom_input f));;
       match a with
       | Ok _ => Do (with_new None) (_ <- send Updated;; Ret tt)
       | Throw x => Script.update (form (says (failure_text x msg_room_not_saved) false))
       end)
  end.
Definition rename_classroom (r : Room) (f : Form) : Script unit :=
  if negb (classroom_ready f) then Ret tt else
  let n := room_no r in
  let form g := on_room n (fun r => set_renaming (if_no (form_no f) g (renaming r)) r) in
  Do (form (says [] true))
    (a <- send (UpdateClassroom (classroomId r) (classroom_input f));;
     match a with
     | Ok _ => Do (on_room n (set_renaming None)) (reload n (classroomId r))
     | Throw x => Script.update (form (says (failure_text x msg_room_not_saved) false))
     end).

(** ** Students *)

Definition msg_not_reset : jstr := js "Sign-in details could not be reset.".
Definition reset_pin (id : jstr) : Script unit :=
  Do (on_page StudentsPage (set_p_error []))
    (a <- send (ResetCredentials id);;
     match a with
     | Ok c => Do (on_page StudentsPage (set_credentials (Some c))) (_ <- send Updated;; Ret tt)
     | Throw x => Script.update (on_page StudentsPage (set_p_error (failure_text x msg_not_reset)))
     end).
Definition msg_not_removed : jstr := js "The student account could not be removed.".
Definition remove_account (id : jstr) : Script unit :=
  Do (on_page StudentsPage (set_p_error []))
    (a <- send (DeleteStudent id);;
     match a with
     | Ok _ => _ <- send Updated;; Ret tt
     | Throw x => Script.update (on_page StudentsPage (set_p_error (failure_text x msg_not_removed)))
     end).

(** ** The classroom that is open *)

(** A button that is busy while its request waits: [setBusyId(id)], the
    request, and [finally { setBusyId("") }]. *)
Definition busy_with (r : Room) (id : jstr) (q : Query) (go : answer q -> Script (option jstr)) : Script unit :=
  let n := room_no r in
  Do (on_room n (fun r => set_error [] (set_busy id r)))
    (a <- send q;;
     m <- go a;;
     Script.update (on_room n (fun r => set_busy [] (match m with Some m => set_error m r | None => r end)))).
Definition then_reload (r : Room) (msg : jstr) (a : outcome (option jstr) unit) : Script (option jstr) :=
  match a with
  | Ok _ => reload (room_no r) (classroomId r);; Ret None
  | Throw x => Ret (Some (failure_text x msg))
  end.
Definition msg_roster : jstr := js "Roster could not be updated.".
Definition toggle_student (r : Room) (id : jstr) : Script unit :=
  if seqb (busyId r) id then Ret tt
  else if enrolled r id then busy_with r id (RemoveStudent (classroomId r) id) (then_reload r msg_roster)
  else busy_with r id (EnrolStudent (classroomId r) id) (then_reload r msg_roster).
Definition teacher_key (id : jstr) : jstr := js "teacher:" ++ id.
Definition msg_co_removed : jstr := js "Co-teacher could not be removed.".
Definition remove_teacher (r : Room) (id : jstr) : Script unit :=
  if seqb (busyId r) (teacher_key id) then Ret tt
  else busy_with r (teacher_key id) (RemoveTeacher (classroomId r) id) (then_reload r msg_co_removed).
Definition msg_co_added : jstr := js "Co-teacher could not be added.".
Definition add_teacher (r : Room) : Script unit :=
  let id := teacherToAdd r in
  if negb (truthy id) || truthy (busyId r) then Ret tt
  else busy_with r (teacher_key id) (AddTeacher (classroomId r) id) (fun a =>
    match a with
    | Ok _ => Do (on_room (room_no r) (set_teacherToAdd [])) (then_reload r msg_co_added a)
    | Throw _ => then_reload r msg_co_added a
    end).
(** Leaving the room, which revokes the URL of what was open in it. *)
Definition revoke (v : option Preview) (l : list nat) : list nat :=
  match v with Some p => List.filter (fun u => negb (Nat.eqb u (pv_url p))) l | None => l end.
Definition leave (w : School) : School :=
  match room w with Some r => with_room None (with_urls (revoke (preview r) (urls w)) w) | None => w end.
(** No failure is caught here. *)
Definition archive (r : Room) : Script unit :=
  a <- send (DeleteClassroom (classroomId r));;
  match a with
  | Ok _ => _ <- send Updated;; Script.update leave
  | Throw _ => Ret tt
  end.
Definition msg_not_uploaded : jstr := js "Material could not be uploaded.".
Definition upload (r : Room) (file : Blob) : Script unit :=
  let n := room_no r in
  if uploading r then Ret tt else
  Do (on_room n (fun r => set_error [] (set_uploading true r)))
    (a <- send (UploadMaterial (classroomId r) file);;
     match a with
     | Ok _ => load n (classroomId r);; Script.update (on_room n (set_uploading false))
     | Throw x => Script.update (on_room n (fun r => set_uploading false (set_error (failure_text x msg_not_uploaded) r)))
     end).
(** [setMaterialPreview], with the effect that revokes the URL before it; a URL
    that is made for a room that is gone is revoked by nobody. *)
Definition show_preview (n : nat) (v : option Preview) (w : School) : School :=
  match room w with
  | Some r => if Nat.eqb (room_no r) n then with_room (Some (set_preview v r)) (with_urls (revoke (preview r) (urls w)) w) else w
  | None => w
  end.
Definition msg_not_opened : jstr := js "Material could not be opened.".
Definition open_material (r : Room) (m : StudyNode) : Script unit :=
  if seqb (busyId r) (node_id m) then Ret tt
  else busy_with r (node_id m) (MaterialBlob (node_id m)) (fun a =>
    match a with
    | Ok b =>
      w <- Script.get;;
      let u := made w in
      Do (fun w => show_preview (room_no r) (Some (mkPreview u (mime b) (node_name m))) (making (with_urls (urls w ++ [u]) w)))
        (Ret None)
    | Throw x => Ret (Some (failure_text x msg_not_opened))
    end).
Definition rename_material (r : Room) (m : StudyNode) (prompt : option jstr) : Script unit :=
  let name := trim (default [] prompt) in
  if negb (truthy name) || seqb name (node_name m) then Ret tt else
  a <- send (RenameNode (node_id m) name);;
  match a with Ok _ => load (room_no r) (classroomId r) | Throw _ => Ret tt end.
Definition delete_material (r : Room) (m : StudyNode) : Script unit :=
  a <- send (DeleteNode (node_id m));;
  match a with Ok _ => load (room_no r) (classroomId r) | Throw _ => Ret tt end.

(** ** Events *)

Inductive Event :=
  | Props (l : list User) (cs : list Classroom)
  | OpenRoom (i : nat) | Leave | Retry | Show (s : Section_)
  | NewClassroom | TypeClassroom (f : Field) (v : jstr) | SaveClassroom | CloseClassroom | EditClassroom
  | NewStudent (inroom : bool) | EditStudent (inroom : bool) (i : nat) | TypeStudent (inroom : bool) (f : Field) (v : jstr)
  | SaveStudent (inroom : bool) | CloseStudent (inroom : bool) | CloseCredentials (inroom : bool)
  | ResetPin (i : nat) (confirmed : bool) | RemoveAccount (i : nat) (confirmed : bool)
  | ToggleAdding | ToggleStudent (i : nat)
  | ChooseTeacher (id : jstr) | AddCoTeacher | RemoveCoTeacher (i : nat) | Archive (confirmed : bool)
  | Upload (file : Blob) | OpenMaterial (i : nat) | RenameMaterial (i : nat) (prompt : option jstr)
  | DeleteMaterial (i : nat) (confirmed : bool) | ClosePreview
  | Answered (i : nat) (o : forall q, answer q).

Definition no_page : Page := mkPage None None None [].
Definition new_room (n : nat) (c : jstr) : Room :=
  mkRoom n c None None [] [] Overview false no_page None [] None [] false [] [] true.
Definition typed (f : Field) (v : jstr) (x : Form) : Form :=
  mkForm (form_no x) (f_of x) (fun f' => if decide (f' = f) then v else texts x f') (f_busy x) (f_error x).
Definition page_blocked (p : Page) : bool :=
  match creating p, editing p, credentials p with None, None, None => false | _, _, _ => true end.
Definition blocked (r : Room) : bool :=
  page_blocked (page r) || match renaming r, preview r with None, None => false | _, _ => true end.
Definition apply (f : School -> School) (y : System) : System := mkSystem (f (world y)) (waiting y).

Section school.
Context (me : User).
(** A button of the room that is open, in the section that is shown. *)
Definition in_room (y : System) (s : option Section_) (f : Room -> System) : System :=
  match room (world y) with
  | Some r => if blocked r || match s with Some s => negb (bool_decide (section r = s)) | None => false end then y else f r
  | None => y
  end.
Definition in_list (y : System) (f : System) : System :=
  match room (world y), new_classroom (world y) with None, None => f | _, _ => y end.
Definition in_students (y : System) (f : System) : System := if page_blocked (students_page (world y)) then y else f.
(** Where the forms of students are: the place, what is there, the classrooms
    that can be chosen, the room. *)
Definition place (inroom : bool) (w : School) : option (Place * Page * list Classroom * option Room) :=
  if inroom then
    match room w with
    | Some r => Some (InRoom (room_no r), page r, match roster r with Some ro => [ro_classroom ro] | None => [] end, Some r)
    | None => None
    end
  else Some (StudentsPage, students_page w, classrooms w, None).
Definition room_id (r : option Room) : jstr := match r with Some r => classroomId r | None => [] end.

Definition student_event (ev : Event) (y : System) : System :=
  let w := world y in
  match ev with
  | NewStudent b =>
    match place b w with
    | Some (pl, p, (_ :: _) as cs, r) =>
      if page_blocked p then y else apply (fun w => making (on_page pl (set_creating (Some (new_student cs (made w)))) w)) y
    | _ => y
    end
  | EditStudent b i =>
    match place b w with
    | Some (pl, p, _, r) =>
      match (match r with Some r => if adding r then None else listed_students w r !! i | None => students w !! i end) with
      | Some s => if page_blocked p then y else apply (fun w => making (on_page pl (set_editing (Some (edit_form s (made w)))) w)) y
      | None => y
      end
    | None => y
    end
  | TypeStudent b f v =>
    match place b w with
    | Some (pl, _, _, _) =>
      apply (on_page pl (fun p => mkPage (typed f v <$> creating p) (typed f v <$> editing p) (credentials p) (p_error p))) y
    | None => y
    end
  | SaveStudent b =>
    match place b w with
    | Some (pl, p, _, r) =>
      match creating p, editing p with
      | Some f, _ => start (create_student pl (room_id r) f) y
      | None, Some f => start (edit_student pl (room_id r) f) y
      | None, None => y
      end
    | None => y
    end
  | CloseStudent b =>
    match place b w with Some (pl, _, _, _) => apply (on_page pl (fun p => set_creating None (set_editing None p))) y | None => y end
  | CloseCredentials b =>
    match place b w with Some (pl, _, _, _) => apply (on_page pl (set_credentials None)) y | None => y end
  | ResetPin i confirmed =>
    in_students y match students w !! i with Some s => if confirmed then start (reset_pin (user_id s)) y else y | None => y end
  | RemoveAccount i confirmed =>
    in_students y match students w !! i with Some s => if confirmed then start (remove_account (user_id s)) y else y | None => y end
  | _ => y
  end.

Definition room_event (ev : Event) (y : System) : System :=
  let w := world y in
  match ev with
  | Leave => in_room y None (fun _ => apply leave y)
  | Retry => in_room y None (fun r => if truthy (loadError r) then start (load (room_no r) (classroomId r)) y else y)
  | Show s => in_room y None (fun r => apply (on_room (room_no r) (set_section s)) y)
  | EditClassroom =>
    in_room y (Some Overview) (fun r => match roster r with
      | Some ro => apply (fun w => making (on_room (room_no r) (set_renaming (Some (classroom_form (Some (ro_classroom ro)) (made w)))) w)) y
      | None => y end)
  | ToggleAdding => in_room y (Some Students) (fun r => apply (on_room (room_no r) (set_adding (negb (adding r)))) y)
  | ToggleStudent i =>
    in_room y (Some Students) (fun r => match listed_students w r !! i with Some s => start (toggle_student r (user_id s)) y | None => y end)
  | ChooseTeacher id =>
    in_room y (Some Teachers_) (fun r =>
      if is_owner me r && existsb (fun u => seqb (user_id u) id) (availableTeachers r)
      then apply (on_room (room_no r) (set_teacherToAdd id)) y else y)
  | AddCoTeacher =>
    in_room y (Some Teachers_) (fun r => match availableTeachers r with
      | _ :: _ => if is_owner me r then start (add_teacher r) y else y | [] => y end)
  | RemoveCoTeacher i =>
    in_room y (Some Teachers_) (fun r => match teachers r with
      | Some t => match co_teachers t !! i with Some u => if is_owner me r then start (remove_teacher r (user_id u)) y else y | None => y end
      | None => y end)
  | Archive confirmed => in_room y (Some Overview) (fun r => if is_owner me r && confirmed then start (archive r) y else y)
  | Upload file => in_room y (Some Materials) (fun r => start (upload r file) y)
  | OpenMaterial i => in_room y (Some Materials) (fun r => match materials r !! i with Some m => start (open_material r m) y | None => y end)
  | RenameMaterial i prompt =>
    in_room y (Some Materials) (fun r => match materials r !! i with Some m => start (rename_material r m prompt) y | None => y end)
  | DeleteMaterial i confirmed =>
    in_room y (Some Materials) (fun r => match materials r !! i with Some m => if confirmed then start (delete_material r m) y else y | None => y end)
  | ClosePreview => match room w with Some r => apply (show_preview (room_no r) None) y | None => y end
  | _ => y
  end.

Definition step (ev : Event) (y : System) : System :=
  let w := world y in
  match ev with
  | Props l cs => apply (with_props l cs) y
  | OpenRoom i =>
    in_list y match classrooms w !! i with
              | Some c =>
                start (load (made w) (classroom_id c)) (apply (fun w => making (with_room (Some (new_room (made w) (classroom_id c))) w)) y)
              | None => y
              end
  | NewClassroom => in_list y (apply (fun w => making (with_new (Some (classroom_form None (made w))) w)) y)
  | TypeClassroom f v =>
    apply (fun w => match room w with
                    | Some r => with_room (Some (set_renaming (typed f v <$> renaming r) r)) w
                    | None => with_new (typed f v <$> new_classroom w) w
                    end) y
  | SaveClassroom =>
    match room w with
    | Some r => match renaming r with Some f => start (rename_classroom r f) y | None => y end
    | None => start create_classroom y
    end
  | CloseClassroom =>
    apply (fun w => match room w with Some r => with_room (Some (set_renaming None r)) w | None => with_new None w end) y
  | NewStudent _ | EditStudent _ _ | TypeStudent _ _ _ | SaveStudent _ | CloseStudent _ | CloseCredentials _
  | ResetPin _ _ | RemoveAccount _ _ => student_event ev y
  | Answered i o => resume i o y
  | _ => room_event ev y
  end.
Definition run (es : list Event) (y : System) : System := fold_left (fun y ev => step ev y) es y.
End school.
Definition opened (l : list User) (cs : list Classroom) : System := mkSystem (mkSchool l cs no_page None None 0 [] []) [].

(** ** Properties *)

Module ClassroomFacts.

(** What is asked for without anyone pressing a button. *)
Definition harmless (q : Query) : Prop := match q with LoadRoom _ | Updated => True | _ => False end.
Definition owned_by (me : User) (r : Room) : Prop :=
  exists ro, roster r = Some ro /\ owner_teacher_id (ro_classroom ro) = user_id me.
Definition on_roster (r : Room) (id : jstr) : Prop := exists ro, roster r = Some ro /\ id ∈ user_id <$> ro_students ro.
Definition open_in (w : School) (c : jstr) (P : Room -> Prop) : Prop := exists r, room w = Some r /\ c = classroomId r /\ P r.
Definition optional (v : option jstr) (s : jstr) : Prop := v = if decide (s = []) then None else Some s.
(** The texts of a form, without the spaces around them; names are not empty. *)
Definition student_of (f : Form) (i : StudentInput) : Prop :=
  in_username i = trim (texts f SUsername) /\ in_username i <> [] /\ in_display_name i = trim (texts f SName) /\ in_display_name i <> [] /\
  optional (in_grade_level i) (trim (texts f SGrade)) /\ optional (in_section i) (trim (texts f SSection)) /\
  optional (in_roll_number i) (trim (texts f SRoll)).
Definition classroom_of (f : Form) (i : ClassroomInput) : Prop :=
  in_name i = trim (texts f CName) /\ in_name i <> [] /\ optional (in_code i) (trim (texts f CCode)) /\
  in_description i = trim (texts f CDescription) /\ in_color i = texts f CColor.
(** The page of students, or the page of the room that is open. *)
Definition shown_page (b : bool) (w : School) : option Page := if b then page <$> room w else Some (students_page w).
Definition form_of (b : bool) (w : School) (get : Page -> option Form) (f : Form) : Prop :=
  exists p, shown_page b w = Some p /\ get p = Some f.

(** What an event may send, by what was on the page when it happened. *)
Definition allowed (me : User) (ev : Event) (w : School) (q : Query) : Prop :=
  match q with
  | LoadRoom _ | Updated => True
  | CreateStudent c i => exists b f, ev = SaveStudent b /\ form_of b w creating f /\ c = texts f SRoom /\ student_of f i
  | UpdateStudent id i => exists b f s, ev = SaveStudent b /\ form_of b w editing f /\ f_of f = Some s /\ id = user_id s /\ student_of f i
  | ResetCredentials id => exists i s, ev = ResetPin i true /\ students w !! i = Some s /\ id = user_id s
  | DeleteStudent id => exists i s, ev = RemoveAccount i true /\ students w !! i = Some s /\ id = user_id s
  | CreateClassroom i => exists f, ev = SaveClassroom /\ room w = None /\ new_classroom w = Some f /\ classroom_of f i
  | UpdateClassroom c i => ev = SaveClassroom /\ open_in w c (fun r => exists f, renaming r = Some f /\ classroom_of f i)
  | DeleteClassroom c => ev = Archive true /\ open_in w c (owned_by me)
  | AddTeacher c t => ev = AddCoTeacher /\ open_in w c (fun r => owned_by me r /\ t = teacherToAdd r /\ t <> [])
  | RemoveTeacher c t =>
    exists i, ev = RemoveCoTeacher i /\
      open_in w c (fun r => owned_by me r /\ exists ts u, teachers r = Some ts /\ co_teachers ts !! i = Some u /\ t = user_id u)
  | EnrolStudent c id =>
    exists i, ev = ToggleStudent i /\ open_in w c (fun r => ~ on_roster r id /\ exists s, listed_students w r !! i = Some s /\ id = user_id s)
  | RemoveStudent c id =>
    exists i, ev = ToggleStudent i /\ open_in w c (fun r => on_roster r id /\ exists s, listed_students w r !! i = Some s /\ id = user_id s)
  | UploadMaterial c file => ev = Upload file /\ open_in w c (fun _ => True)
  | MaterialBlob id => exists i r m, ev = OpenMaterial i /\ room w = Some r /\ materials r !! i = Some m /\ id = node_id m
  | RenameNode id name =>
    exists i p r m, ev = RenameMaterial i (Some p) /\ room w = Some r /\ materials r !! i = Some m /\ id = node_id m /\ name = trim p /\ name <> []
  | DeleteNode id => exists i r m, ev = DeleteMaterial i true /\ room w = Some r /\ materials r !! i = Some m /\ id = node_id m
  end.
(** The student an editor is open for, and the student of a row. *)
Definition edited (b : bool) (w : School) : option User := p ← shown_page b w; f ← editing p; f_of f.
Definition in_row (b : bool) (w : School) (i : nat) (s : User) : Prop :=
  if b then exists r ro, room w = Some r /\ roster r = Some ro /\ ro_students ro !! i = Some s else students w !! i = Some s.

(** *** Scripts that wait *)

(** A state that comes after another with nothing pressed in between. *)
Definition later (w0 w : School) : Prop :=
  (exists l, asked w = asked w0 ++ l /\ Forall harmless l) /\ forall b s, edited b w = Some s -> edited b w0 = Some s.
Definition calm (f : School -> School) : Prop :=
  forall w, asked (f w) = asked w /\ forall b s, edited b (f w) = Some s -> edited b w = Some s.
Lemma later_refl w : later w w.
Proof. split; [exists []; by rewrite app_nil_r|done]. Qed.
Lemma later_calm f w0 w : calm f -> later w0 w -> later w0 (f w).
Proof. intros Hf [[l [Hl Hh]] He]. destruct (Hf w) as [Ha Hb]. split; [exists l; by rewrite Ha|]. intros b s H. by apply He, Hb. Qed.
Lemma later_asking q w0 w : harmless q -> later w0 w -> later w0 (asking q w).
Proof.
  intros Hq [[l [Hl Hh]] He]. split; [|done]. exists (l ++ [q]). cbn. rewrite Hl, <- app_assoc. split; [done|].
  by apply Forall_app_2, Forall_singleton.
Qed.
(** A script that changes nothing of note and asks for nothing else. *)
Fixpoint quiet {A} (s : Script A) : Prop :=
  match s with
  | Ret _ => True
  | Do f s => (forall w0 w, later w0 w -> later w0 (f w)) /\ quiet s
  | Look k => forall w, quiet (k w)
  | Ask q k => forall a, quiet (k a)
  end.
Lemma quiet_do {A} f (s : Script A) : calm f -> quiet s -> quiet (Do f s).
Proof. intros Hf Hs. split; [|done]. intros w0 w. by apply later_calm. Qed.
Lemma quiet_update f : calm f -> quiet (Script.update f).
Proof. intros Hf. by apply quiet_do. Qed.
Lemma quiet_ret {A} (x : A) : quiet (Ret x).
Proof. done. Qed.
Lemma quiet_bind {A B} (s : Script A) (k : A -> Script B) : quiet s -> (forall a, quiet (k a)) -> quiet (bind s k).
Proof. intros Hs Hk. induction s as [x|f s IH|l IH|q l IH]; cbn in *; [apply Hk|destruct Hs; auto|auto|auto]. Qed.
Lemma quiet_send {A} q (k : answer q -> Script A) : harmless q -> (forall a, quiet (k a)) -> quiet (bind (send q) k).
Proof. intros Hq Hk. split; [|done]. intros w0 w. by apply later_asking. Qed.
Lemma quiet_advance {A} (s : Script A) w0 w :
  quiet s -> later w0 w -> later w0 (fst (advance s w)) /\ quiet (snd (advance s w)).
Proof.
  revert w. induction s as [x|f s IH|k IH|q k IH]; intros w Hs Hw; cbn in *; [done| |by apply IH|done].
  destruct Hs as [Hf Hs]. by apply IH; [|apply Hf].
Qed.

Lemma calm_room n f : (forall r, editing (page (f r)) = editing (page r)) -> calm (on_room n f).
Proof.
  intros Hf w. unfold on_room. destruct (room w) as [r|] eqn:Er; [|done]. destruct (Nat.eqb _ _); [|done]. split; [done|].
  intros [] s; cbn; rewrite ?Er; cbn; [by rewrite Hf|done].
Qed.
(** What a handler does to the form of an editor keeps whom it is about. *)
Lemma calm_room_page pl f :
  (forall p s, (f' ← editing (f p); f_of f') = Some s -> (f' ← editing p; f_of f') = Some s) -> calm (on_page pl f).
Proof.
  intros Hf w. destruct pl as [|n]; cbn [on_page].
  - split; [done|]. intros [] s; cbn; [done|apply Hf].
  - unfold on_room. destruct (room w) as [r|] eqn:Er; [|done]. destruct (Nat.eqb _ _); [|done]. split; [done|].
    intros [] s; cbn; rewrite ?Er; cbn; [apply Hf|done].
Qed.
Lemma calm_page_same pl f : (forall p, editing (f p) = editing p) -> calm (on_page pl f).
Proof. intros Hf. apply calm_room_page. intros p s. by rewrite Hf. Qed.
Lemma calm_editing pl n m b : calm (on_page pl (fun p => set_editing (if_no n (says m b) (editing p)) p)).
Proof. apply calm_room_page. intros p s. cbn. destruct (editing p) as [f|]; [|done]. cbn. by destruct (Nat.eqb _ _). Qed.
Lemma calm_close_editing pl : calm (on_page pl (set_editing None)).
Proof. by apply calm_room_page. Qed.
Lemma calm_leave : calm leave.
Proof. intros w. unfold leave. destruct (room w) eqn:Er; [|done]. split; [done|]. by intros []. Qed.
Lemma calm_preview n v : calm (show_preview n v).
Proof.
  intros w. unfold show_preview. destruct (room w) as [r|] eqn:Er; [|done]. destruct (Nat.eqb _ _); [|done]. split; [done|].
  intros [] s; cbn; by rewrite ?Er.
Qed.
Lemma calm_same f : (forall w, asked (f w) = asked w /\ room (f w) = room w /\ students_page (f w) = students_page w) -> calm f.
Proof. intros Hf w. destruct (Hf w) as (Ha & Hr & Hp). split; [done|]. intros []; unfold edited; cbn; by rewrite ?Hr, ?Hp. Qed.
Create HintDb calm.
#[local] Hint Resolve calm_leave calm_preview calm_editing calm_close_editing quiet_update quiet_ret quiet_do : calm.
#[local] Hint Extern 1 (calm (on_room _ _)) => by apply calm_room : calm.
#[local] Hint Extern 2 (calm (on_page _ _)) => by apply calm_page_same : calm.
#[local] Hint Extern 2 (calm _) => by apply calm_same : calm.

Lemma updated_quiet : quiet (_ <- send Updated;; Ret tt).
Proof. by apply quiet_send. Qed.
Lemma load_quiet n c : quiet (load n c).
Proof. apply quiet_do; [auto with calm|]. apply quiet_send; [done|]. intros [d|x]; auto with calm. Qed.
Lemma reload_quiet n c : quiet (reload n c).
Proof. apply quiet_bind; [apply load_quiet|]. intros _. apply updated_quiet. Qed.
Lemma refresh_quiet pl c : quiet (refresh pl c).
Proof. destruct pl; [apply updated_quiet|apply reload_quiet]. Qed.
Lemma then_reload_quiet r m a : quiet (then_reload r m a).
Proof. destruct a; [|done]. by apply quiet_bind; [apply reload_quiet|]. Qed.
#[local] Hint Resolve updated_quiet load_quiet reload_quiet refresh_quiet then_reload_quiet : calm.

(** *** What a handler sends first *)

(** A handler that ends at once, or changes nothing of note, sends something
    that may be sent, and is quiet from then on. *)
Inductive sends (P : Query -> Prop) : Script unit -> Prop :=
  | sends_nothing : sends P (Ret tt)
  | sends_look k : (forall w, sends P (k w)) -> sends P (Look k)
  | sends_do f s : calm f -> sends P s -> sends P (Do f s)
  | sends_one q k : P q -> (forall a, quiet (k a)) -> sends P (bind (send q) k).

Definition waiting_quiet (y : System) : Prop := Forall quiet (waiting y).
(** What a step sent, and which editors it left open. *)
Definition stepped (P : Query -> Prop) (E : bool -> User -> Prop) (y y' : System) : Prop :=
  waiting_quiet y' /\ (exists l, asked (world y') = asked (world y) ++ l /\ Forall P l) /\
  forall b s, edited b (world y') = Some s -> edited b (world y) = Some s \/ E b s.

Lemma stepped_refl P E y : waiting_quiet y -> stepped P E y y.
Proof. intros Hy. split; [done|]. split; [exists []; by rewrite app_nil_r|]. by left. Qed.
Lemma stepped_apply P E f y :
  asked (f (world y)) = asked (world y) -> (forall b s, edited b (f (world y)) = Some s -> edited b (world y) = Some s \/ E b s) ->
  waiting_quiet y -> stepped P E y (apply f y).
Proof. intros Ha He Hy. split; [done|]. split; [exists []; by rewrite app_nil_r|]. exact He. Qed.
Lemma stepped_calm P E f y : calm f -> waiting_quiet y -> stepped P E y (apply f y).
Proof. intros Hf. destruct (Hf (world y)) as [Ha He]. apply stepped_apply; [done|]. left. by apply He. Qed.
Lemma waiting_start s y w s' : advance s (world y) = (w, s') -> quiet s' -> waiting_quiet y -> waiting_quiet (start s y).
Proof.
  intros Ea Hs Hy. unfold start. rewrite Ea. unfold waiting_quiet. cbn.
  destruct s'; [done|by apply Forall_app_2; [|apply Forall_singleton]..].
Qed.
Lemma world_start s (y : System) : world (start s y) = fst (advance s (world y)).
Proof. unfold start. by destruct (advance s (world y)). Qed.
Lemma quiet_start s y : quiet s -> waiting_quiet y -> stepped harmless (fun _ _ => False) y (start s y).
Proof.
  intros Hs Hy. destruct (quiet_advance s (world y) (world y) Hs (later_refl _)) as [[Ha He] Hq].
  split; [|rewrite world_start; split; [done|by left; apply He]].
  by eapply waiting_start; [apply surjective_pairing| |].
Qed.
Lemma sends_advance P s w0 w :
  sends P s -> later w0 w -> asked w = asked w0 ->
  quiet (snd (advance s w)) /\ (exists l, asked (fst (advance s w)) = asked w0 ++ l /\ Forall P l) /\
  forall b u, edited b (fst (advance s w)) = Some u -> edited b w0 = Some u.
Proof.
  intros Hs. revert w. induction Hs as [|k _ IH|f s Hf _ IH|q k Hq Hk]; intros w Hl Ha.
  - cbn. split; [done|]. split; [exists []; by rewrite app_nil_r|]. apply Hl.
  - by apply IH.
  - cbn. apply IH; [by apply later_calm|]. by rewrite (proj1 (Hf _)).
  - cbn. split; [done|]. split; [|apply Hl]. exists [q]. rewrite Ha. split; [done|]. by apply Forall_singleton.
Qed.
Lemma stepped_start P E s y : sends P s -> waiting_quiet y -> stepped P E y (start s y).
Proof.
  intros Hs Hy. destruct (sends_advance P s (world y) (world y) Hs (later_refl _) eq_refl) as (Hq & Ha & He).
  split; [|rewrite world_start; split; [done|left; by apply He]].
  by eapply waiting_start; [apply surjective_pairing| |].
Qed.
Lemma stepped_mono (P P' : Query -> Prop) (E E' : bool -> User -> Prop) y y' :
  (forall q, P q -> P' q) -> (forall b s, E b s -> E' b s) -> stepped P E y y' -> stepped P' E' y y'.
Proof.
  intros HP HE (H1 & (l & Hl & HF) & H2). split; [done|]. split.
  - exists l. split; [done|]. by eapply Forall_impl.
  - intros b s H. destruct (H2 b s H); auto.
Qed.

(** *** The handlers *)

Lemma text_there (s : jstr) : truthy s = true -> s <> [].
Proof. by destruct s. Qed.
Lemma optional_null s : optional (null_if_empty s) s.
Proof. unfold optional, null_if_empty. destruct s; by case_decide. Qed.
Lemma student_sent (f : Form) : student_ready f = true -> student_of f (student_input f).
Proof.
  unfold student_ready. intros H. bool_hyps. split_and!; try done; try (by apply text_there); apply optional_null.
Qed.
Lemma classroom_sent (f : Form) : classroom_ready f = true -> classroom_of f (classroom_input f).
Proof.
  unfold classroom_ready. intros H. bool_hyps. split_and!; try done; try (by apply text_there); apply optional_null.
Qed.
Lemma owner_is me r : is_owner me r = true -> owned_by me r.
Proof. unfold is_owner, owned_by. destruct (roster r) as [ro|]; [|done]. intros H%seqb_eq. by exists ro. Qed.
Lemma enrolled_is r id : enrolled r id = true <-> on_roster r id.
Proof.
  unfold enrolled, on_roster. destruct (roster r) as [ro|]; [|split; [done|by intros (? & ? & ?)]]. rewrite existsb_exists. split.
  - intros (s & Hs & E%seqb_eq). exists ro. split; [done|]. rewrite <- E. apply list_elem_of_fmap_2. by apply list_elem_of_In.
  - intros (ro' & [= <-] & (s & -> & Hs)%list_elem_of_fmap). exists s. split; [by apply list_elem_of_In|apply seqb_refl].
Qed.
Lemma busy_sends P r id q go : P q -> (forall a, quiet (go a)) -> sends P (busy_with r id q go).
Proof.
  intros Hq Hg. apply sends_do; [auto with calm|]. apply sends_one; [done|]. intros a. apply quiet_bind; [apply Hg|].
  intros m. apply quiet_update, calm_room. by destruct m.
Qed.
Lemma create_student_sends P pl c f :
  (student_ready f = true -> P (CreateStudent (texts f SRoom) (student_input f))) -> sends P (create_student pl c f).
Proof.
  intros HP. unfold create_student. destruct (student_ready f); [|constructor]. cbn [negb].
  apply sends_do; [auto with calm|]. apply sends_one; [auto|]. intros [d|x]; auto with calm.
Qed.
Lemma edit_student_sends P pl c f :
  (forall s, student_ready f = true -> f_of f = Some s -> P (UpdateStudent (user_id s) (student_input f))) -> sends P (edit_student pl c f).
Proof.
  intros HP. unfold edit_student. destruct (f_of f); [|constructor]. destruct (student_ready f); [|constructor]. cbn [negb].
  apply sends_do; [auto with calm|]. apply sends_one; [auto|]. intros [d|x]; auto with calm.
Qed.
(** The script is that of the form there is when it begins. *)
Lemma create_classroom_sends P y :
  (forall f, new_classroom (world y) = Some f -> classroom_ready f = true -> P (CreateClassroom (classroom_input f))) ->
  exists s, sends P s /\ start create_classroom y = start s y.
Proof.
  intros HP. destruct (new_classroom (world y)) as [f|] eqn:Ef.
  2:{ exists (Ret tt). split; [constructor|]. unfold start, create_classroom. cbn. by rewrite Ef. }
  destruct (classroom_ready f) eqn:Er.
  2:{ exists (Ret tt). split; [constructor|]. unfold start, create_classroom. cbn. by rewrite Ef, Er. }
  eexists. split; [apply sends_do; [|apply (sends_one P (CreateClassroom (classroom_input f))); [by apply HP|]]|].
  3:{ unfold start, create_classroom. cbn. rewrite Ef, Er. cbn [negb advance bind]. reflexivity. }
  - by apply calm_same.
  - intros [d|x]; cbn.
    + split; [intros w0 w; apply later_calm; auto with calm|]. split; [|done]. intros w0 w. by apply later_asking.
    + split; [intros w0 w; apply later_calm; auto with calm|done].
Qed.
Lemma rename_classroom_sends P r f :
  (classroom_ready f = true -> P (UpdateClassroom (classroomId r) (classroom_input f))) -> sends P (rename_classroom r f).
Proof.
  intros HP. unfold rename_classroom. destruct (classroom_ready f); [|constructor]. cbn [negb].
  apply sends_do; [auto with calm|]. apply sends_one; [auto|]. intros [d|x]; auto with calm.
Qed.
Lemma reset_pin_sends (P : Query -> Prop) id : P (ResetCredentials id) -> sends P (reset_pin id).
Proof. intros HP. apply sends_do; [auto with calm|]. apply sends_one; [done|]. intros [c|x]; auto with calm. Qed.
Lemma remove_account_sends (P : Query -> Prop) id : P (DeleteStudent id) -> sends P (remove_account id).
Proof. intros HP. apply sends_do; [auto with calm|]. apply sends_one; [done|]. intros [c|x]; auto with calm. Qed.
Lemma toggle_sends (P : Query -> Prop) r id :
  (on_roster r id -> P (RemoveStudent (classroomId r) id)) -> (~ on_roster r id -> P (EnrolStudent (classroomId r) id)) ->
  sends P (toggle_student r id).
Proof.
  intros H1 H2. unfold toggle_student. destruct (seqb _ _); [constructor|]. rewrite <- enrolled_is in H1, H2.
  destruct (enrolled r id); apply busy_sends; auto using then_reload_quiet.
Qed.
Lemma remove_teacher_sends (P : Query -> Prop) r id : P (RemoveTeacher (classroomId r) id) -> sends P (remove_teacher r id).
Proof. intros HP. unfold remove_teacher. destruct (seqb _ _); [constructor|]. apply busy_sends; auto using then_reload_quiet. Qed.
Lemma add_teacher_sends (P : Query -> Prop) r :
  (teacherToAdd r <> [] -> P (AddTeacher (classroomId r) (teacherToAdd r))) -> sends P (add_teacher r).
Proof.
  intros HP. unfold add_teacher. destruct (teacherToAdd r) as [|c t]; [constructor|]. destruct (_ || _); [constructor|].
  apply busy_sends; [auto|]. intros [u|x]; auto with calm.
Qed.
Lemma archive_sends (P : Query -> Prop) r : P (DeleteClassroom (classroomId r)) -> sends P (archive r).
Proof.
  intros HP. apply (sends_one P (DeleteClassroom _)); [done|]. intros [u|x]; [|done].
  apply quiet_send; [done|]. intros _. apply quiet_update, calm_leave.
Qed.
Lemma upload_sends (P : Query -> Prop) r b : P (UploadMaterial (classroomId r) b) -> sends P (upload r b).
Proof.
  intros HP. unfold upload. destruct (uploading r); [constructor|]. apply sends_do; [auto with calm|].
  apply sends_one; [done|]. intros [u|x]; [|auto with calm]. apply quiet_bind; auto with calm.
Qed.
Lemma open_material_sends (P : Query -> Prop) r m : P (MaterialBlob (node_id m)) -> sends P (open_material r m).
Proof.
  intros HP. unfold open_material. destruct (seqb _ _); [constructor|]. apply busy_sends; [done|]. intros [b|x]; [|done].
  cbn. intros w. split; [|done]. intros w0 w1 Hl. apply later_calm; [apply calm_preview|].
  apply (later_calm (fun w1 => making (with_urls (urls w1 ++ [made w]) w1))); [|done]. by apply calm_same.
Qed.
Lemma rename_material_sends (P : Query -> Prop) r m p :
  (forall s, p = Some s -> trim s <> [] -> P (RenameNode (node_id m) (trim s))) -> sends P (rename_material r m p).
Proof.
  intros HP. unfold rename_material. destruct p as [s|]; [|constructor]. change (default [] (Some s)) with s. specialize (HP s eq_refl).
  destruct (truthy (trim s)) eqn:E; [|constructor]. destruct (seqb _ _); [constructor|]. cbn [negb orb].
  apply (sends_one P (RenameNode _ _)); [by apply HP, text_there|]. intros [u|x]; auto with calm.
Qed.
Lemma delete_material_sends (P : Query -> Prop) r m : P (DeleteNode (node_id m)) -> sends P (delete_material r m).
Proof. intros HP. apply (sends_one P (DeleteNode _)); [done|]. intros [u|x]; auto with calm. Qed.

(** *** Events *)

Section events.
Context (me : User).
Local Abbreviation steps ev y y' :=
  (stepped (allowed me ev (world y)) (fun b s => exists i, ev = EditStudent b i /\ in_row b (world y) i s) y y').
Lemma in_room_steps ev y s f : waiting_quiet y ->
  (forall r, room (world y) = Some r -> steps ev y (f r)) -> steps ev y (in_room y s f).
Proof.
  intros Hy Hf. unfold in_room. destruct (room (world y)) as [r|]; [|by apply stepped_refl].
  destruct (_ || _); [by apply stepped_refl|auto].
Qed.
Lemma load_steps ev n c y : waiting_quiet y -> steps ev y (start (load n c) y).
Proof.
  intros Hy. eapply stepped_mono; [| |apply quiet_start; [apply load_quiet|done]]; [by intros []|done].
Qed.
Lemma shown_place b w pl p cs r : place b w = Some (pl, p, cs, r) -> shown_page b w = Some p.
Proof. unfold place. destruct b; [destruct (room w) eqn:E; [|done]|]; intros [= <- <- <- <-]; cbn; by rewrite ?E. Qed.
(** Where a form was opened from. *)
Lemma open_editor b i w pl p cs r s n :
  place b w = Some (pl, p, cs, r) ->
  (match r with Some r => if adding r then None else listed_students w r !! i | None => students w !! i end) = Some s ->
  forall b' s', edited b' (making (on_page pl (set_editing (Some (edit_form s n))) w)) = Some s' ->
    edited b' w = Some s' \/ exists j, EditStudent b i = EditStudent b' j /\ in_row b' w j s'.
Proof.
  unfold place. destruct b; [destruct (room w) as [r0|] eqn:Er; [|done]|]; intros [= <- <- <- <-] Hs b' s' He.
  - destruct (adding r0) eqn:Ea; [done|]. unfold listed_students in Hs. rewrite Ea in Hs. destruct (roster r0) as [ro|] eqn:Eo; [|done].
    unfold on_page, on_room in He. rewrite Er, Nat.eqb_refl in He. destruct b'; cbn in He; [|by left].
    injection He as <-. right. exists i. split; [done|]. by exists r0, ro.
  - destruct b'; cbn in He; [by left|]. injection He as <-. right. by exists i.
Qed.
Lemma student_event_steps ev y : waiting_quiet y -> steps ev y (student_event ev y).
Proof.
  intros Hy. destruct ev as [ |  |  |  |  |  |  |  |  |  | b | b i | b f v | b | b | b | i c | i c |  |  |  |  |  |  |  |  |  |  |  | ];
    cbn [student_event]; try by apply stepped_refl.
  - destruct (place b (world y)) as [[[[pl p] [|c cs]] r]|]; try by apply stepped_refl. destruct (page_blocked p); [by apply stepped_refl|].
    apply (stepped_calm _ _ (fun w => making _)); [|done]. intros w.
    destruct (calm_page_same pl (set_creating (Some (new_student (c :: cs) (made w)))) ltac:(done) w) as [H1 H2]. split; [exact H1|].
    intros b' s H. apply H2. by destruct b'.
  - destruct (place b (world y)) as [[[[pl p] cs] r]|] eqn:Ep; [|by apply stepped_refl].
    destruct (match r with Some _ => _ | None => _ end) as [s|] eqn:Es; [|by apply stepped_refl].
    destruct (page_blocked p); [by apply stepped_refl|]. apply (stepped_apply _ _ (fun w => making _)); [| |done].
    + destruct pl; [done|]. cbn. unfold on_room. destruct (room (world y)); [|done]. by destruct (Nat.eqb _ _).
    + exact (open_editor b i (world y) pl p cs r s (made (world y)) Ep Es).
  - destruct (place b (world y)) as [[[[pl p] cs] r]|]; [|by apply stepped_refl]. apply stepped_calm; [|done].
    apply calm_room_page. intros p' s. cbn. by destruct (editing p').
  - destruct (place b (world y)) as [[[[pl p] cs] r]|] eqn:Ep; [|by apply stepped_refl]. pose proof (shown_place _ _ _ _ _ _ Ep) as Hp.
    destruct (creating p) as [f|] eqn:Ec.
    + apply stepped_start; [|done]. apply create_student_sends. intros Hr. exists b, f. split; [done|]. split; [by exists p|].
      split; [done|by apply student_sent].
    + destruct (editing p) as [f|] eqn:Ee; [|by apply stepped_refl]. apply stepped_start; [|done].
      apply edit_student_sends. intros s Hr Hf. exists b, f, s. split; [done|]. split; [by exists p|]. split; [done|].
      split; [done|by apply student_sent].
  - destruct (place b (world y)) as [[[[pl p] cs] r]|]; [|by apply stepped_refl]. apply stepped_calm; [|done]. by apply calm_room_page.
  - destruct (place b (world y)) as [[[[pl p] cs] r]|]; [|by apply stepped_refl]. apply stepped_calm; [|done]. by apply calm_page_same.
  - unfold in_students. destruct (page_blocked _); [by apply stepped_refl|]. destruct (students (world y) !! i) as [s|] eqn:Es; [|by apply stepped_refl].
    destruct c; [|by apply stepped_refl]. apply stepped_start; [|done]. apply reset_pin_sends. by exists i, s.
  - unfold in_students. destruct (page_blocked _); [by apply stepped_refl|]. destruct (students (world y) !! i) as [s|] eqn:Es; [|by apply stepped_refl].
    destruct c; [|by apply stepped_refl]. apply stepped_start; [|done]. apply remove_account_sends. by exists i, s.
Qed.
Lemma room_event_steps ev y : waiting_quiet y -> steps ev y (room_event me ev y).
Proof.
  intros Hy. destruct ev as [ |  |  |  | s |  |  |  |  |  |  |  |  |  |  |  |  |  |  | i | id |  | i | c | b | i | i p | i c |  | ];
    cbn [room_event]; try (by apply stepped_refl); try (apply in_room_steps; [done|]; intros r Er).
  - apply stepped_calm; [apply calm_leave|done].
  - destruct (truthy _); [|by apply stepped_refl]. by apply load_steps.
  - apply stepped_calm; [by apply calm_room|done].
  - destruct (roster r); [|by apply stepped_refl]. apply stepped_calm; [|done]. intros w.
    destruct (calm_room (room_no r) (set_renaming (Some (classroom_form (Some (ro_classroom c)) (made w)))) ltac:(done) w) as [H1 H2].
    split; [exact H1|]. intros b' s H. apply H2. by destruct b'.
  - apply stepped_calm; [by apply calm_room|done].
  - destruct (listed_students _ _ !! i) as [s|] eqn:El; [|by apply stepped_refl]. apply stepped_start; [|done].
    apply toggle_sends; intros Hr; exists i; (split; [done|]); exists r; (split; [done|]); (split; [done|]); (split; [done|]); by exists s.
  - destruct (_ && _); [|by apply stepped_refl]. apply stepped_calm; [by apply calm_room|done].
  - destruct (availableTeachers r); [by apply stepped_refl|]. destruct (is_owner me r) eqn:E; [|by apply stepped_refl].
    apply stepped_start; [|done]. apply add_teacher_sends. intros Ht. split; [done|]. exists r. split; [done|]. split; [done|].
    split; [by apply owner_is|done].
  - destruct (teachers r) as [t|] eqn:Et; [|by apply stepped_refl]. destruct (co_teachers t !! i) as [u|] eqn:Eu; [|by apply stepped_refl].
    destruct (is_owner me r) eqn:E; [|by apply stepped_refl]. apply stepped_start; [|done]. apply remove_teacher_sends.
    exists i. split; [done|]. exists r. split; [done|]. split; [done|]. split; [by apply owner_is|]. by exists t, u.
  - destruct (is_owner me r) eqn:E; [|by apply stepped_refl]. destruct c; [|by apply stepped_refl]. apply stepped_start; [|done].
    apply archive_sends. split; [done|]. exists r. split; [done|]. split; [done|]. by apply owner_is.
  - apply stepped_start; [|done]. apply upload_sends. split; [done|]. by exists r.
  - destruct (materials r !! i) as [m|] eqn:E; [|by apply stepped_refl]. apply stepped_start; [|done]. apply open_material_sends.
    by exists i, r, m.
  - destruct (materials r !! i) as [m|] eqn:E; [|by apply stepped_refl]. apply stepped_start; [|done]. apply rename_material_sends.
    intros s -> Hs. by exists i, s, r, m.
  - destruct (materials r !! i) as [m|] eqn:E; [|by apply stepped_refl]. destruct c; [|by apply stepped_refl]. apply stepped_start; [|done].
    apply delete_material_sends. by exists i, r, m.
  - destruct (room (world y)); [|by apply stepped_refl]. apply stepped_calm; [apply calm_preview|done].
Qed.
Lemma answered_steps ev i o y : waiting_quiet y -> steps ev y (resume i o y).
Proof.
  intros Hy. unfold resume. destruct (waiting y !! i) as [[x|f s|k|q k]|] eqn:Ei; try by apply stepped_refl.
  pose proof (proj1 (Forall_forall _ _) Hy _ (list_elem_of_lookup_2 _ _ _ Ei) (o q)) as Hk.
  eapply (stepped_mono harmless _ (fun _ _ => False)); [by intros []|done|].
  apply (quiet_start _ (mkSystem (world y) (delete i (waiting y)))); [done|]. by apply Forall_delete.
Qed.
(** Opening a room leaves its students without a form. *)
Lemma open_room_steps ev c y : waiting_quiet y ->
  steps ev y (start (load (made (world y)) (classroom_id c)) (apply (fun w => making (with_room (Some (new_room (made w) (classroom_id c))) w)) y)).
Proof.
  intros Hy. set (y' := apply _ y).
  assert (Ha : stepped (allowed me ev (world y)) (fun b s => exists i, ev = EditStudent b i /\ in_row b (world y) i s) y y').
  { apply stepped_apply; [done| |done]. intros [] s; cbn; [done|by left]. }
  destruct (quiet_start (load (made (world y)) (classroom_id c)) y' (load_quiet _ _) Hy) as (H1 & (l & Hl & HF) & H2).
  destruct Ha as (_ & (l0 & Hl0 & HF0) & He). split; [done|]. split.
  - exists l. rewrite Hl. split; [done|]. eapply Forall_impl; [exact HF|]. by intros [].
  - intros b s H. destruct (H2 b s H) as [H'|[]]. by apply He.
Qed.
Lemma class_step_steps ev y : waiting_quiet y -> steps ev y (step me ev y).
Proof.
  intros Hy. destruct ev; cbn [step]; try (by apply student_event_steps); try (by apply (room_event_steps _ y)).
  - apply stepped_calm; [by apply calm_same|done].
  - unfold in_list. destruct (room (world y)), (new_classroom (world y)), (classrooms (world y) !! i); try by apply stepped_refl.
    by apply open_room_steps.
  - unfold in_list. destruct (room (world y)), (new_classroom (world y)); try (by apply stepped_refl); by apply stepped_calm; [apply calm_same|].
  - apply stepped_calm; [|done]. intros w. destruct (room w) as [r|] eqn:Er; (split; [done|]); intros []; cbn; by rewrite ?Er.
  - destruct (room (world y)) as [r|] eqn:Er.
    + destruct (renaming r) as [f|] eqn:Ef; [|by apply stepped_refl]. apply stepped_start; [|done]. apply rename_classroom_sends.
      intros Hr. split; [done|]. exists r. split; [done|]. split; [done|]. exists f. split; [done|by apply classroom_sent].
    + destruct (create_classroom_sends (allowed me SaveClassroom (world y)) y) as (s & Hs & ->); [|by apply stepped_start].
      intros f Hf Hr. exists f. split; [done|]. split; [done|]. split; [done|by apply classroom_sent].
  - apply stepped_calm; [|done]. intros w. destruct (room w) as [r|] eqn:Er; (split; [done|]); intros []; cbn; by rewrite ?Er.
  - by apply answered_steps.
Qed.
Lemma run_quiet es y : waiting_quiet y -> waiting_quiet (run me es y).
Proof. revert y. induction es as [|ev es IH]; intros y Hy; [done|]. cbn. apply IH. by apply class_step_steps. Qed.
End events.
End ClassroomFacts.
Import ClassroomFacts.

(** ** Claims *)


(** ** Runs *)

Module ClassroomRuns.
Definition person (id : jstr) : User := mkUser id id id Student None None None false [].
Definition me : User := person (js "t1").
Definition ada := person (js "ada").
Definition bob := person (js "bob").
Definition named_room (id : jstr) : Classroom := mkClassroom id id None [] [] (js "t1") [] [] 0 [].
Definition maths := named_room (js "c1").
Definition music := named_room (js "c2").
Definition sheet : StudyNode := mkStudyNode (js "m1") None None (Some (js "c1")) (js "Sheet") NPdf 0 None [] [].
Definition held (l : list User) : RoomData := mkRoomData (mkRoster maths l) [sheet] (mkTeachers me []) [me].
Definition pin : StudentCredentials := mkCredentials ada (js "1234") (js "code").
(** The Host, with these students in the classroom. *)
Definition host (l : list User) : forall q, answer q := fun q =>
  match q with
  | LoadRoom _ => Ok (held l)
  | CreateStudent _ _ | ResetCredentials _ => Ok pin
  | MaterialBlob _ => Ok (mkBlob (js "application/pdf") [])
  | Updated => tt
  | _ => Ok tt
  end.
Definition away : forall q, answer q := fun q =>
  match q with
  | LoadRoom _ => Throw None | CreateStudent _ _ | ResetCredentials _ => Throw None | MaterialBlob _ => Throw None
  | Updated => tt | _ => Throw None
  end.
Definition sys (es : list Event) : System := run me es (opened [ada; bob] [maths; music]).
Definition go (es : list Event) : School := world (sys es).
Definition inside (l : list User) : list Event := [OpenRoom 0; Answered 0 (host l)].
Definition names (w : School) : option (list jstr) := r ← room w; ro ← roster r; Some (user_id <$> ro_students ro).

(** Two students are added one after the other; the roster is read after each,
    and the earlier reading, which comes last, is the one that is shown. *)
Example older_roster_shown :
  let w := go (inside [] ++ [Show Students; ToggleAdding; ToggleStudent 0; ToggleStudent 1; Answered 0 (host []); Answered 0 (host []);
                             Answered 1 (host [ada; bob]); Answered 0 (host [ada])]) in
  names w = Some [js "ada"] /\ drop 1 (asked w) =
    [EnrolStudent (js "c1") (js "ada"); EnrolStudent (js "c1") (js "bob"); LoadRoom (js "c1"); LoadRoom (js "c1"); Updated; Updated].
Proof. vm_compute. done. Qed.

(** One button is busy at a time: when a second is pressed the first is enabled
    again, and its request can be sent twice. *)
Example enrolled_twice :
  drop 1 (asked (go (inside [] ++ [Show Students; ToggleAdding; ToggleStudent 0; ToggleStudent 1; ToggleStudent 0]))) =
  [EnrolStudent (js "c1") (js "ada"); EnrolStudent (js "c1") (js "bob"); EnrolStudent (js "c1") (js "ada")].
Proof. vm_compute. done. Qed.

(** A classroom that cannot be archived stays without a word. *)
Example archive_fails_silently :
  let before := go (inside [ada]) in
  let after := go (inside [ada] ++ [Archive true; Answered 0 away]) in
  room after = room before /\ drop 1 (asked after) = [DeleteClassroom (js "c1")].
Proof. vm_compute. done. Qed.
(** When it is archived after another one was opened, that one is closed. *)
Example archive_closes_other :
  let before := inside [ada] ++ [Archive true; Leave; OpenRoom 1] in
  (classroomId <$> room (go before)) = Some (js "c2") /\
  room (go (before ++ [Answered 0 (host []); Answered 1 (host [])])) = None.
Proof. vm_compute. done. Qed.

Definition creating_ada : list Event :=
  inside [] ++ [Show Students; NewStudent true; TypeStudent true SUsername (js "ada"); TypeStudent true SName (js "Ada"); SaveStudent true].
Example created : (page <$> room (go (creating_ada ++ [Answered 0 (host [])]))) = Some (mkPage None None (Some pin) []).
Proof. vm_compute. done. Qed.
(** The PIN and the recovery code of a new student come once; when the room was
    left while the account was made, they are never shown. *)
Example leaving_loses_pin :
  let w := go (creating_ada ++ [CloseStudent true; Leave; Answered 0 (host []); Answered 0 (host [ada]); Answered 0 (host [])]) in
  drop 1 (asked w) = [CreateStudent (js "c1") (mkStudentInput (js "ada") (js "Ada") None None None); LoadRoom (js "c1"); Updated] /\
  room w = None /\ credentials (students_page w) = None.
Proof. vm_compute. done. Qed.

(** A material that is answered after the room was left keeps its URL for good. *)
Example url_kept_after_leaving :
  let w := go (inside [] ++ [Show Materials; OpenMaterial 0; Leave; Answered 0 (host [])]) in
  room w = None /\ length (urls w) = 1%nat.
Proof. vm_compute. done. Qed.
Example url_revoked :
  let opened := inside [] ++ [Show Materials; OpenMaterial 0; Answered 0 (host [])] in
  length (urls (go opened)) = 1%nat /\ urls (go (opened ++ [ClosePreview])) = [].
Proof. vm_compute. done. Qed.
End ClassroomRuns.
