(* ===== verification/StudentRooms.v ===== *)
(** * The pages of the student's classrooms
    ([apps/forge/src/classrooms/StudentClassrooms.tsx])

    [Outbox] has what the page keeps of the Host and hands in; here are the
    pages over it: the list, a classroom with its sections, an assignment, the
    classroom that is joined, the materials that are opened and the task of a
    live session that is followed.  A load is two events, [Loading] and
    [Loaded].  The effects of React run when what they depend on has changed:
    [effects] compares the state before an event with the one after it; the
    lists of a load are new each time, which [version] counts. *)

From stdpp Require Import list.
From S2P Require Import Prelude Script JsString JsNumber JsValue Locale Types ClassroomState Outbox.
Local Open Scope Z_scope.
Local Open Scope script_scope.

(** ** Data *)

Inductive ClassroomSection := Overview | Work | QuizzesSection | Materials | Marks.
#[export] Instance ClassroomSection_eq : EqDecision ClassroomSection. Proof. solve_decision. Defined.
#[export] Instance LiveSessionTaskKind_eq : EqDecision LiveSessionTaskKind. Proof. solve_decision. Defined.
Record Comment := mkComment { author_name : jstr; comment_body : jstr }.
(** The button of a material; [b_no] tells apart those mounted in turn. *)
Record Button := mkButton { b_no : nat; b_busy : bool; b_error : jstr }.
Inductive Query :=
  | QuizDeliveries
  | JoinClassroom (code : jstr)
  | Reload
  | OpenMaterial (id : jstr)
  | TaskState (state : LiveSessionTaskState)
  | Comments (submission : jstr).
(** The deliveries with their classrooms; the classroom that was joined. *)
Definition answer (q : Query) : Type :=
  match q with
  | QuizDeliveries => outcome Failure (list (jstr * jstr))
  | JoinClassroom _ => outcome Failure jstr
  | Comments _ => outcome Failure (list Comment)
  | Reload => unit
  | OpenMaterial _ | TaskState _ => outcome Failure unit
  end.
Record Page := mkPage {
  data : Shown; version : nat; waiting_work : list jstr; loading : bool; online : bool; liveTask : option LiveSessionTask;
  room : option jstr; assignment : option jstr; section : ClassroomSection;
  busy : bool; message : jstr; code : jstr; buttons : list (jstr * Button); made : nat;
  comments : list Comment; comments_no : nat; asked : list Query
}.
Local Abbreviation Script := (Script Page answer).
Local Abbreviation System := (System Page answer).

Definition set_data (d : Shown) (w : Page) : Page := mkPage d (S (version w)) (waiting_work w) (loading w) (online w) (liveTask w) (room w) (assignment w) (section w) (busy w) (message w) (code w) (buttons w) (made w) (comments w) (comments_no w) (asked w).
Definition set_waiting (l : list jstr) (w : Page) : Page := mkPage (data w) (version w) l (loading w) (online w) (liveTask w) (room w) (assignment w) (section w) (busy w) (message w) (code w) (buttons w) (made w) (comments w) (comments_no w) (asked w).
Definition set_loading (b : bool) (w : Page) : Page := mkPage (data w) (version w) (waiting_work w) b (online w) (liveTask w) (room w) (assignment w) (section w) (busy w) (message w) (code w) (buttons w) (made w) (comments w) (comments_no w) (asked w).
Definition set_online (b : bool) (w : Page) : Page := mkPage (data w) (version w) (waiting_work w) (loading w) b (liveTask w) (room w) (assignment w) (section w) (busy w) (message w) (code w) (buttons w) (made w) (comments w) (comments_no w) (asked w).
Definition set_task (t : option LiveSessionTask) (w : Page) : Page := mkPage (data w) (version w) (waiting_work w) (loading w) (online w) t (room w) (assignment w) (section w) (busy w) (message w) (code w) (buttons w) (made w) (comments w) (comments_no w) (asked w).
(** Another page is shown, and the buttons of the last one are gone. *)
Definition turn (r a : option jstr) (s : ClassroomSection) (w : Page) : Page := mkPage (data w) (version w) (waiting_work w) (loading w) (online w) (liveTask w) r a s (busy w) (message w) (code w) [] (made w) (comments w) (comments_no w) (asked w).
Definition set_busy (b : bool) (w : Page) : Page := mkPage (data w) (version w) (waiting_work w) (loading w) (online w) (liveTask w) (room w) (assignment w) (section w) b (message w) (code w) (buttons w) (made w) (comments w) (comments_no w) (asked w).
Definition set_message (m : jstr) (w : Page) : Page := mkPage (data w) (version w) (waiting_work w) (loading w) (online w) (liveTask w) (room w) (assignment w) (section w) (busy w) m (code w) (buttons w) (made w) (comments w) (comments_no w) (asked w).
Definition set_code (c : jstr) (w : Page) : Page := mkPage (data w) (version w) (waiting_work w) (loading w) (online w) (liveTask w) (room w) (assignment w) (section w) (busy w) (message w) c (buttons w) (made w) (comments w) (comments_no w) (asked w).
Definition set_buttons (l : list (jstr * Button)) (w : Page) : Page := mkPage (data w) (version w) (waiting_work w) (loading w) (online w) (liveTask w) (room w) (assignment w) (section w) (busy w) (message w) (code w) l (made w) (comments w) (comments_no w) (asked w).
Definition making (w : Page) : Page := mkPage (data w) (version w) (waiting_work w) (loading w) (online w) (liveTask w) (room w) (assignment w) (section w) (busy w) (message w) (code w) (buttons w) (S (made w)) (comments w) (comments_no w) (asked w).
Definition set_comments (l : list Comment) (n : nat) (w : Page) : Page := mkPage (data w) (version w) (waiting_work w) (loading w) (online w) (liveTask w) (room w) (assignment w) (section w) (busy w) (message w) (code w) (buttons w) (made w) l n (asked w).
Definition asking (q : Query) (w : Page) : Page := mkPage (data w) (version w) (waiting_work w) (loading w) (online w) (liveTask w) (room w) (assignment w) (section w) (busy w) (message w) (code w) (buttons w) (made w) (comments w) (comments_no w) (asked w ++ [q]).
Definition send (q : Query) : Script (answer q) := Do (asking q) (Script.ask q).

(** ** What is shown *)

Definition selectedAssignment (w : Page) : option Assignment :=
  id ← assignment w; find (fun a => seqb (assignment_id a) id) (assignments (data w)).
Definition selectedClassroom (w : Page) : option Classroom :=
  id ← room w; find (fun c => seqb (classroom_id c) id) (classrooms (data w)).
Inductive View := DetailPage (a : Assignment) | RoomPage (c : Classroom) | ListPage.
Definition view (w : Page) : View :=
  match selectedAssignment w, selectedClassroom w with
  | Some a, _ => DetailPage a
  | None, Some c => RoomPage c
  | None, None => ListPage
  end.
Definition current_of (w : Page) (id : jstr) : option Submission := default None (assoc id (submissions (data w))).
Definition is_waiting (w : Page) (id : jstr) : bool := existsb (seqb id) (waiting_work w).
Definition submissionLabel (s : option Submission) (queued : bool) : jstr :=
  if queued then js "Waiting to send"
  else match s with
       | None => js "Not submitted"
       | Some s =>
         if bool_decide (s_status s = SWithdrawn) then js "Not submitted"
         else if match s_grade s with Some g => published g | None => false end then js "Marked"
         else if bool_decide (s_status s = SResubmitted) then js "Resubmitted" else js "Submitted"
       end.
Definition is_open (a : Assignment) : bool := match a_status a with Closed => false | _ => true end.
Definition roomAssignments (w : Page) (c : Classroom) : list Assignment :=
  List.filter (fun a => seqb (a_classroom_id a) (classroom_id c)) (assignments (data w)).
Definition materials (w : Page) (c : Classroom) : list StudyNode :=
  List.filter (fun n => match node_classroom_id n with Some id => seqb id (classroom_id c) | None => false end &&
                        match node_kind n with NPdf => true | _ => false end) (nodes (data w)).
Definition is_marked (w : Page) (a : Assignment) : bool :=
  match current_of w (assignment_id a) ≫= s_grade with Some g => published g | None => false end.
(** The assignments of a section and what is said of each; marked work is not
    said to be waiting. *)
Definition work_rows (w : Page) (c : Classroom) : list (jstr * jstr) :=
  let row q a := (assignment_id a, submissionLabel (current_of w (assignment_id a)) (q && is_waiting w (assignment_id a))) in
  match section w with
  | Overview => row true <$> List.filter is_open (roomAssignments w c)
  | Work => row true <$> roomAssignments w c
  | Marks => row false <$> List.filter (is_marked w) (roomAssignments w c)
  | _ => []
  end.
Definition material_rows (w : Page) (c : Classroom) : list StudyNode :=
  match section w with Overview => take 5 (materials w c) | Materials => materials w c | _ => [] end.
Definition room_heading (c : Classroom) : jstr * jstr * jstr :=
  (or_str (default [] (subject_code c)) (js "Classroom"), classroom_name c,
   or_str (classroom_description c) (js "Managed by " ++ owner_teacher_name c)).
Definition room_card (w : Page) (c : Classroom) : list jstr :=
  let n := length (List.filter is_open (roomAssignments w c)) in
  [or_str (default [] (subject_code c)) (js "Classroom"); classroom_name c; owner_teacher_name c;
   show_Z (Z.of_nat n) ++ js " open assignment" ++ (if Nat.eqb n 1 then [] else js "s")].
(** The message of the page is part of the list only. *)
Definition visible_message (w : Page) : jstr := match view w with ListPage => message w | _ => [] end.
Definition list_notes (w : Page) : list jstr :=
  (if online w then [] else [js "Connect to the Host to join a new classroom."]) ++
  (if loading w then [js "Loading classrooms…"] else
   match classrooms (data w) with [] => [js "No classrooms yet. Enter the code given by your teacher."] | _ => [] end).

(** *** An assignment *)

Record Detail := mkDetail { d_closed : bool; d_graded : bool; d_busy : bool; d_note : jstr }.
Definition detail_of (busy : bool) (note : jstr) (w : Page) (a : Assignment) : Detail :=
  mkDetail (negb (is_open a)) (Outbox.graded (current_of w (assignment_id a))) busy note.
Definition handed_in (s : option Submission) : bool :=
  match s with Some s => negb (bool_decide (s_status s = SWithdrawn)) | None => false end.
(** The text of the button and whether it can be pressed. *)
Definition submit_button (w : Page) (a : Assignment) (d : Detail) : jstr * bool :=
  (if d_busy d || loading w then js "Saving…"
   else if d_graded d then js "Graded"
   else if handed_in (current_of w (assignment_id a)) then js "Resubmit note" else js "Submit note",
   negb (d_closed d || d_graded d || d_busy d || loading w || negb (truthy (d_note d)))).
Definition withdraw_button (w : Page) (a : Assignment) (d : Detail) : option (jstr * bool) :=
  let q := is_waiting w (assignment_id a) in
  if q || handed_in (current_of w (assignment_id a)) && negb (d_graded d)
  then Some (if q then js "Cancel waiting work" else js "Take back",
             negb (d_busy d || loading w || negb q && (d_closed d || negb (online w))))
  else None.
Definition mark_text (a : Assignment) (g : Grade) : jstr * jstr :=
  ((match points g with Some p => show_num p | None => js "—" end) ++ js " / " ++ show_num (max_points a) ++
   (match grade_label g with Some l => if truthy l then js " · " ++ l else [] | None => [] end),
   or_str (feedback g) (js "No written feedback.")).

(** ** Materials *)

Definition on_button (id : jstr) (n : nat) (f : Button -> Button) (w : Page) : Page :=
  set_buttons ((fun e => if seqb (fst e) id && Nat.eqb (b_no (snd e)) n then (fst e, f (snd e)) else e) <$> buttons w) w.
(** The button of a material, as it is mounted by its first press. *)
Definition press_material (id : jstr) : Script unit :=
  w <- Script.get;;
  let n := match assoc id (buttons w) with Some b => b_no b | None => made w end in
  if match assoc id (buttons w) with Some b => b_busy b | None => false end then Ret tt else
  Do (fun w => making (set_buttons (set_prop id (mkButton n true []) (buttons w)) w))
    (r <- send (OpenMaterial id);;
     match r with
     | Ok _ => Script.update (on_button id n (fun b => mkButton (b_no b) false (b_error b)))
     | Throw f => Script.update (on_button id n (fun b => mkButton (b_no b) false (errorMessage f)))
     end).

(** ** The task of the live session *)

Definition report_failed (f : Failure) : Script unit :=
  Do (set_message (errorMessage f)) (_ <- send (TaskState TFailed);; Ret tt).
Definition open_live (id : jstr) : Script unit :=
  r <- send (OpenMaterial id);;
  match r with
  | Throw f => report_failed f
  | Ok _ =>
    r <- send (TaskState TCompleted);;
    match r with Ok _ => Ret tt | Throw f => report_failed f end
  end.
Definition task_target (w : Page) : option (LiveSessionTaskKind * jstr) :=
  t ← liveTask w; id ← target_id t; if truthy id then Some (task_kind t, id) else None.
Definition find_quiz (target : jstr) : Script unit :=
  r <- send QuizDeliveries;;
  match r with
  | Ok items =>
    match find (fun i => seqb (fst i) target) items with
    | Some i => Script.update (fun w => turn (Some (snd i)) (assignment w) QuizzesSection w)
    | None => Ret tt
    end
  | Throw _ => Ret tt
  end.
Definition quiz_effect (y : System) : System :=
  match task_target (world y) with Some (TQuiz, id) => start (find_quiz id) y | _ => y end.
Definition apply (f : Page -> Page) (y : System) : System := mkSystem (f (world y)) (waiting y).
Definition live_effect (y : System) : System :=
  let w := world y in
  if loading w then y else
  match task_target w with
  | Some (TAssignment, id) =>
    match find (fun a => seqb (assignment_id a) id) (assignments (data w)) with
    | Some a => apply (fun w => turn (Some (a_classroom_id a)) (Some (assignment_id a)) (section w) w) y
    | None => y
    end
  | Some (TMaterial, id) => if existsb (fun n => seqb (node_id n) id) (nodes (data w)) then start (open_live id) y else y
  | Some (TQuiz, _) => apply (fun w => turn (room w) (assignment w) QuizzesSection w) y
  | _ => y
  end.
(** The comments of the work that is shown. *)
Definition load_comments (n : nat) (id : jstr) : Script unit :=
  r <- send (Comments id);;
  Script.update (fun w =>
    if Nat.eqb (comments_no w) n then match r with Ok l => set_comments l n w | Throw _ => w end else w).
Definition comments_effect (y : System) : System :=
  let w := world y in
  let n := S (comments_no w) in
  match selectedAssignment w with
  | None => apply (set_comments [] n) y
  | Some a =>
    match current_of w (assignment_id a) with
    | Some s => if online w then start (load_comments n (submission_id s)) (apply (set_comments (comments w) n) y)
                else apply (set_comments [] n) y
    | None => apply (set_comments [] n) y
    end
  end.

(** What each effect depends on. *)
Definition quiz_deps (w : Page) : option LiveSessionTaskKind * option jstr := (task_kind <$> liveTask w, liveTask w ≫= target_id).
Definition live_deps (w : Page) : nat * option jstr * bool := (version w, task_id <$> liveTask w, loading w).
Definition comments_deps (w : Page) : option (option jstr * bool) :=
  (fun a => (submission_id <$> current_of w (assignment_id a), online w)) <$> selectedAssignment w.
Definition effects (w : Page) (y : System) : System :=
  let y := if bool_decide (quiz_deps (world y) = quiz_deps w) then y else quiz_effect y in
  let y := if bool_decide (live_deps (world y) = live_deps w) then y else live_effect y in
  if bool_decide (comments_deps (world y) = comments_deps w) then y else comments_effect y.

(** ** Joining *)

Definition joinClassroom : Script unit :=
  w <- Script.get;;
  let c := trim (code w) in
  if busy w || negb (online w) || negb (truthy c) then Ret tt else
  Do (fun w => set_message [] (set_busy true w))
    (r <- send (JoinClassroom c);;
     match r with
     | Throw f => Script.update (fun w => set_busy false (set_message (errorMessage f) w))
     | Ok id =>
       Do (set_code [])
         (_ <- send Reload;;
          Script.update (fun w => set_busy false (turn (Some id) (assignment w) (section w) w)))
     end).

(** ** Events *)

Inductive Event :=
  | Online (b : bool)
  | Loading
  | Loaded (d : Shown) (queued : list jstr) (m : option jstr)
  | Task (t : option LiveSessionTask)
  | TypeCode (c : jstr) | Join
  | OpenRoom (id : jstr) | AllRooms | ShowSection (s : ClassroomSection) | OpenAssignment (id : jstr) | Back
  | PressMaterial (id : jstr)
  | Answered (i : nat) (o : forall q, answer q).
Definition act (ev : Event) (y : System) : System :=
  let w := world y in
  match ev with
  | Online b => apply (set_online b) y
  | Loading => apply (fun w => set_message [] (set_loading true w)) y
  | Loaded d q m =>
    apply (fun w => set_waiting q (set_loading false (set_message (default (message w) m) (set_data d w)))) y
  | Task t => apply (set_task t) y
  | TypeCode c => apply (set_code (slice_to 32 c)) y
  | Join => match view w with ListPage => start joinClassroom y | _ => y end
  | OpenRoom id => match view w with ListPage => apply (turn (Some id) (assignment w) (section w)) y | _ => y end
  | AllRooms => match view w with RoomPage _ => apply (turn None (assignment w) (section w)) y | _ => y end
  | ShowSection s => match view w with RoomPage _ => apply (turn (room w) (assignment w) s) y | _ => y end
  | OpenAssignment id =>
    match view w with
    | RoomPage c => if existsb (seqb id) ((work_rows w c).*1) then apply (turn (room w) (Some id) (section w)) y else y
    | _ => y
    end
  | Back => match view w with DetailPage _ => apply (turn (room w) None (section w)) y | _ => y end
  | PressMaterial id =>
    match view w with
    | RoomPage c => if existsb (fun n => seqb (node_id n) id) (material_rows w c) then start (press_material id) y else y
    | _ => y
    end
  | Answered i o => resume i o y
  end.
Definition step (ev : Event) (y : System) : System := effects (world y) (act ev y).
Definition run (es : list Event) (y : System) : System := fold_left (fun y ev => step ev y) es y.
Definition opened (b : bool) : System :=
  mkSystem (mkPage nothing_shown 0 [] true b None None None Overview false [] [] [] 0 [] 0 []) [].

(** ** Properties *)

Module RoomFacts.
(** The effect on the comments turns no page. *)
Lemma comments_effect_view y : let w := world y in let w' := world (comments_effect y) in
  view w' = view w /\ section w' = section w /\ asked w `prefix_of` asked w'.
Proof.
  unfold comments_effect. cbv zeta. destruct (selectedAssignment (world y)) as [a|] eqn:Ea; [|split_and!; try done].
  destruct (current_of (world y) (assignment_id a)); [|by split_and!]. destruct (online (world y)); [|by split_and!].
  split_and!; [done|done|]. unfold start. cbn. by eexists.
Qed.
Lemma find_same (id : jstr) (l : list Assignment) a : find (fun a => seqb (assignment_id a) id) l = Some a -> assignment_id a = id.
Proof. intros [_ Hf]%find_Some. by apply seqb_eq. Qed.
(** The rest of a step changes no page when the task and the data stay. *)
Lemma effects_settled w y : quiz_deps (world y) = quiz_deps w -> live_deps (world y) = live_deps w ->
  view (world (effects w y)) = view (world y) /\ section (world (effects w y)) = section (world y).
Proof.
  intros Hq Hl. unfold effects. cbv zeta. rewrite (bool_decide_eq_true_2 _ Hq), (bool_decide_eq_true_2 _ Hl).
  destruct (bool_decide _); [done|]. by destruct (comments_effect_view y) as (? & ? & _).
Qed.
Lemma comments_effect_waiting y : waiting y `prefix_of` waiting (comments_effect y).
Proof.
  unfold comments_effect. cbv zeta. destruct (selectedAssignment (world y)) as [a|]; [|done].
  destruct (current_of (world y) (assignment_id a)); [|done]. destruct (online (world y)); [|done]. by eexists.
Qed.
(** The page where the deliveries are waited for. *)
Definition quiz_waits (id : jstr) : Script unit := snd (advance (find_quiz id) (world (opened true))).
Lemma quiz_answered i (o : forall q, answer q) items d id (y : System) (Hi : waiting y !! i = Some (quiz_waits id))
    (Ho : o QuizDeliveries = Ok items) (Hd : find (fun d => seqb (fst d) id) items = Some d) :
  let w := turn (Some (snd d)) (assignment (world y)) QuizzesSection (world y) in
  view (world (step (Answered i o) y)) = view w /\ section (world (step (Answered i o) y)) = QuizzesSection.
Proof.
  unfold step. cbn [act]. unfold resume. rewrite Hi. cbn [quiz_waits find_quiz snd advance send bind Script.ask].
  rewrite Ho, Hd. by apply effects_settled.
Qed.
(** What the first and the last effect of a step leave to the others. *)
Lemma quiz_effect_first (y : System) t id (Ht : liveTask (world y) = Some t) (Hid : target_id t = Some id) (Hne : id <> []) :
  let y1 := quiz_effect y in
  live_deps (world y1) = live_deps (world y) /\ task_target (world y1) = Some (task_kind t, id) /\
  view (world y1) = view (world y) /\ section (world y1) = section (world y) /\
  (task_kind t <> TQuiz -> y1 = y) /\
  (task_kind t = TQuiz -> asked (world y1) = asked (world y) ++ [QuizDeliveries] /\ waiting y1 = waiting y ++ [quiz_waits id]).
Proof.
  assert (Et : task_target (world y) = Some (task_kind t, id)).
  { unfold task_target. rewrite Ht. cbn [mbind option_bind]. rewrite Hid. cbn [mbind option_bind]. by destruct id. }
  unfold quiz_effect. rewrite Et. by destruct (task_kind t).
Qed.
Lemma comments_effect_last (w : Page) (y : System) :
  exists y', (if bool_decide (comments_deps (world y) = comments_deps w) then y else comments_effect y) = y' /\
    view (world y') = view (world y) /\ section (world y') = section (world y) /\
    asked (world y) `prefix_of` asked (world y') /\ waiting y `prefix_of` waiting y'.
Proof.
  eexists. split; [reflexivity|]. destruct (bool_decide _); [by split_and!|].
  destruct (comments_effect_view y) as (? & ? & ?). split_and!; try done. apply comments_effect_waiting.
Qed.
End RoomFacts.
Import RoomFacts.

(** ** Claims *)


(** ** Runs *)

Module RoomRuns.
Definition host : forall q, answer q := fun q =>
  match q with
  | QuizDeliveries => Ok [(js "q1", js "c2")]
  | JoinClassroom _ => Ok (js "c2")
  | Comments _ => Ok [mkComment (js "Ms Hill") (js "Good.")]
  | Reload => tt
  | OpenMaterial _ | TaskState _ => Ok tt
  end.
(** Everything but the opening of materials fails. *)
Definition no_report : forall q, answer q := fun q =>
  match q with
  | QuizDeliveries => Throw (OtherFailure []) | JoinClassroom _ => Throw (OtherFailure []) | Comments _ => Throw (OtherFailure [])
  | Reload => tt | OpenMaterial _ => Ok tt | TaskState _ => Throw (OtherFailure (js "Session ended"))
  end.
Definition no_file : forall q, answer q := fun q =>
  match q with OpenMaterial _ => Throw (OtherFailure (js "File missing")) | q => host q end.
Definition named (id : jstr) : Classroom := mkClassroom id id None [] [] [] (js "Ms Hill") [] 0 [].
Definition essay : Assignment := mkAssignment (js "a1") (js "c1") (js "c1") (js "Essay") [] None (num 20) VNull Published [] [].
Definition sheet : StudyNode := mkStudyNode (js "m1") None None (Some (js "c1")) (js "Sheet") NPdf 0 None [] [].
Definition all : Shown := mkShown [named (js "c1"); named (js "c2")] [essay] [] [sheet].
Definition task (k : LiveSessionTaskKind) (id : jstr) : Event := Task (Some (mkLiveSessionTask (js "t1") 1 k (Some id) [] [] [])).
Definition sys (es : list Event) : System := run es (opened true).
Definition go (es : list Event) : Page := world (sys es).


(** A quiz is the task: its classroom is asked for and shown; the assignment
    that is open stays in view, the quizzes behind it. *)
Definition quiz : Event := task TQuiz (js "q1").
Example quiz_followed :
  view (go [Loaded all [] None; quiz; Answered 0 host]) = RoomPage (named (js "c2")) /\
  section (go [Loaded all [] None; quiz; Answered 0 host]) = QuizzesSection.
Proof. vm_compute. done. Qed.
Example quiz_behind_assignment :
  let w := go [Loaded all [] None; OpenRoom (js "c1"); OpenAssignment (js "a1"); quiz; Answered 0 host] in
  view w = DetailPage essay /\ section w = QuizzesSection /\ room w = Some (js "c2").
Proof. vm_compute. done. Qed.

(** Every reload follows the task again: the student who went to another
    classroom is taken back to the assignment, and a material that was opened
    is opened, and reported, once more. *)
Example reload_follows_again :
  let left := [Loaded all [] None; task TAssignment (js "a1"); Back; AllRooms; OpenRoom (js "c2")] in
  view (go left) = RoomPage (named (js "c2")) /\ view (go (left ++ [Loading; Loaded all [] None])) = DetailPage essay /\
  asked (go [Loaded all [] None; task TMaterial (js "m1"); Answered 0 host; Answered 0 host; Loading; Loaded all [] None]) =
    [OpenMaterial (js "m1"); TaskState TCompleted; OpenMaterial (js "m1")].
Proof. vm_compute. done. Qed.

(** A material that was opened is reported as failed when it could not be
    reported as completed. *)
Example opened_reported_failed :
  let w := go [Loaded all [] None; task TMaterial (js "m1"); Answered 0 host; Answered 0 no_report] in
  asked w = [OpenMaterial (js "m1"); TaskState TCompleted; TaskState TFailed] /\ message w = js "Session ended".
Proof. vm_compute. done. Qed.

(** The message of the page is not shown in a classroom: a material of the task
    that cannot be opened there fails without a word. *)
Example message_not_shown :
  let w := go [Loaded all [] None; OpenRoom (js "c1"); task TMaterial (js "m1"); Answered 0 no_file] in
  message w = js "File missing" /\ visible_message w = [].
Proof. vm_compute. done. Qed.

(** A classroom that is joined is opened when everything has been loaded again,
    over the one that was opened meanwhile. *)
Example joined_room_replaces_opened :
  let es := [Loaded all [] None; TypeCode (js "abc"); Join; Answered 0 host; Loading; OpenRoom (js "c1"); Loaded all [] None] in
  view (go es) = RoomPage (named (js "c1")) /\ view (go (es ++ [Answered 0 host])) = RoomPage (named (js "c2")).
Proof. vm_compute. done. Qed.
End RoomRuns.
