(* ===== verification/HostConsole.v ===== *)
(** * The console of the Host ([App], [Setup], [Unlock] and [HostShell] of
    [apps/host/src/App.tsx])

    The window that sets the Host up, unlocks its administration and starts and
    stops the server.  Which screen is shown follows from what [public_state]
    answered and from the token; a screen that appears begins with a form of its
    own number, so that an answer to an earlier one changes nothing.  The clock
    is [now]; the timer of fifteen minutes is the time [idle] at which it fires.
    [issued] records the tokens that were handed out; nothing reads it. *)

From stdpp Require Import list.
From S2P Require Import Prelude Script JsString JsNumber.
Local Open Scope Z_scope.
Local Open Scope script_scope.

(** ** Data *)

Inductive Tab := Dashboard | People | Files | Backup | Settings.
Record PublicState := mkPublic {
  configured : bool; config_error : option jstr; p_running : bool; school_name : option jstr; data_dir : option jstr; port : option Z
}.
Record SetupResult := mkResult { recovery_code : jstr; bootstrap_pin : option jstr }.
Record SetupForm := mkSetup { s_no : nat; school : jstr; folder : jstr; s_password : jstr; s_port : jsnum; s_error : jstr; s_busy : bool }.
Record UnlockForm := mkUnlock { u_no : nat; u_password : jstr; u_error : jstr; recovery : bool }.
Record Shell := mkShell { h_no : nat; running : bool; h_error : jstr; refreshKey : nat; refreshing : bool }.

Inductive Query :=
  | PublicStateQuery
  | LockAdmin
  | ChooseFolder
  | SetupHost (folder school password : jstr) (port : jsnum)
  | UnlockAdmin (password : jstr)
  | UnlockWithRecovery (code password : jstr)
  | StopServer (token : jstr)
  | StartServer (token : jstr)
  | CurrentPin (token : jstr).
(** A failure is its text, whatever was thrown. *)
Definition answer (q : Query) : Type :=
  match q with
  | PublicStateQuery => outcome jstr PublicState
  | ChooseFolder => option jstr
  | SetupHost _ _ _ _ | UnlockWithRecovery _ _ => outcome jstr SetupResult
  | UnlockAdmin _ => outcome jstr jstr
  | CurrentPin _ => outcome jstr (option jstr)
  | _ => outcome jstr unit
  end.
Record Console := mkConsole {
  public : option PublicState; token : jstr; tab : Tab; message : jstr; idle : option Z; now : Z;
  setup : option SetupForm; unlock : option UnlockForm; shell : option Shell; made : nat;
  asked : list Query; issued : list jstr
}.
Local Abbreviation Script := (Script Console answer).
Local Abbreviation System := (System Console answer).

Definition with_public (p : PublicState) (w : Console) : Console :=
  mkConsole (Some p) (token w) (tab w) (message w) (idle w) (now w) (setup w) (unlock w) (shell w) (made w) (asked w) (issued w).
Definition with_tab (t : Tab) (w : Console) : Console :=
  mkConsole (public w) (token w) t (message w) (idle w) (now w) (setup w) (unlock w) (shell w) (made w) (asked w) (issued w).
Definition with_message (m : jstr) (w : Console) : Console :=
  mkConsole (public w) (token w) (tab w) m (idle w) (now w) (setup w) (unlock w) (shell w) (made w) (asked w) (issued w).
Definition with_setup (f : option SetupForm) (w : Console) : Console :=
  mkConsole (public w) (token w) (tab w) (message w) (idle w) (now w) f (unlock w) (shell w) (made w) (asked w) (issued w).
Definition with_unlock (f : option UnlockForm) (w : Console) : Console :=
  mkConsole (public w) (token w) (tab w) (message w) (idle w) (now w) (setup w) f (shell w) (made w) (asked w) (issued w).
Definition with_shell (h : option Shell) (w : Console) : Console :=
  mkConsole (public w) (token w) (tab w) (message w) (idle w) (now w) (setup w) (unlock w) h (made w) (asked w) (issued w).
Definition making (w : Console) : Console :=
  mkConsole (public w) (token w) (tab w) (message w) (idle w) (now w) (setup w) (unlock w) (shell w) (S (made w)) (asked w) (issued w).
Definition asking (q : Query) (w : Console) : Console :=
  mkConsole (public w) (token w) (tab w) (message w) (idle w) (now w) (setup w) (unlock w) (shell w) (made w) (asked w ++ [q]) (issued w).
Definition send (q : Query) : Script (answer q) := Do (asking q) (Script.ask q).

(** ** The timer *)

Definition IDLE : Z := 15 * 60 * 1000.
(** The effect on the token, and [touch]; a token that is the one in use has no
    effect. *)
Definition arm (w : Console) : Console :=
  mkConsole (public w) (token w) (tab w) (message w) (match token w with [] => None | _ => Some (now w + IDLE) end) (now w)
    (setup w) (unlock w) (shell w) (made w) (asked w) (issued w).
Definition with_token (t : jstr) (w : Console) : Console :=
  if bool_decide (t = token w) then w else
  arm (mkConsole (public w) t (tab w) (message w) (idle w) (now w) (setup w) (unlock w) (shell w) (made w) (asked w) (issued w)).
Definition issue (t : jstr) (w : Console) : Console :=
  mkConsole (public w) (token w) (tab w) (message w) (idle w) (now w) (setup w) (unlock w) (shell w) (made w) (asked w) (t :: issued w).
Definition pass (d : Z) (w : Console) : Console :=
  mkConsole (public w) (token w) (tab w) (message w) (idle w) (now w + Z.max 0 d) (setup w) (unlock w) (shell w) (made w) (asked w) (issued w).
Definition touch (w : Console) : Console := match token w with [] => w | _ => arm w end.
Definition due (w : Console) : bool := match idle w with Some t => t <=? now w | None => false end.

Definition refreshPublic : Script (outcome jstr unit) :=
  r <- send PublicStateQuery;;
  match r with Ok p => Do (with_public p) (Ret (Ok tt)) | Throw x => Ret (Throw x) end.
Definition lockAdmin : Script unit :=
  Do (fun w => with_message [] (with_token [] w)) (_ <- send LockAdmin;; Ret tt).

(** ** Which screen is shown *)

Inductive Screen := Opening | ConfigLocked (text : jstr) | SetupScreen | UnlockScreen | ShellScreen.
Definition screen (w : Console) : Screen :=
  match public w with
  | None => Opening
  | Some p =>
    if truthy (default [] (config_error p)) then ConfigLocked (default [] (config_error p))
    else if negb (configured p) then SetupScreen
    else if truthy (token w) then ShellScreen else UnlockScreen
  end.
Definition new_setup (n : nat) : SetupForm := mkSetup n [] [] [] (num 7373) [] false.
Definition new_unlock (n : nat) : UnlockForm := mkUnlock n [] [] false.
Definition new_shell (p : option PublicState) (n : nat) : Shell :=
  mkShell n (match p with Some p => p_running p | None => false end) [] 0 false.
(** The components that appear and those that are gone. *)
Definition mount_setup (w : Console) : Console :=
  match screen w, setup w with
  | SetupScreen, Some _ => w
  | SetupScreen, None => making (with_setup (Some (new_setup (made w))) w)
  | _, _ => with_setup None w
  end.
Definition mount_unlock (w : Console) : Console :=
  match screen w, unlock w with
  | UnlockScreen, Some _ => w
  | UnlockScreen, None => making (with_unlock (Some (new_unlock (made w))) w)
  | _, _ => with_unlock None w
  end.
Definition mount_shell (w : Console) : Console :=
  match screen w, shell w with
  | ShellScreen, Some _ => w
  | ShellScreen, None => making (with_shell (Some (new_shell (public w) (made w))) w)
  | _, _ => with_shell None w
  end.
Definition mounted (w : Console) : Console := mount_shell (mount_unlock (mount_setup w)).

Definition on_setup (n : nat) (f : SetupForm -> SetupForm) (w : Console) : Console :=
  match setup w with Some x => if Nat.eqb (s_no x) n then with_setup (Some (f x)) w else w | None => w end.
Definition on_unlock (n : nat) (f : UnlockForm -> UnlockForm) (w : Console) : Console :=
  match unlock w with Some x => if Nat.eqb (u_no x) n then with_unlock (Some (f x)) w else w | None => w end.
Definition on_shell (n : nat) (f : Shell -> Shell) (w : Console) : Console :=
  match shell w with Some x => if Nat.eqb (h_no x) n then with_shell (Some (f x)) w else w | None => w end.
(** The message of the app is part of the screen that unlocks only. *)
Definition visible_message (w : Console) : jstr := match screen w with UnlockScreen => message w | _ => [] end.

(** ** Setting up *)

Definition setup_says (m : jstr) (b : bool) (x : SetupForm) : SetupForm := mkSetup (s_no x) (school x) (folder x) (s_password x) (s_port x) m b.
Definition set_folder (v : jstr) (x : SetupForm) : SetupForm := mkSetup (s_no x) (school x) v (s_password x) (s_port x) (s_error x) (s_busy x).
Definition choose : Script unit :=
  w <- Script.get;;
  match setup w with
  | Some x => v <- send ChooseFolder;; match v with Some v => Script.update (on_setup (s_no x) (set_folder v)) | None => Ret tt end
  | None => Ret tt
  end.
Definition long_enough (p : jstr) : bool := 8 <=? Z.of_nat (length p).
(** What the browser checks before it submits the form: a field that cannot be
    edited, as that of the folder, is left out. *)
Definition setup_valid (x : SetupForm) : bool :=
  truthy (school x) && long_enough (s_password x) &&
  (num_le (num 1024) (s_port x) && num_le (s_port x) (num 65535) && is_integer (s_port x)).
Definition setup_message (r : SetupResult) : jstr :=
  js "Save this Host recovery code: " ++ recovery_code r ++
  match bootstrap_pin r with Some p => if truthy p then c_nl :: js "Teacher setup PIN: " ++ p else [] | None => [] end.
(** Whether [onDone] is called; it starts [refreshPublic], for which nothing
    waits. *)
Definition setup_host : Script bool :=
  w <- Script.get;;
  match setup w with
  | Some x =>
    if s_busy x || negb (setup_valid x) then Ret false else
    Do (on_setup (s_no x) (setup_says [] true))
      (r <- send (SetupHost (folder x) (school x) (s_password x) (s_port x));;
       match r with
       | Ok r => Do (fun w => on_setup (s_no x) (fun x => setup_says (s_error x) false x) (with_message (setup_message r) w)) (Ret true)
       | Throw m => Do (on_setup (s_no x) (setup_says m false)) (Ret false)
       end)
  | None => Ret false
  end.
Definition submit_setup : Script unit :=
  done <- setup_host;;
  if done : bool then _ <- refreshPublic;; Ret tt else Ret tt.

(** ** Unlocking *)

Definition unlock_says (m : jstr) (x : UnlockForm) : UnlockForm := mkUnlock (u_no x) (u_password x) m (recovery x).
Definition recovered (x : UnlockForm) : UnlockForm := mkUnlock (u_no x) [] (u_error x) false.
Definition recovered_message (code : jstr) : jstr := js "Save the new recovery code: " ++ code.
(** [code] is what was typed into the prompt. *)
Definition submit_unlock (code : option jstr) : Script unit :=
  w <- Script.get;;
  match unlock w with
  | Some x =>
    let failed m := Script.update (on_unlock (u_no x) (unlock_says m)) in
    if negb (long_enough (u_password x)) then Ret tt else
    Do (on_unlock (u_no x) (unlock_says []))
      (if recovery x then
         r <- send (UnlockWithRecovery (default [] code) (u_password x));;
         match r with
         | Ok r => Script.update (fun w => on_unlock (u_no x) recovered (with_message (recovered_message (recovery_code r)) w))
         | Throw m => failed m
         end
       else
         r <- send (UnlockAdmin (u_password x));;
         match r with Ok t => Script.update (fun w => with_token t (issue t w)) | Throw m => failed m end)
  | None => Ret tt
  end.

(** ** The server *)

Definition shell_says (m : jstr) (h : Shell) : Shell := mkShell (h_no h) (running h) m (refreshKey h) (refreshing h).
Definition set_running (b : bool) (h : Shell) : Shell := mkShell (h_no h) b (h_error h) (refreshKey h) (refreshing h).
Definition set_refreshing (b : bool) (h : Shell) : Shell := mkShell (h_no h) (running h) (h_error h) (refreshKey h) b.
Definition next_key (h : Shell) : Shell := mkShell (h_no h) (running h) (h_error h) (S (refreshKey h)) (refreshing h).
Definition pin_message (p : jstr) : jstr := js "Teacher setup PIN: " ++ p ++ js " (expires in 15 minutes)".
Definition showPin (n : nat) (t : jstr) : Script (outcome jstr unit) :=
  r <- send (CurrentPin t);;
  match r with
  | Ok (Some p) => if truthy p then Do (on_shell n (shell_says (pin_message p))) (Ret (Ok tt)) else Ret (Ok tt)
  | Ok None => Ret (Ok tt)
  | Throw m => Ret (Throw m)
  end.
(** [catch(e){setError(errorText(e))}] *)
Definition reported (n : nat) (r : outcome jstr unit) : Script unit :=
  match r with Ok _ => Ret tt | Throw m => Script.update (on_shell n (shell_says m)) end.
Definition try_then {A} (r : outcome jstr A) (k : A -> Script (outcome jstr unit)) : Script (outcome jstr unit) :=
  match r with Ok x => k x | Throw m => Ret (Throw m) end.
Definition toggle : Script unit :=
  w <- Script.get;;
  match shell w with
  | Some h =>
    let n := h_no h in let t := token w in
    Do (on_shell n (shell_says []))
      (r <- (r <- (if running h then send (StopServer t) else send (StartServer t));;
             try_then r (fun _ =>
             r <- refreshPublic;;
             try_then r (fun _ =>
             Do (on_shell n (set_running (negb (running h))))
               (if running h then Ret (Ok tt) else showPin n t))));;
       reported n r)
  | None => Ret tt
  end.
Definition restart : Script unit :=
  w <- Script.get;;
  match shell w with
  | Some h =>
    let n := h_no h in let t := token w in
    Do (on_shell n (shell_says []))
      (r <- (r <- (if running h then send (StopServer t) else Ret (Ok tt));;
             try_then r (fun _ =>
             r <- send (StartServer t);;
             try_then r (fun _ =>
             Do (on_shell n (set_running true))
               (r <- refreshPublic;;
                try_then r (fun _ => showPin n t)))));;
       reported n r)
  | None => Ret tt
  end.
Definition refresh : Script unit :=
  w <- Script.get;;
  match shell w with
  | Some h =>
    let n := h_no h in
    if refreshing h then Ret tt else
    Do (on_shell n (fun h => shell_says [] (set_refreshing true h)))
      (r <- refreshPublic;;
       reported n r;;
       Script.update (on_shell n (fun h => set_refreshing false (match r with Ok _ => next_key h | Throw _ => h end))))
  | None => Ret tt
  end.

(** ** Events *)

Inductive Event :=
  | TypeSchool (v : jstr) | TypePassword (v : jstr) | TypePort (v : jstr) | Choose | SubmitSetup
  | TypeUnlock (v : jstr) | UseRecovery | SubmitUnlock (code : option jstr)
  | OpenTab (t : Tab) | Toggle | Restart | Refresh | Lock
  | Touch | Hide | Later (d : Z)
  | Answered (i : nat) (o : forall q, answer q).
Definition apply (f : Console -> Console) (y : System) : System := mkSystem (f (world y)) (waiting y).
(** Every press of a button or a key is heard by the window first. *)
Definition act (ev : Event) (y : System) : System :=
  let w := world y in
  match ev with
  | TypeSchool v =>
    match setup w with Some x => apply (with_setup (Some (mkSetup (s_no x) v (folder x) (s_password x) (s_port x) (s_error x) (s_busy x)))) y | None => y end
  | TypePassword v =>
    match setup w with Some x => apply (with_setup (Some (mkSetup (s_no x) (school x) (folder x) v (s_port x) (s_error x) (s_busy x)))) y | None => y end
  | TypePort v =>
    match setup w with
    | Some x => apply (with_setup (Some (mkSetup (s_no x) (school x) (folder x) (s_password x) (number_of_string v) (s_error x) (s_busy x)))) y
    | None => y
    end
  | Choose => start choose y
  | SubmitSetup => start submit_setup y
  | TypeUnlock v => match unlock w with Some x => apply (with_unlock (Some (mkUnlock (u_no x) v (u_error x) (recovery x)))) y | None => y end
  | UseRecovery =>
    match unlock w with Some x => apply (with_unlock (Some (mkUnlock (u_no x) (u_password x) (u_error x) (negb (recovery x))))) y | None => y end
  | SubmitUnlock code => start (submit_unlock code) y
  | OpenTab t => match shell w with Some _ => apply (with_tab t) y | None => y end
  | Toggle => start toggle y
  | Restart => start restart y
  | Refresh => start refresh y
  | Lock => match shell w with Some _ => start lockAdmin y | None => y end
  | Touch => y
  | Hide => if truthy (token w) then apply (with_message []) y else y
  | Later d => let y := apply (pass d) y in if due (world y) then start lockAdmin y else y
  | Answered i o => resume i o y
  end.
Definition by_hand (ev : Event) : bool := match ev with Hide | Later _ | Answered _ _ => false | _ => true end.
Definition step (ev : Event) (y : System) : System :=
  apply mounted (act ev (if by_hand ev then apply touch y else y)).
Definition run (es : list Event) (y : System) : System := fold_left (fun y ev => step ev y) es y.
Definition opened (t : Z) : System :=
  start (_ <- refreshPublic;; Ret tt) (mkSystem (mkConsole None [] Dashboard [] None t None None None 0 [] []) []).

(** ** Properties *)

Module ConsoleFacts.

(** While there is a token the timer is to fire, within fifteen minutes. *)
Definition timed (w : Console) : Prop :=
  match token w with [] => idle w = None | _ => exists t, idle w = Some t /\ now w < t <= now w + IDLE end.
Definition query_ok (l : list jstr) (q : Query) : Prop :=
  match q with StopServer t | StartServer t | CurrentPin t => t ∈ l | _ => True end.
Definition handed (w : Console) : Prop := Forall (query_ok (issued w)) (asked w) /\ (token w = [] \/ token w ∈ issued w).
Definition fine (w : Console) : Prop := timed w /\ handed w.
Definition later (w w' : Console) : Prop := forall t, t ∈ issued w -> t ∈ issued w'.
#[export] Instance later_preorder : PreOrder later.
Proof. split; unfold later; [by intros w t|naive_solver]. Qed.
Definition any_answer (q : Query) (_ : answer q) : Prop := True.

(** Changes of what neither the timer nor the tokens depend on. *)
Definition quiet (f : Console -> Console) : Prop := forall w,
  token (f w) = token w /\ idle (f w) = idle w /\ now (f w) = now w /\ asked (f w) = asked w /\ issued (f w) = issued w.
Lemma quiet_fine f w : quiet f -> fine w -> fine (f w) /\ later w (f w).
Proof.
  intros Hf Hw. destruct (Hf w) as (E1 & E2 & E3 & E4 & E5). unfold fine, timed, handed, later. rewrite E1, E2, E3, E4, E5. by split.
Qed.
Lemma quiet_setup n f : quiet (on_setup n f).
Proof. intros w. unfold on_setup. destruct (setup w); [|by split_and!]. by destruct (Nat.eqb _ _). Qed.
Lemma quiet_unlock n f : quiet (on_unlock n f).
Proof. intros w. unfold on_unlock. destruct (unlock w); [|by split_and!]. by destruct (Nat.eqb _ _). Qed.
Lemma quiet_shell n f : quiet (on_shell n f).
Proof. intros w. unfold on_shell. destruct (shell w); [|by split_and!]. by destruct (Nat.eqb _ _). Qed.
Lemma quiet_then f g : quiet f -> quiet g -> quiet (fun w => g (f w)).
Proof.
  intros Hf Hg w. destruct (Hf w) as (E1 & E2 & E3 & E4 & E5), (Hg (f w)) as (G1 & G2 & G3 & G4 & G5).
  rewrite G1, G2, G3, G4, G5. by split_and!.
Qed.
Lemma quiet_mounted : quiet mounted.
Proof.
  apply (quiet_then mount_setup (fun w => mount_shell (mount_unlock w))); [|apply (quiet_then mount_unlock)];
    intros w; unfold mount_setup, mount_unlock, mount_shell.
  - destruct (screen w), (setup w); by split_and!.
  - destruct (screen w), (unlock w); by split_and!.
  - destruct (screen w), (shell w); by split_and!.
Qed.
Lemma fine_ask w q : fine w -> query_ok (issued w) q -> fine (asking q w) /\ later w (asking q w).
Proof.
  intros (Ht & Ha & Hk) Hq. split; [|by intros t]. split; [done|]. split; [|done]. cbn. apply Forall_app. by split; [|apply Forall_singleton].
Qed.

Local Abbreviation safely s := (forall w0 w, fine w /\ later w0 w -> safe fine later any_answer s (fun _ w0 w => fine w /\ later w0 w) w0 w).
Lemma safely_ret {A} (x : A) : safely (Ret x : Script A).
Proof. by intros w0 w Hw. Qed.
Lemma safely_quietly {A} f (s : Script A) : quiet f -> safely s -> safely (Do f s).
Proof. intros Hf Hs w0 w [Hw Hl]. destruct (quiet_fine f w Hf Hw). apply Hs. split; [done|]. by transitivity w. Qed.
Lemma safely_bind {A B} (s : Script A) (k : A -> Script B) : safely s -> (forall x, safely (k x)) -> safely (bind s k).
Proof. intros Hs Hk w0 w Hw. apply safe_bind. eapply safe_mono; [|by apply Hs]. intros x w1 w2 H12. by apply Hk. Qed.
Lemma safely_changed f : quiet f -> safely (Script.update f : Script unit).
Proof. intros Hf. apply safely_quietly; [done|apply safely_ret]. Qed.
(** A request; a command needs a token that was handed out by the time of
    [w1]. *)
Lemma safely_send q w1 w0 w : query_ok (issued w1) q -> later w1 w -> fine w -> later w0 w ->
  safe fine later any_answer (send q) (fun _ w0 w => fine w /\ later w0 w /\ later w1 w) w0 w.
Proof.
  intros Hq Hl1 Hw Hl. assert (Hq' : query_ok (issued w) q) by (destruct q; cbn in *; auto).
  destruct (fine_ask w q Hw Hq') as [H1 H2]. split; [split; [done|by transitivity w]|].
  intros a w' _ Hw' Hl'. cbn. split_and!; [done|done|]. transitivity (asking q w); [|done]. by transitivity w.
Qed.
Lemma safely_free q : (forall l, query_ok l q) -> safely (send q).
Proof.
  intros Hq w0 w [Hw Hl]. eapply safe_mono; [|apply (safely_send q w); [apply Hq|done|done|done]]. by intros x w2 w3 (H1 & H2 & _).
Qed.
Lemma safely_refresh : safely refreshPublic.
Proof.
  apply safely_bind; [by apply safely_free|]. intros [p|m]; [apply safely_quietly; [done|]|]; apply safely_ret.
Qed.
Lemma safely_reported n r : safely (reported n r).
Proof. destruct r; [apply safely_ret|]. apply safely_changed, quiet_shell. Qed.
(** A script whose commands carry the token [t]. *)
Section token.
Context (t : jstr).
Definition held (w : Console) : Prop := t ∈ issued w.
Local Abbreviation safer s := (forall w0 w, fine w /\ later w0 w -> held w -> safe fine later any_answer s (fun _ w0 w => (fine w /\ later w0 w) /\ held w) w0 w).
Lemma safer_ret {A} (x : A) : safer (Ret x : Script A).
Proof. by intros w0 w Hw Hh. Qed.
Lemma safer_do {A} f (s : Script A) : quiet f -> safer s -> safer (Do f s).
Proof.
  intros Hf Hs w0 w [Hw Hl] Hh. destruct (quiet_fine f w Hf Hw) as [H1 H2]. apply Hs; [|by apply H2]. split; [done|]. by transitivity w.
Qed.
Lemma safer_bind {A B} (s : Script A) (k : A -> Script B) : safer s -> (forall x, safer (k x)) -> safer (bind s k).
Proof. intros Hs Hk w0 w Hw Hh. apply safe_bind. eapply safe_mono; [|by apply Hs]. intros x w1 w2 [H1 H2]. by apply Hk. Qed.
Lemma safer_send q : (forall l, t ∈ l -> query_ok l q) -> safer (send q).
Proof.
  intros Hq w0 w [Hw Hl] Hh. eapply safe_mono; [|apply (safely_send q w); [by apply Hq|done|done|done]].
  intros x w2 w3 (H1 & H2 & H3). split; [done|]. by apply H3.
Qed.
Lemma safer_try {A} r (k : A -> Script (outcome jstr unit)) : (forall x, safer (k x)) -> safer (try_then r k).
Proof. intros Hk. destruct r; [apply Hk|apply safer_ret]. Qed.
Lemma safer_refresh : safer refreshPublic.
Proof. apply safer_bind; [by apply safer_send|]. intros [p|m]; [apply safer_do; [done|]|]; apply safer_ret. Qed.
Lemma safer_pin n : safer (showPin n t).
Proof.
  apply safer_bind; [by apply safer_send|]. intros [[p|]|m]; [destruct (truthy p); [apply safer_do; [apply quiet_shell|]|]| |]; apply safer_ret.
Qed.
Lemma safer_reported n r : safer (reported n r).
Proof. destruct r; [apply safer_ret|]. apply safer_do; [apply quiet_shell|apply safer_ret]. Qed.
Lemma safer_kept (s : Script unit) w : safer s -> fine w -> held w -> safe fine later any_answer s (kept fine later) w w.
Proof. intros Hs Hw Hh. eapply safe_mono; [|by apply Hs]. by intros x w1 w2 [H1 H2]. Qed.
End token.
End ConsoleFacts.
Import ConsoleFacts.

Module ConsoleRunFacts.
Local Abbreviation ok := (sound fine later any_answer).
Lemma token_with t w : token (with_token t w) = t.
Proof. unfold with_token. by case_bool_decide. Qed.
Lemma issued_with t w : issued (with_token t w) = issued w.
Proof. unfold with_token. by case_bool_decide. Qed.
Lemma asked_with t w : asked (with_token t w) = asked w.
Proof. unfold with_token. by case_bool_decide. Qed.
Lemma timed_with t w : (t = token w -> timed w) -> timed (with_token t w).
Proof.
  intros Hw. unfold with_token. case_bool_decide as E; [by apply Hw|]. unfold timed. cbn. destruct t; [done|].
  eexists. split; [done|]. unfold IDLE. lia.
Qed.
Lemma fine_token t w : fine w -> fine (with_token t (issue t w)) /\ later w (with_token t (issue t w)).
Proof.
  intros (Ht & Ha & Hk). assert (Hl : later w (with_token t (issue t w))) by (intros u Hu; rewrite issued_with; by right). split; [|done]. split.
  - apply timed_with. by intros _.
  - split; [|right; rewrite token_with, issued_with; by left]. rewrite asked_with. eapply Forall_impl; [exact Ha|].
    intros q Hq. destruct q; try done; by apply Hl.
Qed.
(** Nothing is set while no token is there. *)
Definition at_rest (w : Console) : Prop := token w = [] -> idle w = None.
Lemma fine_rest w : fine w -> at_rest w.
Proof. intros (Ht & _) E. unfold timed in Ht. by rewrite E in Ht. Qed.
Definition locked (w : Console) : Console := with_message [] (with_token [] w).
Lemma fine_lock w : at_rest w -> handed w -> fine (locked w) /\ later w (locked w).
Proof.
  intros Hr (Ha & Hk). split; [|intros t; cbn; by rewrite issued_with]. split; [|split].
  - change (timed (with_token [] w)). apply timed_with. intros E. unfold timed. rewrite <- E. by apply Hr.
  - cbn. by rewrite asked_with, issued_with.
  - left. apply token_with.
Qed.
Lemma lock_ok y : at_rest (world y) -> handed (world y) -> Forall (Script.ready fine later any_answer (world y)) (waiting y) -> ok (start lockAdmin y).
Proof.
  intros Hr Hh Hf. destruct (fine_lock (world y) Hr Hh) as [H1 H2].
  assert (Hy : ok (mkSystem (locked (world y)) (waiting y))).
  { split; [exact H1|]. eapply Forall_impl; [exact Hf|]. intros s. apply ready_later; [apply _|done]. }
  change (start lockAdmin y) with (start (_ <- send LockAdmin;; Ret tt) (mkSystem (locked (world y)) (waiting y))).
  apply start_sound; [apply _|done|]. apply (safely_bind (send LockAdmin)); [by apply safely_free|intros ?; apply safely_ret|]. by split.
Qed.
Lemma console_start_ok (s : Script unit) y : ok y -> (forall w0 w, fine w /\ later w0 w -> safe fine later any_answer s (fun _ w0 w => fine w /\ later w0 w) w0 w) -> ok (start s y).
Proof. intros Hy Hs. apply start_sound; [apply _|done|]. apply Hs. split; [apply Hy|done]. Qed.
Lemma quiet_ok f y : quiet f -> ok y -> ok (apply f y).
Proof.
  intros Hf [H1 H2]. destruct (quiet_fine f _ Hf H1) as [H3 H4]. split; [done|].
  eapply Forall_impl; [exact H2|]. intros s. apply ready_later; [apply _|done].
Qed.
Lemma touch_ok y : ok y -> ok (apply touch y).
Proof.
  intros [(Ht & Hh) H2]. unfold touch.
  assert (E : fine (touch (world y)) /\ later (world y) (touch (world y))).
  { unfold touch. destruct (token (world y)) eqn:E; [by split|]. split; [|by intros t]. split; [|done].
    unfold timed, arm. cbn. rewrite E. eexists. split; [done|]. unfold IDLE. lia. }
  destruct E as [E1 E2]. split; [done|]. eapply Forall_impl; [exact H2|]. intros s. apply ready_later; [apply _|done].
Qed.
(** The screen of the shell is there only while a token is. *)
Definition shown (w : Console) : Prop := shell w <> None -> truthy (token w) = true.
Lemma mounted_shown w : shown (mounted w).
Proof.
  unfold shown, mounted. destruct (quiet_mounted w) as (E & _). unfold mounted in E. rewrite E. clear E.
  destruct (quiet_mounted w) as (E & _). set (w' := mount_unlock (mount_setup w)) in *.
  assert (Et : token (mount_shell w') = token w') by (unfold mount_shell; by destruct (screen w'), (shell w')).
  rewrite <- E. unfold mounted. fold w'. rewrite Et. clear.
  unfold mount_shell. destruct (screen w') eqn:Es; try done. intros _. unfold screen in Es.
  destruct (public w'); [|done]. destruct (truthy (default [] (config_error _))); [done|]. destruct (negb (configured _)); [done|].
  by destruct (truthy (token w')).
Qed.
Lemma command_ok (s : Script unit) t y : ok y -> t ∈ issued (world y) ->
  (forall w0 w, fine w /\ later w0 w -> held t w -> safe fine later any_answer s (fun _ w0 w => (fine w /\ later w0 w) /\ held t w) w0 w) ->
  ok (start s y).
Proof. intros Hy Ht Hs. apply start_sound; [apply _|done|]. by apply (safer_kept t); [|apply Hy|]. Qed.
End ConsoleRunFacts.
Import ConsoleRunFacts.

Module ConsoleSteps.
Local Abbreviation ok := (sound fine later any_answer).
Lemma choose_safe w0 w : fine w /\ later w0 w -> safe fine later any_answer choose (fun _ w0 w => fine w /\ later w0 w) w0 w.
Proof.
  revert w0 w. apply safely_bind; [by intros w0 w|]. intros w. destruct (setup w); [|apply safely_ret].
  apply safely_bind; [by apply safely_free|]. intros [v|]; [apply safely_changed, quiet_setup|apply safely_ret].
Qed.
Lemma setup_safe w0 w : fine w /\ later w0 w -> safe fine later any_answer submit_setup (fun _ w0 w => fine w /\ later w0 w) w0 w.
Proof.
  revert w0 w. apply safely_bind.
  - apply safely_bind; [by intros w0 w|]. intros w. destruct (setup w); [|apply safely_ret].
    destruct (_ || _); [apply safely_ret|]. apply safely_quietly; [apply quiet_setup|]. apply safely_bind; [by apply safely_free|].
    intros [r|m]; apply safely_quietly; try apply safely_ret; [|apply quiet_setup].
    apply (quiet_then (with_message _) (on_setup _ _)); [by intros v|apply quiet_setup].
  - intros []; [|apply safely_ret]. apply safely_bind; [apply safely_refresh|]. intros ?. apply safely_ret.
Qed.
Lemma unlock_safe code w0 w : fine w /\ later w0 w -> safe fine later any_answer (submit_unlock code) (fun _ w0 w => fine w /\ later w0 w) w0 w.
Proof.
  revert w0 w. apply safely_bind; [by intros w0 w|]. intros w. destruct (unlock w) as [x|]; [|apply safely_ret].
  destruct (negb _); [apply safely_ret|]. apply safely_quietly; [apply quiet_unlock|]. destruct (recovery x).
  - apply safely_bind; [by apply safely_free|]. intros [r|m]; apply safely_changed; [|apply quiet_unlock].
    apply (quiet_then (with_message _) (on_unlock _ _)); [by intros v|apply quiet_unlock].
  - apply safely_bind; [by apply safely_free|]. intros [t|m]; [|apply safely_changed, quiet_unlock].
    intros w1 w2 [Hw Hl]. destruct (fine_token t w2 Hw) as [H1 H2]. cbn. split; [done|]. by transitivity w2.
Qed.
Lemma refresh_safe w0 w : fine w /\ later w0 w -> safe fine later any_answer refresh (fun _ w0 w => fine w /\ later w0 w) w0 w.
Proof.
  revert w0 w. apply safely_bind; [by intros w0 w|]. intros w. destruct (shell w); [|apply safely_ret].
  destruct (refreshing _); [apply safely_ret|]. apply safely_quietly; [apply quiet_shell|]. apply safely_bind; [apply safely_refresh|].
  intros r. apply safely_bind; [apply safely_reported|]. intros _. apply safely_changed, quiet_shell.
Qed.
Lemma started w : shown w -> shell w <> None -> fine w -> token w ∈ issued w.
Proof. intros Hs Hn (_ & _ & [E|E]); [|done]. specialize (Hs Hn). by rewrite E in Hs. Qed.
Lemma toggle_ok y : ok y -> shown (world y) -> ok (start toggle y).
Proof.
  intros Hy Hs. destruct (shell (world y)) as [h|] eqn:Eh.
  2:{ unfold start, toggle. cbn. rewrite Eh. cbn. destruct y. exact Hy. }
  assert (Ht : token (world y) ∈ issued (world y)) by (apply started; [done|by rewrite Eh|apply Hy]).
  unfold toggle. set (t := token (world y)) in *.
  match goal with |- ok (start (bind Script.get ?k) y) => change (start (bind Script.get k) y) with (start (k (world y)) y) end.
  cbv beta. rewrite Eh. fold t. apply (command_ok _ t); [done|done|].
  apply safer_do; [apply quiet_shell|]. apply safer_bind; [|intros r; apply safer_reported].
  apply safer_bind; [destruct (running h); by apply safer_send|]. intros r. apply safer_try. intros _.
  apply safer_bind; [apply safer_refresh|]. intros r'. apply safer_try. intros _. apply safer_do; [apply quiet_shell|].
  destruct (running h); [apply safer_ret|apply safer_pin].
Qed.
Lemma restart_ok y : ok y -> shown (world y) -> ok (start restart y).
Proof.
  intros Hy Hs. destruct (shell (world y)) as [h|] eqn:Eh.
  2:{ unfold start, restart. cbn. rewrite Eh. cbn. destruct y. exact Hy. }
  assert (Ht : token (world y) ∈ issued (world y)) by (apply started; [done|by rewrite Eh|apply Hy]).
  unfold restart. set (t := token (world y)) in *.
  match goal with |- ok (start (bind Script.get ?k) y) => change (start (bind Script.get k) y) with (start (k (world y)) y) end.
  cbv beta. rewrite Eh. fold t. apply (command_ok _ t); [done|done|].
  apply safer_do; [apply quiet_shell|]. apply safer_bind; [|intros r; apply safer_reported].
  apply safer_bind; [destruct (running h); [by apply safer_send|apply safer_ret]|]. intros r. apply safer_try. intros _.
  apply safer_bind; [by apply safer_send|]. intros r'. apply safer_try. intros _. apply safer_do; [apply quiet_shell|].
  apply safer_bind; [apply safer_refresh|]. intros r''. apply safer_try. intros _. apply safer_pin.
Qed.
Lemma later_ok d y : ok y -> let y' := apply (pass d) y in ok (if due (world y') then start lockAdmin y' else y').
Proof.
  intros [(Ht & Hh) Hf]. cbv zeta.
  assert (Hr : Forall (Script.ready fine later any_answer (world (apply (pass d) y))) (waiting (apply (pass d) y))).
  { eapply Forall_impl; [exact Hf|]. intros s. apply ready_later; [apply _|by intros t]. }
  assert (Hrest : at_rest (world (apply (pass d) y))) by apply (fine_rest (world y) (conj Ht Hh)).
  destruct (due (world (apply (pass d) y))) eqn:Ed; [by apply lock_ok|]. split; [|done]. split; [|done].
  unfold timed, due in *. cbn in *. destruct (token (world y)); [by rewrite Ht in *|].
  destruct Ht as (u & E & ?). rewrite E in *. exists u. split; [done|]. apply Z.leb_gt in Ed. lia.
Qed.
Lemma console_act_ok ev y : ok y -> shown (world y) -> ok (act ev y).
Proof.
  intros Hy Hs. destruct ev; cbn [act]; try done; try (by apply console_start_ok; [|apply choose_safe]);
    try (destruct (setup (world y)); [|done]; by apply quiet_ok); try (destruct (unlock (world y)); [|done]; by apply quiet_ok).
  - by apply console_start_ok; [|apply setup_safe].
  - by apply console_start_ok; [|apply unlock_safe].
  - destruct (shell (world y)); [|done]. by apply quiet_ok.
  - by apply toggle_ok.
  - by apply restart_ok.
  - by apply console_start_ok; [|apply refresh_safe].
  - destruct (shell (world y)); [|done]. apply lock_ok; [apply fine_rest, Hy|apply Hy|apply Hy].
  - destruct (truthy _); [|done]. by apply quiet_ok.
  - by apply later_ok.
  - apply resume_sound; [apply _|done|done].
Qed.
Lemma step_fine ev y : ok y -> shown (world y) -> ok (step ev y) /\ shown (world (step ev y)).
Proof.
  intros Hy Hs. split; [|apply mounted_shown]. apply quiet_ok; [apply quiet_mounted|].
  apply console_act_ok; [destruct (by_hand ev); [by apply touch_ok|done]|]. destruct (by_hand ev); [|done].
  unfold apply. cbn [world]. unfold touch. destruct (token (world y)) eqn:E; [exact Hs|]. intros _. cbn. by rewrite E.
Qed.
End ConsoleSteps.
Import ConsoleSteps.

(** *** Nobody at the window *)

Module IdleFacts.
(** Neither a press nor a key. *)
Definition unattended (ev : Event) : bool := match ev with Hide | Later _ | Answered _ _ => true | _ => false end.
Definition elapsed (es : list Event) : Z := foldr (fun ev n => match ev with Later d => Z.max 0 d | _ => 0 end + n) 0 es.

(** Unless a token is handed out the timer, and the token, stay. *)
Definition held_over (w w' : Console) : Prop :=
  now w' = now w /\ exists l, issued w' = l ++ issued w /\ (l = [] -> token w' = token w /\ idle w' = idle w).
#[export] Instance held_over_preorder : PreOrder held_over.
Proof.
  split; [intros w; split; [done|]; by exists []|]. intros w1 w2 w3 (E1 & l1 & F1 & H1) (E2 & l2 & F2 & H2).
  split; [by rewrite E2|]. exists (l2 ++ l1). rewrite F2, F1, app_assoc. split; [done|]. intros [-> ->]%app_nil.
  destruct (H2 eq_refl) as [-> ->]. by apply H1.
Qed.
Lemma held_quiet f : quiet f -> forall w, held_over w (f w).
Proof. intros Hf w. destruct (Hf w) as (E1 & E2 & E3 & E4 & E5). split; [done|]. exists []. by rewrite E1, E2, E5. Qed.
Lemma held_asking q w : held_over w (asking q w).
Proof. split; [done|]. by exists []. Qed.
Lemma held_unlock t w : held_over w (with_token t (issue t w)).
Proof.
  split; [unfold with_token; by case_bool_decide|]. exists [t]. rewrite issued_with. by split.
Qed.
(** What a script does once it has begun to wait. *)
Fixpoint steady {A} (s : Script A) : Prop :=
  match s with
  | Ret _ => True
  | Do f s => (forall w, held_over w (f w)) /\ steady s
  | Look k => forall w, steady (k w)
  | Ask q k => forall a, steady (k a)
  end.
Lemma steady_bind {A B} (s : Script A) (k : A -> Script B) : steady s -> (forall a, steady (k a)) -> steady (bind s k).
Proof. intros Hs Hk. induction s as [x|f s IH|l IH|q l IH]; cbn in *; [apply Hk|destruct Hs; auto|auto|auto]. Qed.
Lemma steady_send q : steady (send q).
Proof. split; [apply held_asking|done]. Qed.
Lemma steady_quiet {A} f (s : Script A) : quiet f -> steady s -> steady (Do f s).
Proof. intros Hf Hs. split; [by apply held_quiet|done]. Qed.
Lemma steady_update f : quiet f -> steady (Script.update f : Script unit).
Proof. intros Hf. by apply steady_quiet. Qed.
Lemma steady_advance {A} (s : Script A) w : steady s -> held_over w (fst (advance s w)) /\ steady (snd (advance s w)).
Proof.
  revert w. induction s as [x|f s IH|k IH|q k IH]; intros w Hs; cbn in *; [done| |by apply IH|done].
  destruct Hs as [Hf Hs]. destruct (IH (f w) Hs) as [H1 H2]. split; [|done]. by etransitivity; [apply Hf|].
Qed.
Create HintDb steady.
#[local] Hint Resolve steady_send steady_update steady_quiet quiet_setup quiet_unlock quiet_shell : steady.
#[local] Hint Extern 3 (steady (Ret _)) => done : steady.
Lemma refresh_steady : steady refreshPublic.
Proof. apply steady_bind; [auto with steady|]. intros [p|m]; [|done]. by apply steady_quiet. Qed.
Lemma reported_steady n r : steady (reported n r).
Proof. destruct r; [done|]. apply steady_update, quiet_shell. Qed.
Lemma try_steady {A} (r : outcome jstr A) k : (forall x, steady (k x)) -> steady (try_then r k).
Proof. intros Hk. destruct r; [apply Hk|done]. Qed.
Lemma pin_steady n t : steady (showPin n t).
Proof.
  apply steady_bind; [auto with steady|]. intros [[p|]|m]; try done. destruct (truthy p); [|done]. auto with steady.
Qed.
#[local] Hint Resolve refresh_steady reported_steady pin_steady : steady.
Lemma choose_steady : steady choose.
Proof.
  apply (steady_bind Script.get); [done|]. intros w. destruct (setup w); [|exact I]. apply (steady_bind (send ChooseFolder)); [auto with steady|]. intros [v|]; [apply steady_update, quiet_setup|done].
Qed.
Lemma setup_steady : steady submit_setup.
Proof.
  apply steady_bind.
  - apply (steady_bind Script.get); [done|]. intros w. destruct (setup w) as [x|]; [|exact I]. destruct (_ || _); [done|]. apply steady_quiet; [apply quiet_setup|].
    apply (steady_bind (send (SetupHost _ _ _ _))); [auto with steady|]. intros [r|m]; apply steady_quiet; try done; [|apply quiet_setup].
    apply (quiet_then (with_message _) (on_setup _ _)); [by intros v|apply quiet_setup].
  - intros []; [|done]. apply steady_bind; [apply refresh_steady|done].
Qed.
Lemma unlock_steady code : steady (submit_unlock code).
Proof.
  apply (steady_bind Script.get); [done|]. intros w. destruct (unlock w) as [x|]; [|exact I]. destruct (negb _); [done|]. apply steady_quiet; [apply quiet_unlock|].
  destruct (recovery x).
  - apply (steady_bind (send (UnlockWithRecovery _ _))); [auto with steady|]. intros [r|m]; apply steady_update; [|apply quiet_unlock].
    apply (quiet_then (with_message _) (on_unlock _ _)); [by intros v|apply quiet_unlock].
  - apply (steady_bind (send (UnlockAdmin _))); [auto with steady|]. intros [t|m]; [|auto with steady].
    split; [apply held_unlock|done].
Qed.
Lemma toggle_steady : steady toggle.
Proof.
  apply (steady_bind Script.get); [done|]. intros w. destruct (shell w) as [h|]; [|exact I]. apply steady_quiet; [apply quiet_shell|]. apply steady_bind; [|auto with steady].
  apply steady_bind; [destruct (running h); [apply (steady_send (StopServer _))|apply (steady_send (StartServer _))]|]. intros r. apply try_steady. intros _.
  apply steady_bind; [apply refresh_steady|]. intros r'. apply try_steady. intros _. apply steady_quiet; [apply quiet_shell|].
  destruct (running h); [done|apply pin_steady].
Qed.
Lemma restart_steady : steady restart.
Proof.
  apply (steady_bind Script.get); [done|]. intros w. destruct (shell w) as [h|]; [|exact I]. apply steady_quiet; [apply quiet_shell|]. apply steady_bind; [|auto with steady].
  apply steady_bind; [destruct (running h); [apply (steady_send (StopServer _))|exact I]|]. intros r. apply try_steady. intros _.
  apply (steady_bind (send (StartServer _))); [apply steady_send|]. intros r'. apply try_steady. intros _. apply steady_quiet; [apply quiet_shell|].
  apply steady_bind; [apply refresh_steady|]. intros r''. apply try_steady. intros _. apply pin_steady.
Qed.
Lemma refreshing_steady : steady refresh.
Proof.
  apply (steady_bind Script.get); [done|]. intros w. destruct (shell w) as [h|]; [|exact I]. destruct (refreshing h); [done|]. apply steady_quiet; [apply quiet_shell|].
  apply steady_bind; [apply refresh_steady|]. intros r. apply steady_bind; [apply reported_steady|]. intros _. auto with steady.
Qed.

Definition still (y : System) : Prop := Forall (fun s => steady s) (waiting y).
Lemma start_still s y : steady s -> still y -> held_over (world y) (world (start s y)) /\ still (start s y).
Proof.
  intros Hs Hy. destruct (steady_advance s (world y) Hs) as [H1 H2]. unfold still, start.
  destruct (advance s (world y)) as [w s']. cbn in *. split; [done|].
  destruct s'; [done|by apply Forall_app_2; [|apply Forall_singleton]..].
Qed.
Lemma apply_still f y : still y -> still (apply f y).
Proof. done. Qed.
Lemma lock_still y : still y -> still (start lockAdmin y).
Proof.
  intros Hy. change (start lockAdmin y) with (start (_ <- send LockAdmin;; Ret tt) (mkSystem (locked (world y)) (waiting y))).
  apply start_still; [|done]. apply (steady_bind (send LockAdmin)); [apply steady_send|done].
Qed.
Lemma act_still ev y : still y -> still (act ev y).
Proof.
  intros Hy. assert (Hs : forall s, steady s -> still (start s y)) by (intros s Hs; by apply start_still).
  destruct ev; cbn [act]; try done; try (by destruct (setup (world y))); try (by destruct (unlock (world y))); try (by destruct (shell (world y))).
  - apply Hs, choose_steady.
  - apply Hs, setup_steady.
  - apply Hs, unlock_steady.
  - apply Hs, toggle_steady.
  - apply Hs, restart_steady.
  - apply Hs, refreshing_steady.
  - destruct (shell (world y)); [by apply lock_still|done].
  - by destruct (truthy _).
  - destruct (due _); [by apply lock_still|done].
  - unfold resume. destruct (waiting y !! i) as [[x|f s|k|q k]|] eqn:Ei; try done.
    apply (start_still _ (mkSystem (world y) (delete i (waiting y)))); [|by apply Forall_delete].
    exact (proj1 (Forall_forall _ _) Hy _ (list_elem_of_lookup_2 _ _ _ Ei) (o q)).
Qed.
Lemma step_still ev y : still y -> still (step ev y).
Proof. intros Hy. apply apply_still, act_still. by destruct (by_hand ev). Qed.

(** What happens to the token while nobody presses anything and none is handed out. *)
Definition kept_or_gone (es : list Event) (w w' : Console) : Prop :=
  now w' = now w + elapsed es /\
  exists l, issued w' = l ++ issued w /\ (l = [] -> token w' = [] \/ token w' = token w /\ idle w' = idle w).
Lemma held_kept w w' : held_over w w' -> kept_or_gone [] w w'.
Proof. intros (E & l & El & Hl). split; [cbn; lia|]. exists l. split; [done|]. intros H. right. by apply Hl. Qed.
Lemma kept_trans es1 es2 w1 w2 w3 : kept_or_gone es1 w1 w2 -> kept_or_gone es2 w2 w3 -> kept_or_gone (es1 ++ es2) w1 w3.
Proof.
  intros (E1 & l1 & F1 & H1) (E2 & l2 & F2 & H2). split.
  - rewrite E2, E1. unfold elapsed. rewrite foldr_app. clear. induction es1 as [|[] es IH]; cbn in *; lia.
  - exists (l2 ++ l1). rewrite F2, F1, app_assoc. split; [done|]. intros [-> ->]%app_nil.
    destruct (H2 eq_refl) as [?|[-> ->]]; [by left|]. by apply H1.
Qed.
Lemma unattended_step ev y : still y -> unattended ev = true -> kept_or_gone [ev] (world y) (world (step ev y)).
Proof.
  intros Hy Hu. assert (Hm : forall y', kept_or_gone [ev] (world y) (world y') -> kept_or_gone [ev] (world y) (world (apply mounted y'))).
  { intros y' H. apply (kept_trans [ev] [] _ _ _ H), held_kept, held_quiet, quiet_mounted. }
  unfold step. replace (by_hand ev) with false by (by destruct ev). apply Hm. clear Hm.
  destruct ev; try done; cbn [act].
  - assert (H : held_over (world y) (with_message [] (world y))) by (split; [done|]; by exists []).
    destruct (truthy _); (split; [cbn; lia|]; exists []; split; [done|]; by right).
  - destruct (due _).
    + split; [cbn; unfold with_token; case_bool_decide; cbn; lia|]. exists [].
      cbn. rewrite issued_with. split; [done|]. left. by rewrite token_with.
    + split; [cbn; lia|]. exists []. split; [done|]. by right.
  - unfold resume. destruct (waiting y !! i) as [[x|f s|k|q k]|] eqn:Ei; try by apply held_kept.
    apply held_kept. apply (start_still _ (mkSystem (world y) (delete i (waiting y)))); [|by apply Forall_delete].
    exact (proj1 (Forall_forall _ _) Hy _ (list_elem_of_lookup_2 _ _ _ Ei) (o q)).
Qed.
Lemma unattended_run es y : still y -> forallb unattended es = true -> kept_or_gone es (world y) (world (run es y)).
Proof.
  revert y. induction es as [|ev es IH]; intros y Hy H.
  - by apply held_kept.
  - cbn in H. apply andb_true_iff in H as [Hev Hes]. cbn [run fold_left]. apply (kept_trans [ev] es _ (world (step ev y))).
    + by apply unattended_step.
    + apply IH; [by apply step_still|done].
Qed.
Lemma run_still es y : still y -> still (run es y).
Proof. revert y. induction es as [|ev es IH]; intros y Hy; [done|]. cbn. by apply IH, step_still. Qed.
Lemma opened_still t : still (opened t).
Proof. apply start_still; [apply (steady_bind refreshPublic); [apply refresh_steady|done]|constructor]. Qed.
End IdleFacts.
Import IdleFacts.

Lemma console_run_fine t es : sound fine later any_answer (run es (opened t)).
Proof.
  assert (H : forall es y, sound fine later any_answer y -> shown (world y) -> sound fine later any_answer (run es y)).
  { clear es. intros es. induction es as [|ev es IH]; intros y Hy Hs; [done|]. cbn [run fold_left]. apply IH; by apply step_fine. }
  apply H; [|by intros Hn; destruct Hn]. apply console_start_ok; [split; [split; [done|split; [constructor|by left]]|constructor]|].
  apply safely_bind; [apply safely_refresh|]. intros ?. apply safely_ret.
Qed.

(** ** Claims *)

(** C6. The administration is guarded, whatever was pressed and answered before:
    once neither a button nor a key has been pressed for fifteen minutes in all,
    whatever is answered meanwhile, it is locked, unless it was unlocked in that
    time; and every command that was ever sent for the server carried a token
    that the Host had handed out. *)
Theorem administration_guarded t es idle_es
    (Hu : forallb (fun ev => match ev with Hide | Later _ | Answered _ _ => true | _ => false end) idle_es = true)
    (Ht : 15 * 60 * 1000 <= foldr (fun ev n => match ev with Later d => Z.max 0 d | _ => 0 end + n) 0 idle_es) :
  let before := world (run es (opened t)) in
  let after := world (run (es ++ idle_es) (opened t)) in
  (issued after = issued before -> token after = []) /\
  Forall (fun q => match q with StopServer t | StartServer t | CurrentPin t => t ∈ issued after | _ => True end) (asked after).
Proof.
  cbv zeta. destruct (console_run_fine t (es ++ idle_es)) as [(Hf & Ha & _) _]. split; [|exact Ha]. intros Hi.
  destruct (console_run_fine t es) as [(Hb & _) _].
  destruct (unattended_run idle_es (run es (opened t))) as (E & l & El & Hl); [apply run_still, opened_still|exact Hu|].
  assert (Er : run idle_es (run es (opened t)) = run (es ++ idle_es) (opened t)) by (unfold run; by rewrite fold_left_app).
  rewrite Er in E, El, Hl.
  destruct (Hl ltac:(rewrite Hi in El; by apply (f_equal length) in El; rewrite length_app in El; destruct l; [done|cbn in El; lia]))
    as [?|[E1 E2]]; [done|]. unfold timed in Hf, Hb. rewrite E1 in Hf |- *.
  destruct (token (world (run es (opened t)))) as [|c tok]; [done|]. exfalso.
  destruct Hb as (u & Eb & Hb). destruct Hf as (u' & Ef & Hf). rewrite E2, Eb in Ef. injection Ef as <-.
  unfold elapsed in E. unfold IDLE in Hb. lia.
Qed.

Module ServerFacts.
(** A failure stops the command: the text is shown, and whether the server is
    said to run is as it was left. *)
Definition shows (w : Console) (b : bool) (m : jstr) : Prop := exists h, shell w = Some h /\ running h = b /\ h_error h = m.
Lemma on_shell_at n f w h : shell w = Some h -> h_no h = n -> on_shell n f w = with_shell (Some (f h)) w.
Proof. intros E <-. unfold on_shell. by rewrite E, Nat.eqb_refl. Qed.
(** What [showPin] leaves. *)
Definition pin_shown (r : outcome jstr (option jstr)) : jstr :=
  match r with Ok (Some p) => if truthy p then pin_message p else [] | Ok None => [] | Throw m => m end.
Lemma finish_pin env k n t w h : shell w = Some h -> h_no h = n -> h_error h = [] ->
  let w' := snd (finish (r <- showPin n t;; reported n r) env k w) in
  shows w' (running h) (pin_shown (env k (CurrentPin t))) /\ asked w' = asked w ++ [CurrentPin t].
Proof.
  intros Eh En Ee. unfold showPin. cbn [send bind finish Script.ask].
  destruct (env k (CurrentPin t)) as [[p|]|m]; cbn [bind pin_shown]; [destruct (truthy p)| |]; cbn [bind finish reported Script.update snd];
    rewrite ?(on_shell_at n _ (asking _ w) h) by done; (split; [|done]); by eexists.
Qed.
End ServerFacts.
Import ServerFacts.

(** Restarting the server, on every branch.  What the page says of the server is
    what it said before until [start_server] has succeeded: when the server has
    been stopped and cannot be started, the page goes on saying that it runs. *)
Theorem restart_outcome env n w h (Hh : shell w = Some h) :
  let w' := snd (finish restart env n w) in
  let t := token w in
  let stop := if running h then [StopServer t] else [] in
  let k := (n + length stop)%nat in
  match (if running h then env n (StopServer t) else Ok tt : outcome jstr unit) with
  | Throw m => shows w' (running h) m /\ asked w' = asked w ++ stop
  | Ok _ =>
    match env k (StartServer t) with
    | Throw m => shows w' (running h) m /\ asked w' = asked w ++ stop ++ [StartServer t]
    | Ok _ =>
      match env (S k) PublicStateQuery with
      | Throw m => shows w' true m /\ asked w' = asked w ++ stop ++ [StartServer t; PublicStateQuery]
      | Ok p => shows w' true (pin_shown (env (S (S k)) (CurrentPin t))) /\
                asked w' = asked w ++ stop ++ [StartServer t; PublicStateQuery; CurrentPin t]
      end
    end
  end.
Proof.
  intros w' t stop k. unfold w', restart. clear w'. cbn [bind finish Script.get]. rewrite Hh. fold t. cbn [bind finish].
  rewrite (on_shell_at _ _ w h) by done. set (h0 := shell_says [] h). set (w0 := with_shell (Some h0) w).
  assert (E0 : shell w0 = Some h0) by done.
  (* From the request to start on. *)
  assert (Hrest : forall k v, shell v = Some h0 -> asked v = asked w ++ stop ->
    let v' := snd (finish (r <- (r <- send (StartServer t);; try_then r (fun _ => Do (on_shell (h_no h) (set_running true))
      (r <- refreshPublic;; try_then r (fun _ => showPin (h_no h) t))));; reported (h_no h) r) env k v) in
    match env k (StartServer t) with
    | Throw m => shows v' (running h) m /\ asked v' = asked w ++ stop ++ [StartServer t]
    | Ok _ =>
      match env (S k) PublicStateQuery with
      | Throw m => shows v' true m /\ asked v' = asked w ++ stop ++ [StartServer t; PublicStateQuery]
      | Ok p => shows v' true (pin_shown (env (S (S k)) (CurrentPin t))) /\
                asked v' = asked w ++ stop ++ [StartServer t; PublicStateQuery; CurrentPin t]
      end
    end).
  { clear k. intros k v Ev Ea. cbn [send bind finish Script.ask]. destruct (env k (StartServer t)) as [[]|m]; cbn [bind try_then].
    2:{ cbn [bind finish reported Script.update snd]. rewrite (on_shell_at _ _ (asking _ v) h0) by done. split; [by eexists|].
        cbn. by rewrite Ea, <- app_assoc. }
    cbn [bind finish]. rewrite (on_shell_at _ _ (asking _ v) h0) by done. unfold refreshPublic. cbn [send bind finish Script.ask].
    destruct (env (S k) PublicStateQuery) as [p|m]; cbn [bind try_then finish].
    2:{ cbn [reported Script.update finish snd]. erewrite on_shell_at by reflexivity. split; [by eexists|]. cbn. by rewrite Ea, <- !app_assoc. }
    match goal with |- context [finish _ env (S (S k)) ?x] => destruct (finish_pin env (S (S k)) (h_no h) t x (set_running true h0)) as [H1 H2] end; [done..|].
    split; [exact H1|]. rewrite H2. cbn. by rewrite Ea, <- !app_assoc. }
  unfold k, stop in *. destruct (running h) eqn:Er.
  - cbn [send bind finish Script.ask length]. destruct (env n (StopServer t)) as [[]|m]; cbn [bind try_then].
    + specialize (Hrest (n + 1)%nat (asking (StopServer t) w0) E0 eq_refl). replace (S n) with (n + 1)%nat by lia. exact Hrest.
    + cbn [bind finish reported Script.update snd]. rewrite (on_shell_at _ _ (asking _ w0) h0) by done. split; [|done].
      eexists. split_and!; [done| |done]. exact Er.
  - cbn [bind try_then length]. replace (n + 0)%nat with n by lia. apply (Hrest n w0 E0). by rewrite app_nil_r.
Qed.

(** ** Runs *)

Module ConsoleRuns.
Definition school_state (on : bool) : PublicState := mkPublic true None on (Some (js "Hill School")) (Some (js "/data")) (Some 7373).
Definition new_state : PublicState := mkPublic false None false None None None.
(** A Host in the state [p] that hands out [t1] and grants everything. *)
Definition host (p : PublicState) : forall q, answer q := fun q =>
  match q with
  | PublicStateQuery => Ok p
  | ChooseFolder => Some (js "/data")
  | SetupHost _ _ _ _ | UnlockWithRecovery _ _ => Ok (mkResult (js "rec") (Some (js "12345678")))
  | UnlockAdmin _ => Ok (js "t1")
  | CurrentPin _ => Ok None
  | LockAdmin | StopServer _ | StartServer _ => Ok tt
  end.
Definition away : forall q, answer q := fun q =>
  match q with
  | ChooseFolder => None
  | PublicStateQuery => Throw (js "Port in use") | SetupHost _ _ _ _ => Throw (js "Port in use")
  | UnlockWithRecovery _ _ => Throw (js "Port in use") | UnlockAdmin _ => Throw (js "Port in use")
  | CurrentPin _ => Throw (js "Port in use") | LockAdmin | StopServer _ | StartServer _ => Throw (js "Port in use")
  end.
Definition go (es : list Event) : Console := world (run es (opened 0)).
Definition unlocked (on : bool) : list Event :=
  [Answered 0 (host (school_state on)); TypeUnlock (js "password"); SubmitUnlock None; Answered 0 (host (school_state on))].

Lemma administration_guarded_witness :
  token (go (unlocked true)) = js "t1" /\ token (go (unlocked true ++ [Later 899999])) = js "t1" /\
  token (go (unlocked true ++ [Later 600000; Hide; Later 300000])) = [].
Proof.
  split; [vm_compute; reflexivity|]. split; [vm_compute; reflexivity|].
  apply (administration_guarded 0 (unlocked true) [Later 600000; Hide; Later 300000]); [reflexivity|vm_compute; discriminate|vm_compute; reflexivity].
Defined.
Lemma restart_outcome_witness :
  let w := snd (finish restart (fun _ => host (school_state false)) 0 (go (unlocked false))) in
  shows w true [] /\ asked w = asked (go (unlocked false)) ++ [StartServer (js "t1"); PublicStateQuery; CurrentPin (js "t1")].
Proof. exact (restart_outcome (fun _ => host (school_state false)) 0 (go (unlocked false)) (mkShell 1 false [] 0 false) eq_refl). Defined.

(** Fifteen minutes without a touch lock the console; a key in between puts it
    off. *)
Example locked_when_idle :
  screen (go (unlocked true ++ [Later 600000; Touch; Later 600000])) = ShellScreen /\
  screen (go (unlocked true ++ [Later 600000; Later 600000])) = UnlockScreen.
Proof. vm_compute. done. Qed.

(** A restart whose second half fails leaves the page saying that the server
    runs. *)
Example restart_failure_shows_running :
  let w := go (unlocked true ++ [Restart; Answered 0 (host (school_state false)); Answered 0 away]) in
  (running <$> shell w) = Some true /\ (h_error <$> shell w) = Some (js "Port in use").
Proof. vm_compute. done. Qed.

(** A server that was started is said to be stopped when reading the state
    afterwards fails. *)
Example start_shown_as_stopped :
  let w := go (unlocked false ++ [Toggle; Answered 0 (host (school_state true)); Answered 0 away]) in
  (running <$> shell w) = Some false.
Proof. vm_compute. done. Qed.

(** Whether the server runs is read once: a refresh that finds it stopped goes
    on saying that it runs, and its button stops what is stopped. *)
Example refresh_keeps_running :
  let w := go (unlocked true ++ [Refresh; Answered 0 (host (school_state false)); Toggle]) in
  (p_running <$> public w) = Some false /\ (running <$> shell w) = Some true /\ last (asked w) = Some (StopServer (js "t1")).
Proof. vm_compute. done. Qed.

(** Locking during a restart ends it half-way: the second command carries the
    token that is no longer good. *)
Example lock_interrupts_restart :
  let w := go (unlocked true ++ [Restart; Lock; Answered 0 (host (school_state false))]) in
  drop 2 (asked w) = [StopServer (js "t1"); LockAdmin; StartServer (js "t1")] /\ token w = [].
Proof. vm_compute. done. Qed.

(** The folder is marked as required, but a browser does not check a field that
    cannot be edited. *)
Example folder_not_required :
  last (asked (go [Answered 0 (host new_state); TypeSchool (js "Hill School"); TypePassword (js "password"); SubmitSetup])) =
  Some (SetupHost [] (js "Hill School") (js "password") (num 7373)).
Proof. vm_compute. done. Qed.

(** The recovery code is not on the page when the state cannot be read after the
    Host was set up. *)
Example setup_code_hidden :
  let w := go [Answered 0 (host new_state); TypeSchool (js "Hill School"); TypePassword (js "password"); Choose; Answered 0 (host new_state);
               SubmitSetup; Answered 0 (host new_state); Answered 0 away] in
  message w = setup_message (mkResult (js "rec") (Some (js "12345678"))) /\ screen w = SetupScreen /\ visible_message w = [].
Proof. vm_compute. done. Qed.

(** A prompt for the recovery code that is cancelled counts as an empty code. *)
Example cancelled_prompt_sends :
  last (asked (go [Answered 0 (host (school_state false)); UseRecovery; TypeUnlock (js "password"); SubmitUnlock None])) =
  Some (UnlockWithRecovery [] (js "password")).
Proof. vm_compute. done. Qed.
End ConsoleRuns.
