(* ===== verification/HostPages.v ===== *)
(** * The pages of the Host ([DashboardPage], [People], [Files], [Backup],
    [AiCard], [Settings] and [AuditLog] of [apps/host/src/App.tsx] and
    [AutoBackupCard] of [apps/host/src/AutoBackup.tsx])

    One page is shown at a time; opening a tab, or refreshing, begins the page
    anew under the next number, and an answer to a request of an earlier page
    changes nothing that is shown.  What was typed into a prompt or answered to
    a confirmation is part of the press, because the browser stands still for
    it; the pickers of files and folders are requests.  Every request carries
    the token of the shell.  [asked] lists what was sent beside the press it was
    sent for and whether the server was said to run then; nothing reads it.
    [alive] are the object URLs not yet revoked. *)

From Stdlib Require Import QArith.
From stdpp Require Import list.
From S2P Require Import Prelude Script JsString JsNumber.
From S2P Require HostConsole.
Local Open Scope Z_scope.
Local Open Scope script_scope.

Abbreviation PublicState := HostConsole.PublicState.

(** ** Data *)

Record Dashboard := mkDashboard {
  d_running : bool; d_school_name : jstr; lan_url : jstr; security_code : option jstr; d_data_dir : jstr;
  database_bytes : Z; files_bytes : Z; d_teachers : Z; d_students : Z; d_classrooms : Z; d_files : Z; trashed_files : Z;
  missing_blobs : Z; orphaned_blobs : Z; duplicate_references : Z; last_backup : option jstr; d_bootstrap_pin : option jstr
}.
Record Person := mkPerson {
  p_id : jstr; p_username : jstr; p_name : jstr; p_role : jstr; disabled_at : option jstr; last_login : option jstr; p_classrooms : jstr
}.
Record StoredFile := mkFile {
  node_id : jstr; f_name : jstr; original_name : jstr; mime : jstr; bytes : Z; sha256 : jstr; owner : option jstr;
  f_classroom : option jstr; f_created_at : jstr; references : Z; trashed_at : option jstr; missing : bool
}.
Record AuditEntry := mkAudit { a_id : Z; action : jstr; detail : jstr; target_id : option jstr; a_created_at : jstr }.
Record AiSettings := mkAi {
  base_url : option jstr; model : jstr; has_key : bool; reachable : bool; has_google_key : bool; google_model : jstr
}.
Record GoogleModel := mkModel { model_id : jstr; model_name : jstr; description : jstr }.
Record AiUsage := mkUsage {
  requests : Z; input_tokens : Z; output_tokens : Z; lifetime_requests : Z; lifetime_input_tokens : Z; lifetime_output_tokens : Z;
  monthly_token_limit : option Z
}.
Record AutoBackupStatus := mkAuto { auto_folder : option jstr; auto_keep : Z; auto_last : option jstr; last_error : option jstr; auto_ready : bool }.
(** What is sent; a field that is [None] is left out. *)
Record AiRequest := mkAiRequest {
  r_base_url : option jstr; r_model : jstr; r_api_key : option jstr; r_google_key : option jstr; r_google_model : jstr
}.
Record Credentials := mkCredentials { temporary_password : jstr; c_recovery_code : jstr }.

(** ** Pages *)

Record People := mkPeople { people : list Person; p_search : jstr; role : jstr; p_message : jstr }.
Record Preview := mkPreview { url : nat; v_mime : jstr; v_name : jstr }.
Record Files := mkFiles { files : list StoredFile; f_search : jstr; trash : bool; f_message : jstr; preview : option Preview }.
Inductive AiField := BaseUrl | ModelField | ApiKey | GoogleKey | GoogleModelField | Limit.
#[export] Instance AiField_eq : EqDecision AiField. Proof. solve_decision. Defined.
Record AiCard := mkAiCard {
  ai_settings : option AiSettings; usage : option AiUsage; ai_text : AiField -> jstr; models : list GoogleModel;
  ai_message : jstr; ai_busy : bool
}.
Record AutoCard := mkAutoCard { status : option AutoBackupStatus; keep : Z; auto_message : jstr }.
Record SettingsForm := mkSettings { school : jstr; s_port : jsnum; s_message : jstr }.
Inductive Page :=
  | DashboardPage (data : option Dashboard) (error : jstr)
  | PeoplePage (p : People)
  | FilesPage (f : Files)
  | BackupPage (message : jstr) (a : AutoCard)
  | SettingsPage (s : SettingsForm) (a : AiCard) (entries : list AuditEntry).

(** ** Presses and requests *)

Inductive Press :=
  | ReloadDashboard
  | SearchPeople (v : jstr) | ChooseRole (v : jstr)
  | EditPerson (i : nat) (name username : option jstr)
  | ResetAccess (i : nat) (sure : bool) (password : option jstr)
  | DisablePerson (i : nat) (replacement : option jstr)
  | SearchFiles (v : jstr) | TrashOnly (b : bool)
  | ViewFile (i : nat) | DownloadFile (i : nat) | RenameFile (i : nat) (name : option jstr) | MoveFile (i : nat)
  | EmptyTrash (password : option jstr) | ClosePreview
  | BackUp | Restore (password : option jstr) (sure : bool) (other : option jstr)
  | TypeKeep (k : Z) | ChooseFolder | SaveKept | TurnOff
  | TypeAi (f : AiField) (v : jstr) | SaveAi | SaveLimit | LoadModels
  | TypeSchool (v : jstr) | TypePort (v : jstr) | SaveSettings | ResetSchool (typed password : option jstr).
Inductive Query :=
  | ReadDashboard
  | ListPeople (search : jstr) (role : option jstr)
  | UpdatePerson (id username display_name : jstr)
  | ResetPerson (id password : jstr)
  | SetPersonDisabled (id : jstr) (disabled : bool) (transferTo : option jstr)
  | ListFiles (search : jstr) (trashed : bool)
  | ReadFile (id : jstr)
  | PickDestination (name : jstr)
  | ExportFile (id destination : jstr)
  | RenameTo (id name : jstr)
  | TrashFile (id : jstr) (restore : bool)
  | EmptyTrashNow (password : jstr)
  | PickBackupFolder
  | BackupSchool (destination : jstr)
  | PickBackup
  | RestoreSchool (password backup : jstr) (backupPassword : option jstr)
  | ReadAutoBackup
  | PickAutoFolder
  | SaveAutoBackup (folder : option jstr) (keep : Z)
  | ReadAi
  | SaveAiSettings (r : AiRequest)
  | SaveAiLimit (limit : option jsnum)
  | ReadModels
  | SaveSchool (name : jstr) (port : jsnum)
  | ResetSchoolNow (password typed : jstr)
  | ReadPublicState
  | ListAudit.
(** A failure is its text.  [ReadAi] is both requests of [load], which fail as
    one. *)
Definition answer (q : Query) : Type :=
  match q with
  | ReadDashboard => outcome jstr Dashboard
  | ListPeople _ _ => outcome jstr (list Person)
  | ResetPerson _ _ => outcome jstr Credentials
  | ListFiles _ _ => outcome jstr (list StoredFile)
  | PickDestination _ | PickBackupFolder | PickBackup | PickAutoFolder => option jstr
  | EmptyTrashNow _ => outcome jstr Z
  | BackupSchool _ | RestoreSchool _ _ _ => outcome jstr jstr
  | ReadAutoBackup | SaveAutoBackup _ _ => outcome jstr AutoBackupStatus
  | ReadAi => outcome jstr (AiSettings * AiUsage)
  | SaveAiSettings _ => outcome jstr AiSettings
  | SaveAiLimit _ => outcome jstr AiUsage
  | ReadModels => outcome jstr (list GoogleModel)
  | ResetSchoolNow _ _ => outcome jstr HostConsole.SetupResult
  | ReadPublicState => outcome jstr PublicState
  | ListAudit => outcome jstr (list AuditEntry)
  | UpdatePerson _ _ _ | SetPersonDisabled _ _ _ | ReadFile _ | ExportFile _ _ | RenameTo _ _ | TrashFile _ _ | SaveSchool _ _ => outcome jstr unit
  end.
(** The press a request is sent for, [None] when the page itself asks. *)
Definition Cause : Type := option (Press * bool).
Record Host := mkHost {
  no : nat; page : Page; running : bool; public : option PublicState; alive : list nat; next_url : nat; asked : list (Query * Cause)
}.
Local Abbreviation Script := (Script Host answer).
Local Abbreviation System := (System Host answer).

Definition with_page (p : Page) (w : Host) : Host := mkHost (no w) p (running w) (public w) (alive w) (next_url w) (asked w).
Definition with_running (b : bool) (w : Host) : Host := mkHost (no w) (page w) b (public w) (alive w) (next_url w) (asked w).
Definition with_public (p : PublicState) (w : Host) : Host := mkHost (no w) (page w) (running w) (Some p) (alive w) (next_url w) (asked w).
Definition with_alive (l : list nat) (w : Host) : Host := mkHost (no w) (page w) (running w) (public w) l (next_url w) (asked w).
Definition making_url (w : Host) : Host :=
  mkHost (no w) (page w) (running w) (public w) (next_url w :: alive w) (S (next_url w)) (asked w).
Definition next_page (p : Page) (w : Host) : Host := mkHost (S (no w)) p (running w) (public w) (alive w) (next_url w) (asked w).
Definition asking (q : Query) (o : Cause) (w : Host) : Host :=
  mkHost (no w) (page w) (running w) (public w) (alive w) (next_url w) (asked w ++ [(q, o)]).
Definition send (q : Query) (o : Cause) : Script (answer q) := Do (asking q o) (Script.ask q).

(** Changes of the page numbered [n], if it is still the one shown. *)
Definition on_page (n : nat) (f : Page -> Page) (w : Host) : Host := if Nat.eqb (no w) n then with_page (f (page w)) w else w.
Definition on_people (n : nat) (f : People -> People) : Host -> Host := on_page n (fun p => match p with PeoplePage x => PeoplePage (f x) | _ => p end).
Definition on_files (n : nat) (f : Files -> Files) : Host -> Host := on_page n (fun p => match p with FilesPage x => FilesPage (f x) | _ => p end).
Definition on_backup (n : nat) (m : jstr) : Host -> Host := on_page n (fun p => match p with BackupPage _ a => BackupPage m a | _ => p end).
Definition on_auto (n : nat) (f : AutoCard -> AutoCard) : Host -> Host := on_page n (fun p => match p with BackupPage m a => BackupPage m (f a) | _ => p end).
Definition on_ai (n : nat) (f : AiCard -> AiCard) : Host -> Host :=
  on_page n (fun p => match p with SettingsPage s a l => SettingsPage s (f a) l | _ => p end).
Definition on_settings (n : nat) (f : SettingsForm -> SettingsForm) : Host -> Host :=
  on_page n (fun p => match p with SettingsPage s a l => SettingsPage (f s) a l | _ => p end).
Definition typed (t : option jstr) : option jstr := match t with Some (_ :: _) => t | _ => None end.

(** ** What is shown *)

(** [(value / unit).toFixed(1)]; the unit is a power of two, so the quotient is
    exact. *)
Definition to_fixed_1 (value unit : Z) : jstr :=
  let t := (20 * value + unit) / (2 * unit) in show_Z (t / 10) ++ js "." ++ show_Z (t mod 10).
Definition formatBytes (value : Z) : jstr :=
  if value <? 1024 then show_Z value ++ js " B"
  else if value <? 1048576 then to_fixed_1 value 1024 ++ js " KB"
  else if value <? 1073741824 then to_fixed_1 value 1048576 ++ js " MB"
  else to_fixed_1 value 1073741824 ++ js " GB".
Definition warnings (d : Dashboard) : list jstr :=
  (if missing_blobs d =? 0 then [] else [show_Z (missing_blobs d) ++ js " stored files are missing"]) ++
  (if orphaned_blobs d =? 0 then [] else [show_Z (orphaned_blobs d) ++ js " unreferenced files are on disk"]).
(** The banner says whether the server runs by what the shell says. *)
Definition banner (running : bool) : jstr := if running then js "Running on the school network" else js "The server is stopped".
Inductive Allowance := Unlimited | Enough | Low | Spent.
(** [used / limit] compared with 1 and .8, which a double decides as the exact
    quotient does for limits below 2^50. *)
Definition allowance (used : Z) (limit : option Z) : Allowance :=
  match limit with
  | None => Unlimited
  | Some l => if l =? 0 then Unlimited else if l <=? used then Spent else if 4 * l <=? 5 * used then Low else Enough
  end.

(** ** The dashboard *)

Definition load_dashboard (n : nat) (o : Cause) : Script unit :=
  r <- send ReadDashboard o;;
  Script.update (on_page n (fun p => match p, r with
                                     | DashboardPage _ e, Ok d => DashboardPage (Some d) e
                                     | DashboardPage d _, Throw m => DashboardPage d m
                                     | _, _ => p end)).

(** ** People *)

Definition set_people (l : list Person) (p : People) : People := mkPeople l (p_search p) (role p) (p_message p).
Definition people_says (m : jstr) (p : People) : People := mkPeople (people p) (p_search p) (role p) m.
Definition role_filter (r : jstr) : option jstr := if truthy r then Some r else None.
(** [load] of the render with this search and role. *)
Definition load_people (n : nat) (search role : jstr) (o : Cause) : Script unit :=
  r <- send (ListPeople search (role_filter role)) o;;
  Script.update (on_people n (match r with Ok l => set_people l | Throw m => people_says m end)).
Definition edit (n : nat) (x : People) (p : Person) (name username : option jstr) (o : Cause) : Script unit :=
  match typed name, typed username with
  | Some displayName, Some username =>
    r <- send (UpdatePerson (p_id p) username displayName) o;;
    match r with
    | Ok _ => load_people n (p_search x) (role x) o
    | Throw m => Script.update (on_people n (people_says m))
    end
  | _, _ => Ret tt
  end.
Definition credentials_message (r : Credentials) : jstr :=
  js "Temporary password: " ++ temporary_password r ++ c_nl :: js "Recovery code: " ++ c_recovery_code r.
Definition credentials (n : nat) (p : Person) (sure : bool) (password : option jstr) (o : Cause) : Script unit :=
  if negb sure then Ret tt else
  match typed password with
  | Some adminPassword =>
    r <- send (ResetPerson (p_id p) adminPassword) o;;
    Script.update (on_people n (people_says (match r with Ok c => credentials_message c | Throw m => m end)))
  | None => Ret tt
  end.
Definition enabled (p : Person) : bool := negb (truthy (default [] (disabled_at p))).
Definition is_teacher (p : Person) : bool := seqb (p_role p) (js "teacher").
(** The teachers who can take the classrooms over. *)
Definition replacements (l : list Person) (p : Person) : list Person :=
  List.filter (fun x => is_teacher x && enabled x && negb (seqb (p_id x) (p_id p))) l.
Definition asks_replacement (l : list Person) (p : Person) : bool :=
  is_teacher p && enabled p && match replacements l p with [] => false | _ => true end.
Definition disable (n : nat) (x : People) (p : Person) (replacement : option jstr) (o : Cause) : Script unit :=
  let transferTo := if asks_replacement (people x) p then replacement else None in
  r <- send (SetPersonDisabled (p_id p) (enabled p) transferTo) o;;
  match r with
  | Ok _ => load_people n (p_search x) (role x) o
  | Throw m => Script.update (on_people n (people_says m))
  end.

(** ** Stored files *)

Definition set_files (l : list StoredFile) (f : Files) : Files := mkFiles l (f_search f) (trash f) (f_message f) (preview f).
Definition files_say (m : jstr) (f : Files) : Files := mkFiles (files f) (f_search f) (trash f) m (preview f).
Definition set_preview (v : option Preview) (f : Files) : Files := mkFiles (files f) (f_search f) (trash f) (f_message f) v.
Definition load_files (n : nat) (search : jstr) (trash : bool) (o : Cause) : Script unit :=
  r <- send (ListFiles search trash) o;;
  Script.update (on_files n (match r with Ok l => set_files l | Throw m => files_say m end)).
(** The URL of the preview, which the cleanup of its effect revokes. *)
Definition shown_url (w : Host) : option nat := match page w with FilesPage f => url <$> preview f | _ => None end.
Definition revoke (w : Host) : Host :=
  with_alive (match shown_url w with Some u => List.filter (fun x => negb (Nat.eqb x u)) (alive w) | None => alive w end) w.
Definition new_preview (n : nat) (v : option Preview) (w : Host) : Host :=
  match page w with
  | FilesPage f => if Nat.eqb (no w) n then with_page (FilesPage (set_preview v f)) (revoke w) else w
  | _ => w
  end.
Definition view (n : nat) (f : StoredFile) (o : Cause) : Script unit :=
  r <- send (ReadFile (node_id f)) o;;
  match r with
  | Ok _ => Script.update (fun w => new_preview n (Some (mkPreview (next_url w) (mime f) (original_name f))) (making_url w))
  | Throw m => Script.update (on_files n (files_say m))
  end.
Definition download (n : nat) (f : StoredFile) (o : Cause) : Script unit :=
  d <- send (PickDestination (original_name f)) o;;
  match typed d with
  | Some destination =>
    r <- send (ExportFile (node_id f) destination) o;;
    Script.update (on_files n (files_say (match r with Ok _ => js "Saved " ++ original_name f | Throw m => m end)))
  | None => Ret tt
  end.
Definition rename (n : nat) (x : Files) (f : StoredFile) (name : option jstr) (o : Cause) : Script unit :=
  match typed name with
  | Some name =>
    r <- send (RenameTo (node_id f) name) o;;
    match r with
    | Ok _ => load_files n (f_search x) (trash x) o
    | Throw m => Script.update (on_files n (files_say m))
    end
  | None => Ret tt
  end.
(** Nothing catches a failure. *)
Definition move (n : nat) (x : Files) (f : StoredFile) (o : Cause) : Script unit :=
  r <- send (TrashFile (node_id f) (truthy (default [] (trashed_at f)))) o;;
  match r with Ok _ => load_files n (f_search x) (trash x) o | Throw _ => Ret tt end.
Definition emptied_message (count : Z) : jstr := show_Z count ++ js " file records permanently removed.".
Definition empty (n : nat) (x : Files) (password : option jstr) (o : Cause) : Script unit :=
  match typed password with
  | Some password =>
    r <- send (EmptyTrashNow password) o;;
    match r with
    | Ok count => Do (on_files n (files_say (emptied_message count))) (load_files n (f_search x) (trash x) o)
    | Throw m => Script.update (on_files n (files_say m))
    end
  | None => Ret tt
  end.

(** ** Backup *)

Definition backed_up (path : jstr) : jstr := js "Verified backup: " ++ path.
Definition backup (n : nat) (o : Cause) : Script unit :=
  d <- send PickBackupFolder o;;
  match d with
  | Some dir =>
    Do (on_backup n (js "Creating and verifying backup…"))
      (r <- send (BackupSchool dir) o;;
       Script.update (on_backup n (match r with Ok p => backed_up p | Throw m => m end)))
  | None => Ret tt
  end.
Definition restored (path : jstr) : jstr := js "Restore complete. Previous school safety archive: " ++ path.
Definition msg_running_restore : jstr := js "Stop the Host before restoring a backup.".
(** [text.includes("different password")] *)
Definition other_password (text : jstr) : bool := includes (js "different password") text.
(** [running] is that of the render the button was pressed in. *)
Definition restore (n : nat) (running : bool) (password : option jstr) (sure : bool) (other : option jstr) (o : Cause) : Script unit :=
  if running then Script.update (on_backup n msg_running_restore) else
  d <- send PickBackup o;;
  match d, typed password with
  | Some dir, Some password =>
    if negb sure then Ret tt else
    r <- send (RestoreSchool password dir None) o;;
    match r with
    | Ok p => Script.update (on_backup n (restored p))
    | Throw text =>
      if negb (other_password text) then Script.update (on_backup n text) else
      match typed other with
      | Some backupPassword =>
        r <- send (RestoreSchool password dir (Some backupPassword)) o;;
        Script.update (on_backup n (match r with Ok p => restored p | Throw m => m end))
      | None => Ret tt
      end
    end
  | _, _ => Ret tt
  end.

Definition auto_says (m : jstr) (a : AutoCard) : AutoCard := mkAutoCard (status a) (keep a) m.
Definition set_status (s : AutoBackupStatus) (a : AutoCard) : AutoCard := mkAutoCard (Some s) (keep a) (auto_message a).
Definition set_keep (k : Z) (a : AutoCard) : AutoCard := mkAutoCard (status a) k (auto_message a).
Definition load_auto (n : nat) : Script unit :=
  r <- send ReadAutoBackup None;;
  Script.update (on_auto n (match r with Ok s => fun a => set_keep (auto_keep s) (set_status s a) | Throw m => auto_says m end)).
Definition auto_saved (folder : option jstr) : jstr :=
  match typed folder with Some _ => js "Daily backups are on." | None => js "Daily backups are off." end.
(** [k] is the number kept in the render the button was pressed in. *)
Definition save_auto (n : nat) (folder : option jstr) (k : Z) (o : Cause) : Script unit :=
  Do (on_auto n (auto_says []))
    (r <- send (SaveAutoBackup folder k) o;;
     Script.update (on_auto n (match r with Ok s => fun a => auto_says (auto_saved folder) (set_status s a) | Throw m => auto_says m end))).
Definition choose_auto (n : nat) (k : Z) (o : Cause) : Script unit :=
  d <- send PickAutoFolder o;;
  match d with Some folder => save_auto n (Some folder) k o | None => Ret tt end.
Definition KEPT : list Z := [7; 14; 30; 60].
Definition folder_of (a : AutoCard) : option jstr := s ← status a; typed (auto_folder s).

(** ** The AI provider *)

Definition ai_says (m : jstr) (b : bool) (a : AiCard) : AiCard := mkAiCard (ai_settings a) (usage a) (ai_text a) (models a) m b.
Definition ai_idle (a : AiCard) : AiCard := ai_says (ai_message a) false a.
Definition type_ai (f : AiField) (v : jstr) (a : AiCard) : AiCard :=
  mkAiCard (ai_settings a) (usage a) (fun f' => if decide (f' = f) then v else ai_text a f') (models a) (ai_message a) (ai_busy a).
Definition set_ai (s : AiSettings) (a : AiCard) : AiCard := mkAiCard (Some s) (usage a) (ai_text a) (models a) (ai_message a) (ai_busy a).
Definition set_usage (u : AiUsage) (a : AiCard) : AiCard := mkAiCard (ai_settings a) (Some u) (ai_text a) (models a) (ai_message a) (ai_busy a).
Definition set_models (l : list GoogleModel) (a : AiCard) : AiCard := mkAiCard (ai_settings a) (usage a) (ai_text a) l (ai_message a) (ai_busy a).
Definition limit_text (u : AiUsage) : jstr := match monthly_token_limit u with Some l => show_Z l | None => [] end.
Definition ai_loaded (s : AiSettings) (u : AiUsage) (a : AiCard) : AiCard :=
  type_ai GoogleModelField (google_model s) (type_ai ModelField (model s) (type_ai BaseUrl (default [] (base_url s))
    (type_ai Limit (limit_text u) (set_usage u (set_ai s a))))).
Definition load_ai (n : nat) : Script unit :=
  r <- send ReadAi None;;
  Script.update (on_ai n (match r with Ok (s, u) => ai_loaded s u | Throw m => fun a => ai_says m (ai_busy a) a end)).
Definition blank_absent (v : jstr) : option jstr := if truthy (trim v) then Some (trim v) else None.
Definition ai_request (a : AiCard) : AiRequest :=
  let t f := ai_text a f in
  mkAiRequest (blank_absent (t BaseUrl)) (trim (t ModelField)) (blank_absent (t ApiKey)) (blank_absent (t GoogleKey)) (trim (t GoogleModelField)).
Definition save_ai (n : nat) (a : AiCard) (o : Cause) : Script unit :=
  Do (on_ai n (ai_says [] true))
    (r <- send (SaveAiSettings (ai_request a)) o;;
     Script.update (on_ai n (match r with
                             | Ok s => fun a => ai_says (js "Saved.") false (type_ai GoogleKey [] (type_ai ApiKey [] (set_ai s a)))
                             | Throw m => ai_says m false end))).
Definition msg_limit : jstr := js "Enter a whole number of tokens, or leave it empty for no limit.".
Definition limit_value (text : jstr) : option jsnum := if truthy (trim text) then Some (number_of_string (trim text)) else None.
Definition limit_bad (v : jsnum) : bool := negb (is_integer v) || num_lt v (num 0).
(** [value || null] *)
Definition limit_sent (v : option jsnum) : option jsnum := v ← v; if num_eq v (num 0) then None else Some v.
Definition limit_saved (u : AiUsage) : jstr :=
  match monthly_token_limit u with Some l => if l =? 0 then js "Monthly limit removed." else js "Monthly limit saved." | None => js "Monthly limit removed." end.
Definition saveLimit (n : nat) (a : AiCard) (o : Cause) : Script unit :=
  let value := limit_value (ai_text a Limit) in
  if match value with Some v => limit_bad v | None => false end then Script.update (on_ai n (fun a => ai_says msg_limit (ai_busy a) a)) else
  Do (on_ai n (ai_says [] true))
    (r <- send (SaveAiLimit (limit_sent value)) o;;
     Script.update (on_ai n (match r with
                             | Ok u => fun a => ai_says (limit_saved u) false (type_ai Limit (limit_text u) (set_usage u a))
                             | Throw m => ai_says m false end))).
Definition offers (count : nat) : jstr := js "This key offers " ++ show_Z (Z.of_nat count) ++ js " models.".
Definition picked_message (count : nat) (chosen : jstr) : jstr :=
  offers count ++ js " " ++ or_str chosen (js "The saved model") ++
  js " is not one of them, so the newest was picked — save to keep it.".
Definition models_loaded (chosen : jstr) (l : list GoogleModel) (a : AiCard) : AiCard :=
  let a := set_models l a in
  if existsb (fun m => seqb (model_id m) chosen) l then ai_says (offers (length l)) false a
  else ai_says (picked_message (length l) chosen) false
         (type_ai GoogleModelField (match l with m :: _ => model_id m | [] => [] end) a).
Definition loadModels (n : nat) (a : AiCard) (o : Cause) : Script unit :=
  Do (on_ai n (ai_says [] true))
    (r <- send ReadModels o;;
     Script.update (on_ai n (match r with Ok l => models_loaded (ai_text a GoogleModelField) l | Throw m => ai_says m false end))).
Definition can_list_models (a : AiCard) : bool :=
  negb (ai_busy a) && match ai_settings a with Some s => has_google_key s | None => false end.

(** ** Settings *)

Definition settings_say (m : jstr) (s : SettingsForm) : SettingsForm := mkSettings (school s) (s_port s) m.
Definition saveSettings (n : nat) (s : SettingsForm) (o : Cause) : Script unit :=
  r <- send (SaveSchool (school s) (s_port s)) o;;
  match r with
  | Ok _ =>
    Do (on_settings n (settings_say (js "Settings saved.")))
      (r <- send ReadPublicState o;;
       Script.update (match r with Ok p => with_public p | Throw m => on_settings n (settings_say m) end))
  | Throw m => Script.update (on_settings n (settings_say m))
  end.
Definition msg_running_reset : jstr := js "Stop the Host before resetting the school.".
(** The name that the prompt asks for. *)
Definition reset_prompt (s : SettingsForm) : jstr := js "Type “" ++ school s ++ js "” to confirm the reset".
Definition reset_message (r : HostConsole.SetupResult) : jstr :=
  js "School reset complete." ++ c_nl :: js "Recovery archive: " ++ HostConsole.recovery_code r ++
  c_nl :: js "Teacher setup PIN: " ++ default (js "Unavailable") (HostConsole.bootstrap_pin r).
Definition reset (n : nat) (running : bool) (name password : option jstr) (o : Cause) : Script unit :=
  if running then Script.update (on_settings n (settings_say msg_running_reset)) else
  match typed name, typed password with
  | Some name, Some password =>
    r <- send (ResetSchoolNow password name) o;;
    Script.update (on_settings n (settings_say (match r with Ok r => reset_message r | Throw m => m end)))
  | _, _ => Ret tt
  end.
(** Nothing catches a failure. *)
Definition load_audit (n : nat) : Script unit :=
  r <- send ListAudit None;;
  match r with
  | Ok l => Script.update (on_page n (fun p => match p with SettingsPage s a _ => SettingsPage s a l | _ => p end))
  | Throw _ => Ret tt
  end.

(** ** Events *)

Definition new_ai : AiCard := mkAiCard None None (fun _ => []) [] [] false.
Definition new_settings (p : option PublicState) : SettingsForm :=
  mkSettings (default [] (p ← p; HostConsole.school_name p)) (num (default 7373 (p ← p; HostConsole.port p))) [].
Definition new_page (t : HostConsole.Tab) (w : Host) : Page :=
  match t with
  | HostConsole.Dashboard => DashboardPage None []
  | HostConsole.People => PeoplePage (mkPeople [] [] [] [])
  | HostConsole.Files => FilesPage (mkFiles [] [] false [] None)
  | HostConsole.Backup => BackupPage [] (mkAutoCard None 14 [])
  | HostConsole.Settings => SettingsPage (new_settings (public w)) new_ai []
  end.
Definition apply (f : Host -> Host) (y : System) : System := mkSystem (f (world y)) (waiting y).
(** The page before is gone, and the effects of the new one run. *)
Definition open (t : HostConsole.Tab) (y : System) : System :=
  let y := apply (fun w => next_page (new_page t w) (revoke w)) y in
  let n := no (world y) in
  match t with
  | HostConsole.Dashboard => start (load_dashboard n None) y
  | HostConsole.People => start (load_people n [] [] None) y
  | HostConsole.Files => start (load_files n [] false None) y
  | HostConsole.Backup => start (load_auto n) y
  | HostConsole.Settings => start (load_audit n) (start (load_ai n) y)
  end.
Definition for_row {A} (l : list A) (i : nat) (f : A -> Script unit) : Script unit :=
  match l !! i with Some x => f x | None => Ret tt end.
Definition press_people (n : nat) (x : People) (p : Press) (o : Cause) : Script unit :=
  let set v r := on_people n (fun x => mkPeople (people x) v r (p_message x)) in
  match p with
  | SearchPeople v => if seqb v (p_search x) then Ret tt else Do (set v (role x)) (load_people n v (role x) o)
  | ChooseRole v => if seqb v (role x) then Ret tt else Do (set (p_search x) v) (load_people n (p_search x) v o)
  | EditPerson i name username => for_row (people x) i (fun p => edit n x p name username o)
  | ResetAccess i sure password => for_row (people x) i (fun p => credentials n p sure password o)
  | DisablePerson i replacement => for_row (people x) i (fun p => disable n x p replacement o)
  | _ => Ret tt
  end.
Definition press_files (n : nat) (x : Files) (p : Press) (o : Cause) : Script unit :=
  let set v b := on_files n (fun x => mkFiles (files x) v b (f_message x) (preview x)) in
  match p with
  | SearchFiles v => if seqb v (f_search x) then Ret tt else Do (set v (trash x)) (load_files n v (trash x) o)
  | TrashOnly b => if Bool.eqb b (trash x) then Ret tt else Do (set (f_search x) b) (load_files n (f_search x) b o)
  | ViewFile i => for_row (files x) i (fun f => if missing f then Ret tt else view n f o)
  | DownloadFile i => for_row (files x) i (fun f => if missing f then Ret tt else download n f o)
  | RenameFile i name => for_row (files x) i (fun f => rename n x f name o)
  | MoveFile i => for_row (files x) i (fun f => move n x f o)
  | EmptyTrash password => if trash x then empty n x password o else Ret tt
  | ClosePreview => Script.update (new_preview n None)
  | _ => Ret tt
  end.
(** The button that restores is disabled while the server runs, and the two
    that change the daily backup are there once it has a folder. *)
Definition press_backup (n : nat) (running : bool) (a : AutoCard) (p : Press) (o : Cause) : Script unit :=
  match p with
  | BackUp => backup n o
  | Restore password sure other => if running then Ret tt else restore n running password sure other o
  | TypeKeep k => if existsb (Z.eqb k) KEPT then Script.update (on_auto n (set_keep k)) else Ret tt
  | ChooseFolder => choose_auto n (keep a) o
  | SaveKept => match folder_of a with Some f => save_auto n (Some f) (keep a) o | None => Ret tt end
  | TurnOff => match folder_of a with Some _ => save_auto n None (keep a) o | None => Ret tt end
  | _ => Ret tt
  end.
Definition press_settings (n : nat) (running : bool) (s : SettingsForm) (a : AiCard) (p : Press) (o : Cause) : Script unit :=
  match p with
  | TypeAi f v => match f, usage a with Limit, None => Ret tt | _, _ => Script.update (on_ai n (type_ai f v)) end
  | SaveAi => if ai_busy a then Ret tt else save_ai n a o
  | SaveLimit => match usage a with Some _ => if ai_busy a then Ret tt else saveLimit n a o | None => Ret tt end
  | LoadModels => if can_list_models a then loadModels n a o else Ret tt
  | TypeSchool v => Script.update (on_settings n (fun s => mkSettings v (s_port s) (s_message s)))
  | TypePort v => Script.update (on_settings n (fun s => mkSettings (school s) (number_of_string v) (s_message s)))
  | SaveSettings => if running then Ret tt else saveSettings n s o
  | ResetSchool name password => if running then Ret tt else reset n running name password o
  | _ => Ret tt
  end.
Definition press (p : Press) : Script unit :=
  w <- Script.get;;
  let n := no w in let o := Some (p, running w) in
  match page w with
  | DashboardPage _ _ => match p with ReloadDashboard => load_dashboard n o | _ => Ret tt end
  | PeoplePage x => press_people n x p o
  | FilesPage x => press_files n x p o
  | BackupPage _ a => press_backup n (running w) a p o
  | SettingsPage s a _ => press_settings n (running w) s a p o
  end.
Inductive Event :=
  | Open (t : HostConsole.Tab)
  | Press_ (p : Press)
  | Server (on : bool)
  | Answered (i : nat) (a : forall q, answer q).
Definition step (ev : Event) (y : System) : System :=
  match ev with
  | Open t => open t y
  | Press_ p => start (press p) y
  | Server on => apply (with_running on) y
  | Answered i a => resume i a y
  end.
Definition run (es : list Event) (y : System) : System := fold_left (fun y ev => step ev y) es y.
Definition shell (running : bool) (p : PublicState) : System :=
  open HostConsole.Dashboard (mkSystem (mkHost 0 (DashboardPage None []) running (Some p) [] 0 []) []).

(** ** Properties *)

Module HostFacts.

(** What a request must come from. *)
Definition allowed (q : Query) (o : Cause) : Prop :=
  match q with
  | ResetPerson _ pw => exists i b, o = Some (ResetAccess i true (Some pw), b) /\ pw <> []
  | EmptyTrashNow pw => exists b, o = Some (EmptyTrash (Some pw), b) /\ pw <> []
  | RestoreSchool pw _ other =>
    exists x, o = Some (Restore (Some pw) true x, false) /\ pw <> [] /\ match other with Some k => x = Some k /\ k <> [] | None => True end
  | ResetSchoolNow pw name => o = Some (ResetSchool (Some name) (Some pw), false) /\ pw <> [] /\ name <> []
  | SaveSchool _ _ => o = Some (SaveSettings, false)
  | SaveAiLimit (Some v) => (exists b, o = Some (SaveLimit, b)) /\ is_integer v = true /\ num_lt (num 0) v = true
  | SaveAiSettings r => (exists b, o = Some (SaveAi, b)) /\ Forall (fun t => t <> Some []) [r_base_url r; r_api_key r; r_google_key r]
  | SetPersonDisabled _ d (Some _) => d = true
  | UpdatePerson _ username name => username <> [] /\ name <> []
  | RenameTo _ name => name <> []
  | _ => True
  end.
(** The preview that is shown has a URL that was not revoked. *)
Definition urls_ok (w : Host) : Prop :=
  match shown_url w with Some u => u ∈ alive w | None => True end /\ Forall (fun u => u < next_url w)%nat (alive w).
Definition Good (w : Host) : Prop := Forall (fun r => allowed (fst r) (snd r)) (asked w) /\ urls_ok w.
Definition any (q : Query) (_ : answer q) : Prop := True.

(** Changes of nothing but what the pages show. *)
Definition calm (f : Host -> Host) : Prop := forall w,
  asked (f w) = asked w /\ shown_url (f w) = shown_url w /\ alive (f w) = alive w /\ next_url (f w) = next_url w.
Lemma calm_good f w : calm f -> Good w -> Good (f w).
Proof. intros Hf [H1 H2]. destruct (Hf w) as (E1 & E2 & E3 & E4). unfold Good, urls_ok. by rewrite E1, E2, E3, E4. Qed.
Lemma calm_page n f : (forall p, (match f p with FilesPage x => url <$> preview x | _ => None end) =
                                 (match p with FilesPage x => url <$> preview x | _ => None end)) -> calm (on_page n f).
Proof. intros Hf w. unfold on_page. destruct (Nat.eqb _ _); [|by split_and!]. split_and!; try done. apply Hf. Qed.
Lemma calm_people n f : calm (on_people n f).
Proof. by apply calm_page; intros []. Qed.
Lemma calm_files n f : (forall x, preview (f x) = preview x) -> calm (on_files n f).
Proof. intros Hf. apply calm_page; intros []; try done. by rewrite Hf. Qed.
Lemma calm_backup n m : calm (on_backup n m).
Proof. by apply calm_page; intros []. Qed.
Lemma calm_auto n f : calm (on_auto n f).
Proof. by apply calm_page; intros []. Qed.
Lemma calm_ai n f : calm (on_ai n f).
Proof. by apply calm_page; intros []. Qed.
Lemma calm_settings n f : calm (on_settings n f).
Proof. by apply calm_page; intros []. Qed.
Lemma calm_public p : calm (with_public p).
Proof. by intros w. Qed.

Lemma typed_some t v : typed t = Some v -> t = Some v /\ v <> [].
Proof. destruct t as [[|c s]|]; try done. by intros [= <-]. Qed.
Lemma blank_absent_ok v : blank_absent v <> Some [].
Proof. unfold blank_absent. by destruct (trim v). Qed.
Lemma limit_sent_ok t v : match limit_value t with Some v => limit_bad v | None => false end = false -> limit_sent (limit_value t) = Some v ->
  is_integer v = true /\ num_lt (num 0) v = true.
Proof.
  destruct (limit_value t) as [x|]; [|done]. unfold limit_bad, limit_sent. cbn. intros [Hi Hl]%orb_false_iff.
  destruct (num_eq x (num 0)) eqn:Ee; [done|]. intros [= <-]. split; [by destruct (is_integer x)|].
  destruct x as [| |q]; try done. cbn in *. apply negb_false_iff, Qle_bool_iff in Hl. apply negb_true_iff, not_true_iff_false.
  intros E0%Qle_bool_iff. apply not_true_iff_false in Ee. by apply Ee, Qeq_bool_iff, Qle_antisym.
Qed.
Lemma limit_text_read z : 0 <= z < 10 ^ 21 -> limit_value (show_Z z) = Some (num z).
Proof.
  intros Hz. destruct (number_of_shown z Hz) as [H1 H2]. rewrite show_num_Z in H1, H2 by lia. unfold limit_value.
  assert (show_Z z = digits (Z.to_N z)) as E by (destruct z; [done|done|lia]).
  assert (Ht : trim (show_Z z) = show_Z z).
  { rewrite E. destruct (digits_ok (Z.to_N z)) as (Hd & Hn & _). rewrite <- (app_nil_r (digits _)). by apply digits_trimmed. }
  by rewrite Ht, H1, H2.
Qed.
(** Showing another preview, or none. *)
Lemma good_preview n v w :
  Good w -> match v with Some v => (url v ∈ alive w) /\ shown_url w <> Some (url v) | None => True end -> Good (new_preview n v w).
Proof.
  intros [H1 [H2 H3]] Hv. unfold new_preview. destruct (page w) as [| |f| |] eqn:Ep; try done. destruct (Nat.eqb _ _); [|done].
  split; [done|]. split; cbn.
  - destruct v as [v|]; [|done]. destruct Hv as [Hv Hn]. unfold shown_url in *. rewrite Ep in *. cbn in *.
    destruct (preview f) as [p|]; cbn in *; [|done]. apply list_elem_of_In, filter_In. split; [by apply list_elem_of_In|].
    apply negb_true_iff, Nat.eqb_neq. congruence.
  - destruct (shown_url w); [|done]. apply Forall_forall. intros u [Hu _]%list_elem_of_In%filter_In.
    apply list_elem_of_In in Hu. by apply (proj1 (Forall_forall _ _) H3).
Qed.
Lemma good_revoke p w : match p with FilesPage f => preview f = None | _ => True end -> Good w -> Good (next_page p (revoke w)).
Proof.
  intros Hp [H1 [H2 H3]]. split; [done|]. split; [destruct p; try done; unfold shown_url; cbn; by rewrite Hp|]. cbn.
  destruct (shown_url w); [|done]. apply Forall_forall. intros u [Hu _]%list_elem_of_In%filter_In.
  apply list_elem_of_In in Hu. by apply (proj1 (Forall_forall _ _) H3).
Qed.
End HostFacts.
Import HostFacts.

Module HostScripts.
Local Abbreviation kept s := (keeps Good any s (fun _ => True)).
Lemma kept_send q o : allowed q o -> kept (send q o).
Proof.
  intros Hq. apply keeps_do; [|apply (keeps_ask Good any)]. intros w [H1 H2]. split; [|done]. cbn.
  apply Forall_app. split; [done|]. by apply Forall_singleton.
Qed.
Lemma kept_update f : calm f -> kept (Script.update f : Script unit).
Proof. intros Hf. apply keeps_update. intros w. by apply calm_good. Qed.
Lemma kept_do f (s : Script unit) : calm f -> kept s -> kept (Do f s).
Proof. intros Hf. apply keeps_do. intros w. by apply calm_good. Qed.
Lemma kept_bind {A} (s : Script A) (k : A -> Script unit) : kept s -> (forall x, kept (k x)) -> kept (bind s k).
Proof. intros Hs Hk. eapply keeps_bind; [exact Hs|]. intros x _. apply Hk. Qed.
Lemma kept_ret : kept (Ret tt : Script unit).
Proof. by apply keeps_ret. Qed.

#[local] Hint Resolve calm_people calm_backup calm_auto calm_ai calm_settings calm_public kept_ret : core.
Ltac calmly := first [by auto | by (apply calm_files; intros; repeat case_match) | by (apply calm_page; intros []; repeat case_match)
                     | by (repeat case_match; auto)].
Ltac walk := repeat match goal with
  | |- keeps _ _ (Ret _) _ => apply kept_ret
  | |- keeps _ _ (Script.update _) _ => apply kept_update; calmly
  | |- keeps _ _ (Do _ _) _ => apply kept_do; [calmly|]
  | |- keeps _ _ (send _ _) _ => apply kept_send; cbn; try done
  | |- keeps _ _ (bind _ _) _ => apply kept_bind; [|let r := fresh "r" in intros r; cbn in r]
  | |- keeps _ _ (match ?x with _ => _ end) _ => let E := fresh "E" in destruct x eqn:E
  end.

Lemma kept_dashboard n o : kept (load_dashboard n o).
Proof. unfold load_dashboard. walk. Qed.
Lemma kept_load_people n s r o : kept (load_people n s r o).
Proof. unfold load_people. walk. Qed.
Lemma kept_load_files n s b o : kept (load_files n s b o).
Proof. unfold load_files. walk. Qed.
Lemma kept_load_auto n : kept (load_auto n).
Proof. unfold load_auto. walk. Qed.
Lemma kept_load_ai n : kept (load_ai n).
Proof. unfold load_ai. walk. Qed.
Lemma kept_audit n : kept (load_audit n).
Proof.
  apply kept_bind; [by apply kept_send|]. intros [l|m]; [|apply kept_ret]. apply kept_update, calm_page. by intros [].
Qed.
#[local] Hint Resolve kept_dashboard kept_load_people kept_load_files : core.

Lemma kept_edit n x p name username o : kept (edit n x p name username o).
Proof. unfold edit. walk; try by auto. split; by eapply typed_some. Qed.
Lemma kept_credentials n p i sure pw b : kept (credentials n p sure pw (Some (ResetAccess i sure pw, b))).
Proof.
  unfold credentials. destruct sure; cbn [negb]; [|apply kept_ret]. destruct (typed pw) as [v|] eqn:E; [|apply kept_ret]. apply typed_some in E as [-> Hv]. walk. by eauto.
Qed.
Lemma kept_disable n x p r o : kept (disable n x p r o).
Proof.
  unfold disable. destruct (asks_replacement _ p) eqn:E; walk; try by auto. destruct r; [|done]. unfold asks_replacement in E.
  by destruct (enabled p); [|rewrite andb_false_r in E].
Qed.
Lemma kept_view n f o : kept (view n f o).
Proof.
  unfold view. apply kept_bind; [by apply kept_send|]. intros [u|m]; [|walk]. apply keeps_update. intros w [H1 [H2 H3]].
  apply good_preview.
  - split; [done|]. split; cbn.
    + change (shown_url (making_url w)) with (shown_url w). destruct (shown_url w); [|done]. by right.
    + constructor; [lia|]. eapply Forall_impl; [exact H3|]. cbn. intros. lia.
  - cbn. split; [by left|]. change (shown_url (making_url w)) with (shown_url w). intros E. rewrite E in H2.
    apply (proj1 (Forall_forall _ _) H3) in H2. lia.
Qed.
Lemma kept_download n f o : kept (download n f o).
Proof. unfold download. walk. Qed.
Lemma kept_rename n x f name o : kept (rename n x f name o).
Proof. unfold rename. walk; try by auto. by eapply typed_some. Qed.
Lemma kept_move n x f o : kept (move n x f o).
Proof. unfold move. walk; by auto. Qed.
Lemma kept_empty n x pw b : kept (empty n x pw (Some (EmptyTrash pw, b))).
Proof. unfold empty. destruct (typed pw) as [v|] eqn:E; [|apply kept_ret]. apply typed_some in E as [-> Hv]. walk; by eauto. Qed.
Lemma kept_backup n o : kept (backup n o).
Proof. unfold backup. walk. Qed.
Lemma kept_restore n pw sure other : kept (restore n false pw sure other (Some (Restore pw sure other, false))).
Proof.
  unfold restore. walk; apply typed_some in E0 as [-> Hv]; destruct sure; try done.
  - by eauto.
  - apply typed_some in E4 as [-> Hk]. by eauto.
Qed.
Lemma kept_save_auto n f k o : kept (save_auto n f k o).
Proof. unfold save_auto. walk. Qed.
Lemma kept_choose_auto n k o : kept (choose_auto n k o).
Proof. unfold choose_auto. walk; apply kept_save_auto. Qed.
Lemma kept_save_ai n a b : kept (save_ai n a (Some (SaveAi, b))).
Proof. unfold save_ai. walk. split; [by eauto|]. repeat constructor; apply blank_absent_ok. Qed.
Lemma kept_limit n a b : kept (saveLimit n a (Some (SaveLimit, b))).
Proof.
  unfold saveLimit. destruct (match _ with Some _ => _ | None => _ end) eqn:E; [walk|]. apply kept_do; [calmly|].
  apply kept_bind; [|intros ?; walk]. apply kept_send. destruct (limit_sent _) as [v|] eqn:Es; [|done]. split; [by eauto|].
  by eapply limit_sent_ok.
Qed.
Lemma kept_models n a o : kept (loadModels n a o).
Proof. unfold loadModels. walk. Qed.
Lemma kept_save_settings n s : kept (saveSettings n s (Some (SaveSettings, false))).
Proof. unfold saveSettings. walk. Qed.
Lemma kept_reset n name pw : kept (reset n false name pw (Some (ResetSchool name pw, false))).
Proof.
  unfold reset. walk. apply typed_some in E as [-> Hn], E0 as [-> Hp]. done.
Qed.
Lemma kept_row {A} (l : list A) i f : (forall x, kept (f x)) -> kept (for_row l i f).
Proof. intros Hf. unfold for_row. destruct (l !! i); [apply Hf|apply kept_ret]. Qed.
Lemma kept_choice (b : bool) (s1 s2 : Script unit) : kept s1 -> kept s2 -> kept (if b then s1 else s2).
Proof. by destruct b. Qed.
Lemma kept_press_people n x p b : kept (press_people n x p (Some (p, b))).
Proof.
  destruct p; try apply kept_ret.
  - apply kept_choice; [apply kept_ret|]. apply kept_do; [calmly|apply kept_load_people].
  - apply kept_choice; [apply kept_ret|]. apply kept_do; [calmly|apply kept_load_people].
  - apply kept_row. intros y. apply kept_edit.
  - apply kept_row. intros y. apply kept_credentials.
  - apply kept_row. intros y. apply kept_disable.
Qed.
Lemma kept_press_files n x p b : kept (press_files n x p (Some (p, b))).
Proof.
  destruct p; try apply kept_ret.
  - apply kept_choice; [apply kept_ret|]. apply kept_do; [calmly|apply kept_load_files].
  - apply kept_choice; [apply kept_ret|]. apply kept_do; [calmly|apply kept_load_files].
  - apply kept_row. intros f. apply kept_choice; [apply kept_ret|apply kept_view].
  - apply kept_row. intros f. apply kept_choice; [apply kept_ret|apply kept_download].
  - apply kept_row. intros f. apply kept_rename.
  - apply kept_row. intros f. apply kept_move.
  - apply kept_choice; [apply kept_empty|apply kept_ret].
  - apply keeps_update. intros w Hw. by apply good_preview.
Qed.
Lemma kept_press_backup n running a p : kept (press_backup n running a p (Some (p, running))).
Proof.
  destruct p; try apply kept_ret.
  - apply kept_backup.
  - cbn [press_backup]. destruct running; [apply kept_ret|apply kept_restore].
  - apply kept_choice; [|apply kept_ret]. apply kept_update; calmly.
  - apply kept_choose_auto.
  - cbn [press_backup]. destruct (folder_of a); [apply kept_save_auto|apply kept_ret].
  - cbn [press_backup]. destruct (folder_of a); [apply kept_save_auto|apply kept_ret].
Qed.
Lemma kept_press_settings n running s a p : kept (press_settings n running s a p (Some (p, running))).
Proof.
  destruct p; try apply kept_ret; cbn [press_settings].
  - destruct f, (usage a); (apply kept_ret || (apply kept_update; calmly)).
  - apply kept_choice; [apply kept_ret|apply kept_save_ai].
  - destruct (usage a); [|apply kept_ret]. apply kept_choice; [apply kept_ret|apply kept_limit].
  - apply kept_choice; [apply kept_models|apply kept_ret].
  - apply kept_update; calmly.
  - apply kept_update; calmly.
  - destruct running; [apply kept_ret|apply kept_save_settings].
  - destruct running; [apply kept_ret|apply kept_reset].
Qed.
Lemma kept_press p : kept (press p).
Proof.
  unfold press. eapply keeps_bind; [apply keeps_get|]. intros w Hw. destruct (page w) as [d e|x|x|m a|s a l].
  - destruct p; (apply kept_ret || apply kept_dashboard).
  - apply kept_press_people.
  - apply kept_press_files.
  - apply kept_press_backup.
  - apply kept_press_settings.
Qed.

Local Abbreviation ok := (sound Good anyhow any).
Lemma pages_ok_apply f y : (forall w, Good w -> Good (f w)) -> ok y -> ok (apply f y).
Proof.
  intros Hf [H1 H2]. split; [by apply Hf|]. eapply Forall_impl; [exact H2|]. intros s. by apply ready_later; [apply _|].
Qed.
Lemma ok_start s y : kept s -> ok y -> ok (start s y).
Proof. intros Hs Hy. by apply keeps_start. Qed.
Lemma ok_open t y : ok y -> ok (open t y).
Proof.
  intros Hy. unfold open.
  match goal with |- context [apply ?f y] => assert (Hy' : ok (apply f y)) by (apply pages_ok_apply; [|exact Hy]; intros w Hw; by apply good_revoke; [destruct t|]) end.
  destruct t; repeat apply ok_start; try exact Hy'; first [apply kept_dashboard|apply kept_load_people|apply kept_load_files|apply kept_load_auto
    |apply kept_load_ai|apply kept_audit].
Qed.
Lemma ok_step ev y : ok y -> ok (step ev y).
Proof.
  intros Hy. destruct ev as [t|p|on|i a]; cbn [step].
  - by apply ok_open.
  - by apply ok_start; [apply kept_press|].
  - apply pages_ok_apply; [|exact Hy]. by intros w.
  - by apply keeps_resume.
Qed.
Lemma ok_run es y : ok y -> ok (run es y).
Proof. revert y. induction es as [|ev es IH]; intros y Hy; [exact Hy|]. by apply IH, ok_step. Qed.
Lemma ok_shell b p : ok (shell b p).
Proof. apply ok_open. split; [|constructor]. split; [constructor|]. split; [done|constructor]. Qed.
End HostScripts.
Import HostScripts.

(** ** Claims *)

(** C7. Nothing leaves these pages unasked: for whatever is pressed, answered and in
    whatever order, a request that resets somebody's access, empties the Trash,
    replaces the school by a backup or resets it carries the password that was
    typed for that press, and the last two come from a press that was made while
    the server was said to be stopped and, for a backup, confirmed; a limit is a
    whole positive number; and a key or an address is never sent blank.  A
    preview that is shown has not lost its file. *)
Theorem requests_are_asked_for on p es :
  let w := world (run es (shell on p)) in
  Forall (fun r => allowed (fst r) (snd r)) (asked w) /\ urls_ok w.
Proof. destruct (ok_run es (shell on p) (ok_shell on p)) as [H _]. exact H. Qed.

(** C33. Restoring a backup, on every branch: what is sent and what the page says.
    The second password is sent only after the Host has said that the backup was
    made with a different one. *)
Theorem restore_outcome env n w m a pw sure other o (Hp : page w = BackupPage m a) :
  let w' := snd (finish (restore (no w) (running w) pw sure other o) env n w) in
  let ends m qs := page w' = BackupPage m a /\ asked w' = asked w ++ map (fun q => (q, o)) qs in
  if running w then ends msg_running_restore [] else
  match env n PickBackup, typed pw, sure with
  | Some dir, Some pw, true =>
    let first := RestoreSchool pw dir None in
    match env (S n) first, typed other with
    | Ok p, _ => ends (restored p) [PickBackup; first]
    | Throw text, Some k =>
      if other_password text then
        let second := RestoreSchool pw dir (Some k) in
        ends (match env (S (S n)) second with Ok p => restored p | Throw t => t end) [PickBackup; first; second]
      else ends text [PickBackup; first]
    | Throw text, None => ends (if other_password text then m else text) [PickBackup; first]
    end
  | _, _, _ => ends m [PickBackup]
  end.
Proof.
  assert (Hs : forall v m', no v = no w -> page v = BackupPage m a -> page (on_backup (no w) m' v) = BackupPage m' a).
  { intros v m' E1 E2. unfold on_backup, on_page. rewrite E1, Nat.eqb_refl. cbn. by rewrite E2. }
  assert (Ha : forall v m', asked (on_backup (no w) m' v) = asked v).
  { intros v m'. unfold on_backup, on_page. by destruct (Nat.eqb _ _). }
  unfold restore. destruct (running w) eqn:Er; cbn [finish Script.update snd].
  { split; [by apply Hs|]. by rewrite Ha, app_nil_r. }
  cbn [send bind finish Script.ask]. destruct (env n PickBackup) as [dir|]; [|by split].
  destruct (typed pw) as [p|]; [|by split]. destruct sure; cbn [negb]; [|by split].
  cbn [send bind finish Script.ask]. destruct (env (S n) _) as [path|text]; cbn [finish Script.update snd].
  { split; [by apply Hs|]. rewrite Ha. cbn. by rewrite <- app_assoc. }
  destruct (other_password text); cbn [negb]; destruct (typed other) as [k|]; cbn [send bind finish Script.ask Script.update snd];
    (split; [first [by apply Hs|exact Hp]|]); rewrite ?Ha; cbn; by rewrite <- ?app_assoc.
Qed.

(** Saving the monthly limit.  Only an empty box or a whole number of at least
    zero is sent, the number 0 as no limit; afterwards the box holds the limit
    that the Host answered, and reading the box again gives that limit. *)
Theorem limit_outcome env n w s a l o (Hp : page w = SettingsPage s a l) :
  let w' := snd (finish (saveLimit (no w) a o) env n w) in
  let value := limit_value (ai_text a Limit) in
  if match value with Some v => limit_bad v | None => false end
  then asked w' = asked w /\ exists a', page w' = SettingsPage s a' l /\ ai_message a' = msg_limit
  else
    asked w' = asked w ++ [(SaveAiLimit (limit_sent value), o)] /\
    exists a', page w' = SettingsPage s a' l /\ ai_busy a' = false /\
    match env n (SaveAiLimit (limit_sent value)) with
    | Ok u => usage a' = Some u /\ ai_message a' = limit_saved u /\ ai_text a' Limit = limit_text u /\
              (forall z, monthly_token_limit u = Some z -> 0 <= z < 10 ^ 21 -> limit_value (ai_text a' Limit) = Some (num z))
    | Throw m => usage a' = usage a /\ ai_message a' = m /\ ai_text a' = ai_text a
    end.
Proof.
  assert (Hs : forall v f b, no v = no w -> page v = SettingsPage s b l -> page (on_ai (no w) f v) = SettingsPage s (f b) l).
  { intros v f b E1 E2. unfold on_ai, on_page. rewrite E1, Nat.eqb_refl. cbn. by rewrite E2. }
  assert (Hk : forall v f, asked (on_ai (no w) f v) = asked v /\ no (on_ai (no w) f v) = no v).
  { intros v f. unfold on_ai, on_page. by destruct (Nat.eqb _ _). }
  unfold saveLimit. cbv zeta. destruct (match limit_value _ with Some _ => _ | None => _ end); cbn [finish Script.update snd].
  { split; [apply Hk|]. eexists. split; [by apply Hs|done]. }
  cbn [send bind finish Script.ask Script.update snd]. split.
  { rewrite (proj1 (Hk _ _)). cbn. by rewrite (proj1 (Hk _ _)). }
  eexists. split; [apply Hs; [apply Hk|by apply Hs]|]. destruct (env n _) as [u|m]; cbn; [|done]. split_and!; try done.
  intros z Ez Hz. unfold limit_text. rewrite Ez. by apply limit_text_read.
Qed.

(** ** Runs *)

Module HostRuns.
Definition school_public : PublicState := HostConsole.mkPublic true None false (Some (js "Hill School")) (Some (js "/data")) (Some 7373).
Definition ann : Person := mkPerson (js "t1") (js "ann") (js "Ann") (js "teacher") None None [].
Definition bob : Person := mkPerson (js "t2") (js "bob") (js "Bob") (js "teacher") None None [].
Definition note : StoredFile := mkFile (js "n1") (js "note") (js "note.pdf") (js "application/pdf") 10 (js "ab") None None (js "2026") 1 None false.
Definition stored (k : bool) : AiSettings := mkAi (Some (js "https://ai")) (js "m1") true true k (js "g1").
Definition used (l : option Z) : AiUsage := mkUsage 1 10 20 1 10 20 l.
(** A Host that answers everything, the list of people with [l]. *)
Definition grants (l : list Person) : forall q, answer q := fun q =>
  match q with
  | ReadDashboard => Throw (js "no")
  | ListPeople _ _ => Ok l
  | UpdatePerson _ _ _ | SetPersonDisabled _ _ _ | ReadFile _ | ExportFile _ _ | RenameTo _ _ | TrashFile _ _ | SaveSchool _ _ => Ok tt
  | ResetPerson _ _ => Ok (mkCredentials (js "tmp") (js "rec"))
  | ListFiles _ _ => Ok [note]
  | PickDestination _ | PickBackupFolder | PickBackup | PickAutoFolder => Some (js "/usb")
  | EmptyTrashNow _ => Ok 3
  | BackupSchool _ | RestoreSchool _ _ _ => Ok (js "/usb/a")
  | ReadAutoBackup | SaveAutoBackup _ _ => Ok (mkAuto None 14 None None true)
  | ReadAi => Ok (stored true, used None)
  | SaveAiSettings _ => Ok (stored true)
  | SaveAiLimit l => Ok (used (match l with Some (Fin q) => Some (Qnum q) | _ => None end))
  | ReadModels => Ok []
  | ResetSchoolNow _ _ => Ok (HostConsole.mkResult (js "/data/a") None)
  | ReadPublicState => Ok school_public
  | ListAudit => Ok []
  end.
(** One whose answers to what can fail are the text [m]. *)
Definition refuses (m : jstr) : forall q, answer q := fun q =>
  match q with
  | ReadDashboard => Throw m | ListPeople _ _ => Throw m | UpdatePerson _ _ _ => Throw m | SetPersonDisabled _ _ _ => Throw m
  | ReadFile _ => Throw m | ExportFile _ _ => Throw m | RenameTo _ _ => Throw m | TrashFile _ _ => Throw m | SaveSchool _ _ => Throw m
  | ResetPerson _ _ => Throw m | ListFiles _ _ => Throw m | EmptyTrashNow _ => Throw m | BackupSchool _ => Throw m
  | RestoreSchool _ _ _ => Throw m | ReadAutoBackup => Throw m | SaveAutoBackup _ _ => Throw m | ReadAi => Throw m
  | SaveAiSettings _ => Throw m | SaveAiLimit _ => Throw m | ReadModels => Throw m | ResetSchoolNow _ _ => Throw m
  | ReadPublicState => Throw m | ListAudit => Throw m
  | PickDestination _ | PickBackupFolder | PickBackup | PickAutoFolder => None
  end.
Definition both : list Person := [ann; bob].
(** The requests sent after the page was opened. *)
Definition go (t : HostConsole.Tab) (es : list Event) : Host := world (run (Open t :: es) (mkSystem (world (shell false school_public)) [])).
Definition sent (w : Host) : list Query := fst <$> drop 1 (asked w).
Definition people_page (w : Host) : option People := match page w with PeoplePage p => Some p | _ => None end.
Definition files_page (w : Host) : option Files := match page w with FilesPage f => Some f | _ => None end.

Lemma restore_outcome_witness :
  let w := go HostConsole.Backup [] in
  let env (n : nat) := if Nat.eqb n 1 then refuses (js "made with a different password") else grants [] in
  page w = BackupPage [] (mkAutoCard None 14 []) /\
  page (snd (finish (restore (no w) (running w) (Some (js "pw")) true (Some (js "old")) None) env 0 w)) =
    BackupPage (restored (js "/usb/a")) (mkAutoCard None 14 []).
Proof.
  assert (Hp : page (go HostConsole.Backup []) = BackupPage [] (mkAutoCard None 14 [])) by (vm_compute; reflexivity).
  split; [exact Hp|].
  pose proof (restore_outcome (fun n => if Nat.eqb n 1 then refuses (js "made with a different password") else grants []) 0
    (go HostConsole.Backup []) [] (mkAutoCard None 14 []) (Some (js "pw")) true (Some (js "old")) None Hp) as H.
  vm_compute in H |- *. exact (proj1 H).
Defined.
Lemma limit_outcome_witness :
  let w := go HostConsole.Settings [] in
  let a := type_ai Limit (js "5000") new_ai in
  let v := with_page (SettingsPage (new_settings (Some school_public)) a []) w in
  asked (snd (finish (saveLimit (no v) a None) (fun _ => grants []) 0 v)) = asked v ++ [(SaveAiLimit (Some (num 5000)), None)].
Proof.
  pose proof (limit_outcome (fun _ => grants []) 0
    (with_page (SettingsPage (new_settings (Some school_public)) (type_ai Limit (js "5000") new_ai) []) (go HostConsole.Settings []))
    (new_settings (Some school_public)) (type_ai Limit (js "5000") new_ai) [] None eq_refl) as H.
  cbv zeta in H. match type of H with if ?c then _ else _ => assert (c = false) as E by (vm_compute; reflexivity); rewrite E in H; clear E end.
  destruct H as [H _]. vm_compute in H |- *. exact H.
Defined.

(** A cancelled question for the replacement does not cancel: the teacher is
    disabled without one. *)
Example cancel_still_disables :
  sent (go HostConsole.People [Answered 0 (grants both); Press_ (DisablePerson 0 None)]) = [ListPeople [] None; SetPersonDisabled (js "t1") true None].
Proof. vm_compute. done. Qed.

(** A failure to move a file to the Trash leaves the page as it was. *)
Example move_failure_silent :
  let es := [Answered 0 (grants []); Press_ (MoveFile 0)] in
  page (go HostConsole.Files (es ++ [Answered 0 (refuses (js "Locked"))])) = page (go HostConsole.Files es).
Proof. vm_compute. done. Qed.

(** The answer to an earlier search, when it comes last, is what stays. *)
Example older_search_wins :
  people_page (go HostConsole.People
    [Answered 0 (grants both); Press_ (SearchPeople (js "a")); Press_ (SearchPeople (js "an")); Answered 1 (grants [ann]); Answered 0 (grants both)]) =
  Some (mkPeople both (js "an") [] []).
Proof. vm_compute. done. Qed.

(** The list that is read again after an edit is that of the search the edit
    began under. *)
Example edit_reloads_old_search :
  last (sent (go HostConsole.People
    [Answered 0 (grants both); Press_ (EditPerson 0 (Some (js "Anne")) (Some (js "ann"))); Press_ (SearchPeople (js "bo"));
     Answered 1 (grants [bob]); Answered 0 (grants [])])) = Some (ListPeople [] None).
Proof. vm_compute. done. Qed.

(** The limit 0 removes the limit. *)
Example zero_limit_removes :
  last (sent (go HostConsole.Settings [Answered 0 (grants []); Press_ (TypeAi Limit (js "0")); Press_ SaveLimit])) = Some (SaveAiLimit None).
Proof. vm_compute. done. Qed.

(** Saving before the stored settings were read, or after reading them failed,
    empties the address and both models. *)
Example unread_settings_overwritten :
  last (sent (go HostConsole.Settings [Answered 0 (refuses (js "busy")); Press_ (TypeAi ApiKey (js "k")); Press_ SaveAi])) =
  Some (SaveAiSettings (mkAiRequest None [] (Some (js "k")) None [])).
Proof. vm_compute. done. Qed.

(** A preview that arrives after the page was left is never revoked. *)
Example late_preview_leaks :
  alive (go HostConsole.Files [Answered 0 (grants []); Press_ (ViewFile 0); Open HostConsole.People; Answered 0 (grants []); Open HostConsole.Files]) = [0%nat].
Proof. vm_compute. done. Qed.

(** The reset asks for the name in the box, saved or not; the Host compares with
    the one that is saved. *)
Example reset_asks_typed_name :
  exists s a l, page (go HostConsole.Settings [Press_ (TypeSchool (js "New name"))]) = SettingsPage s a l /\
    reset_prompt s = js "Type “New name” to confirm the reset".
Proof. vm_compute. by eexists _, _, _. Qed.

(** Settings that were saved are said to have failed when the state cannot be
    read afterwards. *)
Example saved_shown_as_failed :
  exists s a l, page (go HostConsole.Settings [Press_ SaveSettings; Answered 2 (grants []); Answered 2 (refuses (js "Locked"))]) = SettingsPage s a l /\
    s_message s = js "Locked".
Proof. vm_compute. by eexists _, _, _. Qed.

(** Just below a megabyte the size is shown as 1024.0 KB. *)
Example size_1024_KB : formatBytes 1048575 = js "1024.0 KB" /\ formatBytes 1048576 = js "1.0 MB" /\ formatBytes 1536 = js "1.5 KB".
Proof. vm_compute. done. Qed.
End HostRuns.
