(* ===== verification/SheetActions.v ===== *)
(** * Applying prepared actions to the sheet ([apps/teacher/src/UniverGradebook.tsx])

    What the component offers the assistant: a reading of the sheets, a preview
    that colours the cells an action would change, and the application of
    actions to the workbook.  Grades and assignments have requests of their own;
    here only columns and cells of the teacher's are written.  The spreadsheet
    component is the class [Grid], one worksheet at a time; positions are counted
    from 0. *)

From stdpp Require Import list.
From S2P Require Import Prelude JsString JsNumber JsValue Regex Locale Types GradebookIntent.
Import Cells Headers.
Local Open Scope Z_scope.

(** What is used of a worksheet.  [content] is what a cell holds, a formula or a
    value; [value_at] what reading its value gives, [formula_at] its formula;
    [locate] is the range of an address in text, which throws for one that the
    component does not accept. *)
Class Grid := {
  Worksheet : Type;
  max_rows : Worksheet -> Z;
  max_columns : Worksheet -> Z;
  insert_rows : Z -> Worksheet -> Worksheet;      (** after the last *)
  insert_columns : Z -> Worksheet -> Worksheet;
  content : Worksheet -> Z -> Z -> option WorkbookCellValue;
  value_at : Worksheet -> Z -> Z -> option WorkbookCellValue;
  formula_at : Worksheet -> Z -> Z -> jstr;
  set_value : Z -> Z -> WorkbookCellValue -> Worksheet -> Worksheet;
  background : Worksheet -> Z -> Z -> jstr;
  set_background : Z -> Z -> jstr -> Worksheet -> Worksheet;
  set_heading_style : Z -> Z -> Worksheet -> Worksheet;   (** bold, wrapped, in the middle *)
  set_width : Z -> Z -> Worksheet -> Worksheet;
  data_range : Worksheet -> (Z * Z) * (Z * Z);   (** rows, then columns, first and last *)
  range_text : (Z * Z) * (Z * Z) -> jstr;
  locate : Worksheet -> jstr -> outcome (option jstr) (Z * Z)
}.

(** ** Addresses and values *)

Section cells.
Context `{Locale}.
(** [/^([A-Z]{1,3})([1-9]\d{0,3})$/i] *)
Definition re_cell : re := seqs [RBegin; RCap 1 (between 1 3 (RSet is_letter)); RCap 2 re_row; REnd].
(** Column and row. *)
Definition columnIndexFromA1 (cell : jstr) : option (Z * Z) :=
  '(letters, ds) ← groups re_cell (trim cell);
  Some (column_value (to_upper letters) - 1, digits_value ds - 1).
End cells.
(** [Number(actual)] *)
Definition number_of (v : option WorkbookCellValue) : jsnum :=
  match v with
  | Some (CellStr s) => number_of_string s
  | Some (CellNum n) => n
  | Some (CellBool b) => num (if b then 1 else 0)
  | Some CellNull | None => num 0
  end.
Definition cellValueMatches (expected : WorkbookCellValue) (actual : option WorkbookCellValue) : bool :=
  match expected, actual with
  | CellNull, (Some CellNull | None | Some (CellStr [])) => true
  | CellNull, _ => false
  | CellNum n, _ => num_eq (number_of actual) n
  | CellStr s, Some (CellStr t) => seqb s t
  | CellBool b, Some (CellBool c) => Bool.eqb b c
  | _, _ => false
  end.
Definition is_null (v : option WorkbookCellValue) : bool := match v with None | Some CellNull => true | _ => false end.

Section actions.
Context `{Locale} {G : Grid} (roster : list User) (assignments : list Assignment).

Record Book := mkBook { active : jstr; sheets_of : list (jstr * Worksheet) }.
Definition GRADEBOOK : jstr := js "Gradebook".
Definition sheet_named (name : jstr) (b : Book) : option Worksheet := assoc name (sheets_of b).
Definition with_sheet (name : jstr) (s : Worksheet) (b : Book) : Book :=
  mkBook (active b) (map (fun e => if seqb (fst e) name then (fst e, s) else e) (sheets_of b)).
Definition student_row (id : jstr) : Z := find_index_Z (fun u => seqb (user_id u) id) roster.

(** ** What the assistant reads *)

Definition EMPTY_AI_CONTEXT : GradebookAiContext := mkContext GRADEBOOK [].
Definition positions (first count : Z) : list Z := map (fun i => first + Z.of_nat i) (seq 0 (Z.to_nat count)).
(** At most 100 rows and 50 columns of a sheet. *)
Definition sheet_context (e : jstr * Worksheet) : Sheet :=
  let '((startRow, endRow), (startColumn, endColumn)) := data_range (snd e) in
  let rowCount := Z.min (endRow - startRow + 1) 100 in
  let columnCount := Z.min (endColumn - startColumn + 1) 50 in
  mkSheet (fst e) (range_text ((startRow, startRow + rowCount - 1), (startColumn, startColumn + columnCount - 1)))
    (map (fun r => map (fun c => default CellNull (value_at (snd e) r c)) (positions startColumn columnCount)) (positions startRow rowCount)).
(** The sheet is not there until the component is open. *)
Definition getAiContext (b : option Book) : GradebookAiContext :=
  match b with Some b => mkContext (active b) (map sheet_context (sheets_of b)) | None => EMPTY_AI_CONTEXT end.

(** ** Columns of the teacher *)

Definition firstCustomColumn : Z := Z.of_nat (length assignments) + 2.
Definition headers (s : Worksheet) : list (Z * option WorkbookCellValue) :=
  map (fun c => (c, value_at s 0 c)) (positions 0 (max_columns s)).
Definition folded (v : jstr) : jstr := to_lower (trim v).
(** The column and, when there was none, the wider sheet; -1 for none. *)
Definition customColumnFor (s : Worksheet) (title : jstr) (create : bool) : Z * Worksheet :=
  let existing := find_index_Z (fun h => (firstCustomColumn <=? fst h) && seqb (folded (cell_text (snd h))) (folded title)) (headers s) in
  if 0 <=? existing then (existing, s) else
  let blank := find_index_Z (fun h => (firstCustomColumn <=? fst h) && is_null (snd h)) (headers s) in
  if (0 <=? blank) || negb create then (blank, s) else
  (max_columns s - 1 + 1, insert_columns 10 s).

(** ** Preview *)

Definition Key : Type := jstr * (Z * Z).
(** The colours before, in the order in which the cells were coloured. *)
Record Preview := mkPreview { book : Book; previewed : list (Key * jstr) }.
Definition same_key (a b : Key) : bool := bool_decide (a = b).
Definition HIGHLIGHT : jstr := js "#ffe0cc".
Definition WHITE : jstr := js "#ffffff".
Definition colour (k : Key) (c : jstr) (b : Book) : Book :=
  match sheet_named (fst k) b with
  | Some s => with_sheet (fst k) (set_background (fst (snd k)) (snd (snd k)) c s) b
  | None => b
  end.
Definition clearPreview (p : Preview) : Preview :=
  mkPreview (fold_left (fun b e => colour (fst e) (or_str (snd e) WHITE) b) (previewed p) (book p)) [].
Definition within (s : Worksheet) (row column : Z) : bool := negb ((row <? 0) || (column <? 0) || (max_rows s <=? row) || (max_columns s <=? column)).
Definition highlight (name : jstr) (row column : Z) (p : Preview) : Preview :=
  match sheet_named name (book p) with
  | Some s =>
    if within s row column then
      let k := (name, (row, column)) in
      mkPreview (colour k HIGHLIGHT (book p))
        (if existsb (fun e => same_key (fst e) k) (previewed p) then previewed p else previewed p ++ [(k, background s row column)])
    else p
  | None => p
  end.
Definition preview_action (a : GradebookAction) (p : Preview) : Preview :=
  match a with
  | SetGrade student assignment _ =>
    let row := student_row student in
    let column := find_index_Z (fun x => seqb (assignment_id x) assignment) assignments in
    if (0 <=? row) && (0 <=? column) then highlight GRADEBOOK (row + 1) (column + 2) p else p
  | UpdateAssignment id _ _ =>
    match find (fun x => seqb (assignment_id x) id) assignments with
    | Some x => highlight GRADEBOOK 0 (findGradebookAssignmentColumn x assignments (Some (getAiContext (Some (book p))))) p
    | None => p
    end
  | AddColumn title _ values =>
    match sheet_named GRADEBOOK (book p) with
    | Some s =>
      let column := fst (customColumnFor s title false) in
      if 0 <=? column then
        fold_left (fun p v => let row := student_row (fst v) in if 0 <=? row then highlight GRADEBOOK (row + 1) column p else p) values
          (highlight GRADEBOOK 0 column p)
      else p
    | None => p
    end
  | SetCell sheet cell _ =>
    match columnIndexFromA1 cell with Some (column, row) => highlight sheet row column p | None => p end
  end.
Definition showPreview (actions : list GradebookAction) (p : Preview) : Preview :=
  fold_left (fun p a => preview_action a p) (take 100 actions) (clearPreview p).

(** ** Application *)

(** One action: the book it leaves, whether it counts as applied, and what is
    said of it. *)
Record Result := mkResult { after_ : Book; counted : bool; said : list jstr }.
Definition msg_no_gradebook (title : jstr) : jstr := js "Could not add “" ++ title ++ js "”: Gradebook is missing.".
Definition msg_not_written (title : jstr) : jstr := js "the “" ++ title ++ js "” header was not written".
Definition msg_unverified (title : jstr) (n : Z) : jstr := js "Added “" ++ title ++ js "”, but " ++ show_Z n ++ js " value(s) could not be verified.".
Definition msg_invalid (sheet cell : jstr) : jstr := js "Skipped invalid cell " ++ sheet ++ js "!" ++ cell ++ js ".".
Definition msg_protected (cell : jstr) : jstr :=
  js "Skipped protected Gradebook cell " ++ cell ++ js "; assignment headings and grades require their audited actions.".
Definition msg_not_held (sheet cell : jstr) : jstr := sheet ++ js "!" ++ cell ++ js " did not contain the requested value".
(** [catch]: the message of an [Error], or nothing more. *)
Definition failed (type : jstr) (m : option jstr) : jstr :=
  js "Could not apply " ++ type ++ match m with Some m => js ": " ++ m ++ js "." | None => js "." end.
Definition heading_title (title : jstr) : jstr := slice_to 80 (trim title).
Definition write_heading (column : Z) (title : jstr) (s : Worksheet) : Worksheet :=
  set_width column 190 (set_heading_style 0 column (set_background 0 column (js "#f0e7de") (set_value 0 column (CellStr title) s))).
Definition write_values (column : Z) (values : list (jstr * WorkbookCellValue)) (s : Worksheet) : Worksheet * Z :=
  fold_left (fun '(s, failures) v =>
    let row := student_row (fst v) in
    if row <? 0 then (s, failures + 1) else
    let s := set_value (row + 1) column (snd v) s in
    (s, if cellValueMatches (snd v) (value_at s (row + 1) column) then failures else failures + 1)) values (s, 0).
Definition add_column (title : jstr) (values : list (jstr * WorkbookCellValue)) (b : Book) : Result :=
  match sheet_named GRADEBOOK b with
  | None => mkResult b false [msg_no_gradebook title]
  | Some s =>
    let '(column, s) := customColumnFor s title true in
    let name := heading_title title in
    let s := write_heading column name s in
    if negb (seqb (cell_text (value_at s 0 column)) name)
    then mkResult (with_sheet GRADEBOOK s b) false [failed (js "add_column") (Some (msg_not_written name))]
    else
      let '(s, failures) := write_values column values s in
      mkResult (with_sheet GRADEBOOK s b) true (if failures =? 0 then [] else [msg_unverified name failures])
  end.
(** The sheet made large enough for a cell. *)
Definition grown (row column : Z) (s : Worksheet) : Worksheet :=
  let s := if max_columns s <=? column then insert_columns (column - max_columns s + 1) s else s in
  if max_rows s <=? row then insert_rows (row - max_rows s + 1) s else s.
Definition is_custom (t : option GradebookCellTarget) : bool := match t with Some (Custom _) => true | _ => false end.
Definition is_formula (v : WorkbookCellValue) : bool := match v with CellStr s => starts_with (js "=") s | _ => false end.
Definition verified (v : WorkbookCellValue) (row column : Z) (s : Worksheet) : bool :=
  match v with
  | CellStr f => if is_formula v then seqb (formula_at s row column) f else cellValueMatches v (value_at s row column)
  | _ => cellValueMatches v (value_at s row column)
  end.
Definition write_cell (sheet cell : jstr) (v : WorkbookCellValue) (s : Worksheet) (b : Book) : Result :=
  match locate s (to_upper cell) with
  | Ok (row, column) =>
    let s := set_value row column v s in
    let b := with_sheet sheet s b in
    if verified v row column s then mkResult b true [] else mkResult b false [failed (js "set_cell") (Some (msg_not_held sheet cell))]
  | Throw m => mkResult b false [failed (js "set_cell") m]
  end.
Definition set_cell (sheet cell : jstr) (v : WorkbookCellValue) (b : Book) : Result :=
  match sheet_named sheet b, columnIndexFromA1 cell with
  | Some s, Some (column, row) =>
    let s := grown row column s in
    let b := with_sheet sheet s b in
    if seqb sheet GRADEBOOK && negb (is_custom (resolveGradebookCellTarget cell roster assignments (Some (getAiContext (Some b)))))
    then mkResult b false [msg_protected cell]
    else write_cell sheet cell v s b
  | _, _ => mkResult b false [msg_invalid sheet cell]
  end.
Definition apply_action (a : GradebookAction) (b : Book) : Result :=
  match a with
  | SetGrade _ _ _ | UpdateAssignment _ _ _ => mkResult b false []
  | AddColumn title _ values => add_column title values b
  | SetCell sheet cell v => set_cell sheet cell v b
  end.
Record Applied := mkApplied { applied : Z; rejected : list jstr }.
Definition apply_step (x : Book * Applied) (a : GradebookAction) : Book * Applied :=
  let r := apply_action a (fst x) in
  (after_ r, mkApplied (applied (snd x) + (if counted r then 1 else 0)) (rejected (snd x) ++ said r)).
Definition apply_all (actions : list GradebookAction) (b : Book) : Book * Applied := fold_left apply_step actions (b, mkApplied 0 []).
(** The workbook is written to the storage of the browser afterwards. *)
Definition applyActions (actions : list GradebookAction) (b : option Book) : option Book * Applied :=
  match b with
  | None => (None, mkApplied 0 [js "The spreadsheet is not ready."])
  | Some b => let '(b, r) := apply_all (take 100 actions) b in (Some b, r)
  end.
(** Before the component is there. *)
Definition opening : Applied := mkApplied 0 [js "The spreadsheet is still opening."].
End actions.

(** ** What is relied on *)

Class GridLaws `{Locale} (G : Grid) : Prop := {
  content_set_other : forall s r c v r' c', (r, c) <> (r', c') -> content (set_value r c v s) r' c' = content s r' c';
  content_background : forall s r c x r' c', content (set_background r c x s) r' c' = content s r' c';
  content_heading : forall s r c r' c', content (set_heading_style r c s) r' c' = content s r' c';
  content_width : forall s n x r' c', content (set_width n x s) r' c' = content s r' c';
  content_rows : forall s n r' c', content (insert_rows n s) r' c' = content s r' c';
  content_columns : forall s n r' c', content (insert_columns n s) r' c' = content s r' c';
  columns_set : forall s r c v, max_columns (set_value r c v s) = max_columns s;
  columns_background : forall s r c x, max_columns (set_background r c x s) = max_columns s;
  columns_heading : forall s r c, max_columns (set_heading_style r c s) = max_columns s;
  columns_width : forall s n x, max_columns (set_width n x s) = max_columns s;
  columns_rows : forall s n, max_columns (insert_rows n s) = max_columns s;
  columns_columns : forall s n, 0 <= n -> max_columns (insert_columns n s) = max_columns s + n;
  background_same : forall s r c x, background (set_background r c x s) r c = x;
  background_other : forall s r c x r' c', (r, c) <> (r', c') -> background (set_background r c x s) r' c' = background s r' c';
  value_content : forall s r c v, content s r c = Some v -> is_formula v = false -> value_at s r c = Some v;
  data_range_start : forall s, content s 0 0 <> None -> exists er ec, data_range s = ((0, er), (0, ec)) /\ 0 <= er /\ 0 <= ec;
  locate_cell : forall s text column row p, columnIndexFromA1 text = Some (column, row) -> locate s (to_upper text) = Ok p -> p = (row, column)
}.

(** ** Lemmas *)

Module GridFacts.
Section facts.
Context `{L : Locale, !LocaleLaws L} {G : Grid} {GL : GridLaws G} (roster : list User) (assignments : list Assignment).

(** *** Addresses *)

Lemma filter_drop_while (p q : N -> bool) (s : jstr) : (forall c, p c = true -> q c = false) ->
  List.filter q (drop_while p s) = List.filter q s.
Proof.
  intros Hp. induction s as [|c s IH]; [done|]. unfold drop_while in *. cbn [span]. destruct (p c) eqn:E; [|done].
  cbn [List.filter]. rewrite (Hp c E), <- IH. by destruct (span p s).
Qed.
Lemma filter_trim (q : N -> bool) s : (forall c, is_space c = true -> q c = false) -> List.filter q (trim s) = List.filter q s.
Proof.
  intros Hq. unfold trim, trim_start, trim_end.
  rewrite List.filter_rev, filter_drop_while, List.filter_rev, rev_involutive by done. by apply filter_drop_while.
Qed.
Definition mixed_letters (l : jstr) : Prop := forallb is_letter l = true /\ (1 <= length l <= 3)%nat.
Lemma cell_sound x l d : groups re_cell x = Some (l, d) -> x = l ++ d /\ mixed_letters l /\ is_row d.
Proof.
  apply two_groups_sound; [|apply re_row_sound]. intros u v (w & ? & ? & ? & ?)%matches_between_set; [|lia].
  exists w. unfold mixed_letters. auto.
Qed.
Lemma upper_letters l d : mixed_letters l -> is_row d -> to_upper l = ascii_upper <$> l /\ to_upper (l ++ d) = (ascii_upper <$> l) ++ d /\ is_letters (ascii_upper <$> l).
Proof.
  intros [Hl Hn] [Hd _]%is_row_digits. rewrite forallb_Forall in Hl, Hd.
  assert (Ha : Forall (fun c => is_ascii c = true) l) by (eapply Forall_impl; [exact Hl|]; cbn; intros; char_lia).
  assert (Hb : Forall (fun c => is_ascii c = true) d) by (eapply Forall_impl; [exact Hd|]; cbn; intros; char_lia).
  split_and!.
  - apply to_upper_ascii. by apply forallb_Forall.
  - rewrite to_upper_ascii by (apply forallb_Forall, Forall_app; done). rewrite fmap_app. f_equal.
    rewrite <- (list_fmap_id d) at 2. apply list_fmap_ext. intros i c Hc. rewrite Forall_lookup in Hd. apply Hd in Hc.
    assert (is_lower c = false) as E by char_lia. unfold ascii_upper, id. by rewrite E.
  - split; [|by rewrite length_fmap]. apply forallb_Forall, Forall_fmap. eapply Forall_impl; [exact Hl|]. cbn. intros c Hc.
    unfold ascii_upper. destruct (is_lower c) eqn:E; char_lia.
Qed.
Lemma cell_address cell column row : columnIndexFromA1 cell = Some (column, row) ->
  exists loc, parseCellAddress cell = Some loc /\ Cells.column loc = column /\ Cells.row loc = row.
Proof.
  unfold columnIndexFromA1. destruct (groups re_cell (trim cell)) as [[l d]|] eqn:E; [|done]. cbn. intros [= <- <-].
  apply cell_sound in E as (Et & Hl & Hd). destruct (upper_letters l d Hl Hd) as (E1 & E2 & Hu).
  assert (Ec : compact_address cell = (ascii_upper <$> l) ++ d).
  { unfold compact_address. rewrite replace_chars_remove, <- E2. f_equal.
    rewrite <- filter_trim by (intros c ->; by rewrite orb_true_r). rewrite Et. apply List.forallb_filter_id, forallb_Forall.
    apply Forall_app. split.
    - destruct Hl as [Hl _]. rewrite forallb_Forall in Hl. eapply Forall_impl; [exact Hl|]. cbn. intros; char_lia.
    - apply is_row_digits in Hd as [Hd _]. rewrite forallb_Forall in Hd. eapply Forall_impl; [exact Hd|]. cbn. intros; char_lia. }
  assert (En : normalizeCellAddress cell = Some ((ascii_upper <$> l) ++ d)).
  { unfold normalizeCellAddress. by rewrite Ec, standard_complete. }
  unfold parseCellAddress. rewrite En. cbn [mbind option_bind]. rewrite standard_complete by done. eexists. split; [done|]. cbn. by rewrite E1.
Qed.

(** *** The books *)

Lemma assoc_map (name key : jstr) (s : Worksheet) (l : list (jstr * Worksheet)) :
  assoc name (map (fun e => if seqb (fst e) key then (fst e, s) else e) l) =
  (if seqb key name then (fun _ => s) <$> assoc name l else assoc name l).
Proof.
  induction l as [|[k v] l IH]; cbn; [by destruct (seqb key name)|].
  destruct (seqb k key) eqn:E; cbn; rewrite IH; destruct (seqb k name) eqn:E'; try done.
  - apply seqb_eq in E as ->. by rewrite E'.
  - apply seqb_eq in E' as ->. destruct (seqb key name) eqn:E'; [|done]. apply seqb_eq in E' as ->. by rewrite seqb_refl in E.
Qed.
Lemma named_same name s s0 b : sheet_named name b = Some s0 -> sheet_named name (with_sheet name s b) = Some s.
Proof. unfold sheet_named, with_sheet. cbn. rewrite assoc_map, seqb_refl. by intros ->. Qed.
Lemma named_other name key s b : name <> key -> sheet_named name (with_sheet key s b) = sheet_named name b.
Proof. intros Hn. unfold sheet_named, with_sheet. cbn. rewrite assoc_map. by replace (seqb key name) with false by (symmetry; by apply seqb_neq). Qed.

(** *** What the context says of a sheet *)

Lemma context_sheet e : sheet_name (sheet_context e) = fst e.
Proof. unfold sheet_context. by destruct (data_range _) as [[? ?] [? ?]]. Qed.
Lemma context_values name b s : sheet_named name b = Some s ->
  sheet_values <$> find (fun x => seqb (sheet_name x) name) (map sheet_context (sheets_of b)) = Some (sheet_values (sheet_context (name, s))).
Proof.
  unfold sheet_named. induction (sheets_of b) as [|[k v] l IH]; cbn [assoc map find]; [done|]. rewrite context_sheet. cbn [fst].
  destruct (seqb k name) eqn:E; [|exact IH]. apply seqb_eq in E as ->. by intros [= ->].
Qed.
Lemma positions_at (count c : Z) : 0 <= c -> positions 0 count !! Z.to_nat c = if c <? count then Some c else None.
Proof.
  intros Hc. unfold positions. destruct (Z.ltb_spec c count).
  - apply list_lookup_fmap_Some. exists (Z.to_nat c). split; [lia|]. apply lookup_seq. lia.
  - apply lookup_ge_None_2. rewrite length_map, length_seq. lia.
Qed.
Lemma first_row s c : content s 0 0 <> None -> 0 <= c ->
  (row0 ← sheet_values (sheet_context (GRADEBOOK, s)) !! 0%nat; at_Z row0 c) = None \/
  (row0 ← sheet_values (sheet_context (GRADEBOOK, s)) !! 0%nat; at_Z row0 c) = Some (default CellNull (value_at s 0 c)).
Proof.
  intros H0 Hc. destruct (data_range_start s H0) as (er & ec & Er & ? & ?). unfold sheet_context. cbn [snd]. rewrite Er. cbn [sheet_values].
  change (0%nat) with (Z.to_nat 0). change (map ?f ?l) with (f <$> l). rewrite list_lookup_fmap, positions_at by done.
  replace (0 <? _) with true by lia. cbn [fmap option_fmap option_map mbind option_bind]. unfold at_Z.
  replace (c <? 0) with false by lia. rewrite list_lookup_fmap, positions_at by done. destruct (_ <? _); [by right|by left].
Qed.

(** *** What is out of reach *)

Definition guarded (r c : Z) : Prop :=
  0 <= r /\ 0 <= c /\ (c <= 1 \/ (c < firstCustomColumn assignments /\ r <= Z.of_nat (length roster))).
(** The headings of the assignments say so. *)
Definition headed (s : Worksheet) : Prop :=
  content s 0 0 <> None /\ firstCustomColumn assignments <= max_columns s /\
  forall c, 2 <= c < firstCustomColumn assignments ->
    exists h, content s 0 c = Some h /\ is_formula h = false /\ assignmentForHeader (Some h) assignments <> None.
Definition kept (s s' : Worksheet) : Prop :=
  max_columns s <= max_columns s' /\ forall r c, guarded r c -> content s' r c = content s r c.
#[export] Instance kept_preorder : PreOrder kept.
Proof.
  split; [by intros s|]. intros s1 s2 s3 [H1 H2] [H3 H4]. split; [lia|]. intros r c Hg. by rewrite H4, H2.
Qed.
Lemma headed_kept s s' : kept s s' -> headed s -> headed s'.
Proof.
  intros [H1 H2] (H3 & H4 & H5). split_and!; [|by etransitivity|].
  - rewrite H2; [done|]. unfold guarded. lia.
  - intros c Hc. rewrite H2; [by apply H5|]. unfold guarded. lia.
Qed.
Lemma no_header : assignmentForHeader None assignments = None.
Proof. unfold assignmentForHeader. by replace (truthy (parsed_title (parseAssignmentHeader None))) with false by (vm_compute; reflexivity). Qed.
(** A guarded cell is never one of the teacher's. *)
Lemma guarded_not_custom b s cell loc : sheet_named GRADEBOOK b = Some s -> headed s -> parseCellAddress cell = Some loc ->
  guarded (Cells.row loc) (Cells.column loc) ->
  is_custom (resolveGradebookCellTarget cell roster assignments (Some (getAiContext (Some b)))) = false.
Proof.
  intros Hs (H0 & _ & Hh) El (Hr & Hc & Hg). unfold resolveGradebookCellTarget. rewrite El. cbn [mbind option_bind].
  destruct (Z.leb_spec (Cells.column loc) 1) as [H1|H1]; [done|]. destruct Hg as [Hg|[Hg Hn]]; [lia|].
  assert (Ev : gradebookValues (Some (getAiContext (Some b))) = Some (sheet_values (sheet_context (GRADEBOOK, s)))).
  { unfold gradebookValues. cbn [mbind option_bind getAiContext sheets]. by apply context_values. }
  rewrite Ev. cbn [default from_option id]. destruct (first_row s (Cells.column loc) H0 Hc) as [E|E]; rewrite E.
  - rewrite no_header. replace (2 <=? Cells.column loc) with true by lia. unfold at_Z at 1. replace (Cells.column loc - 2 <? 0) with false by lia.
    destruct (assignments !! _) as [a|] eqn:Ea; [|apply lookup_ge_None in Ea; unfold firstCustomColumn in Hg; lia].
    replace (seqb (trim (cell_text None)) []) with true by done.
    destruct (_ =? 0) eqn:E0; [done|]. destruct (find _ roster); [done|]. unfold at_Z. replace (Cells.row loc - 1 <? 0) with false by lia.
    destruct (roster !! _) eqn:Eu; [done|]. apply lookup_ge_None in Eu. lia.
  - destruct (Hh (Cells.column loc)) as (h & Eh & Hf & Ha); [lia|]. rewrite (value_content s _ _ h Eh Hf). cbn [default from_option id].
    destruct (assignmentForHeader (Some h) assignments) as [a|]; [|done].
    destruct (_ =? 0) eqn:E0; [done|]. destruct (find _ roster); [done|]. unfold at_Z. replace (Cells.row loc - 1 <? 0) with false by lia.
    destruct (roster !! _) eqn:Eu; [done|]. apply lookup_ge_None in Eu. lia.
Qed.
End facts.
End GridFacts.

Module ReachFacts.
Import GridFacts.
Section reach.
Context `{L : Locale, !LocaleLaws L} {G : Grid} {GL : GridLaws G} (roster : list User) (assignments : list Assignment).
Local Abbreviation kept := (kept roster assignments).
Local Abbreviation headed := (headed assignments).
Local Abbreviation guarded := (guarded roster assignments).

Lemma kept_set s r c v : ~ guarded r c -> kept s (set_value r c v s).
Proof.
  intros Hn. split; [by rewrite columns_set|]. intros r' c' Hg. apply content_set_other. intros [= -> ->]. done.
Qed.
Lemma kept_heading s c title : firstCustomColumn assignments <= c -> kept s (write_heading c title s).
Proof.
  intros Hc. unfold write_heading. etransitivity; [apply (kept_set s 0 c (CellStr title))|].
  - unfold GridFacts.guarded. unfold firstCustomColumn in *. lia.
  - split; [by rewrite columns_width, columns_heading, columns_background|]. intros r' c' _.
    by rewrite content_width, content_heading, content_background.
Qed.
Lemma kept_grown r c s : kept s (grown r c s).
Proof.
  unfold grown. etransitivity.
  - instantiate (1 := if max_columns s <=? c then insert_columns (c - max_columns s + 1) s else s).
    destruct (Z.leb_spec (max_columns s) c); [|done]. split; [rewrite columns_columns; lia|]. intros. apply content_columns.
  - destruct (_ <=? r); [|done]. split; [by rewrite columns_rows|]. intros. apply content_rows.
Qed.
Lemma kept_values c values s : firstCustomColumn assignments <= c -> kept s (fst (write_values roster c values s)).
Proof.
  intros Hc. unfold write_values. generalize 0 at 2. revert s. induction values as [|v values IH]; intros s n; [done|]. cbn [fold_left].
  destruct (Z.ltb_spec (student_row roster (fst v)) 0) as [Hr|Hr]; [apply IH|]. etransitivity; [|apply IH].
  apply kept_set. unfold GridFacts.guarded. unfold firstCustomColumn in *. lia.
Qed.
Lemma find_index_Z_ok {A} (p : A -> bool) l : 0 <= find_index_Z p l -> exists x, l !! Z.to_nat (find_index_Z p l) = Some x /\ p x = true.
Proof.
  unfold find_index_Z. destruct (find_index p l) as [i|] eqn:E; [|lia]. intros _. rewrite Nat2Z.id. by apply find_index_Some in E.
Qed.
Lemma headers_at s i h : headers s !! i = Some h -> fst h = Z.of_nat i.
Proof.
  unfold headers, positions. rewrite map_map. intros (k & -> & Hk)%list_lookup_fmap_Some. apply lookup_seq in Hk as [-> _]. cbn. lia.
Qed.
Lemma custom_column s title : headed s -> let r := customColumnFor assignments s title true in
  firstCustomColumn assignments <= fst r /\ kept s (snd r).
Proof.
  intros (_ & Hm & _). unfold customColumnFor. set (e := find_index_Z _ (headers s)). destruct (Z.leb_spec 0 e) as [He|He].
  { destruct (find_index_Z_ok _ _ He) as (h & Eh & Hp). apply headers_at in Eh. bool_hyps. cbn. split; [lia|done]. }
  clear e He. set (e := find_index_Z _ (headers s)). destruct (Z.leb_spec 0 e) as [He|He]; cbn [orb negb].
  { destruct (find_index_Z_ok _ _ He) as (h & Eh & Hp). apply headers_at in Eh. bool_hyps. cbn. split; [lia|done]. }
  cbn [fst snd]. split; [lia|]. split; [rewrite columns_columns; lia|]. intros. apply content_columns.
Qed.

(** What an action leaves of the sheet of grades. *)
Definition leaves (s : Worksheet) (b : Book) : Prop := exists s', sheet_named GRADEBOOK b = Some s' /\ kept s s'.
Lemma leaves_with s s' s0 b : sheet_named GRADEBOOK b = Some s0 -> kept s s' -> leaves s (with_sheet GRADEBOOK s' b).
Proof. intros Hb Hk. exists s'. split; [by eapply named_same|done]. Qed.
Lemma leaves_add title values b s : sheet_named GRADEBOOK b = Some s -> headed s -> leaves s (after_ (add_column roster assignments title values b)).
Proof.
  intros Hb Hh. unfold add_column. rewrite Hb. destruct (custom_column s title Hh) as [Hc Hk].
  destruct (customColumnFor assignments s title true) as [c s1]. cbn [fst snd] in *.
  assert (H2 : kept s (write_heading c (heading_title title) s1)) by (etransitivity; [exact Hk|by apply kept_heading]).
  destruct (negb _); [by eapply leaves_with|]. pose proof (kept_values c values (write_heading c (heading_title title) s1) Hc) as H3.
  destruct (write_values roster c values _) as [s3 n]. cbn [after_ fst] in *. eapply leaves_with; [done|]. by etransitivity.
Qed.
Lemma leaves_set sheet cell v b s : sheet_named GRADEBOOK b = Some s -> headed s -> leaves s (after_ (set_cell roster assignments sheet cell v b)).
Proof.
  intros Hb Hh. unfold set_cell. destruct (sheet_named sheet b) as [s0|] eqn:E0; [|by exists s].
  destruct (columnIndexFromA1 cell) as [[c r]|] eqn:Ec; [|by exists s].
  destruct (decide (sheet = GRADEBOOK)) as [->|Hn].
  2:{ (* another sheet *)
      replace (seqb sheet GRADEBOOK) with false by (symmetry; by apply seqb_neq). cbn [andb].
      assert (Ho : forall x b', sheet_named GRADEBOOK b' = Some s -> leaves s (with_sheet sheet x b')).
      { intros x b' Hb'. exists s. split; [by rewrite named_other|done]. }
      unfold write_cell. destruct (locate _ _) as [[r' c']|m]; [|by apply Ho]. destruct (verified _ _ _ _); cbn [after_]; apply Ho;
        by rewrite named_other. }
  rewrite Hb in E0. injection E0 as <-. rewrite seqb_refl. cbn [andb]. set (s1 := grown r c s).
  assert (Hk : kept s s1) by apply kept_grown. assert (Hb1 : sheet_named GRADEBOOK (with_sheet GRADEBOOK s1 b) = Some s1) by by eapply named_same.
  destruct (is_custom _) eqn:Ei; cbn [negb]; [|by eapply leaves_with].
  unfold write_cell. destruct (locate s1 (to_upper cell)) as [[r' c']|m] eqn:El; [|by eapply leaves_with].
  assert (Hs : kept s (set_value r' c' v s1)).
  { etransitivity; [exact Hk|]. apply kept_set. intros Hg.
    destruct (cell_address cell c r Ec) as (loc & Eloc & Ecc & Err). rewrite <- Ecc, <- Err in Ec.
    assert (E : (r', c') = (Cells.row loc, Cells.column loc)) by (eapply locate_cell; [exact Ec|exact El]).
    injection E as -> ->. by rewrite (guarded_not_custom roster assignments _ s1 cell loc Hb1 (headed_kept roster assignments _ _ Hk Hh) Eloc Hg) in Ei. }
  destruct (verified _ _ _ _); cbn [after_]; by (eapply leaves_with; [exact Hb1|]).
Qed.
End reach.
End ReachFacts.

Module PreviewFacts.
Import GridFacts.
Section preview.
Context `{L : Locale, !LocaleLaws L} {G : Grid} {GL : GridLaws G} (roster : list User) (assignments : list Assignment).

(** A sheet that differs from [s0] in colours only, by [l] of what they were. *)
Definition recoloured (name : jstr) (l : list (Key * jstr)) (s0 s : Worksheet) : Prop :=
  (forall r c, content s r c = content s0 r c) /\
  (forall r c, (name, (r, c)) ∉ map fst l -> background s r c = background s0 r c) /\
  (forall r c o, ((name, (r, c)), o) ∈ l -> o = background s0 r c).
Definition traced (b0 : Book) (p : Preview) : Prop :=
  NoDup (map fst (previewed p)) /\
  forall name s0, sheet_named name b0 = Some s0 ->
    exists s, sheet_named name (book p) = Some s /\ recoloured name (previewed p) s0 s.

Lemma coloured name k x b s : sheet_named name b = Some s ->
  sheet_named name (colour k x b) = Some (if seqb (fst k) name then set_background (fst (snd k)) (snd (snd k)) x s else s).
Proof.
  intros Hs. unfold colour. destruct (seqb (fst k) name) eqn:E.
  - apply seqb_eq in E as ->. rewrite Hs. by eapply named_same.
  - apply seqb_neq in E. destruct (sheet_named (fst k) b); [|done]. by rewrite named_other.
Qed.
Lemma seen k l : existsb (fun e : Key * jstr => same_key (fst e) k) l = true <-> k ∈ map fst l.
Proof.
  rewrite existsb_exists, list_elem_of_fmap. unfold same_key. setoid_rewrite bool_decide_eq_true. split.
  - intros (e & He & <-). exists e. split; [done|]. by apply list_elem_of_In.
  - intros (e & -> & He). exists e. split; [by apply list_elem_of_In|done].
Qed.
Lemma traced_highlight b0 name r c p : traced b0 p -> traced b0 (highlight name r c p).
Proof.
  intros [Hd Ht]. unfold highlight. destruct (sheet_named name (book p)) as [s|] eqn:Es; [|done].
  destruct (within s r c); [|done]. set (k := (name, (r, c))).
  destruct (existsb (fun e => same_key (fst e) k) (previewed p)) eqn:Ek.
  - split; [done|]. intros name' s0 H0. destruct (Ht name' s0 H0) as (s' & Es' & H1 & H2 & H3). cbn [book previewed].
    eexists. split; [by apply coloured|]. apply seen in Ek. destruct (seqb (fst k) name') eqn:En; [|done]. apply seqb_eq in En as <-.
    split_and!; [intros; by rewrite content_background| |done]. intros r' c' Hn. rewrite background_other; [by apply H2|].
    intros [= <- <-]. by apply Hn.
  - assert (Hk : k ∉ map fst (previewed p)) by (rewrite <- seen; by rewrite Ek).
    split; cbn [book previewed].
    + rewrite map_app. apply NoDup_app. split; [done|]. split; [|by apply NoDup_singleton].
      intros x Hx ->%list_elem_of_singleton. done.
    + intros name' s0 H0. destruct (Ht name' s0 H0) as (s' & Es' & H1 & H2 & H3). eexists. split; [by apply coloured|].
      destruct (seqb (fst k) name') eqn:En.
      * apply seqb_eq in En. cbn in En. subst name'. rewrite Es in Es'. injection Es' as <-.
        split_and!; [intros; by rewrite content_background| |].
        -- intros r' c' Hn. rewrite map_app in Hn. rewrite not_elem_of_app in Hn. destruct Hn as [Hn Hm].
           rewrite background_other; [by apply H2|]. intros [= <- <-]. apply Hm. by left.
        -- intros r' c' o [Hin|[= -> -> ->]%list_elem_of_singleton]%elem_of_app; [by apply H3|by apply H2].
      * apply seqb_neq in En. split_and!; [done| |].
        -- intros r' c' Hn. apply H2. rewrite map_app, not_elem_of_app in Hn. tauto.
        -- intros r' c' o [Hin|[= -> -> -> ->]%list_elem_of_singleton]%elem_of_app; [by apply H3|done].
Qed.
Lemma traced_fold {A} b0 (f : Preview -> A -> Preview) l p : (forall x q, traced b0 q -> traced b0 (f q x)) -> traced b0 p -> traced b0 (fold_left f l p).
Proof. intros Hf. revert p. induction l as [|x l IH]; intros p Hp; [done|]. by apply IH, Hf. Qed.
Lemma traced_action b0 a p : traced b0 p -> traced b0 (preview_action roster assignments a p).
Proof.
  intros Hp. destruct a; cbn [preview_action].
  - destruct (_ && _); [by apply traced_highlight|done].
  - destruct (sheet_named _ _); [|done]. destruct (0 <=? _); [|done]. apply traced_fold; [|by apply traced_highlight].
    intros v q Hq. cbv zeta. destruct (0 <=? _); [by apply traced_highlight|done].
  - destruct (find _ _); [by apply traced_highlight|done].
  - destruct (columnIndexFromA1 _) as [[c r]|]; [by apply traced_highlight|done].
Qed.
(** Clearing gives every cell its colour back. *)
Lemma cleared l b name s : sheet_named name b = Some s -> NoDup (map fst l) ->
  exists s', sheet_named name (fold_left (fun b (e : Key * jstr) => colour (fst e) (or_str (snd e) WHITE) b) l b) = Some s' /\
    (forall r c, content s' r c = content s r c) /\
    (forall r c, (name, (r, c)) ∉ map fst l -> background s' r c = background s r c) /\
    (forall r c o, ((name, (r, c)), o) ∈ l -> background s' r c = or_str o WHITE).
Proof.
  revert b s. induction l as [|[k o] l IH]; intros b s Hs Hd.
  - exists s. split_and!; try done. by intros r c o H%elem_of_nil.
  - cbn [map fst] in Hd. apply NoDup_cons in Hd as [Hk Hd]. cbn [fold_left fst snd].
    destruct (IH (colour k (or_str o WHITE) b) _ (coloured name k _ b s Hs) Hd) as (s' & Es & H1 & H2 & H3).
    exists s'. split; [exact Es|]. destruct (seqb (fst k) name) eqn:En.
    + apply seqb_eq in En. destruct k as [n [r0 c0]]. cbn in En. subst n. split_and!.
      * intros r c. by rewrite H1, content_background.
      * intros r c Hn. cbn [map fst] in Hn. apply not_elem_of_cons in Hn as [Hne Hn]. rewrite H2 by done. apply background_other.
        cbn. congruence.
      * intros r c o' [[= -> -> ->]|Hin]%elem_of_cons; [|by apply H3]. rewrite H2 by done. apply background_same.
    + apply seqb_neq in En. split_and!; [done| |].
      * intros r c Hn. apply H2. cbn [map fst] in Hn. by apply not_elem_of_cons in Hn as [_ Hn].
      * intros r c o' [[= <- <-]|Hin]%elem_of_cons; [done|by apply H3].
Qed.
End preview.
End PreviewFacts.

Module AccountFacts.
Import GridFacts ReachFacts.
Section account.
Context `{L : Locale, !LocaleLaws L} {G : Grid} {GL : GridLaws G} (roster : list User) (assignments : list Assignment).
Definition is_write (a : GradebookAction) : bool := match a with AddColumn _ _ _ | SetCell _ _ _ => true | _ => false end.
Lemma leaves_all s l x : headed assignments s -> leaves roster assignments s (fst x) ->
  leaves roster assignments s (fst (fold_left (apply_step roster assignments) l x)).
Proof.
  intros Hh. revert x. induction l as [|a l IH]; intros x (s1 & E1 & H1); [by exists s1|]. cbn [fold_left]. apply IH.
  assert (Hh1 : headed assignments s1) by by eapply headed_kept.
  assert (Hl : leaves roster assignments s1 (after_ (apply_action roster assignments a (fst x)))).
  { destruct a; cbn [apply_action after_]; [by exists s1|by apply leaves_add|by exists s1|by apply leaves_set]. }
  destruct Hl as (s2 & E2 & H2). exists s2. split; [exact E2|]. by etransitivity.
Qed.
(** Counted, or said, or both; nothing for a grade or an assignment. *)
Lemma accounted_one a b : let x := apply_action roster assignments a b in
  (length (said x) <= (if is_write a then 1 else 0))%nat /\ (counted x = true -> is_write a = true) /\
  (is_write a = true -> counted x = true \/ length (said x) = 1%nat).
Proof.
  destruct a; cbn [apply_action is_write]; [by auto| |by auto|].
  - unfold add_column. destruct (sheet_named _ _); [|cbn; auto]. destruct (customColumnFor _ _ _ _) as [c s]. destruct (negb _); [cbn; auto|].
    destruct (write_values _ _ _ _) as [s' n]. destruct (n =? 0); cbn; auto.
  - unfold set_cell. destruct (sheet_named _ _); [|cbn; auto]. destruct (columnIndexFromA1 _) as [[c r]|]; [|cbn; auto].
    destruct (_ && _); [cbn; auto|]. unfold write_cell. destruct (locate _ _) as [[? ?]|?]; [|cbn; auto]. destruct (verified _ _ _ _); cbn; auto.
Qed.
Lemma accounted l x : let r := snd (fold_left (apply_step roster assignments) l x) in
  let w := Z.of_nat (length (List.filter is_write l)) in
  applied (snd x) <= applied r <= applied (snd x) + w /\
  Z.of_nat (length (rejected r)) <= Z.of_nat (length (rejected (snd x))) + w <= Z.of_nat (length (rejected r)) + (applied r - applied (snd x)).
Proof.
  cbv zeta. revert x. induction l as [|a l IH]; intros x; [cbn; lia|]. cbn [fold_left]. specialize (IH (apply_step roster assignments x a)).
  destruct (accounted_one a (fst x)) as (H1 & H2 & H3).
  assert (Ea : applied (snd (apply_step roster assignments x a)) =
    applied (snd x) + (if counted (apply_action roster assignments a (fst x)) then 1 else 0)) by done.
  assert (Er : length (rejected (snd (apply_step roster assignments x a))) =
    (length (rejected (snd x)) + length (said (apply_action roster assignments a (fst x))))%nat) by apply length_app.
  rewrite Ea, Er in IH. cbn [List.filter]. destruct (is_write a); cbn [length].
  - destruct H3 as [E|E]; [done|rewrite E in IH; lia|]. destruct (counted _); lia.
  - destruct (counted _); [by specialize (H2 eq_refl)|]. lia.
Qed.
End account.
End AccountFacts.

(** ** Claims *)

Section claims.
Context `{L : Locale, !LocaleLaws L} {G : Grid} {GL : GridLaws G} (roster : list User) (assignments : list Assignment).
Import GridFacts ReachFacts PreviewFacts AccountFacts.

(** C20. Whatever actions are applied, the names, the headings of the assignments and
    the grades of the roster on the sheet of grades hold what they held, as long
    as the headings are those of the assignments to begin with: only cells and
    columns of the teacher's are written. *)
Theorem grades_out_of_reach actions b s (Hs : sheet_named GRADEBOOK b = Some s) (Hh : headed assignments s) :
  exists b' s', fst (applyActions roster assignments actions (Some b)) = Some b' /\ sheet_named GRADEBOOK b' = Some s' /\
    forall r c, guarded roster assignments r c -> content s' r c = content s r c.
Proof.
  assert (He : leaves roster assignments s (fst (apply_all roster assignments (take 100 actions) b))).
  { unfold apply_all. apply leaves_all; [done|]. by exists s. }
  destruct He as (s' & E' & _ & Hk). unfold applyActions. destruct (apply_all _ _ _ _) as [b' r]. by exists b', s'.
Qed.

(** C34. A preview that is cleared leaves no trace: every sheet holds what it held,
    and every cell has the colour it had, except that one without a colour may
    be left explicitly white (a cell that was shown in the preview is). *)
Theorem preview_leaves_no_trace actions p name s (Hs : sheet_named name (book (clearPreview p)) = Some s) :
  exists s', sheet_named name (book (clearPreview (showPreview roster assignments actions p))) = Some s' /\
    forall r c, content s' r c = content s r c /\
      (background s' r c = background s r c \/ (background s r c = [] /\ background s' r c = WHITE)).
Proof.
  assert (Ht : traced (book (clearPreview p)) (showPreview roster assignments actions p)).
  { unfold showPreview. apply traced_fold; [intros; by apply traced_action|]. split; [by constructor|]. intros n s0 H0. exists s0.
    split; [exact H0|]. split; [done|]. split; [done|]. intros r c o Hin. by apply elem_of_nil in Hin. }
  destruct Ht as [Hd Ht]. destruct (Ht name s Hs) as (s1 & E1 & H1 & H2 & H3).
  destruct (cleared (previewed (showPreview roster assignments actions p)) _ name s1 E1 Hd) as (s2 & E2 & H4 & H5 & H6).
  exists s2. split; [exact E2|]. intros r c. split; [by rewrite H4|].
  destruct (decide ((name, (r, c)) ∈ map fst (previewed (showPreview roster assignments actions p)))) as [Hin|Hn].
  - apply list_elem_of_fmap in Hin as ([k o] & Ek & Hin). cbn in Ek. subst k. rewrite (H6 r c o Hin), (H3 r c o Hin).
    destruct (background s r c); [by right|by left].
  - left. by rewrite H5, H2.
Qed.

(** Every column and cell among the first hundred actions is counted or spoken
    of: what is not applied has its own message, and nothing else has. *)
Theorem actions_accounted actions b :
  let r := snd (applyActions roster assignments actions (Some b)) in
  let writes := Z.of_nat (length (List.filter is_write (take 100 actions))) in
  0 <= applied r <= writes /\ Z.of_nat (length (rejected r)) <= writes <= applied r + Z.of_nat (length (rejected r)).
Proof.
  pose proof (accounted roster assignments (take 100 actions) (b, mkApplied 0 [])) as Ha. cbn [snd applied rejected length] in Ha.
  unfold applyActions, apply_all. destruct (fold_left _ _ _) as [b' r]. cbn [snd] in *. lia.
Qed.
End claims.

(** ** A worksheet, and runs *)

Module SheetRuns.
(** Cells and colours by position; a formula reads as 0. *)
Record Plain := mkPlain { p_rows : Z; p_columns : Z; p_cells : Z -> Z -> option WorkbookCellValue; p_colours : Z -> Z -> jstr }.
Definition changed {A} (f : Z -> Z -> A) (r c : Z) (x : A) : Z -> Z -> A := fun r' c' => if (r' =? r) && (c' =? c) then x else f r' c'.
Lemma changed_other {A} (f : Z -> Z -> A) r c x r' c' : (r, c) <> (r', c') -> changed f r c x r' c' = f r' c'.
Proof. intros Hn. unfold changed. destruct (Z.eqb_spec r' r), (Z.eqb_spec c' c); try done. by subst. Qed.
#[local] Existing Instance ascii_locale.
#[export] Instance plain : Grid := {|
  Worksheet := Plain;
  max_rows := p_rows;
  max_columns := p_columns;
  insert_rows n s := mkPlain (p_rows s + n) (p_columns s) (p_cells s) (p_colours s);
  insert_columns n s := mkPlain (p_rows s) (p_columns s + n) (p_cells s) (p_colours s);
  content := p_cells;
  value_at s r c := match p_cells s r c with Some v => if is_formula v then Some (CellNum (num 0)) else Some v | None => None end;
  formula_at s r c := match p_cells s r c with Some (CellStr f) => if is_formula (CellStr f) then f else [] | _ => [] end;
  set_value r c v s := mkPlain (p_rows s) (p_columns s) (changed (p_cells s) r c (Some v)) (p_colours s);
  background := p_colours;
  set_background r c x s := mkPlain (p_rows s) (p_columns s) (p_cells s) (changed (p_colours s) r c x);
  set_heading_style _ _ s := s;
  set_width _ _ s := s;
  data_range s := ((0, Z.max 0 (p_rows s - 1)), (0, Z.max 0 (p_columns s - 1)));
  range_text _ := js "A1";
  locate _ t := match parseCellAddress t with Some l => Ok (Cells.row l, Cells.column l) | None => Throw None end
|}.
Lemma upper_idem c : ascii_upper (ascii_upper c) = ascii_upper c.
Proof. unfold ascii_upper. destruct (is_lower c) eqn:E; [|by rewrite E]. by replace (is_lower (c - 32)) with false by char_lia. Qed.
Lemma upper_kept c : negb ((ascii_upper c =? 36)%N || is_space (ascii_upper c)) = negb ((c =? 36)%N || is_space c).
Proof. unfold ascii_upper. destruct (is_lower c) eqn:E; [|done]. f_equal. char_lia. Qed.
Lemma upper_compact (t : jstr) : compact_address (ascii_upper <$> t) = compact_address t.
Proof.
  unfold compact_address. rewrite !replace_chars_remove. cbn [to_upper ascii_locale]. induction t as [|c t IH]; [done|].
  rewrite fmap_cons. cbn [List.filter]. rewrite upper_kept. destruct (negb _); [|exact IH]. by rewrite !fmap_cons, upper_idem, IH.
Qed.
#[export] Instance plain_laws : GridLaws plain.
Proof.
  split; try done.
  - intros s r c v r' c' Hn. by apply (changed_other (p_cells s)).
  - intros s r c x. cbn [background set_background plain p_colours]. unfold changed. by rewrite !Z.eqb_refl.
  - intros s r c x r' c' Hn. by apply (changed_other (p_colours s)).
  - intros s r c v E Hf. cbn [value_at content plain] in *. by rewrite E, Hf.
  - intros s _. eexists _, _. split; [done|]. lia.
  - intros s t column row p Hc. destruct (GridFacts.cell_address t column row Hc) as (loc & El & <- & <-).
    cbn [locate plain to_upper ascii_locale]. unfold parseCellAddress, normalizeCellAddress in *. rewrite upper_compact, El. by intros [= <-].
Qed.

(** Two students and two assignments; the column after them is free. *)
Definition roster : list User := [Fixture.ayaan; Fixture.daksh].
Definition works : list Assignment := [Fixture.poem; Fixture.essay].
Definition cells_of (below : option WorkbookCellValue) : Z -> Z -> option WorkbookCellValue :=
  changed (changed (changed (changed (changed (fun _ _ => None) 1 4 below) 0 3 (Some (CellStr (formatAssignmentHeader Fixture.essay))))
    0 2 (Some (CellStr (formatAssignmentHeader Fixture.poem)))) 0 1 (Some (CellStr (js "Username")))) 0 0 (Some (CellStr (js "Student"))).
Definition grades (below : option WorkbookCellValue) : Plain := mkPlain 42 12 (cells_of below) (fun _ _ => []).
Definition opened (below : option WorkbookCellValue) : Book := mkBook GRADEBOOK [(GRADEBOOK, grades below)].
Definition done_ (actions : list GradebookAction) (below : option WorkbookCellValue) : option Book * Applied :=
  applyActions roster works actions (Some (opened below)).
Definition sheet_of (b : option Book) : option Plain := b ← b; sheet_named GRADEBOOK b.

Lemma headed_grades : GridFacts.headed works (grades None).
Proof.
  split; [done|]. split; [vm_compute; done|]. intros c Hc. assert (c = 2 \/ c = 3) as [Ec|Ec] by (unfold firstCustomColumn in Hc; cbn in Hc; lia); subst c.
  - exists (CellStr (formatAssignmentHeader Fixture.poem)). split_and!; [done|done|]. vm_compute. done.
  - exists (CellStr (formatAssignmentHeader Fixture.essay)). split_and!; [done|done|]. vm_compute. done.
Qed.
Lemma grades_out_of_reach_witness :
  exists b' s', fst (done_ [AddColumn (js "Bonus") None [(js "s1", CellNum (num 3))]; SetCell GRADEBOOK (js "c2") (CellNum (num 20))] None) = Some b' /\
    sheet_named GRADEBOOK b' = Some s' /\
    forall r c, GridFacts.guarded roster works r c -> content s' r c = content (grades None) r c.
Proof.
  refine (grades_out_of_reach roster works [AddColumn (js "Bonus") None [(js "s1", CellNum (num 3))]; SetCell GRADEBOOK (js "c2") (CellNum (num 20))]
    (opened None) (grades None) eq_refl headed_grades).
Defined.
Lemma preview_leaves_no_trace_witness :
  exists s', sheet_named GRADEBOOK (book (clearPreview (showPreview roster works [SetCell GRADEBOOK (js "F2") (CellNum (num 1))]
      (mkPreview (opened None) [])))) = Some s' /\
    forall r c, content s' r c = content (grades None) r c /\
      (background s' r c = background (grades None) r c \/ (background (grades None) r c = [] /\ background s' r c = WHITE)).
Proof.
  exact (preview_leaves_no_trace roster works [SetCell GRADEBOOK (js "F2") (CellNum (num 1))] (mkPreview (opened None) []) GRADEBOOK (grades None) eq_refl).
Defined.

(** What is asked of a grade's cell is refused and of a free cell done. *)
Example cells_written :
  snd (done_ [SetCell GRADEBOOK (js "c2") (CellNum (num 20)); SetCell GRADEBOOK (js "f2") (CellStr (js "note"))] None) =
    mkApplied 1 [msg_protected (js "c2")] /\
  (s ← sheet_of (fst (done_ [SetCell GRADEBOOK (js "f2") (CellStr (js "note"))] None)); p_cells s 1 5) = Some (CellStr (js "note")).
Proof. vm_compute. done. Qed.

(** A refused cell has made the sheet larger all the same. *)
Example refused_cell_grows_sheet :
  snd (done_ [SetCell GRADEBOOK (js "A9999") CellNull] None) = mkApplied 0 [msg_protected (js "A9999")] /\
  (p_rows <$> sheet_of (fst (done_ [SetCell GRADEBOOK (js "A9999") CellNull] None))) = Some 9999.
Proof. vm_compute. done. Qed.

(** A column that has values but no heading is taken for a free one, and its
    values are written over. *)
Example unheaded_column_overwritten :
  (s ← sheet_of (fst (done_ [AddColumn (js "Bonus") None [(js "s1", CellNum (num 3))]] (Some (CellStr (js "kept"))))); p_cells s 1 4) = Some (CellNum (num 3)).
Proof. vm_compute. done. Qed.

(** A title of more than eighty characters is cut when it is written but not
    when it is looked for: the same column is added again. *)
Example long_title_adds_again :
  let t := replicate 81 97%N in
  (s ← sheet_of (fst (done_ [AddColumn t None []; AddColumn t None []] None)); p_cells s 0 5) = Some (CellStr (replicate 80 97%N)).
Proof. vm_compute. done. Qed.

(** A formula among the values of a column is written and then said not to be. *)
Example formula_value_unverified :
  let r := done_ [AddColumn (js "Bonus") None [(js "s1", CellStr (js "=1+1"))]] None in
  snd r = mkApplied 1 [msg_unverified (js "Bonus") 1] /\ (s ← sheet_of (fst r); p_cells s 1 4) = Some (CellStr (js "=1+1")).
Proof. vm_compute. done. Qed.
End SheetRuns.
